(* ===== verification/_CoqProject ===== *)
-Q . S2P
Prelude.v
GoStd.v
Errors.v
Identity.v
State.v
Aggregate.v
SemVer.v
Fence.v
RunFact.v
Continuity.v
Command.v
IdentityLease.v
Activation.v
Recovery.v
FactStore.v
RunStore.v
CommandStore.v
LeaseStore.v
RunJournal.v
RunRegistry.v
Sha256.v
Supervision.v
Json.v
JsonParse.v
Canonical.v
StrictJson.v
Payload.v
JsonCodec.v
EffectContract.v
EffectFact.v
EffectFlow.v
BudgetFact.v
EffectStore.v
EffectSafety.v
EffectLife.v
EffectRuns.v
EffectOutcomes.v
Dependency.v
Assembly.v
Binding.v
BindingCodec.v
Topology.v
Evidence.v
EvidenceCodec.v
EvidenceLedger.v
LedgerStore.v
LedgerSafety.v
LedgerOutcomes.v
LedgerHistory.v
BindingFact.v
BindingLife.v
BindingBuild.v
BindingStore.v
BindingSafety.v
BindingOutcomes.v
Interaction.v
ComponentPorts.v
Coordinator.v
CoordinatorSafety.v
CoordinatorStop.v
CoordinatorCheckpoint.v
CoordinatorSession.v
CoordinatorStore.v
FakeComponents.v
FoundationWiring.v
FoundationHistory.v
GovernanceFacts.v
GovernanceGateway.v
GovernanceSafety.v
GovernanceStore.v
GovernanceRuns.v
GovernanceHistory.v
