(* ===== verification/Prelude.v ===== *)
(** * Praxis Runtime: a verification library for the Go module
    ExecutionRuntime/runtime

    The Runtime admits an agent instance, activates it through a durable saga,
    linearizes commands and runs against an authoritative fact owner, fences
    replaced instances and supervises the running ones.  This library models the
    decision logic of that module: the packages core, admission, control, foundation,
    kernel, ports and the in-memory fact owners of fakes.

    ** Conventions

    A bare Go error is [result unit]; a pair (value, error) is [result A]; a
    method that changes its receiver is a program of the state monad [ST], whose
    state survives an error return.  uint64 and uint32 are [N] and int64 is [Z],
    each wrapped where the code adds.  A pointer that may be nil is an [option];
    a pointer that several maps share is an address into a heap (the leases of
    FactStore).  A dereference of nil is the error [GoPanic].  String enums keep
    a last constructor for every other string.  A mutex makes each method one
    atomic step; [Inductive] step relations compose the steps of many callers.

    ** The parts

    - GoStd: the standard library that the module calls (strings, hex, strconv,
      time, context); Sha256: crypto/sha256, executable, checked on the FIPS
      vectors.
    - Errors, Identity: core/errors.go, identity.go, digest.go, preconditions.go.
    - State, Aggregate: core/state.go and kernel/aggregate.go, the three
      dimensions of an instance's state and the aggregate that owns them.
    - SemVer: core/semver.go.  Fence: core/fence.go and effect.go.
      Canonical: core/canonical.go.  Continuity: core/continuity.go.
    - RunFact: core/run.go and control/run_fact.go.  RunJournal:
      kernel/run_journal.go, proved against the interface [RunFactPort] with its
      laws, which FactStore implements.  RunRegistry: kernel/run_registry.go.
    - Command: ports/command_v2.go.  IdentityLease: control/identity_lease.go.
    - Activation, Recovery: admission/activation.go and recovery.go.
    - FactStore: fakes/fact_store.go and activation_store.go, one state with all
      operations; RunStore, CommandStore and LeaseStore hold its theorems.
    - Supervision: kernel/supervision.go.
    - Dependency, Assembly: ports/common.go and assembly.go, plan validation and
      the binding of a plan to registered components.
    - Json: the part of encoding/json that the digests call: the documents of
      struct values, field by field, and the text that json.Marshal prints for
      them, with its treatment of invalid UTF-8; the offset of a time's zone is
      data of the host and the parameter [ZoneDatabase].
    - Payload: the value types of ports/binding_v2_types.go that effects use,
      with their validation in binding_v2_validate.go.
    - EffectContract: ports/effect_v2.go, intents, permits and receipts, their
      digests, and the check at the execution point.
    - EffectFact: control/effect_fact_v2.go; EffectFlow: the specification of its
      two transition validators.  BudgetFact: control/budget_fact_v2.go.
    - EffectStore: fakes/effect_store_v2.go, the fact owner of effects, permits
      and budgets.  EffectSafety and EffectLife hold its theorems; EffectRuns and
      EffectOutcomes its successor states and concrete histories.
    - JsonParse: encoding/json read, its scanner, the values it delivers and the
      decoders of struct targets.  StrictJson: core/canonical.go's
      DecodeStrictJSON over the token decoder.
    - Binding: ports/binding_v2_types.go and binding_v2_validate.go, component
      manifests, governance catalogs, binding plans and grants, with their
      digests.  BindingCodec: their strict decoding, and the copy of a manifest
      through its encoding.  JsonCodec: what the codecs share, with the class
      [Codec] of types that are copied through their document and its laws
      [CodecLaws].
    - Topology, BindingFact: control/binding_fact_v2.go, the stable topological
      order and the facts, sets and attestations of component bindings.  BindingLife orders
      the lifecycle of a fact; BindingBuild proves the construction of a set.
    - BindingStore: fakes/binding_store_v2.go, the fact owner of bindings.
      BindingSafety holds its invariant and BindingOutcomes what it guarantees;
      its clients' histories are sequences of [BindingCall]s, any method on any
      arguments, that [binding_run] applies; the theorems on them ask for
      [faithful] calls, whose manifests are their own JSON copies and whose
      renewals' semantic digests identify the set.
    - Evidence: ports/evidence_v2.go, registrations of evidence sources, event
      candidates, chained records and tombstones; EvidenceCodec: their documents
      read back and cloneEvidenceV2.  EvidenceLedger: control/evidence_ledger_v2.go.
    - LedgerStore: the methods of fakes/evidence_ledger_v2.go on registrations,
      records and tombstones, as the step relation [ledger_step] over values
      whose strings are UTF-8 (others are stored changed).  LedgerSafety
      holds its invariant and the logs that it refines, LedgerOutcomes what its
      clients rely on, LedgerHistory a concrete history.
    - Interaction: programs that call ports, their complete and interrupted runs
      in an environment, and weakest preconditions over the calls.
    - ComponentPorts: the seams of ports/execution.go, infrastructure.go and
      component_domains.go that the coordinator calls.  Coordinator:
      foundation/coordinator.go, every lifecycle method as a program over these
      calls and the instance as the state that its methods pass on.
      CoordinatorSafety and CoordinatorStop order its effects,
      CoordinatorSession follows an instance through its calls,
      CoordinatorCheckpoint treats Checkpoint and Restore, and CoordinatorStore
      runs Activate against the fact store.
    - FakeComponents: fakes/components.go.  FoundationWiring: the coordinator on
      the fact store and these components, with one clock; FoundationHistory
      evaluates the scenarios of tests/foundation on it.
    - GovernanceFacts: ports/governance_v2.go, the facts that govern a dispatch
      and their currency checks.  GovernanceGateway:
      control/governance_gateway_v2.go, Issue and Begin as programs over the
      ports of the gateway, and the recovery planner.  GovernanceSafety treats
      them in any environment, GovernanceStore over the effect store with the
      steps of other callers in between; GovernanceRuns builds complete runs
      and GovernanceHistory follows one dispatch through them.

    ** The theorems

    - Aggregate: [Aggregate_invariant], [Aggregate_stale_preconditions],
      [Aggregate_revision_wrap], and [history_monotone] for the state machine.
    - Runs: [one_active_run], [run_cas_at_most_once], [lost_create_recoverable],
      [run_history_bounded], [ValidateRunFactTransition_iff];
      [finish_agreement], [finish_idempotent] and [claim_agreement] for the
      journal under interleaving; [registry_exclusive_and_live].
    - Leases and activation: [identity_lease_exclusive], [active_only_by_commit],
      [lease_history], [activation_history], [activation_journal_sound],
      [ValidateTransition_iff], and the recovery planner's
      [PlanRecovery_no_duplicate_effect], [PlanRecovery_continues_soundly],
      [PlanRecovery_total], [mark_aborted_accepted].
    - Commands: [command_log_consistent], [accept_idempotent].
    - Plans: [Resolve_sound], [Resolve_order_independent],
      [hasDependencyCycle_iff], [ResolvedAgentPlan_Validate_iff].
    - Supervision: [supervision_history], [supervision_never_idle],
      [fenced_or_expired_never_revives], [retryDelay_backoff],
      [quarantine_exits].
    - Effects: [effect_history], [dispatch_write_ahead], [begin_at_most_once],
      [conflict_exclusive], [unknown_settles_by_inspection], [lives_bounded],
      [create_idempotent], [issue_recoverable], [stuck_closure_occupies],
      [ValidateEffectFactTransitionV2_iff],
      [ValidateDispatchPermitTransitionV2_iff], [intent_digest_binds]; budgets:
      [budget_history].  Four histories show what the store does not check:
      [rejection_frees_held_domain], [dispatched_with_foreign_permit],
      [begun_with_earlier_receipt], [created_with_unsupported_closure].
    - Bindings: [manifest_digest_identity], [SealBindingPlanV2_spec],
      [ValidateManifestAgainstCatalogV2_iff], [DecodeStrictJSON_spec],
      [manifest_round_trip],
      [stableTopologicalOrderV2_least], [BuildBindingSetV2_sound];
      [binding_store_invariant], [binding_history],
      [CommitBindingSet_exactly_once], [RenewBindingSetV2_sound] for their store,
      and [ValidateBindingFactTransitionV2_iff].
    - Evidence: [ledger_refines_logs], [ledger_chain_tamper_evident],
      [append_exactly_once], [ledger_store_invariant], [watch_reads_log],
      [ledger_history].  [stored_record_drifts],
      [digest_ignores_invalid_bytes] and [registration_replay_refused] compute the
      limits of the store.
    - Coordinator: [Activate_write_ahead], [activation_crash_safe],
      [Activate_agrees], [instance_history], [Stop_protocol],
      [Checkpoint_two_phase], [Restore_isolates], each in every environment: the
      ports may answer anything of their reply's type.
    - Dispatch gateway: [Issue_governed] and [Begin_governed] in every
      environment, [governed_begin_once] and
      [PlanEffectRecoveryV2_reject_final] over the effect store;
      [recovery_accepts_foreign_permit] computes what the planner does not check.
    - Values: [replaced_instance_fenced], [CanonicalJSONDigest_injective],
      [print_parse], [parse_print], [CompareSemanticVersion_order].

    ** Fuel

    The doubling loop of retryDelay runs on 64 units of fuel, enough for any
    int64 ([retry_loop_closed]); the depth-first search on one more than the
    number of nodes ([visit_runs]); the pruning loop of Resolve on one more than
    the number of bound components ([prune_spec]); the topological order on one
    more than the number of components ([stable_order_cases]).  Running out of fuel is a
    value of its own in each, and the theorems show it is not reached.

    ** Map iteration

    Go does not specify the order of a range over a map.  The definitions that
    range over one take the order as an argument, and the theorems hold for
    every order that is a permutation of the keys.

    ** Not modelled

    Error texts and explanatory reason strings (supervision's are kept);
    ValidateOpaquePayload and the run claim gateways; json numbers with a
    fraction or an exponent as field values; the run-partitioned effect index;
    the sharing of two pointers that the copies of effect and budget facts keep
    (a settlement's domain result and a budget's lease), which are values here;
    foundation/run_v2.go, which drives the run settlement owner; contexts that
    are cancelled during a call of the coordinator, whose ports may answer with
    an error instead; the SQLite storage and the conformance suites (input and
    output); the registry of component factories; source policies and evidence
    subjects; review, evidence, settlement, operation and checkpoint governance, which
    extends the parts above; and the other modules of the repository, which are
    adjacent components behind the ports. *)

From stdpp Require Export prelude gmap strings list fin_maps sets pretty.
From Stdlib Require Export ZArith Lia.

(** The prelude: the error-result monad and the state monad the components are
    written in, fixed-width unsigned arithmetic, and the shared tactics. *)

(** ** Fixed-width integers *)

(** Go's uint64 and uint32 are [N]; every addition that can wrap is written
    with [wrap64]/[wrap32]. *)
Definition u64_modulus : N := 18446744073709551616%N.
Definition u32_modulus : N := 4294967296%N.
Definition wrap64 (n : N) : N := (n mod u64_modulus)%N.
Definition wrap32 (n : N) : N := (n mod u32_modulus)%N.
Definition u64_succ (n : N) : N := wrap64 (n + 1).
Definition is_u64 (n : N) : Prop := (n < u64_modulus)%N.
Definition is_u32 (n : N) : Prop := (n < u32_modulus)%N.
Definition max_u64 : N := 18446744073709551615%N.

(** Go's int64 (and time.Duration) is [Z], wrapped to two's complement. *)
Definition i64_half : Z := 9223372036854775808%Z.
Definition wrap_i64 (z : Z) : Z := ((z + i64_half) mod (2 * i64_half) - i64_half)%Z.
Definition is_i64 (z : Z) : Prop := (- i64_half <= z < i64_half)%Z.

Lemma u64_succ_small n : (n < max_u64)%N -> u64_succ n = (n + 1)%N.
Proof.
  unfold u64_succ, wrap64, u64_modulus, max_u64; intros; apply N.mod_small; lia.
Qed.

Lemma u64_succ_is_u64 n : is_u64 (u64_succ n).
Proof. unfold is_u64, u64_succ, wrap64, u64_modulus; apply N.mod_lt; lia. Qed.

Lemma u64_succ_max : u64_succ max_u64 = 0%N.
Proof. reflexivity. Qed.

Lemma u64_succ_ne n : is_u64 n -> u64_succ n <> n.
Proof.
  unfold is_u64; intros Hn.
  destruct (decide (n = max_u64)) as [-> | Hne].
  - by rewrite u64_succ_max.
  - rewrite u64_succ_small; [lia |].
    revert Hne; unfold u64_modulus, max_u64 in *; lia.
Qed.

Lemma u64_succ_nonzero n : is_u64 n -> u64_succ n <> 0%N -> u64_succ n = (n + 1)%N.
Proof.
  unfold is_u64; intros Hn Hz; apply u64_succ_small.
  destruct (decide (n = max_u64)) as [-> | Hne]; [by rewrite u64_succ_max in Hz |].
  revert Hne; unfold u64_modulus, max_u64 in *; lia.
Qed.

Lemma wrap_i64_id z : is_i64 z -> wrap_i64 z = z.
Proof.
  unfold is_i64, wrap_i64, i64_half; intros; rewrite Z.mod_small; lia.
Qed.

Lemma wrap_i64_range z : is_i64 (wrap_i64 z).
Proof.
  unfold is_i64, wrap_i64, i64_half.
  pose proof (Z.mod_pos_bound (z + 9223372036854775808) (2 * 9223372036854775808) ltac:(lia)).
  lia.
Qed.

(** ** Results *)

(** A Go pair (value, error) whose value is meaningless when the error is not
    nil; [error] is a parameter of the type so that the prelude stays generic. *)
Inductive outcome (E A : Type) : Type :=
| Ok (a : A)
| Err (e : E).
Arguments Ok {E A} a.
Arguments Err {E A} e.

#[export] Instance outcome_eq_dec `{EqDecision E, EqDecision A} : EqDecision (outcome E A).
Proof. solve_decision. Defined.

#[export] Instance outcome_ret E : MRet (outcome E) := fun A a => Ok a.
#[export] Instance outcome_bind E : MBind (outcome E) :=
  fun A B k m => match m with Ok a => k a | Err e => Err e end.

(** [reject_if b e] is the Go statement `if b { return e }`. *)
Definition reject_if {E} (b : bool) (e : E) : outcome E unit :=
  if b then Err e else Ok tt.

Definition is_ok {E A} (m : outcome E A) : bool :=
  match m with Ok _ => true | Err _ => false end.

(** `for _, x := range xs { if err := f(x); err != nil { return err } }`. *)
Fixpoint for_each {E A} (f : A -> outcome E unit) (xs : list A) : outcome E unit :=
  match xs with
  | [] => Ok tt
  | x :: rest => f x ;; for_each f rest
  end.

(** `for index, candidate := range order { if candidate == x { return index } }
    return -1` *)
Fixpoint index_from {A} `{EqDecision A} (x : A) (order : list A) (index : Z) : Z :=
  match order with
  | [] => -1
  | candidate :: rest => if decide (candidate = x) then index else index_from x rest (index + 1)
  end.

Lemma index_from_notin {A} `{EqDecision A} (x : A) order i : x ∉ order -> index_from x order i = (-1)%Z.
Proof.
  revert i; induction order as [| y order IH]; intros i Hx; [done |]; cbn.
  rewrite not_elem_of_cons in Hx. destruct Hx as [Hy Hx]. rewrite decide_False by done. by apply IH.
Qed.

Lemma index_from_range {A} `{EqDecision A} (x : A) order i :
  (0 <= i)%Z -> (-1 <= index_from x order i < i + Z.of_nat (length order))%Z \/ index_from x order i = (-1)%Z.
Proof.
  revert i; induction order as [| y order IH]; intros i Hi; cbn; [by right |].
  destruct (decide (y = x)); [left; lia |]. destruct (IH (i + 1)%Z ltac:(lia)) as [H | H]; [left; lia | by right].
Qed.

(** ** The state monad of Go methods with a receiver: the state survives an
    error return, as a mutated receiver does. *)
Definition ST (S E A : Type) : Type := S -> S * outcome E A.

#[export] Instance st_ret S E : MRet (ST S E) := fun A a s => (s, Ok a).
#[export] Instance st_bind S E : MBind (ST S E) :=
  fun A B k m s =>
    match m s with
    | (s', Ok a) => k a s'
    | (s', Err e) => (s', Err e)
    end.

Definition st_get {S E} : ST S E S := fun s => (s, Ok s).
Definition st_put {S E} (s : S) : ST S E unit := fun _ => (s, Ok tt).
Definition st_modify {S E} (f : S -> S) : ST S E unit := fun s => (f s, Ok tt).
Definition st_lift {S E A} (m : outcome E A) : ST S E A := fun s => (s, m).
Definition st_fail {S E A} (e : E) : ST S E A := fun s => (s, Err e).

Section result_lemmas.
Context {E : Type}.

Lemma bind_Ok {A B} (m : outcome E A) (k : A -> outcome E B) b :
  m ≫= k = Ok b <-> exists a, m = Ok a /\ k a = Ok b.
Proof. destruct m; cbn; split; [eauto | by intros (? & [= <-] & ?) | done | by intros (? & ? & ?)]. Qed.

Lemma bind_Err {A B} (m : outcome E A) (k : A -> outcome E B) e :
  m ≫= k = Err e <-> m = Err e \/ exists a, m = Ok a /\ k a = Err e.
Proof.
  destruct m; cbn; split;
    [by eauto | by intros [? | (? & [= <-] & ?)] | by intros [= ->]; left | by intros [[= ->] | (? & ? & ?)]].
Qed.

Lemma reject_if_Ok b (e : E) u : reject_if b e = Ok u <-> b = false.
Proof. by destruct b, u. Qed.

Lemma reject_if_Err b (e e' : E) : reject_if b e = Err e' <-> b = true /\ e = e'.
Proof. destruct b; cbn; split; [by intros [= ->] | by intros [_ ->] | done | by intros []]. Qed.

Lemma for_each_Ok {A} (f : A -> outcome E unit) xs u :
  for_each f xs = Ok u <-> Forall (fun x => f x = Ok tt) xs.
Proof.
  destruct u; induction xs as [| x xs IH]; cbn; [split; auto |].
  rewrite Forall_cons, <- IH. destruct (f x) as [[] |]; cbn.
  - split; [auto | by intros []].
  - by split; [| intros []].
Qed.

Lemma is_ok_true {A} (m : outcome E A) : is_ok m = true <-> exists a, m = Ok a.
Proof. destruct m; cbn; split; [eauto | done | done | by intros []]. Qed.
End result_lemmas.

Section state_lemmas.
Context {S E : Type}.

Lemma st_bind_eq {A B} (m : ST S E A) (k : A -> ST S E B) s :
  (m ≫= k) s = match m s with (s', Ok a) => k a s' | (s', Err e) => (s', Err e) end.
Proof. reflexivity. Qed.

Lemma st_bind_Ok {A B} (m : ST S E A) (k : A -> ST S E B) s s' b :
  (m ≫= k) s = (s', Ok b) <-> exists s1 a, m s = (s1, Ok a) /\ k a s1 = (s', Ok b).
Proof.
  rewrite st_bind_eq. destruct (m s) as [s1 [a | e]]; split.
  - eauto.
  - by intros (? & ? & [= <- <-] & ?).
  - done.
  - by intros (? & ? & ? & ?).
Qed.

Lemma st_bind_Err {A B} (m : ST S E A) (k : A -> ST S E B) s s' e :
  (m ≫= k) s = (s', Err e) <->
  m s = (s', Err e) \/ exists s1 a, m s = (s1, Ok a) /\ k a s1 = (s', Err e).
Proof.
  rewrite st_bind_eq. destruct (m s) as [s1 [a | e1]]; split.
  - eauto.
  - by intros [? | (? & ? & [= <- <-] & ?)].
  - intros [= <- <-]; auto.
  - by intros [[= <- <-] | (? & ? & ? & ?)].
Qed.

Lemma st_lift_Ok {A} (m : outcome E A) (s s' : S) a :
  st_lift m s = (s', Ok a) <-> s' = s /\ m = Ok a.
Proof. unfold st_lift; split; [by intros [= <- ->] | by intros [-> ->]]. Qed.

Lemma st_lift_Err {A} (m : outcome E A) (s s' : S) e :
  st_lift m s = (s', Err e) <-> s' = s /\ m = Err e.
Proof. unfold st_lift; split; [by intros [= <- ->] | by intros [-> ->]]. Qed.
End state_lemmas.

(** ** Tactics *)

(** Turn boolean guards into propositions. *)
Create Rewrite HintDb go_bool.
#[export] Hint Rewrite andb_true_iff andb_false_iff orb_true_iff orb_false_iff
  negb_true_iff negb_false_iff N.eqb_eq N.eqb_neq Z.eqb_eq Z.eqb_neq
  N.ltb_lt N.ltb_ge N.leb_le N.leb_gt Z.ltb_lt Z.ltb_ge Z.leb_le Z.leb_gt
  Nat.eqb_eq Nat.eqb_neq Nat.ltb_lt Nat.ltb_ge Nat.leb_le Nat.leb_gt
  bool_decide_eq_true bool_decide_eq_false : go_bool.

Ltac go_bool := autorewrite with go_bool in *.

(** Peel one successful bind, guard or loop off a hypothesis. *)
Ltac go_step :=
  match goal with
  | H : context [ Ok _ = Err _ ] |- _ => discriminate H
  | H : Ok _ = Err _ |- _ => discriminate H
  | H : Err _ = Ok _ |- _ => discriminate H
  | H : Ok ?a = Ok ?b |- _ => apply (f_equal (fun m => match m with Ok x => x | Err _ => a end)) in H; cbn in H; subst
  | H : mbind _ _ = Ok _ |- _ =>
      let a := fresh "r" in let H1 := fresh "Hm" in let H2 := fresh "Hk" in
      apply bind_Ok in H; destruct H as (a & H1 & H2); cbv beta in H2
  | H : reject_if _ _ = Ok _ |- _ => apply reject_if_Ok in H
  | r : unit |- _ => destruct r
  end.

Ltac go_inv := repeat go_step.

(** Case split on the scrutinee of the first match in the goal. *)
Ltac go_case :=
  match goal with
  | |- context [ match ?x with _ => _ end ] =>
      lazymatch x with context [ match _ with _ => _ end ] => fail | _ => destruct x eqn:? end
  end.

Ltac go_case_in H :=
  match type of H with
  | context [ match ?x with _ => _ end ] =>
      lazymatch x with context [ match _ with _ => _ end ] => fail | _ => destruct x eqn:? end
  end.

(** Decompose a run of a state-monad program that is a hypothesis: every bind,
    lift, read and write becomes an equation. *)
Ltac st_step :=
  match goal with
  | H : (mbind _ _) _ = (_, Ok _) |- _ =>
      let s := fresh "s" in let a := fresh "a" in let H1 := fresh "Hm" in let H2 := fresh "Hk" in
      apply st_bind_Ok in H; destruct H as (s & a & H1 & H2); cbv beta in H2
  | H : st_lift _ _ = (_, Ok _) |- _ => apply st_lift_Ok in H; destruct H as [-> H]
  | H : st_lift _ _ = (_, Err _) |- _ => apply st_lift_Err in H; destruct H as [-> H]
  | H : st_get _ = _ |- _ => unfold st_get in H; injection H as <- <-
  | H : st_put _ _ = _ |- _ => unfold st_put in H; injection H as <- <-
  | H : st_modify _ _ = _ |- _ => unfold st_modify in H; injection H as <- <-
  | H : st_fail _ _ = (_, Ok _) |- _ => discriminate H
  | H : mret _ _ = (_, _) |- _ => unfold mret, st_ret in H; injection H as <- <-
  | r : unit |- _ => destruct r
  end.

Ltac st_inv := repeat st_step.

(** Run a state-monad program that is a hypothesis to its end: every test on the
    way becomes a case with its equation. *)
Ltac st_unfold H :=
  cbv beta iota zeta delta [mbind st_bind mret st_ret st_lift st_get st_put st_modify st_fail] in H.

Ltac st_go := cbv beta iota zeta delta [mbind st_bind mret st_ret st_lift st_get st_put st_modify st_fail].

Ltac st_exec H :=
  repeat (st_unfold H;
    lazymatch type of H with
    | (_, _) = (_, _) => injection H as <- <-
    | _ => go_case_in H
    end).

(** Evaluate every [bool_decide] of the goal that the hypotheses settle. *)
Ltac go_decide :=
  repeat match goal with
  | |- context [ bool_decide ?P ] =>
      first [ rewrite (bool_decide_eq_true_2 P) by (first [reflexivity | assumption | congruence])
            | rewrite (bool_decide_eq_false_2 P) by (first [discriminate | assumption | congruence]) ]
  end.
