(* ===== verification/GoStd.v ===== *)
(** * What the Runtime uses of Go's standard library

    Executable models of the packages strings, encoding/hex, strconv, context
    and time, as far as ExecutionRuntime/runtime calls them.  A Go string is a
    [string] of bytes.  Nothing here models a file of the repository. *)

From stdpp Require Import sorting.
From S2P Require Import Prelude.
From Stdlib Require Import Ascii String.

Local Open Scope N_scope.

(** ** Bytes *)

Definition bytes (s : string) : list ascii := list_ascii_of_string s.
Definition of_bytes (l : list ascii) : string := string_of_list_ascii l.

Definition string_of_codes (l : list N) : string := of_bytes (map ascii_of_N l).

Lemma of_bytes_bytes s : of_bytes (bytes s) = s.
Proof. apply string_of_list_ascii_of_string. Qed.
Lemma bytes_of_bytes l : bytes (of_bytes l) = l.
Proof. apply list_ascii_of_string_of_list_ascii. Qed.
Lemma bytes_inj s t : bytes s = bytes t -> s = t.
Proof. intros H; rewrite <- (of_bytes_bytes s), <- (of_bytes_bytes t); by rewrite H. Qed.
Lemma bytes_app s t : bytes (s +:+ t) = (bytes s ++ bytes t)%list.
Proof. induction s as [| c s IH]; [done |]. unfold bytes in *; cbn; by rewrite <- IH. Qed.
Lemma bytes_length s : Datatypes.length (bytes s) = String.length s.
Proof. unfold bytes; induction s as [| c s IH]; cbn; [done | by rewrite IH]. Qed.

(** Go's [s < t] on strings: bytewise lexicographic. *)
Definition str_lt (s t : string) : bool :=
  match String.compare s t with Lt => true | _ => false end.

(** ** strings.TrimSpace

    The UTF-8 encodings of the code points of unicode.IsSpace. *)
Definition unicode_spaces : list (list ascii) :=
  map (map ascii_of_N)
    ([[9]; [10]; [11]; [12]; [13]; [32]; [194; 133]; [194; 160]; [225; 154; 128]]
      ++ map (fun n => [226; 128; n]) [128; 129; 130; 131; 132; 133; 134; 135; 136; 137; 138; 168; 169; 175]
      ++ [[226; 129; 159]; [227; 128; 128]])%list.

Fixpoint strip_prefix (p l : list ascii) : option (list ascii) :=
  match p, l with
  | [], _ => Some l
  | a :: p', b :: l' => if Ascii.eqb a b then strip_prefix p' l' else None
  | _ :: _, [] => None
  end.

Fixpoint strip_any (ps : list (list ascii)) (l : list ascii) : option (list ascii) :=
  match ps with
  | [] => None
  | p :: ps' => match strip_prefix p l with Some r => Some r | None => strip_any ps' l end
  end.

Fixpoint trim_front (ps : list (list ascii)) (fuel : nat) (l : list ascii) : list ascii :=
  match fuel with
  | O => l
  | S fuel' => match strip_any ps l with Some r => trim_front ps fuel' r | None => l end
  end.

Definition trim_left (l : list ascii) : list ascii :=
  trim_front unicode_spaces (Datatypes.length l) l.
Definition trim_right (l : list ascii) : list ascii :=
  rev (trim_front (map (@rev ascii) unicode_spaces) (Datatypes.length l) (rev l)).
Definition TrimSpace (s : string) : string := of_bytes (trim_right (trim_left (bytes s))).

Definition graphic_ascii (c : ascii) : bool := (33 <=? N_of_ascii c) && (N_of_ascii c <=? 126).

Definition heads_not_graphic (ps : list (list ascii)) : bool :=
  forallb (fun p => match p with a :: _ => negb (graphic_ascii a) | [] => false end) ps.

Lemma strip_any_graphic ps c l :
  heads_not_graphic ps = true -> graphic_ascii c = true -> strip_any ps (c :: l) = None.
Proof.
  intros Hps Hc; induction ps as [| [| a p] ps IH]; [done | done |].
  cbn in Hps |- *. apply andb_true_iff in Hps as [Ha Hps]. rewrite (IH Hps).
  destruct (Ascii.eqb a c) eqn:E; [| done].
  apply Ascii.eqb_eq in E as ->. by rewrite Hc in Ha.
Qed.

Lemma trim_front_graphic ps fuel l :
  heads_not_graphic ps = true -> strip_any ps [] = None ->
  Forall (fun c => graphic_ascii c = true) l -> trim_front ps fuel l = l.
Proof.
  intros Hps Hnil Hl; destruct fuel as [| fuel]; [done |]; cbn.
  destruct Hl as [| c l' Hc]; [by rewrite Hnil | by rewrite strip_any_graphic].
Qed.

Lemma TrimSpace_graphic s :
  Forall (fun c => graphic_ascii c = true) (bytes s) -> TrimSpace s = s.
Proof.
  intros Hs; unfold TrimSpace, trim_left, trim_right.
  rewrite (trim_front_graphic unicode_spaces) by done.
  rewrite trim_front_graphic; [| done | done | by apply Forall_rev].
  by rewrite rev_involutive, of_bytes_bytes.
Qed.

(** ** encoding/hex *)

Definition hex_val (c : ascii) : option N :=
  let n := N_of_ascii c in
  if (48 <=? n) && (n <=? 57) then Some (n - 48)
  else if (97 <=? n) && (n <=? 102) then Some (n - 87)
  else if (65 <=? n) && (n <=? 70) then Some (n - 55)
  else None.

(** hex.DecodeString; [None] is its error. *)
Fixpoint hex_decode (l : list ascii) : option (list N) :=
  match l with
  | [] => Some []
  | [_] => None
  | a :: b :: l' =>
      match hex_val a, hex_val b, hex_decode l' with
      | Some x, Some y, Some r => Some (16 * x + y :: r)
      | _, _, _ => None
      end
  end.

Definition hex_digit (n : N) : ascii :=
  ascii_of_N (if n <? 10 then n + 48 else n + 87).

(** hex.EncodeToString *)
Fixpoint hex_encode (bs : list N) : list ascii :=
  match bs with
  | [] => []
  | b :: bs' => hex_digit (b / 16) :: hex_digit (b mod 16) :: hex_encode bs'
  end.

Definition is_byte (b : N) : Prop := b < 256.

Lemma hex_val_digit n : n < 16 -> hex_val (hex_digit n) = Some n.
Proof.
  intros Hn. assert (n ∈ [0; 1; 2; 3; 4; 5; 6; 7; 8; 9; 10; 11; 12; 13; 14; 15]) as Hin.
  { rewrite !elem_of_cons; lia. }
  rewrite !elem_of_cons, elem_of_nil in Hin.
  destruct_or! Hin; subst; try done.
Qed.

Lemma hex_decode_encode bs : Forall is_byte bs -> hex_decode (hex_encode bs) = Some bs.
Proof.
  unfold is_byte; induction 1 as [| b bs Hb _ IH]; [done |]; cbn [hex_encode hex_decode].
  rewrite !hex_val_digit, IH.
  - do 2 f_equal. pose proof (N.div_mod b 16); lia.
  - by apply N.mod_lt.
  - apply N.Div0.div_lt_upper_bound; lia.
Qed.

Lemma hex_encode_length bs :
  Datatypes.length (hex_encode bs) = (2 * Datatypes.length bs)%nat.
Proof. induction bs as [| b bs IH]; cbn; lia. Qed.

Lemma hex_decode_length l bs :
  hex_decode l = Some bs -> Datatypes.length l = (2 * Datatypes.length bs)%nat.
Proof.
  revert l bs; fix IH 1; intros [| a [| b l]] bs; cbn.
  - by intros [= <-].
  - done.
  - destruct (hex_val a), (hex_val b), (hex_decode l) as [r |] eqn:Hr; try done.
    intros [= <-]; cbn; rewrite (IH _ _ Hr); lia.
Qed.

Lemma strip_prefix_Some p l r : strip_prefix p l = Some r -> l = (p ++ r)%list.
Proof.
  revert l; induction p as [| a p IH]; intros [| b l]; cbn; try by intros [= ->].
  destruct (Ascii.eqb a b) eqn:E; [| done]. apply Ascii.eqb_eq in E as ->. intros H.
  by rewrite (IH _ H).
Qed.

Lemma strip_prefix_app p r : strip_prefix p (p ++ r)%list = Some r.
Proof. induction p as [| a p IH]; [done |]. cbn. by rewrite Ascii.eqb_refl. Qed.

Lemma hex_decode_digits l bs : hex_decode l = Some bs -> Forall (fun c => hex_val c <> None) l.
Proof.
  revert l bs; fix IH 1; intros [| a [| b l]] bs; cbn; [constructor | done |].
  destruct (hex_val a) eqn:Ha, (hex_val b) eqn:Hb, (hex_decode l) as [r |] eqn:Hr; try done.
  intros _. repeat constructor; [by rewrite Ha | by rewrite Hb | by apply (IH l r)].
Qed.

Lemma hex_decode_total l n :
  Datatypes.length l = (2 * n)%nat -> Forall (fun c => hex_val c <> None) l ->
  exists bs, hex_decode l = Some bs /\ Datatypes.length bs = n.
Proof.
  revert l; induction n as [| n IH]; intros l Hl Hf.
  - apply length_zero_iff_nil in Hl as ->. by exists [].
  - destruct l as [| a [| b l]]; [done | cbn in Hl; lia |].
    apply Forall_cons in Hf as [Ha Hf]. apply Forall_cons in Hf as [Hb Hf].
    destruct (IH l) as (bs & Hbs & Hlen); [cbn in Hl; lia | done |].
    cbn. destruct (hex_val a), (hex_val b); try done. rewrite Hbs.
    eexists; split; [done | cbn; lia].
Qed.

(** ** strings.Split, strings.Join, strings.Count on a one-byte separator *)

Fixpoint split_on (sep : ascii) (l : list ascii) : list (list ascii) :=
  match l with
  | [] => [[]]
  | c :: l' =>
      if Ascii.eqb c sep then [] :: split_on sep l'
      else match split_on sep l' with
           | h :: t => (c :: h) :: t
           | [] => [[c]]
           end
  end.

(** strings.SplitN(s, sep, 2): the part before the first separator and, when
    there is one, the part after it. *)
Fixpoint split_first (sep : ascii) (l : list ascii) : list ascii * option (list ascii) :=
  match l with
  | [] => ([], None)
  | c :: l' =>
      if Ascii.eqb c sep then ([], Some l')
      else let '(h, t) := split_first sep l' in (c :: h, t)
  end.

Definition count_byte (sep : ascii) (l : list ascii) : nat :=
  Datatypes.length (filter (fun c => Ascii.eqb c sep = true) l).

Fixpoint join_with (sep : ascii) (parts : list (list ascii)) : list ascii :=
  match parts with
  | [] => []
  | [p] => p
  | p :: rest => (p ++ sep :: join_with sep rest)%list
  end.

Definition free_of (sep : ascii) (l : list ascii) : Prop := Forall (fun c => Ascii.eqb c sep = false) l.

Lemma split_on_nonempty sep l : split_on sep l <> [].
Proof. destruct l as [| c l]; cbn; [done |]. destruct (Ascii.eqb c sep); [done |]. by destruct (split_on sep l). Qed.

Lemma split_on_free sep l : free_of sep l -> split_on sep l = [l].
Proof. induction 1 as [| c l Hc _ IH]; cbn; [done |]. by rewrite Hc, IH. Qed.

Lemma split_on_app sep p l :
  free_of sep p -> split_on sep (p ++ sep :: l)%list = p :: split_on sep l.
Proof.
  induction 1 as [| c p Hc _ IH]; cbn.
  - by rewrite Ascii.eqb_refl.
  - by rewrite Hc, IH.
Qed.

Lemma split_join sep parts :
  parts <> [] -> Forall (free_of sep) parts -> split_on sep (join_with sep parts) = parts.
Proof.
  intros Hne Hf; induction Hf as [| p parts Hp Hps IH]; [done |].
  destruct parts as [| q parts]; cbn.
  - by apply split_on_free.
  - rewrite split_on_app by done. f_equal. by apply IH.
Qed.

Lemma join_split sep l : join_with sep (split_on sep l) = l.
Proof.
  induction l as [| c l IH]; [done |]; cbn.
  destruct (Ascii.eqb c sep) eqn:Hc.
  - apply Ascii.eqb_eq in Hc as ->. pose proof (split_on_nonempty sep l).
    destruct (split_on sep l); [done |]. cbn in *; by rewrite IH.
  - pose proof (split_on_nonempty sep l).
    destruct (split_on sep l) as [| h t]; [done |].
    destruct t; cbn in *; by rewrite <- IH.
Qed.

Lemma split_on_pieces sep l : Forall (free_of sep) (split_on sep l).
Proof.
  induction l as [| c l IH]; cbn; [by repeat constructor |].
  destruct (Ascii.eqb c sep) eqn:Hc; [by constructor; [constructor |] |].
  destruct (split_on sep l) as [| h t]; [by repeat constructor |].
  apply Forall_cons in IH as [Hh Ht]. constructor; [by constructor | done].
Qed.

Lemma split_first_free sep l : free_of sep l -> split_first sep l = (l, None).
Proof. induction 1 as [| c l Hc _ IH]; cbn; [done |]. by rewrite Hc, IH. Qed.

Lemma split_first_app sep p l :
  free_of sep p -> split_first sep (p ++ sep :: l)%list = (p, Some l).
Proof.
  induction 1 as [| c p Hc _ IH]; cbn.
  - by rewrite Ascii.eqb_refl.
  - by rewrite Hc, IH.
Qed.

Lemma split_first_spec sep l :
  match split_first sep l with
  | (h, None) => l = h /\ free_of sep h
  | (h, Some t) => l = (h ++ sep :: t)%list /\ free_of sep h
  end.
Proof.
  induction l as [| c l IH]; cbn; [by split; [| constructor] |].
  destruct (Ascii.eqb c sep) eqn:Hc.
  - apply Ascii.eqb_eq in Hc as ->. by split; [| constructor].
  - destruct (split_first sep l) as [h [t |]]; destruct IH as [-> ?]; split; try done; by constructor.
Qed.

Lemma count_byte_free sep l : free_of sep l -> count_byte sep l = 0%nat.
Proof.
  unfold count_byte; induction 1 as [| c l Hc _ IH]; [done |].
  rewrite filter_cons_False; [done |]. by rewrite Hc.
Qed.

Lemma count_byte_app sep l1 l2 :
  count_byte sep (l1 ++ l2)%list = (count_byte sep l1 + count_byte sep l2)%nat.
Proof. unfold count_byte. by rewrite filter_app, length_app. Qed.

Lemma count_byte_zero sep l : count_byte sep l = 0%nat -> free_of sep l.
Proof.
  unfold count_byte, free_of; induction l as [| c l IH]; [by constructor |].
  destruct (Ascii.eqb c sep) eqn:Hc.
  - rewrite filter_cons_True by done. done.
  - rewrite filter_cons_False by (by rewrite Hc). intros; constructor; auto.
Qed.

(** ** strconv: unsigned decimals *)

Definition is_digit (c : ascii) : bool := (48 <=? N_of_ascii c) && (N_of_ascii c <=? 57).
Definition digit_val (c : ascii) : N := N_of_ascii c - 48.
Fixpoint dec_value (acc : N) (l : list ascii) : N :=
  match l with
  | [] => acc
  | c :: l' => dec_value (acc * 10 + digit_val c) l'
  end.

(** strconv.ParseUint(s, 10, 64) on a string of digits: [None] on overflow or
    on a string that is not all digits. *)
Definition ParseUint (l : list ascii) : option N :=
  if negb (Nat.eqb (Datatypes.length l) 0) && forallb is_digit l then
    let v := dec_value 0 l in if v <=? max_u64 then Some v else None
  else None.

(** strconv.FormatUint(n, 10), and fmt's %d. *)
Definition FormatUint (n : N) : string := pretty n.
Definition format_bytes (n : N) : list ascii := bytes (FormatUint n).

Lemma pretty_N_char_digit n :
  n < 10 -> is_digit (pretty_N_char n) = true /\ digit_val (pretty_N_char n) = n
            /\ (n <> 0 -> pretty_N_char n <> "0"%char).
Proof.
  intros Hn. assert (n ∈ [0; 1; 2; 3; 4; 5; 6; 7; 8; 9]) as Hin by (rewrite !elem_of_cons; lia).
  rewrite !elem_of_cons, elem_of_nil in Hin. destruct_or! Hin; subst; try done.
Qed.

Lemma pretty_N_go_spec x s :
  exists pre, bytes (pretty_N_go x s) = (pre ++ bytes s)%list
    /\ forallb is_digit pre = true
    /\ (forall l, dec_value 0 (pre ++ l)%list = dec_value x l)
    /\ (0 < x -> exists c pre', pre = c :: pre' /\ c <> "0"%char).
Proof.
  revert s; induction (N.lt_wf_0 x) as [x _ IH]; intros s.
  destruct (decide (x = 0)) as [-> | Hx].
  { exists []. rewrite pretty_N_go_0. repeat split; done. }
  rewrite pretty_N_go_step by lia.
  destruct (IH (x / 10) ltac:(apply N.div_lt; lia) (String (pretty_N_char (x mod 10)) s))
    as (pre & Hb & Hd & Hv & Hz).
  destruct (pretty_N_char_digit (x mod 10) ltac:(apply N.mod_lt; lia)) as (Hdig & Hval & Hnz).
  exists (pre ++ [pretty_N_char (x mod 10)])%list. repeat split.
  - rewrite Hb, <- app_assoc. done.
  - by rewrite forallb_app, Hd; cbn; rewrite Hdig.
  - intros l. rewrite <- app_assoc, Hv. cbn. rewrite Hval. f_equal.
    pose proof (N.div_mod x 10); lia.
  - intros _. destruct (decide (x / 10 = 0)) as [Hq | Hq].
    + rewrite Hq in *. destruct pre as [| c pre].
      * exists (pretty_N_char (x mod 10)), []. split; [done |]. apply Hnz.
        pose proof (N.div_mod x 10); lia.
      * exfalso. rewrite pretty_N_go_0 in Hb.
        apply (f_equal (@Datatypes.length ascii)) in Hb. rewrite length_app, length_cons in Hb; lia.
    + destruct Hz as (c & pre' & -> & Hc); [by apply N.neq_0_lt_0 |]. by exists c, (pre' ++ [pretty_N_char (x mod 10)])%list.
Qed.

Lemma format_bytes_spec n :
  forallb is_digit (format_bytes n) = true /\ dec_value 0 (format_bytes n) = n
  /\ exists c l, format_bytes n = c :: l /\ (c = "0"%char -> l = []).
Proof.
  unfold format_bytes, FormatUint, pretty, pretty_N.
  case_decide as Hn; [subst; repeat split; by exists "0"%char, [] |].
  destruct (pretty_N_go_spec n "") as (pre & Hb & Hd & Hv & Hz).
  rewrite Hb. cbn. rewrite app_nil_r. repeat split; [done | |].
  - specialize (Hv []). by rewrite app_nil_r in Hv.
  - destruct Hz as (c & pre' & -> & Hc); [by apply N.neq_0_lt_0 |]. by exists c, pre'.
Qed.

Lemma ParseUint_format n : n <= max_u64 -> ParseUint (format_bytes n) = Some n.
Proof.
  intros Hn. destruct (format_bytes_spec n) as (Hd & Hv & c & l & Hl & _).
  unfold ParseUint. rewrite Hd, Hv, Hl. cbn.
  by apply N.leb_le in Hn as ->.
Qed.

(** ** time

    A time.Time is the instant, in nanoseconds since the zero time (year 1 UTC),
    and a tag for the rest of its representation (the location pointer and the
    monotonic clock reading).  Before, After, Equal and IsZero read the instant;
    Go's == compares the whole struct, which is the equality of the record. *)
Record Time := mkTime { instant : Z; rep : N }.
#[export] Instance Time_eq_dec : EqDecision Time.
Proof. solve_decision. Defined.

Definition Duration := Z.

Definition zeroTime : Time := {| instant := 0; rep := 0 |}.
Definition IsZero (t : Time) : bool := Z.eqb (instant t) 0.
Definition Before (t u : Time) : bool := Z.ltb (instant t) (instant u).
Definition After (t u : Time) : bool := Z.ltb (instant u) (instant t).
Definition TimeEqual (t u : Time) : bool := Z.eqb (instant t) (instant u).
(** t.Add(d); the instant is unbounded here, Go's spans 292 billion years. *)
Definition AddDuration (t : Time) (d : Duration) : Time :=
  {| instant := (instant t + d)%Z; rep := rep t |}.

(** time.Unix(0, n) and t.UnixNano(), which wraps outside 1678 to 2262. *)
Definition unix_epoch : Z := 62135596800000000000.
Definition UnixTime (n : Z) : Time := {| instant := unix_epoch + n; rep := 0 |}.
Definition UnixNano (t : Time) : Z := wrap_i64 (instant t - unix_epoch).

(** The clock readings for which UnixNano is exact. *)
Definition unix_range (t : Time) : Prop := is_i64 (instant t - unix_epoch).

Lemma UnixNano_exact t : unix_range t -> UnixNano t = (instant t - unix_epoch)%Z.
Proof. apply wrap_i64_id. Qed.

(** ** context.Context, as the store methods use it: nil, live, or done. *)
Inductive Context :=
| CtxNil
| CtxLive
| CtxCanceled
| CtxDeadlineExceeded.
#[export] Instance Context_eq_dec : EqDecision Context.
Proof. solve_decision. Defined.

(** ** Slices

    A slice is [None] when it is nil. *)

Definition slice_items {A} (s : option (list A)) : list A := default [] s.
#[global] Arguments slice_items : simpl never.

(** append([]T(nil), s...): an empty slice becomes nil. *)
Definition append_nil {A} (s : option (list A)) : option (list A) :=
  match s with Some [] => None | _ => s end.

(** sort.Slice by a string key. *)
Definition by_key {A} (key : A -> string) (x y : A) : Prop := String.le (key x) (key y).
#[export] Instance by_key_dec {A} (key : A -> string) x y : Decision (by_key key x y).
Proof. unfold by_key. apply _. Defined.
Definition sort_by {A} (key : A -> string) (l : list A) : list A := merge_sort (by_key key) l.

(** *** Sorting is a function of the contents *)

Section sorting.
Context {A : Type} (key : A -> string).

#[export] Instance by_key_trans : Transitive (by_key key).
Proof. intros x y z. unfold by_key. apply String.le_po. Qed.
#[export] Instance by_key_total : Total (by_key key).
Proof. intros x y. unfold by_key. apply String.le_total. Qed.

Lemma sort_by_Permutation l : sort_by key l ≡ₚ l.
Proof. apply merge_sort_Permutation. Qed.

Lemma map_NoDup_inj l x y : NoDup (map key l) -> x ∈ l -> y ∈ l -> key x = key y -> x = y.
Proof.
  induction l as [| a l IH]; cbn; [by rewrite elem_of_nil |].
  rewrite NoDup_cons, !elem_of_cons. intros [Ha Hn] [-> | Hx] [-> | Hy] Hk; try done.
  - destruct Ha. rewrite Hk. by apply list_elem_of_fmap_2.
  - destruct Ha. rewrite <- Hk. by apply list_elem_of_fmap_2.
  - by apply IH.
Qed.

(** With distinct keys every sorting algorithm gives the same list. *)
Lemma sort_by_unique l1 l2 : NoDup (map key l1) -> l1 ≡ₚ l2 -> sort_by key l1 = sort_by key l2.
Proof.
  intros Hn Hp. assert (forall l, StronglySorted (by_key key) (sort_by key l)) as Hs.
  { intros l. apply StronglySorted_merge_sort; apply _. }
  apply (StronglySorted_unique_strong (by_key key)); [| apply Hs | apply Hs |].
  - intros x y Hx Hy Hxy Hyx. rewrite sort_by_Permutation in Hx, Hy. rewrite <- Hp in Hy.
    apply (map_NoDup_inj l1); try done. by apply (anti_symm String.le).
  - by rewrite !sort_by_Permutation.
Qed.
End sorting.
