(* ===== verification/Errors.v ===== *)
(** * core/errors.go: categories, reason codes and domain errors

    A Go [error] returned by the Runtime is a [DomainError] (category and
    reason; callers branch on those two fields, so the free-text message is not
    kept), the error of a finished context, or an opaque error of code outside
    the module, such as an adapter.  [GoPanic] is not a Go error: it marks the
    runs that dereference a nil pointer, so that theorems can exclude them. *)

From S2P Require Import Prelude GoStd.

Inductive ErrorCategory :=
| ErrorInvalidArgument | ErrorUnauthenticated | ErrorForbidden | ErrorNotFound | ErrorConflict
| ErrorPreconditionFailed | ErrorCapabilityUnavailable | ErrorIndeterminate | ErrorRateLimited
| ErrorUnavailable | ErrorInternal.
#[export] Instance ErrorCategory_eq_dec : EqDecision ErrorCategory.
Proof. solve_decision. Defined.

Inductive ReasonCode :=
| ReasonInvalidReference | ReasonInvalidDigest | ReasonInvalidState | ReasonInvalidTransition
| ReasonTerminalInstance | ReasonFencedInstance | ReasonInspectCoverageIncomplete
| ReasonCleanupEvidenceIncomplete | ReasonCleanupRetractionMissing
| ReasonCleanupRetryUnauthorized | ReasonStaleIdentityEpoch | ReasonStaleInstanceEpoch
| ReasonStaleLeaseEpoch | ReasonStaleAuthorityEpoch | ReasonRevisionConflict
| ReasonAlreadyExists | ReasonIdempotencyPayloadMismatch | ReasonCommandDominated
| ReasonIdentityLeaseConflict | ReasonIdentityLeaseStateInvalid | ReasonStaleLeaseRevision
| ReasonActivationFactDrift | ReasonActivationAttemptConflict
| ReasonActivationQuarantineRequired | ReasonSupervisionPolicyMissing
| ReasonSupervisionPolicyDrift | ReasonLateSupervisionSignal | ReasonEffectIntentMissing
| ReasonEffectAuthorizationMissing | ReasonEffectFenceStale | ReasonEvidenceUnavailable
| ReasonEvidenceConflict | ReasonEvidenceSourceMissing | ReasonEvidenceSourceStale
| ReasonEvidenceSequenceGap | ReasonEvidenceTrustInvalid | ReasonEvidenceScopeConflict
| ReasonEvidenceCursorInvalid | ReasonEvidenceChainConflict
| ReasonOfflineRevocationPolicyMissing | ReasonRecoveryEffectNotPermitted | ReasonOwnerMissing
| ReasonPlanInvalid | ReasonComponentMissing | ReasonComponentMismatch
| ReasonCapabilityExpired | ReasonDependencyCycle | ReasonRunConflict | ReasonRunClaimConflict
| ReasonRunClaimUnverified | ReasonCheckpointInconsistent | ReasonCheckpointUnsupported
| ReasonRestoreIncompatible | ReasonReadyEvidenceIncomplete | ReasonInvalidCanonicalForm
| ReasonCanonicalLimitExceeded | ReasonDuplicateCanonicalKey | ReasonInvalidSemanticVersion
| ReasonInvalidNamespace | ReasonUnknownGovernanceCategory | ReasonUnknownCapability
| ReasonUnknownSchema | ReasonUnknownRequiredExtension | ReasonBindingExpired
| ReasonBindingDrift | ReasonBindingNotCertified | ReasonBindingSetConflict
| ReasonOwnerConflict | ReasonClockRegression | ReasonReviewVerdictMissing
| ReasonReviewVerdictStale | ReasonReviewCandidateConflict | ReasonReviewConditionUnsatisfied
| ReasonReviewRemoteEffectRequired | ReasonBudgetBindingMissing | ReasonBudgetBindingStale
| ReasonCredentialLeaseMissing | ReasonEffectStateConflict | ReasonEffectConflictDomainOccupied
| ReasonEffectUnknownOutcome | ReasonEffectSettlementMissing | ReasonSettlementOwnerMismatch
| ReasonDispatchPermitInvalid | ReasonDispatchPermitExpired | ReasonDispatchPermitConsumed
| ReasonProviderBindingStale | ReasonCompensationIncomplete | ReasonRemoteResidualUnresolved
| ReasonRunSettlementPlanConflict | ReasonRunSettlementRequirementInvalid
| ReasonRunEffectIndexConflict | ReasonRunEffectSetFrozen | ReasonRunSettlementClosureConflict
| ReasonRunSettlementParticipantMissing | ReasonRunSettlementParticipantStale
| ReasonExecutionInspectionInvalid | ReasonRunSettlementBlocked | ReasonRunCompletionConflict
| ReasonRunCompletionAtomicityBroken | ReasonTerminationProgressConflict
| ReasonTerminationReportIncomplete.

(** The string constants of the source. *)
Definition ErrorCategory_string (c : ErrorCategory) : string :=
  match c with
  | ErrorInvalidArgument => "invalid_argument"
  | ErrorUnauthenticated => "unauthenticated"
  | ErrorForbidden => "forbidden"
  | ErrorNotFound => "not_found"
  | ErrorConflict => "conflict"
  | ErrorPreconditionFailed => "precondition_failed"
  | ErrorCapabilityUnavailable => "capability_unavailable"
  | ErrorIndeterminate => "indeterminate"
  | ErrorRateLimited => "rate_limited"
  | ErrorUnavailable => "unavailable"
  | ErrorInternal => "internal"
  end.

Definition ReasonCode_string (r : ReasonCode) : string :=
  match r with
  | ReasonInvalidReference => "invalid_reference"
  | ReasonInvalidDigest => "invalid_digest"
  | ReasonInvalidState => "invalid_state"
  | ReasonInvalidTransition => "invalid_transition"
  | ReasonTerminalInstance => "terminal_instance"
  | ReasonFencedInstance => "fenced_instance"
  | ReasonInspectCoverageIncomplete => "inspect_coverage_incomplete"
  | ReasonCleanupEvidenceIncomplete => "cleanup_evidence_incomplete"
  | ReasonCleanupRetractionMissing => "cleanup_completion_retraction_missing"
  | ReasonCleanupRetryUnauthorized => "cleanup_retry_unauthorized"
  | ReasonStaleIdentityEpoch => "stale_identity_epoch"
  | ReasonStaleInstanceEpoch => "stale_instance_epoch"
  | ReasonStaleLeaseEpoch => "stale_lease_epoch"
  | ReasonStaleAuthorityEpoch => "stale_authority_epoch"
  | ReasonRevisionConflict => "revision_conflict"
  | ReasonAlreadyExists => "already_exists"
  | ReasonIdempotencyPayloadMismatch => "idempotency_payload_mismatch"
  | ReasonCommandDominated => "command_dominated"
  | ReasonIdentityLeaseConflict => "identity_lease_conflict"
  | ReasonIdentityLeaseStateInvalid => "identity_lease_state_invalid"
  | ReasonStaleLeaseRevision => "stale_lease_revision"
  | ReasonActivationFactDrift => "activation_fact_drift"
  | ReasonActivationAttemptConflict => "activation_attempt_conflict"
  | ReasonActivationQuarantineRequired => "activation_quarantine_required"
  | ReasonSupervisionPolicyMissing => "supervision_policy_missing"
  | ReasonSupervisionPolicyDrift => "supervision_policy_drift"
  | ReasonLateSupervisionSignal => "late_supervision_signal"
  | ReasonEffectIntentMissing => "effect_intent_missing"
  | ReasonEffectAuthorizationMissing => "effect_authorization_missing"
  | ReasonEffectFenceStale => "effect_fence_stale"
  | ReasonEvidenceUnavailable => "evidence_unavailable"
  | ReasonEvidenceConflict => "evidence_conflict"
  | ReasonEvidenceSourceMissing => "evidence_source_missing"
  | ReasonEvidenceSourceStale => "evidence_source_stale"
  | ReasonEvidenceSequenceGap => "evidence_sequence_gap"
  | ReasonEvidenceTrustInvalid => "evidence_trust_invalid"
  | ReasonEvidenceScopeConflict => "evidence_scope_conflict"
  | ReasonEvidenceCursorInvalid => "evidence_cursor_invalid"
  | ReasonEvidenceChainConflict => "evidence_chain_conflict"
  | ReasonOfflineRevocationPolicyMissing => "offline_revocation_policy_missing"
  | ReasonRecoveryEffectNotPermitted => "recovery_effect_not_permitted"
  | ReasonOwnerMissing => "owner_missing"
  | ReasonPlanInvalid => "plan_invalid"
  | ReasonComponentMissing => "component_missing"
  | ReasonComponentMismatch => "component_mismatch"
  | ReasonCapabilityExpired => "capability_expired"
  | ReasonDependencyCycle => "dependency_cycle"
  | ReasonRunConflict => "run_conflict"
  | ReasonRunClaimConflict => "run_claim_conflict"
  | ReasonRunClaimUnverified => "run_claim_unverified"
  | ReasonCheckpointInconsistent => "checkpoint_inconsistent"
  | ReasonCheckpointUnsupported => "checkpoint_unsupported"
  | ReasonRestoreIncompatible => "restore_incompatible"
  | ReasonReadyEvidenceIncomplete => "ready_evidence_incomplete"
  | ReasonInvalidCanonicalForm => "invalid_canonical_form"
  | ReasonCanonicalLimitExceeded => "canonical_limit_exceeded"
  | ReasonDuplicateCanonicalKey => "duplicate_canonical_key"
  | ReasonInvalidSemanticVersion => "invalid_semantic_version"
  | ReasonInvalidNamespace => "invalid_namespace"
  | ReasonUnknownGovernanceCategory => "unknown_governance_category"
  | ReasonUnknownCapability => "unknown_capability"
  | ReasonUnknownSchema => "unknown_schema"
  | ReasonUnknownRequiredExtension => "unknown_required_extension"
  | ReasonBindingExpired => "binding_expired"
  | ReasonBindingDrift => "binding_drift"
  | ReasonBindingNotCertified => "binding_not_certified"
  | ReasonBindingSetConflict => "binding_set_conflict"
  | ReasonOwnerConflict => "owner_conflict"
  | ReasonClockRegression => "clock_regression"
  | ReasonReviewVerdictMissing => "review_verdict_missing"
  | ReasonReviewVerdictStale => "review_verdict_stale"
  | ReasonReviewCandidateConflict => "review_candidate_conflict"
  | ReasonReviewConditionUnsatisfied => "review_condition_unsatisfied"
  | ReasonReviewRemoteEffectRequired => "review_remote_effect_required"
  | ReasonBudgetBindingMissing => "budget_binding_missing"
  | ReasonBudgetBindingStale => "budget_binding_stale"
  | ReasonCredentialLeaseMissing => "credential_lease_missing"
  | ReasonEffectStateConflict => "effect_state_conflict"
  | ReasonEffectConflictDomainOccupied => "effect_conflict_domain_occupied"
  | ReasonEffectUnknownOutcome => "effect_unknown_outcome"
  | ReasonEffectSettlementMissing => "effect_settlement_missing"
  | ReasonSettlementOwnerMismatch => "settlement_owner_mismatch"
  | ReasonDispatchPermitInvalid => "dispatch_permit_invalid"
  | ReasonDispatchPermitExpired => "dispatch_permit_expired"
  | ReasonDispatchPermitConsumed => "dispatch_permit_consumed"
  | ReasonProviderBindingStale => "provider_binding_stale"
  | ReasonCompensationIncomplete => "compensation_incomplete"
  | ReasonRemoteResidualUnresolved => "remote_residual_unresolved"
  | ReasonRunSettlementPlanConflict => "run_settlement_plan_conflict"
  | ReasonRunSettlementRequirementInvalid => "run_settlement_requirement_invalid"
  | ReasonRunEffectIndexConflict => "run_effect_index_conflict"
  | ReasonRunEffectSetFrozen => "run_effect_set_frozen"
  | ReasonRunSettlementClosureConflict => "run_settlement_closure_conflict"
  | ReasonRunSettlementParticipantMissing => "run_settlement_participant_missing"
  | ReasonRunSettlementParticipantStale => "run_settlement_participant_stale"
  | ReasonExecutionInspectionInvalid => "execution_inspection_invalid"
  | ReasonRunSettlementBlocked => "run_settlement_blocked"
  | ReasonRunCompletionConflict => "run_completion_conflict"
  | ReasonRunCompletionAtomicityBroken => "run_completion_atomicity_broken"
  | ReasonTerminationProgressConflict => "termination_progress_conflict"
  | ReasonTerminationReportIncomplete => "termination_report_incomplete"
  end.

Definition all_reasons : list ReasonCode :=
  [ReasonInvalidReference; ReasonInvalidDigest; ReasonInvalidState;
   ReasonInvalidTransition; ReasonTerminalInstance; ReasonFencedInstance;
   ReasonInspectCoverageIncomplete; ReasonCleanupEvidenceIncomplete; ReasonCleanupRetractionMissing;
   ReasonCleanupRetryUnauthorized; ReasonStaleIdentityEpoch; ReasonStaleInstanceEpoch;
   ReasonStaleLeaseEpoch; ReasonStaleAuthorityEpoch; ReasonRevisionConflict;
   ReasonAlreadyExists; ReasonIdempotencyPayloadMismatch; ReasonCommandDominated;
   ReasonIdentityLeaseConflict; ReasonIdentityLeaseStateInvalid; ReasonStaleLeaseRevision;
   ReasonActivationFactDrift; ReasonActivationAttemptConflict; ReasonActivationQuarantineRequired;
   ReasonSupervisionPolicyMissing; ReasonSupervisionPolicyDrift; ReasonLateSupervisionSignal;
   ReasonEffectIntentMissing; ReasonEffectAuthorizationMissing; ReasonEffectFenceStale;
   ReasonEvidenceUnavailable; ReasonEvidenceConflict; ReasonEvidenceSourceMissing;
   ReasonEvidenceSourceStale; ReasonEvidenceSequenceGap; ReasonEvidenceTrustInvalid;
   ReasonEvidenceScopeConflict; ReasonEvidenceCursorInvalid; ReasonEvidenceChainConflict;
   ReasonOfflineRevocationPolicyMissing; ReasonRecoveryEffectNotPermitted; ReasonOwnerMissing;
   ReasonPlanInvalid; ReasonComponentMissing; ReasonComponentMismatch;
   ReasonCapabilityExpired; ReasonDependencyCycle; ReasonRunConflict;
   ReasonRunClaimConflict; ReasonRunClaimUnverified; ReasonCheckpointInconsistent;
   ReasonCheckpointUnsupported; ReasonRestoreIncompatible; ReasonReadyEvidenceIncomplete;
   ReasonInvalidCanonicalForm; ReasonCanonicalLimitExceeded; ReasonDuplicateCanonicalKey;
   ReasonInvalidSemanticVersion; ReasonInvalidNamespace; ReasonUnknownGovernanceCategory;
   ReasonUnknownCapability; ReasonUnknownSchema; ReasonUnknownRequiredExtension;
   ReasonBindingExpired; ReasonBindingDrift; ReasonBindingNotCertified;
   ReasonBindingSetConflict; ReasonOwnerConflict; ReasonClockRegression;
   ReasonReviewVerdictMissing; ReasonReviewVerdictStale; ReasonReviewCandidateConflict;
   ReasonReviewConditionUnsatisfied; ReasonReviewRemoteEffectRequired; ReasonBudgetBindingMissing;
   ReasonBudgetBindingStale; ReasonCredentialLeaseMissing; ReasonEffectStateConflict;
   ReasonEffectConflictDomainOccupied; ReasonEffectUnknownOutcome; ReasonEffectSettlementMissing;
   ReasonSettlementOwnerMismatch; ReasonDispatchPermitInvalid; ReasonDispatchPermitExpired;
   ReasonDispatchPermitConsumed; ReasonProviderBindingStale; ReasonCompensationIncomplete;
   ReasonRemoteResidualUnresolved; ReasonRunSettlementPlanConflict; ReasonRunSettlementRequirementInvalid;
   ReasonRunEffectIndexConflict; ReasonRunEffectSetFrozen; ReasonRunSettlementClosureConflict;
   ReasonRunSettlementParticipantMissing; ReasonRunSettlementParticipantStale; ReasonExecutionInspectionInvalid;
   ReasonRunSettlementBlocked; ReasonRunCompletionConflict; ReasonRunCompletionAtomicityBroken;
   ReasonTerminationProgressConflict; ReasonTerminationReportIncomplete].

Fixpoint find_reason (s : string) (rs : list ReasonCode) : option ReasonCode :=
  match rs with
  | [] => None
  | r :: rs' => if bool_decide (ReasonCode_string r = s) then Some r else find_reason s rs'
  end.

(** Distinct reasons have distinct wire strings, which decides equality. *)
Lemma find_reason_string r : find_reason (ReasonCode_string r) all_reasons = Some r.
Proof. destruct r; vm_compute; reflexivity. Qed.

#[export] Instance ReasonCode_string_inj : Inj (=) (=) ReasonCode_string.
Proof.
  intros r r' H. pose proof (find_reason_string r) as Hr.
  rewrite H, find_reason_string in Hr. by injection Hr.
Qed.

#[export] Instance ReasonCode_eq_dec : EqDecision ReasonCode.
Proof.
  intros r r'. destruct (decide (ReasonCode_string r = ReasonCode_string r')) as [H | H].
  - left. by apply (inj ReasonCode_string).
  - right. by intros ->.
Defined.

Record DomainError := mkDomainError { Category : ErrorCategory; Reason : ReasonCode }.
#[export] Instance DomainError_eq_dec : EqDecision DomainError.
Proof. solve_decision. Defined.

Inductive error :=
| DomainErr (e : DomainError)
| CanceledErr
| DeadlineExceededErr
| ForeignErr (code : N)
| GoPanic.
#[export] Instance error_eq_dec : EqDecision error.
Proof. solve_decision. Defined.

Definition NewError (c : ErrorCategory) (r : ReasonCode) : error :=
  DomainErr {| Category := c; Reason := r |}.

Definition HasReason (err : error) (reason : ReasonCode) : bool :=
  match err with DomainErr e => bool_decide (Reason e = reason) | _ => false end.

Definition HasCategory (err : error) (category : ErrorCategory) : bool :=
  match err with DomainErr e => bool_decide (Category e = category) | _ => false end.

(** The results of the Runtime's functions: a bare Go [error] is
    [result unit]. *)
Abbreviation result := (outcome error).

Definition fail {A} (c : ErrorCategory) (r : ReasonCode) : result A := Err (NewError c r).

(** `if b { return NewError(c, r) }` *)
Definition guard (b : bool) (c : ErrorCategory) (r : ReasonCode) : result unit :=
  reject_if b (NewError c r).

(** The same statements in a method that mutates its receiver. *)
Definition st_guard {S} (b : bool) (c : ErrorCategory) (r : ReasonCode) : ST S error unit :=
  st_lift (guard b c r).
Definition st_err {S A} (c : ErrorCategory) (r : ReasonCode) : ST S error A := st_fail (NewError c r).

Lemma guard_Ok b c r u : guard b c r = Ok u <-> b = false.
Proof. apply reject_if_Ok. Qed.

(** [guard_false]: the passing guard, as a rewrite. *)
Lemma guard_false c r : guard false c r = Ok tt.
Proof. reflexivity. Qed.

Lemma bind_Ok_l {A B} (a : A) (k : A -> result B) : (Ok a ≫= k) = k a.
Proof. reflexivity. Qed.

Lemma seq_Ok {A} (m : result unit) (k : result A) u : (m ;; k) = Ok u <-> m = Ok tt /\ k = Ok u.
Proof. destruct m as [[] | e]; cbn; split; [done | by intros [] | done | by intros [[=] ?]]. Qed.

Lemma seq_guard_Ok {A} b c r (k : result A) u :
  (guard b c r ;; k) = Ok u <-> b = false /\ k = Ok u.
Proof. by rewrite seq_Ok, guard_Ok. Qed.

(** Decompose every successful sequence of checks in the hypotheses. *)
Ltac go_ok :=
  repeat match goal with
  | H : guard _ _ _ = Ok _ |- _ => apply guard_Ok in H
  | H : fail _ _ = Ok _ |- _ => discriminate H
  | _ => go_step
  end.

(** Run a sequence of checks in the goal with the hypotheses that say they
    succeed. *)
Ltac go_run :=
  repeat first
    [ progress rewrite bind_Ok_l
    | progress rewrite guard_false
    | match goal with
      | H : ?m = Ok _ |- context [ ?m ] => rewrite H
      | H : ?b = false |- context [ guard ?b _ _ ] => rewrite H
      end ].
