(* ===== verification/Identity.v ===== *)
(** * core/identity.go, core/digest.go, core/preconditions.go

    The references every Runtime fact carries (identity, lineage, instance,
    sandbox lease, execution scope, owners), digests, and the epoch/revision
    preconditions a command must present.  Go identifiers are strings; epochs
    and revisions are uint64. *)

From S2P Require Import Prelude GoStd Errors.

(** ** identity.go *)

Definition blank (value : string) : bool := bool_decide (TrimSpace value = "").

(** ** digest.go *)

Definition Digest := string.

(** strings.HasPrefix / strings.TrimPrefix with "sha256:", then
    hex.DecodeString and the length check. *)
Definition Digest_Validate (d : Digest) : result unit :=
  match strip_prefix (bytes "sha256:") (bytes d) with
  | None => fail ErrorInvalidArgument ReasonInvalidDigest
  | Some raw =>
      match hex_decode raw with
      | None => fail ErrorInvalidArgument ReasonInvalidDigest
      | Some decoded =>
          guard (negb (Nat.eqb (length decoded) 32)) ErrorInvalidArgument ReasonInvalidDigest
      end
  end.

Record AgentIdentityRef := {
  id_TenantID : string;
  id_ID : string;
  id_Epoch : N;
}.
#[export] Instance AgentIdentityRef_eq_dec : EqDecision AgentIdentityRef.
Proof. solve_decision. Defined.

Definition AgentIdentityRef_Validate (r : AgentIdentityRef) : result unit :=
  guard (blank (id_TenantID r) || blank (id_ID r) || N.eqb (id_Epoch r) 0)
    ErrorInvalidArgument ReasonInvalidReference.

Record LineageRef := {
  lin_ID : string;
  lin_PlanDigest : Digest;
}.
#[export] Instance LineageRef_eq_dec : EqDecision LineageRef.
Proof. solve_decision. Defined.

Definition LineageRef_Validate (r : LineageRef) : result unit :=
  guard (blank (lin_ID r)) ErrorInvalidArgument ReasonInvalidReference ;;
  Digest_Validate (lin_PlanDigest r).

Record InstanceRef := {
  inst_ID : string;
  inst_Epoch : N;
}.
#[export] Instance InstanceRef_eq_dec : EqDecision InstanceRef.
Proof. solve_decision. Defined.

Definition InstanceRef_Validate (r : InstanceRef) : result unit :=
  guard (blank (inst_ID r) || N.eqb (inst_Epoch r) 0)
    ErrorInvalidArgument ReasonInvalidReference.

Record SandboxLeaseRef := {
  sbx_ID : string;
  sbx_Epoch : N;
}.
#[export] Instance SandboxLeaseRef_eq_dec : EqDecision SandboxLeaseRef.
Proof. solve_decision. Defined.

Definition SandboxLeaseRef_Validate (r : SandboxLeaseRef) : result unit :=
  guard (blank (sbx_ID r) || N.eqb (sbx_Epoch r) 0)
    ErrorInvalidArgument ReasonInvalidReference.

(** The *SandboxLeaseRef pointer is an option: nil or the pointed-to value. *)
Record ExecutionScope := {
  sc_Identity : AgentIdentityRef;
  sc_Lineage : LineageRef;
  sc_Instance : InstanceRef;
  sc_SandboxLease : option SandboxLeaseRef;
  sc_AuthorityEpoch : N;
}.
#[export] Instance ExecutionScope_eq_dec : EqDecision ExecutionScope.
Proof. solve_decision. Defined.

Definition ExecutionScope_Validate (s : ExecutionScope) : result unit :=
  AgentIdentityRef_Validate (sc_Identity s) ;;
  LineageRef_Validate (sc_Lineage s) ;;
  InstanceRef_Validate (sc_Instance s) ;;
  match sc_SandboxLease s with
  | Some lease => SandboxLeaseRef_Validate lease
  | None => Ok tt
  end ;;
  guard (N.eqb (sc_AuthorityEpoch s) 0) ErrorInvalidArgument ReasonInvalidReference.

(** `scope.SandboxLease = lease` on a copy. *)
Definition set_SandboxLease (lease : option SandboxLeaseRef) (s : ExecutionScope) : ExecutionScope :=
  {| sc_Identity := sc_Identity s; sc_Lineage := sc_Lineage s; sc_Instance := sc_Instance s;
     sc_SandboxLease := lease; sc_AuthorityEpoch := sc_AuthorityEpoch s |}.

Record OwnerRef := { own_Domain : string; own_ID : string }.
#[export] Instance OwnerRef_eq_dec : EqDecision OwnerRef.
Proof. solve_decision. Defined.

Definition OwnerRef_Validate (r : OwnerRef) : result unit :=
  guard (blank (own_Domain r) || blank (own_ID r)) ErrorInvalidArgument ReasonOwnerMissing.

Record EffectOwnership := { IntentOwner : OwnerRef; SettlementOwner : OwnerRef }.
#[export] Instance EffectOwnership_eq_dec : EqDecision EffectOwnership.
Proof. solve_decision. Defined.

Definition EffectOwnership_Validate (o : EffectOwnership) : result unit :=
  OwnerRef_Validate (IntentOwner o) ;; OwnerRef_Validate (SettlementOwner o).

(** ** The scope comparisons of control/run_fact.go (sameRunScope),
    kernel/aggregate.go (sameExecutionScope) and fakes/fact_store.go
    (sameScope): three copies of one function. *)
Definition sameScope (left right : ExecutionScope) : bool :=
  if negb (bool_decide (sc_Identity left = sc_Identity right))
     || negb (bool_decide (sc_Lineage left = sc_Lineage right))
     || negb (bool_decide (sc_Instance left = sc_Instance right))
     || negb (N.eqb (sc_AuthorityEpoch left) (sc_AuthorityEpoch right))
  then false
  else match sc_SandboxLease left, sc_SandboxLease right with
       | Some l, Some r => bool_decide (l = r)
       | None, None => true
       | _, _ => false
       end.

(** cloneScope of kernel/aggregate.go and fakes/fact_store.go: a copy whose
    lease pointer is fresh. *)
Definition cloneScope (scope : ExecutionScope) : ExecutionScope :=
  match sc_SandboxLease scope with
  | Some lease => set_SandboxLease (Some lease) scope
  | None => scope
  end.

(** ** preconditions.go *)

Record ExecutionPreconditions := {
  pre_IdentityEpoch : N;
  pre_InstanceEpoch : N;
  pre_LeaseEpoch : option N;
  pre_AuthorityEpoch : N;
  pre_Revision : N;
}.
#[export] Instance ExecutionPreconditions_eq_dec : EqDecision ExecutionPreconditions.
Proof. solve_decision. Defined.

Definition ExecutionPreconditions_Validate (p : ExecutionPreconditions) : result unit :=
  guard (N.eqb (pre_IdentityEpoch p) 0 || N.eqb (pre_InstanceEpoch p) 0
         || N.eqb (pre_AuthorityEpoch p) 0 || N.eqb (pre_Revision p) 0)
    ErrorInvalidArgument ReasonInvalidReference ;;
  guard (match pre_LeaseEpoch p with Some e => N.eqb e 0 | None => false end)
    ErrorInvalidArgument ReasonInvalidReference.

Record CurrentExecutionFacts := { cur_Scope : ExecutionScope; cur_Revision : N }.

Definition CheckExecutionPreconditions (expected : ExecutionPreconditions)
    (current : CurrentExecutionFacts) : result unit :=
  let scope := cur_Scope current in
  ExecutionScope_Validate scope ;;
  ExecutionPreconditions_Validate expected ;;
  guard (negb (N.eqb (pre_IdentityEpoch expected) (id_Epoch (sc_Identity scope))))
    ErrorPreconditionFailed ReasonStaleIdentityEpoch ;;
  guard (negb (N.eqb (pre_InstanceEpoch expected) (inst_Epoch (sc_Instance scope))))
    ErrorPreconditionFailed ReasonStaleInstanceEpoch ;;
  guard (negb (N.eqb (pre_AuthorityEpoch expected) (sc_AuthorityEpoch scope)))
    ErrorPreconditionFailed ReasonStaleAuthorityEpoch ;;
  guard (negb (N.eqb (pre_Revision expected) (cur_Revision current)))
    ErrorConflict ReasonRevisionConflict ;;
  match sc_SandboxLease scope with
  | Some lease =>
      guard (match pre_LeaseEpoch expected with
             | None => true
             | Some e => negb (N.eqb e (sbx_Epoch lease))
             end) ErrorPreconditionFailed ReasonStaleLeaseEpoch
  | None =>
      guard (match pre_LeaseEpoch expected with None => false | Some _ => true end)
        ErrorPreconditionFailed ReasonStaleLeaseEpoch
  end.

(** ** Lemmas *)

Lemma sameScope_eq left right : sameScope left right = true <-> left = right.
Proof.
  unfold sameScope; destruct left as [i l n sb a], right as [i' l' n' sb' a']; cbn.
  split.
  - destruct (bool_decide (i = i')) eqn:?, (bool_decide (l = l')) eqn:?,
      (bool_decide (n = n')) eqn:?, (N.eqb a a') eqn:?; try done; cbn.
    go_bool; subst. destruct sb, sb'; try done. intros H; go_bool; by subst.
  - intros [= -> -> -> -> ->]. rewrite !bool_decide_eq_true_2, N.eqb_refl by done; cbn.
    by destruct sb'; [apply bool_decide_eq_true_2 |].
Qed.

Lemma sameScope_refl s : sameScope s s = true.
Proof. by apply sameScope_eq. Qed.

Lemma cloneScope_id s : cloneScope s = s.
Proof. by destruct s as [? ? ? [] ?]. Qed.

Lemma ExecutionScope_Validate_set_lease s lease :
  ExecutionScope_Validate s = Ok tt -> SandboxLeaseRef_Validate lease = Ok tt ->
  ExecutionScope_Validate (set_SandboxLease (Some lease) s) = Ok tt.
Proof.
  unfold ExecutionScope_Validate; intros Hs Hl; go_ok. cbn. by go_run.
Qed.

(** ** Concrete references, for the examples of the other files *)

Definition ex_digest : Digest :=
  "sha256:0123456789abcdef0123456789abcdef0123456789abcdef0123456789abcdef".
Definition ex_digest2 : Digest :=
  "sha256:fedcba9876543210fedcba9876543210fedcba9876543210fedcba9876543210".
Definition ex_lease : SandboxLeaseRef := {| sbx_ID := "sandbox-1"; sbx_Epoch := 1 |}.
Definition ex_scope : ExecutionScope :=
  {| sc_Identity := {| id_TenantID := "tenant"; id_ID := "agent"; id_Epoch := 1 |};
     sc_Lineage := {| lin_ID := "lineage-1"; lin_PlanDigest := ex_digest |};
     sc_Instance := {| inst_ID := "instance-1"; inst_Epoch := 1 |};
     sc_SandboxLease := None;
     sc_AuthorityEpoch := 1 |}.
Definition ex_bound_scope : ExecutionScope := set_SandboxLease (Some ex_lease) ex_scope.
Definition ex_preconditions : ExecutionPreconditions :=
  {| pre_IdentityEpoch := 1; pre_InstanceEpoch := 1; pre_LeaseEpoch := None;
     pre_AuthorityEpoch := 1; pre_Revision := 1 |}.

Example ex_scope_valid : ExecutionScope_Validate ex_scope = Ok tt.
Proof. vm_compute; reflexivity. Qed.
Example blank_nbsp : blank (string_of_codes [194; 160; 32; 9]%N) = true.
Proof. vm_compute; reflexivity. Qed.

(** Digest.Validate accepts exactly "sha256:" followed by 64 hexadecimal
    digits (of either case); everything else is the invalid-digest error. *)
Theorem Digest_Validate_iff d :
  (Digest_Validate d = Ok tt <->
   exists raw, bytes d = (bytes "sha256:" ++ raw)%list /\ length raw = 64
               /\ Forall (fun c => hex_val c <> None) raw)
  /\ (Digest_Validate d <> Ok tt -> Digest_Validate d = fail ErrorInvalidArgument ReasonInvalidDigest).
Proof.
  unfold Digest_Validate. split.
  - split.
    + destruct (strip_prefix _ _) as [raw |] eqn:Hp; [| done].
      destruct (hex_decode raw) as [ds |] eqn:Hd; [| done].
      intros Hg. go_ok. go_bool. exists raw. split; [by apply strip_prefix_Some | split].
      * rewrite (hex_decode_length _ _ Hd). lia.
      * by eapply hex_decode_digits.
    + intros (raw & Hraw & Hlen & Hd). rewrite Hraw, strip_prefix_app.
      destruct (hex_decode_total raw 32) as (ds & Hds & Hl); [lia | done |].
      by rewrite Hds, Hl.
  - unfold guard, reject_if, fail.
    destruct (strip_prefix _ _) as [raw |]; [| done].
    destruct (hex_decode raw) as [ds |]; [| done]. by destruct (negb _).
Qed.
