(* ===== verification/State.v ===== *)
(** * core/state.go: the three-dimensional instance state and its transitions

    Lifecycle phase, execution certainty and cleanup status are independent
    dimensions; [ValidateStateTransition] is the gate every change of the
    instance aggregate passes.  A Go string that is none of the declared
    constants is the constructor [..Other]. *)

From S2P Require Import Prelude GoStd Errors.

Inductive LifecyclePhase :=
| PhasePending | PhaseAdmitted | PhasePreflighting | PhaseActivating | PhaseProvisioning
| PhaseBinding | PhaseStarting | PhaseReady | PhaseRunning | PhaseStopping | PhaseTerminal
| PhaseOther (raw : string).
#[export] Instance LifecyclePhase_eq_dec : EqDecision LifecyclePhase.
Proof. solve_decision. Defined.

Inductive ExecutionCertainty :=
| CertaintyConfirmed | CertaintyUnknown | CertaintyLost | CertaintyFenced
| CertaintyOther (raw : string).
#[export] Instance ExecutionCertainty_eq_dec : EqDecision ExecutionCertainty.
Proof. solve_decision. Defined.

Inductive CleanupStatus :=
| CleanupNotRequired | CleanupPending | CleanupComplete | CleanupFailed | CleanupIndeterminate
| CleanupOther (raw : string).
#[export] Instance CleanupStatus_eq_dec : EqDecision CleanupStatus.
Proof. solve_decision. Defined.

Definition phase_is (p q : LifecyclePhase) : bool := bool_decide (p = q).
Definition certainty_is (p q : ExecutionCertainty) : bool := bool_decide (p = q).
Definition cleanup_is (p q : CleanupStatus) : bool := bool_decide (p = q).

Record InstanceState := {
  Phase : LifecyclePhase;
  Certainty : ExecutionCertainty;
  Cleanup : CleanupStatus;
  HasCleanupObligations : bool;
  CleanupEvidenceComplete : bool;
}.
#[export] Instance InstanceState_eq_dec : EqDecision InstanceState.
Proof. solve_decision. Defined.

Definition lifecycleOrder : list LifecyclePhase :=
  [PhasePending; PhaseAdmitted; PhasePreflighting; PhaseActivating;
   PhaseProvisioning; PhaseBinding; PhaseStarting; PhaseReady;
   PhaseRunning; PhaseStopping; PhaseTerminal].

Definition lifecycleIndex (phase : LifecyclePhase) : Z := index_from phase lifecycleOrder 0.
Arguments lifecycleIndex : simpl never.
Definition validPhase (value : LifecyclePhase) : bool := Z.leb 0 (lifecycleIndex value).

Definition validCertainty (value : ExecutionCertainty) : bool :=
  match value with
  | CertaintyConfirmed | CertaintyUnknown | CertaintyLost | CertaintyFenced => true
  | CertaintyOther _ => false
  end.

Definition validCleanup (value : CleanupStatus) : bool :=
  match value with
  | CleanupNotRequired | CleanupPending | CleanupComplete | CleanupFailed | CleanupIndeterminate => true
  | CleanupOther _ => false
  end.

Definition InstanceState_Validate (s : InstanceState) : result unit :=
  guard (negb (validPhase (Phase s)) || negb (validCertainty (Certainty s))
         || negb (validCleanup (Cleanup s))) ErrorInvalidArgument ReasonInvalidState ;;
  let phaseIndex := lifecycleIndex (Phase s) in
  guard (Z.leb phaseIndex (lifecycleIndex PhasePreflighting)
         && (negb (certainty_is (Certainty s) CertaintyConfirmed)
             || negb (cleanup_is (Cleanup s) CleanupNotRequired)
             || HasCleanupObligations s)) ErrorPreconditionFailed ReasonInvalidState ;;
  guard (certainty_is (Certainty s) CertaintyUnknown
         && Z.ltb phaseIndex (lifecycleIndex PhaseActivating))
    ErrorPreconditionFailed ReasonInvalidState ;;
  guard (certainty_is (Certainty s) CertaintyLost
         && Z.ltb phaseIndex (lifecycleIndex PhaseProvisioning))
    ErrorPreconditionFailed ReasonInvalidState ;;
  guard (certainty_is (Certainty s) CertaintyFenced
         && negb (phase_is (Phase s) PhaseStopping) && negb (phase_is (Phase s) PhaseTerminal))
    ErrorPreconditionFailed ReasonInvalidState ;;
  guard (HasCleanupObligations s && cleanup_is (Cleanup s) CleanupNotRequired)
    ErrorPreconditionFailed ReasonInvalidState ;;
  guard (negb (HasCleanupObligations s) && negb (cleanup_is (Cleanup s) CleanupNotRequired))
    ErrorPreconditionFailed ReasonInvalidState ;;
  (if cleanup_is (Cleanup s) CleanupComplete
   then guard (negb (phase_is (Phase s) PhaseTerminal) || negb (CleanupEvidenceComplete s))
          ErrorPreconditionFailed ReasonCleanupEvidenceIncomplete
   else guard (CleanupEvidenceComplete s) ErrorPreconditionFailed ReasonInvalidState) ;;
  guard ((cleanup_is (Cleanup s) CleanupFailed || cleanup_is (Cleanup s) CleanupIndeterminate)
         && negb (phase_is (Phase s) PhaseStopping) && negb (phase_is (Phase s) PhaseTerminal))
    ErrorPreconditionFailed ReasonInvalidState.

Record TransitionContext := {
  InspectCoverageComplete : bool;
  CleanupRetryAuthorized : bool;
  CleanupCompletionRetracted : bool;
}.

(** The zero value `core.TransitionContext{}`. *)
Definition emptyTransitionContext : TransitionContext :=
  {| InspectCoverageComplete := false; CleanupRetryAuthorized := false;
     CleanupCompletionRetracted := false |}.

Definition validLifecycleMove (from to : LifecyclePhase) : bool :=
  if phase_is from to then true
  else if phase_is to PhaseStopping && negb (phase_is from PhaseTerminal) then true
  else if phase_is from PhaseStopping && phase_is to PhaseTerminal then true
  else Z.eqb (lifecycleIndex to) (lifecycleIndex from + 1).

Definition ValidateStateTransition (from to : InstanceState) (context : TransitionContext) : result unit :=
  InstanceState_Validate from ;;
  InstanceState_Validate to ;;
  guard (phase_is (Phase from) PhaseTerminal && negb (phase_is (Phase to) PhaseTerminal))
    ErrorPreconditionFailed ReasonTerminalInstance ;;
  guard (negb (validLifecycleMove (Phase from) (Phase to)))
    ErrorPreconditionFailed ReasonInvalidTransition ;;
  guard (certainty_is (Certainty from) CertaintyFenced && negb (certainty_is (Certainty to) CertaintyFenced))
    ErrorPreconditionFailed ReasonFencedInstance ;;
  guard ((certainty_is (Certainty from) CertaintyUnknown || certainty_is (Certainty from) CertaintyLost)
         && certainty_is (Certainty to) CertaintyConfirmed && negb (InspectCoverageComplete context))
    ErrorPreconditionFailed ReasonInspectCoverageIncomplete ;;
  guard (cleanup_is (Cleanup from) CleanupComplete && negb (cleanup_is (Cleanup to) CleanupComplete)
         && negb (CleanupCompletionRetracted context))
    ErrorPreconditionFailed ReasonCleanupRetractionMissing ;;
  guard ((cleanup_is (Cleanup from) CleanupFailed || cleanup_is (Cleanup from) CleanupIndeterminate)
         && cleanup_is (Cleanup to) CleanupPending && negb (CleanupRetryAuthorized context))
    ErrorForbidden ReasonCleanupRetryUnauthorized.

(** ** The abstract life cycle

    What the state machine promises, stated without the code: a phase order, a
    certainty that can only be lost to fencing for good, and a cleanup status
    tied to the obligations. *)
Inductive wf_state : InstanceState -> Prop :=
| wf_pre p :
    p = PhasePending \/ p = PhaseAdmitted \/ p = PhasePreflighting ->
    wf_state {| Phase := p; Certainty := CertaintyConfirmed; Cleanup := CleanupNotRequired;
                HasCleanupObligations := false; CleanupEvidenceComplete := false |}
| wf_active p c (obligations : bool) :
    p = PhaseActivating /\ (c = CertaintyConfirmed \/ c = CertaintyUnknown)
    \/ (p = PhaseProvisioning \/ p = PhaseBinding \/ p = PhaseStarting \/ p = PhaseReady \/ p = PhaseRunning)
       /\ (c = CertaintyConfirmed \/ c = CertaintyUnknown \/ c = CertaintyLost) ->
    wf_state {| Phase := p; Certainty := c;
                Cleanup := if obligations then CleanupPending else CleanupNotRequired;
                HasCleanupObligations := obligations; CleanupEvidenceComplete := false |}
| wf_closing p c cl :
    p = PhaseStopping \/ p = PhaseTerminal ->
    validCertainty c = true ->
    cl = CleanupNotRequired \/ cl = CleanupPending \/ cl = CleanupFailed \/ cl = CleanupIndeterminate ->
    wf_state {| Phase := p; Certainty := c; Cleanup := cl;
                HasCleanupObligations := negb (cleanup_is cl CleanupNotRequired);
                CleanupEvidenceComplete := false |}
| wf_cleaned c :
    validCertainty c = true ->
    wf_state {| Phase := PhaseTerminal; Certainty := c; Cleanup := CleanupComplete;
                HasCleanupObligations := true; CleanupEvidenceComplete := true |}.

(** One step of the phase order, a jump to stopping, or no move. *)
Inductive phase_step : LifecyclePhase -> LifecyclePhase -> Prop :=
| phase_stay p : phase_step p p
| phase_next p q k :
    lifecycleOrder !! k = Some p -> lifecycleOrder !! S k = Some q -> phase_step p q
| phase_stop p : p <> PhaseTerminal -> phase_step p PhaseStopping.

Record transition_allowed (from to : InstanceState) (context : TransitionContext) : Prop := {
  ta_from : wf_state from;
  ta_to : wf_state to;
  ta_phase : phase_step (Phase from) (Phase to);
  ta_fenced : Certainty from = CertaintyFenced -> Certainty to = CertaintyFenced;
  ta_doubt : (Certainty from = CertaintyUnknown \/ Certainty from = CertaintyLost) ->
             Certainty to = CertaintyConfirmed -> InspectCoverageComplete context = true;
  ta_retract : Cleanup from = CleanupComplete -> Cleanup to <> CleanupComplete ->
               CleanupCompletionRetracted context = true;
  ta_retry : (Cleanup from = CleanupFailed \/ Cleanup from = CleanupIndeterminate) ->
             Cleanup to = CleanupPending -> CleanupRetryAuthorized context = true;
}.

(** A history of accepted transitions. *)
Inductive reaches : InstanceState -> InstanceState -> Prop :=
| reaches_refl s : InstanceState_Validate s = Ok tt -> reaches s s
| reaches_step s t u context :
    reaches s t -> ValidateStateTransition t u context = Ok tt -> reaches s u.

Lemma reaches_trans s t u : reaches s t -> reaches t u -> reaches s u.
Proof.
  intros Hst Htu. revert Hst.
  induction Htu as [| s' t u context _ IH Hs]; intros Hst; [done |].
  eapply reaches_step; [by apply IH | done].
Qed.

(** ** Theorems *)

(** InstanceState.Validate accepts exactly the states of the abstract life
    cycle, dimension by dimension: nothing before activation carries cleanup
    or doubt, lost needs an external phase, fenced and failed cleanup need a
    closing phase, and complete cleanup needs the terminal phase with complete
    evidence. *)
Theorem InstanceState_Validate_iff s : InstanceState_Validate s = Ok tt <-> wf_state s.
Proof.
  split.
  - destruct s as [p c cl h e].
    destruct p; try (intros H; vm_compute in H; discriminate H);
    destruct c; try (intros H; vm_compute in H; discriminate H);
    destruct cl; try (intros H; vm_compute in H; discriminate H);
    destruct h; try (intros H; vm_compute in H; discriminate H);
    destruct e; intros H; vm_compute in H; try discriminate H; clear H;
    first [ by apply wf_pre; auto
          | by apply (wf_active _ _ true); intuition auto
          | by apply (wf_active _ _ false); intuition auto
          | by apply wf_cleaned
          | by eapply (wf_closing _ _ CleanupNotRequired); auto
          | by eapply (wf_closing _ _ CleanupPending); auto
          | by eapply (wf_closing _ _ CleanupFailed); auto
          | by eapply (wf_closing _ _ CleanupIndeterminate); auto ].
  - destruct 1 as [p Hp | p c [] Hpc | p c cl Hp Hc Hcl | c Hc];
      destruct_or?; destruct_and?; destruct_or?; subst;
      try (by vm_compute); destruct c; try discriminate Hc; by vm_compute.
Qed.

Lemma wf_valid_phase s : wf_state s -> exists k, lifecycleOrder !! k = Some (Phase s).
Proof.
  destruct 1 as [p Hp | p c ob Hpc | p c cl Hp | c Hc]; cbn; destruct_or?; destruct_and?;
    destruct_or?; subst;
    first [ by exists 0%nat | by exists 1%nat | by exists 2%nat | by exists 3%nat | by exists 4%nat
          | by exists 5%nat | by exists 6%nat | by exists 7%nat | by exists 8%nat | by exists 9%nat
          | by exists 10%nat ].
Qed.

Lemma lifecycleIndex_lookup k p :
  lifecycleOrder !! k = Some p -> lifecycleIndex p = Z.of_nat k.
Proof. do 11 (destruct k as [| k]; [by intros [= <-] |]). by destruct k. Qed.

Lemma lifecycleIndex_inv k p : (0 <= k)%Z -> lifecycleIndex p = k -> lifecycleOrder !! Z.to_nat k = Some p.
Proof. intros Hk <-. by destruct p. Qed.

(** The two closed-world guards of the code, on well-formed ends: a valid move
    that does not revive a terminal instance is a step of the order. *)
Lemma lifecycle_move_iff p q k l :
  lifecycleOrder !! k = Some p -> lifecycleOrder !! l = Some q ->
  phase_is p PhaseTerminal && negb (phase_is q PhaseTerminal) = false /\
  negb (validLifecycleMove p q) = false <-> phase_step p q.
Proof.
  intros Hp Hq. pose proof (lifecycleIndex_lookup _ _ Hp) as Ip.
  pose proof (lifecycleIndex_lookup _ _ Hq) as Iq.
  unfold validLifecycleMove, phase_is. split.
  - intros [_ Hm]. repeat case_bool_decide; subst; try apply phase_stay; cbn in Hm;
      try (by apply phase_stop); try (by eapply (phase_next _ _ 9%nat)).
    all: apply negb_false_iff, Z.eqb_eq in Hm; rewrite Ip, Iq in Hm;
      assert (l = S k) as -> by lia; by eapply phase_next.
  - destruct 1 as [p | p q k' Hk Hk' | p Hne].
    + rewrite (bool_decide_eq_true_2 (p = p)) by done. by destruct (bool_decide (p = PhaseTerminal)).
    + pose proof (lifecycleIndex_lookup _ _ Hk). pose proof (lifecycleIndex_lookup _ _ Hk').
      rewrite (bool_decide_eq_false_2 (p = PhaseTerminal)).
      2:{ intros ->. change (lifecycleIndex PhaseTerminal) with 10%Z in *.
          assert (k' = 10%nat) as -> by lia. done. }
      split; [done |]. repeat case_bool_decide; cbn; try done.
      all: apply negb_false_iff, Z.eqb_eq; lia.
    + rewrite (bool_decide_eq_false_2 (p = PhaseTerminal)) by done. cbn.
      by repeat case_bool_decide.
Qed.

(** ValidateStateTransition accepts a transition exactly when both ends are
    well formed, the phase stays, advances by one or jumps to stopping from a
    live phase, a fence is never lifted, doubt is settled only by complete
    inspection coverage, completed cleanup regresses only by an explicit
    retraction, and failed cleanup is retried only with authority. *)
Theorem ValidateStateTransition_iff from to context :
  ValidateStateTransition from to context = Ok tt <-> transition_allowed from to context.
Proof.
  unfold ValidateStateTransition, certainty_is, cleanup_is. split.
  - intros H. go_ok. apply InstanceState_Validate_iff in Hm, Hm0.
    pose proof (wf_valid_phase _ Hm) as [i Hi]. pose proof (wf_valid_phase _ Hm0) as [j Hj].
    split; [done | done | by apply (lifecycle_move_iff _ _ _ _ Hi Hj) | ..];
      clear Hm1 Hm2; go_bool; naive_solver.
  - intros [Hf Ht Hp Hfe Hd Hc Hr].
    pose proof (wf_valid_phase _ Hf) as [i Hi]. pose proof (wf_valid_phase _ Ht) as [j Hj].
    apply (lifecycle_move_iff _ _ _ _ Hi Hj) in Hp as [Hp1 Hp2].
    apply InstanceState_Validate_iff in Hf, Ht. go_run.
    rewrite !seq_guard_Ok, guard_Ok. repeat split.
    + destruct (decide (Certainty from = CertaintyFenced)); go_bool; auto.
    + destruct (InspectCoverageComplete context); go_bool; [auto |].
      destruct (decide (Certainty to = CertaintyConfirmed)) as [E | E]; [| auto].
      left; left; split; intros E'; discriminate Hd; auto.
    + destruct (CleanupCompletionRetracted context); go_bool; [auto |].
      destruct (decide (Cleanup from = CleanupComplete)); [| auto].
      destruct (decide (Cleanup to = CleanupComplete)); [auto |]. discriminate Hc; auto.
    + destruct (CleanupRetryAuthorized context); go_bool; [auto |].
      destruct (decide (Cleanup to = CleanupPending)) as [E | E]; [| auto].
      left; left; split; intros E'; discriminate Hr; auto.
Qed.

Lemma phase_step_index p q : phase_step p q -> (lifecycleIndex p <= lifecycleIndex q)%Z \/ q = PhaseStopping.
Proof.
  destruct 1 as [p | p q k Hk Hk' | p]; [left; lia | left | by right].
  rewrite (lifecycleIndex_lookup _ _ Hk), (lifecycleIndex_lookup _ _ Hk'); lia.
Qed.

Lemma transition_index from to context :
  transition_allowed from to context -> (lifecycleIndex (Phase from) <= lifecycleIndex (Phase to))%Z.
Proof.
  intros [Hf Ht Hp _ _ _ _].
  pose proof (wf_valid_phase _ Hf) as [i Hi]. pose proof (lifecycleIndex_lookup _ _ Hi) as Ii.
  apply lookup_lt_Some in Hi as Hlen. cbn in Hlen.
  destruct Hp as [p | p q k Hk Hk' | p Hne]; [lia | |].
  - rewrite (lifecycleIndex_lookup _ _ Hk), (lifecycleIndex_lookup _ _ Hk'); lia.
  - change (lifecycleIndex PhaseStopping) with 9%Z.
    assert (i <> 10%nat) by (intros ->; by injection Hi as <-). lia.
Qed.

(** Along every history of accepted transitions the phase never moves
    backwards, a terminal instance stays terminal, and a fenced instance stays
    fenced; every state visited is well formed. *)
Theorem history_monotone s t :
  reaches s t ->
  InstanceState_Validate t = Ok tt
  /\ (lifecycleIndex (Phase s) <= lifecycleIndex (Phase t))%Z
  /\ (Phase s = PhaseTerminal -> Phase t = PhaseTerminal)
  /\ (Certainty s = CertaintyFenced -> Certainty t = CertaintyFenced).
Proof.
  induction 1 as [s Hs | s t u context _ (Ht & Hi & Hterm & Hf) Hstep]; [by repeat split |].
  apply ValidateStateTransition_iff in Hstep. pose proof (transition_index _ _ _ Hstep) as Hle.
  destruct Hstep as [Hw Hw' Hp Hfe _ _ _]. repeat split.
  - by apply InstanceState_Validate_iff.
  - lia.
  - intros E. rewrite (Hterm E) in Hp. inversion Hp as [| ? ? k Hk Hk' | ]; subst; [done | | done].
    pose proof (lifecycleIndex_lookup _ _ Hk) as Ik. change (lifecycleIndex PhaseTerminal) with 10%Z in Ik.
    assert (k = 10%nat) as -> by lia. done.
  - auto.
Qed.

Definition state_ready : InstanceState :=
  {| Phase := PhaseReady; Certainty := CertaintyConfirmed; Cleanup := CleanupPending;
     HasCleanupObligations := true; CleanupEvidenceComplete := false |}.
Definition state_stopping_fenced : InstanceState :=
  {| Phase := PhaseStopping; Certainty := CertaintyFenced; Cleanup := CleanupPending;
     HasCleanupObligations := true; CleanupEvidenceComplete := false |}.
Definition state_terminal_fenced : InstanceState :=
  {| Phase := PhaseTerminal; Certainty := CertaintyFenced; Cleanup := CleanupComplete;
     HasCleanupObligations := true; CleanupEvidenceComplete := true |}.

Lemma reaches_example : reaches state_stopping_fenced state_terminal_fenced.
Proof.
  eapply (reaches_step _ _ _ emptyTransitionContext); [by apply reaches_refl |].
  vm_compute; reflexivity.
Qed.

Lemma history_monotone_witness :
  reaches state_stopping_fenced state_terminal_fenced
  /\ Certainty state_terminal_fenced = CertaintyFenced.
Proof.
  split; [exact reaches_example |].
  apply (history_monotone _ _ reaches_example). reflexivity.
Defined.
