(* ===== verification/Aggregate.v ===== *)
(** * kernel/aggregate.go: the instance aggregate

    The revision-linearised Runtime instance: an execution scope, its
    three-dimensional state and a revision that every accepted change advances.
    The mutex serialises the methods, so each is one atomic step on the record. *)

From S2P Require Import Prelude GoStd Errors Identity State.

Record Aggregate := {
  agg_scope : ExecutionScope;
  agg_state : InstanceState;
  agg_revision : N;
}.

Record Snapshot := {
  snap_Scope : ExecutionScope;
  snap_State : InstanceState;
  snap_Revision : N;
}.

Definition phaseIndex (phase : LifecyclePhase) : Z :=
  index_from phase
    [PhasePending; PhaseAdmitted; PhasePreflighting; PhaseActivating;
     PhaseProvisioning; PhaseBinding; PhaseStarting; PhaseReady;
     PhaseRunning; PhaseStopping; PhaseTerminal] 0.

Definition validateScopeState (scope : ExecutionScope) (state : InstanceState) : result unit :=
  let phaseNumber := phaseIndex (Phase state) in
  let bound := bool_decide (sc_SandboxLease scope <> None) in
  guard (Z.leb phaseNumber (phaseIndex PhaseActivating) && bound)
    ErrorPreconditionFailed ReasonInvalidState ;;
  guard (Z.leb (phaseIndex PhaseProvisioning) phaseNumber
         && Z.leb phaseNumber (phaseIndex PhaseRunning) && negb bound)
    ErrorPreconditionFailed ReasonInvalidState ;;
  guard (bound && negb (HasCleanupObligations state)) ErrorPreconditionFailed ReasonInvalidState.

Definition NewAggregate (scope : ExecutionScope) (state : InstanceState) : result Aggregate :=
  ExecutionScope_Validate scope ;;
  InstanceState_Validate state ;;
  validateScopeState scope state ;;
  Ok {| agg_scope := cloneScope scope; agg_state := state; agg_revision := 1 |}.

Definition Aggregate_Snapshot (a : Aggregate) : Snapshot :=
  {| snap_Scope := cloneScope (agg_scope a); snap_State := agg_state a;
     snap_Revision := agg_revision a |}.

Record TransitionRequest := {
  tr_Preconditions : ExecutionPreconditions;
  tr_NextState : InstanceState;
  tr_Context : TransitionContext;
}.

Definition Aggregate_Transition (request : TransitionRequest) : ST Aggregate error Snapshot :=
  a ← st_get;
  st_lift (CheckExecutionPreconditions (tr_Preconditions request)
             {| cur_Scope := agg_scope a; cur_Revision := agg_revision a |}) ;;
  st_lift (ValidateStateTransition (agg_state a) (tr_NextState request) (tr_Context request)) ;;
  st_lift (validateScopeState (agg_scope a) (tr_NextState request)) ;;
  let a' := {| agg_scope := agg_scope a; agg_state := tr_NextState request;
               agg_revision := u64_succ (agg_revision a) |} in
  st_put a' ;;
  mret (Aggregate_Snapshot a').

Record ActivationCommitRequest := {
  ac_Preconditions : ExecutionPreconditions;
  ac_SandboxLease : SandboxLeaseRef;
  ac_NextState : InstanceState;
}.

Definition Aggregate_CommitActivation (request : ActivationCommitRequest) : ST Aggregate error Snapshot :=
  a ← st_get;
  st_lift (CheckExecutionPreconditions (ac_Preconditions request)
             {| cur_Scope := agg_scope a; cur_Revision := agg_revision a |}) ;;
  st_lift (guard (negb (phase_is (Phase (agg_state a)) PhaseActivating)
                  || negb (phase_is (Phase (ac_NextState request)) PhaseProvisioning)
                  || bool_decide (sc_SandboxLease (agg_scope a) <> None))
             ErrorPreconditionFailed ReasonInvalidTransition) ;;
  st_lift (SandboxLeaseRef_Validate (ac_SandboxLease request)) ;;
  st_lift (ValidateStateTransition (agg_state a) (ac_NextState request) emptyTransitionContext) ;;
  let nextScope := set_SandboxLease (Some (ac_SandboxLease request)) (cloneScope (agg_scope a)) in
  st_lift (validateScopeState nextScope (ac_NextState request)) ;;
  let a' := {| agg_scope := nextScope; agg_state := ac_NextState request;
               agg_revision := u64_succ (agg_revision a) |} in
  st_put a' ;;
  mret (Aggregate_Snapshot a').

Inductive ObservationDisposition := ObservationCurrent | ObservationLate.

Record SourceObservation := {
  so_Scope : ExecutionScope;
  so_SourceID : string;
  so_SourceEpoch : N;
  so_SourceSequence : N;
}.

Definition sameExecutionScope := sameScope.

Definition Aggregate_ClassifyObservation (a : Aggregate) (observation : SourceObservation)
    : ObservationDisposition :=
  if negb (sameExecutionScope (so_Scope observation) (agg_scope a))
  then ObservationLate else ObservationCurrent.

(** ** Invariant and reachability *)

Definition Aggregate_wf (a : Aggregate) : Prop :=
  ExecutionScope_Validate (agg_scope a) = Ok tt
  /\ InstanceState_Validate (agg_state a) = Ok tt
  /\ validateScopeState (agg_scope a) (agg_state a) = Ok tt
  /\ is_u64 (agg_revision a).

(** A method call on the aggregate, with whatever it returned. *)
Inductive agg_step : Aggregate -> Aggregate -> Prop :=
| step_Transition r a a' out : Aggregate_Transition r a = (a', out) -> agg_step a a'
| step_CommitActivation r a a' out : Aggregate_CommitActivation r a = (a', out) -> agg_step a a'.

Definition agg_reaches : Aggregate -> Aggregate -> Prop := rtc agg_step.


Lemma phaseIndex_lifecycleIndex p : phaseIndex p = lifecycleIndex p.
Proof. reflexivity. Qed.

(** One step either changes nothing or is the accepted change. *)
Lemma Transition_inv r a a' out :
  Aggregate_Transition r a = (a', out) ->
  (a' = a /\ exists e, out = Err e) \/
  (CheckExecutionPreconditions (tr_Preconditions r)
     {| cur_Scope := agg_scope a; cur_Revision := agg_revision a |} = Ok tt
   /\ ValidateStateTransition (agg_state a) (tr_NextState r) (tr_Context r) = Ok tt
   /\ validateScopeState (agg_scope a) (tr_NextState r) = Ok tt
   /\ a' = {| agg_scope := agg_scope a; agg_state := tr_NextState r;
              agg_revision := u64_succ (agg_revision a) |}
   /\ out = Ok (Aggregate_Snapshot a')).
Proof.
  unfold Aggregate_Transition. intros H. destruct out as [snap | e].
  - right. st_inv. done.
  - left. split; [| by exists e]. revert H. rewrite st_bind_eq. cbn.
    unfold st_lift. repeat (rewrite st_bind_eq; case_match; simplify_eq; try done).
    all: intros; simplify_eq; done.
Qed.

Lemma CommitActivation_inv r a a' out :
  Aggregate_CommitActivation r a = (a', out) ->
  (a' = a /\ exists e, out = Err e) \/
  (CheckExecutionPreconditions (ac_Preconditions r)
     {| cur_Scope := agg_scope a; cur_Revision := agg_revision a |} = Ok tt
   /\ Phase (agg_state a) = PhaseActivating /\ Phase (ac_NextState r) = PhaseProvisioning
   /\ sc_SandboxLease (agg_scope a) = None
   /\ SandboxLeaseRef_Validate (ac_SandboxLease r) = Ok tt
   /\ ValidateStateTransition (agg_state a) (ac_NextState r) emptyTransitionContext = Ok tt
   /\ validateScopeState (set_SandboxLease (Some (ac_SandboxLease r)) (agg_scope a)) (ac_NextState r) = Ok tt
   /\ a' = {| agg_scope := set_SandboxLease (Some (ac_SandboxLease r)) (agg_scope a);
              agg_state := ac_NextState r; agg_revision := u64_succ (agg_revision a) |}
   /\ out = Ok (Aggregate_Snapshot a')).
Proof.
  unfold Aggregate_CommitActivation. rewrite st_bind_eq. cbn. rewrite cloneScope_id.
  intros H. destruct out as [snap | e].
  - right. st_inv. go_ok. unfold phase_is in *. go_bool. destruct_and!.
    destruct (sc_SandboxLease (agg_scope a)) as [l |]; [exfalso; naive_solver |].
    by repeat split.
  - left. split; [| by exists e]. revert H. unfold st_lift.
    repeat (rewrite st_bind_eq; case_match; simplify_eq; try done).
    all: intros; simplify_eq; done.
Qed.

(** Everything a caller can do leaves identity, lineage, instance and authority
    alone, keeps a bound lease bound, and preserves well-formedness. *)
Definition agg_extends (a a' : Aggregate) : Prop :=
  sc_Identity (agg_scope a') = sc_Identity (agg_scope a)
  /\ sc_Lineage (agg_scope a') = sc_Lineage (agg_scope a)
  /\ sc_Instance (agg_scope a') = sc_Instance (agg_scope a)
  /\ sc_AuthorityEpoch (agg_scope a') = sc_AuthorityEpoch (agg_scope a)
  /\ (forall lease, sc_SandboxLease (agg_scope a) = Some lease ->
                    sc_SandboxLease (agg_scope a') = Some lease)
  /\ reaches (agg_state a) (agg_state a').

#[export] Instance agg_extends_trans : Transitive agg_extends.
Proof.
  intros a b c (E1 & E2 & E3 & E4 & E5 & E6) (F1 & F2 & F3 & F4 & F5 & F6).
  repeat split; [congruence.. | auto | by eapply reaches_trans].
Qed.

Lemma agg_extends_refl a : Aggregate_wf a -> agg_extends a a.
Proof. intros (_ & Hs & _). by repeat split; [.. | apply reaches_refl]. Qed.

Lemma ValidateStateTransition_ends s t context :
  ValidateStateTransition s t context = Ok tt ->
  InstanceState_Validate s = Ok tt /\ InstanceState_Validate t = Ok tt.
Proof. intros [Hs Ht]%ValidateStateTransition_iff. by rewrite !InstanceState_Validate_iff. Qed.

Lemma agg_step_extends a a' :
  Aggregate_wf a -> agg_step a a' -> Aggregate_wf a' /\ agg_extends a a'.
Proof.
  intros Hwf Hstep.
  destruct Hstep as [r a a' out H | r a a' out H].
  - apply Transition_inv in H as [[-> _] | (_ & Hv & Hss & -> & _)];
      [by split; [| apply agg_extends_refl] |].
    destruct Hwf as (Hsc & Hst & Hs & Hr).
    split; [repeat split; cbn; [done | by apply ValidateStateTransition_ends in Hv as [_ ?] | done | by apply u64_succ_is_u64] |].
    repeat split; cbn; auto. eapply reaches_step; [by apply reaches_refl | done].
  - apply CommitActivation_inv in H as [[-> _] | (_ & _ & _ & Hn & Hl & Hv & Hss & -> & _)];
      [by split; [| apply agg_extends_refl] |].
    destruct Hwf as (Hsc & Hst & Hs & Hr).
    split; [repeat split; cbn; [by apply ExecutionScope_Validate_set_lease
            | by apply ValidateStateTransition_ends in Hv as [_ ?] | done | by apply u64_succ_is_u64] |].
    repeat split; cbn; auto; [by rewrite Hn |]. eapply reaches_step; [by apply reaches_refl | done].
Qed.

(** C1: an aggregate made by NewAggregate stays well formed through any
    sequence of Transition and CommitActivation calls, failed ones included:
    its scope and state validate and agree; identity, lineage, instance and
    authority never change; a bound sandbox lease is never replaced or dropped;
    and its state follows an accepted history. *)
Theorem Aggregate_invariant scope state a a' :
  NewAggregate scope state = Ok a -> agg_reaches a a' -> Aggregate_wf a' /\ agg_extends a a'.
Proof.
  intros Hnew Hreach.
  assert (Aggregate_wf a) as Hwf.
  { unfold NewAggregate in Hnew. go_ok. rewrite cloneScope_id.
    repeat split; done. }
  clear Hnew. induction Hreach as [a | a b c Hstep _ IH]; [by split; [| apply agg_extends_refl] |].
  destruct (agg_step_extends _ _ Hwf Hstep) as [Hwf' Hext].
  destruct (IH Hwf') as [? ?]. split; [done | by etrans].
Qed.

(** Optimistic concurrency.  Once a Transition or CommitActivation has been
    accepted, every later request that carries the preconditions of before is
    refused with a revision conflict and changes nothing: of two callers that
    read the same snapshot at most one is accepted. *)
Theorem Aggregate_stale_preconditions a a1 snap r (Hrev : is_u64 (agg_revision a)) :
  Aggregate_Transition r a = (a1, Ok snap)
  \/ (exists rc, ac_Preconditions rc = tr_Preconditions r
                 /\ Aggregate_CommitActivation rc a = (a1, Ok snap)) ->
  (forall r', tr_Preconditions r' = tr_Preconditions r ->
     Aggregate_Transition r' a1 = (a1, fail ErrorConflict ReasonRevisionConflict))
  /\ (forall rc', ac_Preconditions rc' = tr_Preconditions r ->
     Aggregate_CommitActivation rc' a1 = (a1, fail ErrorConflict ReasonRevisionConflict)).
Proof.
  intros H.
  assert (CheckExecutionPreconditions (tr_Preconditions r)
            {| cur_Scope := agg_scope a1; cur_Revision := agg_revision a1 |}
          = fail ErrorConflict ReasonRevisionConflict) as Hstale.
  { assert (exists sc, ExecutionScope_Validate sc = Ok tt /\ agg_scope a1 = sc
       /\ sc_Identity sc = sc_Identity (agg_scope a) /\ sc_Instance sc = sc_Instance (agg_scope a)
       /\ sc_AuthorityEpoch sc = sc_AuthorityEpoch (agg_scope a)
       /\ agg_revision a1 = u64_succ (agg_revision a)
       /\ CheckExecutionPreconditions (tr_Preconditions r)
            {| cur_Scope := agg_scope a; cur_Revision := agg_revision a |} = Ok tt)
      as (sc & Hsc & Esc & Eid & Ein & Eau & Erev & Hchk).
    { destruct H as [H | (rc & Hrc & H)].
      - apply Transition_inv in H as [[_ [e [=]]] | (Hc & _ & _ & -> & _)].
        unfold CheckExecutionPreconditions in Hc; cbn in Hc. exists (agg_scope a).
        go_ok. repeat split; try done. unfold CheckExecutionPreconditions; cbn.
        go_run. done.
      - apply CommitActivation_inv in H as [[_ [e [=]]] | (Hc & _ & _ & _ & Hl & _ & _ & -> & _)].
        rewrite Hrc in Hc. exists (set_SandboxLease (Some (ac_SandboxLease rc)) (agg_scope a)).
        repeat split; try done. apply ExecutionScope_Validate_set_lease; [| done].
        unfold CheckExecutionPreconditions in Hc; cbn in Hc. by go_ok. }
    unfold CheckExecutionPreconditions in Hchk |- *; cbn in Hchk |- *.
    rewrite Esc, Hsc, Eid, Ein, Eau, Erev. go_ok. go_run. go_bool. subst.
    pose proof (u64_succ_ne _ Hrev) as Hne.
    match goal with Heq : pre_Revision _ = _ |- _ => rewrite Heq end.
    destruct (N.eqb_spec (agg_revision a) (u64_succ (agg_revision a))) as [E | E]; [by rewrite <- E in Hne |].
    done. }
  split; [intros r' Hr' | intros rc' Hr'].
  - unfold Aggregate_Transition. rewrite st_bind_eq. cbn. rewrite Hr'.
    rewrite st_bind_eq. unfold st_lift. by rewrite Hstale.
  - unfold Aggregate_CommitActivation. rewrite st_bind_eq. cbn. rewrite Hr'.
    rewrite st_bind_eq. unfold st_lift. by rewrite Hstale.
Qed.

(** the uint64 boundary.  An aggregate at the largest revision accepts one
    more change, which wraps the revision to zero; from then on no request can
    change it, because preconditions must carry a non-zero revision. *)
Theorem Aggregate_revision_wrap a r a1 snap :
  agg_revision a = max_u64 -> Aggregate_Transition r a = (a1, Ok snap) ->
  agg_revision a1 = 0%N /\ forall a2, agg_reaches a1 a2 -> a2 = a1.
Proof.
  intros Hmax H. apply Transition_inv in H as [[_ [e [=]]] | (_ & _ & _ & -> & _)].
  rewrite Hmax. cbn. change (u64_succ max_u64) with 0%N. split; [done |].
  set (z := {| agg_scope := _; agg_state := _; agg_revision := 0 |}).
  assert (forall p, CheckExecutionPreconditions p
            {| cur_Scope := agg_scope z; cur_Revision := agg_revision z |} <> Ok tt) as Hno.
  { intros p Hp. unfold CheckExecutionPreconditions, ExecutionPreconditions_Validate in Hp.
    go_ok. cbn in *. go_bool. destruct_and!. congruence. }
  intros a2 Hreach. remember z as z0 eqn:Hz.
  induction Hreach as [? | x y w Hstep _ IH]; [done |]. subst x.
  assert (y = z) as ->.
  { inversion Hstep as [r' ? ? out H | r' ? ? out H]; subst.
    - apply Transition_inv in H as [[-> _] | (Hp & _)]; [done | by apply Hno in Hp].
    - apply CommitActivation_inv in H as [[-> _] | (Hp & _)]; [done | by apply Hno in Hp]. }
  by apply IH.
Qed.

(** ** Examples *)

Definition state_pending : InstanceState :=
  {| Phase := PhasePending; Certainty := CertaintyConfirmed; Cleanup := CleanupNotRequired;
     HasCleanupObligations := false; CleanupEvidenceComplete := false |}.
Definition state_admitted : InstanceState :=
  {| Phase := PhaseAdmitted; Certainty := CertaintyConfirmed; Cleanup := CleanupNotRequired;
     HasCleanupObligations := false; CleanupEvidenceComplete := false |}.
Definition ex_aggregate (revision : N) : Aggregate :=
  {| agg_scope := ex_scope; agg_state := state_pending; agg_revision := revision |}.
Definition ex_admit (revision : N) : TransitionRequest :=
  {| tr_Preconditions := {| pre_IdentityEpoch := 1; pre_InstanceEpoch := 1; pre_LeaseEpoch := None;
                            pre_AuthorityEpoch := 1; pre_Revision := revision |};
     tr_NextState := state_admitted; tr_Context := emptyTransitionContext |}.
Definition ex_admitted (revision : N) : Aggregate :=
  {| agg_scope := ex_scope; agg_state := state_admitted; agg_revision := revision |}.

Lemma ex_admit_ok :
  Aggregate_Transition (ex_admit 1) (ex_aggregate 1)
  = (ex_admitted 2, Ok (Aggregate_Snapshot (ex_admitted 2))).
Proof. vm_compute; reflexivity. Qed.

Lemma Aggregate_invariant_witness :
  NewAggregate ex_scope state_pending = Ok (ex_aggregate 1) /\ Aggregate_wf (ex_admitted 2).
Proof.
  split; [vm_compute; reflexivity |].
  apply (Aggregate_invariant ex_scope state_pending (ex_aggregate 1)); [vm_compute; reflexivity |].
  apply rtc_once. eapply step_Transition, ex_admit_ok.
Defined.

Lemma Aggregate_stale_preconditions_witness :
  Aggregate_Transition (ex_admit 1) (ex_admitted 2)
  = (ex_admitted 2, fail ErrorConflict ReasonRevisionConflict).
Proof.
  refine (proj1 (Aggregate_stale_preconditions (ex_aggregate 1) (ex_admitted 2)
                   (Aggregate_Snapshot (ex_admitted 2)) (ex_admit 1) _ _) (ex_admit 1) eq_refl).
  - vm_compute; reflexivity.
  - left. exact ex_admit_ok.
Defined.

Lemma Aggregate_revision_wrap_witness :
  agg_revision (ex_admitted 0) = 0%N /\ forall a2, agg_reaches (ex_admitted 0) a2 -> a2 = ex_admitted 0.
Proof.
  apply (Aggregate_revision_wrap (ex_aggregate max_u64) (ex_admit max_u64) _
           (Aggregate_Snapshot (ex_admitted 0))); vm_compute; reflexivity.
Defined.
