(* ===== verification/SemVer.v ===== *)
(** * core/semver.go: strict SemVer 2.0.0 parsing, printing and precedence *)

From S2P Require Import Prelude GoStd Errors.
From Stdlib Require Import Ascii.

Definition MaxSemanticVersionLength : nat := 128.

Record SemanticVersion := {
  Major : N;
  Minor : N;
  Patch : N;
  Prerelease : list string;
  Build : list string;
}.
#[export] Instance SemanticVersion_eq_dec : EqDecision SemanticVersion.
Proof. solve_decision. Defined.

Definition c_dot : ascii := "."%char.
Definition c_dash : ascii := "-"%char.
Definition c_plus : ascii := "+"%char.
Definition c_zero : ascii := "0"%char.

(** `len(value) > 1 && value[0] == '0'` *)
Definition leading_zero (value : list ascii) : bool :=
  match value with
  | c :: _ :: _ => Ascii.eqb c c_zero
  | _ => false
  end.

Definition validNumericIdentifier (value : list ascii) : bool :=
  match value with
  | [] => false
  | _ => if leading_zero value then false else forallb is_digit value
  end.

Definition identifier_char (c : ascii) : bool :=
  let n := N_of_ascii c in
  ((48 <=? n) && (n <=? 57) || (65 <=? n) && (n <=? 90) || (97 <=? n) && (n <=? 122) || (n =? 45))%N.

Definition validSemanticIdentifier (rejectNumericLeadingZero : bool) (value : list ascii) : bool :=
  match value with
  | [] => false
  | _ =>
      let numeric := forallb is_digit value in
      if negb (forallb identifier_char value) then false
      else negb (rejectNumericLeadingZero && numeric && leading_zero value)
  end.

Definition validSemanticIdentifiers (values : list (list ascii)) (rejectNumericLeadingZero : bool) : bool :=
  match values with
  | [] => false
  | _ => forallb (validSemanticIdentifier rejectNumericLeadingZero) values
  end.

Definition invalid_version {A} : result A := fail ErrorInvalidArgument ReasonInvalidSemanticVersion.

(** The loop over the three core parts. *)
Fixpoint parse_core (parts : list (list ascii)) : result (list N) :=
  match parts with
  | [] => Ok []
  | part :: rest =>
      guard (negb (validNumericIdentifier part)) ErrorInvalidArgument ReasonInvalidSemanticVersion ;;
      match ParseUint part with
      | None => invalid_version
      | Some number => numbers ← parse_core rest; Ok (number :: numbers)
      end
  end.

(** The optional identifier lists after '-' and '+'. *)
Definition parse_identifiers (reject : bool) (part : option (list ascii)) : result (list string) :=
  match part with
  | None => Ok []
  | Some raw =>
      let ids := split_on c_dot raw in
      if validSemanticIdentifiers ids reject then Ok (map of_bytes ids) else invalid_version
  end.

Definition ParseSemanticVersion (value : string) : result SemanticVersion :=
  let l := bytes value in
  guard (bool_decide (value = "") || (MaxSemanticVersionLength <? length l)%nat
         || negb (bool_decide (TrimSpace value = value)))
    ErrorInvalidArgument ReasonInvalidSemanticVersion ;;
  guard (1 <? count_byte c_plus l)%nat ErrorInvalidArgument ReasonInvalidSemanticVersion ;;
  let '(beforeBuild, build) := split_first c_plus l in
  let '(core, prerelease) := split_first c_dash beforeBuild in
  let coreParts := split_on c_dot core in
  guard (negb (Nat.eqb (length coreParts) 3)) ErrorInvalidArgument ReasonInvalidSemanticVersion ;;
  numbers ← parse_core coreParts;
  pre ← parse_identifiers true prerelease;
  bld ← parse_identifiers false build;
  match numbers with
  | [major; minor; patch] =>
      Ok {| Major := major; Minor := minor; Patch := patch; Prerelease := pre; Build := bld |}
  | _ => invalid_version
  end.

(** `v.String()` *)
Definition join_ids (sep : ascii) (ids : list string) : list ascii :=
  match ids with
  | [] => []
  | _ => sep :: join_with c_dot (map bytes ids)
  end.

Definition SemanticVersion_bytes (v : SemanticVersion) : list ascii :=
  (format_bytes (Major v) ++ c_dot :: format_bytes (Minor v) ++ c_dot :: format_bytes (Patch v)
     ++ join_ids c_dash (Prerelease v) ++ join_ids c_plus (Build v))%list.
Definition SemanticVersion_String (v : SemanticVersion) : string := of_bytes (SemanticVersion_bytes v).

(** ** Precedence *)

(** The comparison of one pair, `if l < r { return -1 }; if l > r { return 1 }`,
    then the continuation. *)
Definition compare_then (lt gt : bool) (rest : Z) : Z :=
  if lt then (-1)%Z else if gt then 1%Z else rest.

Definition compareSemanticIdentifier (left right : string) : Z :=
  let leftNumeric := validNumericIdentifier (bytes left) in
  let rightNumeric := validNumericIdentifier (bytes right) in
  let by_string := compare_then (str_lt left right) (str_lt right left) 0%Z in
  if leftNumeric && rightNumeric then
    compare_then (length (bytes left) <? length (bytes right))%nat
                 (length (bytes right) <? length (bytes left))%nat by_string
  else if negb (Bool.eqb leftNumeric rightNumeric) then
    (if leftNumeric then (-1)%Z else 1%Z)
  else by_string.

(** The index loop over both prerelease lists and the length comparison after it. *)
Fixpoint compare_identifier_lists (left right : list string) : Z :=
  match left, right with
  | [], [] => 0
  | [], _ :: _ => -1
  | _ :: _, [] => 1
  | l :: ls, r :: rs =>
      let comparison := compareSemanticIdentifier l r in
      if negb (Z.eqb comparison 0) then comparison else compare_identifier_lists ls rs
  end.

Definition compare_N (l r : N) (rest : Z) : Z := compare_then (N.ltb l r) (N.ltb r l) rest.

Definition CompareSemanticVersion (left right : SemanticVersion) : Z :=
  compare_N (Major left) (Major right)
    (compare_N (Minor left) (Minor right)
      (compare_N (Patch left) (Patch right)
        match Prerelease left, Prerelease right with
        | [], [] => 0
        | [], _ => 1
        | _, [] => -1
        | l, r => compare_identifier_lists l r
        end)).

(** ** Printing and parsing are inverse *)

Definition version_ok (v : SemanticVersion) : Prop :=
  (Major v <= max_u64)%N /\ (Minor v <= max_u64)%N /\ (Patch v <= max_u64)%N
  /\ Forall (fun i => validSemanticIdentifier true (bytes i) = true) (Prerelease v)
  /\ Forall (fun i => validSemanticIdentifier false (bytes i) = true) (Build v).

Lemma ascii_range_free (p : ascii -> bool) sep l :
  p sep = false -> forallb p l = true -> free_of sep l.
Proof.
  intros Hsep Hl. apply Forall_forall. intros c Hc.
  rewrite forallb_forall in Hl. destruct (Ascii.eqb_spec c sep) as [-> |]; [| done].
  rewrite Hl in Hsep; [done | by apply list_elem_of_In].
Qed.

Lemma digit_identifier c : is_digit c = true -> identifier_char c = true.
Proof. unfold is_digit, identifier_char. intros H. by rewrite H. Qed.

Lemma identifier_graphic c : identifier_char c = true -> graphic_ascii c = true.
Proof.
  unfold identifier_char, graphic_ascii. intros H. go_bool.
  destruct_or!; destruct_and?; split; lia.
Qed.

Lemma validIdentifier_chars b l : validSemanticIdentifier b l = true -> forallb identifier_char l = true.
Proof. destruct l; cbn -[forallb]; [done |]. by destruct (forallb identifier_char _). Qed.

Lemma format_valid n : validNumericIdentifier (format_bytes n) = true.
Proof.
  destruct (format_bytes_spec n) as (Hd & _ & c & l & Hl & Hz). rewrite Hl in *.
  unfold validNumericIdentifier. destruct l as [| c' l]; [done |]. cbn [leading_zero].
  destruct (Ascii.eqb_spec c c_zero) as [-> | _]; [| done].
  by specialize (Hz eq_refl).
Qed.

Lemma numeric_digits l : validNumericIdentifier l = true -> forallb is_digit l = true /\ l <> [].
Proof.
  unfold validNumericIdentifier. destruct l as [| c l]; [done |].
  by destruct (leading_zero (c :: l)).
Qed.

(** The printed version, split into its three regions. *)
Definition core_bytes (v : SemanticVersion) : list ascii :=
  (format_bytes (Major v) ++ c_dot :: format_bytes (Minor v) ++ c_dot :: format_bytes (Patch v))%list.

Lemma SemanticVersion_bytes_regions v :
  SemanticVersion_bytes v = (core_bytes v ++ join_ids c_dash (Prerelease v) ++ join_ids c_plus (Build v))%list.
Proof. unfold SemanticVersion_bytes, core_bytes. by rewrite <- !app_assoc; cbn; rewrite <- app_assoc. Qed.

Lemma join_with_forall (P : ascii -> Prop) sep parts :
  P sep -> Forall (Forall P) parts -> Forall P (join_with sep parts).
Proof.
  intros Hsep H; induction H as [| p parts Hp _ IH]; [by constructor |].
  destruct parts; cbn; [done |]. apply Forall_app; split; [done | by constructor].
Qed.

Lemma forallb_Forall_true {A} (p : A -> bool) l : forallb p l = true <-> Forall (fun x => p x = true) l.
Proof. rewrite forallb_forall, Forall_forall. by setoid_rewrite list_elem_of_In. Qed.

(** Every byte of the regions satisfies a property of digits, identifiers and
    separators. *)
Definition idp (c : ascii) : Prop := identifier_char c = true \/ c = c_dot.

Lemma format_idp (P : ascii -> Prop) n :
  (forall c, is_digit c = true -> P c) -> Forall P (format_bytes n).
Proof.
  intros HP. destruct (format_bytes_spec n) as [Hd _]. apply forallb_Forall_true in Hd.
  eapply Forall_impl; [exact Hd | done].
Qed.

Lemma core_idp (P : ascii -> Prop) v :
  (forall c, is_digit c = true -> P c) -> P c_dot -> Forall P (core_bytes v).
Proof.
  intros HP Hdot. unfold core_bytes.
  repeat first [apply Forall_app; split | apply Forall_cons; split | by apply format_idp | done].
Qed.

Lemma join_ids_idp b sep ids (P : ascii -> Prop) :
  (forall c, identifier_char c = true -> P c) -> P c_dot -> P sep ->
  Forall (fun i => validSemanticIdentifier b (bytes i) = true) ids ->
  Forall P (join_ids sep ids).
Proof.
  intros HP Hdot Hsep Hids. unfold join_ids. destruct ids as [| i ids]; [by constructor |].
  constructor; [done |]. apply join_with_forall; [done |]. apply Forall_map.
  eapply Forall_impl; [exact Hids |]. intros s Hs%validIdentifier_chars. cbn.
  apply forallb_Forall_true in Hs. eapply Forall_impl; [exact Hs | done].
Qed.

Lemma parse_identifiers_join b ids :
  ids <> [] -> Forall (fun i => validSemanticIdentifier b (bytes i) = true) ids ->
  parse_identifiers b (Some (join_with c_dot (map bytes ids))) = Ok ids.
Proof.
  intros Hne Hids. unfold parse_identifiers. rewrite split_join.
  - replace (validSemanticIdentifiers (map bytes ids) b) with true.
    + f_equal. rewrite map_map. erewrite map_ext; [apply map_id |]. apply of_bytes_bytes.
    + unfold validSemanticIdentifiers. destruct ids as [| i ids]; [done |]. symmetry.
      apply (forallb_Forall_true _ (map bytes (i :: ids))). by apply Forall_map.
  - by destruct ids.
  - apply Forall_map. eapply Forall_impl; [exact Hids |]. intros s Hs%validIdentifier_chars; cbn.
    by apply (ascii_range_free identifier_char).
Qed.

Lemma parse_core_format n :
  (n <= max_u64)%N -> forall rest,
  parse_core (format_bytes n :: rest) = (numbers ← parse_core rest; Ok (n :: numbers)).
Proof. intros Hn rest. cbn [parse_core]. by rewrite format_valid, (ParseUint_format _ Hn). Qed.

Lemma digits_free sep l : is_digit sep = false -> Forall (fun c => is_digit c = true) l -> free_of sep l.
Proof. intros Hs Hl. apply forallb_Forall_true in Hl. by apply (ascii_range_free is_digit). Qed.

Lemma core_split v : split_on c_dot (core_bytes v) = map format_bytes [Major v; Minor v; Patch v].
Proof.
  unfold core_bytes. cbn [map].
  rewrite !split_on_app, split_on_free; try done; apply digits_free; try done; by apply format_idp.
Qed.

Lemma core_free sep v :
  is_digit sep = false -> Ascii.eqb c_dot sep = false -> free_of sep (core_bytes v).
Proof.
  intros Hs Hd. apply core_idp; [| done]. intros c Hc.
  destruct (Ascii.eqb_spec c sep) as [-> |]; congruence.
Qed.

Lemma join_ids_plus_free v : version_ok v -> free_of c_plus (join_ids c_dash (Prerelease v)).
Proof.
  intros (_ & _ & _ & Hp & _). apply (join_ids_idp true); try done. intros c Hc.
  destruct (Ascii.eqb_spec c c_plus) as [-> |]; done.
Qed.

Lemma join_ids_build_free v :
  version_ok v -> free_of c_plus (join_with c_dot (map bytes (Build v))).
Proof.
  intros (_ & _ & _ & _ & Hb). apply join_with_forall; [done |]. apply Forall_map.
  eapply Forall_impl; [exact Hb |]. intros s Hs%validIdentifier_chars; cbn.
  by apply (ascii_range_free identifier_char).
Qed.

(** What follows the separator of an optional region. *)
Definition region (ids : list string) : option (list ascii) :=
  match ids with [] => None | _ => Some (join_with c_dot (map bytes ids)) end.

Lemma join_ids_region sep ids :
  join_ids sep ids = match region ids with None => [] | Some r => sep :: r end.
Proof. by destruct ids. Qed.

Lemma split_first_region sep front ids :
  free_of sep front -> split_first sep (front ++ join_ids sep ids)%list = (front, region ids).
Proof.
  intros Hf. rewrite join_ids_region. destruct (region ids) as [r |].
  - by rewrite split_first_app.
  - by rewrite app_nil_r, split_first_free.
Qed.

Lemma parse_identifiers_region b ids :
  Forall (fun i => validSemanticIdentifier b (bytes i) = true) ids ->
  parse_identifiers b (region ids) = Ok ids.
Proof. intros H. destruct ids; [done |]. by apply parse_identifiers_join. Qed.

Lemma SemanticVersion_graphic v :
  version_ok v -> Forall (fun c => graphic_ascii c = true) (SemanticVersion_bytes v).
Proof.
  intros (_ & _ & _ & Hp & Hb). rewrite SemanticVersion_bytes_regions, !Forall_app. split; [| split].
  - apply core_idp; [| done]. by intros c ?%digit_identifier%identifier_graphic.
  - apply (join_ids_idp true); try done. apply identifier_graphic.
  - apply (join_ids_idp false); try done. apply identifier_graphic.
Qed.

Lemma SemanticVersion_one_plus v :
  version_ok v -> (1 <? count_byte c_plus (SemanticVersion_bytes v))%nat = false.
Proof.
  intros Hok. rewrite SemanticVersion_bytes_regions, !count_byte_app, (join_ids_region c_plus).
  rewrite (count_byte_free _ (core_bytes v)) by (by apply core_free).
  rewrite count_byte_free by (by apply join_ids_plus_free).
  destruct (region (Build v)) as [r |] eqn:E; [| done].
  assert (free_of c_plus r) as Hr.
  { pose proof (join_ids_build_free v Hok). unfold region in E. destruct (Build v); congruence. }
  unfold count_byte. rewrite filter_cons_True by done. cbn [length].
  pose proof (count_byte_free _ _ Hr) as Hz. unfold count_byte in Hz. by rewrite Hz.
Qed.

(** Parsing the printed form of a version gives the version back: for
    every version with uint64 numbers and valid identifiers whose text fits
    the length bound, ParseSemanticVersion(v.String()) is v. *)
Theorem parse_print v :
  version_ok v -> (length (SemanticVersion_bytes v) <= MaxSemanticVersionLength)%nat ->
  ParseSemanticVersion (SemanticVersion_String v) = Ok v.
Proof.
  intros Hok Hlen. pose proof Hok as (H1 & H2 & H3 & Hp & Hb).
  unfold ParseSemanticVersion, SemanticVersion_String. rewrite bytes_of_bytes.
  rewrite TrimSpace_graphic by (rewrite bytes_of_bytes; by apply SemanticVersion_graphic).
  rewrite (bool_decide_eq_false_2 (_ = "")).
  2:{ intros E. apply (f_equal bytes) in E. rewrite bytes_of_bytes in E.
      unfold SemanticVersion_bytes in E. by destruct (format_bytes (Major v)). }
  rewrite (bool_decide_eq_true_2 (_ = _)) by done.
  replace (MaxSemanticVersionLength <? _)%nat with false by (symmetry; by apply Nat.ltb_ge).
  rewrite SemanticVersion_one_plus by done. cbn [orb negb]. rewrite !guard_false, !bind_Ok_l.
  rewrite SemanticVersion_bytes_regions, app_assoc, split_first_region
    by (apply Forall_app; split; [by apply core_free | by apply join_ids_plus_free]).
  rewrite split_first_region by (by apply core_free).
  rewrite core_split. cbn [map length Nat.eqb negb]. rewrite guard_false, bind_Ok_l.
  rewrite !parse_core_format by done. cbn [parse_core]. rewrite !bind_Ok_l.
  rewrite !parse_identifiers_region by done. rewrite !bind_Ok_l. by destruct v.
Qed.

(** The other direction. *)
Lemma ParseUint_sound l n : ParseUint l = Some n -> (n <= max_u64)%N /\ dec_value 0 l = n.
Proof.
  unfold ParseUint. destruct (_ && _); [| done]. destruct (N.leb_spec (dec_value 0 l) max_u64); [| done].
  intros [= <-]. done.
Qed.

Lemma parse_identifiers_sound b part ids :
  parse_identifiers b part = Ok ids ->
  Forall (fun i => validSemanticIdentifier b (bytes i) = true) ids
  /\ region ids = part.
Proof.
  unfold parse_identifiers. destruct part as [raw |]; [| by intros [= <-]].
  destruct (validSemanticIdentifiers _ _) eqn:Hv; [| done]. intros [= <-].
  assert (map bytes (map of_bytes (split_on c_dot raw)) = split_on c_dot raw) as Hbb.
  { rewrite map_map. erewrite map_ext; [apply map_id |]. apply bytes_of_bytes. }
  split.
  - unfold validSemanticIdentifiers in Hv. apply Forall_map.
    destruct (split_on c_dot raw) as [| h t]; [done |]. apply forallb_Forall_true in Hv.
    eapply Forall_impl; [exact Hv |]. intros x Hx; cbn. by rewrite bytes_of_bytes.
  - unfold region. rewrite Hbb, join_split.
    pose proof (split_on_nonempty c_dot raw). by destruct (split_on c_dot raw).
Qed.

(** ** Decimal order *)

Lemma dec_value_acc acc l :
  dec_value acc l = (acc * 10 ^ N.of_nat (length l) + dec_value 0 l)%N.
Proof.
  revert acc; induction l as [| c l IH]; intros acc; cbn [dec_value length]; [cbn; lia |].
  rewrite IH, (IH (0 * 10 + digit_val c)%N), Nat2N.inj_succ, N.pow_succ_r'. lia.
Qed.

Lemma digit_val_lt c : is_digit c = true -> (digit_val c < 10)%N.
Proof. unfold is_digit, digit_val. intros H; go_bool. lia. Qed.

Lemma dec_value_lt l : forallb is_digit l = true -> (dec_value 0 l < 10 ^ N.of_nat (length l))%N.
Proof.
  induction l as [| c l IH]; cbn [dec_value length forallb]; [intros; cbn; lia |].
  rewrite andb_true_iff. intros [Hc Hl]. specialize (IH Hl). apply digit_val_lt in Hc.
  rewrite dec_value_acc, Nat2N.inj_succ, N.pow_succ_r'. nia.
Qed.

Lemma dec_value_ge c l :
  is_digit c = true -> c <> c_zero -> (10 ^ N.of_nat (length l) <= dec_value 0 (c :: l))%N.
Proof.
  intros Hc Hz. cbn [dec_value]. rewrite dec_value_acc.
  assert (1 <= digit_val c)%N; [| nia].
  unfold is_digit in Hc; go_bool. unfold digit_val.
  assert (N_of_ascii c <> 48%N); [| lia].
  intros E. apply Hz. rewrite <- (ascii_N_embedding c), E. done.
Qed.

Lemma dec_compare l r :
  forallb is_digit l = true -> forallb is_digit r = true -> length l = length r ->
  N.compare (dec_value 0 l) (dec_value 0 r) = String.compare (of_bytes l) (of_bytes r).
Proof.
  revert r; induction l as [| c l IH]; intros [| d r]; try done.
  cbn [forallb]. rewrite !andb_true_iff. intros [Hc Hl] [Hd Hr] [= Hlen].
  cbn [dec_value]. rewrite (dec_value_acc _ l), (dec_value_acc _ r), <- Hlen.
  pose proof (dec_value_lt l Hl). pose proof (dec_value_lt r Hr) as Hr'. rewrite <- Hlen in Hr'.
  unfold is_digit in Hc, Hd; go_bool. unfold digit_val.
  unfold of_bytes in *; cbn. unfold Ascii.compare. rewrite <- IH by done.
  destruct (N.compare_spec (N_of_ascii c) (N_of_ascii d)) as [E | E | E].
  - rewrite E. set (b := (_ * 10 ^ _)%N).
    destruct (N.compare_spec (dec_value 0 l) (dec_value 0 r));
      [apply N.compare_eq_iff | apply N.compare_lt_iff | apply N.compare_gt_iff]; lia.
  - apply N.compare_lt_iff. nia.
  - apply N.compare_gt_iff. nia.
Qed.

(** A shorter decimal without leading zero is the smaller number. *)
Lemma dec_shorter l r :
  validNumericIdentifier l = true -> validNumericIdentifier r = true ->
  (length l < length r)%nat -> (dec_value 0 l < dec_value 0 r)%N.
Proof.
  intros Hl Hr Hlen. apply numeric_digits in Hl as [Hl Hne].
  pose proof Hr as Hr'. apply numeric_digits in Hr' as [Hrd _].
  destruct r as [| c [| d r]]; [done | destruct l; [done | cbn in Hlen; lia] |].
  unfold validNumericIdentifier in Hr. cbn [leading_zero] in Hr.
  destruct (Ascii.eqb_spec c c_zero) as [-> | Hz]; [done |].
  cbn [forallb] in Hrd. rewrite andb_true_iff in Hrd. destruct Hrd as [Hc _].
  eapply N.lt_le_trans; [by apply dec_value_lt |].
  etrans; [| by apply dec_value_ge]. apply N.pow_le_mono_r; [done |]. cbn [length] in *. lia.
Qed.

Lemma numeric_value_inj l r :
  validNumericIdentifier l = true -> validNumericIdentifier r = true ->
  dec_value 0 l = dec_value 0 r -> l = r.
Proof.
  intros Hl Hr E. destruct (Nat.lt_total (length l) (length r)) as [H | [H | H]].
  - pose proof (dec_shorter _ _ Hl Hr H). lia.
  - apply numeric_digits in Hl as [Hl _], Hr as [Hr _].
    pose proof (dec_compare _ _ Hl Hr H) as Hc. rewrite E, N.compare_refl in Hc. symmetry in Hc.
    apply String.compare_eq_iff in Hc. apply (f_equal bytes) in Hc. by rewrite !bytes_of_bytes in Hc.
  - pose proof (dec_shorter _ _ Hr Hl H). lia.
Qed.

Lemma format_dec_value l : validNumericIdentifier l = true -> format_bytes (dec_value 0 l) = l.
Proof.
  intros Hl. apply numeric_value_inj; [apply format_valid | done |]. apply format_bytes_spec.
Qed.

Lemma parse_core_sound parts numbers :
  parse_core parts = Ok numbers ->
  Forall (fun n => (n <= max_u64)%N) numbers /\ map format_bytes numbers = parts.
Proof.
  revert numbers; induction parts as [| p parts IH]; intros numbers; cbn [parse_core].
  { intros [= <-]. done. }
  intros H. go_ok. apply negb_false_iff in Hm.
  destruct (ParseUint p) as [n |] eqn:Hp; [| done]. go_ok.
  apply ParseUint_sound in Hp as [Hn <-]. destruct (IH _ Hm0) as [Hf <-].
  split; [by constructor | cbn; f_equal; by apply format_dec_value].
Qed.

(** Whatever ParseSemanticVersion accepts is a version with uint64 numbers
    and valid identifiers, within the length bound, whose printed form is the
    input byte for byte. *)
Theorem print_parse value v :
  ParseSemanticVersion value = Ok v ->
  SemanticVersion_String v = value /\ version_ok v
  /\ (length (bytes value) <= MaxSemanticVersionLength)%nat.
Proof.
  unfold ParseSemanticVersion. intros H. go_ok.
  destruct (split_first c_plus (bytes value)) as [front build] eqn:Hs1.
  destruct (split_first c_dash front) as [core pre] eqn:Hs2.
  go_ok. apply parse_core_sound in Hm2 as [Hn Hcore].
  apply parse_identifiers_sound in Hm3 as [Hpre Rpre], Hm4 as [Hbld Rbld].
  pose proof (split_first_spec c_plus (bytes value)) as S1. rewrite Hs1 in S1.
  pose proof (split_first_spec c_dash front) as S2. rewrite Hs2 in S2.
  rename r1 into pids, r2 into bids.
  destruct r0 as [| n1 [| n2 [| n3 []]]]; try done. injection Hk0 as <-.
  rewrite !Forall_cons in Hn. destruct Hn as (Hn1 & Hn2 & Hn3 & _).
  split; [| split; [done |]].
  - apply bytes_inj. unfold SemanticVersion_String. rewrite bytes_of_bytes.
    rewrite SemanticVersion_bytes_regions, !join_ids_region. cbn [Prerelease Build].
    rewrite Rpre, Rbld.
    assert (core_bytes {| Major := n1; Minor := n2; Patch := n3; Prerelease := pids; Build := bids |} = core) as ->.
    { rewrite <- (join_split c_dot core), <- Hcore. done. }
    destruct pre as [pr |], S2 as [S2 _]; destruct build as [bd |], S1 as [S1 _]; rewrite S1, S2;
      cbn [app]; rewrite ?app_nil_r, <- ?app_assoc; done.
  - go_bool. destruct_and?. lia.
Qed.

(** ** Precedence is a total order on (major, minor, patch, prerelease) *)

(** A three-way comparison with values -1, 0, 1 that is a strict total order
    up to equality. *)
Class Comparator {A} (cmp : A -> A -> Z) : Prop := {
  cmp_range x y : cmp x y = (-1)%Z \/ cmp x y = 0%Z \/ cmp x y = 1%Z;
  cmp_eq x y : cmp x y = 0%Z <-> x = y;
  cmp_anti x y : cmp y x = (- cmp x y)%Z;
  cmp_trans x y z : cmp x y = (-1)%Z -> cmp y z = (-1)%Z -> cmp x z = (-1)%Z;
}.

Definition lex_cmp {A B} (ca : A -> A -> Z) (cb : B -> B -> Z) (p q : A * B) : Z :=
  if Z.eqb (ca p.1 q.1) 0 then cb p.2 q.2 else ca p.1 q.1.

#[export] Instance lex_Comparator {A B} (ca : A -> A -> Z) (cb : B -> B -> Z) :
  Comparator ca -> Comparator cb -> Comparator (lex_cmp ca cb).
Proof.
  intros Ha Hb. unfold lex_cmp. split.
  - intros [x x'] [y y']; cbn. destruct (Z.eqb_spec (ca x y) 0); apply cmp_range.
  - intros [x x'] [y y']; cbn. destruct (Z.eqb_spec (ca x y) 0) as [E | E].
    + apply cmp_eq in E as ->. rewrite cmp_eq. split; [by intros -> | by intros [= ->]].
    + split; [done |]. intros [= -> _]. by rewrite cmp_eq in E.
  - intros [x x'] [y y']; cbn. rewrite (cmp_anti (cmp := ca) x y).
    destruct (Z.eqb_spec (ca x y) 0) as [E | E]; [rewrite E; apply cmp_anti |].
    destruct (Z.eqb_spec (- ca x y) 0); lia.
  - intros [x x'] [y y'] [z z']; cbn.
    destruct (Z.eqb_spec (ca x y) 0) as [E | E], (Z.eqb_spec (ca y z) 0) as [F | F];
      rewrite ?cmp_eq in E, F; subst.
    + rewrite (proj2 (cmp_eq (cmp := ca) z z) eq_refl); cbn. apply (cmp_trans (cmp := cb)).
    + intros _ H. rewrite H. done.
    + intros H _. rewrite H. done.
    + intros H1 H2. by rewrite (cmp_trans (cmp := ca) _ _ _ H1 H2).
Qed.

(** Pulling a comparison back along an injection. *)
Lemma pullback_Comparator {A B} (f : A -> B) (cb : B -> B -> Z) :
  Inj (=) (=) f -> Comparator cb -> Comparator (fun x y => cb (f x) (f y)).
Proof.
  intros Hf Hb. split; intros.
  - apply cmp_range.
  - rewrite cmp_eq. split; [apply (inj f) | by intros ->].
  - apply cmp_anti.
  - by eapply cmp_trans.
Qed.

Lemma Comparator_ext {A} (c d : A -> A -> Z) :
  (forall x y, c x y = d x y) -> Comparator d -> Comparator c.
Proof.
  intros E Hd. split; intros; rewrite ?E in *.
  - apply cmp_range.
  - apply cmp_eq.
  - apply cmp_anti.
  - by eapply cmp_trans.
Qed.

Definition N_cmp (l r : N) : Z := compare_N l r 0.
Definition str_cmp (l r : string) : Z := compare_then (str_lt l r) (str_lt r l) 0.

#[export] Instance N_Comparator : Comparator N_cmp.
Proof.
  split; unfold N_cmp, compare_N, compare_then; intros;
    repeat match goal with
    | |- context [N.ltb ?a ?b] => destruct (N.ltb_spec a b)
    | H : context [N.ltb ?a ?b] |- _ => destruct (N.ltb_spec a b)
    end; try split; try lia.
Qed.

Lemma str_compare_eq s t : String.compare s t = Eq <-> s = t.
Proof.
  split; [apply String.compare_eq_iff | intros ->].
  induction t as [| c t IH]; [done |]. cbn. unfold Ascii.compare. by rewrite N.compare_refl.
Qed.

Lemma str_compare_trans s t u :
  String.compare s t = Lt -> String.compare t u = Lt -> String.compare s u = Lt.
Proof.
  revert t u; induction s as [| c s IH]; intros [| d t] [| e u]; cbn; try done.
  unfold Ascii.compare.
  destruct (N.compare_spec (N_of_ascii c) (N_of_ascii d)) as [E | E | E];
  destruct (N.compare_spec (N_of_ascii d) (N_of_ascii e)) as [F | F | F]; try done; intros H1 H2.
  - rewrite E, F, N.compare_refl. eauto.
  - rewrite E. by apply N.compare_lt_iff in F as ->.
  - rewrite <- F. by apply N.compare_lt_iff in E as ->.
  - assert (N.compare (N_of_ascii c) (N_of_ascii e) = Lt) as ->; [apply N.compare_lt_iff; lia | done].
Qed.

#[export] Instance str_Comparator : Comparator str_cmp.
Proof.
  assert (forall s t, str_cmp s t = match String.compare s t with Lt => -1 | Eq => 0 | Gt => 1 end)%Z as E.
  { intros s t. unfold str_cmp, compare_then, str_lt. rewrite (String.compare_antisym t s).
    by destruct (String.compare s t). }
  eapply (Comparator_ext _ _ E). split.
  - intros x y. destruct (String.compare x y); auto.
  - intros x y. rewrite <- str_compare_eq. by destruct (String.compare x y).
  - intros x y. rewrite (String.compare_antisym y x). by destruct (String.compare x y).
  - intros x y z. destruct (String.compare x y) eqn:H1, (String.compare y z) eqn:H2; try done.
    by rewrite (str_compare_trans _ _ _ H1 H2).
Qed.

(** An identifier compares by class (numeric first), then, when numeric, by
    length, then bytewise. *)
Definition identifier_key (s : string) : (N * N) * string :=
  if validNumericIdentifier (bytes s) then ((0, N.of_nat (length (bytes s))), s)%N else ((1, 0), s)%N.

Lemma N_cmp_of_nat a b :
  N_cmp (N.of_nat a) (N.of_nat b) = compare_then (a <? b)%nat (b <? a)%nat 0.
Proof.
  unfold N_cmp, compare_N. f_equal; apply eq_true_iff_eq; rewrite Nat.ltb_lt, N.ltb_lt; lia.
Qed.

Lemma compareSemanticIdentifier_key l r :
  compareSemanticIdentifier l r
  = lex_cmp (lex_cmp N_cmp N_cmp) str_cmp (identifier_key l) (identifier_key r).
Proof.
  unfold compareSemanticIdentifier, identifier_key, lex_cmp.
  destruct (validNumericIdentifier (bytes l)), (validNumericIdentifier (bytes r));
    cbn [andb negb Bool.eqb fst snd]; [| done..].
  change (Z.eqb (N_cmp 0 0) 0) with true. rewrite N_cmp_of_nat.
  unfold compare_then at 1 3 4.
  by destruct (length (bytes l) <? length (bytes r))%nat, (length (bytes r) <? length (bytes l))%nat.
Qed.

#[export] Instance identifier_Comparator : Comparator compareSemanticIdentifier.
Proof.
  apply (Comparator_ext _ _ compareSemanticIdentifier_key), pullback_Comparator; [| apply _].
  intros s t. unfold identifier_key. by destruct (validNumericIdentifier _), (validNumericIdentifier _); intros [=].
Qed.

#[export] Instance identifier_lists_Comparator : Comparator compare_identifier_lists.
Proof.
  split.
  - intros l; induction l as [| x l IH]; intros [| y r]; cbn; auto.
    destruct (negb _); [apply cmp_range | apply IH].
  - intros l; induction l as [| x l IH]; intros [| y r]; cbn; try done.
    destruct (Z.eqb_spec (compareSemanticIdentifier x y) 0) as [E | E]; cbn.
    + apply cmp_eq in E as ->. rewrite IH. split; [by intros -> | by intros [= ->]].
    + split; [done |]. intros [= -> _]. by rewrite cmp_eq in E.
  - intros l; induction l as [| x l IH]; intros [| y r]; cbn; try done.
    rewrite (cmp_anti (cmp := compareSemanticIdentifier) x y).
    destruct (Z.eqb_spec (compareSemanticIdentifier x y) 0) as [E | E]; cbn.
    + rewrite E. cbn. apply IH.
    + by destruct (Z.eqb_spec (- compareSemanticIdentifier x y) 0); [lia |].
  - intros l; induction l as [| x l IH]; intros [| y r] [| z t]; cbn; try done.
    destruct (Z.eqb_spec (compareSemanticIdentifier x y) 0) as [E | E],
      (Z.eqb_spec (compareSemanticIdentifier y z) 0) as [F | F]; cbn; rewrite ?cmp_eq in E, F; subst.
    + rewrite (proj2 (cmp_eq (cmp := compareSemanticIdentifier) z z) eq_refl); cbn. apply IH.
    + intros _ H. by rewrite H.
    + intros H _. by rewrite H.
    + intros H1 H2. by rewrite (cmp_trans _ _ _ H1 H2).
Qed.

(** A release, without prerelease identifiers, is above every prerelease. *)
Definition release_key (ids : list string) : N * list string :=
  match ids with [] => (1, [])%N | _ => (0, ids)%N end.

Definition precedence_key (v : SemanticVersion) : N * (N * (N * (N * list string))) :=
  (Major v, (Minor v, (Patch v, release_key (Prerelease v)))).

Definition key_cmp := lex_cmp N_cmp (lex_cmp N_cmp (lex_cmp N_cmp (lex_cmp N_cmp compare_identifier_lists))).

Lemma compare_N_lex l r rest :
  compare_N l r rest = if Z.eqb (N_cmp l r) 0 then rest else N_cmp l r.
Proof. unfold N_cmp, compare_N, compare_then. by destruct (N.ltb l r), (N.ltb r l). Qed.

Lemma CompareSemanticVersion_key l r :
  CompareSemanticVersion l r = key_cmp (precedence_key l) (precedence_key r).
Proof.
  unfold CompareSemanticVersion, key_cmp, lex_cmp, precedence_key. cbn [fst snd].
  rewrite !compare_N_lex. do 3 (destruct (Z.eqb _ 0); [| done]).
  by destruct (Prerelease l), (Prerelease r).
Qed.

Lemma precedence_key_inj l r :
  precedence_key l = precedence_key r <->
  Major l = Major r /\ Minor l = Minor r /\ Patch l = Patch r /\ Prerelease l = Prerelease r.
Proof.
  unfold precedence_key, release_key. split.
  - destruct (Prerelease l), (Prerelease r); intros [=]; subst; auto.
  - by intros (-> & -> & -> & ->).
Qed.

(** CompareSemanticVersion is a total preorder: three-valued,
    antisymmetric, transitive, and zero exactly when major, minor, patch and
    prerelease agree (build metadata never counts). *)
Theorem CompareSemanticVersion_order a b c :
  (CompareSemanticVersion a b = -1 \/ CompareSemanticVersion a b = 0 \/ CompareSemanticVersion a b = 1)%Z
  /\ CompareSemanticVersion b a = (- CompareSemanticVersion a b)%Z
  /\ (CompareSemanticVersion a b <= 0 -> CompareSemanticVersion b c <= 0 -> CompareSemanticVersion a c <= 0)%Z
  /\ (CompareSemanticVersion a b = 0%Z <->
      Major a = Major b /\ Minor a = Minor b /\ Patch a = Patch b /\ Prerelease a = Prerelease b).
Proof.
  rewrite !CompareSemanticVersion_key, <- precedence_key_inj.
  assert (Comparator key_cmp) as Hc by (unfold key_cmp; apply _).
  set (x := precedence_key a). set (y := precedence_key b). set (z := precedence_key c).
  split; [apply cmp_range | split; [apply cmp_anti | split; [| apply cmp_eq]]].
  destruct (cmp_range x y) as [E | [E | E]], (cmp_range y z) as [F | [F | F]]; rewrite E, F; try lia; intros _ _.
  - by rewrite (cmp_trans _ _ _ E F).
  - apply cmp_eq in F as <-. by rewrite E.
  - apply cmp_eq in E as ->. by rewrite F.
  - apply cmp_eq in E as ->. by rewrite F.
Qed.

(** Numeric identifiers compare by value: on two numeric identifiers
    without leading zeros, comparing lengths and then bytes is comparing the
    numbers they denote, and a numeric identifier is below an alphanumeric one. *)
Theorem compareSemanticIdentifier_numeric l r :
  validNumericIdentifier (bytes l) = true ->
  (validNumericIdentifier (bytes r) = true ->
   compareSemanticIdentifier l r = N_cmp (dec_value 0 (bytes l)) (dec_value 0 (bytes r)))
  /\ (validNumericIdentifier (bytes r) = false -> compareSemanticIdentifier l r = (-1)%Z).
Proof.
  intros Hl. split; intros Hr; unfold compareSemanticIdentifier; rewrite Hl, Hr; [| done]. cbn [andb].
  unfold N_cmp, compare_N, compare_then.
  destruct (Nat.ltb_spec (length (bytes l)) (length (bytes r))) as [H | H].
  { by rewrite (proj2 (N.ltb_lt _ _) (dec_shorter _ _ Hl Hr H)). }
  destruct (Nat.ltb_spec (length (bytes r)) (length (bytes l))) as [H' | H'].
  { pose proof (dec_shorter _ _ Hr Hl H') as Hlt. rewrite (proj2 (N.ltb_lt _ _) Hlt).
    by rewrite (proj2 (N.ltb_ge (dec_value 0 (bytes l)) _)) by lia. }
  apply numeric_digits in Hl as [Hl _], Hr as [Hr _].
  pose proof (dec_compare _ _ Hl Hr ltac:(lia)) as Hc. rewrite !of_bytes_bytes in Hc.
  unfold str_lt, N.ltb. rewrite (String.compare_antisym r l), (N.compare_antisym (dec_value 0 (bytes l))).
  rewrite <- Hc. by destruct (N.compare _ _).
Qed.

Definition ex_version : SemanticVersion :=
  {| Major := 1; Minor := 20; Patch := 3; Prerelease := ["rc"; "11"]; Build := ["sha"; "007"] |}.

Lemma ex_version_ok : version_ok ex_version.
Proof. unfold version_ok; cbn. repeat split; try done; repeat constructor. Qed.

Lemma parse_print_witness : ParseSemanticVersion "1.20.3-rc.11+sha.007" = Ok ex_version.
Proof. apply (parse_print ex_version ex_version_ok). vm_compute; lia. Defined.

Lemma print_parse_witness : SemanticVersion_String ex_version = "1.20.3-rc.11+sha.007".
Proof. apply (print_parse "1.20.3-rc.11+sha.007" ex_version). vm_compute; reflexivity. Defined.

Lemma compareSemanticIdentifier_numeric_witness : compareSemanticIdentifier "9" "11" = (-1)%Z.
Proof.
  refine (proj1 (compareSemanticIdentifier_numeric "9" "11" _) _); vm_compute; reflexivity.
Defined.
