(* ===== verification/Fence.v ===== *)
(** * core/fence.go and core/effect.go

    Execution fences (what an effect boundary checks against the current
    authority facts), revocation policies, replacement permits, effect intents
    and the restricted list of recovery effects. *)

From S2P Require Import Prelude GoStd Errors Identity State.

(** ** fence.go *)

Inductive ValidationMode :=
| ValidationOnlineStrict | ValidationLeasedOffline | ValidationModeOther (raw : string).
#[export] Instance ValidationMode_eq_dec : EqDecision ValidationMode.
Proof. solve_decision. Defined.

Record RevocationPolicy := {
  rp_RiskClass : string;
  rp_ValidationMode : ValidationMode;
  rp_MaxRevocationLag : Duration;
  rp_MaxClockSkew : Duration;
  rp_TokenScope : string;
  rp_ConflictEffectDomain : string;
}.

Definition RevocationPolicy_Validate (p : RevocationPolicy) : result unit :=
  guard (blank (rp_RiskClass p) || blank (rp_ConflictEffectDomain p))
    ErrorInvalidArgument ReasonInvalidReference ;;
  match rp_ValidationMode p with
  | ValidationOnlineStrict => Ok tt
  | ValidationLeasedOffline =>
      guard (Z.leb (rp_MaxRevocationLag p) 0 || Z.leb (rp_MaxClockSkew p) 0 || blank (rp_TokenScope p))
        ErrorPreconditionFailed ReasonOfflineRevocationPolicyMissing
  | ValidationModeOther _ => fail ErrorInvalidArgument ReasonOfflineRevocationPolicyMissing
  end.

Inductive FenceBoundaryScope :=
| FenceBoundaryActivation | FenceBoundaryInstance | FenceBoundaryOther (raw : string).
#[export] Instance FenceBoundaryScope_eq_dec : EqDecision FenceBoundaryScope.
Proof. solve_decision. Defined.

Record ExecutionFence := {
  fence_BoundaryScope : FenceBoundaryScope;
  fence_Scope : ExecutionScope;
  fence_CapabilityGrantDigest : Digest;
  fence_EffectIntentID : string;
  fence_EffectIntentRevision : N;
  fence_CanonicalPayloadDigest : Digest;
  fence_ExpiresAt : Time;
}.
#[export] Instance ExecutionFence_eq_dec : EqDecision ExecutionFence.
Proof. solve_decision. Defined.

Definition ExecutionFence_Validate (f : ExecutionFence) : result unit :=
  ExecutionScope_Validate (fence_Scope f) ;;
  guard (negb (bool_decide (fence_BoundaryScope f = FenceBoundaryActivation))
         && negb (bool_decide (fence_BoundaryScope f = FenceBoundaryInstance)))
    ErrorInvalidArgument ReasonInvalidReference ;;
  guard (bool_decide (fence_BoundaryScope f = FenceBoundaryInstance)
         && bool_decide (sc_SandboxLease (fence_Scope f) = None))
    ErrorInvalidArgument ReasonInvalidReference ;;
  Digest_Validate (fence_CapabilityGrantDigest f) ;;
  guard (blank (fence_EffectIntentID f) || N.eqb (fence_EffectIntentRevision f) 0)
    ErrorInvalidArgument ReasonEffectIntentMissing ;;
  Digest_Validate (fence_CanonicalPayloadDigest f) ;;
  guard (IsZero (fence_ExpiresAt f)) ErrorInvalidArgument ReasonEffectFenceStale.

Record CurrentFenceFacts := {
  cff_Scope : ExecutionScope;
  cff_CapabilityGrantDigest : Digest;
}.

Definition sameOptionalLease (left right : option SandboxLeaseRef) : bool :=
  match left, right with
  | Some l, Some r => bool_decide (l = r)
  | None, None => true
  | _, _ => false
  end.

Definition CheckFence (fence : ExecutionFence) (current : CurrentFenceFacts) (now : Time) : result unit :=
  let fs := fence_Scope fence in
  let cs := cff_Scope current in
  ExecutionFence_Validate fence ;;
  ExecutionScope_Validate cs ;;
  guard (IsZero now || negb (Before now (fence_ExpiresAt fence)))
    ErrorPreconditionFailed ReasonEffectFenceStale ;;
  guard (bool_decide (fence_BoundaryScope fence = FenceBoundaryInstance)
         && bool_decide (sc_SandboxLease cs = None)) ErrorPreconditionFailed ReasonEffectFenceStale ;;
  guard (negb (bool_decide (sc_Identity fs = sc_Identity cs))
         || negb (bool_decide (sc_Instance fs = sc_Instance cs))
         || negb (N.eqb (sc_AuthorityEpoch fs) (sc_AuthorityEpoch cs))
         || negb (sameOptionalLease (sc_SandboxLease fs) (sc_SandboxLease cs))
         || negb (bool_decide (lin_ID (sc_Lineage fs) = lin_ID (sc_Lineage cs)))
         || negb (bool_decide (lin_PlanDigest (sc_Lineage fs) = lin_PlanDigest (sc_Lineage cs)))
         || negb (bool_decide (fence_CapabilityGrantDigest fence = cff_CapabilityGrantDigest current)))
    ErrorPreconditionFailed ReasonEffectFenceStale.

Record ReplacementPermit := {
  rep_OldInstance : InstanceRef;
  rep_NewInstance : InstanceRef;
  rep_ConflictEffectDomain : string;
  FenceIsolationConfirmed : bool;
  NetworkIsolationConfirmed : bool;
  SecretPathRevoked : bool;
  RemoteDomainIsolated : bool;
  rep_IssuedAt : Time;
}.

Definition ReplacementPermit_Validate (p : ReplacementPermit) : result unit :=
  InstanceRef_Validate (rep_OldInstance p) ;;
  InstanceRef_Validate (rep_NewInstance p) ;;
  guard (N.leb (inst_Epoch (rep_NewInstance p)) (inst_Epoch (rep_OldInstance p))
         || bool_decide (inst_ID (rep_NewInstance p) = inst_ID (rep_OldInstance p))
         || blank (rep_ConflictEffectDomain p)) ErrorPreconditionFailed ReasonInvalidReference ;;
  guard (negb (FenceIsolationConfirmed p) || negb (NetworkIsolationConfirmed p)
         || negb (SecretPathRevoked p) || negb (RemoteDomainIsolated p) || IsZero (rep_IssuedAt p))
    ErrorPreconditionFailed ReasonFencedInstance.

(** ** effect.go *)

Inductive EffectKind :=
| EffectKindDataDisclosure | EffectKindCostConsumption | EffectKindResourceLifecycle
| EffectKindExternalMutation | EffectKindProviderContinuation | EffectKindHostedExecution
| EffectKindCacheState | EffectKindFormalCommit | EffectKindCredentialOperation
| EffectKindSafetyControl | EffectKindOther (raw : string).
#[export] Instance EffectKind_eq_dec : EqDecision EffectKind.
Proof. solve_decision. Defined.

Inductive IdempotencyClass :=
| IdempotencyProviderKey | IdempotencyQueryable | IdempotencyNonRetryable
| IdempotencyOther (raw : string).
#[export] Instance IdempotencyClass_eq_dec : EqDecision IdempotencyClass.
Proof. solve_decision. Defined.

Record EffectIntent := {
  ei_ID : string;
  ei_Revision : N;
  ei_Kind : EffectKind;
  ei_RiskClass : string;
  ei_CanonicalPayloadDigest : Digest;
  ei_Target : string;
  ei_ConflictEffectDomain : string;
  ei_Ownership : EffectOwnership;
  ei_AuthorizationRef : string;
  ei_BudgetReservationRef : string;
  ei_IdempotencyClass : IdempotencyClass;
  ei_PersistedAt : Time;
}.
#[export] Instance EffectIntent_eq_dec : EqDecision EffectIntent.
Proof. solve_decision. Defined.

Definition validEffectKind (kind : EffectKind) : bool :=
  match kind with EffectKindOther _ => false | _ => true end.

Definition EffectIntent_Validate (i : EffectIntent) : result unit :=
  guard (blank (ei_ID i) || N.eqb (ei_Revision i) 0) ErrorInvalidArgument ReasonEffectIntentMissing ;;
  guard (negb (validEffectKind (ei_Kind i)) || blank (ei_RiskClass i) || blank (ei_Target i)
         || blank (ei_ConflictEffectDomain i)) ErrorInvalidArgument ReasonInvalidReference ;;
  Digest_Validate (ei_CanonicalPayloadDigest i) ;;
  EffectOwnership_Validate (ei_Ownership i) ;;
  guard (blank (ei_AuthorizationRef i)) ErrorForbidden ReasonEffectAuthorizationMissing ;;
  guard (IsZero (ei_PersistedAt i)) ErrorUnavailable ReasonEvidenceUnavailable ;;
  match ei_IdempotencyClass i with
  | IdempotencyProviderKey | IdempotencyQueryable | IdempotencyNonRetryable => Ok tt
  | IdempotencyOther _ => fail ErrorInvalidArgument ReasonInvalidReference
  end.

Definition ValidateEffectDispatch (intent : EffectIntent) (fence : ExecutionFence)
    (current : CurrentFenceFacts) (now : Time) : result unit :=
  EffectIntent_Validate intent ;;
  guard (negb (bool_decide (fence_EffectIntentID fence = ei_ID intent))
         || negb (N.eqb (fence_EffectIntentRevision fence) (ei_Revision intent))
         || negb (bool_decide (fence_CanonicalPayloadDigest fence = ei_CanonicalPayloadDigest intent)))
    ErrorPreconditionFailed ReasonEffectFenceStale ;;
  CheckFence fence current now.

Inductive RecoveryEffectKind :=
| RecoveryInspect | RecoveryOriginalSettlement | RecoveryEmergencySafety
| RecoveryCleanupRelease | RecoveryCompensation | RecoveryEffectOther (raw : string).

Record RecoveryEffectRequest := {
  re_Kind : RecoveryEffectKind;
  ExternalEffect : bool;
  ExpandsAuthority : bool;
  HasFreshIntent : bool;
  HasCurrentFence : bool;
  HasCurrentAuthority : bool;
  HasApplicableBudget : bool;
  HasWriteAheadEvidence : bool;
  OriginalEffectConfirmed : bool;
  CompensationAuthorized : bool;
}.

Definition hasRecoveryGuards (request : RecoveryEffectRequest) : bool :=
  HasFreshIntent request && HasCurrentFence request && HasCurrentAuthority request
  && HasApplicableBudget request && HasWriteAheadEvidence request.

Definition ValidateRecoveryEffect (certainty : ExecutionCertainty) (request : RecoveryEffectRequest)
    : result unit :=
  if certainty_is certainty CertaintyConfirmed then Ok tt
  else
    guard (ExpandsAuthority request) ErrorForbidden ReasonRecoveryEffectNotPermitted ;;
    let permitted :=
      match re_Kind request with
      | RecoveryInspect | RecoveryOriginalSettlement =>
          negb (ExternalEffect request) || hasRecoveryGuards request
      | RecoveryEmergencySafety => true
      | RecoveryCleanupRelease => hasRecoveryGuards request
      | RecoveryCompensation =>
          OriginalEffectConfirmed request && CompensationAuthorized request && hasRecoveryGuards request
      | RecoveryEffectOther _ => false
      end in
    if permitted then Ok tt else fail ErrorForbidden ReasonRecoveryEffectNotPermitted.

(** ** What a fence promises *)

(** The fence is exactly the current authority: same identity, lineage,
    instance, authority epoch, sandbox lease and capability grant, unexpired. *)
Record fence_current (f : ExecutionFence) (current : CurrentFenceFacts) (now : Time) : Prop := {
  fc_valid : ExecutionFence_Validate f = Ok tt;
  fc_facts : ExecutionScope_Validate (cff_Scope current) = Ok tt;
  fc_scope : fence_Scope f = cff_Scope current;
  fc_grant : fence_CapabilityGrantDigest f = cff_CapabilityGrantDigest current;
  fc_now : instant now <> 0%Z;
  fc_live : (instant now < instant (fence_ExpiresAt f))%Z;
}.

Lemma sameOptionalLease_eq l r : sameOptionalLease l r = true <-> l = r.
Proof.
  destruct l, r; cbn; [| done..]. rewrite bool_decide_eq_true. split; [by intros -> | by intros [=]].
Qed.

(** CheckFence passes exactly when the fence is well formed, has not
    expired, and equals the current facts in every authority dimension: the
    seven comparisons of the code amount to equality of the whole execution
    scope and of the capability grant. *)
Theorem CheckFence_iff f current now :
  CheckFence f current now = Ok tt <-> fence_current f current now.
Proof.
  unfold CheckFence, IsZero, Before. split.
  - intros H. go_ok. go_bool. destruct_and!.
    rewrite sameOptionalLease_eq in *. split; try done.
    destruct (fence_Scope f) as [? [] ? ? ?], (cff_Scope current) as [? [] ? ? ?]; cbn in *; congruence.
  - intros [Hv Hf Hs Hg Hn Hl]. rewrite Hs, Hg. go_run.
    rewrite !seq_guard_Ok, guard_Ok. unfold ExecutionFence_Validate in Hv. go_ok. rewrite Hs in *.
    repeat split; [by go_bool | done |].
    rewrite !bool_decide_eq_true_2, N.eqb_refl by done. cbn.
    by rewrite (proj2 (sameOptionalLease_eq _ _)).
Qed.

(** A replaced instance is fenced.  Under a valid replacement permit no
    fence bound to the old instance passes against facts that name the new
    one, so no effect intent can be dispatched with it, whatever the intent
    and the clock say. *)
Theorem replaced_instance_fenced permit f intent current now :
  ReplacementPermit_Validate permit = Ok tt ->
  sc_Instance (fence_Scope f) = rep_OldInstance permit ->
  sc_Instance (cff_Scope current) = rep_NewInstance permit ->
  CheckFence f current now <> Ok tt /\ ValidateEffectDispatch intent f current now <> Ok tt.
Proof.
  intros Hp Hold Hnew.
  assert (CheckFence f current now <> Ok tt) as Hno.
  { intros [_ _ Hs _ _ _]%CheckFence_iff.
    assert (rep_OldInstance permit = rep_NewInstance permit) as E by congruence.
    unfold ReplacementPermit_Validate in Hp. go_ok. go_bool. destruct_and!.
    rewrite E in *. lia. }
  split; [done |]. unfold ValidateEffectDispatch. intros H. go_ok. done.
Qed.

(** A dispatch is admitted only for a persisted, authorised intent whose
    identity, revision and payload digest are the ones the fence was issued
    for, under a current fence; and every such dispatch is admitted. *)
Theorem ValidateEffectDispatch_iff intent f current now :
  ValidateEffectDispatch intent f current now = Ok tt <->
  EffectIntent_Validate intent = Ok tt
  /\ fence_EffectIntentID f = ei_ID intent
  /\ fence_EffectIntentRevision f = ei_Revision intent
  /\ fence_CanonicalPayloadDigest f = ei_CanonicalPayloadDigest intent
  /\ fence_current f current now.
Proof.
  unfold ValidateEffectDispatch. rewrite seq_Ok, seq_guard_Ok, CheckFence_iff.
  go_bool. tauto.
Qed.

(** Outside confirmed certainty only the restricted recovery effects pass,
    none that expands authority: local inspection and emergency safety freely,
    external inspection, settlement and cleanup only with the five recovery
    guards, compensation only for a confirmed effect with its own
    authorisation; any other kind is refused. *)
Theorem ValidateRecoveryEffect_iff certainty request :
  ValidateRecoveryEffect certainty request = Ok tt <->
  certainty = CertaintyConfirmed
  \/ ExpandsAuthority request = false
     /\ match re_Kind request with
        | RecoveryInspect | RecoveryOriginalSettlement =>
            ExternalEffect request = false \/ hasRecoveryGuards request = true
        | RecoveryEmergencySafety => True
        | RecoveryCleanupRelease => hasRecoveryGuards request = true
        | RecoveryCompensation =>
            OriginalEffectConfirmed request = true /\ CompensationAuthorized request = true
            /\ hasRecoveryGuards request = true
        | RecoveryEffectOther _ => False
        end.
Proof.
  unfold ValidateRecoveryEffect, certainty_is.
  destruct (decide (certainty = CertaintyConfirmed)) as [-> | Hc]; [split; auto |].
  rewrite bool_decide_eq_false_2, seq_guard_Ok by done.
  destruct (re_Kind request), (ExternalEffect request), (hasRecoveryGuards request),
    (OriginalEffectConfirmed request), (CompensationAuthorized request); cbn;
    unfold fail; intuition congruence.
Qed.

(** ** Examples *)

Definition ex_time (n : Z) : Time := {| instant := n; rep := 0 |}.
Definition ex_fence : ExecutionFence :=
  {| fence_BoundaryScope := FenceBoundaryInstance; fence_Scope := ex_bound_scope;
     fence_CapabilityGrantDigest := ex_digest; fence_EffectIntentID := "intent-1";
     fence_EffectIntentRevision := 1; fence_CanonicalPayloadDigest := ex_digest2;
     fence_ExpiresAt := ex_time 100 |}.
Definition ex_facts (instance : InstanceRef) : CurrentFenceFacts :=
  {| cff_Scope := {| sc_Identity := sc_Identity ex_scope; sc_Lineage := sc_Lineage ex_scope;
                     sc_Instance := instance; sc_SandboxLease := Some ex_lease;
                     sc_AuthorityEpoch := 1 |};
     cff_CapabilityGrantDigest := ex_digest |}.
Definition ex_intent : EffectIntent :=
  {| ei_ID := "intent-1"; ei_Revision := 1; ei_Kind := EffectKindExternalMutation; ei_RiskClass := "high";
     ei_CanonicalPayloadDigest := ex_digest2; ei_Target := "target"; ei_ConflictEffectDomain := "domain";
     ei_Ownership := {| IntentOwner := {| own_Domain := "d"; own_ID := "o" |};
                        SettlementOwner := {| own_Domain := "d"; own_ID := "o" |} |};
     ei_AuthorizationRef := "auth"; ei_BudgetReservationRef := "";
     ei_IdempotencyClass := IdempotencyQueryable; ei_PersistedAt := ex_time 5 |}.
Definition ex_new_instance : InstanceRef := {| inst_ID := "instance-2"; inst_Epoch := 2 |}.
Definition ex_permit : ReplacementPermit :=
  {| rep_OldInstance := sc_Instance ex_scope; rep_NewInstance := ex_new_instance;
     rep_ConflictEffectDomain := "domain"; FenceIsolationConfirmed := true;
     NetworkIsolationConfirmed := true; SecretPathRevoked := true; RemoteDomainIsolated := true;
     rep_IssuedAt := ex_time 7 |}.

Example ex_fence_passes :
  ValidateEffectDispatch ex_intent ex_fence (ex_facts (sc_Instance ex_scope)) (ex_time 10) = Ok tt.
Proof. vm_compute; reflexivity. Qed.

Lemma replaced_instance_fenced_witness :
  ReplacementPermit_Validate ex_permit = Ok tt
  /\ CheckFence ex_fence (ex_facts ex_new_instance) (ex_time 10) <> Ok tt.
Proof.
  assert (ReplacementPermit_Validate ex_permit = Ok tt) as H by (vm_compute; reflexivity).
  split; [exact H |].
  apply (replaced_instance_fenced ex_permit ex_fence ex_intent (ex_facts ex_new_instance) (ex_time 10) H);
    reflexivity.
Defined.
