(* ===== verification/RunFact.v ===== *)
(** * core/run.go and control/run_fact.go

    Run records, completion claims, termination reports, and the transition
    rule of the persisted run fact. *)

From S2P Require Import Prelude GoStd Errors Identity State.

(** ** run.go *)

Inductive RunStatus :=
| RunPending | RunRunning | RunStopping | RunTerminal | RunStatusOther (raw : string).
#[export] Instance RunStatus_eq_dec : EqDecision RunStatus.
Proof. solve_decision. Defined.

(** [OutcomeUnset] is the empty string, the zero value. *)
Inductive ExecutionOutcome :=
| OutcomeUnset
| OutcomeCompleted | OutcomeCancelled | OutcomeFailed | OutcomeLost | OutcomeIndeterminate
| OutcomeNeedsReconciliation | OutcomeOther (raw : string).
#[export] Instance ExecutionOutcome_eq_dec : EqDecision ExecutionOutcome.
Proof. solve_decision. Defined.

Inductive RunCompletionClaimKind :=
| RunClaimCompleted | RunClaimCancelled | RunClaimFailed | RunClaimIndeterminate
| RunClaimOther (raw : string).
#[export] Instance RunCompletionClaimKind_eq_dec : EqDecision RunCompletionClaimKind.
Proof. solve_decision. Defined.

Definition validExecutionOutcome (value : ExecutionOutcome) : bool :=
  match value with
  | OutcomeCompleted | OutcomeCancelled | OutcomeFailed | OutcomeLost | OutcomeIndeterminate
  | OutcomeNeedsReconciliation => true
  | _ => false
  end.

Definition validRunCompletionClaimKind (value : RunCompletionClaimKind) : bool :=
  match value with
  | RunClaimCompleted | RunClaimCancelled | RunClaimFailed | RunClaimIndeterminate => true
  | RunClaimOther _ => false
  end.

Record RunCompletionClaim := {
  cc_SourceID : string;
  cc_SourceEpoch : N;
  cc_SourceSequence : N;
  cc_Kind : RunCompletionClaimKind;
  cc_PayloadDigest : Digest;
  cc_EvidenceScope : string;
  cc_EvidenceSequence : N;
  cc_ObservedAt : Time;
}.
#[export] Instance RunCompletionClaim_eq_dec : EqDecision RunCompletionClaim.
Proof. solve_decision. Defined.

Definition RunCompletionClaim_Validate (c : RunCompletionClaim) : result unit :=
  guard (blank (cc_SourceID c) || N.eqb (cc_SourceEpoch c) 0 || N.eqb (cc_SourceSequence c) 0
         || negb (validRunCompletionClaimKind (cc_Kind c)) || blank (cc_EvidenceScope c)
         || N.eqb (cc_EvidenceSequence c) 0 || IsZero (cc_ObservedAt c))
    ErrorInvalidArgument ReasonRunClaimUnverified ;;
  Digest_Validate (cc_PayloadDigest c).

Record AgentRunRecord := {
  run_ID : string;
  run_Scope : ExecutionScope;
  run_Status : RunStatus;
  run_Revision : N;
  run_SessionRef : string;
  run_StartedAt : Time;
  run_EndedAt : Time;
  run_Outcome : ExecutionOutcome;
  run_CompletionClaim : option RunCompletionClaim;
}.
#[export] Instance AgentRunRecord_eq_dec : EqDecision AgentRunRecord.
Proof. solve_decision. Defined.

Definition outcome_set (o : ExecutionOutcome) : bool := negb (bool_decide (o = OutcomeUnset)).
Definition has_claim (r : AgentRunRecord) : bool :=
  match run_CompletionClaim r with Some _ => true | None => false end.

Definition AgentRunRecord_Validate (r : AgentRunRecord) : result unit :=
  guard (blank (run_ID r) || N.eqb (run_Revision r) 0) ErrorInvalidArgument ReasonInvalidReference ;;
  ExecutionScope_Validate (run_Scope r) ;;
  match run_Status r with
  | RunPending =>
      guard (negb (IsZero (run_StartedAt r)) || negb (IsZero (run_EndedAt r))
             || outcome_set (run_Outcome r) || has_claim r) ErrorPreconditionFailed ReasonInvalidState
  | RunRunning | RunStopping =>
      guard (IsZero (run_StartedAt r) || negb (IsZero (run_EndedAt r)) || outcome_set (run_Outcome r))
        ErrorPreconditionFailed ReasonInvalidState
  | RunTerminal =>
      guard (IsZero (run_StartedAt r) || IsZero (run_EndedAt r)
             || Before (run_EndedAt r) (run_StartedAt r)
             || negb (validExecutionOutcome (run_Outcome r))) ErrorPreconditionFailed ReasonInvalidState
  | RunStatusOther _ => fail ErrorInvalidArgument ReasonInvalidState
  end ;;
  match run_CompletionClaim r with
  | None => Ok tt
  | Some claim =>
      RunCompletionClaim_Validate claim ;;
      guard (negb (N.eqb (cc_SourceEpoch claim) (inst_Epoch (sc_Instance (run_Scope r))))
             || Before (cc_ObservedAt claim) (run_StartedAt r))
        ErrorPreconditionFailed ReasonRunClaimUnverified
  end.

Record TerminationReport := {
  term_Scope : ExecutionScope;
  term_State : InstanceState;
  term_ExecutionOutcome : ExecutionOutcome;
  term_EffectSettlement : string;
  term_RemoteContinuationsStatus : string;
  term_ProviderRetentionStatus : string;
  term_CompletedAt : Time;
}.

Definition TerminationReport_Validate (r : TerminationReport) : result unit :=
  ExecutionScope_Validate (term_Scope r) ;;
  InstanceState_Validate (term_State r) ;;
  guard (negb (phase_is (Phase (term_State r)) PhaseTerminal)
         || negb (validExecutionOutcome (term_ExecutionOutcome r))
         || blank (term_EffectSettlement r) || blank (term_RemoteContinuationsStatus r)
         || blank (term_ProviderRetentionStatus r) || IsZero (term_CompletedAt r))
    ErrorPreconditionFailed ReasonInvalidState.

(** ** run_fact.go *)

Record RunFactCASRequest := {
  cas_ExpectedRevision : N;
  cas_Next : AgentRunRecord;
}.

Definition RunFactCASRequest_Validate (r : RunFactCASRequest) : result unit :=
  guard (N.eqb (cas_ExpectedRevision r) 0
         || negb (N.eqb (run_Revision (cas_Next r)) (u64_succ (cas_ExpectedRevision r))))
    ErrorInvalidArgument ReasonRevisionConflict ;;
  AgentRunRecord_Validate (cas_Next r).

Definition sameRunScope := sameScope.
Definition status_is (p q : RunStatus) : bool := bool_decide (p = q).

Definition ValidateRunFactTransition (current next : AgentRunRecord) : result unit :=
  AgentRunRecord_Validate current ;;
  AgentRunRecord_Validate next ;;
  guard (negb (bool_decide (run_ID current = run_ID next))
         || negb (sameRunScope (run_Scope current) (run_Scope next))
         || negb (bool_decide (run_SessionRef current = run_SessionRef next)))
    ErrorPreconditionFailed ReasonRunConflict ;;
  guard (negb (N.eqb (run_Revision next) (u64_succ (run_Revision current))))
    ErrorConflict ReasonRevisionConflict ;;
  let claimAttached := negb (has_claim current) && has_claim next in
  guard (match run_CompletionClaim current with
         | None => false
         | Some c => negb (bool_decide (run_CompletionClaim next = Some c))
         end) ErrorConflict ReasonRunClaimConflict ;;
  match run_Status current with
  | RunPending =>
      guard (negb (status_is (run_Status next) RunRunning))
        ErrorPreconditionFailed ReasonInvalidTransition
  | RunRunning =>
      if status_is (run_Status next) RunRunning && claimAttached then Ok tt
      else guard (negb (status_is (run_Status next) RunStopping)
                  && negb (status_is (run_Status next) RunTerminal))
             ErrorPreconditionFailed ReasonInvalidTransition
  | RunStopping =>
      if status_is (run_Status next) RunStopping && claimAttached then Ok tt
      else guard (negb (status_is (run_Status next) RunTerminal))
             ErrorPreconditionFailed ReasonInvalidTransition
  | RunTerminal => fail ErrorPreconditionFailed ReasonTerminalInstance
  | RunStatusOther _ => fail ErrorInvalidArgument ReasonInvalidState
  end ;;
  guard (negb (status_is (run_Status current) RunPending)
         && negb (TimeEqual (run_StartedAt current) (run_StartedAt next)))
    ErrorPreconditionFailed ReasonRunConflict ;;
  guard (status_is (run_Status next) (run_Status current) && claimAttached
         && (negb (TimeEqual (run_EndedAt next) (run_EndedAt current))
             || negb (bool_decide (run_Outcome next = run_Outcome current))))
    ErrorPreconditionFailed ReasonRunClaimConflict.

(** ** The run life cycle, abstractly *)

Inductive status_move (attached : bool) : RunStatus -> RunStatus -> Prop :=
| move_start : status_move attached RunPending RunRunning
| move_claim s : attached = true -> s = RunRunning \/ s = RunStopping -> status_move attached s s
| move_stop : status_move attached RunRunning RunStopping
| move_finish s : s = RunRunning \/ s = RunStopping -> status_move attached s RunTerminal.

Record run_step (c n : AgentRunRecord) : Prop := {
  rs_from : AgentRunRecord_Validate c = Ok tt;
  rs_to : AgentRunRecord_Validate n = Ok tt;
  rs_id : run_ID n = run_ID c;
  rs_scope : run_Scope n = run_Scope c;
  rs_session : run_SessionRef n = run_SessionRef c;
  rs_revision : run_Revision n = u64_succ (run_Revision c);
  rs_claim : forall claim, run_CompletionClaim c = Some claim -> run_CompletionClaim n = Some claim;
  rs_status : status_move (negb (has_claim c) && has_claim n) (run_Status c) (run_Status n);
  rs_started : run_Status c <> RunPending -> instant (run_StartedAt n) = instant (run_StartedAt c);
}.

Lemma run_active_fields r s :
  AgentRunRecord_Validate r = Ok tt -> run_Status r = s -> s = RunRunning \/ s = RunStopping ->
  instant (run_EndedAt r) = 0%Z /\ run_Outcome r = OutcomeUnset /\ instant (run_StartedAt r) <> 0%Z.
Proof.
  unfold AgentRunRecord_Validate, IsZero, outcome_set. intros H Hs Hd. go_ok. rewrite Hs in *.
  destruct Hd as [-> | ->]; go_ok; go_bool; tauto.
Qed.

Lemma run_step_iff c n :
  ValidateRunFactTransition c n = Ok tt <-> run_step c n.
Proof.
  unfold ValidateRunFactTransition, TimeEqual, status_is, sameRunScope. split.
  - intros H. go_ok. go_bool. destruct_and!. rewrite sameScope_eq in *.
    split; try done.
    + intros claim E. rewrite E in *. by go_bool.
    + destruct (run_Status c) eqn:Ec; go_ok; try discriminate.
      * go_bool. match goal with E : run_Status n = _ |- _ => rewrite E end. apply move_start.
      * go_case_in Hm4; [|].
        -- apply andb_true_iff in Heqb as [E ->]. go_bool. rewrite E. apply move_claim; auto.
        -- go_ok. apply andb_false_iff in Hm4 as [E | E]; go_bool; rewrite E; constructor; auto.
      * go_case_in Hm4; [|].
        -- apply andb_true_iff in Heqb as [E ->]. go_bool. rewrite E. apply move_claim; auto.
        -- go_ok. go_bool. match goal with E : run_Status n = _ |- _ => rewrite E end. constructor; auto.
    + intros Hne. match goal with E : _ \/ _ = _ |- _ => destruct E as [E | E] end; [done | by symmetry].
  - intros [Hf Ht Hid Hsc Hse Hrev Hcl Hst Hs]. go_run. rewrite !seq_guard_Ok, Hid, Hsc, Hse, Hrev.
    rewrite !bool_decide_eq_true_2, sameScope_refl, N.eqb_refl by done. repeat split.
    { destruct (run_CompletionClaim c) as [claim |] eqn:E; [| done].
      rewrite (Hcl _ eq_refl), bool_decide_eq_true_2 by done. done. }
    pose proof (run_active_fields c) as Hac. pose proof (run_active_fields n) as Han.
    specialize (fun s => Hac s Hf). specialize (fun s => Han s Ht).
    destruct (run_Status c) eqn:Ec; inversion Hst as [E1 E2 | s Ha Hor E1 E2 | E1 E2 | s Hor E1 E2]; subst;
      try (by destruct Hor); cbn.
    all: try (match goal with H : true = _ |- _ => symmetry in H end).
    all: try (match goal with H : ?b = true |- context [?b] => rewrite H end); cbn.
    all: try (rewrite <- Hs by done; rewrite Z.eqb_refl; cbn).
    all: go_decide; cbn; try done.
    all: destruct (Hac _ eq_refl) as (Hce & Hco & _); [by auto |].
    all: destruct (Han _ ltac:(by eauto)) as (Hne & Hno & _); [by auto |].
    all: by rewrite Hce, Hne, Hco, Hno; go_decide.
Qed.

(** ValidateRunFactTransition accepts exactly the steps of the run life
    cycle: pending starts, a running run stops or ends, a stopping run ends, a
    claim may be attached once to an active run, and identity, scope, session,
    an attached claim and the start time never change, while the revision
    advances by one. *)
Theorem ValidateRunFactTransition_iff c n :
  ValidateRunFactTransition c n = Ok tt <-> run_step c n.
Proof. apply run_step_iff. Qed.

(** ** Histories of one run *)

Definition run_cas_step (c n : AgentRunRecord) : Prop := ValidateRunFactTransition c n = Ok tt.

Definition status_rank (s : RunStatus) : nat :=
  match s with
  | RunPending => 0 | RunRunning => 1 | RunStopping => 2 | RunTerminal => 3 | RunStatusOther _ => 4
  end.

(** A claim is attached at most once and the status never goes back, so every
    step increases this measure. *)
Definition run_progress (r : AgentRunRecord) : nat :=
  status_rank (run_Status r) + (if has_claim r then 1 else 0).

Lemma run_step_progress c n : run_step c n -> run_progress c < run_progress n <= 4.
Proof.
  intros [Hf Ht _ _ _ _ Hcl Hst _]. unfold run_progress.
  assert (has_claim c = true -> has_claim n = true) as Hc.
  { unfold has_claim. destruct (run_CompletionClaim c) as [claim |]; [| done].
    by rewrite (Hcl _ eq_refl). }
  destruct Hst as [| s Ha [-> | ->] | | s [-> | ->]]; destruct (has_claim c), (has_claim n); cbn in *;
    try done; try lia; by discriminate Hc.
Qed.

Lemma run_history_facts c n k :
  nsteps run_cas_step k c n ->
  k <= 4 /\ run_ID n = run_ID c /\ run_Scope n = run_Scope c /\ run_SessionRef n = run_SessionRef c
  /\ (forall claim, run_CompletionClaim c = Some claim -> run_CompletionClaim n = Some claim)
  /\ (run_Status c <> RunPending -> instant (run_StartedAt n) = instant (run_StartedAt c))
  /\ (run_Status c = RunTerminal -> k = 0).
Proof.
  intros H.
  enough (k + run_progress c <= run_progress n /\ (0 < k -> run_progress n <= 4)
          /\ run_ID n = run_ID c /\ run_Scope n = run_Scope c /\ run_SessionRef n = run_SessionRef c
  /\ (forall claim, run_CompletionClaim c = Some claim -> run_CompletionClaim n = Some claim)
  /\ (run_Status c <> RunPending -> instant (run_StartedAt n) = instant (run_StartedAt c)
                                     /\ run_Status n <> RunPending)
  /\ (run_Status c = RunTerminal -> k = 0)) as (Hp & Hb & ? & ? & ? & ? & Hs & ?).
  { split; [| naive_solver]. destruct k as [| k]; lia. }
  induction H as [c | k c m n Hcm Hmn IH].
  - naive_solver lia.
  - apply run_step_iff in Hcm. pose proof (run_step_progress _ _ Hcm) as Hp.
    destruct Hcm as [_ _ Hid Hsc Hse _ Hcl Hst Hs].
    destruct IH as (IHp & IHb & -> & -> & -> & IHcl & IHs & _).
    assert (run_Status m <> RunPending) as Hm.
    { destruct Hst as [| s ? [-> | ->] | | s [-> | ->]]; done. }
    destruct (IHs Hm) as [IHi IHn].
    repeat split; try done; try lia.
    + intros _. destruct k as [| k]; [| apply IHb; lia].
      inversion Hmn; subst; lia.
    + auto.
    + by rewrite IHi, Hs.
    + intros E. rewrite E in Hst. inversion Hst as [| ? ? [|] | |? [|]]; by subst.
Qed.

(** Every history of a run is finite: the store accepts at most four
    transitions of one run record, after any number of which the identity,
    scope, session and any attached claim are what they were, and nothing is
    accepted from a terminal record. *)
Theorem run_history_bounded c n k :
  nsteps run_cas_step k c n ->
  k <= 4 /\ run_ID n = run_ID c /\ run_Scope n = run_Scope c /\ run_SessionRef n = run_SessionRef c
  /\ (forall claim, run_CompletionClaim c = Some claim -> run_CompletionClaim n = Some claim)
  /\ (run_Status c <> RunPending -> instant (run_StartedAt n) = instant (run_StartedAt c))
  /\ (run_Status c = RunTerminal -> k = 0).
Proof. apply run_history_facts. Qed.

Definition ex_run : AgentRunRecord :=
  {| run_ID := "run-1"; run_Scope := ex_scope; run_Status := RunPending; run_Revision := 1;
     run_SessionRef := "session-1"; run_StartedAt := {| instant := 0; rep := 0 |};
     run_EndedAt := {| instant := 0; rep := 0 |}; run_Outcome := OutcomeUnset;
     run_CompletionClaim := None |}.
Definition ex_claim : RunCompletionClaim :=
  {| cc_SourceID := "harness"; cc_SourceEpoch := 1; cc_SourceSequence := 1;
     cc_Kind := RunClaimCompleted; cc_PayloadDigest := ex_digest; cc_EvidenceScope := "evidence";
     cc_EvidenceSequence := 1; cc_ObservedAt := {| instant := 20; rep := 0 |} |}.
Definition ex_run_at (s : RunStatus) (rev : N) (ended : Z) (o : ExecutionOutcome)
    (claim : option RunCompletionClaim) : AgentRunRecord :=
  {| run_ID := "run-1"; run_Scope := ex_scope; run_Status := s; run_Revision := rev;
     run_SessionRef := "session-1"; run_StartedAt := {| instant := 10; rep := 0 |};
     run_EndedAt := {| instant := ended; rep := 0 |}; run_Outcome := o;
     run_CompletionClaim := claim |}.
Definition ex_running : AgentRunRecord := ex_run_at RunRunning 2 0 OutcomeUnset None.
Definition ex_claimed : AgentRunRecord := ex_run_at RunRunning 3 0 OutcomeUnset (Some ex_claim).
Definition ex_finished : AgentRunRecord := ex_run_at RunTerminal 4 30 OutcomeCompleted (Some ex_claim).

(** Start, attach a claim, finish: three accepted steps. *)
Lemma run_history_bounded_witness :
  nsteps run_cas_step 3 ex_run ex_finished /\ 3 <= 4.
Proof.
  assert (nsteps run_cas_step 3 ex_run ex_finished) as H.
  { apply (nsteps_l _ _ _ ex_running); [vm_compute; reflexivity |].
    apply (nsteps_l _ _ _ ex_claimed); [vm_compute; reflexivity |].
    apply (nsteps_l _ _ _ ex_finished); [vm_compute; reflexivity | apply nsteps_O]. }
  split; [exact H |]. exact (proj1 (run_history_bounded _ _ _ H)).
Defined.
