(* ===== verification/Continuity.v ===== *)
(** * core/continuity.go

    Timeline points, effect watermarks, checkpoint sets and restore requests. *)

From S2P Require Import Prelude GoStd Errors Identity.

Record TimelinePoint := {
  tp_LedgerScope : string;
  tp_LedgerSequence : N;
  tp_SourceID : string;
  tp_SourceEpoch : N;
  tp_SourceSequence : N;
  tp_EventID : string;
  tp_CausationID : string;
  tp_CorrelationID : string;
  tp_ObservedAt : Time;
  tp_IngestedAt : Time;
}.

Definition TimelinePoint_Validate (p : TimelinePoint) : result unit :=
  guard (blank (tp_LedgerScope p) || N.eqb (tp_LedgerSequence p) 0 || blank (tp_SourceID p)
         || N.eqb (tp_SourceEpoch p) 0 || N.eqb (tp_SourceSequence p) 0 || blank (tp_EventID p))
    ErrorInvalidArgument ReasonInvalidReference ;;
  guard (IsZero (tp_ObservedAt p) || IsZero (tp_IngestedAt p))
    ErrorInvalidArgument ReasonInvalidReference.

Inductive CheckpointConsistency :=
| CheckpointConsistent | CheckpointPartial | CheckpointIndeterminate | CheckpointRejected
| CheckpointConsistencyOther (raw : string).
#[export] Instance CheckpointConsistency_eq_dec : EqDecision CheckpointConsistency.
Proof. solve_decision. Defined.

Inductive CheckpointParticipantState :=
| CheckpointParticipantPrepared | CheckpointParticipantCommitted | CheckpointParticipantAborted
| CheckpointParticipantUnknown | CheckpointParticipantOther (raw : string).
#[export] Instance CheckpointParticipantState_eq_dec : EqDecision CheckpointParticipantState.
Proof. solve_decision. Defined.

Record EffectWatermarks := {
  wm_Accepted : N;
  wm_Dispatched : N;
  wm_Settled : N;
  wm_Remote : N;
}.

Definition EffectWatermarks_Validate (w : EffectWatermarks) : result unit :=
  guard (N.ltb (wm_Accepted w) (wm_Dispatched w) || N.ltb (wm_Dispatched w) (wm_Settled w))
    ErrorPreconditionFailed ReasonCheckpointInconsistent.

Record CheckpointParticipantSnapshot := {
  cp_ComponentID : string;
  cp_ComponentKind : string;
  cp_Required : bool;
  cp_State : CheckpointParticipantState;
  cp_SnapshotRef : string;
  cp_SnapshotDigest : Digest;
}.

Definition CheckpointParticipantSnapshot_Validate (p : CheckpointParticipantSnapshot) : result unit :=
  guard (blank (cp_ComponentID p) || blank (cp_ComponentKind p))
    ErrorInvalidArgument ReasonInvalidReference ;;
  match cp_State p with
  | CheckpointParticipantPrepared | CheckpointParticipantCommitted =>
      guard (blank (cp_SnapshotRef p)) ErrorPreconditionFailed ReasonCheckpointInconsistent ;;
      Digest_Validate (cp_SnapshotDigest p)
  | CheckpointParticipantAborted | CheckpointParticipantUnknown => Ok tt
  | CheckpointParticipantOther _ => fail ErrorInvalidArgument ReasonCheckpointInconsistent
  end.

Record CheckpointSet := {
  ck_ID : string;
  ck_Epoch : N;
  ck_BarrierID : string;
  ck_Scope : ExecutionScope;
  ck_PlanDigest : Digest;
  ck_ProfileDigest : Digest;
  ck_ContextDigest : Digest;
  ck_AuthorityEpoch : N;
  ck_Effects : EffectWatermarks;
  ck_EventWatermark : TimelinePoint;
  ck_Participants : list CheckpointParticipantSnapshot;
  ck_Consistency : CheckpointConsistency;
  ck_CreatedAt : Time;
}.

Definition consistent (c : CheckpointSet) : bool :=
  bool_decide (ck_Consistency c = CheckpointConsistent).

(** The participant loop, with its [seen] set. *)
Fixpoint check_participants (is_consistent : bool) (seen : gset string)
    (ps : list CheckpointParticipantSnapshot) : result unit :=
  match ps with
  | [] => Ok tt
  | participant :: rest =>
      CheckpointParticipantSnapshot_Validate participant ;;
      guard (bool_decide (cp_ComponentID participant ∈ seen))
        ErrorConflict ReasonCheckpointInconsistent ;;
      guard (is_consistent && cp_Required participant
             && negb (bool_decide (cp_State participant = CheckpointParticipantCommitted)))
        ErrorPreconditionFailed ReasonCheckpointInconsistent ;;
      check_participants is_consistent ({[cp_ComponentID participant]} ∪ seen) rest
  end.

Definition CheckpointSet_Validate (c : CheckpointSet) : result unit :=
  guard (blank (ck_ID c) || N.eqb (ck_Epoch c) 0 || blank (ck_BarrierID c) || IsZero (ck_CreatedAt c))
    ErrorInvalidArgument ReasonCheckpointInconsistent ;;
  ExecutionScope_Validate (ck_Scope c) ;;
  for_each Digest_Validate [ck_PlanDigest c; ck_ProfileDigest c; ck_ContextDigest c] ;;
  guard (negb (bool_decide (ck_PlanDigest c = lin_PlanDigest (sc_Lineage (ck_Scope c))))
         || negb (N.eqb (ck_AuthorityEpoch c) (sc_AuthorityEpoch (ck_Scope c))))
    ErrorPreconditionFailed ReasonCheckpointInconsistent ;;
  EffectWatermarks_Validate (ck_Effects c) ;;
  TimelinePoint_Validate (ck_EventWatermark c) ;;
  guard (consistent c && Nat.eqb (length (ck_Participants c)) 0)
    ErrorPreconditionFailed ReasonCheckpointInconsistent ;;
  check_participants (consistent c) ∅ (ck_Participants c) ;;
  match ck_Consistency c with
  | CheckpointConsistent | CheckpointPartial | CheckpointIndeterminate | CheckpointRejected => Ok tt
  | CheckpointConsistencyOther _ => fail ErrorInvalidArgument ReasonCheckpointInconsistent
  end.

Record RestoreRequest := {
  rst_Checkpoint : CheckpointSet;
  rst_NewInstance : InstanceRef;
  rst_CurrentPlanDigest : Digest;
  rst_CurrentProfileDigest : Digest;
  rst_CurrentAuthorityEpoch : N;
}.

Definition RestoreRequest_Validate (r : RestoreRequest) : result unit :=
  let c := rst_Checkpoint r in
  CheckpointSet_Validate c ;;
  guard (negb (consistent c)) ErrorPreconditionFailed ReasonCheckpointInconsistent ;;
  InstanceRef_Validate (rst_NewInstance r) ;;
  guard (bool_decide (inst_ID (rst_NewInstance r) = inst_ID (sc_Instance (ck_Scope c)))
         || N.leb (inst_Epoch (rst_NewInstance r)) (inst_Epoch (sc_Instance (ck_Scope c))))
    ErrorPreconditionFailed ReasonRestoreIncompatible ;;
  guard (negb (bool_decide (rst_CurrentPlanDigest r = ck_PlanDigest c))
         || negb (bool_decide (rst_CurrentProfileDigest r = ck_ProfileDigest c))
         || N.eqb (rst_CurrentAuthorityEpoch r) 0)
    ErrorPreconditionFailed ReasonRestoreIncompatible.

(** ** Lemmas *)

Lemma check_participants_iff b seen ps :
  check_participants b seen ps = Ok tt <->
  Forall (fun p => CheckpointParticipantSnapshot_Validate p = Ok tt) ps
  /\ NoDup (map cp_ComponentID ps)
  /\ Forall (fun p => cp_ComponentID p ∉ seen) ps
  /\ (b = true -> Forall (fun p => cp_Required p = true -> cp_State p = CheckpointParticipantCommitted) ps).
Proof.
  revert seen; induction ps as [| p ps IH]; intros seen; cbn [check_participants map].
  - split; [| done]. intros _; repeat split; auto using NoDup_nil_2.
  - rewrite seq_Ok, !seq_guard_Ok, IH, !Forall_cons, NoDup_cons. go_bool.
    rewrite list_elem_of_fmap.
    assert (Forall (fun q => cp_ComponentID q ∉ {[cp_ComponentID p]} ∪ seen) ps <->
            ~ (exists q, cp_ComponentID p = cp_ComponentID q /\ q ∈ ps)
            /\ Forall (fun q => cp_ComponentID q ∉ seen) ps) as ->.
    { rewrite !Forall_forall. setoid_rewrite elem_of_union. setoid_rewrite elem_of_singleton.
      split; [intros H; split; [intros (q & E & Hq); by eapply (H q); [| left] |] | intros [H1 H2] q Hq [E | E]].
      - intros q Hq Hs. by eapply (H q); [| right].
      - by apply H1; exists q.
      - by apply (H2 q). }
    destruct (decide (cp_State p = CheckpointParticipantCommitted)), b, (cp_Required p); intuition (discriminate || auto).
Qed.

(** What a restore may start from. *)
Record restorable (c : CheckpointSet) : Prop := {
  res_valid : CheckpointSet_Validate c = Ok tt;
  res_some : ck_Participants c <> [];
  res_unique : NoDup (map cp_ComponentID (ck_Participants c));
  res_committed : forall p, p ∈ ck_Participants c -> cp_Required p = true ->
    cp_State p = CheckpointParticipantCommitted /\ blank (cp_SnapshotRef p) = false
    /\ Digest_Validate (cp_SnapshotDigest p) = Ok tt;
  res_watermarks : (wm_Settled (ck_Effects c) <= wm_Dispatched (ck_Effects c) <= wm_Accepted (ck_Effects c))%N;
  res_plan : ck_PlanDigest c = lin_PlanDigest (sc_Lineage (ck_Scope c));
}.

Lemma consistent_restorable c :
  CheckpointSet_Validate c = Ok tt -> consistent c = true -> restorable c.
Proof.
  intros Hv Hc. split; [done | | | | |]; unfold CheckpointSet_Validate in Hv; rewrite Hc in Hv; cbn [andb] in Hv;
    rewrite ?seq_Ok, ?guard_Ok in Hv; destruct_and! Hv; go_bool.
  - intros E. by rewrite E in *.
  - by match goal with H : check_participants _ _ _ = _ |- _ => apply check_participants_iff in H; destruct_and! H end.
  - match goal with H : check_participants _ _ _ = _ |- _ => apply check_participants_iff in H; destruct_and! H end.
    intros p Hp Hr.
    match goal with H : Forall (fun p => CheckpointParticipantSnapshot_Validate p = _) _ |- _ =>
      rewrite Forall_forall in H; pose proof (H p Hp) as Hpv; cbv beta in Hpv end.
    match goal with H : true = true -> _ |- _ => specialize (H eq_refl); rewrite Forall_forall in H;
      pose proof (H p Hp Hr) as Hps; cbv beta in Hps end.
    unfold CheckpointParticipantSnapshot_Validate in Hpv. rewrite Hps in Hpv. go_ok. done.
  - unfold EffectWatermarks_Validate in *. go_ok. go_bool. lia.
  - tauto.
Qed.

(** RestoreRequest.Validate accepts exactly the requests whose checkpoint is
    valid and consistent, hence restorable (a non-empty set of distinct
    participants, every required one committed with a snapshot whose digest is
    well formed, ordered effect watermarks), whose new instance has another id
    and a higher epoch than the checkpointed one, and whose plan and profile
    digests are the checkpoint's. *)
Theorem RestoreRequest_Validate_iff r :
  let c := rst_Checkpoint r in
  let old := sc_Instance (ck_Scope c) in
  RestoreRequest_Validate r = Ok tt <->
  restorable c /\ ck_Consistency c = CheckpointConsistent
  /\ InstanceRef_Validate (rst_NewInstance r) = Ok tt
  /\ inst_ID (rst_NewInstance r) <> inst_ID old
  /\ (inst_Epoch old < inst_Epoch (rst_NewInstance r))%N
  /\ rst_CurrentPlanDigest r = ck_PlanDigest c
  /\ rst_CurrentProfileDigest r = ck_ProfileDigest c
  /\ rst_CurrentAuthorityEpoch r <> 0%N.
Proof.
  cbn zeta. unfold RestoreRequest_Validate. rewrite !seq_Ok, !guard_Ok. go_bool. unfold consistent. go_bool.
  split.
  - intros (Hv & Hc & Hi & [Hn He] & [Hp Hq] & Ha). split; [| tauto].
    by apply consistent_restorable; [| apply bool_decide_eq_true].
  - intros (Hr & Hc & Hi & Hn & He & Hp & Hq & Ha). destruct Hr. tauto.
Qed.

(** ** A concrete restore *)

Definition ex_checkpoint (state : CheckpointParticipantState) : CheckpointSet :=
  {| ck_ID := "checkpoint-1"; ck_Epoch := 1; ck_BarrierID := "barrier-1"; ck_Scope := ex_scope;
     ck_PlanDigest := ex_digest; ck_ProfileDigest := ex_digest2; ck_ContextDigest := ex_digest;
     ck_AuthorityEpoch := 1;
     ck_Effects := {| wm_Accepted := 3; wm_Dispatched := 2; wm_Settled := 2; wm_Remote := 0 |};
     ck_EventWatermark :=
       {| tp_LedgerScope := "ledger"; tp_LedgerSequence := 7; tp_SourceID := "harness";
          tp_SourceEpoch := 1; tp_SourceSequence := 3; tp_EventID := "event-7"; tp_CausationID := "";
          tp_CorrelationID := ""; tp_ObservedAt := {| instant := 5; rep := 0 |};
          tp_IngestedAt := {| instant := 6; rep := 0 |} |};
     ck_Participants :=
       [{| cp_ComponentID := "sandbox"; cp_ComponentKind := "praxis.runtime/sandbox"; cp_Required := true;
           cp_State := state; cp_SnapshotRef := "snapshot-1"; cp_SnapshotDigest := ex_digest |}];
     ck_Consistency := CheckpointConsistent; ck_CreatedAt := {| instant := 6; rep := 0 |} |}.
Definition ex_restore (state : CheckpointParticipantState) (instance : InstanceRef) : RestoreRequest :=
  {| rst_Checkpoint := ex_checkpoint state; rst_NewInstance := instance;
     rst_CurrentPlanDigest := ex_digest; rst_CurrentProfileDigest := ex_digest2;
     rst_CurrentAuthorityEpoch := 1 |}.

Example restore_accepted :
  RestoreRequest_Validate (ex_restore CheckpointParticipantCommitted {| inst_ID := "instance-2"; inst_Epoch := 2 |})
  = Ok tt.
Proof. vm_compute; reflexivity. Qed.
Example restore_prepared_only :
  RestoreRequest_Validate (ex_restore CheckpointParticipantPrepared {| inst_ID := "instance-2"; inst_Epoch := 2 |})
  = fail ErrorPreconditionFailed ReasonCheckpointInconsistent.
Proof. vm_compute; reflexivity. Qed.
Example restore_same_instance :
  RestoreRequest_Validate (ex_restore CheckpointParticipantCommitted {| inst_ID := "instance-1"; inst_Epoch := 2 |})
  = fail ErrorPreconditionFailed ReasonRestoreIncompatible.
Proof. vm_compute; reflexivity. Qed.
