(* ===== verification/Command.v ===== *)
(** * ports/command_v2.go, control/command.go

    Application commands: the closed command kinds, the validity of an
    envelope, the desired state a command may carry, and which command
    supersedes which.  control/command.go only renames these. *)

From S2P Require Import Prelude GoStd Errors Identity.

Inductive CommandKind :=
| CommandStart | CommandResume | CommandStopInstance | CommandFence | CommandRevoke
| CommandProvideInput | CommandCancelRun | CommandApproveEffect | CommandDenyEffect
| CommandKindOther (raw : string).
#[export] Instance CommandKind_eq_dec : EqDecision CommandKind.
Proof. solve_decision. Defined.

(** The Go string of a kind, which enters the idempotency key. *)
Definition CommandKind_string (k : CommandKind) : string :=
  match k with
  | CommandStart => "start" | CommandResume => "resume" | CommandStopInstance => "stop_instance"
  | CommandFence => "fence" | CommandRevoke => "revoke" | CommandProvideInput => "provide_input"
  | CommandCancelRun => "cancel_run" | CommandApproveEffect => "approve_effect"
  | CommandDenyEffect => "deny_effect" | CommandKindOther raw => raw
  end.

Inductive CommandStatus :=
| CommandAccepted | CommandRejected | CommandExecuting | CommandCompleted | CommandSuperseded
| CommandInvalidated | CommandIndeterminate | CommandStatusOther (raw : string).
#[export] Instance CommandStatus_eq_dec : EqDecision CommandStatus.
Proof. solve_decision. Defined.

Record CommandEnvelope := {
  cmd_ID : string;
  cmd_Kind : CommandKind;
  cmd_Target : ExecutionScope;
  cmd_Actor : string;
  cmd_AuthorityRef : string;
  cmd_Reason : string;
  cmd_CanonicalPayloadDigest : Digest;
  cmd_Preconditions : ExecutionPreconditions;
  cmd_IdempotencyKey : string;
  cmd_EffectIntentID : string;
  cmd_EffectIntentRevision : N;
  cmd_SubmittedAt : Time;
  cmd_ExpiresAt : Time;
}.
#[export] Instance CommandEnvelope_eq_dec : EqDecision CommandEnvelope.
Proof. solve_decision. Defined.

Definition validApplicationCommandKindV2 (kind : CommandKind) : bool :=
  match kind with CommandKindOther _ => false | _ => true end.

Definition CommandEnvelope_Validate (c : CommandEnvelope) : result unit :=
  guard (blank (cmd_ID c) || negb (validApplicationCommandKindV2 (cmd_Kind c)) || blank (cmd_Actor c)
         || blank (cmd_AuthorityRef c) || blank (cmd_IdempotencyKey c))
    ErrorInvalidArgument ReasonInvalidReference ;;
  ExecutionScope_Validate (cmd_Target c) ;;
  Digest_Validate (cmd_CanonicalPayloadDigest c) ;;
  ExecutionPreconditions_Validate (cmd_Preconditions c) ;;
  guard (IsZero (cmd_SubmittedAt c) || negb (After (cmd_ExpiresAt c) (cmd_SubmittedAt c)))
    ErrorInvalidArgument ReasonInvalidReference ;;
  match cmd_Kind c with
  | CommandApproveEffect | CommandDenyEffect =>
      guard (blank (cmd_EffectIntentID c) || N.eqb (cmd_EffectIntentRevision c) 0)
        ErrorInvalidArgument ReasonEffectIntentMissing
  | _ => Ok tt
  end.

Record CommandRecord := {
  rec_Envelope : CommandEnvelope;
  rec_Revision : N;
  rec_Status : CommandStatus;
  rec_RecordedAt : Time;
}.

Inductive DesiredState :=
| DesiredStopped | DesiredRunning | DesiredFenced | DesiredOther (raw : string).
#[export] Instance DesiredState_eq_dec : EqDecision DesiredState.
Proof. solve_decision. Defined.

Record DesiredStateSnapshot := {
  ds_Scope : ExecutionScope;
  ds_Desired : DesiredState;
  ds_Revision : N;
  ds_LastCommandID : string;
}.

Record DesiredStateMutation := { mut_Desired : DesiredState }.

Definition ValidDesiredState (value : DesiredState) : bool :=
  bool_decide (value = DesiredStopped) || bool_decide (value = DesiredRunning)
  || bool_decide (value = DesiredFenced).

Definition DesiredStateMutation_ValidateFor (m : DesiredStateMutation) (kind : CommandKind) : result unit :=
  let ok :=
    match kind with
    | CommandStart | CommandResume => bool_decide (mut_Desired m = DesiredRunning)
    | CommandStopInstance => bool_decide (mut_Desired m = DesiredStopped)
    | CommandFence | CommandRevoke => bool_decide (mut_Desired m = DesiredFenced)
    | CommandProvideInput | CommandCancelRun | CommandApproveEffect | CommandDenyEffect =>
        ValidDesiredState (mut_Desired m)
    | CommandKindOther _ => false
    end in
  if ok then Ok tt else fail ErrorInvalidArgument ReasonInvalidState.

Record CommandIntent := { int_Envelope : CommandEnvelope; int_Mutation : DesiredStateMutation }.

Record OutboxRecord := {
  out_CommandID : string;
  out_Revision : N;
  out_PayloadDigest : Digest;
  out_RecordedAt : Time;
  out_Dispatched : bool;
}.

Record CommandAcceptance := {
  acc_Record : CommandRecord;
  acc_DesiredState : DesiredStateSnapshot;
  acc_Outbox : OutboxRecord;
}.

(** CommandSupersedesV2(newer, older) *)
Definition Supersedes (newer older : CommandEnvelope) : bool :=
  if negb (bool_decide (sc_Identity (cmd_Target newer) = sc_Identity (cmd_Target older)))
     || negb (bool_decide (sc_Lineage (cmd_Target newer) = sc_Lineage (cmd_Target older)))
     || negb (bool_decide (sc_Instance (cmd_Target newer) = sc_Instance (cmd_Target older)))
  then false
  else
    let older_is k := bool_decide (cmd_Kind older = k) in
    match cmd_Kind newer with
    | CommandRevoke | CommandFence =>
        older_is CommandApproveEffect || older_is CommandStart || older_is CommandResume
        || older_is CommandProvideInput
    | CommandStopInstance =>
        older_is CommandStart || older_is CommandResume || older_is CommandProvideInput
    | CommandCancelRun => older_is CommandProvideInput
    | CommandDenyEffect =>
        older_is CommandApproveEffect
        && bool_decide (cmd_EffectIntentID newer = cmd_EffectIntentID older)
        && N.eqb (cmd_EffectIntentRevision newer) (cmd_EffectIntentRevision older)
    | _ => false
    end.

(** ** Supersession is a strict order of height one *)

Definition safety_kind (k : CommandKind) : bool :=
  match k with
  | CommandRevoke | CommandFence | CommandStopInstance | CommandCancelRun | CommandDenyEffect => true
  | _ => false
  end.

Lemma Supersedes_kinds newer older :
  Supersedes newer older = true ->
  safety_kind (cmd_Kind newer) = true /\ safety_kind (cmd_Kind older) = false.
Proof.
  unfold Supersedes. destruct (_ || _ || _); [done |].
  destruct (cmd_Kind newer); try done; intros H; go_bool; split; try done;
    destruct_or? H; destruct_and? H; go_bool; try (by rewrite H); naive_solver.
Qed.

Lemma Supersedes_irrefl c : Supersedes c c = false.
Proof.
  destruct (Supersedes c c) eqn:E; [| done]. apply Supersedes_kinds in E as [-> ?]. done.
Qed.

(** Supersession is a strict order in which nothing superseding is ever
    superseded: the superseding kinds (revoke, fence, stop, cancel, deny) never
    appear on the losing side, so no two commands supersede each other. *)
Theorem Supersedes_strict a b :
  Supersedes a b = true ->
  Supersedes b a = false /\ (forall c, Supersedes b c = false) /\ (forall c, Supersedes c a = false).
Proof.
  intros H. apply Supersedes_kinds in H as [Ha Hb].
  assert (forall c, Supersedes b c = false) as H1.
  { intros c. destruct (Supersedes b c) eqn:E; [| done]. apply Supersedes_kinds in E as [E _]. congruence. }
  repeat split; [done | done |].
  intros c. destruct (Supersedes c a) eqn:E; [| done]. apply Supersedes_kinds in E as [_ E]. congruence.
Qed.

Definition ex_command (id : string) (kind : CommandKind) (key : string) (rev : N) : CommandEnvelope :=
  {| cmd_ID := id; cmd_Kind := kind; cmd_Target := ex_scope; cmd_Actor := "operator";
     cmd_AuthorityRef := "authority-1"; cmd_Reason := ""; cmd_CanonicalPayloadDigest := ex_digest;
     cmd_Preconditions := {| pre_IdentityEpoch := 1; pre_InstanceEpoch := 1; pre_LeaseEpoch := None;
                             pre_AuthorityEpoch := 1; pre_Revision := rev |};
     cmd_IdempotencyKey := key; cmd_EffectIntentID := ""; cmd_EffectIntentRevision := 0;
     cmd_SubmittedAt := {| instant := 1; rep := 0 |}; cmd_ExpiresAt := {| instant := 100; rep := 0 |} |}.

Lemma Supersedes_strict_witness :
  Supersedes (ex_command "c-2" CommandFence "k2" 2) (ex_command "c-1" CommandStart "k1" 1) = true
  /\ Supersedes (ex_command "c-1" CommandStart "k1" 1) (ex_command "c-2" CommandFence "k2" 2) = false.
Proof.
  split; [vm_compute; reflexivity |].
  exact (proj1 (Supersedes_strict (ex_command "c-2" CommandFence "k2" 2) (ex_command "c-1" CommandStart "k1" 1)
                  eq_refl)).
Defined.

Example ex_command_valid : CommandEnvelope_Validate (ex_command "c-1" CommandStart "k1" 1) = Ok tt.
Proof. vm_compute; reflexivity. Qed.
