(* ===== verification/IdentityLease.v ===== *)
(** * control/identity_lease.go

    The exclusive lease of one agent identity.  The operations of the fact port
    are in FactStore. *)

From S2P Require Import Prelude GoStd Errors Identity.

(** [IdentityLeaseUnset] is the empty string, the zero value an activation
    attempt carries before it reserves. *)
Inductive IdentityLeaseState :=
| IdentityLeaseUnset
| IdentityLeaseReserved | IdentityLeaseActive | IdentityLeaseRevoked | IdentityLeaseExpired
| IdentityLeaseReleased | IdentityLeaseOther (raw : string).
#[export] Instance IdentityLeaseState_eq_dec : EqDecision IdentityLeaseState.
Proof. solve_decision. Defined.

Record IdentityExecutionLease := {
  il_ID : string;
  il_Identity : AgentIdentityRef;
  il_Lineage : LineageRef;
  il_ActivationAttemptID : string;
  il_State : IdentityLeaseState;
  il_AuthorityEpoch : N;
  il_ExpiresAt : Time;
  il_Revision : N;
}.
#[export] Instance IdentityExecutionLease_eq_dec : EqDecision IdentityExecutionLease.
Proof. solve_decision. Defined.

Record ReserveIdentityLeaseRequest := {
  rsv_TenantID : string;
  rsv_IdentityID : string;
  rsv_ExpectedIdentityEpoch : N;
  rsv_Lineage : LineageRef;
  rsv_ActivationAttemptID : string;
  rsv_AuthorityEpoch : N;
  rsv_ExpiresAt : Time;
}.

Definition ReserveIdentityLeaseRequest_Validate (r : ReserveIdentityLeaseRequest) (now : Time) : result unit :=
  guard (blank (rsv_TenantID r) || blank (rsv_IdentityID r) || blank (rsv_ActivationAttemptID r)
         || N.eqb (rsv_AuthorityEpoch r) 0) ErrorInvalidArgument ReasonInvalidReference ;;
  LineageRef_Validate (rsv_Lineage r) ;;
  guard (IsZero now || negb (After (rsv_ExpiresAt r) now)) ErrorInvalidArgument ReasonInvalidReference.

Record RenewIdentityLeaseRequest := {
  rnw_LeaseID : string;
  rnw_ExpectedRevision : N;
  rnw_AuthorityEpoch : N;
  rnw_ExpiresAt : Time;
}.

Record EndIdentityLeaseRequest := {
  end_LeaseID : string;
  end_ExpectedRevision : N;
  end_Reason : string;
}.

Definition lease_is (p q : IdentityLeaseState) : bool := bool_decide (p = q).

(** The states that hold the identity. *)
Definition lease_held (s : IdentityLeaseState) : bool :=
  lease_is s IdentityLeaseReserved || lease_is s IdentityLeaseActive.

(** Field updates on a copy. *)
Definition set_lease_state (s : IdentityLeaseState) (l : IdentityExecutionLease) : IdentityExecutionLease :=
  {| il_ID := il_ID l; il_Identity := il_Identity l; il_Lineage := il_Lineage l;
     il_ActivationAttemptID := il_ActivationAttemptID l; il_State := s;
     il_AuthorityEpoch := il_AuthorityEpoch l; il_ExpiresAt := il_ExpiresAt l;
     il_Revision := il_Revision l |}.
Definition set_lease_revision (n : N) (l : IdentityExecutionLease) : IdentityExecutionLease :=
  {| il_ID := il_ID l; il_Identity := il_Identity l; il_Lineage := il_Lineage l;
     il_ActivationAttemptID := il_ActivationAttemptID l; il_State := il_State l;
     il_AuthorityEpoch := il_AuthorityEpoch l; il_ExpiresAt := il_ExpiresAt l;
     il_Revision := n |}.
Definition set_lease_expiry (t : Time) (l : IdentityExecutionLease) : IdentityExecutionLease :=
  {| il_ID := il_ID l; il_Identity := il_Identity l; il_Lineage := il_Lineage l;
     il_ActivationAttemptID := il_ActivationAttemptID l; il_State := il_State l;
     il_AuthorityEpoch := il_AuthorityEpoch l; il_ExpiresAt := t;
     il_Revision := il_Revision l |}.

(** `lease.Revision++` *)
Definition bump_lease (l : IdentityExecutionLease) : IdentityExecutionLease :=
  set_lease_revision (u64_succ (il_Revision l)) l.
