(* ===== verification/Activation.v ===== *)
(** * admission/activation.go

    The durable activation protocol: stages, recovery states, operations with
    external effects, the attempt record with its well-formedness check, and the
    transition rule of the activation journal. *)

From S2P Require Import Prelude GoStd Errors Identity IdentityLease.

Inductive ActivationStage :=
| StageProposed | StagePreflighting | StagePreflightPassed | StageSnapshotFrozen
| StageIdentityLeaseReserved | StageBudgetResolved | StageSandboxReserved | StageCommitted
| StageSandboxActive | StageOther (raw : string).
#[export] Instance ActivationStage_eq_dec : EqDecision ActivationStage.
Proof. solve_decision. Defined.

Inductive RecoveryState :=
| RecoveryNormal | RecoveryAborting | RecoveryQuarantined | RecoveryAborted
| RecoveryOther (raw : string).
#[export] Instance RecoveryState_eq_dec : EqDecision RecoveryState.
Proof. solve_decision. Defined.

Inductive OperationState :=
| OperationNotStarted | OperationNotRequired | OperationIntentRecorded | OperationConfirmedApplied
| OperationConfirmedNotApplied | OperationUnknownOutcome | OperationReleased
| OperationOther (raw : string).
#[export] Instance OperationState_eq_dec : EqDecision OperationState.
Proof. solve_decision. Defined.

Record ActivationOperation := {
  op_State : OperationState;
  op_IntentID : string;
  op_Reference : string;
  op_EvidenceDigest : Digest;
}.
#[export] Instance ActivationOperation_eq_dec : EqDecision ActivationOperation.
Proof. solve_decision. Defined.

Definition nonempty (s : string) : bool := negb (bool_decide (s = "")).

Definition ActivationOperation_Validate (o : ActivationOperation) : result unit :=
  match op_State o with
  | OperationNotStarted | OperationNotRequired =>
      guard (nonempty (op_IntentID o) || nonempty (op_Reference o) || nonempty (op_EvidenceDigest o))
        ErrorInvalidArgument ReasonInvalidState
  | OperationIntentRecorded | OperationUnknownOutcome =>
      guard (blank (op_IntentID o)) ErrorInvalidArgument ReasonEffectIntentMissing
  | OperationConfirmedNotApplied =>
      guard (blank (op_IntentID o)) ErrorInvalidArgument ReasonEffectIntentMissing ;;
      Digest_Validate (op_EvidenceDigest o)
  | OperationConfirmedApplied | OperationReleased =>
      guard (blank (op_IntentID o) || blank (op_Reference o)) ErrorInvalidArgument ReasonInvalidReference ;;
      Digest_Validate (op_EvidenceDigest o)
  | OperationOther _ => fail ErrorInvalidArgument ReasonInvalidState
  end.

Record ActivationSnapshot := {
  as_Digest : Digest;
  as_AuthorityEpoch : N;
  as_EntitlementDigest : Digest;
  as_RouteDigest : Digest;
  as_CapabilityEvidenceDigest : Digest;
  as_PolicyDigest : Digest;
  as_BudgetPolicyDigest : Digest;
  as_SandboxRequirementDigest : Digest;
  as_RequestedExecutableCap : N;
  as_BudgetUnit : string;
  as_EvidenceExpiresAt : Time;
}.
#[export] Instance ActivationSnapshot_eq_dec : EqDecision ActivationSnapshot.
Proof. solve_decision. Defined.

Definition ActivationSnapshot_Validate (s : ActivationSnapshot) : result unit :=
  for_each Digest_Validate
    [as_Digest s; as_EntitlementDigest s; as_RouteDigest s; as_CapabilityEvidenceDigest s;
     as_PolicyDigest s; as_BudgetPolicyDigest s; as_SandboxRequirementDigest s] ;;
  guard (N.eqb (as_AuthorityEpoch s) 0 || IsZero (as_EvidenceExpiresAt s))
    ErrorPreconditionFailed ReasonActivationFactDrift ;;
  guard (negb (Bool.eqb (N.eqb (as_RequestedExecutableCap s) 0) (blank (as_BudgetUnit s))))
    ErrorInvalidArgument ReasonInvalidReference.

Definition ActivationSnapshot_ValidateFresh (s : ActivationSnapshot) (now : Time) : result unit :=
  ActivationSnapshot_Validate s ;;
  guard (IsZero now || negb (Before now (as_EvidenceExpiresAt s)))
    ErrorPreconditionFailed ReasonActivationFactDrift.

Record ActivationAttempt := {
  at_ID : string;
  at_Scope : ExecutionScope;
  at_ExpectedIdentityEpoch : N;
  at_RequirementDigest : Digest;
  at_Stage : ActivationStage;
  at_Recovery : RecoveryState;
  at_Snapshot : option ActivationSnapshot;
  at_IdentityLeaseID : string;
  at_IdentityLeaseState : IdentityLeaseState;
  at_IdentityLeaseRevision : N;
  at_Budget : ActivationOperation;
  at_SandboxReservation : ActivationOperation;
  at_SandboxActivation : ActivationOperation;
  at_SandboxFenced : bool;
  at_FailureReason : string;
  at_Revision : N;
  at_CreatedAt : Time;
  at_UpdatedAt : Time;
}.
#[export] Instance ActivationAttempt_eq_dec : EqDecision ActivationAttempt.
Proof. solve_decision. Defined.

Definition activationOrder : list ActivationStage :=
  [StageProposed; StagePreflighting; StagePreflightPassed; StageSnapshotFrozen;
   StageIdentityLeaseReserved; StageBudgetResolved; StageSandboxReserved;
   StageCommitted; StageSandboxActive].

Definition stageIndex (stage : ActivationStage) : Z := index_from stage activationOrder 0.
Definition validStage (stage : ActivationStage) : bool := Z.leb 0 (stageIndex stage).

Definition validRecovery (state : RecoveryState) : bool :=
  match state with RecoveryOther _ => false | _ => true end.

Definition op_is (o : ActivationOperation) (s : OperationState) : bool := bool_decide (op_State o = s).
Definition recovery_is (a : ActivationAttempt) (r : RecoveryState) : bool := bool_decide (at_Recovery a = r).
Definition stage_is (a : ActivationAttempt) (s : ActivationStage) : bool := bool_decide (at_Stage a = s).

Definition hasUnknownOperation (attempt : ActivationAttempt) : bool :=
  op_is (at_Budget attempt) OperationUnknownOutcome
  || op_is (at_SandboxReservation attempt) OperationUnknownOutcome
  || op_is (at_SandboxActivation attempt) OperationUnknownOutcome.

Definition activationObligationsSettled (attempt : ActivationAttempt) : bool :=
  let settled o := op_is o OperationNotStarted || op_is o OperationNotRequired
                   || op_is o OperationConfirmedNotApplied || op_is o OperationReleased in
  let identitySettled := bool_decide (at_IdentityLeaseID attempt = "")
                         || lease_is (at_IdentityLeaseState attempt) IdentityLeaseReleased in
  settled (at_Budget attempt) && settled (at_SandboxReservation attempt) && identitySettled.

(** `stageIndex(a.Stage) >= stageIndex(stage)` *)
Definition stage_from (a : ActivationAttempt) (stage : ActivationStage) : bool :=
  Z.leb (stageIndex stage) (stageIndex (at_Stage a)).

Definition ActivationAttempt_Validate (a : ActivationAttempt) (now : Time) : result unit :=
  guard (blank (at_ID a) || N.eqb (at_Revision a) 0 || IsZero (at_CreatedAt a) || IsZero (at_UpdatedAt a)
         || Before (at_UpdatedAt a) (at_CreatedAt a)) ErrorInvalidArgument ReasonInvalidReference ;;
  ExecutionScope_Validate (at_Scope a) ;;
  Digest_Validate (at_RequirementDigest a) ;;
  guard (negb (N.eqb (id_Epoch (sc_Identity (at_Scope a))) (u64_succ (at_ExpectedIdentityEpoch a))))
    ErrorPreconditionFailed ReasonStaleIdentityEpoch ;;
  guard (negb (validStage (at_Stage a)) || negb (validRecovery (at_Recovery a)))
    ErrorInvalidArgument ReasonInvalidState ;;
  for_each ActivationOperation_Validate [at_Budget a; at_SandboxReservation a; at_SandboxActivation a] ;;
  guard (negb (stage_from a StageCommitted)
         && match sc_SandboxLease (at_Scope a) with Some _ => true | None => false end)
    ErrorPreconditionFailed ReasonInvalidState ;;
  (if stage_from a StageSnapshotFrozen
   then match at_Snapshot a with
        | None => fail ErrorPreconditionFailed ReasonInvalidReference
        | Some snapshot =>
            ActivationSnapshot_Validate snapshot ;;
            guard (negb (N.eqb (as_AuthorityEpoch snapshot) (sc_AuthorityEpoch (at_Scope a)))
                   || negb (bool_decide (as_SandboxRequirementDigest snapshot = at_RequirementDigest a)))
              ErrorPreconditionFailed ReasonActivationFactDrift
        end
   else guard (match at_Snapshot a with Some _ => true | None => false end)
          ErrorPreconditionFailed ReasonInvalidState) ;;
  guard (stage_from a StageIdentityLeaseReserved
         && (blank (at_IdentityLeaseID a) || N.eqb (at_IdentityLeaseRevision a) 0
             || lease_is (at_IdentityLeaseState a) IdentityLeaseUnset))
    ErrorPreconditionFailed ReasonIdentityLeaseStateInvalid ;;
  guard (negb (stage_from a StageIdentityLeaseReserved)
         && (nonempty (at_IdentityLeaseID a) || negb (N.eqb (at_IdentityLeaseRevision a) 0)
             || negb (lease_is (at_IdentityLeaseState a) IdentityLeaseUnset)))
    ErrorPreconditionFailed ReasonIdentityLeaseStateInvalid ;;
  guard (stage_from a StageBudgetResolved && negb (op_is (at_Budget a) OperationNotRequired)
         && negb (op_is (at_Budget a) OperationConfirmedApplied)
         && negb (op_is (at_Budget a) OperationReleased)) ErrorPreconditionFailed ReasonInvalidState ;;
  guard (stage_from a StageSandboxReserved
         && negb (op_is (at_SandboxReservation a) OperationConfirmedApplied)
         && negb (op_is (at_SandboxReservation a) OperationReleased))
    ErrorPreconditionFailed ReasonInvalidState ;;
  (if stage_from a StageCommitted
   then guard (match sc_SandboxLease (at_Scope a) with
               | None => true
               | Some lease => negb (bool_decide (sbx_ID lease = op_Reference (at_SandboxReservation a)))
               end) ErrorPreconditionFailed ReasonInvalidState ;;
        guard (negb (lease_is (at_IdentityLeaseState a) IdentityLeaseActive))
          ErrorPreconditionFailed ReasonIdentityLeaseStateInvalid
   else Ok tt) ;;
  guard (stage_is a StageSandboxActive && negb (op_is (at_SandboxActivation a) OperationConfirmedApplied))
    ErrorPreconditionFailed ReasonInvalidState ;;
  guard (hasUnknownOperation a && negb (recovery_is a RecoveryQuarantined))
    ErrorPreconditionFailed ReasonActivationQuarantineRequired ;;
  guard (negb (recovery_is a RecoveryNormal) && blank (at_FailureReason a))
    ErrorInvalidArgument ReasonInvalidReference ;;
  guard ((recovery_is a RecoveryAborting || recovery_is a RecoveryAborted) && stage_from a StageCommitted)
    ErrorPreconditionFailed ReasonInvalidTransition ;;
  guard (recovery_is a RecoveryNormal
         && (op_is (at_Budget a) OperationReleased || op_is (at_SandboxReservation a) OperationReleased))
    ErrorPreconditionFailed ReasonInvalidState ;;
  guard (recovery_is a RecoveryAborted && negb (activationObligationsSettled a))
    ErrorPreconditionFailed ReasonCleanupEvidenceIncomplete.

Record TransitionContext := { UnknownResolved : bool }.

Definition ValidateTransition (from to : ActivationAttempt) (context : TransitionContext) (now : Time) : result unit :=
  ActivationAttempt_Validate from now ;;
  ActivationAttempt_Validate to now ;;
  guard (negb (bool_decide (at_ID from = at_ID to)) || negb (bool_decide (at_CreatedAt from = at_CreatedAt to))
         || negb (N.eqb (at_ExpectedIdentityEpoch from) (at_ExpectedIdentityEpoch to))
         || negb (bool_decide (at_RequirementDigest from = at_RequirementDigest to))
         || negb (bool_decide (sc_Identity (at_Scope from) = sc_Identity (at_Scope to)))
         || negb (bool_decide (sc_Lineage (at_Scope from) = sc_Lineage (at_Scope to)))
         || negb (bool_decide (sc_Instance (at_Scope from) = sc_Instance (at_Scope to)))
         || negb (N.eqb (sc_AuthorityEpoch (at_Scope from)) (sc_AuthorityEpoch (at_Scope to))))
    ErrorConflict ReasonActivationAttemptConflict ;;
  guard (negb (N.eqb (at_Revision to) (u64_succ (at_Revision from)))
         || Before (at_UpdatedAt to) (at_UpdatedAt from)) ErrorConflict ReasonRevisionConflict ;;
  guard (Z.ltb (stageIndex (at_Stage to)) (stageIndex (at_Stage from))
         || Z.ltb (stageIndex (at_Stage from) + 1) (stageIndex (at_Stage to)))
    ErrorPreconditionFailed ReasonInvalidTransition ;;
  (if recovery_is to RecoveryNormal && Z.ltb (stageIndex (at_Stage from)) (stageIndex (at_Stage to))
   then match at_Snapshot to with
        | Some snapshot => ActivationSnapshot_ValidateFresh snapshot now
        | None => Ok tt
        end
   else Ok tt) ;;
  guard (recovery_is from RecoveryAborted && negb (recovery_is to RecoveryAborted))
    ErrorPreconditionFailed ReasonInvalidTransition ;;
  guard (recovery_is from RecoveryQuarantined && recovery_is to RecoveryNormal
         && negb (UnknownResolved context)) ErrorPreconditionFailed ReasonInspectCoverageIncomplete ;;
  guard (recovery_is from RecoveryAborting && negb (recovery_is to RecoveryAborting)
         && negb (recovery_is to RecoveryAborted) && negb (recovery_is to RecoveryQuarantined))
    ErrorPreconditionFailed ReasonInvalidTransition ;;
  guard (negb (recovery_is from RecoveryNormal) && negb (bool_decide (at_Stage to = at_Stage from)))
    ErrorPreconditionFailed ReasonInvalidTransition ;;
  guard (recovery_is from RecoveryNormal && recovery_is to RecoveryAborted)
    ErrorPreconditionFailed ReasonInvalidTransition.

Record ActivationCommitRequest := {
  acr_AttemptID : string;
  acr_ExpectedAttemptRevision : N;
  acr_IdentityLeaseID : string;
  acr_ExpectedIdentityLeaseRevision : N;
  acr_SandboxLease : SandboxLeaseRef;
  acr_AuthorityEpoch : N;
}.

Record ActivationCommitResult := {
  acm_Attempt : ActivationAttempt;
  acm_IdentityLease : IdentityExecutionLease;
}.

(** ** Lemmas *)

Arguments stageIndex : simpl never.

(** The check never reads the clock. *)
Lemma ActivationAttempt_Validate_now a now now' :
  ActivationAttempt_Validate a now = ActivationAttempt_Validate a now'.
Proof. reflexivity. Qed.

Lemma stage_from_le a stage : stage_from a stage = true <-> (stageIndex stage <= stageIndex (at_Stage a))%Z.
Proof. apply Z.leb_le. Qed.

(** What a well-formed attempt guarantees. *)
Record attempt_ok (a : ActivationAttempt) : Prop := {
  ok_stage : (0 <= stageIndex (at_Stage a) <= 8)%Z;
  ok_recovery : validRecovery (at_Recovery a) = true;
  ok_scope : ExecutionScope_Validate (at_Scope a) = Ok tt;
  ok_epoch : id_Epoch (sc_Identity (at_Scope a)) = u64_succ (at_ExpectedIdentityEpoch a);
  ok_snapshot : stage_from a StageSnapshotFrozen = true ->
    exists s, at_Snapshot a = Some s /\ ActivationSnapshot_Validate s = Ok tt
              /\ as_AuthorityEpoch s = sc_AuthorityEpoch (at_Scope a)
              /\ as_SandboxRequirementDigest s = at_RequirementDigest a;
  ok_lease : stage_from a StageIdentityLeaseReserved = true ->
    blank (at_IdentityLeaseID a) = false /\ at_IdentityLeaseState a <> IdentityLeaseUnset;
  ok_nolease : stage_from a StageIdentityLeaseReserved = false ->
    at_IdentityLeaseID a = "" /\ at_IdentityLeaseState a = IdentityLeaseUnset;
  ok_unbound : stage_from a StageCommitted = false -> sc_SandboxLease (at_Scope a) = None;
  ok_budget : stage_from a StageBudgetResolved = true ->
    op_State (at_Budget a) = OperationNotRequired \/ op_State (at_Budget a) = OperationConfirmedApplied
    \/ op_State (at_Budget a) = OperationReleased;
  ok_sandbox : stage_from a StageSandboxReserved = true ->
    op_State (at_SandboxReservation a) = OperationConfirmedApplied
    \/ op_State (at_SandboxReservation a) = OperationReleased;
  ok_committed : stage_from a StageCommitted = true ->
    at_IdentityLeaseState a = IdentityLeaseActive
    /\ (at_Recovery a = RecoveryNormal \/ at_Recovery a = RecoveryQuarantined)
    /\ exists l, sc_SandboxLease (at_Scope a) = Some l /\ sbx_ID l = op_Reference (at_SandboxReservation a);
  ok_active : at_Stage a = StageSandboxActive -> op_State (at_SandboxActivation a) = OperationConfirmedApplied;
  ok_unknown : hasUnknownOperation a = true -> at_Recovery a = RecoveryQuarantined;
  ok_normal : at_Recovery a = RecoveryNormal ->
    op_State (at_Budget a) <> OperationReleased /\ op_State (at_SandboxReservation a) <> OperationReleased;
  ok_aborted : at_Recovery a = RecoveryAborted -> activationObligationsSettled a = true;
}.

Lemma attempt_valid_ok a now : ActivationAttempt_Validate a now = Ok tt -> attempt_ok a.
Proof.
  unfold ActivationAttempt_Validate. rewrite !seq_Ok, !guard_Ok.
  unfold op_is, recovery_is, stage_is, lease_is, nonempty. go_bool.
  intros (_ & Hscope & _ & Hepoch & [Hst Hrec] & _ & Hunb & Hsnap & Hlease & Hnol & Hbud & Hsbx & Hcom & Hact
          & Hunk & _ & Hab & Hnorm & Haborted).
  split; auto.
  - pose proof (index_from_range (at_Stage a) activationOrder 0 ltac:(lia)) as Hr.
    unfold validStage in Hst. go_bool. unfold stageIndex in *.
    change (length activationOrder) with 9 in Hr. lia.
  - intros E. rewrite E in Hsnap. destruct (at_Snapshot a) as [s |]; [| done]. exists s. clear - Hsnap. go_ok. go_bool. tauto.
  - intros E. rewrite E in Hlease. clear - Hlease. intuition discriminate.
  - intros E. rewrite E in Hnol. clear - Hnol. intuition discriminate.
  - intros E. rewrite E in Hunb. destruct (sc_SandboxLease (at_Scope a)); [| done]. by destruct Hunb.
  - intros E. rewrite E in Hbud. clear - Hbud. intuition discriminate.
  - intros E. rewrite E in Hsbx. clear - Hsbx. intuition discriminate.
  - intros E. rewrite E in *. destruct (sc_SandboxLease (at_Scope a)) as [l |]; go_ok; [| done]. go_bool.
    split; [done | split; [| by exists l]].
    clear - Hab Hrec. destruct (at_Recovery a); intuition discriminate.
  - clear - Hact. tauto.
  - intros E. rewrite E in Hunk. clear - Hunk. intuition discriminate.
  - clear - Hnorm. tauto.
  - intros E. clear - E Haborted. intuition.
Qed.

(** ** The journal's transition rule *)

Record immutable (a b : ActivationAttempt) : Prop := {
  im_id : at_ID b = at_ID a;
  im_created : at_CreatedAt b = at_CreatedAt a;
  im_epoch : at_ExpectedIdentityEpoch b = at_ExpectedIdentityEpoch a;
  im_requirement : at_RequirementDigest b = at_RequirementDigest a;
  im_scope : set_SandboxLease None (at_Scope b) = set_SandboxLease None (at_Scope a);
}.

Lemma immutable_trans a b c : immutable a b -> immutable b c -> immutable a c.
Proof. intros [] []; split; congruence. Qed.

Record act_transition (a b : ActivationAttempt) (context : TransitionContext) (now : Time) : Prop := {
  tr_from : ActivationAttempt_Validate a now = Ok tt;
  tr_to : ActivationAttempt_Validate b now = Ok tt;
  tr_immutable : immutable a b;
  tr_revision : at_Revision b = u64_succ (at_Revision a);
  tr_updated : (instant (at_UpdatedAt a) <= instant (at_UpdatedAt b))%Z;
  tr_stage : (stageIndex (at_Stage a) <= stageIndex (at_Stage b) <= stageIndex (at_Stage a) + 1)%Z;
  tr_frozen : at_Recovery a <> RecoveryNormal -> at_Stage b = at_Stage a;
  tr_fresh : at_Recovery b = RecoveryNormal -> (stageIndex (at_Stage a) < stageIndex (at_Stage b))%Z ->
    forall s, at_Snapshot b = Some s ->
    instant now <> 0%Z /\ (instant now < instant (as_EvidenceExpiresAt s))%Z;
  tr_recovery : match at_Recovery a with
                | RecoveryNormal => at_Recovery b <> RecoveryAborted
                | RecoveryAborting => at_Recovery b <> RecoveryNormal
                | RecoveryQuarantined => at_Recovery b = RecoveryNormal -> UnknownResolved context = true
                | RecoveryAborted => at_Recovery b = RecoveryAborted
                | RecoveryOther _ => False
                end;
}.

Lemma immutable_iff a b :
  immutable a b <->
  at_ID a = at_ID b /\ at_CreatedAt a = at_CreatedAt b
  /\ at_ExpectedIdentityEpoch a = at_ExpectedIdentityEpoch b
  /\ at_RequirementDigest a = at_RequirementDigest b
  /\ sc_Identity (at_Scope a) = sc_Identity (at_Scope b) /\ sc_Lineage (at_Scope a) = sc_Lineage (at_Scope b)
  /\ sc_Instance (at_Scope a) = sc_Instance (at_Scope b)
  /\ sc_AuthorityEpoch (at_Scope a) = sc_AuthorityEpoch (at_Scope b).
Proof.
  unfold set_SandboxLease. split.
  - intros [? ? ? ? [= ? ? ? ?]]. repeat split; congruence.
  - intros (? & ? & ? & ? & Hi & Hl & Hn & Ha). split; try congruence.
    unfold set_SandboxLease. by rewrite Hi, Hl, Hn, Ha.
Qed.

Lemma ValidateFresh_iff s now :
  ActivationSnapshot_ValidateFresh s now = Ok tt <->
  ActivationSnapshot_Validate s = Ok tt /\ instant now <> 0%Z
  /\ (instant now < instant (as_EvidenceExpiresAt s))%Z.
Proof.
  unfold ActivationSnapshot_ValidateFresh, IsZero, Before. rewrite seq_Ok, guard_Ok. go_bool. tauto.
Qed.

Lemma act_transition_iff a b context now :
  ValidateTransition a b context now = Ok tt <-> act_transition a b context now.
Proof.
  unfold ValidateTransition. rewrite !seq_Ok, !guard_Ok. unfold recovery_is, Before. go_bool.
  split.
  - intros (Ha & Hb & Him & [Hrev Hup] & Hst & Hfr & Hab & Hq & Hag & Hfz & Hn).
    pose proof (attempt_valid_ok _ _ Ha) as Oa. pose proof (attempt_valid_ok _ _ Hb) as Ob.
    split; auto; [apply immutable_iff; tauto | | |].
    + intros Hne. by destruct Hfz.
    + intros En Hlt s Es. rewrite En, Es in Hfr.
      rewrite bool_decide_eq_true_2 in Hfr by done. apply Z.ltb_lt in Hlt. rewrite Hlt in Hfr.
      by apply ValidateFresh_iff in Hfr as (_ & ?).
    + pose proof (ok_recovery _ Oa) as Ra. pose proof (ok_recovery _ Ob) as Rb.
      clear - Hab Hq Hag Hn Ra Rb.
      destruct (at_Recovery a), (at_Recovery b); try done; intuition discriminate.
  - intros [Ha Hb Him Hrev Hup Hst Hfz Hfr Hrc].
    pose proof (attempt_valid_ok _ _ Ha) as Oa. pose proof (attempt_valid_ok _ _ Hb) as Ob.
    apply immutable_iff in Him.
    split; [done | split; [done | split; [tauto | split; [done | split; [done | split]]]]].
    + destruct (bool_decide (at_Recovery b = RecoveryNormal)) eqn:En; [| done].
      destruct (Z.ltb _ _) eqn:Hlt; [| done]. cbn. go_bool.
      destruct (at_Snapshot b) as [s |] eqn:Es; [| done]. apply ValidateFresh_iff. split; [| by eapply Hfr].
      destruct (stage_from b StageSnapshotFrozen) eqn:Ef.
      * destruct (ok_snapshot _ Ob Ef) as (s' & Es' & Hs' & _). congruence.
      * unfold ActivationAttempt_Validate in Hb. rewrite Ef, Es in Hb. rewrite !seq_Ok in Hb. by destruct_and? Hb.
    + pose proof (ok_recovery _ Oa) as Ra. pose proof (ok_recovery _ Ob) as Rb. clear - Hrc Hfz Ra Rb.
      destruct (at_Recovery a), (at_Recovery b); try done; intuition congruence.
Qed.

(** The activation journal accepts exactly these updates: both records well
    formed, identity, requirement and scope unchanged, the next revision, the
    stage kept or advanced by one and only while recovering is off, snapshot
    evidence unexpired when normal progress advances, aborted final, aborting
    never back to normal, and quarantine cleared only by an authoritative
    inspection. *)
Theorem ValidateTransition_iff a b context now :
  ValidateTransition a b context now = Ok tt <-> act_transition a b context now.
Proof. apply act_transition_iff. Qed.

(** ** Histories of an attempt *)

Definition act_step (a b : ActivationAttempt) : Prop :=
  exists context now, ValidateTransition a b context now = Ok tt.

Lemma act_step_transition a b : act_step a b -> exists context now, act_transition a b context now.
Proof. intros (context & now & H). exists context, now. by apply act_transition_iff. Qed.

Lemma act_history_valid a b now :
  ActivationAttempt_Validate a now = Ok tt -> rtc act_step a b -> ActivationAttempt_Validate b now = Ok tt.
Proof.
  intros Ha H. induction H as [| a m b Hm _ IH]; [done |].
  apply act_step_transition in Hm as (? & ? & Hm). apply IH.
  rewrite (ActivationAttempt_Validate_now _ _ x0). by destruct Hm.
Qed.

(** Every stage between the ends of a history was the stage of some record on it. *)
Lemma act_history_ladder a b k :
  rtc act_step a b -> (stageIndex (at_Stage a) <= k <= stageIndex (at_Stage b))%Z ->
  exists m, rtc act_step a m /\ rtc act_step m b /\ stageIndex (at_Stage m) = k.
Proof.
  induction 1 as [a | a m b Hm Hmb IH]; intros Hk.
  - exists a. repeat split; [apply rtc_refl | apply rtc_refl | lia].
  - destruct (decide (k = stageIndex (at_Stage a))) as [-> | Hne].
    { exists a. repeat split; [apply rtc_refl | by eapply rtc_l]. }
    destruct (act_step_transition _ _ Hm) as (? & ? & T). pose proof (tr_stage _ _ _ _ T).
    destruct IH as (c & Hac & Hcb & Hc); [lia |]. exists c. split; [by eapply rtc_l |]. done.
Qed.

(** Along every history of one activation attempt the identity, requirement
    and scope never change, no stage is skipped or revisited, aborted is final
    and freezes the stage, and an attempt that reached the commit point is never
    aborted and still holds its active identity lease and its bound sandbox. *)
Theorem activation_history a b now :
  ActivationAttempt_Validate a now = Ok tt -> rtc act_step a b ->
  immutable a b
  /\ (stageIndex (at_Stage a) <= stageIndex (at_Stage b))%Z
  /\ (forall k, (stageIndex (at_Stage a) <= k <= stageIndex (at_Stage b))%Z ->
        exists m, rtc act_step a m /\ rtc act_step m b /\ stageIndex (at_Stage m) = k)
  /\ (at_Recovery a = RecoveryAborted -> at_Recovery b = RecoveryAborted /\ at_Stage b = at_Stage a)
  /\ (stage_from a StageCommitted = true ->
      at_IdentityLeaseState b = IdentityLeaseActive
      /\ (at_Recovery b = RecoveryNormal \/ at_Recovery b = RecoveryQuarantined)
      /\ exists l, sc_SandboxLease (at_Scope b) = Some l /\ sbx_ID l = op_Reference (at_SandboxReservation b)).
Proof.
  intros Ha H. pose proof (act_history_valid _ _ _ Ha H) as Hb.
  assert (immutable a b /\ (stageIndex (at_Stage a) <= stageIndex (at_Stage b))%Z
          /\ (at_Recovery a = RecoveryAborted -> at_Recovery b = RecoveryAborted /\ at_Stage b = at_Stage a))
    as (Him & Hle & Hab).
  { clear Ha Hb. induction H as [| a m b Hm _ (IHi & IHl & IHa)]; [by repeat split |].
    apply act_step_transition in Hm as (? & ? & [_ _ Ti _ _ Ts Tf _ Tr]).
    split; [by eapply immutable_trans | split; [lia |]]. intros E. rewrite E in Tr.
    destruct (IHa Tr) as [-> ->]. split; [done | apply Tf; congruence]. }
  split; [done | split; [done | split; [| split; [done |]]]].
  - intros k. by apply act_history_ladder.
  - intros Hc. apply (ok_committed _ (attempt_valid_ok _ _ Hb)).
    rewrite stage_from_le in *. lia.
Qed.

(** ** A concrete attempt *)

Definition ex_op (state : OperationState) : ActivationOperation :=
  match state with
  | OperationNotStarted | OperationNotRequired =>
      {| op_State := state; op_IntentID := ""; op_Reference := ""; op_EvidenceDigest := "" |}
  | _ => {| op_State := state; op_IntentID := "intent-1"; op_Reference := "sandbox-1";
            op_EvidenceDigest := ex_digest |}
  end.
Definition ex_snapshot (policy : Digest) : ActivationSnapshot :=
  {| as_Digest := ex_digest; as_AuthorityEpoch := 1; as_EntitlementDigest := ex_digest;
     as_RouteDigest := ex_digest; as_CapabilityEvidenceDigest := ex_digest; as_PolicyDigest := policy;
     as_BudgetPolicyDigest := ex_digest; as_SandboxRequirementDigest := ex_digest;
     as_RequestedExecutableCap := 0; as_BudgetUnit := ""; as_EvidenceExpiresAt := {| instant := 100; rep := 0 |} |}.

Definition ex_attempt (stage : ActivationStage) (recovery : RecoveryState) (rev : N)
    (lease : IdentityLeaseState) (budget sandbox : OperationState) : ActivationAttempt :=
  let at_least s := Z.leb (stageIndex s) (stageIndex stage) in
  {| at_ID := "attempt-1";
     at_Scope := if at_least StageCommitted then ex_bound_scope else ex_scope;
     at_ExpectedIdentityEpoch := 0; at_RequirementDigest := ex_digest; at_Stage := stage;
     at_Recovery := recovery;
     at_Snapshot := if at_least StageSnapshotFrozen then Some (ex_snapshot ex_digest) else None;
     at_IdentityLeaseID := if at_least StageIdentityLeaseReserved then "tenant/agent/lease/1" else "";
     at_IdentityLeaseState := lease;
     at_IdentityLeaseRevision := if at_least StageIdentityLeaseReserved then 1 else 0;
     at_Budget := ex_op budget; at_SandboxReservation := ex_op sandbox;
     at_SandboxActivation := ex_op OperationNotStarted; at_SandboxFenced := false;
     at_FailureReason := if decide (recovery = RecoveryNormal) then "" else "failed";
     at_Revision := rev; at_CreatedAt := {| instant := 1; rep := 0 |};
     at_UpdatedAt := {| instant := 2; rep := 0 |} |}.

Definition ex_normal (stage : ActivationStage) (rev : N) : ActivationAttempt :=
  let at_least s := Z.leb (stageIndex s) (stageIndex stage) in
  ex_attempt stage RecoveryNormal rev
    (if at_least StageCommitted then IdentityLeaseActive
     else if at_least StageIdentityLeaseReserved then IdentityLeaseReserved else IdentityLeaseUnset)
    (if at_least StageBudgetResolved then OperationConfirmedApplied else OperationNotStarted)
    (if at_least StageSandboxReserved then OperationConfirmedApplied else OperationNotStarted).

Definition ex_now : Time := {| instant := 10; rep := 0 |}.

Ltac act_next stage rev :=
  apply (rtc_l _ _ (ex_normal stage rev));
  [exists {| UnknownResolved := false |}, ex_now; vm_compute; reflexivity |].

(** A whole activation, from proposed to committed. *)
Lemma activation_history_witness :
  rtc act_step (ex_normal StageProposed 1) (ex_normal StageCommitted 8)
  /\ exists m, rtc act_step (ex_normal StageProposed 1) m
               /\ rtc act_step m (ex_normal StageCommitted 8)
               /\ stageIndex (at_Stage m) = 5%Z.
Proof.
  assert (rtc act_step (ex_normal StageProposed 1) (ex_normal StageCommitted 8)) as H.
  { act_next StagePreflighting 2%N. act_next StagePreflightPassed 3%N. act_next StageSnapshotFrozen 4%N.
    act_next StageIdentityLeaseReserved 5%N. act_next StageBudgetResolved 6%N.
    act_next StageSandboxReserved 7%N. act_next StageCommitted 8%N. apply rtc_refl. }
  split; [exact H |].
  assert (ActivationAttempt_Validate (ex_normal StageProposed 1) ex_now = Ok tt) as Hv by (vm_compute; reflexivity).
  destruct (activation_history _ _ _ Hv H) as (_ & _ & Hl & _).
  apply Hl. vm_compute. split; discriminate.
Defined.

(** The snapshot called frozen is not frozen: an update that stays in the stage
    may replace it. *)
Theorem frozen_snapshot_replaceable :
  exists a b context now,
    ValidateTransition a b context now = Ok tt /\ at_Stage a = StageSnapshotFrozen
    /\ at_Stage b = StageSnapshotFrozen /\ at_Snapshot a <> at_Snapshot b.
Proof.
  pose (a := ex_normal StageSnapshotFrozen 4).
  exists a. exists {| at_ID := at_ID a; at_Scope := at_Scope a;
    at_ExpectedIdentityEpoch := at_ExpectedIdentityEpoch a; at_RequirementDigest := at_RequirementDigest a;
    at_Stage := at_Stage a; at_Recovery := at_Recovery a; at_Snapshot := Some (ex_snapshot ex_digest2);
    at_IdentityLeaseID := at_IdentityLeaseID a; at_IdentityLeaseState := at_IdentityLeaseState a;
    at_IdentityLeaseRevision := at_IdentityLeaseRevision a; at_Budget := at_Budget a;
    at_SandboxReservation := at_SandboxReservation a; at_SandboxActivation := at_SandboxActivation a;
    at_SandboxFenced := false; at_FailureReason := ""; at_Revision := 5;
    at_CreatedAt := at_CreatedAt a; at_UpdatedAt := at_UpdatedAt a |}.
  exists {| UnknownResolved := false |}, ex_now.
  split; [vm_compute; reflexivity | split; [reflexivity | split; [reflexivity | discriminate]]].
Qed.
