(* ===== verification/Recovery.v ===== *)
(** * admission/recovery.go

    PlanRecovery: the pure decision a restarted coordinator takes from the
    latest record of the activation journal. *)

From S2P Require Import Prelude GoStd Errors Identity IdentityLease Activation.

Inductive RecoveryAction :=
| ActionNone | ActionResumePreflight | ActionInspectPreflight | ActionFreezeSnapshot
| ActionReserveIdentityLease | ActionResolveBudget | ActionReserveSandbox | ActionCommitActivation
| ActionActivateSandbox | ActionResumeBinding | ActionBeginAbort | ActionInspectBudget
| ActionInspectSandboxReservation | ActionInspectSandboxActivation | ActionFenceSandbox
| ActionReleaseSandbox | ActionReleaseBudget | ActionRevokeIdentityLease
| ActionReleaseIdentityLease | ActionMarkAborted | ActionAwaitOperator.
#[export] Instance RecoveryAction_eq_dec : EqDecision RecoveryAction.
Proof. solve_decision. Defined.

(** The explanatory Reason string of a decision is not kept. *)
Record RecoveryDecision := { rd_Action : RecoveryAction; rd_AutomaticSafe : bool }.

Definition decision (action : RecoveryAction) (automatic : bool) : RecoveryDecision :=
  {| rd_Action := action; rd_AutomaticSafe := automatic |}.

Definition quarantinedDecision (attempt : ActivationAttempt) : RecoveryDecision :=
  if op_is (at_SandboxActivation attempt) OperationUnknownOutcome
  then decision ActionInspectSandboxActivation false
  else if op_is (at_SandboxReservation attempt) OperationUnknownOutcome
  then decision ActionInspectSandboxReservation false
  else if op_is (at_Budget attempt) OperationUnknownOutcome
  then decision ActionInspectBudget false
  else decision ActionAwaitOperator false.

Definition abortDecision (attempt : ActivationAttempt) : RecoveryDecision :=
  let sandbox := at_SandboxReservation attempt in
  let lease := at_IdentityLeaseState attempt in
  if stage_from attempt StageSandboxReserved && op_is sandbox OperationConfirmedApplied
     && negb (at_SandboxFenced attempt)
  then decision ActionFenceSandbox true
  else if negb (op_is sandbox OperationNotStarted) && negb (op_is sandbox OperationNotRequired)
          && negb (op_is sandbox OperationReleased) && negb (op_is sandbox OperationConfirmedNotApplied)
  then decision ActionReleaseSandbox true
  else if op_is (at_Budget attempt) OperationConfirmedApplied
  then decision ActionReleaseBudget true
  else if lease_is lease IdentityLeaseReserved || lease_is lease IdentityLeaseActive
  then decision ActionRevokeIdentityLease true
  else if lease_is lease IdentityLeaseRevoked || lease_is lease IdentityLeaseExpired
  then decision ActionReleaseIdentityLease true
  else decision ActionMarkAborted true.

(** The last switch of PlanRecovery. *)
Definition stageDecision (stage : ActivationStage) : result RecoveryDecision :=
  match stage with
  | StageProposed => Ok (decision ActionResumePreflight true)
  | StagePreflighting => Ok (decision ActionInspectPreflight false)
  | StagePreflightPassed => Ok (decision ActionFreezeSnapshot true)
  | StageSnapshotFrozen => Ok (decision ActionReserveIdentityLease true)
  | StageIdentityLeaseReserved => Ok (decision ActionResolveBudget true)
  | StageBudgetResolved => Ok (decision ActionReserveSandbox true)
  | StageSandboxReserved => Ok (decision ActionCommitActivation true)
  | StageCommitted => Ok (decision ActionActivateSandbox true)
  | StageSandboxActive => Ok (decision ActionResumeBinding true)
  | StageOther _ => fail ErrorInternal ReasonInvalidState
  end.

(** [attempt.Snapshot.ValidateFresh] on a nil pointer is [GoPanic]. *)
Definition PlanRecovery (attempt : ActivationAttempt) (now : Time) : result RecoveryDecision :=
  ActivationAttempt_Validate attempt now ;;
  match at_Recovery attempt with
  | RecoveryAborted => Ok (decision ActionNone true)
  | RecoveryQuarantined => Ok (quarantinedDecision attempt)
  | RecoveryAborting => Ok (abortDecision attempt)
  | _ =>
      fresh ← (if stage_from attempt StageSnapshotFrozen && negb (stage_from attempt StageCommitted)
               then match at_Snapshot attempt with
                    | None => Err GoPanic
                    | Some snapshot => Ok (is_ok (ActivationSnapshot_ValidateFresh snapshot now))
                    end
               else Ok true) ;
      if negb fresh then Ok (decision ActionBeginAbort true)
      else if op_is (at_SandboxActivation attempt) OperationIntentRecorded
      then Ok (decision ActionInspectSandboxActivation false)
      else if op_is (at_SandboxReservation attempt) OperationIntentRecorded
      then Ok (decision ActionInspectSandboxReservation false)
      else if op_is (at_Budget attempt) OperationIntentRecorded
      then Ok (decision ActionInspectBudget false)
      else stageDecision (at_Stage attempt)
  end.

(** ** Lemmas *)

(** The actions that continue the activation. *)
Definition advancing (action : RecoveryAction) : bool :=
  match action with
  | ActionResumePreflight | ActionInspectPreflight | ActionFreezeSnapshot | ActionReserveIdentityLease
  | ActionResolveBudget | ActionReserveSandbox | ActionCommitActivation | ActionActivateSandbox
  | ActionResumeBinding => true
  | _ => false
  end.

Lemma PlanRecovery_valid a now d : PlanRecovery a now = Ok d -> ActivationAttempt_Validate a now = Ok tt.
Proof. unfold PlanRecovery. intros H. by apply seq_Ok in H as [? _]. Qed.

Lemma stage_known a : attempt_ok a -> exists d, stageDecision (at_Stage a) = Ok d.
Proof.
  intros O. pose proof (ok_stage _ O) as H. destruct (at_Stage a); cbn; eauto.
  unfold stageIndex in H. rewrite index_from_notin in H; [lia |]. unfold activationOrder. set_solver.
Qed.

(** on every well-formed attempt PlanRecovery returns a decision: it neither
    reaches its internal error nor dereferences a missing snapshot, and its only
    errors are the attempt's own validation errors. *)
Theorem PlanRecovery_total a now :
  match ActivationAttempt_Validate a now with
  | Ok _ => exists d, PlanRecovery a now = Ok d
  | Err e => PlanRecovery a now = Err e
  end.
Proof.
  unfold PlanRecovery. destruct (ActivationAttempt_Validate a now) as [[] | e] eqn:Hv; [| done].
  rewrite bind_Ok_l. pose proof (attempt_valid_ok _ _ Hv) as O.
  destruct (stage_known _ O) as [d Hd]. pose proof (ok_recovery _ O) as Hr.
  destruct (at_Recovery a); eauto; [| done].
  destruct (stage_from a StageSnapshotFrozen) eqn:Ef; cbn [andb].
  - destruct (ok_snapshot _ O Ef) as (s & -> & _).
    destruct (negb (stage_from a StageCommitted)); rewrite bind_Ok_l;
      [destruct (negb (is_ok _)); eauto |]; repeat (destruct (op_is _ _); eauto).
  - rewrite bind_Ok_l. repeat (destruct (op_is _ _); eauto).
Qed.

Lemma PlanRecovery_inv a now d :
  PlanRecovery a now = Ok d ->
  attempt_ok a
  /\ ((at_Recovery a = RecoveryAborted /\ d = decision ActionNone true)
      \/ (at_Recovery a = RecoveryQuarantined /\ d = quarantinedDecision a)
      \/ (at_Recovery a = RecoveryAborting /\ d = abortDecision a)
      \/ (at_Recovery a = RecoveryNormal
          /\ ((rd_Action d = ActionBeginAbort /\ rd_AutomaticSafe d = true)
              \/ (op_State (at_SandboxActivation a) = OperationIntentRecorded
                  /\ d = decision ActionInspectSandboxActivation false)
              \/ (op_State (at_SandboxReservation a) = OperationIntentRecorded
                  /\ d = decision ActionInspectSandboxReservation false)
              \/ (op_State (at_Budget a) = OperationIntentRecorded /\ d = decision ActionInspectBudget false)
              \/ (op_State (at_SandboxActivation a) <> OperationIntentRecorded
                  /\ op_State (at_SandboxReservation a) <> OperationIntentRecorded
                  /\ op_State (at_Budget a) <> OperationIntentRecorded
                  /\ (stage_from a StageSnapshotFrozen = true -> stage_from a StageCommitted = false ->
                      exists s, at_Snapshot a = Some s /\ (instant now < instant (as_EvidenceExpiresAt s))%Z)
                  /\ stageDecision (at_Stage a) = Ok d)))).
Proof.
  intros H. pose proof (PlanRecovery_valid _ _ _ H) as Hv. pose proof (attempt_valid_ok _ _ Hv) as O.
  split; [done |]. unfold PlanRecovery in H. rewrite Hv, bind_Ok_l in H.
  pose proof (ok_recovery _ O) as Hr.
  destruct (at_Recovery a); try (go_ok; tauto); [| done]. do 3 right. split; [done |].
  apply bind_Ok in H as (fresh & Hf & H). destruct fresh; cbn [negb] in H; [| go_ok; by left]. right.
  unfold op_is in H. destruct (bool_decide_reflect (op_State (at_SandboxActivation a) = OperationIntentRecorded));
    [go_ok; by left | right].
  destruct (bool_decide_reflect (op_State (at_SandboxReservation a) = OperationIntentRecorded));
    [go_ok; by left | right].
  destruct (bool_decide_reflect (op_State (at_Budget a) = OperationIntentRecorded));
    [go_ok; by left | right].
  split; [done | split; [done | split; [done | split; [| done]]]].
  intros Ef Ec. rewrite Ef, Ec in Hf. destruct (at_Snapshot a) as [s |]; [| done]. exists s. split; [done |].
  cbn in Hf. injection Hf as Hf. apply is_ok_true in Hf as [[] Hf]. by apply ValidateFresh_iff in Hf as (_ & _ & ?).
Qed.

Lemma open_effect_facts a now d :
  PlanRecovery a now = Ok d ->
  (hasUnknownOperation a = true ->
    rd_AutomaticSafe d = false
    /\ (rd_Action d = ActionInspectSandboxActivation /\ op_State (at_SandboxActivation a) = OperationUnknownOutcome
        \/ rd_Action d = ActionInspectSandboxReservation
           /\ op_State (at_SandboxReservation a) = OperationUnknownOutcome
        \/ rd_Action d = ActionInspectBudget /\ op_State (at_Budget a) = OperationUnknownOutcome))
  /\ (at_Recovery a <> RecoveryNormal
      \/ op_State (at_SandboxActivation a) = OperationIntentRecorded
      \/ op_State (at_SandboxReservation a) = OperationIntentRecorded
      \/ op_State (at_Budget a) = OperationIntentRecorded ->
      advancing (rd_Action d) = false).
Proof.
  intros H. apply PlanRecovery_inv in H as [O H]. split.
  - intros Hu. pose proof (ok_unknown _ O Hu) as Hq.
    destruct H as [[E _] | [[_ ->] | [[E _] | [E _]]]]; try congruence.
    unfold quarantinedDecision, hasUnknownOperation, op_is in *.
    repeat case_bool_decide; cbn; try tauto. done.
  - intros Hn. destruct H as [[_ ->] | [[_ ->] | [[_ ->] | [En H]]]]; [done | | |].
    + unfold quarantinedDecision. by repeat (destruct (op_is _ _)).
    + unfold abortDecision.
      by repeat match goal with |- context [if ?b then _ else _] => destruct b end.
    + destruct H as [[-> _] | [[_ ->] | [[_ ->] | [[_ ->] | (? & ? & ? & _)]]]]; try done. by destruct_or? Hn.
Qed.

(** Recovery never repeats an effect whose outcome is open.  While an
    operation's outcome is unknown the only decision is a non-automatic
    inspection of such an operation; while an intent is recorded without outcome
    nothing that continues the activation is proposed, nor in any recovery
    state. *)
Theorem PlanRecovery_no_duplicate_effect a now d :
  PlanRecovery a now = Ok d ->
  (hasUnknownOperation a = true ->
    rd_AutomaticSafe d = false
    /\ (rd_Action d = ActionInspectSandboxActivation /\ op_State (at_SandboxActivation a) = OperationUnknownOutcome
        \/ rd_Action d = ActionInspectSandboxReservation
           /\ op_State (at_SandboxReservation a) = OperationUnknownOutcome
        \/ rd_Action d = ActionInspectBudget /\ op_State (at_Budget a) = OperationUnknownOutcome))
  /\ (at_Recovery a <> RecoveryNormal
      \/ op_State (at_SandboxActivation a) = OperationIntentRecorded
      \/ op_State (at_SandboxReservation a) = OperationIntentRecorded
      \/ op_State (at_Budget a) = OperationIntentRecorded ->
      advancing (rd_Action d) = false).
Proof. apply open_effect_facts. Qed.

(** What each continuing action may rely on. *)
Definition action_ready (a : ActivationAttempt) (action : RecoveryAction) : Prop :=
  match action with
  | ActionResumePreflight => at_Stage a = StageProposed
  | ActionInspectPreflight => at_Stage a = StagePreflighting
  | ActionFreezeSnapshot => at_Stage a = StagePreflightPassed /\ at_IdentityLeaseID a = ""
  | ActionReserveIdentityLease => at_Stage a = StageSnapshotFrozen /\ at_IdentityLeaseID a = ""
  | ActionResolveBudget => at_Stage a = StageIdentityLeaseReserved /\ blank (at_IdentityLeaseID a) = false
  | ActionReserveSandbox =>
      at_Stage a = StageBudgetResolved /\ blank (at_IdentityLeaseID a) = false
      /\ (op_State (at_Budget a) = OperationNotRequired \/ op_State (at_Budget a) = OperationConfirmedApplied)
  | ActionCommitActivation =>
      at_Stage a = StageSandboxReserved /\ blank (at_IdentityLeaseID a) = false
      /\ (op_State (at_Budget a) = OperationNotRequired \/ op_State (at_Budget a) = OperationConfirmedApplied)
      /\ op_State (at_SandboxReservation a) = OperationConfirmedApplied
  | ActionActivateSandbox | ActionResumeBinding =>
      at_IdentityLeaseState a = IdentityLeaseActive
      /\ op_State (at_SandboxReservation a) = OperationConfirmedApplied
      /\ (exists l, sc_SandboxLease (at_Scope a) = Some l /\ sbx_ID l = op_Reference (at_SandboxReservation a))
      /\ (action = ActionResumeBinding -> op_State (at_SandboxActivation a) = OperationConfirmedApplied)
  | _ => False
  end.

Lemma normal_budget a :
  attempt_ok a -> at_Recovery a = RecoveryNormal -> stage_from a StageBudgetResolved = true ->
  op_State (at_Budget a) = OperationNotRequired \/ op_State (at_Budget a) = OperationConfirmedApplied.
Proof.
  intros O En Hs. destruct (ok_normal _ O En). destruct (ok_budget _ O Hs) as [? | [? | ?]]; tauto.
Qed.

Lemma normal_sandbox a :
  attempt_ok a -> at_Recovery a = RecoveryNormal -> stage_from a StageSandboxReserved = true ->
  op_State (at_SandboxReservation a) = OperationConfirmedApplied.
Proof.
  intros O En Hs. destruct (ok_normal _ O En). destruct (ok_sandbox _ O Hs); tauto.
Qed.

(** A decision to continue an activation is taken only in normal recovery,
    with no recorded intent open and, from the frozen snapshot up to the commit,
    with unexpired snapshot evidence; the record then holds everything the
    action relies on: the identity lease before the budget, the budget before
    the sandbox, the confirmed sandbox before the commit, and the active lease
    and bound sandbox after it. *)
Theorem PlanRecovery_continues_soundly a now d :
  PlanRecovery a now = Ok d -> advancing (rd_Action d) = true ->
  at_Recovery a = RecoveryNormal /\ action_ready a (rd_Action d)
  /\ (stage_from a StageSnapshotFrozen = true -> stage_from a StageCommitted = false ->
      exists s, at_Snapshot a = Some s /\ (instant now < instant (as_EvidenceExpiresAt s))%Z)
  /\ (rd_AutomaticSafe d = false <-> at_Stage a = StagePreflighting).
Proof.
  intros H Ha. pose proof (open_effect_facts _ _ _ H) as [_ Hdup].
  apply PlanRecovery_inv in H as [O H].
  destruct (decide (at_Recovery a = RecoveryNormal)) as [En | En]; [| rewrite Hdup in Ha by tauto; done].
  destruct H as [[E _] | [[E _] | [[E _] | [_ H]]]]; try congruence.
  destruct H as [[E _] | [[_ ->] | [[_ ->] | [[_ ->] | (_ & _ & _ & Hfresh & Hd)]]]]; try done; [by rewrite E in Ha |].
  split; [done |]. clear Hdup.
  pose proof (normal_budget _ O En) as Hb. pose proof (normal_sandbox _ O En) as Hs.
  pose proof (ok_lease _ O) as Hl. pose proof (ok_nolease _ O) as Hn. pose proof (ok_committed _ O) as Hc.
  pose proof (ok_active _ O) as Hact.
  split; [| split; [done |]].
  - unfold stage_from in *. destruct (at_Stage a) eqn:Es; cbn in Hd; try discriminate Hd; injection Hd as <-; cbn;
      try done.
    + split; [done |]. by apply Hn.
    + split; [done |]. by apply Hn.
    + split; [done |]. by apply Hl.
    + split; [done |]. split; [by apply Hl | by apply Hb].
    + split; [done |]. split; [by apply Hl | split; [by apply Hb | by apply Hs]].
    + destruct (Hc eq_refl) as (? & ? & ?). repeat split; auto; done.
    + destruct (Hc eq_refl) as (? & ? & ?). repeat split; auto.
  - destruct (at_Stage a); cbn in Hd; try discriminate Hd; injection Hd as <-; by cbn.
Qed.

(** ** Finishing an abort *)

(** The update that records an abort: only the recovery state, the revision and
    the timestamp change. *)
Definition mark_aborted (now : Time) (a : ActivationAttempt) : ActivationAttempt :=
  {| at_ID := at_ID a; at_Scope := at_Scope a; at_ExpectedIdentityEpoch := at_ExpectedIdentityEpoch a;
     at_RequirementDigest := at_RequirementDigest a; at_Stage := at_Stage a; at_Recovery := RecoveryAborted;
     at_Snapshot := at_Snapshot a; at_IdentityLeaseID := at_IdentityLeaseID a;
     at_IdentityLeaseState := at_IdentityLeaseState a; at_IdentityLeaseRevision := at_IdentityLeaseRevision a;
     at_Budget := at_Budget a; at_SandboxReservation := at_SandboxReservation a;
     at_SandboxActivation := at_SandboxActivation a; at_SandboxFenced := at_SandboxFenced a;
     at_FailureReason := at_FailureReason a; at_Revision := u64_succ (at_Revision a);
     at_CreatedAt := at_CreatedAt a; at_UpdatedAt := now |}.

Lemma mark_aborted_valid a t now :
  ActivationAttempt_Validate a now = Ok tt -> at_Recovery a = RecoveryAborting ->
  (at_Revision a < max_u64)%N -> (instant (at_UpdatedAt a) <= instant t)%Z -> instant t <> 0%Z ->
  ActivationAttempt_Validate (mark_aborted t a) now = Ok tt <-> activationObligationsSettled a = true.
Proof.
  intros Hv Er Hrev Ht Hz. unfold ActivationAttempt_Validate in *. rewrite !seq_Ok, !guard_Ok in *.
  unfold stage_from, stage_is, op_is, lease_is, hasUnknownOperation, recovery_is, op_is in *.
  cbn [mark_aborted at_ID at_Scope at_ExpectedIdentityEpoch at_RequirementDigest at_Stage at_Recovery at_Snapshot
       at_IdentityLeaseID at_IdentityLeaseState at_IdentityLeaseRevision at_Budget at_SandboxReservation
       at_SandboxActivation at_SandboxFenced at_FailureReason at_Revision at_CreatedAt at_UpdatedAt].
  rewrite Er in Hv. rewrite u64_succ_small by done.
  destruct Hv as (H1 & H2 & H3 & H4 & H5 & H6 & H7 & H8 & H9 & H10 & H11 & H12 & H13 & H14 & H15 & H16 & H17 & H18 & H19).
  change (activationObligationsSettled (mark_aborted t a)) with (activationObligationsSettled a).
  split.
  - intros (_ & _ & _ & _ & _ & _ & _ & _ & _ & _ & _ & _ & _ & _ & _ & _ & _ & _ & H).
    by apply negb_false_iff in H.
  - intros Hs. rewrite Hs. repeat (split; [first [assumption | idtac] |]); try assumption; try done.
    clear - H1 Hrev Ht Hz. unfold IsZero, Before in *. go_bool. intuition lia.
Qed.

Lemma mark_aborted_transition a t now context :
  ActivationAttempt_Validate a now = Ok tt -> at_Recovery a = RecoveryAborting ->
  (at_Revision a < max_u64)%N -> (instant (at_UpdatedAt a) <= instant t)%Z -> instant t <> 0%Z ->
  ValidateTransition a (mark_aborted t a) context now = Ok tt <-> activationObligationsSettled a = true.
Proof.
  intros Hv Er Hrev Ht Hz. rewrite <- (mark_aborted_valid a t now), act_transition_iff by done. split; [by intros [] |].
  intros Hm. split; cbn; rewrite ?Er; try done; lia.
Qed.

Lemma abort_marked_inv a now d :
  PlanRecovery a now = Ok d -> rd_Action d = ActionMarkAborted ->
  at_Recovery a = RecoveryAborting /\ abortDecision a = decision ActionMarkAborted true.
Proof.
  intros H Hd. apply PlanRecovery_inv in H as [O H].
  destruct H as [[_ ->] | [[_ ->] | [[? ->] | [_ H]]]]; [done | | |].
  - exfalso. revert Hd. unfold quarantinedDecision. by repeat (destruct (op_is _ _)).
  - split; [done |]. revert Hd. unfold abortDecision.
    by repeat match goal with |- context [if ?b then _ else _] => destruct b end.
  - exfalso. destruct H as [[E _] | [[_ ->] | [[_ ->] | [[_ ->] | (_ & _ & _ & _ & E)]]]]; try done; [congruence |].
    destruct (at_Stage a); cbn in E; try discriminate E; by injection E as <-.
Qed.

(** Deciding to mark an attempt aborted means that no sandbox is reserved or
    still held, that the budget is not applied and that the identity lease is
    neither held nor waiting for its release; the journal then accepts the
    abort record exactly when moreover no budget intent is still recorded
    without an outcome and the identity lease is absent or released. *)
Theorem mark_aborted_accepted a d t now context :
  PlanRecovery a now = Ok d -> rd_Action d = ActionMarkAborted ->
  (at_Revision a < max_u64)%N -> (instant (at_UpdatedAt a) <= instant t)%Z -> instant t <> 0%Z ->
  at_Recovery a = RecoveryAborting
  /\ op_State (at_SandboxReservation a) <> OperationConfirmedApplied
  /\ op_State (at_Budget a) <> OperationConfirmedApplied
  /\ lease_held (at_IdentityLeaseState a) = false
  /\ (ValidateTransition a (mark_aborted t a) context now = Ok tt <->
      op_State (at_Budget a) <> OperationIntentRecorded
      /\ (at_IdentityLeaseID a = "" \/ at_IdentityLeaseState a = IdentityLeaseReleased)).
Proof.
  intros H Hd Hrev Ht Hz. pose proof (PlanRecovery_valid _ _ _ H) as Hv.
  pose proof (attempt_valid_ok _ _ Hv) as O.
  destruct (abort_marked_inv _ _ _ H Hd) as [Er Ha].
  rewrite mark_aborted_transition by done. clear H Hd.
  assert (op_is (at_Budget a) OperationUnknownOutcome = false) as Hu.
  { destruct (op_is _ _) eqn:E; [| done]. rewrite (ok_unknown _ O) in Er; [done |].
    unfold hasUnknownOperation. by rewrite E. }
  assert (ActivationOperation_Validate (at_Budget a) = Ok tt) as Hbv.
  { unfold ActivationAttempt_Validate in Hv. rewrite !seq_Ok in Hv.
    destruct Hv as (_ & _ & _ & _ & _ & Hops & _). by apply for_each_Ok, Forall_cons in Hops as [? _]. }
  unfold abortDecision in Ha.
  destruct (_ && _ && negb (at_SandboxFenced a)); [discriminate Ha |].
  destruct (negb _ && _ && _ && _) eqn:Hs in Ha; [discriminate Ha |].
  destruct (op_is (at_Budget a) OperationConfirmedApplied) eqn:Hb; [discriminate Ha |].
  destruct (lease_is _ _ || lease_is _ _) eqn:Hl in Ha; [discriminate Ha |].
  unfold lease_held, activationObligationsSettled, op_is, lease_is in *. rewrite Hl.
  go_bool. split; [done |]. split; [intros E; rewrite E in Hs; intuition discriminate |].
  split; [done | split; [done |]].
  assert (op_State (at_SandboxReservation a) = OperationNotStarted
          \/ op_State (at_SandboxReservation a) = OperationNotRequired
          \/ op_State (at_SandboxReservation a) = OperationConfirmedNotApplied
          \/ op_State (at_SandboxReservation a) = OperationReleased) as Hsb by (clear - Hs; tauto).
  unfold ActivationOperation_Validate in Hbv. clear - Hu Hb Hbv Hsb.
  destruct (op_State (at_Budget a)); try done; intuition discriminate.
Qed.

(** ** Concrete decisions *)

Definition ex_unknown_budget : ActivationAttempt :=
  ex_attempt StageIdentityLeaseReserved RecoveryQuarantined 6 IdentityLeaseReserved OperationUnknownOutcome
    OperationNotStarted.

Lemma PlanRecovery_no_duplicate_effect_witness :
  PlanRecovery ex_unknown_budget ex_now = Ok (decision ActionInspectBudget false)
  /\ advancing ActionInspectBudget = false.
Proof.
  assert (PlanRecovery ex_unknown_budget ex_now = Ok (decision ActionInspectBudget false)) as H
    by (vm_compute; reflexivity).
  split; [exact H |].
  apply (proj2 (PlanRecovery_no_duplicate_effect _ _ _ H)). left. discriminate.
Defined.

Lemma PlanRecovery_continues_soundly_witness :
  PlanRecovery (ex_normal StageSandboxReserved 7) ex_now = Ok (decision ActionCommitActivation true)
  /\ action_ready (ex_normal StageSandboxReserved 7) ActionCommitActivation.
Proof.
  assert (PlanRecovery (ex_normal StageSandboxReserved 7) ex_now = Ok (decision ActionCommitActivation true)) as H
    by (vm_compute; reflexivity).
  split; [exact H |].
  exact (proj1 (proj2 (PlanRecovery_continues_soundly _ _ _ H eq_refl))).
Defined.

Definition ex_aborting (rev : N) (lease : IdentityLeaseState) (budget : OperationState) : ActivationAttempt :=
  ex_attempt StageIdentityLeaseReserved RecoveryAborting rev lease budget OperationNotStarted.

Lemma mark_aborted_accepted_witness :
  PlanRecovery (ex_aborting 8 IdentityLeaseReleased OperationReleased) ex_now = Ok (decision ActionMarkAborted true)
  /\ ValidateTransition (ex_aborting 8 IdentityLeaseReleased OperationReleased)
       (mark_aborted ex_now (ex_aborting 8 IdentityLeaseReleased OperationReleased))
       {| UnknownResolved := false |} ex_now = Ok tt.
Proof.
  assert (PlanRecovery (ex_aborting 8 IdentityLeaseReleased OperationReleased) ex_now
          = Ok (decision ActionMarkAborted true)) as H by (vm_compute; reflexivity).
  split; [exact H |].
  destruct (mark_aborted_accepted _ _ ex_now ex_now {| UnknownResolved := false |} H eq_refl)
    as (_ & _ & _ & _ & Hacc); [vm_compute; reflexivity | vm_compute; discriminate | vm_compute; discriminate |].
  apply Hacc. split; [discriminate | right; reflexivity].
Defined.

(** A budget intent recorded without outcome before the abort began: a history
    of accepted updates reaches an attempt for which the plan is to mark it
    aborted, "all activation obligations are settled", and whose abort record
    the journal refuses for ever. *)
Theorem abort_with_open_budget_stuck :
  exists a,
    rtc act_step (ex_normal StageProposed 1) a
    /\ PlanRecovery a ex_now = Ok (decision ActionMarkAborted true)
    /\ forall t now context, ValidateTransition a (mark_aborted t a) context now <> Ok tt.
Proof.
  exists (ex_aborting 9 IdentityLeaseReleased OperationIntentRecorded). split; [| split].
  - act_next StagePreflighting 2%N. act_next StagePreflightPassed 3%N. act_next StageSnapshotFrozen 4%N.
    act_next StageIdentityLeaseReserved 5%N.
    assert (forall a b, ValidateTransition a b {| UnknownResolved := false |} ex_now = Ok tt -> act_step a b) as Hs
      by (intros; by exists {| UnknownResolved := false |}, ex_now).
    apply (rtc_l _ _ (ex_attempt StageIdentityLeaseReserved RecoveryNormal 6 IdentityLeaseReserved
                        OperationIntentRecorded OperationNotStarted)); [apply Hs; vm_compute; reflexivity |].
    apply (rtc_l _ _ (ex_aborting 7 IdentityLeaseReserved OperationIntentRecorded));
      [apply Hs; vm_compute; reflexivity |].
    apply (rtc_l _ _ (ex_aborting 8 IdentityLeaseRevoked OperationIntentRecorded));
      [apply Hs; vm_compute; reflexivity |].
    apply rtc_once, Hs. vm_compute; reflexivity.
  - vm_compute; reflexivity.
  - intros t now context H. apply act_transition_iff in H. apply tr_to, attempt_valid_ok in H.
    pose proof (ok_aborted _ H eq_refl) as E. vm_compute in E. discriminate E.
Qed.
