(* ===== verification/FactStore.v ===== *)
(** * fakes/fact_store.go and fakes/activation_store.go

    The in-memory owner of the Runtime's facts: runs, commands with their
    desired state and outbox, identity leases and activation attempts.  Every
    method takes the store's mutex for the whole of its reads and writes, so a
    method is one atomic step of the state below; the clock the store was made
    with is the [now] argument of the methods that read it.

    Map values that the Go code holds by pointer are kept by value where one map
    owns them (runs, instances, activations).  A lease is reachable from two
    maps, [leases] by identity and [leaseIDs] by lease id, so leases live in a
    heap and both maps hold addresses. *)

From S2P Require Import Prelude GoStd Errors Identity State RunFact Command IdentityLease Activation.

Record instanceFacts := {
  if_desired : DesiredStateSnapshot;
  if_commands : list CommandRecord;
  if_outbox : list OutboxRecord;
  if_idempotency : gmap string CommandAcceptance;
}.

Abbreviation addr := nat.

Record FactStore := {
  fs_evidenceAvailable : bool;
  fs_instances : gmap string instanceFacts;
  fs_heap : list IdentityExecutionLease;
  fs_leases : gmap string addr;
  fs_leaseIDs : gmap string addr;
  fs_activations : gmap string ActivationAttempt;
  fs_runs : gmap string AgentRunRecord;
  fs_activeRuns : gmap string string;
  fs_loseRunWriteReply : bool;
}.

Definition NewFactStore : FactStore :=
  {| fs_evidenceAvailable := true; fs_instances := ∅; fs_heap := []; fs_leases := ∅; fs_leaseIDs := ∅;
     fs_activations := ∅; fs_runs := ∅; fs_activeRuns := ∅; fs_loseRunWriteReply := false |}.

(** A store method. *)
Definition M (A : Type) : Type := ST FactStore error A.

(** Field updates. *)
Definition set_evidence (b : bool) (s : FactStore) : FactStore :=
  {| fs_evidenceAvailable := b; fs_instances := fs_instances s; fs_heap := fs_heap s;
     fs_leases := fs_leases s; fs_leaseIDs := fs_leaseIDs s; fs_activations := fs_activations s;
     fs_runs := fs_runs s; fs_activeRuns := fs_activeRuns s; fs_loseRunWriteReply := fs_loseRunWriteReply s |}.
Definition set_instances (m : gmap string instanceFacts) (s : FactStore) : FactStore :=
  {| fs_evidenceAvailable := fs_evidenceAvailable s; fs_instances := m; fs_heap := fs_heap s;
     fs_leases := fs_leases s; fs_leaseIDs := fs_leaseIDs s; fs_activations := fs_activations s;
     fs_runs := fs_runs s; fs_activeRuns := fs_activeRuns s; fs_loseRunWriteReply := fs_loseRunWriteReply s |}.
Definition set_leases (h : list IdentityExecutionLease) (byKey byID : gmap string addr) (s : FactStore) : FactStore :=
  {| fs_evidenceAvailable := fs_evidenceAvailable s; fs_instances := fs_instances s; fs_heap := h;
     fs_leases := byKey; fs_leaseIDs := byID; fs_activations := fs_activations s;
     fs_runs := fs_runs s; fs_activeRuns := fs_activeRuns s; fs_loseRunWriteReply := fs_loseRunWriteReply s |}.
Definition set_activations (m : gmap string ActivationAttempt) (s : FactStore) : FactStore :=
  {| fs_evidenceAvailable := fs_evidenceAvailable s; fs_instances := fs_instances s; fs_heap := fs_heap s;
     fs_leases := fs_leases s; fs_leaseIDs := fs_leaseIDs s; fs_activations := m;
     fs_runs := fs_runs s; fs_activeRuns := fs_activeRuns s; fs_loseRunWriteReply := fs_loseRunWriteReply s |}.
Definition set_runs (m : gmap string AgentRunRecord) (active : gmap string string) (s : FactStore) : FactStore :=
  {| fs_evidenceAvailable := fs_evidenceAvailable s; fs_instances := fs_instances s; fs_heap := fs_heap s;
     fs_leases := fs_leases s; fs_leaseIDs := fs_leaseIDs s; fs_activations := fs_activations s;
     fs_runs := m; fs_activeRuns := active; fs_loseRunWriteReply := fs_loseRunWriteReply s |}.
Definition set_lose (b : bool) (s : FactStore) : FactStore :=
  {| fs_evidenceAvailable := fs_evidenceAvailable s; fs_instances := fs_instances s; fs_heap := fs_heap s;
     fs_leases := fs_leases s; fs_leaseIDs := fs_leaseIDs s; fs_activations := fs_activations s;
     fs_runs := fs_runs s; fs_activeRuns := fs_activeRuns s; fs_loseRunWriteReply := b |}.

Definition SetEvidenceAvailable (available : bool) : M unit := st_modify (set_evidence available).
Definition LoseNextRunWriteReply : M unit := st_modify (set_lose true).

(** ** Keys and small helpers *)

(** fmt.Sprintf with "%s/%s/..." and "%d". *)
Definition slash (a b : string) : string := a +:+ "/" +:+ b.

Definition executionKey (scope : ExecutionScope) : string :=
  slash (id_TenantID (sc_Identity scope))
    (slash (id_ID (sc_Identity scope))
      (slash (inst_ID (sc_Instance scope)) (FormatUint (inst_Epoch (sc_Instance scope))))).
Definition runKey (scope : ExecutionScope) (runID : string) : string := slash (executionKey scope) runID.
Definition identityKey (tenantID identityID : string) : string := slash tenantID identityID.
Definition commandIdempotencyKey (envelope : CommandEnvelope) : string :=
  let target := cmd_Target envelope in
  slash (id_TenantID (sc_Identity target))
    (slash (cmd_Actor envelope)
      (slash (inst_ID (sc_Instance target))
        (slash (FormatUint (inst_Epoch (sc_Instance target)))
          (slash (CommandKind_string (cmd_Kind envelope)) (cmd_IdempotencyKey envelope))))).

Definition contextError (ctx : Context) : result unit :=
  match ctx with
  | CtxNil => fail ErrorInvalidArgument ReasonInvalidReference
  | CtxLive => Ok tt
  | CtxCanceled => Err CanceledErr
  | CtxDeadlineExceeded => Err DeadlineExceededErr
  end.

Definition isNonLifecycleCommand (kind : CommandKind) : bool :=
  match kind with
  | CommandProvideInput | CommandCancelRun | CommandApproveEffect | CommandDenyEffect => true
  | _ => false
  end.

Definition set_run_scope (scope : ExecutionScope) (r : AgentRunRecord) : AgentRunRecord :=
  {| run_ID := run_ID r; run_Scope := scope; run_Status := run_Status r; run_Revision := run_Revision r;
     run_SessionRef := run_SessionRef r; run_StartedAt := run_StartedAt r; run_EndedAt := run_EndedAt r;
     run_Outcome := run_Outcome r; run_CompletionClaim := run_CompletionClaim r |}.
(** Copies the lease and claim values behind the record's pointers. *)
Definition cloneRun (record : AgentRunRecord) : AgentRunRecord :=
  set_run_scope (cloneScope (run_Scope record)) record.

Definition cloneDesired (snapshot : DesiredStateSnapshot) : DesiredStateSnapshot :=
  {| ds_Scope := cloneScope (ds_Scope snapshot); ds_Desired := ds_Desired snapshot;
     ds_Revision := ds_Revision snapshot; ds_LastCommandID := ds_LastCommandID snapshot |}.

Definition cloneAcceptance (a : CommandAcceptance) : CommandAcceptance :=
  let r := acc_Record a in
  let e := rec_Envelope r in
  {| acc_Record :=
       {| rec_Envelope :=
            {| cmd_ID := cmd_ID e; cmd_Kind := cmd_Kind e; cmd_Target := cloneScope (cmd_Target e);
               cmd_Actor := cmd_Actor e; cmd_AuthorityRef := cmd_AuthorityRef e; cmd_Reason := cmd_Reason e;
               cmd_CanonicalPayloadDigest := cmd_CanonicalPayloadDigest e;
               cmd_Preconditions := cmd_Preconditions e; cmd_IdempotencyKey := cmd_IdempotencyKey e;
               cmd_EffectIntentID := cmd_EffectIntentID e;
               cmd_EffectIntentRevision := cmd_EffectIntentRevision e;
               cmd_SubmittedAt := cmd_SubmittedAt e; cmd_ExpiresAt := cmd_ExpiresAt e |};
          rec_Revision := rec_Revision r; rec_Status := rec_Status r; rec_RecordedAt := rec_RecordedAt r |};
     acc_DesiredState := cloneDesired (acc_DesiredState a);
     acc_Outbox := acc_Outbox a |}.

Definition set_attempt_scope (scope : ExecutionScope) (a : ActivationAttempt) : ActivationAttempt :=
  {| at_ID := at_ID a; at_Scope := scope; at_ExpectedIdentityEpoch := at_ExpectedIdentityEpoch a;
     at_RequirementDigest := at_RequirementDigest a; at_Stage := at_Stage a; at_Recovery := at_Recovery a;
     at_Snapshot := at_Snapshot a; at_IdentityLeaseID := at_IdentityLeaseID a;
     at_IdentityLeaseState := at_IdentityLeaseState a; at_IdentityLeaseRevision := at_IdentityLeaseRevision a;
     at_Budget := at_Budget a; at_SandboxReservation := at_SandboxReservation a;
     at_SandboxActivation := at_SandboxActivation a; at_SandboxFenced := at_SandboxFenced a;
     at_FailureReason := at_FailureReason a; at_Revision := at_Revision a; at_CreatedAt := at_CreatedAt a;
     at_UpdatedAt := at_UpdatedAt a |}.
Definition cloneActivationAttempt (a : ActivationAttempt) : ActivationAttempt :=
  set_attempt_scope (cloneScope (at_Scope a)) a.

(** ** Runs *)

Definition consumeLostRunWriteReply : M bool :=
  s ← st_get ;
  if negb (fs_loseRunWriteReply s) then mret false
  else st_put (set_lose false s) ;; mret true.

Definition CreateRun (ctx : Context) (initial : AgentRunRecord) : M AgentRunRecord :=
  st_lift (contextError ctx) ;;
  st_lift (AgentRunRecord_Validate initial) ;;
  st_guard (negb (N.eqb (run_Revision initial) 1)
            || (negb (status_is (run_Status initial) RunPending)
                && negb (status_is (run_Status initial) RunRunning)))
    ErrorInvalidArgument ReasonInvalidState ;;
  let key := runKey (run_Scope initial) (run_ID initial) in
  let instanceKey := executionKey (run_Scope initial) in
  s ← st_get ;
  st_guard (match fs_runs s !! key with Some _ => true | None => false end)
    ErrorConflict ReasonAlreadyExists ;;
  st_guard (match fs_activeRuns s !! instanceKey with Some _ => true | None => false end)
    ErrorConflict ReasonRunConflict ;;
  let initial := set_run_scope (cloneScope (run_Scope initial)) initial in
  st_put (set_runs (<[key := initial]> (fs_runs s)) (<[instanceKey := run_ID initial]> (fs_activeRuns s)) s) ;;
  lost ← consumeLostRunWriteReply ;
  if (lost : bool) then st_err ErrorUnavailable ReasonEvidenceUnavailable
  else mret (cloneRun initial).

Definition InspectRun (ctx : Context) (scope : ExecutionScope) (runID : string) : M AgentRunRecord :=
  st_lift (contextError ctx) ;;
  st_lift (ExecutionScope_Validate scope) ;;
  s ← st_get ;
  match fs_runs s !! runKey scope runID with
  | None => st_err ErrorNotFound ReasonInvalidReference
  | Some record =>
      st_guard (negb (sameScope (run_Scope record) scope)) ErrorNotFound ReasonInvalidReference ;;
      mret (cloneRun record)
  end.

Definition InspectActiveRun (ctx : Context) (scope : ExecutionScope) : M AgentRunRecord :=
  st_lift (contextError ctx) ;;
  st_lift (ExecutionScope_Validate scope) ;;
  s ← st_get ;
  match fs_activeRuns s !! executionKey scope with
  | None => st_err ErrorNotFound ReasonInvalidReference
  | Some runID =>
      match fs_runs s !! runKey scope runID with
      | None => st_err ErrorInternal ReasonRunConflict
      | Some record =>
          st_guard (negb (sameScope (run_Scope record) scope)) ErrorInternal ReasonRunConflict ;;
          mret (cloneRun record)
      end
  end.

Definition CompareAndSwapRun (ctx : Context) (request : RunFactCASRequest) : M AgentRunRecord :=
  st_lift (contextError ctx) ;;
  st_lift (RunFactCASRequest_Validate request) ;;
  let next := cas_Next request in
  let key := runKey (run_Scope next) (run_ID next) in
  s ← st_get ;
  match fs_runs s !! key with
  | None => st_err ErrorNotFound ReasonInvalidReference
  | Some record =>
      st_guard (negb (sameScope (run_Scope record) (run_Scope next))) ErrorNotFound ReasonInvalidReference ;;
      st_guard (negb (N.eqb (run_Revision record) (cas_ExpectedRevision request)))
        ErrorConflict ReasonRevisionConflict ;;
      st_lift (ValidateRunFactTransition record next) ;;
      let next := set_run_scope (cloneScope (run_Scope next)) next in
      let instanceKey := executionKey (run_Scope next) in
      st_put (set_runs (<[key := next]> (fs_runs s))
                (if status_is (run_Status next) RunTerminal
                 then delete instanceKey (fs_activeRuns s)
                 else <[instanceKey := run_ID next]> (fs_activeRuns s)) s) ;;
      lost ← consumeLostRunWriteReply ;
      if (lost : bool) then st_err ErrorUnavailable ReasonEvidenceUnavailable
      else mret (cloneRun next)
  end.

(** ** Commands *)

Definition CreateDesiredState (ctx : Context) (initial : DesiredStateSnapshot) : M DesiredStateSnapshot :=
  st_lift (contextError ctx) ;;
  st_lift (ExecutionScope_Validate (ds_Scope initial)) ;;
  st_guard (negb (ValidDesiredState (ds_Desired initial)) || negb (N.eqb (ds_Revision initial) 1)
            || nonempty (ds_LastCommandID initial)) ErrorInvalidArgument ReasonInvalidState ;;
  let key := executionKey (ds_Scope initial) in
  s ← st_get ;
  st_guard (match fs_instances s !! key with Some _ => true | None => false end)
    ErrorConflict ReasonAlreadyExists ;;
  let initial := cloneDesired initial in
  st_put (set_instances
            (<[key := {| if_desired := initial; if_commands := []; if_outbox := []; if_idempotency := ∅ |}]>
               (fs_instances s)) s) ;;
  mret (cloneDesired initial).

Definition command_live (r : CommandRecord) : bool :=
  bool_decide (rec_Status r = CommandAccepted) || bool_decide (rec_Status r = CommandExecuting).

(** The admission loop over the existing commands. *)
Definition admit_over (envelope : CommandEnvelope) (existing : CommandRecord) : result unit :=
  guard (command_live existing && Supersedes (rec_Envelope existing) envelope)
    ErrorPreconditionFailed ReasonCommandDominated ;;
  guard (bool_decide (cmd_ID (rec_Envelope existing) = cmd_ID envelope)) ErrorConflict ReasonAlreadyExists.

(** The supersession loop, which rewrites the existing records in place. *)
Definition supersede (envelope : CommandEnvelope) (existing : CommandRecord) : CommandRecord :=
  if command_live existing && Supersedes envelope (rec_Envelope existing)
  then {| rec_Envelope := rec_Envelope existing; rec_Revision := rec_Revision existing;
          rec_Status := CommandSuperseded; rec_RecordedAt := rec_RecordedAt existing |}
  else existing.

Definition AcceptCommand (ctx : Context) (intent : CommandIntent) (now : Time) : M CommandAcceptance :=
  let envelope := int_Envelope intent in
  st_lift (contextError ctx) ;;
  st_lift (CommandEnvelope_Validate envelope) ;;
  st_lift (DesiredStateMutation_ValidateFor (int_Mutation intent) (cmd_Kind envelope)) ;;
  st_guard (negb (Before now (cmd_ExpiresAt envelope))) ErrorPreconditionFailed ReasonInvalidReference ;;
  let key := executionKey (cmd_Target envelope) in
  let idempotencyKey := commandIdempotencyKey envelope in
  s ← st_get ;
  match fs_instances s !! key with
  | None => st_err ErrorNotFound ReasonInvalidReference
  | Some facts =>
      match if_idempotency facts !! idempotencyKey with
      | Some prior =>
          st_guard (negb (bool_decide (cmd_CanonicalPayloadDigest (rec_Envelope (acc_Record prior))
                                       = cmd_CanonicalPayloadDigest envelope)))
            ErrorConflict ReasonIdempotencyPayloadMismatch ;;
          mret (cloneAcceptance prior)
      | None =>
          let current := if_desired facts in
          st_guard (negb (sameScope (ds_Scope current) (cmd_Target envelope)))
            ErrorPreconditionFailed ReasonStaleInstanceEpoch ;;
          st_lift (CheckExecutionPreconditions (cmd_Preconditions envelope)
                     {| cur_Scope := ds_Scope current; cur_Revision := ds_Revision current |}) ;;
          st_guard (isNonLifecycleCommand (cmd_Kind envelope)
                    && negb (bool_decide (mut_Desired (int_Mutation intent) = ds_Desired current)))
            ErrorInvalidArgument ReasonInvalidState ;;
          st_guard (negb (fs_evidenceAvailable s)) ErrorUnavailable ReasonEvidenceUnavailable ;;
          st_lift (for_each (admit_over envelope) (if_commands facts)) ;;
          let nextRevision := u64_succ (ds_Revision current) in
          let commands := map (supersede envelope) (if_commands facts) in
          let record := {| rec_Envelope := envelope; rec_Revision := nextRevision;
                           rec_Status := CommandAccepted; rec_RecordedAt := now |} in
          let desired := {| ds_Scope := cloneScope (ds_Scope current);
                            ds_Desired := mut_Desired (int_Mutation intent);
                            ds_Revision := nextRevision; ds_LastCommandID := cmd_ID envelope |} in
          let outbox := {| out_CommandID := cmd_ID envelope; out_Revision := nextRevision;
                           out_PayloadDigest := cmd_CanonicalPayloadDigest envelope;
                           out_RecordedAt := now; out_Dispatched := false |} in
          let acceptance := {| acc_Record := record; acc_DesiredState := desired; acc_Outbox := outbox |} in
          st_put (set_instances
                    (<[key := {| if_desired := desired; if_commands := commands ++ [record];
                                 if_outbox := if_outbox facts ++ [outbox];
                                 if_idempotency := <[idempotencyKey := acceptance]> (if_idempotency facts) |}]>
                       (fs_instances s)) s) ;;
          mret (cloneAcceptance acceptance)
      end
  end.

(** `facts, exists := s.instances[...]; if !exists || !sameScope(...)` of the readers. *)
Definition lookup_instance (s : FactStore) (scope : ExecutionScope) : result instanceFacts :=
  match fs_instances s !! executionKey scope with
  | None => fail ErrorNotFound ReasonInvalidReference
  | Some facts =>
      guard (negb (sameScope (ds_Scope (if_desired facts)) scope)) ErrorNotFound ReasonInvalidReference ;;
      Ok facts
  end.

Definition ReadDesiredState (ctx : Context) (scope : ExecutionScope) : M DesiredStateSnapshot :=
  st_lift (contextError ctx) ;;
  s ← st_get ; facts ← st_lift (lookup_instance s scope) ; mret (cloneDesired (if_desired facts)).

Definition ListCommands (ctx : Context) (scope : ExecutionScope) : M (list CommandRecord) :=
  st_lift (contextError ctx) ;;
  s ← st_get ; facts ← st_lift (lookup_instance s scope) ; mret (if_commands facts).

Definition ListOutbox (ctx : Context) (scope : ExecutionScope) : M (list OutboxRecord) :=
  st_lift (contextError ctx) ;;
  s ← st_get ; facts ← st_lift (lookup_instance s scope) ; mret (if_outbox facts).

(** The loop over the outbox: the first record of the command is marked. *)
Fixpoint mark_dispatched (commandID : string) (revision : N) (outbox : list OutboxRecord)
    : result (list OutboxRecord * OutboxRecord) :=
  match outbox with
  | [] => fail ErrorNotFound ReasonInvalidReference
  | o :: rest =>
      if bool_decide (out_CommandID o = commandID) then
        guard (negb (N.eqb (out_Revision o) revision)) ErrorConflict ReasonRevisionConflict ;;
        let o := {| out_CommandID := out_CommandID o; out_Revision := out_Revision o;
                    out_PayloadDigest := out_PayloadDigest o; out_RecordedAt := out_RecordedAt o;
                    out_Dispatched := true |} in
        Ok (o :: rest, o)
      else
        r ← mark_dispatched commandID revision rest ; Ok (o :: r.1, r.2)
  end.

Definition MarkOutboxDispatched (ctx : Context) (scope : ExecutionScope) (commandID : string)
    (revision : N) : M OutboxRecord :=
  st_lift (contextError ctx) ;;
  st_guard (blank commandID || N.eqb revision 0) ErrorInvalidArgument ReasonInvalidReference ;;
  s ← st_get ;
  facts ← st_lift (lookup_instance s scope) ;
  r ← st_lift (mark_dispatched commandID revision (if_outbox facts)) ;
  st_put (set_instances
            (<[executionKey scope :=
                 {| if_desired := if_desired facts; if_commands := if_commands facts; if_outbox := r.1;
                    if_idempotency := if_idempotency facts |}]> (fs_instances s)) s) ;;
  mret r.2.

(** ** Identity leases *)

Definition expireLeaseIfNeeded (lease : IdentityExecutionLease) (now : Time) : IdentityExecutionLease :=
  if lease_held (il_State lease) && negb (Before now (il_ExpiresAt lease))
  then bump_lease (set_lease_state IdentityLeaseExpired lease)
  else lease.

(** Reading through a pointer; a dangling address would be [GoPanic]. *)
Definition deref (a : addr) : M IdentityExecutionLease :=
  s ← st_get ;
  match fs_heap s !! a with Some lease => mret lease | None => st_fail GoPanic end.
Definition write_lease (a : addr) (lease : IdentityExecutionLease) : M unit :=
  st_modify (fun s => set_leases (<[a := lease]> (fs_heap s)) (fs_leases s) (fs_leaseIDs s) s).

(** `expireLeaseIfNeeded(facts, now)`, which mutates the pointed-to lease. *)
Definition expire_at (a : addr) (now : Time) : M IdentityExecutionLease :=
  lease ← deref a ;
  let lease := expireLeaseIfNeeded lease now in
  write_lease a lease ;; mret lease.

Definition leaseID (tenantID identityID : string) (epoch : N) : string :=
  slash tenantID (slash identityID (slash "lease" (FormatUint epoch))).

(** The final block of ReserveIdentityLease: a fresh lease of the next epoch. *)
Definition allocate_lease (request : ReserveIdentityLeaseRequest) : M IdentityExecutionLease :=
  let newEpoch := u64_succ (rsv_ExpectedIdentityEpoch request) in
  let lease :=
    {| il_ID := leaseID (rsv_TenantID request) (rsv_IdentityID request) newEpoch;
       il_Identity := {| id_TenantID := rsv_TenantID request; id_ID := rsv_IdentityID request; id_Epoch := newEpoch |};
       il_Lineage := rsv_Lineage request; il_ActivationAttemptID := rsv_ActivationAttemptID request;
       il_State := IdentityLeaseReserved; il_AuthorityEpoch := rsv_AuthorityEpoch request;
       il_ExpiresAt := rsv_ExpiresAt request; il_Revision := 1 |} in
  s ← st_get ;
  let a := length (fs_heap s) in
  st_put (set_leases (fs_heap s ++ [lease])
            (<[identityKey (rsv_TenantID request) (rsv_IdentityID request) := a]> (fs_leases s))
            (<[il_ID lease := a]> (fs_leaseIDs s)) s) ;;
  mret lease.

Definition same_reservation (current : IdentityExecutionLease) (request : ReserveIdentityLeaseRequest) : bool :=
  lease_is (il_State current) IdentityLeaseReserved
  && bool_decide (il_ActivationAttemptID current = rsv_ActivationAttemptID request)
  && bool_decide (il_Lineage current = rsv_Lineage request)
  && N.eqb (il_AuthorityEpoch current) (rsv_AuthorityEpoch request)
  && N.eqb (u64_succ (rsv_ExpectedIdentityEpoch request)) (id_Epoch (il_Identity current)).

Definition ReserveIdentityLease (ctx : Context) (request : ReserveIdentityLeaseRequest) (now : Time)
    : M IdentityExecutionLease :=
  st_lift (contextError ctx) ;;
  st_lift (ReserveIdentityLeaseRequest_Validate request now) ;;
  let key := identityKey (rsv_TenantID request) (rsv_IdentityID request) in
  s ← st_get ;
  match fs_leases s !! key with
  | Some a =>
      current ← expire_at a now ;
      if same_reservation current request then mret current
      else
        st_guard (lease_held (il_State current)) ErrorConflict ReasonIdentityLeaseConflict ;;
        st_guard (negb (N.eqb (id_Epoch (il_Identity current)) (rsv_ExpectedIdentityEpoch request)))
          ErrorPreconditionFailed ReasonStaleIdentityEpoch ;;
        allocate_lease request
  | None =>
      st_guard (negb (N.eqb (rsv_ExpectedIdentityEpoch request) 0))
        ErrorPreconditionFailed ReasonStaleIdentityEpoch ;;
      allocate_lease request
  end.

Definition mutateLease (ctx : Context) (leaseID : string) (expectedRevision : N)
    (mutate : IdentityExecutionLease -> Time -> result IdentityExecutionLease) (now : Time)
    : M IdentityExecutionLease :=
  st_lift (contextError ctx) ;;
  st_guard (blank leaseID || N.eqb expectedRevision 0) ErrorInvalidArgument ReasonInvalidReference ;;
  s ← st_get ;
  match fs_leaseIDs s !! leaseID with
  | None => st_err ErrorNotFound ReasonInvalidReference
  | Some a =>
      current ← expire_at a now ;
      st_guard (negb (N.eqb (il_Revision current) expectedRevision)) ErrorConflict ReasonStaleLeaseRevision ;;
      next ← st_lift (mutate current now) ;
      let next := bump_lease next in
      write_lease a next ;; mret next
  end.

Definition renew_lease (request : RenewIdentityLeaseRequest) (lease : IdentityExecutionLease) (now : Time)
    : result IdentityExecutionLease :=
  guard (N.eqb (rnw_AuthorityEpoch request) 0
         || negb (N.eqb (il_AuthorityEpoch lease) (rnw_AuthorityEpoch request)))
    ErrorPreconditionFailed ReasonStaleAuthorityEpoch ;;
  guard (negb (lease_is (il_State lease) IdentityLeaseActive) || negb (After (rnw_ExpiresAt request) now))
    ErrorPreconditionFailed ReasonIdentityLeaseStateInvalid ;;
  Ok (set_lease_expiry (rnw_ExpiresAt request) lease).

Definition RenewIdentityLease (ctx : Context) (request : RenewIdentityLeaseRequest) (now : Time)
    : M IdentityExecutionLease :=
  mutateLease ctx (rnw_LeaseID request) (rnw_ExpectedRevision request) (renew_lease request) now.

Definition revoke_lease (request : EndIdentityLeaseRequest) (lease : IdentityExecutionLease) (_ : Time)
    : result IdentityExecutionLease :=
  guard (blank (end_Reason request) || negb (lease_held (il_State lease)))
    ErrorPreconditionFailed ReasonIdentityLeaseStateInvalid ;;
  Ok (set_lease_state IdentityLeaseRevoked lease).

Definition RevokeIdentityLease (ctx : Context) (request : EndIdentityLeaseRequest) (now : Time)
    : M IdentityExecutionLease :=
  mutateLease ctx (end_LeaseID request) (end_ExpectedRevision request) (revoke_lease request) now.

Definition release_lease (request : EndIdentityLeaseRequest) (lease : IdentityExecutionLease) (_ : Time)
    : result IdentityExecutionLease :=
  guard (blank (end_Reason request) || lease_is (il_State lease) IdentityLeaseReleased
         || lease_is (il_State lease) IdentityLeaseActive)
    ErrorPreconditionFailed ReasonIdentityLeaseStateInvalid ;;
  Ok (set_lease_state IdentityLeaseReleased lease).

Definition ReleaseIdentityLease (ctx : Context) (request : EndIdentityLeaseRequest) (now : Time)
    : M IdentityExecutionLease :=
  mutateLease ctx (end_LeaseID request) (end_ExpectedRevision request) (release_lease request) now.

Definition InspectIdentityLease (ctx : Context) (tenantID identityID : string) (now : Time)
    : M IdentityExecutionLease :=
  st_lift (contextError ctx) ;;
  s ← st_get ;
  match fs_leases s !! identityKey tenantID identityID with
  | None => st_err ErrorNotFound ReasonInvalidReference
  | Some a => expire_at a now
  end.

(** ** activation_store.go *)

Definition CreateActivationAttempt (ctx : Context) (attempt : ActivationAttempt) (now : Time) : M ActivationAttempt :=
  st_lift (contextError ctx) ;;
  st_lift (ActivationAttempt_Validate attempt now) ;;
  st_guard (negb (stage_is attempt StageProposed) || negb (recovery_is attempt RecoveryNormal)
            || negb (N.eqb (at_Revision attempt) 1)) ErrorInvalidArgument ReasonInvalidState ;;
  s ← st_get ;
  st_guard (negb (fs_evidenceAvailable s)) ErrorUnavailable ReasonEvidenceUnavailable ;;
  st_guard (match fs_activations s !! at_ID attempt with Some _ => true | None => false end)
    ErrorConflict ReasonAlreadyExists ;;
  st_put (set_activations (<[at_ID attempt := cloneActivationAttempt attempt]> (fs_activations s)) s) ;;
  mret (cloneActivationAttempt attempt).

Definition InspectActivationAttempt (ctx : Context) (id : string) : M ActivationAttempt :=
  st_lift (contextError ctx) ;;
  st_guard (blank id) ErrorInvalidArgument ReasonInvalidReference ;;
  s ← st_get ;
  match fs_activations s !! id with
  | None => st_err ErrorNotFound ReasonInvalidReference
  | Some attempt => mret (cloneActivationAttempt attempt)
  end.

Definition CompareAndSwapActivation (ctx : Context) (next : ActivationAttempt)
    (transition : TransitionContext) (now : Time) : M ActivationAttempt :=
  st_lift (contextError ctx) ;;
  s ← st_get ;
  st_guard (negb (fs_evidenceAvailable s)) ErrorUnavailable ReasonEvidenceUnavailable ;;
  match fs_activations s !! at_ID next with
  | None => st_err ErrorNotFound ReasonInvalidReference
  | Some current =>
      st_lift (ValidateTransition current next transition now) ;;
      st_put (set_activations (<[at_ID next := cloneActivationAttempt next]> (fs_activations s)) s) ;;
      mret (cloneActivationAttempt next)
  end.

(** The record CommitActivation builds from the current one. *)
Definition committed_attempt (current : ActivationAttempt) (sandbox : SandboxLeaseRef)
    (leaseRevision : N) (now : Time) : ActivationAttempt :=
  let next := cloneActivationAttempt current in
  {| at_ID := at_ID next; at_Scope := set_SandboxLease (Some sandbox) (at_Scope next);
     at_ExpectedIdentityEpoch := at_ExpectedIdentityEpoch next;
     at_RequirementDigest := at_RequirementDigest next; at_Stage := StageCommitted;
     at_Recovery := at_Recovery next; at_Snapshot := at_Snapshot next;
     at_IdentityLeaseID := at_IdentityLeaseID next; at_IdentityLeaseState := IdentityLeaseActive;
     at_IdentityLeaseRevision := leaseRevision; at_Budget := at_Budget next;
     at_SandboxReservation := at_SandboxReservation next; at_SandboxActivation := at_SandboxActivation next;
     at_SandboxFenced := at_SandboxFenced next; at_FailureReason := at_FailureReason next;
     at_Revision := u64_succ (at_Revision next); at_CreatedAt := at_CreatedAt next; at_UpdatedAt := now |}.

Definition lease_matches (request : ActivationCommitRequest) (current : ActivationAttempt)
    (lease : IdentityExecutionLease) : bool :=
  N.eqb (il_Revision lease) (acr_ExpectedIdentityLeaseRevision request)
  && lease_is (il_State lease) IdentityLeaseReserved
  && bool_decide (il_Identity lease = sc_Identity (at_Scope current))
  && bool_decide (il_Lineage lease = sc_Lineage (at_Scope current))
  && N.eqb (il_AuthorityEpoch lease) (acr_AuthorityEpoch request)
  && bool_decide (il_ActivationAttemptID lease = at_ID current)
  && bool_decide (at_IdentityLeaseID current = il_ID lease).

Definition CommitActivation (ctx : Context) (request : ActivationCommitRequest) (now : Time)
    : M ActivationCommitResult :=
  st_lift (contextError ctx) ;;
  st_guard (blank (acr_AttemptID request) || blank (acr_IdentityLeaseID request)
            || N.eqb (acr_ExpectedAttemptRevision request) 0
            || N.eqb (acr_ExpectedIdentityLeaseRevision request) 0
            || N.eqb (acr_AuthorityEpoch request) 0) ErrorInvalidArgument ReasonInvalidReference ;;
  st_lift (SandboxLeaseRef_Validate (acr_SandboxLease request)) ;;
  s ← st_get ;
  st_guard (negb (fs_evidenceAvailable s)) ErrorUnavailable ReasonEvidenceUnavailable ;;
  match fs_activations s !! acr_AttemptID request with
  | None => st_err ErrorNotFound ReasonInvalidReference
  | Some current =>
      st_guard (negb (N.eqb (at_Revision current) (acr_ExpectedAttemptRevision request))
                || negb (stage_is current StageSandboxReserved)
                || negb (recovery_is current RecoveryNormal)) ErrorConflict ReasonRevisionConflict ;;
      st_guard (negb (op_is (at_SandboxReservation current) OperationConfirmedApplied)
                || negb (bool_decide (op_Reference (at_SandboxReservation current)
                                      = sbx_ID (acr_SandboxLease request))))
        ErrorPreconditionFailed ReasonInvalidState ;;
      match fs_leaseIDs s !! acr_IdentityLeaseID request with
      | None => st_err ErrorNotFound ReasonInvalidReference
      | Some a =>
          lease ← expire_at a now ;
          st_guard (negb (lease_matches request current lease))
            ErrorPreconditionFailed ReasonIdentityLeaseStateInvalid ;;
          let next := committed_attempt current (acr_SandboxLease request) (u64_succ (il_Revision lease)) now in
          st_lift (ValidateTransition current next {| UnknownResolved := false |} now) ;;
          let lease := bump_lease (set_lease_state IdentityLeaseActive lease) in
          write_lease a lease ;;
          st_modify (fun s => set_activations (<[acr_AttemptID request := next]> (fs_activations s)) s) ;;
          mret {| acm_Attempt := cloneActivationAttempt next; acm_IdentityLease := lease |}
      end
  end.

(** ** The store as a transition system

    Every method call, successful or not, in any order: the mutex makes the
    calls of concurrent clients such a sequence.  The pre-lock part of a method
    only reads its arguments and the clock. *)
Inductive store_step : FactStore -> FactStore -> Prop :=
| do_SetEvidence b s s' o : SetEvidenceAvailable b s = (s', o) -> store_step s s'
| do_LoseReply s s' o : LoseNextRunWriteReply s = (s', o) -> store_step s s'
| do_CreateRun ctx r s s' o : CreateRun ctx r s = (s', o) -> store_step s s'
| do_InspectRun ctx sc id s s' o : InspectRun ctx sc id s = (s', o) -> store_step s s'
| do_InspectActiveRun ctx sc s s' o : InspectActiveRun ctx sc s = (s', o) -> store_step s s'
| do_CompareAndSwapRun ctx r s s' o : CompareAndSwapRun ctx r s = (s', o) -> store_step s s'
| do_CreateDesired ctx d s s' o : CreateDesiredState ctx d s = (s', o) -> store_step s s'
| do_AcceptCommand ctx i now s s' o : AcceptCommand ctx i now s = (s', o) -> store_step s s'
| do_ReadDesired ctx sc s s' o : ReadDesiredState ctx sc s = (s', o) -> store_step s s'
| do_ListCommands ctx sc s s' o : ListCommands ctx sc s = (s', o) -> store_step s s'
| do_ListOutbox ctx sc s s' o : ListOutbox ctx sc s = (s', o) -> store_step s s'
| do_MarkOutbox ctx sc c r s s' o : MarkOutboxDispatched ctx sc c r s = (s', o) -> store_step s s'
| do_Reserve ctx r now s s' o : ReserveIdentityLease ctx r now s = (s', o) -> store_step s s'
| do_Renew ctx r now s s' o : RenewIdentityLease ctx r now s = (s', o) -> store_step s s'
| do_Revoke ctx r now s s' o : RevokeIdentityLease ctx r now s = (s', o) -> store_step s s'
| do_Release ctx r now s s' o : ReleaseIdentityLease ctx r now s = (s', o) -> store_step s s'
| do_InspectLease ctx t i now s s' o : InspectIdentityLease ctx t i now s = (s', o) -> store_step s s'
| do_CreateAttempt ctx a now s s' o : CreateActivationAttempt ctx a now s = (s', o) -> store_step s s'
| do_InspectAttempt ctx id s s' o : InspectActivationAttempt ctx id s = (s', o) -> store_step s s'
| do_CASActivation ctx a t now s s' o : CompareAndSwapActivation ctx a t now s = (s', o) -> store_step s s'
| do_Commit ctx r now s s' o : CommitActivation ctx r now s = (s', o) -> store_step s s'.

Definition reachable (s : FactStore) : Prop := rtc store_step NewFactStore s.

(** ** What each method leaves alone *)

Lemma consume_eq s : consumeLostRunWriteReply s = (set_lose false s, Ok (fs_loseRunWriteReply s)).
Proof. unfold consumeLostRunWriteReply. destruct s as [? ? ? ? ? ? ? ? []]; reflexivity. Qed.

(** Run a store method that may consume the injected reply loss. *)
Ltac run_exec H :=
  unfold st_guard, st_err in H;
  repeat (st_unfold H; rewrite ?consume_eq in H;
    lazymatch type of H with
    | (_, _) = (_, _) => injection H as <- <-
    | _ => go_case_in H
    end).


Definition same_runs (s s' : FactStore) : Prop :=
  fs_runs s' = fs_runs s /\ fs_activeRuns s' = fs_activeRuns s.
Definition same_instances (s s' : FactStore) : Prop := fs_instances s' = fs_instances s.
Definition same_leases (s s' : FactStore) : Prop :=
  fs_heap s' = fs_heap s /\ fs_leases s' = fs_leases s /\ fs_leaseIDs s' = fs_leaseIDs s.
Definition same_activations (s s' : FactStore) : Prop := fs_activations s' = fs_activations s.

Ltac frame H := run_exec H; repeat split; reflexivity.

Lemma CreateRun_frame ctx r s s' o :
  CreateRun ctx r s = (s', o) -> same_instances s s' /\ same_leases s s' /\ same_activations s s'.
Proof. unfold CreateRun. intros H. frame H. Qed.
Lemma CompareAndSwapRun_frame ctx r s s' o :
  CompareAndSwapRun ctx r s = (s', o) -> same_instances s s' /\ same_leases s s' /\ same_activations s s'.
Proof. unfold CompareAndSwapRun. cbn zeta. intros H. frame H. Qed.
Lemma InspectRun_frame ctx sc id s s' o : InspectRun ctx sc id s = (s', o) -> s' = s.
Proof. unfold InspectRun. intros H. frame H. Qed.
Lemma InspectActiveRun_frame ctx sc s s' o : InspectActiveRun ctx sc s = (s', o) -> s' = s.
Proof. unfold InspectActiveRun. intros H. frame H. Qed.
Lemma ReadDesiredState_frame ctx sc s s' o : ReadDesiredState ctx sc s = (s', o) -> s' = s.
Proof. unfold ReadDesiredState. intros H. frame H. Qed.
Lemma ListCommands_frame ctx sc s s' o : ListCommands ctx sc s = (s', o) -> s' = s.
Proof. unfold ListCommands. intros H. frame H. Qed.
Lemma ListOutbox_frame ctx sc s s' o : ListOutbox ctx sc s = (s', o) -> s' = s.
Proof. unfold ListOutbox. intros H. frame H. Qed.
Lemma InspectActivationAttempt_frame ctx id s s' o : InspectActivationAttempt ctx id s = (s', o) -> s' = s.
Proof. unfold InspectActivationAttempt. intros H. frame H. Qed.

Lemma CreateDesiredState_frame ctx d s s' o :
  CreateDesiredState ctx d s = (s', o) -> same_runs s s' /\ same_leases s s' /\ same_activations s s'.
Proof. unfold CreateDesiredState. cbn zeta. intros H. frame H. Qed.
Lemma AcceptCommand_frame ctx i now s s' o :
  AcceptCommand ctx i now s = (s', o) -> same_runs s s' /\ same_leases s s' /\ same_activations s s'.
Proof. unfold AcceptCommand. cbn zeta. intros H. frame H. Qed.
Lemma MarkOutboxDispatched_frame ctx sc c r s s' o :
  MarkOutboxDispatched ctx sc c r s = (s', o) -> same_runs s s' /\ same_leases s s' /\ same_activations s s'.
Proof. unfold MarkOutboxDispatched. intros H. frame H. Qed.

Lemma expire_at_frame a now s s' o :
  expire_at a now s = (s', o) -> same_runs s s' /\ same_instances s s' /\ same_activations s s'.
Proof. unfold expire_at, deref, write_lease. cbn zeta. intros H. frame H. Qed.
Lemma ReserveIdentityLease_frame ctx r now s s' o :
  ReserveIdentityLease ctx r now s = (s', o) -> same_runs s s' /\ same_instances s s' /\ same_activations s s'.
Proof.
  unfold ReserveIdentityLease, expire_at, deref, write_lease, allocate_lease. cbn zeta. intros H. frame H.
Qed.
Lemma mutateLease_frame ctx id rev f now s s' o :
  mutateLease ctx id rev f now s = (s', o) -> same_runs s s' /\ same_instances s s' /\ same_activations s s'.
Proof. unfold mutateLease, expire_at, deref, write_lease. cbn zeta. intros H. frame H. Qed.
Lemma InspectIdentityLease_frame ctx t i now s s' o :
  InspectIdentityLease ctx t i now s = (s', o) -> same_runs s s' /\ same_instances s s' /\ same_activations s s'.
Proof. unfold InspectIdentityLease, expire_at, deref, write_lease. cbn zeta. intros H. frame H. Qed.
Lemma CreateActivationAttempt_frame ctx a now s s' o :
  CreateActivationAttempt ctx a now s = (s', o) -> same_runs s s' /\ same_instances s s' /\ same_leases s s'.
Proof. unfold CreateActivationAttempt. intros H. frame H. Qed.
Lemma CompareAndSwapActivation_frame ctx a t now s s' o :
  CompareAndSwapActivation ctx a t now s = (s', o) -> same_runs s s' /\ same_instances s s' /\ same_leases s s'.
Proof. unfold CompareAndSwapActivation. intros H. frame H. Qed.
Lemma CommitActivation_frame ctx r now s s' o :
  CommitActivation ctx r now s = (s', o) -> same_runs s s' /\ same_instances s s'.
Proof. unfold CommitActivation, expire_at, deref, write_lease. cbn zeta. intros H. frame H. Qed.
