(* ===== verification/RunStore.v ===== *)
(** * The run facts of the store

    What the run methods of FactStore guarantee, for every sequence of method
    calls of any kind. *)

From S2P Require Import Prelude GoStd Errors Identity State RunFact Command IdentityLease Activation FactStore.

(** ** Effects on the run maps *)

Inductive runs_change (s s' : FactStore) : Prop :=
| runs_same : fs_runs s' = fs_runs s -> fs_activeRuns s' = fs_activeRuns s -> runs_change s s'
| runs_created r :
    AgentRunRecord_Validate r = Ok tt -> run_Revision r = 1%N ->
    run_Status r = RunPending \/ run_Status r = RunRunning ->
    fs_runs s !! runKey (run_Scope r) (run_ID r) = None ->
    fs_activeRuns s !! executionKey (run_Scope r) = None ->
    fs_runs s' = <[runKey (run_Scope r) (run_ID r) := r]> (fs_runs s) ->
    fs_activeRuns s' = <[executionKey (run_Scope r) := run_ID r]> (fs_activeRuns s) ->
    runs_change s s'
| runs_swapped cur next :
    fs_runs s !! runKey (run_Scope next) (run_ID next) = Some cur ->
    run_step cur next ->
    fs_runs s' = <[runKey (run_Scope next) (run_ID next) := next]> (fs_runs s) ->
    fs_activeRuns s' =
      (if status_is (run_Status next) RunTerminal then delete (executionKey (run_Scope next)) (fs_activeRuns s)
       else <[executionKey (run_Scope next) := run_ID next]> (fs_activeRuns s)) ->
    runs_change s s'.

Lemma cloneRun_id r : cloneRun r = r.
Proof. unfold cloneRun, set_run_scope. rewrite cloneScope_id. by destruct r. Qed.

Lemma set_run_scope_clone r : set_run_scope (cloneScope (run_Scope r)) r = r.
Proof. exact (cloneRun_id r). Qed.

Definition run_reply (s : FactStore) (r : AgentRunRecord) : result AgentRunRecord :=
  if fs_loseRunWriteReply s then fail ErrorUnavailable ReasonEvidenceUnavailable else Ok r.

(** The outcomes of CreateRun: refused without effect, or stored, whatever
    becomes of the reply. *)
Lemma CreateRun_cases ctx r s s' o :
  CreateRun ctx r s = (s', o) ->
  (s' = s /\ is_ok o = false)
  \/ (AgentRunRecord_Validate r = Ok tt /\ run_Revision r = 1%N
      /\ (run_Status r = RunPending \/ run_Status r = RunRunning)
      /\ fs_runs s !! runKey (run_Scope r) (run_ID r) = None
      /\ fs_activeRuns s !! executionKey (run_Scope r) = None
      /\ s' = set_lose false (set_runs (<[runKey (run_Scope r) (run_ID r) := r]> (fs_runs s))
                                (<[executionKey (run_Scope r) := run_ID r]> (fs_activeRuns s)) s)
      /\ o = run_reply s r).
Proof.
  unfold CreateRun, run_reply. intros H. run_exec H; try (by left); right.
  all: rewrite set_run_scope_clone, ?cloneRun_id in *; go_ok; unfold status_is in *; go_bool.
  all: cbn [fs_loseRunWriteReply set_runs] in *.
  all: match goal with E : fs_loseRunWriteReply _ = _ |- _ => rewrite E end; tauto.
Qed.

Lemma CompareAndSwapRun_cases ctx q s s' o :
  let next := cas_Next q in
  CompareAndSwapRun ctx q s = (s', o) ->
  (s' = s /\ is_ok o = false)
  \/ exists cur,
      fs_runs s !! runKey (run_Scope next) (run_ID next) = Some cur
      /\ run_Revision cur = cas_ExpectedRevision q
      /\ run_step cur next
      /\ s' = set_lose false
               (set_runs (<[runKey (run_Scope next) (run_ID next) := next]> (fs_runs s))
                  (if status_is (run_Status next) RunTerminal
                   then delete (executionKey (run_Scope next)) (fs_activeRuns s)
                   else <[executionKey (run_Scope next) := run_ID next]> (fs_activeRuns s)) s)
      /\ o = run_reply s next.
Proof.
  unfold CompareAndSwapRun, run_reply. cbn zeta. intros H. run_exec H; try (by left); right.
  all: rewrite set_run_scope_clone, ?cloneRun_id in *; go_ok; go_bool.
  all: cbn [fs_loseRunWriteReply set_runs] in *.
  all: match goal with E : fs_loseRunWriteReply _ = _ |- _ => rewrite E end.
  all: match goal with E : ValidateRunFactTransition ?c _ = _ |- _ =>
         exists c; apply run_step_iff in E end.
  all: rewrite ?cloneScope_id in *; cbn [run_Scope set_run_scope run_Status run_ID] in *.
  all: repeat match goal with E : status_is _ _ = _ |- _ => rewrite E; clear E end; tauto.
Qed.

Lemma runs_change_same s s' : same_runs s s' -> runs_change s s'.
Proof. intros [? ?]. by apply runs_same. Qed.

Lemma runs_change_refl s : runs_change s s.
Proof. by apply runs_same. Qed.

Lemma store_step_runs s s' : store_step s s' -> runs_change s s'.
Proof.
  intros [];
    try (match goal with H : SetEvidenceAvailable _ _ = _ |- _ => injection H as <- <- end; by apply runs_same);
    try (match goal with H : LoseNextRunWriteReply _ = _ |- _ => injection H as <- <- end; by apply runs_same).
  - destruct (CreateRun_cases _ _ _ _ _ H) as [[-> _] | (? & ? & ? & ? & ? & -> & _)];
      [apply runs_change_refl | by apply runs_created with r].
  - rewrite (InspectRun_frame _ _ _ _ _ _ H). apply runs_change_refl.
  - rewrite (InspectActiveRun_frame _ _ _ _ _ H). apply runs_change_refl.
  - destruct (CompareAndSwapRun_cases _ _ _ _ _ H) as [[-> _] | (cur & ? & ? & ? & -> & _)];
      [apply runs_change_refl | by apply runs_swapped with cur (cas_Next r)].
  - apply runs_change_same, (CreateDesiredState_frame _ _ _ _ _ H).
  - apply runs_change_same, (AcceptCommand_frame _ _ _ _ _ _ H).
  - rewrite (ReadDesiredState_frame _ _ _ _ _ H). apply runs_change_refl.
  - rewrite (ListCommands_frame _ _ _ _ _ H). apply runs_change_refl.
  - rewrite (ListOutbox_frame _ _ _ _ _ H). apply runs_change_refl.
  - apply runs_change_same, (MarkOutboxDispatched_frame _ _ _ _ _ _ _ H).
  - apply runs_change_same, (ReserveIdentityLease_frame _ _ _ _ _ _ H).
  - apply runs_change_same, (mutateLease_frame _ _ _ _ _ _ _ _ H).
  - apply runs_change_same, (mutateLease_frame _ _ _ _ _ _ _ _ H).
  - apply runs_change_same, (mutateLease_frame _ _ _ _ _ _ _ _ H).
  - apply runs_change_same, (InspectIdentityLease_frame _ _ _ _ _ _ _ H).
  - apply runs_change_same, (CreateActivationAttempt_frame _ _ _ _ _ _ H).
  - rewrite (InspectActivationAttempt_frame _ _ _ _ _ H). apply runs_change_refl.
  - apply runs_change_same, (CompareAndSwapActivation_frame _ _ _ _ _ _ _ H).
  - apply runs_change_same, (CommitActivation_frame _ _ _ _ _ _ H).
Qed.

(** ** The invariant of the run index *)

Record runs_inv (s : FactStore) : Prop := {
  ri_record : forall k r, fs_runs s !! k = Some r ->
    k = runKey (run_Scope r) (run_ID r) /\ AgentRunRecord_Validate r = Ok tt
    /\ (1 <= run_Revision r <= 1 + N.of_nat (run_progress r))%N;
  ri_active : forall k r, fs_runs s !! k = Some r -> run_Status r <> RunTerminal ->
    fs_activeRuns s !! executionKey (run_Scope r) = Some (run_ID r);
  ri_index : forall ek id, fs_activeRuns s !! ek = Some id ->
    exists r, fs_runs s !! slash ek id = Some r /\ run_ID r = id /\ executionKey (run_Scope r) = ek
              /\ run_Status r <> RunTerminal;
}.

Lemma run_progress_le r : AgentRunRecord_Validate r = Ok tt -> run_progress r <= 4.
Proof.
  unfold AgentRunRecord_Validate, run_progress, status_rank, has_claim. intros H. go_ok.
  destruct (run_Status r); go_ok; destruct (run_CompletionClaim r); try lia; done.
Qed.

Lemma runs_inv_init : runs_inv NewFactStore.
Proof. split; intros; by simplify_map_eq. Qed.

Lemma runs_created_inv s s' r :
  runs_inv s -> AgentRunRecord_Validate r = Ok tt -> run_Revision r = 1%N ->
  run_Status r = RunPending \/ run_Status r = RunRunning ->
  fs_runs s !! runKey (run_Scope r) (run_ID r) = None ->
  fs_activeRuns s !! executionKey (run_Scope r) = None ->
  fs_runs s' = <[runKey (run_Scope r) (run_ID r) := r]> (fs_runs s) ->
  fs_activeRuns s' = <[executionKey (run_Scope r) := run_ID r]> (fs_activeRuns s) ->
  runs_inv s'.
Proof.
  intros [Hr Ha Hi] Hv Hrev Hst Hnr Hna Hruns Hact. split; rewrite ?Hruns, ?Hact.
  - intros k r' [[<- <-] | [_ Hk]]%lookup_insert_Some; [split; [done | split; [done | lia]] | by eauto].
  - intros k r' [[<- <-] | [_ Hk]]%lookup_insert_Some Hnt; [by rewrite lookup_insert_eq |].
    rewrite lookup_insert_ne; [by eauto |]. intros E. pose proof (Ha _ _ Hk Hnt). congruence.
  - intros ek id [[<- <-] | [Hne Hk]]%lookup_insert_Some.
    + exists r. unfold runKey. rewrite lookup_insert_eq. repeat split; try done. by destruct Hst as [-> | ->].
    + destruct (Hi _ _ Hk) as (r' & Hr' & ? & Hek & ?). exists r'.
      rewrite lookup_insert_ne; [done |]. intros E. by rewrite <- E, Hnr in Hr'.
Qed.

Lemma run_step_active c n : run_step c n -> run_Status c <> RunTerminal.
Proof. intros [_ _ _ _ _ _ _ Hst _] E. rewrite E in Hst. by inversion Hst as [| ? ? [|] | |? [|]]. Qed.

Lemma runs_swapped_inv s s' cur next :
  runs_inv s ->
  fs_runs s !! runKey (run_Scope next) (run_ID next) = Some cur ->
  run_step cur next ->
  fs_runs s' = <[runKey (run_Scope next) (run_ID next) := next]> (fs_runs s) ->
  fs_activeRuns s' =
    (if status_is (run_Status next) RunTerminal then delete (executionKey (run_Scope next)) (fs_activeRuns s)
     else <[executionKey (run_Scope next) := run_ID next]> (fs_activeRuns s)) ->
  runs_inv s'.
Proof.
  intros [Hr Ha Hi] Hcur Hstep Hruns Hact.
  pose proof (run_step_active _ _ Hstep) as Hnt. pose proof (run_step_progress _ _ Hstep) as Hp.
  pose proof (Ha _ _ Hcur Hnt) as Hidx. destruct (Hr _ _ Hcur) as (_ & _ & Hrev).
  destruct Hstep as [_ Hv Hid Hsc _ Hrv _ _ _]. rewrite <- Hid, <- Hsc in Hidx.
  assert (forall k r, fs_runs s !! k = Some r -> run_Status r <> RunTerminal ->
            executionKey (run_Scope r) = executionKey (run_Scope next) ->
            k = runKey (run_Scope next) (run_ID next)) as Huniq.
  { intros k r Hk Hs E. destruct (Hr _ _ Hk) as (-> & _). pose proof (Ha _ _ Hk Hs) as Hk'. unfold runKey.
    rewrite E in *. congruence. }
  split; rewrite ?Hruns, ?Hact.
  - intros k r [[<- <-] | [_ Hk]]%lookup_insert_Some; [| by eauto]. split; [done | split; [done |]].
    rewrite Hrv, u64_succ_small; [lia |]. unfold max_u64. lia.
  - intros k r [[<- <-] | [Hne Hk]]%lookup_insert_Some Hs.
    + unfold status_is. rewrite bool_decide_eq_false_2 by done. by rewrite lookup_insert_eq.
    + assert (executionKey (run_Scope next) <> executionKey (run_Scope r)) as Hek.
      { intros E. apply Hne. symmetry. by eapply Huniq. }
      destruct (status_is _ _); [rewrite lookup_delete_ne by done | rewrite lookup_insert_ne by done]; by eauto.
  - unfold status_is. case_bool_decide as Hs.
    + intros ek id [Hne Hk]%lookup_delete_Some. destruct (Hi _ _ Hk) as (r & Hr' & ? & Hek & ?). exists r.
      rewrite lookup_insert_ne; [done |]. intros E. rewrite <- E, Hcur in Hr'. apply Hne. congruence.
    + intros ek id [[<- <-] | [Hne Hk]]%lookup_insert_Some.
      * exists next. by rewrite lookup_insert_eq.
      * destruct (Hi _ _ Hk) as (r & Hr' & ? & Hek & ?). exists r.
        rewrite lookup_insert_ne; [done |]. intros E. rewrite <- E, Hcur in Hr'. apply Hne. congruence.
Qed.

Lemma runs_inv_step s s' : runs_inv s -> store_step s s' -> runs_inv s'.
Proof.
  intros Hinv Hs. destruct (store_step_runs _ _ Hs) as [E1 E2 | r | cur next].
  - destruct Hinv. split; rewrite ?E1, ?E2; done.
  - by eapply runs_created_inv.
  - by eapply runs_swapped_inv.
Qed.

Lemma runs_inv_reachable s : reachable s -> runs_inv s.
Proof.
  intros H. assert (forall a, runs_inv a -> rtc store_step a s -> runs_inv s) as G.
  { intros a Ha Hs. induction Hs; eauto using runs_inv_step. }
  exact (G _ runs_inv_init H).
Qed.

(** C2: in every reachable store each run record is well formed under its own
    key, and an instance never has two runs that are not terminal: two such
    records with one execution key are one record, and the active-run index
    names exactly it. *)
Theorem one_active_run s k1 k2 r1 r2 :
  reachable s -> fs_runs s !! k1 = Some r1 -> fs_runs s !! k2 = Some r2 ->
  run_Status r1 <> RunTerminal -> run_Status r2 <> RunTerminal ->
  executionKey (run_Scope r1) = executionKey (run_Scope r2) ->
  k1 = k2 /\ r1 = r2 /\ AgentRunRecord_Validate r1 = Ok tt
  /\ k1 = runKey (run_Scope r1) (run_ID r1)
  /\ fs_activeRuns s !! executionKey (run_Scope r1) = Some (run_ID r1).
Proof.
  intros Hs H1 H2 N1 N2 E. destruct (runs_inv_reachable _ Hs) as [Hr Ha Hi].
  destruct (Hr _ _ H1) as (K1 & V1 & _), (Hr _ _ H2) as (K2 & _).
  pose proof (Ha _ _ H1 N1) as A1. pose proof (Ha _ _ H2 N2) as A2. rewrite E in A1.
  assert (k1 = k2) as ->. { rewrite K1, K2. unfold runKey. rewrite E. congruence. }
  assert (r1 = r2) as -> by congruence. done.
Qed.

(** ** Facts over time *)

Lemma runs_change_record s s' k r :
  runs_inv s -> runs_change s s' -> fs_runs s !! k = Some r ->
  exists r', fs_runs s' !! k = Some r' /\ (r' = r \/ run_step r r').
Proof.
  intros [Hr _ _] [E _ | r0 _ _ _ Hn _ E _ | cur next Hc Hst E _] Hk; rewrite E.
  - eauto.
  - exists r. rewrite lookup_insert_ne; [by eauto |]. intros <-. congruence.
  - destruct (decide (runKey (run_Scope next) (run_ID next) = k)) as [<- | Hne].
    + exists next. rewrite lookup_insert_eq. split; [done |]. right. congruence.
    + exists r. rewrite lookup_insert_ne by done. by eauto.
Qed.

Lemma run_step_revision c n :
  AgentRunRecord_Validate c = Ok tt -> (run_Revision c <= 1 + N.of_nat (run_progress c))%N ->
  run_step c n -> (run_Revision c < run_Revision n)%N.
Proof.
  intros Hv Hrev Hs. pose proof (run_progress_le _ Hv). destruct Hs as [_ _ _ _ _ -> _ _ _].
  rewrite u64_succ_small; [lia |]. unfold max_u64. lia.
Qed.

Lemma run_history_record s s' k r :
  runs_inv s -> rtc store_step s s' -> fs_runs s !! k = Some r ->
  exists r', fs_runs s' !! k = Some r' /\ rtc run_cas_step r r' /\ (run_Revision r <= run_Revision r')%N
             /\ (run_Revision r' = run_Revision r -> r' = r).
Proof.
  intros Hi Hs. revert r. induction Hs as [s | s m s' Hm _ IH]; intros r Hk.
  { exists r. split; [done | split; [apply rtc_refl | split; [lia | done]]]. }
  destruct (runs_change_record _ _ _ _ Hi (store_step_runs _ _ Hm) Hk) as (r1 & H1 & Hstep).
  destruct (IH (runs_inv_step _ _ Hi Hm) _ H1) as (r' & Hk' & Hrt & Hle & Heq).
  exists r'. destruct (ri_record _ Hi _ _ Hk) as (_ & Hv & Hrev).
  destruct Hstep as [-> | Hstep]; [done |].
  pose proof (run_step_revision _ _ Hv ltac:(lia) Hstep) as Hlt.
  split; [done |]. split; [| split; lia].
  eapply rtc_l; [| done]. by apply run_step_iff.
Qed.

Lemma InspectRun_present s r :
  fs_runs s !! runKey (run_Scope r) (run_ID r) = Some r -> ExecutionScope_Validate (run_Scope r) = Ok tt ->
  InspectRun CtxLive (run_Scope r) (run_ID r) s = (s, Ok r).
Proof.
  intros Hk Hv. unfold InspectRun, contextError, st_guard. st_go. rewrite Hv, Hk, sameScope_refl. cbn [negb].
  by rewrite guard_false, cloneRun_id.
Qed.

Lemma InspectActiveRun_present s r :
  fs_activeRuns s !! executionKey (run_Scope r) = Some (run_ID r) ->
  fs_runs s !! runKey (run_Scope r) (run_ID r) = Some r -> ExecutionScope_Validate (run_Scope r) = Ok tt ->
  InspectActiveRun CtxLive (run_Scope r) s = (s, Ok r).
Proof.
  intros Ha Hk Hv. unfold InspectActiveRun, contextError, st_guard. st_go.
  rewrite Hv, Ha, Hk, sameScope_refl. cbn [negb]. by rewrite guard_false, cloneRun_id.
Qed.

(** A compare-and-swap that took effect, whether or not its reply arrived,
    can never take effect again: in every later state the run is still there,
    has only moved along accepted transitions from what was stored, its revision
    never wraps, and replaying the same request changes nothing and reports an
    error. *)
Theorem run_cas_at_most_once ctx ctx' q s s1 s2 s3 o o' :
  reachable s -> CompareAndSwapRun ctx q s = (s1, o) -> s1 <> s ->
  rtc store_step s1 s2 -> CompareAndSwapRun ctx' q s2 = (s3, o') ->
  let key := runKey (run_Scope (cas_Next q)) (run_ID (cas_Next q)) in
  s3 = s2 /\ is_ok o' = false
  /\ fs_runs s1 !! key = Some (cas_Next q)
  /\ exists r, fs_runs s2 !! key = Some r /\ rtc run_cas_step (cas_Next q) r /\ (run_Revision r <= 5)%N.
Proof.
  cbn zeta. intros Hr H1 Hne Hs H2.
  assert (store_step s s1) as Hstep by (by eapply do_CompareAndSwapRun).
  destruct (CompareAndSwapRun_cases _ _ _ _ _ H1) as [[-> _] | (cur & Hc & Hcr & Hst & E1 & _)]; [done |].
  assert (fs_runs s1 !! runKey (run_Scope (cas_Next q)) (run_ID (cas_Next q)) = Some (cas_Next q)) as Hk.
  { rewrite E1. cbn. by rewrite lookup_insert_eq. }
  pose proof (runs_inv_reachable _ Hr) as Hi. pose proof (runs_inv_step _ _ Hi Hstep) as Hi1.
  destruct (run_history_record _ _ _ _ Hi1 Hs Hk) as (r & Hk2 & Hrt & Hle & _).
  destruct (ri_record _ Hi _ _ Hc) as (_ & Hcv & Hcrev).
  pose proof (run_step_revision _ _ Hcv ltac:(lia) Hst) as Hlt.
  assert (runs_inv s2) as Hi2.
  { apply runs_inv_reachable. unfold reachable in *. etrans; [exact Hr |]. by eapply rtc_l. }
  destruct (ri_record _ Hi2 _ _ Hk2) as (_ & Hrv & Hrr). pose proof (run_progress_le _ Hrv).
  destruct (CompareAndSwapRun_cases _ _ _ _ _ H2) as [[-> Ho] | (cur' & Hc' & Hcr' & _)].
  - repeat split; [done | done |]. exists r. repeat split; [done | done | lia].
  - exfalso. rewrite Hk2 in Hc'. injection Hc' as <-. lia.
Qed.

(** A run whose creation took effect but whose reply was lost is recovered by
    inspection, and creating it again in any later state changes nothing and
    reports an error. *)
Theorem lost_create_recoverable ctx ctx' r s s1 s2 s3 e o' :
  reachable s -> CreateRun ctx r s = (s1, Err e) -> s1 <> s ->
  rtc store_step s1 s2 -> CreateRun ctx' r s2 = (s3, o') ->
  e = NewError ErrorUnavailable ReasonEvidenceUnavailable
  /\ InspectRun CtxLive (run_Scope r) (run_ID r) s1 = (s1, Ok r)
  /\ InspectActiveRun CtxLive (run_Scope r) s1 = (s1, Ok r)
  /\ s3 = s2 /\ is_ok o' = false.
Proof.
  intros Hr H1 Hne Hs H2.
  assert (store_step s s1) as Hstep by (by eapply do_CreateRun).
  destruct (CreateRun_cases _ _ _ _ _ H1) as [[-> _] | (Hv & Hrev & Hst & Hn & Ha & E1 & Ho)]; [done |].
  pose proof (runs_inv_step _ _ (runs_inv_reachable _ Hr) Hstep) as Hi1.
  assert (fs_runs s1 !! runKey (run_Scope r) (run_ID r) = Some r) as Hk.
  { rewrite E1. cbn. by rewrite lookup_insert_eq. }
  assert (fs_activeRuns s1 !! executionKey (run_Scope r) = Some (run_ID r)) as Hx.
  { rewrite E1. cbn. by rewrite lookup_insert_eq. }
  assert (ExecutionScope_Validate (run_Scope r) = Ok tt) as Hsc.
  { unfold AgentRunRecord_Validate in Hv. by go_ok. }
  split; [| split; [| split]].
  - unfold run_reply, fail in Ho. destruct (fs_loseRunWriteReply s); congruence.
  - by apply InspectRun_present.
  - by apply InspectActiveRun_present.
  - destruct (CreateRun_cases _ _ _ _ _ H2) as [[-> ?] | (_ & _ & _ & Hn' & _)]; [done |].
    destruct (run_history_record _ _ _ _ Hi1 Hs Hk) as (r' & Hk' & _). congruence.
Qed.

(** ** Concrete runs *)

Definition ex_lossy : FactStore := (LoseNextRunWriteReply NewFactStore).1.
Definition ex_created : FactStore := (CreateRun CtxLive ex_run ex_lossy).1.
Definition ex_start_request : RunFactCASRequest := {| cas_ExpectedRevision := 1; cas_Next := ex_running |}.
Definition ex_started : FactStore := (CompareAndSwapRun CtxLive ex_start_request ex_created).1.

Lemma ex_lossy_reachable : reachable ex_lossy.
Proof. apply rtc_once, (do_LoseReply _ _ (Ok tt)). reflexivity. Qed.
Lemma ex_created_reachable : reachable ex_created.
Proof.
  eapply rtc_r; [exact ex_lossy_reachable |].
  apply (do_CreateRun CtxLive ex_run _ _ (CreateRun CtxLive ex_run ex_lossy).2). apply surjective_pairing.
Qed.

Lemma one_active_run_witness :
  reachable ex_created
  /\ fs_runs ex_created !! "tenant/agent/instance-1/1/run-1" = Some ex_run
  /\ fs_activeRuns ex_created !! executionKey ex_scope = Some "run-1".
Proof.
  assert (fs_runs ex_created !! "tenant/agent/instance-1/1/run-1" = Some ex_run) as H by (vm_compute; reflexivity).
  split; [exact ex_created_reachable | split; [exact H |]].
  assert (run_Status ex_run <> RunTerminal) as N by discriminate.
  exact (proj2 (proj2 (proj2 (proj2 (one_active_run ex_created _ _ ex_run ex_run ex_created_reachable H H N N eq_refl))))).
Defined.

Lemma lost_create_recoverable_witness :
  (CreateRun CtxLive ex_run ex_lossy).2 = fail ErrorUnavailable ReasonEvidenceUnavailable
  /\ InspectRun CtxLive ex_scope "run-1" ex_created = (ex_created, Ok ex_run).
Proof.
  split; [vm_compute; reflexivity |].
  assert (CreateRun CtxLive ex_run ex_lossy = (ex_created, fail ErrorUnavailable ReasonEvidenceUnavailable)) as H
    by (vm_compute; reflexivity).
  assert (ex_created <> ex_lossy) as Hne.
  { intros E. apply (f_equal (fun s => fs_activeRuns s !! executionKey ex_scope)) in E.
    vm_compute in E. discriminate E. }
  destruct (lost_create_recoverable CtxLive CtxLive ex_run ex_lossy ex_created ex_created ex_created _
              (CreateRun CtxLive ex_run ex_created).2 ex_lossy_reachable H Hne (rtc_refl _ _)) as (_ & Hi & _).
  - vm_compute; reflexivity.
  - exact Hi.
Defined.

Lemma run_cas_at_most_once_witness :
  (CompareAndSwapRun CtxLive ex_start_request ex_created).2 = Ok ex_running
  /\ (CompareAndSwapRun CtxLive ex_start_request ex_started).1 = ex_started.
Proof.
  split; [vm_compute; reflexivity |].
  assert (CompareAndSwapRun CtxLive ex_start_request ex_created = (ex_started, Ok ex_running)) as H
    by (vm_compute; reflexivity).
  assert (ex_started <> ex_created) as Hne.
  { intros E. apply (f_equal (fun s => fs_runs s !! "tenant/agent/instance-1/1/run-1")) in E.
    vm_compute in E. discriminate E. }
  exact (proj1 (run_cas_at_most_once _ CtxLive _ _ _ _ _ _ _ ex_created_reachable H Hne (rtc_refl _ _)
                  (surjective_pairing _))).
Defined.
