(* ===== verification/CommandStore.v ===== *)
(** * The command facts of the store

    What AcceptCommand and its outbox guarantee for each instance. *)

From S2P Require Import Prelude GoStd Errors Identity State RunFact Command IdentityLease Activation FactStore.

Lemma cloneDesired_id d : cloneDesired d = d.
Proof. unfold cloneDesired. rewrite cloneScope_id. by destruct d. Qed.

Lemma cloneAcceptance_id a : cloneAcceptance a = a.
Proof.
  unfold cloneAcceptance. rewrite cloneScope_id, cloneDesired_id. destruct a as [[[] ? ? ?] ? ?]. reflexivity.
Qed.

(** The facts after accepting a command. *)
Definition accepted_facts (facts : instanceFacts) (intent : CommandIntent) (now : Time) : instanceFacts :=
  let envelope := int_Envelope intent in
  let next := u64_succ (ds_Revision (if_desired facts)) in
  let record := {| rec_Envelope := envelope; rec_Revision := next; rec_Status := CommandAccepted;
                   rec_RecordedAt := now |} in
  let desired := {| ds_Scope := ds_Scope (if_desired facts); ds_Desired := mut_Desired (int_Mutation intent);
                    ds_Revision := next; ds_LastCommandID := cmd_ID envelope |} in
  let outbox := {| out_CommandID := cmd_ID envelope; out_Revision := next;
                   out_PayloadDigest := cmd_CanonicalPayloadDigest envelope; out_RecordedAt := now;
                   out_Dispatched := false |} in
  {| if_desired := desired;
     if_commands := map (supersede envelope) (if_commands facts) ++ [record];
     if_outbox := if_outbox facts ++ [outbox];
     if_idempotency := <[commandIdempotencyKey envelope :=
                           {| acc_Record := record; acc_DesiredState := desired; acc_Outbox := outbox |}]>
                         (if_idempotency facts) |}.

(** When a command that was not seen before is accepted. *)
Record acceptable (facts : instanceFacts) (intent : CommandIntent) (now : Time) : Prop := {
  ac_valid : CommandEnvelope_Validate (int_Envelope intent) = Ok tt;
  ac_mutation : DesiredStateMutation_ValidateFor (int_Mutation intent) (cmd_Kind (int_Envelope intent)) = Ok tt;
  ac_unexpired : (instant now < instant (cmd_ExpiresAt (int_Envelope intent)))%Z;
  ac_target : cmd_Target (int_Envelope intent) = ds_Scope (if_desired facts);
  ac_preconditions :
    CheckExecutionPreconditions (cmd_Preconditions (int_Envelope intent))
      {| cur_Scope := ds_Scope (if_desired facts); cur_Revision := ds_Revision (if_desired facts) |} = Ok tt;
  ac_lifecycle : isNonLifecycleCommand (cmd_Kind (int_Envelope intent)) = true ->
    mut_Desired (int_Mutation intent) = ds_Desired (if_desired facts);
  ac_undominated : forall c, c ∈ if_commands facts -> command_live c = true ->
    Supersedes (rec_Envelope c) (int_Envelope intent) = false;
  ac_fresh_id : forall c, c ∈ if_commands facts -> cmd_ID (rec_Envelope c) <> cmd_ID (int_Envelope intent);
}.

Lemma admit_over_iff e cs :
  for_each (admit_over e) cs = Ok tt <->
  (forall c, c ∈ cs -> command_live c = true -> Supersedes (rec_Envelope c) e = false)
  /\ (forall c, c ∈ cs -> cmd_ID (rec_Envelope c) <> cmd_ID e).
Proof.
  rewrite for_each_Ok, Forall_forall. unfold admit_over. split.
  - intros H. split; intros c Hc; specialize (H c Hc); rewrite seq_guard_Ok, guard_Ok in H; go_bool;
      destruct H as [[H|H] ?]; congruence.
  - intros [H1 H2] c Hc. rewrite seq_guard_Ok, guard_Ok. go_bool.
    specialize (H1 c Hc). specialize (H2 c Hc). destruct (command_live c); auto.
Qed.

(** Accepting a command, branch by branch. *)
Lemma AcceptCommand_cases ctx intent now s s' o :
  let envelope := int_Envelope intent in
  let key := executionKey (cmd_Target envelope) in
  AcceptCommand ctx intent now s = (s', o) ->
  (s' = s /\ is_ok o = false)
  \/ (exists facts prior, s' = s /\ fs_instances s !! key = Some facts
        /\ if_idempotency facts !! commandIdempotencyKey envelope = Some prior
        /\ cmd_CanonicalPayloadDigest (rec_Envelope (acc_Record prior)) = cmd_CanonicalPayloadDigest envelope
        /\ o = Ok prior)
  \/ (exists facts, fs_instances s !! key = Some facts
        /\ if_idempotency facts !! commandIdempotencyKey envelope = None
        /\ acceptable facts intent now /\ fs_evidenceAvailable s = true
        /\ s' = set_instances (<[key := accepted_facts facts intent now]> (fs_instances s)) s
        /\ exists acc, o = Ok acc
             /\ if_idempotency (accepted_facts facts intent now) !! commandIdempotencyKey envelope = Some acc
             /\ acc_DesiredState acc = if_desired (accepted_facts facts intent now)).
Proof.
  unfold AcceptCommand. cbn zeta. intros H. run_exec H; try (by left).
  - right; left. go_ok. go_bool. do 2 eexists. rewrite cloneAcceptance_id. repeat split; eauto.
  - right; right. go_ok. go_bool. rewrite cloneAcceptance_id, ?cloneScope_id in *.
    eexists. split; [reflexivity |]. split; [assumption |]. split; [| split; [assumption |]].
    + match goal with E : for_each _ _ = _ |- _ => apply admit_over_iff in E as [Hdom Hid] end.
      rewrite sameScope_eq in *. split; try done.
      * unfold Before in *. by go_bool.
      * intros E. rewrite E in *. by destruct_or?.
    + unfold accepted_facts. split; [by rewrite ?cloneScope_id |].
      eexists. split; [reflexivity |]. cbn. by rewrite lookup_insert_eq.
Qed.

Lemma mark_dispatched_Ok id rev outbox r :
  mark_dispatched id rev outbox = Ok r ->
  exists i o, outbox !! i = Some o /\ out_CommandID o = id /\ out_Revision o = rev
    /\ r.2 = {| out_CommandID := out_CommandID o; out_Revision := out_Revision o;
                out_PayloadDigest := out_PayloadDigest o; out_RecordedAt := out_RecordedAt o;
                out_Dispatched := true |}
    /\ r.1 = <[i := r.2]> outbox.
Proof.
  revert r; induction outbox as [| o rest IH]; intros r; cbn; [done |].
  case_bool_decide as E.
  - rewrite seq_guard_Ok. intros [Hg [= <-]]. go_bool. by exists 0, o.
  - intros H. apply bind_Ok in H as (r0 & H0 & [= <-]). destruct (IH _ H0) as (i & o' & ? & ? & ? & E2 & E1).
    exists (S i), o'. cbn. by rewrite E1.
Qed.

(** ** Effects on the instance map *)

Definition dispatched (o : OutboxRecord) : OutboxRecord :=
  {| out_CommandID := out_CommandID o; out_Revision := out_Revision o; out_PayloadDigest := out_PayloadDigest o;
     out_RecordedAt := out_RecordedAt o; out_Dispatched := true |}.

Inductive facts_change : option instanceFacts -> option instanceFacts -> Prop :=
| facts_same f : facts_change f f
| facts_created d :
    ExecutionScope_Validate (ds_Scope d) = Ok tt -> ValidDesiredState (ds_Desired d) = true ->
    ds_Revision d = 1%N -> ds_LastCommandID d = "" ->
    facts_change None (Some {| if_desired := d; if_commands := []; if_outbox := []; if_idempotency := ∅ |})
| facts_accepted f intent now :
    if_idempotency f !! commandIdempotencyKey (int_Envelope intent) = None ->
    acceptable f intent now -> facts_change (Some f) (Some (accepted_facts f intent now))
| facts_marked f i o :
    if_outbox f !! i = Some o ->
    facts_change (Some f) (Some {| if_desired := if_desired f; if_commands := if_commands f;
                                   if_outbox := <[i := dispatched o]> (if_outbox f);
                                   if_idempotency := if_idempotency f |}).

Definition instances_change (s s' : FactStore) : Prop :=
  fs_instances s' = fs_instances s
  \/ exists key f', facts_change (fs_instances s !! key) (Some f')
       /\ (fs_instances s !! key = None -> key = executionKey (ds_Scope (if_desired f')))
       /\ fs_instances s' = <[key := f']> (fs_instances s).

Lemma store_step_instances s s' : store_step s s' -> instances_change s s'.
Proof.
  intros Hst. destruct Hst;
    try (match goal with H : SetEvidenceAvailable _ _ = _ |- _ => injection H as <- <- end; by left);
    try (match goal with H : LoseNextRunWriteReply _ = _ |- _ => injection H as <- <- end; by left).
  - left. apply (CreateRun_frame _ _ _ _ _ H).
  - left. by rewrite (InspectRun_frame _ _ _ _ _ _ H).
  - left. by rewrite (InspectActiveRun_frame _ _ _ _ _ H).
  - left. apply (CompareAndSwapRun_frame _ _ _ _ _ H).
  - unfold CreateDesiredState in H. run_exec H; try (by left). right.
    rewrite cloneDesired_id in *. go_ok. go_bool. unfold nonempty in *. go_bool.
    match goal with E : fs_instances s !! ?k = None |- _ => exists k; rewrite E end. eexists.
    split; [apply (facts_created d); tauto | by split].
  - destruct (AcceptCommand_cases _ _ _ _ _ _ H)
      as [[-> _] | [(? & ? & -> & _) | (f & Hf & Hn & Hac & _ & -> & _)]]; [by left | by left |].
    right. eexists _, _. rewrite Hf. split; [by apply facts_accepted | by split].
  - left. by rewrite (ReadDesiredState_frame _ _ _ _ _ H).
  - left. by rewrite (ListCommands_frame _ _ _ _ _ H).
  - left. by rewrite (ListOutbox_frame _ _ _ _ _ H).
  - unfold MarkOutboxDispatched in H. run_exec H; try (by left). right.
    unfold lookup_instance in *. destruct (fs_instances s !! _) eqn:Hf in Heqo2; [| done]. go_ok.
    match goal with E : mark_dispatched _ _ _ = _ |- _ => apply mark_dispatched_Ok in E
      as (i & ob & Hi & _ & _ & E2 & E1) end.
    eexists _, _. rewrite Hf, E1, E2. split; [by apply facts_marked | by split].
  - left. apply (ReserveIdentityLease_frame _ _ _ _ _ _ H).
  - left. apply (mutateLease_frame _ _ _ _ _ _ _ _ H).
  - left. apply (mutateLease_frame _ _ _ _ _ _ _ _ H).
  - left. apply (mutateLease_frame _ _ _ _ _ _ _ _ H).
  - left. apply (InspectIdentityLease_frame _ _ _ _ _ _ _ H).
  - left. apply (CreateActivationAttempt_frame _ _ _ _ _ _ H).
  - left. by rewrite (InspectActivationAttempt_frame _ _ _ _ _ H).
  - left. apply (CompareAndSwapActivation_frame _ _ _ _ _ _ _ H).
  - left. apply (CommitActivation_frame _ _ _ _ _ _ H).
Qed.

(** ** The command log of one instance *)

(** An outbox record belongs to a command record. *)
Definition outbox_of (c : CommandRecord) (o : OutboxRecord) : Prop :=
  out_CommandID o = cmd_ID (rec_Envelope c) /\ out_Revision o = rec_Revision c
  /\ out_PayloadDigest o = cmd_CanonicalPayloadDigest (rec_Envelope c).

Definition command_ids (f : instanceFacts) : list string := map (fun c => cmd_ID (rec_Envelope c)) (if_commands f).

Record facts_inv (f : instanceFacts) : Prop := {
  fi_scope : ExecutionScope_Validate (ds_Scope (if_desired f)) = Ok tt;
  fi_count : (N.of_nat (length (if_commands f)) <= max_u64)%N
             /\ ds_Revision (if_desired f) = wrap64 (1 + N.of_nat (length (if_commands f)));
  fi_outbox : Forall2 outbox_of (if_commands f) (if_outbox f);
  fi_number : forall i c, if_commands f !! i = Some c -> rec_Revision c = wrap64 (2 + N.of_nat i);
  fi_ids : NoDup (command_ids f);
  fi_target : Forall (fun c => cmd_Target (rec_Envelope c) = ds_Scope (if_desired f)
                               /\ CommandEnvelope_Validate (rec_Envelope c) = Ok tt) (if_commands f);
  fi_live : forall c c', c ∈ if_commands f -> c' ∈ if_commands f ->
    command_live c = true -> command_live c' = true ->
    Supersedes (rec_Envelope c) (rec_Envelope c') = false;
  fi_last : ds_LastCommandID (if_desired f) = from_option (fun i => i) "" (last (command_ids f));
  fi_desired : ValidDesiredState (ds_Desired (if_desired f)) = true;
}.

Lemma supersede_envelope e c : rec_Envelope (supersede e c) = rec_Envelope c.
Proof. unfold supersede. by destruct (_ && _). Qed.
Lemma supersede_revision e c : rec_Revision (supersede e c) = rec_Revision c.
Proof. unfold supersede. by destruct (_ && _). Qed.
Lemma supersede_live e c :
  command_live (supersede e c) = true -> command_live c = true /\ Supersedes e (rec_Envelope c) = false.
Proof. unfold supersede. destruct (command_live c) eqn:El, (Supersedes _ _) eqn:Es; cbn; rewrite ?El; auto. Qed.

Lemma command_ids_accepted f intent now :
  command_ids (accepted_facts f intent now) = command_ids f ++ [cmd_ID (int_Envelope intent)].
Proof.
  unfold command_ids. cbn. rewrite map_app, map_map. f_equal. apply map_ext. intros c. by rewrite supersede_envelope.
Qed.

Lemma facts_inv_count f n :
  (N.of_nat n <= max_u64)%N -> ds_Revision (if_desired f) = wrap64 (1 + N.of_nat n) ->
  ds_Revision (if_desired f) <> 0%N ->
  (N.of_nat (S n) <= max_u64)%N
  /\ u64_succ (ds_Revision (if_desired f)) = wrap64 (1 + N.of_nat (S n))
  /\ wrap64 (1 + N.of_nat (S n)) = wrap64 (2 + N.of_nat n).
Proof.
  intros Hn Hr Hz. assert (N.of_nat n <> max_u64) as Hne.
  { intros E. apply Hz. rewrite Hr, E. reflexivity. }
  assert (1 + N.of_nat n <= max_u64)%N as Hle by lia.
  split; [lia |]. split; [| f_equal; lia].
  unfold u64_succ. rewrite Hr. unfold wrap64 at 2. rewrite N.mod_small; [f_equal; lia |].
  unfold u64_modulus, max_u64 in *. lia.
Qed.

Lemma ValidateFor_desired m kind :
  DesiredStateMutation_ValidateFor m kind = Ok tt -> ValidDesiredState (mut_Desired m) = true.
Proof.
  unfold DesiredStateMutation_ValidateFor. destruct kind; try (by case_bool_decide as E; [rewrite E |]);
    try done; by destruct (ValidDesiredState _).
Qed.

Lemma acceptable_revision f intent now :
  acceptable f intent now -> ds_Revision (if_desired f) <> 0%N.
Proof.
  intros H. pose proof (ac_preconditions _ _ _ H) as Hp. unfold CheckExecutionPreconditions in Hp.
  rewrite !seq_Ok, !guard_Ok in Hp. destruct Hp as (_ & Hv & _ & _ & _ & Hr & _).
  unfold ExecutionPreconditions_Validate in Hv. go_ok. go_bool. cbn in Hr. intuition congruence.
Qed.

Lemma accepted_inv f intent now :
  facts_inv f -> acceptable f intent now -> facts_inv (accepted_facts f intent now).
Proof.
  intros [Hs [Hn Hr] Ho Hnum Hid Ht Hl Hlast Hd] Ha.
  destruct (facts_inv_count f _ Hn Hr (acceptable_revision _ _ _ Ha)) as (Hn' & Hr' & Hr2).
  destruct Ha as [Hv Hm _ Htg _ _ Hdom Hfresh]. split.
  - done.
  - cbn [accepted_facts if_commands if_desired ds_Revision]. rewrite length_app, length_map. cbn [length].
    rewrite Nat.add_1_r. done.
  - cbn. apply Forall2_app; [| constructor; [done | constructor]].
    apply Forall2_fmap_l. eapply Forall2_impl; [exact Ho |]. intros c o (? & ? & ?).
    unfold outbox_of, compose. cbv beta. rewrite supersede_envelope, supersede_revision. done.
  - cbn [accepted_facts if_commands]. intros i c [Hi | [Hlen Hi]]%lookup_app_Some.
    + rewrite list_lookup_fmap in Hi. apply fmap_Some in Hi as (c0 & Hi & ->).
      rewrite supersede_revision. by apply Hnum.
    + rewrite length_map in *. apply list_lookup_singleton_Some in Hi as [Hi <-].
      cbn [rec_Revision]. rewrite Hr', Hr2. do 2 f_equal. lia.
  - rewrite command_ids_accepted. apply NoDup_app. split; [done |]. split; [| apply NoDup_singleton].
    intros x Hx ->%list_elem_of_singleton. apply list_elem_of_fmap in Hx as (c & E & Hc). by apply (Hfresh c).
  - cbn. apply Forall_app. split; [| constructor; [cbn; by rewrite Htg | constructor]].
    apply Forall_fmap. eapply Forall_impl; [exact Ht |]. intros c. cbn. by rewrite supersede_envelope.
  - cbn [accepted_facts if_commands]. intros c c' Hc Hc' Hlc Hlc'.
    apply elem_of_app in Hc, Hc'. rewrite list_elem_of_fmap, list_elem_of_singleton in Hc, Hc'.
    destruct Hc as [(c0 & -> & Hc) | ->], Hc' as [(c1 & -> & Hc') | ->];
      rewrite ?supersede_envelope; cbn [rec_Envelope].
    + apply supersede_live in Hlc as [? _], Hlc' as [? _]. by apply Hl.
    + apply supersede_live in Hlc as [? _]. by apply Hdom.
    + by apply supersede_live in Hlc' as [_ ?].
    + apply Supersedes_irrefl.
  - rewrite command_ids_accepted, last_snoc. done.
  - cbn. by eapply ValidateFor_desired.
Qed.

Lemma facts_inv_change f f' :
  (forall g, f = Some g -> facts_inv g) -> facts_change f (Some f') -> facts_inv f'.
Proof.
  intros Hf H. inversion H as [f0 | d Hs Hv Hr Hl | f0 intent now Hn Ha | f0 i o Hi]; subst.
  - by apply Hf.
  - split; cbn; try done.
    + apply NoDup_nil_2.
    + intros c c' Hc. by apply elem_of_nil in Hc.
  - apply accepted_inv; auto.
  - destruct (Hf _ eq_refl) as [Hs Hc Ho Hnum Hid Ht Hl Hlast Hd]. split; try done. cbn.
    apply Forall2_same_length_lookup_2.
    + rewrite length_insert. by eapply Forall2_length.
    + intros j c o' Hj Hj'. rewrite list_lookup_insert_Some in Hj'.
      destruct Hj' as [(<- & <- & _) | [_ Hj']]; [| by eapply Forall2_lookup_lr].
      exact (Forall2_lookup_lr _ _ _ _ _ _ Ho Hj Hi).
Qed.

Definition instances_inv (s : FactStore) : Prop :=
  forall key f, fs_instances s !! key = Some f -> key = executionKey (ds_Scope (if_desired f)) /\ facts_inv f.

Lemma facts_change_scope f g : facts_change (Some f) (Some g) -> ds_Scope (if_desired g) = ds_Scope (if_desired f).
Proof. by inversion 1. Qed.

Lemma instances_inv_step s s' : instances_inv s -> store_step s s' -> instances_inv s'.
Proof.
  intros Hi Hst. destruct (store_step_instances _ _ Hst) as [E | (key & f' & Hc & Hk & E)].
  - intros key f. rewrite E. apply Hi.
  - intros k f. rewrite E. intros [[<- <-] | [_ Hf]]%lookup_insert_Some; [| by apply Hi].
    split.
    + destruct (fs_instances s !! key) as [g |] eqn:Hg; [| by apply Hk].
      rewrite (facts_change_scope _ _ Hc). by apply Hi.
    + eapply facts_inv_change; [| exact Hc]. intros g Hg. by eapply Hi.
Qed.

Lemma instances_inv_reachable s : reachable s -> instances_inv s.
Proof.
  intros H. assert (forall a, instances_inv a -> rtc store_step a s -> instances_inv s) as G.
  { intros a Ha Hs. induction Hs; eauto using instances_inv_step. }
  apply (G NewFactStore); [| done]. intros key f Hf. by simplify_map_eq.
Qed.

(** C37: in every reachable store the log of an instance is consistent: the
    desired-state revision counts the accepted commands (and acceptance stops
    before it could wrap), commands and outbox records correspond one to one in
    order with consecutive revisions, command ids are distinct, every command
    targets the registered scope, no live command supersedes another live one,
    and the desired state names the last accepted command. *)
Theorem command_log_consistent s key f :
  reachable s -> fs_instances s !! key = Some f ->
  key = executionKey (ds_Scope (if_desired f)) /\ facts_inv f.
Proof. intros Hs. by apply instances_inv_reachable. Qed.

(** ** Idempotent acceptance *)

Lemma idempotency_kept s s' key f k acc :
  store_step s s' -> fs_instances s !! key = Some f -> if_idempotency f !! k = Some acc ->
  exists f', fs_instances s' !! key = Some f' /\ if_idempotency f' !! k = Some acc.
Proof.
  intros Hst Hf Hk. destruct (store_step_instances _ _ Hst) as [E | (key' & f' & Hc & _ & E)]; rewrite E; [by eauto |].
  destruct (decide (key' = key)) as [-> | Hne]; [| rewrite lookup_insert_ne by done; by eauto].
  rewrite lookup_insert_eq. exists f'. split; [done |]. rewrite Hf in Hc.
  inversion Hc as [f0 | | f0 intent now Hn Ha | f0 i o Hi]; subst; try done.
  cbn. rewrite lookup_insert_ne; [done |]. intros <-. congruence.
Qed.

Lemma idempotency_kept_rtc s s' key f k acc :
  rtc store_step s s' -> fs_instances s !! key = Some f -> if_idempotency f !! k = Some acc ->
  exists f', fs_instances s' !! key = Some f' /\ if_idempotency f' !! k = Some acc.
Proof.
  intros H. revert f. induction H as [| s m s' Hm _ IH]; intros f Hf Hk; [by eauto |].
  destruct (idempotency_kept _ _ _ _ _ _ Hm Hf Hk) as (f1 & ? & ?). by eapply IH.
Qed.

Lemma accepted_recorded ctx intent now s s' acc :
  AcceptCommand ctx intent now s = (s', Ok acc) ->
  exists f, fs_instances s' !! executionKey (cmd_Target (int_Envelope intent)) = Some f
    /\ if_idempotency f !! commandIdempotencyKey (int_Envelope intent) = Some acc
    /\ cmd_CanonicalPayloadDigest (rec_Envelope (acc_Record acc)) = cmd_CanonicalPayloadDigest (int_Envelope intent).
Proof.
  intros H. destruct (AcceptCommand_cases _ _ _ _ _ _ H)
    as [[_ Ho] | [(f & prior & -> & Hf & Hp & Hd & Ho) | (f & Hf & Hn & _ & _ & -> & acc' & Ho & Ha & _)]]; [done | |].
  - injection Ho as ->. by exists f.
  - injection Ho as <-. exists (accepted_facts f intent now). cbn [fs_instances set_instances].
    rewrite lookup_insert_eq. split; [done |]. split; [done |].
    cbn in Ha. rewrite lookup_insert_eq in Ha. by injection Ha as <-.
Qed.

(** accepting a command is idempotent over any history: once a command was
    accepted, a later command with the same instance and idempotency key never
    changes the store, and it succeeds only with the same payload digest, in
    which case it gets the recorded acceptance back. *)
Theorem accept_idempotent ctx ctx' intent intent' now now' s s1 s2 s3 acc o :
  AcceptCommand ctx intent now s = (s1, Ok acc) -> rtc store_step s1 s2 ->
  AcceptCommand ctx' intent' now' s2 = (s3, o) ->
  executionKey (cmd_Target (int_Envelope intent')) = executionKey (cmd_Target (int_Envelope intent)) ->
  commandIdempotencyKey (int_Envelope intent') = commandIdempotencyKey (int_Envelope intent) ->
  s3 = s2
  /\ (is_ok o = true ->
      o = Ok acc
      /\ cmd_CanonicalPayloadDigest (int_Envelope intent') = cmd_CanonicalPayloadDigest (int_Envelope intent)).
Proof.
  intros H1 Hs H2 Ek Ei. destruct (accepted_recorded _ _ _ _ _ _ H1) as (f & Hf & Ha & Hd).
  destruct (idempotency_kept_rtc _ _ _ _ _ _ Hs Hf Ha) as (f2 & Hf2 & Ha2).
  destruct (AcceptCommand_cases _ _ _ _ _ _ H2)
    as [[-> Ho] | [(g & prior & -> & Hg & Hp & Hd' & ->) | (g & Hg & Hn & _)]].
  - split; [done |]. intros E. by rewrite E in Ho.
  - rewrite Ek, Hf2 in Hg. injection Hg as <-. rewrite Ei, Ha2 in Hp. injection Hp as <-.
    split; [done |]. intros _. split; [done | congruence].
  - exfalso. rewrite Ek, Hf2 in Hg. injection Hg as <-. congruence.
Qed.

(** ** Concrete commands *)

Definition ex_desired : DesiredStateSnapshot :=
  {| ds_Scope := ex_scope; ds_Desired := DesiredStopped; ds_Revision := 1; ds_LastCommandID := "" |}.
Definition ex_time50 : Time := {| instant := 50; rep := 0 |}.
Definition ex_start : CommandIntent :=
  {| int_Envelope := ex_command "c-1" CommandStart "k1" 1; int_Mutation := {| mut_Desired := DesiredRunning |} |}.
Definition ex_fence_command : CommandIntent :=
  {| int_Envelope := ex_command "c-2" CommandFence "k2" 2; int_Mutation := {| mut_Desired := DesiredFenced |} |}.

Definition ex_cs1 : FactStore := (CreateDesiredState CtxLive ex_desired NewFactStore).1.
Definition ex_cs2 : FactStore := (AcceptCommand CtxLive ex_start ex_time50 ex_cs1).1.
Definition ex_cs3 : FactStore := (AcceptCommand CtxLive ex_fence_command ex_time50 ex_cs2).1.

Lemma ex_cs_steps : store_step NewFactStore ex_cs1 /\ store_step ex_cs1 ex_cs2 /\ store_step ex_cs2 ex_cs3.
Proof.
  split; [| split].
  - eapply (do_CreateDesired CtxLive ex_desired). apply surjective_pairing.
  - eapply (do_AcceptCommand CtxLive ex_start ex_time50). apply surjective_pairing.
  - eapply (do_AcceptCommand CtxLive ex_fence_command ex_time50). apply surjective_pairing.
Qed.

(** The fence supersedes the start it follows. *)
Example fence_supersedes_start :
  fmap (fun f => map rec_Status (if_commands f)) (fs_instances ex_cs3 !! executionKey ex_scope)
  = Some [CommandSuperseded; CommandAccepted].
Proof. vm_compute; reflexivity. Qed.

Lemma command_log_consistent_witness :
  exists f, fs_instances ex_cs3 !! executionKey ex_scope = Some f
            /\ command_ids f = ["c-1"; "c-2"] /\ facts_inv f.
Proof.
  destruct ex_cs_steps as (H1 & H2 & H3).
  assert (reachable ex_cs3) as Hr by (eapply rtc_l; [exact H1 | eapply rtc_l; [exact H2 | apply rtc_once; exact H3]]).
  eexists. split; [vm_compute; reflexivity |]. split; [vm_compute; reflexivity |].
  eapply (fun f H => proj2 (command_log_consistent ex_cs3 (executionKey ex_scope) f Hr H)).
  vm_compute; reflexivity.
Defined.

Lemma accept_idempotent_witness :
  is_ok (AcceptCommand CtxLive ex_start ex_time50 ex_cs3).2 = true
  /\ (AcceptCommand CtxLive ex_start ex_time50 ex_cs3).1 = ex_cs3.
Proof.
  split; [vm_compute; reflexivity |].
  destruct (AcceptCommand CtxLive ex_start ex_time50 ex_cs1) as [s1 o] eqn:E.
  assert (exists acc, o = Ok acc) as [acc ->].
  { apply is_ok_true. change o with (s1, o).2. rewrite <- E. vm_compute; reflexivity. }
  assert (rtc store_step s1 ex_cs3) as Hs.
  { change s1 with (s1, @Ok error CommandAcceptance acc).1. rewrite <- E. apply rtc_once, ex_cs_steps. }
  exact (proj1 (accept_idempotent _ CtxLive _ ex_start _ ex_time50 _ _ _ _ _ _ E Hs (surjective_pairing _)
                  eq_refl eq_refl)).
Defined.

(** The idempotency key joins actor, instance and key with "/" and does not
    escape them: two commands of different actors to one instance can have the
    same key, and the second, with the same payload digest, is answered with the
    acceptance of the first. *)
Definition ex_actor_command (actor key : string) : CommandIntent :=
  let e := ex_command "c-1" CommandStart key 1 in
  {| int_Envelope :=
       {| cmd_ID := cmd_ID e; cmd_Kind := cmd_Kind e; cmd_Target := cmd_Target e; cmd_Actor := actor;
          cmd_AuthorityRef := cmd_AuthorityRef e; cmd_Reason := cmd_Reason e;
          cmd_CanonicalPayloadDigest := cmd_CanonicalPayloadDigest e; cmd_Preconditions := cmd_Preconditions e;
          cmd_IdempotencyKey := key; cmd_EffectIntentID := ""; cmd_EffectIntentRevision := 0;
          cmd_SubmittedAt := cmd_SubmittedAt e; cmd_ExpiresAt := cmd_ExpiresAt e |};
     int_Mutation := {| mut_Desired := DesiredRunning |} |}.

Theorem idempotency_key_collision :
  exists s acc,
    reachable s
    /\ (AcceptCommand CtxLive (ex_actor_command "op/instance-1/1/start/k" "z") ex_time50 s).2 = Ok acc
    /\ cmd_Actor (rec_Envelope (acc_Record acc)) = "op".
Proof.
  set (first := ex_actor_command "op" "k/instance-1/1/start/z").
  eexists (AcceptCommand CtxLive first ex_time50 ex_cs1).1, _. split; [| split; [vm_compute; reflexivity | reflexivity]].
  eapply rtc_l; [exact (proj1 ex_cs_steps) |]. apply rtc_once.
  eapply (do_AcceptCommand CtxLive first ex_time50). apply surjective_pairing.
Qed.
