(* ===== verification/LeaseStore.v ===== *)
(** * The identity leases and activation commits of the store

    Exclusivity and evolution of identity leases, the activation journal of the
    store, and the atomicity of CommitActivation. *)

From S2P Require Import Prelude GoStd Errors Identity State RunFact Command IdentityLease Activation FactStore.

(** ** How one lease evolves *)

Inductive lease_move : IdentityExecutionLease -> IdentityExecutionLease -> Prop :=
| lm_expire l now :
    lease_held (il_State l) = true -> Before now (il_ExpiresAt l) = false ->
    lease_move l (bump_lease (set_lease_state IdentityLeaseExpired l))
| lm_renew l t :
    il_State l = IdentityLeaseActive -> lease_move l (bump_lease (set_lease_expiry t l))
| lm_revoke l :
    lease_held (il_State l) = true -> lease_move l (bump_lease (set_lease_state IdentityLeaseRevoked l))
| lm_release l :
    il_State l <> IdentityLeaseActive -> il_State l <> IdentityLeaseReleased ->
    lease_move l (bump_lease (set_lease_state IdentityLeaseReleased l)).

(** The move only CommitActivation makes. *)
Definition lease_activation (l l' : IdentityExecutionLease) : Prop :=
  il_State l = IdentityLeaseReserved /\ l' = bump_lease (set_lease_state IdentityLeaseActive l).

Record same_lease_identity (l l' : IdentityExecutionLease) : Prop := {
  sl_id : il_ID l' = il_ID l;
  sl_identity : il_Identity l' = il_Identity l;
  sl_lineage : il_Lineage l' = il_Lineage l;
  sl_attempt : il_ActivationAttemptID l' = il_ActivationAttemptID l;
  sl_authority : il_AuthorityEpoch l' = il_AuthorityEpoch l;
}.

Lemma same_lease_identity_refl l : same_lease_identity l l.
Proof. done. Qed.
Lemma same_lease_identity_trans a b c : same_lease_identity a b -> same_lease_identity b c -> same_lease_identity a c.
Proof. intros [] []; split; congruence. Qed.

Lemma lease_move_identity l l' : lease_move l l' -> same_lease_identity l l'.
Proof. by destruct 1. Qed.
Lemma lease_moves_identity l l' : rtc lease_move l l' -> same_lease_identity l l'.
Proof.
  induction 1 as [| a b c Hm _ IH]; [done |].
  eapply same_lease_identity_trans; [by apply lease_move_identity | done].
Qed.

(** A lease that is not held never becomes held again, and one that is not
    active never becomes active, by these moves. *)
Lemma lease_move_held l l' : lease_move l l' -> lease_held (il_State l') = true -> lease_held (il_State l) = true.
Proof. unfold lease_held, lease_is. destruct 1 as [| l t E | |]; auto; rewrite orb_true_iff, !bool_decide_eq_true; by intros [|]. Qed.
Lemma lease_moves_held l l' : rtc lease_move l l' -> lease_held (il_State l') = true -> lease_held (il_State l) = true.
Proof. induction 1; eauto using lease_move_held. Qed.
Lemma lease_move_active l l' : lease_move l l' -> il_State l' = IdentityLeaseActive -> il_State l = IdentityLeaseActive.
Proof. by destruct 1. Qed.
Lemma lease_moves_active l l' : rtc lease_move l l' -> il_State l' = IdentityLeaseActive -> il_State l = IdentityLeaseActive.
Proof. induction 1; eauto using lease_move_active. Qed.

Lemma expire_moves l now : rtc lease_move l (expireLeaseIfNeeded l now).
Proof.
  unfold expireLeaseIfNeeded. destruct (_ && _) eqn:E; [| apply rtc_refl].
  go_bool. destruct E. by apply rtc_once, lm_expire with now.
Qed.

Lemma expire_at_eq a now s :
  expire_at a now s =
  match fs_heap s !! a with
  | Some l => (set_leases (<[a := expireLeaseIfNeeded l now]> (fs_heap s)) (fs_leases s) (fs_leaseIDs s) s,
               Ok (expireLeaseIfNeeded l now))
  | None => (s, Err GoPanic)
  end.
Proof. unfold expire_at, deref, write_lease. st_go. by destruct (fs_heap s !! a). Qed.

(** ** Effects on the lease maps *)

(** The lease a reservation creates. *)
Definition reserved_lease (r : ReserveIdentityLeaseRequest) : IdentityExecutionLease :=
  let epoch := u64_succ (rsv_ExpectedIdentityEpoch r) in
  {| il_ID := leaseID (rsv_TenantID r) (rsv_IdentityID r) epoch;
     il_Identity := {| id_TenantID := rsv_TenantID r; id_ID := rsv_IdentityID r; id_Epoch := epoch |};
     il_Lineage := rsv_Lineage r; il_ActivationAttemptID := rsv_ActivationAttemptID r;
     il_State := IdentityLeaseReserved; il_AuthorityEpoch := rsv_AuthorityEpoch r;
     il_ExpiresAt := rsv_ExpiresAt r; il_Revision := 1 |}.

Definition lease_key (l : IdentityExecutionLease) : string :=
  identityKey (id_TenantID (il_Identity l)) (id_ID (il_Identity l)).

(** A heap in which at most the lease at one address has moved. *)
Inductive heap_moved (h : list IdentityExecutionLease) : list IdentityExecutionLease -> Prop :=
| hm_same : heap_moved h h
| hm_moved a l l' : h !! a = Some l -> rtc lease_move l l' -> heap_moved h (<[a := l']> h).

Inductive leases_change (s s' : FactStore) : Prop :=
| lc_moved h : heap_moved (fs_heap s) h -> fs_heap s' = h -> fs_leases s' = fs_leases s ->
    fs_leaseIDs s' = fs_leaseIDs s -> leases_change s s'
| lc_reserved h r : heap_moved (fs_heap s) h ->
    (match fs_leases s !! lease_key (reserved_lease r) with
     | None => rsv_ExpectedIdentityEpoch r = 0%N
     | Some a => exists l, h !! a = Some l /\ lease_held (il_State l) = false
                          /\ id_Epoch (il_Identity l) = rsv_ExpectedIdentityEpoch r
     end) ->
    fs_heap s' = h ++ [reserved_lease r] ->
    fs_leases s' = <[lease_key (reserved_lease r) := length h]> (fs_leases s) ->
    fs_leaseIDs s' = <[il_ID (reserved_lease r) := length h]> (fs_leaseIDs s) -> leases_change s s'.

Lemma leases_change_same s s' : same_leases s s' -> leases_change s s'.
Proof. intros (? & ? & ?). by eapply lc_moved; [apply hm_same | ..]. Qed.
Lemma leases_change_refl s : leases_change s s.
Proof. by apply leases_change_same. Qed.

Ltac lease_exec H :=
  unfold st_guard, st_err, write_lease in H;
  repeat (st_unfold H; rewrite ?expire_at_eq in H;
    lazymatch type of H with
    | (_, _) = (_, _) => injection H as <- <-
    | _ => go_case_in H
    end).

Lemma InspectIdentityLease_change ctx t i now s s' o :
  InspectIdentityLease ctx t i now s = (s', o) -> leases_change s s'.
Proof.
  unfold InspectIdentityLease. intros H. lease_exec H; try apply leases_change_refl.
  eapply lc_moved; [| done ..]. eapply hm_moved; [eassumption | apply expire_moves].
Qed.

Lemma mutateLease_cases ctx id rev f now s s' o :
  mutateLease ctx id rev f now s = (s', o) ->
  (s' = s /\ is_ok o = false)
  \/ exists a l, fs_leaseIDs s !! id = Some a /\ fs_heap s !! a = Some l
       /\ let current := expireLeaseIfNeeded l now in
          match o with
          | Err _ => s' = set_leases (<[a := current]> (fs_heap s)) (fs_leases s) (fs_leaseIDs s) s
          | Ok l' => il_Revision current = rev /\ (exists next, f current now = Ok next /\ l' = bump_lease next)
                     /\ s' = set_leases (<[a := l']> (fs_heap s)) (fs_leases s) (fs_leaseIDs s) s
          end.
Proof.
  unfold mutateLease. intros H. lease_exec H; try (by left); right.
  all: match goal with E : fs_leaseIDs _ !! _ = Some ?a, F : fs_heap _ !! ?a = Some ?l |- _ =>
         exists a, l; split; [done |]; split; [done |]; cbn zeta end.
  all: try done.
  go_ok. go_bool. split; [done | split; [by eexists |]].
  unfold set_leases. cbn. by rewrite list_insert_insert_eq.
Qed.

Lemma mutateLease_change ctx id rev f now s s' o :
  (forall l next, f l now = Ok next -> lease_move l (bump_lease next)) ->
  mutateLease ctx id rev f now s = (s', o) -> leases_change s s'.
Proof.
  intros Hf H. destruct (mutateLease_cases _ _ _ _ _ _ _ _ H) as [[-> _] | (a & l & _ & Hl & Ho)];
    [apply leases_change_refl |]. cbn zeta in Ho.
  destruct o as [l' |].
  - destruct Ho as (_ & (next & Hn & ->) & ->). eapply lc_moved; [| done ..].
    eapply hm_moved; [exact Hl |]. eapply rtc_r; [apply expire_moves | by apply Hf].
  - subst s'. eapply lc_moved; [| done ..]. eapply hm_moved; [exact Hl | apply expire_moves].
Qed.

Lemma renew_lease_move q l now next : renew_lease q l now = Ok next -> lease_move l (bump_lease next).
Proof.
  unfold renew_lease, lease_is. intros H. rewrite !seq_guard_Ok in H. go_bool. destruct H as (_ & [E _] & [= <-]).
  by apply lm_renew.
Qed.
Lemma revoke_lease_move q l now next : revoke_lease q l now = Ok next -> lease_move l (bump_lease next).
Proof.
  unfold revoke_lease. intros H. rewrite !seq_guard_Ok in H. go_bool. destruct H as ([_ E] & [= <-]).
  by apply lm_revoke.
Qed.
Lemma release_lease_move q l now next : release_lease q l now = Ok next -> lease_move l (bump_lease next).
Proof.
  unfold release_lease, lease_is. intros H. rewrite !seq_guard_Ok in H. go_bool.
  destruct H as ([[_ E1] E2] & [= <-]). by apply lm_release.
Qed.

Lemma allocate_lease_eq r s :
  allocate_lease r s =
  (set_leases (fs_heap s ++ [reserved_lease r])
     (<[lease_key (reserved_lease r) := length (fs_heap s)]> (fs_leases s))
     (<[il_ID (reserved_lease r) := length (fs_heap s)]> (fs_leaseIDs s)) s, Ok (reserved_lease r)).
Proof. reflexivity. Qed.

Lemma ReserveIdentityLease_change ctx r now s s' o :
  ReserveIdentityLease ctx r now s = (s', o) -> leases_change s s'.
Proof.
  unfold ReserveIdentityLease. cbn zeta. intros H.
  unfold st_guard, st_err in H. st_unfold H.
  destruct (contextError ctx) as [u |]; [| injection H as <- _; apply leases_change_refl].
  destruct (ReserveIdentityLeaseRequest_Validate r now) as [u0 |]; [| injection H as <- _; apply leases_change_refl].
  destruct (fs_leases s !! identityKey _ _) as [a |] eqn:Hk.
  - rewrite expire_at_eq in H. destruct (fs_heap s !! a) as [l |] eqn:Hl; [| injection H as <- _; apply leases_change_refl].
    set (current := expireLeaseIfNeeded l now) in *.
    assert (heap_moved (fs_heap s) (<[a := current]> (fs_heap s))) as Hm by (eapply hm_moved; [done | apply expire_moves]).
    assert (<[a := current]> (fs_heap s) !! a = Some current) as Hc
      by (apply list_lookup_insert_eq; by eapply lookup_lt_Some).
    destruct (same_reservation current r); [injection H as <- _; by eapply lc_moved |].
    rewrite allocate_lease_eq in H.
    destruct (guard (lease_held _) _ _) as [[] |] eqn:G1; [| injection H as <- _; by eapply lc_moved].
    destruct (guard _ ErrorPreconditionFailed _) as [[] |] eqn:G2; [| injection H as <- _; by eapply lc_moved].
    injection H as <- _. go_ok. go_bool. eapply lc_reserved; [exact Hm | | reflexivity ..].
    unfold lease_key. cbn [reserved_lease il_Identity id_TenantID id_ID]. rewrite Hk. by exists current.
  - rewrite allocate_lease_eq in H.
    destruct (guard _ _ _) as [[] |] eqn:G; [| injection H as <- _; apply leases_change_refl].
    injection H as <- _. go_ok. go_bool. eapply lc_reserved; [apply hm_same | | reflexivity ..].
    unfold lease_key. cbn [reserved_lease il_Identity id_TenantID id_ID]. by rewrite Hk.
Qed.

Lemma cloneActivationAttempt_id a : cloneActivationAttempt a = a.
Proof. unfold cloneActivationAttempt, set_attempt_scope. rewrite cloneScope_id. by destruct a. Qed.

Lemma expire_held l now :
  lease_held (il_State (expireLeaseIfNeeded l now)) = true ->
  expireLeaseIfNeeded l now = l /\ (il_State l = IdentityLeaseReserved \/ il_State l = IdentityLeaseActive)
  /\ (instant now < instant (il_ExpiresAt l))%Z.
Proof.
  unfold expireLeaseIfNeeded, Before. destruct (lease_held (il_State l)) eqn:Eh; cbn [andb]; [| congruence].
  destruct (Z.ltb _ _) eqn:El; cbn [negb]; [| done]. intros _. unfold lease_held, lease_is in Eh. go_bool. auto.
Qed.

Lemma lease_matches_unexpired q current l now :
  lease_matches q current (expireLeaseIfNeeded l now) = true ->
  expireLeaseIfNeeded l now = l /\ (instant now < instant (il_ExpiresAt l))%Z.
Proof.
  intros E. unfold lease_matches, lease_is in E. go_bool.
  destruct (expire_held l now) as (? & _ & ?); [| done]. unfold lease_held, lease_is. go_bool. tauto.
Qed.

(** A successful commit, in full. *)
Record committed (q : ActivationCommitRequest) (now : Time) (s s' : FactStore) (r : ActivationCommitResult) : Prop := {
  cm_current : exists current a lease,
    fs_activations s !! acr_AttemptID q = Some current
    /\ fs_leaseIDs s !! acr_IdentityLeaseID q = Some a /\ fs_heap s !! a = Some lease
    /\ at_Revision current = acr_ExpectedAttemptRevision q /\ at_Stage current = StageSandboxReserved
    /\ at_Recovery current = RecoveryNormal
    /\ op_State (at_SandboxReservation current) = OperationConfirmedApplied
    /\ op_Reference (at_SandboxReservation current) = sbx_ID (acr_SandboxLease q)
    /\ lease_matches q current lease = true /\ (instant now < instant (il_ExpiresAt lease))%Z
    /\ acm_Attempt r = committed_attempt current (acr_SandboxLease q) (u64_succ (il_Revision lease)) now
    /\ acm_IdentityLease r = bump_lease (set_lease_state IdentityLeaseActive lease)
    /\ ValidateTransition current (acm_Attempt r) {| UnknownResolved := false |} now = Ok tt
    /\ s' = set_activations (<[acr_AttemptID q := acm_Attempt r]> (fs_activations s))
              (set_leases (<[a := acm_IdentityLease r]> (fs_heap s)) (fs_leases s) (fs_leaseIDs s) s);
}.

Lemma CommitActivation_cases ctx q now s s' o :
  CommitActivation ctx q now s = (s', o) ->
  (exists h e, heap_moved (fs_heap s) h /\ s' = set_leases h (fs_leases s) (fs_leaseIDs s) s /\ o = Err e)
  \/ exists r, o = Ok r /\ committed q now s s' r.
Proof.
  assert (forall e : error, exists h e0, heap_moved (fs_heap s) h
            /\ s = set_leases h (fs_leases s) (fs_leaseIDs s) s /\ @Err _ ActivationCommitResult e = Err e0) as Hsame.
  { intros e. exists (fs_heap s), e. split; [apply hm_same | split; [by destruct s | done]]. }
  unfold CommitActivation. cbn zeta. intros H. lease_exec H; try (left; apply Hsame);
    try (left; do 2 eexists; split; [eapply hm_moved; [eassumption | apply expire_moves] | by split]); right.
  eexists. split; [reflexivity |]. go_ok. go_bool. rewrite !cloneActivationAttempt_id.
  match goal with E : lease_matches _ _ (expireLeaseIfNeeded ?l _) = true |- _ =>
    destruct (lease_matches_unexpired _ _ _ _ E) as [El Hlt] end.
  rewrite El in *. split. eexists.
  cbn [acm_Attempt acm_IdentityLease].
  unfold stage_is, recovery_is, op_is in *. go_bool. destruct_and!.
  do 2 eexists. repeat (split; [eassumption |]). split; [done |]. split; [done |]. split; [done |].
  unfold set_activations, set_leases. cbn. by rewrite list_insert_insert_eq.
Qed.

Lemma store_step_leases s s' :
  store_step s s' ->
  leases_change s s' \/ exists ctx q now r, CommitActivation ctx q now s = (s', Ok r) /\ committed q now s s' r.
Proof.
  intros Hst. destruct Hst;
    try (match goal with H : CommitActivation _ _ _ _ = _ |- _ =>
           destruct (CommitActivation_cases _ _ _ _ _ _ H) as [(h & e & Hm & -> & _) | (res & -> & Hc)];
           [left; by eapply lc_moved | right; by exists ctx, r, now, res] end);
    left;
    try (match goal with H : SetEvidenceAvailable _ _ = _ |- _ => injection H as <- <- end; by apply leases_change_same);
    try (match goal with H : LoseNextRunWriteReply _ = _ |- _ => injection H as <- <- end; by apply leases_change_same).
  - apply leases_change_same, (CreateRun_frame _ _ _ _ _ H).
  - rewrite (InspectRun_frame _ _ _ _ _ _ H). apply leases_change_refl.
  - rewrite (InspectActiveRun_frame _ _ _ _ _ H). apply leases_change_refl.
  - apply leases_change_same, (CompareAndSwapRun_frame _ _ _ _ _ H).
  - apply leases_change_same, (CreateDesiredState_frame _ _ _ _ _ H).
  - apply leases_change_same, (AcceptCommand_frame _ _ _ _ _ _ H).
  - rewrite (ReadDesiredState_frame _ _ _ _ _ H). apply leases_change_refl.
  - rewrite (ListCommands_frame _ _ _ _ _ H). apply leases_change_refl.
  - rewrite (ListOutbox_frame _ _ _ _ _ H). apply leases_change_refl.
  - apply leases_change_same, (MarkOutboxDispatched_frame _ _ _ _ _ _ _ H).
  - by eapply ReserveIdentityLease_change.
  - eapply mutateLease_change; [| exact H]. intros ? ?. apply renew_lease_move.
  - eapply mutateLease_change; [| exact H]. intros ? ?. apply revoke_lease_move.
  - eapply mutateLease_change; [| exact H]. intros ? ?. apply release_lease_move.
  - by eapply InspectIdentityLease_change.
  - apply leases_change_same, (CreateActivationAttempt_frame _ _ _ _ _ _ H).
  - rewrite (InspectActivationAttempt_frame _ _ _ _ _ H). apply leases_change_refl.
  - apply leases_change_same, (CompareAndSwapActivation_frame _ _ _ _ _ _ _ H).
Qed.

(** ** Exclusivity *)

Lemma heap_moved_back h h' a l' :
  heap_moved h h' -> h' !! a = Some l' -> exists l, h !! a = Some l /\ rtc lease_move l l'.
Proof.
  intros [| b l m Hl Hm] Ha; [exists l'; split; [done | apply rtc_refl] |].
  apply list_lookup_insert_Some in Ha as [(<- & <- & _) | [_ Ha]]; [by exists l |].
  exists l'; split; [done | apply rtc_refl].
Qed.

Lemma heap_moved_forth h h' a l :
  heap_moved h h' -> h !! a = Some l -> exists l', h' !! a = Some l' /\ rtc lease_move l l'.
Proof.
  intros [| b l0 m Hl Hm] Ha; [exists l; split; [done | apply rtc_refl] |].
  destruct (decide (b = a)) as [-> | Hne].
  - exists m. rewrite list_lookup_insert_eq by (by eapply lookup_lt_Some). split; congruence.
  - exists l. rewrite list_lookup_insert_ne by done. split; [done | apply rtc_refl].
Qed.

Lemma same_identity_key l l' : same_lease_identity l l' -> lease_key l' = lease_key l.
Proof. intros []. unfold lease_key. congruence. Qed.

Record leases_inv (s : FactStore) : Prop := {
  li_keys : forall k a, fs_leases s !! k = Some a -> exists l, fs_heap s !! a = Some l /\ lease_key l = k;
  li_ids : forall id a, fs_leaseIDs s !! id = Some a -> exists l, fs_heap s !! a = Some l /\ il_ID l = id;
  li_held : forall a l, fs_heap s !! a = Some l -> lease_held (il_State l) = true ->
    fs_leases s !! lease_key l = Some a;
  li_name : forall a l, fs_heap s !! a = Some l ->
    il_ID l = leaseID (id_TenantID (il_Identity l)) (id_ID (il_Identity l)) (id_Epoch (il_Identity l));
}.

Lemma leases_inv_moved s s' :
  leases_inv s -> heap_moved (fs_heap s) (fs_heap s') -> fs_leases s' = fs_leases s ->
  fs_leaseIDs s' = fs_leaseIDs s -> leases_inv s'.
Proof.
  intros [Hk Hi Hh Hn] Hm Ek Ei. split; rewrite ?Ek, ?Ei.
  - intros k a Ha. destruct (Hk _ _ Ha) as (l & Hl & <-).
    destruct (heap_moved_forth _ _ _ _ Hm Hl) as (l' & Hl' & Hr). exists l'. split; [done |].
    by apply same_identity_key, lease_moves_identity.
  - intros id a Ha. destruct (Hi _ _ Ha) as (l & Hl & <-).
    destruct (heap_moved_forth _ _ _ _ Hm Hl) as (l' & Hl' & Hr). exists l'. split; [done |].
    by apply lease_moves_identity.
  - intros a l' Ha Hheld. destruct (heap_moved_back _ _ _ _ Hm Ha) as (l & Hl & Hr).
    rewrite (same_identity_key l l') by (by apply lease_moves_identity).
    apply Hh; [done | by eapply lease_moves_held].
  - intros a l' Ha. destruct (heap_moved_back _ _ _ _ Hm Ha) as (l & Hl & Hr).
    destruct (lease_moves_identity _ _ Hr) as [-> -> _ _ _]. by eapply Hn.
Qed.

Lemma leases_inv_reserved s s' h r :
  leases_inv s -> heap_moved (fs_heap s) h ->
  (match fs_leases s !! lease_key (reserved_lease r) with
   | None => rsv_ExpectedIdentityEpoch r = 0%N
   | Some a => exists l, h !! a = Some l /\ lease_held (il_State l) = false
                        /\ id_Epoch (il_Identity l) = rsv_ExpectedIdentityEpoch r
   end) ->
  fs_heap s' = h ++ [reserved_lease r] ->
  fs_leases s' = <[lease_key (reserved_lease r) := length h]> (fs_leases s) ->
  fs_leaseIDs s' = <[il_ID (reserved_lease r) := length h]> (fs_leaseIDs s) -> leases_inv s'.
Proof.
  intros Hinv Hm Hcur Eh Ek Ei.
  pose proof (leases_inv_moved s (set_leases h (fs_leases s) (fs_leaseIDs s) s) Hinv Hm eq_refl eq_refl) as [Hk Hi Hh Hn].
  cbn [fs_heap fs_leases fs_leaseIDs set_leases] in *. split; rewrite Eh, ?Ek, ?Ei.
  - intros k a [[<- <-] | [_ Ha]]%lookup_insert_Some.
    + exists (reserved_lease r). by rewrite list_lookup_middle.
    + destruct (Hk _ _ Ha) as (l & Hl & ?). exists l. split; [by apply lookup_app_l_Some | done].
  - intros id a [[<- <-] | [_ Ha]]%lookup_insert_Some.
    + exists (reserved_lease r). by rewrite list_lookup_middle.
    + destruct (Hi _ _ Ha) as (l & Hl & ?). exists l. split; [by apply lookup_app_l_Some | done].
  - intros a l [Ha | [Hge Ha]]%lookup_app_Some Hheld.
    + pose proof (Hh _ _ Ha Hheld) as Hidx. rewrite lookup_insert_ne; [done |]. intros E.
      rewrite E, Hidx in Hcur. destruct Hcur as (l0 & Hl0 & Hnh & _). congruence.
    + apply list_lookup_singleton_Some in Ha as [Ha <-].
      rewrite lookup_insert_eq. f_equal. lia.
  - intros a l [Ha | [Hge Ha]]%lookup_app_Some; [by eapply Hn |].
    by apply list_lookup_singleton_Some in Ha as [_ <-].
Qed.

Lemma leases_inv_activated s s' a l :
  leases_inv s -> fs_heap s !! a = Some l -> il_State l = IdentityLeaseReserved ->
  fs_heap s' = <[a := bump_lease (set_lease_state IdentityLeaseActive l)]> (fs_heap s) ->
  fs_leases s' = fs_leases s -> fs_leaseIDs s' = fs_leaseIDs s -> leases_inv s'.
Proof.
  intros [Hk Hi Hh Hn] Hl Hres Eh Ek Ei.
  assert (forall b m, fs_heap s !! b = Some m -> exists m', fs_heap s' !! b = Some m' /\ same_lease_identity m m') as F.
  { intros b m Hb. rewrite Eh. destruct (decide (a = b)) as [<- | Hne].
    - eexists. rewrite list_lookup_insert_eq by (by eapply lookup_lt_Some). split; [done |].
      rewrite Hl in Hb. by injection Hb as <-.
    - exists m. by rewrite list_lookup_insert_ne. }
  assert (forall b m', fs_heap s' !! b = Some m' -> exists m, fs_heap s !! b = Some m /\ same_lease_identity m m'
            /\ (lease_held (il_State m') = true -> lease_held (il_State m) = true)) as B.
  { intros b m'. rewrite Eh. intros [(<- & <- & _) | [_ Hb]]%list_lookup_insert_Some; [| by exists m'].
    exists l. split; [done | split; [done |]]. intros _. unfold lease_held, lease_is. by rewrite Hres. }
  split; rewrite ?Ek, ?Ei.
  - intros k b Hb. destruct (Hk _ _ Hb) as (m & Hm & <-). destruct (F _ _ Hm) as (m' & ? & ?).
    exists m'. split; [done | by apply same_identity_key].
  - intros id b Hb. destruct (Hi _ _ Hb) as (m & Hm & <-). destruct (F _ _ Hm) as (m' & ? & []). by exists m'.
  - intros b m' Hb Hheld. destruct (B _ _ Hb) as (m & Hm & Hsame & Hhm).
    rewrite (same_identity_key _ _ Hsame). by apply Hh; [| apply Hhm].
  - intros b m' Hb. destruct (B _ _ Hb) as (m & Hm & [-> -> _ _ _] & _). by eapply Hn.
Qed.

Lemma leases_inv_change s s' : leases_inv s -> leases_change s s' -> leases_inv s'.
Proof.
  intros Hi [h Hm <- Ek Ei | h r Hm Hcur Eh Ek Ei].
  - by eapply leases_inv_moved.
  - by eapply leases_inv_reserved.
Qed.

Lemma committed_lease q now s s' r :
  committed q now s s' r ->
  exists a l, fs_heap s !! a = Some l /\ il_State l = IdentityLeaseReserved
    /\ acm_IdentityLease r = bump_lease (set_lease_state IdentityLeaseActive l)
    /\ fs_heap s' = <[a := acm_IdentityLease r]> (fs_heap s)
    /\ fs_leases s' = fs_leases s /\ fs_leaseIDs s' = fs_leaseIDs s.
Proof.
  intros [(current & a & l & _ & _ & Hl & _ & _ & _ & _ & _ & Hlm & _ & _ & Er & _ & ->)].
  exists a, l. unfold lease_matches, lease_is in Hlm. go_bool. tauto.
Qed.

Lemma leases_inv_step s s' : leases_inv s -> store_step s s' -> leases_inv s'.
Proof.
  intros Hi Hst. destruct (store_step_leases _ _ Hst) as [Hc | (ctx & q & now & r & _ & Hc)].
  - by eapply leases_inv_change.
  - destruct (committed_lease _ _ _ _ _ Hc) as (a & l & Hl & Hres & Er & Eh & Ek & Ei). rewrite Er in Eh.
    by eapply leases_inv_activated.
Qed.

Lemma leases_inv_reachable s : reachable s -> leases_inv s.
Proof.
  intros H. assert (forall a, leases_inv a -> rtc store_step a s -> leases_inv s) as G.
  { intros a Ha Hs. induction Hs; eauto using leases_inv_step. }
  apply (G NewFactStore); [| done]. split; intros; by simplify_map_eq.
Qed.

(** C35: in every reachable store at most one lease of an identity is reserved or
    active, and it is the one the identity's key leads to. *)
Theorem identity_lease_exclusive s a1 a2 l1 l2 :
  reachable s -> fs_heap s !! a1 = Some l1 -> fs_heap s !! a2 = Some l2 ->
  lease_held (il_State l1) = true -> lease_held (il_State l2) = true ->
  lease_key l1 = lease_key l2 ->
  a1 = a2 /\ l1 = l2 /\ fs_leases s !! lease_key l1 = Some a1.
Proof.
  intros Hs H1 H2 E1 E2 Ek. pose proof (leases_inv_reachable _ Hs) as [_ _ Hh _].
  pose proof (Hh _ _ H1 E1) as K1. pose proof (Hh _ _ H2 E2) as K2. rewrite Ek in K1.
  assert (a1 = a2) as -> by congruence. assert (l1 = l2) as -> by congruence. done.
Qed.

(** ** Leases over time *)

Lemma leases_change_lease s s' a l :
  leases_change s s' -> fs_heap s !! a = Some l -> exists l', fs_heap s' !! a = Some l' /\ rtc lease_move l l'.
Proof.
  intros [h Hm Eh _ _ | h r Hm _ Eh _ _] Hl; destruct (heap_moved_forth _ _ _ _ Hm Hl) as (l' & Hl' & Hr);
    exists l'; rewrite Eh; [done | split; [by apply lookup_app_l_Some | done]].
Qed.

Lemma store_step_lease s s' a l :
  store_step s s' -> fs_heap s !! a = Some l ->
  exists l', fs_heap s' !! a = Some l' /\ same_lease_identity l l'
             /\ (lease_held (il_State l') = true -> lease_held (il_State l) = true).
Proof.
  intros Hst Hl. destruct (store_step_leases _ _ Hst) as [Hc | (ctx & q & now & r & _ & Hc)].
  - destruct (leases_change_lease _ _ _ _ Hc Hl) as (l' & ? & Hr). exists l'.
    split; [done | split; [by apply lease_moves_identity | by apply lease_moves_held]].
  - destruct (committed_lease _ _ _ _ _ Hc) as (b & m & Hm & Hres & Er & Eh & _ & _). rewrite Eh, Er.
    destruct (decide (b = a)) as [<- | Hne].
    + rewrite list_lookup_insert_eq by (by eapply lookup_lt_Some). eexists. split; [done |].
      rewrite Hl in Hm. injection Hm as <-. split; [done |]. intros _. unfold lease_held, lease_is. by rewrite Hres.
    + rewrite list_lookup_insert_ne by done. by exists l.
Qed.

(** whatever the store does, a lease is never forgotten, and keeps its id,
    identity epoch, lineage, attempt and authority epoch; once ended (revoked,
    expired or released) it never becomes reserved or active again. *)
Theorem lease_history s s' a l :
  rtc store_step s s' -> fs_heap s !! a = Some l ->
  exists l', fs_heap s' !! a = Some l' /\ same_lease_identity l l'
             /\ (lease_held (il_State l) = false -> lease_held (il_State l') = false).
Proof.
  intros Hs. revert l. induction Hs as [s | s m s' Hm _ IH]; intros l Hl.
  - by exists l.
  - destruct (store_step_lease _ _ _ _ Hm Hl) as (l1 & H1 & Hs1 & Hh1).
    destruct (IH _ H1) as (l' & H' & Hs' & Hh'). exists l'. split; [done |].
    split; [by eapply same_lease_identity_trans |].
    intros E. apply Hh'. destruct (lease_held (il_State l1)); [| done]. by rewrite Hh1 in E.
Qed.

(** execution authority is granted only by CommitActivation: whenever a step
    of the store makes a lease active that was not, the step is a successful
    CommitActivation, the lease is the one it returned, it was reserved and
    unexpired just before, and the same step moved the attempt named in the
    request to the committed stage, bound to that lease and to the confirmed
    sandbox. *)
Theorem active_only_by_commit s s' a l' :
  store_step s s' -> fs_heap s' !! a = Some l' -> il_State l' = IdentityLeaseActive ->
  (forall l, fs_heap s !! a = Some l -> il_State l <> IdentityLeaseActive) ->
  exists ctx q now r l,
    CommitActivation ctx q now s = (s', Ok r)
    /\ acm_IdentityLease r = l' /\ fs_heap s !! a = Some l /\ lease_activation l l'
    /\ (instant now < instant (il_ExpiresAt l))%Z
    /\ fs_activations s' !! acr_AttemptID q = Some (acm_Attempt r)
    /\ at_Stage (acm_Attempt r) = StageCommitted /\ at_IdentityLeaseID (acm_Attempt r) = il_ID l'
    /\ at_IdentityLeaseRevision (acm_Attempt r) = il_Revision l'
    /\ sc_SandboxLease (at_Scope (acm_Attempt r)) = Some (acr_SandboxLease q).
Proof.
  intros Hst Hl' Hact Hnot. destruct (store_step_leases _ _ Hst) as [Hc | (ctx & q & now & r & Hrun & Hc)].
  - exfalso. destruct Hc as [h Hm Eh _ _ | h rq Hm _ Eh _ _]; rewrite Eh in Hl'.
    + destruct (heap_moved_back _ _ _ _ Hm Hl') as (l & Hl & Hr). apply (Hnot _ Hl). by eapply lease_moves_active.
    + apply lookup_app_Some in Hl' as [Hl' | [_ Hl']].
      * destruct (heap_moved_back _ _ _ _ Hm Hl') as (l & Hl & Hr). apply (Hnot _ Hl). by eapply lease_moves_active.
      * apply list_lookup_singleton_Some in Hl' as [_ <-]. done.
  - destruct Hc as [(current & b & l & Hcur & _ & Hl & _ & _ & _ & _ & _ & Hlm & Hexp & Ea & Er & _ & Es)].
    pose proof Es as Es'. rewrite Es in Hl'. cbn [fs_heap set_activations set_leases] in Hl'.
    apply list_lookup_insert_Some in Hl' as [(<- & El & _) | [_ Hl']]; [| by destruct (Hnot _ Hl')].
    exists ctx, q, now, r, l. split; [done |]. split; [done |]. split; [done |].
    unfold lease_matches, lease_is in Hlm. go_bool. destruct_and!.
    split; [split; [done |]; congruence |]. split; [done |].
    split; [rewrite Es'; cbn; by rewrite lookup_insert_eq |].
    rewrite Ea, <- El, Er. cbn. repeat split; done.
Qed.

(** ** The activation journal *)

Inductive activations_change (s s' : FactStore) : Prop :=
| ach_same : fs_activations s' = fs_activations s -> activations_change s s'
| ach_created a now :
    ActivationAttempt_Validate a now = Ok tt -> at_Stage a = StageProposed -> at_Recovery a = RecoveryNormal ->
    at_Revision a = 1%N -> fs_activations s !! at_ID a = None ->
    fs_activations s' = <[at_ID a := a]> (fs_activations s) -> activations_change s s'
| ach_step id a b :
    fs_activations s !! id = Some a -> act_step a b ->
    fs_activations s' = <[id := b]> (fs_activations s) -> activations_change s s'.

Lemma store_step_activations s s' : store_step s s' -> activations_change s s'.
Proof.
  intros Hst. destruct Hst;
    try (match goal with H : SetEvidenceAvailable _ _ = _ |- _ => injection H as <- <- end; by apply ach_same);
    try (match goal with H : LoseNextRunWriteReply _ = _ |- _ => injection H as <- <- end; by apply ach_same).
  - apply ach_same, (CreateRun_frame _ _ _ _ _ H).
  - apply ach_same. by rewrite (InspectRun_frame _ _ _ _ _ _ H).
  - apply ach_same. by rewrite (InspectActiveRun_frame _ _ _ _ _ H).
  - apply ach_same, (CompareAndSwapRun_frame _ _ _ _ _ H).
  - apply ach_same, (CreateDesiredState_frame _ _ _ _ _ H).
  - apply ach_same, (AcceptCommand_frame _ _ _ _ _ _ H).
  - apply ach_same. by rewrite (ReadDesiredState_frame _ _ _ _ _ H).
  - apply ach_same. by rewrite (ListCommands_frame _ _ _ _ _ H).
  - apply ach_same. by rewrite (ListOutbox_frame _ _ _ _ _ H).
  - apply ach_same, (MarkOutboxDispatched_frame _ _ _ _ _ _ _ H).
  - apply ach_same, (ReserveIdentityLease_frame _ _ _ _ _ _ H).
  - apply ach_same, (mutateLease_frame _ _ _ _ _ _ _ _ H).
  - apply ach_same, (mutateLease_frame _ _ _ _ _ _ _ _ H).
  - apply ach_same, (mutateLease_frame _ _ _ _ _ _ _ _ H).
  - apply ach_same, (InspectIdentityLease_frame _ _ _ _ _ _ _ H).
  - unfold CreateActivationAttempt in H. run_exec H; try by apply ach_same.
    rewrite cloneActivationAttempt_id in *. go_ok. unfold stage_is, recovery_is in *. go_bool. destruct_and!.
    by eapply ach_created.
  - apply ach_same. by rewrite (InspectActivationAttempt_frame _ _ _ _ _ H).
  - unfold CompareAndSwapActivation in H. run_exec H; try by apply ach_same.
    rewrite cloneActivationAttempt_id in *. go_ok. eapply ach_step; [eassumption | | reflexivity].
    by eexists _, _.
  - destruct (CommitActivation_cases _ _ _ _ _ _ H) as [(h & e & _ & -> & _) | (res & _ & Hc)]; [by apply ach_same |].
    destruct Hc as [(current & b & l & Hcur & _ & _ & _ & _ & _ & _ & _ & _ & _ & _ & _ & Hv & ->)].
    eapply ach_step; [exact Hcur | | reflexivity]. by eexists _, _.
Qed.

(** A record the journal may hold under [id]. *)
Definition journaled (now : Time) (id : string) (b : ActivationAttempt) : Prop :=
  at_ID b = id
  /\ exists a, at_Stage a = StageProposed /\ at_Recovery a = RecoveryNormal /\ at_Revision a = 1%N
               /\ ActivationAttempt_Validate a now = Ok tt /\ rtc act_step a b.
Definition journal_inv (now : Time) (s : FactStore) : Prop :=
  forall id b, fs_activations s !! id = Some b -> journaled now id b.

Lemma journal_inv_step now s s' : journal_inv now s -> store_step s s' -> journal_inv now s'.
Proof.
  intros Hx Hst id b.
  destruct (store_step_activations _ _ Hst) as [E | a t Hv Hst1 Hr Hrev Hn E | k a c Ha Hac E]; rewrite E.
  - apply Hx.
  - intros [[<- <-] | [_ Hb]]%lookup_insert_Some; [| by apply Hx]. split; [done |].
    exists a. repeat split; [done | done | done | | apply rtc_refl].
    by rewrite (ActivationAttempt_Validate_now _ _ t).
  - intros [[<- <-] | [_ Hb]]%lookup_insert_Some; [| by apply Hx].
    destruct (Hx _ _ Ha) as (Hid & a0 & ? & ? & ? & ? & Hrt). split.
    + destruct (act_step_transition _ _ Hac) as (? & ? & T). rewrite (im_id _ _ (tr_immutable _ _ _ _ T)). done.
    + exists a0. repeat split; [done | done | done | done | by eapply rtc_r].
Qed.

Lemma journal_inv_reachable now s : reachable s -> journal_inv now s.
Proof.
  intros H. assert (forall a, journal_inv now a -> rtc store_step a s -> journal_inv now s) as G.
  { intros a Ha Hs. induction Hs; eauto using journal_inv_step. }
  apply (G NewFactStore); [| done]. intros id b Hb. by simplify_map_eq.
Qed.

(** The activation journal of every reachable store holds, under its own id,
    only records that a history of accepted transitions leads to from a valid
    proposed attempt of revision one. *)
Theorem activation_journal_sound s id b now :
  reachable s -> fs_activations s !! id = Some b ->
  at_ID b = id /\ ActivationAttempt_Validate b now = Ok tt
  /\ exists a, at_Stage a = StageProposed /\ at_Recovery a = RecoveryNormal /\ at_Revision a = 1%N
               /\ ActivationAttempt_Validate a now = Ok tt /\ rtc act_step a b.
Proof.
  intros Hs Hb. destruct (journal_inv_reachable now _ Hs _ _ Hb) as (Hid & a & Hs1 & Hr & Hrev & Hv & Hrt).
  split; [done | split; [by eapply act_history_valid | by exists a]].
Qed.

(** ** A concrete activation against the store *)

Definition ex_reserve : ReserveIdentityLeaseRequest :=
  {| rsv_TenantID := "tenant"; rsv_IdentityID := "agent"; rsv_ExpectedIdentityEpoch := 0;
     rsv_Lineage := sc_Lineage ex_scope; rsv_ActivationAttemptID := "attempt-1"; rsv_AuthorityEpoch := 1;
     rsv_ExpiresAt := {| instant := 1000; rep := 0 |} |}.
Definition ex_commit : ActivationCommitRequest :=
  {| acr_AttemptID := "attempt-1"; acr_ExpectedAttemptRevision := 7;
     acr_IdentityLeaseID := "tenant/agent/lease/1"; acr_ExpectedIdentityLeaseRevision := 1;
     acr_SandboxLease := ex_lease; acr_AuthorityEpoch := 1 |}.
Definition ex_cas (a : ActivationAttempt) (s : FactStore) : FactStore :=
  (CompareAndSwapActivation CtxLive a {| UnknownResolved := false |} ex_now s).1.

Definition ex_ladder (s : FactStore) : FactStore :=
  ex_cas (ex_normal StageSandboxReserved 7)
    (ex_cas (ex_normal StageBudgetResolved 6)
      (ex_cas (ex_normal StageIdentityLeaseReserved 5)
        (ex_cas (ex_normal StageSnapshotFrozen 4)
          (ex_cas (ex_normal StagePreflightPassed 3)
            (ex_cas (ex_normal StagePreflighting 2)
              (CreateActivationAttempt CtxLive (ex_normal StageProposed 1) ex_now s).1))))).

Lemma ex_ladder_steps s : rtc store_step s (ex_ladder s).
Proof.
  eapply rtc_l; [eapply (do_CreateAttempt CtxLive (ex_normal StageProposed 1) ex_now); apply surjective_pairing |].
  do 5 (eapply rtc_l; [eapply do_CASActivation; apply surjective_pairing |]).
  apply rtc_once. eapply do_CASActivation. apply surjective_pairing.
Qed.

Definition ex_reserved : FactStore := (ReserveIdentityLease CtxLive ex_reserve ex_now NewFactStore).1.
Definition ex_ready : FactStore := ex_ladder ex_reserved.
Definition ex_active : FactStore := (CommitActivation CtxLive ex_commit ex_now ex_ready).1.

Lemma ex_ready_reachable : reachable ex_ready.
Proof.
  eapply rtc_l; [eapply (do_Reserve CtxLive ex_reserve ex_now); apply surjective_pairing | apply ex_ladder_steps].
Qed.
Lemma ex_active_step : store_step ex_ready ex_active.
Proof. eapply (do_Commit CtxLive ex_commit ex_now). apply surjective_pairing. Qed.
Lemma ex_active_reachable : reachable ex_active.
Proof. eapply rtc_r; [apply ex_ready_reachable | apply ex_active_step]. Qed.

Definition ex_lease_record (state : IdentityLeaseState) (rev : N) : IdentityExecutionLease :=
  set_lease_revision rev (set_lease_state state (reserved_lease ex_reserve)).

Lemma identity_lease_exclusive_witness :
  fs_heap ex_active !! 0 = Some (ex_lease_record IdentityLeaseActive 2)
  /\ fs_leases ex_active !! "tenant/agent" = Some 0.
Proof.
  assert (fs_heap ex_active !! 0 = Some (ex_lease_record IdentityLeaseActive 2)) as H by (vm_compute; reflexivity).
  split; [exact H |].
  exact (proj2 (proj2 (identity_lease_exclusive _ _ _ _ _ ex_active_reachable H H eq_refl eq_refl eq_refl))).
Defined.

Lemma lease_history_witness :
  fs_heap ex_reserved !! 0 = Some (ex_lease_record IdentityLeaseReserved 1)
  /\ exists l, fs_heap ex_active !! 0 = Some l
               /\ same_lease_identity (ex_lease_record IdentityLeaseReserved 1) l.
Proof.
  assert (fs_heap ex_reserved !! 0 = Some (ex_lease_record IdentityLeaseReserved 1)) as H by (vm_compute; reflexivity).
  assert (rtc store_step ex_reserved ex_active) as Hs
    by (eapply rtc_r; [apply ex_ladder_steps | apply ex_active_step]).
  split; [exact H |]. destruct (lease_history _ _ _ _ Hs H) as (l & Hl & Hi & _). exists l. split; assumption.
Defined.

Lemma active_only_by_commit_witness :
  exists ctx q now r, CommitActivation ctx q now ex_ready = (ex_active, Ok r)
                      /\ at_Stage (acm_Attempt r) = StageCommitted.
Proof.
  destruct (active_only_by_commit ex_ready ex_active 0 (ex_lease_record IdentityLeaseActive 2) ex_active_step)
    as (ctx & q & now & r & l & Hr & _ & _ & _ & _ & _ & Hc & _).
  - vm_compute; reflexivity.
  - reflexivity.
  - intros l Hl E. assert (fs_heap ex_ready !! 0 = Some (ex_lease_record IdentityLeaseReserved 1)) as H
      by (vm_compute; reflexivity).
    rewrite H in Hl. injection Hl as <-. discriminate E.
  - exists ctx, q, now, r. split; assumption.
Defined.

Lemma activation_journal_sound_witness :
  exists b, fs_activations ex_active !! "attempt-1" = Some b /\ at_Stage b = StageCommitted
            /\ at_ID b = "attempt-1".
Proof.
  eexists. split; [vm_compute; reflexivity |]. split; [reflexivity |].
  refine (proj1 (activation_journal_sound ex_active "attempt-1" _ ex_now ex_active_reachable _)).
  vm_compute; reflexivity.
Defined.

(** ** Two things the store allows *)

(** CommitActivation is said to be the only way to the commit point, but the
    journal's compare-and-swap accepts a caller's committed record too: the
    attempt is then committed with an "active" identity lease while the store
    holds no lease at all. *)
Theorem cas_commits_without_lease :
  exists s b, reachable s /\ fs_heap s = [] /\ fs_activations s !! "attempt-1" = Some b
              /\ at_Stage b = StageCommitted /\ at_IdentityLeaseState b = IdentityLeaseActive.
Proof.
  exists (ex_cas (ex_normal StageCommitted 8) (ex_ladder NewFactStore)). eexists.
  split; [| split; [vm_compute; reflexivity | split; [vm_compute; reflexivity | split; reflexivity]]].
  eapply rtc_r; [apply ex_ladder_steps |]. eapply do_CASActivation. apply surjective_pairing.
Qed.

(** The identity key joins tenant and identity with "/": tenants "a/b" and "a"
    share the key of identities "c" and "b/c", so one tenant inspects the lease
    of the other and is refused its own. *)
Definition ex_reserve_for (tenant identity : string) : ReserveIdentityLeaseRequest :=
  {| rsv_TenantID := tenant; rsv_IdentityID := identity; rsv_ExpectedIdentityEpoch := 0;
     rsv_Lineage := sc_Lineage ex_scope; rsv_ActivationAttemptID := tenant; rsv_AuthorityEpoch := 1;
     rsv_ExpiresAt := {| instant := 1000; rep := 0 |} |}.

Theorem identity_key_collision :
  exists s l, reachable s
    /\ (InspectIdentityLease CtxLive "a" "b/c" ex_now s).2 = Ok l /\ id_TenantID (il_Identity l) = "a/b"
    /\ (ReserveIdentityLease CtxLive (ex_reserve_for "a" "b/c") ex_now s).2
       = fail ErrorConflict ReasonIdentityLeaseConflict.
Proof.
  exists (ReserveIdentityLease CtxLive (ex_reserve_for "a/b" "c") ex_now NewFactStore).1. eexists.
  split; [| split; [vm_compute; reflexivity | split; [reflexivity | vm_compute; reflexivity]]].
  apply rtc_once. eapply (do_Reserve CtxLive (ex_reserve_for "a/b" "c") ex_now). apply surjective_pairing.
Qed.
