(* ===== verification/RunJournal.v ===== *)
(** * kernel/run_journal.go against control.RunFactPort

    The journal's methods are programs that call the fact port; between two
    calls other clients of the port may act.  The port is a class of operations
    with the laws the journal relies on, and the fact store is an instance. *)

From S2P Require Import Prelude GoStd Errors Identity State RunFact Command IdentityLease Activation FactStore RunStore.

(** ** control.RunFactPort *)

Class RunFactPort (S : Type) := {
  port_CreateRun : Context -> AgentRunRecord -> ST S error AgentRunRecord;
  port_InspectRun : Context -> ExecutionScope -> string -> ST S error AgentRunRecord;
  port_InspectActiveRun : Context -> ExecutionScope -> ST S error AgentRunRecord;
  port_CompareAndSwapRun : Context -> RunFactCASRequest -> ST S error AgentRunRecord;
  (** what any client of the port may do to its state in one step *)
  port_env : S -> S -> Prop;
}.

(** What the port promises: [port_view] is the record stored for a scope and a
    run id.  A failing write may have happened (its reply can be lost); a
    successful one has, from a state the transition rule accepts. *)
Class RunFactPortLaws (S : Type) `{RunFactPort S} := {
  port_inv : S -> Prop;
  port_view : S -> ExecutionScope -> string -> option AgentRunRecord;
  law_inv s s' : port_inv s -> port_env s s' -> port_inv s';
  law_record s sc id r : port_inv s -> port_view s sc id = Some r ->
    run_Scope r = sc /\ run_ID r = id /\ AgentRunRecord_Validate r = Ok tt;
  law_stable s s' sc id r : port_inv s -> port_env s s' -> port_view s sc id = Some r ->
    exists r', port_view s' sc id = Some r' /\ rtc run_cas_step r r';
  law_create_env ctx r s s' o : port_CreateRun ctx r s = (s', o) -> port_env s s';
  law_cas_env ctx q s s' o : port_CompareAndSwapRun ctx q s = (s', o) -> port_env s s';
  law_inspect ctx sc id s s' o : port_inv s -> port_InspectRun ctx sc id s = (s', o) ->
    s' = s /\ (forall r, o = Ok r -> port_view s sc id = Some r)
    /\ (forall r, ctx = CtxLive -> port_view s sc id = Some r -> o = Ok r);
  law_inspect_active ctx sc s s' o : port_inv s -> port_InspectActiveRun ctx sc s = (s', o) ->
    s' = s /\ (forall r, o = Ok r -> port_view s sc (run_ID r) = Some r /\ run_Status r <> RunTerminal);
  law_create ctx r s s' r' : port_inv s -> port_CreateRun ctx r s = (s', Ok r') ->
    r' = r /\ port_view s' (run_Scope r) (run_ID r) = Some r
    /\ (forall id q, port_view s (run_Scope r) id = Some q -> run_Status q = RunTerminal);
  law_cas ctx q s s' n : port_inv s -> port_CompareAndSwapRun ctx q s = (s', Ok n) ->
    n = cas_Next q /\ port_view s' (run_Scope n) (run_ID n) = Some n
    /\ exists cur, port_view s (run_Scope n) (run_ID n) = Some cur /\ run_step cur n;
}.

(** ** Programs over the port *)

Inductive prog (A : Type) : Type :=
| Return (o : result A)
| CallCreate (ctx : Context) (r : AgentRunRecord) (k : result AgentRunRecord -> prog A)
| CallInspect (ctx : Context) (sc : ExecutionScope) (id : string) (k : result AgentRunRecord -> prog A)
| CallInspectActive (ctx : Context) (sc : ExecutionScope) (k : result AgentRunRecord -> prog A)
| CallCAS (ctx : Context) (q : RunFactCASRequest) (k : result AgentRunRecord -> prog A).
Arguments Return {A} o.
Arguments CallCreate {A} ctx r k.
Arguments CallInspect {A} ctx sc id k.
Arguments CallInspectActive {A} ctx sc k.
Arguments CallCAS {A} ctx q k.

(** `x, err := call; if err != nil { return err }` *)
Definition or_return {A} (k : AgentRunRecord -> prog A) (o : result AgentRunRecord) : prog A :=
  match o with Ok r => k r | Err e => Return (Err e) end.

(** Executions from one port state to another, other clients acting before each
    call. *)
Inductive exec {S} `{RunFactPort S} {A} : prog A -> S -> S -> result A -> Prop :=
| exec_return o s : exec (Return o) s s o
| exec_create ctx r k s s1 s2 s' x o :
    rtc port_env s s1 -> port_CreateRun ctx r s1 = (s2, x) -> exec (k x) s2 s' o ->
    exec (CallCreate ctx r k) s s' o
| exec_inspect ctx sc id k s s1 s2 s' x o :
    rtc port_env s s1 -> port_InspectRun ctx sc id s1 = (s2, x) -> exec (k x) s2 s' o ->
    exec (CallInspect ctx sc id k) s s' o
| exec_inspect_active ctx sc k s s1 s2 s' x o :
    rtc port_env s s1 -> port_InspectActiveRun ctx sc s1 = (s2, x) -> exec (k x) s2 s' o ->
    exec (CallInspectActive ctx sc k) s s' o
| exec_cas ctx q k s s1 s2 s' x o :
    rtc port_env s s1 -> port_CompareAndSwapRun ctx q s1 = (s2, x) -> exec (k x) s2 s' o ->
    exec (CallCAS ctx q k) s s' o.

(** ** run_journal.go *)

(** Field updates on a copy of a record. *)
Definition with_status (status : RunStatus) (ended : Time) (outcome : ExecutionOutcome)
    (claim : option RunCompletionClaim) (r : AgentRunRecord) : AgentRunRecord :=
  {| run_ID := run_ID r; run_Scope := run_Scope r; run_Status := status;
     run_Revision := u64_succ (run_Revision r); run_SessionRef := run_SessionRef r;
     run_StartedAt := run_StartedAt r; run_EndedAt := ended; run_Outcome := outcome;
     run_CompletionClaim := claim |}.

Definition cas_of (current next : AgentRunRecord) : RunFactCASRequest :=
  {| cas_ExpectedRevision := run_Revision current; cas_Next := next |}.

Definition RunJournal_Start (ctx : Context) (scope : ExecutionScope) (runID sessionRef : string) (now : Time)
    : prog AgentRunRecord :=
  CallCreate ctx
    {| run_ID := runID; run_Scope := scope; run_Status := RunRunning; run_Revision := 1;
       run_SessionRef := sessionRef; run_StartedAt := now; run_EndedAt := zeroTime;
       run_Outcome := OutcomeUnset; run_CompletionClaim := None |} Return.

Definition RunJournal_BeginStop (ctx : Context) (scope : ExecutionScope) (runID : string) : prog AgentRunRecord :=
  CallInspect ctx scope runID (or_return (fun current =>
    if status_is (run_Status current) RunStopping then Return (Ok current)
    else if negb (status_is (run_Status current) RunRunning)
    then Return (fail ErrorPreconditionFailed ReasonRunConflict)
    else CallCAS ctx
           (cas_of current (with_status RunStopping (run_EndedAt current) (run_Outcome current)
                              (run_CompletionClaim current) current)) Return)).

Definition RunJournal_RecordCompletionClaim (ctx : Context) (scope : ExecutionScope) (runID : string)
    (claim : RunCompletionClaim) : prog AgentRunRecord :=
  match RunCompletionClaim_Validate claim with
  | Err e => Return (Err e)
  | Ok _ =>
      CallInspect ctx scope runID (or_return (fun current =>
        match run_CompletionClaim current with
        | Some existing =>
            if bool_decide (existing = claim) then Return (Ok current)
            else Return (fail ErrorConflict ReasonRunClaimConflict)
        | None =>
            if status_is (run_Status current) RunPending || status_is (run_Status current) RunTerminal
            then Return (fail ErrorPreconditionFailed ReasonRunClaimConflict)
            else
              CallCAS ctx
                (cas_of current (with_status (run_Status current) (run_EndedAt current) (run_Outcome current)
                                   (Some claim) current))
                (fun persisted =>
                   match persisted with
                   | Ok r => Return (Ok r)
                   | Err e =>
                       if negb (HasReason e ReasonRevisionConflict) then Return (Err e)
                       else CallInspect ctx scope runID (fun latest =>
                              match latest with
                              | Err _ => Return (Err e)
                              | Ok r =>
                                  if bool_decide (run_CompletionClaim r = Some claim) then Return (Ok r)
                                  else Return (Err e)
                              end)
                   end)
        end))
  end.

Definition RunJournal_Finish (ctx : Context) (scope : ExecutionScope) (runID : string)
    (outcome : ExecutionOutcome) (now : Time) : prog AgentRunRecord :=
  CallInspect ctx scope runID (or_return (fun current =>
    if status_is (run_Status current) RunTerminal then
      if bool_decide (run_Outcome current = outcome) then Return (Ok current)
      else Return (fail ErrorConflict ReasonRunConflict)
    else if negb (status_is (run_Status current) RunRunning) && negb (status_is (run_Status current) RunStopping)
    then Return (fail ErrorPreconditionFailed ReasonRunConflict)
    else CallCAS ctx
           (cas_of current (with_status RunTerminal now outcome (run_CompletionClaim current) current)) Return)).

Definition RunJournal_Inspect (ctx : Context) (scope : ExecutionScope) (runID : string) : prog AgentRunRecord :=
  CallInspect ctx scope runID Return.

Definition RunJournal_RecoverActive (ctx : Context) (scope : ExecutionScope) : prog AgentRunRecord :=
  CallInspectActive ctx scope Return.

(** ** What the journal guarantees over any lawful port *)

Ltac exec_inv :=
  unfold fail in *;
  repeat match goal with
  | H : exec (Return _) _ _ _ |- _ => inversion H; clear H; subst
  | H : exec (CallCreate _ _ _) _ _ _ |- _ => inversion H; clear H; subst
  | H : exec (CallInspect _ _ _ _) _ _ _ |- _ => inversion H; clear H; subst
  | H : exec (CallInspectActive _ _ _) _ _ _ |- _ => inversion H; clear H; subst
  | H : exec (CallCAS _ _ _) _ _ _ |- _ => inversion H; clear H; subst
  end.

Section journal.
Context {S : Type} `{RunFactPortLaws S}.

Lemma port_inv_rtc s s' : port_inv s -> rtc port_env s s' -> port_inv s'.
Proof. intros Hi Hr. induction Hr; eauto using law_inv. Qed.

Lemma law_stable_rtc s s' sc id r :
  port_inv s -> rtc port_env s s' -> port_view s sc id = Some r ->
  exists r', port_view s' sc id = Some r' /\ rtc run_cas_step r r'.
Proof.
  intros Hi Hr. revert r. induction Hr as [s | s m s' Hm _ IH]; intros r Hv; [by exists r; split; [| apply rtc_refl] |].
  destruct (law_stable _ _ _ _ _ Hi Hm Hv) as (r1 & H1 & Hs1).
  destruct (IH (law_inv _ _ Hi Hm) _ H1) as (r' & H' & Hs'). exists r'. split; [done | by etrans].
Qed.

(** A call of the port inside an execution, with the laws at hand. *)
Lemma inspect_call ctx sc id s s1 s2 x :
  port_inv s -> rtc port_env s s1 -> port_InspectRun ctx sc id s1 = (s2, x) ->
  s2 = s1 /\ port_inv s1 /\ (forall r, x = Ok r -> port_view s1 sc id = Some r)
  /\ (forall r, ctx = CtxLive -> port_view s1 sc id = Some r -> x = Ok r).
Proof.
  intros Hi Hr Hc. pose proof (port_inv_rtc _ _ Hi Hr) as Hi1.
  destruct (law_inspect _ _ _ _ _ _ Hi1 Hc) as (-> & ? & ?). done.
Qed.

Lemma cas_call ctx q s s1 s2 x :
  port_inv s -> rtc port_env s s1 -> port_CompareAndSwapRun ctx q s1 = (s2, x) ->
  port_inv s1 /\ port_inv s2 /\ rtc port_env s s2.
Proof.
  intros Hi Hr Hc. pose proof (port_inv_rtc _ _ Hi Hr) as Hi1. pose proof (law_cas_env _ _ _ _ _ Hc) as He.
  split; [done | split; [by eapply law_inv | by eapply rtc_r]].
Qed.

Lemma terminal_final r r' : run_Status r = RunTerminal -> rtc run_cas_step r r' -> r' = r.
Proof.
  intros Ht Hr. apply rtc_nsteps in Hr as [k Hk].
  pose proof (run_history_facts _ _ _ Hk) as (_ & _ & _ & _ & _ & _ & Hz).
  rewrite (Hz Ht) in Hk. by inversion Hk.
Qed.

(** A successful Finish returns the stored record, terminal with that outcome. *)
Lemma finish_stored ctx sc id outcome now s s' r :
  port_inv s -> exec (RunJournal_Finish ctx sc id outcome now) s s' (Ok r) ->
  port_inv s' /\ rtc port_env s s' /\ port_view s' sc id = Some r
  /\ run_Status r = RunTerminal /\ run_Outcome r = outcome.
Proof.
  intros Hi He. unfold RunJournal_Finish in He. exec_inv.
  match goal with E : port_InspectRun _ _ _ _ = _, R : rtc _ s _ |- _ =>
    destruct (inspect_call _ _ _ _ _ _ _ Hi R E) as (-> & Hi1 & Hv & _) end.
  destruct x as [current | e]; cbn [or_return] in *; [| by exec_inv].
  specialize (Hv _ eq_refl). unfold status_is in *. case_bool_decide as Ht.
  { by case_bool_decide; exec_inv. }
  destruct (negb _ && _); exec_inv.
  match goal with E : port_CompareAndSwapRun _ _ _ = _, R : rtc _ s1 _ |- _ =>
    destruct (cas_call _ _ _ _ _ _ Hi1 R E) as (Hi2 & Hi3 & Hr2);
    destruct (law_cas _ _ _ _ _ Hi2 E) as (-> & Hv' & _) end.
  destruct (law_record _ _ _ _ Hi1 Hv) as (Hsc & Hid & _).
  cbn [cas_of cas_Next with_status run_Scope run_ID] in Hv'. rewrite Hsc, Hid in Hv'.
  split; [done |]. split; [by etrans |]. done.
Qed.

(** C36: concurrent settlement is linearizable: whatever other clients do, and
    however the two executions overlap, if two calls of Finish for one run both
    succeed they report the same stored record, so the same outcome. *)
Theorem finish_agreement ctx1 ctx2 sc id o1 o2 n1 n2 s1 s1' s2 s2' r1 r2 :
  port_inv s1 -> port_inv s2 ->
  exec (RunJournal_Finish ctx1 sc id o1 n1) s1 s1' (Ok r1) ->
  exec (RunJournal_Finish ctx2 sc id o2 n2) s2 s2' (Ok r2) ->
  rtc port_env s1' s2' ->
  r2 = r1 /\ o2 = o1 /\ run_Status r1 = RunTerminal /\ run_Outcome r1 = o1.
Proof.
  intros Hi1 Hi2 H1 H2 Hr.
  destruct (finish_stored _ _ _ _ _ _ _ _ Hi1 H1) as (Hi1' & _ & V1 & T1 & O1).
  destruct (finish_stored _ _ _ _ _ _ _ _ Hi2 H2) as (_ & _ & V2 & _ & O2).
  destruct (law_stable_rtc _ _ _ _ _ Hi1' Hr V1) as (r & V & Hst).
  rewrite (terminal_final _ _ T1 Hst) in V. rewrite V2 in V. injection V as ->.
  split; [done | split; [congruence | done]].
Qed.

(** Settlement is idempotent and final: once the stored run is terminal, any
    execution of Finish with a live context returns it if the outcome is the
    stored one (which also covers a call whose own reply was lost) and otherwise
    reports a conflict, and the stored record stays as it is. *)
Theorem finish_idempotent sc id outcome now s s' r o :
  port_inv s -> port_view s sc id = Some r -> run_Status r = RunTerminal ->
  exec (RunJournal_Finish CtxLive sc id outcome now) s s' o ->
  port_view s' sc id = Some r
  /\ o = if bool_decide (run_Outcome r = outcome) then Ok r else fail ErrorConflict ReasonRunConflict.
Proof.
  intros Hi Hv Ht He. unfold RunJournal_Finish in He. exec_inv.
  match goal with E : port_InspectRun _ _ _ _ = _, R : rtc _ s _ |- _ =>
    destruct (inspect_call _ _ _ _ _ _ _ Hi R E) as (-> & Hi1 & _ & Hl);
    destruct (law_stable_rtc _ _ _ _ _ Hi R Hv) as (r' & Hv' & Hst) end.
  apply terminal_final in Hst as ->; [| done]. rewrite (Hl _ eq_refl Hv') in *. cbn [or_return] in *.
  unfold status_is in *. rewrite bool_decide_eq_true_2 in * by done.
  by case_bool_decide; exec_inv.
Qed.

(** A successful RecordCompletionClaim leaves the claim on the stored record. *)
Lemma claim_stored ctx sc id claim s s' r :
  port_inv s -> exec (RunJournal_RecordCompletionClaim ctx sc id claim) s s' (Ok r) ->
  port_inv s' /\ port_view s' sc id = Some r /\ run_CompletionClaim r = Some claim.
Proof.
  intros Hi He. unfold RunJournal_RecordCompletionClaim in He.
  destruct (RunCompletionClaim_Validate claim) as [u |]; [| by exec_inv]. exec_inv.
  match goal with E : port_InspectRun _ _ _ _ = _, R : rtc _ s _ |- _ =>
    destruct (inspect_call _ _ _ _ _ _ _ Hi R E) as (-> & Hi1 & Hv & _) end.
  destruct x as [current | e]; cbn [or_return] in *; [| by exec_inv].
  specialize (Hv _ eq_refl). destruct (run_CompletionClaim current) as [existing |] eqn:Ec.
  { case_bool_decide; exec_inv; done. }
  destruct (_ || _); exec_inv.
  match goal with E : port_CompareAndSwapRun _ _ _ = _, R : rtc _ s1 _ |- _ =>
    destruct (cas_call _ _ _ _ _ _ Hi1 R E) as (Hi2 & Hi3 & Hr2); pose proof E as Ecas end.
  destruct x as [n | e]; exec_inv.
  - destruct (law_cas _ _ _ _ _ Hi2 Ecas) as (-> & Hv' & _).
    destruct (law_record _ _ _ _ Hi1 Hv) as (Hsc & Hid & _).
    cbn [cas_of cas_Next with_status run_Scope run_ID] in Hv'. by rewrite Hsc, Hid in Hv'.
  - destruct (negb (HasReason e ReasonRevisionConflict)); exec_inv.
    match goal with E : port_InspectRun _ _ _ _ = (_, ?x), R : rtc _ ?a _ |- _ =>
      destruct (inspect_call _ _ _ a _ _ x ltac:(assumption) R E) as (-> & Hi4 & Hv4 & _) end.
    destruct x as [latest | e']; [| by exec_inv]. specialize (Hv4 _ eq_refl).
    by case_bool_decide; exec_inv.
Qed.

(** A run carries one claim: however two calls of RecordCompletionClaim for
    one run overlap with each other and with other clients, if both succeed they
    recorded the same claim. *)
Theorem claim_agreement ctx1 ctx2 sc id c1 c2 s1 s1' s2 s2' r1 r2 :
  port_inv s1 -> port_inv s2 ->
  exec (RunJournal_RecordCompletionClaim ctx1 sc id c1) s1 s1' (Ok r1) ->
  exec (RunJournal_RecordCompletionClaim ctx2 sc id c2) s2 s2' (Ok r2) ->
  rtc port_env s1' s2' ->
  c2 = c1 /\ run_CompletionClaim r1 = Some c1 /\ run_CompletionClaim r2 = Some c1.
Proof.
  intros Hi1 Hi2 H1 H2 Hr.
  destruct (claim_stored _ _ _ _ _ _ _ Hi1 H1) as (Hi1' & V1 & C1).
  destruct (claim_stored _ _ _ _ _ _ _ Hi2 H2) as (_ & V2 & C2).
  destruct (law_stable_rtc _ _ _ _ _ Hi1' Hr V1) as (r & V & Hst). rewrite V2 in V. injection V as <-.
  apply rtc_nsteps in Hst as [k Hk]. pose proof (run_history_facts _ _ _ Hk) as (_ & _ & _ & _ & Hcl & _).
  pose proof (Hcl _ C1). split; [congruence | split; congruence].
Qed.

(** A started run leaves no other active run behind. *)
Lemma start_exclusive ctx sc id session now s s' r :
  port_inv s -> exec (RunJournal_Start ctx sc id session now) s s' (Ok r) ->
  exists m, rtc port_env s m /\ port_view s' sc id = Some r
            /\ forall id' q, port_view m sc id' = Some q -> run_Status q = RunTerminal.
Proof.
  intros Hi He. unfold RunJournal_Start in He. exec_inv.
  match goal with E : port_CreateRun _ _ ?m = _, R : rtc _ s ?m |- _ =>
    destruct (law_create _ _ _ _ _ (port_inv_rtc _ _ Hi R) E) as (-> & Hv & Hx); exists m end.
  split; [done | split; [exact Hv | exact Hx]].
Qed.
End journal.

(** ** The fact store is a lawful port *)

#[export] Instance FactStore_port : RunFactPort FactStore := {|
  port_CreateRun := CreateRun;
  port_InspectRun := InspectRun;
  port_InspectActiveRun := InspectActiveRun;
  port_CompareAndSwapRun := CompareAndSwapRun;
  port_env := store_step;
|}.

Definition store_view (s : FactStore) (sc : ExecutionScope) (id : string) : option AgentRunRecord :=
  match fs_runs s !! runKey sc id with
  | Some r => if sameScope (run_Scope r) sc then Some r else None
  | None => None
  end.

Lemma store_view_Some s sc id r :
  store_view s sc id = Some r <-> fs_runs s !! runKey sc id = Some r /\ run_Scope r = sc.
Proof.
  unfold store_view. destruct (fs_runs s !! runKey sc id) as [q |]; [| by split; [| intros []]].
  destruct (sameScope (run_Scope q) sc) eqn:E.
  - apply sameScope_eq in E. split; [by intros [= ->] | by intros [[= ->] _]].
  - split; [done |]. intros [[= ->] Hs]. apply sameScope_eq in Hs. congruence.
Qed.

Lemma runKey_inj sc id1 id2 : runKey sc id1 = runKey sc id2 -> id1 = id2.
Proof. unfold runKey, slash. intros H. apply (inj (String.append _)) in H. by apply (inj (String.append _)) in H. Qed.

Lemma store_view_record s sc id r :
  runs_inv s -> store_view s sc id = Some r ->
  run_Scope r = sc /\ run_ID r = id /\ AgentRunRecord_Validate r = Ok tt.
Proof.
  intros Hi [Hk Hs]%store_view_Some. destruct (ri_record _ Hi _ _ Hk) as (E & Hv & _).
  split; [done | split; [| done]]. rewrite <- Hs in E. by apply runKey_inj in E.
Qed.

Lemma store_view_stable s s' sc id r :
  runs_inv s -> store_step s s' -> store_view s sc id = Some r ->
  exists r', store_view s' sc id = Some r' /\ rtc run_cas_step r r'.
Proof.
  intros Hi Hst [Hk Hs]%store_view_Some.
  destruct (run_history_record _ _ _ _ Hi (rtc_once _ _ Hst) Hk) as (r' & Hk' & Hr & _). exists r'.
  split; [| done]. apply store_view_Some. split; [done |].
  apply rtc_nsteps in Hr as [k Hr]. pose proof (run_history_facts _ _ _ Hr) as (_ & _ & -> & _). done.
Qed.

Lemma store_inspect ctx sc id s s' o :
  runs_inv s -> InspectRun ctx sc id s = (s', o) ->
  s' = s /\ (forall r, o = Ok r -> store_view s sc id = Some r)
  /\ (forall r, ctx = CtxLive -> store_view s sc id = Some r -> o = Ok r).
Proof.
  intros Hi H. split; [by eapply InspectRun_frame | split].
  - intros r E. unfold InspectRun in H. run_exec H; try done. go_ok. go_bool. rewrite cloneRun_id in *.
    apply store_view_Some. split; [done |]. by rewrite sameScope_eq in *.
  - intros r -> Hv. destruct (store_view_record _ _ _ _ Hi Hv) as (<- & <- & Hval).
    apply store_view_Some in Hv as [Hk _].
    rewrite InspectRun_present in H; [by injection H as _ <- | done |].
    unfold AgentRunRecord_Validate in Hval. by go_ok.
Qed.

Lemma store_inspect_active ctx sc s s' o :
  runs_inv s -> InspectActiveRun ctx sc s = (s', o) ->
  s' = s /\ (forall r, o = Ok r -> store_view s sc (run_ID r) = Some r /\ run_Status r <> RunTerminal).
Proof.
  intros Hi H. split; [by eapply InspectActiveRun_frame |].
  intros r E0. unfold InspectActiveRun in H. run_exec H; try done. go_ok. go_bool. rewrite cloneRun_id in *.
  match goal with E : fs_activeRuns _ !! _ = Some ?id, F : fs_runs _ !! _ = Some ?q |- _ =>
    destruct (ri_index _ Hi _ _ E) as (r0 & Hr0 & Hid & _ & Hnt); unfold runKey in F; rewrite F in Hr0;
    injection Hr0 as <- end.
  rewrite sameScope_eq in *. split; [| done]. apply store_view_Some. unfold runKey. rewrite Hid. done.
Qed.

Lemma store_create ctx r s s' r' :
  runs_inv s -> CreateRun ctx r s = (s', Ok r') ->
  r' = r /\ store_view s' (run_Scope r) (run_ID r) = Some r
  /\ (forall id q, store_view s (run_Scope r) id = Some q -> run_Status q = RunTerminal).
Proof.
  intros Hi H. destruct (CreateRun_cases _ _ _ _ _ H) as [[_ Ho] | (_ & _ & _ & Hn & Ha & -> & Ho)]; [done |].
  unfold run_reply, fail in Ho. destruct (fs_loseRunWriteReply s); [done |]. injection Ho as ->.
  split; [done | split].
  - apply store_view_Some. cbn [fs_runs set_lose set_runs]. by rewrite lookup_insert_eq.
  - intros id q [Hk Hs]%store_view_Some. destruct (decide (run_Status q = RunTerminal)) as [| Hnt]; [done |].
    pose proof (ri_active _ Hi _ _ Hk Hnt) as E. rewrite Hs in E. congruence.
Qed.

Lemma store_cas ctx q s s' n :
  runs_inv s -> CompareAndSwapRun ctx q s = (s', Ok n) ->
  n = cas_Next q /\ store_view s' (run_Scope n) (run_ID n) = Some n
  /\ exists cur, store_view s (run_Scope n) (run_ID n) = Some cur /\ run_step cur n.
Proof.
  intros Hi H. destruct (CompareAndSwapRun_cases _ _ _ _ _ H) as [[_ Ho] | (cur & Hc & _ & Hst & -> & Ho)]; [done |].
  unfold run_reply, fail in Ho. destruct (fs_loseRunWriteReply s); [done |]. injection Ho as ->.
  split; [done | split].
  - apply store_view_Some. cbn [fs_runs set_lose set_runs]. by rewrite lookup_insert_eq.
  - exists cur. split; [| done]. apply store_view_Some. split; [done |]. by destruct Hst.
Qed.

#[export] Instance FactStore_port_laws : RunFactPortLaws FactStore := {|
  port_inv := runs_inv;
  port_view := store_view;
  law_inv := runs_inv_step;
  law_record := store_view_record;
  law_stable := store_view_stable;
  law_create_env := do_CreateRun;
  law_cas_env := do_CompareAndSwapRun;
  law_inspect := store_inspect;
  law_inspect_active := store_inspect_active;
  law_create := store_create;
  law_cas := store_cas;
|}.

(** ** A run from start to settlement, over the store *)

Definition ex_sc_now (n : Z) : Time := {| instant := n; rep := 0 |}.
Definition ex_js1 : FactStore :=
  (CreateRun CtxLive {| run_ID := "run-1"; run_Scope := ex_scope; run_Status := RunRunning; run_Revision := 1;
       run_SessionRef := "session-1"; run_StartedAt := ex_sc_now 10; run_EndedAt := zeroTime;
       run_Outcome := OutcomeUnset; run_CompletionClaim := None |} NewFactStore).1.
Definition ex_js_record : AgentRunRecord :=
  {| run_ID := "run-1"; run_Scope := ex_scope; run_Status := RunTerminal; run_Revision := 2;
     run_SessionRef := "session-1"; run_StartedAt := ex_sc_now 10; run_EndedAt := ex_sc_now 30;
     run_Outcome := OutcomeCompleted; run_CompletionClaim := None |}.
Definition ex_js_claimed : AgentRunRecord :=
  {| run_ID := "run-1"; run_Scope := ex_scope; run_Status := RunRunning; run_Revision := 2;
     run_SessionRef := "session-1"; run_StartedAt := ex_sc_now 10; run_EndedAt := zeroTime;
     run_Outcome := OutcomeUnset; run_CompletionClaim := Some ex_claim |}.
Definition ex_js2 (next : AgentRunRecord) : FactStore :=
  (CompareAndSwapRun CtxLive {| cas_ExpectedRevision := 1; cas_Next := next |} ex_js1).1.

Lemma ex_js1_inv : runs_inv ex_js1.
Proof.
  apply runs_inv_reachable, rtc_once. eapply do_CreateRun. apply surjective_pairing.
Qed.
Lemma ex_js2_inv next : runs_inv (ex_js2 next).
Proof. eapply runs_inv_step; [apply ex_js1_inv |]. eapply do_CompareAndSwapRun. apply surjective_pairing. Qed.

Ltac run_call :=
  econstructor; [apply rtc_refl | vm_compute; reflexivity | cbn].

Lemma ex_first_finish :
  exec (RunJournal_Finish CtxLive ex_scope "run-1" OutcomeCompleted (ex_sc_now 30)) ex_js1 (ex_js2 ex_js_record)
    (Ok ex_js_record).
Proof. do 2 (econstructor; [apply rtc_refl | vm_compute; reflexivity |]). apply exec_return. Qed.

Lemma ex_second_finish :
  exec (RunJournal_Finish CtxLive ex_scope "run-1" OutcomeCompleted (ex_sc_now 40)) (ex_js2 ex_js_record)
    (ex_js2 ex_js_record) (Ok ex_js_record).
Proof. econstructor; [apply rtc_refl | vm_compute; reflexivity |]. apply exec_return. Qed.

Lemma finish_agreement_witness :
  exec (RunJournal_Finish CtxLive ex_scope "run-1" OutcomeCompleted (ex_sc_now 30)) ex_js1 (ex_js2 ex_js_record)
    (Ok ex_js_record)
  /\ run_Outcome ex_js_record = OutcomeCompleted.
Proof.
  split; [exact ex_first_finish |].
  exact (proj2 (proj2 (proj2 (finish_agreement _ _ _ _ _ _ _ _ _ _ _ _ _ _ ex_js1_inv (ex_js2_inv ex_js_record)
                                ex_first_finish ex_second_finish (rtc_refl _ _))))).
Defined.

Lemma finish_idempotent_witness :
  store_view (ex_js2 ex_js_record) ex_scope "run-1" = Some ex_js_record
  /\ exec (RunJournal_Finish CtxLive ex_scope "run-1" OutcomeCompleted (ex_sc_now 40)) (ex_js2 ex_js_record)
       (ex_js2 ex_js_record)
       (if bool_decide (run_Outcome ex_js_record = OutcomeCompleted) then Ok ex_js_record
        else fail ErrorConflict ReasonRunConflict).
Proof.
  assert (store_view (ex_js2 ex_js_record) ex_scope "run-1" = Some ex_js_record) as Hv by (vm_compute; reflexivity).
  split; [exact Hv |].
  destruct (finish_idempotent (H0 := FactStore_port_laws) ex_scope "run-1" OutcomeCompleted (ex_sc_now 40) _ _ _ _ (ex_js2_inv ex_js_record)
              Hv eq_refl ex_second_finish) as [_ E].
  rewrite <- E. exact ex_second_finish.
Defined.

Lemma ex_claim_run :
  exec (RunJournal_RecordCompletionClaim CtxLive ex_scope "run-1" ex_claim) ex_js1 (ex_js2 ex_js_claimed)
    (Ok ex_js_claimed).
Proof. do 2 (econstructor; [apply rtc_refl | vm_compute; reflexivity |]). apply exec_return. Qed.
Lemma ex_claim_again :
  exec (RunJournal_RecordCompletionClaim CtxLive ex_scope "run-1" ex_claim) (ex_js2 ex_js_claimed)
    (ex_js2 ex_js_claimed) (Ok ex_js_claimed).
Proof. econstructor; [apply rtc_refl | vm_compute; reflexivity |]. apply exec_return. Qed.

Lemma claim_agreement_witness :
  store_view (ex_js2 ex_js_claimed) ex_scope "run-1" = Some ex_js_claimed
  /\ run_CompletionClaim ex_js_claimed = Some ex_claim.
Proof.
  split; [vm_compute; reflexivity |].
  exact (proj2 (proj2 (claim_agreement _ _ _ _ _ _ _ _ _ _ _ _ ex_js1_inv (ex_js2_inv ex_js_claimed)
                         ex_claim_run ex_claim_again (rtc_refl _ _)))).
Defined.
