(* ===== verification/RunRegistry.v ===== *)
(** * kernel/run_registry.go

    The in-process registry that enforces one active run per instance.  Each
    method holds the mutex, so it is one atomic step. *)

From S2P Require Import Prelude GoStd Errors Identity State RunFact.

Record RunRegistry := {
  rr_records : gmap string AgentRunRecord;
  rr_active : gmap string string;
}.

Definition NewRunRegistry : RunRegistry := {| rr_records := ∅; rr_active := ∅ |}.

Definition runInstanceKey (scope : ExecutionScope) : string :=
  id_TenantID (sc_Identity scope) +:+ "/" +:+ id_ID (sc_Identity scope) +:+ "/" +:+ lin_ID (sc_Lineage scope)
  +:+ "/" +:+ inst_ID (sc_Instance scope) +:+ "/" +:+ FormatUint (inst_Epoch (sc_Instance scope)).

Definition present {A} (o : option A) : bool := match o with Some _ => true | None => false end.

Definition Registry_Start (scope : ExecutionScope) (runID sessionRef : string) (now : Time)
    : ST RunRegistry error AgentRunRecord :=
  st_lift (ExecutionScope_Validate scope) ;;
  st_guard (bool_decide (runID = "") || IsZero now) ErrorInvalidArgument ReasonInvalidReference ;;
  let key := runInstanceKey scope in
  s ← st_get ;
  st_guard (present (rr_active s !! key)) ErrorConflict ReasonRunConflict ;;
  st_guard (present (rr_records s !! runID)) ErrorConflict ReasonAlreadyExists ;;
  let record :=
    {| run_ID := runID; run_Scope := cloneScope scope; run_Status := RunRunning; run_Revision := 1;
       run_SessionRef := sessionRef; run_StartedAt := now; run_EndedAt := zeroTime;
       run_Outcome := OutcomeUnset; run_CompletionClaim := None |} in
  st_lift (AgentRunRecord_Validate record) ;;
  st_put {| rr_records := <[runID := record]> (rr_records s); rr_active := <[key := runID]> (rr_active s) |} ;;
  mret record.

(** The record Finish writes. *)
Definition finished_record (record : AgentRunRecord) (outcome : ExecutionOutcome) (now : Time) : AgentRunRecord :=
  {| run_ID := run_ID record; run_Scope := run_Scope record; run_Status := RunTerminal;
     run_Revision := u64_succ (run_Revision record); run_SessionRef := run_SessionRef record;
     run_StartedAt := run_StartedAt record; run_EndedAt := now; run_Outcome := outcome;
     run_CompletionClaim := run_CompletionClaim record |}.

Definition Registry_Finish (scope : ExecutionScope) (runID : string) (outcome : ExecutionOutcome) (now : Time)
    : ST RunRegistry error AgentRunRecord :=
  st_lift (ExecutionScope_Validate scope) ;;
  s ← st_get ;
  match rr_records s !! runID with
  | None => st_err ErrorNotFound ReasonInvalidReference
  | Some record =>
      st_guard (negb (sameScope (run_Scope record) scope)) ErrorNotFound ReasonInvalidReference ;;
      st_guard (negb (bool_decide (rr_active s !! runInstanceKey scope = Some runID))
                || status_is (run_Status record) RunTerminal) ErrorPreconditionFailed ReasonRunConflict ;;
      let record := finished_record record outcome now in
      st_lift (AgentRunRecord_Validate record) ;;
      st_put {| rr_records := <[runID := record]> (rr_records s);
                rr_active := delete (runInstanceKey scope) (rr_active s) |} ;;
      mret record
  end.

Definition Registry_Inspect (runID : string) : ST RunRegistry error AgentRunRecord :=
  s ← st_get ;
  match rr_records s !! runID with
  | None => st_err ErrorNotFound ReasonInvalidReference
  | Some record => mret record
  end.

Inductive registry_step : RunRegistry -> RunRegistry -> Prop :=
| reg_Start sc id session now s s' o : Registry_Start sc id session now s = (s', o) -> registry_step s s'
| reg_Finish sc id outcome now s s' o : Registry_Finish sc id outcome now s = (s', o) -> registry_step s s'
| reg_Inspect id s s' o : Registry_Inspect id s = (s', o) -> registry_step s s'.

(** ** The registry's abstract contract

    A run is registered once, runs, and ends once; an instance key is free or
    taken by the one run that is still running. *)
Record registry_inv (s : RunRegistry) : Prop := {
  rg_record : forall id r, rr_records s !! id = Some r ->
    run_ID r = id /\ AgentRunRecord_Validate r = Ok tt
    /\ ((run_Status r = RunRunning /\ run_Revision r = 1%N /\ run_CompletionClaim r = None)
        \/ (run_Status r = RunTerminal /\ run_Revision r = 2%N));
  rg_active : forall k id, rr_active s !! k = Some id <->
    exists r, rr_records s !! id = Some r /\ run_Status r = RunRunning /\ runInstanceKey (run_Scope r) = k;
}.

Lemma Start_cases sc id session now s s' o :
  Registry_Start sc id session now s = (s', o) ->
  (s' = s /\ is_ok o = false)
  \/ exists r, o = Ok r /\ AgentRunRecord_Validate r = Ok tt /\ run_ID r = id /\ run_Scope r = sc
       /\ run_Status r = RunRunning /\ run_Revision r = 1%N /\ run_CompletionClaim r = None
       /\ rr_active s !! runInstanceKey sc = None /\ rr_records s !! id = None
       /\ s' = {| rr_records := <[id := r]> (rr_records s);
                  rr_active := <[runInstanceKey sc := id]> (rr_active s) |}.
Proof.
  unfold Registry_Start, st_guard. cbn zeta. intros H. st_exec H; try (by left). right.
  rewrite cloneScope_id in *. go_ok. unfold present in *.
  destruct (rr_active s !! runInstanceKey sc) eqn:?, (rr_records s !! id) eqn:?; try done.
  eexists. split; [reflexivity |]. done.
Qed.

Lemma Finish_cases sc id outcome now s s' o :
  Registry_Finish sc id outcome now s = (s', o) ->
  (s' = s /\ is_ok o = false)
  \/ exists r, rr_records s !! id = Some r /\ run_Scope r = sc /\ run_Status r <> RunTerminal
       /\ rr_active s !! runInstanceKey sc = Some id
       /\ AgentRunRecord_Validate (finished_record r outcome now) = Ok tt
       /\ o = Ok (finished_record r outcome now)
       /\ s' = {| rr_records := <[id := finished_record r outcome now]> (rr_records s);
                  rr_active := delete (runInstanceKey sc) (rr_active s) |}.
Proof.
  unfold Registry_Finish, st_guard, st_err. intros H. st_exec H; try (by left). right.
  go_ok. unfold status_is in *. go_bool. rewrite sameScope_eq in *. destruct_and!. by eexists.
Qed.

Lemma registry_inv_step s s' : registry_inv s -> registry_step s s' -> registry_inv s'.
Proof.
  intros Hinv Hstep. destruct Hstep as [sc id session now a b o H | sc id outcome now a b o H | id a b o H];
    pose proof Hinv as [Hr Ha].
  - destruct (Start_cases _ _ _ _ _ _ _ H)
      as [[-> _] | (r & _ & Hv & Hid & Hsc & Hst & Hrev & Hcl & Hna & Hnr & ->)]; [done |].
    split; cbn.
    + intros i q [[<- <-] | [_ Hi]]%lookup_insert_Some; [| by apply Hr]. auto 10.
    + intros k i. rewrite lookup_insert_Some. split.
      * intros [[<- <-] | [Hne Hk]].
        -- exists r. rewrite lookup_insert_eq, Hsc. done.
        -- apply Ha in Hk as (q & Hq & ? & ?). exists q. rewrite lookup_insert_ne; [done |]. congruence.
      * intros (q & [[<- <-] | [Hne Hq]]%lookup_insert_Some & Hs & Hk); [left; by rewrite <- Hsc |].
        right. assert (rr_active a !! k = Some i) as E by (apply Ha; by exists q). split; [congruence | done].
  - destruct (Finish_cases _ _ _ _ _ _ _ H) as [[-> _] | (r & Hi & Hsc & Hnt & Hact & Hv & _ & ->)]; [done |].
    destruct (Hr _ _ Hi) as (Hid & _ & [(Hst & Hrev & _) | [? _]]); [| done].
    split; cbn.
    + intros i q [[<- <-] | [_ Hq]]%lookup_insert_Some; [| by apply Hr].
      split; [done | split; [done | right]]. cbn. by rewrite Hrev.
    + intros k i. rewrite lookup_delete_Some. split.
      * intros [Hne Hk]. apply Ha in Hk as (q & Hq & Hs & Hkey). exists q.
        rewrite lookup_insert_ne; [done |]. intros <-. rewrite Hi in Hq. injection Hq as <-. congruence.
      * intros (q & [[<- <-] | [Hne Hq]]%lookup_insert_Some & Hs & Hk); [done |].
        assert (rr_active a !! k = Some i) as E by (apply Ha; by exists q). split; [congruence | done].
  - unfold Registry_Inspect in H. st_unfold H. destruct (rr_records a !! id); by injection H as <- _.
Qed.

Lemma registry_inv_reachable s : rtc registry_step NewRunRegistry s -> registry_inv s.
Proof.
  intros H. assert (forall a, registry_inv a -> rtc registry_step a s -> registry_inv s) as G.
  { intros a Ha Hs. induction Hs; eauto using registry_inv_step. }
  apply (G NewRunRegistry); [| done]. split; cbn.
  - intros id r. by rewrite lookup_empty.
  - intros k id. rewrite lookup_empty. split; [done |]. intros (r & Hr & _). by rewrite lookup_empty in Hr.
Qed.

(** In every reachable registry the active index holds exactly the running
    runs under their instance keys, so an instance has at most one; and a
    running run can always be finished: with a valid outcome and a time that is
    not before its start, Finish succeeds, records it terminal and frees the
    instance. *)
Theorem registry_exclusive_and_live s id r outcome now :
  rtc registry_step NewRunRegistry s -> rr_records s !! id = Some r -> run_Status r = RunRunning ->
  (forall id' r', rr_records s !! id' = Some r' -> run_Status r' = RunRunning ->
     runInstanceKey (run_Scope r') = runInstanceKey (run_Scope r) -> id' = id)
  /\ (validExecutionOutcome outcome = true -> instant now <> 0%Z ->
      (instant (run_StartedAt r) <= instant now)%Z ->
      exists s', Registry_Finish (run_Scope r) id outcome now s = (s', Ok (finished_record r outcome now))
                 /\ rr_records s' !! id = Some (finished_record r outcome now)
                 /\ rr_active s' !! runInstanceKey (run_Scope r) = None).
Proof.
  intros Hs Hid Hst. destruct (registry_inv_reachable _ Hs) as [Hr Ha].
  assert (rr_active s !! runInstanceKey (run_Scope r) = Some id) as Hact by (apply Ha; by exists r).
  split.
  - intros id' r' Hid' Hst' Hk.
    assert (rr_active s !! runInstanceKey (run_Scope r') = Some id') as E by (apply Ha; by exists r').
    rewrite Hk in E. congruence.
  - intros Ho Hz Ht. destruct (Hr _ _ Hid) as (Hrid & Hv & [(_ & Hrev & Hcl) | [E _]]); [| congruence].
    assert (ExecutionScope_Validate (run_Scope r) = Ok tt) as Hsc.
    { unfold AgentRunRecord_Validate in Hv. by go_ok. }
    assert (AgentRunRecord_Validate (finished_record r outcome now) = Ok tt) as Hfin.
    { unfold AgentRunRecord_Validate in Hv |- *. rewrite Hst, Hcl in Hv. cbn. rewrite Hrev, Hcl, Ho, Hsc.
      rewrite !seq_Ok, !guard_Ok in Hv. destruct Hv as (H1 & _ & H2 & _). unfold IsZero, Before in *. go_bool.
      rewrite seq_guard_Ok, bind_Ok_l, seq_guard_Ok. go_bool. repeat split; try tauto; try lia; done. }
    exists {| rr_records := <[id := finished_record r outcome now]> (rr_records s);
              rr_active := delete (runInstanceKey (run_Scope r)) (rr_active s) |}.
    split; [| cbn [rr_records rr_active]; by rewrite lookup_insert_eq, lookup_delete_eq].
    unfold Registry_Finish, st_guard. st_go. rewrite Hsc, Hid, sameScope_refl, Hact. unfold status_is.
    rewrite Hst. go_decide. cbn [negb orb]. rewrite !guard_false, Hfin. reflexivity.
Qed.

Definition ex_reg_time (n : Z) : Time := {| instant := n; rep := 0 |}.
Definition ex_registry : RunRegistry := (Registry_Start ex_scope "run-1" "session-1" (ex_reg_time 10) NewRunRegistry).1.

Lemma registry_exclusive_and_live_witness :
  exists r s', rr_records ex_registry !! "run-1" = Some r
    /\ Registry_Finish ex_scope "run-1" OutcomeFailed (ex_reg_time 20) ex_registry
       = (s', Ok (finished_record r OutcomeFailed (ex_reg_time 20)))
    /\ rr_active s' !! runInstanceKey ex_scope = None.
Proof.
  assert (rtc registry_step NewRunRegistry ex_registry) as Hs.
  { apply rtc_once. eapply reg_Start. apply surjective_pairing. }
  destruct (rr_records ex_registry !! "run-1") as [r |] eqn:Hr; [| vm_compute in Hr; discriminate Hr].
  pose proof Hr as Hr'. vm_compute in Hr'. injection Hr' as E.
  assert (run_Status r = RunRunning) as Hst by (by rewrite <- E).
  destruct (registry_exclusive_and_live _ _ _ OutcomeFailed (ex_reg_time 20) Hs Hr Hst) as [_ H].
  destruct H as (s' & H1 & _ & H3); [reflexivity | discriminate | rewrite <- E; vm_compute; discriminate |].
  exists r, s'. split; [reflexivity |]. rewrite <- E in H1 at 1. rewrite <- E in H3. split; [exact H1 | exact H3].
Defined.
