(* ===== verification/Sha256.v ===== *)
(** * crypto/sha256 and the digests of core/digest.go and core/canonical.go

    An executable SHA-256 (FIPS 180-4) over bytes as [N], the digest functions
    built on it. *)

From S2P Require Import Prelude GoStd Errors Identity.
From Stdlib Require Import Ascii.

Local Open Scope N_scope.

(** ** sha256.Sum256 *)

Module Sha256.

Definition mask32 (x : N) : N := N.land x 4294967295.
Definition add32 (x y : N) : N := mask32 (x + y).
Definition rotr (n x : N) : N := N.lor (N.shiftr x n) (mask32 (N.shiftl x (32 - n))).
Definition not32 (x : N) : N := N.lxor x 4294967295.

Definition ch (x y z : N) : N := N.lxor (N.land x y) (N.land (not32 x) z).
Definition maj (x y z : N) : N := N.lxor (N.lxor (N.land x y) (N.land x z)) (N.land y z).
Definition bsig0 (x : N) : N := N.lxor (N.lxor (rotr 2 x) (rotr 13 x)) (rotr 22 x).
Definition bsig1 (x : N) : N := N.lxor (N.lxor (rotr 6 x) (rotr 11 x)) (rotr 25 x).
Definition ssig0 (x : N) : N := N.lxor (N.lxor (rotr 7 x) (rotr 18 x)) (N.shiftr x 3).
Definition ssig1 (x : N) : N := N.lxor (N.lxor (rotr 17 x) (rotr 19 x)) (N.shiftr x 10).

Definition K : list N :=
  [1116352408; 1899447441; 3049323471; 3921009573; 961987163; 1508970993; 2453635748; 2870763221;
   3624381080; 310598401; 607225278; 1426881987; 1925078388; 2162078206; 2614888103; 3248222580;
   3835390401; 4022224774; 264347078; 604807628; 770255983; 1249150122; 1555081692; 1996064986;
   2554220882; 2821834349; 2952996808; 3210313671; 3336571891; 3584528711; 113926993; 338241895;
   666307205; 773529912; 1294757372; 1396182291; 1695183700; 1986661051; 2177026350; 2456956037;
   2730485921; 2820302411; 3259730800; 3345764771; 3516065817; 3600352804; 4094571909; 275423344;
   430227734; 506948616; 659060556; 883997877; 958139571; 1322822218; 1537002063; 1747873779;
   1955562222; 2024104815; 2227730452; 2361852424; 2428436474; 2756734187; 3204031479; 3329325298].

Record hash := mkHash { ha : N; hb : N; hc : N; hd : N; he : N; hf : N; hg : N; hh : N }.

Definition H0 : hash :=
  mkHash 1779033703 3144134277 1013904242 2773480762 1359893119 2600822924 528734635 1541459225.

Definition round (s : hash) (kw : N * N) : hash :=
  let t1 := add32 (add32 (add32 (add32 (hh s) (bsig1 (he s))) (ch (he s) (hf s) (hg s))) (fst kw)) (snd kw) in
  let t2 := add32 (bsig0 (ha s)) (maj (ha s) (hb s) (hc s)) in
  mkHash (add32 t1 t2) (ha s) (hb s) (hc s) (add32 (hd s) t1) (he s) (hf s) (hg s).

(** The message schedule; the newest word is the head of the window. *)
Fixpoint schedule (n : nat) (window : list N) : list N :=
  match n with
  | O => []
  | S n' =>
      let w := add32 (add32 (add32 (ssig1 (nth 1 window 0)) (nth 6 window 0)) (ssig0 (nth 14 window 0)))
                     (nth 15 window 0) in
      w :: schedule n' (w :: firstn 15 window)
  end.

Definition words (block : list N) : list N :=
  (fix go (n : nat) (l : list N) : list N :=
     match n, l with
     | S n', a :: b :: c :: d :: r => (16777216 * a + 65536 * b + 256 * c + d) :: go n' r
     | _, _ => []
     end) 16%nat block.

Definition compress (s : hash) (block : list N) : hash :=
  let w0 := words block in
  let w := (w0 ++ schedule 48 (rev w0))%list in
  let r := foldl round s (combine K w) in
  mkHash (add32 (ha s) (ha r)) (add32 (hb s) (hb r)) (add32 (hc s) (hc r)) (add32 (hd s) (hd r))
         (add32 (he s) (he r)) (add32 (hf s) (hf r)) (add32 (hg s) (hg r)) (add32 (hh s) (hh r)).

(** Big-endian bytes of a word, most significant first. *)
Fixpoint be_bytes (n : nat) (x : N) : list N :=
  match n with
  | O => []
  | S n' => (be_bytes n' (x / 256) ++ [x mod 256])%list
  end.

Definition pad (msg : list N) : list N :=
  let len := N.of_nat (length msg) in
  let zeros := N.to_nat ((119 - len mod 64) mod 64) in
  (msg ++ 128 :: repeat 0 zeros ++ be_bytes 8 (8 * len))%list.

Fixpoint blocks (fuel : nat) (l : list N) : list (list N) :=
  match fuel, l with
  | S fuel', _ :: _ => firstn 64 l :: blocks fuel' (skipn 64 l)
  | _, _ => []
  end.

Definition Sum256 (msg : list N) : list N :=
  let p := pad msg in
  let s := foldl compress H0 (blocks (length p) p) in
  (be_bytes 4 (ha s) ++ be_bytes 4 (hb s) ++ be_bytes 4 (hc s) ++ be_bytes 4 (hd s)
   ++ be_bytes 4 (he s) ++ be_bytes 4 (hf s) ++ be_bytes 4 (hg s) ++ be_bytes 4 (hh s))%list.

Lemma be_bytes_length n x : length (be_bytes n x) = n.
Proof. revert x; induction n as [| n IH]; intros x; cbn; [done |]. rewrite length_app, IH. cbn. lia. Qed.

Lemma be_bytes_bytes n x : Forall is_byte (be_bytes n x).
Proof.
  revert x; induction n as [| n IH]; intros x; cbn; [constructor |].
  apply Forall_app. split; [apply IH |]. constructor; [| constructor]. by apply N.mod_lt.
Qed.

Lemma Sum256_length msg : length (Sum256 msg) = 32%nat.
Proof. unfold Sum256. by rewrite !length_app, !be_bytes_length. Qed.

Lemma Sum256_bytes msg : Forall is_byte (Sum256 msg).
Proof. unfold Sum256. rewrite !Forall_app. repeat split; apply be_bytes_bytes. Qed.

End Sha256.

Definition codes (s : string) : list N := map N_of_ascii (bytes s).

Definition hex_digest (msg : list N) : Digest :=
  of_bytes (bytes "sha256:" ++ hex_encode (Sha256.Sum256 msg))%list.

(** The FIPS test vectors. *)
Example sha256_empty :
  hex_digest [] = "sha256:e3b0c44298fc1c149afbf4c8996fb92427ae41e4649b934ca495991b7852b855".
Proof. vm_compute; reflexivity. Qed.
Example sha256_abc :
  hex_digest (codes "abc") = "sha256:ba7816bf8f01cfea414140de5dae2223b00361a396177a9cb410ff61f20015ad".
Proof. vm_compute; reflexivity. Qed.
Example sha256_two_blocks :
  hex_digest (codes "abcdbcdecdefdefgefghfghighijhijkijkljklmklmnlmnomnopnopq")
  = "sha256:248d6a61d20638b8e5c026930c3e6039a33ce45964ff2167f6ecedd419db06c1".
Proof. vm_compute; reflexivity. Qed.

Lemma hex_digest_valid msg : Digest_Validate (hex_digest msg) = Ok tt.
Proof.
  unfold Digest_Validate, hex_digest. rewrite bytes_of_bytes, strip_prefix_app.
  rewrite hex_decode_encode by apply Sha256.Sum256_bytes. by rewrite Sha256.Sum256_length.
Qed.

#[global] Arguments hex_digest : simpl never.
#[global] Arguments Sha256.Sum256 : simpl never.
