(* ===== verification/Supervision.v ===== *)
(** * kernel/supervision.go

    Supervision of a running instance: the reviewed policy and its digest, the
    persisted record, the pure evaluation of what is due, and the transition on
    an observed signal.  Durations are int64 nanoseconds and are wrapped where
    the code adds or doubles them. *)

From S2P Require Import Prelude GoStd Errors Identity Sha256.

Local Open Scope Z_scope.

(** ** Policy *)

Inductive SupervisionMode :=
| SupervisionNormal | SupervisionBackoff | SupervisionQuarantined | SupervisionFenced
| SupervisionModeOther (raw : string).
#[export] Instance SupervisionMode_eq_dec : EqDecision SupervisionMode.
Proof. solve_decision. Defined.

Inductive SupervisionAction :=
| SupervisionNone | SupervisionInspect | SupervisionRenewLease | SupervisionQuarantine
| SupervisionFenceAndStop.
#[export] Instance SupervisionAction_eq_dec : EqDecision SupervisionAction.
Proof. solve_decision. Defined.

Record SupervisionPolicy := {
  InspectionInterval : Duration;
  LeaseRenewLeadTime : Duration;
  RetryBaseDelay : Duration;
  RetryMaxDelay : Duration;
  DeterministicSpread : Duration;
  MaxConsecutiveFailures : N;
}.
#[export] Instance SupervisionPolicy_eq_dec : EqDecision SupervisionPolicy.
Proof. solve_decision. Defined.

Definition SupervisionPolicy_Validate (p : SupervisionPolicy) : result unit :=
  guard ((InspectionInterval p <=? 0) || (LeaseRenewLeadTime p <=? 0) || (RetryBaseDelay p <=? 0)
         || (RetryMaxDelay p <? RetryBaseDelay p) || N.eqb (MaxConsecutiveFailures p) 0)
    ErrorInvalidArgument ReasonSupervisionPolicyMissing ;;
  guard ((DeterministicSpread p <? 0) || (InspectionInterval p <? DeterministicSpread p))
    ErrorInvalidArgument ReasonSupervisionPolicyMissing.

(** encoding/json on the struct, its tags in declaration order; a Duration is
    a JSON number. *)
Definition json_field (name : string) (value : string) : string :=
  String (Ascii.ascii_of_nat 34) (name +:+ String (Ascii.ascii_of_nat 34) (":" +:+ value)).
Definition policy_json (p : SupervisionPolicy) : string :=
  "{" +:+ json_field "inspection_interval" (pretty (InspectionInterval p))
  +:+ "," +:+ json_field "lease_renew_lead_time" (pretty (LeaseRenewLeadTime p))
  +:+ "," +:+ json_field "retry_base_delay" (pretty (RetryBaseDelay p))
  +:+ "," +:+ json_field "retry_max_delay" (pretty (RetryMaxDelay p))
  +:+ "," +:+ json_field "deterministic_spread" (pretty (DeterministicSpread p))
  +:+ "," +:+ json_field "max_consecutive_failures" (FormatUint (MaxConsecutiveFailures p)) +:+ "}".

Definition SupervisionPolicy_Digest (p : SupervisionPolicy) : result Digest :=
  SupervisionPolicy_Validate p ;;
  Ok (hex_digest (codes (policy_json p))).

Definition validateSupervisionPolicyBinding (want : Digest) (policy : SupervisionPolicy) : result unit :=
  got ← SupervisionPolicy_Digest policy;
  guard (negb (bool_decide (got = want))) ErrorPreconditionFailed ReasonSupervisionPolicyDrift.

(** ** Record *)

Record SupervisionRecord := {
  sr_Scope : ExecutionScope;
  sr_PolicyDigest : Digest;
  sr_Mode : SupervisionMode;
  sr_ConsecutiveFailures : N;
  sr_LastSuccessfulInspectAt : Time;
  sr_NextActionAt : Time;
  sr_IdentityLeaseExpiresAt : Time;
  sr_UpdatedAt : Time;
  sr_Revision : N;
}.
#[export] Instance SupervisionRecord_eq_dec : EqDecision SupervisionRecord.
Proof. solve_decision. Defined.

Definition mode_is (r : SupervisionRecord) (m : SupervisionMode) : bool := bool_decide (sr_Mode r = m).

Definition SupervisionRecord_Validate (r : SupervisionRecord) : result unit :=
  ExecutionScope_Validate (sr_Scope r) ;;
  guard (bool_decide (sc_SandboxLease (sr_Scope r) = None) || N.eqb (sr_Revision r) 0
         || IsZero (sr_LastSuccessfulInspectAt r) || IsZero (sr_NextActionAt r)
         || IsZero (sr_IdentityLeaseExpiresAt r) || IsZero (sr_UpdatedAt r)
         || Before (sr_UpdatedAt r) (sr_LastSuccessfulInspectAt r))
    ErrorInvalidArgument ReasonInvalidReference ;;
  Digest_Validate (sr_PolicyDigest r) ;;
  match sr_Mode r with
  | SupervisionNormal =>
      guard (negb (N.eqb (sr_ConsecutiveFailures r) 0)) ErrorPreconditionFailed ReasonInvalidState
  | SupervisionBackoff =>
      guard (N.eqb (sr_ConsecutiveFailures r) 0) ErrorPreconditionFailed ReasonInvalidState
  | SupervisionQuarantined | SupervisionFenced => Ok tt
  | SupervisionModeOther _ => fail ErrorInvalidArgument ReasonInvalidState
  end.

(** ** Delays *)

(** binary.BigEndian.Uint64 *)
Definition be_value (l : list N) : N := foldl (fun acc b => (256 * acc + b)%N) 0%N l.

Definition deterministicSpread (record : SupervisionRecord) (window : Duration) : Duration :=
  if window <=? 0 then 0
  else
    let payload :=
      id_TenantID (sc_Identity (sr_Scope record)) +:+ "/" +:+ id_ID (sc_Identity (sr_Scope record))
      +:+ "/" +:+ inst_ID (sc_Instance (sr_Scope record)) +:+ "/" +:+ sr_PolicyDigest record in
    let digest := Sha256.Sum256 (codes payload) in
    Z.of_N (be_value (firstn 8 digest) mod Z.to_N window)%N.

Definition nextInspection (record : SupervisionRecord) (now : Time) (policy : SupervisionPolicy) : Time :=
  AddDuration now
    (wrap_i64 (InspectionInterval policy + deterministicSpread record (DeterministicSpread policy))).

(** The doubling loop of retryDelay, `for count < failures && delay < max`. *)
Fixpoint retry_loop (fuel : nat) (limit : Duration) (failures count : N) (delay : Duration) : Duration :=
  match fuel with
  | O => delay
  | S fuel' =>
      if (count <? failures)%N && (delay <? limit)
      then if Z.quot limit 2 <? delay then limit
           else retry_loop fuel' limit failures (wrap32 (count + 1)) (wrap_i64 (delay * 2))
      else delay
  end.

(** The delay doubles and stays below an int64: 64 rounds are enough, see
    [retry_loop_closed]. *)
Definition retry_fuel : nat := 64.

Definition retryDelay (record : SupervisionRecord) (policy : SupervisionPolicy) : Duration :=
  let delay := retry_loop retry_fuel (RetryMaxDelay policy) (sr_ConsecutiveFailures record) 1
                 (RetryBaseDelay policy) in
  let delay := if RetryMaxDelay policy <? delay then RetryMaxDelay policy else delay in
  let spread := deterministicSpread record (DeterministicSpread policy) in
  if wrap_i64 (RetryMaxDelay policy - delay) <? spread then RetryMaxDelay policy
  else wrap_i64 (delay + spread).

Definition saturatingIncrement (value : N) : N :=
  if N.eqb value 4294967295 then value else wrap32 (value + 1).

(** ** Creation *)

Definition NewSupervisionRecord (scope : ExecutionScope) (policyDigest : Digest)
    (leaseExpiresAt now : Time) (policy : SupervisionPolicy) : result SupervisionRecord :=
  ExecutionScope_Validate scope ;;
  guard (bool_decide (sc_SandboxLease scope = None)) ErrorPreconditionFailed ReasonInvalidReference ;;
  Digest_Validate policyDigest ;;
  validateSupervisionPolicyBinding policyDigest policy ;;
  guard (IsZero now || negb (After leaseExpiresAt (AddDuration now (LeaseRenewLeadTime policy))))
    ErrorPreconditionFailed ReasonIdentityLeaseStateInvalid ;;
  let record :=
    {| sr_Scope := scope; sr_PolicyDigest := policyDigest; sr_Mode := SupervisionNormal;
       sr_ConsecutiveFailures := 0; sr_LastSuccessfulInspectAt := now; sr_NextActionAt := zeroTime;
       sr_IdentityLeaseExpiresAt := leaseExpiresAt; sr_UpdatedAt := now; sr_Revision := 1 |} in
  Ok {| sr_Scope := scope; sr_PolicyDigest := policyDigest; sr_Mode := SupervisionNormal;
        sr_ConsecutiveFailures := 0; sr_LastSuccessfulInspectAt := now;
        sr_NextActionAt := nextInspection record now policy;
        sr_IdentityLeaseExpiresAt := leaseExpiresAt; sr_UpdatedAt := now; sr_Revision := 1 |}.

(** ** Evaluation *)

Record SupervisionDecision := {
  sd_Action : SupervisionAction;
  sd_AutomaticSafe : bool;
  sd_Reason : string;
}.
#[export] Instance SupervisionDecision_eq_dec : EqDecision SupervisionDecision.
Proof. solve_decision. Defined.

Definition supervisionDecision (action : SupervisionAction) (automatic : bool) (reason : string)
  : SupervisionDecision :=
  {| sd_Action := action; sd_AutomaticSafe := automatic; sd_Reason := reason |}.

Definition EvaluateSupervision (record : SupervisionRecord) (now : Time) (policy : SupervisionPolicy)
  : result SupervisionDecision :=
  SupervisionRecord_Validate record ;;
  validateSupervisionPolicyBinding (sr_PolicyDigest record) policy ;;
  guard (IsZero now) ErrorInvalidArgument ReasonInvalidReference ;;
  if mode_is record SupervisionFenced
  then Ok (supervisionDecision SupervisionNone true "instance is already fenced")
  else if negb (Before now (sr_IdentityLeaseExpiresAt record))
  then Ok (supervisionDecision SupervisionFenceAndStop true "identity execution lease has expired")
  else if negb (Before now (AddDuration (sr_IdentityLeaseExpiresAt record) (- LeaseRenewLeadTime policy)))
  then Ok (supervisionDecision SupervisionRenewLease true
             "identity execution lease entered its explicit renewal window")
  else if mode_is record SupervisionQuarantined
  then if negb (Before now (sr_NextActionAt record))
       then Ok (supervisionDecision SupervisionInspect false
                  "quarantined state requires authoritative inspection")
       else Ok (supervisionDecision SupervisionNone true "quarantine inspection is backoff-limited")
  else if negb (Before now (sr_NextActionAt record))
  then Ok (supervisionDecision SupervisionInspect true "scheduled health inspection is due")
  else Ok (supervisionDecision SupervisionNone true "no supervision action is due").

(** ** Signals *)

Inductive SupervisionSignal :=
| SignalHealthy | SignalTransientFailure | SignalStateUnknown | SignalLeaseRenewed
| SignalLeaseRevisionStale | SignalAuthorityRevoked | SignalLeaseExpired
| SignalOther (raw : string).
#[export] Instance SupervisionSignal_eq_dec : EqDecision SupervisionSignal.
Proof. solve_decision. Defined.

Record SupervisionUpdate := {
  su_Signal : SupervisionSignal;
  su_ObservedAt : Time;
  su_NewLeaseExpiresAt : Time;
}.

(** Field updates on the copy `next := record`. *)
Definition set_sup_mode (m : SupervisionMode) (r : SupervisionRecord) : SupervisionRecord :=
  {| sr_Scope := sr_Scope r; sr_PolicyDigest := sr_PolicyDigest r; sr_Mode := m;
     sr_ConsecutiveFailures := sr_ConsecutiveFailures r;
     sr_LastSuccessfulInspectAt := sr_LastSuccessfulInspectAt r; sr_NextActionAt := sr_NextActionAt r;
     sr_IdentityLeaseExpiresAt := sr_IdentityLeaseExpiresAt r; sr_UpdatedAt := sr_UpdatedAt r;
     sr_Revision := sr_Revision r |}.
Definition set_sup_failures (n : N) (r : SupervisionRecord) : SupervisionRecord :=
  {| sr_Scope := sr_Scope r; sr_PolicyDigest := sr_PolicyDigest r; sr_Mode := sr_Mode r;
     sr_ConsecutiveFailures := n;
     sr_LastSuccessfulInspectAt := sr_LastSuccessfulInspectAt r; sr_NextActionAt := sr_NextActionAt r;
     sr_IdentityLeaseExpiresAt := sr_IdentityLeaseExpiresAt r; sr_UpdatedAt := sr_UpdatedAt r;
     sr_Revision := sr_Revision r |}.
Definition set_sup_inspected (t : Time) (r : SupervisionRecord) : SupervisionRecord :=
  {| sr_Scope := sr_Scope r; sr_PolicyDigest := sr_PolicyDigest r; sr_Mode := sr_Mode r;
     sr_ConsecutiveFailures := sr_ConsecutiveFailures r;
     sr_LastSuccessfulInspectAt := t; sr_NextActionAt := sr_NextActionAt r;
     sr_IdentityLeaseExpiresAt := sr_IdentityLeaseExpiresAt r; sr_UpdatedAt := sr_UpdatedAt r;
     sr_Revision := sr_Revision r |}.
Definition set_sup_next (t : Time) (r : SupervisionRecord) : SupervisionRecord :=
  {| sr_Scope := sr_Scope r; sr_PolicyDigest := sr_PolicyDigest r; sr_Mode := sr_Mode r;
     sr_ConsecutiveFailures := sr_ConsecutiveFailures r;
     sr_LastSuccessfulInspectAt := sr_LastSuccessfulInspectAt r; sr_NextActionAt := t;
     sr_IdentityLeaseExpiresAt := sr_IdentityLeaseExpiresAt r; sr_UpdatedAt := sr_UpdatedAt r;
     sr_Revision := sr_Revision r |}.
Definition set_sup_expiry (t : Time) (r : SupervisionRecord) : SupervisionRecord :=
  {| sr_Scope := sr_Scope r; sr_PolicyDigest := sr_PolicyDigest r; sr_Mode := sr_Mode r;
     sr_ConsecutiveFailures := sr_ConsecutiveFailures r;
     sr_LastSuccessfulInspectAt := sr_LastSuccessfulInspectAt r; sr_NextActionAt := sr_NextActionAt r;
     sr_IdentityLeaseExpiresAt := t; sr_UpdatedAt := sr_UpdatedAt r;
     sr_Revision := sr_Revision r |}.
(** `next.Revision++; next.UpdatedAt = update.ObservedAt` *)
Definition bump_sup (t : Time) (r : SupervisionRecord) : SupervisionRecord :=
  {| sr_Scope := sr_Scope r; sr_PolicyDigest := sr_PolicyDigest r; sr_Mode := sr_Mode r;
     sr_ConsecutiveFailures := sr_ConsecutiveFailures r;
     sr_LastSuccessfulInspectAt := sr_LastSuccessfulInspectAt r; sr_NextActionAt := sr_NextActionAt r;
     sr_IdentityLeaseExpiresAt := sr_IdentityLeaseExpiresAt r; sr_UpdatedAt := t;
     sr_Revision := u64_succ (sr_Revision r) |}.

(** `update.Signal != SignalAuthorityRevoked && update.Signal != SignalLeaseExpired` *)
Definition not_fencing (u : SupervisionUpdate) : bool :=
  negb (bool_decide (su_Signal u = SignalAuthorityRevoked))
  && negb (bool_decide (su_Signal u = SignalLeaseExpired)).

Definition ApplySupervisionUpdate (record : SupervisionRecord) (update : SupervisionUpdate)
    (policy : SupervisionPolicy) : result (SupervisionRecord * SupervisionDecision) :=
  SupervisionRecord_Validate record ;;
  validateSupervisionPolicyBinding (sr_PolicyDigest record) policy ;;
  guard (IsZero (su_ObservedAt update)) ErrorInvalidArgument ReasonInvalidReference ;;
  guard (Before (su_ObservedAt update) (sr_UpdatedAt record))
    ErrorPreconditionFailed ReasonLateSupervisionSignal ;;
  guard (mode_is record SupervisionFenced && not_fencing update)
    ErrorPreconditionFailed ReasonFencedInstance ;;
  guard (negb (Before (su_ObservedAt update) (sr_IdentityLeaseExpiresAt record)) && not_fencing update)
    ErrorPreconditionFailed ReasonIdentityLeaseStateInvalid ;;
  let at_ := su_ObservedAt update in
  let next := bump_sup at_ record in
  match su_Signal update with
  | SignalHealthy =>
      let next := set_sup_inspected at_ (set_sup_failures 0 (set_sup_mode SupervisionNormal next)) in
      Ok (set_sup_next (nextInspection next at_ policy) next,
          supervisionDecision SupervisionNone true "health evidence restored normal supervision")
  | SignalTransientFailure =>
      let next := set_sup_failures (saturatingIncrement (sr_ConsecutiveFailures next)) next in
      let next := set_sup_next (AddDuration at_ (retryDelay next policy)) next in
      if (MaxConsecutiveFailures policy <=? sr_ConsecutiveFailures next)%N
      then Ok (set_sup_mode SupervisionQuarantined next,
               supervisionDecision SupervisionQuarantine true
                 "bounded transient failure budget was exhausted")
      else Ok (set_sup_mode SupervisionBackoff next,
               supervisionDecision SupervisionNone true
                 "transient failure entered bounded exponential backoff")
  | SignalStateUnknown =>
      let next := set_sup_mode SupervisionQuarantined next in
      let next := set_sup_failures (saturatingIncrement (sr_ConsecutiveFailures next)) next in
      Ok (set_sup_next (AddDuration at_ (retryDelay next policy)) next,
          supervisionDecision SupervisionQuarantine true
            "component state is unknown and cannot advance lifecycle")
  | SignalLeaseRenewed =>
      guard (negb (After (su_NewLeaseExpiresAt update) (AddDuration at_ (LeaseRenewLeadTime policy))))
        ErrorPreconditionFailed ReasonIdentityLeaseStateInvalid ;;
      let next := set_sup_expiry (su_NewLeaseExpiresAt update) next in
      Ok (set_sup_next (nextInspection next at_ policy) next,
          supervisionDecision SupervisionNone true "lease renewal was authoritatively confirmed")
  | SignalLeaseRevisionStale =>
      Ok (set_sup_next at_ (set_sup_mode SupervisionQuarantined next),
          supervisionDecision SupervisionInspect false
            "stale lease revision must inspect the linearized fact before retry")
  | SignalAuthorityRevoked | SignalLeaseExpired =>
      Ok (set_sup_next at_ (set_sup_mode SupervisionFenced next),
          supervisionDecision SupervisionFenceAndStop true "execution authority is no longer valid")
  | SignalOther _ => fail ErrorInvalidArgument ReasonInvalidState
  end.

(** ** Lemmas on the delays *)

#[global] Arguments Z.pow : simpl never.
#[global] Arguments policy_json : simpl never.
#[global] Arguments nextInspection : simpl never.

(** Every duration of the policy is an int64 and the failure budget a uint32:
    what the Go types say. *)
Definition policy_typed (p : SupervisionPolicy) : Prop :=
  is_i64 (InspectionInterval p) /\ is_i64 (LeaseRenewLeadTime p) /\ is_i64 (RetryBaseDelay p)
  /\ is_i64 (RetryMaxDelay p) /\ is_i64 (DeterministicSpread p) /\ is_u32 (MaxConsecutiveFailures p).

Lemma SupervisionPolicy_Validate_Ok p u :
  SupervisionPolicy_Validate p = Ok u <->
  0 < InspectionInterval p /\ 0 < LeaseRenewLeadTime p /\ 0 < RetryBaseDelay p
  /\ RetryBaseDelay p <= RetryMaxDelay p /\ (0 < MaxConsecutiveFailures p)%N
  /\ 0 <= DeterministicSpread p <= InspectionInterval p.
Proof.
  unfold SupervisionPolicy_Validate. rewrite seq_guard_Ok, guard_Ok, !orb_false_iff. go_bool. lia.
Qed.

Lemma binding_valid want p u :
  validateSupervisionPolicyBinding want p = Ok u -> SupervisionPolicy_Validate p = Ok tt.
Proof. unfold validateSupervisionPolicyBinding, SupervisionPolicy_Digest. intros H. by go_ok. Qed.

Lemma spread_range r window :
  deterministicSpread r window = 0 \/ 0 <= deterministicSpread r window < window.
Proof.
  unfold deterministicSpread. destruct (Z.leb_spec window 0); [by left | right].
  generalize (be_value (firstn 8 (Sha256.Sum256 (codes
    (id_TenantID (sc_Identity (sr_Scope r)) +:+ "/" +:+ id_ID (sc_Identity (sr_Scope r))
      +:+ "/" +:+ inst_ID (sc_Instance (sr_Scope r)) +:+ "/" +:+ sr_PolicyDigest r))))).
  unfold Duration in *. intros v. pose proof (N.mod_lt v (Z.to_N window) ltac:(lia)) as Hm.
  revert Hm. generalize (v mod Z.to_N window)%N. lia.
Qed.

Lemma spread_bounds r p :
  SupervisionPolicy_Validate p = Ok tt ->
  0 <= deterministicSpread r (DeterministicSpread p) <= DeterministicSpread p.
Proof.
  rewrite SupervisionPolicy_Validate_Ok. intros. destruct (spread_range r (DeterministicSpread p)); lia.
Qed.

(** The doubling loop computes the truncated power whenever its fuel outlasts
    the doublings. *)
Lemma retry_loop_closed fuel limit failures count delay :
  is_u32 failures -> is_i64 limit -> 0 < delay <= limit -> (1 <= count)%N ->
  limit < delay * 2 ^ Z.of_nat fuel ->
  retry_loop fuel limit failures count delay
  = Z.min limit (delay * 2 ^ (Z.of_N failures - Z.of_N (N.min count failures))).
Proof.
  intros Hf Hl. revert count delay. induction fuel as [| fuel IH]; intros count delay Hd Hc Hlim.
  { change (2 ^ Z.of_nat 0) with 1 in Hlim. lia. }
  cbn [retry_loop]. destruct (N.ltb_spec count failures) as [Hlt | Hge]; cbn [andb].
  2:{ replace (N.min count failures) with failures by lia. rewrite Z.sub_diag. change (2 ^ 0) with 1. lia. }
  replace (N.min count failures) with count by lia.
  assert (2 ^ (Z.of_N failures - Z.of_N count) = 2 * 2 ^ (Z.of_N failures - Z.of_N (count + 1))) as Hp.
  { rewrite <- Z.pow_succ_r by lia. f_equal. lia. }
  pose proof (Z.pow_pos_nonneg 2 (Z.of_N failures - Z.of_N (count + 1)) ltac:(lia) ltac:(lia)) as Hpos.
  destruct (Z.ltb_spec delay limit) as [Hdl | Hdl]; [| rewrite Hp; nia].
  pose proof (Z.quot_rem' limit 2) as Hq. pose proof (Z.rem_bound_pos limit 2 ltac:(lia) ltac:(lia)) as Hr.
  destruct (Z.ltb_spec (Z.quot limit 2) delay) as [Hh | Hh]; [rewrite Hp; nia |].
  unfold is_u32, u32_modulus in Hf. unfold is_i64, i64_half in Hl.
  rewrite wrap_i64_id by (unfold is_i64, i64_half; lia).
  unfold wrap32. rewrite N.mod_small by (unfold u32_modulus; lia).
  rewrite Nat2Z.inj_succ, Z.pow_succ_r in Hlim by lia.
  rewrite IH by lia. replace (N.min (count + 1) failures) with (count + 1)%N by lia. rewrite Hp. f_equal. ring.
Qed.

Lemma retry_fuel_enough delay limit : is_i64 limit -> 0 < delay -> limit < delay * 2 ^ Z.of_nat retry_fuel.
Proof. unfold is_i64, i64_half, retry_fuel. intros. change (2 ^ Z.of_nat 64) with 18446744073709551616. nia. Qed.

(** The backoff of a record after [failures] consecutive failures. *)
Definition backoff (p : SupervisionPolicy) (failures : N) : Duration :=
  Z.min (RetryMaxDelay p) (RetryBaseDelay p * 2 ^ Z.of_N (N.pred failures)).

Lemma retryDelay_closed r p :
  SupervisionPolicy_Validate p = Ok tt -> policy_typed p -> is_u32 (sr_ConsecutiveFailures r) ->
  retryDelay r p = Z.min (RetryMaxDelay p)
                     (backoff p (sr_ConsecutiveFailures r) + deterministicSpread r (DeterministicSpread p)).
Proof.
  intros Hv (_ & _ & Hb & Hm & Hs & _) Hf. pose proof (spread_bounds r p Hv) as Hsp.
  apply SupervisionPolicy_Validate_Ok in Hv. unfold retryDelay.
  rewrite retry_loop_closed by (try apply retry_fuel_enough; done || lia).
  replace (Z.of_N (sr_ConsecutiveFailures r) - Z.of_N (N.min 1 (sr_ConsecutiveFailures r)))
    with (Z.of_N (N.pred (sr_ConsecutiveFailures r))) by lia.
  fold (backoff p (sr_ConsecutiveFailures r)).
  assert (0 < backoff p (sr_ConsecutiveFailures r) <= RetryMaxDelay p) as Hd.
  { unfold backoff. pose proof (Z.pow_pos_nonneg 2 (Z.of_N (N.pred (sr_ConsecutiveFailures r)))). nia. }
  generalize dependent (backoff p (sr_ConsecutiveFailures r)). intros d Hd.
  generalize dependent (deterministicSpread r (DeterministicSpread p)). intros s Hsp.
  unfold is_i64, i64_half in *.
  destruct (Z.ltb_spec (RetryMaxDelay p) d); [lia |].
  rewrite wrap_i64_id by (unfold is_i64, i64_half; lia).
  destruct (Z.ltb_spec (RetryMaxDelay p - d) s); [lia |].
  rewrite wrap_i64_id by (unfold is_i64, i64_half; lia). lia.
Qed.

Lemma backoff_range p n :
  SupervisionPolicy_Validate p = Ok tt -> RetryBaseDelay p <= backoff p n <= RetryMaxDelay p.
Proof.
  rewrite SupervisionPolicy_Validate_Ok. unfold backoff. intros.
  pose proof (Z.pow_pos_nonneg 2 (Z.of_N (N.pred n)) ltac:(lia) ltac:(lia)). nia.
Qed.

Lemma backoff_mono p m n :
  SupervisionPolicy_Validate p = Ok tt -> (m <= n)%N -> backoff p m <= backoff p n.
Proof.
  rewrite SupervisionPolicy_Validate_Ok. unfold backoff. intros Hv Hmn.
  pose proof (Z.pow_le_mono_r 2 (Z.of_N (N.pred m)) (Z.of_N (N.pred n)) ltac:(lia) ltac:(lia)). nia.
Qed.

Lemma retryDelay_range r p :
  SupervisionPolicy_Validate p = Ok tt -> policy_typed p -> is_u32 (sr_ConsecutiveFailures r) ->
  0 < retryDelay r p <= RetryMaxDelay p.
Proof.
  intros Hv Ht Hf. rewrite retryDelay_closed by done.
  pose proof (backoff_range p (sr_ConsecutiveFailures r) Hv). pose proof (spread_bounds r p Hv).
  apply SupervisionPolicy_Validate_Ok in Hv. lia.
Qed.

Lemma saturatingIncrement_spec n :
  is_u32 n -> saturatingIncrement n = N.min (n + 1) 4294967295%N.
Proof.
  unfold is_u32, u32_modulus, saturatingIncrement, wrap32. intros Hn.
  destruct (N.eqb_spec n 4294967295); [lia |]. rewrite N.mod_small; unfold u32_modulus; lia.
Qed.

Lemma saturatingIncrement_typed n : is_u32 n -> is_u32 (saturatingIncrement n) /\ (0 < saturatingIncrement n)%N.
Proof. intros Hn. rewrite saturatingIncrement_spec by done. unfold is_u32, u32_modulus in *. lia. Qed.

(** C40: retryDelay is bounded exponential backoff in closed form: for a valid
    policy and any uint32 failure count the doubling loop neither overflows nor
    runs out, the delay is min(max, min(max, base * 2^(failures-1)) + spread),
    it lies between base and max, and it never shrinks when failures grow. *)
Theorem retryDelay_backoff (p : SupervisionPolicy) (r r' : SupervisionRecord)
    (Hv : SupervisionPolicy_Validate p = Ok tt) (Ht : policy_typed p)
    (Hf : is_u32 (sr_ConsecutiveFailures r)) (Hf' : is_u32 (sr_ConsecutiveFailures r')) :
  retryDelay r p
    = Z.min (RetryMaxDelay p)
        (Z.min (RetryMaxDelay p) (RetryBaseDelay p * 2 ^ Z.of_N (N.pred (sr_ConsecutiveFailures r)))
         + deterministicSpread r (DeterministicSpread p))
  /\ RetryBaseDelay p <= retryDelay r p <= RetryMaxDelay p
  /\ (sr_Scope r' = sr_Scope r -> sr_PolicyDigest r' = sr_PolicyDigest r ->
      (sr_ConsecutiveFailures r <= sr_ConsecutiveFailures r')%N -> retryDelay r p <= retryDelay r' p).
Proof.
  rewrite !retryDelay_closed by done. fold (backoff p (sr_ConsecutiveFailures r)).
  pose proof (backoff_range p (sr_ConsecutiveFailures r) Hv). pose proof (spread_bounds r p Hv).
  apply SupervisionPolicy_Validate_Ok in Hv as Hv'.
  split; [done | split; [lia |]]. intros Hs Hd Hle.
  pose proof (backoff_mono p _ _ Hv Hle).
  unfold deterministicSpread. rewrite Hs, Hd. lia.
Qed.

Definition ex_policy : SupervisionPolicy :=
  {| InspectionInterval := 600000000000; LeaseRenewLeadTime := 900000000000;
     RetryBaseDelay := 1000000000; RetryMaxDelay := 4000000000; DeterministicSpread := 500000000;
     MaxConsecutiveFailures := 3 |}.
Definition ex_policy_digest : Digest := Eval vm_compute in hex_digest (codes (policy_json ex_policy)).
Definition ex_time (seconds : Z) : Time := {| instant := seconds * 1000000000; rep := 0 |}.
Definition ex_record : SupervisionRecord :=
  {| sr_Scope := ex_bound_scope; sr_PolicyDigest := ex_policy_digest; sr_Mode := SupervisionBackoff;
     sr_ConsecutiveFailures := 2; sr_LastSuccessfulInspectAt := ex_time 1; sr_NextActionAt := ex_time 4;
     sr_IdentityLeaseExpiresAt := ex_time 10000; sr_UpdatedAt := ex_time 2; sr_Revision := 3 |}.

Lemma retryDelay_backoff_witness :
  2000000000 <= retryDelay ex_record ex_policy <= 4000000000 /\ retryDelay ex_record ex_policy <= retryDelay (set_sup_failures 9 ex_record) ex_policy.
Proof.
  split; [vm_compute; split; discriminate |].
  refine (proj2 (proj2 (retryDelay_backoff ex_policy ex_record (set_sup_failures 9 ex_record) _ _ _ _)) _ _ _);
    vm_compute; repeat split; discriminate || reflexivity.
Defined.

(** ** What an accepted signal does *)

Definition fencing (u : SupervisionUpdate) : Prop :=
  su_Signal u = SignalAuthorityRevoked \/ su_Signal u = SignalLeaseExpired.

Lemma not_fencing_false u : not_fencing u = false <-> fencing u.
Proof.
  unfold not_fencing, fencing. destruct (su_Signal u); cbn; split;
    try done; try (by intros [|]); auto.
Qed.

(** The whole effect of an accepted update on the record, by signal. *)
Definition applied (r : SupervisionRecord) (u : SupervisionUpdate) (p : SupervisionPolicy)
    (r' : SupervisionRecord) : Prop :=
  let next := sr_NextActionAt r' in
  let at_ := su_ObservedAt u in
  let failures := saturatingIncrement (sr_ConsecutiveFailures r) in
  match su_Signal u with
  | SignalHealthy =>
      sr_Mode r' = SupervisionNormal /\ sr_ConsecutiveFailures r' = 0%N
      /\ sr_LastSuccessfulInspectAt r' = at_ /\ sr_IdentityLeaseExpiresAt r' = sr_IdentityLeaseExpiresAt r
      /\ next = nextInspection r' at_ p
  | SignalTransientFailure =>
      sr_Mode r' = (if (MaxConsecutiveFailures p <=? failures)%N then SupervisionQuarantined
                    else SupervisionBackoff)
      /\ sr_ConsecutiveFailures r' = failures
      /\ sr_LastSuccessfulInspectAt r' = sr_LastSuccessfulInspectAt r
      /\ sr_IdentityLeaseExpiresAt r' = sr_IdentityLeaseExpiresAt r
      /\ next = AddDuration at_ (retryDelay r' p)
  | SignalStateUnknown =>
      sr_Mode r' = SupervisionQuarantined /\ sr_ConsecutiveFailures r' = failures
      /\ sr_LastSuccessfulInspectAt r' = sr_LastSuccessfulInspectAt r
      /\ sr_IdentityLeaseExpiresAt r' = sr_IdentityLeaseExpiresAt r
      /\ next = AddDuration at_ (retryDelay r' p)
  | SignalLeaseRenewed =>
      sr_Mode r' = sr_Mode r /\ sr_ConsecutiveFailures r' = sr_ConsecutiveFailures r
      /\ sr_LastSuccessfulInspectAt r' = sr_LastSuccessfulInspectAt r
      /\ sr_IdentityLeaseExpiresAt r' = su_NewLeaseExpiresAt u
      /\ instant at_ + LeaseRenewLeadTime p < instant (su_NewLeaseExpiresAt u)
      /\ next = nextInspection r' at_ p
  | SignalLeaseRevisionStale =>
      sr_Mode r' = SupervisionQuarantined /\ sr_ConsecutiveFailures r' = sr_ConsecutiveFailures r
      /\ sr_LastSuccessfulInspectAt r' = sr_LastSuccessfulInspectAt r
      /\ sr_IdentityLeaseExpiresAt r' = sr_IdentityLeaseExpiresAt r
      /\ next = at_
  | SignalAuthorityRevoked | SignalLeaseExpired =>
      sr_Mode r' = SupervisionFenced /\ sr_ConsecutiveFailures r' = sr_ConsecutiveFailures r
      /\ sr_LastSuccessfulInspectAt r' = sr_LastSuccessfulInspectAt r
      /\ sr_IdentityLeaseExpiresAt r' = sr_IdentityLeaseExpiresAt r
      /\ next = at_
  | SignalOther _ => False
  end.

Lemma ApplySupervisionUpdate_Ok r u p r' d :
  ApplySupervisionUpdate r u p = Ok (r', d) ->
  SupervisionRecord_Validate r = Ok tt
  /\ validateSupervisionPolicyBinding (sr_PolicyDigest r) p = Ok tt
  /\ (sr_Scope r' = sr_Scope r /\ sr_PolicyDigest r' = sr_PolicyDigest r
      /\ sr_Revision r' = u64_succ (sr_Revision r) /\ sr_UpdatedAt r' = su_ObservedAt u
      /\ instant (su_ObservedAt u) <> 0 /\ instant (sr_UpdatedAt r) <= instant (su_ObservedAt u))
  /\ (sr_Mode r = SupervisionFenced -> fencing u)
  /\ (instant (sr_IdentityLeaseExpiresAt r) <= instant (su_ObservedAt u) -> fencing u)
  /\ applied r u p r'.
Proof.
  unfold ApplySupervisionUpdate, IsZero, Before, mode_is. intros H. go_ok.
  rewrite andb_false_iff, not_fencing_false in *. go_bool.
  split; [done |]. split; [done |].
  split; [| split; [intros; destruct_or?; done || congruence |
            split; [intros; destruct_or?; done || congruence || lia |]]].
  all: unfold applied; destruct (su_Signal u) eqn:Hsig; cbn in *; try discriminate;
    repeat match goal with
    | H : (if ?b then _ else _) = Ok _ |- _ => destruct b eqn:?
    | H : mbind _ _ = Ok _ |- _ => apply bind_Ok in H as ([] & ? & ?)
    | H : guard _ _ _ = Ok _ |- _ => apply guard_Ok in H; unfold After, AddDuration in H; cbn in H; go_bool
    | H : Ok _ = Ok _ |- _ => injection H as <- <-
    end; cbn; repeat split; done || lia.
Qed.

(** ** Histories of a supervision record *)

Definition sup_step (p : SupervisionPolicy) (r r' : SupervisionRecord) : Prop :=
  exists u d, ApplySupervisionUpdate r u p = Ok (r', d).

(** The records a deployment that keeps one policy ever persists. *)
Inductive supervised (p : SupervisionPolicy) : SupervisionRecord -> Prop :=
| supervised_new scope digest expiry now r :
    0 < instant now ->
    NewSupervisionRecord scope digest expiry now p = Ok r ->
    supervised p r
| supervised_step r r' :
    supervised p r -> sup_step p r r' -> supervised p r'.

(** The inspection delay of nextInspection does not leave int64. *)
Definition schedule_fits (p : SupervisionPolicy) : Prop :=
  InspectionInterval p + DeterministicSpread p < i64_half.

(** The longest time the policy lets pass between an update and the next
    action. *)
Definition horizon (p : SupervisionPolicy) : Duration :=
  Z.max (InspectionInterval p + DeterministicSpread p) (RetryMaxDelay p).

Record sup_inv (p : SupervisionPolicy) (r : SupervisionRecord) : Prop := {
  inv_binding : validateSupervisionPolicyBinding (sr_PolicyDigest r) p = Ok tt;
  inv_valid : sr_Revision r <> 0%N -> SupervisionRecord_Validate r = Ok tt;
  inv_failures : is_u32 (sr_ConsecutiveFailures r);
  inv_backoff : sr_Mode r = SupervisionBackoff ->
    (0 < sr_ConsecutiveFailures r < MaxConsecutiveFailures p)%N;
  inv_lease : sr_Mode r = SupervisionFenced
    \/ instant (sr_UpdatedAt r) < instant (sr_IdentityLeaseExpiresAt r);
  inv_next : instant (sr_UpdatedAt r) <= instant (sr_NextActionAt r)
    <= instant (sr_UpdatedAt r) + horizon p;
  inv_times : 0 < instant (sr_LastSuccessfulInspectAt r) <= instant (sr_UpdatedAt r)
}.

Lemma nextInspection_bounds r now p :
  SupervisionPolicy_Validate p = Ok tt -> policy_typed p -> schedule_fits p ->
  instant now < instant (nextInspection r now p) <= instant now + horizon p.
Proof.
  intros Hv Ht Hs. pose proof (spread_bounds r p Hv). apply SupervisionPolicy_Validate_Ok in Hv.
  unfold nextInspection, AddDuration, horizon, schedule_fits in *. cbn.
  rewrite wrap_i64_id; [lia |]. unfold is_i64, i64_half in *. lia.
Qed.

Lemma SupervisionRecord_Validate_Ok r u :
  SupervisionRecord_Validate r = Ok u <->
  ExecutionScope_Validate (sr_Scope r) = Ok tt /\ Digest_Validate (sr_PolicyDigest r) = Ok tt
  /\ sc_SandboxLease (sr_Scope r) <> None /\ sr_Revision r <> 0%N
  /\ instant (sr_LastSuccessfulInspectAt r) <> 0 /\ instant (sr_NextActionAt r) <> 0
  /\ instant (sr_IdentityLeaseExpiresAt r) <> 0 /\ instant (sr_UpdatedAt r) <> 0
  /\ instant (sr_LastSuccessfulInspectAt r) <= instant (sr_UpdatedAt r)
  /\ match sr_Mode r with
     | SupervisionNormal => sr_ConsecutiveFailures r = 0%N
     | SupervisionBackoff => sr_ConsecutiveFailures r <> 0%N
     | SupervisionQuarantined | SupervisionFenced => True
     | SupervisionModeOther _ => False
     end.
Proof.
  unfold SupervisionRecord_Validate. rewrite seq_Ok, seq_guard_Ok, seq_Ok, !orb_false_iff.
  unfold IsZero, Before. destruct u, (sr_Mode r); rewrite ?guard_Ok; go_bool; try tauto.
  all: split; [| tauto]; intros (_ & _ & _ & H); discriminate H || tauto.
Qed.

Lemma NewSupervisionRecord_inv scope digest expiry now p r :
  policy_typed p -> schedule_fits p -> 0 < instant now ->
  NewSupervisionRecord scope digest expiry now p = Ok r -> sup_inv p r.
Proof.
  unfold NewSupervisionRecord, IsZero, After, AddDuration. intros Ht Hs Hnow H. go_ok. cbn in *. go_bool.
  match goal with H : validateSupervisionPolicyBinding _ _ = _ |- _ => pose proof (binding_valid _ _ _ H) as Hv end.
  match goal with |- context [ nextInspection ?r0 _ _ ] =>
    pose proof (nextInspection_bounds r0 now p Hv Ht Hs) as Hn end.
  pose proof (proj1 (SupervisionPolicy_Validate_Ok _ _) Hv) as Hp.
  split; cbn; try done; try lia.
  intros _. apply SupervisionRecord_Validate_Ok. cbn. repeat split; done || lia.
Qed.

Lemma step_inv p r r' :
  policy_typed p -> schedule_fits p -> sup_inv p r -> sup_step p r r' -> sup_inv p r'.
Proof.
  intros Ht Hs [Hb _ Hf Hbo Hl Hn Htm] (u & d & H).
  apply ApplySupervisionUpdate_Ok in H as (Hr & _ & (Hsc & Hdg & Hrev & Hup & Hz & Hle) & Hfen & Hexp & Ha).
  pose proof (binding_valid _ _ _ Hb) as Hv.
  pose proof (nextInspection_bounds r' (su_ObservedAt u) p Hv Ht Hs) as Hni.
  pose proof (proj1 (SupervisionPolicy_Validate_Ok _ _) Hv) as Hp.
  apply SupervisionRecord_Validate_Ok in Hr as (Hv1 & Hv2 & Hv3 & Hv4 & Hv5 & Hv6 & Hv7 & Hv8 & Hv9 & Hv10).
  pose proof (saturatingIncrement_typed _ Hf) as [Hsat Hsat0].
  assert (is_u32 (sr_ConsecutiveFailures r')) as Hf'.
  { unfold applied in Ha. destruct (su_Signal u); destruct_and?; try done;
      match goal with H : sr_ConsecutiveFailures r' = _ |- _ => rewrite H; done end. }
  pose proof (retryDelay_range r' p Hv Ht Hf') as Hrd.
  assert (instant (sr_IdentityLeaseExpiresAt r) <= instant (su_ObservedAt u) \/
          instant (su_ObservedAt u) < instant (sr_IdentityLeaseExpiresAt r)) as Hcase by lia.
  unfold fencing in *. unfold horizon in *.
  split; rewrite ?Hdg, ?Hup; try done; unfold applied, AddDuration in Ha.
  - intros Hne. apply SupervisionRecord_Validate_Ok. rewrite Hsc, Hdg, Hup.
    destruct (su_Signal u); try done; destruct_and?;
      repeat match goal with H : sr_Mode r' = _ |- _ => rewrite H | H : sr_ConsecutiveFailures r' = _ |- _ => rewrite H
        | H : sr_LastSuccessfulInspectAt r' = _ |- _ => rewrite H
        | H : sr_IdentityLeaseExpiresAt r' = _ |- _ => rewrite H | H : sr_NextActionAt r' = _ |- _ => rewrite H end;
      cbn; repeat split; try done; try lia.
    destruct (_ <=? _)%N; [done | lia].
  - intros Hm. destruct (su_Signal u); try done; destruct_and?; try congruence.
    + match goal with H : sr_Mode r' = (if _ then _ else _), H2 : sr_ConsecutiveFailures r' = _ |- _ =>
        rewrite Hm in H; rewrite H2; revert H end.
      destruct (N.leb_spec (MaxConsecutiveFailures p) (saturatingIncrement (sr_ConsecutiveFailures r)));
        [discriminate | lia].
    + match goal with H : sr_ConsecutiveFailures r' = _ |- _ => rewrite H end. apply Hbo. congruence.
  - destruct (su_Signal u); try done; destruct_and?; try (by left);
      match goal with H : sr_IdentityLeaseExpiresAt r' = _ |- _ => rewrite H end; right;
      try lia; destruct Hcase as [Hc | Hc]; try done; destruct (Hexp Hc); discriminate.
  - destruct (su_Signal u); try done; destruct_and?;
      match goal with H : sr_NextActionAt r' = _ |- _ => rewrite H end; unfold horizon; cbn; lia.
  - destruct (su_Signal u); try done; destruct_and?;
      match goal with H : sr_LastSuccessfulInspectAt r' = _ |- _ => rewrite H end; lia.
Qed.

Lemma supervised_inv p r : policy_typed p -> schedule_fits p -> supervised p r -> sup_inv p r.
Proof.
  intros Ht Hs; induction 1; [by eapply NewSupervisionRecord_inv | by eapply step_inv].
Qed.

(** The supervision record of a running instance is well formed through
    every history of accepted signals: a persisted record passes its own
    validation, backoff keeps a positive failure count below the budget, an
    instance that is not fenced was last updated strictly before its identity
    lease expired, and the next action is scheduled neither before the update
    nor later than the policy's horizon (the longer of the spread inspection
    interval and the retry ceiling). *)
Theorem supervision_history (p : SupervisionPolicy) (r : SupervisionRecord)
    (Ht : policy_typed p) (Hs : schedule_fits p) (Hr : supervised p r) :
  (sr_Revision r <> 0%N -> SupervisionRecord_Validate r = Ok tt)
  /\ (sr_Mode r = SupervisionBackoff -> (0 < sr_ConsecutiveFailures r < MaxConsecutiveFailures p)%N)
  /\ (sr_Mode r <> SupervisionFenced -> Before (sr_UpdatedAt r) (sr_IdentityLeaseExpiresAt r) = true)
  /\ instant (sr_UpdatedAt r) <= instant (sr_NextActionAt r) <= instant (sr_UpdatedAt r) + horizon p.
Proof.
  destruct (supervised_inv p r Ht Hs Hr) as [_ Hv _ Hb Hl Hn _].
  split; [done |]. split; [done |]. split; [| done].
  intros Hf. destruct Hl as [? | Hl]; [done |]. by apply Z.ltb_lt.
Qed.

(** Health inspection cannot be starved: while an instance is not fenced,
    evaluating any reachable record later than the policy's horizon after its
    last update always orders an action, and which one is decided by priority:
    fence once the lease expired, else renew inside the renewal window, else
    inspect, which is not automatically safe exactly in quarantine. *)
Theorem supervision_never_idle (p : SupervisionPolicy) (r : SupervisionRecord) (now : Time)
    (Ht : policy_typed p) (Hs : schedule_fits p) (Hr : supervised p r)
    (Hrev : sr_Revision r <> 0%N) (Hm : sr_Mode r <> SupervisionFenced)
    (Hnow : instant (sr_UpdatedAt r) + horizon p <= instant now) :
  exists d, EvaluateSupervision r now p = Ok d
    /\ sd_Action d = (if instant (sr_IdentityLeaseExpiresAt r) <=? instant now
                      then SupervisionFenceAndStop
                      else if instant (sr_IdentityLeaseExpiresAt r) - LeaseRenewLeadTime p <=? instant now
                      then SupervisionRenewLease else SupervisionInspect)
    /\ (sd_AutomaticSafe d = false <->
        sd_Action d = SupervisionInspect /\ sr_Mode r = SupervisionQuarantined).
Proof.
  destruct (supervised_inv p r Ht Hs Hr) as [Hb Hv _ _ _ Hn Htm].
  pose proof (proj1 (SupervisionPolicy_Validate_Ok _ _) (binding_valid _ _ _ Hb)) as Hp.
  unfold EvaluateSupervision. rewrite (Hv Hrev), Hb. unfold mode_is, horizon in *.
  rewrite bool_decide_eq_false_2 by done. cbn [mbind outcome_bind].
  assert (IsZero now = false) as -> by (apply Z.eqb_neq; lia). unfold Before, AddDuration. cbn.
  rewrite <- !Z.leb_antisym, Z.add_opp_r.
  assert ((instant (sr_NextActionAt r) <=? instant now) = true) as -> by (apply Z.leb_le; lia).
  destruct (_ <=? _); [eexists; split; [done | split; [done | by split; [| intros []]]] |].
  destruct (_ <=? _); [eexists; split; [done | split; [done | by split; [| intros []]]] |].
  destruct (decide (sr_Mode r = SupervisionQuarantined)) as [Hq | Hq].
  - rewrite bool_decide_eq_true_2 by done. by eexists.
  - rewrite bool_decide_eq_false_2 by done. eexists. split; [done | split; [done | by split; [| intros []]]].
Qed.

(** execution authority never comes back: once a record is fenced, or a
    signal arrives when the identity lease has already expired, every record
    of the rest of the history is fenced, keeps its scope and its policy, and
    evaluation orders no further action for it. *)
Theorem fenced_or_expired_never_revives (p : SupervisionPolicy) (r r1 r' : SupervisionRecord)
    (u : SupervisionUpdate) (d : SupervisionDecision)
    (Hu : ApplySupervisionUpdate r u p = Ok (r1, d))
    (Hdead : sr_Mode r = SupervisionFenced
             \/ instant (sr_IdentityLeaseExpiresAt r) <= instant (su_ObservedAt u))
    (Hrun : rtc (sup_step p) r1 r') :
  sr_Mode r' = SupervisionFenced /\ sr_Scope r' = sr_Scope r /\ sr_PolicyDigest r' = sr_PolicyDigest r
  /\ forall now d', EvaluateSupervision r' now p = Ok d' -> sd_Action d' = SupervisionNone.
Proof.
  assert (forall x y u d, ApplySupervisionUpdate x u p = Ok (y, d) ->
            (sr_Mode x = SupervisionFenced
             \/ instant (sr_IdentityLeaseExpiresAt x) <= instant (su_ObservedAt u)) ->
            sr_Mode y = SupervisionFenced /\ sr_Scope y = sr_Scope x
            /\ sr_PolicyDigest y = sr_PolicyDigest x) as Hstep.
  { intros x y u0 d0 H Hx. apply ApplySupervisionUpdate_Ok in H as (_ & _ & (Hs & Hd & _) & Hf & He & Ha).
    split; [| by split]. assert (fencing u0) as [Hg | Hg] by (destruct Hx; auto);
      unfold applied in Ha; rewrite Hg in Ha; tauto. }
  destruct (Hstep _ _ _ _ Hu Hdead) as (Hm & Hs & Hd). clear Hu Hdead.
  induction Hrun as [r1 | r1 r2 r' (u2 & d2 & Hu2) _ IH].
  - split; [done |]. split; [done |]. split; [done |]. intros now d'.
    unfold EvaluateSupervision, mode_is. rewrite bool_decide_eq_true_2 by done. intros H. by go_ok.
  - destruct (Hstep _ _ _ _ Hu2 (or_introl Hm)) as (? & ? & ?). apply IH; congruence.
Qed.

(** The ways out of quarantine: an accepted signal takes a quarantined
    record out of quarantine exactly when it is healthy evidence, a fencing
    signal, or a transient failure that leaves the failure count below the
    budget; the last one lands in backoff, where inspection is automatically
    safe again, although no authoritative inspection was seen. *)
Theorem quarantine_exits (p : SupervisionPolicy) (r r' : SupervisionRecord) (u : SupervisionUpdate)
    (d : SupervisionDecision)
    (Hq : sr_Mode r = SupervisionQuarantined) (Hu : ApplySupervisionUpdate r u p = Ok (r', d)) :
  (sr_Mode r' <> SupervisionQuarantined <->
   su_Signal u = SignalHealthy \/ fencing u
   \/ su_Signal u = SignalTransientFailure
      /\ (saturatingIncrement (sr_ConsecutiveFailures r) < MaxConsecutiveFailures p)%N)
  /\ (su_Signal u = SignalTransientFailure ->
      (saturatingIncrement (sr_ConsecutiveFailures r) < MaxConsecutiveFailures p)%N ->
      sr_Mode r' = SupervisionBackoff /\ sd_Action d = SupervisionNone /\ sd_AutomaticSafe d = true).
Proof.
  pose proof (ApplySupervisionUpdate_Ok _ _ _ _ _ Hu) as (_ & _ & _ & _ & _ & Ha).
  split.
  - unfold applied, fencing in *.
    destruct (su_Signal u) eqn:Hsig; destruct_and?; try done;
      match goal with H : sr_Mode r' = _ |- _ => rewrite H end; rewrite ?Hq;
      try (destruct (N.leb_spec (MaxConsecutiveFailures p) (saturatingIncrement (sr_ConsecutiveFailures r))));
      split; intros; destruct_or?; destruct_and?; try done; try lia; eauto.
  - intros Hsig Hlt. unfold ApplySupervisionUpdate in Hu. go_ok. rewrite Hsig in *. cbn in *.
    match goal with H : (if ?b then _ else _) = Ok _ |- _ =>
      replace b with false in H by (symmetry; by apply N.leb_gt); by injection H as <- <- end.
Qed.

(** A concrete deployment: created at second 1, quarantined by an unknown state
    at second 5, back in backoff by a transient failure at second 8, fenced at
    second 9. *)
Definition ex_created : SupervisionRecord := Eval vm_compute in
  match NewSupervisionRecord ex_bound_scope ex_policy_digest (ex_time 10000) (ex_time 1) ex_policy with
  | Ok r => r
  | Err _ => ex_record
  end.
Definition ex_signal (s : SupervisionSignal) (seconds : Z) : SupervisionUpdate :=
  {| su_Signal := s; su_ObservedAt := ex_time seconds; su_NewLeaseExpiresAt := zeroTime |}.
Definition ex_apply (s : SupervisionSignal) (seconds : Z) (r : SupervisionRecord) : SupervisionRecord :=
  match ApplySupervisionUpdate r (ex_signal s seconds) ex_policy with Ok (r', _) => r' | Err _ => r end.
Definition ex_quarantined : SupervisionRecord := Eval vm_compute in ex_apply SignalStateUnknown 5 ex_created.
Definition ex_escaped : SupervisionRecord := Eval vm_compute in ex_apply SignalTransientFailure 8 ex_quarantined.
Definition ex_fenced : SupervisionRecord := Eval vm_compute in ex_apply SignalAuthorityRevoked 9 ex_escaped.

Lemma ex_supervised : supervised ex_policy ex_quarantined.
Proof.
  apply (supervised_step ex_policy ex_created).
  - apply (supervised_new ex_policy ex_bound_scope ex_policy_digest (ex_time 10000) (ex_time 1));
      [reflexivity | vm_compute; reflexivity].
  - exists (ex_signal SignalStateUnknown 5). eexists. vm_compute. reflexivity.
Defined.

Lemma ex_policy_typed : policy_typed ex_policy.
Proof. vm_compute. repeat split; discriminate || reflexivity. Qed.

Lemma supervision_history_witness :
  Before (sr_UpdatedAt ex_quarantined) (sr_IdentityLeaseExpiresAt ex_quarantined) = true.
Proof.
  apply (supervision_history ex_policy ex_quarantined ex_policy_typed); [reflexivity | exact ex_supervised |].
  vm_compute. discriminate.
Defined.

Lemma supervision_never_idle_witness :
  exists d, EvaluateSupervision ex_quarantined (ex_time 700) ex_policy = Ok d
            /\ (sd_AutomaticSafe d = false <->
                sd_Action d = SupervisionInspect /\ sr_Mode ex_quarantined = SupervisionQuarantined).
Proof.
  destruct (supervision_never_idle ex_policy ex_quarantined (ex_time 700) ex_policy_typed) as (d & H1 & _ & H2).
  - reflexivity.
  - exact ex_supervised.
  - discriminate.
  - discriminate.
  - vm_compute. discriminate.
  - exists d. split; [exact H1 | exact H2].
Defined.

Definition ex_fenced_again : SupervisionRecord := Eval vm_compute in ex_apply SignalLeaseExpired 10 ex_fenced.
Definition ex_fenced_last : SupervisionRecord := Eval vm_compute in ex_apply SignalLeaseExpired 11 ex_fenced_again.

Lemma fenced_or_expired_never_revives_witness : sr_Mode ex_fenced_last = SupervisionFenced.
Proof.
  refine (proj1 (fenced_or_expired_never_revives ex_policy ex_fenced ex_fenced_again ex_fenced_last
    (ex_signal SignalLeaseExpired 10)
    (supervisionDecision SupervisionFenceAndStop true "execution authority is no longer valid") _ _ _)).
  - vm_compute. reflexivity.
  - left. reflexivity.
  - apply rtc_once. exists (ex_signal SignalLeaseExpired 11). eexists. vm_compute. reflexivity.
Defined.

Lemma quarantine_exits_witness : sr_Mode ex_escaped = SupervisionBackoff.
Proof.
  refine (proj1 (proj2 (quarantine_exits ex_policy ex_quarantined ex_escaped
    (ex_signal SignalTransientFailure 8)
    (supervisionDecision SupervisionNone true "transient failure entered bounded exponential backoff")
    _ _) _ _)).
  - reflexivity.
  - vm_compute. reflexivity.
  - reflexivity.
  - vm_compute. reflexivity.
Defined.
