(* ===== verification/Json.v ===== *)
(** * encoding/json and encoding/base64, as far as the Runtime's digests use them

    json.Marshal of the struct values that the canonical digests hash: objects
    in field order, omitempty, HTML-safe string escaping with the replacement of
    invalid UTF-8, decimal integers, base64 for byte slices and RFC 3339 for
    time.Time.  A value's document is a tree of type [json], printed by
    [json_print].  The printer is injective up to the bytes that are not UTF-8
    ([json_print_inj]).  Nothing here models a file of the repository. *)

From S2P Require Import Prelude GoStd.
From Stdlib Require Import Ascii.

Local Open Scope N_scope.

(** ** unicode/utf8 *)

(** A decoded rune: its valid encoding, or the error rune of width one. *)
Inductive rune :=
| Rune (bs : list ascii)
| RuneError.
#[export] Instance rune_eq_dec : EqDecision rune.
Proof. solve_decision. Defined.

Definition in_range (lo hi : N) (c : ascii) : bool := (lo <=? N_of_ascii c) && (N_of_ascii c <=? hi).
Definition continuation : ascii -> bool := in_range 128 191.

(** The width a leading byte announces, and the test on the second byte. *)
Definition utf8_lead (c : ascii) : option (nat * (ascii -> bool)) :=
  if in_range 0 127 c then Some (1%nat, fun _ => true)
  else if in_range 194 223 c then Some (2%nat, continuation)
  else if in_range 224 224 c then Some (3%nat, in_range 160 191)
  else if in_range 237 237 c then Some (3%nat, in_range 128 159)
  else if in_range 225 239 c then Some (3%nat, continuation)
  else if in_range 240 240 c then Some (4%nat, in_range 144 191)
  else if in_range 241 243 c then Some (4%nat, continuation)
  else if in_range 244 244 c then Some (4%nat, in_range 128 143)
  else None.

(** utf8.DecodeRune on a non-empty slice: the rune and what follows it. *)
Definition decode_rune (c : ascii) (l : list ascii) : rune * list ascii :=
  match utf8_lead c with
  | Some (1%nat, _) => (Rune [c], l)
  | Some (2%nat, second) =>
      match l with
      | c1 :: r => if second c1 then (Rune [c; c1], r) else (RuneError, l)
      | _ => (RuneError, l)
      end
  | Some (3%nat, second) =>
      match l with
      | c1 :: c2 :: r => if second c1 && continuation c2 then (Rune [c; c1; c2], r) else (RuneError, l)
      | _ => (RuneError, l)
      end
  | Some (_, second) =>
      match l with
      | c1 :: c2 :: c3 :: r =>
          if second c1 && continuation c2 && continuation c3 then (Rune [c; c1; c2; c3], r)
          else (RuneError, l)
      | _ => (RuneError, l)
      end
  | None => (RuneError, l)
  end.

Fixpoint decode_runes (fuel : nat) (l : list ascii) : list rune :=
  match fuel, l with
  | S fuel', c :: l' => let '(r, rest) := decode_rune c l' in r :: decode_runes fuel' rest
  | _, _ => []
  end.

Definition runes (s : string) : list rune := decode_runes (length (bytes s)) (bytes s).

Definition valid_rune (r : rune) : bool := match r with Rune _ => true | RuneError => false end.

(** utf8.ValidString *)
Definition valid_utf8 (s : string) : bool := forallb valid_rune (runes s).

(** The text of a string: every byte that is not UTF-8 is the same byte. *)
Definition rune_text (r : rune) : list ascii :=
  match r with Rune bs => bs | RuneError => [ascii_of_N 255] end.
Definition utf8_text (s : string) : string := of_bytes (concat (map rune_text (runes s))).

#[global] Arguments runes : simpl never.
#[global] Arguments valid_utf8 : simpl never.
#[global] Arguments utf8_text : simpl never.

(** ** Documents *)

Inductive json :=
| JNull
| JBool (b : bool)
| JNumber (z : Z)
| JString (s : string)
| JArray (l : list json)
| JObject (fields : list (string * json)).

Definition c_quote : ascii := ascii_of_N 34.
Definition c_backslash : ascii := ascii_of_N 92.

Definition hex_nibble (n : N) : ascii := hex_digit (n mod 16).

(** The escapes of appendString with escapeHTML set. *)
Definition escape_ascii (c : ascii) : list ascii :=
  let n := N_of_ascii c in
  if (n =? 92) || (n =? 34) then [c_backslash; c]
  else if n =? 8 then [c_backslash; "b"%char]
  else if n =? 12 then [c_backslash; "f"%char]
  else if n =? 10 then [c_backslash; "n"%char]
  else if n =? 13 then [c_backslash; "r"%char]
  else if n =? 9 then [c_backslash; "t"%char]
  else if (n <? 32) || (n =? 60) || (n =? 62) || (n =? 38)
  then (bytes "\u00" ++ [hex_nibble (n / 16); hex_nibble n])%list
  else [c].

Definition line_separator : list ascii := map ascii_of_N [226; 128; 168].
Definition paragraph_separator : list ascii := map ascii_of_N [226; 128; 169].

Definition escape_rune (r : rune) : list ascii :=
  match r with
  | RuneError => bytes "\ufffd"
  | Rune [c] => escape_ascii c
  | Rune bs =>
      if bool_decide (bs = line_separator) then bytes "\u2028"
      else if bool_decide (bs = paragraph_separator) then bytes "\u2029"
      else bs
  end.

Definition json_quote (s : string) : list ascii :=
  (c_quote :: concat (map escape_rune (runes s)) ++ [c_quote])%list.

Definition json_number (z : Z) : list ascii :=
  (if (z <? 0)%Z then ["-"%char] else []) ++ format_bytes (Z.abs_N z).

Definition sep_by (sep : ascii) (parts : list (list ascii)) : list ascii := join_with sep parts.

Fixpoint json_print (j : json) : list ascii :=
  match j with
  | JNull => bytes "null"
  | JBool b => if b then bytes "true" else bytes "false"
  | JNumber z => json_number z
  | JString s => json_quote s
  | JArray l => ("["%char :: sep_by ","%char (map json_print l) ++ ["]"%char])%list
  | JObject fields =>
      ("{"%char ::
       sep_by ","%char (map (fun f => json_quote (fst f) ++ ":"%char :: json_print (snd f)) fields)
       ++ ["}"%char])%list
  end.

(** What json.Marshal returns on the value of a document. *)
Definition json_Marshal (j : json) : list N := map N_of_ascii (json_print j).

(** ** The encoders of Go values *)

Definition JUint (n : N) : json := JNumber (Z.of_N n).

(** A struct: the fields that are present, in their order. *)
Definition JStruct (fields : list (list (string * json))) : json := JObject (concat fields).

Definition field (key : string) (value : json) : list (string * json) := [(key, value)].

(** The omitempty options. *)
Definition omit_string (key : string) (value : string) : list (string * json) :=
  if bool_decide (value = "") then [] else field key (JString value).
Definition omit_uint (key : string) (value : N) : list (string * json) :=
  if N.eqb value 0 then [] else field key (JUint value).
Definition omit_nil {A} (key : string) (encode : A -> json) (value : option A) : list (string * json) :=
  match value with Some a => field key (encode a) | None => [] end.

(** A slice: nil prints as null. *)
Definition JSlice {A} (encode : A -> json) (value : option (list A)) : json :=
  match value with Some l => JArray (map encode l) | None => JNull end.

(** base64.StdEncoding, for byte slices. *)
Definition base64_digit (n : N) : ascii :=
  ascii_of_N (if n <? 26 then n + 65 else if n <? 52 then n + 71 else if n <? 62 then n - 4
              else if n =? 62 then 43 else 47).

Fixpoint base64 (l : list N) : list ascii :=
  match l with
  | [] => []
  | [a] => [base64_digit (a / 4); base64_digit (a mod 4 * 16); "="%char; "="%char]
  | [a; b] => [base64_digit (a / 4); base64_digit (a mod 4 * 16 + b / 16);
               base64_digit (b mod 16 * 4); "="%char]
  | a :: b :: c :: r =>
      base64_digit (a / 4) :: base64_digit (a mod 4 * 16 + b / 16)
      :: base64_digit (b mod 16 * 4 + c / 64) :: base64_digit (c mod 64) :: base64 r
  end.

(** A byte slice with omitempty: absent when it is nil or empty. *)
Definition omit_bytes (key : string) (value : option (list N)) : list (string * json) :=
  match value with
  | Some (a :: r) => field key (JString (of_bytes (base64 (a :: r))))
  | _ => []
  end.

(** ** time.Time.MarshalJSON

    The offset of a time's location, in seconds east of UTC, is data of the
    host's time zone database. *)
Class ZoneDatabase := zone_offset : Time -> Z.

Definition days_in_month (leap : bool) : list Z :=
  [31; if leap then 29 else 28; 31; 30; 31; 30; 31; 31; 30; 31; 30; 31]%Z.

Fixpoint month_of (m : Z) (lengths : list Z) (yday : Z) : Z * Z :=
  match lengths with
  | n :: rest => if (yday <? n)%Z then (m, (yday + 1)%Z) else month_of (m + 1) rest (yday - n)
  | [] => (m, (yday + 1)%Z)
  end.

(** The civil date of a day, counted from 1 January of year 1. *)
Definition civil_date (day : Z) : Z * (Z * Z) :=
  let n400 := (day / 146097)%Z in let d := (day mod 146097)%Z in
  let n100 := Z.min (d / 36524) 3 in let d := (d - 36524 * n100)%Z in
  let n4 := (d / 1461)%Z in let d := (d mod 1461)%Z in
  let n1 := Z.min (d / 365) 3 in let yday := (d - 365 * n1)%Z in
  let leap := (n1 =? 3)%Z && (negb (n4 =? 24)%Z || (n100 =? 3)%Z) in
  ((400 * n400 + 100 * n100 + 4 * n4 + n1 + 1)%Z, month_of 1 (days_in_month leap) yday).

(** Zero-padded decimals of a fixed width. *)
Fixpoint padded (width : nat) (z : Z) : list ascii :=
  match width with
  | O => []
  | S w => (padded w (z / 10) ++ [ascii_of_N (Z.to_N (z mod 10) + 48)])%list
  end.

Fixpoint drop_zeros (l : list ascii) : list ascii :=
  match l with "0"%char :: l' => drop_zeros l' | _ => l end.

(** The fraction ".999999999": trailing zeros and an empty fraction vanish. *)
Definition fraction (ns : Z) : list ascii :=
  match drop_zeros (rev (padded 9 ns)) with [] => [] | l => "."%char :: rev l end.

Definition zone_suffix (offset : Z) : list ascii :=
  if (offset =? 0)%Z then ["Z"%char]
  else
    let minutes := Z.abs (Z.quot offset 60) in
    ((if (Z.quot offset 60 <? 0)%Z then "-"%char else "+"%char)
     :: padded 2 (minutes / 60) ++ ":"%char :: padded 2 (minutes mod 60))%list.

(** RFC3339Nano, strict: the year has four digits and the zone less than 24
    hours; [None] is the error of MarshalJSON. *)
Definition json_time `{ZoneDatabase} (t : Time) : option json :=
  let offset := zone_offset t in
  let seconds := (instant t / 1000000000 + offset)%Z in
  let '(year, (month, day)) := civil_date (seconds / 86400) in
  let tod := (seconds mod 86400)%Z in
  if (year <? 0)%Z || (9999 <? year)%Z || (86400 <=? Z.abs (Z.quot offset 60) * 60)%Z then None
  else Some (JString (of_bytes
    (padded 4 year ++ "-"%char :: padded 2 month ++ "-"%char :: padded 2 day ++ "T"%char
     :: padded 2 (tod / 3600) ++ ":"%char :: padded 2 (tod / 60 mod 60) ++ ":"%char
     :: padded 2 (tod mod 60) ++ fraction (instant t mod 1000000000) ++ zone_suffix offset)%list)).

Section examples.
Let utc : ZoneDatabase := fun _ => 0%Z.
Let india : ZoneDatabase := fun _ => 19800%Z.

Example time_utc :
  @json_time utc {| instant := 63082281600000000000; rep := 0 |}
  = Some (JString "2000-01-01T00:00:00Z").
Proof. vm_compute. reflexivity. Qed.
Example time_fraction :
  @json_time india {| instant := 63087465599120000000; rep := 0 |}
  = Some (JString "2000-03-01T05:29:59.12+05:30").
Proof. vm_compute. reflexivity. Qed.
End examples.

Example base64_text : map base64 [[102]; [102; 111]; [102; 111; 111; 98]; [251; 255; 191]]
  = map bytes ["Zg=="; "Zm8="; "Zm9vYg=="; "+/+/"].
Proof. vm_compute. reflexivity. Qed.
Example print_object :
  of_bytes (filter (fun c => c <> c_quote) (json_print
    (JStruct [field "a" (JNumber (-12)); omit_string "b" ""; omit_uint "c" 7;
              field "d" (JArray [JNull; JBool true; JString (string_of_codes [60; 226; 128; 168; 255])])])))
  = "{a:-12,c:7,d:[null,true,\u003c\u2028\ufffd]}".
Proof. vm_compute. reflexivity. Qed.

(** ** The printer is injective, up to invalid UTF-8

    A string's quotation is a sequence of self-delimiting escapes: [unescape]
    reads one back from the front of a text. *)

Definition unescape_u (l : list ascii) : option (rune * list ascii) :=
  match l with
  | "0"%char :: "0"%char :: h :: k :: rest =>
      match hex_val h, hex_val k with
      | Some x, Some y => Some (Rune [ascii_of_N (16 * x + y)], rest)
      | _, _ => None
      end
  | "f"%char :: "f"%char :: "f"%char :: "d"%char :: rest => Some (RuneError, rest)
  | "2"%char :: "0"%char :: "2"%char :: "8"%char :: rest => Some (Rune line_separator, rest)
  | "2"%char :: "0"%char :: "2"%char :: "9"%char :: rest => Some (Rune paragraph_separator, rest)
  | _ => None
  end.

Definition unescape (l : list ascii) : option (rune * list ascii) :=
  match l with
  | [] => None
  | c :: l' =>
      if Ascii.eqb c c_quote then None
      else if Ascii.eqb c c_backslash then
        match l' with
        | "u"%char :: rest => unescape_u rest
        | "b"%char :: rest => Some (Rune [ascii_of_N 8], rest)
        | "f"%char :: rest => Some (Rune [ascii_of_N 12], rest)
        | "n"%char :: rest => Some (Rune [ascii_of_N 10], rest)
        | "r"%char :: rest => Some (Rune [ascii_of_N 13], rest)
        | "t"%char :: rest => Some (Rune [ascii_of_N 9], rest)
        | d :: rest => Some (Rune [d], rest)
        | [] => None
        end
      else Some (decode_rune c l')
  end.

(** The runes that decoding yields. *)
Definition rune_ok (r : rune) : Prop :=
  match r with
  | RuneError => True
  | Rune (c :: tl) => decode_rune c tl = (Rune (c :: tl), [])
  | Rune [] => False
  end.

Lemma decode_rune_local c tl x :
  decode_rune c tl = (Rune (c :: tl), []) -> decode_rune c (tl ++ x) = (Rune (c :: tl), x).
Proof.
  unfold decode_rune. destruct (utf8_lead c) as [[n second] |]; [| done].
  destruct n as [| [| [| [| n]]]]; destruct tl as [| c1 [| c2 [| c3 [| c4 tl]]]]; cbn; try done;
    repeat go_case; congruence.
Qed.

Lemma decode_rune_ok c l r rest :
  decode_rune c l = (r, rest) ->
  rune_ok r /\ (length rest <= length l)%nat /\ (r = RuneError \/ (c :: l = rune_text r ++ rest)%list).
Proof.
  unfold decode_rune, rune_ok. intros H.
  destruct (utf8_lead c) as [[n second] |] eqn:Hl; [| by injection H as <- <-; auto].
  destruct n as [| [| [| [| n]]]]; repeat go_case_in H; injection H as <- <-;
    repeat split; auto; cbn; unfold decode_rune; rewrite ?Hl; repeat go_case; cbn in *; try lia; try congruence; auto.
Qed.

Lemma decode_runes_ok n l : Forall rune_ok (decode_runes n l).
Proof.
  revert l; induction n as [| n IH]; intros [| c l]; cbn; try constructor.
  destruct (decode_rune c l) as [r rest] eqn:H. constructor; [| apply IH].
  by apply decode_rune_ok in H as (? & _).
Qed.

Lemma decode_runes_text n l :
  (length l <= n)%nat -> forallb valid_rune (decode_runes n l) = true ->
  concat (map rune_text (decode_runes n l)) = l.
Proof.
  revert l; induction n as [| n IH]; intros [| c l] Hn; cbn in *; try done; try lia.
  destruct (decode_rune c l) as [r rest] eqn:H. cbn. rewrite andb_true_iff. intros [Hr Hv].
  apply decode_rune_ok in H as (_ & Hlen & [-> | Heq]); [done |].
  rewrite IH; [by rewrite <- Heq | lia | done].
Qed.

Lemma utf8_text_valid s : valid_utf8 s = true -> utf8_text s = s.
Proof.
  intros H. unfold utf8_text, runes. rewrite decode_runes_text; [apply of_bytes_bytes | done | done].
Qed.

(** The escapes of the 128 one-byte runes, by evaluation. *)
Lemma unescape_ascii c x :
  decode_rune c [] = (Rune [c], []) -> unescape (escape_ascii c ++ x) = Some (Rune [c], x).
Proof. destruct c as [[] [] [] [] [] [] [] []]; try discriminate; reflexivity. Qed.

Lemma not_ascii_lead c : decode_rune c [] <> (Rune [c], []) -> c <> c_quote /\ c <> c_backslash.
Proof. intros H. by split; intros ->. Qed.

Lemma decode_rune_long c c1 tl :
  decode_rune c (c1 :: tl) = (Rune (c :: c1 :: tl), []) -> decode_rune c [] <> (Rune [c], []).
Proof.
  unfold decode_rune. destruct (utf8_lead c) as [[[| [| n]] second] |]; try done.
  by destruct n as [| [| n]].
Qed.

Lemma unescape_escape r x : rune_ok r -> unescape (escape_rune r ++ x) = Some (r, x).
Proof.
  destruct r as [[| c [| c1 tl]] |]; cbn [rune_ok]; [done | | | reflexivity].
  - intros H. by apply unescape_ascii.
  - intros H. unfold escape_rune. case_bool_decide as E; [by rewrite E |].
    case_bool_decide as E'; [by rewrite E' |].
    destruct (not_ascii_lead c) as [Hq Hb]; [by eapply decode_rune_long |].
    cbn [app unescape]. apply Ascii.eqb_neq in Hq as ->. apply Ascii.eqb_neq in Hb as ->.
    f_equal. exact (decode_rune_local c (c1 :: tl) x H).
Qed.

Lemma quoted_runes_inj rs rs' x y :
  Forall rune_ok rs -> Forall rune_ok rs' ->
  (concat (map escape_rune rs) ++ c_quote :: x = concat (map escape_rune rs') ++ c_quote :: y)%list ->
  rs = rs' /\ x = y.
Proof.
  intros Hrs; revert rs'. induction Hrs as [| r rs Hr _ IH]; intros rs' Hrs' H; destruct Hrs' as [| r' rs' Hr' Hrs'].
  - by injection H as ->.
  - cbn in H. rewrite <- app_assoc in H. apply (f_equal unescape) in H.
    by rewrite unescape_escape in H by done.
  - cbn in H. rewrite <- app_assoc in H. apply (f_equal unescape) in H.
    by rewrite unescape_escape in H by done.
  - cbn in H. rewrite <- !app_assoc in H. apply (f_equal unescape) in H.
    rewrite !unescape_escape in H by done. injection H as -> H.
    by destruct (IH rs' Hrs' H) as [-> ->].
Qed.

Lemma json_quote_inj s t x y :
  (json_quote s ++ x = json_quote t ++ y)%list -> utf8_text s = utf8_text t /\ x = y.
Proof.
  unfold json_quote, utf8_text. cbn [app]. rewrite <- !app_assoc. intros [= H].
  apply quoted_runes_inj in H as [-> ->]; [done | apply decode_runes_ok ..].
Qed.

#[global] Arguments json_quote : simpl never.

(** What may follow a document inside another: anything but a digit. *)
Definition delimited (x : list ascii) : Prop :=
  match x with c :: _ => is_digit c = false | [] => True end.

Lemma digits_inj d d' x y :
  forallb is_digit d = true -> forallb is_digit d' = true -> delimited x -> delimited y ->
  (d ++ x = d' ++ y)%list -> d = d' /\ x = y.
Proof.
  intros Hd; revert d'. induction d as [| c d IH]; intros [| c' d'] Hd' Hx Hy; cbn in *.
  - done.
  - intros ->. cbn in Hx. by rewrite Hx in Hd'.
  - intros <-. cbn in Hy. by rewrite Hy in Hd.
  - go_bool. intros [= -> H]. destruct (IH ltac:(tauto) d') as [-> ->]; tauto.
Qed.

Lemma json_number_inj z z' x y :
  delimited x -> delimited y -> (json_number z ++ x = json_number z' ++ y)%list -> z = z' /\ x = y.
Proof.
  unfold json_number. intros Hx Hy.
  destruct (format_bytes_spec (Z.abs_N z)) as (Hd & Hv & c & l & Hl & _).
  destruct (format_bytes_spec (Z.abs_N z')) as (Hd' & Hv' & c' & l' & Hl' & _).
  assert (forall c l, format_bytes (Z.abs_N z) = c :: l \/ format_bytes (Z.abs_N z') = c :: l -> c <> "-"%char) as Hm.
  { intros ? ? [E | E] ->; [rewrite E in Hd | rewrite E in Hd']; done. }
  destruct (Z.ltb_spec z 0), (Z.ltb_spec z' 0); cbn [app]; rewrite <- ?app_assoc; cbn [app].
  1: intros [= H']; apply digits_inj in H' as [E ->]; [split; [| done] | done ..]; rewrite E in Hv; lia.
  - rewrite Hl'. intros [= E _]. by destruct (Hm _ _ (or_intror Hl')).
  - rewrite Hl. intros [= E _]. by destruct (Hm _ _ (or_introl Hl)).
  - intros H'; apply digits_inj in H' as [E ->]; [split; [| done] | done ..]; rewrite E in Hv; lia.
Qed.

(** Documents up to the bytes that are not UTF-8. *)
Fixpoint json_text (j : json) : json :=
  match j with
  | JNull => JNull
  | JBool b => JBool b
  | JNumber z => JNumber z
  | JString s => JString (utf8_text s)
  | JArray l => JArray (map json_text l)
  | JObject fields => JObject (map (fun f => (utf8_text (fst f), json_text (snd f))) fields)
  end.

Fixpoint json_utf8 (j : json) : bool :=
  match j with
  | JNull | JBool _ | JNumber _ => true
  | JString s => valid_utf8 s
  | JArray l => forallb json_utf8 l
  | JObject fields => forallb (fun f => valid_utf8 (fst f) && json_utf8 (snd f)) fields
  end.

Section json_induction.
Context (P : json -> Prop).
Hypothesis H_null : P JNull.
Hypothesis H_bool : forall b, P (JBool b).
Hypothesis H_number : forall z, P (JNumber z).
Hypothesis H_string : forall s, P (JString s).
Hypothesis H_array : forall l, Forall P l -> P (JArray l).
Hypothesis H_object : forall fs, Forall (fun f => P (snd f)) fs -> P (JObject fs).

Fixpoint json_nested_ind (j : json) : P j :=
  match j with
  | JNull => H_null
  | JBool b => H_bool b
  | JNumber z => H_number z
  | JString s => H_string s
  | JArray l =>
      H_array l ((fix go l : Forall P l :=
                    match l with [] => List.Forall_nil _ | j :: r => List.Forall_cons _ j r (json_nested_ind j) (go r) end) l)
  | JObject fs =>
      H_object fs ((fix go fs : Forall (fun f => P (snd f)) fs :=
                      match fs with [] => List.Forall_nil _ | f :: r => List.Forall_cons _ f r (json_nested_ind (snd f)) (go r) end) fs)
  end.
End json_induction.

Lemma json_text_utf8 j : json_utf8 j = true -> json_text j = j.
Proof.
  induction j as [| | | s | l IH | fs IH] using json_nested_ind; cbn; try done.
  - intros H. by rewrite utf8_text_valid.
  - intros H. f_equal. induction IH as [| j l Hj _ IHl]; cbn in *; [done |].
    go_bool. destruct H as [Hv Hf]. rewrite Hj by done. f_equal. by apply IHl.
  - intros H. f_equal. induction IH as [| [k j] l Hj _ IHl]; cbn in *; [done |].
    rewrite !andb_true_iff in H. destruct H as [[Hk Hv] Hf].
    rewrite Hj, utf8_text_valid by done. f_equal. by apply IHl.
Qed.

(** The first byte tells the kind of a document, and never closes or continues
    an array. *)
Lemma json_print_head j :
  exists c l, json_print j = c :: l /\
  match j with
  | JNull => c = "n"%char | JBool true => c = "t"%char | JBool false => c = "f"%char
  | JNumber _ => c = "-"%char \/ is_digit c = true
  | JString _ => c = c_quote | JArray _ => c = "["%char | JObject _ => c = "{"%char
  end.
Proof.
  destruct j as [| [] | z | | |]; cbn; eauto.
  unfold json_number. destruct (format_bytes_spec (Z.abs_N z)) as (Hd & _ & c & l & Hl & _).
  rewrite Hl in *. cbn in Hd. go_bool. destruct (z <? 0)%Z; cbn; eauto.
  exists c, l. split; [done | right; tauto].
Qed.

(** Sequences of self-delimiting items between separators. *)
Lemma sep_by_inj {A B} (print : A -> list ascii) (text : A -> B) (close : ascii) l l' x y :
  close <> ","%char -> is_digit close = false ->
  (forall a, match print a with c :: _ => c <> close | [] => False end) ->
  Forall (fun a => forall b x y, delimited x -> delimited y ->
            (print a ++ x = print b ++ y)%list -> text a = text b /\ x = y) l ->
  (sep_by ","%char (map print l) ++ close :: x = sep_by ","%char (map print l') ++ close :: y)%list ->
  map text l = map text l' /\ x = y.
Proof.
  intros Hne Hdig Hhead Hl. revert l'. induction Hl as [| a l Ha Hl IH]; intros [| b l'] H.
  - by injection H as ->.
  - exfalso. specialize (Hhead b). cbn in H. destruct (print b); [done |]. cbn in H.
    destruct (map print l'); injection H as E _; by apply Hhead.
  - exfalso. specialize (Hhead a). cbn in H. destruct (print a); [done |]. cbn in H.
    destruct (map print l); injection H as E _; by apply Hhead.
  - destruct l as [| a2 l], l' as [| b2 l']; unfold sep_by in *; cbn [map join_with] in *;
      rewrite <- ?app_assoc in H; apply Ha in H as [E H]; try done; cbn [app] in H; try congruence.
    + injection H as ->. by rewrite E.
    + injection H as H. destruct (IH (b2 :: l')) as [E' ->]; [exact H |].
      cbn [map] in E'. by rewrite E, E'.
Qed.

Definition print_member (f : string * json) : list ascii :=
  (json_quote (fst f) ++ ":"%char :: json_print (snd f))%list.

Lemma json_print_array l x :
  (json_print (JArray l) ++ x)%list = "["%char :: (sep_by ","%char (map json_print l) ++ "]"%char :: x)%list.
Proof. cbn [json_print app]. by rewrite <- app_assoc. Qed.

Lemma json_print_object fs x :
  (json_print (JObject fs) ++ x)%list = "{"%char :: (sep_by ","%char (map print_member fs) ++ "}"%char :: x)%list.
Proof. cbn [json_print app]. by rewrite <- app_assoc. Qed.

Lemma json_print_inj_delimited j : forall j' x y, delimited x -> delimited y ->
  (json_print j ++ x = json_print j' ++ y)%list -> json_text j = json_text j' /\ x = y.
Proof.
  assert (forall a close, close = "]"%char \/ close = "}"%char ->
            match json_print a with c :: _ => c <> close | [] => False end) as Hhead.
  { intros a close Hc. destruct (json_print_head a) as (c & l & -> & Hk).
    intros ->. destruct a as [| [] | | | |], Hc; subst; try done; by destruct Hk. }
  assert (forall j j' x y, (json_print j ++ x = json_print j' ++ y)%list ->
            match j, j' with
            | JNull, JNull | JBool _, JBool _ | JNumber _, JNumber _ | JString _, JString _
            | JArray _, JArray _ | JObject _, JObject _ => True
            | _, _ => False
            end) as Hkind.
  { intros a b x y H. destruct (json_print_head a) as (c & l & Ea & Ha), (json_print_head b) as (d & r & Eb & Hb).
    rewrite Ea, Eb in H. injection H as -> _. clear Ea Eb.
    destruct a as [| [] | | | |], b as [| [] | | | |]; try done; subst; try done;
      repeat match goal with H : _ \/ _ |- _ => destruct H end; subst; done. }
  induction j as [| b | z | s | l IH | fs IH] using json_nested_ind; intros j' x y Hx Hy H;
    pose proof (Hkind _ _ _ _ H) as Hk; destruct j' as [| b' | z' | s' | l' | fs']; try done; clear Hk.
  - by injection H as ->.
  - destruct b, b'; try done; by injection H as ->.
  - apply json_number_inj in H as [-> ->]; done.
  - apply json_quote_inj in H as [E ->]. cbn; by rewrite E.
  - rewrite !json_print_array in H. injection H as H.
    apply (sep_by_inj json_print json_text) in H as [E ->]; [cbn; by rewrite E | done | done | | done].
    intros a. apply Hhead. by left.
  - rewrite !json_print_object in H. injection H as H.
    apply (sep_by_inj print_member (fun f => (utf8_text (fst f), json_text (snd f)))) in H as [E ->];
      [cbn; by rewrite E | done | done | done |].
    eapply Forall_impl; [exact IH |]. intros [k v] Hv [k' v'] x' y' Hx' Hy'. unfold print_member. cbn [fst snd] in *.
    rewrite <- (app_assoc (json_quote k)), <- (app_assoc (json_quote k')). intros Hp.
    apply json_quote_inj in Hp as [Ek Hp]. cbn [app] in Hp. injection Hp as Hp.
    apply Hv in Hp as [Ev ->]; [| done ..]. by rewrite Ek, Ev.
Qed.

(** Two documents with the same bytes are the same up to invalid UTF-8. *)
Theorem json_print_inj j j' : json_print j = json_print j' -> json_text j = json_text j'.
Proof.
  intros H. apply (json_print_inj_delimited j j' [] []); [done | done |]. by rewrite H.
Qed.

Lemma json_Marshal_inj j j' : json_Marshal j = json_Marshal j' -> json_text j = json_text j'.
Proof.
  unfold json_Marshal. intros H. apply json_print_inj.
  revert H. generalize (json_print j) (json_print j'). intros l; induction l as [| a l IH]; intros [| b r]; cbn; try done.
  intros [= E H]. f_equal; [| by apply IH].
  by rewrite <- (ascii_N_embedding a), E, ascii_N_embedding.
Qed.

(** Bytes that are not UTF-8 are not told apart. *)
Example invalid_utf8_collapses :
  json_Marshal (JString (string_of_codes [255])) = json_Marshal (JString (string_of_codes [254])).
Proof. vm_compute. reflexivity. Qed.

#[global] Arguments json_Marshal : simpl never.
#[global] Arguments json_print : simpl never.

(** ** Objects with omitted fields

    A field that is absent when it is zero can be read back, because its key is
    not a key of the rest of the object. *)

Definition absent (key : string) (fields : list (string * json)) : Prop :=
  Forall (fun f => fst f <> key) fields.

Lemma absent_app key l l' : absent key l -> absent key l' -> absent key (l ++ l').
Proof. intros. by apply Forall_app. Qed.
Lemma absent_nil key : absent key [].
Proof. constructor. Qed.
Lemma absent_field key k v : k <> key -> absent key (field k v).
Proof. by repeat constructor. Qed.
Lemma absent_omit_string key k v : k <> key -> absent key (omit_string k v).
Proof. unfold omit_string. case_bool_decide; [constructor | by apply absent_field]. Qed.
Lemma absent_omit_uint key k v : k <> key -> absent key (omit_uint k v).
Proof. unfold omit_uint. destruct (v =? 0); [constructor | by apply absent_field]. Qed.
Lemma absent_omit_nil {A} key k (f : A -> json) v : k <> key -> absent key (omit_nil k f v).
Proof. destruct v; [apply absent_field | constructor]. Qed.
Lemma absent_omit_bytes key k v : k <> key -> absent key (omit_bytes k v).
Proof. destruct v as [[|] |]; try constructor; by try apply absent_field. Qed.

Create HintDb json_absent.
#[export] Hint Resolve absent_app absent_nil absent_field absent_omit_string absent_omit_uint absent_omit_nil
  absent_omit_bytes : json_absent.
#[export] Hint Extern 1 (_ <> _) => discriminate : json_absent.

(** One field, present or omitted, in front of two objects. *)
Lemma head_inj key (o o' : option json) r r' :
  absent key r -> absent key r' ->
  (from_option (field key) [] o ++ r = from_option (field key) [] o' ++ r')%list -> o = o' /\ r = r'.
Proof.
  intros Hr Hr'. destruct o as [v |], o' as [v' |]; cbn.
  - by intros [= -> ->].
  - intros <-. by apply Forall_cons in Hr' as [[] _].
  - intros ->. by apply Forall_cons in Hr as [[] _].
  - done.
Qed.

Lemma field_inj key v v' r r' : (field key v ++ r = field key v' ++ r')%list -> v = v' /\ r = r'.
Proof. by intros [= -> ->]. Qed.

Lemma omit_string_head key v :
  omit_string key v = from_option (field key) [] (if bool_decide (v = "") then None else Some (JString v)).
Proof. unfold omit_string. by case_bool_decide. Qed.

Lemma omit_uint_head key v :
  omit_uint key v = from_option (field key) [] (if v =? 0 then None else Some (JUint v)).
Proof. unfold omit_uint. by destruct (v =? 0). Qed.

Lemma JUint_inj n m : JUint n = JUint m -> n = m.
Proof. unfold JUint. intros [= H]. lia. Qed.

Lemma omit_string_inj key v v' r r' :
  absent key r -> absent key r' ->
  (omit_string key v ++ r = omit_string key v' ++ r')%list -> v = v' /\ r = r'.
Proof.
  rewrite !omit_string_head. intros Hr Hr' H. apply head_inj in H as [H ->]; [split; [| done] | done ..].
  by repeat case_bool_decide; simplify_eq.
Qed.

Lemma omit_uint_inj key v v' r r' :
  absent key r -> absent key r' ->
  (omit_uint key v ++ r = omit_uint key v' ++ r')%list -> v = v' /\ r = r'.
Proof.
  rewrite !omit_uint_head. intros Hr Hr' H. apply head_inj in H as [H ->]; [split; [| done] | done ..].
  destruct (N.eqb_spec v 0), (N.eqb_spec v' 0); try discriminate H; [by subst |].
  apply (inj Some) in H. by apply JUint_inj.
Qed.

Lemma omit_nil_inj {A} (f : A -> json) key v v' r r' :
  (forall a a', f a = f a' -> a = a') -> absent key r -> absent key r' ->
  (omit_nil key f v ++ r = omit_nil key f v' ++ r')%list -> v = v' /\ r = r'.
Proof.
  intros Hf Hr Hr' H.
  assert (from_option (field key) [] (f <$> v) ++ r = from_option (field key) [] (f <$> v') ++ r')%list as H'
    by (destruct v, v'; exact H).
  apply head_inj in H' as [H' ->]; [| done ..]. clear H. rename H' into H.
  split; [| done]. destruct v, v'; simplify_eq/=; [f_equal; by apply Hf | done].
Qed.

(** ** base64 is injective on bytes *)

Definition base64_val (c : ascii) : N :=
  let n := N_of_ascii c in
  if (65 <=? n) && (n <=? 90) then n - 65 else if (97 <=? n) && (n <=? 122) then n - 71
  else if (48 <=? n) && (n <=? 57) then n + 4 else if n =? 43 then 62 else if n =? 47 then 63 else 64.

Lemma base64_val_digit n : n < 64 -> base64_val (base64_digit n) = n.
Proof.
  intros Hn. assert (forallb (fun k => base64_val (base64_digit (N.of_nat k)) =? N.of_nat k) (seq 0 64) = true) as H
    by (vm_compute; reflexivity).
  rewrite forallb_forall in H. specialize (H (N.to_nat n)). rewrite N2Nat.id in H.
  apply N.eqb_eq, H, in_seq. lia.
Qed.

Lemma base64_pad n : n < 64 -> Ascii.eqb (base64_digit n) "=" = false.
Proof.
  intros Hn. apply Ascii.eqb_neq. intros E. apply (f_equal base64_val) in E.
  rewrite base64_val_digit in E by done. by subst n.
Qed.

Fixpoint base64_decode (l : list ascii) : list N :=
  match l with
  | w :: x :: y :: z :: r =>
      let '(w', x', y', z') := (base64_val w, base64_val x, base64_val y, base64_val z) in
      let a := w' * 4 + x' / 16 in
      let b := x' mod 16 * 16 + y' / 4 in
      let c := y' mod 4 * 64 + z' in
      if Ascii.eqb y "=" then [a] else if Ascii.eqb z "=" then [a; b] else a :: b :: c :: base64_decode r
  | _ => []
  end.

Lemma base64_decode_encode l : Forall is_byte l -> base64_decode (base64 l) = l.
Proof.
  unfold is_byte. revert l; fix IH 1; intros [| a [| b [| c l]]] Hl;
    repeat match goal with H : Forall _ (_ :: _) |- _ => apply Forall_cons in H as [? H] end;
    cbn [base64 base64_decode]; [done | ..];
    rewrite ?base64_val_digit, ?base64_pad by (zify; Z.to_euclidean_division_equations; lia); cbn [Ascii.eqb Bool.eqb];
    change (Ascii.eqb "=" "=") with true; cbn iota.
  - f_equal. zify; Z.to_euclidean_division_equations; lia.
  - f_equal; [| f_equal]; zify; Z.to_euclidean_division_equations; lia.
  - f_equal; [| f_equal; [| f_equal; [| by apply IH]]]; zify; Z.to_euclidean_division_equations; lia.
Qed.

Lemma base64_inj l l' : Forall is_byte l -> Forall is_byte l' -> base64 l = base64 l' -> l = l'.
Proof. intros Hl Hl' H. by rewrite <- (base64_decode_encode l), H, base64_decode_encode. Qed.

Lemma omit_bytes_inj key v v' r r' :
  v <> Some [] -> v' <> Some [] -> Forall is_byte (default [] v) -> Forall is_byte (default [] v') ->
  absent key r -> absent key r' ->
  (omit_bytes key v ++ r = omit_bytes key v' ++ r')%list -> v = v' /\ r = r'.
Proof.
  intros Hv Hv' Hb Hb' Hr Hr' H. set (f := fun l => JString (of_bytes (base64 l))).
  assert (from_option (field key) [] (f <$> v) ++ r = from_option (field key) [] (f <$> v') ++ r')%list as H'
    by (destruct v as [[|] |], v' as [[|] |]; done || exact H).
  apply head_inj in H' as [H' ->]; [| done ..]. clear H. rename H' into H. unfold f in H.
  split; [| done]. destruct v, v'; simplify_eq/=; [f_equal | done].
  apply base64_inj; [done .. |]. by rewrite <- (bytes_of_bytes (base64 l)), H, bytes_of_bytes.
Qed.

#[export] Instance JUint_Inj : Inj (=) (=) JUint := JUint_inj.
#[export] Instance JString_Inj : Inj (=) (=) JString.
Proof. by intros ? ? [=]. Qed.
#[export] Instance JBool_Inj : Inj (=) (=) JBool.
Proof. by intros ? ? [=]. Qed.
#[export] Instance JNumber_Inj : Inj (=) (=) JNumber.
Proof. by intros ? ? [=]. Qed.
#[export] Instance JArray_Inj : Inj (=) (=) JArray.
Proof. by intros ? ? [=]. Qed.

(** Split an equation between the fields of two structs, or between two
    structs, into the equations of their fields. *)
Ltac json_split H :=
  repeat (let E := fresh "E" in first
    [ apply field_inj in H as [E H]
    | apply omit_string_inj in H as [E H]; [| solve [eauto 60 with json_absent] ..]
    | apply omit_uint_inj in H as [E H]; [| solve [eauto 60 with json_absent] ..] ]).

Ltac json_fields H :=
  unfold JStruct in H; apply (f_equal (fun j => match j with JObject fs => fs | _ => [] end)) in H;
  cbn [concat] in H; json_split H.

Ltac json_values :=
  repeat match goal with H : ?f _ = ?f _ |- _ => apply (inj f) in H end.

(** The injectivity of the encoder of a record all of whose encoders are. *)
Ltac solve_json_inj :=
  let a := fresh in let b := fresh in let H := fresh "H" in
  intros a b H; destruct a, b;
  match type of H with ?f _ = _ => unfold f in H end; cbn in H |- *;
  json_fields H; json_values; by subst.
