(* ===== verification/JsonParse.v ===== *)
(** * encoding/json, as far as the Runtime decodes documents with it

    The grammar of the scanner (strings, numbers, literals, objects and arrays
    up to the nesting limit), the value tree it yields, and json.Decoder into
    structs with DisallowUnknownFields: field lookup by name and then by folded
    name, null, type mismatches, merging into what the target already holds.
    [json_parse_print] reads back what json.Marshal prints.  Nothing here models a
    file of the repository. *)

From S2P Require Import Prelude GoStd Json.
From Stdlib Require Import Ascii.

Local Open Scope N_scope.

(** ** Values *)

(** A number keeps its literal: the target decides what it means. *)
Inductive jvalue :=
| VNull
| VBool (b : bool)
| VNumber (literal : list ascii)
| VString (s : string)
| VArray (l : list jvalue)
| VObject (members : list (string * jvalue)).

(** ** Strings *)

Definition is_space (c : ascii) : bool :=
  let n := N_of_ascii c in (n =? 32) || (n =? 9) || (n =? 10) || (n =? 13).

Fixpoint skip_space (l : list ascii) : list ascii :=
  match l with c :: r => if is_space c then skip_space r else l | [] => [] end.

(** utf8.AppendRune on a code point that is not a surrogate. *)
Definition utf8_encode (n : N) : list ascii :=
  map ascii_of_N
    (if n <? 128 then [n]
     else if n <? 2048 then [192 + n / 64; 128 + n mod 64]
     else if n <? 65536 then [224 + n / 4096; 128 + n / 64 mod 64; 128 + n mod 64]
     else [240 + n / 262144; 128 + n / 4096 mod 64; 128 + n / 64 mod 64; 128 + n mod 64]).

(** utf8.RuneError, U+FFFD. *)
Definition replacement : list ascii := utf8_encode 65533.

Definition hex4 (l : list ascii) : option (N * list ascii) :=
  match l with
  | a :: b :: c :: d :: r =>
      match hex_val a, hex_val b, hex_val c, hex_val d with
      | Some x, Some y, Some z, Some w => Some (4096 * x + 256 * y + 16 * z + w, r)
      | _, _, _, _ => None
      end
  | _ => None
  end.

Definition is_surrogate (n : N) : bool := (55296 <=? n) && (n <? 57344).

(** The rest of "\u": a code point, a surrogate pair, or a lone surrogate, which
    is replaced. *)
Definition string_u (l : list ascii) : option (list ascii * list ascii) :=
  match hex4 l with
  | None => None
  | Some (rr, r) =>
      if is_surrogate rr then
        match r with
        | b :: "u"%char :: r1 =>
            match (if Ascii.eqb b c_backslash then hex4 r1 else None) with
            | Some (rr1, r2) =>
                if (rr <? 56320) && (56320 <=? rr1) && (rr1 <? 57344)
                then Some (utf8_encode ((rr - 55296) * 1024 + (rr1 - 56320) + 65536), r2)
                else Some (replacement, r)
            | None => Some (replacement, r)
            end
        | _ => Some (replacement, r)
        end
      else Some (utf8_encode rr, r)
  end.

(** One character of a string literal: its text and what follows it. *)
Definition string_item (l : list ascii) : option (list ascii * list ascii) :=
  match l with
  | [] => None
  | c :: l' =>
      if Ascii.eqb c c_quote then None
      else if Ascii.eqb c c_backslash then
        match l' with
        | "u"%char :: rest => string_u rest
        | "b"%char :: rest => Some ([ascii_of_N 8], rest)
        | "f"%char :: rest => Some ([ascii_of_N 12], rest)
        | "n"%char :: rest => Some ([ascii_of_N 10], rest)
        | "r"%char :: rest => Some ([ascii_of_N 13], rest)
        | "t"%char :: rest => Some ([ascii_of_N 9], rest)
        | "/"%char :: rest => Some (["/"%char], rest)
        | d :: rest => if Ascii.eqb d c_backslash || Ascii.eqb d c_quote then Some ([d], rest) else None
        | [] => None
        end
      else if N_of_ascii c <? 32 then None
      else
        let '(r, rest) := decode_rune c l' in
        Some (match r with Rune bs => bs | RuneError => replacement end, rest)
  end.

(** The text of a literal behind its opening quote, and what follows its
    closing quote. *)
Fixpoint scan_string (fuel : nat) (l : list ascii) : option (list ascii * list ascii) :=
  match l with
  | [] => None
  | c :: r =>
      if Ascii.eqb c c_quote then Some ([], r)
      else match fuel with
           | O => None
           | S fuel' =>
               '(text, rest) ← string_item l ;
               '(text', rest') ← scan_string fuel' rest ;
               Some ((text ++ text')%list, rest')
           end
  end.

(** ** Numbers *)

Fixpoint take_digits (l : list ascii) : list ascii * list ascii :=
  match l with
  | c :: r => if is_digit c then let '(d, rest) := take_digits r in (c :: d, rest) else ([], l)
  | [] => ([], [])
  end.

Definition digits1 (l : list ascii) : option (list ascii * list ascii) :=
  match take_digits l with ([], _) => None | (d, rest) => Some (d, rest) end.

Definition scan_int (l : list ascii) : option (list ascii * list ascii) :=
  match l with
  | "0"%char :: r => Some (["0"%char], r)
  | _ => digits1 l
  end.

Definition scan_frac (l : list ascii) : option (list ascii * list ascii) :=
  match l with
  | "."%char :: r => '(d, rest) ← digits1 r ; Some ("."%char :: d, rest)
  | _ => Some ([], l)
  end.

Definition scan_exp (l : list ascii) : option (list ascii * list ascii) :=
  match l with
  | c :: r =>
      if Ascii.eqb c "e" || Ascii.eqb c "E" then
        let '(sign, r') := match r with
                           | "+"%char :: r' => (["+"%char], r')
                           | "-"%char :: r' => (["-"%char], r')
                           | _ => ([], r)
                           end in
        '(d, rest) ← digits1 r' ; Some (c :: sign ++ d, rest)%list
      else Some ([], l)
  | [] => Some ([], l)
  end.

Definition scan_number (l : list ascii) : option (list ascii * list ascii) :=
  let '(sign, l) := match l with "-"%char :: r => (["-"%char], r) | _ => ([], l) end in
  '(int, l) ← scan_int l ;
  '(frac, l) ← scan_frac l ;
  '(exp, l) ← scan_exp l ;
  Some (sign ++ int ++ frac ++ exp, l)%list.

(** ** The parser *)

Definition maxNestingDepth : N := 10000.

Definition scan_scalar (l : list ascii) : option (jvalue * list ascii) :=
  match l with
  | [] => None
  | c :: r =>
      if Ascii.eqb c c_quote then
        '(text, rest) ← scan_string (length r) r ; Some (VString (of_bytes text), rest)
      else if Ascii.eqb c "t" then rest ← strip_prefix (bytes "true") l ; Some (VBool true, rest)
      else if Ascii.eqb c "f" then rest ← strip_prefix (bytes "false") l ; Some (VBool false, rest)
      else if Ascii.eqb c "n" then rest ← strip_prefix (bytes "null") l ; Some (VNull, rest)
      else '(literal, rest) ← scan_number l ; Some (VNumber literal, rest)
  end.

(** Behind an entry of an object or an array: a comma and [more], or the end. *)
Definition after_entry {A} (close : ascii) (more : list ascii -> option (list A * list ascii)) (entry : A)
    (l : list ascii) : option (list A * list ascii) :=
  match skip_space l with
  | c :: r =>
      if Ascii.eqb c "," then '(entries, rest) ← more r ; Some (entry :: entries, rest)
      else if Ascii.eqb c close then Some ([entry], r)
      else None
  | [] => None
  end.

(** The value at the front of a text, below [depth] open containers.  An
    item or a member takes at least one byte before the next call on the same
    text, so that twice the length is enough fuel ([parse_value_enough]). *)
Fixpoint parse_value (fuel : nat) (depth : N) (l : list ascii) {struct fuel} : option (jvalue * list ascii) :=
  match fuel with
  | O => None
  | S fuel' =>
      match skip_space l with
      | [] => None
      | c :: r =>
          if Ascii.eqb c "{" then
            if maxNestingDepth <=? depth then None
            else match skip_space r with
                 | "}"%char :: rest => Some (VObject [], rest)
                 | _ => '(members, rest) ← parse_members fuel' (depth + 1) r ; Some (VObject members, rest)
                 end
          else if Ascii.eqb c "[" then
            if maxNestingDepth <=? depth then None
            else match skip_space r with
                 | "]"%char :: rest => Some (VArray [], rest)
                 | _ => '(items, rest) ← parse_items fuel' (depth + 1) r ; Some (VArray items, rest)
                 end
          else scan_scalar (c :: r)
      end
  end
with parse_members (fuel : nat) (depth : N) (l : list ascii) {struct fuel}
  : option (list (string * jvalue) * list ascii) :=
  match fuel with
  | O => None
  | S fuel' =>
      match skip_space l with
      | c :: r =>
          if Ascii.eqb c c_quote then
            '(key, r) ← scan_string (length r) r ;
            match skip_space r with
            | ":"%char :: r =>
                '(value, r) ← parse_value fuel' depth r ;
                after_entry "}" (parse_members fuel' depth) (of_bytes key, value) r
            | _ => None
            end
          else None
      | [] => None
      end
  end
with parse_items (fuel : nat) (depth : N) (l : list ascii) {struct fuel}
  : option (list jvalue * list ascii) :=
  match fuel with
  | O => None
  | S fuel' =>
      '(value, r) ← parse_value fuel' depth l ;
      after_entry "]" (parse_items fuel' depth) value r
  end.

(** One document and what follows it. *)
Definition parse (l : list ascii) : option (jvalue * list ascii) := parse_value (S (2 * length l)) 0 l.

(** ** Decoding into Go values

    A decoder is given the value and what its target holds; [None] is the
    error that Decode returns at the end. *)

Definition Decoder (T : Type) : Type := jvalue -> T -> option T.

Definition decode_string : Decoder string := fun v current =>
  match v with VNull => Some current | VString s => Some s | _ => None end.

Definition decode_bool : Decoder bool := fun v current =>
  match v with VNull => Some current | VBool b => Some b | _ => None end.

Definition decode_uint64 : Decoder N := fun v current =>
  match v with VNull => Some current | VNumber literal => ParseUint literal | _ => None end.

(** A struct component of a larger target. *)
Definition decode_at {S T} (get : S -> T) (set : T -> S -> S) (decode : Decoder T) : Decoder S :=
  fun v s => x ← decode v (get s) ; Some (set x s).

(** An array into a slice: element i is decoded into the element i that the
    slice has, or into a zero element.  (A slice that was shortened by an
    earlier member keeps its old elements beyond its length; they are zero
    here.) *)
Fixpoint decode_items {T} (decode : Decoder T) (zero : T) (vs : list jvalue) (current : list T) : option (list T) :=
  match vs with
  | [] => Some []
  | v :: vs =>
      let '(x, rest) := match current with x :: rest => (x, rest) | [] => (zero, []) end in
      y ← decode v x ; ys ← decode_items decode zero vs rest ; Some (y :: ys)
  end.

Definition decode_slice {T} (decode : Decoder T) (zero : T) : Decoder (option (list T)) := fun v current =>
  match v with
  | VNull => Some None
  | VArray vs => Some <$> decode_items decode zero vs (default [] current)
  | _ => None
  end.

(** *** base64.StdEncoding.Decode *)

Definition std_base64_val (c : ascii) : option N :=
  let n := N_of_ascii c in
  if (65 <=? n) && (n <=? 90) then Some (n - 65)
  else if (97 <=? n) && (n <=? 122) then Some (n - 71)
  else if (48 <=? n) && (n <=? 57) then Some (n + 4)
  else if n =? 43 then Some 62
  else if n =? 47 then Some 63
  else None.

Definition padding : ascii := "="%char.

(** Quanta of four characters, the last of which may be padded; the unused bits
    of a padded quantum are not looked at. *)
Fixpoint std_base64_quanta (l : list ascii) : option (list N) :=
  match l with
  | [] => Some []
  | a :: b :: c :: d :: r =>
      match std_base64_val a, std_base64_val b with
      | Some x, Some y =>
          let first := 4 * x + y / 16 in
          if Ascii.eqb c padding then
            if Ascii.eqb d padding then match r with [] => Some [first] | _ => None end else None
          else
            z ← std_base64_val c ;
            let second := y mod 16 * 16 + z / 4 in
            if Ascii.eqb d padding then match r with [] => Some [first; second] | _ => None end
            else w ← std_base64_val d ; rest ← std_base64_quanta r ;
                 Some (first :: second :: z mod 4 * 64 + w :: rest)
      | _, _ => None
      end
  | _ => None
  end.

(** Line breaks are skipped. *)
Definition std_base64_decode (l : list ascii) : option (list N) :=
  std_base64_quanta (filter (fun c => negb ((N_of_ascii c =? 10) || (N_of_ascii c =? 13)) = true) l).

(** A byte slice: a base64 string, or an array of small numbers. *)
Definition decode_uint8 : Decoder N := fun v current =>
  match v with
  | VNull => Some current
  | VNumber literal => n ← ParseUint literal ; if n <? 256 then Some n else None
  | _ => None
  end.

Definition decode_bytes : Decoder (option (list N)) := fun v current =>
  match v with
  | VString s => Some <$> std_base64_decode (bytes s)
  | _ => decode_slice decode_uint8 0 v current
  end.

(** *** Structs *)

(** The folded name of encoding/json: ASCII letters in upper case, and the two
    other characters that fold to one. *)
Definition fold_rune (r : rune) : rune :=
  match r with
  | Rune [c] => if in_range 97 122 c then Rune [ascii_of_N (N_of_ascii c - 32)] else r
  | Rune bs =>
      if bool_decide (bs = utf8_encode 383) then Rune ["S"%char]
      else if bool_decide (bs = utf8_encode 8490) then Rune ["K"%char]
      else r
  | RuneError => r
  end.
Definition fold_name (name : string) : list rune := map fold_rune (runes name).

Definition find_field {T} (fields : list (string * Decoder T)) (key : string) : option (Decoder T) :=
  match list_find (fun f => f.1 = key) fields with
  | Some (_, (_, decode)) => Some decode
  | None =>
      match list_find (fun f => fold_name f.1 = fold_name key) fields with
      | Some (_, (_, decode)) => Some decode
      | None => None
      end
  end.

Fixpoint decode_members {T} (fields : list (string * Decoder T)) (members : list (string * jvalue)) (current : T)
  : option T :=
  match members with
  | [] => Some current
  | (key, v) :: rest =>
      decode ← find_field fields key ; next ← decode v current ; decode_members fields rest next
  end.

Definition decode_struct {T} (fields : list (string * Decoder T)) : Decoder T := fun v current =>
  match v with
  | VNull => Some current
  | VObject members => decode_members fields members current
  | _ => None
  end.

Example fold_long_s : fold_name (string_of_codes [197; 191; 195; 159]) = fold_name (string_of_codes [83; 195; 159]).
Proof. vm_compute. reflexivity. Qed.

Example parse_example :
  parse (bytes " {'a' : [ 1 , -0.5e+7 , true ] , '\u0041\ud83d\ude00\ud800' : null } x"
         ≫= fun c => if Ascii.eqb c "'" then [c_quote] else [c])
  = Some (VObject [("a", VArray [VNumber (bytes "1"); VNumber (bytes "-0.5e+7"); VBool true]);
                   (string_of_codes [65; 240; 159; 152; 128; 239; 191; 189], VNull)], bytes " x").
Proof. vm_compute. reflexivity. Qed.

(** ** Reading back what json.Marshal prints *)

Definition rune_utf8 (r : rune) : list ascii := match r with Rune bs => bs | RuneError => replacement end.

(** A string with U+FFFD for every byte that is not UTF-8. *)
Definition scrub (s : string) : string := of_bytes (concat (map rune_utf8 (runes s))).

Lemma scrub_valid s : valid_utf8 s = true -> scrub s = s.
Proof.
  intros H. rewrite <- (utf8_text_valid s H) at 2. unfold scrub, utf8_text. f_equal. f_equal.
  unfold valid_utf8 in H. revert H. generalize (runes s). intros rs.
  induction rs as [| [bs |] rs IH]; cbn; [done | | done]. intros H. by rewrite IH.
Qed.

(** The tree that the parser sees. *)
Fixpoint value_of (j : json) : jvalue :=
  match j with
  | JNull => VNull
  | JBool b => VBool b
  | JNumber z => VNumber (json_number z)
  | JString s => VString (scrub s)
  | JArray l => VArray (map value_of l)
  | JObject fields => VObject (map (fun f => (scrub (fst f), value_of (snd f))) fields)
  end.

Lemma string_item_ascii c x :
  decode_rune c [] = (Rune [c], []) -> string_item (escape_ascii c ++ x) = Some ([c], x).
Proof. destruct c as [[] [] [] [] [] [] [] []]; try discriminate; reflexivity. Qed.

Lemma decode_rune_lead_high c c1 tl :
  decode_rune c (c1 :: tl) = (Rune (c :: c1 :: tl), []) -> (N_of_ascii c <? 32) = false.
Proof.
  intros H. apply decode_rune_long in H. destruct (N.ltb_spec (N_of_ascii c) 32) as [Hc |]; [| done].
  destruct H. unfold decode_rune, utf8_lead, in_range at 1.
  by destruct (N.leb_spec (N_of_ascii c) 127), (N.leb_spec 0 (N_of_ascii c)); [| lia ..].
Qed.

Lemma string_item_escape r x : rune_ok r -> string_item (escape_rune r ++ x) = Some (rune_utf8 r, x).
Proof.
  destruct r as [[| c [| c1 tl]] |]; cbn [rune_ok]; [done | | | reflexivity].
  - apply string_item_ascii.
  - intros H. unfold escape_rune. case_bool_decide as E; [by rewrite E |].
    case_bool_decide as E'; [by rewrite E' |].
    destruct (not_ascii_lead c) as [Hq Hb]; [by eapply decode_rune_long |].
    cbn [app string_item]. apply Ascii.eqb_neq in Hq as ->. apply Ascii.eqb_neq in Hb as ->.
    rewrite (decode_rune_lead_high _ _ _ H).
    change (c1 :: tl ++ x)%list with ((c1 :: tl) ++ x)%list. by rewrite (decode_rune_local c (c1 :: tl) x H).
Qed.

Lemma escape_rune_head r :
  rune_ok r -> exists c l, escape_rune r = c :: l /\ Ascii.eqb c c_quote = false.
Proof.
  intros H. pose proof (string_item_escape r [] H) as Hs. rewrite app_nil_r in Hs.
  destruct (escape_rune r) as [| c l]; [done |]. exists c, l. split; [done |].
  unfold string_item in Hs. by destruct (Ascii.eqb c c_quote).
Qed.

Lemma scan_string_escape rs fuel x :
  Forall rune_ok rs -> (length rs <= fuel)%nat ->
  scan_string fuel (concat (map escape_rune rs) ++ c_quote :: x) = Some (concat (map rune_utf8 rs), x).
Proof.
  intros Hrs; revert fuel. induction Hrs as [| r rs Hr _ IH]; intros fuel Hf; [by destruct fuel |].
  destruct fuel as [| fuel]; [cbn in Hf; lia |]. cbn [map concat]. rewrite <- app_assoc.
  pose proof (string_item_escape r (concat (map escape_rune rs) ++ c_quote :: x) Hr) as Hs.
  destruct (escape_rune_head r Hr) as (c & l & E & Hc). rewrite E in *. cbn [app scan_string] in *.
  rewrite Hc, Hs. cbn. rewrite IH by (cbn in Hf; lia). done.
Qed.

Lemma escapes_length rs : Forall rune_ok rs -> (length rs <= length (concat (map escape_rune rs)))%nat.
Proof.
  induction 1 as [| r rs Hr _ IH]; [done |]. destruct (escape_rune_head r Hr) as (c & l & E & _).
  cbn. rewrite E, length_app. cbn. lia.
Qed.

(** The literal behind the opening quote. *)
Lemma scan_string_quote s x :
  let l := (concat (map escape_rune (runes s)) ++ c_quote :: x)%list in
  scan_string (length l) l = Some (bytes (scrub s), x).
Proof.
  cbn. assert (Forall rune_ok (runes s)) as Hok by apply decode_runes_ok.
  rewrite scan_string_escape; [| done |].
  - unfold scrub. by rewrite bytes_of_bytes.
  - pose proof (escapes_length _ Hok). rewrite length_app. lia.
Qed.

(** What may follow a number. *)
Definition number_end (x : list ascii) : Prop :=
  match x with
  | c :: _ => is_digit c = false /\ c <> "."%char /\ c <> "e"%char /\ c <> "E"%char
  | [] => True
  end.

Lemma take_digits_app d x :
  forallb is_digit d = true -> delimited x -> take_digits (d ++ x) = (d, x).
Proof.
  intros Hd Hx. induction d as [| c d IH]; cbn in *.
  - destruct x as [| c x]; [done |]. cbn in *. by rewrite Hx.
  - go_bool. destruct Hd as [-> Hd]. by rewrite IH.
Qed.

Lemma scan_number_print z x : number_end x -> scan_number (json_number z ++ x) = Some (json_number z, x).
Proof.
  intros Hx. assert (delimited x) as Hdx by (destruct x as [| ? ?]; [done | apply Hx]).
  destruct (format_bytes_spec (Z.abs_N z)) as (Hd & _ & c & l & Hl & Hz).
  assert (scan_int (format_bytes (Z.abs_N z) ++ x) = Some (format_bytes (Z.abs_N z), x)) as Hint.
  { destruct (decide (c = "0"%char)) as [-> | Hne].
    - rewrite Hl, (Hz eq_refl). done.
    - rewrite Hl in *. unfold scan_int. change ((c :: l) ++ x)%list with (c :: (l ++ x))%list.
      assert (digits1 (c :: (l ++ x)) = Some (c :: l, x)) as Hdig.
      { unfold digits1. change (c :: (l ++ x)) with ((c :: l) ++ x)%list.
        by rewrite (take_digits_app (c :: l) x). }
      destruct c as [[] [] [] [] [] [] [] []]; done. }
  assert (scan_frac x = Some ([], x)) as Hfrac.
  { destruct x as [| c' x]; [done |]. destruct Hx as (_ & Hx & _).
    destruct c' as [[] [] [] [] [] [] [] []]; done. }
  assert (scan_exp x = Some ([], x)) as Hexp.
  { destruct x as [| c' x]; [done |]. destruct Hx as (_ & _ & He & HE). cbn.
    apply Ascii.eqb_neq in He as ->. by apply Ascii.eqb_neq in HE as ->. }
  assert (forall c, is_digit c = true -> c <> "-"%char) as Hneg by by intros ? ? ->.
  unfold scan_number, json_number. destruct (z <? 0)%Z; cbn [app].
  - rewrite Hint. cbn. rewrite Hfrac. cbn. rewrite Hexp. cbn. by rewrite !app_nil_r.
  - assert (is_digit c = true) as Hc by (rewrite Hl in Hd; by apply andb_true_iff in Hd as [? _]).
    revert Hint. rewrite Hl. cbn [app]. intros Hint.
    assert ((match c :: (l ++ x)%list with "-"%char :: r => (["-"%char], r) | _ => ([], c :: (l ++ x)%list) end)
            = ([], c :: (l ++ x)%list)) as ->.
    { pose proof (Hneg c Hc). destruct c as [[] [] [] [] [] [] [] []]; done. }
    rewrite Hint. cbn. rewrite Hfrac. cbn. rewrite Hexp. cbn. by rewrite !app_nil_r.
Qed.

(** The nesting of containers. *)
Fixpoint json_depth (j : json) : N :=
  match j with
  | JArray l => 1 + foldr N.max 0 (map json_depth l)
  | JObject fields => 1 + foldr N.max 0 (map (fun f => json_depth (snd f)) fields)
  | _ => 0
  end.

(** A document starts with a byte that is neither a space nor a closing
    bracket. *)
Lemma json_print_start j :
  exists c l, json_print j = c :: l /\ is_space c = false /\ c <> "]"%char /\ c <> "}"%char.
Proof.
  destruct (json_print_head j) as (c & l & E & Hc). exists c, l. split; [done |].
  assert (is_digit c = true -> is_space c = false /\ c <> "]"%char /\ c <> "}"%char) as Hdig.
  { by destruct c as [[] [] [] [] [] [] [] []]. }
  destruct j as [| [] | | | |]; try (by subst).
  by destruct Hc as [-> | Hc]; [| apply Hdig].
Qed.

Lemma parse_value_scalar fuel depth c r :
  is_space c = false -> c <> "{"%char -> c <> "["%char ->
  parse_value (S fuel) depth (c :: r) = scan_scalar (c :: r).
Proof.
  intros Hs Ho Ha. cbn [parse_value skip_space]. rewrite Hs.
  apply Ascii.eqb_neq in Ho as ->. by apply Ascii.eqb_neq in Ha as ->.
Qed.

Lemma after_entry_comma {A} close (more : list ascii -> option (list A * list ascii)) entry r :
  after_entry close more entry (","%char :: r) = '(entries, rest) ← more r ; Some (entry :: entries, rest).
Proof. done. Qed.

Section printing.
Let prints (j : json) : Prop := forall fuel depth x,
  number_end x -> (2 * length (json_print j ++ x) < fuel)%nat -> depth + json_depth j <= maxNestingDepth ->
  parse_value fuel depth (json_print j ++ x) = Some (value_of j, x).

Lemma parse_items_print l fuel depth x :
  Forall prints l -> l <> [] ->
  let text := (sep_by ","%char (map json_print l) ++ "]"%char :: x)%list in
  (S (2 * length text) < fuel)%nat -> depth + foldr N.max 0 (map json_depth l) <= maxNestingDepth ->
  parse_items fuel depth text = Some (map value_of l, x).
Proof.
  intros Hl; revert fuel. induction Hl as [| j l Hj Hl IH]; intros fuel Hne text Hf Hd; [done |].
  destruct fuel as [| fuel]; [lia |]. subst text. cbn [map foldr] in *.
  destruct l as [| j2 l]; unfold sep_by in *; cbn [map join_with] in *.
  - cbn [parse_items]. rewrite Hj; [| done | lia | lia]. done.
  - rewrite <- app_assoc in Hf |- *. cbn [app] in Hf |- *. cbn [parse_items].
    rewrite Hj; [| done | lia | lia]. cbn [mbind option_bind]. rewrite after_entry_comma.
    rewrite IH; [done | done | rewrite length_app in Hf; cbn [length] in Hf |- *; lia | cbn [map foldr] in *; lia].
Qed.

Lemma parse_members_print fs fuel depth x :
  Forall (fun f => prints (snd f)) fs -> fs <> [] ->
  let text := (sep_by ","%char (map print_member fs) ++ "}"%char :: x)%list in
  (2 * length text < fuel)%nat ->
  depth + foldr N.max 0 (map (fun f => json_depth (snd f)) fs) <= maxNestingDepth ->
  parse_members fuel depth text = Some (map (fun f => (scrub (fst f), value_of (snd f))) fs, x).
Proof.
  intros Hl; revert fuel. induction Hl as [| [k j] fs Hj Hl IH]; intros fuel Hne text Hf Hd; [done |].
  destruct fuel as [| fuel]; [lia |]. subst text. cbn [map foldr fst snd] in *.
  assert (forall y, (print_member (k, j) ++ y)%list
            = c_quote :: (concat (map escape_rune (runes k)) ++ c_quote :: ":"%char :: json_print j ++ y)%list) as Hm.
  { intros y. unfold print_member, json_quote. cbn [fst snd app]. by rewrite <- !app_assoc. }
  assert (forall y, (1 + length (json_print j ++ y) < length (print_member (k, j) ++ y))%nat) as Hlen.
  { intros y. rewrite Hm. cbn [length]. rewrite (length_app (concat _)). cbn [length]. lia. }
  assert (forall y, number_end y -> (2 * length (print_member (k, j) ++ y) <= S fuel)%nat ->
    parse_members (S fuel) depth (print_member (k, j) ++ y)
    = after_entry "}" (parse_members fuel depth) (scrub k, value_of j) y) as Hstep.
  { intros y Hy Hfy. specialize (Hlen y). rewrite Hm. cbn [parse_members].
    change (skip_space (c_quote :: ?r)) with (c_quote :: r). cbv iota beta.
    rewrite Ascii.eqb_refl, scan_string_quote. cbn [mbind option_bind].
    change (skip_space (":"%char :: ?r)) with (":"%char :: r). cbv iota beta.
    rewrite (Hj fuel depth y) by (done || lia). cbn [mbind option_bind].
    by rewrite of_bytes_bytes. }
  destruct fs as [| [k2 j2] fs]; unfold sep_by in *; cbn [map join_with] in *.
  - rewrite Hstep; [done | done |]. lia.
  - rewrite <- app_assoc in Hf |- *. cbn [app] in Hf |- *.
    rewrite Hstep; [| done | lia]. rewrite after_entry_comma.
    rewrite IH; [done | done | rewrite length_app in Hf; cbn [length] in Hf |- *; lia | cbn [map foldr fst snd] in *; lia].
Qed.
End printing.

Lemma parse_value_print j : forall fuel depth x,
  number_end x -> (2 * length (json_print j ++ x) < fuel)%nat -> depth + json_depth j <= maxNestingDepth ->
  parse_value fuel depth (json_print j ++ x) = Some (value_of j, x).
Proof.
  induction j as [| b | z | s | l IH | fs IH] using json_nested_ind; intros fuel depth x Hx Hf Hd;
    destruct fuel as [| fuel]; try lia.
  - done.
  - by destruct b.
  - destruct (json_print_start (JNumber z)) as (c & l & E & Hs & _).
    destruct (json_print_head (JNumber z)) as (c' & l' & E' & Hc). rewrite E in E'. injection E' as <- <-.
    pose proof (scan_number_print z x Hx) as Hn. change (json_print (JNumber z)) with (json_number z) in E.
    rewrite E in *. cbn [app] in *.
    assert (c <> "{"%char /\ c <> "["%char /\ c <> c_quote /\ c <> "t"%char /\ c <> "f"%char /\ c <> "n"%char)
      as (H1 & H2 & H3 & H4 & H5 & H6).
    { destruct Hc as [-> | Hc]; [done |]. by repeat split; intros ->. }
    change (json_print (JNumber z)) with (json_number z). rewrite E. cbn [app].
    rewrite parse_value_scalar by done. unfold scan_scalar.
    apply Ascii.eqb_neq in H3 as ->, H4 as ->, H5 as ->, H6 as ->. rewrite Hn. cbn. by rewrite E.
  - change (json_print (JString s)) with (json_quote s). unfold json_quote. cbn [app].
    rewrite <- app_assoc. cbn [app]. rewrite parse_value_scalar by done. unfold scan_scalar.
    rewrite Ascii.eqb_refl, scan_string_quote. cbn. by rewrite of_bytes_bytes.
  - rewrite json_print_array in *. cbn [json_depth] in Hd. cbn [parse_value].
    change (skip_space ("["%char :: ?r)) with ("["%char :: r). cbn -[maxNestingDepth parse_items skip_space].
    destruct (N.leb_spec maxNestingDepth depth); [lia |].
    destruct l as [| j l]; [done |].
    rewrite (parse_items_print (j :: l) fuel (depth + 1) x) by (done || (cbn [length] in Hf; lia) || lia).
    destruct (json_print_start j) as (c & r & E & Hs & Hb & _).
    assert (exists r', (sep_by ","%char (map json_print (j :: l)) ++ "]"%char :: x)%list = c :: r') as [r' ->].
    { unfold sep_by. destruct l; cbn [map join_with]; rewrite E; cbn [app]; eauto. }
    cbn [skip_space]. rewrite Hs. destruct c as [[] [] [] [] [] [] [] []]; done.
  - rewrite json_print_object in *. cbn [json_depth] in Hd. cbn [parse_value].
    change (skip_space ("{"%char :: ?r)) with ("{"%char :: r). cbn -[maxNestingDepth parse_members skip_space].
    destruct (N.leb_spec maxNestingDepth depth); [lia |].
    destruct fs as [| [k j] fs]; [done |].
    rewrite (parse_members_print ((k, j) :: fs) fuel (depth + 1) x) by (done || (cbn [length] in Hf; lia) || lia).
    assert (exists r', (sep_by ","%char (map print_member ((k, j) :: fs)) ++ "}"%char :: x)%list = c_quote :: r')
      as [r' ->]; [| done].
    unfold sep_by. destruct fs; cbn [map join_with]; unfold print_member, json_quote; cbn [fst app]; eauto.
Qed.

(** json.Unmarshal's parser undoes json.Marshal, whatever follows the document. *)
Lemma json_parse_print j x :
  number_end x -> json_depth j <= maxNestingDepth -> parse (json_print j ++ x) = Some (value_of j, x).
Proof. intros Hx Hd. apply parse_value_print; [done | lia | lia]. Qed.

(** ** The fuel of the parser is enough *)

Lemma skip_space_length l : (length (skip_space l) <= length l)%nat.
Proof. induction l as [| c l IH]; cbn; [lia |]. destruct (is_space c); cbn; lia. Qed.

Lemma decode_rune_shorter c l r rest : decode_rune c l = (r, rest) -> (length rest <= length l)%nat.
Proof. intros H. by apply decode_rune_ok in H as (_ & ? & _). Qed.

Lemma string_item_shorter l t r : string_item l = Some (t, r) -> (length r < length l)%nat.
Proof.
  destruct l as [| c l]; [done |]. cbn [string_item].
  destruct (Ascii.eqb c c_quote); [done |]. destruct (Ascii.eqb c c_backslash).
  - intros H. assert (forall l t r, string_u l = Some (t, r) -> (length r < length l)%nat) as Hu.
    { clear. intros l t r. unfold string_u.
      assert (forall l n r, hex4 l = Some (n, r) -> (length r < length l)%nat) as H4.
      { clear. intros [| a [| b [| c [| d l]]]] n r; try done. cbn. repeat case_match; try done.
        intros [= <- <-]. lia. }
      destruct (hex4 l) as [[n r1] |] eqn:E; [| done]. apply H4 in E.
      destruct (is_surrogate n); [| intros [= <- <-]; lia].
      repeat case_match; try (intros [= <- <-]; subst; cbn in *; lia).
      all: match goal with H : hex4 _ = Some _ |- _ => apply H4 in H | H : None = Some _ |- _ => done end.
      all: intros [= <- <-]; cbn in *; lia. }
    destruct l as [| d l]; [done |].
    repeat (case_match; try done); try (injection H as <- <-; cbn; lia); apply Hu in H; cbn; lia.
  - destruct (_ <? 32); [done |]. destruct (decode_rune c l) as [rn rest] eqn:E.
    apply decode_rune_shorter in E. intros [= _ <-]. cbn. lia.
Qed.

Lemma scan_string_shorter fuel l t r : scan_string fuel l = Some (t, r) -> (length r < length l)%nat.
Proof.
  revert l t r; induction fuel as [| fuel IH]; intros [| c l] t r; cbn -[string_item c_quote]; try done;
    (destruct (Ascii.eqb c c_quote); [intros [= _ <-]; lia |]); [done |].
  intros H. destruct (string_item (c :: l)) as [[t1 r1] |] eqn:E1; [| done]. cbn in H.
  destruct (scan_string fuel r1) as [[t2 r2] |] eqn:E2; [| done]. injection H as _ <-.
  apply string_item_shorter in E1. apply IH in E2. cbn in E1. lia.
Qed.

Lemma scan_string_enough fuel fuel' l :
  (length l <= fuel)%nat -> (length l <= fuel')%nat -> scan_string fuel l = scan_string fuel' l.
Proof.
  revert fuel' l; induction fuel as [| fuel IH]; intros [| fuel'] [| c l]; cbn -[string_item c_quote]; try done; try lia.
  intros H1 H2. destruct (Ascii.eqb c c_quote); [done |].
  destruct (string_item (c :: l)) as [[t r] |] eqn:E; [| done]. cbn.
  apply string_item_shorter in E. cbn in E. by rewrite (IH fuel' r) by lia.
Qed.

Lemma take_digits_length l : (length (take_digits l).2 <= length l)%nat.
Proof.
  induction l as [| c l IH]; cbn; [lia |]. destruct (is_digit c); [| cbn; lia].
  destruct (take_digits l). cbn in *. lia.
Qed.

Lemma digits1_shorter l d r : digits1 l = Some (d, r) -> (length r < length l)%nat.
Proof.
  unfold digits1. destruct l as [| c l]; [done |]. cbn. destruct (is_digit c); [| done].
  pose proof (take_digits_length l). destruct (take_digits l). intros [= _ <-]. cbn in *. lia.
Qed.

Lemma scan_number_shorter l d r : scan_number l = Some (d, r) -> (length r < length l)%nat.
Proof.
  assert (forall l d r, scan_int l = Some (d, r) -> (length r < length l)%nat) as Hi.
  { clear. intros l d r. unfold scan_int.
    repeat case_match; try apply digits1_shorter. intros [= _ <-]. subst. cbn. lia. }
  assert (forall l d r, scan_frac l = Some (d, r) -> (length r <= length l)%nat) as Hf.
  { clear. intros l d r. unfold scan_frac. repeat case_match; try (intros [= _ <-]; subst; lia).
    match goal with |- context [digits1 ?x] => destruct (digits1 x) as [[? ?] |] eqn:E; [| done] end.
    apply digits1_shorter in E. intros [= _ <-]. subst. cbn in *. lia. }
  assert (forall l d r, scan_exp l = Some (d, r) -> (length r <= length l)%nat) as He.
  { clear. intros [| c l] d r; cbn; [by intros [= _ <-] |]. destruct (_ || _); [| intros [= _ <-]; cbn; lia].
    match goal with |- context [let '(_, _) := ?p in _] => destruct p as [sign r'] eqn:Es end.
    destruct (digits1 r') as [[? ?] |] eqn:E; [| done]. apply digits1_shorter in E. intros [= _ <-].
    assert (length r' <= length l)%nat; [| cbn; lia].
    revert Es. repeat case_match; intros [= _ <-]; subst; cbn; lia. }
  unfold scan_number. match goal with |- context [let '(_, _) := ?p in _] => destruct p as [sign l1] eqn:Es end.
  assert (length l1 <= length l)%nat by (revert Es; repeat case_match; intros [= _ <-]; subst; cbn; lia).
  destruct (scan_int l1) as [[i l2] |] eqn:E1; [| done]. cbn.
  destruct (scan_frac l2) as [[f l3] |] eqn:E2; [| done]. cbn.
  destruct (scan_exp l3) as [[e l4] |] eqn:E3; [| done]. cbn. intros [= _ <-].
  apply Hi in E1. apply Hf in E2. apply He in E3. lia.
Qed.

Lemma scan_scalar_shorter l v r : scan_scalar l = Some (v, r) -> (length r < length l)%nat.
Proof.
  assert (forall p, p <> [] -> strip_prefix p l = Some r -> (length r < length l)%nat) as Hp.
  { intros p Hp H. apply strip_prefix_Some in H as ->. rewrite length_app. destruct p; [done | cbn; lia]. }
  unfold scan_scalar. destruct l as [| c l]; [done |].
  repeat case_match.
  - destruct (scan_string (length l) l) as [[t r'] |] eqn:E; [| done]. apply scan_string_shorter in E.
    intros [= _ <-]. cbn. lia.
  - destruct (strip_prefix (bytes "true") _) eqn:E; [| done]. intros [= _ ->]. by apply (Hp (bytes "true")).
  - destruct (strip_prefix (bytes "false") _) eqn:E; [| done]. intros [= _ ->]. by apply (Hp (bytes "false")).
  - destruct (strip_prefix (bytes "null") _) eqn:E; [| done]. intros [= _ ->]. by apply (Hp (bytes "null")).
  - destruct (scan_number _) as [[t r'] |] eqn:E; [| done]. apply scan_number_shorter in E. by intros [= _ <-].
Qed.

(** The two cases of an object or an array: its end, or its first entry. *)
Lemma closing_cases (close : ascii) (l : list ascii) :
  (exists rest, skip_space l = close :: rest) \/ (forall rest, skip_space l <> close :: rest).
Proof.
  destruct (skip_space l) as [| c r]; [by right |]. destruct (decide (c = close)) as [-> |]; [eauto | right; congruence].
Qed.

Lemma parse_value_object fuel depth l r :
  skip_space l = "{"%char :: r -> (maxNestingDepth <=? depth) = false ->
  (forall rest, skip_space r <> "}"%char :: rest) ->
  parse_value (S fuel) depth l
  = '(members, rest) ← parse_members fuel (depth + 1) r ; Some (VObject members, rest).
Proof.
  intros Hl Hd Hr. cbn -[maxNestingDepth parse_members skip_space]. rewrite Hl, Hd.
  cbn -[maxNestingDepth parse_members skip_space].
  destruct (skip_space r) as [| [[] [] [] [] [] [] [] []] r']; try done. by destruct (Hr r').
Qed.

Lemma parse_value_array fuel depth l r :
  skip_space l = "["%char :: r -> (maxNestingDepth <=? depth) = false ->
  (forall rest, skip_space r <> "]"%char :: rest) ->
  parse_value (S fuel) depth l
  = '(items, rest) ← parse_items fuel (depth + 1) r ; Some (VArray items, rest).
Proof.
  intros Hl Hd Hr. cbn -[maxNestingDepth parse_items skip_space]. rewrite Hl, Hd.
  cbn -[maxNestingDepth parse_items skip_space].
  destruct (skip_space r) as [| [[] [] [] [] [] [] [] []] r']; try done. by destruct (Hr r').
Qed.

(** How a text starts decides what parse_value does with it. *)
Inductive value_shape (depth : N) (l : list ascii) : Prop :=
| shape_fails (H : forall fuel, parse_value fuel depth l = None)
| shape_ends v rest (Hlen : (length rest < length l)%nat)
    (H : forall fuel, parse_value (S fuel) depth l = Some (v, rest))
| shape_object r (Hlen : (length r < length l)%nat) (Hl : skip_space l = "{"%char :: r)
    (Hd : (maxNestingDepth <=? depth) = false)
    (Hr : forall rest, skip_space r <> "}"%char :: rest)
| shape_array r (Hlen : (length r < length l)%nat) (Hl : skip_space l = "["%char :: r)
    (Hd : (maxNestingDepth <=? depth) = false)
    (Hr : forall rest, skip_space r <> "]"%char :: rest).

Lemma value_shape_of depth l : value_shape depth l.
Proof.
  pose proof (skip_space_length l) as Hs. destruct (skip_space l) as [| c r] eqn:El.
  { apply shape_fails. intros [| fuel]; [done |]. cbn -[skip_space]. by rewrite El. }
  cbn in Hs. pose proof (skip_space_length r) as Hr.
  destruct (decide (c = "{"%char)) as [-> | Ho].
  { destruct (maxNestingDepth <=? depth) eqn:Ed.
    { apply shape_fails. intros [| fuel]; [done |]. cbn -[maxNestingDepth parse_members skip_space]. by rewrite El, Ed. }
    destruct (closing_cases "}" r) as [[rest Er] | Hn]; [| apply (shape_object _ _ r); [lia | done ..]].
    apply (shape_ends _ _ (VObject []) rest); [rewrite Er in Hr; cbn in Hr; lia |].
    intros fuel. cbn -[maxNestingDepth parse_members skip_space]. rewrite El, Ed. cbn -[skip_space parse_members].
    by rewrite Er. }
  destruct (decide (c = "["%char)) as [-> | Ha].
  { destruct (maxNestingDepth <=? depth) eqn:Ed.
    { apply shape_fails. intros [| fuel]; [done |]. cbn -[maxNestingDepth parse_items skip_space]. by rewrite El, Ed. }
    destruct (closing_cases "]" r) as [[rest Er] | Hn]; [| apply (shape_array _ _ r); [lia | done ..]].
    apply (shape_ends _ _ (VArray []) rest); [rewrite Er in Hr; cbn in Hr; lia |].
    intros fuel. cbn -[maxNestingDepth parse_items skip_space]. rewrite El, Ed. cbn -[skip_space parse_items].
    by rewrite Er. }
  assert (forall fuel, parse_value (S fuel) depth l = scan_scalar (c :: r)) as Hscan.
  { intros fuel. cbn -[scan_scalar skip_space]. rewrite El. apply Ascii.eqb_neq in Ho as ->.
    by apply Ascii.eqb_neq in Ha as ->. }
  destruct (scan_scalar (c :: r)) as [[v rest] |] eqn:Esc.
  - apply (shape_ends _ _ v rest); [apply scan_scalar_shorter in Esc; cbn in Esc; lia |]. intros. by rewrite Hscan.
  - apply shape_fails. intros [| fuel]; [done | by rewrite Hscan].
Qed.

Lemma after_entry_shorter {A} close (more : list ascii -> option (list A * list ascii)) entry l xs rest :
  (forall r ys rest, more r = Some (ys, rest) -> (length rest < length r)%nat) ->
  after_entry close more entry l = Some (xs, rest) -> (length rest < length l)%nat.
Proof.
  intros Hmore. unfold after_entry. pose proof (skip_space_length l) as Hs.
  destruct (skip_space l) as [| c r]; [done |]. cbn in Hs. destruct (Ascii.eqb c ",").
  - destruct (more r) as [[ys rest'] |] eqn:E; [| done]. apply Hmore in E. intros [= _ <-]. lia.
  - destruct (Ascii.eqb c close); [| done]. intros [= _ <-]. lia.
Qed.

Lemma after_entry_ext {A} close (more more' : list ascii -> option (list A * list ascii)) entry l :
  (forall r, (length r < length l)%nat -> more r = more' r) ->
  after_entry close more entry l = after_entry close more' entry l.
Proof.
  intros Hmore. unfold after_entry. pose proof (skip_space_length l) as Hs.
  destruct (skip_space l) as [| c r]; [done |]. cbn in Hs. destruct (Ascii.eqb c ","); [| done].
  by rewrite Hmore by lia.
Qed.

(** The key of a member and the text of its value. *)
Definition member_key (l : list ascii) : option (list ascii * list ascii) :=
  match skip_space l with
  | c :: r =>
      if Ascii.eqb c c_quote then
        '(key, r) ← scan_string (length r) r ;
        match skip_space r with ":"%char :: r => Some (key, r) | _ => None end
      else None
  | [] => None
  end.

Lemma member_key_shorter l key r : member_key l = Some (key, r) -> (length r < length l)%nat.
Proof.
  unfold member_key. pose proof (skip_space_length l) as Hs.
  destruct (skip_space l) as [| c r0]; [done |]. cbn in Hs. destruct (Ascii.eqb c c_quote); [| done].
  destruct (scan_string (length r0) r0) as [[k r1] |] eqn:E; [| done]. apply scan_string_shorter in E.
  cbn. pose proof (skip_space_length r1) as Hs1. destruct (skip_space r1) as [| d r2]; [done |].
  repeat (case_match; try done). intros [= _ <-]. cbn in *. lia.
Qed.

Lemma parse_members_eq fuel depth l :
  parse_members (S fuel) depth l
  = '(key, r) ← member_key l ; '(value, r) ← parse_value fuel depth r ;
    after_entry "}" (parse_members fuel depth) (of_bytes key, value) r.
Proof.
  cbn -[skip_space parse_value after_entry c_quote]. unfold member_key.
  destruct (skip_space l) as [| c r0]; [done |]. destruct (Ascii.eqb c c_quote); [| done].
  destruct (scan_string (length r0) r0) as [[k r1] |]; [| done]. cbn -[skip_space parse_value after_entry].
  destruct (skip_space r1) as [| [[] [] [] [] [] [] [] []] r2]; done.
Qed.

Lemma parse_items_eq fuel depth l :
  parse_items (S fuel) depth l
  = '(value, r) ← parse_value fuel depth l ; after_entry "]" (parse_items fuel depth) value r.
Proof. done. Qed.

#[global] Arguments parse_value : simpl never.
#[global] Arguments parse_members : simpl never.
#[global] Arguments parse_items : simpl never.

(** A successful call leaves a shorter text. *)
Lemma parse_shorter fuel :
  (forall d l v r, parse_value fuel d l = Some (v, r) -> (length r < length l)%nat)
  /\ (forall d l ms r, parse_members fuel d l = Some (ms, r) -> (length r < length l)%nat)
  /\ (forall d l vs r, parse_items fuel d l = Some (vs, r) -> (length r < length l)%nat).
Proof.
  induction fuel as [| fuel (IHv & IHm & IHi)]; [done |]. repeat split.
  - intros d l v r. destruct (value_shape_of d l) as [H | v' r' Hlen H | r' Hlen Hl Hd Hr | r' Hlen Hl Hd Hr].
    + by rewrite H.
    + rewrite H. by intros [= _ <-].
    + rewrite (parse_value_object _ _ _ _ Hl Hd Hr). destruct (parse_members _ _ _) as [[ms r2] |] eqn:E; [| done].
      apply IHm in E. intros [= _ <-]. lia.
    + rewrite (parse_value_array _ _ _ _ Hl Hd Hr). destruct (parse_items _ _ _) as [[ms r2] |] eqn:E; [| done].
      apply IHi in E. intros [= _ <-]. lia.
  - intros d l ms r. rewrite parse_members_eq. destruct (member_key l) as [[k r1] |] eqn:Ek; [| done].
    apply member_key_shorter in Ek. cbn. destruct (parse_value fuel d r1) as [[v r2] |] eqn:Ev; [| done].
    apply IHv in Ev. intros H. apply after_entry_shorter in H; [lia | apply IHm].
  - intros d l vs r. rewrite parse_items_eq. destruct (parse_value fuel d l) as [[v r2] |] eqn:Ev; [| done].
    apply IHv in Ev. intros H. apply after_entry_shorter in H; [lia | apply IHi].
Qed.

(** Beyond twice the length of the text the fuel does not matter. *)
Lemma parse_enough fuel : forall fuel',
  (forall d l, (2 * length l < fuel)%nat -> (2 * length l < fuel')%nat -> parse_value fuel d l = parse_value fuel' d l)
  /\ (forall d l, (2 * length l < fuel)%nat -> (2 * length l < fuel')%nat ->
                 parse_members fuel d l = parse_members fuel' d l)
  /\ (forall d l, (S (2 * length l) < fuel)%nat -> (S (2 * length l) < fuel')%nat ->
                 parse_items fuel d l = parse_items fuel' d l).
Proof.
  induction fuel as [| fuel IH]; intros fuel'; [repeat split; lia |].
  destruct fuel' as [| fuel']; [repeat split; lia |]. destruct (IH fuel') as (IHv & IHm & IHi).
  repeat split; intros d l H1 H2.
  - destruct (value_shape_of d l) as [H | v' r' Hlen H | r' Hlen Hl Hd Hr | r' Hlen Hl Hd Hr].
    + by rewrite !H.
    + by rewrite !H.
    + by rewrite !(parse_value_object _ _ _ _ Hl Hd Hr), IHm by lia.
    + by rewrite !(parse_value_array _ _ _ _ Hl Hd Hr), IHi by lia.
  - rewrite !parse_members_eq. destruct (member_key l) as [[k r1] |] eqn:Ek; [| done].
    apply member_key_shorter in Ek. cbn. rewrite IHv by lia.
    destruct (parse_value fuel' d r1) as [[v r2] |] eqn:Ev; [| done]. cbn.
    apply (proj1 (parse_shorter fuel')) in Ev. apply after_entry_ext. intros r Hr. apply IHm; lia.
  - rewrite !parse_items_eq, IHv by lia.
    destruct (parse_value fuel' d l) as [[v r2] |] eqn:Ev; [| done]. cbn.
    apply (proj1 (parse_shorter fuel')) in Ev. apply after_entry_ext. intros r Hr. apply IHi; lia.
Qed.

Lemma parse_value_enough fuel depth l :
  (2 * length l < fuel)%nat -> parse_value fuel depth l = parse_value (S (2 * length l)) depth l.
Proof. intros H. apply (proj1 (parse_enough fuel _)); lia. Qed.
