(* ===== verification/Canonical.v ===== *)
(** * core/canonical.go: domain-separated canonical digests

    The length-framed preimage of a canonical digest and the labels that select
    its domain.  json.Marshal of the normalized value is an argument: its bytes,
    or [None] when it fails.  DecodeStrictJSON is not modelled here. *)

From S2P Require Import Prelude GoStd Errors Identity Sha256.
From Stdlib Require Import Ascii.

Local Open Scope N_scope.

Definition MaxCanonicalDocumentBytes : N := 1048576.

Definition DigestBytes (payload : list N) : Digest := hex_digest payload.

(** `fmt.Fprintf(writer, "%016x:", uint64(len(payload)))`, then the payload. *)
Definition writeCanonicalFrame (writer payload : list N) : list N :=
  (writer ++ map N_of_ascii (hex_encode (Sha256.be_bytes 8 (wrap64 (N.of_nat (length payload)))))
   ++ [58] ++ payload)%list.

Definition label_byte (character : ascii) : bool :=
  negb ((N_of_ascii character <? 33) || (126 <? N_of_ascii character)).

Definition validCanonicalLabel (value : string) : bool :=
  if bool_decide (value = "") || (128 <? N.of_nat (String.length value))
     || negb (bool_decide (TrimSpace value = value))
  then false
  else forallb label_byte (bytes value).

(** What the hash has received when it is summed. *)
Definition canonical_preimage (domain version discriminator : string) (payload : list N) : list N :=
  let hash := writeCanonicalFrame [] (codes "praxis-canonical-v1") in
  let hash := writeCanonicalFrame hash (codes domain) in
  let hash := writeCanonicalFrame hash (codes version) in
  let hash := writeCanonicalFrame hash (codes discriminator) in
  writeCanonicalFrame hash payload.

Definition CanonicalJSONDigest (domain version discriminator : string) (marshalled : option (list N))
  : result Digest :=
  guard (negb (validCanonicalLabel domain) || negb (validCanonicalLabel version)
         || negb (validCanonicalLabel discriminator))
    ErrorInvalidArgument ReasonInvalidCanonicalForm ;;
  match marshalled with
  | None => fail ErrorInvalidArgument ReasonInvalidCanonicalForm
  | Some payload =>
      guard (MaxCanonicalDocumentBytes <? N.of_nat (length payload))
        ErrorInvalidArgument ReasonCanonicalLimitExceeded ;;
      Ok (hex_digest (canonical_preimage domain version discriminator payload))
  end.

(** ** Frames are uniquely decodable *)

#[global] Arguments canonical_preimage : simpl never.

Lemma be_bytes_inj n x y :
  x < 256 ^ N.of_nat n -> y < 256 ^ N.of_nat n ->
  Sha256.be_bytes n x = Sha256.be_bytes n y -> x = y.
Proof.
  revert x y; induction n as [| n IH]; intros x y Hx Hy H.
  - change (256 ^ N.of_nat 0) with 1 in *. lia.
  - cbn [Sha256.be_bytes] in H. apply app_inj_tail in H as [Hq Hr].
    rewrite Nat2N.inj_succ, N.pow_succ_r' in Hx, Hy.
    apply IH in Hq; [| by apply N.Div0.div_lt_upper_bound ..].
    rewrite (N.div_mod x 256), (N.div_mod y 256) by done. by rewrite Hq, Hr.
Qed.

Lemma N_of_ascii_inj a b : N_of_ascii a = N_of_ascii b -> a = b.
Proof. intros H. by rewrite <- (ascii_N_embedding a), H, ascii_N_embedding. Qed.

Lemma codes_inj s t : codes s = codes t -> s = t.
Proof.
  unfold codes. intros H. apply bytes_inj. revert H. generalize (bytes s) (bytes t).
  intros l; induction l as [| a l IH]; intros [| b l']; cbn; try done.
  intros [= Hab Hl]. by rewrite (N_of_ascii_inj _ _ Hab), (IH _ Hl).
Qed.

Definition fits_int (payload : list N) : Prop := N.of_nat (length payload) < u64_modulus.

Lemma frame_eq writer payload :
  writeCanonicalFrame writer payload = (writer ++ writeCanonicalFrame [] payload)%list.
Proof. done. Qed.

(** One frame can be read back from the front of a stream. *)
Lemma frame_inj p q r s :
  fits_int p -> fits_int q ->
  (writeCanonicalFrame [] p ++ r = writeCanonicalFrame [] q ++ s)%list -> p = q /\ r = s.
Proof.
  unfold fits_int, writeCanonicalFrame, wrap64. intros Hp Hq. rewrite !N.mod_small by done.
  cbn [app]. rewrite <- !app_assoc. intros H.
  apply app_inj_1 in H as [Hlen H]; [| by rewrite !length_map, !hex_encode_length, !Sha256.be_bytes_length].
  assert (forall l l' : list ascii, map N_of_ascii l = map N_of_ascii l' -> l = l') as Hmap.
  { intros l; induction l as [| a l IH]; intros [| b l']; cbn; try done.
    intros [= Hab Hl]. by rewrite (N_of_ascii_inj _ _ Hab), (IH _ Hl). }
  apply Hmap in Hlen. apply (f_equal hex_decode) in Hlen.
  rewrite !hex_decode_encode in Hlen by apply Sha256.be_bytes_bytes. apply (inj Some) in Hlen.
  apply be_bytes_inj in Hlen; [| done ..]. cbn in H. injection H as H.
  apply app_inj_1 in H; [done | lia].
Qed.

Lemma preimage_frames d v k p :
  canonical_preimage d v k p
  = (writeCanonicalFrame [] (codes "praxis-canonical-v1") ++ writeCanonicalFrame [] (codes d)
     ++ writeCanonicalFrame [] (codes v) ++ writeCanonicalFrame [] (codes k)
     ++ writeCanonicalFrame [] p ++ [])%list.
Proof.
  unfold canonical_preimage. rewrite app_nil_r.
  rewrite (frame_eq _ p), (frame_eq _ (codes k)), (frame_eq _ (codes v)), (frame_eq _ (codes d)).
  by rewrite <- !app_assoc.
Qed.

Lemma label_short s : validCanonicalLabel s = true -> fits_int (codes s).
Proof.
  unfold validCanonicalLabel, fits_int, codes, u64_modulus. rewrite length_map, bytes_length.
  destruct (_ || _) eqn:H; [done |]. intros _. go_bool. lia.
Qed.

(** A digest that is returned is the hash of a preimage whose parts fit. *)
Lemma CanonicalJSONDigest_Ok d v k p h :
  CanonicalJSONDigest d v k (Some p) = Ok h ->
  fits_int (codes d) /\ fits_int (codes v) /\ fits_int (codes k) /\ fits_int p
  /\ h = hex_digest (canonical_preimage d v k p).
Proof.
  unfold CanonicalJSONDigest, MaxCanonicalDocumentBytes. intros. go_ok.
  rewrite !orb_false_iff, !negb_false_iff in *. destruct_and?.
  repeat split; try (by apply label_short). go_bool. unfold fits_int, u64_modulus. lia.
Qed.

Lemma canonical_preimage_inj d v k d' v' k' p p' h h' :
  CanonicalJSONDigest d v k (Some p) = Ok h -> CanonicalJSONDigest d' v' k' (Some p') = Ok h' ->
  canonical_preimage d v k p = canonical_preimage d' v' k' p' ->
  d = d' /\ v = v' /\ k = k' /\ p = p' /\ h = h'.
Proof.
  intros H H' Hpre.
  apply CanonicalJSONDigest_Ok in H as (Hd & Hv & Hk & Hp & ->), H' as (Hd' & Hv' & Hk' & Hp' & ->).
  pose proof Hpre as E. rewrite !preimage_frames in E.
  apply app_inv_head in E.
  apply (frame_inj _ _ _ _ Hd Hd') in E as [Ed E]. apply (frame_inj _ _ _ _ Hv Hv') in E as [Ev E].
  apply (frame_inj _ _ _ _ Hk Hk') in E as [Ek E]. apply (frame_inj _ _ _ _ Hp Hp') in E as [Ep _].
  apply codes_inj in Ed, Ev, Ek. by subst.
Qed.

(** The preimages of canonical digests are injective: when two calls both
    succeed, feeding the hash the same byte stream means that domain, version,
    discriminator and document are the same.  No choice of labels or document
    makes one canonical value hash as another without a SHA-256 collision. *)
Theorem CanonicalJSONDigest_injective (d v k d' v' k' : string) (p p' : list N) (h h' : Digest)
    (H : CanonicalJSONDigest d v k (Some p) = Ok h)
    (H' : CanonicalJSONDigest d' v' k' (Some p') = Ok h')
    (Hpre : canonical_preimage d v k p = canonical_preimage d' v' k' p') :
  d = d' /\ v = v' /\ k = k' /\ p = p' /\ h = h'.
Proof. exact (canonical_preimage_inj _ _ _ _ _ _ _ _ _ _ H H' Hpre). Qed.

Lemma CanonicalJSONDigest_injective_witness :
  exists h, CanonicalJSONDigest "praxis.runtime" "1.0.0" "intent" (Some (codes "{}")) = Ok h
  /\ ("intent" = "intent" /\ h = h).
Proof.
  eexists. split; [reflexivity |].
  destruct (CanonicalJSONDigest_injective "praxis.runtime" "1.0.0" "intent" "praxis.runtime" "1.0.0" "intent"
              (codes "{}") (codes "{}") _ _ eq_refl eq_refl eq_refl) as (_ & _ & H & _ & H').
  by split.
Defined.

(** A label that could imitate the start of another frame does not. *)
Example frame_separates :
  canonical_preimage "a" "b" "c" (codes "d") <> canonical_preimage "ab" "" "c" (codes "d").
Proof. vm_compute. discriminate. Qed.

Lemma label_bytes_graphic s :
  Forall (fun c => label_byte c = true) (bytes s) -> TrimSpace s = s.
Proof.
  intros H. apply TrimSpace_graphic. eapply Forall_impl; [exact H |].
  intros c. unfold label_byte, graphic_ascii. cbn beta. rewrite negb_true_iff, orb_false_iff, andb_true_iff, N.ltb_ge, N.ltb_ge, !N.leb_le. lia.
Qed.

(** A canonical label is valid exactly when it is 1 to 128 bytes of
    printable ASCII without the space: the TrimSpace test never rejects a
    string that the byte test accepts. *)
Theorem validCanonicalLabel_iff (value : string) :
  validCanonicalLabel value = true <->
  (1 <= String.length value <= 128)%nat
  /\ Forall (fun c => 33 <= N_of_ascii c <= 126) (bytes value).
Proof.
  assert (forallb label_byte (bytes value) = true <->
          Forall (fun c => 33 <= N_of_ascii c <= 126) (bytes value)) as Hb.
  { rewrite forallb_forall, Forall_forall. setoid_rewrite <- list_elem_of_In.
    apply forall_proper; intros c. unfold label_byte.
    rewrite negb_true_iff, orb_false_iff, !N.ltb_ge. tauto. }
  assert (value <> "" <-> (1 <= String.length value)%nat) as Hne.
  { destruct value; cbn; split; [done | lia | lia | done]. }
  unfold validCanonicalLabel. rewrite <- Hb.
  destruct (bool_decide (value = "") || _ || _) eqn:Hg; split; try done.
  - intros [Hlen Hf]. exfalso. go_bool. destruct Hg as [[-> | Hl] | Ht]; [cbn in *; lia | lia |].
    apply Ht, label_bytes_graphic. apply Forall_forall. intros c Hc.
    by apply (proj1 (forallb_forall _ _) Hf), list_elem_of_In.
  - intros Hf. go_bool. split; [| done]. destruct Hg as [[Hz Hl] Ht]. split; [by apply Hne | lia].
  - by intros [_ ?].
Qed.
