(* ===== verification/StrictJson.v ===== *)
(** * core/canonical.go: strict decoding of JSON documents

    DecodeStrictJSON: a bounded document is read twice, once token by token to
    reject duplicate keys and once into its target.  json.Decoder.Token and
    More are the library's state machine over the unread text.
    [DecodeStrictJSON_spec] says which documents are accepted. *)

From S2P Require Import Prelude GoStd Errors Identity Json JsonParse Canonical.
From Stdlib Require Import Ascii.

Local Open Scope N_scope.

(** ** json.Decoder.Token *)

Inductive tokenState :=
| tokenTopValue | tokenArrayStart | tokenArrayValue | tokenArrayComma
| tokenObjectStart | tokenObjectKey | tokenObjectColon | tokenObjectValue | tokenObjectComma.
#[export] Instance tokenState_eq_dec : EqDecision tokenState.
Proof. solve_decision. Defined.

Record TokenDecoder := {
  td_rest : list ascii;
  td_state : tokenState;
  td_stack : list tokenState;
}.

Inductive token :=
| TDelim (c : ascii)
| TString (s : string)
| TOther.

Definition tokenValueAllowed (s : tokenState) : bool :=
  match s with
  | tokenTopValue | tokenArrayStart | tokenArrayValue | tokenObjectValue => true
  | _ => false
  end.

Definition tokenValueEnd (s : tokenState) : tokenState :=
  match s with
  | tokenArrayStart | tokenArrayValue => tokenArrayComma
  | tokenObjectValue => tokenObjectComma
  | _ => s
  end.

Definition at_state (rest : list ascii) (state : tokenState) (stack : list tokenState) : TokenDecoder :=
  {| td_rest := rest; td_state := state; td_stack := stack |}.

(** The token that a scalar value is. *)
Definition scalar_token (v : jvalue) : token := match v with VString s => TString s | _ => TOther end.

(** A separator is skipped and the loop runs again; behind a separator the
    state allows no other, so that two rounds are enough.  [None] is an error. *)
Fixpoint token_loop (fuel : nat) (d : TokenDecoder) : option (token * TokenDecoder) :=
  match fuel with
  | O => None
  | S fuel' =>
      match skip_space (td_rest d) with
      | [] => None
      | c :: r =>
          if Ascii.eqb c "[" then
            if tokenValueAllowed (td_state d)
            then Some (TDelim c, at_state r tokenArrayStart (td_state d :: td_stack d)) else None
          else if Ascii.eqb c "]" then
            match td_state d, td_stack d with
            | tokenArrayStart, outer :: stack | tokenArrayComma, outer :: stack =>
                Some (TDelim c, at_state r (tokenValueEnd outer) stack)
            | _, _ => None
            end
          else if Ascii.eqb c "{" then
            if tokenValueAllowed (td_state d)
            then Some (TDelim c, at_state r tokenObjectStart (td_state d :: td_stack d)) else None
          else if Ascii.eqb c "}" then
            match td_state d, td_stack d with
            | tokenObjectStart, outer :: stack | tokenObjectComma, outer :: stack =>
                Some (TDelim c, at_state r (tokenValueEnd outer) stack)
            | _, _ => None
            end
          else if Ascii.eqb c ":" then
            match td_state d with
            | tokenObjectColon => token_loop fuel' (at_state r tokenObjectValue (td_stack d))
            | _ => None
            end
          else if Ascii.eqb c "," then
            match td_state d with
            | tokenArrayComma => token_loop fuel' (at_state r tokenArrayValue (td_stack d))
            | tokenObjectComma => token_loop fuel' (at_state r tokenObjectKey (td_stack d))
            | _ => None
            end
          else if Ascii.eqb c c_quote
                  && (bool_decide (td_state d = tokenObjectStart) || bool_decide (td_state d = tokenObjectKey)) then
            '(text, rest) ← scan_string (length r) r ;
            Some (TString (of_bytes text), at_state rest tokenObjectColon (td_stack d))
          else if tokenValueAllowed (td_state d) then
            '(v, rest) ← scan_scalar (c :: r) ;
            Some (scalar_token v, at_state rest (tokenValueEnd (td_state d)) (td_stack d))
          else None
      end
  end.
Definition Token (d : TokenDecoder) : option (token * TokenDecoder) := token_loop 2 d.

(** Whether the open array or object has another element. *)
Definition More (d : TokenDecoder) : bool :=
  match skip_space (td_rest d) with
  | c :: _ => negb (Ascii.eqb c "]") && negb (Ascii.eqb c "}")
  | [] => false
  end.

(** ** core.DecodeStrictJSON *)

Definition invalid_json {A} : result A := fail ErrorInvalidArgument ReasonInvalidCanonicalForm.

(** The closing delimiter behind the loop of an array or an object. *)
Definition closing_token (d : TokenDecoder) : result TokenDecoder :=
  match Token d with Some (_, d) => Ok d | None => invalid_json end.

(** Every value takes a token, so that twice the length of the text is enough
    fuel ([scan_no_panic]). *)
Fixpoint scanJSONValue (fuel : nat) (decoder : TokenDecoder) {struct fuel} : result TokenDecoder :=
  match fuel with
  | O => Err GoPanic
  | S fuel' =>
      match Token decoder with
      | None => invalid_json
      | Some (TDelim delimiter, decoder) =>
          if Ascii.eqb delimiter "{" then d ← scan_members fuel' [] decoder ; closing_token d
          else if Ascii.eqb delimiter "[" then d ← scan_items fuel' decoder ; closing_token d
          else invalid_json
      | Some (_, decoder) => Ok decoder
      end
  end
with scan_members (fuel : nat) (seen : list string) (decoder : TokenDecoder) {struct fuel} : result TokenDecoder :=
  match fuel with
  | O => Err GoPanic
  | S fuel' =>
      if More decoder then
        match Token decoder with
        | Some (TString key, decoder) =>
            guard (bool_decide (key ∈ seen)) ErrorConflict ReasonDuplicateCanonicalKey ;;
            d ← scanJSONValue fuel' decoder ; scan_members fuel' (key :: seen) d
        | _ => invalid_json
        end
      else Ok decoder
  end
with scan_items (fuel : nat) (decoder : TokenDecoder) {struct fuel} : result TokenDecoder :=
  match fuel with
  | O => Err GoPanic
  | S fuel' =>
      if More decoder then d ← scanJSONValue fuel' decoder ; scan_items fuel' d else Ok decoder
  end.

Definition text_of (payload : list N) : list ascii := map ascii_of_N payload.

Definition rejectDuplicateJSONKeys (payload : list N) : result unit :=
  scanJSONValue (S (2 * length payload)) (at_state (text_of payload) tokenTopValue []) ;; Ok tt.

(** The target is given by its zero value and its decoder. *)
Definition DecodeStrictJSON {T} (decode : Decoder T) (zero : T) (payload : list N) : result T :=
  guard (Nat.eqb (length payload) 0 || (MaxCanonicalDocumentBytes <? N.of_nat (length payload)))
    ErrorInvalidArgument ReasonCanonicalLimitExceeded ;;
  rejectDuplicateJSONKeys payload ;;
  match parse (text_of payload) with
  | None => invalid_json
  | Some (v, rest) =>
      match decode v zero with
      | None => invalid_json
      | Some target =>
          guard (negb (bool_decide (skip_space rest = []))) ErrorInvalidArgument ReasonInvalidCanonicalForm ;;
          Ok target
      end
  end.

(** ** What the token scan decides *)

(** No object of the tree has two members of the same name. *)
Fixpoint names_unique (v : jvalue) : bool :=
  match v with
  | VArray l => forallb names_unique l
  | VObject members => bool_decide (NoDup (map fst members)) && forallb (fun m => names_unique m.2) members
  | _ => true
  end.

Definition members_unique (seen : list string) (members : list (string * jvalue)) : bool :=
  bool_decide (NoDup (map fst members)) && forallb (fun m => bool_decide (m.1 ∉ seen)) members
  && forallb (fun m => names_unique m.2) members.

Definition verdict (unique : bool) (d : TokenDecoder) : result TokenDecoder :=
  if unique then Ok d else fail ErrorConflict ReasonDuplicateCanonicalKey.

Lemma members_unique_cons seen k v ms :
  members_unique seen ((k, v) :: ms)
  = negb (bool_decide (k ∈ seen)) && (names_unique v && members_unique (k :: seen) ms).
Proof.
  unfold members_unique. apply eq_true_iff_eq. cbn [map forallb fst snd].
  rewrite !andb_true_iff, negb_true_iff, !bool_decide_eq_true, bool_decide_eq_false, NoDup_cons.
  assert (forallb (fun m => bool_decide (m.1 ∉ k :: seen)) ms = true
          <-> (k ∉ map fst ms) /\ forallb (fun m => bool_decide (m.1 ∉ seen)) ms = true) as ->; [| tauto].
  rewrite !forallb_forall. setoid_rewrite <- list_elem_of_In. setoid_rewrite bool_decide_eq_true.
  setoid_rewrite not_elem_of_cons. rewrite list_elem_of_fmap. split.
  - intros H. split; [intros (m & -> & Hm); by destruct (H m Hm) | intros m Hm; by destruct (H m Hm)].
  - intros [Hk H] m Hm. split; [intros <-; apply Hk; by exists m | by apply H].
Qed.

Lemma names_unique_object ms : names_unique (VObject ms) = members_unique [] ms.
Proof.
  unfold members_unique. cbn. f_equal. rewrite <- (andb_true_r (bool_decide _)) at 1. f_equal.
  symmetry. apply forallb_forall. intros m _. apply bool_decide_eq_true, not_elem_of_nil.
Qed.

(** *** Tokens at the front of a text *)

Lemma token_fuel n m l st k :
  st <> tokenObjectColon -> st <> tokenArrayComma -> st <> tokenObjectComma ->
  token_loop (S n) (at_state l st k) = token_loop (S m) (at_state l st k).
Proof.
  intros H1 H2 H3. cbn -[Ascii.eqb scan_string scan_scalar c_quote]. destruct (skip_space l) as [| c r]; [done |].
  destruct (Ascii.eqb c ":"), (Ascii.eqb c ","); destruct st; done.
Qed.

Lemma token_colon l r k :
  skip_space l = ":"%char :: r -> Token (at_state l tokenObjectColon k) = Token (at_state r tokenObjectValue k).
Proof.
  intros Hl. unfold Token. transitivity (token_loop 1 (at_state r tokenObjectValue k)); [| by apply token_fuel].
  cbn -[Ascii.eqb scan_string scan_scalar c_quote]. by rewrite Hl.
Qed.

Lemma token_array_comma l r k :
  skip_space l = ","%char :: r -> Token (at_state l tokenArrayComma k) = Token (at_state r tokenArrayValue k).
Proof.
  intros Hl. unfold Token. transitivity (token_loop 1 (at_state r tokenArrayValue k)); [| by apply token_fuel].
  cbn -[Ascii.eqb scan_string scan_scalar c_quote]. by rewrite Hl.
Qed.

Lemma token_object_comma l r k :
  skip_space l = ","%char :: r -> Token (at_state l tokenObjectComma k) = Token (at_state r tokenObjectKey k).
Proof.
  intros Hl. unfold Token. transitivity (token_loop 1 (at_state r tokenObjectKey k)); [| by apply token_fuel].
  cbn -[Ascii.eqb scan_string scan_scalar c_quote]. by rewrite Hl.
Qed.

Lemma token_open_object l r st k :
  skip_space l = "{"%char :: r -> tokenValueAllowed st = true ->
  Token (at_state l st k) = Some (TDelim "{", at_state r tokenObjectStart (st :: k)).
Proof. intros Hl Hst. unfold Token. cbn -[Ascii.eqb scan_string scan_scalar c_quote]. rewrite Hl. cbn. by rewrite Hst. Qed.

Lemma token_open_array l r st k :
  skip_space l = "["%char :: r -> tokenValueAllowed st = true ->
  Token (at_state l st k) = Some (TDelim "[", at_state r tokenArrayStart (st :: k)).
Proof. intros Hl Hst. unfold Token. cbn -[Ascii.eqb scan_string scan_scalar c_quote]. rewrite Hl. cbn. by rewrite Hst. Qed.

Lemma token_close_object l rest st outer k :
  skip_space l = "}"%char :: rest -> st = tokenObjectStart \/ st = tokenObjectComma ->
  Token (at_state l st (outer :: k)) = Some (TDelim "}", at_state rest (tokenValueEnd outer) k).
Proof. intros Hl Hst. unfold Token. cbn -[Ascii.eqb scan_string scan_scalar c_quote]. rewrite Hl. by destruct Hst as [-> | ->]. Qed.

Lemma token_close_array l rest st outer k :
  skip_space l = "]"%char :: rest -> st = tokenArrayStart \/ st = tokenArrayComma ->
  Token (at_state l st (outer :: k)) = Some (TDelim "]", at_state rest (tokenValueEnd outer) k).
Proof. intros Hl Hst. unfold Token. cbn -[Ascii.eqb scan_string scan_scalar c_quote]. rewrite Hl. by destruct Hst as [-> | ->]. Qed.

(** The bytes that no scalar starts with. *)
Lemma scan_scalar_start c r v rest :
  scan_scalar (c :: r) = Some (v, rest) ->
  c <> "["%char /\ c <> "]"%char /\ c <> "{"%char /\ c <> "}"%char /\ c <> ":"%char /\ c <> ","%char.
Proof. intros H. repeat split; intros ->; done. Qed.

Lemma token_scalar l c r v rest st k :
  skip_space l = c :: r -> scan_scalar (c :: r) = Some (v, rest) -> tokenValueAllowed st = true ->
  Token (at_state l st k) = Some (scalar_token v, at_state rest (tokenValueEnd st) k).
Proof.
  intros Hl Hv Hst. destruct (scan_scalar_start _ _ _ _ Hv) as (H1 & H2 & H3 & H4 & H5 & H6).
  unfold Token. cbn -[Ascii.eqb scan_string scan_scalar c_quote]. rewrite Hl.
  apply Ascii.eqb_neq in H1 as ->, H2 as ->, H3 as ->, H4 as ->, H5 as ->, H6 as ->.
  rewrite !bool_decide_eq_false_2, andb_false_r, Hst, Hv by (by intros ->). done.
Qed.

(** A key with the colon behind it. *)
Lemma token_key l key r st k :
  member_key l = Some (key, r) -> st = tokenObjectStart \/ st = tokenObjectKey ->
  exists r0, skip_space r0 = ":"%char :: r
    /\ Token (at_state l st k) = Some (TString (of_bytes key), at_state r0 tokenObjectColon k).
Proof.
  unfold member_key, Token. intros H Hst. cbn -[Ascii.eqb scan_string scan_scalar c_quote].
  destruct (skip_space l) as [| c r1]; [done |]. destruct (Ascii.eqb c c_quote) eqn:E; [| done].
  apply Ascii.eqb_eq in E as ->.
  destruct (scan_string (length r1) r1) as [[t r0] |] eqn:Es; [| done]. cbn in H. exists r0.
  assert (skip_space r0 = ":"%char :: r /\ key = t) as [Hc ->].
  { destruct (skip_space r0) as [| [[] [] [] [] [] [] [] []] r2]; try done; by injection H as <- <-. }
  split; [done |]. by destruct Hst as [-> | ->].
Qed.

Lemma member_key_more l key r st k : member_key l = Some (key, r) -> More (at_state l st k) = true.
Proof.
  unfold member_key, More. change (td_rest (at_state l st k)) with l. destruct (skip_space l) as [| c r1]; [done |].
  destruct (Ascii.eqb c c_quote) eqn:E; [| done]. by apply Ascii.eqb_eq in E as ->.
Qed.

#[global] Arguments Token : simpl never.
#[global] Arguments More : simpl never.

(** The values that the parser finds. *)
Lemma parse_value_inv fuel depth l v rest :
  parse_value (S fuel) depth l = Some (v, rest) ->
  (exists c r, skip_space l = c :: r /\ scan_scalar (c :: r) = Some (v, rest))
  \/ (exists r, skip_space l = "{"%char :: r /\ skip_space r = "}"%char :: rest /\ v = VObject [])
  \/ (exists r, skip_space l = "["%char :: r /\ skip_space r = "]"%char :: rest /\ v = VArray [])
  \/ (exists r ms, skip_space l = "{"%char :: r /\ parse_members fuel (depth + 1) r = Some (ms, rest) /\ v = VObject ms)
  \/ (exists r vs, skip_space l = "["%char :: r /\ parse_items fuel (depth + 1) r = Some (vs, rest) /\ v = VArray vs).
Proof.
  intros H. unfold parse_value in H; fold parse_value parse_members parse_items in H.
  destruct (skip_space l) as [| c r] eqn:El; [done |].
  destruct (Ascii.eqb_spec c "{") as [-> |].
  { destruct (maxNestingDepth <=? depth); [done |].
    destruct (closing_cases "}" r) as [[rest' Er] | Hn].
    - rewrite Er in H. injection H as <- <-. right; left. by exists r.
    - assert (('(members, rest) ← parse_members fuel (depth + 1) r ; Some (VObject members, rest)) = Some (v, rest)) as H'.
      { destruct (skip_space r) as [| [[] [] [] [] [] [] [] []] r']; try done. by destruct (Hn r'). }
      destruct (parse_members fuel (depth + 1) r) as [[ms rest'] |] eqn:E; [| done]. injection H' as <- <-.
      do 3 right; left. by exists r, ms. }
  destruct (Ascii.eqb_spec c "[") as [-> |].
  { destruct (maxNestingDepth <=? depth); [done |].
    destruct (closing_cases "]" r) as [[rest' Er] | Hn].
    - rewrite Er in H. injection H as <- <-. right; right; left. by exists r.
    - assert (('(items, rest) ← parse_items fuel (depth + 1) r ; Some (VArray items, rest)) = Some (v, rest)) as H'.
      { destruct (skip_space r) as [| [[] [] [] [] [] [] [] []] r']; try done. by destruct (Hn r'). }
      destruct (parse_items fuel (depth + 1) r) as [[ms rest'] |] eqn:E; [| done]. injection H' as <- <-.
      do 4 right. by exists r, ms. }
  left. by exists c, r.
Qed.

(** *** The scan of a document that parses *)

Lemma scan_same_token fuel d d' : Token d = Token d' -> scanJSONValue fuel d = scanJSONValue fuel d'.
Proof. intros H. destruct fuel as [| fuel]; [done |]. cbn. by rewrite H. Qed.

Definition scans_value (pf : nat) : Prop := forall depth l v rest sf st k,
  parse_value pf depth l = Some (v, rest) -> tokenValueAllowed st = true -> (2 * length l < sf)%nat ->
  scanJSONValue sf (at_state l st k) = verdict (names_unique v) (at_state rest (tokenValueEnd st) k).

(** The loop over members starts behind the brace or in front of a comma. *)
Definition at_member (l : list ascii) (d : TokenDecoder) (k : list tokenState) : Prop :=
  d = at_state l tokenObjectStart k
  \/ exists l0, skip_space l0 = ","%char :: l /\ d = at_state l0 tokenObjectComma k.

Definition scans_members (pf : nat) : Prop := forall depth l ms rest sf seen d k,
  parse_members pf depth l = Some (ms, rest) -> at_member l d k -> (2 * length (td_rest d) < sf)%nat ->
  exists r, skip_space r = "}"%char :: rest
    /\ scan_members sf seen d = verdict (members_unique seen ms) (at_state r tokenObjectComma k).

Definition at_item (l : list ascii) (d : TokenDecoder) (k : list tokenState) : Prop :=
  (d = at_state l tokenArrayStart k /\ forall rest, skip_space l <> "]"%char :: rest)
  \/ exists l0, skip_space l0 = ","%char :: l /\ d = at_state l0 tokenArrayComma k.

Definition scans_items (pf : nat) : Prop := forall depth l vs rest sf d k,
  parse_items pf depth l = Some (vs, rest) -> at_item l d k -> (S (2 * length (td_rest d)) < sf)%nat ->
  exists r, skip_space r = "]"%char :: rest
    /\ scan_items sf d = verdict (forallb names_unique vs) (at_state r tokenArrayComma k).

Lemma skip_space_bound l c r : skip_space l = c :: r -> (length r < length l)%nat.
Proof. intros H. pose proof (skip_space_length l) as Hs. rewrite H in Hs. cbn in Hs. lia. Qed.

(** How a successful run goes on behind an entry. *)
Lemma after_entry_inv {A} close (more : list ascii -> option (list A * list ascii)) entry l xs rest :
  after_entry close more entry l = Some (xs, rest) ->
  (exists r ys, skip_space l = ","%char :: r /\ more r = Some (ys, rest) /\ xs = entry :: ys)
  \/ (skip_space l = close :: rest /\ xs = [entry]).
Proof.
  unfold after_entry. destruct (skip_space l) as [| c r]; [done |].
  destruct (Ascii.eqb_spec c ",") as [-> |].
  - destruct (more r) as [[ys rest'] |] eqn:E; [| done]. intros [= <- <-]. left. by exists r, ys.
  - destruct (Ascii.eqb_spec c close) as [-> |]; [| done]. intros [= <- <-]. by right.
Qed.

Lemma at_member_token l d k key r :
  at_member l d k -> member_key l = Some (key, r) ->
  More d = true /\ (length l <= length (td_rest d))%nat
  /\ exists r0, skip_space r0 = ":"%char :: r
       /\ Token d = Some (TString (of_bytes key), at_state r0 tokenObjectColon k).
Proof.
  intros [-> | (l0 & Hl & ->)] Hk.
  - split; [by eapply member_key_more | split; [done |]]. apply (token_key l); [done | by left].
  - split; [unfold More; cbn [td_rest at_state]; by rewrite Hl |].
    apply skip_space_bound in Hl as Hlen. split; [cbn; lia |]. rewrite (token_object_comma _ _ _ Hl).
    apply (token_key l); [done | by right].
Qed.

Lemma scan_object_step pf :
  scans_value pf -> scans_members pf -> scans_members (S pf).
Proof.
  intros Hv Hm depth l ms rest sf seen d k Hp Hd Hsf. rewrite parse_members_eq in Hp.
  destruct (member_key l) as [[key r] |] eqn:Ek; [| done]. cbn in Hp.
  destruct (at_member_token _ _ _ _ _ Hd Ek) as (Hmore & Hlen & r0 & Hr0 & Htok).
  apply member_key_shorter in Ek.
  destruct (parse_value pf depth r) as [[v r1] |] eqn:Ev; [| done]. cbn in Hp.
  pose proof (proj1 (parse_shorter pf) _ _ _ _ Ev) as Hr1.
  destruct sf as [| sf]; [lia |]. cbn [scan_members]. rewrite Hmore, Htok.
  rewrite (scan_same_token sf (at_state r0 tokenObjectColon k) (at_state r tokenObjectValue k))
    by (by apply token_colon).
  rewrite (Hv _ _ _ _ sf tokenObjectValue k Ev) by (done || lia). cbn [tokenValueEnd].
  apply after_entry_inv in Hp as [(r2 & ms' & Hr2 & Hms & ->) | [Hr1' ->]].
  - destruct (Hm _ _ _ _ sf (of_bytes key :: seen) (at_state r1 tokenObjectComma k) k Hms) as (r3 & Hr3 & Hs).
    { right. by exists r1. }
    { cbn. lia. }
    exists r3. split; [done |]. rewrite members_unique_cons.
    destruct (bool_decide (of_bytes key ∈ seen)); [done |]. destruct (names_unique v); [| done].
    cbn in *. exact Hs.
  - exists r1. split; [done |]. rewrite members_unique_cons.
    destruct (bool_decide (of_bytes key ∈ seen)); [done |]. destruct (names_unique v); [| done]. cbn.
    destruct sf as [| sf]; [lia |]. cbn. unfold More. cbn [td_rest at_state]. by rewrite Hr1'.
Qed.

Lemma at_item_token l d k fuel depth v r :
  at_item l d k -> parse_value fuel depth l = Some (v, r) ->
  More d = true /\ (length l <= length (td_rest d))%nat
  /\ exists st, tokenValueAllowed st = true /\ tokenValueEnd st = tokenArrayComma /\ Token d = Token (at_state l st k).
Proof.
  intros [[-> Hl] | (l0 & Hl & ->)] Hv.
  - split; [| split; [done | by exists tokenArrayStart]].
    destruct fuel as [| fuel]; [done |].
    unfold More. cbn [td_rest at_state].
    destruct (skip_space l) as [| c r0] eqn:El.
    + by apply parse_value_inv in Hv as [(c & r0 & E & _) | [(r0 & E & _) | [(r0 & E & _) | [(r0 & ms & E & _) | (r0 & vs & E & _)]]]];
        rewrite El in E.
    + destruct (Ascii.eqb_spec c "]") as [-> |]; [by destruct (Hl r0) |].
      destruct (Ascii.eqb_spec c "}") as [-> |]; [| done].
      apply parse_value_inv in Hv as [(c & r1 & E & Hsc) | [(r1 & E & _) | [(r1 & E & _) | [(r1 & ms & E & _) | (r1 & vs & E & _)]]]];
        rewrite El in E; try done. injection E as <- <-. by apply scan_scalar_start in Hsc as (_ & _ & _ & ? & _).
  - split; [unfold More; cbn [td_rest at_state]; by rewrite Hl |].
    apply skip_space_bound in Hl as Hlen. split; [cbn; lia |]. exists tokenArrayValue.
    split; [done | split; [done | by apply token_array_comma]].
Qed.

Lemma scan_array_step pf :
  scans_value pf -> scans_items pf -> scans_items (S pf).
Proof.
  intros Hv Hi depth l vs rest sf d k Hp Hd Hsf. rewrite parse_items_eq in Hp.
  destruct (parse_value pf depth l) as [[v r1] |] eqn:Ev; [| done]. cbn in Hp.
  destruct (at_item_token _ _ _ _ _ _ _ Hd Ev) as (Hmore & Hlen & st & Hst & Hend & Htok).
  pose proof (proj1 (parse_shorter pf) _ _ _ _ Ev) as Hr1.
  destruct sf as [| sf]; [lia |]. cbn [scan_items]. rewrite Hmore.
  rewrite (scan_same_token sf d (at_state l st k)) by done.
  rewrite (Hv _ _ _ _ sf st k Ev) by (done || lia). rewrite Hend.
  apply after_entry_inv in Hp as [(r2 & vs' & Hr2 & Hvs & ->) | [Hr1' ->]].
  - destruct (Hi _ _ _ _ sf (at_state r1 tokenArrayComma k) k Hvs) as (r3 & Hr3 & Hs).
    { right. by exists r1. }
    { cbn. lia. }
    exists r3. split; [done |]. cbn [forallb]. by destruct (names_unique v).
  - exists r1. split; [done |]. cbn. destruct (names_unique v); [| done]. cbn.
    destruct sf as [| sf]; [lia |]. cbn. unfold More. cbn [td_rest at_state]. by rewrite Hr1'.
Qed.

Lemma scan_value_step pf :
  scans_members pf -> scans_items pf -> scans_value (S pf).
Proof.
  intros Hm Hi depth l v rest sf st k Hp Hst Hsf. destruct sf as [| sf]; [lia |].
  apply parse_value_inv in Hp as
    [(c & r & El & Hsc) | [(r & El & Er & ->) | [(r & El & Er & ->) | [(r & ms & El & Hp & ->) | (r & vs & El & Hp & ->)]]]];
    pose proof (skip_space_bound _ _ _ El) as Hlen; cbn [scanJSONValue].
  - rewrite (token_scalar _ _ _ _ _ _ _ El Hsc Hst).
    assert (names_unique v = true) as ->; [| by destruct v].
    unfold scan_scalar in Hsc. repeat case_match; repeat go_case_in Hsc; try done;
      match type of Hsc with ?m ≫= _ = _ => destruct m as [x |] end; try done; try (destruct x); by injection Hsc as <- _.
  - rewrite (token_open_object _ _ _ _ El Hst). cbn -[closing_token]. destruct sf as [| sf]; [lia |].
    cbn -[closing_token]. unfold More. cbn [td_rest at_state]. rewrite Er. cbn -[closing_token].
    unfold closing_token. by rewrite (token_close_object _ _ _ _ _ Er) by (by left).
  - rewrite (token_open_array _ _ _ _ El Hst). cbn -[closing_token]. destruct sf as [| sf]; [lia |].
    cbn -[closing_token]. unfold More. cbn [td_rest at_state]. rewrite Er. cbn -[closing_token].
    unfold closing_token. by rewrite (token_close_array _ _ _ _ _ Er) by (by left).
  - rewrite (token_open_object _ _ _ _ El Hst). rewrite names_unique_object. cbn -[closing_token scan_members].
    destruct (Hm _ _ _ _ sf [] (at_state r tokenObjectStart (st :: k)) (st :: k) Hp) as (r1 & Hr1 & ->); [by left | cbn; lia |].
    destruct (members_unique [] ms); [| done]. cbn -[closing_token].
    unfold closing_token. by rewrite (token_close_object _ _ _ _ _ Hr1) by (by right).
  - rewrite (token_open_array _ _ _ _ El Hst). cbn -[closing_token scan_items names_unique].
    destruct (Hi _ _ _ _ sf (at_state r tokenArrayStart (st :: k)) (st :: k) Hp) as (r1 & Hr1 & ->).
    { left. split; [done |]. intros rest' E. destruct pf as [| pf]; [done |]. rewrite parse_items_eq in Hp.
      destruct (parse_value pf _ r) as [[v r1] |] eqn:Ev; [| done]. destruct pf as [| pf]; [done |].
      apply parse_value_inv in Ev as [(c & r2 & E2 & Hsc) | [(r2 & E2 & _) | [(r2 & E2 & _) | [(r2 & ms & E2 & _) | (r2 & vs' & E2 & _)]]]];
        rewrite E in E2; try done. injection E2 as <- <-. by apply scan_scalar_start in Hsc as (_ & ? & _). }
    { cbn. lia. }
    cbn [names_unique]. destruct (forallb names_unique vs); [| done]. cbn -[closing_token].
    unfold closing_token. by rewrite (token_close_array _ _ _ _ _ Hr1) by (by right).
Qed.

Lemma scan_parsed pf : scans_value pf /\ scans_members pf /\ scans_items pf.
Proof.
  induction pf as [| pf (IHv & IHm & IHi)]; [done |]. split; [by apply scan_value_step |].
  split; [by apply scan_object_step | by apply scan_array_step].
Qed.

(** *** The fuel of the scan is enough *)

Definition unread (d : TokenDecoder) : nat := length (td_rest d).

Lemma token_loop_shorter fuel d t d' : token_loop fuel d = Some (t, d') -> (unread d' < unread d)%nat.
Proof.
  revert d; induction fuel as [| fuel IH]; intros d; [done |].
  cbn -[Ascii.eqb scan_string scan_scalar c_quote]. pose proof (skip_space_length (td_rest d)) as Hs.
  destruct (skip_space (td_rest d)) as [| c r]; [done |]. cbn in Hs. unfold unread in *.
  destruct (Ascii.eqb c "["); [destruct (tokenValueAllowed _); [| done]; intros [= _ <-]; cbn; lia |].
  destruct (Ascii.eqb c "]");
    [destruct (td_state d), (td_stack d); try done; intros [= _ <-]; cbn; lia |].
  destruct (Ascii.eqb c "{"); [destruct (tokenValueAllowed _); [| done]; intros [= _ <-]; cbn; lia |].
  destruct (Ascii.eqb c "}");
    [destruct (td_state d), (td_stack d); try done; intros [= _ <-]; cbn; lia |].
  destruct (Ascii.eqb c ":"); [destruct (td_state d); try done; intros H%IH; cbn in H; lia |].
  destruct (Ascii.eqb c ","); [destruct (td_state d); try done; intros H%IH; cbn in H; lia |].
  destruct (Ascii.eqb c c_quote && _).
  - destruct (scan_string (length r) r) as [[x r1] |] eqn:E; [| done]. apply scan_string_shorter in E.
    intros [= _ <-]. cbn. lia.
  - destruct (tokenValueAllowed _); [| done]. destruct (scan_scalar (c :: r)) as [[x r1] |] eqn:E; [| done].
    apply scan_scalar_shorter in E. intros [= _ <-]. cbn in *. lia.
Qed.

Lemma token_shorter d t d' : Token d = Some (t, d') -> (unread d' < unread d)%nat.
Proof. apply token_loop_shorter. Qed.

(** What a call of the scan leaves unread, and that it does not run out of fuel. *)
Definition scan_ends (bound : nat) (m : result TokenDecoder) : Prop :=
  match m with Ok d => (unread d <= bound)%nat | Err e => e <> GoPanic end.

Lemma scan_ends_bind b b' (m : result TokenDecoder) k :
  scan_ends b m -> (forall d, (unread d <= b)%nat -> scan_ends b' (k d)) -> scan_ends b' (m ≫= k).
Proof. destruct m; cbn; auto. Qed.

Lemma scan_ends_weaken b b' m : scan_ends b m -> (b <= b')%nat -> scan_ends b' m.
Proof. destruct m; cbn; [lia | done]. Qed.

Lemma closing_token_ends d : scan_ends (unread d) (closing_token d).
Proof. unfold closing_token. destruct (Token d) as [[t d'] |] eqn:E; [| done]. apply token_shorter in E. cbn. lia. Qed.

Lemma more_unread d : More d = true -> (0 < unread d)%nat.
Proof.
  unfold More, unread. pose proof (skip_space_length (td_rest d)).
  destruct (skip_space (td_rest d)); [done | cbn in *; lia].
Qed.

Lemma scan_no_panic fuel :
  (forall d, (2 * unread d < fuel)%nat -> scan_ends (pred (unread d)) (scanJSONValue fuel d))
  /\ (forall seen d, (2 * unread d < fuel)%nat -> scan_ends (unread d) (scan_members fuel seen d))
  /\ (forall d, (S (2 * unread d) < fuel)%nat -> scan_ends (unread d) (scan_items fuel d)).
Proof.
  induction fuel as [| fuel (IHv & IHm & IHi)]; [repeat split; lia |]. repeat split.
  - intros d Hd. cbn. destruct (Token d) as [[t d1] |] eqn:E; [| done]. apply token_shorter in E.
    assert (forall m : result TokenDecoder, scan_ends (unread d1) m ->
              scan_ends (pred (unread d)) (m ≫= closing_token)) as Hclose.
    { intros m Hm. apply (scan_ends_bind (unread d1)); [done |].
      intros d2 Hd2. eapply scan_ends_weaken; [apply closing_token_ends | lia]. }
    destruct t as [c | s |]; [| cbn; lia ..].
    destruct (Ascii.eqb c "{"); [apply Hclose, IHm; lia |].
    destruct (Ascii.eqb c "["); [apply Hclose, IHi; lia | done].
  - intros seen d Hd. cbn. destruct (More d); [| by cbn].
    destruct (Token d) as [[[c | key |] d1] |] eqn:E; try done. apply token_shorter in E.
    destruct (bool_decide (key ∈ seen)); [done |]. cbn.
    apply (scan_ends_bind (pred (unread d1))); [apply IHv; lia |].
    intros d2 Hd2. eapply scan_ends_weaken; [apply IHm; lia | lia].
  - intros d Hd. cbn. destruct (More d) eqn:Hmore; [| by cbn]. apply more_unread in Hmore.
    apply (scan_ends_bind (pred (unread d))); [apply IHv; lia |].
    intros d2 Hd2. eapply scan_ends_weaken; [apply IHi; lia | lia].
Qed.

(** ** What is accepted *)

Lemma text_of_length payload : length (text_of payload) = length payload.
Proof. apply length_map. Qed.

Lemma rejectDuplicate_parsed payload v rest :
  parse (text_of payload) = Some (v, rest) ->
  rejectDuplicateJSONKeys payload
  = if names_unique v then Ok tt else fail ErrorConflict ReasonDuplicateCanonicalKey.
Proof.
  intros Hp. unfold rejectDuplicateJSONKeys.
  rewrite (proj1 (scan_parsed _) _ _ _ _ (S (2 * length payload)) tokenTopValue [] Hp);
    [by destruct (names_unique v) | done | rewrite text_of_length; lia].
Qed.

Lemma rejectDuplicate_total payload : rejectDuplicateJSONKeys payload <> Err GoPanic.
Proof.
  unfold rejectDuplicateJSONKeys.
  pose proof (proj1 (scan_no_panic (S (2 * length payload))) (at_state (text_of payload) tokenTopValue [])) as H.
  unfold unread in H. cbn [td_rest at_state] in H. rewrite text_of_length in H. specialize (H ltac:(lia)).
  destruct (scanJSONValue _ _) as [d | e]; [done |]. cbn in *. congruence.
Qed.

Section strict.
Context {T : Type} (decode : Decoder T) (zero : T).

Definition bounded_document (payload : list N) : Prop :=
  (1 <= length payload)%nat /\ N.of_nat (length payload) <= MaxCanonicalDocumentBytes.

Lemma DecodeStrictJSON_bounded payload :
  bounded_document payload ->
  DecodeStrictJSON decode zero payload
  = (rejectDuplicateJSONKeys payload ;;
     match parse (text_of payload) with
     | None => invalid_json
     | Some (v, rest) =>
         match decode v zero with
         | None => invalid_json
         | Some target =>
             guard (negb (bool_decide (skip_space rest = []))) ErrorInvalidArgument ReasonInvalidCanonicalForm ;;
             Ok target
         end
     end).
Proof.
  intros [H1 H2]. unfold DecodeStrictJSON.
  assert (Nat.eqb (length payload) 0 || (MaxCanonicalDocumentBytes <? N.of_nat (length payload)) = false) as ->; [| done].
  rewrite orb_false_iff, Nat.eqb_neq, N.ltb_ge. split; [lia | done].
Qed.

(** C33: DecodeStrictJSON accepts exactly the bounded payloads that are one JSON
    document, with nothing but space behind it, in which no object has two
    members of the same name, and that the target's decoder accepts; and the
    value it returns is the decoder's. *)
Theorem DecodeStrictJSON_spec (payload : list N) (t : T) :
  DecodeStrictJSON decode zero payload = Ok t <->
  bounded_document payload
  /\ exists v rest, parse (text_of payload) = Some (v, rest) /\ names_unique v = true
       /\ skip_space rest = [] /\ decode v zero = Some t.
Proof.
  split.
  - intros H. assert (bounded_document payload) as Hb.
    { unfold DecodeStrictJSON in H. rewrite seq_guard_Ok, orb_false_iff, Nat.eqb_neq, N.ltb_ge in H.
      destruct H as [[? ?] _]. split; [lia | done]. }
    split; [done |]. rewrite DecodeStrictJSON_bounded in H by done.
    destruct (parse (text_of payload)) as [[v rest] |] eqn:Ep; [| by destruct (rejectDuplicateJSONKeys payload)].
    rewrite (rejectDuplicate_parsed _ _ _ Ep) in H. exists v, rest.
    destruct (names_unique v); [| done]. cbn in H. destruct (decode v zero) as [t' |]; [| done].
    rewrite seq_guard_Ok, negb_false_iff, bool_decide_eq_true in H. destruct H as [Hr [= ->]]. done.
  - intros (Hb & v & rest & Ep & Hu & Hr & Hd). rewrite DecodeStrictJSON_bounded by done.
    rewrite (rejectDuplicate_parsed _ _ _ Ep), Hu, Ep, Hd. cbn. by rewrite bool_decide_eq_true_2.
Qed.

(** What json.Marshal printed is decoded. *)
Lemma DecodeStrictJSON_Marshal j :
  bounded_document (json_Marshal j) -> json_depth j <= maxNestingDepth -> names_unique (value_of j) = true ->
  DecodeStrictJSON decode zero (json_Marshal j)
  = match decode (value_of j) zero with Some t => Ok t | None => invalid_json end.
Proof.
  intros Hb Hd Hu. rewrite DecodeStrictJSON_bounded by done.
  assert (parse (text_of (json_Marshal j)) = Some (value_of j, [])) as Hp.
  { assert (text_of (json_Marshal j) = json_print j ++ [])%list as ->; [| by apply json_parse_print].
    unfold text_of, json_Marshal. rewrite app_nil_r, map_map. rewrite <- (map_id (json_print j)) at 2.
    apply map_ext. apply ascii_N_embedding. }
  rewrite (rejectDuplicate_parsed _ _ _ Hp), Hu, Hp. cbn. by destruct (decode (value_of j) zero).
Qed.
End strict.

#[global] Arguments DecodeStrictJSON : simpl never.
