(* ===== verification/Payload.v ===== *)
(** * ports/binding_v2_types.go and binding_v2_validate.go: names, versions, payloads

    The values that the versioned contracts share: namespaced names, version
    ranges, schema references, bounded opaque payloads, governance extensions
    and owner roles, with their documents (the JSON that digests hash). *)

From S2P Require Import Prelude GoStd Errors Identity SemVer Sha256 Json Canonical.
From Stdlib Require Import Ascii.

Local Open Scope N_scope.

Definition MaxManifestSetEntries : N := 256.
Definition MaxOpaqueInlineBytes : N := 262144.
Definition MaxOpaqueReferenceBytes : N := 2048.
Definition MaxOpaqueDeclaredBytes : N := 67108864.
Definition MaxCapabilityTTLSeconds : N := 2592000.

(** len(s) of a Go string. *)
Definition str_len (s : string) : N := N.of_nat (String.length s).

(** ** Names *)

Definition lower_letter (c : ascii) : bool := in_range 97 122 c.

Definition name_char (namespace : bool) (c : ascii) : bool :=
  let allowed := lower_letter c || is_digit c || Ascii.eqb c "-" in
  if namespace then allowed || Ascii.eqb c "." else allowed || Ascii.eqb c "_" || Ascii.eqb c ".".

Definition validLowerASCIIName (value : list ascii) (namespace : bool) : bool :=
  match value with
  | [] => false
  | first :: _ =>
      if (63 <? N.of_nat (length value)) || negb (lower_letter first) then false
      else
        let last := List.last value first in
        if negb (lower_letter last || is_digit last) then false
        else forallb (name_char namespace) value
  end.

Definition ValidateNamespacedNameV2 (value : string) : result unit :=
  let raw := bytes value in
  guard ((str_len value <? 3) || (128 <? str_len value) || negb (Nat.eqb (count_byte "/" raw) 1))
    ErrorInvalidArgument ReasonInvalidNamespace ;;
  match split_on "/" raw with
  | [namespace; name] =>
      guard (negb (validLowerASCIIName namespace true) || negb (validLowerASCIIName name false))
        ErrorInvalidArgument ReasonInvalidNamespace
  | _ => Err GoPanic
  end.

(** strings.ToLower on ASCII; other bytes stay, and the callers reject any
    string that has them. *)
Definition to_lower (c : ascii) : ascii :=
  if in_range 65 90 c then ascii_of_N (N_of_ascii c + 32) else c.

Definition media_char (c : ascii) : bool :=
  lower_letter c || is_digit c || bool_decide (c ∈ bytes "!#$&^_.+-/").

Definition validMediaType (value : string) : bool :=
  let raw := bytes value in
  if bool_decide (value = "") || (128 <? str_len value)
     || negb (bool_decide (raw = map to_lower raw)) || negb (Nat.eqb (count_byte "/" raw) 1)
     || negb (bool_decide (TrimSpace value = value))
  then false
  else forallb media_char raw.

(** ** Versions *)

Record VersionRangeV2 := { MinimumInclusive : string; MaximumExclusive : string }.
#[export] Instance VersionRangeV2_eq_dec : EqDecision VersionRangeV2.
Proof. solve_decision. Defined.

Definition VersionRangeV2_Validate (r : VersionRangeV2) : result unit :=
  minimum ← ParseSemanticVersion (MinimumInclusive r) ;
  maximum ← ParseSemanticVersion (MaximumExclusive r) ;
  guard (negb (bool_decide (SemanticVersion_String minimum = MinimumInclusive r))
         || negb (bool_decide (SemanticVersion_String maximum = MaximumExclusive r))
         || negb (Nat.eqb (length (Build minimum)) 0) || negb (Nat.eqb (length (Build maximum)) 0))
    ErrorInvalidArgument ReasonInvalidSemanticVersion ;;
  guard (0 <=? CompareSemanticVersion minimum maximum)%Z ErrorInvalidArgument ReasonInvalidSemanticVersion.

(** `version, err := ParseSemanticVersion(value); err != nil || version.String() != value` *)
Definition canonical_version (value : string) : bool :=
  match ParseSemanticVersion value with
  | Ok version => bool_decide (SemanticVersion_String version = value)
  | Err _ => false
  end.

Definition VersionRangeV2_Contains (r : VersionRangeV2) (value : string) : bool :=
  if negb (is_ok (VersionRangeV2_Validate r)) then false
  else if negb (canonical_version value) then false
  else match ParseSemanticVersion value, ParseSemanticVersion (MinimumInclusive r),
             ParseSemanticVersion (MaximumExclusive r) with
       | Ok version, Ok minimum, Ok maximum =>
           (0 <=? CompareSemanticVersion version minimum)%Z && (CompareSemanticVersion version maximum <? 0)%Z
       | _, _, _ => false
       end.

Record ContractBindingV2 := { cb_Name : string; cb_Version : string; cb_Compatible : VersionRangeV2 }.
#[export] Instance ContractBindingV2_eq_dec : EqDecision ContractBindingV2.
Proof. solve_decision. Defined.

Definition validateContractBindingV2 (contract : ContractBindingV2) : result unit :=
  ValidateNamespacedNameV2 (cb_Name contract) ;;
  guard (negb (canonical_version (cb_Version contract))) ErrorInvalidArgument ReasonInvalidSemanticVersion ;;
  VersionRangeV2_Validate (cb_Compatible contract) ;;
  guard (negb (VersionRangeV2_Contains (cb_Compatible contract) (cb_Version contract)))
    ErrorPreconditionFailed ReasonInvalidSemanticVersion.

(** ** Schemas and payloads *)

Record SchemaRefV2 := {
  sr_Namespace : string;
  sr_Name : string;
  sr_Version : string;
  sr_MediaType : string;
  sr_ContentDigest : Digest;
}.
#[export] Instance SchemaRefV2_eq_dec : EqDecision SchemaRefV2.
Proof. solve_decision. Defined.

Definition SchemaRefV2_Key (s : SchemaRefV2) : string :=
  sr_Namespace s +:+ "/" +:+ sr_Name s +:+ "@" +:+ sr_Version s +:+ ";" +:+ sr_MediaType s +:+ ";"
  +:+ sr_ContentDigest s.

Definition SchemaRefV2_Validate (s : SchemaRefV2) : result unit :=
  guard (negb (validLowerASCIIName (bytes (sr_Namespace s)) true)
         || negb (validLowerASCIIName (bytes (sr_Name s)) false))
    ErrorInvalidArgument ReasonInvalidNamespace ;;
  guard (negb (canonical_version (sr_Version s))) ErrorInvalidArgument ReasonInvalidSemanticVersion ;;
  guard (negb (validMediaType (sr_MediaType s))) ErrorInvalidArgument ReasonInvalidReference ;;
  Digest_Validate (sr_ContentDigest s).

Record OpaqueLimitPolicyRefV2 := { lp_Policy : string; lp_Digest : Digest }.
#[export] Instance OpaqueLimitPolicyRefV2_eq_dec : EqDecision OpaqueLimitPolicyRefV2.
Proof. solve_decision. Defined.

(** Inline is a byte slice: [None] is nil. *)
Record OpaquePayloadV2 := {
  op_Schema : SchemaRefV2;
  op_ContentDigest : Digest;
  op_Length : N;
  op_Inline : option (list N);
  op_Ref : string;
  op_LimitPolicy : OpaqueLimitPolicyRefV2;
}.
#[export] Instance OpaquePayloadV2_eq_dec : EqDecision OpaquePayloadV2.
Proof. solve_decision. Defined.

Definition OpaquePayloadV2_Validate (p : OpaquePayloadV2) : result unit :=
  SchemaRefV2_Validate (op_Schema p) ;;
  Digest_Validate (op_ContentDigest p) ;;
  ValidateNamespacedNameV2 (lp_Policy (op_LimitPolicy p)) ;;
  Digest_Validate (lp_Digest (op_LimitPolicy p)) ;;
  guard ((op_Length p =? 0) || (MaxOpaqueDeclaredBytes <? op_Length p))
    ErrorInvalidArgument ReasonCanonicalLimitExceeded ;;
  match op_Inline p, bool_decide (op_Ref p = "") with
  | Some _, false | None, true => fail ErrorInvalidArgument ReasonInvalidReference
  | Some inline, true =>
      guard ((MaxOpaqueInlineBytes <? N.of_nat (length inline))
             || negb (N.of_nat (length inline) =? op_Length p))
        ErrorInvalidArgument ReasonCanonicalLimitExceeded ;;
      guard (negb (bool_decide (DigestBytes inline = op_ContentDigest p)))
        ErrorPreconditionFailed ReasonInvalidDigest
  | None, false =>
      guard ((MaxOpaqueReferenceBytes <? str_len (op_Ref p))
             || negb (bool_decide (TrimSpace (op_Ref p) = op_Ref p)))
        ErrorInvalidArgument ReasonInvalidReference
  end.

Record GovernanceExtensionV2 := {
  gx_Key : string;
  gx_Required : bool;
  gx_Payload : OpaquePayloadV2;
}.
#[export] Instance GovernanceExtensionV2_eq_dec : EqDecision GovernanceExtensionV2.
Proof. solve_decision. Defined.

(** A loop that keeps the set of keys it has seen: [before] runs ahead of the
    duplicate test and [after] behind it. *)
Fixpoint visit_unique {A K} `{EqDecision K} (before : A -> result unit) (key : A -> K) (duplicate : error)
    (after : A -> result unit) (seen : list K) (xs : list A) : result unit :=
  match xs with
  | [] => Ok tt
  | x :: rest =>
      before x ;; reject_if (bool_decide (key x ∈ seen)) duplicate ;; after x ;;
      visit_unique before key duplicate after (key x :: seen) rest
  end.

Definition nothing {A} (_ : A) : result unit := Ok tt.

Definition validateExtensionsV2 (extensions : list GovernanceExtensionV2) : result unit :=
  visit_unique (fun x => ValidateNamespacedNameV2 (gx_Key x) ;; OpaquePayloadV2_Validate (gx_Payload x))
    gx_Key (NewError ErrorConflict ReasonDuplicateCanonicalKey) nothing [] extensions.

(** ** Owner roles *)

Inductive OwnerRoleV2 := OwnerEffect | OwnerSettlement | OwnerCleanup | OwnerRoleOther (raw : string).
#[export] Instance OwnerRoleV2_eq_dec : EqDecision OwnerRoleV2.
Proof. solve_decision. Defined.

Definition OwnerRoleV2_string (r : OwnerRoleV2) : string :=
  match r with
  | OwnerEffect => "effect" | OwnerSettlement => "settlement" | OwnerCleanup => "cleanup"
  | OwnerRoleOther raw => raw
  end.

(** ** Documents *)

Definition SchemaRefV2_json (s : SchemaRefV2) : json :=
  JStruct [field "namespace" (JString (sr_Namespace s)); field "name" (JString (sr_Name s));
           field "version" (JString (sr_Version s)); field "media_type" (JString (sr_MediaType s));
           field "content_digest" (JString (sr_ContentDigest s))].

Definition OpaqueLimitPolicyRefV2_json (p : OpaqueLimitPolicyRefV2) : json :=
  JStruct [field "policy" (JString (lp_Policy p)); field "digest" (JString (lp_Digest p))].

Definition OpaquePayloadV2_json (p : OpaquePayloadV2) : json :=
  JStruct [field "schema" (SchemaRefV2_json (op_Schema p));
           field "content_digest" (JString (op_ContentDigest p));
           field "length" (JUint (op_Length p)); omit_bytes "inline" (op_Inline p);
           omit_string "ref" (op_Ref p);
           field "limit_policy" (OpaqueLimitPolicyRefV2_json (op_LimitPolicy p))].

Definition GovernanceExtensionV2_json (x : GovernanceExtensionV2) : json :=
  JStruct [field "key" (JString (gx_Key x)); field "required" (JBool (gx_Required x));
           field "payload" (OpaquePayloadV2_json (gx_Payload x))].

Definition VersionRangeV2_json (r : VersionRangeV2) : json :=
  JStruct [field "minimum_inclusive" (JString (MinimumInclusive r));
           field "maximum_exclusive" (JString (MaximumExclusive r))].

Definition ContractBindingV2_json (c : ContractBindingV2) : json :=
  JStruct [field "name" (JString (cb_Name c)); field "version" (JString (cb_Version c));
           field "compatible_range" (VersionRangeV2_json (cb_Compatible c))].

(** ** Lemmas *)

Section visit.
Context {A K : Type} `{EqDecision K} (before : A -> result unit) (key : A -> K) (dup : error)
        (after : A -> result unit).

Lemma visit_unique_Ok seen xs u :
  visit_unique before key dup after seen xs = Ok u <->
  Forall (fun x => before x = Ok tt /\ after x = Ok tt) xs /\ NoDup (map key xs)
  /\ Forall (fun x => key x ∉ seen) xs.
Proof.
  destruct u. revert seen; induction xs as [| x xs IH]; intros seen; cbn.
  - repeat split; constructor.
  - rewrite !seq_Ok, reject_if_Ok, IH, !Forall_cons, NoDup_cons, bool_decide_eq_false.
    assert (Forall (fun y => key y ∉ (key x :: seen)) xs
            <-> (key x ∉ map key xs) /\ Forall (fun y => key y ∉ seen) xs) as ->; [| tauto].
    rewrite !Forall_forall, list_elem_of_fmap. setoid_rewrite not_elem_of_cons.
    split; [intros Hf; split; [intros (y & Hy & Hin); by destruct (Hf y Hin) | intros y Hin; by destruct (Hf y Hin)] |].
    intros [Hx Hf] y Hin. split; [intros Hy; apply Hx; by exists y | by apply Hf].
Qed.
End visit.

(** A namespaced name is namespace "/" name. *)
Lemma ValidateNamespacedNameV2_iff value :
  ValidateNamespacedNameV2 value = Ok tt <->
  exists namespace name, bytes value = (namespace ++ "/"%char :: name)%list
    /\ validLowerASCIIName namespace true = true /\ validLowerASCIIName name false = true
    /\ 3 <= str_len value <= 128.
Proof.
  assert (forall l b, validLowerASCIIName l b = true -> free_of "/" l) as Hfree.
  { intros [| c l] b; [done |]. unfold validLowerASCIIName. destruct (_ || _); [done |].
    destruct (negb _); [done |]. intros Hf. unfold free_of. rewrite Forall_forall.
    intros d Hd. apply list_elem_of_In in Hd. apply (proj1 (forallb_forall _ _) Hf) in Hd.
    destruct (Ascii.eqb_spec d "/"); [subst; by destruct b | done]. }
  unfold ValidateNamespacedNameV2. rewrite seq_guard_Ok, !orb_false_iff, !N.ltb_ge, negb_false_iff, Nat.eqb_eq.
  split.
  - intros [[[Hlo Hhi] Hc] H]. pose proof (join_split "/" (bytes value)) as Hj.
    pose proof (split_on_pieces "/" (bytes value)) as Hp.
    destruct (split_on "/" (bytes value)) as [| a [| b [| d rest]]]; try done.
    exists a, b. cbn in Hj. apply guard_Ok in H. rewrite orb_false_iff, !negb_false_iff in H.
    repeat split; try tauto; [by rewrite Hj | lia ..].
  - intros (a & b & Hb & Ha & Hn & Hlen). rewrite Hb.
    pose proof (Hfree _ _ Ha). pose proof (Hfree _ _ Hn).
    repeat split; try lia.
    + rewrite count_byte_app, count_byte_free by done. unfold count_byte. rewrite filter_cons_True by done.
      cbn. f_equal. by apply count_byte_free.
    + rewrite split_on_app, split_on_free by done. by rewrite Ha, Hn.
Qed.

(** A lowercase name has no byte that json.Marshal or a separator could change. *)
Lemma valid_name_graphic l b :
  validLowerASCIIName l b = true -> Forall (fun c => graphic_ascii c = true) l.
Proof.
  destruct l as [| c l]; [constructor |]. unfold validLowerASCIIName.
  destruct (_ || _); [done |]. destruct (negb _); [done |]. intros Hf.
  rewrite Forall_forall. intros d Hd. apply list_elem_of_In, (proj1 (forallb_forall _ _) Hf) in Hd.
  revert Hd. clear. unfold name_char. destruct d as [[] [] [] [] [] [] [] []], b; (done || discriminate).
Qed.

Lemma ascii_runes n l :
  (length l <= n)%nat -> Forall (fun c => N_of_ascii c < 128) l -> decode_runes n l = map (fun c => Rune [c]) l.
Proof.
  revert n; induction l as [| c l IH]; intros [| n] Hn Hl; cbn in *; try done; try lia.
  apply Forall_cons in Hl as [Hc Hl].
  assert (decode_rune c l = (Rune [c], l)) as ->.
  { unfold decode_rune, utf8_lead, in_range at 1. 
    by destruct (N.leb_spec (N_of_ascii c) 127), (N.leb_spec 0 (N_of_ascii c)); [| lia ..]. }
  by rewrite IH by (done || lia).
Qed.

Lemma ascii_utf8 s : Forall (fun c => N_of_ascii c < 128) (bytes s) -> valid_utf8 s = true.
Proof.
  intros H. unfold valid_utf8, runes. rewrite ascii_runes by done. clear H.
  induction (bytes s) as [| c l IH]; [done | exact IH].
Qed.

Lemma graphic_utf8 s : Forall (fun c => graphic_ascii c = true) (bytes s) -> valid_utf8 s = true.
Proof.
  intros H. apply ascii_utf8. eapply Forall_impl; [exact H |]. intros c. unfold graphic_ascii.
  cbn beta. rewrite andb_true_iff, !N.leb_le. lia.
Qed.

Lemma namespaced_graphic value :
  ValidateNamespacedNameV2 value = Ok tt -> Forall (fun c => graphic_ascii c = true) (bytes value).
Proof.
  rewrite ValidateNamespacedNameV2_iff. intros (a & b & -> & Ha & Hb & _).
  apply Forall_app. split; [by eapply valid_name_graphic |]. constructor; [done | by eapply valid_name_graphic].
Qed.

(** ** Documents determine values *)

#[export] Instance SchemaRefV2_json_Inj : Inj (=) (=) SchemaRefV2_json.
Proof. solve_json_inj. Qed.
#[export] Instance OpaqueLimitPolicyRefV2_json_Inj : Inj (=) (=) OpaqueLimitPolicyRefV2_json.
Proof. solve_json_inj. Qed.
#[export] Instance VersionRangeV2_json_Inj : Inj (=) (=) VersionRangeV2_json.
Proof. solve_json_inj. Qed.
#[export] Instance ContractBindingV2_json_Inj : Inj (=) (=) ContractBindingV2_json.
Proof. solve_json_inj. Qed.

(** A byte slice holds bytes. *)
Definition payload_typed (p : OpaquePayloadV2) : Prop := Forall is_byte (default [] (op_Inline p)).

Lemma valid_inline p : OpaquePayloadV2_Validate p = Ok tt -> op_Inline p <> Some [].
Proof.
  unfold OpaquePayloadV2_Validate. intros H E. go_ok. rewrite E in *. go_bool.
  destruct (bool_decide (op_Ref p = "")); go_ok. go_bool. destruct_and?. cbn in *. by destruct_or?; lia.
Qed.

Lemma OpaquePayloadV2_json_inj p q :
  OpaquePayloadV2_Validate p = Ok tt -> OpaquePayloadV2_Validate q = Ok tt ->
  payload_typed p -> payload_typed q -> OpaquePayloadV2_json p = OpaquePayloadV2_json q -> p = q.
Proof.
  intros Hp%valid_inline Hq%valid_inline Tp Tq H. unfold payload_typed in *. destruct p, q; cbn in *.
  unfold OpaquePayloadV2_json in H; cbn in H. json_fields H.
  apply omit_bytes_inj in H as [E2 H]; [| done .. | eauto 20 with json_absent | eauto 20 with json_absent].
  json_split H. json_values. by subst.
Qed.

Definition known_role (r : OwnerRoleV2) : bool := match r with OwnerRoleOther _ => false | _ => true end.

Lemma OwnerRoleV2_string_inj r r' :
  known_role r = true -> known_role r' = true -> OwnerRoleV2_string r = OwnerRoleV2_string r' -> r = r'.
Proof. by destruct r, r'. Qed.

(** The predecessor of the first ledger record, and the placeholder digest of a
    plan that is sealed. *)
Definition EvidenceGenesisDigestV2 : Digest :=
  "sha256:0000000000000000000000000000000000000000000000000000000000000000".

(** ** Digests of documents *)

Definition document_digest (domain version discriminator : string) (j : json) : result Digest :=
  CanonicalJSONDigest domain version discriminator (Some (json_Marshal j)).
Definition document_preimage (domain version discriminator : string) (j : json) : list N :=
  canonical_preimage domain version discriminator (json_Marshal j).

Lemma document_digest_Ok dom v k j d :
  document_digest dom v k j = Ok d -> d = hex_digest (document_preimage dom v k j).
Proof. intros H. by apply CanonicalJSONDigest_Ok in H as (_ & _ & _ & _ & ->). Qed.

(** Two byte strings that SHA-256 does not tell apart. *)
Definition collision (q q' : list N) : Prop := q <> q' /\ hex_digest q = hex_digest q'.

(** Equal digests of two documents: the documents agree up to invalid UTF-8,
    or their preimages are a collision of SHA-256. *)
Lemma document_digest_binds dom v k k' j j' d :
  document_digest dom v k j = Ok d -> document_digest dom v k' j' = Ok d ->
  json_utf8 j = true -> json_utf8 j' = true ->
  (k = k' /\ j = j') \/ collision (document_preimage dom v k j) (document_preimage dom v k' j').
Proof.
  intros H H' U U'. destruct (decide (document_preimage dom v k j = document_preimage dom v k' j')) as [E | E].
  - left. destruct (canonical_preimage_inj _ _ _ _ _ _ _ _ _ _ H H' E) as (_ & _ & -> & Ep & _).
    apply json_Marshal_inj in Ep. by rewrite !json_text_utf8 in Ep.
  - right. split; [done |]. transitivity d; [symmetry |]; by apply document_digest_Ok.
Qed.
