(* ===== verification/JsonCodec.v ===== *)
(** * Structs through encoding/json and back

    Decoders of named string types, pointers and integers beside those of
    JsonParse, the copy of a value through its document, and the lemmas and
    tactics with which the codecs of the components read their documents back. *)

From S2P Require Import Prelude GoStd Errors Json JsonParse Canonical StrictJson Payload.
From Stdlib Require Import Ascii.

Local Open Scope N_scope.

(** ** Decoders *)

(** A named string type: the constant, or any other text. *)
Definition named {E} (known : list E) (string_of : E -> string) (other : string -> E) (s : string) : E :=
  match list_find (fun e => string_of e = s) known with Some (_, e) => e | None => other s end.
Definition decode_named {E} (string_of : E -> string) (of_string : string -> E) : Decoder E := fun v current =>
  of_string <$> decode_string v (string_of current).

(** A slice whose nil and empty values are used alike. *)
Definition decode_list {T} (decode : Decoder T) (zero : T) : Decoder (list T) := fun v current =>
  slice_items <$> decode_slice decode zero v (Some current).

(** A pointer: null is nil, and another value is decoded into what it points to
    or into a zero value. *)
Definition decode_pointer {T} (decode : Decoder T) (zero : T) : Decoder (option T) := fun v current =>
  match v with VNull => Some None | _ => Some <$> decode v (default zero current) end.

(** strconv.ParseInt(s, 10, 64): [None] on a syntax or range error. *)
Definition ParseInt (l : list ascii) : option Z :=
  match l with
  | "-"%char :: digits =>
      un ← ParseUint digits ; if un <=? 9223372036854775808 then Some (- Z.of_N un)%Z else None
  | "+"%char :: digits => un ← ParseUint digits ; if un <? 9223372036854775808 then Some (Z.of_N un) else None
  | digits => un ← ParseUint digits ; if un <? 9223372036854775808 then Some (Z.of_N un) else None
  end.
Definition int64_range (z : Z) : Prop := (-9223372036854775808 <= z <= 9223372036854775807)%Z.

Definition decode_int64 : Decoder Z := fun v current =>
  match v with VNull => Some current | VNumber literal => ParseInt literal | _ => None end.

(** ** Reading back what was encoded *)

(** The decoder [d] undoes the encoder [enc] on the values that satisfy [P]. *)
Definition reads {T} (P : T -> Prop) (enc : T -> json) (d : Decoder T) (zero : T) : Prop :=
  forall x, P x -> json_utf8 (enc x) = true -> d (value_of (enc x)) zero = Some x.

Lemma decode_members_cons {T} (fields : list (string * Decoder T)) key v rest current d next :
  find_field fields key = Some d -> d v current = Some next ->
  decode_members fields ((key, v) :: rest) current = decode_members fields rest next.
Proof. intros Hf Hd. cbn. rewrite Hf. cbn. by rewrite Hd. Qed.

Lemma decode_at_Some {S T} (get : S -> T) (set : T -> S -> S) d v s x :
  d v (get s) = Some x -> decode_at get set d v s = Some (set x s).
Proof. intros H. unfold decode_at. by rewrite H. Qed.

Lemma read_string s current : valid_utf8 s = true -> decode_string (VString (scrub s)) current = Some s.
Proof. intros H. cbn. by rewrite scrub_valid. Qed.

Lemma ParseUint_json n : n <= max_u64 -> ParseUint (json_number (Z.of_N n)) = Some n.
Proof.
  intros H. unfold json_number. assert ((Z.of_N n <? 0)%Z = false) as -> by lia. cbn [app].
  assert (Z.abs_N (Z.of_N n) = n) as -> by lia. by apply ParseUint_format.
Qed.

Lemma read_uint n current : n <= max_u64 -> decode_uint64 (VNumber (json_number (Z.of_N n))) current = Some n.
Proof. apply ParseUint_json. Qed.

Lemma ParseInt_digits c l : is_digit c = true ->
  ParseInt (c :: l) = (un ← ParseUint (c :: l) ; if un <? 9223372036854775808 then Some (Z.of_N un) else None).
Proof. intros H. destruct c as [[] [] [] [] [] [] [] []]; done. Qed.

Lemma ParseInt_json z : int64_range z -> ParseInt (json_number z) = Some z.
Proof.
  unfold int64_range, json_number. intros H. pose proof (ParseUint_format (Z.abs_N z)) as Hp. unfold max_u64 in Hp.
  destruct (Z.ltb_spec z 0) as [Hz | Hz]; cbn [app].
  - cbn [ParseInt]. rewrite Hp by lia. cbn [mbind option_bind]. rewrite (proj2 (N.leb_le _ _)) by lia. f_equal. lia.
  - destruct (format_bytes_spec (Z.abs_N z)) as (Hd & _ & c & l & E & _). rewrite E in Hp, Hd |- *. cbn in Hd.
    apply andb_true_iff in Hd as [Hd _]. rewrite ParseInt_digits, Hp by (done || lia). cbn [mbind option_bind].
    rewrite (proj2 (N.ltb_lt _ _)) by lia. f_equal. lia.
Qed.

Lemma read_int z current : int64_range z -> decode_int64 (VNumber (json_number z)) current = Some z.
Proof. apply ParseInt_json. Qed.

Lemma read_bool b current : decode_bool (VBool b) current = Some b.
Proof. done. Qed.

Lemma read_slice {T} (P : T -> Prop) enc d zero s :
  reads P enc d zero -> Forall P (slice_items s) -> json_utf8 (JSlice enc s) = true ->
  decode_slice d zero (value_of (JSlice enc s)) None = Some s.
Proof.
  intros Hd Hs Hu. destruct s as [l |]; [| done]. cbn in *. change (slice_items (Some l)) with l in Hs.
  assert (decode_items d zero (map value_of (map enc l)) [] = Some l) as ->; [| done].
  induction Hs as [| x l Hx Hs IH]; [done |]. cbn in *. rewrite andb_true_iff in Hu. destruct Hu as [Hu Hul].
  rewrite Hd by done. cbn. by rewrite IH.
Qed.

Lemma read_list {T} (P : T -> Prop) enc d zero l :
  reads P enc d zero -> Forall P l -> json_utf8 (JSlice enc (Some l)) = true ->
  decode_list d zero (value_of (JSlice enc (Some l))) [] = Some l.
Proof. intros Hd Hl Hu. pose proof (read_slice P enc d zero (Some l) Hd Hl Hu) as H. cbn in *. by rewrite H. Qed.

Lemma reads_string : reads (fun _ => True) JString decode_string "".
Proof. intros s _ U. cbn in *. by apply (read_string s ""). Qed.

Lemma read_pointer {T} (P : T -> Prop) enc d (zero x : T) :
  reads P enc d zero -> P x -> json_utf8 (enc x) = true -> value_of (enc x) <> VNull ->
  decode_pointer d zero (value_of (enc x)) None = Some (Some x).
Proof.
  intros Hd Hx Hu Hn. specialize (Hd x Hx Hu). unfold decode_pointer. change (default zero None) with zero.
  by destruct (value_of (enc x)); try done; rewrite Hd.
Qed.

(** A known name is read back. *)
Lemma read_named {E} (known : list E) string_of other (e current : E) :
  e ∈ known -> NoDup (map string_of known) -> valid_utf8 (string_of e) = true ->
  decode_named string_of (named known string_of other) (VString (scrub (string_of e))) current = Some e.
Proof.
  intros He Hn Hu. unfold decode_named. rewrite read_string by done. cbn. f_equal. unfold named.
  destruct (list_find _ known) as [[i e'] |] eqn:Hf.
  - apply list_find_Some in Hf as (Hi & Heq & _). apply (map_NoDup_inj string_of known); try done.
    by eapply list_elem_of_lookup_2.
  - apply list_find_None in Hf. rewrite Forall_forall in Hf. by destruct (Hf e He).
Qed.

(** base64 reads what it writes. *)
Lemma std_base64_digit n : n < 64 -> std_base64_val (base64_digit n) = Some n.
Proof.
  intros Hn. assert (forallb (fun k => bool_decide (std_base64_val (base64_digit (N.of_nat k)) = Some (N.of_nat k)))
                       (seq 0 64) = true) as H by (vm_compute; reflexivity).
  rewrite forallb_forall in H. specialize (H (N.to_nat n)). rewrite N2Nat.id in H.
  apply bool_decide_eq_true in H; [done |]. apply in_seq. lia.
Qed.

Lemma std_base64_quanta_encode l : Forall is_byte l -> std_base64_quanta (base64 l) = Some l.
Proof.
  unfold is_byte. revert l; fix IH 1; intros [| a [| b [| c l]]] Hl;
    repeat match goal with H : Forall _ (_ :: _) |- _ => apply Forall_cons in H as [? H] end;
    cbn [base64 std_base64_quanta]; [done | ..]; unfold padding;
    rewrite !std_base64_digit by (zify; Z.to_euclidean_division_equations; lia); change (Ascii.eqb "=" "=") with true;
    rewrite ?base64_pad by (zify; Z.to_euclidean_division_equations; lia); cbn [mbind option_bind].
  - do 2 f_equal. zify; Z.to_euclidean_division_equations; lia.
  - do 2 f_equal; [| f_equal]; zify; Z.to_euclidean_division_equations; lia.
  - rewrite IH by done. cbn. do 2 f_equal; [| f_equal; [| f_equal]]; zify; Z.to_euclidean_division_equations; lia.
Qed.

Lemma base64_graphic l : Forall is_byte l -> Forall (fun c => graphic_ascii c = true) (base64 l).
Proof.
  assert (forall n, n < 64 -> graphic_ascii (base64_digit n) = true) as Hd.
  { intros n Hn. assert (forallb (fun k => graphic_ascii (base64_digit (N.of_nat k))) (seq 0 64) = true) as H
      by (vm_compute; reflexivity).
    rewrite forallb_forall in H. specialize (H (N.to_nat n)). rewrite N2Nat.id in H. apply H, in_seq. lia. }
  unfold is_byte. revert l; fix IH 1; intros [| a [| b [| c l]]] Hl;
    repeat match goal with H : Forall _ (_ :: _) |- _ => apply Forall_cons in H as [? H] end;
    cbn [base64]; [constructor | ..];
    repeat (constructor; [first [done | apply Hd; zify; Z.to_euclidean_division_equations; lia] |]);
    first [by apply IH | constructor].
Qed.

Lemma filter_everything {A} (P : A -> Prop) `{forall x, Decision (P x)} l : Forall P l -> filter P l = l.
Proof. induction 1 as [| x l Hx _ IH]; [done |]. by rewrite filter_cons_True, IH. Qed.

Lemma read_bytes l current :
  Forall is_byte l -> decode_bytes (VString (scrub (of_bytes (base64 l)))) current = Some (Some l).
Proof.
  intros Hl. pose proof (base64_graphic l Hl) as Hg.
  rewrite scrub_valid by (apply graphic_utf8; by rewrite bytes_of_bytes). cbn. rewrite bytes_of_bytes.
  unfold std_base64_decode. rewrite filter_everything; [by rewrite std_base64_quanta_encode |].
  eapply Forall_impl; [exact Hg |]. intros c Hc. unfold graphic_ascii in Hc. cbn beta in *. go_bool. lia.
Qed.

(** *** Members *)

Definition member (f : string * json) : string * jvalue := (scrub f.1, value_of f.2).
Definition fields_utf8 (fields : list (string * json)) : bool := json_utf8 (JObject fields).

Lemma decode_members_app {T} (fields : list (string * Decoder T)) ms ms' current next :
  decode_members fields ms current = Some next ->
  decode_members fields (ms ++ ms') current = decode_members fields ms' next.
Proof.
  revert current. induction ms as [| [key v] ms IH]; intros current; cbn; [by intros [= ->] |].
  destruct (find_field fields key) as [d |]; [| done]. cbn. by destruct (d v current); [apply IH |].
Qed.

Lemma decode_one {T} (fields : list (string * Decoder T)) key v d current next :
  find_field fields key = Some d -> d v current = Some next -> decode_members fields [(key, v)] current = Some next.
Proof. intros Hf Hd. by erewrite decode_members_cons by done. Qed.

(** Members that omitempty leaves out when the value is the one that the target
    holds already. *)
Lemma read_omit_string {S} (fields : list (string * Decoder S)) key s get set current :
  find_field fields (scrub key) = Some (decode_at get set decode_string) -> set "" current = current ->
  fields_utf8 (omit_string key s) = true ->
  decode_members fields (map member (omit_string key s)) current = Some (set s current).
Proof.
  unfold omit_string. case_bool_decide as E; [subst; by intros _ -> |]. cbn. rewrite !andb_true_iff.
  intros Hf _ [[_ U] _]. eapply (decode_one fields); [exact Hf |]. by apply decode_at_Some, read_string.
Qed.

Lemma read_omit_nil {S T} (P : T -> Prop) enc d zero (fields : list (string * Decoder S)) key v get set current :
  find_field fields (scrub key) = Some (decode_at get set (decode_pointer d zero)) ->
  get current = None -> set None current = current ->
  reads P enc d zero -> from_option P True v -> (forall x, value_of (enc x) <> VNull) ->
  fields_utf8 (omit_nil key enc v) = true ->
  decode_members fields (map member (omit_nil key enc v)) current = Some (set v current).
Proof.
  destruct v as [x |]; [| by intros _ _ -> ]. cbn. rewrite !andb_true_iff. intros Hf Hg _ Hd Hx Hn [[_ U] _].
  eapply (decode_one fields); [exact Hf |]. apply decode_at_Some. rewrite Hg. by eapply read_pointer.
Qed.

Lemma read_omit_named {S E} known string_of other (e zero : E) (fields : list (string * Decoder S)) key get set current :
  find_field fields (scrub key) = Some (decode_at get set (decode_named string_of (named known string_of other))) ->
  set zero current = current -> e ∈ zero :: known -> string_of zero = "" -> NoDup ("" :: map string_of known) ->
  fields_utf8 (omit_string key (string_of e)) = true ->
  decode_members fields (map member (omit_string key (string_of e))) current = Some (set e current).
Proof.
  intros Hf Hz He Hs [Hn Hd]%NoDup_cons U. unfold omit_string in *. case_bool_decide as E1.
  - apply elem_of_cons in He as [-> | He]; [cbn; by rewrite Hz |].
    destruct Hn. rewrite <- E1. by apply list_elem_of_fmap_2.
  - apply elem_of_cons in He as [-> | He]; [done |]. cbn in U. rewrite !andb_true_iff in U. destruct U as [[_ U] _].
    eapply (decode_one fields); [exact Hf |]. by apply decode_at_Some, read_named.
Qed.

Ltac decide_unique := apply (bool_decide_eq_true_1 _); vm_compute; reflexivity.

(** The fields of a struct, one after the other. *)
Ltac read_field :=
  lazymatch goal with
  | |- decode_string _ _ = _ => apply read_string; assumption
  | |- decode_bool _ _ = _ => apply read_bool
  | |- decode_uint64 _ _ = _ => apply read_uint; assumption
  | |- decode_int64 _ _ = _ => apply read_int; assumption
  | |- decode_bytes _ _ = _ => apply read_bytes; assumption
  | |- decode_slice ?d _ _ _ = _ =>
      match goal with H : reads _ _ d _ |- _ =>
        eapply read_slice; [exact H | first [assumption | by apply Forall_forall] | assumption] end
  | |- decode_list ?d _ _ _ = _ =>
      match goal with H : reads _ _ d _ |- _ =>
        eapply read_list; [exact H | first [assumption | by apply Forall_forall] | assumption] end
  | |- decode_pointer ?d _ _ _ = _ =>
      match goal with H : reads _ _ d _ |- _ =>
        eapply read_pointer; [exact H | assumption | assumption | discriminate] end
  | |- ?d _ _ = _ =>
      match goal with
      | H : reads _ _ d _ |- _ => apply H; [first [exact I | assumption] | assumption]
      | _ => apply read_named; [first [assumption | set_solver] | decide_unique | assumption]
      end
  end.

(** The hypothesis [U] that the document is UTF-8, split over its members;
    members with omitempty stay as they are. *)
Ltac split_members U :=
  unfold JStruct in *; cbn [concat app field] in *;
  cbn [json_utf8 forallb fst snd] in U; repeat (rewrite forallb_app in U; cbn [json_utf8 forallb fst snd] in U);
  rewrite ?andb_true_iff in U; destruct_and? U; cbn [map value_of fst snd].

Ltac read_omitted :=
  lazymatch goal with
  | |- decode_members ?fields (map _ (?chunk ++ ?rest)) ?current = _ =>
      rewrite map_app;
      erewrite (decode_members_app fields _ (map _ rest));
      [cbn [map value_of fst snd] |
       lazymatch chunk with
       | omit_nil _ _ _ =>
           match goal with H : reads _ ?enc ?d _ |- _ =>
             eapply (read_omit_nil _ enc d); [reflexivity | reflexivity | reflexivity | exact H | assumption | discriminate | assumption]
           end
       | omit_string _ _ =>
           first [ eapply read_omit_string; [reflexivity | reflexivity | assumption]
                 | eapply read_omit_named; [reflexivity | reflexivity | assumption | reflexivity | decide_unique | assumption] ]
       end]
  end.
Ltac read_member :=
  first [ erewrite decode_members_cons; [| reflexivity | apply decode_at_Some; read_field] | read_omitted ].

Ltac read_struct x U d enc :=
  unfold d, enc in *; split_members U; unfold decode_struct; repeat read_member; destruct x; reflexivity.

Definition always {A} (_ : A) : Prop := True.

(** *** The shape of the document *)

Lemma foldr_max_le {A} (f : A -> N) k l : Forall (fun x => f x <= k) l -> foldr N.max 0 (map f l) <= k.
Proof. induction 1 as [| x l Hx _ IH]; cbn; lia. Qed.

Definition shallow (k : N) (j : json) : Prop := json_depth j <= k /\ names_unique (value_of j) = true.

Lemma shallow_weaken k k' j : shallow k j -> k <= k' -> shallow k' j.
Proof. intros [Hd Hu] Hk. split; [lia | done]. Qed.

Lemma shallow_slice {A} (f : A -> json) k k' s :
  (forall x, shallow k (f x)) -> 1 + k <= k' -> shallow k' (JSlice f s).
Proof.
  intros Hf Hk. apply (shallow_weaken (1 + k)); [| done]. destruct s as [l |]; [| split; [cbn; lia | done]]. split; cbn.
  - apply N.add_le_mono_l. rewrite map_map. apply foldr_max_le, Forall_forall. intros x _. apply Hf.
  - apply forallb_forall. intros v (j & <- & (x & <- & _)%in_map_iff)%in_map_iff. apply Hf.
Qed.

Lemma shallow_struct k fields :
  bool_decide (NoDup (map (fun f => scrub (fst f)) (concat fields))) = true ->
  Forall (fun f => shallow k (snd f)) (concat fields) -> shallow (1 + k) (JStruct fields).
Proof.
  intros Hn Hf. split; cbn.
  - apply N.add_le_mono_l, foldr_max_le. eapply Forall_impl; [exact Hf |]. by intros f [].
  - rewrite !map_map. cbn. rewrite Hn. apply forallb_forall. intros m (f & <- & Hin)%in_map_iff. cbn.
    rewrite Forall_forall in Hf. apply Hf. by apply list_elem_of_In.
Qed.

Lemma shallow_string k s : shallow k (JString s).
Proof. split; [cbn; lia | done]. Qed.
Lemma shallow_bool k b : shallow k (JBool b).
Proof. split; [cbn; lia | done]. Qed.
Lemma shallow_uint k n : shallow k (JUint n).
Proof. split; [cbn; lia | done]. Qed.

Lemma shallow_number k z : shallow k (JNumber z).
Proof. split; [cbn; lia | done]. Qed.

Create HintDb shallow.
#[export] Hint Resolve shallow_string shallow_bool shallow_uint shallow_number : shallow.

(** Structs whose fields nest less deep than [k]. *)
Ltac solve_shallow k enc :=
  unfold enc; apply (shallow_struct k); [reflexivity |];
  cbn [concat app field]; repeat constructor; cbn [snd]; eauto with shallow;
  first [ eapply shallow_weaken; [solve [eauto with shallow] | done]
        | eapply shallow_slice; [solve [eauto with shallow] | done] ].

Lemma json_Marshal_bounded j :
  (MaxCanonicalDocumentBytes <? N.of_nat (length (json_Marshal j))) = false -> bounded_document (json_Marshal j).
Proof.
  intros H%N.ltb_ge. split; [| done]. unfold json_Marshal. rewrite length_map.
  destruct (json_print_start j) as (c & l & E & _). rewrite E. cbn. lia.
Qed.

(** Documents with omitted members: how deep they nest. *)
Definition deep (k : N) (fields : list (string * json)) : Prop := Forall (fun f => json_depth f.2 <= k) fields.

Lemma depth_struct k fields : Forall (deep k) fields -> json_depth (JStruct fields) <= 1 + k.
Proof.
  intros H%Forall_concat. cbn. apply N.add_le_mono_l, foldr_max_le. eapply Forall_impl; [exact H |]. by intros [].
Qed.
Lemma deep_field k key j : json_depth j <= k -> deep k (field key j).
Proof. by repeat constructor. Qed.
Lemma deep_omit_string k key s : deep k (omit_string key s).
Proof. unfold omit_string. case_bool_decide; [constructor |]. apply deep_field. cbn. lia. Qed.
Lemma deep_omit_nil {A} k key (enc : A -> json) v : (forall x, json_depth (enc x) <= k) -> deep k (omit_nil key enc v).
Proof. intros H. destruct v; [by apply deep_field | constructor]. Qed.
Lemma depth_slice {A} (enc : A -> json) k k' s : (forall x, json_depth (enc x) <= k) -> 1 + k <= k' -> json_depth (JSlice enc s) <= k'.
Proof.
  intros H Hk. etrans; [| exact Hk]. destruct s as [l |]; cbn; [| lia].
  apply N.add_le_mono_l. rewrite map_map. apply foldr_max_le, Forall_forall. intros x _. apply H.
Qed.
Lemma depth_weaken k k' j : json_depth j <= k -> k <= k' -> json_depth j <= k'.
Proof. lia. Qed.

Create HintDb depth.
Lemma depth_string s : json_depth (JString s) <= 0.
Proof. done. Qed.
#[export] Hint Resolve deep_omit_string depth_string : depth.
Ltac solve_depth k enc :=
  intros; unfold enc; apply (depth_struct k); 
  repeat lazymatch goal with |- Forall (deep _) (_ :: _) => apply Forall_cons_2 | |- Forall (deep _) [] => apply Forall_nil_2 end;
  first [ apply deep_omit_string | apply deep_omit_nil; intros | apply deep_field ];
  first [ by (cbn; lia)
        | eapply depth_weaken; [solve [eauto with depth nocore] | done]
        | eapply depth_slice; [intros; solve [eauto with depth nocore] | done] ].

(** ** Copies through the document *)

(** A type with json tags: how it is written and read, and its zero value. *)
Class Codec (T : Type) := {
  to_json : T -> json;
  of_json : Decoder T;
  zero_value : T;
}.

(** json.Marshal and then json.Unmarshal into a zero value, both errors dropped:
    what Marshal wrote is read without one. *)
Definition json_clone {T} `{Codec T} (x : T) : T :=
  match parse (json_print (to_json x)) with
  | Some (v, _) => default zero_value (of_json v zero_value)
  | None => zero_value
  end.

(** The laws that make the copy faithful on the values that satisfy [readable]. *)
Class CodecLaws (T : Type) `{Codec T} (readable : T -> Prop) := {
  codec_reads : reads readable to_json of_json zero_value;
  codec_shallow : forall x : T, json_depth (to_json x) <= maxNestingDepth;
}.

Lemma json_clone_id {T} `{CodecLaws T readable} (x : T) :
  readable x -> json_utf8 (to_json x) = true -> json_clone x = x.
Proof.
  intros Hx Hu. unfold json_clone. rewrite <- (app_nil_r (json_print _)), json_parse_print; [| done | apply codec_shallow].
  by rewrite (codec_reads x Hx Hu).
Qed.

(** What is read back determines what was written. *)
Lemma reads_inj {T} (P : T -> Prop) enc d zero x y :
  reads P enc d zero -> P x -> P y -> json_utf8 (enc x) = true -> enc x = enc y -> x = y.
Proof. intros H Px Py U E. pose proof (H x Px U) as Hx. rewrite E in Hx, U. rewrite (H y Py U) in Hx. by injection Hx. Qed.
