(* ===== verification/EffectContract.v ===== *)
(** * ports/effect_v2.go: effect intents, dispatch permits, enforcement receipts

    The envelope of a governed effect and the bindings it carries, the permit
    that authorises one dispatch attempt, the check that the execution point
    repeats before it acts, and the receipt it leaves.  Every struct has its
    document, so that its digest is computed from its fields. *)

From S2P Require Import Prelude GoStd Errors Identity State Fence Sha256 Json Canonical Payload.
From Stdlib Require Import Ascii.

Local Open Scope N_scope.

Definition EffectContractVersionV2 : string := "praxis.runtime.effect/v2".
Definition effect_domain : string := "praxis.runtime.effect".
Definition MaxDispatchPermitTTL : Duration := 30000000000%Z.

(** ** Bindings *)

Record ProviderBindingRefV2 := {
  pb_BindingSetID : string;
  pb_BindingSetRevision : N;
  pb_ComponentID : string;
  pb_ManifestDigest : Digest;
  pb_ArtifactDigest : Digest;
  pb_Capability : string;
}.
#[export] Instance ProviderBindingRefV2_eq_dec : EqDecision ProviderBindingRefV2.
Proof. solve_decision. Defined.

Definition ProviderBindingRefV2_Validate (r : ProviderBindingRefV2) : result unit :=
  guard (blank (pb_BindingSetID r) || N.eqb (pb_BindingSetRevision r) 0)
    ErrorInvalidArgument ReasonProviderBindingStale ;;
  ValidateNamespacedNameV2 (pb_ComponentID r) ;;
  ValidateNamespacedNameV2 (pb_Capability r) ;;
  Digest_Validate (pb_ManifestDigest r) ;;
  Digest_Validate (pb_ArtifactDigest r).

Record EffectOwnerRefV2 := {
  eo_Role : OwnerRoleV2;
  eo_ComponentID : string;
  eo_ManifestDigest : Digest;
}.
#[export] Instance EffectOwnerRefV2_eq_dec : EqDecision EffectOwnerRefV2.
Proof. solve_decision. Defined.

Record AuthorityBindingRefV2 := { ab_Ref : string; ab_Digest : Digest; ab_Revision : N; ab_Epoch : N }.
#[export] Instance AuthorityBindingRefV2_eq_dec : EqDecision AuthorityBindingRefV2.
Proof. solve_decision. Defined.

Definition AuthorityBindingRefV2_Validate (r : AuthorityBindingRefV2) : result unit :=
  guard (blank (ab_Ref r) || N.eqb (ab_Revision r) 0 || N.eqb (ab_Epoch r) 0)
    ErrorForbidden ReasonEffectAuthorizationMissing ;;
  Digest_Validate (ab_Digest r).

Record ReviewBindingRefV2 := { rb_Ref : string; rb_Digest : Digest; rb_Revision : N; rb_PolicyDigest : Digest }.
#[export] Instance ReviewBindingRefV2_eq_dec : EqDecision ReviewBindingRefV2.
Proof. solve_decision. Defined.

Definition ReviewBindingRefV2_Validate (r : ReviewBindingRefV2) : result unit :=
  guard (blank (rb_Ref r) || N.eqb (rb_Revision r) 0) ErrorForbidden ReasonReviewVerdictMissing ;;
  Digest_Validate (rb_Digest r) ;;
  Digest_Validate (rb_PolicyDigest r).

Record BudgetBindingRefV2 := { bb_Ref : string; bb_Digest : Digest; bb_Revision : N; bb_PolicyDigest : Digest }.
#[export] Instance BudgetBindingRefV2_eq_dec : EqDecision BudgetBindingRefV2.
Proof. solve_decision. Defined.

Definition BudgetBindingRefV2_Validate (r : BudgetBindingRefV2) : result unit :=
  guard (blank (bb_Ref r) || N.eqb (bb_Revision r) 0) ErrorForbidden ReasonBudgetBindingMissing ;;
  Digest_Validate (bb_Digest r) ;;
  Digest_Validate (bb_PolicyDigest r).

Record DispatchPolicyBindingRefV2 := { pol_Ref : string; pol_Digest : Digest; pol_Revision : N }.
#[export] Instance DispatchPolicyBindingRefV2_eq_dec : EqDecision DispatchPolicyBindingRefV2.
Proof. solve_decision. Defined.

Definition DispatchPolicyBindingRefV2_Validate (r : DispatchPolicyBindingRefV2) : result unit :=
  guard (blank (pol_Ref r) || N.eqb (pol_Revision r) 0) ErrorForbidden ReasonEffectAuthorizationMissing ;;
  Digest_Validate (pol_Digest r).

Record ExecutionScopeBindingRefV2 := { xs_Ref : string; xs_Digest : Digest; xs_Revision : N }.
#[export] Instance ExecutionScopeBindingRefV2_eq_dec : EqDecision ExecutionScopeBindingRefV2.
Proof. solve_decision. Defined.

Definition ExecutionScopeBindingRefV2_Validate (r : ExecutionScopeBindingRefV2) : result unit :=
  guard (blank (xs_Ref r) || N.eqb (xs_Revision r) 0) ErrorForbidden ReasonEffectFenceStale ;;
  Digest_Validate (xs_Digest r).

Record CredentialLeaseRefV2 := { cl_Ref : string; cl_Class : string; cl_ScopeDigest : Digest; cl_Epoch : N }.
#[export] Instance CredentialLeaseRefV2_eq_dec : EqDecision CredentialLeaseRefV2.
Proof. solve_decision. Defined.

Definition CredentialLeaseRefV2_Validate (r : CredentialLeaseRefV2) : result unit :=
  guard (blank (cl_Ref r) || blank (cl_Class r) || N.eqb (cl_Epoch r) 0)
    ErrorInvalidArgument ReasonCredentialLeaseMissing ;;
  Digest_Validate (cl_ScopeDigest r).

Inductive EffectStableScopeClassV2 := EffectStableScopeTenantV2 | EffectStableScopeOther (raw : string).
#[export] Instance EffectStableScopeClassV2_eq_dec : EqDecision EffectStableScopeClassV2.
Proof. solve_decision. Defined.
Definition EffectStableScopeClassV2_string (c : EffectStableScopeClassV2) : string :=
  match c with EffectStableScopeTenantV2 => "tenant" | EffectStableScopeOther raw => raw end.

Definition StableTenantScopeDigestV2 (tenantID : string) : Digest :=
  DigestBytes (codes EffectContractVersionV2 ++ [0] ++ codes "tenant" ++ [0] ++ codes tenantID)%list.

Record IdempotencyBindingV2 := {
  ib_Key : string;
  ib_ScopeClass : EffectStableScopeClassV2;
  ib_ScopeDigest : Digest;
  ib_Class : IdempotencyClass;
}.
#[export] Instance IdempotencyBindingV2_eq_dec : EqDecision IdempotencyBindingV2.
Proof. solve_decision. Defined.

Definition IdempotencyBindingV2_Validate (i : IdempotencyBindingV2) : result unit :=
  guard (blank (ib_Key i) || (256 <? str_len (ib_Key i))) ErrorInvalidArgument ReasonInvalidReference ;;
  Digest_Validate (ib_ScopeDigest i) ;;
  guard (negb (bool_decide (ib_ScopeClass i = EffectStableScopeTenantV2)))
    ErrorInvalidArgument ReasonInvalidReference ;;
  match ib_Class i with
  | IdempotencyProviderKey | IdempotencyQueryable | IdempotencyNonRetryable => Ok tt
  | IdempotencyOther _ => fail ErrorInvalidArgument ReasonInvalidReference
  end.

Record ConflictDomainBindingV2 := {
  cdb_Domain : string;
  cdb_ScopeClass : EffectStableScopeClassV2;
  cdb_ScopeDigest : Digest;
}.
#[export] Instance ConflictDomainBindingV2_eq_dec : EqDecision ConflictDomainBindingV2.
Proof. solve_decision. Defined.

Definition ConflictDomainBindingV2_ValidateForScope (b : ConflictDomainBindingV2) (scope : ExecutionScope)
  : result unit :=
  ValidateNamespacedNameV2 (cdb_Domain b) ;;
  guard (negb (bool_decide (cdb_ScopeClass b = EffectStableScopeTenantV2))
         || negb (bool_decide (cdb_ScopeDigest b = StableTenantScopeDigestV2 (id_TenantID (sc_Identity scope)))))
    ErrorPreconditionFailed ReasonEffectConflictDomainOccupied.

Record EffectRelationV2 := {
  er_CompensatesEffectID : string;
  er_CompensatesEffectRevision : N;
  er_InspectsEffectID : string;
  er_InspectsEffectRevision : N;
  er_CleansUpEffectID : string;
  er_CleansUpEffectRevision : N;
  er_ReviewsCaseID : string;
  er_ReviewsCandidateRevision : N;
}.
#[export] Instance EffectRelationV2_eq_dec : EqDecision EffectRelationV2.
Proof. solve_decision. Defined.

(** `strings.TrimSpace(id) != "" || revision != 0` *)
Definition relation_present (id : string) (revision : N) : bool := negb (blank id) || negb (N.eqb revision 0).

(** What makes a present reference to another effect unusable. *)
Definition relation_invalid (id : string) (revision : N) (selfID : string) (selfRevision : N) : bool :=
  blank id || N.eqb revision 0 || (bool_decide (id = selfID) && N.eqb revision selfRevision).

Definition EffectRelationV2_Validate (r : EffectRelationV2) (selfID : string) (selfRevision : N) : result unit :=
  let compensation := relation_present (er_CompensatesEffectID r) (er_CompensatesEffectRevision r) in
  let inspection := relation_present (er_InspectsEffectID r) (er_InspectsEffectRevision r) in
  let cleanup := relation_present (er_CleansUpEffectID r) (er_CleansUpEffectRevision r) in
  let review := relation_present (er_ReviewsCaseID r) (er_ReviewsCandidateRevision r) in
  let count := length (filter (fun present : bool => present = true) [compensation; inspection; cleanup; review]) in
  guard (Nat.ltb 1 count) ErrorInvalidArgument ReasonInvalidReference ;;
  guard (compensation
         && relation_invalid (er_CompensatesEffectID r) (er_CompensatesEffectRevision r) selfID selfRevision)
    ErrorInvalidArgument ReasonCompensationIncomplete ;;
  guard (inspection
         && relation_invalid (er_InspectsEffectID r) (er_InspectsEffectRevision r) selfID selfRevision)
    ErrorInvalidArgument ReasonEffectUnknownOutcome ;;
  guard (cleanup
         && relation_invalid (er_CleansUpEffectID r) (er_CleansUpEffectRevision r) selfID selfRevision)
    ErrorInvalidArgument ReasonCleanupEvidenceIncomplete ;;
  guard (review && (blank (er_ReviewsCaseID r) || N.eqb (er_ReviewsCandidateRevision r) 0))
    ErrorInvalidArgument ReasonReviewRemoteEffectRequired.

(** ** Effect intents *)

Record EffectIntentV2 := {
  i_ContractVersion : string;
  i_ID : string;
  i_Revision : N;
  i_Scope : ExecutionScope;
  i_RunID : string;
  i_Kind : string;
  i_RiskClass : string;
  i_ActionScopeDigest : Digest;
  i_Payload : OpaquePayloadV2;
  i_PayloadRevision : N;
  i_Target : string;
  i_ConflictDomain : ConflictDomainBindingV2;
  i_Owners : list EffectOwnerRefV2;
  i_Provider : ProviderBindingRefV2;
  i_Authority : AuthorityBindingRefV2;
  i_Review : ReviewBindingRefV2;
  i_Budget : BudgetBindingRefV2;
  i_Policy : DispatchPolicyBindingRefV2;
  i_CurrentScope : ExecutionScopeBindingRefV2;
  i_Idempotency : IdempotencyBindingV2;
  i_CredentialLeases : option (list CredentialLeaseRefV2);
  i_Relation : EffectRelationV2;
  i_MayLeaveRemoteResidual : bool;
  i_RequiresCleanup : bool;
  i_ExpiresUnixNano : Z;
}.
#[export] Instance EffectIntentV2_eq_dec : EqDecision EffectIntentV2.
Proof. solve_decision. Defined.

(** `for index := 1; ...: owners[index].Role < owners[index-1].Role` *)
Fixpoint sorted_by_role (previous : OwnerRoleV2) (owners : list EffectOwnerRefV2) : result unit :=
  match owners with
  | [] => Ok tt
  | owner :: rest =>
      guard (str_lt (OwnerRoleV2_string (eo_Role owner)) (OwnerRoleV2_string previous))
        ErrorInvalidArgument ReasonInvalidCanonicalForm ;;
      sorted_by_role (eo_Role owner) rest
  end.

Definition validateEffectOwnersV2 (owners : list EffectOwnerRefV2) : result unit :=
  guard (negb (Nat.eqb (length owners) 3)) ErrorPreconditionFailed ReasonOwnerMissing ;;
  visit_unique
    (fun owner =>
       guard (negb (bool_decide (eo_Role owner = OwnerEffect))
              && negb (bool_decide (eo_Role owner = OwnerSettlement))
              && negb (bool_decide (eo_Role owner = OwnerCleanup)))
         ErrorInvalidArgument ReasonOwnerConflict)
    eo_Role (NewError ErrorConflict ReasonOwnerConflict)
    (fun owner => ValidateNamespacedNameV2 (eo_ComponentID owner) ;; Digest_Validate (eo_ManifestDigest owner))
    [] owners ;;
  match owners with
  | [] => Ok tt
  | first :: rest => sorted_by_role (eo_Role first) rest
  end.

(** `credential.Class + "\x00" + credential.Ref` *)
Definition credential_key (c : CredentialLeaseRefV2) : string :=
  cl_Class c +:+ String Ascii.zero (cl_Ref c).

Fixpoint validate_credentials (seen : list string) (previous : option string)
    (credentials : list CredentialLeaseRefV2) : result unit :=
  match credentials with
  | [] => Ok tt
  | credential :: rest =>
      CredentialLeaseRefV2_Validate credential ;;
      let key := credential_key credential in
      guard (bool_decide (key ∈ seen)) ErrorConflict ReasonDuplicateCanonicalKey ;;
      guard (match previous with Some p => str_lt key p | None => false end)
        ErrorInvalidArgument ReasonInvalidCanonicalForm ;;
      validate_credentials (key :: seen) (Some key) rest
  end.

Definition EffectIntentV2_validateV2 (i : EffectIntentV2) (allowPendingPolicyDigest : bool) : result unit :=
  guard (negb (bool_decide (i_ContractVersion i = EffectContractVersionV2)) || blank (i_ID i)
         || N.eqb (i_Revision i) 0 || blank (i_RunID i))
    ErrorInvalidArgument ReasonEffectIntentMissing ;;
  ExecutionScope_Validate (i_Scope i) ;;
  ValidateNamespacedNameV2 (i_Kind i) ;;
  ValidateNamespacedNameV2 (i_RiskClass i) ;;
  guard (N.eqb (i_PayloadRevision i) 0 || (i_ExpiresUnixNano i <=? 0)%Z || blank (i_Target i)
         || (512 <? str_len (i_Target i)))
    ErrorInvalidArgument ReasonInvalidReference ;;
  ConflictDomainBindingV2_ValidateForScope (i_ConflictDomain i) (i_Scope i) ;;
  Digest_Validate (i_ActionScopeDigest i) ;;
  OpaquePayloadV2_Validate (i_Payload i) ;;
  validateEffectOwnersV2 (i_Owners i) ;;
  ProviderBindingRefV2_Validate (i_Provider i) ;;
  AuthorityBindingRefV2_Validate (i_Authority i) ;;
  ReviewBindingRefV2_Validate (i_Review i) ;;
  BudgetBindingRefV2_Validate (i_Budget i) ;;
  (if allowPendingPolicyDigest && bool_decide (pol_Digest (i_Policy i) = "") then
     guard (blank (pol_Ref (i_Policy i)) || N.eqb (pol_Revision (i_Policy i)) 0)
       ErrorForbidden ReasonEffectAuthorizationMissing
   else DispatchPolicyBindingRefV2_Validate (i_Policy i)) ;;
  ExecutionScopeBindingRefV2_Validate (i_CurrentScope i) ;;
  IdempotencyBindingV2_Validate (i_Idempotency i) ;;
  guard (negb (bool_decide (ib_ScopeDigest (i_Idempotency i)
                            = StableTenantScopeDigestV2 (id_TenantID (sc_Identity (i_Scope i))))))
    ErrorPreconditionFailed ReasonInvalidReference ;;
  guard (64 <? N.of_nat (length (slice_items (i_CredentialLeases i))))
    ErrorInvalidArgument ReasonCanonicalLimitExceeded ;;
  validate_credentials [] None (slice_items (i_CredentialLeases i)) ;;
  EffectRelationV2_Validate (i_Relation i) (i_ID i) (i_Revision i).

Definition EffectIntentV2_Validate (i : EffectIntentV2) : result unit := EffectIntentV2_validateV2 i false.

(** ** Documents *)

Definition AgentIdentityRef_json (r : AgentIdentityRef) : json :=
  JStruct [field "tenant_id" (JString (id_TenantID r)); field "agent_identity_id" (JString (id_ID r));
           field "identity_epoch" (JUint (id_Epoch r))].
Definition LineageRef_json (r : LineageRef) : json :=
  JStruct [field "instance_lineage_id" (JString (lin_ID r));
           field "resolved_plan_digest" (JString (lin_PlanDigest r))].
Definition InstanceRef_json (r : InstanceRef) : json :=
  JStruct [field "instance_id" (JString (inst_ID r)); field "instance_epoch" (JUint (inst_Epoch r))].
Definition SandboxLeaseRef_json (r : SandboxLeaseRef) : json :=
  JStruct [field "sandbox_lease_id" (JString (sbx_ID r)); field "lease_epoch" (JUint (sbx_Epoch r))].
Definition ExecutionScope_json (s : ExecutionScope) : json :=
  JStruct [field "identity" (AgentIdentityRef_json (sc_Identity s));
           field "lineage" (LineageRef_json (sc_Lineage s));
           field "instance" (InstanceRef_json (sc_Instance s));
           omit_nil "sandbox_lease" SandboxLeaseRef_json (sc_SandboxLease s);
           field "authority_epoch" (JUint (sc_AuthorityEpoch s))].
Definition ProviderBindingRefV2_json (r : ProviderBindingRefV2) : json :=
  JStruct [field "binding_set_id" (JString (pb_BindingSetID r));
           field "binding_set_revision" (JUint (pb_BindingSetRevision r));
           field "component_id" (JString (pb_ComponentID r));
           field "manifest_digest" (JString (pb_ManifestDigest r));
           field "artifact_digest" (JString (pb_ArtifactDigest r));
           field "capability" (JString (pb_Capability r))].
Definition EffectOwnerRefV2_json (r : EffectOwnerRefV2) : json :=
  JStruct [field "role" (JString (OwnerRoleV2_string (eo_Role r)));
           field "component_id" (JString (eo_ComponentID r));
           field "manifest_digest" (JString (eo_ManifestDigest r))].
Definition AuthorityBindingRefV2_json (r : AuthorityBindingRefV2) : json :=
  JStruct [field "ref" (JString (ab_Ref r)); field "digest" (JString (ab_Digest r));
           field "revision" (JUint (ab_Revision r)); field "epoch" (JUint (ab_Epoch r))].
Definition ReviewBindingRefV2_json (r : ReviewBindingRefV2) : json :=
  JStruct [field "ref" (JString (rb_Ref r)); field "digest" (JString (rb_Digest r));
           field "revision" (JUint (rb_Revision r)); field "policy_digest" (JString (rb_PolicyDigest r))].
Definition BudgetBindingRefV2_json (r : BudgetBindingRefV2) : json :=
  JStruct [field "ref" (JString (bb_Ref r)); field "digest" (JString (bb_Digest r));
           field "revision" (JUint (bb_Revision r)); field "policy_digest" (JString (bb_PolicyDigest r))].
Definition DispatchPolicyBindingRefV2_json (r : DispatchPolicyBindingRefV2) : json :=
  JStruct [field "ref" (JString (pol_Ref r)); field "digest" (JString (pol_Digest r));
           field "revision" (JUint (pol_Revision r))].
Definition ExecutionScopeBindingRefV2_json (r : ExecutionScopeBindingRefV2) : json :=
  JStruct [field "ref" (JString (xs_Ref r)); field "digest" (JString (xs_Digest r));
           field "revision" (JUint (xs_Revision r))].
Definition CredentialLeaseRefV2_json (r : CredentialLeaseRefV2) : json :=
  JStruct [field "ref" (JString (cl_Ref r)); field "class" (JString (cl_Class r));
           field "scope_digest" (JString (cl_ScopeDigest r)); field "epoch" (JUint (cl_Epoch r))].

Definition IdempotencyClass_string (c : IdempotencyClass) : string :=
  match c with
  | IdempotencyProviderKey => "provider_key" | IdempotencyQueryable => "queryable"
  | IdempotencyNonRetryable => "non_retryable" | IdempotencyOther raw => raw
  end.

Definition IdempotencyBindingV2_json (i : IdempotencyBindingV2) : json :=
  JStruct [field "key" (JString (ib_Key i));
           field "scope_class" (JString (EffectStableScopeClassV2_string (ib_ScopeClass i)));
           field "scope_digest" (JString (ib_ScopeDigest i));
           field "class" (JString (IdempotencyClass_string (ib_Class i)))].
Definition ConflictDomainBindingV2_json (b : ConflictDomainBindingV2) : json :=
  JStruct [field "domain" (JString (cdb_Domain b));
           field "scope_class" (JString (EffectStableScopeClassV2_string (cdb_ScopeClass b)));
           field "scope_digest" (JString (cdb_ScopeDigest b))].
Definition EffectRelationV2_json (r : EffectRelationV2) : json :=
  JStruct [omit_string "compensates_effect_id" (er_CompensatesEffectID r);
           omit_uint "compensates_effect_revision" (er_CompensatesEffectRevision r);
           omit_string "inspects_effect_id" (er_InspectsEffectID r);
           omit_uint "inspects_effect_revision" (er_InspectsEffectRevision r);
           omit_string "cleans_up_effect_id" (er_CleansUpEffectID r);
           omit_uint "cleans_up_effect_revision" (er_CleansUpEffectRevision r);
           omit_string "reviews_case_id" (er_ReviewsCaseID r);
           omit_uint "reviews_candidate_revision" (er_ReviewsCandidateRevision r)].

Definition EffectIntentV2_json (i : EffectIntentV2) : json :=
  JStruct [field "contract_version" (JString (i_ContractVersion i));
           field "effect_intent_id" (JString (i_ID i));
           field "effect_intent_revision" (JUint (i_Revision i));
           field "scope" (ExecutionScope_json (i_Scope i));
           field "run_id" (JString (i_RunID i));
           field "effect_kind" (JString (i_Kind i));
           field "risk_class" (JString (i_RiskClass i));
           field "action_scope_digest" (JString (i_ActionScopeDigest i));
           field "payload" (OpaquePayloadV2_json (i_Payload i));
           field "payload_revision" (JUint (i_PayloadRevision i));
           field "target" (JString (i_Target i));
           field "conflict_domain" (ConflictDomainBindingV2_json (i_ConflictDomain i));
           field "owners" (JArray (map EffectOwnerRefV2_json (i_Owners i)));
           field "provider_binding" (ProviderBindingRefV2_json (i_Provider i));
           field "authority_binding" (AuthorityBindingRefV2_json (i_Authority i));
           field "review_binding" (ReviewBindingRefV2_json (i_Review i));
           field "budget_binding" (BudgetBindingRefV2_json (i_Budget i));
           field "dispatch_policy_binding" (DispatchPolicyBindingRefV2_json (i_Policy i));
           field "current_scope_binding" (ExecutionScopeBindingRefV2_json (i_CurrentScope i));
           field "idempotency" (IdempotencyBindingV2_json (i_Idempotency i));
           field "credential_leases" (JSlice CredentialLeaseRefV2_json (i_CredentialLeases i));
           field "relation" (EffectRelationV2_json (i_Relation i));
           field "may_leave_remote_residual" (JBool (i_MayLeaveRemoteResidual i));
           field "requires_cleanup" (JBool (i_RequiresCleanup i));
           field "expires_unix_nano" (JNumber (i_ExpiresUnixNano i))].

(** ** Digests *)

Definition set_i_CredentialLeases (leases : option (list CredentialLeaseRefV2)) (i : EffectIntentV2) : EffectIntentV2 :=
  {| i_ContractVersion := i_ContractVersion i; i_ID := i_ID i; i_Revision := i_Revision i; i_Scope :=
     i_Scope i; i_RunID := i_RunID i; i_Kind := i_Kind i; i_RiskClass := i_RiskClass i;
     i_ActionScopeDigest := i_ActionScopeDigest i; i_Payload := i_Payload i; i_PayloadRevision :=
     i_PayloadRevision i; i_Target := i_Target i; i_ConflictDomain := i_ConflictDomain i; i_Owners :=
     i_Owners i; i_Provider := i_Provider i; i_Authority := i_Authority i; i_Review := i_Review i;
     i_Budget := i_Budget i; i_Policy := i_Policy i; i_CurrentScope := i_CurrentScope i; i_Idempotency :=
     i_Idempotency i; i_CredentialLeases := leases; i_Relation := i_Relation i; i_MayLeaveRemoteResidual
     := i_MayLeaveRemoteResidual i; i_RequiresCleanup := i_RequiresCleanup i; i_ExpiresUnixNano :=
     i_ExpiresUnixNano i |}.
Definition set_i_Policy (policy : DispatchPolicyBindingRefV2) (i : EffectIntentV2) : EffectIntentV2 :=
  {| i_ContractVersion := i_ContractVersion i; i_ID := i_ID i; i_Revision := i_Revision i; i_Scope :=
     i_Scope i; i_RunID := i_RunID i; i_Kind := i_Kind i; i_RiskClass := i_RiskClass i;
     i_ActionScopeDigest := i_ActionScopeDigest i; i_Payload := i_Payload i; i_PayloadRevision :=
     i_PayloadRevision i; i_Target := i_Target i; i_ConflictDomain := i_ConflictDomain i; i_Owners :=
     i_Owners i; i_Provider := i_Provider i; i_Authority := i_Authority i; i_Review := i_Review i;
     i_Budget := i_Budget i; i_Policy := policy; i_CurrentScope := i_CurrentScope i; i_Idempotency :=
     i_Idempotency i; i_CredentialLeases := i_CredentialLeases i; i_Relation := i_Relation i;
     i_MayLeaveRemoteResidual := i_MayLeaveRemoteResidual i; i_RequiresCleanup := i_RequiresCleanup i;
     i_ExpiresUnixNano := i_ExpiresUnixNano i |}.
Definition set_i_Review (review : ReviewBindingRefV2) (i : EffectIntentV2) : EffectIntentV2 :=
  {| i_ContractVersion := i_ContractVersion i; i_ID := i_ID i; i_Revision := i_Revision i; i_Scope :=
     i_Scope i; i_RunID := i_RunID i; i_Kind := i_Kind i; i_RiskClass := i_RiskClass i;
     i_ActionScopeDigest := i_ActionScopeDigest i; i_Payload := i_Payload i; i_PayloadRevision :=
     i_PayloadRevision i; i_Target := i_Target i; i_ConflictDomain := i_ConflictDomain i; i_Owners :=
     i_Owners i; i_Provider := i_Provider i; i_Authority := i_Authority i; i_Review := review; i_Budget
     := i_Budget i; i_Policy := i_Policy i; i_CurrentScope := i_CurrentScope i; i_Idempotency :=
     i_Idempotency i; i_CredentialLeases := i_CredentialLeases i; i_Relation := i_Relation i;
     i_MayLeaveRemoteResidual := i_MayLeaveRemoteResidual i; i_RequiresCleanup := i_RequiresCleanup i;
     i_ExpiresUnixNano := i_ExpiresUnixNano i |}.
Definition set_i_Payload (payload : OpaquePayloadV2) (i : EffectIntentV2) : EffectIntentV2 :=
  {| i_ContractVersion := i_ContractVersion i; i_ID := i_ID i; i_Revision := i_Revision i; i_Scope :=
     i_Scope i; i_RunID := i_RunID i; i_Kind := i_Kind i; i_RiskClass := i_RiskClass i;
     i_ActionScopeDigest := i_ActionScopeDigest i; i_Payload := payload; i_PayloadRevision :=
     i_PayloadRevision i; i_Target := i_Target i; i_ConflictDomain := i_ConflictDomain i; i_Owners :=
     i_Owners i; i_Provider := i_Provider i; i_Authority := i_Authority i; i_Review := i_Review i;
     i_Budget := i_Budget i; i_Policy := i_Policy i; i_CurrentScope := i_CurrentScope i; i_Idempotency :=
     i_Idempotency i; i_CredentialLeases := i_CredentialLeases i; i_Relation := i_Relation i;
     i_MayLeaveRemoteResidual := i_MayLeaveRemoteResidual i; i_RequiresCleanup := i_RequiresCleanup i;
     i_ExpiresUnixNano := i_ExpiresUnixNano i |}.

(** `if i.CredentialLeases == nil { i.CredentialLeases = []CredentialLeaseRefV2{} }`;
    the owners are never nil once the intent is valid. *)
Definition normalize_intent (i : EffectIntentV2) : EffectIntentV2 :=
  set_i_CredentialLeases (Some (slice_items (i_CredentialLeases i))) i.

Definition effect_digest (discriminator : string) (document : json) : result Digest :=
  CanonicalJSONDigest effect_domain EffectContractVersionV2 discriminator (Some (json_Marshal document)).

Definition EffectIntentV2_DigestV2 (i : EffectIntentV2) : result Digest :=
  EffectIntentV2_Validate i ;;
  effect_digest "EffectIntentV2" (EffectIntentV2_json (normalize_intent i)).

Definition EffectIntentV2_PolicyCandidateDigestV2 (i : EffectIntentV2) : result Digest :=
  EffectIntentV2_validateV2 i true ;;
  let i := set_i_Policy {| pol_Ref := ""; pol_Digest := ""; pol_Revision := 0 |} i in
  let r := i_Review i in
  let i := set_i_Review {| rb_Ref := rb_Ref r; rb_Digest := ""; rb_Revision := rb_Revision r;
                           rb_PolicyDigest := rb_PolicyDigest r |} i in
  effect_digest "EffectPolicyCandidateV2" (EffectIntentV2_json (normalize_intent i)).

Definition FenceBoundaryScope_string (b : FenceBoundaryScope) : string :=
  match b with
  | FenceBoundaryActivation => "activation" | FenceBoundaryInstance => "instance"
  | FenceBoundaryOther raw => raw
  end.

Definition ExecutionFence_json `{ZoneDatabase} (f : ExecutionFence) : option json :=
  match json_time (fence_ExpiresAt f) with
  | None => None
  | Some expires =>
      Some (JStruct
        [field "boundary_scope" (JString (FenceBoundaryScope_string (fence_BoundaryScope f)));
         field "scope" (ExecutionScope_json (fence_Scope f));
         field "capability_grant_digest" (JString (fence_CapabilityGrantDigest f));
         field "effect_intent_id" (JString (fence_EffectIntentID f));
         field "effect_intent_revision" (JUint (fence_EffectIntentRevision f));
         field "canonical_payload_digest" (JString (fence_CanonicalPayloadDigest f));
         field "expires_at" expires])
  end.

Definition DigestExecutionFenceV2 `{ZoneDatabase} (fence : ExecutionFence) : result Digest :=
  ExecutionFence_Validate fence ;;
  CanonicalJSONDigest effect_domain EffectContractVersionV2 "ExecutionFenceV2Binding"
    (option_map json_Marshal (ExecutionFence_json fence)).

(** ** Dispatch permits *)

Record DispatchPermitV2 := {
  p_ContractVersion : string;
  p_ID : string;
  p_Revision : N;
  p_AttemptID : string;
  p_IntentID : string;
  p_IntentRevision : N;
  p_IntentDigest : Digest;
  p_PayloadSchema : SchemaRefV2;
  p_PayloadDigest : Digest;
  p_PayloadRevision : N;
  p_Scope : ExecutionScope;
  p_RunID : string;
  p_ConflictDomain : ConflictDomainBindingV2;
  p_Provider : ProviderBindingRefV2;
  p_EnforcementPoint : ProviderBindingRefV2;
  p_Authority : AuthorityBindingRefV2;
  p_Review : ReviewBindingRefV2;
  p_ReviewVerdictDigest : Digest;
  p_ReviewVerdictRevision : N;
  p_ReviewSatisfactionRef : string;
  p_ReviewSatisfactionDigest : Digest;
  p_ReviewSatisfactionRevision : N;
  p_Budget : BudgetBindingRefV2;
  p_Policy : DispatchPolicyBindingRefV2;
  p_CurrentScope : ExecutionScopeBindingRefV2;
  p_CapabilityGrantDigest : Digest;
  p_CredentialGrantDigest : Digest;
  p_FenceDigest : Digest;
  p_Idempotency : IdempotencyBindingV2;
  p_IssuedUnixNano : Z;
  p_ExpiresUnixNano : Z;
}.
#[export] Instance DispatchPermitV2_eq_dec : EqDecision DispatchPermitV2.
Proof. solve_decision. Defined.

Definition DispatchPermitV2_Validate (p : DispatchPermitV2) : result unit :=
  guard (negb (bool_decide (p_ContractVersion p = EffectContractVersionV2)) || blank (p_ID p)
         || N.eqb (p_Revision p) 0 || blank (p_AttemptID p) || blank (p_IntentID p)
         || N.eqb (p_IntentRevision p) 0 || N.eqb (p_PayloadRevision p) 0 || blank (p_RunID p))
    ErrorInvalidArgument ReasonDispatchPermitInvalid ;;
  ExecutionScope_Validate (p_Scope p) ;;
  ConflictDomainBindingV2_ValidateForScope (p_ConflictDomain p) (p_Scope p) ;;
  SchemaRefV2_Validate (p_PayloadSchema p) ;;
  for_each Digest_Validate
    [p_IntentDigest p; p_PayloadDigest p; p_ReviewVerdictDigest p; p_CapabilityGrantDigest p;
     p_CredentialGrantDigest p; p_FenceDigest p] ;;
  ProviderBindingRefV2_Validate (p_Provider p) ;;
  ProviderBindingRefV2_Validate (p_EnforcementPoint p) ;;
  guard (negb (bool_decide (p_EnforcementPoint p = p_Provider p)))
    ErrorPreconditionFailed ReasonProviderBindingStale ;;
  AuthorityBindingRefV2_Validate (p_Authority p) ;;
  ReviewBindingRefV2_Validate (p_Review p) ;;
  guard (N.eqb (p_ReviewVerdictRevision p) 0) ErrorInvalidArgument ReasonReviewVerdictMissing ;;
  let satisfaction := negb (blank (p_ReviewSatisfactionRef p))
                      || negb (bool_decide (p_ReviewSatisfactionDigest p = ""))
                      || negb (N.eqb (p_ReviewSatisfactionRevision p) 0) in
  guard (satisfaction
         && (blank (p_ReviewSatisfactionRef p) || negb (is_ok (Digest_Validate (p_ReviewSatisfactionDigest p)))
             || N.eqb (p_ReviewSatisfactionRevision p) 0))
    ErrorInvalidArgument ReasonReviewConditionUnsatisfied ;;
  BudgetBindingRefV2_Validate (p_Budget p) ;;
  DispatchPolicyBindingRefV2_Validate (p_Policy p) ;;
  ExecutionScopeBindingRefV2_Validate (p_CurrentScope p) ;;
  IdempotencyBindingV2_Validate (p_Idempotency p) ;;
  guard ((p_IssuedUnixNano p <=? 0)%Z || (p_ExpiresUnixNano p <=? p_IssuedUnixNano p)%Z
         || (MaxDispatchPermitTTL <? wrap_i64 (p_ExpiresUnixNano p - p_IssuedUnixNano p))%Z)
    ErrorInvalidArgument ReasonDispatchPermitInvalid.

Definition DispatchPermitV2_json (p : DispatchPermitV2) : json :=
  JStruct [field "contract_version" (JString (p_ContractVersion p));
           field "permit_id" (JString (p_ID p));
           field "permit_revision" (JUint (p_Revision p));
           field "attempt_id" (JString (p_AttemptID p));
           field "intent_id" (JString (p_IntentID p));
           field "intent_revision" (JUint (p_IntentRevision p));
           field "intent_digest" (JString (p_IntentDigest p));
           field "payload_schema" (SchemaRefV2_json (p_PayloadSchema p));
           field "payload_digest" (JString (p_PayloadDigest p));
           field "payload_revision" (JUint (p_PayloadRevision p));
           field "scope" (ExecutionScope_json (p_Scope p));
           field "run_id" (JString (p_RunID p));
           field "conflict_domain" (ConflictDomainBindingV2_json (p_ConflictDomain p));
           field "provider_binding" (ProviderBindingRefV2_json (p_Provider p));
           field "enforcement_point_binding" (ProviderBindingRefV2_json (p_EnforcementPoint p));
           field "authority_binding" (AuthorityBindingRefV2_json (p_Authority p));
           field "review_binding" (ReviewBindingRefV2_json (p_Review p));
           field "review_verdict_digest" (JString (p_ReviewVerdictDigest p));
           field "review_verdict_revision" (JUint (p_ReviewVerdictRevision p));
           omit_string "review_satisfaction_ref" (p_ReviewSatisfactionRef p);
           omit_string "review_satisfaction_digest" (p_ReviewSatisfactionDigest p);
           omit_uint "review_satisfaction_revision" (p_ReviewSatisfactionRevision p);
           field "budget_binding" (BudgetBindingRefV2_json (p_Budget p));
           field "dispatch_policy_binding" (DispatchPolicyBindingRefV2_json (p_Policy p));
           field "current_scope_binding" (ExecutionScopeBindingRefV2_json (p_CurrentScope p));
           field "capability_grant_digest" (JString (p_CapabilityGrantDigest p));
           field "credential_grant_digest" (JString (p_CredentialGrantDigest p));
           field "fence_digest" (JString (p_FenceDigest p));
           field "idempotency" (IdempotencyBindingV2_json (p_Idempotency p));
           field "issued_unix_nano" (JNumber (p_IssuedUnixNano p));
           field "expires_unix_nano" (JNumber (p_ExpiresUnixNano p))].

Definition DispatchPermitV2_DigestV2 (p : DispatchPermitV2) : result Digest :=
  DispatchPermitV2_Validate p ;; effect_digest "DispatchPermitV2" (DispatchPermitV2_json p).

Record DispatchCurrentFactsV2 := {
  dc_Scope : ExecutionScope;
  dc_CapabilityGrantDigest : Digest;
  dc_CredentialGrantDigest : Digest;
  dc_Provider : ProviderBindingRefV2;
  dc_EnforcementPoint : ProviderBindingRefV2;
  dc_Authority : AuthorityBindingRefV2;
  dc_Review : ReviewBindingRefV2;
  dc_ReviewVerdictDigest : Digest;
  dc_ReviewVerdictRevision : N;
  dc_ReviewSatisfactionRef : string;
  dc_ReviewSatisfactionDigest : Digest;
  dc_ReviewSatisfactionRevision : N;
  dc_Budget : BudgetBindingRefV2;
  dc_Policy : DispatchPolicyBindingRefV2;
  dc_CurrentScope : ExecutionScopeBindingRefV2;
  dc_FenceDigest : Digest;
}.

(** The permit names exactly the intent it was issued for. *)
Definition permit_drifted (permit : DispatchPermitV2) (intent : EffectIntentV2) (intentDigest : Digest) : bool :=
  negb (bool_decide (p_IntentID permit = i_ID intent))
  || negb (N.eqb (p_IntentRevision permit) (i_Revision intent))
  || negb (bool_decide (p_IntentDigest permit = intentDigest))
  || negb (bool_decide (p_PayloadSchema permit = op_Schema (i_Payload intent)))
  || negb (bool_decide (p_PayloadDigest permit = op_ContentDigest (i_Payload intent)))
  || negb (N.eqb (p_PayloadRevision permit) (i_PayloadRevision intent))
  || negb (bool_decide (p_RunID permit = i_RunID intent))
  || negb (bool_decide (p_ConflictDomain permit = i_ConflictDomain intent))
  || negb (bool_decide (p_Provider permit = i_Provider intent))
  || negb (bool_decide (p_EnforcementPoint permit = i_Provider intent))
  || negb (bool_decide (p_Authority permit = i_Authority intent))
  || negb (bool_decide (p_Review permit = i_Review intent))
  || negb (bool_decide (p_Budget permit = i_Budget intent))
  || negb (bool_decide (p_Policy permit = i_Policy intent))
  || negb (bool_decide (p_CurrentScope permit = i_CurrentScope intent))
  || negb (bool_decide (p_Idempotency permit = i_Idempotency intent)).

Definition facts_drifted (current : DispatchCurrentFactsV2) (permit : DispatchPermitV2) : bool :=
  negb (bool_decide (dc_Provider current = p_Provider permit))
  || negb (bool_decide (dc_EnforcementPoint current = p_EnforcementPoint permit))
  || negb (bool_decide (dc_Authority current = p_Authority permit))
  || negb (bool_decide (dc_Review current = p_Review permit))
  || negb (bool_decide (dc_ReviewVerdictDigest current = p_ReviewVerdictDigest permit))
  || negb (N.eqb (dc_ReviewVerdictRevision current) (p_ReviewVerdictRevision permit))
  || negb (bool_decide (dc_ReviewSatisfactionRef current = p_ReviewSatisfactionRef permit))
  || negb (bool_decide (dc_ReviewSatisfactionDigest current = p_ReviewSatisfactionDigest permit))
  || negb (N.eqb (dc_ReviewSatisfactionRevision current) (p_ReviewSatisfactionRevision permit))
  || negb (bool_decide (dc_Budget current = p_Budget permit))
  || negb (bool_decide (dc_Policy current = p_Policy permit))
  || negb (bool_decide (dc_CurrentScope current = p_CurrentScope permit))
  || negb (bool_decide (dc_CapabilityGrantDigest current = p_CapabilityGrantDigest permit))
  || negb (bool_decide (dc_CredentialGrantDigest current = p_CredentialGrantDigest permit))
  || negb (bool_decide (dc_FenceDigest current = p_FenceDigest permit))
  || negb (sameScope (dc_Scope current) (p_Scope permit)).

Definition fence_drifted `{ZoneDatabase} (fence : ExecutionFence) (permit : DispatchPermitV2)
    (intent : EffectIntentV2) : bool :=
  match DigestExecutionFenceV2 fence with
  | Err _ => true
  | Ok fenceDigest =>
      negb (bool_decide (fenceDigest = p_FenceDigest permit))
      || negb (bool_decide (fence_EffectIntentID fence = i_ID intent))
      || negb (N.eqb (fence_EffectIntentRevision fence) (i_Revision intent))
      || negb (bool_decide (fence_CanonicalPayloadDigest fence = op_ContentDigest (i_Payload intent)))
  end.

Definition ValidateDispatchAtExecutionPointV2 `{ZoneDatabase} (permit : DispatchPermitV2)
    (intent : EffectIntentV2) (fence : ExecutionFence) (current : DispatchCurrentFactsV2) (now : Time)
  : result unit :=
  DispatchPermitV2_Validate permit ;;
  EffectIntentV2_Validate intent ;;
  intentDigest ← EffectIntentV2_DigestV2 intent ;
  guard (IsZero now || negb (Before now (UnixTime (p_ExpiresUnixNano permit)))
         || negb (Before now (UnixTime (i_ExpiresUnixNano intent))))
    ErrorPreconditionFailed ReasonDispatchPermitExpired ;;
  guard (permit_drifted permit intent intentDigest) ErrorPreconditionFailed ReasonDispatchPermitInvalid ;;
  guard (facts_drifted current permit) ErrorPreconditionFailed ReasonDispatchPermitInvalid ;;
  guard (fence_drifted fence permit intent) ErrorPreconditionFailed ReasonEffectFenceStale ;;
  CheckFence fence
    {| cff_Scope := dc_Scope current; cff_CapabilityGrantDigest := dc_CapabilityGrantDigest current |} now.

(** ** Enforcement receipts *)

Record EnforcementReceiptV2 := {
  er2_ContractVersion : string;
  er2_PermitID : string;
  er2_PermitRevision : N;
  er2_AttemptID : string;
  er2_PermitDigest : Digest;
  er2_Verifier : ProviderBindingRefV2;
  er2_ValidatedAt : Z;
  er2_Attestation : option GovernanceExtensionV2;
}.
#[export] Instance EnforcementReceiptV2_eq_dec : EqDecision EnforcementReceiptV2.
Proof. solve_decision. Defined.

Definition EnforcementReceiptV2_Validate (r : EnforcementReceiptV2) : result unit :=
  guard (negb (bool_decide (er2_ContractVersion r = EffectContractVersionV2)) || blank (er2_PermitID r)
         || N.eqb (er2_PermitRevision r) 0 || blank (er2_AttemptID r) || (er2_ValidatedAt r <=? 0)%Z)
    ErrorInvalidArgument ReasonDispatchPermitInvalid ;;
  Digest_Validate (er2_PermitDigest r) ;;
  ProviderBindingRefV2_Validate (er2_Verifier r) ;;
  match er2_Attestation r with
  | Some attestation => validateExtensionsV2 [attestation]
  | None => Ok tt
  end.

(** ** Documents determine values *)

#[export] Instance AgentIdentityRef_json_Inj : Inj (=) (=) AgentIdentityRef_json.
Proof. solve_json_inj. Qed.
#[export] Instance LineageRef_json_Inj : Inj (=) (=) LineageRef_json.
Proof. solve_json_inj. Qed.
#[export] Instance InstanceRef_json_Inj : Inj (=) (=) InstanceRef_json.
Proof. solve_json_inj. Qed.
#[export] Instance SandboxLeaseRef_json_Inj : Inj (=) (=) SandboxLeaseRef_json.
Proof. solve_json_inj. Qed.
#[export] Instance ProviderBindingRefV2_json_Inj : Inj (=) (=) ProviderBindingRefV2_json.
Proof. solve_json_inj. Qed.
#[export] Instance AuthorityBindingRefV2_json_Inj : Inj (=) (=) AuthorityBindingRefV2_json.
Proof. solve_json_inj. Qed.
#[export] Instance ReviewBindingRefV2_json_Inj : Inj (=) (=) ReviewBindingRefV2_json.
Proof. solve_json_inj. Qed.
#[export] Instance BudgetBindingRefV2_json_Inj : Inj (=) (=) BudgetBindingRefV2_json.
Proof. solve_json_inj. Qed.
#[export] Instance DispatchPolicyBindingRefV2_json_Inj : Inj (=) (=) DispatchPolicyBindingRefV2_json.
Proof. solve_json_inj. Qed.
#[export] Instance ExecutionScopeBindingRefV2_json_Inj : Inj (=) (=) ExecutionScopeBindingRefV2_json.
Proof. solve_json_inj. Qed.
#[export] Instance CredentialLeaseRefV2_json_Inj : Inj (=) (=) CredentialLeaseRefV2_json.
Proof. solve_json_inj. Qed.
#[export] Instance EffectRelationV2_json_Inj : Inj (=) (=) EffectRelationV2_json.
Proof. solve_json_inj. Qed.

#[export] Instance ExecutionScope_json_Inj : Inj (=) (=) ExecutionScope_json.
Proof.
  intros a b H. destruct a, b. unfold ExecutionScope_json in H; cbn in H |- *. json_fields H.
  apply omit_nil_inj in H as [E2 H]; [| apply SandboxLeaseRef_json_Inj | eauto 20 with json_absent ..].
  json_split H. json_values. by subst.
Qed.

Lemma IdempotencyBindingV2_json_inj a b :
  IdempotencyBindingV2_Validate a = Ok tt -> IdempotencyBindingV2_Validate b = Ok tt ->
  IdempotencyBindingV2_json a = IdempotencyBindingV2_json b -> a = b.
Proof.
  unfold IdempotencyBindingV2_Validate. intros Ha Hb H. go_ok. destruct a, b. cbn in *. go_bool. subst.
  unfold IdempotencyBindingV2_json in H; cbn in H. json_fields H. json_values. subst. f_equal.
  by destruct ib_Class0, ib_Class1.
Qed.

Lemma ConflictDomainBindingV2_json_inj a b s t :
  ConflictDomainBindingV2_ValidateForScope a s = Ok tt -> ConflictDomainBindingV2_ValidateForScope b t = Ok tt ->
  ConflictDomainBindingV2_json a = ConflictDomainBindingV2_json b -> a = b.
Proof.
  unfold ConflictDomainBindingV2_ValidateForScope. intros Ha Hb H. go_ok. destruct a, b. cbn in *.
  go_bool. destruct_and?. subst.
  unfold ConflictDomainBindingV2_json in H; cbn in H. json_fields H. json_values. subst. congruence.
Qed.

Lemma effect_owners_known owners :
  validateEffectOwnersV2 owners = Ok tt -> length owners = 3%nat /\ Forall (fun o => known_role (eo_Role o) = true) owners.
Proof.
  unfold validateEffectOwnersV2. intros H. go_ok. go_bool. split; [done |].
  apply visit_unique_Ok in Hm0 as (Hf & _ & _). eapply Forall_impl; [exact Hf |].
  intros o [Ho _]. apply guard_Ok in Ho. go_bool. destruct (eo_Role o); try done. by destruct Ho as [[|]|].
Qed.

Lemma EffectOwnerRefV2_json_inj l l' :
  Forall (fun o => known_role (eo_Role o) = true) l -> Forall (fun o => known_role (eo_Role o) = true) l' ->
  map EffectOwnerRefV2_json l = map EffectOwnerRefV2_json l' -> l = l'.
Proof.
  intros Hl; revert l'. induction Hl as [| o l Ho _ IH]; intros [| o' l'] Hl' H; try done.
  apply Forall_cons in Hl' as [Ho' Hl']. cbn [map] in H. apply cons_eq_inj in H as [H Hr].
  rewrite (IH l' Hl' Hr). f_equal. clear Hr IH. destruct o, o'. cbn in *.
  unfold EffectOwnerRefV2_json in H; cbn in H. json_fields H. json_values. subst. f_equal.
  apply OwnerRoleV2_string_inj; [done .. |]. congruence.
Qed.

#[export] Instance map_json_Inj {A} (f : A -> json) : Inj (=) (=) f -> Inj (=) (=) (map f).
Proof.
  intros Hf l. induction l as [| a l IH]; intros [| b l'] H; try done.
  cbn in H. apply cons_eq_inj in H as [H Hr]. by rewrite (Hf _ _ H), (IH l' Hr).
Qed.

(** The type of an intent: its payload is bytes. *)
Definition intent_typed (i : EffectIntentV2) : Prop := payload_typed (i_Payload i).

Lemma validateV2_facts i b :
  EffectIntentV2_validateV2 i b = Ok tt ->
  OpaquePayloadV2_Validate (i_Payload i) = Ok tt
  /\ Forall (fun o => known_role (eo_Role o) = true) (i_Owners i)
  /\ IdempotencyBindingV2_Validate (i_Idempotency i) = Ok tt
  /\ ConflictDomainBindingV2_ValidateForScope (i_ConflictDomain i) (i_Scope i) = Ok tt.
Proof.
  unfold EffectIntentV2_validateV2. intros H. go_ok. repeat split; try done.
  by apply effect_owners_known.
Qed.

(** Two valid intents with the same document are the same intent, up to a nil
    or empty slice of credential leases. *)
Lemma EffectIntentV2_json_inj i j :
  EffectIntentV2_Validate i = Ok tt -> EffectIntentV2_Validate j = Ok tt ->
  intent_typed i -> intent_typed j ->
  EffectIntentV2_json (normalize_intent i) = EffectIntentV2_json (normalize_intent j) ->
  normalize_intent i = normalize_intent j.
Proof.
  intros Hi Hj Ti Tj H.
  apply validateV2_facts in Hi as (Pi & Oi & Di & Ci), Hj as (Pj & Oj & Dj & Cj).
  unfold intent_typed in *. destruct i, j. cbn in *.
  unfold EffectIntentV2_json, normalize_intent, set_i_CredentialLeases in *; cbn in *.
  json_fields H.
  repeat match goal with
  | E : OpaquePayloadV2_json _ = _ |- _ => apply OpaquePayloadV2_json_inj in E; [| done ..]
  | E : ConflictDomainBindingV2_json _ = _ |- _ => eapply ConflictDomainBindingV2_json_inj in E; [| done ..]
  | E : IdempotencyBindingV2_json _ = _ |- _ => apply IdempotencyBindingV2_json_inj in E; [| done ..]
  | E : JArray (map EffectOwnerRefV2_json _) = _ |- _ =>
      apply (inj JArray) in E; apply EffectOwnerRefV2_json_inj in E; [| done ..]
  end.
  json_values. subst. f_equal. congruence.
Qed.

(** ** What a digest commits to *)

(** The bytes that the digest of an intent hashes, and that of a permit. *)
Definition intent_preimage (i : EffectIntentV2) : list N :=
  canonical_preimage effect_domain EffectContractVersionV2 "EffectIntentV2"
    (json_Marshal (EffectIntentV2_json (normalize_intent i))).
Definition permit_preimage (p : DispatchPermitV2) : list N :=
  canonical_preimage effect_domain EffectContractVersionV2 "DispatchPermitV2"
    (json_Marshal (DispatchPermitV2_json p)).

(** Every string of the value is UTF-8. *)
Definition intent_utf8 (i : EffectIntentV2) : bool := json_utf8 (EffectIntentV2_json (normalize_intent i)).
Definition permit_utf8 (p : DispatchPermitV2) : bool := json_utf8 (DispatchPermitV2_json p).

Lemma effect_digest_Ok k j d :
  effect_digest k j = Ok d ->
  d = hex_digest (canonical_preimage effect_domain EffectContractVersionV2 k (json_Marshal j)).
Proof. intros H. by apply CanonicalJSONDigest_Ok in H as (_ & _ & _ & _ & ->). Qed.

(** Equal digests of two documents: the documents agree up to invalid UTF-8,
    or their preimages are a collision of SHA-256. *)
Lemma effect_digest_binds k k' j j' d :
  effect_digest k j = Ok d -> effect_digest k' j' = Ok d ->
  json_utf8 j = true -> json_utf8 j' = true ->
  let q := canonical_preimage effect_domain EffectContractVersionV2 k (json_Marshal j) in
  let q' := canonical_preimage effect_domain EffectContractVersionV2 k' (json_Marshal j') in
  (k = k' /\ j = j') \/ (q <> q' /\ hex_digest q = hex_digest q').
Proof.
  exact (document_digest_binds _ _ _ _ _ _ _).
Qed.

(** C20: an intent's digest commits to every field of the intent.  If two valid
    intents, whose strings are UTF-8, have the same digest, then they are equal
    up to a nil or empty slice of credential leases, or the two byte strings
    that were hashed are a concrete collision of SHA-256. *)
Theorem intent_digest_binds (i j : EffectIntentV2) (d : Digest)
    (Hi : EffectIntentV2_DigestV2 i = Ok d) (Hj : EffectIntentV2_DigestV2 j = Ok d)
    (Ti : intent_typed i) (Tj : intent_typed j) (Ui : intent_utf8 i = true) (Uj : intent_utf8 j = true) :
  normalize_intent i = normalize_intent j
  \/ (intent_preimage i <> intent_preimage j /\ hex_digest (intent_preimage i) = hex_digest (intent_preimage j)).
Proof.
  unfold EffectIntentV2_DigestV2 in *. apply seq_Ok in Hi as [Vi Hi], Hj as [Vj Hj].
  destruct (effect_digest_binds _ _ _ _ _ Hi Hj Ui Uj) as [[_ E] | E]; [left | by right].
  by apply EffectIntentV2_json_inj.
Qed.

Lemma permit_valid_facts p :
  DispatchPermitV2_Validate p = Ok tt ->
  ConflictDomainBindingV2_ValidateForScope (p_ConflictDomain p) (p_Scope p) = Ok tt
  /\ IdempotencyBindingV2_Validate (p_Idempotency p) = Ok tt.
Proof. unfold DispatchPermitV2_Validate. intros H. go_ok. by split. Qed.

Lemma DispatchPermitV2_json_inj p q :
  DispatchPermitV2_Validate p = Ok tt -> DispatchPermitV2_Validate q = Ok tt ->
  DispatchPermitV2_json p = DispatchPermitV2_json q -> p = q.
Proof.
  intros (Cp & Ip)%permit_valid_facts (Cq & Iq)%permit_valid_facts H. destruct p, q. cbn in *.
  unfold DispatchPermitV2_json in H; cbn in H. json_fields H.
  repeat match goal with
  | E : ConflictDomainBindingV2_json _ = _ |- _ => eapply ConflictDomainBindingV2_json_inj in E; [| done ..]
  | E : IdempotencyBindingV2_json _ = _ |- _ => apply IdempotencyBindingV2_json_inj in E; [| done ..]
  end.
  json_values. by subst.
Qed.

(** The digest of a permit commits to every field of the permit. *)
Lemma permit_digest_binds p q d :
  DispatchPermitV2_DigestV2 p = Ok d -> DispatchPermitV2_DigestV2 q = Ok d ->
  permit_utf8 p = true -> permit_utf8 q = true ->
  p = q \/ (permit_preimage p <> permit_preimage q /\ hex_digest (permit_preimage p) = hex_digest (permit_preimage q)).
Proof.
  intros Hp Hq Up Uq. unfold DispatchPermitV2_DigestV2 in *. apply seq_Ok in Hp as [Vp Hp], Hq as [Vq Hq].
  destruct (effect_digest_binds _ _ _ _ _ Hp Hq Up Uq) as [[_ E] | E]; [left | by right].
  by apply DispatchPermitV2_json_inj.
Qed.

(** A digest is returned for every valid value whose document is in bounds. *)
Lemma effect_digest_total k j :
  validCanonicalLabel k = true -> (N.of_nat (length (json_Marshal j)) <=? MaxCanonicalDocumentBytes) = true ->
  effect_digest k j
  = Ok (hex_digest (canonical_preimage effect_domain EffectContractVersionV2 k (json_Marshal j))).
Proof.
  intros Hk Hlen. unfold effect_digest, CanonicalJSONDigest.
  assert (validCanonicalLabel effect_domain = true) as -> by (vm_compute; reflexivity).
  assert (validCanonicalLabel EffectContractVersionV2 = true) as -> by (vm_compute; reflexivity).
  rewrite Hk. cbn [negb orb]. rewrite guard_false, bind_Ok_l.
  apply N.leb_le in Hlen. apply N.ltb_ge in Hlen as ->. reflexivity.
Qed.

(** ** A concrete intent *)

Definition ex_tenant_digest : Digest := Eval vm_compute in StableTenantScopeDigestV2 "tenant".
Lemma ex_tenant_digest_eq : StableTenantScopeDigestV2 "tenant" = ex_tenant_digest.
Proof. vm_compute. reflexivity. Qed.

Definition ex_schema : SchemaRefV2 :=
  {| sr_Namespace := "praxis"; sr_Name := "write"; sr_Version := "1.0.0"; sr_MediaType := "application/json";
     sr_ContentDigest := ex_digest |}.
Definition ex_provider : ProviderBindingRefV2 :=
  {| pb_BindingSetID := "set-1"; pb_BindingSetRevision := 1; pb_ComponentID := "praxis/files";
     pb_ManifestDigest := ex_digest; pb_ArtifactDigest := ex_digest2; pb_Capability := "files/write" |}.
Definition ex_payload : OpaquePayloadV2 :=
  {| op_Schema := ex_schema; op_ContentDigest := ex_digest; op_Length := 12; op_Inline := None;
     op_Ref := "blob-1"; op_LimitPolicy := {| lp_Policy := "praxis/limit"; lp_Digest := ex_digest |} |}.
Definition ex_owner (role : OwnerRoleV2) : EffectOwnerRefV2 :=
  {| eo_Role := role; eo_ComponentID := "praxis/files"; eo_ManifestDigest := ex_digest |}.
Definition no_relation : EffectRelationV2 :=
  {| er_CompensatesEffectID := ""; er_CompensatesEffectRevision := 0; er_InspectsEffectID := "";
     er_InspectsEffectRevision := 0; er_CleansUpEffectID := ""; er_CleansUpEffectRevision := 0;
     er_ReviewsCaseID := ""; er_ReviewsCandidateRevision := 0 |}.

(** An intent of an effect [id] on [target], in the conflict domain [domain]. *)
Definition ex_intent_with (relation : EffectRelationV2) (domain id target : string) : EffectIntentV2 :=
  {| i_ContractVersion := EffectContractVersionV2; i_ID := id; i_Revision := 1; i_Scope := ex_bound_scope;
     i_RunID := "run-1"; i_Kind := "files/write"; i_RiskClass := "risk/low"; i_ActionScopeDigest := ex_digest;
     i_Payload := ex_payload; i_PayloadRevision := 1; i_Target := target;
     i_ConflictDomain := {| cdb_Domain := domain; cdb_ScopeClass := EffectStableScopeTenantV2;
                            cdb_ScopeDigest := ex_tenant_digest |};
     i_Owners := map ex_owner [OwnerCleanup; OwnerEffect; OwnerSettlement]; i_Provider := ex_provider;
     i_Authority := {| ab_Ref := "authority-1"; ab_Digest := ex_digest; ab_Revision := 1; ab_Epoch := 1 |};
     i_Review := {| rb_Ref := "review-1"; rb_Digest := ex_digest; rb_Revision := 1; rb_PolicyDigest := ex_digest |};
     i_Budget := {| bb_Ref := "budget-1"; bb_Digest := ex_digest; bb_Revision := 1; bb_PolicyDigest := ex_digest |};
     i_Policy := {| pol_Ref := "policy-1"; pol_Digest := ex_digest; pol_Revision := 1 |};
     i_CurrentScope := {| xs_Ref := "scope-1"; xs_Digest := ex_digest; xs_Revision := 1 |};
     i_Idempotency := {| ib_Key := id; ib_ScopeClass := EffectStableScopeTenantV2;
                         ib_ScopeDigest := ex_tenant_digest; ib_Class := IdempotencyQueryable |};
     i_CredentialLeases := None; i_Relation := relation; i_MayLeaveRemoteResidual := false;
     i_RequiresCleanup := false; i_ExpiresUnixNano := 2000000000000000000 |}.
Definition ex_intent_in : string -> string -> string -> EffectIntentV2 := ex_intent_with no_relation.
Definition ex_intent : string -> string -> EffectIntentV2 := ex_intent_in "praxis/workspace".

Lemma intent_digest_total i :
  EffectIntentV2_Validate i = Ok tt ->
  (N.of_nat (length (json_Marshal (EffectIntentV2_json (normalize_intent i)))) <=? MaxCanonicalDocumentBytes) = true ->
  EffectIntentV2_DigestV2 i = Ok (hex_digest (intent_preimage i)).
Proof.
  intros Hv Hlen. unfold EffectIntentV2_DigestV2. rewrite Hv, bind_Ok_l.
  apply effect_digest_total; [vm_compute; reflexivity | done].
Qed.

Lemma ex_intent_valid : EffectIntentV2_Validate (ex_intent "effect-1" "workspace") = Ok tt.
Proof. vm_compute. reflexivity. Qed.

Definition ex_intent_1 : EffectIntentV2 := ex_intent "effect-1" "workspace".
Definition ex_intent_1' : EffectIntentV2 := set_i_CredentialLeases (Some []) ex_intent_1.

Lemma intent_digest_binds_witness :
  EffectIntentV2_DigestV2 ex_intent_1 = Ok (hex_digest (intent_preimage ex_intent_1))
  /\ (normalize_intent ex_intent_1 = normalize_intent ex_intent_1'
      \/ (intent_preimage ex_intent_1 <> intent_preimage ex_intent_1'
          /\ hex_digest (intent_preimage ex_intent_1) = hex_digest (intent_preimage ex_intent_1'))).
Proof.
  pose proof (intent_digest_total ex_intent_1 ex_intent_valid ltac:(vm_compute; reflexivity)) as H.
  split; [exact H |].
  refine (intent_digest_binds ex_intent_1 ex_intent_1' _ H H _ _ _ _).
  - vm_compute; constructor.
  - vm_compute; constructor.
  - vm_compute; reflexivity.
  - vm_compute; reflexivity.
Defined.

(** Outside UTF-8 the digest does not commit to the text: two valid intents on
    different targets have the same digest. *)
Theorem intent_digest_conflates_invalid_utf8 :
  exists i j d, EffectIntentV2_DigestV2 i = Ok d /\ EffectIntentV2_DigestV2 j = Ok d
    /\ normalize_intent i <> normalize_intent j.
Proof.
  pose (i := ex_intent "effect-1" (string_of_codes [255])).
  pose (j := ex_intent "effect-1" (string_of_codes [254])).
  exists i, j, (hex_digest (intent_preimage i)). split; [| split].
  - apply intent_digest_total; vm_compute; reflexivity.
  - assert (intent_preimage i = intent_preimage j) as ->
      by (unfold intent_preimage; f_equal; vm_compute; reflexivity).
    apply intent_digest_total; vm_compute; reflexivity.
  - intros E. apply (f_equal i_Target) in E. vm_compute in E. discriminate E.
Qed.
