(* ===== verification/EffectFact.v ===== *)
(** * control/effect_fact_v2.go: effect facts and dispatch permit facts

    The durable fact of one governed effect: its intent, its main state, the
    evidence that each state requires, and the two closure dimensions (remote
    residual, cleanup) that advance beside it; and the fact of a dispatch
    permit.  The validators of both and the transitions that a compare-and-swap
    accepts. *)

From S2P Require Import Prelude GoStd Errors Identity Fence Json Canonical Payload EffectContract.
From Stdlib Require Import Ascii.

Local Open Scope N_scope.

(** ** States *)

Inductive EffectFactStateV2 :=
| EffectProposed | EffectAccepted | EffectDispatchIntent | EffectDispatched | EffectUnknownOutcome
| EffectSettled | EffectCompensated | EffectRejected | EffectStateOther (raw : string).
#[export] Instance EffectFactStateV2_eq_dec : EqDecision EffectFactStateV2.
Proof. solve_decision. Defined.

Inductive DispatchPermitStateV2 :=
| DispatchPermitIssued | DispatchPermitBegun | DispatchPermitExpired | DispatchPermitRevoked
| DispatchPermitOther (raw : string).
#[export] Instance DispatchPermitStateV2_eq_dec : EqDecision DispatchPermitStateV2.
Proof. solve_decision. Defined.

Inductive RemoteResidualStateV2 :=
| RemoteResidualNotRequired | RemoteResidualPending | RemoteResidualConfirmedAbsent
| RemoteResidualPresent | RemoteResidualUnknown | RemoteResidualOther (raw : string).
#[export] Instance RemoteResidualStateV2_eq_dec : EqDecision RemoteResidualStateV2.
Proof. solve_decision. Defined.

Inductive EffectCleanupStateV2 :=
| EffectCleanupNotRequired | EffectCleanupPending | EffectCleanupComplete | EffectCleanupFailed
| EffectCleanupIndeterminate | EffectCleanupOther (raw : string).
#[export] Instance EffectCleanupStateV2_eq_dec : EqDecision EffectCleanupStateV2.
Proof. solve_decision. Defined.

Definition validEffectFactStateV2 (value : EffectFactStateV2) : bool :=
  match value with EffectStateOther _ => false | _ => true end.
Definition validDispatchPermitStateV2 (value : DispatchPermitStateV2) : bool :=
  match value with DispatchPermitOther _ => false | _ => true end.
Definition validRemoteResidualStateV2 (value : RemoteResidualStateV2) : bool :=
  match value with RemoteResidualOther _ => false | _ => true end.
Definition validEffectCleanupStateV2 (value : EffectCleanupStateV2) : bool :=
  match value with EffectCleanupOther _ => false | _ => true end.

(** ** Evidence *)

Record ProviderDispatchReceiptV2 := {
  dr_PermitID : string;
  dr_PermitDigest : Digest;
  dr_AttemptID : string;
  dr_IntentID : string;
  dr_IntentRevision : N;
  dr_Provider : ProviderBindingRefV2;
  dr_ProviderOperationRef : string;
  dr_ReceiptRef : string;
  dr_ObservationDigest : Digest;
  dr_ObservedUnixNano : Z;
}.
#[export] Instance ProviderDispatchReceiptV2_eq_dec : EqDecision ProviderDispatchReceiptV2.
Proof. solve_decision. Defined.

Definition ProviderDispatchReceiptV2_Validate (r : ProviderDispatchReceiptV2) : result unit :=
  guard (blank (dr_PermitID r) || blank (dr_AttemptID r) || blank (dr_IntentID r)
         || N.eqb (dr_IntentRevision r) 0 || (dr_ObservedUnixNano r <=? 0)%Z)
    ErrorInvalidArgument ReasonInvalidReference ;;
  Digest_Validate (dr_PermitDigest r) ;;
  ProviderBindingRefV2_Validate (dr_Provider r) ;;
  Digest_Validate (dr_ObservationDigest r).

Inductive EffectSettlementDispositionV2 :=
| SettlementConfirmedApplied | SettlementConfirmedNotApplied | SettlementConfirmedFailed
| SettlementOther (raw : string).
#[export] Instance EffectSettlementDispositionV2_eq_dec : EqDecision EffectSettlementDispositionV2.
Proof. solve_decision. Defined.
Definition EffectSettlementDispositionV2_string (d : EffectSettlementDispositionV2) : string :=
  match d with
  | SettlementConfirmedApplied => "confirmed_applied" | SettlementConfirmedNotApplied => "confirmed_not_applied"
  | SettlementConfirmedFailed => "confirmed_failed" | SettlementOther raw => raw
  end.

Record EffectSettlementFactV2 := {
  sf_Owner : EffectOwnerRefV2;
  sf_Disposition : EffectSettlementDispositionV2;
  sf_ReceiptRef : string;
  sf_EvidenceDigest : Digest;
  sf_InspectionIntentID : string;
  sf_InspectionIntentRevision : N;
  sf_InspectionSettlementDigest : Digest;
  sf_DomainResult : option OpaquePayloadV2;
  sf_SettledUnixNano : Z;
}.
#[export] Instance EffectSettlementFactV2_eq_dec : EqDecision EffectSettlementFactV2.
Proof. solve_decision. Defined.

Definition EffectSettlementFactV2_Validate (s : EffectSettlementFactV2) : result unit :=
  guard (negb (bool_decide (eo_Role (sf_Owner s) = OwnerSettlement)) || blank (sf_ReceiptRef s)
         || (sf_SettledUnixNano s <=? 0)%Z)
    ErrorInvalidArgument ReasonSettlementOwnerMismatch ;;
  guard (match sf_Disposition s with SettlementOther _ => true | _ => false end)
    ErrorInvalidArgument ReasonEffectUnknownOutcome ;;
  Digest_Validate (eo_ManifestDigest (sf_Owner s)) ;;
  Digest_Validate (sf_EvidenceDigest s) ;;
  let inspection := negb (blank (sf_InspectionIntentID s)) || negb (N.eqb (sf_InspectionIntentRevision s) 0)
                    || negb (bool_decide (sf_InspectionSettlementDigest s = "")) in
  guard (inspection && (blank (sf_InspectionIntentID s) || N.eqb (sf_InspectionIntentRevision s) 0
                        || negb (is_ok (Digest_Validate (sf_InspectionSettlementDigest s)))))
    ErrorInvalidArgument ReasonEffectUnknownOutcome ;;
  match sf_DomainResult s with Some result => OpaquePayloadV2_Validate result | None => Ok tt end.

Definition EffectSettlementFactV2_json (s : EffectSettlementFactV2) : json :=
  JStruct [field "owner" (EffectOwnerRefV2_json (sf_Owner s));
           field "disposition" (JString (EffectSettlementDispositionV2_string (sf_Disposition s)));
           field "receipt_ref" (JString (sf_ReceiptRef s));
           field "evidence_digest" (JString (sf_EvidenceDigest s));
           omit_string "inspection_intent_id" (sf_InspectionIntentID s);
           omit_uint "inspection_intent_revision" (sf_InspectionIntentRevision s);
           omit_string "inspection_settlement_digest" (sf_InspectionSettlementDigest s);
           omit_nil "domain_result" OpaquePayloadV2_json (sf_DomainResult s);
           field "settled_unix_nano" (JNumber (sf_SettledUnixNano s))].

(** The digest by which one effect's fact names the settlement of another. *)
Definition settlement_digest (s : EffectSettlementFactV2) : result Digest :=
  effect_digest "EffectSettlementFactV2" (EffectSettlementFactV2_json s).

Record CompensationCompletionV2 := {
  cc_EffectID : string;
  cc_EffectRevision : N;
  cc_SettlementDigest : Digest;
}.
#[export] Instance CompensationCompletionV2_eq_dec : EqDecision CompensationCompletionV2.
Proof. solve_decision. Defined.

Definition CompensationCompletionV2_Validate (c : CompensationCompletionV2) : result unit :=
  guard (blank (cc_EffectID c) || N.eqb (cc_EffectRevision c) 0)
    ErrorInvalidArgument ReasonCompensationIncomplete ;;
  Digest_Validate (cc_SettlementDigest c).

Record EffectResolutionCompletionV2 := {
  rc_EffectID : string;
  rc_EffectRevision : N;
  rc_SettlementDigest : Digest;
}.
#[export] Instance EffectResolutionCompletionV2_eq_dec : EqDecision EffectResolutionCompletionV2.
Proof. solve_decision. Defined.

Definition EffectResolutionCompletionV2_Validate (c : EffectResolutionCompletionV2) : result unit :=
  guard (blank (rc_EffectID c) || N.eqb (rc_EffectRevision c) 0)
    ErrorInvalidArgument ReasonCleanupEvidenceIncomplete ;;
  Digest_Validate (rc_SettlementDigest c).

(** ** The effect fact *)

Record EffectFactV2 := {
  f_Intent : EffectIntentV2;
  f_IntentDigest : Digest;
  f_State : EffectFactStateV2;
  f_Revision : N;
  f_DispatchPermitID : string;
  f_DispatchPermitDigest : Digest;
  f_DispatchReceipt : option ProviderDispatchReceiptV2;
  f_Settlement : option EffectSettlementFactV2;
  f_Compensation : option CompensationCompletionV2;
  f_RemoteResidual : RemoteResidualStateV2;
  f_ResidualResolution : option EffectResolutionCompletionV2;
  f_Cleanup : EffectCleanupStateV2;
  f_CleanupResolution : option EffectResolutionCompletionV2;
  f_RejectionReason : string;
  f_UpdatedUnixNano : Z;
}.
#[export] Instance EffectFactV2_eq_dec : EqDecision EffectFactV2.
Proof. solve_decision. Defined.

Definition is_nil {A} (o : option A) : bool := match o with None => true | Some _ => false end.
Definition empty (s : string) : bool := bool_decide (s = "").

(** `if p != nil { if err := p.Validate(); err != nil { return err } }` *)
Definition validate_opt {A} (validate : A -> result unit) (o : option A) : result unit :=
  match o with Some a => validate a | None => Ok tt end.

(** What each main state requires of the evidence: the switch of Validate. *)
Definition state_evidence (f : EffectFactV2) : result unit :=
  match f_State f with
  | EffectProposed | EffectAccepted =>
      guard (negb (empty (f_DispatchPermitID f)) || negb (is_nil (f_DispatchReceipt f))
             || negb (is_nil (f_Settlement f)) || negb (is_nil (f_Compensation f))
             || negb (empty (f_RejectionReason f)))
        ErrorPreconditionFailed ReasonEffectStateConflict
  | EffectDispatchIntent =>
      guard (empty (f_DispatchPermitID f) || negb (is_nil (f_DispatchReceipt f))
             || negb (is_nil (f_Settlement f)) || negb (is_nil (f_Compensation f))
             || negb (empty (f_RejectionReason f)))
        ErrorPreconditionFailed ReasonEffectStateConflict
  | EffectDispatched | EffectUnknownOutcome =>
      guard (empty (f_DispatchPermitID f) || negb (is_nil (f_Settlement f))
             || negb (is_nil (f_Compensation f)) || negb (empty (f_RejectionReason f)))
        ErrorPreconditionFailed ReasonEffectStateConflict ;;
      guard (bool_decide (f_State f = EffectDispatched) && is_nil (f_DispatchReceipt f))
        ErrorPreconditionFailed ReasonEffectStateConflict
  | EffectSettled =>
      guard (is_nil (f_Settlement f) || negb (is_nil (f_Compensation f)) || negb (empty (f_RejectionReason f)))
        ErrorPreconditionFailed ReasonEffectStateConflict
  | EffectCompensated =>
      guard (is_nil (f_Settlement f) || is_nil (f_Compensation f) || negb (empty (f_RejectionReason f)))
        ErrorPreconditionFailed ReasonCompensationIncomplete
  | EffectRejected =>
      guard (empty (f_RejectionReason f) || negb (is_nil (f_DispatchReceipt f))
             || negb (is_nil (f_Settlement f)) || negb (is_nil (f_Compensation f)))
        ErrorPreconditionFailed ReasonEffectStateConflict
  | EffectStateOther _ => Ok tt
  end.

Definition residual_open (r : RemoteResidualStateV2) : bool :=
  bool_decide (r = RemoteResidualNotRequired) || bool_decide (r = RemoteResidualPending).
Definition cleanup_open (c : EffectCleanupStateV2) : bool :=
  bool_decide (c = EffectCleanupNotRequired) || bool_decide (c = EffectCleanupPending).

Definition EffectFactV2_Validate (f : EffectFactV2) : result unit :=
  EffectIntentV2_Validate (f_Intent f) ;;
  digest ← EffectIntentV2_DigestV2 (f_Intent f) ;
  guard (negb (bool_decide (digest = f_IntentDigest f)) || N.eqb (f_Revision f) 0
         || (f_UpdatedUnixNano f <=? 0)%Z || negb (validEffectFactStateV2 (f_State f))
         || negb (validRemoteResidualStateV2 (f_RemoteResidual f))
         || negb (validEffectCleanupStateV2 (f_Cleanup f)))
    ErrorInvalidArgument ReasonEffectStateConflict ;;
  (if empty (f_DispatchPermitID f)
   then guard (negb (empty (f_DispatchPermitDigest f))) ErrorPreconditionFailed ReasonDispatchPermitInvalid
   else Digest_Validate (f_DispatchPermitDigest f)) ;;
  validate_opt ProviderDispatchReceiptV2_Validate (f_DispatchReceipt f) ;;
  validate_opt EffectSettlementFactV2_Validate (f_Settlement f) ;;
  validate_opt CompensationCompletionV2_Validate (f_Compensation f) ;;
  validate_opt EffectResolutionCompletionV2_Validate (f_ResidualResolution f) ;;
  validate_opt EffectResolutionCompletionV2_Validate (f_CleanupResolution f) ;;
  guard (negb (Bool.eqb (residual_open (f_RemoteResidual f)) (is_nil (f_ResidualResolution f))))
    ErrorPreconditionFailed ReasonRemoteResidualUnresolved ;;
  guard (negb (Bool.eqb (cleanup_open (f_Cleanup f)) (is_nil (f_CleanupResolution f))))
    ErrorPreconditionFailed ReasonCleanupEvidenceIncomplete ;;
  state_evidence f.

(** NewProposedEffectFactV2 returns the fact with the verdict of its own
    validation. *)
Definition NewProposedEffectFactV2 (intent : EffectIntentV2) (now : Time) : result EffectFactV2 :=
  guard (IsZero now || negb (Before now (UnixTime (i_ExpiresUnixNano intent))))
    ErrorInvalidArgument ReasonEffectIntentMissing ;;
  digest ← EffectIntentV2_DigestV2 intent ;
  let fact :=
    {| f_Intent := intent; f_IntentDigest := digest; f_State := EffectProposed; f_Revision := 1;
       f_DispatchPermitID := ""; f_DispatchPermitDigest := ""; f_DispatchReceipt := None;
       f_Settlement := None; f_Compensation := None;
       f_RemoteResidual := if i_MayLeaveRemoteResidual intent then RemoteResidualPending else RemoteResidualNotRequired;
       f_ResidualResolution := None;
       f_Cleanup := if i_RequiresCleanup intent then EffectCleanupPending else EffectCleanupNotRequired;
       f_CleanupResolution := None; f_RejectionReason := ""; f_UpdatedUnixNano := UnixNano now |} in
  EffectFactV2_Validate fact ;; Ok fact.

Definition ConflictDomainOccupied (f : EffectFactV2) : bool :=
  if bool_decide (f_State f = EffectRejected) then false
  else if negb (bool_decide (f_State f = EffectSettled)) && negb (bool_decide (f_State f = EffectCompensated))
  then true
  else
    let residualClosed := bool_decide (f_RemoteResidual f = RemoteResidualNotRequired)
                          || bool_decide (f_RemoteResidual f = RemoteResidualConfirmedAbsent) in
    let cleanupClosed := bool_decide (f_Cleanup f = EffectCleanupNotRequired)
                         || bool_decide (f_Cleanup f = EffectCleanupComplete) in
    negb residualClosed || negb cleanupClosed.

(** ** Transitions *)

Record EffectTransitionContextV2 := {
  PermitBegun : bool;
  DispatchReceiptMatched : bool;
  SettlementOwnerMatched : bool;
  UnknownInspectionSettled : bool;
  CompensationSettled : bool;
  ResidualInspectSettled : bool;
  CleanupEffectSettled : bool;
}.

(** reflect.DeepEqual on the recorded values, when there is a current one. *)
Definition changed {A} `{EqDecision A} (current next : option A) : bool :=
  negb (is_nil current) && negb (bool_decide (current = next)).

Definition residual_move (current next : RemoteResidualStateV2) : bool :=
  match current, next with
  | RemoteResidualPending, (RemoteResidualConfirmedAbsent | RemoteResidualPresent | RemoteResidualUnknown)
  | RemoteResidualUnknown, (RemoteResidualConfirmedAbsent | RemoteResidualPresent)
  | RemoteResidualPresent, RemoteResidualConfirmedAbsent => true
  | _, _ => false
  end.

Definition cleanup_move (current next : EffectCleanupStateV2) : bool :=
  match current, next with
  | EffectCleanupPending, (EffectCleanupComplete | EffectCleanupFailed | EffectCleanupIndeterminate) => true
  | _, _ => false
  end.

Definition validateClosureTransitionV2 (current next : EffectFactV2) (context : EffectTransitionContextV2)
  : result unit :=
  guard (changed (f_ResidualResolution current) (f_ResidualResolution next)) ErrorConflict ReasonEvidenceConflict ;;
  guard (changed (f_CleanupResolution current) (f_CleanupResolution next)) ErrorConflict ReasonEvidenceConflict ;;
  (if negb (bool_decide (f_RemoteResidual current = f_RemoteResidual next)) then
     guard (negb (residual_move (f_RemoteResidual current) (f_RemoteResidual next))
            || negb (ResidualInspectSettled context)
            || negb (is_nil (f_ResidualResolution current)) || is_nil (f_ResidualResolution next))
       ErrorPreconditionFailed ReasonRemoteResidualUnresolved
   else guard (negb (bool_decide (f_ResidualResolution current = f_ResidualResolution next)))
          ErrorConflict ReasonEvidenceConflict) ;;
  (if negb (bool_decide (f_Cleanup current = f_Cleanup next)) then
     guard (negb (cleanup_move (f_Cleanup current) (f_Cleanup next))
            || negb (CleanupEffectSettled context)
            || negb (is_nil (f_CleanupResolution current)) || is_nil (f_CleanupResolution next))
       ErrorPreconditionFailed ReasonCleanupEvidenceIncomplete
   else guard (negb (bool_decide (f_CleanupResolution current = f_CleanupResolution next)))
          ErrorConflict ReasonEvidenceConflict).

(** The switch on the current main state, when the main state changes. *)
Definition main_transition (current next : EffectFactStateV2) (context : EffectTransitionContextV2)
  : result unit :=
  let allow (valid : bool) := guard (negb valid) ErrorPreconditionFailed ReasonInvalidTransition in
  match current with
  | EffectProposed => allow (bool_decide (next = EffectAccepted) || bool_decide (next = EffectRejected))
  | EffectAccepted => allow (bool_decide (next = EffectDispatchIntent) || bool_decide (next = EffectRejected))
  | EffectDispatchIntent =>
      let valid := bool_decide (next = EffectDispatched) || bool_decide (next = EffectUnknownOutcome)
                   || bool_decide (next = EffectRejected) in
      guard (bool_decide (next = EffectRejected) && PermitBegun context)
        ErrorPreconditionFailed ReasonEffectUnknownOutcome ;;
      guard ((bool_decide (next = EffectDispatched) || bool_decide (next = EffectUnknownOutcome))
             && negb (PermitBegun context)) ErrorPreconditionFailed ReasonDispatchPermitInvalid ;;
      guard (bool_decide (next = EffectDispatched) && negb (DispatchReceiptMatched context))
        ErrorPreconditionFailed ReasonEvidenceConflict ;;
      allow valid
  | EffectDispatched | EffectUnknownOutcome =>
      let valid := bool_decide (next = EffectSettled) in
      guard (valid && negb (SettlementOwnerMatched context)) ErrorForbidden ReasonSettlementOwnerMismatch ;;
      guard (valid && bool_decide (current = EffectUnknownOutcome) && negb (UnknownInspectionSettled context))
        ErrorPreconditionFailed ReasonEffectUnknownOutcome ;;
      allow valid
  | EffectSettled =>
      let valid := bool_decide (next = EffectCompensated) in
      guard (valid && negb (CompensationSettled context)) ErrorPreconditionFailed ReasonCompensationIncomplete ;;
      allow valid
  | EffectCompensated | EffectRejected => fail ErrorPreconditionFailed ReasonInvalidTransition
  | EffectStateOther _ => allow false
  end.

Definition ValidateEffectFactTransitionV2 (current next : EffectFactV2) (context : EffectTransitionContextV2)
    (now : Time) : result unit :=
  EffectFactV2_Validate current ;;
  EffectFactV2_Validate next ;;
  guard (IsZero now || (UnixNano now <? f_UpdatedUnixNano current)%Z)
    ErrorPreconditionFailed ReasonClockRegression ;;
  guard (negb (bool_decide (i_ID (f_Intent current) = i_ID (f_Intent next)))
         || negb (bool_decide (f_IntentDigest current = f_IntentDigest next))
         || negb (N.eqb (f_Revision next) (u64_succ (f_Revision current))))
    ErrorConflict ReasonRevisionConflict ;;
  guard (negb (f_UpdatedUnixNano next =? UnixNano now)%Z) ErrorInvalidArgument ReasonInvalidCanonicalForm ;;
  guard (negb (empty (f_DispatchPermitID current))
         && (negb (bool_decide (f_DispatchPermitID next = f_DispatchPermitID current))
             || negb (bool_decide (f_DispatchPermitDigest next = f_DispatchPermitDigest current))))
    ErrorPreconditionFailed ReasonDispatchPermitInvalid ;;
  guard (changed (f_DispatchReceipt current) (f_DispatchReceipt next)
         || changed (f_Settlement current) (f_Settlement next)
         || changed (f_Compensation current) (f_Compensation next)
         || (negb (empty (f_RejectionReason current))
             && negb (bool_decide (f_RejectionReason current = f_RejectionReason next))))
    ErrorConflict ReasonEvidenceConflict ;;
  validateClosureTransitionV2 current next context ;;
  if bool_decide (f_State current = f_State next) then
    guard (bool_decide (f_State current = EffectProposed) || bool_decide (f_State current = EffectAccepted)
           || bool_decide (f_State current = EffectDispatchIntent)
           || bool_decide (f_State current = EffectRejected)
           || (bool_decide (f_RemoteResidual current = f_RemoteResidual next)
               && bool_decide (f_Cleanup current = f_Cleanup next)))
      ErrorPreconditionFailed ReasonInvalidTransition
  else main_transition (f_State current) (f_State next) context.

(** ** Permit facts *)

Record DispatchPermitFactV2 := {
  pf_Permit : DispatchPermitV2;
  pf_PermitDigest : Digest;
  pf_Fence : ExecutionFence;
  pf_State : DispatchPermitStateV2;
  pf_Revision : N;
  pf_EffectFactRevision : N;
  pf_BegunUnixNano : Z;
  pf_Enforcement : option EnforcementReceiptV2;
}.
#[export] Instance DispatchPermitFactV2_eq_dec : EqDecision DispatchPermitFactV2.
Proof. solve_decision. Defined.

Section permit_facts.
Context `{ZoneDatabase}.

Definition fence_unbound (p : DispatchPermitFactV2) : bool :=
  match DigestExecutionFenceV2 (pf_Fence p) with
  | Err _ => true
  | Ok fenceDigest =>
      negb (bool_decide (fenceDigest = p_FenceDigest (pf_Permit p)))
      || negb (bool_decide (fence_EffectIntentID (pf_Fence p) = p_IntentID (pf_Permit p)))
      || negb (N.eqb (fence_EffectIntentRevision (pf_Fence p)) (p_IntentRevision (pf_Permit p)))
      || negb (bool_decide (fence_CanonicalPayloadDigest (pf_Fence p) = p_PayloadDigest (pf_Permit p)))
  end.

Definition DispatchPermitFactV2_Validate (p : DispatchPermitFactV2) : result unit :=
  DispatchPermitV2_Validate (pf_Permit p) ;;
  digest ← DispatchPermitV2_DigestV2 (pf_Permit p) ;
  guard (negb (bool_decide (digest = pf_PermitDigest p)) || N.eqb (pf_Revision p) 0
         || N.eqb (pf_EffectFactRevision p) 0 || negb (validDispatchPermitStateV2 (pf_State p)))
    ErrorInvalidArgument ReasonDispatchPermitInvalid ;;
  ExecutionFence_Validate (pf_Fence p) ;;
  guard (fence_unbound p) ErrorPreconditionFailed ReasonEffectFenceStale ;;
  guard (bool_decide (pf_State p = DispatchPermitIssued)
         && (negb (pf_BegunUnixNano p =? 0)%Z || negb (is_nil (pf_Enforcement p))))
    ErrorPreconditionFailed ReasonDispatchPermitInvalid ;;
  if bool_decide (pf_State p = DispatchPermitBegun) then
    guard (pf_BegunUnixNano p <=? 0)%Z ErrorPreconditionFailed ReasonDispatchPermitInvalid ;;
    match pf_Enforcement p with
    | None => Ok tt
    | Some e =>
        EnforcementReceiptV2_Validate e ;;
        guard (negb (bool_decide (er2_PermitID e = p_ID (pf_Permit p)))
               || negb (N.eqb (er2_PermitRevision e) (p_Revision (pf_Permit p)))
               || negb (bool_decide (er2_AttemptID e = p_AttemptID (pf_Permit p)))
               || negb (bool_decide (er2_PermitDigest e = pf_PermitDigest p))
               || negb (bool_decide (er2_Verifier e = p_EnforcementPoint (pf_Permit p))))
          ErrorPreconditionFailed ReasonDispatchPermitInvalid
    end
  else Ok tt.

(** `next.Enforcement == nil || ... || next.Enforcement.ValidatedAt < current.BegunUnixNano || ...` *)
Definition receipt_unusable (current next : DispatchPermitFactV2) (now : Time) : bool :=
  match pf_Enforcement next with
  | None => true
  | Some e =>
      negb (pf_BegunUnixNano next =? pf_BegunUnixNano current)%Z
      || (UnixNano now <? pf_BegunUnixNano current)%Z
      || (er2_ValidatedAt e <? pf_BegunUnixNano current)%Z
      || (UnixNano now <? er2_ValidatedAt e)%Z
  end.

Definition ValidateDispatchPermitTransitionV2 (current next : DispatchPermitFactV2) (now : Time) : result unit :=
  DispatchPermitFactV2_Validate current ;;
  DispatchPermitFactV2_Validate next ;;
  guard (negb (bool_decide (pf_Permit current = pf_Permit next))
         || negb (bool_decide (pf_PermitDigest current = pf_PermitDigest next))
         || negb (bool_decide (pf_Fence current = pf_Fence next))
         || negb (N.eqb (pf_EffectFactRevision current) (pf_EffectFactRevision next))
         || negb (N.eqb (pf_Revision next) (u64_succ (pf_Revision current))))
    ErrorConflict ReasonRevisionConflict ;;
  guard (IsZero now || (UnixNano now <? p_IssuedUnixNano (pf_Permit current))%Z)
    ErrorPreconditionFailed ReasonClockRegression ;;
  if bool_decide (pf_State current = DispatchPermitBegun) && bool_decide (pf_State next = DispatchPermitBegun) then
    guard (negb (is_nil (pf_Enforcement current))) ErrorConflict ReasonEvidenceConflict ;;
    guard (receipt_unusable current next now) ErrorPreconditionFailed ReasonDispatchPermitInvalid
  else
    guard (negb (bool_decide (pf_State current = DispatchPermitIssued))) ErrorConflict ReasonDispatchPermitConsumed ;;
    match pf_State next with
    | DispatchPermitBegun =>
        guard (negb (Before now (UnixTime (p_ExpiresUnixNano (pf_Permit current))))
               || negb (pf_BegunUnixNano next =? UnixNano now)%Z)
          ErrorPreconditionFailed ReasonDispatchPermitExpired
    | DispatchPermitExpired =>
        guard (Before now (UnixTime (p_ExpiresUnixNano (pf_Permit current))))
          ErrorPreconditionFailed ReasonDispatchPermitExpired
    | DispatchPermitRevoked => Ok tt
    | _ => fail ErrorPreconditionFailed ReasonInvalidTransition
    end.

End permit_facts.
