(* ===== verification/EffectFlow.v ===== *)
(** * How effect facts and permit facts move

    The order of the main states and what a transition can never change,
    for effect facts and for permit facts: the specification that the
    validators of control/effect_fact_v2.go implement, and the lemmas that the
    theorems of the store use. *)

From stdpp Require Import relations.
From S2P Require Import Prelude GoStd Errors Identity Fence Json Canonical Payload EffectContract EffectFact.

Local Open Scope N_scope.

(** ** The main states of an effect *)

Inductive main_edge : EffectFactStateV2 -> EffectFactStateV2 -> Prop :=
| edge_accept : main_edge EffectProposed EffectAccepted
| edge_reject_proposed : main_edge EffectProposed EffectRejected
| edge_authorize : main_edge EffectAccepted EffectDispatchIntent
| edge_reject_accepted : main_edge EffectAccepted EffectRejected
| edge_dispatch : main_edge EffectDispatchIntent EffectDispatched
| edge_lose : main_edge EffectDispatchIntent EffectUnknownOutcome
| edge_reject_authorized : main_edge EffectDispatchIntent EffectRejected
| edge_settle : main_edge EffectDispatched EffectSettled
| edge_settle_unknown : main_edge EffectUnknownOutcome EffectSettled
| edge_compensate : main_edge EffectSettled EffectCompensated.

(** What the other facts must show before an edge is taken. *)
Definition edge_evidence (context : EffectTransitionContextV2) (current next : EffectFactStateV2) : Prop :=
  match current, next with
  | EffectDispatchIntent, EffectDispatched =>
      PermitBegun context = true /\ DispatchReceiptMatched context = true
  | EffectDispatchIntent, EffectUnknownOutcome => PermitBegun context = true
  | EffectDispatchIntent, EffectRejected => PermitBegun context = false
  | EffectDispatched, EffectSettled => SettlementOwnerMatched context = true
  | EffectUnknownOutcome, EffectSettled =>
      SettlementOwnerMatched context = true /\ UnknownInspectionSettled context = true
  | EffectSettled, EffectCompensated => CompensationSettled context = true
  | _, _ => True
  end.

Lemma main_transition_iff current next context :
  current <> next ->
  main_transition current next context = Ok tt <-> main_edge current next /\ edge_evidence context current next.
Proof.
  intros Hne. unfold main_transition, edge_evidence. split.
  - intros H. destruct current; try done; repeat (apply seq_guard_Ok in H as [? H]);
      apply guard_Ok in H; apply negb_false_iff in H;
      destruct next; try discriminate H; try done; cbn in *;
      destruct (PermitBegun context), (DispatchReceiptMatched context), (SettlementOwnerMatched context),
        (UnknownInspectionSettled context), (CompensationSettled context); try discriminate; repeat split; constructor.
  - intros [He Hev]. destruct context as [pb rm om us cs ? ?]. cbn in *.
    destruct He; cbn in *; go_decide; cbn; destruct_and?; by subst.
Qed.

(** ** What a transition keeps *)

(** The remote residual and the cleanup have a conclusion once a resolution is
    recorded, and a conclusion is final. *)
Record effect_extends (f g : EffectFactV2) : Prop := {
  ext_ID : i_ID (f_Intent g) = i_ID (f_Intent f);
  ext_digest : f_IntentDigest g = f_IntentDigest f;
  ext_revision : f_Revision f <= f_Revision g;
  ext_state : rtc main_edge (f_State f) (f_State g);
  ext_permit : f_DispatchPermitID f <> "" ->
    f_DispatchPermitID g = f_DispatchPermitID f /\ f_DispatchPermitDigest g = f_DispatchPermitDigest f;
  ext_receipt : f_DispatchReceipt f <> None -> f_DispatchReceipt g = f_DispatchReceipt f;
  ext_settlement : f_Settlement f <> None -> f_Settlement g = f_Settlement f;
  ext_compensation : f_Compensation f <> None -> f_Compensation g = f_Compensation f;
  ext_rejection : f_RejectionReason f <> "" -> f_RejectionReason g = f_RejectionReason f;
  ext_residual : f_RemoteResidual f <> RemoteResidualPending ->
    f_RemoteResidual g = f_RemoteResidual f /\ f_ResidualResolution g = f_ResidualResolution f;
  ext_cleanup : f_Cleanup f <> EffectCleanupPending ->
    f_Cleanup g = f_Cleanup f /\ f_CleanupResolution g = f_CleanupResolution f;
}.

#[export] Instance effect_extends_preorder : PreOrder effect_extends.
Proof.
  split.
  - intros f. constructor; intros; repeat split; done || lia.
  - intros f g h [] []. split; try congruence; try (by etrans).
    + intros H. destruct ext_permit0 as [E1 E2]; [done |]. rewrite <- E1, <- E2 in *. auto.
    + intros H. rewrite ext_receipt1, ext_receipt0; [done .. | by rewrite ext_receipt0].
    + intros H. rewrite ext_settlement1, ext_settlement0; [done .. | by rewrite ext_settlement0].
    + intros H. rewrite ext_compensation1, ext_compensation0; [done .. | by rewrite ext_compensation0].
    + intros H. rewrite ext_rejection1, ext_rejection0; [done .. | by rewrite ext_rejection0].
    + intros H. destruct (ext_residual0 H) as [E1 E2]. rewrite <- E1, <- E2. apply ext_residual1. by rewrite E1.
    + intros H. destruct (ext_cleanup0 H) as [E1 E2]. rewrite <- E1, <- E2. apply ext_cleanup1. by rewrite E1.
Qed.

(** The parts of a valid fact that the proofs read. *)
Record effect_valid (f : EffectFactV2) : Prop := {
  ev_intent : EffectIntentV2_Validate (f_Intent f) = Ok tt;
  ev_digest : EffectIntentV2_DigestV2 (f_Intent f) = Ok (f_IntentDigest f);
  ev_revision : f_Revision f <> 0;
  ev_residual : residual_open (f_RemoteResidual f) = is_nil (f_ResidualResolution f);
  ev_cleanup : cleanup_open (f_Cleanup f) = is_nil (f_CleanupResolution f);
  ev_evidence : state_evidence f = Ok tt;
}.

Lemma EffectFactV2_Validate_inv f : EffectFactV2_Validate f = Ok tt -> effect_valid f.
Proof.
  unfold EffectFactV2_Validate. intros H. apply seq_Ok in H as [Hi H].
  apply bind_Ok in H as (d & Hd & H). apply seq_guard_Ok in H as [Hg H].
  apply seq_Ok in H as [_ H]. do 5 apply seq_Ok in H as [_ H].
  apply seq_guard_Ok in H as [Hr H]. apply seq_guard_Ok in H as [Hc H].
  rewrite !orb_false_iff, negb_false_iff, bool_decide_eq_true, N.eqb_neq in Hg. destruct_and? Hg. subst d.
  apply negb_false_iff, Bool.eqb_prop in Hr, Hc. by split.
Qed.

(** ** The specification of a transition *)

Definition residual_step (current next : EffectFactV2) (context : EffectTransitionContextV2) : Prop :=
  (f_RemoteResidual next = f_RemoteResidual current /\ f_ResidualResolution next = f_ResidualResolution current)
  \/ (f_RemoteResidual current = RemoteResidualPending
      /\ residual_open (f_RemoteResidual next) = false /\ ResidualInspectSettled context = true).

Definition cleanup_step (current next : EffectFactV2) (context : EffectTransitionContextV2) : Prop :=
  (f_Cleanup next = f_Cleanup current /\ f_CleanupResolution next = f_CleanupResolution current)
  \/ (f_Cleanup current = EffectCleanupPending
      /\ cleanup_open (f_Cleanup next) = false /\ CleanupEffectSettled context = true).

(** The states in which the closure dimensions may advance alone. *)
Definition after_dispatch (s : EffectFactStateV2) : Prop :=
  s = EffectDispatched \/ s = EffectUnknownOutcome \/ s = EffectSettled \/ s = EffectCompensated.

Definition main_step (current next : EffectFactV2) (context : EffectTransitionContextV2) : Prop :=
  (main_edge (f_State current) (f_State next) /\ edge_evidence context (f_State current) (f_State next))
  \/ (f_State next = f_State current /\ after_dispatch (f_State current)
      /\ ~ (f_RemoteResidual current = f_RemoteResidual next /\ f_Cleanup current = f_Cleanup next)).

Record effect_transition (current next : EffectFactV2) (context : EffectTransitionContextV2) (now : Time) : Prop := {
  tr_current : EffectFactV2_Validate current = Ok tt;
  tr_next : EffectFactV2_Validate next = Ok tt;
  tr_clock : IsZero now = false /\ (f_UpdatedUnixNano current <= UnixNano now)%Z;
  tr_ID : i_ID (f_Intent next) = i_ID (f_Intent current);
  tr_digest : f_IntentDigest next = f_IntentDigest current;
  tr_revision : f_Revision next = u64_succ (f_Revision current);
  tr_updated : f_UpdatedUnixNano next = UnixNano now;
  tr_permit : f_DispatchPermitID current <> "" ->
    f_DispatchPermitID next = f_DispatchPermitID current /\ f_DispatchPermitDigest next = f_DispatchPermitDigest current;
  tr_receipt : f_DispatchReceipt current <> None -> f_DispatchReceipt next = f_DispatchReceipt current;
  tr_settlement : f_Settlement current <> None -> f_Settlement next = f_Settlement current;
  tr_compensation : f_Compensation current <> None -> f_Compensation next = f_Compensation current;
  tr_rejection : f_RejectionReason current <> "" -> f_RejectionReason next = f_RejectionReason current;
  tr_residual : residual_step current next context;
  tr_cleanup : cleanup_step current next context;
  tr_main : main_step current next context;
}.

Lemma valid_state f : EffectFactV2_Validate f = Ok tt ->
  validEffectFactStateV2 (f_State f) = true /\ validRemoteResidualStateV2 (f_RemoteResidual f) = true
  /\ validEffectCleanupStateV2 (f_Cleanup f) = true.
Proof.
  unfold EffectFactV2_Validate. intros H. apply seq_Ok in H as [_ H].
  apply bind_Ok in H as (d & _ & H). apply seq_guard_Ok in H as [Hg _].
  rewrite !orb_false_iff, !negb_false_iff in Hg. tauto.
Qed.

Lemma changed_None {A} `{EqDecision A} (current next : option A) :
  changed current next = false <-> (current <> None -> next = current).
Proof.
  unfold changed. destruct current; cbn; [| done]. rewrite negb_false_iff, bool_decide_eq_true.
  split; [by intros -> | intros H; symmetry; by apply H].
Qed.

(** One dimension of the closure: kept with its resolution, or moved with a
    resolution that was not there. *)
Lemma closure_dimension {D R} `{EqDecision D, EqDecision R} (current next : D) (rc rn : option R)
    (valid settled : bool) c r c' r' :
  (if negb (bool_decide (current = next))
   then guard (negb valid || negb settled || negb (is_nil rc) || is_nil rn) c r
   else guard (negb (bool_decide (rc = rn))) c' r') = Ok tt
  <-> (current = next /\ rc = rn)
      \/ (current <> next /\ valid = true /\ settled = true /\ rc = None /\ is_nil rn = false).
Proof.
  destruct (decide (current = next)) as [E | E].
  - rewrite bool_decide_eq_true_2 by done. cbn [negb]. rewrite guard_Ok, negb_false_iff, bool_decide_eq_true. tauto.
  - rewrite bool_decide_eq_false_2 by done. cbn [negb].
    rewrite guard_Ok, !orb_false_iff, !negb_false_iff. destruct rc; cbn; intuition congruence.
Qed.

Lemma closure_iff current next context :
  EffectFactV2_Validate current = Ok tt -> EffectFactV2_Validate next = Ok tt ->
  validateClosureTransitionV2 current next context = Ok tt
  <-> residual_step current next context /\ cleanup_step current next context.
Proof.
  intros Vc Vn. pose proof (valid_state _ Vn) as (_ & Sr & Sc).
  apply EffectFactV2_Validate_inv in Vc as [_ _ _ Er Ec _], Vn as [_ _ _ Er' Ec' _].
  unfold validateClosureTransitionV2, residual_step, cleanup_step.
  rewrite !seq_guard_Ok, seq_Ok, !closure_dimension, !changed_None.
  unfold residual_open, cleanup_open in *. split.
  - intros (_ & _ & Hr & Hc). split.
    + destruct Hr as [[-> ->] | (_ & Hm & -> & Hn & Hn')]; [by left |]. right. rewrite Hn in Er.
      destruct (f_RemoteResidual current), (f_RemoteResidual next); done.
    + destruct Hc as [[-> ->] | (_ & Hm & -> & Hn & Hn')]; [by left |]. right.
      destruct (f_Cleanup current), (f_Cleanup next); done.
  - intros [Hr Hc].
    assert (forall A (o : option A), true = is_nil o -> o = None) as Hnil by (by intros A []).
    split; [| split; [| split]].
    + destruct Hr as [[_ ->] | (Hr & _)]; [done |]. rewrite Hr in Er. by rewrite (Hnil _ _ Er).
    + destruct Hc as [[_ ->] | (Hc & _)]; [done |]. rewrite Hc in Ec. by rewrite (Hnil _ _ Ec).
    + destruct Hr as [[-> ->] | (Hr & Hn & ->)]; [by left | right]. rewrite Hr in *. rewrite (Hnil _ _ Er), <- Er', Hn.
      by destruct (f_RemoteResidual next).
    + destruct Hc as [[-> ->] | (Hc & Hn & ->)]; [by left | right]. rewrite Hc in *. rewrite (Hnil _ _ Ec), <- Ec', Hn.
      by destruct (f_Cleanup next).
Qed.

(** A same-state swap is refused unless a closure dimension advances. *)
Lemma main_iff current next context :
  validEffectFactStateV2 (f_State current) = true ->
  (if bool_decide (f_State current = f_State next) then
     guard (bool_decide (f_State current = EffectProposed) || bool_decide (f_State current = EffectAccepted)
            || bool_decide (f_State current = EffectDispatchIntent)
            || bool_decide (f_State current = EffectRejected)
            || (bool_decide (f_RemoteResidual current = f_RemoteResidual next)
                && bool_decide (f_Cleanup current = f_Cleanup next)))
       ErrorPreconditionFailed ReasonInvalidTransition
   else main_transition (f_State current) (f_State next) context) = Ok tt
  <-> main_step current next context.
Proof.
  intros Hvs. unfold main_step. destruct (decide (f_State current = f_State next)) as [E | E].
  - rewrite bool_decide_eq_true_2 by done. rewrite guard_Ok, !orb_false_iff, andb_false_iff, !bool_decide_eq_false.
    unfold after_dispatch. split.
    + intros [[[[H1 H2] H3] H4] H5]. right. split; [done |]. split; [| tauto].
      destruct (f_State current); try done; tauto.
    + intros [[He _] | (_ & Ha & Hn)]; [rewrite E in He; by inversion He |].
      destruct (decide (f_RemoteResidual current = f_RemoteResidual next)),
        (decide (f_Cleanup current = f_Cleanup next)); try tauto;
        repeat split; try (by intros E'; rewrite E' in Ha; destruct_or! Ha); tauto.
  - rewrite bool_decide_eq_false_2 by done. rewrite main_transition_iff by done.
    split; [tauto |]. intros [? | (E' & _)]; [done | congruence].
Qed.

Lemma effect_transition_iff (current next : EffectFactV2) (context : EffectTransitionContextV2)
    (now : Time) :
  ValidateEffectFactTransitionV2 current next context now = Ok tt <-> effect_transition current next context now.
Proof.
  unfold ValidateEffectFactTransitionV2. rewrite !seq_Ok, !guard_Ok. split.
  - intros (Vc & Vn & H1 & H2 & H3 & H4 & H5 & H6 & H7).
    pose proof (valid_state _ Vc) as (Hs & _). apply closure_iff in H6 as [Hr Hc]; [| done ..].
    apply main_iff in H7; [| done].
    rewrite !orb_false_iff, !changed_None in *. rewrite !andb_false_iff, !negb_false_iff in *. unfold empty in *.
    rewrite ?orb_false_iff, ?negb_false_iff, ?bool_decide_eq_true in *. go_bool.
    destruct_and?. split; try done; try tauto; intros; destruct_or?; destruct_and?; congruence || tauto.
  - intros []. pose proof (valid_state _ tr_current0) as (Hs & _).
    rewrite closure_iff, main_iff by done.
    rewrite !orb_false_iff, !changed_None, !andb_false_iff, !orb_false_iff, !negb_false_iff.
    unfold empty. rewrite !bool_decide_eq_true. go_bool. destruct tr_clock0.
    repeat split; try done; try congruence.
    + destruct (decide (f_DispatchPermitID current = "")); [by left | right; tauto].
    + destruct (decide (f_RejectionReason current = "")); [by left | right; symmetry; tauto].
Qed.

(** ValidateEffectFactTransitionV2 accepts exactly the specified moves: both
    facts are valid, time does not run backwards, identity and digest stay, the
    revision advances by one, recorded evidence is kept, each closure dimension
    stays or leaves pending for a conclusion that an independently settled
    effect supports, and the main state follows an edge whose evidence is at
    hand, or stays after dispatch while a closure dimension advances. *)
Theorem ValidateEffectFactTransitionV2_iff (current next : EffectFactV2) (context : EffectTransitionContextV2)
    (now : Time) :
  ValidateEffectFactTransitionV2 current next context now = Ok tt <-> effect_transition current next context now.
Proof. exact (effect_transition_iff current next context now). Qed.

(** ** Consequences *)

Lemma u64_succ_le n : is_u64 n -> u64_succ n <> 0 -> n <= u64_succ n.
Proof. intros. rewrite u64_succ_nonzero by done. lia. Qed.

Lemma transition_extends current next context now :
  is_u64 (f_Revision current) -> effect_transition current next context now -> effect_extends current next.
Proof.
  intros Hu []. pose proof (EffectFactV2_Validate_inv _ tr_next0) as [_ _ Hrev _ _ _].
  split; try done.
  - rewrite tr_revision0 in *. by apply u64_succ_le.
  - destruct tr_main0 as [[He _] | [-> _]]; [by apply rtc_once | reflexivity].
  - intros H. destruct tr_residual0 as [? | (? & _)]; done.
  - intros H. destruct tr_cleanup0 as [? | (? & _)]; done.
Qed.

(** The domain of an effect that has released it stays released. *)
Lemma transition_released current next context now :
  effect_transition current next context now ->
  ConflictDomainOccupied current = false -> ConflictDomainOccupied next = false.
Proof.
  intros [] H. unfold ConflictDomainOccupied in *.
  destruct (decide (f_State current = EffectRejected)) as [E | E].
  { destruct tr_main0 as [[He _] | [E' _]]; [rewrite E in He; by inversion He |].
    by rewrite E', E. }
  rewrite bool_decide_eq_false_2 in H by done.
  destruct (negb (bool_decide (f_State current = EffectSettled)) && _) eqn:Hsc; [done |].
  rewrite orb_false_iff, !negb_false_iff, !orb_true_iff, !bool_decide_eq_true in H. destruct H as [Hr Hc].
  rewrite andb_false_iff, !negb_false_iff, !bool_decide_eq_true in Hsc.
  assert (f_RemoteResidual next = f_RemoteResidual current) as ->.
  { destruct tr_residual0 as [[-> _] | (Hp & _)]; [done | destruct Hr; congruence]. }
  assert (f_Cleanup next = f_Cleanup current) as ->.
  { destruct tr_cleanup0 as [[-> _] | (Hp & _)]; [done | destruct Hc; congruence]. }
  assert (f_State next = EffectSettled \/ f_State next = EffectCompensated) as Hn.
  { destruct tr_main0 as [[He _] | [-> _]]; [| done]. destruct Hsc as [E' | E']; rewrite E' in He; inversion He; auto. }
  assert (f_State next <> EffectRejected) by (destruct Hn; congruence).
  rewrite bool_decide_eq_false_2 by done.
  assert (negb (bool_decide (f_State next = EffectSettled)) && negb (bool_decide (f_State next = EffectCompensated)) = false) as ->.
  { rewrite andb_false_iff, !negb_false_iff, !bool_decide_eq_true. done. }
  rewrite orb_false_iff, !negb_false_iff, !orb_true_iff, !bool_decide_eq_true. done.
Qed.

(** A closure conclusion that does not release the domain never will: a residual
    that is present or unknown, a cleanup that failed or is indeterminate. *)
Definition closure_stuck (f : EffectFactV2) : bool :=
  match f_RemoteResidual f with RemoteResidualPresent | RemoteResidualUnknown => true | _ => false end
  || match f_Cleanup f with EffectCleanupFailed | EffectCleanupIndeterminate => true | _ => false end.

Lemma extends_stuck f g : effect_extends f g -> closure_stuck f = true -> closure_stuck g = true.
Proof.
  intros [] H. unfold closure_stuck in *. apply orb_true_iff in H as [H | H]; apply orb_true_iff.
  - left. destruct ext_residual0 as [-> _]; [| done]. by destruct (f_RemoteResidual f).
  - right. destruct ext_cleanup0 as [-> _]; [| done]. by destruct (f_Cleanup f).
Qed.

Lemma stuck_occupied f : closure_stuck f = true -> f_State f <> EffectRejected -> ConflictDomainOccupied f = true.
Proof.
  unfold closure_stuck, ConflictDomainOccupied. intros H Hn. rewrite bool_decide_eq_false_2 by done.
  destruct (_ && _); [done |]. apply orb_true_iff in H as [H | H].
  - by destruct (f_RemoteResidual f).
  - destruct (f_Cleanup f); try done; apply orb_true_r.
Qed.

(** ** Permit facts *)

Section permits.
Context `{ZoneDatabase}.

(** What holds of two successive values of one permit's fact. *)
Record permit_extends (p q : DispatchPermitFactV2) : Prop := {
  px_permit : pf_Permit q = pf_Permit p;
  px_digest : pf_PermitDigest q = pf_PermitDigest p;
  px_fence : pf_Fence q = pf_Fence p;
  px_effect : pf_EffectFactRevision q = pf_EffectFactRevision p;
  px_revision : pf_Revision p <= pf_Revision q;
  px_begun : pf_State p = DispatchPermitBegun ->
    pf_State q = DispatchPermitBegun /\ pf_BegunUnixNano q = pf_BegunUnixNano p;
  px_enforced : pf_State p = DispatchPermitBegun -> pf_Enforcement p <> None -> q = p;
  px_final : pf_State p <> DispatchPermitIssued -> pf_State p <> DispatchPermitBegun -> q = p;
}.

#[export] Instance permit_extends_preorder : PreOrder permit_extends.
Proof.
  split.
  - intros p. constructor; intros; repeat split; done || lia.
  - intros p q r [] []. constructor; try congruence; try lia.
    + intros E. destruct (px_begun0 E) as [E1 E2]. destruct (px_begun1 E1) as [-> ->]. done.
    + intros E En. pose proof (px_enforced0 E En). subst q. auto.
    + intros E En. pose proof (px_final0 E En). subst q. auto.
Qed.

(** The moves of a permit: it begins before it expires, or expires, or is
    revoked; a begun permit records one enforcement receipt. *)
Inductive permit_move (p q : DispatchPermitFactV2) (now : Time) : Prop :=
| move_begin :
    pf_State p = DispatchPermitIssued -> pf_State q = DispatchPermitBegun ->
    Before now (UnixTime (p_ExpiresUnixNano (pf_Permit p))) = true -> pf_BegunUnixNano q = UnixNano now ->
    permit_move p q now
| move_expire :
    pf_State p = DispatchPermitIssued -> pf_State q = DispatchPermitExpired ->
    Before now (UnixTime (p_ExpiresUnixNano (pf_Permit p))) = false -> permit_move p q now
| move_revoke :
    pf_State p = DispatchPermitIssued -> pf_State q = DispatchPermitRevoked -> permit_move p q now
| move_enforce e :
    pf_State p = DispatchPermitBegun -> pf_State q = DispatchPermitBegun ->
    pf_Enforcement p = None -> pf_Enforcement q = Some e -> pf_BegunUnixNano q = pf_BegunUnixNano p ->
    (pf_BegunUnixNano p <= er2_ValidatedAt e <= UnixNano now)%Z -> permit_move p q now.

Record permit_transition (p q : DispatchPermitFactV2) (now : Time) : Prop := {
  pt_current : DispatchPermitFactV2_Validate p = Ok tt;
  pt_next : DispatchPermitFactV2_Validate q = Ok tt;
  pt_permit : pf_Permit q = pf_Permit p;
  pt_digest : pf_PermitDigest q = pf_PermitDigest p;
  pt_fence : pf_Fence q = pf_Fence p;
  pt_effect : pf_EffectFactRevision q = pf_EffectFactRevision p;
  pt_revision : pf_Revision q = u64_succ (pf_Revision p);
  pt_clock : IsZero now = false /\ (p_IssuedUnixNano (pf_Permit p) <= UnixNano now)%Z;
  pt_move : permit_move p q now;
}.

Lemma permit_move_iff p q now :
  (if bool_decide (pf_State p = DispatchPermitBegun) && bool_decide (pf_State q = DispatchPermitBegun) then
     guard (negb (is_nil (pf_Enforcement p))) ErrorConflict ReasonEvidenceConflict ;;
     guard (receipt_unusable p q now) ErrorPreconditionFailed ReasonDispatchPermitInvalid
   else
     guard (negb (bool_decide (pf_State p = DispatchPermitIssued))) ErrorConflict ReasonDispatchPermitConsumed ;;
     match pf_State q with
     | DispatchPermitBegun =>
         guard (negb (Before now (UnixTime (p_ExpiresUnixNano (pf_Permit p))))
                || negb (pf_BegunUnixNano q =? UnixNano now)%Z)
           ErrorPreconditionFailed ReasonDispatchPermitExpired
     | DispatchPermitExpired =>
         guard (Before now (UnixTime (p_ExpiresUnixNano (pf_Permit p))))
           ErrorPreconditionFailed ReasonDispatchPermitExpired
     | DispatchPermitRevoked => Ok tt
     | _ => fail ErrorPreconditionFailed ReasonInvalidTransition
     end) = Ok tt <-> permit_move p q now.
Proof.
  split.
  - destruct (_ && _) eqn:Eb; intros Hm.
    + rewrite andb_true_iff, !bool_decide_eq_true in Eb. destruct Eb as [Ep Eq].
      apply seq_guard_Ok in Hm as [Hn Hu]. apply guard_Ok in Hu. unfold receipt_unusable in Hu.
      destruct (pf_Enforcement p) eqn:En; [done |]. destruct (pf_Enforcement q) as [e |] eqn:Ee; [| done].
      rewrite !orb_false_iff, negb_false_iff, Z.eqb_eq, !Z.ltb_ge in Hu. destruct_and?.
      eapply move_enforce; try done; lia.
    + apply seq_guard_Ok in Hm as [Hi Hm]. rewrite negb_false_iff, bool_decide_eq_true in Hi.
      destruct (pf_State q) eqn:Eq; try done; [| | by apply move_revoke].
      * apply guard_Ok in Hm. rewrite orb_false_iff, !negb_false_iff, Z.eqb_eq in Hm. destruct Hm. by apply move_begin.
      * apply guard_Ok in Hm. by apply move_expire.
  - intros [Ep Eq Hb Ht | Ep Eq Hb | Ep Eq | e Ep Eq En Ee Hb Hv]; rewrite Ep, Eq.
    + go_decide. rewrite Hb, Ht, Z.eqb_refl. reflexivity.
    + go_decide. cbn. by rewrite Hb.
    + go_decide. reflexivity.
    + go_decide. unfold receipt_unusable. rewrite En, Ee, Hb, Z.eqb_refl. cbn.
      destruct (Z.ltb_spec (UnixNano now) (pf_BegunUnixNano p)); [lia |].
      destruct (Z.ltb_spec (er2_ValidatedAt e) (pf_BegunUnixNano p)); [lia |].
      destruct (Z.ltb_spec (UnixNano now) (er2_ValidatedAt e)); [lia | done].
Qed.

Lemma permit_transition_iff (p q : DispatchPermitFactV2) (now : Time) :
  ValidateDispatchPermitTransitionV2 p q now = Ok tt <-> permit_transition p q now.
Proof.
  unfold ValidateDispatchPermitTransitionV2. rewrite !seq_Ok, !guard_Ok, permit_move_iff, !orb_false_iff, !negb_false_iff.
  rewrite !bool_decide_eq_true, !N.eqb_eq, Z.ltb_ge. split.
  - intros (? & ? & ((((? & ?) & ?) & ?) & ?) & ? & ?). by split.
  - intros []. destruct pt_clock0. repeat split; done || congruence.
Qed.

(** ValidateDispatchPermitTransitionV2 accepts exactly the moves of a permit:
    begin strictly before the expiry and at the clock's reading, expiry only from
    the boundary on, revocation, and one enforcement receipt whose validation
    time lies between begin and now; the permit, its digest, its fence and the
    effect revision stay, and the revision advances by one. *)
Theorem ValidateDispatchPermitTransitionV2_iff (p q : DispatchPermitFactV2) (now : Time) :
  ValidateDispatchPermitTransitionV2 p q now = Ok tt <-> permit_transition p q now.
Proof. exact (permit_transition_iff p q now). Qed.

Lemma permit_transition_extends p q now :
  is_u64 (pf_Revision p) -> permit_transition p q now -> permit_extends p q.
Proof.
  intros Hu []. assert (pf_Revision q <> 0) as Hrev.
  { unfold DispatchPermitFactV2_Validate in pt_next0. apply seq_Ok in pt_next0 as [_ Hn].
    apply bind_Ok in Hn as (d & _ & Hn). apply seq_guard_Ok in Hn as [Hn _]. rewrite !orb_false_iff, N.eqb_neq in Hn. tauto. }
  split; try done.
  - rewrite pt_revision0 in *. by apply u64_succ_le.
  - intros E. destruct pt_move0; split; congruence.
  - intros E En. destruct pt_move0; congruence.
  - intros E En. destruct pt_move0; congruence.
Qed.

End permits.
