(* ===== verification/BudgetFact.v ===== *)
(** * control/budget_fact_v2.go: budget binding facts

    The Budget owner's decision for one effect revision: a reservation with a
    limit, or the explicit statement that none is required; its digest, its
    transitions, and the check that a dispatch makes against it. *)

From S2P Require Import Prelude GoStd Errors Identity Json Canonical Payload EffectContract.
From Stdlib Require Import Ascii.

Local Open Scope N_scope.

Inductive BudgetBindingModeV2 := BudgetReserved | BudgetOperationNotRequired | BudgetModeOther (raw : string).
#[export] Instance BudgetBindingModeV2_eq_dec : EqDecision BudgetBindingModeV2.
Proof. solve_decision. Defined.
Definition BudgetBindingModeV2_string (m : BudgetBindingModeV2) : string :=
  match m with
  | BudgetReserved => "reserved" | BudgetOperationNotRequired => "operation_not_required"
  | BudgetModeOther raw => raw
  end.

Inductive BudgetFactStateV2 :=
| BudgetFactActive | BudgetFactConsumed | BudgetFactReleased | BudgetFactExpired | BudgetFactRevoked
| BudgetStateOther (raw : string).
#[export] Instance BudgetFactStateV2_eq_dec : EqDecision BudgetFactStateV2.
Proof. solve_decision. Defined.
Definition BudgetFactStateV2_string (s : BudgetFactStateV2) : string :=
  match s with
  | BudgetFactActive => "active" | BudgetFactConsumed => "consumed" | BudgetFactReleased => "released"
  | BudgetFactExpired => "expired" | BudgetFactRevoked => "revoked" | BudgetStateOther raw => raw
  end.
Definition validBudgetFactStateV2 (value : BudgetFactStateV2) : bool :=
  match value with BudgetStateOther _ => false | _ => true end.

Record BudgetBindingFactV2 := {
  b_Ref : string;
  b_IntentID : string;
  b_IntentRevision : N;
  b_Scope : ExecutionScope;
  b_Mode : BudgetBindingModeV2;
  b_PolicyDigest : Digest;
  b_PolicyDecisionRef : string;
  b_PolicyEvidenceDigest : Digest;
  b_ReservationRef : string;
  b_ReservationRevision : N;
  b_Limit : N;
  b_Consumed : N;
  b_Unit : string;
  b_State : BudgetFactStateV2;
  b_Revision : N;
  b_ExpiresUnixNano : Z;
}.
#[export] Instance BudgetBindingFactV2_eq_dec : EqDecision BudgetBindingFactV2.
Proof. solve_decision. Defined.

Definition BudgetBindingFactV2_Validate (f : BudgetBindingFactV2) : result unit :=
  guard (blank (b_Ref f) || blank (b_IntentID f) || N.eqb (b_IntentRevision f) 0 || N.eqb (b_Revision f) 0
         || (b_ExpiresUnixNano f <=? 0)%Z) ErrorInvalidArgument ReasonBudgetBindingMissing ;;
  ExecutionScope_Validate (b_Scope f) ;;
  for_each Digest_Validate [b_PolicyDigest f; b_PolicyEvidenceDigest f] ;;
  guard (blank (b_PolicyDecisionRef f)) ErrorForbidden ReasonBudgetBindingMissing ;;
  guard (negb (validBudgetFactStateV2 (b_State f))) ErrorInvalidArgument ReasonInvalidState ;;
  match b_Mode f with
  | BudgetReserved =>
      guard (blank (b_ReservationRef f) || N.eqb (b_ReservationRevision f) 0 || N.eqb (b_Limit f) 0
             || blank (b_Unit f) || (b_Limit f <? b_Consumed f))
        ErrorInvalidArgument ReasonBudgetBindingMissing
  | BudgetOperationNotRequired =>
      guard (negb (bool_decide (b_ReservationRef f = "")) || negb (N.eqb (b_ReservationRevision f) 0)
             || negb (N.eqb (b_Limit f) 0) || negb (N.eqb (b_Consumed f) 0) || negb (bool_decide (b_Unit f = "")))
        ErrorPreconditionFailed ReasonBudgetBindingMissing
  | BudgetModeOther _ => fail ErrorInvalidArgument ReasonBudgetBindingMissing
  end.

Definition BudgetBindingFactV2_json (f : BudgetBindingFactV2) : json :=
  JStruct [field "ref" (JString (b_Ref f)); field "intent_id" (JString (b_IntentID f));
           field "intent_revision" (JUint (b_IntentRevision f)); field "scope" (ExecutionScope_json (b_Scope f));
           field "mode" (JString (BudgetBindingModeV2_string (b_Mode f)));
           field "policy_digest" (JString (b_PolicyDigest f));
           field "policy_decision_ref" (JString (b_PolicyDecisionRef f));
           field "policy_evidence_digest" (JString (b_PolicyEvidenceDigest f));
           omit_string "reservation_ref" (b_ReservationRef f);
           omit_uint "reservation_revision" (b_ReservationRevision f);
           field "limit" (JUint (b_Limit f)); field "consumed" (JUint (b_Consumed f));
           omit_string "unit" (b_Unit f); field "state" (JString (BudgetFactStateV2_string (b_State f)));
           field "revision" (JUint (b_Revision f)); field "expires_unix_nano" (JNumber (b_ExpiresUnixNano f))].

Definition BudgetBindingFactV2_DigestV2 (f : BudgetBindingFactV2) : result Digest :=
  BudgetBindingFactV2_Validate f ;; effect_digest "BudgetBindingFactV2" (BudgetBindingFactV2_json f).

(** The copy with State, Revision and Consumed set to their zero values. *)
Definition budget_immutable (f : BudgetBindingFactV2) : BudgetBindingFactV2 :=
  {| b_Ref := b_Ref f; b_IntentID := b_IntentID f; b_IntentRevision := b_IntentRevision f; b_Scope := b_Scope f;
     b_Mode := b_Mode f; b_PolicyDigest := b_PolicyDigest f; b_PolicyDecisionRef := b_PolicyDecisionRef f;
     b_PolicyEvidenceDigest := b_PolicyEvidenceDigest f; b_ReservationRef := b_ReservationRef f;
     b_ReservationRevision := b_ReservationRevision f; b_Limit := b_Limit f; b_Consumed := 0;
     b_Unit := b_Unit f; b_State := BudgetStateOther ""; b_Revision := 0;
     b_ExpiresUnixNano := b_ExpiresUnixNano f |}.

Definition ValidateBudgetFactTransitionV2 (current next : BudgetBindingFactV2) (now : Time) : result unit :=
  BudgetBindingFactV2_Validate current ;;
  BudgetBindingFactV2_Validate next ;;
  guard (IsZero now) ErrorInvalidArgument ReasonInvalidReference ;;
  guard (negb (bool_decide (budget_immutable current = budget_immutable next))
         || negb (N.eqb (b_Revision next) (u64_succ (b_Revision current))))
    ErrorConflict ReasonRevisionConflict ;;
  valid ← match b_State current with
          | BudgetFactActive =>
              Ok (bool_decide (b_State next = BudgetFactConsumed) || bool_decide (b_State next = BudgetFactReleased)
                  || bool_decide (b_State next = BudgetFactExpired) || bool_decide (b_State next = BudgetFactRevoked))
          | BudgetFactConsumed => Ok (bool_decide (b_State next = BudgetFactReleased))
          | BudgetFactReleased | BudgetFactExpired | BudgetFactRevoked =>
              fail ErrorPreconditionFailed ReasonInvalidTransition
          | BudgetStateOther _ => Ok false
          end ;
  guard (negb valid) ErrorPreconditionFailed ReasonInvalidTransition ;;
  guard (bool_decide (b_State next = BudgetFactConsumed) && negb (bool_decide (b_Mode current = BudgetReserved)))
    ErrorPreconditionFailed ReasonBudgetBindingStale ;;
  guard (bool_decide (b_State next = BudgetFactExpired) && Before now (UnixTime (b_ExpiresUnixNano current)))
    ErrorPreconditionFailed ReasonBudgetBindingStale.

Definition BudgetBindingFactV2_BindingRefV2 (f : BudgetBindingFactV2) : result BudgetBindingRefV2 :=
  digest ← BudgetBindingFactV2_DigestV2 f ;
  Ok {| bb_Ref := b_Ref f; bb_Digest := digest; bb_Revision := b_Revision f; bb_PolicyDigest := b_PolicyDigest f |}.

Definition BudgetBindingFactV2_ValidateCurrent (f : BudgetBindingFactV2) (expected : BudgetBindingRefV2)
    (intent : EffectIntentV2) (now : Time) : result unit :=
  BudgetBindingFactV2_Validate f ;;
  ref ← BudgetBindingFactV2_BindingRefV2 f ;
  guard (IsZero now || negb (bool_decide (b_State f = BudgetFactActive))
         || negb (Before now (UnixTime (b_ExpiresUnixNano f))) || negb (bool_decide (ref = expected))
         || negb (bool_decide (b_IntentID f = i_ID intent)) || negb (N.eqb (b_IntentRevision f) (i_Revision intent))
         || negb (sameScope (b_Scope f) (i_Scope intent)))
    ErrorPreconditionFailed ReasonBudgetBindingStale.
