(* ===== verification/EffectStore.v ===== *)
(** * fakes/effect_store_v2.go: the fact owner of effects, permits and budgets

    The in-memory store behind EffectFactPortV2 and BudgetFactPortV2, one
    function per method.  Each method holds the mutex for its whole body, so it
    is one atomic step; the reading of the clock is an argument.  Each
    LoseNext...Reply switch makes the next successful call of its kind report an
    error after its effect.  The run-partitioned index of
    fakes/run_effect_store_v2.go is another set of maps and is not modelled. *)

From stdpp Require Import gmap strings.
From S2P Require Import Prelude GoStd Errors Identity Fence Json Canonical Payload EffectContract EffectFact BudgetFact FactStore.

Local Open Scope N_scope.

Record EffectStoreV2 := {
  es_effects : gmap string EffectFactV2;
  es_idempotency : gmap string string;
  es_conflicts : gmap string string;
  es_permits : gmap string DispatchPermitFactV2;
  es_budgets : gmap string BudgetBindingFactV2;
  es_loseIssue : bool;
  es_loseBegin : bool;
  es_loseReceipt : bool;
  es_losePermitCAS : bool;
  es_loseEffectCAS : bool;
}.

Definition NewEffectStoreV2 : EffectStoreV2 :=
  {| es_effects := ∅; es_idempotency := ∅; es_conflicts := ∅; es_permits := ∅; es_budgets := ∅;
     es_loseIssue := false; es_loseBegin := false; es_loseReceipt := false; es_losePermitCAS := false;
     es_loseEffectCAS := false |}.

Definition set_es_effects (v : gmap string EffectFactV2) (s : EffectStoreV2) : EffectStoreV2 :=
  {| es_effects := v; es_idempotency := es_idempotency s; es_conflicts := es_conflicts s; es_permits :=
     es_permits s; es_budgets := es_budgets s; es_loseIssue := es_loseIssue s; es_loseBegin := es_loseBegin s;
     es_loseReceipt := es_loseReceipt s; es_losePermitCAS := es_losePermitCAS s; es_loseEffectCAS :=
     es_loseEffectCAS s |}.
Definition set_es_idempotency (v : gmap string string) (s : EffectStoreV2) : EffectStoreV2 :=
  {| es_effects := es_effects s; es_idempotency := v; es_conflicts := es_conflicts s; es_permits := es_permits
     s; es_budgets := es_budgets s; es_loseIssue := es_loseIssue s; es_loseBegin := es_loseBegin s;
     es_loseReceipt := es_loseReceipt s; es_losePermitCAS := es_losePermitCAS s; es_loseEffectCAS :=
     es_loseEffectCAS s |}.
Definition set_es_conflicts (v : gmap string string) (s : EffectStoreV2) : EffectStoreV2 :=
  {| es_effects := es_effects s; es_idempotency := es_idempotency s; es_conflicts := v; es_permits :=
     es_permits s; es_budgets := es_budgets s; es_loseIssue := es_loseIssue s; es_loseBegin := es_loseBegin s;
     es_loseReceipt := es_loseReceipt s; es_losePermitCAS := es_losePermitCAS s; es_loseEffectCAS :=
     es_loseEffectCAS s |}.
Definition set_es_permits (v : gmap string DispatchPermitFactV2) (s : EffectStoreV2) : EffectStoreV2 :=
  {| es_effects := es_effects s; es_idempotency := es_idempotency s; es_conflicts := es_conflicts s;
     es_permits := v; es_budgets := es_budgets s; es_loseIssue := es_loseIssue s; es_loseBegin := es_loseBegin
     s; es_loseReceipt := es_loseReceipt s; es_losePermitCAS := es_losePermitCAS s; es_loseEffectCAS :=
     es_loseEffectCAS s |}.
Definition set_es_budgets (v : gmap string BudgetBindingFactV2) (s : EffectStoreV2) : EffectStoreV2 :=
  {| es_effects := es_effects s; es_idempotency := es_idempotency s; es_conflicts := es_conflicts s;
     es_permits := es_permits s; es_budgets := v; es_loseIssue := es_loseIssue s; es_loseBegin := es_loseBegin
     s; es_loseReceipt := es_loseReceipt s; es_losePermitCAS := es_losePermitCAS s; es_loseEffectCAS :=
     es_loseEffectCAS s |}.
Definition set_es_loseIssue (v : bool) (s : EffectStoreV2) : EffectStoreV2 :=
  {| es_effects := es_effects s; es_idempotency := es_idempotency s; es_conflicts := es_conflicts s;
     es_permits := es_permits s; es_budgets := es_budgets s; es_loseIssue := v; es_loseBegin := es_loseBegin
     s; es_loseReceipt := es_loseReceipt s; es_losePermitCAS := es_losePermitCAS s; es_loseEffectCAS :=
     es_loseEffectCAS s |}.
Definition set_es_loseBegin (v : bool) (s : EffectStoreV2) : EffectStoreV2 :=
  {| es_effects := es_effects s; es_idempotency := es_idempotency s; es_conflicts := es_conflicts s;
     es_permits := es_permits s; es_budgets := es_budgets s; es_loseIssue := es_loseIssue s; es_loseBegin :=
     v; es_loseReceipt := es_loseReceipt s; es_losePermitCAS := es_losePermitCAS s; es_loseEffectCAS :=
     es_loseEffectCAS s |}.
Definition set_es_loseReceipt (v : bool) (s : EffectStoreV2) : EffectStoreV2 :=
  {| es_effects := es_effects s; es_idempotency := es_idempotency s; es_conflicts := es_conflicts s;
     es_permits := es_permits s; es_budgets := es_budgets s; es_loseIssue := es_loseIssue s; es_loseBegin :=
     es_loseBegin s; es_loseReceipt := v; es_losePermitCAS := es_losePermitCAS s; es_loseEffectCAS :=
     es_loseEffectCAS s |}.
Definition set_es_losePermitCAS (v : bool) (s : EffectStoreV2) : EffectStoreV2 :=
  {| es_effects := es_effects s; es_idempotency := es_idempotency s; es_conflicts := es_conflicts s;
     es_permits := es_permits s; es_budgets := es_budgets s; es_loseIssue := es_loseIssue s; es_loseBegin :=
     es_loseBegin s; es_loseReceipt := es_loseReceipt s; es_losePermitCAS := v; es_loseEffectCAS :=
     es_loseEffectCAS s |}.
Definition set_es_loseEffectCAS (v : bool) (s : EffectStoreV2) : EffectStoreV2 :=
  {| es_effects := es_effects s; es_idempotency := es_idempotency s; es_conflicts := es_conflicts s;
     es_permits := es_permits s; es_budgets := es_budgets s; es_loseIssue := es_loseIssue s; es_loseBegin :=
     es_loseBegin s; es_loseReceipt := es_loseReceipt s; es_losePermitCAS := es_losePermitCAS s;
     es_loseEffectCAS := v |}.

(** Methods run in the state monad over the store. *)
Abbreviation EM := (ST EffectStoreV2 error).

Definition LoseNextIssueReply : EM unit := st_modify (set_es_loseIssue true).
Definition LoseNextBeginReply : EM unit := st_modify (set_es_loseBegin true).
Definition LoseNextReceiptReply : EM unit := st_modify (set_es_loseReceipt true).
Definition LoseNextPermitCASReply : EM unit := st_modify (set_es_losePermitCAS true).
Definition LoseNextEffectCASReply : EM unit := st_modify (set_es_loseEffectCAS true).

(** `if s.loseNextX { s.loseNextX = false; return ErrorUnavailable }` *)
Definition lose_reply (flag : EffectStoreV2 -> bool) (clear : EffectStoreV2 -> EffectStoreV2) : EM unit :=
  s ← st_get ;
  if flag s then st_modify clear ;; st_err ErrorUnavailable ReasonEvidenceUnavailable else mret tt.

(** ** Keys and copies *)

(** fmt.Sprintf("%s|%s|%s", ...) *)
Definition key3 (a b c : string) : string := a +:+ "|" +:+ b +:+ "|" +:+ c.

Definition effectIdempotencyKeyV2 (fact : EffectFactV2) : string :=
  let i := i_Idempotency (f_Intent fact) in
  key3 (EffectStableScopeClassV2_string (ib_ScopeClass i)) (ib_ScopeDigest i) (ib_Key i).

Definition effectConflictKeyV2 (binding : ConflictDomainBindingV2) : string :=
  key3 (EffectStableScopeClassV2_string (cdb_ScopeClass binding)) (cdb_ScopeDigest binding) (cdb_Domain binding).

Definition clone_payload (p : OpaquePayloadV2) : OpaquePayloadV2 :=
  {| op_Schema := op_Schema p; op_ContentDigest := op_ContentDigest p; op_Length := op_Length p;
     op_Inline := append_nil (op_Inline p); op_Ref := op_Ref p; op_LimitPolicy := op_LimitPolicy p |}.

Definition clone_intent (i : EffectIntentV2) : EffectIntentV2 :=
  set_i_Payload (clone_payload (i_Payload i)) (set_i_CredentialLeases (append_nil (i_CredentialLeases i)) i).

Definition set_f_Intent (intent : EffectIntentV2) (f : EffectFactV2) : EffectFactV2 :=
  {| f_Intent := intent; f_IntentDigest := f_IntentDigest f; f_State := f_State f; f_Revision := f_Revision f;
     f_DispatchPermitID := f_DispatchPermitID f; f_DispatchPermitDigest := f_DispatchPermitDigest f;
     f_DispatchReceipt := f_DispatchReceipt f; f_Settlement := f_Settlement f;
     f_Compensation := f_Compensation f; f_RemoteResidual := f_RemoteResidual f;
     f_ResidualResolution := f_ResidualResolution f; f_Cleanup := f_Cleanup f;
     f_CleanupResolution := f_CleanupResolution f; f_RejectionReason := f_RejectionReason f;
     f_UpdatedUnixNano := f_UpdatedUnixNano f |}.

(** The pointers of a fact are copied by value; its slices through append. *)
Definition cloneEffectFactV2 (fact : EffectFactV2) : EffectFactV2 := set_f_Intent (clone_intent (f_Intent fact)) fact.

Definition clone_receipt (r : EnforcementReceiptV2) : EnforcementReceiptV2 :=
  {| er2_ContractVersion := er2_ContractVersion r; er2_PermitID := er2_PermitID r;
     er2_PermitRevision := er2_PermitRevision r; er2_AttemptID := er2_AttemptID r;
     er2_PermitDigest := er2_PermitDigest r; er2_Verifier := er2_Verifier r;
     er2_ValidatedAt := er2_ValidatedAt r;
     er2_Attestation := (fun x => {| gx_Key := gx_Key x; gx_Required := gx_Required x;
                                     gx_Payload := clone_payload (gx_Payload x) |}) <$> er2_Attestation r |}.

Definition set_permit_progress (state : DispatchPermitStateV2) (revision : N) (begun : Z)
    (enforcement : option EnforcementReceiptV2) (p : DispatchPermitFactV2) : DispatchPermitFactV2 :=
  {| pf_Permit := pf_Permit p; pf_PermitDigest := pf_PermitDigest p; pf_Fence := pf_Fence p; pf_State := state;
     pf_Revision := revision; pf_EffectFactRevision := pf_EffectFactRevision p; pf_BegunUnixNano := begun;
     pf_Enforcement := enforcement |}.

Definition clonePermitFactV2 (fact : DispatchPermitFactV2) : DispatchPermitFactV2 :=
  set_permit_progress (pf_State fact) (pf_Revision fact) (pf_BegunUnixNano fact)
    (clone_receipt <$> pf_Enforcement fact) fact.

(** The zero value that a Go map yields for a missing key. *)
Definition zero_digest : Digest := "".
Definition zero_intent : EffectIntentV2 :=
  {| i_ContractVersion := ""; i_ID := ""; i_Revision := 0;
     i_Scope := {| sc_Identity := {| id_TenantID := ""; id_ID := ""; id_Epoch := 0 |};
                   sc_Lineage := {| lin_ID := ""; lin_PlanDigest := "" |};
                   sc_Instance := {| inst_ID := ""; inst_Epoch := 0 |}; sc_SandboxLease := None;
                   sc_AuthorityEpoch := 0 |};
     i_RunID := ""; i_Kind := ""; i_RiskClass := ""; i_ActionScopeDigest := "";
     i_Payload := {| op_Schema := {| sr_Namespace := ""; sr_Name := ""; sr_Version := ""; sr_MediaType := "";
                                     sr_ContentDigest := "" |};
                     op_ContentDigest := ""; op_Length := 0; op_Inline := None; op_Ref := "";
                     op_LimitPolicy := {| lp_Policy := ""; lp_Digest := "" |} |};
     i_PayloadRevision := 0; i_Target := "";
     i_ConflictDomain := {| cdb_Domain := ""; cdb_ScopeClass := EffectStableScopeOther ""; cdb_ScopeDigest := "" |};
     i_Owners := [];
     i_Provider := {| pb_BindingSetID := ""; pb_BindingSetRevision := 0; pb_ComponentID := "";
                      pb_ManifestDigest := ""; pb_ArtifactDigest := ""; pb_Capability := "" |};
     i_Authority := {| ab_Ref := ""; ab_Digest := ""; ab_Revision := 0; ab_Epoch := 0 |};
     i_Review := {| rb_Ref := ""; rb_Digest := ""; rb_Revision := 0; rb_PolicyDigest := "" |};
     i_Budget := {| bb_Ref := ""; bb_Digest := ""; bb_Revision := 0; bb_PolicyDigest := "" |};
     i_Policy := {| pol_Ref := ""; pol_Digest := ""; pol_Revision := 0 |};
     i_CurrentScope := {| xs_Ref := ""; xs_Digest := ""; xs_Revision := 0 |};
     i_Idempotency := {| ib_Key := ""; ib_ScopeClass := EffectStableScopeOther ""; ib_ScopeDigest := "";
                         ib_Class := IdempotencyOther "" |};
     i_CredentialLeases := None; i_Relation := no_relation; i_MayLeaveRemoteResidual := false;
     i_RequiresCleanup := false; i_ExpiresUnixNano := 0 |}.
Definition zero_effect : EffectFactV2 :=
  {| f_Intent := zero_intent; f_IntentDigest := ""; f_State := EffectStateOther ""; f_Revision := 0;
     f_DispatchPermitID := ""; f_DispatchPermitDigest := ""; f_DispatchReceipt := None; f_Settlement := None;
     f_Compensation := None; f_RemoteResidual := RemoteResidualOther ""; f_ResidualResolution := None;
     f_Cleanup := EffectCleanupOther ""; f_CleanupResolution := None; f_RejectionReason := "";
     f_UpdatedUnixNano := 0 |}.

Definition get_effect (id : string) (effects : gmap string EffectFactV2) : EffectFactV2 :=
  default zero_effect (effects !! id).

(** ** The evidence that a transition needs, read from the other facts *)

Definition settlementOwnerMatchesBindingV2 (next : EffectFactV2) : bool :=
  match f_Settlement next with
  | None => false
  | Some settlement =>
      match list_find (fun owner => eo_Role owner = OwnerSettlement) (i_Owners (f_Intent next)) with
      | Some (_, owner) => bool_decide (owner = sf_Owner settlement)
      | None => false
      end
  end.

(** `digest, err := ...; return err == nil && digest == expected` *)
Definition settlement_digest_is (settlement : EffectSettlementFactV2) (expected : Digest) : bool :=
  match settlement_digest settlement with Ok digest => bool_decide (digest = expected) | Err _ => false end.

Definition same_tenant (f g : EffectFactV2) : bool :=
  bool_decide (id_TenantID (sc_Identity (i_Scope (f_Intent f))) = id_TenantID (sc_Identity (i_Scope (f_Intent g)))).

(** The settled effect [id] at intent revision [revision], whose settlement
    has the digest [expected]. *)
Definition settled_as (effects : gmap string EffectFactV2) (id : string) (revision : N) (expected : Digest)
    (related : EffectFactV2 -> bool) : bool :=
  match effects !! id with
  | None => false
  | Some effect =>
      if negb (N.eqb (i_Revision (f_Intent effect)) revision)
         || negb (bool_decide (f_State effect = EffectSettled)) then false
      else match f_Settlement effect with
           | None => false
           | Some settlement => related effect && settlement_digest_is settlement expected
           end
  end.

Definition relates_to (id : EffectRelationV2 -> string) (revision : EffectRelationV2 -> N)
    (next effect : EffectFactV2) : bool :=
  bool_decide (id (i_Relation (f_Intent effect)) = i_ID (f_Intent next))
  && N.eqb (revision (i_Relation (f_Intent effect))) (i_Revision (f_Intent next)).

Definition compensationSettledV2 (effects : gmap string EffectFactV2) (next : EffectFactV2) : bool :=
  match f_Compensation next with
  | None => false
  | Some c =>
      settled_as effects (cc_EffectID c) (cc_EffectRevision c) (cc_SettlementDigest c)
        (fun effect => relates_to er_CompensatesEffectID er_CompensatesEffectRevision next effect
                       && same_tenant effect next)
  end.

Definition unknownInspectionSettledV2 (effects : gmap string EffectFactV2) (next : EffectFactV2) : bool :=
  match f_Settlement next with
  | None => false
  | Some s =>
      if empty (sf_InspectionIntentID s) || N.eqb (sf_InspectionIntentRevision s) 0 then false
      else settled_as effects (sf_InspectionIntentID s) (sf_InspectionIntentRevision s)
             (sf_InspectionSettlementDigest s)
             (fun effect => relates_to er_InspectsEffectID er_InspectsEffectRevision next effect
                            && same_tenant effect next)
  end.

Definition resolutionSettledV2 (effects : gmap string EffectFactV2) (next : EffectFactV2) (inspection : bool) : bool :=
  match (if inspection then f_ResidualResolution next else f_CleanupResolution next) with
  | None => false
  | Some r =>
      settled_as effects (rc_EffectID r) (rc_EffectRevision r) (rc_SettlementDigest r)
        (if inspection then relates_to er_InspectsEffectID er_InspectsEffectRevision next
         else relates_to er_CleansUpEffectID er_CleansUpEffectRevision next)
  end.

Definition providerReceiptMatchesPermitV2 (next : EffectFactV2) (permit : DispatchPermitFactV2) (now : Time) : bool :=
  match f_DispatchReceipt next, pf_Enforcement permit with
  | Some receipt, Some enforcement =>
      let p := pf_Permit permit in
      bool_decide (pf_State permit = DispatchPermitBegun)
      && bool_decide (er2_PermitID enforcement = p_ID p)
      && N.eqb (er2_PermitRevision enforcement) (p_Revision p)
      && bool_decide (er2_AttemptID enforcement = p_AttemptID p)
      && bool_decide (er2_PermitDigest enforcement = pf_PermitDigest permit)
      && bool_decide (dr_PermitID receipt = p_ID p)
      && bool_decide (dr_PermitDigest receipt = pf_PermitDigest permit)
      && bool_decide (dr_AttemptID receipt = p_AttemptID p)
      && bool_decide (dr_IntentID receipt = p_IntentID p)
      && N.eqb (dr_IntentRevision receipt) (p_IntentRevision p)
      && bool_decide (dr_Provider receipt = p_Provider p)
      && (pf_BegunUnixNano permit <=? dr_ObservedUnixNano receipt)%Z
      && (er2_ValidatedAt enforcement <=? dr_ObservedUnixNano receipt)%Z
      && (dr_ObservedUnixNano receipt <=? UnixNano now)%Z
  | _, _ => false
  end.

Definition transition_context (s : EffectStoreV2) (current next : EffectFactV2) (now : Time)
  : EffectTransitionContextV2 :=
  let permit := if empty (f_DispatchPermitID current) then None
                else es_permits s !! f_DispatchPermitID current in
  {| PermitBegun := match permit with
                    | Some p => bool_decide (pf_State p = DispatchPermitBegun)
                    | None => false
                    end;
     DispatchReceiptMatched := match permit with
                               | Some p => providerReceiptMatchesPermitV2 next p now
                               | None => false
                               end;
     SettlementOwnerMatched := settlementOwnerMatchesBindingV2 next;
     UnknownInspectionSettled := unknownInspectionSettledV2 (es_effects s) next;
     CompensationSettled := compensationSettledV2 (es_effects s) next;
     ResidualInspectSettled := resolutionSettledV2 (es_effects s) next true;
     CleanupEffectSettled := resolutionSettledV2 (es_effects s) next false |}.

Definition empty_context : EffectTransitionContextV2 :=
  {| PermitBegun := false; DispatchReceiptMatched := false; SettlementOwnerMatched := false;
     UnknownInspectionSettled := false; CompensationSettled := false; ResidualInspectSettled := false;
     CleanupEffectSettled := false |}.

Definition sameAuthoritativeSettlementV2 (current proposed : EffectFactV2) : bool :=
  bool_decide (i_ID (f_Intent current) = i_ID (f_Intent proposed)) && bool_decide (current = proposed).

(** ** Effects *)

Definition put_effect (f : EffectFactV2) : EM unit :=
  st_modify (fun s => set_es_effects (<[i_ID (f_Intent f) := f]> (es_effects s)) s).
Definition put_conflict (key id : string) : EM unit :=
  st_modify (fun s => set_es_conflicts (<[key := id]> (es_conflicts s)) s).
Definition put_permit (id : string) (p : DispatchPermitFactV2) : EM unit :=
  st_modify (fun s => set_es_permits (<[id := p]> (es_permits s)) s).

(** The answer to a create that finds a fact: the fact when it has the digest
    of the request, a conflict otherwise. *)
Definition replay_created (existing fact : EffectFactV2) : EM EffectFactV2 :=
  if bool_decide (f_IntentDigest existing = f_IntentDigest fact)
  then mret (cloneEffectFactV2 existing)
  else st_err ErrorConflict ReasonIdempotencyPayloadMismatch.

Definition CreateEffect (ctx : Context) (fact : EffectFactV2) : EM EffectFactV2 :=
  st_lift (contextError ctx) ;;
  st_lift (EffectFactV2_Validate fact) ;;
  st_guard (negb (bool_decide (f_State fact = EffectProposed)) || negb (N.eqb (f_Revision fact) 1))
    ErrorInvalidArgument ReasonEffectStateConflict ;;
  s ← st_get ;
  match es_effects s !! i_ID (f_Intent fact) with
  | Some existing => replay_created existing fact
  | None =>
      let idempotencyKey := effectIdempotencyKeyV2 fact in
      match es_idempotency s !! idempotencyKey with
      | Some existingID => replay_created (get_effect existingID (es_effects s)) fact
      | None =>
          put_effect (cloneEffectFactV2 fact) ;;
          st_modify (fun s =>
            set_es_idempotency (<[idempotencyKey := i_ID (f_Intent fact)]> (es_idempotency s)) s) ;;
          mret (cloneEffectFactV2 fact)
      end
  end.

Definition InspectEffect (ctx : Context) (id : string) : EM EffectFactV2 :=
  st_lift (contextError ctx) ;;
  s ← st_get ;
  match es_effects s !! id with
  | None => st_err ErrorNotFound ReasonEffectIntentMissing
  | Some fact => mret (cloneEffectFactV2 fact)
  end.

Definition InspectEffectByIdempotency (ctx : Context) (scopeClass : EffectStableScopeClassV2)
    (scopeDigest : Digest) (key : string) : EM EffectFactV2 :=
  st_lift (contextError ctx) ;;
  st_lift (Digest_Validate scopeDigest) ;;
  s ← st_get ;
  match es_idempotency s !! key3 (EffectStableScopeClassV2_string scopeClass) scopeDigest key with
  | None => st_err ErrorNotFound ReasonEffectIntentMissing
  | Some id => mret (cloneEffectFactV2 (get_effect id (es_effects s)))
  end.

Definition InspectConflictDomain (ctx : Context) (binding : ConflictDomainBindingV2) : EM EffectFactV2 :=
  st_lift (contextError ctx) ;;
  s ← st_get ;
  match es_conflicts s !! effectConflictKeyV2 binding with
  | None => st_err ErrorNotFound ReasonEffectIntentMissing
  | Some id =>
      match es_effects s !! id with
      | Some fact =>
          if ConflictDomainOccupied fact then mret (cloneEffectFactV2 fact)
          else st_err ErrorInternal ReasonEffectStateConflict
      | None => st_err ErrorInternal ReasonEffectStateConflict
      end
  end.

Record EffectFactCASRequestV2 := { cas_ExpectedRevision : N; cas_Next : EffectFactV2 }.

(** The conflict index on acceptance. *)
Definition occupy_conflict (current next : EffectFactV2) : EM unit :=
  if bool_decide (f_State current = EffectProposed) && bool_decide (f_State next = EffectAccepted) then
    s ← st_get ;
    let key := effectConflictKeyV2 (i_ConflictDomain (f_Intent current)) in
    let id := i_ID (f_Intent current) in
    st_guard (match es_conflicts s !! key with
              | Some occupiedID => negb (bool_decide (occupiedID = id))
              | None => false
              end) ErrorConflict ReasonEffectConflictDomainOccupied ;;
    put_conflict key id
  else mret tt.

Definition release_conflict (next : EffectFactV2) : EM unit :=
  if negb (ConflictDomainOccupied next) then
    st_modify (fun s =>
      set_es_conflicts (delete (effectConflictKeyV2 (i_ConflictDomain (f_Intent next))) (es_conflicts s)) s)
  else mret tt.

Definition CompareAndSwapEffect (ctx : Context) (now : Time) (request : EffectFactCASRequestV2)
  : EM EffectFactV2 :=
  st_lift (contextError ctx) ;;
  s ← st_get ;
  match es_effects s !! i_ID (f_Intent (cas_Next request)) with
  | None => st_err ErrorNotFound ReasonEffectIntentMissing
  | Some current =>
      if negb (N.eqb (f_Revision current) (cas_ExpectedRevision request)) then
        if sameAuthoritativeSettlementV2 current (cas_Next request) then mret (cloneEffectFactV2 current)
        else st_err ErrorConflict ReasonRevisionConflict
      else
        st_lift (ValidateEffectFactTransitionV2 current (cas_Next request)
                   (transition_context s current (cas_Next request) now) now) ;;
        occupy_conflict current (cas_Next request) ;;
        let next := cloneEffectFactV2 (cas_Next request) in
        put_effect next ;;
        release_conflict next ;;
        lose_reply es_loseEffectCAS (set_es_loseEffectCAS false) ;;
        mret (cloneEffectFactV2 next)
  end.

(** ** Permits *)

Section permits.
Context `{ZoneDatabase}.

Record IssueDispatchPermitRequestV2 := {
  iss_EffectID : string;
  iss_ExpectedEffectRevision : N;
  iss_Permit : DispatchPermitV2;
  iss_Fence : ExecutionFence;
}.

(** `digest, _ := ...`: the zero digest when it fails. *)
Definition digest_or_zero (d : result Digest) : Digest := match d with Ok digest => digest | Err _ => zero_digest end.

Definition issue_replays (existing : DispatchPermitFactV2) (request : IssueDispatchPermitRequestV2) : bool :=
  bool_decide (p_AttemptID (pf_Permit existing) = p_AttemptID (iss_Permit request))
  && bool_decide (p_IntentID (pf_Permit existing) = iss_EffectID request)
  && bool_decide (pf_PermitDigest existing = digest_or_zero (DispatchPermitV2_DigestV2 (iss_Permit request)))
  && bool_decide (p_FenceDigest (pf_Permit existing) = digest_or_zero (DigestExecutionFenceV2 (iss_Fence request)))
  && bool_decide (pf_Fence existing = iss_Fence request).

(** The accepted effect, one revision later, bound to the permit. *)
Definition authorize_effect (permitID : string) (permitDigest : Digest) (now : Time) (f : EffectFactV2)
  : EffectFactV2 :=
  {| f_Intent := f_Intent f; f_IntentDigest := f_IntentDigest f; f_State := EffectDispatchIntent;
     f_Revision := u64_succ (f_Revision f); f_DispatchPermitID := permitID;
     f_DispatchPermitDigest := permitDigest; f_DispatchReceipt := f_DispatchReceipt f;
     f_Settlement := f_Settlement f; f_Compensation := f_Compensation f;
     f_RemoteResidual := f_RemoteResidual f; f_ResidualResolution := f_ResidualResolution f;
     f_Cleanup := f_Cleanup f; f_CleanupResolution := f_CleanupResolution f;
     f_RejectionReason := f_RejectionReason f; f_UpdatedUnixNano := UnixNano now |}.

Definition issue_checks (effect : EffectFactV2) (request : IssueDispatchPermitRequestV2) (now : Time)
  : result (EffectFactV2 * DispatchPermitFactV2) :=
  let permit := iss_Permit request in
  guard (permit_drifted permit (f_Intent effect) (digest_or_zero (EffectIntentV2_DigestV2 (f_Intent effect)))
         || negb (sameScope (p_Scope permit) (i_Scope (f_Intent effect))))
    ErrorPreconditionFailed ReasonDispatchPermitInvalid ;;
  guard (IsZero now || (UnixNano now <? p_IssuedUnixNano permit)%Z
         || negb (Before now (UnixTime (p_ExpiresUnixNano permit))))
    ErrorPreconditionFailed ReasonDispatchPermitExpired ;;
  let permitDigest := digest_or_zero (DispatchPermitV2_DigestV2 permit) in
  guard (match DigestExecutionFenceV2 (iss_Fence request) with
         | Ok fenceDigest => negb (bool_decide (fenceDigest = p_FenceDigest permit))
         | Err _ => true
         end) ErrorPreconditionFailed ReasonEffectFenceStale ;;
  let nextEffect := authorize_effect (p_ID permit) permitDigest now effect in
  ValidateEffectFactTransitionV2 effect nextEffect empty_context now ;;
  let permitFact :=
    {| pf_Permit := permit; pf_PermitDigest := permitDigest; pf_Fence := iss_Fence request;
       pf_State := DispatchPermitIssued; pf_Revision := 1; pf_EffectFactRevision := f_Revision nextEffect;
       pf_BegunUnixNano := 0; pf_Enforcement := None |} in
  DispatchPermitFactV2_Validate permitFact ;;
  Ok (nextEffect, permitFact).

Definition IssueDispatchPermit (ctx : Context) (now : Time) (request : IssueDispatchPermitRequestV2)
  : EM (EffectFactV2 * DispatchPermitFactV2) :=
  st_lift (contextError ctx) ;;
  st_lift (DispatchPermitV2_Validate (iss_Permit request)) ;;
  st_lift (ExecutionFence_Validate (iss_Fence request)) ;;
  s ← st_get ;
  match es_permits s !! p_ID (iss_Permit request) with
  | Some existing =>
      if issue_replays existing request
      then mret (cloneEffectFactV2 (get_effect (iss_EffectID request) (es_effects s)), clonePermitFactV2 existing)
      else st_err ErrorConflict ReasonIdempotencyPayloadMismatch
  | None =>
      match es_effects s !! iss_EffectID request with
      | Some effect =>
          st_guard (negb (N.eqb (f_Revision effect) (iss_ExpectedEffectRevision request))
                    || negb (bool_decide (f_State effect = EffectAccepted)))
            ErrorConflict ReasonRevisionConflict ;;
          r ← st_lift (issue_checks effect request now) ;
          put_effect (cloneEffectFactV2 (fst r)) ;;
          put_permit (p_ID (iss_Permit request)) (clonePermitFactV2 (snd r)) ;;
          lose_reply es_loseIssue (set_es_loseIssue false) ;;
          mret (cloneEffectFactV2 (fst r), clonePermitFactV2 (snd r))
      | None => st_err ErrorConflict ReasonRevisionConflict
      end
  end.

Definition InspectDispatchPermit (ctx : Context) (id : string) : EM DispatchPermitFactV2 :=
  st_lift (contextError ctx) ;;
  s ← st_get ;
  match es_permits s !! id with
  | None => st_err ErrorNotFound ReasonDispatchPermitInvalid
  | Some fact => mret (clonePermitFactV2 fact)
  end.

Record BeginDispatchRequestV2 := {
  bg_EffectID : string;
  bg_ExpectedEffectRevision : N;
  bg_PermitID : string;
  bg_ExpectedPermitRevision : N;
}.

Definition begin_permit (now : Time) (p : DispatchPermitFactV2) : DispatchPermitFactV2 :=
  set_permit_progress DispatchPermitBegun (u64_succ (pf_Revision p)) (UnixNano now) (pf_Enforcement p) p.

Definition BeginDispatch (ctx : Context) (now : Time) (request : BeginDispatchRequestV2) : EM DispatchPermitFactV2 :=
  st_lift (contextError ctx) ;;
  s ← st_get ;
  match es_effects s !! bg_EffectID request, es_permits s !! bg_PermitID request with
  | Some effect, Some permit =>
      st_guard (negb (bool_decide (f_State effect = EffectDispatchIntent))
                || negb (N.eqb (f_Revision effect) (bg_ExpectedEffectRevision request))
                || negb (bool_decide (f_DispatchPermitID effect = bg_PermitID request))
                || negb (N.eqb (pf_Revision permit) (bg_ExpectedPermitRevision request))
                || negb (N.eqb (pf_EffectFactRevision permit) (f_Revision effect)))
        ErrorConflict ReasonRevisionConflict ;;
      let next := begin_permit now permit in
      st_lift (ValidateDispatchPermitTransitionV2 permit next now) ;;
      put_permit (p_ID (pf_Permit permit)) (clonePermitFactV2 next) ;;
      lose_reply es_loseBegin (set_es_loseBegin false) ;;
      mret (clonePermitFactV2 next)
  | _, _ => st_err ErrorConflict ReasonRevisionConflict
  end.

Record RecordEnforcementReceiptRequestV2 := {
  re_PermitID : string;
  re_ExpectedPermitRevision : N;
  re_Receipt : EnforcementReceiptV2;
}.

Definition RecordEnforcementReceipt (ctx : Context) (now : Time) (request : RecordEnforcementReceiptRequestV2)
  : EM DispatchPermitFactV2 :=
  st_lift (contextError ctx) ;;
  st_lift (EnforcementReceiptV2_Validate (re_Receipt request)) ;;
  s ← st_get ;
  match es_permits s !! re_PermitID request with
  | None => st_err ErrorNotFound ReasonDispatchPermitInvalid
  | Some current =>
      match pf_Enforcement current with
      | Some receipt =>
          if bool_decide (receipt = re_Receipt request) then mret (clonePermitFactV2 current)
          else st_err ErrorConflict ReasonEvidenceConflict
      | None =>
          st_guard (negb (N.eqb (pf_Revision current) (re_ExpectedPermitRevision request)))
            ErrorConflict ReasonRevisionConflict ;;
          let next := set_permit_progress (pf_State current) (u64_succ (pf_Revision current))
                        (pf_BegunUnixNano current) (Some (re_Receipt request)) current in
          st_lift (ValidateDispatchPermitTransitionV2 current next now) ;;
          put_permit (re_PermitID request) (clonePermitFactV2 next) ;;
          lose_reply es_loseReceipt (set_es_loseReceipt false) ;;
          mret (clonePermitFactV2 next)
      end
  end.

Record DispatchPermitFactCASRequestV2 := {
  pc_PermitID : string;
  pc_ExpectedRevision : N;
  pc_Next : DispatchPermitFactV2;
}.

Definition CompareAndSwapDispatchPermit (ctx : Context) (now : Time) (request : DispatchPermitFactCASRequestV2)
  : EM DispatchPermitFactV2 :=
  st_lift (contextError ctx) ;;
  s ← st_get ;
  match es_permits s !! pc_PermitID request with
  | None => st_err ErrorNotFound ReasonDispatchPermitInvalid
  | Some current =>
      if negb (N.eqb (pf_Revision current) (pc_ExpectedRevision request)) then
        if bool_decide (current = pc_Next request) then mret (clonePermitFactV2 current)
        else st_err ErrorConflict ReasonRevisionConflict
      else
        st_lift (ValidateDispatchPermitTransitionV2 current (pc_Next request) now) ;;
        put_permit (pc_PermitID request) (clonePermitFactV2 (pc_Next request)) ;;
        lose_reply es_losePermitCAS (set_es_losePermitCAS false) ;;
        mret (clonePermitFactV2 (pc_Next request))
  end.

End permits.

(** ** Budgets *)

Definition put_budget (b : BudgetBindingFactV2) : EM unit :=
  st_modify (fun s => set_es_budgets (<[b_Ref b := b]> (es_budgets s)) s).

Definition CreateBudgetBinding (ctx : Context) (fact : BudgetBindingFactV2) : EM BudgetBindingFactV2 :=
  st_lift (contextError ctx) ;;
  st_lift (BudgetBindingFactV2_Validate fact) ;;
  st_guard (negb (bool_decide (b_State fact = BudgetFactActive)) || negb (N.eqb (b_Revision fact) 1))
    ErrorInvalidArgument ReasonBudgetBindingMissing ;;
  s ← st_get ;
  match es_budgets s !! b_Ref fact with
  | Some existing =>
      if bool_decide (existing = fact) then mret existing else st_err ErrorConflict ReasonAlreadyExists
  | None => put_budget fact ;; mret fact
  end.

Definition InspectBudgetBinding (ctx : Context) (ref : string) : EM BudgetBindingFactV2 :=
  st_lift (contextError ctx) ;;
  s ← st_get ;
  match es_budgets s !! ref with
  | None => st_err ErrorNotFound ReasonBudgetBindingMissing
  | Some fact => mret fact
  end.

Record BudgetFactCASRequestV2 := { bc_ExpectedRevision : N; bc_Next : BudgetBindingFactV2 }.

Definition CompareAndSwapBudgetBinding (ctx : Context) (now : Time) (request : BudgetFactCASRequestV2)
  : EM BudgetBindingFactV2 :=
  st_lift (contextError ctx) ;;
  s ← st_get ;
  match es_budgets s !! b_Ref (bc_Next request) with
  | None => st_err ErrorConflict ReasonRevisionConflict
  | Some current =>
      st_guard (negb (N.eqb (b_Revision current) (bc_ExpectedRevision request)))
        ErrorConflict ReasonRevisionConflict ;;
      st_lift (ValidateBudgetFactTransitionV2 current (bc_Next request) now) ;;
      put_budget (bc_Next request) ;;
      mret (bc_Next request)
  end.
