(* ===== verification/EffectSafety.v ===== *)
(** * The effect store: histories of many callers

    The steps of the store of fakes/effect_store_v2.go are its methods, run by
    any callers in any order with any arguments, clock readings and lost
    replies.  The invariants of the reachable states, what no history can do to
    an effect or a permit, and the two places where the store does not keep what
    the index of conflict domains and the permit binding are for. *)

From stdpp Require Import gmap strings relations.
From S2P Require Import Prelude GoStd Errors Identity Fence Json Canonical Payload EffectContract EffectFact EffectFlow BudgetFact FactStore EffectStore.

Local Open Scope N_scope.

(** ** Copies

    A copy keeps every field; the only difference is an empty slice of
    credential leases, which becomes nil. *)

Lemma append_nil_items {A} (s : option (list A)) : slice_items (append_nil s) = slice_items s.
Proof. by destruct s as [[|] |]. Qed.

Lemma clone_payload_valid p : OpaquePayloadV2_Validate p = Ok tt -> clone_payload p = p.
Proof.
  intros H%valid_inline. destruct p as [? ? ? [[|] |] ? ?]; [| done ..]. by destruct H.
Qed.

Lemma clone_intent_valid i b :
  EffectIntentV2_validateV2 i b = Ok tt ->
  clone_intent i = set_i_CredentialLeases (append_nil (i_CredentialLeases i)) i.
Proof.
  intros (Hp & _)%validateV2_facts. unfold clone_intent. rewrite clone_payload_valid by done. by destruct i.
Qed.

Lemma validate_set_leases i l b :
  slice_items l = slice_items (i_CredentialLeases i) ->
  EffectIntentV2_validateV2 (set_i_CredentialLeases l i) b = EffectIntentV2_validateV2 i b.
Proof. intros H. destruct i. unfold EffectIntentV2_validateV2. cbn in *. by rewrite H. Qed.

Lemma normalize_set_leases i l :
  slice_items l = slice_items (i_CredentialLeases i) ->
  normalize_intent (set_i_CredentialLeases l i) = normalize_intent i.
Proof. intros H. destruct i. unfold normalize_intent. cbn in *. by rewrite H. Qed.

Lemma clone_intent_Validate i :
  EffectIntentV2_Validate i = Ok tt ->
  EffectIntentV2_Validate (clone_intent i) = Ok tt /\ EffectIntentV2_DigestV2 (clone_intent i) = EffectIntentV2_DigestV2 i.
Proof.
  intros H. rewrite (clone_intent_valid _ false) by done.
  pose proof (append_nil_items (i_CredentialLeases i)) as Hs.
  unfold EffectIntentV2_DigestV2, EffectIntentV2_Validate in *.
  rewrite validate_set_leases, normalize_set_leases by done. by rewrite H.
Qed.

Lemma clone_effect_Validate f : EffectFactV2_Validate f = Ok tt -> EffectFactV2_Validate (cloneEffectFactV2 f) = Ok tt.
Proof.
  intros H. pose proof H as Hv. unfold EffectFactV2_Validate in H. apply seq_Ok in H as [Hi H].
  destruct (clone_intent_Validate _ Hi) as [Hi' Hd]. revert Hv. unfold EffectFactV2_Validate.
  cbn [f_Intent f_IntentDigest f_State f_Revision f_DispatchPermitID f_DispatchPermitDigest f_DispatchReceipt
       f_Settlement f_Compensation f_RemoteResidual f_ResidualResolution f_Cleanup f_CleanupResolution
       f_UpdatedUnixNano cloneEffectFactV2 set_f_Intent].
  by rewrite Hi, Hi', Hd.
Qed.

Lemma clone_ID f : i_ID (f_Intent (cloneEffectFactV2 f)) = i_ID (f_Intent f).
Proof. by destruct f as [[]]. Qed.

Lemma clone_conflict f : i_ConflictDomain (f_Intent (cloneEffectFactV2 f)) = i_ConflictDomain (f_Intent f).
Proof. by destruct f as [[]]. Qed.

Lemma clone_occupied f : ConflictDomainOccupied (cloneEffectFactV2 f) = ConflictDomainOccupied f.
Proof. done. Qed.

Lemma clone_extends f : effect_extends f (cloneEffectFactV2 f).
Proof. split; intros; try done; try lia; try reflexivity. Qed.

Lemma clone_receipt_valid e : EnforcementReceiptV2_Validate e = Ok tt -> clone_receipt e = e.
Proof.
  unfold EnforcementReceiptV2_Validate. intros H. go_ok. destruct e as [? ? ? ? ? ? ? [x |]]; [| done].
  cbn in *. go_ok. unfold clone_receipt. cbn. rewrite clone_payload_valid by done. by destruct x.
Qed.

Ltac units := repeat match goal with u : unit |- _ => destruct u end.

Section store.
Context `{ZoneDatabase}.

(** A copy of a valid permit fact is valid, and the copy is the fact itself
    unless it carries a receipt outside the begun state. *)
Lemma clone_permit_Validate p :
  DispatchPermitFactV2_Validate p = Ok tt -> DispatchPermitFactV2_Validate (clonePermitFactV2 p) = Ok tt.
Proof.
  destruct p as [? ? ? st ? ? ? en]. destruct en as [e |]; [| done].
  unfold DispatchPermitFactV2_Validate, clonePermitFactV2, set_permit_progress, fence_unbound. cbn.
  intros Hv. destruct (decide (st = DispatchPermitBegun)) as [-> | Hst].
  - assert (clone_receipt e = e) as ->; [| done]. apply clone_receipt_valid.
    rewrite bool_decide_eq_true_2 in Hv by done. go_ok. done.
  - rewrite (bool_decide_eq_false_2 (st = DispatchPermitBegun)) in * by done. done.
Qed.

Lemma stored_permit_extends p q now :
  is_u64 (pf_Revision p) -> permit_transition p q now -> permit_extends p (clonePermitFactV2 q).
Proof.
  intros Hu Ht. pose proof (permit_transition_extends _ _ _ Hu Ht) as []. destruct Ht.
  split; try done; intros; exfalso; destruct pt_move; congruence.
Qed.

(** ** The steps *)

Inductive eff_step : EffectStoreV2 -> EffectStoreV2 -> Prop :=
| step_create ctx f s : eff_step s (fst (CreateEffect ctx f s))
| step_cas ctx now request s : eff_step s (fst (CompareAndSwapEffect ctx now request s))
| step_issue ctx now request s : eff_step s (fst (IssueDispatchPermit ctx now request s))
| step_begin ctx now request s : eff_step s (fst (BeginDispatch ctx now request s))
| step_receipt ctx now request s : eff_step s (fst (RecordEnforcementReceipt ctx now request s))
| step_permit_cas ctx now request s : eff_step s (fst (CompareAndSwapDispatchPermit ctx now request s))
| step_create_budget ctx b s : eff_step s (fst (CreateBudgetBinding ctx b s))
| step_budget_cas ctx now request s : eff_step s (fst (CompareAndSwapBudgetBinding ctx now request s))
| step_lose_issue s : eff_step s (fst (LoseNextIssueReply s))
| step_lose_begin s : eff_step s (fst (LoseNextBeginReply s))
| step_lose_receipt s : eff_step s (fst (LoseNextReceiptReply s))
| step_lose_permit s : eff_step s (fst (LoseNextPermitCASReply s))
| step_lose_effect s : eff_step s (fst (LoseNextEffectCASReply s)).

Definition eff_reaches : EffectStoreV2 -> EffectStoreV2 -> Prop := rtc eff_step.

(** The maps of a store, without the reply switches. *)
Definition same_facts (s t : EffectStoreV2) : Prop :=
  es_effects t = es_effects s /\ es_idempotency t = es_idempotency s /\ es_conflicts t = es_conflicts s
  /\ es_permits t = es_permits s /\ es_budgets t = es_budgets s.

(** What one step does to the maps: nothing, or one of these updates. *)
Inductive eff_change (s t : EffectStoreV2) : Prop :=
| change_none : same_facts s t -> eff_change s t
| change_create f :
    EffectFactV2_Validate f = Ok tt -> f_State f = EffectProposed -> f_Revision f = 1 ->
    es_effects s !! i_ID (f_Intent f) = None -> es_idempotency s !! effectIdempotencyKeyV2 f = None ->
    es_effects t = <[i_ID (f_Intent f) := cloneEffectFactV2 f]> (es_effects s) ->
    es_idempotency t = <[effectIdempotencyKeyV2 f := i_ID (f_Intent f)]> (es_idempotency s) ->
    es_conflicts t = es_conflicts s -> es_permits t = es_permits s -> es_budgets t = es_budgets s -> eff_change s t
| change_cas current next now :
    es_effects s !! i_ID (f_Intent next) = Some current ->
    effect_transition current next (transition_context s current next now) now ->
    (f_State current = EffectProposed -> f_State next = EffectAccepted ->
     forall id, es_conflicts s !! effectConflictKeyV2 (i_ConflictDomain (f_Intent current)) = Some id ->
                id = i_ID (f_Intent current)) ->
    es_effects t = <[i_ID (f_Intent next) := cloneEffectFactV2 next]> (es_effects s) ->
    es_idempotency t = es_idempotency s ->
    es_conflicts t =
      (let occupied :=
         if bool_decide (f_State current = EffectProposed) && bool_decide (f_State next = EffectAccepted)
         then <[effectConflictKeyV2 (i_ConflictDomain (f_Intent current)) := i_ID (f_Intent current)]> (es_conflicts s)
         else es_conflicts s in
       if ConflictDomainOccupied next then occupied
       else delete (effectConflictKeyV2 (i_ConflictDomain (f_Intent next))) occupied) ->
    es_permits t = es_permits s -> es_budgets t = es_budgets s -> eff_change s t
| change_issue request effect next permit now :
    es_effects s !! iss_EffectID request = Some effect -> f_State effect = EffectAccepted ->
    es_permits s !! p_ID (iss_Permit request) = None ->
    issue_checks effect request now = Ok (next, permit) ->
    es_effects t = <[i_ID (f_Intent next) := cloneEffectFactV2 next]> (es_effects s) ->
    es_idempotency t = es_idempotency s -> es_conflicts t = es_conflicts s ->
    es_permits t = <[p_ID (iss_Permit request) := clonePermitFactV2 permit]> (es_permits s) ->
    es_budgets t = es_budgets s -> eff_change s t
| change_permit id current next now :
    es_permits s !! id = Some current -> permit_transition current next now ->
    es_effects t = es_effects s -> es_idempotency t = es_idempotency s -> es_conflicts t = es_conflicts s ->
    es_permits t = <[id := clonePermitFactV2 next]> (es_permits s) ->
    es_budgets t = es_budgets s -> eff_change s t
| change_budget_create b :
    BudgetBindingFactV2_Validate b = Ok tt -> b_State b = BudgetFactActive -> b_Revision b = 1 ->
    es_budgets s !! b_Ref b = None ->
    es_effects t = es_effects s -> es_idempotency t = es_idempotency s -> es_conflicts t = es_conflicts s ->
    es_permits t = es_permits s -> es_budgets t = <[b_Ref b := b]> (es_budgets s) -> eff_change s t
| change_budget_cas current next now :
    es_budgets s !! b_Ref next = Some current -> ValidateBudgetFactTransitionV2 current next now = Ok tt ->
    es_effects t = es_effects s -> es_idempotency t = es_idempotency s -> es_conflicts t = es_conflicts s ->
    es_permits t = es_permits s -> es_budgets t = <[b_Ref next := next]> (es_budgets s) -> eff_change s t.

Ltac unchanged := apply change_none; unfold same_facts; repeat split; reflexivity.

Lemma CreateEffect_change ctx f s : eff_change s (fst (CreateEffect ctx f s)).
Proof.
  destruct (CreateEffect ctx f s) as [t r] eqn:E. unfold CreateEffect, replay_created, put_effect, st_guard, st_err in E.
  st_exec E; try unchanged. cbn. units.
  match goal with H : guard _ _ _ = Ok _ |- _ => apply guard_Ok in H; go_bool; destruct H end.
  eapply change_create; try done; reflexivity.
Qed.

(** One successful path of a compare-and-swap: the update is read off the path,
    and the conflict index off the tests along it. *)
Ltac cas_case :=
  match goal with H : ValidateEffectFactTransitionV2 _ ?n _ _ = Ok _ |- _ =>
    apply effect_transition_iff in H;
    eapply (change_cas _ _ _ n); [eassumption | exact H | | reflexivity | reflexivity | | reflexivity | reflexivity]
  end;
  [ intros Hp Ha id Hid;
    repeat match goal with H : guard _ _ _ = Ok _ |- _ => apply guard_Ok in H end;
    repeat match goal with
    | H : es_conflicts _ !! _ = _, H' : es_conflicts _ !! _ = _ |- _ => rewrite H in H'
    | H : bool_decide (_ = EffectProposed) && _ = false |- _ => rewrite Hp, Ha in H; discriminate H
    end; simplify_eq; go_bool; done
  | cbn zeta;
    repeat match goal with H : bool_decide _ && bool_decide _ = _ |- _ => rewrite H; clear H end;
    match goal with H : negb (ConflictDomainOccupied _) = _ |- _ =>
      apply (f_equal negb) in H; rewrite negb_involutive, clone_occupied in H; cbn [negb] in H; rewrite H end; reflexivity ].

Lemma CompareAndSwapEffect_change ctx now request s : eff_change s (fst (CompareAndSwapEffect ctx now request s)).
Proof.
  destruct (CompareAndSwapEffect ctx now request s) as [t r] eqn:E.
  unfold CompareAndSwapEffect, occupy_conflict, release_conflict, lose_reply, put_effect, put_conflict, st_guard, st_err in E.
  st_exec E; try unchanged; cbn [fst]; units.
  all: cas_case.
Qed.

Lemma IssueDispatchPermit_change ctx now request s : eff_change s (fst (IssueDispatchPermit ctx now request s)).
Proof.
  destruct (IssueDispatchPermit ctx now request s) as [t r] eqn:E.
  unfold IssueDispatchPermit, lose_reply, put_effect, put_permit, st_guard, st_err in E.
  st_exec E; try unchanged; cbn [fst]; units.
  all: match goal with H : guard _ _ _ = Ok _ |- _ =>
         apply guard_Ok in H; rewrite orb_false_iff, !negb_false_iff, bool_decide_eq_true in H; destruct H end.
  all: match goal with H : issue_checks _ _ _ = Ok ?r |- _ => destruct r end.
  all: eapply change_issue; try eassumption; reflexivity.
Qed.

(** The methods that move one permit. *)
Ltac permit_case :=
  match goal with H : ValidateDispatchPermitTransitionV2 _ _ _ = Ok _ |- _ => apply permit_transition_iff in H end;
  eapply change_permit; [eassumption | eassumption | reflexivity ..].

Lemma BeginDispatch_change ctx now request s :
  (forall id p, es_permits s !! id = Some p -> p_ID (pf_Permit p) = id) ->
  eff_change s (fst (BeginDispatch ctx now request s)).
Proof.
  intros Hid. destruct (BeginDispatch ctx now request s) as [t r] eqn:E.
  unfold BeginDispatch, lose_reply, put_permit, st_guard, st_err in E.
  st_exec E; try unchanged; cbn [fst]; units.
  all: match goal with Hi : forall id p, _ -> _ = id, H : es_permits _ !! _ = Some _ |- _ => pose proof (Hi _ _ H) as E end.
  all: rewrite <- E in *; permit_case.
Qed.

Lemma RecordEnforcementReceipt_change ctx now request s :
  eff_change s (fst (RecordEnforcementReceipt ctx now request s)).
Proof.
  destruct (RecordEnforcementReceipt ctx now request s) as [t r] eqn:E.
  unfold RecordEnforcementReceipt, lose_reply, put_permit, st_guard, st_err in E.
  st_exec E; try unchanged; cbn [fst]; units; permit_case.
Qed.

Lemma CompareAndSwapDispatchPermit_change ctx now request s :
  eff_change s (fst (CompareAndSwapDispatchPermit ctx now request s)).
Proof.
  destruct (CompareAndSwapDispatchPermit ctx now request s) as [t r] eqn:E.
  unfold CompareAndSwapDispatchPermit, lose_reply, put_permit, st_guard, st_err in E.
  st_exec E; try unchanged; cbn [fst]; units; permit_case.
Qed.

Lemma CreateBudgetBinding_change ctx b s : eff_change s (fst (CreateBudgetBinding ctx b s)).
Proof.
  destruct (CreateBudgetBinding ctx b s) as [t r] eqn:E.
  unfold CreateBudgetBinding, put_budget, st_guard, st_err in E. st_exec E; try unchanged; cbn [fst]; units.
  match goal with H : guard _ _ _ = Ok _ |- _ => apply guard_Ok in H; go_bool; destruct H end.
  eapply change_budget_create; try done; reflexivity.
Qed.

Lemma CompareAndSwapBudgetBinding_change ctx now request s :
  eff_change s (fst (CompareAndSwapBudgetBinding ctx now request s)).
Proof.
  destruct (CompareAndSwapBudgetBinding ctx now request s) as [t r] eqn:E.
  unfold CompareAndSwapBudgetBinding, put_budget, st_guard, st_err in E. st_exec E; try unchanged; cbn [fst]; units.
  eapply change_budget_cas; try eassumption; reflexivity.
Qed.

(** ** The invariant *)

Record store_wf (s : EffectStoreV2) : Prop := {
  wf_effect id f : es_effects s !! id = Some f ->
    i_ID (f_Intent f) = id /\ EffectFactV2_Validate f = Ok tt /\ is_u64 (f_Revision f);
  wf_permit id p : es_permits s !! id = Some p ->
    p_ID (pf_Permit p) = id /\ DispatchPermitFactV2_Validate p = Ok tt /\ is_u64 (pf_Revision p);
  wf_idempotency key id : es_idempotency s !! key = Some id -> is_Some (es_effects s !! id);
  wf_indexed id f : es_effects s !! id = Some f -> exists key, es_idempotency s !! key = Some id;
  (** Write-ahead: no outcome is recorded before the permit has begun. *)
  wf_begun id f : es_effects s !! id = Some f -> after_dispatch (f_State f) ->
    exists p, es_permits s !! f_DispatchPermitID f = Some p /\ pf_State p = DispatchPermitBegun;
}.

Lemma NewEffectStoreV2_wf : store_wf NewEffectStoreV2.
Proof. split; cbn; intros *; rewrite lookup_empty; done. Qed.

Lemma eff_step_change s t : store_wf s -> eff_step s t -> eff_change s t.
Proof.
  intros Hwf Hs. revert Hwf. destruct Hs; intros Hwf; try unchanged.
  - apply CreateEffect_change.
  - apply CompareAndSwapEffect_change.
  - apply IssueDispatchPermit_change.
  - apply BeginDispatch_change. intros id p Hp. by apply (wf_permit _ Hwf) in Hp as [? _].
  - apply RecordEnforcementReceipt_change.
  - apply CompareAndSwapDispatchPermit_change.
  - apply CreateBudgetBinding_change.
  - apply CompareAndSwapBudgetBinding_change.
Qed.

(** What a successful issue stores. *)
Lemma issue_checks_Ok effect request now next permit :
  issue_checks effect request now = Ok (next, permit) ->
  effect_transition effect next empty_context now /\ DispatchPermitFactV2_Validate permit = Ok tt
  /\ pf_Permit permit = iss_Permit request /\ pf_State permit = DispatchPermitIssued /\ pf_Revision permit = 1
  /\ f_State next = EffectDispatchIntent /\ f_DispatchPermitID next = p_ID (iss_Permit request)
  /\ i_ID (f_Intent next) = i_ID (f_Intent effect) /\ f_Intent next = f_Intent effect
  /\ permit_drifted (iss_Permit request) (f_Intent effect)
       (digest_or_zero (EffectIntentV2_DigestV2 (f_Intent effect))) = false.
Proof.
  unfold issue_checks. intros Hc. apply seq_guard_Ok in Hc as [Hd Hc]. apply seq_guard_Ok in Hc as [_ Hc].
  apply seq_guard_Ok in Hc as [_ Hc]. apply seq_Ok in Hc as [Ht Hc]. apply seq_Ok in Hc as [Hv Hc].
  injection Hc as <- <-. apply effect_transition_iff in Ht. apply orb_false_iff in Hd as [Hd _]. by repeat split; try apply Ht.
Qed.

Lemma valid_permit_ID p : DispatchPermitFactV2_Validate p = Ok tt -> p_ID (pf_Permit p) <> "".
Proof.
  intros Hv E. unfold DispatchPermitFactV2_Validate in Hv. apply seq_Ok in Hv as [Hv _].
  unfold DispatchPermitV2_Validate in Hv. apply seq_guard_Ok in Hv as [Hv _]. rewrite E in Hv.
  rewrite !orb_false_iff in Hv. destruct_and? Hv. done.
Qed.

Lemma before_dispatch_edge s t :
  main_edge s t -> after_dispatch t -> ~ after_dispatch s ->
  s = EffectDispatchIntent /\ (t = EffectDispatched \/ t = EffectUnknownOutcome).
Proof. unfold after_dispatch. intros [] Ha Hn; destruct_or? Ha; try done; try (exfalso; apply Hn; tauto); auto. Qed.

Lemma begun_context s current next now :
  PermitBegun (transition_context s current next now) = true ->
  f_DispatchPermitID current <> "" /\
  exists p, es_permits s !! f_DispatchPermitID current = Some p /\ pf_State p = DispatchPermitBegun
            /\ DispatchReceiptMatched (transition_context s current next now) = providerReceiptMatchesPermitV2 next p now.
Proof.
  unfold transition_context. cbn. unfold empty. case_bool_decide as Hn; [done |].
  destruct (es_permits s !! f_DispatchPermitID current) as [p |]; [| done].
  rewrite bool_decide_eq_true. eauto.
Qed.

(** A fact that a compare-and-swap leaves after dispatch has its begun permit. *)
Lemma cas_begun s current next now :
  (after_dispatch (f_State current) ->
     exists p, es_permits s !! f_DispatchPermitID current = Some p /\ pf_State p = DispatchPermitBegun
               /\ f_DispatchPermitID current <> "") ->
  effect_transition current next (transition_context s current next now) now ->
  after_dispatch (f_State next) ->
  exists p, es_permits s !! f_DispatchPermitID next = Some p /\ pf_State p = DispatchPermitBegun.
Proof.
  intros Hb Ht Ha. destruct (tr_main _ _ _ _ Ht) as [[He Hev] | (E & Hc & _)].
  - assert (after_dispatch (f_State current) \/ ~ after_dispatch (f_State current)) as [Hc | Hc]
      by (unfold after_dispatch; destruct (f_State current); intuition congruence).
    + destruct (Hb Hc) as (p & Hp & Hs & Hn). destruct (tr_permit _ _ _ _ Ht Hn) as [-> _]. eauto.
    + destruct (before_dispatch_edge _ _ He Ha Hc) as [Es Et]. rewrite Es in Hev.
      assert (PermitBegun (transition_context s current next now) = true) as Hbeg.
      { destruct Et as [Et | Et]; rewrite Et in Hev; cbn in Hev; [by destruct Hev | done]. }
      destruct (begun_context _ _ _ _ Hbeg) as (Hn & p & Hp & Hs & _).
      destruct (tr_permit _ _ _ _ Ht Hn) as [-> _]. eauto.
  - destruct (Hb Hc) as (p & Hp & Hs & Hn). destruct (tr_permit _ _ _ _ Ht Hn) as [-> _]. eauto.
Qed.

Lemma wf_begun_permit s id f : store_wf s -> es_effects s !! id = Some f -> after_dispatch (f_State f) ->
  exists p, es_permits s !! f_DispatchPermitID f = Some p /\ pf_State p = DispatchPermitBegun
            /\ f_DispatchPermitID f <> "".
Proof.
  intros Hwf Hf Ha. destruct (wf_begun _ Hwf _ _ Hf Ha) as (p & Hp & Hs). exists p. repeat split; try done.
  destruct (wf_permit _ Hwf _ _ Hp) as (<- & Hv & _). by apply valid_permit_ID.
Qed.

Lemma wf_create s t f :
  store_wf s -> EffectFactV2_Validate f = Ok tt -> f_State f = EffectProposed -> f_Revision f = 1 ->
  es_idempotency s !! effectIdempotencyKeyV2 f = None ->
  es_effects t = <[i_ID (f_Intent f) := cloneEffectFactV2 f]> (es_effects s) ->
  es_idempotency t = <[effectIdempotencyKeyV2 f := i_ID (f_Intent f)]> (es_idempotency s) ->
  es_permits t = es_permits s -> store_wf t.
Proof.
  intros Hwf Hv Hst Hr Hkey He Hi Hp. split; intros *; rewrite ?He, ?Hi, ?Hp; try (by apply Hwf).
  - intros [[<- <-] | [_ Hl]]%lookup_insert_Some; [| by apply Hwf in Hl].
    rewrite clone_ID. repeat split; [by apply clone_effect_Validate | cbn; by rewrite Hr].
  - intros [[<- <-] | [_ Hl]]%lookup_insert_Some; [rewrite lookup_insert_eq; eauto |].
    apply lookup_insert_is_Some'. right. by apply (wf_idempotency _ Hwf) in Hl.
  - intros [[<- <-] | [Hne Hl]]%lookup_insert_Some; [by exists (effectIdempotencyKeyV2 f); rewrite lookup_insert_eq |].
    destruct (wf_indexed _ Hwf _ _ Hl) as [key Hk0]. exists key. rewrite lookup_insert_ne; [done | congruence].
  - intros [[<- <-] | [_ Hl]]%lookup_insert_Some; [| by eapply wf_begun].
    cbn. rewrite Hst. unfold after_dispatch. intros Ha. by destruct_or? Ha.
Qed.

(** One stored effect moved to a valid fact. *)
Lemma wf_move s t current next permits :
  store_wf s -> es_effects s !! i_ID (f_Intent next) = Some current -> EffectFactV2_Validate next = Ok tt ->
  f_Revision next = u64_succ (f_Revision current) ->
  es_effects t = <[i_ID (f_Intent next) := cloneEffectFactV2 next]> (es_effects s) ->
  es_idempotency t = es_idempotency s -> es_permits t = permits ->
  (forall id p, permits !! id = Some p ->
     p_ID (pf_Permit p) = id /\ DispatchPermitFactV2_Validate p = Ok tt /\ is_u64 (pf_Revision p)) ->
  (forall id p, es_permits s !! id = Some p -> permits !! id = Some p) ->
  (after_dispatch (f_State next) ->
   exists p, permits !! f_DispatchPermitID next = Some p /\ pf_State p = DispatchPermitBegun) ->
  store_wf t.
Proof.
  intros Hwf Hc Hv Hr He Hi Hp Hpw Hkeep Hb. split; intros *; rewrite ?He, ?Hi, ?Hp; [| by apply Hpw | | |].
  - intros [[<- <-] | [_ Hl]]%lookup_insert_Some; [| by apply Hwf in Hl].
    rewrite clone_ID. repeat split; [by apply clone_effect_Validate |].
    cbn. rewrite Hr. apply u64_succ_is_u64.
  - intros Hl%(wf_idempotency _ Hwf). apply lookup_insert_is_Some'. by right.
  - intros [[<- <-] | [Hne Hl]]%lookup_insert_Some; by eapply wf_indexed.
  - intros [[<- <-] | [_ Hl]]%lookup_insert_Some; [exact Hb |].
    intros Ha. destruct (wf_begun _ Hwf _ _ Hl Ha) as (p & Hlp & Hs). eauto.
Qed.

Lemma wf_issue s t request effect next permit now :
  store_wf s -> es_effects s !! iss_EffectID request = Some effect ->
  es_permits s !! p_ID (iss_Permit request) = None -> issue_checks effect request now = Ok (next, permit) ->
  es_effects t = <[i_ID (f_Intent next) := cloneEffectFactV2 next]> (es_effects s) ->
  es_idempotency t = es_idempotency s ->
  es_permits t = <[p_ID (iss_Permit request) := clonePermitFactV2 permit]> (es_permits s) -> store_wf t.
Proof.
  intros Hwf Hf Hnone Hok He Hi Hp.
  destruct (issue_checks_Ok _ _ _ _ _ Hok) as (Ht & Hpv & Hpp & _ & Hpr & Hn & _ & Hid & _).
  eapply (wf_move s t effect next); [done | | apply Ht | apply (tr_revision _ _ _ _ Ht) | done | done | done | | |].
  - rewrite Hid. by destruct (wf_effect _ Hwf _ _ Hf) as [-> _].
  - intros id p [[<- <-] | [_ Hl]]%lookup_insert_Some; [| by apply Hwf in Hl].
    cbn. rewrite Hpp, Hpr. repeat split. by apply clone_permit_Validate.
  - intros id p Hl. rewrite lookup_insert_ne; [done | congruence].
  - rewrite Hn. unfold after_dispatch. intros Ha. by destruct_or? Ha.
Qed.

Lemma wf_permit_move s t id current next now :
  store_wf s -> es_permits s !! id = Some current -> permit_transition current next now ->
  es_effects t = es_effects s -> es_idempotency t = es_idempotency s ->
  es_permits t = <[id := clonePermitFactV2 next]> (es_permits s) -> store_wf t.
Proof.
  intros Hwf Hc Ht He Hi Hp. destruct (wf_permit _ Hwf _ _ Hc) as (Hid & _ & Hu).
  pose proof (stored_permit_extends _ _ _ Hu Ht) as Hx.
  split; intros *; rewrite ?He, ?Hi, ?Hp; try (by apply Hwf).
  - intros [[<- <-] | [_ Hl]]%lookup_insert_Some; [| by apply Hwf in Hl].
    rewrite (px_permit _ _ Hx). repeat split; [done | apply clone_permit_Validate, Ht |].
    cbn. rewrite (pt_revision _ _ _ Ht). apply u64_succ_is_u64.
  - intros Hl Ha. destruct (wf_begun _ Hwf _ _ Hl Ha) as (p & Hlp & Hs).
    destruct (decide (f_DispatchPermitID f = id)) as [E | Hne].
    + rewrite E in *. rewrite lookup_insert_eq. assert (p = current) as -> by congruence.
      eexists. split; [done |]. by destruct (px_begun _ _ Hx Hs).
    + rewrite lookup_insert_ne by done. eauto.
Qed.

Lemma eff_change_wf s t : store_wf s -> eff_change s t -> store_wf t.
Proof.
  intros Hwf [(He & Hi & _ & Hp & _) | f Hv Hst Hr _ Hkey He Hi _ Hp _ | current next now Hc Ht _ He Hi _ Hp _
    | request effect next permit now Hf _ Hnone Hok He Hi _ Hp _ | id current next now Hc Ht He Hi _ Hp _
    | b _ _ _ _ He Hi _ Hp _ | current next now _ _ He Hi _ Hp _].
  1, 6, 7: destruct Hwf; split; intros *; rewrite ?He, ?Hi, ?Hp; eauto.
  - by eapply wf_create.
  - eapply (wf_move s t current next); try done;
      [apply Ht | apply (tr_revision _ _ _ _ Ht) | apply Hwf |].
    intros Ha. apply (cas_begun s current next now); [| exact Ht | exact Ha].
    by apply (wf_begun_permit _ _ _ Hwf Hc).
  - by eapply wf_issue.
  - by eapply wf_permit_move.
Qed.

Lemma eff_step_wf s t : store_wf s -> eff_step s t -> store_wf t.
Proof. intros Hwf Hs. eapply eff_change_wf; [done |]. by apply eff_step_change. Qed.

Lemma eff_reaches_wf s t : store_wf s -> eff_reaches s t -> store_wf t.
Proof. intros Hwf Hr. induction Hr as [s | s s' t Hs _ IH]; [done |]. by apply IH, (eff_step_wf s). Qed.

(** ** What no history changes *)

Lemma step_effect s t id f :
  store_wf s -> eff_change s t -> es_effects s !! id = Some f ->
  exists g, es_effects t !! id = Some g /\ effect_extends f g.
Proof.
  intros Hwf Hc Hf. destruct (wf_effect _ Hwf _ _ Hf) as (Hid & _ & Hu).
  assert (forall current next ctx now, es_effects s !! i_ID (f_Intent next) = Some current ->
            effect_transition current next ctx now ->
            es_effects t = <[i_ID (f_Intent next) := cloneEffectFactV2 next]> (es_effects s) ->
            exists g, es_effects t !! id = Some g /\ effect_extends f g) as Hmove.
  { intros current next ctx now Hl Ht He. rewrite He. destruct (decide (i_ID (f_Intent next) = id)) as [<- | Hne].
    - rewrite lookup_insert_eq. eexists. split; [done |]. assert (f = current) as -> by congruence.
      etrans; [by eapply transition_extends | apply clone_extends].
    - rewrite lookup_insert_ne by done. by exists f. }
  destruct Hc as [(He & _) | h _ _ _ Hnone _ He _ _ _ _ | current next now Hl Ht _ He _ _ _ _
    | request effect next permit now Hl _ _ Hok He _ _ _ _ | ? ? ? ? _ _ He _ _ _ _ | ? _ _ _ _ He _ _ _ _
    | ? ? ? _ _ He _ _ _ _].
  1, 5, 6, 7: rewrite He; by exists f.
  - rewrite He, lookup_insert_ne by congruence. by exists f.
  - by eapply Hmove.
  - destruct (issue_checks_Ok _ _ _ _ _ Hok) as (Ht & _ & _ & _ & _ & _ & _ & Hi & _).
    eapply Hmove; [| exact Ht | exact He]. rewrite Hi.
    by destruct (wf_effect _ Hwf _ _ Hl) as (-> & _).
Qed.

Lemma step_permit s t id p :
  store_wf s -> eff_change s t -> es_permits s !! id = Some p ->
  exists q, es_permits t !! id = Some q /\ permit_extends p q.
Proof.
  intros Hwf Hc Hl. destruct Hc as [(_ & _ & _ & He & _) | ? _ _ _ _ _ _ _ _ He _ | ? ? ? _ _ _ _ _ _ He _
    | request effect next permit now _ _ Hnone _ _ _ _ He _ | id' current next now Hl' Ht _ _ _ He _
    | ? _ _ _ _ _ _ _ He _ | ? ? ? _ _ _ _ _ He _]; rewrite He; try by exists p.
  - rewrite lookup_insert_ne by congruence. by exists p.
  - destruct (decide (id' = id)) as [-> | Hne]; [| rewrite lookup_insert_ne by done; by exists p].
    rewrite lookup_insert_eq. eexists. split; [done |]. assert (p = current) as -> by congruence.
    eapply stored_permit_extends; [| done]. by apply (wf_permit _ Hwf) in Hl' as (_ & _ & ?).
Qed.

(** An effect of a store is in every later store, extended. *)
Lemma history_effect s t id f :
  store_wf s -> eff_reaches s t -> es_effects s !! id = Some f ->
  exists g, es_effects t !! id = Some g /\ effect_extends f g.
Proof.
  intros Hwf Hr. revert f. induction Hr as [s | s s' t Hs _ IH]; intros f Hf; [by exists f |].
  destruct (step_effect _ _ _ _ Hwf (eff_step_change _ _ Hwf Hs) Hf) as (g & Hg & Hfg).
  destruct (IH (eff_step_wf _ _ Hwf Hs) g Hg) as (h & Hh & Hgh). exists h. split; [done | by etrans].
Qed.

Lemma history_permit s t id p :
  store_wf s -> eff_reaches s t -> es_permits s !! id = Some p ->
  exists q, es_permits t !! id = Some q /\ permit_extends p q.
Proof.
  intros Hwf Hr. revert p. induction Hr as [s | s s' t Hs _ IH]; intros p Hp; [by exists p |].
  destruct (step_permit _ _ _ _ Hwf (eff_step_change _ _ Hwf Hs) Hp) as (q & Hq & Hpq).
  destruct (IH (eff_step_wf _ _ Hwf Hs) q Hq) as (r & Hr' & Hqr). exists r. split; [done | by etrans].
Qed.

Definition eff_reachable : EffectStoreV2 -> Prop := eff_reaches NewEffectStoreV2.

Lemma reachable_wf s : eff_reachable s -> store_wf s.
Proof. apply eff_reaches_wf, NewEffectStoreV2_wf. Qed.

(** C14: no history of the store loses or rewrites an effect: whatever callers do
    afterwards, the effect is still there under its id, with the same intent
    digest and a revision that has not gone back; its main state has only
    followed edges of the state machine; its permit binding, provider receipt,
    settlement, compensation and rejection are unchanged once recorded; and a
    conclusion about its remote residual or its cleanup is final. *)
Theorem effect_history (s t : EffectStoreV2) (id : string) (f : EffectFactV2)
    (Hs : eff_reachable s) (Ht : eff_reaches s t) (Hf : es_effects s !! id = Some f) :
  exists g, es_effects t !! id = Some g /\ effect_extends f g.
Proof. exact (history_effect s t id f (reachable_wf s Hs) Ht Hf). Qed.

(** C15: write-ahead of dispatch: in every reachable store an effect that is
    dispatched, unknown, settled or compensated names a permit that the store
    holds in state begun: BeginDispatch was recorded before any outcome, and no
    later history takes it back. *)
Theorem dispatch_write_ahead (s t : EffectStoreV2) (id : string) (f : EffectFactV2)
    (Hs : eff_reachable s) (Hf : es_effects s !! id = Some f) (Ha : after_dispatch (f_State f))
    (Ht : eff_reaches s t) :
  exists p, es_permits t !! f_DispatchPermitID f = Some p /\ pf_State p = DispatchPermitBegun.
Proof.
  pose proof (reachable_wf s Hs) as Hwf. destruct (wf_begun _ Hwf _ _ Hf Ha) as (p & Hp & Hb).
  destruct (history_permit _ _ _ _ Hwf Ht Hp) as (q & Hq & Hx). exists q. split; [done |]. by apply (px_begun _ _ Hx).
Qed.

Lemma begin_refused p now :
  pf_State p = DispatchPermitBegun -> forall u, ValidateDispatchPermitTransitionV2 p (begin_permit now p) now <> Ok u.
Proof. intros Hb [] Hv. apply permit_transition_iff in Hv as []. destruct pt_move; cbn in *; congruence. Qed.

(** a permit is begun at most once.  Once the store holds it in state begun,
    and this is so even when the reply of the BeginDispatch that did it was
    lost, every later BeginDispatch that names it is refused and changes
    nothing. *)
Theorem begin_at_most_once (s t : EffectStoreV2) (p : DispatchPermitFactV2) (ctx : Context) (now : Time)
    (request : BeginDispatchRequestV2)
    (Hs : eff_reachable s) (Hp : es_permits s !! bg_PermitID request = Some p)
    (Hb : pf_State p = DispatchPermitBegun) (Ht : eff_reaches s t) :
  exists e, BeginDispatch ctx now request t = (t, Err e).
Proof.
  destruct (history_permit _ _ _ _ (reachable_wf s Hs) Ht Hp) as (q & Hq & Hx).
  destruct (px_begun _ _ Hx Hb) as [Hqb _]. pose proof (begin_refused q now Hqb) as Hno.
  unfold BeginDispatch, st_guard, st_err. st_go.
  destruct (contextError ctx); [| by eexists]. rewrite Hq.
  destruct (es_effects t !! bg_EffectID request); [| by eexists].
  destruct (guard _ _ _); [| by eexists].
  destruct (ValidateDispatchPermitTransitionV2 q (begin_permit now q) now) eqn:Ev; [| by eexists].
  by destruct (Hno a1).
Qed.

(** ** Conflict domains

    A step is governed when the effects it touches keep their conflict domain,
    and an effect that no longer occupies its domain is touched only when the
    index does not name another effect for that domain. *)

Definition conflict_key (f : EffectFactV2) : string := effectConflictKeyV2 (i_ConflictDomain (f_Intent f)).

Definition keeps_domains (s t : EffectStoreV2) : Prop :=
  forall id f g, es_effects s !! id = Some f -> es_effects t !! id = Some g ->
    i_ConflictDomain (f_Intent g) = i_ConflictDomain (f_Intent f)
    /\ (f <> g -> ConflictDomainOccupied g = false ->
        forall holder, es_conflicts s !! conflict_key f = Some holder -> holder = id).

Definition governed_step (s t : EffectStoreV2) : Prop := eff_step s t /\ keeps_domains s t.
Definition governed_reachable : EffectStoreV2 -> Prop := rtc governed_step NewEffectStoreV2.

(** An effect that holds its domain: accepted, and not yet closed. *)
Definition holds_domain (f : EffectFactV2) : Prop :=
  f_State f <> EffectProposed /\ ConflictDomainOccupied f = true.

Record conflict_wf (s : EffectStoreV2) : Prop := {
  cw_index key id : es_conflicts s !! key = Some id ->
    exists f, es_effects s !! id = Some f /\ holds_domain f /\ conflict_key f = key;
  cw_holder id f : es_effects s !! id = Some f -> holds_domain f -> es_conflicts s !! conflict_key f = Some id;
}.

Lemma edge_not_proposed s t : main_edge s t -> t <> EffectProposed.
Proof. by intros []. Qed.

(** A transition that is not an acceptance goes from holder to holder. *)
Lemma transition_holds current next ctx now :
  effect_transition current next ctx now -> ConflictDomainOccupied next = true ->
  ~ (f_State current = EffectProposed /\ f_State next = EffectAccepted) ->
  holds_domain next /\ holds_domain current.
Proof.
  intros Ht Ho Hn.
  assert (f_State current <> EffectProposed) as Hc.
  { intros E. destruct (tr_main _ _ _ _ Ht) as [[He _] | (_ & Ha & _)].
    - rewrite E in He.
      assert (f_State next = EffectAccepted \/ f_State next = EffectRejected) as [E' | E'] by (inversion He; auto); [by apply Hn |].
      unfold ConflictDomainOccupied in Ho. by rewrite E' in Ho.
    - rewrite E in Ha. unfold after_dispatch in Ha. by destruct_or? Ha. }
  repeat split; try done.
  - destruct (tr_main _ _ _ _ Ht) as [[He _] | (-> & _)]; [by eapply edge_not_proposed | done].
  - destruct (ConflictDomainOccupied current) eqn:E; [done |].
    by rewrite (transition_released _ _ _ _ Ht E) in Ho.
Qed.

Lemma accepted_occupied f : f_State f = EffectAccepted -> ConflictDomainOccupied f = true.
Proof. unfold ConflictDomainOccupied. by intros ->. Qed.

(** The index after one effect moved. *)
Lemma cas_conflict_wf s t current next ctx now :
  conflict_wf s -> es_effects s !! i_ID (f_Intent next) = Some current ->
  i_ID (f_Intent current) = i_ID (f_Intent next) ->
  effect_transition current next ctx now ->
  i_ConflictDomain (f_Intent next) = i_ConflictDomain (f_Intent current) ->
  (f_State current = EffectProposed -> f_State next = EffectAccepted ->
   forall id, es_conflicts s !! conflict_key current = Some id -> id = i_ID (f_Intent current)) ->
  (ConflictDomainOccupied next = false ->
   forall holder, es_conflicts s !! conflict_key current = Some holder -> holder = i_ID (f_Intent next)) ->
  es_effects t = <[i_ID (f_Intent next) := cloneEffectFactV2 next]> (es_effects s) ->
  es_conflicts t =
    (let occupied :=
       if bool_decide (f_State current = EffectProposed) && bool_decide (f_State next = EffectAccepted)
       then <[conflict_key current := i_ID (f_Intent current)]> (es_conflicts s) else es_conflicts s in
     if ConflictDomainOccupied next then occupied else delete (conflict_key next) occupied) ->
  conflict_wf t.
Proof.
  intros Hwf Hc Hid Ht Hdom Hacc Hrel He Hi.
  assert (conflict_key next = conflict_key current) as Hkey by (unfold conflict_key; by rewrite Hdom).
  assert (conflict_key (cloneEffectFactV2 next) = conflict_key current) as Hkey' by (rewrite <- Hkey; unfold conflict_key; by rewrite clone_conflict).
  assert (holds_domain next -> holds_domain (cloneEffectFactV2 next)) as Hcl by done.
  destruct (decide (f_State current = EffectProposed /\ f_State next = EffectAccepted)) as [[Ep Ea] | Hna].
  - rewrite Hid in Hacc. pose proof (accepted_occupied _ Ea) as Ho. rewrite Ho, Hid, !bool_decide_eq_true_2 in Hi by done. cbn in Hi.
    split; intros *; rewrite He, Hi.
    + intros [[<- <-] | [_ Hl]]%lookup_insert_Some.
      * rewrite lookup_insert_eq. eexists. repeat split; [| done | done]. cbn. by rewrite Ea.
      * destruct (cw_index _ Hwf _ _ Hl) as (f & Hf & Hh & Hk). exists f. rewrite lookup_insert_ne; [done |].
        intros <-. assert (f = current) as -> by congruence. by destruct Hh.
    + intros [[<- <-] | [Hne Hf]]%lookup_insert_Some Hh; [by rewrite Hkey', lookup_insert_eq |].
      pose proof (cw_holder _ Hwf _ _ Hf Hh) as Hl. rewrite lookup_insert_ne; [done |].
      intros E. rewrite <- E in Hl. by apply Hne, eq_sym, (Hacc Ep Ea).
  - assert (bool_decide (f_State current = EffectProposed) && bool_decide (f_State next = EffectAccepted) = false) as Eb.
    { apply not_true_iff_false. rewrite andb_true_iff, !bool_decide_eq_true. done. }
    rewrite Eb in Hi. cbn zeta in Hi. destruct (ConflictDomainOccupied next) eqn:Ho.
    + destruct (transition_holds _ _ _ _ Ht Ho Hna) as [Hn Hcur].
      split; intros *; rewrite He, Hi.
      * intros Hl. destruct (cw_index _ Hwf _ _ Hl) as (f & Hf & Hh & Hk).
        destruct (decide (id = i_ID (f_Intent next))) as [-> | Hne]; [| exists f; by rewrite lookup_insert_ne].
        rewrite lookup_insert_eq. eexists. repeat split; [by apply Hn | done |]. by simplify_eq.
      * intros [[<- <-] | [Hne Hf]]%lookup_insert_Some Hh; [| by apply (cw_holder _ Hwf)].
        rewrite Hkey'. by apply (cw_holder _ Hwf).
    + rewrite Hkey in Hi. split; intros *; rewrite He, Hi.
      * intros [Hne Hl]%lookup_delete_Some. destruct (cw_index _ Hwf _ _ Hl) as (f & Hf & Hh & Hk).
        exists f. rewrite lookup_insert_ne; [done |]. intros <-. assert (f = current) as -> by congruence. done.
      * intros [[<- <-] | [Hne Hf]]%lookup_insert_Some Hh; [destruct Hh as [_ Hh]; cbn in Hh; by rewrite clone_occupied, Ho in Hh |].
        pose proof (cw_holder _ Hwf _ _ Hf Hh) as Hl. rewrite lookup_delete_ne; [done |].
        intros E. rewrite <- E in Hl. by apply Hne, eq_sym, Hrel.
Qed.

Lemma conflict_wf_same s t :
  es_effects t = es_effects s -> es_conflicts t = es_conflicts s -> conflict_wf s -> conflict_wf t.
Proof. intros He Hi []. split; rewrite He, Hi; done. Qed.

Lemma governed_change s t :
  store_wf s -> conflict_wf s -> eff_change s t -> keeps_domains s t -> conflict_wf t.
Proof.
  intros Hs Hwf Hc Hk.
  destruct Hc as [(He & _ & Hi & _) | f Hv Hst Hr Hnone _ He _ Hi _ _ | current next now Hl Ht Hacc He _ Hi _ _
    | request effect next permit now Hl Hst _ Hok He _ Hi _ _ | id current next now _ _ He _ Hi _ _
    | b _ _ _ _ He _ Hi _ _ | current next now _ _ He _ Hi _ _].
  1, 5, 6, 7: by apply (conflict_wf_same s).
  - split; intros *; rewrite He, Hi.
    + intros Hl. destruct (cw_index _ Hwf _ _ Hl) as (g & Hg & Hh & Hkey). exists g.
      rewrite lookup_insert_ne by congruence. done.
    + intros [[<- <-] | [_ Hl]]%lookup_insert_Some Hh; [by destruct Hh | by apply (cw_holder _ Hwf)].
  - destruct (wf_effect _ Hs _ _ Hl) as (Hid & _ & Hu).
    destruct (Hk _ current (cloneEffectFactV2 next) Hl) as [Hdom Hrel]; [by rewrite He, lookup_insert_eq |].
    rewrite clone_conflict in Hdom. eapply cas_conflict_wf; try eassumption; intros Ho.
    apply Hrel; [| done]. intros E. apply (u64_succ_ne (f_Revision current) Hu).
    rewrite <- (tr_revision _ _ _ _ Ht). change (f_Revision next) with (f_Revision (cloneEffectFactV2 next)). by rewrite <- E.
  - destruct (issue_checks_Ok _ _ _ _ _ Hok) as (Ht & _ & _ & _ & _ & Hn & _ & _ & HI & _).
    destruct (wf_effect _ Hs _ _ Hl) as (Hid & _). rewrite <- HI in Hid.
    assert (ConflictDomainOccupied next = true) as Ho by (unfold ConflictDomainOccupied; by rewrite Hn).
    eapply (cas_conflict_wf s t effect next); try done.
    + by rewrite Hid.
    + by rewrite HI.
    + by rewrite HI.
    + congruence.
    + congruence.
    + by rewrite Hi, Ho, (bool_decide_eq_false_2 (f_State effect = EffectProposed)) by congruence.
Qed.

Lemma governed_reachable_wf s : governed_reachable s -> store_wf s /\ conflict_wf s.
Proof.
  unfold governed_reachable. intros Hr.
  assert (store_wf NewEffectStoreV2 /\ conflict_wf NewEffectStoreV2) as H0.
  { split; [apply NewEffectStoreV2_wf |]. split; cbn; intros *; rewrite lookup_empty; done. }
  induction Hr as [s | s s' t [Hs Hk] _ IH]; [done |]. apply IH. destruct H0 as [Hw Hcw].
  split; [by eapply eff_step_wf |]. eapply governed_change; eauto using eff_step_change.
Qed.

(** C16: mutual exclusion of conflict domains: along histories in which effects
    keep their declared domain and no effect that has released (or never held)
    its domain is moved while another one is indexed for it, the index names for
    each domain its one holder: two effects that are accepted and not closed are
    never in the same domain, and InspectConflictDomain answers with the holder
    and never with an internal error. *)
Theorem conflict_exclusive (s : EffectStoreV2) (id1 id2 : string) (f g : EffectFactV2)
    (Hs : governed_reachable s)
    (Hf : es_effects s !! id1 = Some f) (Hg : es_effects s !! id2 = Some g)
    (Hhf : holds_domain f) (Hhg : holds_domain g) (Hk : conflict_key f = conflict_key g) :
  id1 = id2
  /\ InspectConflictDomain CtxLive (i_ConflictDomain (f_Intent f)) s = (s, Ok (cloneEffectFactV2 f))
  /\ forall ctx binding t e, InspectConflictDomain ctx binding s = (t, Err e) ->
       e <> NewError ErrorInternal ReasonEffectStateConflict.
Proof.
  destruct (governed_reachable_wf s Hs) as [_ Hwf].
  pose proof (cw_holder _ Hwf _ _ Hf Hhf) as H1. pose proof (cw_holder _ Hwf _ _ Hg Hhg) as H2.
  unfold conflict_key in *. split_and!; [congruence | |].
  - unfold InspectConflictDomain, st_err. st_go. cbn. rewrite H1, Hf. by destruct Hhf as [_ ->].
  - intros ctx binding t e E Ee. subst e. unfold InspectConflictDomain, st_err in E. st_exec E.
    all: repeat match goal with
         | H : contextError ?c = Err _, E : _ = _ |- _ => injection E as _ ->; by destruct c
         | W : conflict_wf _, H : es_conflicts _ !! _ = Some _ |- _ =>
             destruct (cw_index _ W _ _ H) as (? & ? & [_ ?] & _); clear H
         end.
    all: unfold NewError in *; congruence.
Qed.

End store.
