(* ===== verification/EffectLife.v ===== *)
(** * The effect store: replays, outcomes and bounded lives

    What the retry of a create or of an issue finds, how an unknown outcome
    ends, which closures hold a conflict domain for good, how budgets move, and
    how long the life of a fact is. *)

From stdpp Require Import gmap strings relations.
From S2P Require Import Prelude GoStd Errors Identity Fence Json Canonical Payload EffectContract EffectFact EffectFlow BudgetFact FactStore EffectStore EffectSafety.

Local Open Scope N_scope.

(** ** Budgets *)

Inductive budget_edge : BudgetFactStateV2 -> BudgetFactStateV2 -> Prop :=
| budget_consume : budget_edge BudgetFactActive BudgetFactConsumed
| budget_release : budget_edge BudgetFactActive BudgetFactReleased
| budget_expire : budget_edge BudgetFactActive BudgetFactExpired
| budget_revoke : budget_edge BudgetFactActive BudgetFactRevoked
| budget_return : budget_edge BudgetFactConsumed BudgetFactReleased.

Record budget_transition (b c : BudgetBindingFactV2) (now : Time) : Prop := {
  bt_current : BudgetBindingFactV2_Validate b = Ok tt;
  bt_next : BudgetBindingFactV2_Validate c = Ok tt;
  bt_clock : IsZero now = false;
  bt_immutable : budget_immutable c = budget_immutable b;
  bt_revision : b_Revision c = u64_succ (b_Revision b);
  bt_edge : budget_edge (b_State b) (b_State c);
  bt_reserved : b_State c = BudgetFactConsumed -> b_Mode b = BudgetReserved;
  bt_expired : b_State c = BudgetFactExpired -> Before now (UnixTime (b_ExpiresUnixNano b)) = false;
}.

Lemma budget_edge_iff s t :
  (match s with
   | BudgetFactActive =>
       Ok (bool_decide (t = BudgetFactConsumed) || bool_decide (t = BudgetFactReleased)
           || bool_decide (t = BudgetFactExpired) || bool_decide (t = BudgetFactRevoked))
   | BudgetFactConsumed => Ok (bool_decide (t = BudgetFactReleased))
   | BudgetFactReleased | BudgetFactExpired | BudgetFactRevoked =>
       fail ErrorPreconditionFailed ReasonInvalidTransition
   | BudgetStateOther _ => Ok false
   end) = Ok true <-> budget_edge s t.
Proof.
  split.
  - intros H. destruct s; try discriminate H; destruct t; try discriminate H; constructor.
  - by intros [].
Qed.

Lemma budget_transition_iff (b c : BudgetBindingFactV2) (now : Time) :
  ValidateBudgetFactTransitionV2 b c now = Ok tt <-> budget_transition b c now.
Proof.
  unfold ValidateBudgetFactTransitionV2.
  rewrite !seq_Ok, !guard_Ok, orb_false_iff, !negb_false_iff, bool_decide_eq_true, N.eqb_eq. split.
  - intros (Vb & Vc & Hz & [Hi Hr] & Hm). apply bind_Ok in Hm as (valid & He & Hm).
    rewrite !seq_guard_Ok, guard_Ok, negb_false_iff, !andb_false_iff, negb_false_iff, !bool_decide_eq_false,
      bool_decide_eq_true in Hm. destruct Hm as (-> & Hc & Hx). apply budget_edge_iff in He. split; try done.
    + destruct Hc; [done | auto].
    + destruct Hx; [done | auto].
  - intros [Vb Vc Hz Hi Hr He Hc Hx]. split_and!; try done.
    apply bind_Ok. exists true. split; [by apply budget_edge_iff |].
    rewrite !seq_guard_Ok, guard_Ok. split_and!; [done | |].
    + case_bool_decide as E; [| done]. by rewrite bool_decide_eq_true_2 by auto.
    + case_bool_decide as E; [| done]. cbn. auto.
Qed.

(** ValidateBudgetFactTransitionV2 accepts exactly the moves of a budget
    binding: everything but state, revision and the consumed amount is kept, the
    revision advances by one, only an active binding is consumed, expired or
    revoked, only a reservation is consumed, and expiry is not before its time. *)
Theorem ValidateBudgetFactTransitionV2_iff (b c : BudgetBindingFactV2) (now : Time) :
  ValidateBudgetFactTransitionV2 b c now = Ok tt <-> budget_transition b c now.
Proof. exact (budget_transition_iff b c now). Qed.

(** The edges taken so far bound the revision: two moves at most. *)
Definition budget_rank (s : BudgetFactStateV2) : N :=
  match s with BudgetFactActive => 0 | BudgetFactConsumed => 1 | _ => 2 end.

Lemma budget_edge_rank s t : budget_edge s t -> budget_rank s < budget_rank t.
Proof. by intros []. Qed.

(** ** Lives *)

Definition main_rank (s : EffectFactStateV2) : N :=
  match s with
  | EffectProposed => 0 | EffectAccepted => 1 | EffectDispatchIntent => 2
  | EffectDispatched | EffectUnknownOutcome => 3 | EffectSettled => 4
  | EffectCompensated => 5 | EffectRejected => 5 | EffectStateOther _ => 0
  end.

Definition closed_dimensions (f : EffectFactV2) : N :=
  (if bool_decide (f_RemoteResidual f = RemoteResidualPending) then 0 else 1)
  + (if bool_decide (f_Cleanup f = EffectCleanupPending) then 0 else 1).

(** How far a fact has come: the main states and the closures behind it. *)
Definition progress (f : EffectFactV2) : N := main_rank (f_State f) + closed_dimensions f.

Lemma main_edge_rank s t : main_edge s t -> main_rank s < main_rank t.
Proof. by intros []. Qed.

Lemma closed_step {D} `{EqDecision D} (pending current next : D) (P : Prop) (o : D -> bool) :
  o pending = true ->
  (next = current \/ current = pending /\ o next = false /\ P) ->
  (if bool_decide (current = pending) then 0 else 1) <= (if bool_decide (next = pending) then 0 else 1)
  /\ (next <> current -> (if bool_decide (current = pending) then 0 else 1) < (if bool_decide (next = pending) then 0 else 1)).
Proof.
  intros Ho [-> | (-> & Hn & _)]; [split; [lia | done] |].
  rewrite bool_decide_eq_true_2, bool_decide_eq_false_2 by (congruence || (intros ->; congruence)).
  split; [lia |]. lia.
Qed.

(** Every transition makes progress. *)
Lemma transition_progress current next ctx now :
  effect_transition current next ctx now -> progress current < progress next.
Proof.
  intros Ht. unfold progress, closed_dimensions.
  destruct (closed_step RemoteResidualPending (f_RemoteResidual current) (f_RemoteResidual next)
              (ResidualInspectSettled ctx = true) residual_open eq_refl) as [R1 R2].
  { destruct (tr_residual _ _ _ _ Ht) as [[? _] | ?]; auto. }
  destruct (closed_step EffectCleanupPending (f_Cleanup current) (f_Cleanup next)
              (CleanupEffectSettled ctx = true) cleanup_open eq_refl) as [C1 C2].
  { destruct (tr_cleanup _ _ _ _ Ht) as [[? _] | ?]; auto. }
  destruct (tr_main _ _ _ _ Ht) as [[He _] | (-> & _ & Hn)].
  - apply main_edge_rank in He. lia.
  - destruct (decide (f_RemoteResidual next = f_RemoteResidual current)) as [E | E];
      destruct (decide (f_Cleanup next = f_Cleanup current)) as [E' | E'].
    + by destruct Hn.
    + specialize (C2 E'). lia.
    + specialize (R2 E). lia.
    + specialize (R2 E). lia.
Qed.

Section life.
Context `{ZoneDatabase}.

Definition permit_rank (p : DispatchPermitFactV2) : N :=
  match pf_State p, pf_Enforcement p with
  | DispatchPermitIssued, _ => 0 | DispatchPermitBegun, None => 1 | _, _ => 2
  end.

Lemma permit_progress p q now : permit_transition p q now -> permit_rank p < permit_rank q.
Proof.
  intros Ht. unfold permit_rank. destruct (pt_move _ _ _ Ht) as [-> -> | -> -> | -> -> | e -> -> -> ->]; try lia.
  destruct (pf_Enforcement q); lia.
Qed.

(** No fact has moved more often than its progress allows. *)
Record lives (s : EffectStoreV2) : Prop := {
  lv_effect id f : es_effects s !! id = Some f -> f_Revision f <= 1 + progress f;
  lv_permit id p : es_permits s !! id = Some p -> pf_Revision p <= 1 + permit_rank p;
  lv_budget ref b : es_budgets s !! ref = Some b -> b_Revision b <= 1 + budget_rank (b_State b);
}.

Lemma progress_bound f : progress f <= 7.
Proof. unfold progress, closed_dimensions, main_rank. destruct (f_State f); repeat case_bool_decide; lia. Qed.
Lemma permit_rank_bound p : permit_rank p <= 2.
Proof. unfold permit_rank. destruct (pf_State p), (pf_Enforcement p); lia. Qed.
Lemma budget_rank_bound s : budget_rank s <= 2.
Proof. destruct s; cbn; lia. Qed.

Lemma succ_within r r' a b bound : r <= 1 + a -> a < b -> b <= bound -> bound <= 100 -> r' = u64_succ r -> r' <= 1 + b.
Proof. intros ? ? ? ? ->. rewrite u64_succ_small; unfold max_u64; lia. Qed.

Lemma clone_permit_rank p : permit_rank (clonePermitFactV2 p) = permit_rank p.
Proof. unfold permit_rank. cbn. by destruct (pf_Enforcement p). Qed.

Lemma lives_change s t : store_wf s -> lives s -> eff_change s t -> lives t.
Proof.
  intros Hwf Hl Hc. destruct Hc as [(He & _ & _ & Hp & Hb) | f _ _ Hr _ _ He _ _ Hp Hb
    | current next now Hf Ht _ He _ _ Hp Hb | request effect next permit now Hf _ _ Hok He _ _ Hp Hb
    | id current next now Hf Ht He _ _ Hp Hb | b _ _ Hr _ He _ _ Hp Hb | current next now Hf Ht He _ _ Hp Hb];
    split; intros *; rewrite ?He, ?Hp, ?Hb; try (by apply Hl).
  - intros [[<- <-] | [_ Hg]]%lookup_insert_Some; [| by apply Hl in Hg]. cbn. lia.
  - intros [[<- <-] | [_ Hg]]%lookup_insert_Some; [| by apply Hl in Hg].
    eapply (succ_within _ _ _ (progress next) 7);
      [by eapply lv_effect | by eapply transition_progress | apply progress_bound | lia | apply (tr_revision _ _ _ _ Ht)].
  - destruct (issue_checks_Ok _ _ _ _ _ Hok) as (Ht & _).
    intros [[<- <-] | [_ Hg]]%lookup_insert_Some; [| by apply Hl in Hg].
    eapply (succ_within _ _ _ (progress next) 7);
      [by eapply lv_effect | by eapply transition_progress | apply progress_bound | lia | apply (tr_revision _ _ _ _ Ht)].
  - destruct (issue_checks_Ok _ _ _ _ _ Hok) as (_ & _ & _ & _ & Hr & _).
    intros [[<- <-] | [_ Hg]]%lookup_insert_Some; [| by apply Hl in Hg]. cbn. lia.
  - intros [[<- <-] | [_ Hg]]%lookup_insert_Some; [| by apply Hl in Hg]. rewrite clone_permit_rank.
    eapply (succ_within _ _ _ (permit_rank next) 2);
      [by eapply lv_permit | by eapply permit_progress | apply permit_rank_bound | lia | apply (pt_revision _ _ _ Ht)].
  - intros [[<- <-] | [_ Hg]]%lookup_insert_Some; [| by apply Hl in Hg]. lia.
  - intros [[<- <-] | [_ Hg]]%lookup_insert_Some; [| by apply Hl in Hg].
    apply budget_transition_iff in Ht.
    eapply (succ_within _ _ _ (budget_rank (b_State next)) 2);
      [by eapply lv_budget | apply budget_edge_rank, Ht | apply budget_rank_bound | lia | apply Ht].
Qed.

Lemma reachable_lives s : eff_reachable s -> store_wf s /\ lives s.
Proof.
  unfold eff_reachable, eff_reaches. intros Hr.
  assert (store_wf NewEffectStoreV2 /\ lives NewEffectStoreV2) as H0.
  { split; [apply NewEffectStoreV2_wf |]. split; cbn; intros *; rewrite lookup_empty; done. }
  induction Hr as [s | s s' t Hs _ IH]; [done |]. apply IH. destruct H0 as [Hw Hl].
  split; [by eapply eff_step_wf |]. eapply lives_change; eauto using eff_step_change.
Qed.

(** C18: every life is finite: in every reachable store an effect fact is at
    revision 8 at most, a permit fact at revision 3 and a budget fact at
    revision 3, whatever callers do.  So at most seven moves of an effect ever
    succeed, and no revision counter overflows. *)
Theorem lives_bounded (s : EffectStoreV2) (Hs : eff_reachable s) :
  (forall id f, es_effects s !! id = Some f -> f_Revision f <= 8)
  /\ (forall id p, es_permits s !! id = Some p -> pf_Revision p <= 3)
  /\ (forall ref b, es_budgets s !! ref = Some b -> b_Revision b <= 3).
Proof.
  destruct (reachable_lives s Hs) as [_ []]. split_and!.
  - intros id f Hf. specialize (lv_effect0 _ _ Hf). pose proof (progress_bound f). lia.
  - intros id p Hp. specialize (lv_permit0 _ _ Hp). pose proof (permit_rank_bound p). lia.
  - intros r b Hb. specialize (lv_budget0 _ _ Hb). pose proof (budget_rank_bound (b_State b)). lia.
Qed.

(** ** Budgets over a history *)

Lemma step_budget s t ref b :
  eff_change s t -> es_budgets s !! ref = Some b ->
  es_budgets t !! ref = Some b \/ exists c now, es_budgets t !! ref = Some c /\ budget_transition b c now.
Proof.
  intros Hc Hl. destruct Hc as [(_ & _ & _ & _ & Hb) | ? _ _ _ _ _ _ _ _ _ Hb | ? ? ? _ _ _ _ _ _ _ Hb
    | ? ? ? ? ? _ _ _ _ _ _ _ _ Hb | ? ? ? ? _ _ _ _ _ _ Hb | c _ _ _ Hn _ _ _ _ Hb
    | current next now Hf Ht _ _ _ _ Hb]; rewrite Hb; try by left.
  - left. rewrite lookup_insert_ne by congruence. done.
  - destruct (decide (b_Ref next = ref)) as [E | Hne]; [| left; by rewrite lookup_insert_ne].
    rewrite E in *. right. exists next, now. rewrite lookup_insert_eq. split; [done |].
    apply budget_transition_iff. by simplify_eq.
Qed.

(** A budget decision is immutable: in every later store the binding under
    that reference differs only in state, revision and consumed amount, its
    state has followed the edges from active through consumed to released,
    expired or revoked, and a reservation is never consumed above its limit. *)
Theorem budget_history (s t : EffectStoreV2) (ref : string) (b : BudgetBindingFactV2)
    (Hs : eff_reachable s) (Ht : eff_reaches s t) (Hb : es_budgets s !! ref = Some b) :
  exists c, es_budgets t !! ref = Some c /\ budget_immutable c = budget_immutable b
    /\ rtc budget_edge (b_State b) (b_State c) /\ (b_Consumed b <= b_Limit b -> b_Consumed c <= b_Limit c).
Proof.
  apply reachable_wf in Hs. revert b Hb. induction Ht as [s | s s' t Hst _ IH]; intros b Hb.
  { exists b. by repeat split. }
  destruct (step_budget s s' ref b (eff_step_change _ _ Hs Hst) Hb) as [Hb' | (c & now & Hc & Hbc)].
  - by apply IH, Hb'; eapply eff_step_wf.
  - destruct (IH (eff_step_wf _ _ Hs Hst) c Hc) as (d & Hd & Hi & Hr & Hl).
    exists d. split; [done |]. destruct Hbc as [Vb Vc _ Hi' _ He _ _]. split; [congruence |].
    split; [by eapply rtc_l |]. intros _. apply Hl. clear -Vc.
    unfold BudgetBindingFactV2_Validate in Vc. do 5 apply seq_Ok in Vc as [_ Vc].
    destruct (b_Mode c); [| | done]; apply guard_Ok in Vc; rewrite !orb_false_iff in Vc; destruct_and?.
    + by apply N.ltb_ge.
    + repeat match goal with H : negb (N.eqb _ _) = false |- _ => apply negb_false_iff, N.eqb_eq in H end. lia.
Qed.

(** ** How an effect moves in one step *)

Lemma effect_moves s t id f g :
  store_wf s -> eff_change s t -> es_effects s !! id = Some f -> es_effects t !! id = Some g ->
  g = f \/ exists next ctx now, g = cloneEffectFactV2 next /\ effect_transition f next ctx now
           /\ (ctx = transition_context s f next now \/ f_State f = EffectAccepted).
Proof.
  intros Hwf Hc Hf Hg. destruct Hc as [(He & _) | h _ _ _ Hn _ He _ _ _ _ | current next now Hl Ht _ He _ _ _ _
    | request effect next permit now Hl Ha _ Hok He _ _ _ _ | ? ? ? ? _ _ He _ _ _ _ | ? _ _ _ _ He _ _ _ _
    | ? ? ? _ _ He _ _ _ _]; rewrite He in Hg; try (left; congruence).
  - rewrite lookup_insert_ne in Hg by congruence. left. congruence.
  - apply lookup_insert_Some in Hg as [[<- <-] | [_ Hg]]; [| left; congruence].
    assert (current = f) as -> by congruence. right. do 3 eexists. split_and!; [done | exact Ht | by left].
  - destruct (issue_checks_Ok _ _ _ _ _ Hok) as (Ht & _ & _ & _ & _ & _ & _ & Hid & _).
    apply lookup_insert_Some in Hg as [[E <-] | [_ Hg]]; [| left; congruence].
    destruct (wf_effect _ Hwf _ _ Hl) as [Hid' _]. assert (effect = f) as -> by congruence.
    right. do 3 eexists. split_and!; [done | exact Ht | by right].
Qed.

Lemma settled_as_spec effects id revision expected related :
  settled_as effects id revision expected related = true ->
  exists e settlement, effects !! id = Some e /\ i_Revision (f_Intent e) = revision /\ f_State e = EffectSettled
    /\ f_Settlement e = Some settlement /\ settlement_digest settlement = Ok expected /\ related e = true.
Proof.
  unfold settled_as, settlement_digest_is. intros Hs. destruct (effects !! id) as [e |]; [| done].
  destruct (_ || _) eqn:Eb; [done |]. rewrite orb_false_iff, !negb_false_iff, N.eqb_eq, bool_decide_eq_true in Eb.
  destruct Eb as [Hr Hst]. destruct (f_Settlement e) as [settlement |] eqn:El; [| done].
  apply andb_true_iff in Hs as [Hrel Hd]. destruct (settlement_digest settlement) as [d |] eqn:Ed; [| done].
  apply bool_decide_eq_true in Hd. subst d. by exists e, settlement.
Qed.

(** C17: an unknown outcome is not guessed: an effect leaves the state unknown only
    for settled, with a settlement of the declared settlement owner that names,
    by id, intent revision and settlement digest, another effect of the same
    tenant that was declared to inspect this one and is itself settled. *)
Theorem unknown_settles_by_inspection (s t : EffectStoreV2) (id : string) (f g : EffectFactV2)
    (Hs : eff_reachable s) (Hst : eff_step s t) (Hf : es_effects s !! id = Some f)
    (Hu : f_State f = EffectUnknownOutcome) (Hg : es_effects t !! id = Some g)
    (Hl : f_State g <> EffectUnknownOutcome) :
  f_State g = EffectSettled
  /\ exists settlement inspector inspection,
       f_Settlement g = Some settlement
       /\ In (sf_Owner settlement) (i_Owners (f_Intent g)) /\ eo_Role (sf_Owner settlement) = OwnerSettlement
       /\ es_effects s !! sf_InspectionIntentID settlement = Some inspector
       /\ f_State inspector = EffectSettled /\ f_Settlement inspector = Some inspection
       /\ settlement_digest inspection = Ok (sf_InspectionSettlementDigest settlement)
       /\ er_InspectsEffectID (i_Relation (f_Intent inspector)) = id
       /\ same_tenant inspector g = true.
Proof.
  pose proof (reachable_wf s Hs) as Hwf.
  destruct (effect_moves s t id f g Hwf (eff_step_change _ _ Hwf Hst) Hf Hg) as [-> | (next & ctx & now & -> & Ht & Hctx)];
    [done |].
  destruct Hctx as [-> | Ha]; [| congruence]. change (f_State (cloneEffectFactV2 next)) with (f_State next) in *.
  destruct (wf_effect _ Hwf _ _ Hf) as [Hid _]. pose proof (tr_ID _ _ _ _ Ht) as Hid'.
  destruct (tr_main _ _ _ _ Ht) as [[He Hev] | (E & _)]; [| congruence].
  rewrite Hu in He, Hev. assert (f_State next = EffectSettled) as E by (by inversion He). rewrite E in Hev.
  destruct Hev as [Ho Hi]. split; [done |]. cbn in Ho, Hi.
  unfold settlementOwnerMatchesBindingV2 in Ho. unfold unknownInspectionSettledV2 in Hi.
  destruct (f_Settlement next) as [settlement |] eqn:Es; [| done].
  destruct (_ || _); [done |]. apply settled_as_spec in Hi as (e & inspection & He' & _ & Hse & Hie & Hd & Hrel).
  apply andb_true_iff in Hrel as [Hrel Htn]. apply andb_true_iff in Hrel as [Hrel _]. apply bool_decide_eq_true in Hrel.
  destruct (list_find _ _) as [[k o] |] eqn:Ef; [| done]. apply bool_decide_eq_true in Ho. subst o.
  apply list_find_Some in Ef as (Hk & Hrole & _).
  exists settlement, e, inspection. split_and!; try done.
  - change (i_Owners _) with (i_Owners (f_Intent next)). apply list_elem_of_In. by eapply list_elem_of_lookup_2.
  - congruence.
Qed.

(** ** Closures that never release a domain *)

Lemma after_dispatch_edges s t : rtc main_edge s t -> after_dispatch s -> after_dispatch t.
Proof.
  induction 1 as [| s s' t He _ IH]; [done |]. intros Ha. apply IH. unfold after_dispatch in *.
  destruct He; destruct_or? Ha; try done; auto.
Qed.

(** C19: an unresolved end holds its conflict domain for good: once an effect that
    has been dispatched records a residual that is present or unknown, or a
    cleanup that failed or is indeterminate, that conclusion is never replaced,
    and the effect occupies its domain in every later store. *)
Theorem stuck_closure_occupies (s t : EffectStoreV2) (id : string) (f : EffectFactV2)
    (Hs : eff_reachable s) (Ht : eff_reaches s t) (Hf : es_effects s !! id = Some f)
    (Ha : after_dispatch (f_State f)) (Hc : closure_stuck f = true) :
  exists g, es_effects t !! id = Some g /\ closure_stuck g = true /\ ConflictDomainOccupied g = true.
Proof.
  destruct (history_effect s t id f (reachable_wf s Hs) Ht Hf) as (g & Hg & Hx). exists g.
  pose proof (extends_stuck _ _ Hx Hc) as Hsg. split_and!; [done .. |].
  apply stuck_occupied; [done |]. intros E.
  pose proof (after_dispatch_edges _ _ (ext_state _ _ Hx) Ha) as Hag. rewrite E in Hag.
  unfold after_dispatch in Hag. intuition congruence.
Qed.

(** ** Retries *)

Lemma step_idempotency s t key id :
  eff_change s t -> es_idempotency s !! key = Some id -> es_idempotency t !! key = Some id.
Proof.
  intros [(_ & Hi & _) | f _ _ _ _ Hk _ Hi _ _ _ | ? ? ? _ _ _ _ Hi _ _ _ | ? ? ? ? ? _ _ _ _ _ Hi _ _ _
    | ? ? ? ? _ _ _ Hi _ _ _ | ? _ _ _ _ _ Hi _ _ _ | ? ? ? _ _ _ Hi _ _ _] Hl; rewrite Hi; try done.
  by rewrite lookup_insert_ne by congruence.
Qed.

Lemma history_idempotency s t key id :
  store_wf s -> eff_reaches s t -> es_idempotency s !! key = Some id -> es_idempotency t !! key = Some id.
Proof.
  intros Hwf Hr. induction Hr as [s | s s' t Hs _ IH]; [done |]. intros Hl.
  apply IH; [by eapply eff_step_wf |]. eapply step_idempotency; [by apply eff_step_change | done].
Qed.

(** A proposal that CreateEffect looks up. *)
Definition proposal (f : EffectFactV2) : Prop :=
  EffectFactV2_Validate f = Ok tt /\ f_State f = EffectProposed /\ f_Revision f = 1.

Lemma create_found f g s :
  proposal f ->
  es_effects s !! i_ID (f_Intent f) = Some g
  \/ (es_effects s !! i_ID (f_Intent f) = None
      /\ exists id, es_idempotency s !! effectIdempotencyKeyV2 f = Some id /\ es_effects s !! id = Some g) ->
  CreateEffect CtxLive f s
  = (s, if bool_decide (f_IntentDigest g = f_IntentDigest f) then Ok (cloneEffectFactV2 g)
        else Err (NewError ErrorConflict ReasonIdempotencyPayloadMismatch)).
Proof.
  intros (Hv & Hs & Hr) Hl. unfold CreateEffect, replay_created, st_guard, st_err. st_go. cbn [contextError].
  rewrite Hv, Hs, Hr. cbn [N.eqb Pos.eqb negb orb]. go_decide. cbn [negb orb guard].
  destruct Hl as [Hl | (Hn & id & Hk & Hl)].
  - rewrite Hl. by case_bool_decide.
  - rewrite Hn, Hk. unfold get_effect. rewrite Hl. cbn. by case_bool_decide.
Qed.

Lemma create_Ok_new ctx f s t g :
  CreateEffect ctx f s = (t, Ok g) -> es_effects s !! i_ID (f_Intent f) = None ->
  es_idempotency s !! effectIdempotencyKeyV2 f = None ->
  proposal f /\ g = cloneEffectFactV2 f /\ es_effects t !! i_ID (f_Intent f) = Some g
  /\ es_idempotency t !! effectIdempotencyKeyV2 f = Some (i_ID (f_Intent f)).
Proof.
  intros E Hn Hk. unfold CreateEffect, replay_created, put_effect, st_guard, st_err in E. st_exec E; try congruence.
  all: match goal with H : guard _ _ _ = Ok _ |- _ => apply guard_Ok in H; go_bool; destruct H end.
  all: cbn; rewrite !lookup_insert_eq; by units.
Qed.

(** CreateEffect is idempotent and binds its keys for good.  After a create
    that stored a new effect, the same call answers with the current fact of
    that effect, whatever happened to it in between, and changes nothing; a
    proposal with other content under the same id, or under the same idempotency
    key, is refused as a mismatch. *)
Theorem create_idempotent (s t u : EffectStoreV2) (ctx : Context) (f g : EffectFactV2)
    (Hs : eff_reachable s) (Hn : es_effects s !! i_ID (f_Intent f) = None)
    (Hk : es_idempotency s !! effectIdempotencyKeyV2 f = None)
    (Hc : CreateEffect ctx f s = (t, Ok g)) (Hu : eff_reaches t u) :
  (exists h, CreateEffect CtxLive f u = (u, Ok h) /\ effect_extends g h)
  /\ forall f', proposal f' -> f_IntentDigest f' <> f_IntentDigest f ->
       (i_ID (f_Intent f') = i_ID (f_Intent f)
        \/ (es_effects u !! i_ID (f_Intent f') = None /\ effectIdempotencyKeyV2 f' = effectIdempotencyKeyV2 f)) ->
       CreateEffect CtxLive f' u = (u, Err (NewError ErrorConflict ReasonIdempotencyPayloadMismatch)).
Proof.
  destruct (create_Ok_new _ _ _ _ _ Hc Hn Hk) as (Hp & -> & He & Hi).
  assert (store_wf t) as Hwf.
  { eapply eff_step_wf; [by apply reachable_wf |]. replace t with (fst (CreateEffect ctx f s)) by (by rewrite Hc). constructor. }
  destruct (history_effect t u _ _ Hwf Hu He) as (h & Hh & Hx).
  pose proof (history_idempotency t u _ _ Hwf Hu Hi) as Hiu.
  assert (f_IntentDigest h = f_IntentDigest f) as Ed by (apply (ext_digest _ _ Hx)).
  split.
  - exists (cloneEffectFactV2 h). rewrite (create_found f h) by auto. rewrite bool_decide_eq_true_2 by done.
    split; [done |]. etrans; [exact Hx | apply clone_extends].
  - intros f' Hp' Hd Hid. rewrite (create_found f' h); [| done |].
    + by rewrite bool_decide_eq_false_2 by congruence.
    + destruct Hid as [-> | [Hn' ->]]; [by left | right]. split; [done |]. by exists (i_ID (f_Intent f)).
Qed.

(** The permit fact that an issue stores answers its retry. *)
Lemma issue_checks_replays effect request now next permit :
  i_ID (f_Intent effect) = iss_EffectID request -> issue_checks effect request now = Ok (next, permit) ->
  issue_replays permit request = true.
Proof.
  intros Hid Hc. pose proof (issue_checks_Ok _ _ _ _ _ Hc) as (_ & _ & Hp & _ & _ & _ & _ & _ & _ & Hd).
  unfold issue_checks in Hc. apply seq_guard_Ok in Hc as [_ Hc]. apply seq_guard_Ok in Hc as [_ Hc].
  apply seq_guard_Ok in Hc as [Hf Hc]. do 2 apply seq_Ok in Hc as [_ Hc]. injection Hc as _ <-.
  destruct (DigestExecutionFenceV2 (iss_Fence request)) as [d |] eqn:Ed; [| done].
  apply negb_false_iff, bool_decide_eq_true in Hf. subst d.
  unfold permit_drifted in Hd. rewrite !orb_false_iff, negb_false_iff, bool_decide_eq_true in Hd. destruct_and? Hd.
  unfold issue_replays. cbn. rewrite Ed. cbn. rewrite !andb_true_iff, !bool_decide_eq_true.
  repeat split; congruence.
Qed.

Lemma replays_extends p q request : permit_extends p q -> issue_replays p request = issue_replays q request.
Proof.
  intros Hx. unfold issue_replays. by rewrite (px_permit _ _ Hx), (px_digest _ _ Hx), (px_fence _ _ Hx).
Qed.

Lemma issue_stored ctx now request s t r p :
  store_wf s -> es_permits s !! p_ID (iss_Permit request) = None ->
  IssueDispatchPermit ctx now request s = (t, r) -> es_permits t !! p_ID (iss_Permit request) = Some p ->
  DispatchPermitV2_Validate (iss_Permit request) = Ok tt /\ ExecutionFence_Validate (iss_Fence request) = Ok tt
  /\ issue_replays p request = true.
Proof.
  intros Hwf Hn E Hp. unfold IssueDispatchPermit, lose_reply, put_effect, put_permit, st_guard, st_err in E.
  st_exec E; try congruence; units.
  all: match goal with H : issue_checks _ _ _ = Ok ?r |- _ => destruct r as [next permit] end.
  all: cbn in Hp; rewrite lookup_insert_eq in Hp; injection Hp as <-; split; [done | split; [done |]].
  all: match goal with W : store_wf _, He : es_effects _ !! _ = Some _, Hc : issue_checks _ _ _ = _ |- _ =>
         exact (issue_checks_replays _ _ _ _ _ (proj1 (wf_effect _ W _ _ He)) Hc) end.
Qed.

(** a lost reply of IssueDispatchPermit is recoverable: if the call stored the
    permit, whether it answered or reported the reply as lost, then the same
    request at any later time is answered with the current fact of that permit,
    changes nothing and issues nothing. *)
Theorem issue_recoverable (s t u : EffectStoreV2) (ctx : Context) (now now' : Time)
    (request : IssueDispatchPermitRequestV2) (r : result (EffectFactV2 * DispatchPermitFactV2))
    (p : DispatchPermitFactV2)
    (Hs : eff_reachable s) (Hn : es_permits s !! p_ID (iss_Permit request) = None)
    (Hi : IssueDispatchPermit ctx now request s = (t, r))
    (Hp : es_permits t !! p_ID (iss_Permit request) = Some p) (Hu : eff_reaches t u) :
  exists e q, IssueDispatchPermit CtxLive now' request u = (u, Ok (e, clonePermitFactV2 q))
    /\ es_permits u !! p_ID (iss_Permit request) = Some q /\ permit_extends p q.
Proof.
  pose proof (reachable_wf s Hs) as Hwf.
  destruct (issue_stored _ _ _ _ _ _ _ Hwf Hn Hi Hp) as (Vp & Vf & Hr).
  assert (store_wf t) as Hwt.
  { eapply eff_step_wf; [done |]. replace t with (fst (IssueDispatchPermit ctx now request s)) by (by rewrite Hi). constructor. }
  destruct (history_permit t u _ _ Hwt Hu Hp) as (q & Hq & Hx).
  pose proof (replays_extends _ _ request Hx) as Hrq. rewrite Hr in Hrq.
  unfold IssueDispatchPermit. st_go. cbn [contextError]. rewrite Vp, Vf, Hq, <- Hrq.
  do 2 eexists. split; [reflexivity | by split].
Qed.

End life.
