(* ===== verification/EffectRuns.v ===== *)
(** * The effect store: successful calls and concrete histories

    The exact successor state of a successful call of each method, histories of
    the store built from them, the instances of the theorems of EffectSafety on
    those histories, and histories that show what the store does not check. *)

From stdpp Require Import gmap strings relations.
From S2P Require Import Prelude GoStd Errors Identity Sha256 Fence Json Canonical Payload EffectContract EffectFact EffectFlow BudgetFact FactStore EffectStore EffectSafety EffectLife.

Local Open Scope N_scope.

(** ** Successor states *)

Definition created (f : EffectFactV2) (s : EffectStoreV2) : EffectStoreV2 :=
  set_es_idempotency (<[effectIdempotencyKeyV2 f := i_ID (f_Intent f)]> (es_idempotency s))
    (set_es_effects (<[i_ID (f_Intent f) := cloneEffectFactV2 f]> (es_effects s)) s).

Definition accepts (current next : EffectFactV2) : bool :=
  bool_decide (f_State current = EffectProposed) && bool_decide (f_State next = EffectAccepted).

Definition swapped (current next : EffectFactV2) (s : EffectStoreV2) : EffectStoreV2 :=
  let occupied := if accepts current next
                  then <[conflict_key current := i_ID (f_Intent current)]> (es_conflicts s) else es_conflicts s in
  set_es_conflicts (if ConflictDomainOccupied next then occupied else delete (conflict_key next) occupied)
    (set_es_effects (<[i_ID (f_Intent next) := cloneEffectFactV2 next]> (es_effects s)) s).

Lemma set_conflicts_id s : set_es_conflicts (es_conflicts s) s = s.
Proof. by destruct s. Qed.

Lemma clone_conflict_key f : conflict_key (cloneEffectFactV2 f) = conflict_key f.
Proof. unfold conflict_key. by rewrite clone_conflict. Qed.

Lemma clone_clone f : cloneEffectFactV2 (cloneEffectFactV2 f) = cloneEffectFactV2 f.
Proof.
  destruct f as [[? ? ? ? ? ? ? ? [? ? ? [[|] |] ? ?] ? ? ? ? ? ? ? ? ? ? ? [[|] |]] ? ? ? ? ? ? ? ? ? ? ? ? ? ?]; done.
Qed.

Section runs.
Context `{ZoneDatabase}.

Lemma create_run f s :
  EffectFactV2_Validate f = Ok tt -> f_State f = EffectProposed -> f_Revision f = 1 ->
  es_effects s !! i_ID (f_Intent f) = None -> es_idempotency s !! effectIdempotencyKeyV2 f = None ->
  CreateEffect CtxLive f s = (created f s, Ok (cloneEffectFactV2 f)).
Proof.
  intros Hv Hs Hr Hn Hk. unfold CreateEffect, st_guard. st_go. cbn [contextError].
  rewrite Hv, Hs, Hr. cbn. by rewrite Hn, Hk.
Qed.

Lemma cas_run current next now s :
  es_effects s !! i_ID (f_Intent next) = Some current ->
  ValidateEffectFactTransitionV2 current next (transition_context s current next now) now = Ok tt ->
  (accepts current next = true ->
   forall id, es_conflicts s !! conflict_key current = Some id -> id = i_ID (f_Intent current)) ->
  es_loseEffectCAS s = false ->
  CompareAndSwapEffect CtxLive now {| cas_ExpectedRevision := f_Revision current; cas_Next := next |} s
  = (swapped current next s, Ok (cloneEffectFactV2 next)).
Proof.
  intros Hl Hv Hc Hf. unfold CompareAndSwapEffect, occupy_conflict, release_conflict, lose_reply, st_guard. st_go.
  cbn [contextError cas_Next cas_ExpectedRevision]. rewrite Hl, N.eqb_refl. cbn [negb]. rewrite Hv.
  assert (accepts current next = true ->
          match es_conflicts s !! conflict_key current with
          | Some id => negb (bool_decide (id = i_ID (f_Intent current)))
          | None => false
          end = false) as Hg.
  { intros Ha. destruct (es_conflicts s !! _) as [id |] eqn:E; [| done]. by rewrite (Hc Ha id eq_refl), bool_decide_eq_true_2. }
  unfold swapped. unfold conflict_key, accepts in *. clear Hc Hv Hl.
  destruct (_ && _); [rewrite Hg by done |]; clear Hg;
    destruct s; cbn -[cloneEffectFactV2]; rewrite clone_occupied, ?clone_ID, clone_clone, clone_conflict;
    destruct (ConflictDomainOccupied next); cbn -[cloneEffectFactV2] in *; by rewrite Hf.
Qed.
Lemma issue_run request effect next permit now s :
  es_effects s !! iss_EffectID request = Some effect -> f_State effect = EffectAccepted ->
  f_Revision effect = iss_ExpectedEffectRevision request ->
  DispatchPermitV2_Validate (iss_Permit request) = Ok tt -> ExecutionFence_Validate (iss_Fence request) = Ok tt ->
  es_permits s !! p_ID (iss_Permit request) = None ->
  issue_checks effect request now = Ok (next, permit) -> es_loseIssue s = false ->
  IssueDispatchPermit CtxLive now request s
  = (set_es_permits (<[p_ID (iss_Permit request) := clonePermitFactV2 permit]> (es_permits s))
       (set_es_effects (<[i_ID (f_Intent next) := cloneEffectFactV2 next]> (es_effects s)) s),
     Ok (cloneEffectFactV2 next, clonePermitFactV2 permit)).
Proof.
  intros Hl Ha Hr Hp Hf Hn Hok Hlose. unfold IssueDispatchPermit, lose_reply, put_effect, put_permit, st_guard. st_go.
  cbn [contextError]. rewrite Hp, Hf, Hn, Hl, Hr, Ha, N.eqb_refl, Hok. cbn -[cloneEffectFactV2].
  by rewrite clone_ID, Hlose.
Qed.

Lemma begin_run effect permit next now request s :
  es_effects s !! bg_EffectID request = Some effect -> es_permits s !! bg_PermitID request = Some permit ->
  f_State effect = EffectDispatchIntent -> f_Revision effect = bg_ExpectedEffectRevision request ->
  f_DispatchPermitID effect = bg_PermitID request -> pf_Revision permit = bg_ExpectedPermitRevision request ->
  pf_EffectFactRevision permit = f_Revision effect -> p_ID (pf_Permit permit) = bg_PermitID request ->
  next = begin_permit now permit -> ValidateDispatchPermitTransitionV2 permit next now = Ok tt ->
  es_loseBegin s = false ->
  BeginDispatch CtxLive now request s
  = (set_es_permits (<[bg_PermitID request := clonePermitFactV2 next]> (es_permits s)) s, Ok (clonePermitFactV2 next)).
Proof.
  intros He Hp Hs Hr Hi Hpr Her Hid -> Hv Hlose. unfold BeginDispatch, lose_reply, put_permit, st_guard. st_go.
  cbn [contextError]. rewrite He, Hp, Hs, Hr, Hi, Hpr, Her, Hr, Hid, Hv, !N.eqb_refl. go_decide. cbn. by rewrite Hlose.
Qed.

Lemma receipt_run request current next now s :
  EnforcementReceiptV2_Validate (re_Receipt request) = Ok tt ->
  es_permits s !! re_PermitID request = Some current -> pf_Enforcement current = None ->
  pf_Revision current = re_ExpectedPermitRevision request ->
  next = set_permit_progress (pf_State current) (u64_succ (pf_Revision current)) (pf_BegunUnixNano current)
           (Some (re_Receipt request)) current ->
  ValidateDispatchPermitTransitionV2 current next now = Ok tt -> es_loseReceipt s = false ->
  RecordEnforcementReceipt CtxLive now request s
  = (set_es_permits (<[re_PermitID request := clonePermitFactV2 next]> (es_permits s)) s, Ok (clonePermitFactV2 next)).
Proof.
  intros Hr Hp He Hrev -> Hv Hlose. unfold RecordEnforcementReceipt, lose_reply, put_permit, st_guard. st_go.
  cbn [contextError]. rewrite Hr, Hp, He, Hrev, N.eqb_refl. rewrite Hrev in Hv. rewrite Hv. cbn. by rewrite Hlose.
Qed.

End runs.

(** ** One effect, from proposal to dispatch *)

Definition utc : ZoneDatabase := fun _ => 0%Z.

(** A fact of an intent without residual or cleanup duties. *)
Definition ex_fact (intent : EffectIntentV2) (digest : Digest) (state : EffectFactStateV2) (revision : N)
    (permit : string * Digest) (receipt : option ProviderDispatchReceiptV2) (reason : string) (at_ : Z) : EffectFactV2 :=
  {| f_Intent := intent; f_IntentDigest := digest; f_State := state; f_Revision := revision;
     f_DispatchPermitID := fst permit; f_DispatchPermitDigest := snd permit; f_DispatchReceipt := receipt;
     f_Settlement := None; f_Compensation := None; f_RemoteResidual := RemoteResidualNotRequired;
     f_ResidualResolution := None; f_Cleanup := EffectCleanupNotRequired; f_CleanupResolution := None;
     f_RejectionReason := reason; f_UpdatedUnixNano := at_ |}.
Definition no_permit : string * Digest := ("", "").
Definition proposed (i : EffectIntentV2) (d : Digest) : EffectFactV2 := ex_fact i d EffectProposed 1 no_permit None "" 1000.
Definition accepted (i : EffectIntentV2) (d : Digest) : EffectFactV2 := ex_fact i d EffectAccepted 2 no_permit None "" 2000.
Definition rejected (i : EffectIntentV2) (d : Digest) : EffectFactV2 :=
  ex_fact i d EffectRejected 2 no_permit None "withdrawn" 2000.

Definition digest_of (r : result Digest) : Digest := match r with Ok d => d | Err _ => "" end.
Definition ex_digest_1 : Digest := Eval vm_compute in digest_of (EffectIntentV2_DigestV2 ex_intent_1).
Lemma ex_digest_1_eq : EffectIntentV2_DigestV2 ex_intent_1 = Ok ex_digest_1.
Proof. vm_cast_no_check (eq_refl (Ok ex_digest_1 : result Digest)). Qed.

Definition ex_dispatch_fence : ExecutionFence :=
  {| fence_BoundaryScope := FenceBoundaryInstance; fence_Scope := ex_bound_scope;
     fence_CapabilityGrantDigest := ex_digest; fence_EffectIntentID := "effect-1";
     fence_EffectIntentRevision := 1; fence_CanonicalPayloadDigest := ex_digest;
     fence_ExpiresAt := UnixTime 2000000000000000000 |}.
Definition ex_fence_digest : Digest := Eval vm_compute in digest_of (@DigestExecutionFenceV2 utc ex_dispatch_fence).
Lemma ex_fence_digest_eq : @DigestExecutionFenceV2 utc ex_dispatch_fence = Ok ex_fence_digest.
Proof. vm_cast_no_check (eq_refl (Ok ex_fence_digest : result Digest)). Qed.

Definition ex_permit_1 : DispatchPermitV2 :=
  let i := ex_intent_1 in
  {| p_ContractVersion := EffectContractVersionV2; p_ID := "permit-1"; p_Revision := 1; p_AttemptID := "attempt-1";
     p_IntentID := i_ID i; p_IntentRevision := i_Revision i; p_IntentDigest := ex_digest_1;
     p_PayloadSchema := ex_schema; p_PayloadDigest := ex_digest; p_PayloadRevision := 1; p_Scope := i_Scope i;
     p_RunID := i_RunID i; p_ConflictDomain := i_ConflictDomain i; p_Provider := i_Provider i;
     p_EnforcementPoint := i_Provider i; p_Authority := i_Authority i; p_Review := i_Review i;
     p_ReviewVerdictDigest := ex_digest; p_ReviewVerdictRevision := 1; p_ReviewSatisfactionRef := "";
     p_ReviewSatisfactionDigest := ""; p_ReviewSatisfactionRevision := 0; p_Budget := i_Budget i;
     p_Policy := i_Policy i; p_CurrentScope := i_CurrentScope i; p_CapabilityGrantDigest := ex_digest;
     p_CredentialGrantDigest := ex_digest; p_FenceDigest := ex_fence_digest; p_Idempotency := i_Idempotency i;
     p_IssuedUnixNano := 3000; p_ExpiresUnixNano := 9000 |}.
Definition ex_permit_digest : Digest := Eval vm_compute in digest_of (DispatchPermitV2_DigestV2 ex_permit_1).
Lemma ex_permit_digest_eq : DispatchPermitV2_DigestV2 ex_permit_1 = Ok ex_permit_digest.
Proof. vm_cast_no_check (eq_refl (Ok ex_permit_digest : result Digest)). Qed.

Definition ex_permit_fact (state : DispatchPermitStateV2) (revision : N) (begun : Z)
    (enforcement : option EnforcementReceiptV2) : DispatchPermitFactV2 :=
  {| pf_Permit := ex_permit_1; pf_PermitDigest := ex_permit_digest; pf_Fence := ex_dispatch_fence; pf_State := state;
     pf_Revision := revision; pf_EffectFactRevision := 3; pf_BegunUnixNano := begun; pf_Enforcement := enforcement |}.

Definition ex_enforcement (validated : Z) : EnforcementReceiptV2 :=
  {| er2_ContractVersion := EffectContractVersionV2; er2_PermitID := "permit-1"; er2_PermitRevision := 1;
     er2_AttemptID := "attempt-1"; er2_PermitDigest := ex_permit_digest; er2_Verifier := ex_provider;
     er2_ValidatedAt := validated; er2_Attestation := None |}.
Definition ex_receipt : ProviderDispatchReceiptV2 :=
  {| dr_PermitID := "permit-1"; dr_PermitDigest := ex_permit_digest; dr_AttemptID := "attempt-1";
     dr_IntentID := "effect-1"; dr_IntentRevision := 1; dr_Provider := ex_provider;
     dr_ProviderOperationRef := "operation-1"; dr_ReceiptRef := "receipt-1"; dr_ObservationDigest := ex_digest; dr_ObservedUnixNano := 5500 |}.

Definition ex_bound : string * Digest := ("permit-1", ex_permit_digest).
Definition ex_proposed : EffectFactV2 := proposed ex_intent_1 ex_digest_1.
Definition ex_accepted : EffectFactV2 := accepted ex_intent_1 ex_digest_1.
Definition ex_authorized : EffectFactV2 := ex_fact ex_intent_1 ex_digest_1 EffectDispatchIntent 3 ex_bound None "" 3000.
Definition ex_dispatched : EffectFactV2 := ex_fact ex_intent_1 ex_digest_1 EffectDispatched 4 ex_bound (Some ex_receipt) "" 6000.

Lemma Digest_ok_Validate i d : EffectIntentV2_DigestV2 i = Ok d -> EffectIntentV2_Validate i = Ok tt.
Proof. unfold EffectIntentV2_DigestV2. by intros [? _]%seq_Ok. Qed.

(** Facts and their transitions with the digest of the intent rewritten, and the
    rest evaluated. *)
Ltac fact_valid E :=
  unfold EffectFactV2_Validate; cbn [f_Intent ex_fact];
  rewrite (Digest_ok_Validate _ _ E), E; vm_compute; reflexivity.
Ltac fact_moves Vc Vn := unfold ValidateEffectFactTransitionV2; rewrite Vc, Vn; vm_compute; reflexivity.

Lemma ex_proposed_valid : EffectFactV2_Validate ex_proposed = Ok tt.
Proof. unfold ex_proposed, proposed. fact_valid ex_digest_1_eq. Qed.
Lemma ex_accepted_valid : EffectFactV2_Validate ex_accepted = Ok tt.
Proof. unfold ex_accepted, accepted. fact_valid ex_digest_1_eq. Qed.
Lemma ex_authorized_valid : EffectFactV2_Validate ex_authorized = Ok tt.
Proof. unfold ex_authorized. fact_valid ex_digest_1_eq. Qed.
Lemma ex_dispatched_valid : EffectFactV2_Validate ex_dispatched = Ok tt.
Proof. unfold ex_dispatched. fact_valid ex_digest_1_eq. Qed.

#[local] Existing Instance utc.

Lemma ex_permit_1_valid : DispatchPermitV2_Validate ex_permit_1 = Ok tt.
Proof. vm_compute. reflexivity. Qed.
Lemma ex_fence_valid : ExecutionFence_Validate ex_dispatch_fence = Ok tt.
Proof. vm_compute. reflexivity. Qed.

Ltac permit_valid :=
  unfold DispatchPermitFactV2_Validate, fence_unbound; cbn [pf_Permit pf_Fence ex_permit_fact];
  rewrite ex_permit_1_valid, ex_permit_digest_eq, ex_fence_digest_eq; vm_compute; reflexivity.
Ltac permit_moves Vp Vq := unfold ValidateDispatchPermitTransitionV2; rewrite Vp, Vq; vm_compute; reflexivity.

Definition ex_issued : DispatchPermitFactV2 := ex_permit_fact DispatchPermitIssued 1 0 None.
Definition ex_begun : DispatchPermitFactV2 := ex_permit_fact DispatchPermitBegun 2 4000 None.
Definition ex_enforced : DispatchPermitFactV2 := ex_permit_fact DispatchPermitBegun 3 4000 (Some (ex_enforcement 4500)).

Lemma ex_issued_valid : DispatchPermitFactV2_Validate ex_issued = Ok tt.
Proof. unfold ex_issued. permit_valid. Qed.
Lemma ex_begun_valid : DispatchPermitFactV2_Validate ex_begun = Ok tt.
Proof. unfold ex_begun. permit_valid. Qed.
Lemma ex_enforced_valid : DispatchPermitFactV2_Validate ex_enforced = Ok tt.
Proof. unfold ex_enforced. permit_valid. Qed.

(** The calls of the history, one after the other. *)
Definition ex_issue_request : IssueDispatchPermitRequestV2 :=
  {| iss_EffectID := "effect-1"; iss_ExpectedEffectRevision := 2; iss_Permit := ex_permit_1; iss_Fence := ex_dispatch_fence |}.
Definition ex_begin_request : BeginDispatchRequestV2 :=
  {| bg_EffectID := "effect-1"; bg_ExpectedEffectRevision := 3; bg_PermitID := "permit-1"; bg_ExpectedPermitRevision := 1 |}.
Definition ex_receipt_request : RecordEnforcementReceiptRequestV2 :=
  {| re_PermitID := "permit-1"; re_ExpectedPermitRevision := 2; re_Receipt := ex_enforcement 4500 |}.
Definition ex_cas (revision : N) (next : EffectFactV2) : EffectFactCASRequestV2 :=
  {| cas_ExpectedRevision := revision; cas_Next := next |}.

Definition run_1 : EffectStoreV2 := fst (CreateEffect CtxLive ex_proposed NewEffectStoreV2).
Definition run_2 : EffectStoreV2 := fst (CompareAndSwapEffect CtxLive (UnixTime 2000) (ex_cas 1 ex_accepted) run_1).
Definition run_3 : EffectStoreV2 := fst (IssueDispatchPermit CtxLive (UnixTime 3000) ex_issue_request run_2).
Definition run_4 : EffectStoreV2 := fst (BeginDispatch CtxLive (UnixTime 4000) ex_begin_request run_3).
Definition run_5 : EffectStoreV2 := fst (RecordEnforcementReceipt CtxLive (UnixTime 5000) ex_receipt_request run_4).
Definition run_6 : EffectStoreV2 := fst (CompareAndSwapEffect CtxLive (UnixTime 6000) (ex_cas 3 ex_dispatched) run_5).

(** The state after each of them, as one literal. *)
Definition ex_store (effect : EffectFactV2) (conflicts : gmap string string) (permits : gmap string DispatchPermitFactV2)
  : EffectStoreV2 :=
  {| es_effects := {["effect-1" := effect]}; es_idempotency := {[effectIdempotencyKeyV2 ex_proposed := "effect-1"]};
     es_conflicts := conflicts; es_permits := permits; es_budgets := ∅; es_loseIssue := false; es_loseBegin := false;
     es_loseReceipt := false; es_losePermitCAS := false; es_loseEffectCAS := false |}.
Definition ex_holder : gmap string string := {[conflict_key ex_proposed := "effect-1"]}.

Lemma run_1_eq : run_1 = ex_store ex_proposed ∅ ∅.
Proof. unfold run_1. rewrite create_run; [reflexivity | exact ex_proposed_valid | reflexivity ..]. Qed.

Lemma ex_accept s :
  transition_context s ex_proposed ex_accepted (UnixTime 2000) = empty_context ->
  ValidateEffectFactTransitionV2 ex_proposed ex_accepted (transition_context s ex_proposed ex_accepted (UnixTime 2000))
    (UnixTime 2000) = Ok tt.
Proof. intros ->. fact_moves ex_proposed_valid ex_accepted_valid. Qed.

Lemma run_2_eq : run_2 = ex_store ex_accepted ex_holder ∅.
Proof.
  unfold run_2. rewrite run_1_eq. unfold ex_cas.
  rewrite (cas_run ex_proposed); [reflexivity | reflexivity | by apply ex_accept | done | reflexivity].
Qed.

Lemma ex_issue_checks : issue_checks ex_accepted ex_issue_request (UnixTime 3000) = Ok (ex_authorized, ex_issued).
Proof.
  unfold issue_checks. cbn [iss_Permit iss_Fence ex_issue_request f_Intent ex_accepted accepted ex_fact].
  rewrite ex_digest_1_eq, ex_permit_digest_eq, ex_fence_digest_eq. cbn [digest_or_zero].
  unfold ValidateEffectFactTransitionV2.
  change (authorize_effect _ _ _ _) with ex_authorized. rewrite ex_accepted_valid, ex_authorized_valid.
  change {| pf_Permit := _ |} with ex_issued. rewrite ex_issued_valid. vm_compute. reflexivity.
Qed.

Lemma run_3_eq : run_3 = ex_store ex_authorized ex_holder {["permit-1" := ex_issued]}.
Proof.
  unfold run_3. rewrite run_2_eq.
  rewrite (issue_run ex_issue_request ex_accepted ex_authorized ex_issued);
    [reflexivity .. | exact ex_permit_1_valid | exact ex_fence_valid | reflexivity | exact ex_issue_checks | reflexivity].
Qed.

Lemma ex_begin_moves : ValidateDispatchPermitTransitionV2 ex_issued ex_begun (UnixTime 4000) = Ok tt.
Proof. permit_moves ex_issued_valid ex_begun_valid. Qed.
Lemma run_4_eq : run_4 = ex_store ex_authorized ex_holder {["permit-1" := ex_begun]}.
Proof.
  unfold run_4. rewrite run_3_eq.
  rewrite (begin_run ex_authorized ex_issued ex_begun); [reflexivity .. | exact ex_begin_moves | reflexivity].
Qed.

Lemma ex_enforce_moves : ValidateDispatchPermitTransitionV2 ex_begun ex_enforced (UnixTime 5000) = Ok tt.
Proof. permit_moves ex_begun_valid ex_enforced_valid. Qed.
Lemma run_5_eq : run_5 = ex_store ex_authorized ex_holder {["permit-1" := ex_enforced]}.
Proof.
  unfold run_5. rewrite run_4_eq.
  rewrite (receipt_run ex_receipt_request ex_begun ex_enforced); [reflexivity .. | exact ex_enforce_moves | reflexivity].
Qed.

Definition dispatch_context : EffectTransitionContextV2 :=
  {| PermitBegun := true; DispatchReceiptMatched := true; SettlementOwnerMatched := false;
     UnknownInspectionSettled := false; CompensationSettled := false; ResidualInspectSettled := false;
     CleanupEffectSettled := false |}.

Lemma run_6_eq : run_6 = ex_store ex_dispatched ex_holder {["permit-1" := ex_enforced]}.
Proof.
  unfold run_6. rewrite run_5_eq. unfold ex_cas.
  rewrite (cas_run ex_authorized); [reflexivity | reflexivity | | done | reflexivity].
  change (transition_context _ _ _ _) with dispatch_context. fact_moves ex_authorized_valid ex_dispatched_valid.
Qed.

Lemma run_1_reachable : eff_reachable run_1.
Proof. apply rtc_once, step_create. Qed.
Lemma run_2_step : eff_step run_1 run_2. Proof. apply step_cas. Qed.
Lemma run_3_step : eff_step run_2 run_3. Proof. apply step_issue. Qed.
Lemma run_4_step : eff_step run_3 run_4. Proof. apply step_begin. Qed.
Lemma run_5_step : eff_step run_4 run_5. Proof. apply step_receipt. Qed.
Lemma run_6_step : eff_step run_5 run_6. Proof. apply step_cas. Qed.
Lemma run_4_reachable : eff_reachable run_4.
Proof.
  refine (transitivity (R := rtc eff_step) run_1_reachable _).
  eapply rtc_l; [exact run_2_step |]. eapply rtc_l; [exact run_3_step |]. exact (rtc_once _ _ run_4_step).
Qed.
Lemma run_6_reaches : eff_reaches run_4 run_6.
Proof. eapply rtc_l; [apply run_5_step |]. apply rtc_once, run_6_step. Qed.
Lemma run_6_reachable : eff_reachable run_6.
Proof. exact (transitivity (R := rtc eff_step) run_4_reachable run_6_reaches). Qed.

Lemma effect_history_witness :
  exists g, es_effects run_6 !! "effect-1" = Some g /\ effect_extends ex_authorized g.
Proof.
  refine (effect_history run_4 run_6 "effect-1" ex_authorized run_4_reachable run_6_reaches _).
  rewrite run_4_eq. reflexivity.
Defined.

Lemma dispatch_write_ahead_witness :
  exists p, es_permits run_6 !! f_DispatchPermitID ex_dispatched = Some p /\ pf_State p = DispatchPermitBegun.
Proof.
  refine (dispatch_write_ahead run_6 run_6 "effect-1" ex_dispatched run_6_reachable _ _ (rtc_refl _ _)).
  - rewrite run_6_eq. reflexivity.
  - left. reflexivity.
Defined.

Lemma begin_at_most_once_witness :
  exists e, BeginDispatch CtxLive (UnixTime 7000) ex_begin_request run_6 = (run_6, Err e).
Proof.
  refine (begin_at_most_once run_4 run_6 ex_begun CtxLive (UnixTime 7000) ex_begin_request run_4_reachable _ eq_refl
            run_6_reaches).
  rewrite run_4_eq. reflexivity.
Defined.

Lemma lives_bounded_witness :
  (forall id f, es_effects run_6 !! id = Some f -> f_Revision f <= 8)
  /\ (forall id p, es_permits run_6 !! id = Some p -> pf_Revision p <= 3)
  /\ (forall ref b, es_budgets run_6 !! ref = Some b -> b_Revision b <= 3).
Proof. exact (lives_bounded run_6 run_6_reachable). Defined.

Lemma run_1_reaches : eff_reaches run_1 run_6.
Proof.
  refine (rtc_l _ _ run_2 _ run_2_step (rtc_l _ _ run_3 _ run_3_step (rtc_l _ _ run_4 _ run_4_step run_6_reaches))).
Qed.

Lemma create_idempotent_witness :
  exists h, CreateEffect CtxLive ex_proposed run_6 = (run_6, Ok h) /\ effect_extends ex_proposed h.
Proof.
  refine (proj1 (create_idempotent NewEffectStoreV2 run_1 run_6 CtxLive ex_proposed ex_proposed (rtc_refl _ _)
                   eq_refl eq_refl _ run_1_reaches)).
  rewrite run_1_eq. rewrite create_run; [reflexivity | exact ex_proposed_valid | reflexivity ..].
Defined.

Lemma run_3_reaches : eff_reaches run_3 run_6.
Proof. exact (rtc_l _ _ run_4 _ run_4_step run_6_reaches). Qed.

Lemma issue_recoverable_witness :
  exists e q, IssueDispatchPermit CtxLive (UnixTime 8000) ex_issue_request run_6 = (run_6, Ok (e, clonePermitFactV2 q))
    /\ es_permits run_6 !! "permit-1" = Some q /\ permit_extends ex_issued q.
Proof.
  refine (issue_recoverable run_2 run_3 run_6 CtxLive (UnixTime 3000) (UnixTime 8000) ex_issue_request
            (snd (IssueDispatchPermit CtxLive (UnixTime 3000) ex_issue_request run_2)) ex_issued _ _ _ _ run_3_reaches).
  - exact (transitivity (R := rtc eff_step) run_1_reachable (rtc_once _ _ run_2_step)).
  - rewrite run_2_eq. reflexivity.
  - apply surjective_pairing.
  - rewrite run_3_eq. reflexivity.
Defined.

(** ** Mutual exclusion on a history *)

Lemma keeps_single f g c c' p p' :
  i_ConflictDomain (f_Intent g) = i_ConflictDomain (f_Intent f) -> ConflictDomainOccupied g = true ->
  keeps_domains (ex_store f c p) (ex_store g c' p').
Proof.
  intros Hd Ho id a b Ha Hb. cbn in Ha, Hb. apply lookup_singleton_Some in Ha as [<- <-], Hb as [_ <-].
  split; [done | congruence].
Qed.

Lemma run_2_governed : governed_reachable run_2.
Proof.
  eapply (rtc_l _ _ run_1).
  - split; [exact (step_create CtxLive ex_proposed NewEffectStoreV2) |].
    intros id f g Hf _. change (es_effects NewEffectStoreV2) with (∅ : gmap string EffectFactV2) in Hf.
    by rewrite lookup_empty in Hf.
  - apply rtc_once. split; [exact run_2_step |]. rewrite run_1_eq, run_2_eq. apply keeps_single; reflexivity.
Qed.

Lemma conflict_exclusive_witness :
  InspectConflictDomain CtxLive (i_ConflictDomain ex_intent_1) run_2 = (run_2, Ok ex_accepted).
Proof.
  refine (proj1 (proj2 (conflict_exclusive run_2 "effect-1" "effect-1" ex_accepted ex_accepted run_2_governed _ _ _ _ eq_refl)));
    try (rewrite run_2_eq; reflexivity); by split.
Defined.

(** ** What the store does not check *)

Definition sym_digest (i : EffectIntentV2) : Digest := hex_digest (intent_preimage i).

Lemma simple_fact_valid i d state revision reason at_ :
  EffectIntentV2_DigestV2 i = Ok d -> revision <> 0 -> (0 < at_)%Z ->
  match state with
  | EffectProposed | EffectAccepted => reason = ""
  | EffectRejected => reason <> ""
  | _ => False
  end ->
  EffectFactV2_Validate (ex_fact i d state revision no_permit None reason at_) = Ok tt.
Proof.
  intros Hd Hr Ha Hs. unfold EffectFactV2_Validate. cbn [f_Intent ex_fact].
  rewrite (Digest_ok_Validate _ _ Hd), Hd. cbn [f_IntentDigest f_Revision f_UpdatedUnixNano ex_fact].
  rewrite !bind_Ok_l, bool_decide_eq_true_2 by done. apply N.eqb_neq in Hr as ->.
  destruct (Z.leb_spec at_ 0) as [? | _]; [lia |].
  unfold state_evidence, empty. cbn. destruct state; try done; cbn; subst; try reflexivity.
  by rewrite bool_decide_eq_false_2.
Qed.

Lemma proposed_valid i d : EffectIntentV2_DigestV2 i = Ok d -> EffectFactV2_Validate (proposed i d) = Ok tt.
Proof. intros. by apply simple_fact_valid. Qed.
Lemma accepted_valid i d : EffectIntentV2_DigestV2 i = Ok d -> EffectFactV2_Validate (accepted i d) = Ok tt.
Proof. intros. by apply simple_fact_valid. Qed.
Lemma rejected_valid i d : EffectIntentV2_DigestV2 i = Ok d -> EffectFactV2_Validate (rejected i d) = Ok tt.
Proof. intros. by apply simple_fact_valid. Qed.

Lemma accept_moves i d c : EffectIntentV2_DigestV2 i = Ok d ->
  ValidateEffectFactTransitionV2 (proposed i d) (accepted i d) c (UnixTime 2000) = Ok tt.
Proof.
  intros Hd. apply effect_transition_iff. split; try done; [by apply proposed_valid | by apply accepted_valid | by left ..|].
  left. by split; [constructor |].
Qed.
Lemma reject_moves i d c : EffectIntentV2_DigestV2 i = Ok d ->
  ValidateEffectFactTransitionV2 (proposed i d) (rejected i d) c (UnixTime 2000) = Ok tt.
Proof.
  intros Hd. apply effect_transition_iff. split; try done; [by apply proposed_valid | by apply rejected_valid | by left ..|].
  left. by split; [constructor |].
Qed.

Lemma accepted_holds i d : holds_domain (accepted i d).
Proof. by split. Qed.
Lemma accepted_key i d j e : i_ConflictDomain i = i_ConflictDomain j -> conflict_key (accepted i d) = conflict_key (accepted j e).
Proof. unfold conflict_key. cbn. by intros ->. Qed.

(** Three intents of one conflict domain. *)
Definition ex_intent_2 : EffectIntentV2 := ex_intent "effect-2" "workspace".
Definition ex_intent_3 : EffectIntentV2 := ex_intent "effect-3" "workspace".
Lemma ex_digest_2_eq : EffectIntentV2_DigestV2 ex_intent_2 = Ok (sym_digest ex_intent_2).
Proof. apply intent_digest_total; vm_compute; reflexivity. Qed.
Lemma ex_digest_3_eq : EffectIntentV2_DigestV2 ex_intent_3 = Ok (sym_digest ex_intent_3).
Proof. apply intent_digest_total; vm_compute; reflexivity. Qed.

Lemma create_step i d s :
  EffectIntentV2_DigestV2 i = Ok d -> es_effects s !! i_ID i = None ->
  es_idempotency s !! effectIdempotencyKeyV2 (proposed i d) = None ->
  eff_step s (created (proposed i d) s).
Proof.
  intros Hd Hn Hk. change (created _ _) with (fst (created (proposed i d) s, Ok (E := error) (cloneEffectFactV2 (proposed i d)))).
  rewrite <- create_run by (done || by apply proposed_valid). apply step_create.
Qed.

Lemma cas_step current next now s :
  es_effects s !! i_ID (f_Intent next) = Some current ->
  ValidateEffectFactTransitionV2 current next (transition_context s current next now) now = Ok tt ->
  (accepts current next = true ->
   forall id, es_conflicts s !! conflict_key current = Some id -> id = i_ID (f_Intent current)) ->
  es_loseEffectCAS s = false -> eff_step s (swapped current next s).
Proof.
  intros Hl Hv Hc Hf. pose proof (cas_run current next now s Hl Hv Hc Hf) as E.
  apply (f_equal fst) in E. cbn [fst] in E. rewrite <- E. apply step_cas.
Qed.

(** effect-1 holds the domain; effect-2 is proposed in it and rejected; effect-3
    is proposed in it and accepted. *)
Section shared.
Variables d2 d3 : Digest.
Hypothesis E2 : EffectIntentV2_DigestV2 ex_intent_2 = Ok d2.
Hypothesis E3 : EffectIntentV2_DigestV2 ex_intent_3 = Ok d3.

Definition shared_1 : EffectStoreV2 := created (proposed ex_intent_2 d2) run_2.
Definition shared_2 : EffectStoreV2 := swapped (proposed ex_intent_2 d2) (rejected ex_intent_2 d2) shared_1.
Definition shared_3 : EffectStoreV2 := created (proposed ex_intent_3 d3) shared_2.
Definition shared_4 : EffectStoreV2 := swapped (proposed ex_intent_3 d3) (accepted ex_intent_3 d3) shared_3.

Lemma shared_reachable : eff_reachable shared_4.
Proof.
  refine (transitivity (R := rtc eff_step) run_1_reachable (rtc_l _ _ run_2 _ run_2_step _)).
  apply (rtc_l _ _ shared_1).
  { apply create_step; [exact E2 | rewrite run_2_eq; reflexivity ..]. }
  apply (rtc_l _ _ shared_2).
  { refine (cas_step (proposed ex_intent_2 d2) (rejected ex_intent_2 d2) (UnixTime 2000) shared_1 _ _ _ _);
      [unfold shared_1; rewrite run_2_eq; reflexivity | exact (reject_moves _ _ _ E2) | intros Ha; vm_compute in Ha; discriminate Ha
      | unfold shared_1; rewrite run_2_eq; reflexivity]. }
  apply (rtc_l _ _ shared_3).
  { apply create_step; [exact E3 | unfold shared_2, shared_1; rewrite run_2_eq; reflexivity ..]. }
  apply rtc_once.
  refine (cas_step (proposed ex_intent_3 d3) (accepted ex_intent_3 d3) (UnixTime 2000) shared_3 _ _ _ _);
    [| exact (accept_moves _ _ _ E3) | intros _ id Hid |]; unfold shared_3, shared_2, shared_1 in *; rewrite run_2_eq in *;
    [reflexivity | | reflexivity].
  vm_compute in Hid. discriminate Hid.
Qed.

Lemma shared_effects :
  es_effects shared_4 !! "effect-1" = Some ex_accepted
  /\ es_effects shared_4 !! "effect-3" = Some (accepted ex_intent_3 d3).
Proof. unfold shared_4, shared_3, shared_2, shared_1. rewrite run_2_eq. split; reflexivity. Qed.
End shared.

(** Rejecting a proposal deletes the index entry of its domain, whoever holds it:
    two effects can then be accepted in one conflict domain. *)
Theorem rejection_frees_held_domain :
  exists s f g, eff_reachable s
    /\ es_effects s !! "effect-1" = Some f /\ es_effects s !! "effect-3" = Some g
    /\ holds_domain f /\ holds_domain g /\ conflict_key f = conflict_key g.
Proof.
  pose proof (shared_reachable _ _ ex_digest_2_eq ex_digest_3_eq) as Hr.
  destruct (shared_effects (sym_digest ex_intent_2) (sym_digest ex_intent_3)) as [H1 H3].
  do 3 eexists. split; [exact Hr |]. split; [exact H1 |]. split; [exact H3 |].
  split; [apply accepted_holds | split; [apply accepted_holds | apply accepted_key; reflexivity]].
Qed.

(** *** A permit of another effect *)

Lemma bound_fact_valid i d state receipt at_ :
  EffectIntentV2_DigestV2 i = Ok d -> (0 < at_)%Z ->
  match state, receipt with
  | EffectDispatchIntent, None => True
  | EffectDispatched, Some r => ProviderDispatchReceiptV2_Validate r = Ok tt
  | _, _ => False
  end ->
  EffectFactV2_Validate
    (ex_fact i d state (match state with EffectDispatched => 4 | _ => 3 end) ex_bound receipt "" at_) = Ok tt.
Proof.
  intros Hd Ha Hs. unfold EffectFactV2_Validate. cbn [f_Intent ex_fact].
  rewrite (Digest_ok_Validate _ _ Hd), Hd. cbn [f_IntentDigest f_Revision f_UpdatedUnixNano ex_fact].
  rewrite !bind_Ok_l, bool_decide_eq_true_2 by done.
  destruct (Z.leb_spec at_ 0) as [? | _]; [lia |]. clear Hd.
  destruct state, receipt as [r |]; try done; unfold validate_opt; cbn [f_DispatchReceipt ex_fact]; rewrite ?Hs;
    vm_compute; reflexivity.
Qed.

Lemma ex_receipt_valid : ProviderDispatchReceiptV2_Validate ex_receipt = Ok tt.
Proof. vm_compute. reflexivity. Qed.

Definition borrowing (i : EffectIntentV2) (d : Digest) : EffectFactV2 :=
  ex_fact i d EffectDispatchIntent 3 ex_bound None "" 5200.
Definition borrowed (i : EffectIntentV2) (d : Digest) : EffectFactV2 :=
  ex_fact i d EffectDispatched 4 ex_bound (Some ex_receipt) "" 6000.

Lemma borrowing_valid i d : EffectIntentV2_DigestV2 i = Ok d -> EffectFactV2_Validate (borrowing i d) = Ok tt.
Proof. intros Ed. by apply (bound_fact_valid _ _ EffectDispatchIntent None 5200 Ed). Qed.
Lemma borrowed_valid i d : EffectIntentV2_DigestV2 i = Ok d -> EffectFactV2_Validate (borrowed i d) = Ok tt.
Proof. intros Ed. apply (bound_fact_valid _ _ EffectDispatched (Some ex_receipt) 6000 Ed); [done | exact ex_receipt_valid]. Qed.

Lemma borrowing_moves i d c : EffectIntentV2_DigestV2 i = Ok d ->
  ValidateEffectFactTransitionV2 (accepted i d) (borrowing i d) c (UnixTime 5200) = Ok tt.
Proof.
  intros Ed. apply effect_transition_iff.
  split; try done; [by apply accepted_valid | by apply borrowing_valid | by left ..|].
  left. by split; [constructor |].
Qed.
Lemma borrowed_moves i d : EffectIntentV2_DigestV2 i = Ok d ->
  ValidateEffectFactTransitionV2 (borrowing i d) (borrowed i d) dispatch_context (UnixTime 6000) = Ok tt.
Proof.
  intros Ed. apply effect_transition_iff.
  split; try done; [by apply borrowing_valid | by apply borrowed_valid | by left ..|].
  left. split; [constructor | done].
Qed.

Definition ex_intent_other : EffectIntentV2 := ex_intent_in "praxis/other" "effect-2" "workspace".
Lemma ex_digest_other_eq : EffectIntentV2_DigestV2 ex_intent_other = Ok (sym_digest ex_intent_other).
Proof. apply intent_digest_total; vm_compute; reflexivity. Qed.

Section borrowed.
Variable d : Digest.
Hypothesis Ed : EffectIntentV2_DigestV2 ex_intent_other = Ok d.

Definition borrow_1 : EffectStoreV2 := created (proposed ex_intent_other d) run_5.
Definition borrow_2 : EffectStoreV2 := swapped (proposed ex_intent_other d) (accepted ex_intent_other d) borrow_1.
Definition borrow_3 : EffectStoreV2 := swapped (accepted ex_intent_other d) (borrowing ex_intent_other d) borrow_2.
Definition borrow_4 : EffectStoreV2 := swapped (borrowing ex_intent_other d) (borrowed ex_intent_other d) borrow_3.

Ltac at_run := unfold borrow_3, borrow_2, borrow_1; rewrite run_5_eq; reflexivity.

Lemma borrow_reachable : eff_reachable borrow_4.
Proof.
  refine (transitivity (R := rtc eff_step) run_4_reachable (rtc_l _ _ run_5 _ run_5_step _)).
  apply (rtc_l _ _ borrow_1); [apply create_step; [exact Ed | at_run ..] |].
  apply (rtc_l _ _ borrow_2).
  { refine (cas_step (proposed ex_intent_other d) (accepted ex_intent_other d) (UnixTime 2000) borrow_1 _ _ _ _);
      [at_run | exact (accept_moves _ _ _ Ed) | intros _ id Hid | at_run].
    unfold borrow_1 in Hid. rewrite run_5_eq in Hid. vm_compute in Hid. discriminate Hid. }
  apply (rtc_l _ _ borrow_3).
  { refine (cas_step (accepted ex_intent_other d) (borrowing ex_intent_other d) (UnixTime 5200) borrow_2 _ _ _ _);
      [at_run | exact (borrowing_moves _ _ _ Ed) | intros Ha; vm_compute in Ha; discriminate Ha | at_run]. }
  apply rtc_once.
  refine (cas_step (borrowing ex_intent_other d) (borrowed ex_intent_other d) (UnixTime 6000) borrow_3 _ _ _ _);
    [at_run | | intros Ha; vm_compute in Ha; discriminate Ha | at_run].
  assert (transition_context borrow_3 (borrowing ex_intent_other d) (borrowed ex_intent_other d) (UnixTime 6000) = dispatch_context) as -> by at_run.
  exact (borrowed_moves _ _ Ed).
Qed.

Lemma borrow_effects :
  es_effects borrow_4 !! "effect-2" = Some (borrowed ex_intent_other d) /\ es_permits borrow_4 = {["permit-1" := ex_enforced]}.
Proof. unfold borrow_4, borrow_3, borrow_2, borrow_1. rewrite run_5_eq. split; reflexivity. Qed.
End borrowed.

(** CompareAndSwapEffect does not compare a receipt or a permit with the effect
    that it moves: an effect for which no permit was ever issued becomes
    dispatched with the permit and the provider receipt of another effect. *)
Theorem dispatched_with_foreign_permit :
  exists s f, eff_reachable s /\ es_effects s !! "effect-2" = Some f /\ f_State f = EffectDispatched
    /\ forall id p, es_permits s !! id = Some p -> p_IntentID (pf_Permit p) <> "effect-2".
Proof.
  pose proof (borrow_reachable _ ex_digest_other_eq) as Hr.
  destruct (borrow_effects (sym_digest ex_intent_other)) as [He Hp].
  do 2 eexists. split; [exact Hr |]. split; [exact He |]. split; [reflexivity |].
  intros id p. rewrite Hp. intros [_ <-]%lookup_singleton_Some. discriminate.
Qed.

(** *** A receipt from before the dispatch *)

Definition ex_early : DispatchPermitFactV2 := ex_permit_fact DispatchPermitBegun 2 4000 (Some (ex_enforcement 3500)).
Lemma ex_early_valid : DispatchPermitFactV2_Validate ex_early = Ok tt.
Proof. unfold ex_early. permit_valid. Qed.
Lemma ex_early_moves : ValidateDispatchPermitTransitionV2 ex_issued ex_early (UnixTime 4000) = Ok tt.
Proof. permit_moves ex_issued_valid ex_early_valid. Qed.

Lemma permit_cas_run id current next now s :
  es_permits s !! id = Some current -> ValidateDispatchPermitTransitionV2 current next now = Ok tt ->
  es_losePermitCAS s = false ->
  CompareAndSwapDispatchPermit CtxLive now
    {| pc_PermitID := id; pc_ExpectedRevision := pf_Revision current; pc_Next := next |} s
  = (set_es_permits (<[id := clonePermitFactV2 next]> (es_permits s)) s, Ok (clonePermitFactV2 next)).
Proof.
  intros Hp Hv Hl. unfold CompareAndSwapDispatchPermit, lose_reply, put_permit, st_guard. st_go.
  cbn [contextError pc_PermitID pc_ExpectedRevision pc_Next]. rewrite Hp, N.eqb_refl. cbn [negb]. rewrite Hv. cbn. by rewrite Hl.
Qed.

(** CompareAndSwapDispatchPermit can begin a permit together with a receipt: the
    check that the enforcement point validated after the begin is made only when
    the receipt is recorded alone. *)
Theorem begun_with_earlier_receipt :
  exists s p e, eff_reachable s /\ es_permits s !! "permit-1" = Some p /\ pf_State p = DispatchPermitBegun
    /\ pf_Enforcement p = Some e /\ (er2_ValidatedAt e < pf_BegunUnixNano p)%Z.
Proof.
  pose (request := {| pc_PermitID := "permit-1"; pc_ExpectedRevision := pf_Revision ex_issued; pc_Next := ex_early |}).
  exists (fst (CompareAndSwapDispatchPermit CtxLive (UnixTime 4000) request run_3)), ex_early, (ex_enforcement 3500).
  split.
  - refine (transitivity (R := rtc eff_step) run_1_reachable (rtc_l _ _ run_2 _ run_2_step _)).
    refine (rtc_l _ _ run_3 _ run_3_step (rtc_once _ _ _)). apply step_permit_cas.
  - rewrite run_3_eq. unfold request.
    rewrite (permit_cas_run "permit-1" ex_issued ex_early); [| reflexivity | exact ex_early_moves | reflexivity].
    repeat split.
Qed.
