(* ===== verification/EffectOutcomes.v ===== *)
(** * The effect store: histories of unknown outcomes, residuals and budgets

    Histories in which the theorems of EffectLife on outcomes, closures and
    budgets apply. *)

From stdpp Require Import gmap strings relations.
From S2P Require Import Prelude GoStd Errors Identity Sha256 Fence Json Canonical Payload EffectContract EffectFact EffectFlow BudgetFact FactStore EffectStore EffectSafety EffectLife EffectRuns.

Local Open Scope N_scope.
#[local] Existing Instance utc.

(** ** A budget that is consumed and released *)

Definition ex_budget (state : BudgetFactStateV2) (revision consumed : N) : BudgetBindingFactV2 :=
  {| b_Ref := "budget-1"; b_IntentID := "effect-1"; b_IntentRevision := 1; b_Scope := ex_bound_scope;
     b_Mode := BudgetReserved; b_PolicyDigest := ex_digest; b_PolicyDecisionRef := "decision-1";
     b_PolicyEvidenceDigest := ex_digest; b_ReservationRef := "reservation-1"; b_ReservationRevision := 1;
     b_Limit := 10; b_Consumed := consumed; b_Unit := "token"; b_State := state; b_Revision := revision;
     b_ExpiresUnixNano := 9000 |}.
Definition ex_consume : BudgetFactCASRequestV2 :=
  {| bc_ExpectedRevision := 1; bc_Next := ex_budget BudgetFactConsumed 2 7 |}.

Definition budget_run_1 : EffectStoreV2 :=
  fst (CreateBudgetBinding CtxLive (ex_budget BudgetFactActive 1 0) NewEffectStoreV2).
Definition budget_run_2 : EffectStoreV2 := fst (CompareAndSwapBudgetBinding CtxLive (UnixTime 5000) ex_consume budget_run_1).

Lemma budget_history_witness :
  es_budgets budget_run_2 !! "budget-1" = Some (ex_budget BudgetFactConsumed 2 7)
  /\ exists c, es_budgets budget_run_2 !! "budget-1" = Some c
       /\ budget_immutable c = budget_immutable (ex_budget BudgetFactActive 1 0)
       /\ rtc budget_edge BudgetFactActive (b_State c) /\ (0 <= 10 -> b_Consumed c <= b_Limit c).
Proof.
  split; [reflexivity |].
  refine (budget_history budget_run_1 budget_run_2 "budget-1" (ex_budget BudgetFactActive 1 0)
            (rtc_once _ _ (step_create_budget _ _ _)) (rtc_once _ _ (step_budget_cas _ _ _ _)) _).
  reflexivity.
Defined.

(** ** A residual that is present *)

Definition with_residual (f : EffectFactV2) : EffectFactV2 :=
  {| f_Intent := f_Intent f; f_IntentDigest := f_IntentDigest f; f_State := f_State f; f_Revision := f_Revision f;
     f_DispatchPermitID := f_DispatchPermitID f; f_DispatchPermitDigest := f_DispatchPermitDigest f;
     f_DispatchReceipt := f_DispatchReceipt f; f_Settlement := f_Settlement f; f_Compensation := f_Compensation f;
     f_RemoteResidual := RemoteResidualPresent;
     f_ResidualResolution := Some {| rc_EffectID := "effect-0"; rc_EffectRevision := 1; rc_SettlementDigest := ex_digest |};
     f_Cleanup := f_Cleanup f; f_CleanupResolution := f_CleanupResolution f; f_RejectionReason := f_RejectionReason f;
     f_UpdatedUnixNano := f_UpdatedUnixNano f |}.

Definition stuck_proposed : EffectFactV2 := with_residual ex_proposed.
Definition stuck_accepted : EffectFactV2 := with_residual ex_accepted.
Definition stuck_authorized : EffectFactV2 := with_residual ex_authorized.
Definition ex_unknown : EffectFactV2 := ex_fact ex_intent_1 ex_digest_1 EffectUnknownOutcome 4 ex_bound None "" 5100.
Definition stuck_unknown : EffectFactV2 := with_residual ex_unknown.

Ltac stuck_valid := 
  unfold EffectFactV2_Validate; cbn [f_Intent with_residual ex_fact ex_proposed ex_accepted ex_authorized ex_unknown proposed accepted];
  rewrite (Digest_ok_Validate _ _ ex_digest_1_eq), ex_digest_1_eq; vm_compute; reflexivity.

Lemma stuck_proposed_valid : EffectFactV2_Validate stuck_proposed = Ok tt.
Proof. unfold stuck_proposed. stuck_valid. Qed.
Lemma stuck_accepted_valid : EffectFactV2_Validate stuck_accepted = Ok tt.
Proof. unfold stuck_accepted. stuck_valid. Qed.
Lemma stuck_authorized_valid : EffectFactV2_Validate stuck_authorized = Ok tt.
Proof. unfold stuck_authorized. stuck_valid. Qed.
Lemma stuck_unknown_valid : EffectFactV2_Validate stuck_unknown = Ok tt.
Proof. unfold stuck_unknown. stuck_valid. Qed.

Definition stuck_1 : EffectStoreV2 := fst (CreateEffect CtxLive stuck_proposed NewEffectStoreV2).
Definition stuck_2 : EffectStoreV2 := fst (CompareAndSwapEffect CtxLive (UnixTime 2000) (ex_cas 1 stuck_accepted) stuck_1).
Definition stuck_3 : EffectStoreV2 := fst (IssueDispatchPermit CtxLive (UnixTime 3000) ex_issue_request stuck_2).
Definition stuck_4 : EffectStoreV2 := fst (BeginDispatch CtxLive (UnixTime 4000) ex_begin_request stuck_3).
Definition stuck_5 : EffectStoreV2 := fst (CompareAndSwapEffect CtxLive (UnixTime 5100) (ex_cas 3 stuck_unknown) stuck_4).

Lemma stuck_1_eq : stuck_1 = ex_store stuck_proposed ∅ ∅.
Proof. unfold stuck_1. rewrite create_run; [reflexivity | exact stuck_proposed_valid | reflexivity ..]. Qed.

Lemma stuck_accepts c : ValidateEffectFactTransitionV2 stuck_proposed stuck_accepted c (UnixTime 2000) = Ok tt.
Proof. destruct c. fact_moves stuck_proposed_valid stuck_accepted_valid. Qed.
Lemma stuck_2_eq : stuck_2 = ex_store stuck_accepted ex_holder ∅.
Proof.
  unfold stuck_2. rewrite stuck_1_eq. unfold ex_cas.
  rewrite (cas_run stuck_proposed); [reflexivity | reflexivity | apply stuck_accepts | done | reflexivity].
Qed.

Lemma stuck_issue_checks : issue_checks stuck_accepted ex_issue_request (UnixTime 3000) = Ok (stuck_authorized, ex_issued).
Proof.
  unfold issue_checks. cbn [iss_Permit iss_Fence ex_issue_request f_Intent stuck_accepted with_residual ex_accepted accepted ex_fact].
  rewrite ex_digest_1_eq, ex_permit_digest_eq, ex_fence_digest_eq. cbn [digest_or_zero].
  unfold ValidateEffectFactTransitionV2.
  change (authorize_effect _ _ _ _) with stuck_authorized. rewrite stuck_accepted_valid, stuck_authorized_valid.
  change {| pf_Permit := _ |} with ex_issued. rewrite ex_issued_valid. vm_compute. reflexivity.
Qed.
Lemma stuck_3_eq : stuck_3 = ex_store stuck_authorized ex_holder {["permit-1" := ex_issued]}.
Proof.
  unfold stuck_3. rewrite stuck_2_eq.
  rewrite (issue_run ex_issue_request stuck_accepted stuck_authorized ex_issued);
    [reflexivity .. | exact ex_permit_1_valid | exact ex_fence_valid | reflexivity | exact stuck_issue_checks | reflexivity].
Qed.
Lemma stuck_4_eq : stuck_4 = ex_store stuck_authorized ex_holder {["permit-1" := ex_begun]}.
Proof.
  unfold stuck_4. rewrite stuck_3_eq.
  rewrite (begin_run stuck_authorized ex_issued ex_begun); [reflexivity .. | exact ex_begin_moves | reflexivity].
Qed.

Definition begun_context : EffectTransitionContextV2 :=
  {| PermitBegun := true; DispatchReceiptMatched := false; SettlementOwnerMatched := false;
     UnknownInspectionSettled := false; CompensationSettled := false; ResidualInspectSettled := false;
     CleanupEffectSettled := false |}.
Lemma stuck_5_eq : stuck_5 = ex_store stuck_unknown ex_holder {["permit-1" := ex_begun]}.
Proof.
  unfold stuck_5. rewrite stuck_4_eq. unfold ex_cas.
  rewrite (cas_run stuck_authorized); [reflexivity | reflexivity | | done | reflexivity].
  change (transition_context _ _ _ _) with begun_context. fact_moves stuck_authorized_valid stuck_unknown_valid.
Qed.

Lemma stuck_1_reachable : eff_reachable stuck_1.
Proof. apply rtc_once, step_create. Qed.
Lemma stuck_5_reachable : eff_reachable stuck_5.
Proof.
  refine (transitivity (R := rtc eff_step) stuck_1_reachable (rtc_l _ _ stuck_2 _ (step_cas _ _ _ _) _)).
  refine (rtc_l _ _ stuck_3 _ (step_issue _ _ _ _) (rtc_l _ _ stuck_4 _ (step_begin _ _ _ _) (rtc_once _ _ (step_cas _ _ _ _)))).
Qed.

Lemma stuck_closure_occupies_witness :
  exists g, es_effects stuck_5 !! "effect-1" = Some g /\ closure_stuck g = true /\ ConflictDomainOccupied g = true.
Proof.
  refine (stuck_closure_occupies stuck_5 stuck_5 "effect-1" stuck_unknown stuck_5_reachable (rtc_refl _ _) _ _ _).
  - rewrite stuck_5_eq. reflexivity.
  - right. left. reflexivity.
  - reflexivity.
Defined.

(** CreateEffect takes the closure of a proposal as it is given: a proposal with
    a residual conclusion that no effect of the store supports is stored, though
    no transition could have recorded it. *)
Theorem created_with_unsupported_closure :
  exists s f r, eff_reachable s /\ es_effects s !! "effect-1" = Some f /\ f_State f = EffectProposed
    /\ f_ResidualResolution f = Some r /\ es_effects s !! rc_EffectID r = None.
Proof.
  exists stuck_1, stuck_proposed. eexists. split; [exact stuck_1_reachable |]. rewrite stuck_1_eq. repeat split.
Qed.

(** ** An unknown outcome and its inspection *)

Definition ex_inspector : EffectIntentV2 :=
  ex_intent_with {| er_CompensatesEffectID := ""; er_CompensatesEffectRevision := 0; er_InspectsEffectID := "effect-1";
                    er_InspectsEffectRevision := 1; er_CleansUpEffectID := ""; er_CleansUpEffectRevision := 0;
                    er_ReviewsCaseID := ""; er_ReviewsCandidateRevision := 0 |}
    "praxis/inspect" "effect-9" "workspace".
Lemma ex_inspector_digest : EffectIntentV2_DigestV2 ex_inspector = Ok (sym_digest ex_inspector).
Proof. apply intent_digest_total; vm_compute; reflexivity. Qed.

Definition ex_settlement (inspected : string) (revision : N) (digest : Digest) : EffectSettlementFactV2 :=
  {| sf_Owner := ex_owner OwnerSettlement; sf_Disposition := SettlementConfirmedApplied; sf_ReceiptRef := "settled-1";
     sf_EvidenceDigest := ex_digest; sf_InspectionIntentID := inspected; sf_InspectionIntentRevision := revision;
     sf_InspectionSettlementDigest := digest; sf_DomainResult := None; sf_SettledUnixNano := 7000 |}.
Definition inspection_settlement : EffectSettlementFactV2 := ex_settlement "" 0 "".
Definition inspection_digest : Digest := Eval vm_compute in digest_of (settlement_digest inspection_settlement).
Lemma inspection_digest_eq : settlement_digest inspection_settlement = Ok inspection_digest.
Proof. vm_cast_no_check (eq_refl (Ok inspection_digest : result Digest)). Qed.

(** The settled fact at revision 5. *)
Definition settled (i : EffectIntentV2) (d : Digest) (receipt : option ProviderDispatchReceiptV2)
    (settlement : EffectSettlementFactV2) (at_ : Z) : EffectFactV2 :=
  {| f_Intent := i; f_IntentDigest := d; f_State := EffectSettled; f_Revision := 5; f_DispatchPermitID := fst ex_bound;
     f_DispatchPermitDigest := snd ex_bound; f_DispatchReceipt := receipt; f_Settlement := Some settlement;
     f_Compensation := None; f_RemoteResidual := RemoteResidualNotRequired; f_ResidualResolution := None;
     f_Cleanup := EffectCleanupNotRequired; f_CleanupResolution := None; f_RejectionReason := ""; f_UpdatedUnixNano := at_ |}.

Lemma settled_valid i d receipt settlement at_ :
  EffectIntentV2_DigestV2 i = Ok d -> (0 < at_)%Z -> validate_opt ProviderDispatchReceiptV2_Validate receipt = Ok tt ->
  EffectSettlementFactV2_Validate settlement = Ok tt ->
  EffectFactV2_Validate (settled i d receipt settlement at_) = Ok tt.
Proof.
  intros Hd Ha Hr Hs. unfold EffectFactV2_Validate. cbn [f_Intent settled].
  rewrite (Digest_ok_Validate _ _ Hd), Hd. cbn [f_IntentDigest f_Revision f_UpdatedUnixNano f_DispatchReceipt f_Settlement settled].
  rewrite !bind_Ok_l, bool_decide_eq_true_2 by done. destruct (Z.leb_spec at_ 0) as [? | _]; [lia |].
  rewrite Hr. cbn [validate_opt]. rewrite Hs. clear. vm_compute. reflexivity.
Qed.

Definition settle_context (inspected : bool) : EffectTransitionContextV2 :=
  {| PermitBegun := true; DispatchReceiptMatched := negb inspected; SettlementOwnerMatched := true;
     UnknownInspectionSettled := inspected; CompensationSettled := false; ResidualInspectSettled := false;
     CleanupEffectSettled := false |}.

Lemma ex_unknown_valid : EffectFactV2_Validate ex_unknown = Ok tt.
Proof. unfold ex_unknown. fact_valid ex_digest_1_eq. Qed.
Lemma ex_unknown_moves : ValidateEffectFactTransitionV2 ex_authorized ex_unknown begun_context (UnixTime 5100) = Ok tt.
Proof. fact_moves ex_authorized_valid ex_unknown_valid. Qed.

Definition ex_settled : EffectFactV2 :=
  settled ex_intent_1 ex_digest_1 None (ex_settlement "effect-9" 1 inspection_digest) 8000.
Lemma ex_settled_valid : EffectFactV2_Validate ex_settled = Ok tt.
Proof. apply settled_valid; [exact ex_digest_1_eq | done | done | vm_compute; reflexivity]. Qed.
Lemma ex_settled_moves : ValidateEffectFactTransitionV2 ex_unknown ex_settled (settle_context true) (UnixTime 8000) = Ok tt.
Proof. fact_moves ex_unknown_valid ex_settled_valid. Qed.

Definition inspected (i : EffectIntentV2) (d : Digest) : EffectFactV2 :=
  settled i d (Some ex_receipt) inspection_settlement 7000.
Lemma inspected_valid i d : EffectIntentV2_DigestV2 i = Ok d -> EffectFactV2_Validate (inspected i d) = Ok tt.
Proof. intros Hd. apply settled_valid; [exact Hd | done | exact ex_receipt_valid | vm_compute; reflexivity]. Qed.
Lemma inspected_moves i d : EffectIntentV2_DigestV2 i = Ok d ->
  ValidateEffectFactTransitionV2 (borrowed i d) (inspected i d) (settle_context false) (UnixTime 7000) = Ok tt.
Proof.
  intros Ed. apply effect_transition_iff.
  split; try done; [by apply borrowed_valid | by apply inspected_valid | by left ..|].
  left. split; [constructor | done].
Qed.

Section inspection.
Variable d : Digest.
Hypothesis Ed : EffectIntentV2_DigestV2 ex_inspector = Ok d.

Definition inspect_1 : EffectStoreV2 := swapped ex_authorized ex_unknown run_5.
Definition inspect_2 : EffectStoreV2 := created (proposed ex_inspector d) inspect_1.
Definition inspect_3 : EffectStoreV2 := swapped (proposed ex_inspector d) (accepted ex_inspector d) inspect_2.
Definition inspect_4 : EffectStoreV2 := swapped (accepted ex_inspector d) (borrowing ex_inspector d) inspect_3.
Definition inspect_5 : EffectStoreV2 := swapped (borrowing ex_inspector d) (borrowed ex_inspector d) inspect_4.
Definition inspect_6 : EffectStoreV2 := swapped (borrowed ex_inspector d) (inspected ex_inspector d) inspect_5.
Definition inspect_7 : EffectStoreV2 := swapped ex_unknown ex_settled inspect_6.

Ltac at_run :=
  unfold inspect_6, inspect_5, inspect_4, inspect_3, inspect_2, inspect_1; rewrite run_5_eq; reflexivity.
Ltac not_accept := let Ha := fresh in intros Ha; vm_compute in Ha; discriminate Ha.

(** One step: the fact is stored, the transition is valid in its context, and
    no domain is taken. *)
Ltac inspect_step current next now before ctx moves :=
  refine (cas_step current next (UnixTime now) before _ _ _ _); [at_run | | not_accept | at_run];
  assert (transition_context before current next (UnixTime now) = ctx) as -> by at_run; exact moves.

Lemma inspect_2_reachable : eff_reachable inspect_2.
Proof.
  refine (transitivity (R := rtc eff_step) run_4_reachable (rtc_l _ _ run_5 _ run_5_step _)).
  apply (rtc_l _ _ inspect_1).
  { inspect_step ex_authorized ex_unknown 5100%Z run_5 begun_context ex_unknown_moves. }
  apply rtc_once, create_step; [exact Ed | at_run ..].
Qed.

Lemma inspect_6_reachable : eff_reachable inspect_6.
Proof.
  refine (transitivity (R := rtc eff_step) inspect_2_reachable _).
  apply (rtc_l _ _ inspect_3).
  { refine (cas_step (proposed ex_inspector d) (accepted ex_inspector d) (UnixTime 2000) inspect_2 _ _ _ _);
      [at_run | exact (accept_moves _ _ _ Ed) | intros _ id Hid | at_run].
    unfold inspect_2, inspect_1 in Hid. rewrite run_5_eq in Hid. vm_compute in Hid. discriminate Hid. }
  apply (rtc_l _ _ inspect_4).
  { refine (cas_step (accepted ex_inspector d) (borrowing ex_inspector d) (UnixTime 5200) inspect_3 _ _ _ _);
      [at_run | exact (borrowing_moves _ _ _ Ed) | not_accept | at_run]. }
  apply (rtc_l _ _ inspect_5).
  { inspect_step (borrowing ex_inspector d) (borrowed ex_inspector d) 6000%Z inspect_4 dispatch_context
      (borrowed_moves _ _ Ed). }
  apply rtc_once.
  inspect_step (borrowed ex_inspector d) (inspected ex_inspector d) 7000%Z inspect_5 (settle_context false)
    (inspected_moves _ _ Ed).
Qed.

Lemma inspect_7_step : eff_step inspect_6 inspect_7.
Proof.
  inspect_step ex_unknown ex_settled 8000%Z inspect_6 (settle_context true) ex_settled_moves.
Qed.

Lemma inspect_effects :
  es_effects inspect_6 !! "effect-1" = Some ex_unknown /\ es_effects inspect_7 !! "effect-1" = Some ex_settled.
Proof. unfold inspect_7. split; at_run. Qed.
End inspection.

Lemma unknown_settles_by_inspection_witness :
  f_State ex_settled = EffectSettled
  /\ exists settlement inspector inspection,
       f_Settlement ex_settled = Some settlement
       /\ In (sf_Owner settlement) (i_Owners (f_Intent ex_settled)) /\ eo_Role (sf_Owner settlement) = OwnerSettlement
       /\ es_effects (inspect_6 (sym_digest ex_inspector)) !! sf_InspectionIntentID settlement = Some inspector
       /\ f_State inspector = EffectSettled /\ f_Settlement inspector = Some inspection
       /\ settlement_digest inspection = Ok (sf_InspectionSettlementDigest settlement)
       /\ er_InspectsEffectID (i_Relation (f_Intent inspector)) = "effect-1"
       /\ same_tenant inspector ex_settled = true.
Proof.
  refine (unknown_settles_by_inspection (inspect_6 (sym_digest ex_inspector)) (inspect_7 (sym_digest ex_inspector))
            "effect-1" ex_unknown ex_settled (inspect_6_reachable _ ex_inspector_digest)
            (inspect_7_step _) (proj1 (inspect_effects _)) eq_refl (proj2 (inspect_effects _)) _).
  discriminate.
Defined.
