(* ===== verification/Dependency.v ===== *)
(** * ports/assembly.go: hasDependencyCycle

    The depth-first search over the dependency graph of a resolved plan, with
    the proof that it terminates and finds a cycle exactly when there is one,
    whatever order Go ranges over the map. *)

From S2P Require Import Prelude.
From stdpp Require Import relations.

Inductive Mark := visiting | done_.
#[export] Instance Mark_eq_dec : EqDecision Mark.
Proof. solve_decision. Defined.

(** `graph[node]`: nil for an absent key. *)
Definition successors (graph : gmap string (list string)) (node : string) : list string :=
  default [] (graph !! node).

(** A range over nodes that stops at the first visit that returns true. *)
Fixpoint visit_list (visit : gmap string Mark -> string -> option (bool * gmap string Mark))
    (state : gmap string Mark) (nodes : list string) : option (bool * gmap string Mark) :=
  match nodes with
  | [] => Some (false, state)
  | node :: rest =>
      match visit state node with
      | Some (false, state') => visit_list visit state' rest
      | stop => stop
      end
  end.

(** The closure `visit`; [None] is out of fuel. *)
Fixpoint visit (fuel : nat) (graph : gmap string (list string)) (state : gmap string Mark) (node : string)
  : option (bool * gmap string Mark) :=
  match fuel with
  | O => None
  | S fuel' =>
      match state !! node with
      | Some visiting => Some (true, state)
      | Some done_ => Some (false, state)
      | None =>
          match visit_list (visit fuel' graph) (<[node := visiting]> state) (successors graph node) with
          | Some (false, state') => Some (false, <[node := done_]> state')
          | stop => stop
          end
      end
  end.

(** Every node a search can reach. *)
Definition universe (graph : gmap string (list string)) : gset string :=
  dom graph ∪ list_to_set (concat (map snd (map_to_list graph))).

(** [order] is the order in which `range graph` yields the keys. *)
Definition hasDependencyCycle (order : list string) (graph : gmap string (list string)) : option bool :=
  fst <$> visit_list (visit (S (size (universe graph))) graph) ∅ order.

Definition edge (graph : gmap string (list string)) (n m : string) : Prop := m ∈ successors graph n.

(** ** The search *)

Lemma tc_head {A} (R : relation A) x z : tc R x z -> R x z \/ exists y, R x y /\ tc R y z.
Proof. destruct 1; eauto. Qed.

Section dfs.
Context (graph : gmap string (list string)).

Lemma edge_universe n m : edge graph n m -> m ∈ universe graph.
Proof.
  unfold edge, successors, universe. destruct (graph !! n) as [l |] eqn:Hn; cbn; [| by rewrite elem_of_nil].
  intros Hm. apply elem_of_union_r, elem_of_list_to_set, list_elem_of_In, in_concat. exists l.
  split; apply list_elem_of_In; [| done].
  apply list_elem_of_fmap. exists (n, l). split; [done | by apply elem_of_map_to_list].
Qed.

Lemma edge_dom n m : edge graph n m -> n ∈ dom graph.
Proof.
  unfold edge, successors. destruct (graph !! n) eqn:Hn; cbn; [by intros; apply elem_of_dom_2 in Hn |].
  by rewrite elem_of_nil.
Qed.

(** What holds between calls: finished nodes are on no cycle and their
    successors are finished. *)
Definition settled (st : gmap string Mark) : Prop :=
  forall n, st !! n = Some done_ ->
    ~ tc (edge graph) n n /\ forall m, edge graph n m -> st !! m = Some done_.

(** The nodes on the stack lead to the node being visited. *)
Definition stacked (st : gmap string Mark) (n : string) : Prop :=
  forall v, st !! v = Some visiting -> tc (edge graph) v n.

(** How a search that found nothing changes the marks. *)
Definition grows (st st' : gmap string Mark) : Prop :=
  (forall v, st' !! v = Some visiting <-> st !! v = Some visiting)
  /\ (forall v, st !! v = Some done_ -> st' !! v = Some done_).

Lemma grows_refl st : grows st st.
Proof. by split. Qed.
Lemma grows_trans st1 st2 st3 : grows st1 st2 -> grows st2 st3 -> grows st1 st3.
Proof. intros [H1 H2] [H3 H4]. split; [intros; by rewrite H3 | auto]. Qed.

Lemma settled_closed st n m :
  settled st -> st !! n = Some done_ -> rtc (edge graph) n m -> st !! m = Some done_.
Proof. intros Hs Hn. induction 1 as [| x y z Hxy _ IH]; [done |]. apply IH. by apply (Hs x Hn). Qed.

Definition visit_ok (st : gmap string Mark) (n : string) (r : option (bool * gmap string Mark)) : Prop :=
  match r with
  | Some (true, _) => exists c, tc (edge graph) c c
  | Some (false, st') => settled st' /\ grows st st' /\ st' !! n = Some done_
  | None => True
  end.

Lemma visit_list_ok (f : gmap string Mark -> string -> option (bool * gmap string Mark)) nodes st :
  (forall st' n, grows st st' -> settled st' -> n ∈ nodes -> visit_ok st' n (f st' n)) ->
  settled st ->
  match visit_list f st nodes with
  | Some (true, _) => exists c, tc (edge graph) c c
  | Some (false, st') => settled st' /\ grows st st' /\ forall n, n ∈ nodes -> st' !! n = Some done_
  | None => True
  end.
Proof.
  revert st; induction nodes as [| n nodes IH]; intros st Hf Hs; cbn.
  { split; [done |]. split; [apply grows_refl |]. intros n; by rewrite elem_of_nil. }
  pose proof (Hf st n (grows_refl st) Hs (list_elem_of_here n nodes)) as Hn. unfold visit_ok in Hn.
  destruct (f st n) as [[[] st1] |]; [done | | done]. destruct Hn as (Hs1 & Hg1 & Hd1).
  specialize (IH st1). destruct (visit_list f st1 nodes) as [[[] st2] |].
  - apply IH; [| done]. intros st' m Hg ? ?. apply Hf; [by eapply grows_trans | done |]. by apply list_elem_of_further.
  - destruct IH as (Hs2 & Hg2 & Hd2); [| done |].
    { intros st' m Hg ? ?. apply Hf; [by eapply grows_trans | done |]. by apply list_elem_of_further. }
    split; [done |]. split; [by eapply grows_trans |]. intros m [-> | Hm]%elem_of_cons; [by apply Hg2 | by apply Hd2].
  - done.
Qed.

Lemma visit_correct fuel st n :
  settled st -> stacked st n -> visit_ok st n (visit fuel graph st n).
Proof.
  revert st n; induction fuel as [| fuel IH]; intros st n Hs Hk; [done |]. cbn [visit].
  destruct (st !! n) as [[] |] eqn:Hn.
  { exists n. by apply Hk. }
  { split; [done |]. by split; [apply grows_refl |]. }
  assert (settled (<[n := visiting]> st)) as Hs1.
  { intros m Hm. rewrite lookup_insert_Some in Hm. destruct Hm as [[_ [=]] | [Hne Hm]].
    destruct (Hs m Hm) as [Ha Hc]. split; [done |]. intros k Hk'. apply Hc in Hk'.
    rewrite lookup_insert_ne; [done | by intros ->; rewrite Hn in Hk']. }
  pose proof (visit_list_ok (visit fuel graph) (successors graph n) (<[n := visiting]> st)) as Hl.
  destruct (visit_list _ _ _) as [[[] st'] |]; [| | done].
  - apply Hl; [| done]. clear Hl. intros st1 m [Hv _] Hs' Hm. apply IH; [done |]. intros v Hvv.
    rewrite Hv, lookup_insert_Some in Hvv. destruct Hvv as [[<- _] | [_ Hvv]]; [by apply tc_once |].
    eapply tc_r; [by apply Hk | done].
  - destruct Hl as (Hs' & [Hgv Hgd] & Hd); [| done |].
    { intros st1 m [Hv _] Hs' Hm. apply IH; [done |]. intros v Hvv.
      rewrite Hv, lookup_insert_Some in Hvv. destruct Hvv as [[<- _] | [_ Hvv]]; [by apply tc_once |].
      eapply tc_r; [by apply Hk | done]. }
    assert (st' !! n = Some visiting) as Hnv by (apply Hgv; by rewrite lookup_insert_eq).
    assert (forall m, edge graph n m -> m <> n) as Hne.
    { intros m Hm ->. pose proof (Hd n Hm) as H. by rewrite Hnv in H. }
    split; [| split; [split |]].
    + intros m Hm. rewrite lookup_insert_Some in Hm. destruct Hm as [[<- _] | [Hmn Hm]].
      * split; [| intros k Hk'; rewrite lookup_insert_ne; [by apply Hd | by apply not_eq_sym, Hne]].
        intros Hc. apply tc_head in Hc as [Hc | (k & Hk1 & Hk2)]; [by apply Hne in Hc |].
        pose proof (settled_closed st' k n Hs' (Hd k Hk1) (tc_rtc _ _ Hk2)) as H. by rewrite Hnv in H.
      * destruct (Hs' m Hm) as [Ha Hc]. split; [done |]. intros k Hk'. apply Hc in Hk'.
        rewrite lookup_insert_ne; [done | by intros ->; rewrite Hnv in Hk'].
    + intros v. rewrite lookup_insert_Some. split.
      * intros [[_ [=]] | [Hvn Hv]]. apply Hgv in Hv. by rewrite lookup_insert_ne in Hv.
      * intros Hv. right. destruct (decide (n = v)) as [-> | Hvn]; [by rewrite Hn in Hv |].
        split; [done |]. apply Hgv. by rewrite lookup_insert_ne.
    + intros v Hv. destruct (decide (n = v)) as [-> | Hvn]; [by rewrite Hn in Hv |].
      rewrite lookup_insert_ne by done. apply Hgd. by rewrite lookup_insert_ne.
    + by rewrite lookup_insert_eq.
Qed.

(** ** Termination: every nested visit marks one more node. *)
Definition unseen (st : gmap string Mark) : nat := size (universe graph ∖ dom st).

Lemma unseen_insert st n x : n ∈ universe graph -> st !! n = None -> S (unseen (<[n := x]> st)) = unseen st.
Proof.
  intros Hu Hn. unfold unseen. rewrite dom_insert_L.
  replace (universe graph ∖ dom st) with ({[n]} ∪ universe graph ∖ ({[n]} ∪ dom st)).
  - rewrite (size_union (C := gset string) {[n]}) by set_solver. by rewrite size_singleton.
  - apply not_elem_of_dom in Hn. apply set_eq. intros k. destruct (decide (k = n)) as [-> |]; set_solver.
Qed.

Lemma unseen_mono st st' : dom st ⊆ dom st' -> unseen st' <= unseen st.
Proof. intros Hd. unfold unseen. apply (subseteq_size (C := gset string)). set_solver. Qed.

Definition runs (st : gmap string Mark) (r : option (bool * gmap string Mark)) : Prop :=
  exists b st', r = Some (b, st') /\ dom st ⊆ dom st'.

Lemma visit_list_runs f nodes st :
  (forall st' n, dom st ⊆ dom st' -> n ∈ nodes -> runs st' (f st' n)) -> runs st (visit_list f st nodes).
Proof.
  revert st; induction nodes as [| n nodes IH]; intros st Hf; cbn; [by eexists _, _ |].
  destruct (Hf st n) as (b & st1 & -> & H1); [done | by apply list_elem_of_here |].
  destruct b; [by eexists _, _ |].
  destruct (IH st1) as (b2 & st2 & -> & H2).
  - intros st' m Hd Hm. apply Hf; [by etrans | by apply list_elem_of_further].
  - eexists _, _. split; [done | by etrans].
Qed.

Lemma visit_runs fuel st n : n ∈ universe graph -> unseen st < fuel -> runs st (visit fuel graph st n).
Proof.
  revert st n; induction fuel as [| fuel IH]; intros st n Hn Hf; [lia |]. cbn [visit].
  destruct (st !! n) as [[] |] eqn:Hs; [by eexists _, _ | by eexists _, _ |].
  destruct (visit_list_runs (visit fuel graph) (successors graph n) (<[n := visiting]> st))
    as (b & st' & -> & Hd).
  - intros st' m Hd Hm. apply IH; [by apply (edge_universe n) |].
    pose proof (unseen_insert st n visiting Hn Hs). apply unseen_mono in Hd. lia.
  - rewrite dom_insert_L in Hd. destruct b; eexists _, _; (split; [done | set_solver]).
Qed.

End dfs.

Lemma hasDependencyCycle_spec (graph : gmap string (list string)) (order : list string)
    (Horder : Permutation order (elements (dom graph))) :
  exists b, hasDependencyCycle order graph = Some b /\ (b = true <-> exists c, tc (edge graph) c c).
Proof.
  assert (forall n, n ∈ order <-> n ∈ dom graph) as Hin by (intros n; rewrite Horder; apply elem_of_elements).
  unfold hasDependencyCycle.
  destruct (visit_list_runs (visit (S (size (universe graph))) graph) order ∅) as (b & st & E & _).
  { intros st n _ Hn. apply visit_runs; [by apply elem_of_union_l, Hin |].
    unfold unseen. apply Nat.lt_succ_r, (subseteq_size (C := gset string)). set_solver. }
  pose proof (visit_list_ok graph (visit (S (size (universe graph))) graph) order ∅) as Hok.
  rewrite E in *. exists b. split; [done |].
  assert (settled graph ∅) as H0 by done.
  assert (forall st' n, grows ∅ st' -> settled graph st' -> n ∈ order ->
            visit_ok graph st' n (visit (S (size (universe graph))) graph st' n)) as Hv.
  { intros st' n [Hg _] Hs _. apply visit_correct; [done |]. intros v Hv. by rewrite Hg in Hv. }
  specialize (Hok Hv H0). destruct b; [done |]. split; [done |]. intros (c & Hc). exfalso.
  destruct Hok as (Hs & _ & Hd). assert (c ∈ order) as Hco.
  { apply Hin. apply tc_head in Hc as [Hc | (k & Hc & _)]; by eapply edge_dom. }
  by apply (Hs c (Hd c Hco)).
Qed.

(** HasDependencyCycle terminates on every graph and, in whatever order
    the map is ranged over, returns true exactly when some component depends
    on itself through one or more dependencies. *)
Theorem hasDependencyCycle_iff (graph : gmap string (list string)) (order : list string)
    (Horder : Permutation order (elements (dom graph))) :
  exists b, hasDependencyCycle order graph = Some b /\ (b = true <-> exists c, tc (edge graph) c c).
Proof. exact (hasDependencyCycle_spec graph order Horder). Qed.

Definition ex_graph : gmap string (list string) :=
  <["harness" := ["sandbox"; "model"]]> (<["model" := ["sandbox"]]> (<["sandbox" := []]> ∅)).
Definition ex_cyclic : gmap string (list string) := <["sandbox" := ["harness"]]> ex_graph.

Lemma hasDependencyCycle_iff_witness :
  hasDependencyCycle (elements (dom ex_cyclic)) ex_cyclic = Some true /\ exists c, tc (edge ex_cyclic) c c.
Proof.
  split; [vm_compute; reflexivity |].
  destruct (hasDependencyCycle_iff ex_cyclic (elements (dom ex_cyclic)) (Permutation_refl _)) as (b & Hb & H).
  apply H. assert (Some b = Some true) as E by (rewrite <- Hb; vm_compute; reflexivity).
  injection E as E. exact E.
Defined.
Example ex_graph_acyclic : hasDependencyCycle ["model"; "harness"; "sandbox"] ex_graph = Some false.
Proof. vm_compute; reflexivity. Qed.
