(* ===== verification/Assembly.v ===== *)
(** * ports/common.go, ports/assembly.go

    Component descriptors, the resolved plan with its requirements, and the
    registry that binds a plan: capability checks, residuals, and the pruning of
    components whose dependencies are unavailable.  The order in which Go ranges
    over a map is an argument of the definitions that range over one. *)

From stdpp Require Import sorting relations.
From S2P Require Import Prelude GoStd Errors Identity Dependency.

(** ** common.go *)

Definition ContractVersion : string := "praxis.runtime.ports/v1alpha1".

Inductive ComponentKind :=
| ComponentHarness | ComponentModelInvoker | ComponentContextEngine | ComponentToolMCP | ComponentState
| ComponentGovernance | ComponentSandbox | ComponentBudget | ComponentEvidence | ComponentProfileSystem
| ComponentAgentAssembler | ComponentToolEngine | ComponentMCPGateway | ComponentMemoryEngine
| ComponentKnowledgeEngine | ComponentAssetManager | ComponentOrganizationEngine | ComponentReviewEngine
| ComponentManagementEngine | ComponentCheckpoint | ComponentTimeline
| ComponentOther (raw : string).
#[export] Instance ComponentKind_eq_dec : EqDecision ComponentKind.
Proof. solve_decision. Defined.

Inductive CapabilityState :=
| CapabilityDeclared | CapabilityProbed | CapabilityCertified | CapabilityBound | CapabilityRevoked
| CapabilityOther (raw : string).
#[export] Instance CapabilityState_eq_dec : EqDecision CapabilityState.
Proof. solve_decision. Defined.

Inductive ConformanceLevel :=
| ConformanceFullyControlled | ConformanceRestrictedControlled | ConformanceContainedObserveOnly
| ConformanceRejected | ConformanceOther (raw : string).
#[export] Instance ConformanceLevel_eq_dec : EqDecision ConformanceLevel.
Proof. solve_decision. Defined.

Record Capability := {
  cap_Name : string;
  cap_State : CapabilityState;
  cap_EvidenceDigest : Digest;
  cap_EvidenceExpiry : Time;
}.
#[export] Instance Capability_eq_dec : EqDecision Capability.
Proof. solve_decision. Defined.

Record ComponentDescriptor := {
  cd_ID : string;
  cd_Kind : ComponentKind;
  cd_Version : string;
  cd_ArtifactDigest : Digest;
  cd_ContractVersion : string;
  cd_Conformance : ConformanceLevel;
  cd_Capabilities : list Capability;
}.
#[export] Instance ComponentDescriptor_eq_dec : EqDecision ComponentDescriptor.
Proof. solve_decision. Defined.

Definition validComponentKind (kind : ComponentKind) : bool :=
  match kind with ComponentOther _ => false | _ => true end.
Definition validCapabilityState (state : CapabilityState) : bool :=
  match state with CapabilityOther _ => false | _ => true end.

Definition cap_is (c : Capability) (s : CapabilityState) : bool := bool_decide (cap_State c = s).

(** The loop over d.Capabilities with its `seen` set. *)
Fixpoint validate_capability_list (seen : gset string) (capabilities : list Capability) : result unit :=
  match capabilities with
  | [] => Ok tt
  | capability :: rest =>
      guard (blank (cap_Name capability) || negb (validCapabilityState (cap_State capability)))
        ErrorInvalidArgument ReasonInvalidReference ;;
      guard (bool_decide (cap_Name capability ∈ seen)) ErrorConflict ReasonInvalidReference ;;
      (if negb (cap_is capability CapabilityDeclared) && negb (cap_is capability CapabilityRevoked)
       then Digest_Validate (cap_EvidenceDigest capability) ;;
            guard (IsZero (cap_EvidenceExpiry capability)) ErrorPreconditionFailed ReasonEvidenceUnavailable
       else Ok tt) ;;
      validate_capability_list ({[cap_Name capability]} ∪ seen) rest
  end.

Definition ComponentDescriptor_Validate (d : ComponentDescriptor) : result unit :=
  guard (blank (cd_ID d) || blank (cd_Version d)
         || negb (bool_decide (cd_ContractVersion d = ContractVersion))
         || negb (validComponentKind (cd_Kind d)))
    ErrorInvalidArgument ReasonInvalidReference ;;
  Digest_Validate (cd_ArtifactDigest d) ;;
  validate_capability_list ∅ (cd_Capabilities d).

(** ** Requirements and plans *)

Record ComponentRequirement := {
  req_ID : string;
  req_Kind : ComponentKind;
  req_Version : string;
  req_ArtifactDigest : Digest;
  req_Required : bool;
  req_AllowResidual : bool;
  req_Capabilities : list string;
  req_DependsOn : list string;
}.
#[export] Instance ComponentRequirement_eq_dec : EqDecision ComponentRequirement.
Proof. solve_decision. Defined.

(** The two loops of Validate: no blank name, no duplicate. *)
Fixpoint validate_names (seen : gset string) (names : list string) : result unit :=
  match names with
  | [] => Ok tt
  | name :: rest =>
      guard (blank name) ErrorInvalidArgument ReasonPlanInvalid ;;
      guard (bool_decide (name ∈ seen)) ErrorConflict ReasonPlanInvalid ;;
      validate_names ({[name]} ∪ seen) rest
  end.

Definition ComponentRequirement_Validate (r : ComponentRequirement) : result unit :=
  guard (blank (req_ID r) || negb (validComponentKind (req_Kind r)) || blank (req_Version r))
    ErrorInvalidArgument ReasonPlanInvalid ;;
  Digest_Validate (req_ArtifactDigest r) ;;
  validate_names ∅ (req_Capabilities r) ;;
  validate_names ∅ (req_DependsOn r).

Record ResolvedAgentPlan := {
  plan_ID : string;
  plan_Digest : Digest;
  plan_ProfileDigest : Digest;
  plan_ContextDigest : Digest;
  plan_AuthorityDigest : Digest;
  plan_Requirements : list ComponentRequirement;
}.

(** The loop that validates each requirement and fills `ids` (the keys) and
    `dependencies`. *)
Fixpoint collect_requirements (dependencies : gmap string (list string)) (reqs : list ComponentRequirement)
  : result (gmap string (list string)) :=
  match reqs with
  | [] => Ok dependencies
  | requirement :: rest =>
      ComponentRequirement_Validate requirement ;;
      guard (bool_decide (is_Some (dependencies !! req_ID requirement))) ErrorConflict ReasonPlanInvalid ;;
      collect_requirements (<[req_ID requirement := req_DependsOn requirement]> dependencies) rest
  end.

(** `for id, refs := range dependencies { for _, ref := range refs { ... } }` *)
Definition check_references (order : list string) (dependencies : gmap string (list string)) : result unit :=
  for_each (fun id =>
    for_each (fun ref =>
      guard (bool_decide (ref = id)) ErrorPreconditionFailed ReasonDependencyCycle ;;
      guard (bool_decide (dependencies !! ref = None)) ErrorPreconditionFailed ReasonComponentMissing)
      (successors dependencies id)) order.

(** An iteration order of Go's maps: [range i keys] is the order of the i-th
    range statement over a map with these keys. *)
Definition Range := nat -> list string -> list string.
Definition is_range (range : Range) : Prop := forall i l, Permutation (range i l) l.

Definition ResolvedAgentPlan_Validate (range : Range) (p : ResolvedAgentPlan) : result unit :=
  guard (blank (plan_ID p)) ErrorInvalidArgument ReasonPlanInvalid ;;
  for_each Digest_Validate
    [plan_Digest p; plan_ProfileDigest p; plan_ContextDigest p; plan_AuthorityDigest p] ;;
  dependencies ← collect_requirements ∅ (plan_Requirements p);
  check_references (range 0 (elements (dom dependencies))) dependencies ;;
  match hasDependencyCycle (range 1 (elements (dom dependencies))) dependencies with
  | Some cyclic => guard cyclic ErrorPreconditionFailed ReasonDependencyCycle
  | None => Err GoPanic
  end.

(** ** The registry

    A registered component is its descriptor and a handle of its adapter; what
    the adapters answer when they are asked is the argument [describe]. *)
Record RegisteredComponent := { rc_Descriptor : ComponentDescriptor; rc_Adapter : N }.

Definition Describe := N -> Context -> result ComponentDescriptor.

Record BindingResidual := { br_ComponentID : string; br_Reason : string }.
#[export] Instance BindingResidual_eq_dec : EqDecision BindingResidual.
Proof. solve_decision. Defined.

Record BindingSet := {
  bs_Descriptors : list ComponentDescriptor;
  bs_Residuals : list BindingResidual;
}.

Definition ComponentRegistry := gmap string RegisteredComponent.

Definition NewComponentRegistry : ComponentRegistry := ∅.

(** The adapter argument is a nil interface or a handle. *)
Definition Registry_Register (describe : Describe) (ctx : Context) (adapter : option N)
  : ST ComponentRegistry error unit :=
  match adapter with
  | None => st_err ErrorInvalidArgument ReasonComponentMissing
  | Some adapter =>
      descriptor ← st_lift (describe adapter ctx);
      st_lift (ComponentDescriptor_Validate descriptor) ;;
      components ← st_get;
      st_guard (bool_decide (is_Some (components !! cd_ID descriptor))) ErrorConflict ReasonAlreadyExists ;;
      st_put (<[cd_ID descriptor := {| rc_Descriptor := descriptor; rc_Adapter := adapter |}]> components)
  end.

(** The map `available`: a later capability of the same name wins. *)
Definition available_capabilities (capabilities : list Capability) : gmap string Capability :=
  foldl (fun available capability => <[cap_Name capability := capability]> available) ∅ capabilities.

Definition validateCapabilities (descriptor : ComponentDescriptor) (requirement : ComponentRequirement)
    (now : Time) : result unit :=
  let available := available_capabilities (cd_Capabilities descriptor) in
  for_each (fun name =>
    match available !! name with
    | None => fail ErrorCapabilityUnavailable ReasonComponentMissing
    | Some capability =>
        guard (negb (cap_is capability CapabilityBound)) ErrorCapabilityUnavailable ReasonComponentMissing ;;
        guard (negb (Before now (cap_EvidenceExpiry capability)))
          ErrorCapabilityUnavailable ReasonCapabilityExpired
    end) (req_Capabilities requirement).

(** `requirement.Required || !requirement.AllowResidual` *)
Definition must_bind (r : ComponentRequirement) : bool := req_Required r || negb (req_AllowResidual r).

Definition residual (id reason : string) : BindingResidual := {| br_ComponentID := id; br_Reason := reason |}.

Abbreviation Binding := (gmap string ComponentDescriptor * list BindingResidual)%type.

(** One iteration of the loop over plan.Requirements. *)
Definition bind_requirement (describe : Describe) (ctx : Context) (registered : ComponentRegistry) (now : Time)
    (requirement : ComponentRequirement) (b : Binding) : result Binding :=
  let '(bound, residuals) := b in
  let id := req_ID requirement in
  match registered !! id with
  | None =>
      guard (must_bind requirement) ErrorCapabilityUnavailable ReasonComponentMissing ;;
      Ok (bound, residuals ++ [residual id "component_missing"])
  | Some component =>
      descriptor ← describe (rc_Adapter component) ctx;
      ComponentDescriptor_Validate descriptor ;;
      guard (negb (bool_decide (cd_ID descriptor = id))
             || negb (bool_decide (cd_Kind descriptor = req_Kind requirement))
             || negb (bool_decide (cd_Version descriptor = req_Version requirement))
             || negb (bool_decide (cd_ArtifactDigest descriptor = req_ArtifactDigest requirement)))
        ErrorPreconditionFailed ReasonComponentMismatch ;;
      match validateCapabilities descriptor requirement now with
      | Err e =>
          reject_if (must_bind requirement) e ;;
          Ok (bound, residuals ++ [residual id "capability_unavailable"])
      | Ok _ => Ok (<[id := descriptor]> bound, residuals)
      end
  end.

Fixpoint bind_requirements (describe : Describe) (ctx : Context) (registered : ComponentRegistry) (now : Time)
    (reqs : list ComponentRequirement) (b : Binding) : result Binding :=
  match reqs with
  | [] => Ok b
  | requirement :: rest =>
      b' ← bind_requirement describe ctx registered now requirement b;
      bind_requirements describe ctx registered now rest b'
  end.

(** The map `requirements`. *)
Definition requirement_map (reqs : list ComponentRequirement) : gmap string ComponentRequirement :=
  foldl (fun m r => <[req_ID r := r]> m) ∅ reqs.

(** Some dependency is not in `bound`. *)
Definition dependency_missing (bound : gmap string ComponentDescriptor) (r : ComponentRequirement) : bool :=
  existsb (fun dependency => bool_decide (bound !! dependency = None)) (req_DependsOn r).

(** One range over `bound`: the keys it yields, deleting as it goes; the flag
    is `changed`. *)
Fixpoint prune_pass (requirements : gmap string ComponentRequirement) (ids : list string)
    (b : Binding) (changed : bool) : result (Binding * bool) :=
  match ids with
  | [] => Ok (b, changed)
  | id :: rest =>
      match requirements !! id with
      | None => prune_pass requirements rest b changed
      | Some requirement =>
          if dependency_missing b.1 requirement
          then guard (must_bind requirement) ErrorCapabilityUnavailable ReasonComponentMissing ;;
               prune_pass requirements rest
                 (delete id b.1, b.2 ++ [residual id "dependency_unavailable"]) true
          else prune_pass requirements rest b changed
      end
  end.

(** `for changed := true; changed; { ... }`; out of fuel is [None]. *)
Fixpoint prune (fuel : nat) (range : Range) (i : nat) (requirements : gmap string ComponentRequirement)
    (b : Binding) : option (result Binding) :=
  match fuel with
  | O => None
  | S fuel' =>
      match prune_pass requirements (range i (elements (dom b.1))) b false with
      | Err e => Some (Err e)
      | Ok (b', true) => prune fuel' range (S i) requirements b'
      | Ok (b', false) => Some (Ok b')
      end
  end.

Definition Registry_Resolve (range : Range) (describe : Describe) (ctx : Context)
    (components : ComponentRegistry) (plan : ResolvedAgentPlan) (now : Time) : result BindingSet :=
  ResolvedAgentPlan_Validate range plan ;;
  guard (IsZero now) ErrorInvalidArgument ReasonInvalidReference ;;
  b ← bind_requirements describe ctx components now (plan_Requirements plan) (∅, []);
  match prune (S (size (dom b.1))) range 3 (requirement_map (plan_Requirements plan)) b with
  | None => Err GoPanic
  | Some (Err e) => Err e
  | Some (Ok b) =>
      Ok {| bs_Descriptors :=
              sort_by cd_ID (omap (fun id => b.1 !! id) (range 2 (elements (dom b.1))));
            bs_Residuals := sort_by br_ComponentID b.2 |}
  end.

(** ** The dependency relation of a plan *)

Definition depends (reqs : list ComponentRequirement) (a b : string) : Prop :=
  exists r, r ∈ reqs /\ req_ID r = a /\ b ∈ req_DependsOn r.

Lemma collect_requirements_Ok reqs deps0 deps :
  collect_requirements deps0 reqs = Ok deps <->
  Forall (fun r => ComponentRequirement_Validate r = Ok tt) reqs
  /\ NoDup (map req_ID reqs) /\ (forall r, r ∈ reqs -> deps0 !! req_ID r = None)
  /\ deps = foldl (fun m r => <[req_ID r := req_DependsOn r]> m) deps0 reqs.
Proof.
  revert deps0; induction reqs as [| r reqs IH]; intros deps0; cbn [collect_requirements foldl map].
  { split; [intros [= <-] | by intros (_ & _ & _ & ->)].
    repeat split; try constructor. intros r; by rewrite elem_of_nil. }
  rewrite seq_Ok, seq_guard_Ok, bool_decide_eq_false, <- eq_None_not_Some, IH, Forall_cons, NoDup_cons.
  split.
  - intros (Hv & Hn & Hf & Hd & Hl & ->). repeat split; try done.
    + intros [x [Hx Hin]]%list_elem_of_fmap. specialize (Hl x Hin).
      by rewrite <- Hx, lookup_insert_eq in Hl.
    + intros x [-> | Hx]%elem_of_cons; [done |].
      specialize (Hl x Hx). by apply lookup_insert_None in Hl as [? _].
  - intros ((Hv & Hf) & (Hni & Hd) & Hl & ->). repeat split; try done.
    + apply Hl. by apply list_elem_of_here.
    + intros x Hx. apply lookup_insert_None. split; [apply Hl; by apply list_elem_of_further |].
      intros Heq. destruct Hni. rewrite Heq. by apply list_elem_of_fmap_2.
Qed.

(** A map filled by a range over a list with distinct keys. *)
Lemma foldl_insert_lookup {B} (f : ComponentRequirement -> B) reqs (m : gmap string B) k v :
  NoDup (map req_ID reqs) -> (forall r, r ∈ reqs -> m !! req_ID r = None) ->
  foldl (fun m r => <[req_ID r := f r]> m) m reqs !! k = Some v <->
  m !! k = Some v \/ exists r, r ∈ reqs /\ req_ID r = k /\ f r = v.
Proof.
  revert m; induction reqs as [| r reqs IH]; intros m; cbn [foldl map].
  { intros _ _. split; [by left | intros [? | (r & Hr & _)]; [done | by apply elem_of_nil in Hr]]. }
  rewrite NoDup_cons. intros [Hni Hd] Hm. rewrite IH; [| done |].
  - rewrite lookup_insert_Some. setoid_rewrite elem_of_cons. split.
    + intros [[[<- <-] | [_ ?]] | (x & Hx & <- & <-)]; [right; eauto | by left | right; eauto].
    + intros [Hk | (x & [-> | Hx] & <- & <-)].
      * left. right. split; [| done]. intros <-. by rewrite (Hm r (list_elem_of_here _ _)) in Hk.
      * left. by left.
      * right. eauto.
  - intros x Hx. apply lookup_insert_None. split; [apply Hm; by apply list_elem_of_further |].
    intros Heq. destruct Hni. rewrite Heq. by apply list_elem_of_fmap_2.
Qed.

Lemma requirement_map_lookup reqs k r :
  NoDup (map req_ID reqs) -> requirement_map reqs !! k = Some r <-> r ∈ reqs /\ req_ID r = k.
Proof.
  intros Hn. unfold requirement_map. rewrite foldl_insert_lookup by done. rewrite lookup_empty.
  split; [by intros [[=] | (x & ? & ? & ->)] | intros []; right; eauto].
Qed.

(** The graph that Validate searches. *)
Definition dependency_map (reqs : list ComponentRequirement) : gmap string (list string) :=
  foldl (fun m r => <[req_ID r := req_DependsOn r]> m) ∅ reqs.

Lemma dependency_map_lookup reqs k l :
  NoDup (map req_ID reqs) ->
  dependency_map reqs !! k = Some l <-> exists r, r ∈ reqs /\ req_ID r = k /\ req_DependsOn r = l.
Proof.
  intros Hn. unfold dependency_map. rewrite foldl_insert_lookup by done. rewrite lookup_empty.
  split; [by intros [[=] | ?] | by right].
Qed.

Lemma dependencies_edge reqs a b :
  NoDup (map req_ID reqs) -> edge (dependency_map reqs) a b <-> depends reqs a b.
Proof.
  intros Hn. unfold edge, successors, depends.
  destruct (_ !! a) as [l |] eqn:Hl; cbn.
  - apply dependency_map_lookup in Hl as (r & Hr & <- & <-); [| done].
    split; [by exists r |]. intros (x & Hx & Hid & Hb).
    by rewrite (map_NoDup_inj req_ID reqs r x Hn Hr Hx (eq_sym Hid)).
  - rewrite elem_of_nil. split; [done |]. intros (r & Hr & <- & _).
    assert (dependency_map reqs !! req_ID r = Some (req_DependsOn r)) as Hs
      by (apply dependency_map_lookup; eauto).
    by rewrite Hl in Hs.
Qed.

Lemma for_each_perm {A} (f : A -> result unit) l l' :
  l ≡ₚ l' -> for_each f l = Ok tt <-> for_each f l' = Ok tt.
Proof. intros Hp. rewrite !for_each_Ok. by rewrite Hp. Qed.

(** A resolved plan is accepted exactly when its identity and digests are
    present, every requirement is valid, component ids are distinct, every
    dependency is a component of the plan, and no component depends on itself
    directly or through others; the order in which Go ranges over its maps does
    not matter. *)
Theorem ResolvedAgentPlan_Validate_iff (range : Range) (p : ResolvedAgentPlan) (Hrange : is_range range) :
  ResolvedAgentPlan_Validate range p = Ok tt <->
  blank (plan_ID p) = false
  /\ Forall (fun d => Digest_Validate d = Ok tt)
       [plan_Digest p; plan_ProfileDigest p; plan_ContextDigest p; plan_AuthorityDigest p]
  /\ Forall (fun r => ComponentRequirement_Validate r = Ok tt) (plan_Requirements p)
  /\ NoDup (map req_ID (plan_Requirements p))
  /\ (forall a b, depends (plan_Requirements p) a b -> b ∈ map req_ID (plan_Requirements p))
  /\ forall a, ~ tc (depends (plan_Requirements p)) a a.
Proof.
  unfold ResolvedAgentPlan_Validate. rewrite seq_guard_Ok, seq_Ok, for_each_Ok, bind_Ok.
  setoid_rewrite collect_requirements_Ok. setoid_rewrite seq_Ok.
  set (deps := dependency_map (plan_Requirements p)).
  assert (NoDup (map req_ID (plan_Requirements p)) ->
     (check_references (range 0 (elements (dom deps))) deps = Ok tt
      /\ match hasDependencyCycle (range 1 (elements (dom deps))) deps with
         | Some cyclic => guard cyclic ErrorPreconditionFailed ReasonDependencyCycle
         | None => Err GoPanic
         end = Ok tt) <->
     (forall a b, depends (plan_Requirements p) a b -> b ∈ map req_ID (plan_Requirements p))
     /\ forall a, ~ tc (depends (plan_Requirements p)) a a) as Hmain.
  { intros Hn. pose proof (fun a b => dependencies_edge (plan_Requirements p) a b Hn) as Hedge. fold deps in Hedge.
    assert (forall k, is_Some (deps !! k) <-> k ∈ map req_ID (plan_Requirements p)) as Hdom.
    { intros k. rewrite list_elem_of_fmap. split.
      - intros [l Hl]. apply dependency_map_lookup in Hl as (r & Hr & <- & _); [by exists r | done].
      - intros (r & -> & Hr). exists (req_DependsOn r). apply dependency_map_lookup; eauto. }
    destruct (hasDependencyCycle_spec deps (range 1 (elements (dom deps))) (Hrange _ _)) as (c & -> & Hc).
    rewrite guard_Ok. unfold check_references.
    rewrite (for_each_perm _ _ (elements (dom deps)) (Hrange _ _)), for_each_Ok, Forall_forall.
    assert (forall a, tc (edge deps) a a <-> tc (depends (plan_Requirements p)) a a) as Htc.
    { intros a. split; apply tc_congruence with (f := fun x => x); intros; by apply Hedge. }
    setoid_rewrite <- Htc. split.
    - intros [Href Hcf]. split; [| by intros a Ha; rewrite (proj2 Hc) in Hcf by eauto].
      intros a b Hab. apply Hedge in Hab. apply Hdom.
      specialize (Href a (proj2 (elem_of_elements _ _) (edge_dom _ _ _ Hab))).
      rewrite for_each_Ok, Forall_forall in Href. specialize (Href b Hab). go_ok. go_bool.
      by apply not_eq_None_Some.
    - intros [Hin Hac]. split.
      + intros a _. apply for_each_Ok, Forall_forall. intros b Hb. apply seq_guard_Ok. rewrite guard_Ok. split.
        * apply bool_decide_eq_false. intros ->. apply (Hac a). by apply tc_once.
        * apply bool_decide_eq_false. apply not_eq_None_Some, Hdom, (Hin a). by apply Hedge.
      + apply not_true_is_false. intros [a Ha]%Hc. by apply (Hac a). }
  split.
  - intros (Hb & Hd & deps' & (Hv & Hn & _ & ->) & Hrest). apply Hmain in Hrest; [| done]. tauto.
  - intros (Hb & Hd & Hv & Hn & Hrest). apply Hmain in Hrest; [| done].
    split; [done |]. split; [done |]. exists deps. split; [by split_and! | exact Hrest].
Qed.

(** ** Pruning computes the greatest dependency-closed set *)

Section pruning.
Context (reqs : gmap string ComponentRequirement).

(** Every dependency of a component of the set is in the set. *)
Definition closed (C : gset string) : Prop :=
  forall id r d, id ∈ C -> reqs !! id = Some r -> d ∈ req_DependsOn r -> d ∈ C.

Definition keys {A} (m : gmap string A) : gset string := dom m.
#[global] Arguments keys : simpl never.

Definition pruned_residuals (ids : gset string) : list BindingResidual :=
  map (fun id => residual id "dependency_unavailable") (elements ids).

(** How pruning may change a binding. *)
Record pruned (b b' : Binding) : Prop := {
  pr_sub : b'.1 ⊆ b.1;
  pr_res : b'.2 ≡ₚ b.2 ++ pruned_residuals (keys b.1 ∖ keys b'.1);
  pr_opt : forall id r, id ∈ keys b.1 -> id ∉ keys b'.1 -> reqs !! id = Some r -> must_bind r = false;
  pr_max : forall C, closed C -> C ⊆ keys b.1 -> C ⊆ keys b'.1
}.

(** Pruning is impossible: a component that must be bound has a dependency
    that no closed set can provide. *)
Definition unbindable (b : Binding) : Prop :=
  exists id r, reqs !! id = Some r /\ must_bind r = true /\ id ∈ keys b.1
    /\ forall C, closed C -> C ⊆ keys b.1 -> id ∉ C.

Lemma keys_sub {A} (m m' : gmap string A) : m ⊆ m' -> keys m ⊆ keys m'.
Proof. apply subseteq_dom. Qed.

Lemma elem_of_keys {A} (m : gmap string A) k : k ∈ keys m <-> is_Some (m !! k).
Proof. apply elem_of_dom. Qed.

Lemma pruned_refl b : pruned b b.
Proof.
  split; try done. rewrite difference_diag_L. unfold pruned_residuals. by rewrite elements_empty, app_nil_r.
Qed.

Lemma pruned_trans b1 b2 b3 : pruned b1 b2 -> pruned b2 b3 -> pruned b1 b3.
Proof.
  intros [S12 R12 O12 M12] [S23 R23 O23 M23]. pose proof (keys_sub _ _ S12). pose proof (keys_sub _ _ S23).
  split.
  - by etrans.
  - rewrite R23, R12, <- app_assoc. f_equiv. unfold pruned_residuals. rewrite <- map_app.
    apply Permutation_map. rewrite <- elements_disj_union by set_solver.
    replace (keys b1.1 ∖ keys b3.1) with (keys b1.1 ∖ keys b2.1 ∪ keys b2.1 ∖ keys b3.1); [done |].
    apply set_eq. intros k. destruct (decide (k ∈ keys b2.1)); set_solver.
  - intros id r H1 H3 Hr. destruct (decide (id ∈ keys b2.1)); [by eapply O23 | by eapply O12].
  - intros C HC Hsub. by apply M23, M12.
Qed.

Lemma pruned_unbindable b b' : pruned b b' -> unbindable b' -> unbindable b.
Proof.
  intros [Hs _ _ Hm] (id & r & Hr & Hmb & Hid & HC). exists id, r. split_and!; try done.
  - by apply (keys_sub _ _ Hs).
  - intros C Hcl Hsub. by apply HC, Hm.
Qed.

Lemma dependency_missing_true (bound : gmap string ComponentDescriptor) r :
  dependency_missing bound r = true <-> exists d, d ∈ req_DependsOn r /\ d ∉ keys bound.
Proof.
  unfold dependency_missing. rewrite existsb_exists. setoid_rewrite <- list_elem_of_In.
  setoid_rewrite bool_decide_eq_true. by setoid_rewrite <- not_elem_of_dom.
Qed.

Lemma dependency_missing_false (bound : gmap string ComponentDescriptor) r :
  dependency_missing bound r = false <-> forall d, d ∈ req_DependsOn r -> d ∈ keys bound.
Proof.
  rewrite <- not_true_iff_false, dependency_missing_true. split.
  - intros H d Hd. destruct (decide (d ∈ keys bound)); [done |]. destruct H. eauto.
  - intros H (d & Hd & Hn). by apply Hn, H.
Qed.

(** A component with a missing dependency is in no closed set. *)
Lemma missing_not_closed (bound : gmap string ComponentDescriptor) id r C :
  reqs !! id = Some r -> dependency_missing bound r = true -> closed C -> C ⊆ keys bound -> id ∉ C.
Proof.
  intros Hr (d & Hd & Hn)%dependency_missing_true HC Hsub Hid. by apply Hn, Hsub, (HC id r d).
Qed.

Lemma difference_delete (X : gset string) (id : string) : id ∈ X -> X ∖ (X ∖ {[id]}) = {[id]}.
Proof. intros Hid. apply set_eq. intros k. destruct (decide (k = id)) as [-> |]; set_solver. Qed.

Lemma pruned_delete id r b :
  reqs !! id = Some r -> must_bind r = false -> dependency_missing b.1 r = true -> id ∈ keys b.1 ->
  pruned b (delete id b.1, b.2 ++ [residual id "dependency_unavailable"]).
Proof.
  intros Hr Hm Hd Hid. assert (keys (delete id b.1) = keys b.1 ∖ {[id]}) as Hk by apply dom_delete_L.
  split; cbn; rewrite ?Hk.
  - apply delete_subseteq.
  - rewrite difference_delete by done. unfold pruned_residuals. by rewrite elements_singleton.
  - intros id' r' H1 H2 H3. destruct (decide (id' = id)) as [-> |]; [congruence | set_solver].
  - intros C HC Hsub k Hk'. pose proof (missing_not_closed b.1 id r C Hr Hd HC Hsub).
    apply elem_of_difference. split; [by apply Hsub |]. rewrite elem_of_singleton. by intros ->.
Qed.

Lemma prune_pass_spec ids b ch :
  NoDup ids -> (forall id, id ∈ ids -> id ∈ keys b.1) ->
  match prune_pass reqs ids b ch with
  | Ok (b', ch') =>
      pruned b b' /\ (ch = true -> ch' = true) /\ (ch' = true -> ch = true \/ size (keys b'.1) < size (keys b.1))
      /\ (ch' = false -> b' = b /\ forall id r, id ∈ ids -> reqs !! id = Some r -> dependency_missing b.1 r = false)
  | Err e => e = NewError ErrorCapabilityUnavailable ReasonComponentMissing /\ unbindable b
  end.
Proof.
  revert b ch; induction ids as [| id ids IH]; intros b ch Hn Hin; cbn [prune_pass].
  { split_and!; [apply pruned_refl | done | by left |]. intros _. split; [done |]. intros id r. by rewrite elem_of_nil. }
  apply NoDup_cons in Hn as [Hni Hn].
  pose proof (Hin id (list_elem_of_here _ _)) as Hid.
  assert (forall id', id' ∈ ids -> id' ∈ keys b.1) as Hin' by (intros; apply Hin; by apply list_elem_of_further).
  assert (forall P, (forall r, reqs !! id = Some r -> dependency_missing b.1 r = false) ->
    (forall id r, id ∈ ids -> reqs !! id = Some r -> dependency_missing b.1 r = false) ->
    (P -> forall id' r, id' ∈ id :: ids -> reqs !! id' = Some r -> dependency_missing b.1 r = false)) as Hcons.
  { intros P H1 H2 _ id' r' [-> | Hid']%elem_of_cons; [by apply H1 | by apply H2]. }
  destruct (reqs !! id) as [r |] eqn:Hr; [destruct (dependency_missing b.1 r) eqn:Hd |].
  - destruct (must_bind r) eqn:Hm; cbn.
    { split; [done |]. exists id, r. split_and!; try done. intros C HC Hsub. by eapply missing_not_closed. }
    pose proof (pruned_delete id r b Hr Hm Hd Hid) as Hp.
    set (b1 := (delete id b.1, b.2 ++ [residual id "dependency_unavailable"])) in *.
    assert (keys b1.1 = keys b.1 ∖ {[id]}) as Hk by apply dom_delete_L.
    assert (size (keys b1.1) < size (keys b.1)) as Hsz.
    { apply (subset_size (C := gset string)). rewrite Hk. set_solver. }
    specialize (IH b1 true Hn). destruct (prune_pass _ _ _ _) as [[b' ch'] | e].
    + destruct IH as (Hp' & Hc & _ & _); [rewrite Hk; set_solver |].
      pose proof (subseteq_size _ _ (keys_sub _ _ (pr_sub _ _ Hp'))).
      rewrite (Hc eq_refl). split_and!; [by eapply pruned_trans | done | right; lia | done].
    + destruct IH as [-> Hu]; [rewrite Hk; set_solver |]. split; [done |]. by eapply pruned_unbindable.
  - specialize (IH b ch Hn Hin'). destruct (prune_pass _ _ _ _) as [[b' ch'] | e]; [| done].
    destruct IH as (Hp & Ht & Hc & Hf). split_and!; try done. intros Hch. destruct (Hf Hch) as [-> Hall].
    split; [done |]. apply (Hcons True); [congruence | done | done].
  - specialize (IH b ch Hn Hin'). destruct (prune_pass _ _ _ _) as [[b' ch'] | e]; [| done].
    destruct IH as (Hp & Ht & Hc & Hf). split_and!; try done. intros Hch. destruct (Hf Hch) as [-> Hall].
    split; [done |]. apply (Hcons True); [congruence | done | done].
Qed.

(** The loop ends within one pass per component and one more; its result does
    not mention the order. *)
Lemma prune_spec range fuel i b :
  is_range range -> (forall k, k ∈ keys b.1 -> is_Some (reqs !! k)) -> size (keys b.1) < fuel ->
  match prune fuel range i reqs b with
  | Some (Ok b') => pruned b b' /\ closed (keys b'.1)
  | Some (Err e) => e = NewError ErrorCapabilityUnavailable ReasonComponentMissing /\ unbindable b
  | None => False
  end.
Proof.
  intros Hrange. revert i b; induction fuel as [| fuel IH]; intros i b Hreq Hf; [lia |]. cbn [prune].
  pose proof (prune_pass_spec (range i (elements (keys b.1))) b false) as Hp.
  unfold keys in Hp at 1. destruct (prune_pass _ _ _ _) as [[b' [|]] | e].
  - destruct Hp as (Hp & _ & Hc & _).
    { rewrite (Hrange i _). apply NoDup_elements. }
    { intros id Hid. rewrite (Hrange i _) in Hid. by apply elem_of_elements. }
    destruct (Hc eq_refl) as [? | Hsz]; [done |].
    specialize (IH (S i) b'). destruct (prune _ _ _ _ _) as [[b2 | e2] |].
    + destruct IH as [Hp2 Hcl]; [| lia |].
      { intros k Hk. apply Hreq. by apply (keys_sub _ _ (pr_sub _ _ Hp)). }
      split; [by eapply pruned_trans | done].
    + destruct IH as [-> Hu]; [| lia |].
      { intros k Hk. apply Hreq. by apply (keys_sub _ _ (pr_sub _ _ Hp)). }
      split; [done |]. by eapply pruned_unbindable.
    + apply IH; [| lia]. intros k Hk. apply Hreq. by apply (keys_sub _ _ (pr_sub _ _ Hp)).
  - destruct Hp as (Hp & _ & _ & Hc).
    { rewrite (Hrange i _). apply NoDup_elements. }
    { intros id Hid. rewrite (Hrange i _) in Hid. by apply elem_of_elements. }
    destruct (Hc eq_refl) as [-> Hall]. split; [done |].
    intros id r d Hid Hr Hd. eapply dependency_missing_false; [| done].
    apply (Hall id); [| done]. rewrite (Hrange i _). by apply elem_of_elements.
  - apply Hp.
    + rewrite (Hrange i _). apply NoDup_elements.
    + intros id Hid. rewrite (Hrange i _) in Hid. by apply elem_of_elements.
Qed.

(** Two greatest closed subsets are the same binding. *)
Lemma pruned_unique b b1 b2 :
  pruned b b1 -> closed (keys b1.1) -> pruned b b2 -> closed (keys b2.1) -> b1.1 = b2.1 /\ b1.2 ≡ₚ b2.2.
Proof.
  intros [S1 R1 _ M1] C1 [S2 R2 _ M2] C2.
  assert (keys b1.1 = keys b2.1) as Hk.
  { apply set_eq. intros k. pose proof (M1 _ C2 (keys_sub _ _ S2) k).
    pose proof (M2 _ C1 (keys_sub _ _ S1) k). tauto. }
  split; [| by rewrite R1, R2, Hk].
  apply map_eq. intros k. destruct (b1.1 !! k) as [v |] eqn:H1.
  - assert (k ∈ keys b2.1) as [v2 H2]%elem_of_keys by (rewrite <- Hk; apply elem_of_keys; eauto).
    pose proof (lookup_weaken _ _ _ _ H1 S1). pose proof (lookup_weaken _ _ _ _ H2 S2). congruence.
  - symmetry. apply not_elem_of_dom. change (k ∉ keys b2.1). rewrite <- Hk. by apply not_elem_of_dom.
Qed.

Lemma pruned_not_unbindable b b' : pruned b b' -> closed (keys b'.1) -> ~ unbindable b.
Proof.
  intros [Hs _ Ho Hm] Hcl (id & r & Hr & Hmb & Hid & HC).
  pose proof (Ho id r Hid (HC _ Hcl (keys_sub _ _ Hs)) Hr). congruence.
Qed.
End pruning.

(** ** Resolve *)

Section resolve.
Context (describe : Describe) (ctx : Context) (components : ComponentRegistry) (now : Time).

(** The registered component of a requirement answers with a valid descriptor
    that matches the requirement exactly and has every required capability
    bound with unexpired evidence. *)
Definition binds (r : ComponentRequirement) (d : ComponentDescriptor) : Prop :=
  exists c, components !! req_ID r = Some c /\ describe (rc_Adapter c) ctx = Ok d
    /\ ComponentDescriptor_Validate d = Ok tt
    /\ cd_ID d = req_ID r /\ cd_Kind d = req_Kind r /\ cd_Version d = req_Version r
    /\ cd_ArtifactDigest d = req_ArtifactDigest r
    /\ validateCapabilities d r now = Ok tt.

Lemma binds_fun r d d' : binds r d -> binds r d' -> d = d'.
Proof. intros (c & Hc & Hd & _) (c' & Hc' & Hd' & _). congruence. Qed.

Lemma bind_requirement_Ok r b b' :
  bind_requirement describe ctx components now r b = Ok b' ->
  (exists d, binds r d /\ b' = (<[req_ID r := d]> b.1, b.2))
  \/ ((forall d, ~ binds r d) /\ must_bind r = false
      /\ exists reason, b' = (b.1, b.2 ++ [residual (req_ID r) reason])).
Proof.
  destruct b as [bound residuals]. unfold bind_requirement, binds. intros H.
  destruct (components !! req_ID r) as [c |] eqn:Hc.
  - go_ok. rewrite !orb_false_iff, !negb_false_iff, !bool_decide_eq_true in *. destruct_and?.
    destruct (validateCapabilities r0 r now) as [[] | e] eqn:Hv; go_ok.
    + left. exists r0. split; [| done]. by exists c.
    + right. split_and!; [| done | by eexists].
      intros d (c' & [= <-] & Hd & _ & _ & _ & _ & _ & Hv'). congruence.
  - go_ok. right. split_and!; [by intros d (c & ? & _) | done | by eexists].
Qed.

Lemma bind_requirements_Ok reqs b b' :
  NoDup (map req_ID reqs) -> (forall r, r ∈ reqs -> b.1 !! req_ID r = None) ->
  bind_requirements describe ctx components now reqs b = Ok b' ->
  (forall k d, b'.1 !! k = Some d <-> b.1 !! k = Some d \/ exists r, r ∈ reqs /\ req_ID r = k /\ binds r d)
  /\ (forall r, r ∈ reqs -> b'.1 !! req_ID r = None -> must_bind r = false)
  /\ map br_ComponentID b'.2
     = map br_ComponentID b.2 ++ map req_ID (filter (fun r => b'.1 !! req_ID r = None) reqs).
Proof.
  revert b; induction reqs as [| r reqs IH]; intros b Hn Hb; cbn [bind_requirements].
  { intros [= <-]. split_and!; [| by intros r ?%elem_of_nil | by rewrite filter_nil, app_nil_r].
    intros k d. split; [by left | intros [? | (r & ?%elem_of_nil & _)]; done]. }
  intros H. apply bind_Ok in H as (b1 & H1 & H2). cbn [map] in Hn. apply NoDup_cons in Hn as [Hni Hn].
  assert (forall x, x ∈ reqs -> req_ID x <> req_ID r) as Hne.
  { intros x Hx Heq. apply Hni. rewrite <- Heq. by apply list_elem_of_fmap_2. }
  pose proof (Hb r (list_elem_of_here _ _)) as Hr.
  apply bind_requirement_Ok in H1 as [(d & Hd & ->) | (Hnb & Hm & reason & ->)].
  - destruct (IH (<[req_ID r := d]> b.1, b.2) Hn) as (Hl & Ho & Hres); [| done |].
    { intros x Hx. cbn. rewrite lookup_insert_ne by (by apply not_eq_sym, Hne). by apply Hb, list_elem_of_further. }
    cbn [fst snd] in *. assert (b'.1 !! req_ID r = Some d) as Hbr by (apply Hl; left; by rewrite lookup_insert_eq).
    split_and!.
    + intros k d'. rewrite Hl, lookup_insert_Some. setoid_rewrite elem_of_cons. split.
      * intros [[[<- <-] | [_ ?]] | (x & ? & ? & ?)]; eauto 6.
      * intros [Hk | (x & [-> | Hx] & <- & Hbd)]; [| left; left; by rewrite (binds_fun _ _ _ Hd Hbd) | eauto 6].
        left. right. split; [| done]. intros <-. congruence.
    + intros x [-> | Hx]%elem_of_cons Hnone; [congruence | by apply Ho].
    + rewrite filter_cons_False by congruence. done.
  - destruct (IH (b.1, b.2 ++ [residual (req_ID r) reason]) Hn) as (Hl & Ho & Hres); [| done |].
    { intros x Hx. by apply Hb, list_elem_of_further. }
    cbn [fst snd] in *. assert (b'.1 !! req_ID r = None) as Hbr.
    { apply eq_None_not_Some. intros [d Hd]. apply Hl in Hd as [Hd | (x & Hx & Heq & _)]; [congruence |].
      by apply (Hne x). }
    split_and!.
    + intros k d'. rewrite Hl. setoid_rewrite elem_of_cons. split.
      * intros [? | (x & ? & ? & ?)]; eauto 6.
      * intros [Hk | (x & [-> | Hx] & <- & Hbd)]; [by left | by apply Hnb in Hbd | eauto 6].
    + intros x [-> | Hx]%elem_of_cons Hnone; [done | by apply Ho].
    + rewrite filter_cons_True by done. rewrite Hres, map_app, <- app_assoc. done.
Qed.

(** The bound descriptors, in the order of a range over the map. *)
Lemma descriptors_ids (bound : gmap string ComponentDescriptor) ids :
  (forall k d, bound !! k = Some d -> cd_ID d = k) -> (forall k, k ∈ ids -> is_Some (bound !! k)) ->
  map cd_ID (omap (fun id => bound !! id) ids) = ids.
Proof.
  intros Hid. induction ids as [| k ids IH]; intros Hs; [done |]. cbn.
  destruct (Hs k (list_elem_of_here _ _)) as [d Hd]. rewrite Hd. cbn.
  rewrite IH by (intros; apply Hs; by apply list_elem_of_further). by rewrite (Hid k d).
Qed.

(** What a plan resolves to, before it is sorted. *)
Definition resolved (plan : ResolvedAgentPlan) (b b' : Binding) : Prop :=
  bind_requirements describe ctx components now (plan_Requirements plan) (∅, []) = Ok b
  /\ pruned (requirement_map (plan_Requirements plan)) b b'
  /\ closed (requirement_map (plan_Requirements plan)) (keys b'.1).

Definition binding_set (ids : list string) (b : Binding) : BindingSet :=
  {| bs_Descriptors := sort_by cd_ID (omap (fun id => b.1 !! id) ids);
     bs_Residuals := sort_by br_ComponentID b.2 |}.

Section plan.
Context (range : Range) (plan : ResolvedAgentPlan) (Hrange : is_range range)
  (Hplan : ResolvedAgentPlan_Validate range plan = Ok tt).

Lemma plan_ids : NoDup (map req_ID (plan_Requirements plan)).
Proof. by apply ResolvedAgentPlan_Validate_iff in Hplan as (_ & _ & _ & ? & _). Qed.

Lemma bound_spec b :
  bind_requirements describe ctx components now (plan_Requirements plan) (∅, []) = Ok b ->
  (forall k d, b.1 !! k = Some d <-> exists r, r ∈ plan_Requirements plan /\ req_ID r = k /\ binds r d)
  /\ (forall r, r ∈ plan_Requirements plan -> b.1 !! req_ID r = None -> must_bind r = false)
  /\ map br_ComponentID b.2 = map req_ID (filter (fun r => b.1 !! req_ID r = None) (plan_Requirements plan)).
Proof.
  intros Hb. apply bind_requirements_Ok in Hb as (Hl & Ho & Hres); [| apply plan_ids | done].
  split_and!; [| done | done]. intros k d. rewrite Hl. cbn [fst]. rewrite lookup_empty. split; [by intros [[=] | ?] | by right].
Qed.

Lemma bound_keys b k :
  bind_requirements describe ctx components now (plan_Requirements plan) (∅, []) = Ok b ->
  k ∈ keys b.1 -> is_Some (requirement_map (plan_Requirements plan) !! k).
Proof.
  intros Hb [d Hd]%elem_of_keys. apply bound_spec in Hb as (Hl & _). apply Hl in Hd as (r & Hr & <- & _).
  exists r. apply requirement_map_lookup; [apply plan_ids | done].
Qed.

(** Resolve, as the greatest closed binding or one of three kinds of error. *)
Lemma Resolve_cases :
  Registry_Resolve range describe ctx components plan now
  = if IsZero now then fail ErrorInvalidArgument ReasonInvalidReference
    else match bind_requirements describe ctx components now (plan_Requirements plan) (∅, []) with
         | Err e => Err e
         | Ok b =>
             match prune (S (size (keys b.1))) range 3 (requirement_map (plan_Requirements plan)) b with
             | Some (Ok b') => Ok (binding_set (range 2 (elements (keys b'.1))) b')
             | Some (Err e) => Err e
             | None => Err GoPanic
             end
         end.
Proof.
  unfold Registry_Resolve. rewrite Hplan. cbn. destruct (IsZero now); [done |]. cbn.
  by destruct (bind_requirements _ _ _ _ _ _) as [b | e].
Qed.

Lemma Resolve_Ok bs :
  Registry_Resolve range describe ctx components plan now = Ok bs ->
  exists b b', resolved plan b b' /\ bs = binding_set (range 2 (elements (keys b'.1))) b'.
Proof.
  rewrite Resolve_cases. destruct (IsZero now); [done |].
  destruct (bind_requirements _ _ _ _ _ _) as [b | e] eqn:Hb; [| done].
  pose proof (prune_spec (requirement_map (plan_Requirements plan)) range (S (size (keys b.1))) 3 b Hrange
                (fun k => bound_keys b k Hb) ltac:(lia)) as Hp.
  destruct (prune _ _ _ _ _) as [[b' | e] |]; [| done | done]. intros [= <-]. by exists b, b'.
Qed.

Lemma resolved_ids b b' :
  resolved plan b b' ->
  (forall k d, b'.1 !! k = Some d -> exists r, r ∈ plan_Requirements plan /\ req_ID r = k /\ binds r d)
  /\ keys b'.1 ⊆ keys b.1
  /\ NoDup (map br_ComponentID b'.2)
  /\ forall k, k ∈ map br_ComponentID b'.2 <-> k ∈ map req_ID (plan_Requirements plan) /\ k ∉ keys b'.1.
Proof.
  intros (Hb & [Hs Hr _ _] & _). pose proof (bound_keys b) as Hkeys.
  pose proof (keys_sub _ _ Hs) as Hk. pose proof plan_ids as Hnd.
  apply bound_spec in Hb as Hb'. destruct Hb' as (Hl & _ & Hres).
  assert (map br_ComponentID b'.2
          ≡ₚ map req_ID (filter (fun r => b.1 !! req_ID r = None) (plan_Requirements plan))
             ++ elements (keys b.1 ∖ keys b'.1)) as Hp.
  { rewrite Hr, map_app, Hres. f_equiv. unfold pruned_residuals. rewrite map_map. cbn. by rewrite map_id. }
  assert (forall k, k ∈ map req_ID (filter (fun r => b.1 !! req_ID r = None) (plan_Requirements plan))
                    <-> k ∈ map req_ID (plan_Requirements plan) /\ k ∉ keys b.1) as Hf.
  { intros k. rewrite !list_elem_of_fmap. setoid_rewrite list_elem_of_filter. unfold keys.
    rewrite not_elem_of_dom. split; [by intros (r & -> & Hn & Hi); split; [exists r |] |].
    intros ((r & -> & Hi) & Hn). by exists r. }
  split_and!.
  - intros k d Hd. apply Hl. by eapply lookup_weaken.
  - done.
  - rewrite Hp. apply NoDup_app. split_and!.
    + eapply sublist_NoDup; [exact Hnd |]. apply fmap_sublist, sublist_filter.
    + intros k [_ Hkn]%Hf. rewrite elem_of_elements. set_solver.
    + apply NoDup_elements.
  - intros k. rewrite Hp, elem_of_app, Hf, elem_of_elements, elem_of_difference.
    destruct (decide (k ∈ keys b.1)) as [Hkb | Hkb]; [| specialize (Hk k); tauto].
    destruct (Hkeys k Hb Hkb) as [r Hrk]. apply requirement_map_lookup in Hrk as [Hin <-]; [| done].
    pose proof (list_elem_of_fmap_2 req_ID _ _ Hin). tauto.
Qed.
End plan.
End resolve.

Section resolve_theorems.
Context (describe : Describe) (ctx : Context) (components : ComponentRegistry) (now : Time)
  (plan : ResolvedAgentPlan).

(** C38: a successful Resolve partitions the plan: the bound descriptors and the
    residuals, each sorted by id, name every component of the plan exactly once;
    a bound descriptor matches its requirement, has its required capabilities
    bound and unexpired, and all its dependencies are bound too; a component
    that is required or may not be residual is bound; and nothing is dropped
    without need: any dependency-closed set of components that individually
    bind is bound. *)
Theorem Resolve_sound (range : Range) (bs : BindingSet) (Hrange : is_range range)
    (H : Registry_Resolve range describe ctx components plan now = Ok bs) :
  let reqs := plan_Requirements plan in
  let bound := map cd_ID (bs_Descriptors bs) in
  Permutation (bound ++ map br_ComponentID (bs_Residuals bs)) (map req_ID reqs)
  /\ StronglySorted (by_key cd_ID) (bs_Descriptors bs)
  /\ StronglySorted (by_key br_ComponentID) (bs_Residuals bs)
  /\ (forall d, d ∈ bs_Descriptors bs -> exists r, r ∈ reqs /\ binds describe ctx components now r d
        /\ forall dependency, dependency ∈ req_DependsOn r -> dependency ∈ bound)
  /\ (forall r, r ∈ reqs -> must_bind r = true -> req_ID r ∈ bound)
  /\ (forall C : gset string,
        (forall r, r ∈ reqs -> req_ID r ∈ C -> forall d, d ∈ req_DependsOn r -> d ∈ C) ->
        (forall k, k ∈ C -> exists r d, r ∈ reqs /\ req_ID r = k /\ binds describe ctx components now r d) ->
        forall k, k ∈ C -> k ∈ bound).
Proof.
  assert (ResolvedAgentPlan_Validate range plan = Ok tt) as Hplan.
  { unfold Registry_Resolve in H. by go_ok. }
  apply Resolve_Ok in H as (b & b' & Hres & ->); [| done | done]. cbn [bs_Descriptors bs_Residuals binding_set].
  pose proof (resolved_ids describe ctx components now range plan Hrange Hplan b b' Hres) as (Hbnd & Hsub & Hnd & Hids).
  destruct Hres as (Hb & [Hs Hr Ho Hm] & Hcl).
  pose proof (plan_ids range plan Hrange Hplan) as Hn.
  pose proof (bound_spec describe ctx components now range plan Hrange Hplan b Hb) as (Hl & Hopt & _).
  assert (map cd_ID (omap (fun id => b'.1 !! id) (range 2 (elements (keys b'.1)))) = range 2 (elements (keys b'.1)))
    as Hdesc.
  { apply descriptors_ids.
    - intros k d Hk. destruct (Hbnd k d Hk) as (r & _ & <- & c & _ & _ & _ & ? & _). done.
    - intros k. rewrite (Hrange 2 _), elem_of_elements. apply elem_of_keys. }
  assert (forall k, k ∈ map cd_ID (sort_by cd_ID (omap (fun id => b'.1 !! id) (range 2 (elements (keys b'.1)))))
                    <-> k ∈ keys b'.1) as Hin.
  { intros k. rewrite sort_by_Permutation, Hdesc, (Hrange 2 _). apply elem_of_elements. }
  split_and!.
  - rewrite !sort_by_Permutation, Hdesc, (Hrange 2 _). apply NoDup_Permutation; [| done |].
    + apply NoDup_app. split_and!; [apply NoDup_elements | | done].
      intros k Hk. rewrite elem_of_elements in Hk. by intros [_ ?]%Hids.
    + intros k. rewrite elem_of_app, elem_of_elements, Hids.
      destruct (decide (k ∈ keys b'.1)) as [Hk |]; [| tauto].
      apply elem_of_keys in Hk as Hk'. destruct Hk' as [d Hd]. destruct (Hbnd k d Hd) as (r & Hrin & <- & _).
      pose proof (list_elem_of_fmap_2 req_ID _ _ Hrin). tauto.
  - apply StronglySorted_merge_sort; apply _.
  - apply StronglySorted_merge_sort; apply _.
  - intros d. rewrite sort_by_Permutation. intros (k & Hk & Hd)%list_elem_of_omap.
    destruct (Hbnd k d Hd) as (r & Hrin & Hid & Hbd). exists r. split_and!; [done | done |].
    intros dep Hdep. apply Hin. apply (Hcl k r dep); [by apply elem_of_keys; exists d | | done].
    by apply requirement_map_lookup.
  - intros r Hrin Hmb. apply Hin. destruct (decide (req_ID r ∈ keys b'.1)) as [| Hnk]; [done |]. exfalso.
    destruct (b.1 !! req_ID r) as [d |] eqn:Hbr; [| by rewrite (Hopt r Hrin Hbr) in Hmb].
    rewrite (Ho (req_ID r) r) in Hmb; [done | by apply elem_of_keys; exists d | done |].
    by apply requirement_map_lookup.
  - intros C Hclosed Hbind k Hk. apply Hin. apply (Hm C); [| | done].
    + intros id r d Hid Hrm Hd. apply requirement_map_lookup in Hrm as [Hrin <-]; [| done]. by apply (Hclosed r).
    + intros j Hj. destruct (Hbind j Hj) as (r & d & Hrin & <- & Hbd). apply elem_of_keys. exists d. apply Hl. eauto.
Qed.

(** C39: resolving a valid plan is deterministic although the code ranges over
    Go maps, deletes from one while ranging over it and repeats until nothing
    changes: every two iteration orders give the same binding set, residual
    reasons included, or the same error. *)
Theorem Resolve_order_independent (range range' : Range) (Hrange : is_range range) (Hrange' : is_range range')
    (Hplan : ResolvedAgentPlan_Validate range plan = Ok tt) :
  Registry_Resolve range describe ctx components plan now
  = Registry_Resolve range' describe ctx components plan now.
Proof.
  assert (ResolvedAgentPlan_Validate range' plan = Ok tt) as Hplan'.
  { apply ResolvedAgentPlan_Validate_iff; [done |]. by apply ResolvedAgentPlan_Validate_iff in Hplan. }
  rewrite (Resolve_cases describe ctx components now range) by done.
  rewrite (Resolve_cases describe ctx components now range') by done.
  destruct (IsZero now); [done |].
  destruct (bind_requirements _ _ _ _ _ _) as [b | e] eqn:Hb; [| done].
  set (rm := requirement_map (plan_Requirements plan)).
  assert (forall k, k ∈ keys b.1 -> is_Some (rm !! k)) as Hk.
  { intros k. by apply (bound_keys describe ctx components now range plan Hrange Hplan b k). }
  pose proof (prune_spec rm range (S (size (keys b.1))) 3 b Hrange Hk ltac:(lia)) as H1.
  pose proof (prune_spec rm range' (S (size (keys b.1))) 3 b Hrange' Hk ltac:(lia)) as H2.
  destruct (prune _ range _ _ _) as [[b1 | e1] |]; [| | done];
    destruct (prune _ range' _ _ _) as [[b2 | e2] |]; try done.
  - destruct H1 as [P1 C1], H2 as [P2 C2]. destruct (pruned_unique rm b b1 b2 P1 C1 P2 C2) as [E Hp].
    assert (resolved describe ctx components now plan b b1) as R1 by done.
    destruct (resolved_ids describe ctx components now range plan Hrange Hplan b b1 R1) as (Hbnd & _ & Hnd & _).
    unfold binding_set. rewrite <- E. do 2 f_equal; [| by apply sort_by_unique].
    apply sort_by_unique.
    + rewrite descriptors_ids; [rewrite (Hrange 2 _); apply NoDup_elements | |].
      * intros k d Hd. destruct (Hbnd k d Hd) as (r & _ & <- & c & _ & _ & _ & ? & _). done.
      * intros k. rewrite (Hrange 2 _), elem_of_elements. apply elem_of_keys.
    + f_equiv. rewrite (Hrange 2 _), (Hrange' 2 _). done.
  - exfalso. destruct H1 as [P1 C1], H2 as [_ U]. by apply (pruned_not_unbindable rm b b1 P1 C1).
  - exfalso. destruct H2 as [P1 C1], H1 as [_ U]. by apply (pruned_not_unbindable rm b b2 P1 C1).
  - destruct H1 as [-> _], H2 as [-> _]. done.
Qed.
End resolve_theorems.

(** ** A concrete registry *)

Definition ex_now : Time := {| instant := 100; rep := 0 |}.
Definition ex_component (id : string) (kind : ComponentKind) : ComponentDescriptor :=
  {| cd_ID := id; cd_Kind := kind; cd_Version := "1.0.0"; cd_ArtifactDigest := ex_digest;
     cd_ContractVersion := ContractVersion; cd_Conformance := ConformanceFullyControlled;
     cd_Capabilities := [{| cap_Name := "run"; cap_State := CapabilityBound;
                            cap_EvidenceDigest := ex_digest;
                            cap_EvidenceExpiry := {| instant := 200; rep := 0 |} |}] |}.
Definition ex_describe : Describe := fun adapter _ =>
  match adapter with
  | 1%N => Ok (ex_component "harness" ComponentHarness)
  | 2%N => Ok (ex_component "memory" ComponentMemoryEngine)
  | 3%N => Ok (ex_component "timeline" ComponentTimeline)
  | _ => Err (ForeignErr 1)
  end.
Definition ex_registry : ComponentRegistry :=
  (Registry_Register ex_describe CtxLive (Some 3%N)
    (Registry_Register ex_describe CtxLive (Some 2%N)
      (Registry_Register ex_describe CtxLive (Some 1%N) NewComponentRegistry).1).1).1.
Definition ex_requirement (id : string) (kind : ComponentKind) (required : bool) (deps : list string)
  : ComponentRequirement :=
  {| req_ID := id; req_Kind := kind; req_Version := "1.0.0"; req_ArtifactDigest := ex_digest;
     req_Required := required; req_AllowResidual := negb required; req_Capabilities := ["run"];
     req_DependsOn := deps |}.
(** timeline depends on memory, which depends on the unregistered knowledge. *)
Definition ex_plan : ResolvedAgentPlan :=
  {| plan_ID := "plan"; plan_Digest := ex_digest; plan_ProfileDigest := ex_digest;
     plan_ContextDigest := ex_digest; plan_AuthorityDigest := ex_digest;
     plan_Requirements :=
       [ex_requirement "timeline" ComponentTimeline false ["memory"; "harness"];
        ex_requirement "memory" ComponentMemoryEngine false ["knowledge"];
        ex_requirement "knowledge" ComponentKnowledgeEngine false [];
        ex_requirement "harness" ComponentHarness true []] |}.
Definition in_order : Range := fun _ l => l.
Definition reversed : Range := fun _ l => rev l.
Definition ex_bindings : BindingSet :=
  {| bs_Descriptors := [ex_component "harness" ComponentHarness];
     bs_Residuals := [residual "knowledge" "component_missing"; residual "memory" "dependency_unavailable";
                      residual "timeline" "dependency_unavailable"] |}.

Lemma in_order_range : is_range in_order.
Proof. by intros i l. Qed.
Lemma reversed_range : is_range reversed.
Proof. intros i l. symmetry. apply Permutation_rev. Qed.

Example ex_plan_valid : ResolvedAgentPlan_Validate in_order ex_plan = Ok tt.
Proof. vm_compute; reflexivity. Qed.
Example ex_resolve : Registry_Resolve in_order ex_describe CtxLive ex_registry ex_plan ex_now = Ok ex_bindings.
Proof. vm_compute; reflexivity. Qed.

Lemma ResolvedAgentPlan_Validate_iff_witness :
  ~ tc (depends (plan_Requirements ex_plan)) "memory" "memory".
Proof.
  apply (ResolvedAgentPlan_Validate_iff in_order ex_plan in_order_range). vm_compute. reflexivity.
Defined.

Lemma Resolve_sound_witness :
  Permutation (["harness"] ++ ["knowledge"; "memory"; "timeline"])
    ["timeline"; "memory"; "knowledge"; "harness"].
Proof.
  refine (proj1 (Resolve_sound ex_describe CtxLive ex_registry ex_now ex_plan in_order ex_bindings
    in_order_range _)).
  vm_compute. reflexivity.
Defined.

Lemma Resolve_order_independent_witness :
  Registry_Resolve reversed ex_describe CtxLive ex_registry ex_plan ex_now = Ok ex_bindings.
Proof.
  rewrite <- (Resolve_order_independent ex_describe CtxLive ex_registry ex_now ex_plan in_order reversed
    in_order_range reversed_range); vm_compute; reflexivity.
Defined.
