(* ===== verification/Binding.v ===== *)
(** * ports/binding_v2_types.go, binding_v2_validate.go: manifests, catalogs and plans

    What a component declares about itself (the manifest), what the deployment
    allows it to be (the governance catalog) and what an agent needs of it (the
    binding plan), with their validation, their normal forms and their digests.
    A slice of a manifest is [None] when it is nil, because json.Marshal tells
    nil from empty; the other structs are only used through normal forms that
    do not.  The names, versions, schemas and payloads are in Payload.v. *)

From stdpp Require Import sorting.
From S2P Require Import Prelude GoStd Errors Identity SemVer Sha256 Json Canonical Payload Assembly.
From Stdlib Require Import Ascii.

Local Open Scope N_scope.

Definition BindingContractVersionV2 : string := "praxis.runtime.binding/v2".
Definition binding_domain : string := "praxis.runtime.binding".


(** ** binding_v2_types.go *)

Inductive LocalityV2 :=
| LocalityHostControlPlane | LocalityInstanceDataPlane | LocalityExternalStatePlane | LocalityRemoteProvider
| LocalityOther (raw : string).
#[export] Instance LocalityV2_eq_dec : EqDecision LocalityV2.
Proof. solve_decision. Defined.

Inductive ResidualClassV2 :=
| ResidualNone | ResidualInspectable | ResidualCompensatable | ResidualExternallyOwned
| ResidualPotentiallyStale | ResidualOther (raw : string).
#[export] Instance ResidualClassV2_eq_dec : EqDecision ResidualClassV2.
Proof. solve_decision. Defined.

Inductive OfflinePolicyModeV2 :=
| OfflineDenied | OfflineObserveOnly | OfflineCachedAuthorityOnly | OfflineOther (raw : string).
#[export] Instance OfflinePolicyModeV2_eq_dec : EqDecision OfflinePolicyModeV2.
Proof. solve_decision. Defined.

Record DisplayAnnotationV2 := { an_Key : string; an_Value : string }.
#[export] Instance DisplayAnnotationV2_eq_dec : EqDecision DisplayAnnotationV2.
Proof. solve_decision. Defined.

Record ComponentDependencyV2 := { dep_ComponentID : string; dep_Optional : bool }.
#[export] Instance ComponentDependencyV2_eq_dec : EqDecision ComponentDependencyV2.
Proof. solve_decision. Defined.

Record CapabilityRequirementV2 := {
  rc2_Capability : string;
  rc2_ProviderComponent : string;
  rc2_Optional : bool;
}.
#[export] Instance CapabilityRequirementV2_eq_dec : EqDecision CapabilityRequirementV2.
Proof. solve_decision. Defined.

Record ProvidedCapabilityV2 := {
  pc_Capability : string;
  pc_TTLSeconds : N;
  pc_Schemas : option (list SchemaRefV2);
}.
#[export] Instance ProvidedCapabilityV2_eq_dec : EqDecision ProvidedCapabilityV2.
Proof. solve_decision. Defined.

Record OwnerAssignmentV2 := { oa_Role : OwnerRoleV2; oa_OwnerComponentID : string }.
#[export] Instance OwnerAssignmentV2_eq_dec : EqDecision OwnerAssignmentV2.
Proof. solve_decision. Defined.

Record CredentialRequirementV2 := {
  cr_CredentialClass : string;
  cr_ScopeDigest : Digest;
  cr_MaximumTTLSeconds : N;
}.
#[export] Instance CredentialRequirementV2_eq_dec : EqDecision CredentialRequirementV2.
Proof. solve_decision. Defined.

Record ComponentManifestV2 := {
  m_ContractVersion : string;
  m_ComponentID : string;
  m_Kind : string;
  m_GovernanceCategory : string;
  m_SemanticVersion : string;
  m_ArtifactDigest : Digest;
  m_Contract : ContractBindingV2;
  m_Schemas : option (list SchemaRefV2);
  m_Locality : LocalityV2;
  m_Dependencies : option (list ComponentDependencyV2);
  m_RequiredCapabilities : option (list CapabilityRequirementV2);
  m_ProvidedCapabilities : option (list ProvidedCapabilityV2);
  m_Conformance : ConformanceLevel;
  m_ResidualClass : ResidualClassV2;
  m_Owners : option (list OwnerAssignmentV2);
  m_Credentials : option (list CredentialRequirementV2);
  m_OfflinePolicy : OfflinePolicyModeV2;
  m_Extensions : option (list GovernanceExtensionV2);
  m_Annotations : option (list DisplayAnnotationV2);
}.
#[export] Instance ComponentManifestV2_eq_dec : EqDecision ComponentManifestV2.
Proof. solve_decision. Defined.

(** A struct of one field, the key. *)
Definition ExtensionPolicyV2 : Type := string.

Record GovernanceRegistrationV2 := {
  gr_Kind : string;
  gr_Category : string;
  gr_Capabilities : list string;
  gr_Schemas : list SchemaRefV2;
  gr_ExtensionPolicies : list ExtensionPolicyV2;
  gr_AllowedLocalities : list LocalityV2;
  gr_AllowedConformance : list ConformanceLevel;
}.

(** A struct of one field, the registrations. *)
Definition GovernanceCatalogV2 : Type := list GovernanceRegistrationV2.

Record CapabilityGrantV2 := {
  cg_Capability : string;
  cg_EvidenceDigest : Digest;
  cg_ObservedUnixNano : Z;
  cg_ExpiresUnixNano : Z;
}.
#[export] Instance CapabilityGrantV2_eq_dec : EqDecision CapabilityGrantV2.
Proof. solve_decision. Defined.

Record BindingRequirementV2 := {
  br2_ComponentID : string;
  br2_Kind : string;
  br2_SemanticVersion : VersionRangeV2;
  br2_ContractName : string;
  br2_Contract : VersionRangeV2;
  br2_ArtifactDigest : Digest;
  br2_RequiredCapabilities : list string;
  br2_Required : bool;
  br2_AllowResidual : bool;
}.
#[export] Instance BindingRequirementV2_eq_dec : EqDecision BindingRequirementV2.
Proof. solve_decision. Defined.

Record BindingPlanV2 := {
  bp_ID : string;
  bp_PlanDigest : Digest;
  bp_GovernanceDigest : Digest;
  bp_Requirements : list BindingRequirementV2;
}.
#[export] Instance BindingPlanV2_eq_dec : EqDecision BindingPlanV2.
Proof. solve_decision. Defined.

Definition LocalityV2_string (l : LocalityV2) : string :=
  match l with
  | LocalityHostControlPlane => "host_control_plane" | LocalityInstanceDataPlane => "instance_data_plane"
  | LocalityExternalStatePlane => "external_state_plane" | LocalityRemoteProvider => "remote_provider"
  | LocalityOther raw => raw
  end.
Definition ResidualClassV2_string (c : ResidualClassV2) : string :=
  match c with
  | ResidualNone => "none" | ResidualInspectable => "inspectable" | ResidualCompensatable => "compensatable"
  | ResidualExternallyOwned => "externally_owned" | ResidualPotentiallyStale => "potentially_stale"
  | ResidualOther raw => raw
  end.
Definition OfflinePolicyModeV2_string (p : OfflinePolicyModeV2) : string :=
  match p with
  | OfflineDenied => "denied" | OfflineObserveOnly => "observe_only"
  | OfflineCachedAuthorityOnly => "cached_authority_only" | OfflineOther raw => raw
  end.
Definition ConformanceLevel_string (c : ConformanceLevel) : string :=
  match c with
  | ConformanceFullyControlled => "fully_controlled" | ConformanceRestrictedControlled => "restricted_controlled"
  | ConformanceContainedObserveOnly => "contained_observe_only" | ConformanceRejected => "rejected"
  | ConformanceOther raw => raw
  end.

(** ** Sets *)

Definition validLocalityV2 (value : LocalityV2) : bool := match value with LocalityOther _ => false | _ => true end.
Definition validResidualClassV2 (value : ResidualClassV2) : bool :=
  match value with ResidualOther _ => false | _ => true end.
Definition validOfflinePolicyV2 (value : OfflinePolicyModeV2) : bool :=
  match value with OfflineOther _ => false | _ => true end.
Definition validConformance (value : ConformanceLevel) : bool :=
  match value with ConformanceOther _ => false | _ => true end.

Definition containsLocality (values : list LocalityV2) (target : LocalityV2) : bool :=
  existsb (fun value => bool_decide (value = target)) values.
Definition containsConformance (values : list ConformanceLevel) (target : ConformanceLevel) : bool :=
  existsb (fun value => bool_decide (value = target)) values.

Definition len {A} (l : list A) : N := N.of_nat (length l).

(** The returned map is the set of the keys of [schemas]. *)
Definition validateSchemaSetV2 (schemas : list SchemaRefV2) : result unit :=
  visit_unique SchemaRefV2_Validate SchemaRefV2_Key (NewError ErrorConflict ReasonUnknownSchema) nothing [] schemas.

Definition validateNamespacedSetV2 (values : list string) : result unit :=
  visit_unique ValidateNamespacedNameV2 id (NewError ErrorConflict ReasonDuplicateCanonicalKey) nothing [] values.

Definition validateOwnersV2 (owners : list OwnerAssignmentV2) : result unit :=
  guard (negb (Nat.eqb (length owners) 3)) ErrorPreconditionFailed ReasonOwnerMissing ;;
  visit_unique
    (fun owner =>
       guard (negb (known_role (oa_Role owner))) ErrorInvalidArgument ReasonOwnerConflict ;;
       ValidateNamespacedNameV2 (oa_OwnerComponentID owner))
    oa_Role (NewError ErrorConflict ReasonOwnerConflict) nothing [] owners.

Definition ValidateOwnerAssignmentsV2 : list OwnerAssignmentV2 -> result unit := validateOwnersV2.

Definition validateCredentialsV2 (credentials : list CredentialRequirementV2) : result unit :=
  visit_unique
    (fun credential =>
       ValidateNamespacedNameV2 (cr_CredentialClass credential) ;;
       Digest_Validate (cr_ScopeDigest credential) ;;
       guard ((cr_MaximumTTLSeconds credential =? 0) || (MaxCapabilityTTLSeconds <? cr_MaximumTTLSeconds credential))
         ErrorInvalidArgument ReasonCapabilityExpired)
    cr_CredentialClass (NewError ErrorConflict ReasonInvalidReference) nothing [] credentials.

Definition validateAnnotationsV2 (annotations : list DisplayAnnotationV2) : result unit :=
  visit_unique
    (fun annotation =>
       guard (bool_decide (an_Key annotation = "") || (128 <? str_len (an_Key annotation))
              || (4096 <? str_len (an_Value annotation))
              || negb (bool_decide (TrimSpace (an_Key annotation) = an_Key annotation)))
         ErrorInvalidArgument ReasonInvalidReference)
    an_Key (NewError ErrorConflict ReasonDuplicateCanonicalKey) nothing [] annotations.

(** ** Manifests *)

Definition validateManifestSetLimits (m : ComponentManifestV2) : result unit :=
  for_each (fun count => guard (MaxManifestSetEntries <? count) ErrorInvalidArgument ReasonCanonicalLimitExceeded)
    [len (slice_items (m_Schemas m)); len (slice_items (m_Dependencies m));
     len (slice_items (m_RequiredCapabilities m)); len (slice_items (m_ProvidedCapabilities m));
     len (slice_items (m_Owners m)); len (slice_items (m_Credentials m));
     len (slice_items (m_Extensions m)); len (slice_items (m_Annotations m))].

Definition validateDependencies (self : string) (dependencies : list ComponentDependencyV2) : result unit :=
  visit_unique
    (fun dependency =>
       ValidateNamespacedNameV2 (dep_ComponentID dependency) ;;
       guard (bool_decide (dep_ComponentID dependency = self)) ErrorPreconditionFailed ReasonDependencyCycle)
    dep_ComponentID (NewError ErrorConflict ReasonPlanInvalid) nothing [] dependencies.

(** `dependencies[component]`: the optionality of a declared dependency. *)
Definition dependency_optional (dependencies : list ComponentDependencyV2) (component : string) : option bool :=
  match list_find (fun dependency => dep_ComponentID dependency = component) dependencies with
  | Some (_, dependency) => Some (dep_Optional dependency)
  | None => None
  end.

(** `string(requirement.ProviderComponent) + "\x00" + string(requirement.Capability)` *)
Definition requirement_key (r : CapabilityRequirementV2) : string :=
  rc2_ProviderComponent r +:+ String Ascii.zero (rc2_Capability r).

Definition validateRequiredCapabilities (dependencies : list ComponentDependencyV2)
    (requirements : list CapabilityRequirementV2) : result unit :=
  visit_unique
    (fun requirement =>
       ValidateNamespacedNameV2 (rc2_Capability requirement) ;;
       ValidateNamespacedNameV2 (rc2_ProviderComponent requirement))
    requirement_key (NewError ErrorConflict ReasonUnknownCapability)
    (fun requirement =>
       guard (negb (bool_decide (dependency_optional dependencies (rc2_ProviderComponent requirement)
                                 = Some (rc2_Optional requirement))))
         ErrorPreconditionFailed ReasonComponentMissing)
    [] requirements.

Definition validateProvidedCapabilities (schemas : list SchemaRefV2) (capabilities : list ProvidedCapabilityV2)
  : result unit :=
  visit_unique
    (fun capability =>
       ValidateNamespacedNameV2 (pc_Capability capability) ;;
       guard ((pc_TTLSeconds capability =? 0) || (MaxCapabilityTTLSeconds <? pc_TTLSeconds capability))
         ErrorInvalidArgument ReasonCapabilityExpired)
    pc_Capability (NewError ErrorConflict ReasonUnknownCapability)
    (fun capability =>
       validateSchemaSetV2 (slice_items (pc_Schemas capability)) ;;
       for_each
         (fun schema => guard (negb (bool_decide (SchemaRefV2_Key schema ∈ map SchemaRefV2_Key schemas)))
                          ErrorPreconditionFailed ReasonUnknownSchema)
         (slice_items (pc_Schemas capability)))
    [] capabilities.

Definition ComponentManifestV2_Validate (m : ComponentManifestV2) : result unit :=
  guard (negb (bool_decide (m_ContractVersion m = BindingContractVersionV2)))
    ErrorInvalidArgument ReasonInvalidReference ;;
  ValidateNamespacedNameV2 (m_ComponentID m) ;;
  ValidateNamespacedNameV2 (m_Kind m) ;;
  ValidateNamespacedNameV2 (m_GovernanceCategory m) ;;
  guard (negb (canonical_version (m_SemanticVersion m))) ErrorInvalidArgument ReasonInvalidSemanticVersion ;;
  Digest_Validate (m_ArtifactDigest m) ;;
  validateContractBindingV2 (m_Contract m) ;;
  guard (negb (validLocalityV2 (m_Locality m)) || negb (validConformance (m_Conformance m))
         || negb (validResidualClassV2 (m_ResidualClass m)) || negb (validOfflinePolicyV2 (m_OfflinePolicy m)))
    ErrorInvalidArgument ReasonInvalidReference ;;
  validateManifestSetLimits m ;;
  validateSchemaSetV2 (slice_items (m_Schemas m)) ;;
  validateDependencies (m_ComponentID m) (slice_items (m_Dependencies m)) ;;
  validateRequiredCapabilities (slice_items (m_Dependencies m)) (slice_items (m_RequiredCapabilities m)) ;;
  validateProvidedCapabilities (slice_items (m_Schemas m)) (slice_items (m_ProvidedCapabilities m)) ;;
  validateOwnersV2 (slice_items (m_Owners m)) ;;
  validateCredentialsV2 (slice_items (m_Credentials m)) ;;
  validateExtensionsV2 (slice_items (m_Extensions m)) ;;
  validateAnnotationsV2 (slice_items (m_Annotations m)).

(** ** The governance catalog *)

Definition GovernanceRegistrationV2_Validate (r : GovernanceRegistrationV2) : result unit :=
  ValidateNamespacedNameV2 (gr_Kind r) ;;
  ValidateNamespacedNameV2 (gr_Category r) ;;
  guard ((MaxManifestSetEntries <? len (gr_Capabilities r)) || (MaxManifestSetEntries <? len (gr_Schemas r))
         || (MaxManifestSetEntries <? len (gr_ExtensionPolicies r)))
    ErrorInvalidArgument ReasonCanonicalLimitExceeded ;;
  validateNamespacedSetV2 (gr_Capabilities r) ;;
  validateSchemaSetV2 (gr_Schemas r) ;;
  validateNamespacedSetV2 (gr_ExtensionPolicies r) ;;
  guard (Nat.eqb (length (gr_AllowedLocalities r)) 0 || Nat.eqb (length (gr_AllowedConformance r)) 0)
    ErrorInvalidArgument ReasonUnknownGovernanceCategory ;;
  visit_unique (fun locality => guard (negb (validLocalityV2 locality)) ErrorInvalidArgument ReasonInvalidReference)
    id (NewError ErrorConflict ReasonInvalidReference) nothing [] (gr_AllowedLocalities r) ;;
  visit_unique (fun level => guard (negb (validConformance level)) ErrorInvalidArgument ReasonInvalidReference)
    id (NewError ErrorConflict ReasonInvalidReference) nothing [] (gr_AllowedConformance r).

Definition GovernanceCatalogV2_Validate (c : GovernanceCatalogV2) : result unit :=
  guard (Nat.eqb (length c) 0 || (MaxManifestSetEntries <? len c))
    ErrorInvalidArgument ReasonUnknownGovernanceCategory ;;
  visit_unique GovernanceRegistrationV2_Validate gr_Kind (NewError ErrorConflict ReasonUnknownGovernanceCategory)
    nothing [] c.

Definition find_registration (kind : string) (catalog : GovernanceCatalogV2) : option GovernanceRegistrationV2 :=
  match list_find (fun r => gr_Kind r = kind) catalog with Some (_, r) => Some r | None => None end.

(** The checks against one registration, in the order of the code. *)
Definition registration_checks (r : GovernanceRegistrationV2) (m : ComponentManifestV2) : result unit :=
  guard (negb (bool_decide (gr_Category r = m_GovernanceCategory m)))
    ErrorCapabilityUnavailable ReasonUnknownGovernanceCategory ;;
  guard (negb (containsLocality (gr_AllowedLocalities r) (m_Locality m))
         || negb (containsConformance (gr_AllowedConformance r) (m_Conformance m)))
    ErrorForbidden ReasonUnknownGovernanceCategory ;;
  for_each
    (fun capability => guard (negb (bool_decide (pc_Capability capability ∈ gr_Capabilities r)))
                         ErrorCapabilityUnavailable ReasonUnknownCapability)
    (slice_items (m_ProvidedCapabilities m)) ;;
  for_each
    (fun schema => guard (negb (bool_decide (SchemaRefV2_Key schema ∈ map SchemaRefV2_Key (gr_Schemas r))))
                     ErrorCapabilityUnavailable ReasonUnknownSchema)
    (slice_items (m_Schemas m)) ;;
  for_each
    (fun extension => guard (negb (bool_decide (gx_Key extension ∈ gr_ExtensionPolicies r)) && gx_Required extension)
                        ErrorCapabilityUnavailable ReasonUnknownRequiredExtension)
    (slice_items (m_Extensions m)).

Definition ValidateManifestAgainstCatalogV2 (manifest : ComponentManifestV2) (catalog : GovernanceCatalogV2)
  : result unit :=
  ComponentManifestV2_Validate manifest ;;
  GovernanceCatalogV2_Validate catalog ;;
  match find_registration (m_Kind manifest) catalog with
  | None => fail ErrorCapabilityUnavailable ReasonUnknownGovernanceCategory
  | Some registration => registration_checks registration manifest
  end.

(** ** Normal forms

    `append([]T{}, s...)` followed by sort.Slice. *)

Definition normal_slice {A} (key : A -> string) (s : option (list A)) : option (list A) :=
  Some (sort_by key (slice_items s)).

Definition normalize_provided (c : ProvidedCapabilityV2) : ProvidedCapabilityV2 :=
  {| pc_Capability := pc_Capability c; pc_TTLSeconds := pc_TTLSeconds c;
     pc_Schemas := normal_slice SchemaRefV2_Key (pc_Schemas c) |}.

Definition normalizeManifestV2 (m : ComponentManifestV2) : ComponentManifestV2 :=
  {| m_ContractVersion := m_ContractVersion m; m_ComponentID := m_ComponentID m; m_Kind := m_Kind m;
     m_GovernanceCategory := m_GovernanceCategory m; m_SemanticVersion := m_SemanticVersion m;
     m_ArtifactDigest := m_ArtifactDigest m; m_Contract := m_Contract m;
     m_Schemas := normal_slice SchemaRefV2_Key (m_Schemas m);
     m_Locality := m_Locality m;
     m_Dependencies := normal_slice dep_ComponentID (m_Dependencies m);
     m_RequiredCapabilities := normal_slice requirement_key (m_RequiredCapabilities m);
     m_ProvidedCapabilities :=
       Some (sort_by pc_Capability (map normalize_provided (slice_items (m_ProvidedCapabilities m))));
     m_Conformance := m_Conformance m; m_ResidualClass := m_ResidualClass m;
     m_Owners := normal_slice (fun o => OwnerRoleV2_string (oa_Role o)) (m_Owners m);
     m_Credentials := normal_slice cr_CredentialClass (m_Credentials m);
     m_OfflinePolicy := m_OfflinePolicy m;
     m_Extensions := normal_slice gx_Key (m_Extensions m);
     m_Annotations := normal_slice an_Key (m_Annotations m) |}.

Definition set_m_Annotations (annotations : option (list DisplayAnnotationV2)) (m : ComponentManifestV2)
  : ComponentManifestV2 :=
  {| m_ContractVersion := m_ContractVersion m; m_ComponentID := m_ComponentID m; m_Kind := m_Kind m;
     m_GovernanceCategory := m_GovernanceCategory m; m_SemanticVersion := m_SemanticVersion m;
     m_ArtifactDigest := m_ArtifactDigest m; m_Contract := m_Contract m; m_Schemas := m_Schemas m;
     m_Locality := m_Locality m; m_Dependencies := m_Dependencies m;
     m_RequiredCapabilities := m_RequiredCapabilities m; m_ProvidedCapabilities := m_ProvidedCapabilities m;
     m_Conformance := m_Conformance m; m_ResidualClass := m_ResidualClass m; m_Owners := m_Owners m;
     m_Credentials := m_Credentials m; m_OfflinePolicy := m_OfflinePolicy m; m_Extensions := m_Extensions m;
     m_Annotations := annotations |}.

Definition normalizeRegistrationV2 (r : GovernanceRegistrationV2) : GovernanceRegistrationV2 :=
  {| gr_Kind := gr_Kind r; gr_Category := gr_Category r;
     gr_Capabilities := sort_by id (gr_Capabilities r);
     gr_Schemas := sort_by SchemaRefV2_Key (gr_Schemas r);
     gr_ExtensionPolicies := sort_by id (gr_ExtensionPolicies r);
     gr_AllowedLocalities := sort_by LocalityV2_string (gr_AllowedLocalities r);
     gr_AllowedConformance := sort_by ConformanceLevel_string (gr_AllowedConformance r) |}.

(** ** Documents *)

Definition DisplayAnnotationV2_json (a : DisplayAnnotationV2) : json :=
  JStruct [field "key" (JString (an_Key a)); field "value" (JString (an_Value a))].
Definition ComponentDependencyV2_json (d : ComponentDependencyV2) : json :=
  JStruct [field "component_id" (JString (dep_ComponentID d)); field "optional" (JBool (dep_Optional d))].
Definition CapabilityRequirementV2_json (r : CapabilityRequirementV2) : json :=
  JStruct [field "capability" (JString (rc2_Capability r));
           field "provider_component" (JString (rc2_ProviderComponent r));
           field "optional" (JBool (rc2_Optional r))].
Definition ProvidedCapabilityV2_json (c : ProvidedCapabilityV2) : json :=
  JStruct [field "capability" (JString (pc_Capability c)); field "ttl_seconds" (JUint (pc_TTLSeconds c));
           field "schemas" (JSlice SchemaRefV2_json (pc_Schemas c))].
Definition OwnerAssignmentV2_json (o : OwnerAssignmentV2) : json :=
  JStruct [field "role" (JString (OwnerRoleV2_string (oa_Role o)));
           field "owner_component_id" (JString (oa_OwnerComponentID o))].
Definition CredentialRequirementV2_json (c : CredentialRequirementV2) : json :=
  JStruct [field "credential_class" (JString (cr_CredentialClass c));
           field "scope_digest" (JString (cr_ScopeDigest c));
           field "maximum_ttl_seconds" (JUint (cr_MaximumTTLSeconds c))].

Definition ComponentManifestV2_json (m : ComponentManifestV2) : json :=
  JStruct [field "contract_version" (JString (m_ContractVersion m));
           field "component_id" (JString (m_ComponentID m));
           field "kind" (JString (m_Kind m));
           field "governance_category" (JString (m_GovernanceCategory m));
           field "semantic_version" (JString (m_SemanticVersion m));
           field "artifact_digest" (JString (m_ArtifactDigest m));
           field "contract" (ContractBindingV2_json (m_Contract m));
           field "schemas" (JSlice SchemaRefV2_json (m_Schemas m));
           field "locality" (JString (LocalityV2_string (m_Locality m)));
           field "dependencies" (JSlice ComponentDependencyV2_json (m_Dependencies m));
           field "required_capabilities" (JSlice CapabilityRequirementV2_json (m_RequiredCapabilities m));
           field "provided_capabilities" (JSlice ProvidedCapabilityV2_json (m_ProvidedCapabilities m));
           field "conformance" (JString (ConformanceLevel_string (m_Conformance m)));
           field "residual_class" (JString (ResidualClassV2_string (m_ResidualClass m)));
           field "owners" (JSlice OwnerAssignmentV2_json (m_Owners m));
           field "credential_requirements" (JSlice CredentialRequirementV2_json (m_Credentials m));
           field "offline_policy" (JString (OfflinePolicyModeV2_string (m_OfflinePolicy m)));
           field "extensions" (JSlice GovernanceExtensionV2_json (m_Extensions m));
           field "annotations" (JSlice DisplayAnnotationV2_json (m_Annotations m))].

Definition ExtensionPolicyV2_json (p : ExtensionPolicyV2) : json := JStruct [field "key" (JString p)].
Definition GovernanceRegistrationV2_json (r : GovernanceRegistrationV2) : json :=
  JStruct [field "kind" (JString (gr_Kind r)); field "category" (JString (gr_Category r));
           field "capabilities" (JArray (map JString (gr_Capabilities r)));
           field "schemas" (JArray (map SchemaRefV2_json (gr_Schemas r)));
           field "extension_policies" (JArray (map ExtensionPolicyV2_json (gr_ExtensionPolicies r)));
           field "allowed_localities" (JArray (map (fun l => JString (LocalityV2_string l)) (gr_AllowedLocalities r)));
           field "allowed_conformance"
             (JArray (map (fun c => JString (ConformanceLevel_string c)) (gr_AllowedConformance r)))].
Definition GovernanceCatalogV2_json (c : GovernanceCatalogV2) : json :=
  JStruct [field "registrations" (JArray (map GovernanceRegistrationV2_json c))].

Definition CapabilityGrantV2_json (g : CapabilityGrantV2) : json :=
  JStruct [field "capability" (JString (cg_Capability g)); field "evidence_digest" (JString (cg_EvidenceDigest g));
           field "observed_unix_nano" (JNumber (cg_ObservedUnixNano g));
           field "expires_unix_nano" (JNumber (cg_ExpiresUnixNano g))].

Definition BindingRequirementV2_json (r : BindingRequirementV2) : json :=
  JStruct [field "component_id" (JString (br2_ComponentID r)); field "kind" (JString (br2_Kind r));
           field "semantic_version" (VersionRangeV2_json (br2_SemanticVersion r));
           field "contract_name" (JString (br2_ContractName r));
           field "contract_version" (VersionRangeV2_json (br2_Contract r));
           field "artifact_digest" (JString (br2_ArtifactDigest r));
           field "required_capabilities" (JArray (map JString (br2_RequiredCapabilities r)));
           field "required" (JBool (br2_Required r)); field "allow_residual" (JBool (br2_AllowResidual r))].
Definition BindingPlanV2_json (p : BindingPlanV2) : json :=
  JStruct [field "id" (JString (bp_ID p)); field "plan_digest" (JString (bp_PlanDigest p));
           field "governance_digest" (JString (bp_GovernanceDigest p));
           field "requirements" (JArray (map BindingRequirementV2_json (bp_Requirements p)))].

(** ** Digests *)

Definition binding_digest : string -> json -> result Digest := document_digest binding_domain BindingContractVersionV2.

Definition BindingDigestV2 (m : ComponentManifestV2) : result Digest :=
  ComponentManifestV2_Validate m ;;
  binding_digest "ComponentManifestV2"
    (ComponentManifestV2_json (set_m_Annotations (Some []) (normalizeManifestV2 m))).

Definition GovernanceCatalogV2_DigestV2 (c : GovernanceCatalogV2) : result Digest :=
  GovernanceCatalogV2_Validate c ;;
  binding_digest "GovernanceCatalogV2" (GovernanceCatalogV2_json (sort_by gr_Kind (map normalizeRegistrationV2 c))).

(** ** Binding plans *)

Definition BindingRequirementV2_check (requirement : BindingRequirementV2) : result unit :=
  ValidateNamespacedNameV2 (br2_ComponentID requirement) ;;
  ValidateNamespacedNameV2 (br2_Kind requirement) ;;
  VersionRangeV2_Validate (br2_SemanticVersion requirement) ;;
  ValidateNamespacedNameV2 (br2_ContractName requirement) ;;
  VersionRangeV2_Validate (br2_Contract requirement) ;;
  Digest_Validate (br2_ArtifactDigest requirement) ;;
  guard (negb (br2_Required requirement) && negb (br2_AllowResidual requirement))
    ErrorInvalidArgument ReasonPlanInvalid ;;
  validateNamespacedSetV2 (br2_RequiredCapabilities requirement).

Definition validateBindingPlanStructureV2 (p : BindingPlanV2) : result unit :=
  guard (bool_decide (bp_ID p = "") || (128 <? str_len (bp_ID p)) || negb (bool_decide (TrimSpace (bp_ID p) = bp_ID p))
         || Nat.eqb (length (bp_Requirements p)) 0 || (MaxManifestSetEntries <? len (bp_Requirements p)))
    ErrorInvalidArgument ReasonPlanInvalid ;;
  Digest_Validate (bp_PlanDigest p) ;;
  Digest_Validate (bp_GovernanceDigest p) ;;
  visit_unique BindingRequirementV2_check br2_ComponentID (NewError ErrorConflict ReasonPlanInvalid) nothing []
    (bp_Requirements p).

Definition set_bp_PlanDigest (digest : Digest) (p : BindingPlanV2) : BindingPlanV2 :=
  {| bp_ID := bp_ID p; bp_PlanDigest := digest; bp_GovernanceDigest := bp_GovernanceDigest p;
     bp_Requirements := bp_Requirements p |}.

Definition normalize_requirement (r : BindingRequirementV2) : BindingRequirementV2 :=
  {| br2_ComponentID := br2_ComponentID r; br2_Kind := br2_Kind r; br2_SemanticVersion := br2_SemanticVersion r;
     br2_ContractName := br2_ContractName r; br2_Contract := br2_Contract r;
     br2_ArtifactDigest := br2_ArtifactDigest r;
     br2_RequiredCapabilities := sort_by id (br2_RequiredCapabilities r);
     br2_Required := br2_Required r; br2_AllowResidual := br2_AllowResidual r |}.

Definition normalize_plan (p : BindingPlanV2) : BindingPlanV2 :=
  {| bp_ID := bp_ID p; bp_PlanDigest := ""; bp_GovernanceDigest := bp_GovernanceDigest p;
     bp_Requirements := sort_by br2_ComponentID (map normalize_requirement (bp_Requirements p)) |}.

Definition bindingPlanDigestV2 (p : BindingPlanV2) : result Digest :=
  binding_digest "BindingPlanV2" (BindingPlanV2_json (normalize_plan p)).

Definition BindingPlanV2_Validate (p : BindingPlanV2) : result unit :=
  validateBindingPlanStructureV2 p ;;
  match bindingPlanDigestV2 p with
  | Ok digest => guard (negb (bool_decide (digest = bp_PlanDigest p))) ErrorPreconditionFailed ReasonPlanInvalid
  | Err _ => fail ErrorPreconditionFailed ReasonPlanInvalid
  end.

Definition BindingPlanDigestV2 (p : BindingPlanV2) : result Digest :=
  validateBindingPlanStructureV2 (set_bp_PlanDigest EvidenceGenesisDigestV2 p) ;;
  bindingPlanDigestV2 p.

Definition SealBindingPlanV2 (p : BindingPlanV2) : result BindingPlanV2 :=
  validateBindingPlanStructureV2 (set_bp_PlanDigest EvidenceGenesisDigestV2 p) ;;
  digest ← bindingPlanDigestV2 p ;
  let p := set_bp_PlanDigest digest p in
  BindingPlanV2_Validate p ;; Ok p.

(** ** Capability grants *)

Definition second : Duration := 1000000000%Z.

(** `ExpiresUnixNano-ObservedUnixNano > int64(ttl)*int64(time.Second)`, and what
    comes before it. *)
Definition grant_ttl_invalid (grant : CapabilityGrantV2) (ttl : N) : bool :=
  (cg_ObservedUnixNano grant <=? 0)%Z || (cg_ExpiresUnixNano grant <=? cg_ObservedUnixNano grant)%Z
  || (wrap_i64 (Z.of_N ttl * second) <? wrap_i64 (cg_ExpiresUnixNano grant - cg_ObservedUnixNano grant))%Z.

Fixpoint grants_sorted (previous : option string) (grants : list CapabilityGrantV2) : result unit :=
  match grants with
  | [] => Ok tt
  | grant :: rest =>
      ValidateNamespacedNameV2 (cg_Capability grant) ;;
      guard (match previous with
             | Some p => negb (str_lt p (cg_Capability grant))
             | None => false
             end) ErrorInvalidArgument ReasonInvalidCanonicalForm ;;
      Digest_Validate (cg_EvidenceDigest grant) ;;
      guard (grant_ttl_invalid grant MaxCapabilityTTLSeconds) ErrorPreconditionFailed ReasonCapabilityExpired ;;
      grants_sorted (Some (cg_Capability grant)) rest
  end.

Definition ValidateCapabilityGrantStructureV2 (grants : list CapabilityGrantV2) : result unit :=
  guard (Nat.eqb (length grants) 0 || (MaxManifestSetEntries <? len grants))
    ErrorInvalidArgument ReasonUnknownCapability ;;
  grants_sorted None grants.

(** ** Normal forms are canonical *)

Section normal.
Context {A : Type} (key : A -> string).

Lemma sort_by_eq l l' : NoDup (map key l) -> sort_by key l = sort_by key l' <-> l ≡ₚ l'.
Proof.
  intros Hn. split; [| by apply sort_by_unique].
  intros H. by rewrite <- (sort_by_Permutation key l), H, sort_by_Permutation.
Qed.

Lemma normal_slice_eq s s' :
  NoDup (map key (slice_items s)) -> normal_slice key s = normal_slice key s' <-> slice_items s ≡ₚ slice_items s'.
Proof.
  intros Hn. unfold normal_slice. rewrite <- sort_by_eq by done. split; [by intros [= ->] | by intros ->].
Qed.
End normal.

(** What two manifests with the same identity may differ in: the order of their
    sets, nil and empty sets, and the annotations. *)
Definition same_set {A} (s s' : option (list A)) : Prop := slice_items s ≡ₚ slice_items s'.

Record provided_equiv (c c' : ProvidedCapabilityV2) : Prop := {
  pe_capability : pc_Capability c = pc_Capability c';
  pe_ttl : pc_TTLSeconds c = pc_TTLSeconds c';
  pe_schemas : same_set (pc_Schemas c) (pc_Schemas c');
}.

Definition manifest_scalars (m : ComponentManifestV2) :=
  (m_ContractVersion m, m_ComponentID m, m_Kind m, m_GovernanceCategory m, m_SemanticVersion m,
   m_ArtifactDigest m, m_Contract m, m_Locality m, m_Conformance m, m_ResidualClass m, m_OfflinePolicy m).

Record manifest_equiv (m m' : ComponentManifestV2) : Prop := {
  me_scalars : manifest_scalars m = manifest_scalars m';
  me_schemas : same_set (m_Schemas m) (m_Schemas m');
  me_dependencies : same_set (m_Dependencies m) (m_Dependencies m');
  me_required : same_set (m_RequiredCapabilities m) (m_RequiredCapabilities m');
  me_provided : exists l, slice_items (m_ProvidedCapabilities m) ≡ₚ l
                  /\ Forall2 provided_equiv l (slice_items (m_ProvidedCapabilities m'));
  me_owners : same_set (m_Owners m) (m_Owners m');
  me_credentials : same_set (m_Credentials m) (m_Credentials m');
  me_extensions : same_set (m_Extensions m) (m_Extensions m');
}.

(** What Validate promises about the sets of a manifest. *)
Record manifest_sets_ok (m : ComponentManifestV2) : Prop := {
  mo_schemas : NoDup (map SchemaRefV2_Key (slice_items (m_Schemas m)));
  mo_dependencies : NoDup (map dep_ComponentID (slice_items (m_Dependencies m)));
  mo_required : NoDup (map requirement_key (slice_items (m_RequiredCapabilities m)));
  mo_provided : NoDup (map pc_Capability (slice_items (m_ProvidedCapabilities m)));
  mo_provided_schemas :
    Forall (fun c => NoDup (map SchemaRefV2_Key (slice_items (pc_Schemas c)))) (slice_items (m_ProvidedCapabilities m));
  mo_owners : NoDup (map oa_Role (slice_items (m_Owners m)));
  mo_roles : Forall (fun o => known_role (oa_Role o) = true) (slice_items (m_Owners m));
  mo_credentials : NoDup (map cr_CredentialClass (slice_items (m_Credentials m)));
  mo_extensions : NoDup (map gx_Key (slice_items (m_Extensions m)));
  mo_payloads : Forall (fun x => OpaquePayloadV2_Validate (gx_Payload x) = Ok tt) (slice_items (m_Extensions m));
  mo_enums : validLocalityV2 (m_Locality m) = true /\ validConformance (m_Conformance m) = true
             /\ validResidualClassV2 (m_ResidualClass m) = true /\ validOfflinePolicyV2 (m_OfflinePolicy m) = true;
}.

Lemma validateSchemaSetV2_NoDup l : validateSchemaSetV2 l = Ok tt -> NoDup (map SchemaRefV2_Key l).
Proof. unfold validateSchemaSetV2. intros H. by apply visit_unique_Ok in H as (_ & ? & _). Qed.

Lemma ComponentManifestV2_sets_ok m : ComponentManifestV2_Validate m = Ok tt -> manifest_sets_ok m.
Proof.
  unfold ComponentManifestV2_Validate. intros H. go_ok.
  unfold validateDependencies, validateRequiredCapabilities, validateProvidedCapabilities, validateOwnersV2,
    validateCredentialsV2, validateExtensionsV2 in *. go_ok.
  repeat match goal with
  | H : visit_unique _ _ _ _ _ _ = Ok _ |- _ =>
      let Hf := fresh "Hf" in let Hn := fresh "Hn" in apply visit_unique_Ok in H as (Hf & Hn & _)
  end.
  rewrite !orb_false_iff, !negb_false_iff in *.
  split; try done; try (by apply validateSchemaSetV2_NoDup); try tauto.
  - eapply Forall_impl; [exact Hf2 |]. intros c [_ Hc]. go_ok. by apply validateSchemaSetV2_NoDup.
  - eapply Forall_impl; [exact Hf1 |]. intros c [Hc _]. go_ok. by apply negb_false_iff.
  - eapply Forall_impl; [exact Hf |]. intros c [Hc _]. by go_ok.
Qed.

Lemma role_strings_NoDup owners :
  NoDup (map oa_Role owners) -> Forall (fun o => known_role (oa_Role o) = true) owners ->
  NoDup (map (fun o => OwnerRoleV2_string (oa_Role o)) owners).
Proof.
  intros Hn Hk. induction Hk as [| o owners Ho Hk IH]; cbn in *; [constructor |].
  apply NoDup_cons in Hn as [Hx Hn]. apply NoDup_cons. split; [| by apply IH].
  intros (o' & E & Hin)%list_elem_of_fmap. apply Hx, list_elem_of_fmap. exists o'. split; [| done].
  rewrite Forall_forall in Hk. apply OwnerRoleV2_string_inj; auto.
Qed.

Lemma normalize_provided_eq c c' :
  NoDup (map SchemaRefV2_Key (slice_items (pc_Schemas c))) ->
  normalize_provided c = normalize_provided c' <-> provided_equiv c c'.
Proof.
  intros Hn. unfold normalize_provided. split.
  - intros [= E1 E2 E3]. split; [done | done |]. apply (sort_by_eq SchemaRefV2_Key); done.
  - intros [E1 E2 E3]. rewrite E1, E2. f_equal. by apply normal_slice_eq.
Qed.

(** Sets of structs that hold sets: normalizing [f] decides the relation [R]. *)
Lemma nested_sort_eq {A} (key : A -> string) (f : A -> A) (R : A -> A -> Prop) (P : A -> Prop) l l' :
  (forall a, key (f a) = key a) -> (forall a b, P a -> f a = f b <-> R a b) ->
  NoDup (map key l) -> Forall P l ->
  sort_by key (map f l) = sort_by key (map f l') <-> exists l0, l ≡ₚ l0 /\ Forall2 R l0 l'.
Proof.
  intros Hkey HR Hn HP. rewrite sort_by_eq.
  2:{ rewrite map_map. erewrite map_ext; [exact Hn | exact Hkey]. }
  split.
  - intros H. symmetry in H. apply Permutation_map_inv in H as (l0 & E & Hp). exists l0. split; [done |].
    rewrite Hp in HP. revert l' E. clear Hp Hn. induction HP as [| c l0 Hc HP IH]; intros [| c' l'] E; try done;
      constructor; cbn in E.
    + apply HR; [done |]. congruence.
    + apply IH. congruence.
  - intros (l0 & Hp & Hf). rewrite Hp in HP |- *. apply reflexive_eq.
    clear Hp Hn. induction Hf as [| c c' l0 l' Hc Hf IH]; cbn; [done |]. apply Forall_cons in HP as [Hn HP].
    f_equal; [by apply HR | by apply IH].
Qed.

Lemma provided_normal_eq l l' :
  NoDup (map pc_Capability l) -> Forall (fun c => NoDup (map SchemaRefV2_Key (slice_items (pc_Schemas c)))) l ->
  sort_by pc_Capability (map normalize_provided l) = sort_by pc_Capability (map normalize_provided l')
  <-> exists l0, l ≡ₚ l0 /\ Forall2 provided_equiv l0 l'.
Proof. apply nested_sort_eq; [done | exact normalize_provided_eq]. Qed.

(** The value whose document the identity of a manifest hashes. *)
Definition canonical_manifest (m : ComponentManifestV2) : ComponentManifestV2 :=
  set_m_Annotations (Some []) (normalizeManifestV2 m).

Lemma canonical_manifest_eq m m' :
  manifest_sets_ok m -> canonical_manifest m = canonical_manifest m' <-> manifest_equiv m m'.
Proof.
  intros []. pose proof (role_strings_NoDup _ mo_owners0 mo_roles0) as Hroles.
  unfold canonical_manifest, set_m_Annotations, normalizeManifestV2; cbn. split.
  - intros [= E1 E2 E3 E4 E5 E6 E7 E8 E9 E10 E11 E12 E13 E14 E15 E16 E17 E18].
    split; try (by eapply sort_by_eq).
    + unfold manifest_scalars. congruence.
    + by apply provided_normal_eq.
  - intros [E1 E2 E3 E4 E5 E6 E7 E8]. unfold manifest_scalars in E1. injection E1 as -> -> -> -> -> -> -> -> -> -> ->.
    f_equal; try (by apply normal_slice_eq). f_equal.
    by apply provided_normal_eq.
Qed.

(** ** Documents determine canonical manifests *)

#[export] Instance DisplayAnnotationV2_json_Inj : Inj (=) (=) DisplayAnnotationV2_json.
Proof. solve_json_inj. Qed.
#[export] Instance ComponentDependencyV2_json_Inj : Inj (=) (=) ComponentDependencyV2_json.
Proof. solve_json_inj. Qed.
#[export] Instance CapabilityRequirementV2_json_Inj : Inj (=) (=) CapabilityRequirementV2_json.
Proof. solve_json_inj. Qed.
#[export] Instance CredentialRequirementV2_json_Inj : Inj (=) (=) CredentialRequirementV2_json.
Proof. solve_json_inj. Qed.
#[export] Instance JSlice_Inj {A} (f : A -> json) : Inj (=) (=) f -> Inj (=) (=) (JSlice f).
Proof.
  intros Hf s s' H. destruct s as [xs |], s' as [ys |]; try done. cbn in H. apply (inj JArray) in H. f_equal.
  by apply (inj (map f)) in H.
Qed.
#[export] Instance ProvidedCapabilityV2_json_Inj : Inj (=) (=) ProvidedCapabilityV2_json.
Proof. solve_json_inj. Qed.

(** An encoder that is injective on the values that satisfy [P]. *)
Lemma JSlice_inj_on {A} (P : A -> Prop) (f : A -> json) s s' :
  (forall a b, P a -> P b -> f a = f b -> a = b) ->
  Forall P (slice_items s) -> Forall P (slice_items s') -> JSlice f s = JSlice f s' -> s = s'.
Proof.
  intros Hf Hs Hs' H. destruct s as [l |], s' as [l' |]; try done. cbn in *. apply (inj JArray) in H. f_equal.
  change (slice_items (Some ?x)) with x in *. revert l' Hs' H. induction Hs as [| a l Ha _ IH]; intros [| b l'] Hs' H; try done.
  apply Forall_cons in Hs' as [Hb Hs']. cbn in H. apply cons_eq_inj in H as [H Hr].
  by rewrite (Hf a b Ha Hb H), (IH l' Hs' Hr).
Qed.

Lemma OwnerAssignmentV2_json_inj a b :
  known_role (oa_Role a) = true -> known_role (oa_Role b) = true ->
  OwnerAssignmentV2_json a = OwnerAssignmentV2_json b -> a = b.
Proof.
  intros Ha Hb H. destruct a, b. unfold OwnerAssignmentV2_json in H; cbn in *. json_fields H. json_values. subst.
  f_equal. by apply OwnerRoleV2_string_inj.
Qed.

Definition extension_ok (x : GovernanceExtensionV2) : Prop :=
  OpaquePayloadV2_Validate (gx_Payload x) = Ok tt /\ payload_typed (gx_Payload x).

Lemma GovernanceExtensionV2_json_inj a b :
  extension_ok a -> extension_ok b -> GovernanceExtensionV2_json a = GovernanceExtensionV2_json b -> a = b.
Proof.
  intros [Va Ta] [Vb Tb] H. destruct a, b. unfold GovernanceExtensionV2_json in H; cbn in *. json_fields H.
  match goal with E : OpaquePayloadV2_json _ = _ |- _ => apply OpaquePayloadV2_json_inj in E; [| done ..] end.
  json_values. by subst.
Qed.

Lemma LocalityV2_string_inj a b :
  validLocalityV2 a = true -> validLocalityV2 b = true -> LocalityV2_string a = LocalityV2_string b -> a = b.
Proof. by destruct a, b. Qed.
Lemma ConformanceLevel_string_inj a b :
  validConformance a = true -> validConformance b = true -> ConformanceLevel_string a = ConformanceLevel_string b -> a = b.
Proof. by destruct a, b. Qed.
Lemma ResidualClassV2_string_inj a b :
  validResidualClassV2 a = true -> validResidualClassV2 b = true ->
  ResidualClassV2_string a = ResidualClassV2_string b -> a = b.
Proof. by destruct a, b. Qed.
Lemma OfflinePolicyModeV2_string_inj a b :
  validOfflinePolicyV2 a = true -> validOfflinePolicyV2 b = true ->
  OfflinePolicyModeV2_string a = OfflinePolicyModeV2_string b -> a = b.
Proof. by destruct a, b. Qed.

(** What makes the document of a manifest determine it. *)
Record manifest_encodable (m : ComponentManifestV2) : Prop := {
  en_roles : Forall (fun o => known_role (oa_Role o) = true) (slice_items (m_Owners m));
  en_extensions : Forall extension_ok (slice_items (m_Extensions m));
  en_enums : validLocalityV2 (m_Locality m) = true /\ validConformance (m_Conformance m) = true
             /\ validResidualClassV2 (m_ResidualClass m) = true /\ validOfflinePolicyV2 (m_OfflinePolicy m) = true;
}.

Lemma ComponentManifestV2_json_inj a b :
  manifest_encodable a -> manifest_encodable b -> ComponentManifestV2_json a = ComponentManifestV2_json b -> a = b.
Proof.
  intros [Ra Xa (La & Ca & Da & Pa)] [Rb Xb (Lb & Cb & Db & Pb)] H. destruct a, b. cbn in *.
  unfold ComponentManifestV2_json in H; cbn in H. json_fields H.
  repeat match goal with
  | E : JSlice OwnerAssignmentV2_json _ = _ |- _ => apply (JSlice_inj_on _ _ _ _ OwnerAssignmentV2_json_inj) in E; [| done ..]
  | E : JSlice GovernanceExtensionV2_json _ = _ |- _ =>
      apply (JSlice_inj_on _ _ _ _ GovernanceExtensionV2_json_inj) in E; [| done ..]
  end.
  json_values.
  repeat match goal with
  | E : LocalityV2_string _ = _ |- _ => apply LocalityV2_string_inj in E; [| done ..]
  | E : ConformanceLevel_string _ = _ |- _ => apply ConformanceLevel_string_inj in E; [| done ..]
  | E : ResidualClassV2_string _ = _ |- _ => apply ResidualClassV2_string_inj in E; [| done ..]
  | E : OfflinePolicyModeV2_string _ = _ |- _ => apply OfflinePolicyModeV2_string_inj in E; [| done ..]
  end.
  by subst.
Qed.

Definition manifest_typed (m : ComponentManifestV2) : Prop :=
  Forall (fun x => payload_typed (gx_Payload x)) (slice_items (m_Extensions m)).
Definition manifest_utf8 (m : ComponentManifestV2) : bool := json_utf8 (ComponentManifestV2_json (canonical_manifest m)).
Definition manifest_preimage (m : ComponentManifestV2) : list N :=
  document_preimage binding_domain BindingContractVersionV2 "ComponentManifestV2"
    (ComponentManifestV2_json (canonical_manifest m)).

Lemma Forall_normal_slice {A} (key : A -> string) (P : A -> Prop) s :
  Forall P (slice_items s) -> Forall P (slice_items (normal_slice key s)).
Proof. intros H. change (slice_items (normal_slice key s)) with (sort_by key (slice_items s)). by rewrite sort_by_Permutation. Qed.

Lemma canonical_encodable m : manifest_sets_ok m -> manifest_typed m -> manifest_encodable (canonical_manifest m).
Proof.
  intros [] Ht. split; cbn; [by apply Forall_normal_slice | | done]. apply Forall_normal_slice.
  unfold manifest_typed in Ht. rewrite Forall_forall in *. intros x Hx. split; auto.
Qed.

(** Two valid manifests with one digest. *)
Lemma manifest_digest_binds m m' d :
  BindingDigestV2 m = Ok d -> BindingDigestV2 m' = Ok d ->
  manifest_typed m -> manifest_typed m' -> manifest_utf8 m = true -> manifest_utf8 m' = true ->
  manifest_equiv m m' \/ collision (manifest_preimage m) (manifest_preimage m').
Proof.
  unfold BindingDigestV2, binding_digest. intros H H' T T' U U'. apply seq_Ok in H as [V H], H' as [V' H'].
  apply ComponentManifestV2_sets_ok in V, V'.
  destruct (document_digest_binds _ _ _ _ _ _ _ H H' U U') as [[_ E] | E]; [left | by right].
  apply canonical_manifest_eq; [done |]. apply ComponentManifestV2_json_inj; [by apply canonical_encodable .. | done].
Qed.

Lemma manifest_equiv_digest m m' :
  ComponentManifestV2_Validate m = Ok tt -> ComponentManifestV2_Validate m' = Ok tt -> manifest_equiv m m' ->
  BindingDigestV2 m = BindingDigestV2 m'.
Proof.
  intros V V' H. apply (canonical_manifest_eq m m' (ComponentManifestV2_sets_ok m V)) in H.
  unfold BindingDigestV2. rewrite V, V'. cbn. f_equal. f_equal. exact H.
Qed.

(** C32: the binding digest of a manifest is its identity up to what it means.
    Two valid manifests that differ only in the order of their sets, in nil
    against empty sets and in their annotations have the same digest; and two
    manifests with the same digest, whose strings are UTF-8, differ in nothing
    else, or the byte strings that were hashed are a collision of SHA-256. *)
Theorem manifest_digest_identity (m m' : ComponentManifestV2)
    (V : ComponentManifestV2_Validate m = Ok tt) (V' : ComponentManifestV2_Validate m' = Ok tt)
    (T : manifest_typed m) (T' : manifest_typed m') (U : manifest_utf8 m = true) (U' : manifest_utf8 m' = true) :
  (manifest_equiv m m' -> BindingDigestV2 m = BindingDigestV2 m')
  /\ (forall d, BindingDigestV2 m = Ok d -> BindingDigestV2 m' = Ok d ->
        manifest_equiv m m' \/ collision (manifest_preimage m) (manifest_preimage m')).
Proof.
  split; [by apply manifest_equiv_digest |]. intros d H H'. by apply (manifest_digest_binds m m' d).
Qed.

(** ** Plans *)

Record requirement_equiv (r r' : BindingRequirementV2) : Prop := {
  re_scalars :
    (br2_ComponentID r, br2_Kind r, br2_SemanticVersion r, br2_ContractName r, br2_Contract r,
     br2_ArtifactDigest r, br2_Required r, br2_AllowResidual r)
    = (br2_ComponentID r', br2_Kind r', br2_SemanticVersion r', br2_ContractName r', br2_Contract r',
       br2_ArtifactDigest r', br2_Required r', br2_AllowResidual r');
  re_capabilities : br2_RequiredCapabilities r ≡ₚ br2_RequiredCapabilities r';
}.

(** Plans that differ only in their digest and in the order of their sets. *)
Record plan_equiv (p p' : BindingPlanV2) : Prop := {
  pl_ID : bp_ID p = bp_ID p';
  pl_Governance : bp_GovernanceDigest p = bp_GovernanceDigest p';
  pl_Requirements : exists l, bp_Requirements p ≡ₚ l /\ Forall2 requirement_equiv l (bp_Requirements p');
}.

Lemma visit_unique_perm {A K} `{EqDecision K} (before after : A -> result unit) (key : A -> K) dup xs ys :
  xs ≡ₚ ys -> visit_unique before key dup after [] xs = Ok tt -> visit_unique before key dup after [] ys = Ok tt.
Proof. intros Hp. by rewrite !visit_unique_Ok, Hp. Qed.

Lemma validateNamespacedSetV2_perm xs ys :
  xs ≡ₚ ys -> validateNamespacedSetV2 xs = Ok tt -> validateNamespacedSetV2 ys = Ok tt.
Proof. apply visit_unique_perm. Qed.

Lemma requirement_check_equiv r r' :
  requirement_equiv r r' -> BindingRequirementV2_check r = Ok tt -> BindingRequirementV2_check r' = Ok tt.
Proof.
  intros [E Hp] H. injection E as E1 E2 E3 E4 E5 E6 E7 E8. unfold BindingRequirementV2_check in *. go_ok.
  rewrite <- E1, <- E2, <- E3, <- E4, <- E5, <- E6, <- E7, <- E8. go_run. by eapply validateNamespacedSetV2_perm.
Qed.

Lemma plan_structure_facts p :
  validateBindingPlanStructureV2 p = Ok tt ->
  NoDup (map br2_ComponentID (bp_Requirements p)) /\ Forall (fun r => BindingRequirementV2_check r = Ok tt) (bp_Requirements p).
Proof.
  unfold validateBindingPlanStructureV2. intros H. go_ok. apply visit_unique_Ok in Hk as (Hf & Hn & _).
  split; [done |]. eapply Forall_impl; [exact Hf |]. by intros r [].
Qed.

Lemma plan_structure_equiv p p' digest :
  plan_equiv p p' -> Digest_Validate digest = Ok tt ->
  validateBindingPlanStructureV2 p = Ok tt -> validateBindingPlanStructureV2 (set_bp_PlanDigest digest p') = Ok tt.
Proof.
  intros [E1 E2 (l & Hp & Hf)] Hd H. unfold validateBindingPlanStructureV2 in *.
  cbn [set_bp_PlanDigest bp_ID bp_PlanDigest bp_GovernanceDigest bp_Requirements]. go_ok.
  assert (length (bp_Requirements p') = length (bp_Requirements p)) as Hlen
    by (rewrite Hp; symmetry; by eapply Forall2_length).
  unfold len. rewrite Hlen, <- E1, <- E2. unfold len in *. go_run. apply (visit_unique_perm _ _ _ _ _ _ Hp) in Hk.
  apply visit_unique_Ok. apply visit_unique_Ok in Hk as (Hv & Hn & _). repeat split.
  - clear Hp Hn Hlen. induction Hf as [| r r' l l' Hr Hf IH]; [constructor |].
    apply Forall_cons in Hv as [[Hv1 _] Hv]. constructor; [| by apply IH]. split; [| done].
    by eapply requirement_check_equiv.
  - assert (map br2_ComponentID (bp_Requirements p') = map br2_ComponentID l) as ->; [| done].
    clear Hp Hn Hlen Hv. induction Hf as [| r r' l l' [E _] Hf IH]; cbn; [done |]. rewrite IH. by injection E as ->.
  - apply Forall_forall. intros; apply not_elem_of_nil.
Qed.

Lemma validateNamespacedSetV2_NoDup l : validateNamespacedSetV2 l = Ok tt -> NoDup (map id l).
Proof. unfold validateNamespacedSetV2. intros H. by apply visit_unique_Ok in H as (_ & ? & _). Qed.

Lemma normalize_requirement_eq r r' :
  BindingRequirementV2_check r = Ok tt -> normalize_requirement r = normalize_requirement r' <-> requirement_equiv r r'.
Proof.
  intros H. unfold BindingRequirementV2_check in H. go_ok. apply validateNamespacedSetV2_NoDup in Hk.
  unfold normalize_requirement. split.
  - intros [= E1 E2 E3 E4 E5 E6 E7 E8 E9]. split; [congruence |]. by apply (sort_by_eq id).
  - intros [E Hp]. injection E as -> -> -> -> -> -> -> ->. f_equal. by apply sort_by_eq.
Qed.

Lemma normalize_plan_eq p p' :
  validateBindingPlanStructureV2 p = Ok tt -> normalize_plan p = normalize_plan p' <-> plan_equiv p p'.
Proof.
  intros [Hn Hf]%plan_structure_facts. unfold normalize_plan.
  pose proof (nested_sort_eq br2_ComponentID normalize_requirement requirement_equiv _ (bp_Requirements p)
                (bp_Requirements p') (fun _ => eq_refl) normalize_requirement_eq Hn Hf) as He.
  split.
  - intros [= E1 E2 E3]. split; [done | done | by apply He].
  - intros [E1 E2 E3]. apply He in E3. congruence.
Qed.

#[export] Instance BindingRequirementV2_json_Inj : Inj (=) (=) BindingRequirementV2_json.
Proof. solve_json_inj. Qed.
#[export] Instance BindingPlanV2_json_Inj : Inj (=) (=) BindingPlanV2_json.
Proof. solve_json_inj. Qed.

Definition plan_utf8 (p : BindingPlanV2) : bool := json_utf8 (BindingPlanV2_json (normalize_plan p)).
Definition plan_preimage (p : BindingPlanV2) : list N :=
  document_preimage binding_domain BindingContractVersionV2 "BindingPlanV2" (BindingPlanV2_json (normalize_plan p)).

Lemma Digest_Validate_genesis : Digest_Validate EvidenceGenesisDigestV2 = Ok tt.
Proof. vm_compute. reflexivity. Qed.

Lemma plan_digest_binds p q d :
  validateBindingPlanStructureV2 p = Ok tt ->
  bindingPlanDigestV2 p = Ok d -> bindingPlanDigestV2 q = Ok d -> plan_utf8 p = true -> plan_utf8 q = true ->
  plan_equiv p q \/ collision (plan_preimage p) (plan_preimage q).
Proof.
  intros Hs Hp Hq Up Uq.
  destruct (document_digest_binds _ _ _ _ _ _ _ Hp Hq Up Uq) as [[_ E] | E]; [left | by right].
  apply normalize_plan_eq; [done |]. by apply (inj BindingPlanV2_json).
Qed.

Lemma BindingPlanV2_Validate_iff p :
  BindingPlanV2_Validate p = Ok tt <->
  validateBindingPlanStructureV2 p = Ok tt /\ bindingPlanDigestV2 p = Ok (bp_PlanDigest p).
Proof.
  unfold BindingPlanV2_Validate. rewrite seq_Ok. apply and_iff_compat_l.
  destruct (bindingPlanDigestV2 p) as [d | e]; [| by split].
  rewrite guard_Ok, negb_false_iff, bool_decide_eq_true. split; [by intros -> | by intros [= ->]].
Qed.

Lemma set_bp_PlanDigest_twice d d' p : set_bp_PlanDigest d (set_bp_PlanDigest d' p) = set_bp_PlanDigest d p.
Proof. done. Qed.
Lemma bindingPlanDigest_ignores d p : bindingPlanDigestV2 (set_bp_PlanDigest d p) = bindingPlanDigestV2 p.
Proof. done. Qed.

Lemma plan_equiv_digest d p : plan_equiv (set_bp_PlanDigest d p) p.
Proof.
  split; [done | done |]. exists (bp_Requirements p). split; [done |].
  apply Forall_Forall2_diag, Forall_forall. by intros r _.
Qed.

Lemma plan_structure_digest d p :
  validateBindingPlanStructureV2 (set_bp_PlanDigest d p) = Ok tt ->
  validateBindingPlanStructureV2 (set_bp_PlanDigest EvidenceGenesisDigestV2 p) = Ok tt.
Proof.
  intros H. apply (plan_structure_equiv (set_bp_PlanDigest d p) p); [| apply Digest_Validate_genesis | done].
  apply plan_equiv_digest.
Qed.

Lemma SealBindingPlanV2_Ok p q :
  SealBindingPlanV2 p = Ok q <->
  validateBindingPlanStructureV2 (set_bp_PlanDigest EvidenceGenesisDigestV2 p) = Ok tt
  /\ exists d, bindingPlanDigestV2 p = Ok d /\ q = set_bp_PlanDigest d p.
Proof.
  unfold SealBindingPlanV2. rewrite seq_Ok, bind_Ok. split.
  - intros [Hs (d & Hd & H)]. apply seq_Ok in H as [_ [= <-]]. split; [done | by exists d].
  - intros [Hs (d & Hd & ->)]. split; [done |]. exists d. split; [done |]. apply seq_Ok. split; [| done].
    apply BindingPlanV2_Validate_iff. split; [| exact Hd].
    apply (plan_structure_equiv (set_bp_PlanDigest EvidenceGenesisDigestV2 p) p);
      [apply plan_equiv_digest | | done].
    apply document_digest_Ok in Hd as ->. apply hex_digest_valid.
Qed.

Lemma seal_equiv p p' q :
  plan_equiv p p' -> SealBindingPlanV2 p = Ok q -> SealBindingPlanV2 p' = Ok (set_bp_PlanDigest (bp_PlanDigest q) p').
Proof.
  intros He (Hs & d & Hd & ->)%SealBindingPlanV2_Ok. apply SealBindingPlanV2_Ok.
  assert (plan_equiv (set_bp_PlanDigest EvidenceGenesisDigestV2 p) p') as He' by (by destruct He).
  split; [by apply (plan_structure_equiv _ _ _ He'), Hs; apply Digest_Validate_genesis |].
  exists d. split; [| done]. rewrite <- Hd. unfold bindingPlanDigestV2. f_equal. f_equal. symmetry.
  exact (proj2 (normalize_plan_eq _ _ Hs) He').
Qed.

(** Sealing a binding plan.  A sealed plan validates, is the plan it was
    made from but for the digest, and is sealed again to itself; reordering its
    requirements or their capabilities seals to the same digest; and a plan that
    validates with that digest has the same requirements, or the hashed byte
    strings are a collision of SHA-256. *)
Theorem SealBindingPlanV2_spec (p q : BindingPlanV2) (H : SealBindingPlanV2 p = Ok q) :
  BindingPlanV2_Validate q = Ok tt
  /\ q = set_bp_PlanDigest (bp_PlanDigest q) p
  /\ SealBindingPlanV2 q = Ok q
  /\ (forall p', plan_equiv p p' -> SealBindingPlanV2 p' = Ok (set_bp_PlanDigest (bp_PlanDigest q) p'))
  /\ (forall p', BindingPlanV2_Validate p' = Ok tt -> bp_PlanDigest p' = bp_PlanDigest q ->
        plan_utf8 p' = true -> plan_utf8 q = true ->
        plan_equiv p' q \/ collision (plan_preimage p') (plan_preimage q)).
Proof.
  pose proof H as (Hs & d & Hd & ->)%SealBindingPlanV2_Ok.
  assert (BindingPlanV2_Validate (set_bp_PlanDigest d p) = Ok tt) as Hv.
  { unfold SealBindingPlanV2 in H. rewrite seq_Ok, bind_Ok in H. destruct H as (_ & d' & Hd' & H).
    apply seq_Ok in H as [H E]. rewrite Hd in Hd'. by injection Hd' as <-. }
  split; [done | split; [done | split; [| split]]].
  - apply SealBindingPlanV2_Ok. by split; [| exists d].
  - intros p' He. exact (seal_equiv p p' _ He H).
  - intros p' [Hs' Hd']%BindingPlanV2_Validate_iff Heq U U'. apply (plan_digest_binds _ _ d); try done.
    by rewrite Hd', Heq.
Qed.

(** ** Manifests and catalogs *)

Lemma find_registration_Some kind catalog r :
  find_registration kind catalog = Some r -> r ∈ catalog /\ gr_Kind r = kind.
Proof.
  unfold find_registration. destruct (list_find _ catalog) as [[i r'] |] eqn:E; [| done]. intros [= ->].
  apply list_find_Some in E as (Hi & Hk & _). split; [by eapply list_elem_of_lookup_2 | done].
Qed.

Lemma find_registration_complete kind catalog r :
  NoDup (map gr_Kind catalog) -> r ∈ catalog -> gr_Kind r = kind -> find_registration kind catalog = Some r.
Proof.
  intros Hn Hin Hk. destruct (find_registration kind catalog) as [r' |] eqn:E.
  - apply find_registration_Some in E as [Hin' Hk']. f_equal.
    apply (map_NoDup_inj gr_Kind catalog); [done .. | congruence].
  - unfold find_registration in E. destruct (list_find _ catalog) as [[i r'] |] eqn:F; [done |].
    apply list_find_None in F. rewrite Forall_forall in F. by destruct (F r Hin).
Qed.

(** What a registration allows. *)
Record allows (r : GovernanceRegistrationV2) (m : ComponentManifestV2) : Prop := {
  al_category : gr_Category r = m_GovernanceCategory m;
  al_locality : m_Locality m ∈ gr_AllowedLocalities r;
  al_conformance : m_Conformance m ∈ gr_AllowedConformance r;
  al_capabilities : Forall (fun c => pc_Capability c ∈ gr_Capabilities r) (slice_items (m_ProvidedCapabilities m));
  al_schemas : Forall (fun s => SchemaRefV2_Key s ∈ map SchemaRefV2_Key (gr_Schemas r)) (slice_items (m_Schemas m));
  al_extensions : Forall (fun x => gx_Required x = true -> gx_Key x ∈ gr_ExtensionPolicies r)
                    (slice_items (m_Extensions m));
}.

Lemma contains_iff {A} `{EqDecision A} (values : list A) target :
  existsb (fun value => bool_decide (value = target)) values = true <-> target ∈ values.
Proof.
  rewrite existsb_exists. setoid_rewrite bool_decide_eq_true. setoid_rewrite <- list_elem_of_In.
  split; [by intros (x & Hx & <-) | by exists target].
Qed.

Lemma registration_checks_Ok r m : registration_checks r m = Ok tt <-> allows r m.
Proof.
  unfold registration_checks, containsLocality, containsConformance.
  rewrite !seq_Ok, !guard_Ok, !for_each_Ok, orb_false_iff, !negb_false_iff, bool_decide_eq_true, !contains_iff.
  setoid_rewrite guard_Ok. setoid_rewrite andb_false_iff. setoid_rewrite negb_false_iff.
  setoid_rewrite bool_decide_eq_true.
  assert (forall x, (gx_Key x ∈ gr_ExtensionPolicies r \/ gx_Required x = false)
                    <-> (gx_Required x = true -> gx_Key x ∈ gr_ExtensionPolicies r)) as Hx.
  { intros x. destruct (gx_Required x); split; [intros [? | [=]]; done | by left; auto | done | by right]. }
  setoid_rewrite Hx. split; [intros (? & [] & ? & ? & ?); by split | by intros []].
Qed.

(** A manifest passes the governance catalog exactly when both are valid
    and the catalog has a registration of the manifest's kind that allows it:
    same category, an allowed locality and conformance, no capability or schema
    outside the registration, and no required extension outside its policies
    (an optional one may be unknown). *)
Theorem ValidateManifestAgainstCatalogV2_iff (m : ComponentManifestV2) (catalog : GovernanceCatalogV2) :
  ValidateManifestAgainstCatalogV2 m catalog = Ok tt <->
  ComponentManifestV2_Validate m = Ok tt /\ GovernanceCatalogV2_Validate catalog = Ok tt
  /\ exists r, r ∈ catalog /\ gr_Kind r = m_Kind m /\ allows r m.
Proof.
  unfold ValidateManifestAgainstCatalogV2. rewrite !seq_Ok. apply and_iff_compat_l.
  split; intros [Hc H]; (split; [done |]).
  - destruct (find_registration (m_Kind m) catalog) as [r |] eqn:E; [| done].
    apply find_registration_Some in E as [Hin Hk]. exists r. split; [done | split; [done |]].
    by apply registration_checks_Ok.
  - destruct H as (r & Hin & Hk & Ha). rewrite (find_registration_complete _ _ r); [| | done ..].
    + by apply registration_checks_Ok.
    + unfold GovernanceCatalogV2_Validate in Hc. go_ok. by apply visit_unique_Ok in Hk0 as (_ & ? & _).
Qed.

(** ** A component, its plan and its catalog *)

Definition bx_sha (c : string) : Digest := String.concat "" ("sha256:" :: repeat c 64).

Definition bx_schema : SchemaRefV2 :=
  {| sr_Namespace := "praxis"; sr_Name := "document"; sr_Version := "1.0.0"; sr_MediaType := "application/json";
     sr_ContentDigest := bx_sha "b" |}.

Definition bx_range : VersionRangeV2 := {| MinimumInclusive := "1.0.0"; MaximumExclusive := "2.0.0" |}.

Definition bx_owners (id : string) : list OwnerAssignmentV2 :=
  [{| oa_Role := OwnerEffect; oa_OwnerComponentID := id |};
   {| oa_Role := OwnerSettlement; oa_OwnerComponentID := id |};
   {| oa_Role := OwnerCleanup; oa_OwnerComponentID := id |}].

(** The manifest of component [id], which depends on [dependencies] and is
    owned by [owners]. *)
Definition bx_manifest_with (id : string) (dependencies : list string) (owners : list OwnerAssignmentV2)
    (annotations : list DisplayAnnotationV2) : ComponentManifestV2 :=
  {| m_ContractVersion := BindingContractVersionV2; m_ComponentID := id; m_Kind := "praxis/tool";
     m_GovernanceCategory := "praxis/tools"; m_SemanticVersion := "1.2.0"; m_ArtifactDigest := bx_sha "a";
     m_Contract := {| cb_Name := "praxis/contract"; cb_Version := "1.0.0"; cb_Compatible := bx_range |};
     m_Schemas := Some [bx_schema]; m_Locality := LocalityHostControlPlane;
     m_Dependencies := Some (map (fun d => {| dep_ComponentID := d; dep_Optional := false |}) dependencies);
     m_RequiredCapabilities := None;
     m_ProvidedCapabilities :=
       Some [{| pc_Capability := "praxis/run"; pc_TTLSeconds := 60; pc_Schemas := Some [bx_schema] |};
             {| pc_Capability := "praxis/stop"; pc_TTLSeconds := 60; pc_Schemas := None |}];
     m_Conformance := ConformanceRestrictedControlled; m_ResidualClass := ResidualInspectable;
     m_Owners := Some owners; m_Credentials := None; m_OfflinePolicy := OfflineDenied; m_Extensions := None;
     m_Annotations := Some annotations |}.

Definition bx_manifest : ComponentManifestV2 := bx_manifest_with "praxis/a" [] (bx_owners "praxis/a") [].

(** The same component, its owners in another order and with an annotation. *)
Definition bx_manifest_annotated : ComponentManifestV2 :=
  bx_manifest_with "praxis/a" [] (rev (bx_owners "praxis/a")) [{| an_Key := "title"; an_Value := "A" |}].

Definition bx_registration : GovernanceRegistrationV2 :=
  {| gr_Kind := "praxis/tool"; gr_Category := "praxis/tools"; gr_Capabilities := ["praxis/stop"; "praxis/run"];
     gr_Schemas := [bx_schema]; gr_ExtensionPolicies := [];
     gr_AllowedLocalities := [LocalityHostControlPlane; LocalityRemoteProvider];
     gr_AllowedConformance := [ConformanceRestrictedControlled] |}.
Definition bx_catalog : GovernanceCatalogV2 := [bx_registration].

Example bx_manifest_allowed : ValidateManifestAgainstCatalogV2 bx_manifest bx_catalog = Ok tt.
Proof. vm_compute. reflexivity. Qed.

Lemma manifest_digest_identity_witness :
  manifest_equiv bx_manifest bx_manifest_annotated
  /\ BindingDigestV2 bx_manifest = BindingDigestV2 bx_manifest_annotated.
Proof.
  assert (manifest_equiv bx_manifest bx_manifest_annotated) as He.
  { split; unfold same_set; try reflexivity; [| apply Permutation_rev].
    eexists. split; [reflexivity |]. repeat constructor. }
  split; [exact He |].
  refine (proj1 (manifest_digest_identity bx_manifest bx_manifest_annotated _ _ _ _ _ _) He);
    first [vm_compute; reflexivity | constructor].
Defined.

Definition bx_requirement (id : string) (required : bool) (capabilities : list string) : BindingRequirementV2 :=
  {| br2_ComponentID := id; br2_Kind := "praxis/tool"; br2_SemanticVersion := bx_range;
     br2_ContractName := "praxis/contract"; br2_Contract := bx_range; br2_ArtifactDigest := bx_sha "a";
     br2_RequiredCapabilities := capabilities; br2_Required := required; br2_AllowResidual := negb required |}.

Definition bx_plan : BindingPlanV2 :=
  {| bp_ID := "plan"; bp_PlanDigest := ""; bp_GovernanceDigest := bx_sha "c";
     bp_Requirements := [bx_requirement "praxis/b" false []; bx_requirement "praxis/a" true ["praxis/stop"; "praxis/run"]] |}.

Definition bx_plan_digest : Digest :=
  "sha256:0000000000000000000000000000000000000000000000000000000000000000".

Definition bx_sealed : BindingPlanV2 :=
  set_bp_PlanDigest "sha256:00daddcc9d049bf1c786fd5cc6a75bb2be57a3b8f6c59d2a7aa398ae54d8136b" bx_plan.
Lemma bx_plan_seals : SealBindingPlanV2 bx_plan = Ok bx_sealed.
Proof. vm_cast_no_check (eq_refl (Ok bx_sealed : result BindingPlanV2)). Qed.

(** The same requirements in the other order. *)
Definition bx_plan_reordered : BindingPlanV2 :=
  {| bp_ID := bp_ID bx_plan; bp_PlanDigest := bp_PlanDigest bx_plan; bp_GovernanceDigest := bp_GovernanceDigest bx_plan;
     bp_Requirements := rev (bp_Requirements bx_plan) |}.

Lemma SealBindingPlanV2_spec_witness :
  BindingPlanV2_Validate bx_sealed = Ok tt
  /\ SealBindingPlanV2 bx_plan_reordered = Ok (set_bp_PlanDigest (bp_PlanDigest bx_sealed) bx_plan_reordered).
Proof.
  destruct (SealBindingPlanV2_spec bx_plan bx_sealed bx_plan_seals) as (Hv & _ & _ & He & _).
  split; [exact Hv |]. apply He. split; [reflexivity | reflexivity |].
  exists (rev (bp_Requirements bx_plan)). split; [apply Permutation_rev |]. repeat constructor.
Defined.
