(* ===== verification/BindingCodec.v ===== *)
(** * ports/binding_v2_validate.go: encoding and decoding of manifests and catalogs

    EncodeComponentManifestV2, DecodeComponentManifestV2 and
    DecodeGovernanceCatalogV2, with the decoders of the structs they reach (the
    json tags of binding_v2_types.go), and cloneManifestV2, which copies a
    manifest through its encoding.  [manifest_round_trip] is the correctness of
    the copy; [clone_of_large] is its limit: a manifest whose encoding exceeds
    MaxCanonicalDocumentBytes is copied to the zero manifest. *)

From S2P Require Import Prelude GoStd Errors Identity SemVer Sha256 Json JsonParse Canonical StrictJson Payload JsonCodec Assembly Binding.
From Stdlib Require Import Ascii.

Local Open Scope N_scope.

(** ** Decoders *)

Definition decode_OwnerRoleV2 : Decoder OwnerRoleV2 :=
  decode_named OwnerRoleV2_string
    (named [OwnerEffect; OwnerSettlement; OwnerCleanup] OwnerRoleV2_string OwnerRoleOther).
Definition decode_LocalityV2 : Decoder LocalityV2 :=
  decode_named LocalityV2_string
    (named [LocalityHostControlPlane; LocalityInstanceDataPlane; LocalityExternalStatePlane; LocalityRemoteProvider]
       LocalityV2_string LocalityOther).
Definition decode_ConformanceLevel : Decoder ConformanceLevel :=
  decode_named ConformanceLevel_string
    (named [ConformanceFullyControlled; ConformanceRestrictedControlled; ConformanceContainedObserveOnly;
            ConformanceRejected] ConformanceLevel_string ConformanceOther).
Definition decode_ResidualClassV2 : Decoder ResidualClassV2 :=
  decode_named ResidualClassV2_string
    (named [ResidualNone; ResidualInspectable; ResidualCompensatable; ResidualExternallyOwned;
            ResidualPotentiallyStale] ResidualClassV2_string ResidualOther).
Definition decode_OfflinePolicyModeV2 : Decoder OfflinePolicyModeV2 :=
  decode_named OfflinePolicyModeV2_string
    (named [OfflineDenied; OfflineObserveOnly; OfflineCachedAuthorityOnly] OfflinePolicyModeV2_string OfflineOther).

(** The zero values of the named string types are the empty string. *)
Definition zero_OwnerRoleV2 : OwnerRoleV2 := OwnerRoleOther "".
Definition zero_LocalityV2 : LocalityV2 := LocalityOther "".
Definition zero_ConformanceLevel : ConformanceLevel := ConformanceOther "".
Definition zero_ResidualClassV2 : ResidualClassV2 := ResidualOther "".
Definition zero_OfflinePolicyModeV2 : OfflinePolicyModeV2 := OfflineOther "".

Definition zero_SchemaRefV2 : SchemaRefV2 :=
  {| sr_Namespace := ""; sr_Name := ""; sr_Version := ""; sr_MediaType := ""; sr_ContentDigest := "" |}.
Definition decode_SchemaRefV2 : Decoder SchemaRefV2 := decode_struct
  [ ("namespace", decode_at sr_Namespace (fun v '(Build_SchemaRefV2 _ b c d e) =>
        Build_SchemaRefV2 v b c d e) decode_string);
    ("name", decode_at sr_Name (fun v '(Build_SchemaRefV2 a _ c d e) =>
        Build_SchemaRefV2 a v c d e) decode_string);
    ("version", decode_at sr_Version (fun v '(Build_SchemaRefV2 a b _ d e) =>
        Build_SchemaRefV2 a b v d e) decode_string);
    ("media_type", decode_at sr_MediaType (fun v '(Build_SchemaRefV2 a b c _ e) =>
        Build_SchemaRefV2 a b c v e) decode_string);
    ("content_digest", decode_at sr_ContentDigest (fun v '(Build_SchemaRefV2 a b c d _) =>
        Build_SchemaRefV2 a b c d v) decode_string) ].

Definition zero_OpaqueLimitPolicyRefV2 : OpaqueLimitPolicyRefV2 :=
  {| lp_Policy := ""; lp_Digest := "" |}.
Definition decode_OpaqueLimitPolicyRefV2 : Decoder OpaqueLimitPolicyRefV2 := decode_struct
  [ ("policy", decode_at lp_Policy (fun v '(Build_OpaqueLimitPolicyRefV2 _ b) =>
        Build_OpaqueLimitPolicyRefV2 v b) decode_string);
    ("digest", decode_at lp_Digest (fun v '(Build_OpaqueLimitPolicyRefV2 a _) =>
        Build_OpaqueLimitPolicyRefV2 a v) decode_string) ].

Definition zero_OpaquePayloadV2 : OpaquePayloadV2 :=
  {| op_Schema := zero_SchemaRefV2; op_ContentDigest := ""; op_Length := 0; op_Inline := None; op_Ref := "";
     op_LimitPolicy := zero_OpaqueLimitPolicyRefV2 |}.
Definition decode_OpaquePayloadV2 : Decoder OpaquePayloadV2 := decode_struct
  [ ("schema", decode_at op_Schema (fun v '(Build_OpaquePayloadV2 _ b c d e f) =>
        Build_OpaquePayloadV2 v b c d e f) decode_SchemaRefV2);
    ("content_digest", decode_at op_ContentDigest (fun v '(Build_OpaquePayloadV2 a _ c d e f) =>
        Build_OpaquePayloadV2 a v c d e f) decode_string);
    ("length", decode_at op_Length (fun v '(Build_OpaquePayloadV2 a b _ d e f) =>
        Build_OpaquePayloadV2 a b v d e f) decode_uint64);
    ("inline", decode_at op_Inline (fun v '(Build_OpaquePayloadV2 a b c _ e f) =>
        Build_OpaquePayloadV2 a b c v e f) decode_bytes);
    ("ref", decode_at op_Ref (fun v '(Build_OpaquePayloadV2 a b c d _ f) =>
        Build_OpaquePayloadV2 a b c d v f) decode_string);
    ("limit_policy", decode_at op_LimitPolicy (fun v '(Build_OpaquePayloadV2 a b c d e _) =>
        Build_OpaquePayloadV2 a b c d e v) decode_OpaqueLimitPolicyRefV2) ].

Definition zero_GovernanceExtensionV2 : GovernanceExtensionV2 :=
  {| gx_Key := ""; gx_Required := false; gx_Payload := zero_OpaquePayloadV2 |}.
Definition decode_GovernanceExtensionV2 : Decoder GovernanceExtensionV2 := decode_struct
  [ ("key", decode_at gx_Key (fun v '(Build_GovernanceExtensionV2 _ b c) =>
        Build_GovernanceExtensionV2 v b c) decode_string);
    ("required", decode_at gx_Required (fun v '(Build_GovernanceExtensionV2 a _ c) =>
        Build_GovernanceExtensionV2 a v c) decode_bool);
    ("payload", decode_at gx_Payload (fun v '(Build_GovernanceExtensionV2 a b _) =>
        Build_GovernanceExtensionV2 a b v) decode_OpaquePayloadV2) ].

Definition zero_VersionRangeV2 : VersionRangeV2 :=
  {| MinimumInclusive := ""; MaximumExclusive := "" |}.
Definition decode_VersionRangeV2 : Decoder VersionRangeV2 := decode_struct
  [ ("minimum_inclusive", decode_at MinimumInclusive (fun v '(Build_VersionRangeV2 _ b) =>
        Build_VersionRangeV2 v b) decode_string);
    ("maximum_exclusive", decode_at MaximumExclusive (fun v '(Build_VersionRangeV2 a _) =>
        Build_VersionRangeV2 a v) decode_string) ].

Definition zero_ContractBindingV2 : ContractBindingV2 :=
  {| cb_Name := ""; cb_Version := ""; cb_Compatible := zero_VersionRangeV2 |}.
Definition decode_ContractBindingV2 : Decoder ContractBindingV2 := decode_struct
  [ ("name", decode_at cb_Name (fun v '(Build_ContractBindingV2 _ b c) =>
        Build_ContractBindingV2 v b c) decode_string);
    ("version", decode_at cb_Version (fun v '(Build_ContractBindingV2 a _ c) =>
        Build_ContractBindingV2 a v c) decode_string);
    ("compatible_range", decode_at cb_Compatible (fun v '(Build_ContractBindingV2 a b _) =>
        Build_ContractBindingV2 a b v) decode_VersionRangeV2) ].

Definition zero_DisplayAnnotationV2 : DisplayAnnotationV2 :=
  {| an_Key := ""; an_Value := "" |}.
Definition decode_DisplayAnnotationV2 : Decoder DisplayAnnotationV2 := decode_struct
  [ ("key", decode_at an_Key (fun v '(Build_DisplayAnnotationV2 _ b) =>
        Build_DisplayAnnotationV2 v b) decode_string);
    ("value", decode_at an_Value (fun v '(Build_DisplayAnnotationV2 a _) =>
        Build_DisplayAnnotationV2 a v) decode_string) ].

Definition zero_ComponentDependencyV2 : ComponentDependencyV2 :=
  {| dep_ComponentID := ""; dep_Optional := false |}.
Definition decode_ComponentDependencyV2 : Decoder ComponentDependencyV2 := decode_struct
  [ ("component_id", decode_at dep_ComponentID (fun v '(Build_ComponentDependencyV2 _ b) =>
        Build_ComponentDependencyV2 v b) decode_string);
    ("optional", decode_at dep_Optional (fun v '(Build_ComponentDependencyV2 a _) =>
        Build_ComponentDependencyV2 a v) decode_bool) ].

Definition zero_CapabilityRequirementV2 : CapabilityRequirementV2 :=
  {| rc2_Capability := ""; rc2_ProviderComponent := ""; rc2_Optional := false |}.
Definition decode_CapabilityRequirementV2 : Decoder CapabilityRequirementV2 := decode_struct
  [ ("capability", decode_at rc2_Capability (fun v '(Build_CapabilityRequirementV2 _ b c) =>
        Build_CapabilityRequirementV2 v b c) decode_string);
    ("provider_component", decode_at rc2_ProviderComponent (fun v '(Build_CapabilityRequirementV2 a _ c) =>
        Build_CapabilityRequirementV2 a v c) decode_string);
    ("optional", decode_at rc2_Optional (fun v '(Build_CapabilityRequirementV2 a b _) =>
        Build_CapabilityRequirementV2 a b v) decode_bool) ].

Definition zero_ProvidedCapabilityV2 : ProvidedCapabilityV2 :=
  {| pc_Capability := ""; pc_TTLSeconds := 0; pc_Schemas := None |}.
Definition decode_ProvidedCapabilityV2 : Decoder ProvidedCapabilityV2 := decode_struct
  [ ("capability", decode_at pc_Capability (fun v '(Build_ProvidedCapabilityV2 _ b c) =>
        Build_ProvidedCapabilityV2 v b c) decode_string);
    ("ttl_seconds", decode_at pc_TTLSeconds (fun v '(Build_ProvidedCapabilityV2 a _ c) =>
        Build_ProvidedCapabilityV2 a v c) decode_uint64);
    ("schemas", decode_at pc_Schemas (fun v '(Build_ProvidedCapabilityV2 a b _) =>
        Build_ProvidedCapabilityV2 a b v) (decode_slice decode_SchemaRefV2 zero_SchemaRefV2)) ].

Definition zero_OwnerAssignmentV2 : OwnerAssignmentV2 :=
  {| oa_Role := zero_OwnerRoleV2; oa_OwnerComponentID := "" |}.
Definition decode_OwnerAssignmentV2 : Decoder OwnerAssignmentV2 := decode_struct
  [ ("role", decode_at oa_Role (fun v '(Build_OwnerAssignmentV2 _ b) =>
        Build_OwnerAssignmentV2 v b) decode_OwnerRoleV2);
    ("owner_component_id", decode_at oa_OwnerComponentID (fun v '(Build_OwnerAssignmentV2 a _) =>
        Build_OwnerAssignmentV2 a v) decode_string) ].

Definition zero_CredentialRequirementV2 : CredentialRequirementV2 :=
  {| cr_CredentialClass := ""; cr_ScopeDigest := ""; cr_MaximumTTLSeconds := 0 |}.
Definition decode_CredentialRequirementV2 : Decoder CredentialRequirementV2 := decode_struct
  [ ("credential_class", decode_at cr_CredentialClass (fun v '(Build_CredentialRequirementV2 _ b c) =>
        Build_CredentialRequirementV2 v b c) decode_string);
    ("scope_digest", decode_at cr_ScopeDigest (fun v '(Build_CredentialRequirementV2 a _ c) =>
        Build_CredentialRequirementV2 a v c) decode_string);
    ("maximum_ttl_seconds", decode_at cr_MaximumTTLSeconds (fun v '(Build_CredentialRequirementV2 a b _) =>
        Build_CredentialRequirementV2 a b v) decode_uint64) ].

Definition zero_ComponentManifestV2 : ComponentManifestV2 :=
  {| m_ContractVersion := ""; m_ComponentID := ""; m_Kind := ""; m_GovernanceCategory := ""; m_SemanticVersion
     := ""; m_ArtifactDigest := ""; m_Contract := zero_ContractBindingV2; m_Schemas := None; m_Locality :=
     zero_LocalityV2; m_Dependencies := None; m_RequiredCapabilities := None; m_ProvidedCapabilities := None;
     m_Conformance := zero_ConformanceLevel; m_ResidualClass := zero_ResidualClassV2; m_Owners := None;
     m_Credentials := None; m_OfflinePolicy := zero_OfflinePolicyModeV2; m_Extensions := None; m_Annotations
     := None |}.
Definition decode_ComponentManifestV2 : Decoder ComponentManifestV2 := decode_struct
  [ ("contract_version", decode_at m_ContractVersion (fun v '(Build_ComponentManifestV2 _ b c d e f g h i j k l m n o p q r s) =>
        Build_ComponentManifestV2 v b c d e f g h i j k l m n o p q r s) decode_string);
    ("component_id", decode_at m_ComponentID (fun v '(Build_ComponentManifestV2 a _ c d e f g h i j k l m n o p q r s) =>
        Build_ComponentManifestV2 a v c d e f g h i j k l m n o p q r s) decode_string);
    ("kind", decode_at m_Kind (fun v '(Build_ComponentManifestV2 a b _ d e f g h i j k l m n o p q r s) =>
        Build_ComponentManifestV2 a b v d e f g h i j k l m n o p q r s) decode_string);
    ("governance_category", decode_at m_GovernanceCategory (fun v '(Build_ComponentManifestV2 a b c _ e f g h i j k l m n o p q r s) =>
        Build_ComponentManifestV2 a b c v e f g h i j k l m n o p q r s) decode_string);
    ("semantic_version", decode_at m_SemanticVersion (fun v '(Build_ComponentManifestV2 a b c d _ f g h i j k l m n o p q r s) =>
        Build_ComponentManifestV2 a b c d v f g h i j k l m n o p q r s) decode_string);
    ("artifact_digest", decode_at m_ArtifactDigest (fun v '(Build_ComponentManifestV2 a b c d e _ g h i j k l m n o p q r s) =>
        Build_ComponentManifestV2 a b c d e v g h i j k l m n o p q r s) decode_string);
    ("contract", decode_at m_Contract (fun v '(Build_ComponentManifestV2 a b c d e f _ h i j k l m n o p q r s) =>
        Build_ComponentManifestV2 a b c d e f v h i j k l m n o p q r s) decode_ContractBindingV2);
    ("schemas", decode_at m_Schemas (fun v '(Build_ComponentManifestV2 a b c d e f g _ i j k l m n o p q r s) =>
        Build_ComponentManifestV2 a b c d e f g v i j k l m n o p q r s) (decode_slice decode_SchemaRefV2 zero_SchemaRefV2));
    ("locality", decode_at m_Locality (fun v '(Build_ComponentManifestV2 a b c d e f g h _ j k l m n o p q r s) =>
        Build_ComponentManifestV2 a b c d e f g h v j k l m n o p q r s) decode_LocalityV2);
    ("dependencies", decode_at m_Dependencies (fun v '(Build_ComponentManifestV2 a b c d e f g h i _ k l m n o p q r s) =>
        Build_ComponentManifestV2 a b c d e f g h i v k l m n o p q r s) (decode_slice decode_ComponentDependencyV2 zero_ComponentDependencyV2));
    ("required_capabilities", decode_at m_RequiredCapabilities (fun v '(Build_ComponentManifestV2 a b c d e f g h i j _ l m n o p q r s) =>
        Build_ComponentManifestV2 a b c d e f g h i j v l m n o p q r s) (decode_slice decode_CapabilityRequirementV2 zero_CapabilityRequirementV2));
    ("provided_capabilities", decode_at m_ProvidedCapabilities (fun v '(Build_ComponentManifestV2 a b c d e f g h i j k _ m n o p q r s) =>
        Build_ComponentManifestV2 a b c d e f g h i j k v m n o p q r s) (decode_slice decode_ProvidedCapabilityV2 zero_ProvidedCapabilityV2));
    ("conformance", decode_at m_Conformance (fun v '(Build_ComponentManifestV2 a b c d e f g h i j k l _ n o p q r s) =>
        Build_ComponentManifestV2 a b c d e f g h i j k l v n o p q r s) decode_ConformanceLevel);
    ("residual_class", decode_at m_ResidualClass (fun v '(Build_ComponentManifestV2 a b c d e f g h i j k l m _ o p q r s) =>
        Build_ComponentManifestV2 a b c d e f g h i j k l m v o p q r s) decode_ResidualClassV2);
    ("owners", decode_at m_Owners (fun v '(Build_ComponentManifestV2 a b c d e f g h i j k l m n _ p q r s) =>
        Build_ComponentManifestV2 a b c d e f g h i j k l m n v p q r s) (decode_slice decode_OwnerAssignmentV2 zero_OwnerAssignmentV2));
    ("credential_requirements", decode_at m_Credentials (fun v '(Build_ComponentManifestV2 a b c d e f g h i j k l m n o _ q r s) =>
        Build_ComponentManifestV2 a b c d e f g h i j k l m n o v q r s) (decode_slice decode_CredentialRequirementV2 zero_CredentialRequirementV2));
    ("offline_policy", decode_at m_OfflinePolicy (fun v '(Build_ComponentManifestV2 a b c d e f g h i j k l m n o p _ r s) =>
        Build_ComponentManifestV2 a b c d e f g h i j k l m n o p v r s) decode_OfflinePolicyModeV2);
    ("extensions", decode_at m_Extensions (fun v '(Build_ComponentManifestV2 a b c d e f g h i j k l m n o p q _ s) =>
        Build_ComponentManifestV2 a b c d e f g h i j k l m n o p q v s) (decode_slice decode_GovernanceExtensionV2 zero_GovernanceExtensionV2));
    ("annotations", decode_at m_Annotations (fun v '(Build_ComponentManifestV2 a b c d e f g h i j k l m n o p q r _) =>
        Build_ComponentManifestV2 a b c d e f g h i j k l m n o p q r v) (decode_slice decode_DisplayAnnotationV2 zero_DisplayAnnotationV2)) ].

(** A struct of one field. *)
Definition decode_ExtensionPolicyV2 : Decoder ExtensionPolicyV2 := decode_struct [("key", decode_string)].
Definition zero_ExtensionPolicyV2 : ExtensionPolicyV2 := "".

Definition zero_GovernanceRegistrationV2 : GovernanceRegistrationV2 :=
  {| gr_Kind := ""; gr_Category := ""; gr_Capabilities := []; gr_Schemas := []; gr_ExtensionPolicies := [];
     gr_AllowedLocalities := []; gr_AllowedConformance := [] |}.
Definition decode_GovernanceRegistrationV2 : Decoder GovernanceRegistrationV2 := decode_struct
  [ ("kind", decode_at gr_Kind (fun v '(Build_GovernanceRegistrationV2 _ b c d e f g) =>
        Build_GovernanceRegistrationV2 v b c d e f g) decode_string);
    ("category", decode_at gr_Category (fun v '(Build_GovernanceRegistrationV2 a _ c d e f g) =>
        Build_GovernanceRegistrationV2 a v c d e f g) decode_string);
    ("capabilities", decode_at gr_Capabilities (fun v '(Build_GovernanceRegistrationV2 a b _ d e f g) =>
        Build_GovernanceRegistrationV2 a b v d e f g) (decode_list decode_string ""));
    ("schemas", decode_at gr_Schemas (fun v '(Build_GovernanceRegistrationV2 a b c _ e f g) =>
        Build_GovernanceRegistrationV2 a b c v e f g) (decode_list decode_SchemaRefV2 zero_SchemaRefV2));
    ("extension_policies", decode_at gr_ExtensionPolicies (fun v '(Build_GovernanceRegistrationV2 a b c d _ f g) =>
        Build_GovernanceRegistrationV2 a b c d v f g) (decode_list decode_ExtensionPolicyV2 zero_ExtensionPolicyV2));
    ("allowed_localities", decode_at gr_AllowedLocalities (fun v '(Build_GovernanceRegistrationV2 a b c d e _ g) =>
        Build_GovernanceRegistrationV2 a b c d e v g) (decode_list decode_LocalityV2 zero_LocalityV2));
    ("allowed_conformance", decode_at gr_AllowedConformance (fun v '(Build_GovernanceRegistrationV2 a b c d e f _) =>
        Build_GovernanceRegistrationV2 a b c d e f v) (decode_list decode_ConformanceLevel zero_ConformanceLevel)) ].

(** A catalog is a struct of one field. *)
Definition decode_GovernanceCatalogV2 : Decoder GovernanceCatalogV2 := decode_struct
  [ ("registrations", decode_list decode_GovernanceRegistrationV2 zero_GovernanceRegistrationV2) ].
Definition zero_GovernanceCatalogV2 : GovernanceCatalogV2 := [].

(** ** The functions *)

Definition DecodeComponentManifestV2 (payload : list N) : result ComponentManifestV2 :=
  manifest ← DecodeStrictJSON decode_ComponentManifestV2 zero_ComponentManifestV2 payload ;
  ComponentManifestV2_Validate manifest ;; Ok manifest.

Definition DecodeGovernanceCatalogV2 (payload : list N) : result GovernanceCatalogV2 :=
  catalog ← DecodeStrictJSON decode_GovernanceCatalogV2 zero_GovernanceCatalogV2 payload ;
  GovernanceCatalogV2_Validate catalog ;; Ok catalog.

(** json.Marshal does not fail on a manifest. *)
Definition EncodeComponentManifestV2 (manifest : ComponentManifestV2) : result (list N) :=
  ComponentManifestV2_Validate manifest ;;
  let payload := json_Marshal (ComponentManifestV2_json manifest) in
  guard (MaxCanonicalDocumentBytes <? N.of_nat (length payload)) ErrorInvalidArgument ReasonCanonicalLimitExceeded ;;
  Ok payload.

(** Both errors are dropped: a nil payload, and a zero manifest. *)
Definition cloneManifestV2 (manifest : ComponentManifestV2) : ComponentManifestV2 :=
  let payload := match EncodeComponentManifestV2 manifest with Ok payload => payload | Err _ => [] end in
  match DecodeComponentManifestV2 payload with Ok cloned => cloned | Err _ => zero_ComponentManifestV2 end.

(** ** Reading back what was encoded *)

Lemma reads_SchemaRefV2 : reads always SchemaRefV2_json decode_SchemaRefV2 zero_SchemaRefV2.
Proof.
  intros x _ U. read_struct x U decode_SchemaRefV2 SchemaRefV2_json.
Qed.

Lemma reads_OpaqueLimitPolicyRefV2 :
  reads always OpaqueLimitPolicyRefV2_json decode_OpaqueLimitPolicyRefV2 zero_OpaqueLimitPolicyRefV2.
Proof. intros x _ U. read_struct x U decode_OpaqueLimitPolicyRefV2 OpaqueLimitPolicyRefV2_json. Qed.

Lemma reads_VersionRangeV2 : reads always VersionRangeV2_json decode_VersionRangeV2 zero_VersionRangeV2.
Proof. intros x _ U. read_struct x U decode_VersionRangeV2 VersionRangeV2_json. Qed.

Lemma reads_ContractBindingV2 : reads always ContractBindingV2_json decode_ContractBindingV2 zero_ContractBindingV2.
Proof.
  pose proof reads_VersionRangeV2. intros x _ U. read_struct x U decode_ContractBindingV2 ContractBindingV2_json.
Qed.

Lemma reads_DisplayAnnotationV2 :
  reads always DisplayAnnotationV2_json decode_DisplayAnnotationV2 zero_DisplayAnnotationV2.
Proof. intros x _ U. read_struct x U decode_DisplayAnnotationV2 DisplayAnnotationV2_json. Qed.

Lemma reads_ComponentDependencyV2 :
  reads always ComponentDependencyV2_json decode_ComponentDependencyV2 zero_ComponentDependencyV2.
Proof. intros x _ U. read_struct x U decode_ComponentDependencyV2 ComponentDependencyV2_json. Qed.

Lemma reads_CapabilityRequirementV2 :
  reads always CapabilityRequirementV2_json decode_CapabilityRequirementV2 zero_CapabilityRequirementV2.
Proof. intros x _ U. read_struct x U decode_CapabilityRequirementV2 CapabilityRequirementV2_json. Qed.

Lemma reads_ProvidedCapabilityV2 :
  reads (fun c => pc_TTLSeconds c <= max_u64) ProvidedCapabilityV2_json decode_ProvidedCapabilityV2
    zero_ProvidedCapabilityV2.
Proof.
  pose proof reads_SchemaRefV2. intros x P U. read_struct x U decode_ProvidedCapabilityV2 ProvidedCapabilityV2_json.
Qed.

Lemma reads_OwnerAssignmentV2 :
  reads (fun o => oa_Role o ∈ [OwnerEffect; OwnerSettlement; OwnerCleanup]) OwnerAssignmentV2_json
    decode_OwnerAssignmentV2 zero_OwnerAssignmentV2.
Proof. intros x P U. read_struct x U decode_OwnerAssignmentV2 OwnerAssignmentV2_json. Qed.

Lemma reads_CredentialRequirementV2 :
  reads (fun c => cr_MaximumTTLSeconds c <= max_u64) CredentialRequirementV2_json decode_CredentialRequirementV2
    zero_CredentialRequirementV2.
Proof. intros x P U. read_struct x U decode_CredentialRequirementV2 CredentialRequirementV2_json. Qed.

Definition payload_readable (p : OpaquePayloadV2) : Prop :=
  Forall is_byte (slice_items (op_Inline p)) /\ op_Inline p <> Some [] /\ op_Length p <= max_u64.

Lemma reads_OpaquePayloadV2 :
  reads payload_readable OpaquePayloadV2_json decode_OpaquePayloadV2 zero_OpaquePayloadV2.
Proof.
  pose proof reads_SchemaRefV2. pose proof reads_OpaqueLimitPolicyRefV2.
  intros [sch dig n inl ref lim] (Hb & Hi & Hn) U. unfold OpaquePayloadV2_json, decode_OpaquePayloadV2 in *. cbn in Hb, Hi, Hn.
  cbn [op_Schema op_ContentDigest op_Length op_Inline op_Ref op_LimitPolicy] in *.
  unfold omit_bytes, omit_string in *. destruct inl as [[| b l] |]; [done | |]; destruct (bool_decide (ref = "")) eqn:Er;
    try apply bool_decide_eq_true in Er as ->; split_members U; unfold decode_struct; repeat read_member; reflexivity.
Qed.

Lemma reads_GovernanceExtensionV2 :
  reads (fun x => payload_readable (gx_Payload x)) GovernanceExtensionV2_json decode_GovernanceExtensionV2
    zero_GovernanceExtensionV2.
Proof.
  pose proof reads_OpaquePayloadV2. intros x P U. read_struct x U decode_GovernanceExtensionV2 GovernanceExtensionV2_json.
Qed.

(** What the round trip needs of a manifest; a valid one has it when its
    payloads are bytes. *)
Record manifest_readable (m : ComponentManifestV2) : Prop := {
  rd_locality : m_Locality m ∈ [LocalityHostControlPlane; LocalityInstanceDataPlane; LocalityExternalStatePlane;
                                LocalityRemoteProvider];
  rd_conformance : m_Conformance m ∈ [ConformanceFullyControlled; ConformanceRestrictedControlled;
                                      ConformanceContainedObserveOnly; ConformanceRejected];
  rd_residual : m_ResidualClass m ∈ [ResidualNone; ResidualInspectable; ResidualCompensatable;
                                     ResidualExternallyOwned; ResidualPotentiallyStale];
  rd_offline : m_OfflinePolicy m ∈ [OfflineDenied; OfflineObserveOnly; OfflineCachedAuthorityOnly];
  rd_owners : Forall (fun o => oa_Role o ∈ [OwnerEffect; OwnerSettlement; OwnerCleanup]) (slice_items (m_Owners m));
  rd_provided : Forall (fun c => pc_TTLSeconds c <= max_u64) (slice_items (m_ProvidedCapabilities m));
  rd_credentials : Forall (fun c => cr_MaximumTTLSeconds c <= max_u64) (slice_items (m_Credentials m));
  rd_extensions : Forall (fun x => payload_readable (gx_Payload x)) (slice_items (m_Extensions m));
}.

Lemma reads_ComponentManifestV2 :
  reads manifest_readable ComponentManifestV2_json decode_ComponentManifestV2 zero_ComponentManifestV2.
Proof.
  pose proof reads_SchemaRefV2. pose proof reads_ContractBindingV2. pose proof reads_DisplayAnnotationV2.
  pose proof reads_ComponentDependencyV2. pose proof reads_CapabilityRequirementV2. pose proof reads_ProvidedCapabilityV2.
  pose proof reads_OwnerAssignmentV2. pose proof reads_CredentialRequirementV2. pose proof reads_GovernanceExtensionV2.
  intros x [] U. read_struct x U decode_ComponentManifestV2 ComponentManifestV2_json.
Qed.

Lemma ComponentManifestV2_readable m :
  ComponentManifestV2_Validate m = Ok tt -> manifest_typed m -> manifest_readable m.
Proof.
  intros V T. pose proof (ComponentManifestV2_sets_ok m V) as []. destruct mo_enums as (Hl & Hc & Hr & Ho).
  assert (MaxCapabilityTTLSeconds <= max_u64) as Hmax by (vm_compute; discriminate).
  unfold ComponentManifestV2_Validate in V. go_ok.
  unfold validateProvidedCapabilities, validateCredentialsV2 in *.
  repeat match goal with
  | H : visit_unique _ _ _ _ _ _ = Ok _ |- _ => apply visit_unique_Ok in H as (? & _ & _)
  end.
  split.
  - destruct (m_Locality m); set_solver.
  - destruct (m_Conformance m); set_solver.
  - destruct (m_ResidualClass m); set_solver.
  - destruct (m_OfflinePolicy m); set_solver.
  - eapply Forall_impl; [exact mo_roles |]. intros o Ho'. cbn beta in *. destruct (oa_Role o); set_solver.
  - eapply Forall_impl; [match goal with H : Forall (fun x => @?a x /\ @?b x) _ |- _ => exact H end |].
    intros c [Hc1 _]. go_ok.
    match goal with H : _ || (MaxCapabilityTTLSeconds <? _) = false |- _ => apply orb_false_iff in H as [_ H%N.ltb_ge] end.
    lia.
  - eapply Forall_impl; [match goal with H : Forall (fun x => @?a x /\ @?b x) _ |- _ => exact H end |].
    intros c [Hc1 _]. go_ok.
    match goal with H : _ || (MaxCapabilityTTLSeconds <? _) = false |- _ => apply orb_false_iff in H as [_ H%N.ltb_ge] end.
    lia.
  - unfold manifest_typed in T. rewrite Forall_forall in *. intros x Hx. split; [by apply T | split].
    + apply valid_inline. by apply mo_payloads.
    + specialize (mo_payloads x Hx). unfold OpaquePayloadV2_Validate in mo_payloads. go_ok.
      assert (MaxOpaqueDeclaredBytes <= max_u64) by (vm_compute; discriminate).
      match goal with H : _ || (MaxOpaqueDeclaredBytes <? _) = false |- _ => apply orb_false_iff in H as [_ H] end.
      go_bool. lia.
Qed.

(** *** The shape of the document *)

Lemma shallow_SchemaRefV2 s : shallow 1 (SchemaRefV2_json s).
Proof. solve_shallow 0 SchemaRefV2_json. Qed.
Lemma shallow_OpaqueLimitPolicyRefV2 s : shallow 1 (OpaqueLimitPolicyRefV2_json s).
Proof. solve_shallow 0 OpaqueLimitPolicyRefV2_json. Qed.
Lemma shallow_VersionRangeV2 s : shallow 1 (VersionRangeV2_json s).
Proof. solve_shallow 0 VersionRangeV2_json. Qed.
Lemma shallow_DisplayAnnotationV2 s : shallow 1 (DisplayAnnotationV2_json s).
Proof. solve_shallow 0 DisplayAnnotationV2_json. Qed.
Lemma shallow_ComponentDependencyV2 s : shallow 1 (ComponentDependencyV2_json s).
Proof. solve_shallow 0 ComponentDependencyV2_json. Qed.
Lemma shallow_CapabilityRequirementV2 s : shallow 1 (CapabilityRequirementV2_json s).
Proof. solve_shallow 0 CapabilityRequirementV2_json. Qed.
Lemma shallow_OwnerAssignmentV2 s : shallow 1 (OwnerAssignmentV2_json s).
Proof. solve_shallow 0 OwnerAssignmentV2_json. Qed.
Lemma shallow_CredentialRequirementV2 s : shallow 1 (CredentialRequirementV2_json s).
Proof. solve_shallow 0 CredentialRequirementV2_json. Qed.
#[export] Hint Resolve shallow_SchemaRefV2 shallow_OpaqueLimitPolicyRefV2 shallow_VersionRangeV2
  shallow_DisplayAnnotationV2 shallow_ComponentDependencyV2 shallow_CapabilityRequirementV2
  shallow_OwnerAssignmentV2 shallow_CredentialRequirementV2 : shallow.

Lemma shallow_ContractBindingV2 s : shallow 2 (ContractBindingV2_json s).
Proof. solve_shallow 1 ContractBindingV2_json. Qed.
Lemma shallow_ProvidedCapabilityV2 s : shallow 3 (ProvidedCapabilityV2_json s).
Proof. solve_shallow 2 ProvidedCapabilityV2_json. Qed.
Lemma shallow_OpaquePayloadV2 p : shallow 2 (OpaquePayloadV2_json p).
Proof.
  destruct p as [sch dig n inl ref lim]. unfold OpaquePayloadV2_json, omit_bytes, omit_string.
  cbn [op_Schema op_ContentDigest op_Length op_Inline op_Ref op_LimitPolicy].
  destruct inl as [[| b l] |], (bool_decide (ref = "")); solve_shallow 1 field.
Qed.
#[export] Hint Resolve shallow_ContractBindingV2 shallow_ProvidedCapabilityV2 shallow_OpaquePayloadV2 : shallow.
Lemma shallow_GovernanceExtensionV2 s : shallow 3 (GovernanceExtensionV2_json s).
Proof. solve_shallow 2 GovernanceExtensionV2_json. Qed.
#[export] Hint Resolve shallow_GovernanceExtensionV2 : shallow.
Lemma shallow_ComponentManifestV2 m : shallow 5 (ComponentManifestV2_json m).
Proof. solve_shallow 4 ComponentManifestV2_json. Qed.

(** ** The round trip *)

Definition document_utf8 (m : ComponentManifestV2) : bool := json_utf8 (ComponentManifestV2_json m).

Lemma decode_encoded m payload :
  EncodeComponentManifestV2 m = Ok payload -> manifest_typed m -> document_utf8 m = true ->
  DecodeComponentManifestV2 payload = Ok m.
Proof.
  unfold EncodeComponentManifestV2, DecodeComponentManifestV2. intros H T U.
  rewrite !seq_Ok, guard_Ok in H. destruct H as (V & Hlen & [= <-]).
  destruct (shallow_ComponentManifestV2 m) as [Hd Hu].
  assert (5 <= maxNestingDepth) by (vm_compute; discriminate).
  rewrite DecodeStrictJSON_Marshal; [| by apply json_Marshal_bounded | lia | done].
  rewrite reads_ComponentManifestV2 by (done || by apply ComponentManifestV2_readable). cbn. by rewrite V.
Qed.

(** C34: a manifest survives its encoding.  What EncodeComponentManifestV2
    writes for a valid manifest, DecodeComponentManifestV2 reads back as the same
    manifest, nil and empty slices and the order of its sets included, so that
    cloneManifestV2 returns an equal manifest; the strings that Validate leaves
    open must be UTF-8. *)
Theorem manifest_round_trip (m : ComponentManifestV2) (payload : list N)
    (H : EncodeComponentManifestV2 m = Ok payload) (T : manifest_typed m) (U : document_utf8 m = true) :
  DecodeComponentManifestV2 payload = Ok m /\ cloneManifestV2 m = m.
Proof.
  pose proof (decode_encoded m payload H T U) as Hd. split; [done |].
  unfold cloneManifestV2. by rewrite H, Hd.
Qed.

Definition bx_payload : list N := json_Marshal (ComponentManifestV2_json bx_manifest_annotated).

Lemma manifest_round_trip_witness :
  EncodeComponentManifestV2 bx_manifest_annotated = Ok bx_payload
  /\ DecodeComponentManifestV2 bx_payload = Ok bx_manifest_annotated.
Proof.
  assert (EncodeComponentManifestV2 bx_manifest_annotated = Ok bx_payload) as H
    by (vm_cast_no_check (eq_refl (Ok bx_payload : result (list N)))).
  split; [exact H |]. apply (manifest_round_trip bx_manifest_annotated bx_payload H).
  - constructor.
  - vm_compute. reflexivity.
Defined.

(** *** Limits of the copy *)

Lemma clone_of_large m :
  (MaxCanonicalDocumentBytes <? N.of_nat (length (json_Marshal (ComponentManifestV2_json m)))) = true ->
  cloneManifestV2 m = zero_ComponentManifestV2.
Proof.
  intros H. unfold cloneManifestV2, EncodeComponentManifestV2. rewrite H.
  by destruct (ComponentManifestV2_Validate m).
Qed.
