(* ===== verification/Topology.v ===== *)
(** * control/binding_fact_v2.go: stableTopologicalOrderV2

    The order in which the members of a binding set are listed: Kahn's algorithm
    with a sorted list of ready components.  A dependency graph maps a component
    to the components it depends on; the order in which Go ranges over its maps
    is an argument.  [stableTopologicalOrderV2_least] is the specification: the
    least topological order, when there is one. *)

From stdpp Require Import sorting.
From S2P Require Import Prelude GoStd Errors Assembly.

(** ** The algorithm *)

Abbreviation Graph := (gmap string (list string)).

(** The two maps that the code fills: how many dependencies of a component are
    not placed yet, and which components depend on it. *)
Record Counts := { indegree : gmap string Z; dependents : gmap string (list string) }.

Definition degree (c : Counts) (node : string) : Z := default 0%Z (indegree c !! node).
Definition dependents_of (c : Counts) (node : string) : list string := default [] (dependents c !! node).

Definition set_degree (node : string) (d : Z) (c : Counts) : Counts :=
  {| indegree := <[node := d]> (indegree c); dependents := dependents c |}.

(** `indegree[node]++; dependents[dependency] = append(dependents[dependency], node)` *)
Definition add_edge (node : string) (c : Counts) (dependency : string) : Counts :=
  {| indegree := <[node := (degree c node + 1)%Z]> (indegree c);
     dependents := <[dependency := dependents_of c dependency ++ [node]]> (dependents c) |}.

Definition count_node (graph : Graph) (c : Counts) (node : string) : Counts :=
  fold_left (add_edge node) (default [] (graph !! node)) c.

Definition count_edges (range : Range) (graph : Graph) : Counts :=
  let nodes := elements (dom graph) in
  let c := fold_left (fun c node => set_degree node 0 c) (range 0 nodes)
             {| indegree := ∅; dependents := ∅ |} in
  fold_left (count_node graph) (range 1 nodes) c.

(** The loop over the dependents of the placed component; the sorted list of
    ready components is threaded with the counts. *)
Definition release (st : list string * Counts) (dependent : string) : list string * Counts :=
  let (ready, c) := st in
  let d := (degree c dependent - 1)%Z in
  (if Z.eqb d 0 then sort_by id (ready ++ [dependent]) else ready, set_degree dependent d c).

Fixpoint place (fuel : nat) (ready order : list string) (c : Counts) : option (list string) :=
  match fuel with
  | O => None
  | S fuel' =>
      match ready with
      | [] => Some order
      | node :: ready' =>
          let (ready'', c') := fold_left release (dependents_of c node) (ready', c) in
          place fuel' ready'' (order ++ [node]) c'
      end
  end.

Definition stableTopologicalOrderV2 (range : Range) (graph : Graph) : result (list string) :=
  let c := count_edges range graph in
  let ready := sort_by id (filter (fun node => (degree c node = 0)%Z) (range 2 (elements (dom (indegree c))))) in
  match place (S (size graph)) ready [] c with
  | None => Err GoPanic
  | Some order =>
      guard (negb (Nat.eqb (length order) (size graph))) ErrorPreconditionFailed ReasonDependencyCycle ;;
      Ok order
  end.

(** ** Topological orders *)

Definition depends (graph : Graph) (node dependency : string) : Prop :=
  dependency ∈ default [] (graph !! node).
#[export] Instance depends_dec graph node dependency : Decision (depends graph node dependency).
Proof. unfold depends. apply _. Defined.

(** Every component once, each behind what it depends on. *)
Record topological (graph : Graph) (order : list string) : Prop := {
  to_NoDup : NoDup order;
  to_all : forall node, node ∈ order <-> node ∈ dom graph;
  to_behind : forall before node after, order = before ++ node :: after ->
    forall dependency, depends graph node dependency -> dependency ∈ before;
}.

Fixpoint lex_le (l l' : list string) : Prop :=
  match l, l' with
  | [], _ => True
  | x :: l, y :: l' => (x <> y /\ String.le x y) \/ (x = y /\ lex_le l l')
  | _ :: _, [] => False
  end.

Lemma lex_le_refl l : lex_le l l.
Proof. induction l; cbn; auto. Qed.

Lemma lex_le_antisym l l' : lex_le l l' -> lex_le l' l -> length l = length l' -> l = l'.
Proof.
  revert l'. induction l as [| x l IH]; intros [| y l']; cbn; try done.
  intros [[Hn H] | [-> H]] [[Hn' H'] | [E H']] [= Hl]; try congruence.
  - exfalso. apply Hn. by apply (anti_symm String.le).
  - f_equal. by apply IH.
Qed.

Definition ready_after (graph : Graph) (order : list string) (node : string) : Prop :=
  node ∈ dom graph /\ (node ∉ order) /\ (forall dependency, depends graph node dependency -> dependency ∈ order).

(** The rest of an order, picked greedily: always the least ready component,
    until none is ready. *)
Inductive greedy (graph : Graph) : list string -> list string -> Prop :=
| greedy_stop order : (forall node, ~ ready_after graph order node) -> greedy graph order []
| greedy_pick order node rest :
    ready_after graph order node -> (forall m, ready_after graph order m -> String.le node m) ->
    greedy graph (order ++ [node]) rest -> greedy graph order (node :: rest).

(** Orders that can be extended. *)
Definition placed (graph : Graph) (order : list string) : Prop :=
  NoDup order /\ (forall node, node ∈ order -> node ∈ dom graph)
  /\ forall before node after, order = before ++ node :: after ->
       forall dependency, depends graph node dependency -> dependency ∈ before.

Lemma placed_nil graph : placed graph [].
Proof. split; [constructor | split]; [intros ? ?%elem_of_nil; done | intros [| ? ?] ? ? ?; done]. Qed.

Lemma placed_snoc graph order node : placed graph order -> ready_after graph order node -> placed graph (order ++ [node]).
Proof.
  intros (Hn & Hd & Hb) (Hdom & Hno & Hdep). split; [| split].
  - apply NoDup_app. split; [done | split; [| apply NoDup_singleton]]. by intros x Hx ->%list_elem_of_singleton.
  - intros x [Hx | ->%list_elem_of_singleton]%elem_of_app; auto.
  - intros before m after E dependency Hm.
    destruct (decide (after = [])) as [-> | Ha].
    + apply app_inj_tail in E as [<- <-]. auto.
    + destruct (exists_last Ha) as (after' & x & ->).
      rewrite app_comm_cons, app_assoc in E. apply app_inj_tail in E as [E _]. eauto.
Qed.

Lemma topological_placed graph order : topological graph order -> placed graph order.
Proof. intros [H1 H2 H3]. split; [done | split; [| done]]. intros n. apply H2. Qed.

(** What a topological order places next is ready. *)
Lemma topological_next graph order node rest :
  topological graph (order ++ node :: rest) -> ready_after graph order node.
Proof.
  intros [Hn Ha Hb]. split; [| split].
  - apply Ha, elem_of_app. right. by left.
  - apply NoDup_app in Hn as (_ & Hn & _). intros H. apply (Hn _ H). by left.
  - by apply (Hb order node rest).
Qed.

Lemma greedy_least graph order rest rest' :
  greedy graph order rest -> topological graph (order ++ rest') -> lex_le rest rest'.
Proof.
  intros H. revert rest'. induction H as [order Hs | order node rest Hr Hm H IH]; intros rest' Ht; [done |].
  destruct rest' as [| node' rest'].
  - rewrite app_nil_r in Ht. destruct Hr as (Hd & Hn & _). by apply Hn, (to_all _ _ Ht).
  - pose proof (topological_next _ _ _ _ Ht) as Hr'. cbn. destruct (decide (node = node')) as [<- | Hne].
    + right. split; [done |]. apply IH. by rewrite <- app_assoc.
    + left. auto.
Qed.

(** A greedy order is topological when it is complete, and when it is not, there
    is no topological order. *)
Lemma greedy_placed graph order rest : greedy graph order rest -> placed graph order -> placed graph (order ++ rest).
Proof.
  induction 1 as [order Hs | order node rest Hr Hm H IH]; intros Hp; [by rewrite app_nil_r |].
  rewrite (cons_middle node order rest), app_assoc. by apply IH, placed_snoc.
Qed.

Lemma greedy_stuck graph order rest : greedy graph order rest -> forall node, ~ ready_after graph (order ++ rest) node.
Proof.
  induction 1 as [order Hs | order node rest Hr Hm H IH]; [by rewrite app_nil_r |].
  by rewrite (cons_middle node order rest), app_assoc.
Qed.

Lemma greedy_complete graph order o : 
  greedy graph [] order -> topological graph o -> forall node, node ∈ dom graph -> node ∈ order.
Proof.
  intros Hg Ht node Hnode. pose proof (greedy_stuck _ _ _ Hg) as Hs. cbn in Hs.
  rewrite <- (to_all _ _ Ht) in Hnode. clear Hg.
  assert (forall l2 l1, o = l1 ++ l2 -> (forall x, x ∈ l1 -> x ∈ order) -> forall x, x ∈ l2 -> x ∈ order) as H.
  { induction l2 as [| x l2 IH]; intros l1 E H1; [by intros ? ?%elem_of_nil |].
    assert (x ∈ order) as Hx.
    { destruct (decide (x ∈ order)) as [| Hx]; [done |]. destruct (Hs x). rewrite E in Ht.
      apply topological_next in Ht as (Hd & _ & Hdep). split; [done | split; [done |]]. auto. }
    intros y [-> | Hy]%elem_of_cons; [done |]. apply (IH (l1 ++ [x])); [by rewrite <- app_assoc | | done].
    intros z [Hz | ->%list_elem_of_singleton]%elem_of_app; auto. }
  apply (H o []); [done | by intros ? ?%elem_of_nil | done].
Qed.

(** ** The counts *)

Definition dependencies (graph : Graph) (node : string) : list string := default [] (graph !! node).
Fixpoint occurrences (x : string) (l : list string) : nat :=
  match l with [] => 0 | y :: l => (if decide (y = x) then 1 else 0) + occurrences x l end.
Definition waiting (graph : Graph) (order : list string) (node : string) : nat :=
  length (filter (fun d => d ∉ order) (dependencies graph node)).

Lemma occurrences_pos x l : 0 < occurrences x l <-> x ∈ l.
Proof.
  induction l as [| y l IH]; cbn; [rewrite elem_of_nil; lia |]. rewrite elem_of_cons, <- IH.
  destruct (decide (y = x)) as [-> | Hn]; [split; auto with lia |]. split; [auto | intros [-> |]; [done | lia]].
Qed.

Lemma occurrences_app x l l' : occurrences x (l ++ l') = occurrences x l + occurrences x l'.
Proof. induction l as [| y l IH]; cbn; [done | lia]. Qed.

Lemma dependencies_dom graph node d : d ∈ dependencies graph node -> node ∈ dom graph.
Proof. unfold dependencies. intros H. apply elem_of_dom. destruct (graph !! node); [by eexists | inversion H]. Qed.

Lemma waiting_zero graph order node :
  waiting graph order node = 0 <-> forall d, depends graph node d -> d ∈ order.
Proof.
  unfold waiting, depends. fold (dependencies graph node). rewrite length_zero_iff_nil. split.
  - intros H d Hd. destruct (decide (d ∈ order)) as [| Hn]; [done |].
    assert (d ∈ filter (fun d => d ∉ order) (dependencies graph node)) as Hin by by apply list_elem_of_filter.
    rewrite H in Hin. by apply elem_of_nil in Hin.
  - intros H. apply elem_of_nil_inv. intros d [Hn Hd]%list_elem_of_filter. auto.
Qed.

Lemma waiting_snoc graph order node n :
  node ∉ order -> waiting graph (order ++ [node]) n + occurrences node (dependencies graph n) = waiting graph order n.
Proof.
  intros Hn. unfold waiting. induction (dependencies graph n) as [| d l IH]; [done |].
  rewrite !filter_cons. cbn [occurrences]. destruct (decide (d = node)) as [-> | Hd].
  - rewrite decide_False by (intros H; apply H, elem_of_app; right; by left). rewrite decide_True by done. cbn. lia.
  - destruct (decide (d ∉ order)) as [H | H].
    + rewrite decide_True; [cbn; lia |]. intros [? | ->%list_elem_of_singleton]%elem_of_app; done.
    + rewrite decide_False; [lia |]. intros H'. apply H. contradict H'. apply elem_of_app. by left.
Qed.

(** The counts after the range over [nodes]. *)
Record counted (graph : Graph) (nodes : list string) (c : Counts) : Prop := {
  ct_degree : forall n, degree c n = if decide (n ∈ nodes) then Z.of_nat (length (dependencies graph n)) else 0%Z;
  ct_dependents : forall n d,
    occurrences n (dependents_of c d) = if decide (n ∈ nodes) then occurrences d (dependencies graph n) else 0;
}.

Lemma count_node_step node (l : list string) c :
  (degree (fold_left (add_edge node) l c) node = degree c node + Z.of_nat (length l))%Z
  /\ (forall n, n <> node -> degree (fold_left (add_edge node) l c) n = degree c n)
  /\ (forall n d, occurrences n (dependents_of (fold_left (add_edge node) l c) d)
                  = occurrences n (dependents_of c d) + (if decide (n = node) then occurrences d l else 0))
  /\ (node ∈ dom (indegree c) -> dom (indegree (fold_left (add_edge node) l c)) = dom (indegree c)).
Proof.
  revert c. induction l as [| x l IH]; intros c; cbn [fold_left].
  { split; [cbn; lia |]. split; [done |]. split; [| done]. intros n d. cbn. destruct (decide _); lia. }
  destruct (IH (add_edge node c x)) as (H1 & H2 & H3 & H4).
  split; [| split; [| split]].
  - rewrite H1. unfold degree at 1, add_edge. cbn [indegree]. rewrite lookup_insert_eq. cbn [default length from_option id]. lia.
  - intros n Hn. rewrite H2 by done. unfold degree, add_edge. cbn. by rewrite lookup_insert_ne.
  - intros n d. rewrite H3. unfold dependents_of at 1, add_edge. cbn [dependents].
    destruct (decide (x = d)) as [-> | Hx].
    + rewrite lookup_insert_eq. cbn [default from_option id]. rewrite occurrences_app. cbn [occurrences].
      rewrite (decide_True (P := d = d)) by done.
      destruct (decide (node = n)), (decide (n = node)); subst; done || lia.
    + rewrite lookup_insert_ne by done. fold (dependents_of c d). cbn [occurrences].
      by rewrite (decide_False (P := x = d)).
  - intros Hd. assert (node ∈ dom (indegree (add_edge node c x))) as Hd' by (cbn; set_solver).
    rewrite H4 by done. cbn. set_solver.
Qed.

Lemma count_nodes_counted graph nodes done_ c :
  NoDup (done_ ++ nodes) -> counted graph done_ c -> dom (indegree c) = dom graph ->
  (forall node, node ∈ nodes -> node ∈ dom graph) ->
  counted graph (done_ ++ nodes) (fold_left (count_node graph) nodes c)
  /\ dom (indegree (fold_left (count_node graph) nodes c)) = dom graph.
Proof.
  revert done_ c. induction nodes as [| node nodes IH]; intros done_ c Hn [Hc Hd] Hdom Hin; [by rewrite app_nil_r |].
  cbn [fold_left]. rewrite (cons_middle node done_ nodes), app_assoc in Hn |- *. 
  destruct (count_node_step node (dependencies graph node) c) as (H1 & H2 & H3 & H4).
  assert (node ∉ done_) as Hno.
  { apply NoDup_app in Hn as (Hn & _). apply NoDup_app in Hn as (_ & Hn & _). intros H. apply (Hn _ H). by left. }
  apply IH; [done | | | by intros; apply Hin; right].
  2:{ unfold count_node. fold (dependencies graph node). rewrite H4; [done |]. rewrite Hdom. apply Hin. by left. }
  split; unfold count_node; fold (dependencies graph node).
  - intros n. destruct (decide (n = node)) as [-> | Hne].
    + rewrite H1, Hc, decide_False by done. rewrite decide_True; [lia |]. apply elem_of_app. right. by left.
    + rewrite H2, Hc by done. apply decide_ext. rewrite elem_of_app, list_elem_of_singleton. tauto.
  - intros n d. rewrite H3, Hd. destruct (decide (n = node)) as [-> | Hne].
    + rewrite decide_False by done. rewrite decide_True; [lia |]. apply elem_of_app. right. by left.
    + rewrite Nat.add_0_r. apply decide_ext. rewrite elem_of_app, list_elem_of_singleton. tauto.
Qed.

Lemma zero_degrees (nodes : list string) c :
  let c' := fold_left (fun c node => set_degree node 0 c) nodes c in
  (forall n, degree c' n = if decide (n ∈ nodes) then 0%Z else degree c n)
  /\ dependents c' = dependents c /\ dom (indegree c') = dom (indegree c) ∪ list_to_set nodes.
Proof.
  revert c. induction nodes as [| node nodes IH]; intros c; cbn.
  { split; [done | split; [done |]]. set_solver. }
  destruct (IH (set_degree node 0 c)) as (H1 & H2 & H3). split; [| split].
  - intros n. rewrite H1. destruct (decide (n ∈ nodes)) as [Hn | Hn].
    + rewrite decide_True; [done |]. by right.
    + unfold degree, set_degree. cbn. destruct (decide (node = n)) as [-> | Hne].
      * rewrite lookup_insert_eq, decide_True; [done |]. by left.
      * rewrite lookup_insert_ne, decide_False; [done | | done]. rewrite elem_of_cons. naive_solver.
  - done.
  - rewrite H3. unfold set_degree. cbn. rewrite dom_insert_L. set_solver.
Qed.

Lemma count_edges_counted range graph :
  is_range range ->
  dom (indegree (count_edges range graph)) = dom graph
  /\ (forall n, degree (count_edges range graph) n = Z.of_nat (waiting graph [] n))
  /\ (forall n d, occurrences n (dependents_of (count_edges range graph) d) = occurrences d (dependencies graph n)).
Proof.
  intros Hrange. unfold count_edges. set (nodes := elements (dom graph)).
  destruct (zero_degrees (range 0 nodes) {| indegree := ∅; dependents := ∅ |}) as (H1 & H2 & H3).
  set (c := fold_left _ (range 0 nodes) _) in *.
  assert (forall n, n ∈ range 1 nodes <-> n ∈ dom graph) as Hin.
  { intros n. rewrite (Hrange 1 nodes). apply elem_of_elements. }
  assert (forall n, n ∉ dom graph -> dependencies graph n = []) as Hout.
  { intros n Hn. unfold dependencies. by rewrite (proj1 (not_elem_of_dom graph n) Hn). }
  destruct (count_nodes_counted graph (range 1 nodes) [] c) as [[Hd Ho] Hdom].
  - cbn. rewrite (Hrange 1 nodes). apply NoDup_elements.
  - split; intros n; [| intros d; unfold dependents_of; by rewrite H2].
    rewrite H1. by destruct (decide (n ∈ range 0 nodes)).
  - rewrite H3. cbn. rewrite dom_empty_L, (left_id_L ∅ _). apply set_eq. intros n.
    rewrite elem_of_list_to_set, (Hrange 0 nodes). apply elem_of_elements.
  - intros n. apply Hin.
  - cbn in *. split; [done | split].
    + intros n. rewrite Hd. unfold waiting.
      assert (filter (fun d => d ∉ []) (dependencies graph n) = dependencies graph n) as ->.
      { induction (dependencies graph n); [done |]. rewrite filter_cons_True; [by f_equal | by intros ?%elem_of_nil]. }
      destruct (decide _) as [| Hn]; [done |]. rewrite Hin in Hn. by rewrite Hout.
    + intros n d. rewrite Ho. destruct (decide _) as [| Hn]; [done |]. rewrite Hin in Hn. by rewrite Hout.
Qed.

(** ** The loop *)

Section placing.
Context (graph : Graph).

(** What the loop keeps: the counts are those of the components that wait, and
    the list of ready components is the sorted list of them. *)
Record loop_inv (ready order : list string) (c : Counts) : Prop := {
  li_placed : placed graph order;
  li_degree : forall n, degree c n = Z.of_nat (waiting graph order n);
  li_dependents : forall n d, occurrences n (dependents_of c d) = occurrences d (dependencies graph n);
  li_ready : forall n, n ∈ ready <-> ready_after graph order n;
  li_NoDup : NoDup ready;
  li_sorted : StronglySorted (by_key id) ready;
}.

Lemma sort_by_id_spec (l : list string) : StronglySorted (by_key id) (sort_by id l) /\ sort_by id l ≡ₚ l.
Proof. split; [apply (StronglySorted_merge_sort (by_key id)) | apply sort_by_Permutation]. Qed.

(** The release of the dependents of a placed component, partly done. *)
Lemma release_spec (ready0 : list string) (c0 : Counts) (todo gone : list string) ready c :
  (forall n, (Z.of_nat (occurrences n (gone ++ todo)) <= degree c0 n)%Z) ->
  (forall n, n ∈ ready0 -> degree c0 n = 0%Z) ->
  (forall n, degree c n = (degree c0 n - Z.of_nat (occurrences n gone))%Z) ->
  dependents c = dependents c0 ->
  (forall n, n ∈ ready <-> n ∈ ready0 \/ (n ∈ gone /\ degree c n = 0%Z)) ->
  NoDup ready -> StronglySorted (by_key id) ready ->
  let st := fold_left release todo (ready, c) in
  (forall n, degree st.2 n = (degree c0 n - Z.of_nat (occurrences n (gone ++ todo)))%Z)
  /\ dependents st.2 = dependents c0
  /\ (forall n, n ∈ st.1 <-> n ∈ ready0 \/ (n ∈ gone ++ todo /\ degree st.2 n = 0%Z))
  /\ NoDup st.1 /\ StronglySorted (by_key id) st.1.
Proof.
  revert gone ready c. induction todo as [| x todo IH]; intros gone ready c Hle H0 Hd Hdep Hr Hn Hs.
  { cbn. rewrite app_nil_r in *. done. }
  cbn [fold_left release]. rewrite (cons_middle x gone todo), app_assoc in Hle |- *.
  set (d := (degree c x - 1)%Z).
  assert (Hx : d = (degree c0 x - Z.of_nat (occurrences x (gone ++ [x])))%Z).
  { subst d. rewrite Hd, occurrences_app. cbn. rewrite decide_True by done. lia. }
  assert (Hx0 : (0 <= d)%Z).
  { specialize (Hle x). rewrite occurrences_app in Hle. lia. }
  assert (Hdx : forall n, degree (set_degree x d c) n = if decide (x = n) then d else degree c n).
  { intros n. unfold degree, set_degree. cbn. destruct (decide (x = n)) as [-> |];
      [by rewrite lookup_insert_eq | by rewrite lookup_insert_ne]. }
  assert (Hnew : x ∉ ready).
  { rewrite Hr. intros [H | [_ H]].
    - apply H0 in H. specialize (Hle x). rewrite occurrences_app in Hle. 
      assert (0 < occurrences x (gone ++ [x])) by (rewrite occurrences_pos; apply elem_of_app; right; by left). lia.
    - unfold d in Hx0. lia. }
  apply IH; try done.
  - intros n. rewrite Hdx, occurrences_app. cbn. destruct (decide (x = n)) as [<- | Hne]; [| rewrite Hd; lia].
    rewrite Hx, occurrences_app. cbn. rewrite decide_True by done. lia.
  - intros n. rewrite Hdx. destruct (Z.eqb_spec d 0) as [Hz | Hz]; destruct (decide (x = n)) as [<- | Hne].
    + rewrite (proj2 (sort_by_id_spec _)). set_solver.
    + rewrite (proj2 (sort_by_id_spec _)), elem_of_app, Hr. set_solver.
    + set_solver.
    + rewrite Hr. set_solver.
  - destruct (Z.eqb_spec d 0); [| done]. rewrite (proj2 (sort_by_id_spec _)). apply NoDup_app.
    split; [done | split; [| apply NoDup_singleton]]. by intros y Hy ->%list_elem_of_singleton.
  - destruct (Z.eqb_spec d 0); [apply sort_by_id_spec | done].
Qed.

Lemma loop_inv_step node ready order c :
  loop_inv (node :: ready) order c ->
  let st := fold_left release (dependents_of c node) (ready, c) in
  loop_inv st.1 (order ++ [node]) st.2.
Proof.
  intros [Hp Hdeg Hdep Hr Hn Hs].
  assert (Hnode : ready_after graph order node) by (apply Hr; by left).
  destruct Hnode as (Hdom & Hno & Hall).
  assert (Hocc : forall n, (Z.of_nat (occurrences n (dependents_of c node)) <= degree c n)%Z).
  { intros n. rewrite Hdeg, Hdep. pose proof (waiting_snoc graph order node n Hno). lia. }
  apply NoDup_cons in Hn as [Hnr Hn]. apply StronglySorted_inv in Hs as [Hs Hmin].
  destruct (release_spec ready c (dependents_of c node) [] ready c) as (H1 & H2 & H3 & H4 & H5); try done.
  - intros n Hin. rewrite Hdeg. apply (inj_iff Z.of_nat _ 0), waiting_zero.
    assert (n ∈ node :: ready) as Hin' by by right. by apply Hr in Hin' as (_ & _ & ?).
  - intros n. cbn. lia.
  - intros n. split; [by left | intros [? | [Hg%elem_of_nil _]]; done].
  - set (st := fold_left release _ _) in *. cbn in H1, H3.
    assert (Hw : forall n, degree st.2 n = Z.of_nat (waiting graph (order ++ [node]) n)).
    { intros n. rewrite H1, Hdeg, Hdep. pose proof (waiting_snoc graph order node n Hno). lia. }
    split; try done.
    + apply placed_snoc; [done |]. by split.
    + intros n d. unfold dependents_of. rewrite H2. apply Hdep.
    + intros n. rewrite H3, Hw. clear H1 H2 H3 H4 H5.
      assert (Hocc' : n ∈ dependents_of c node <-> depends graph n node).
      { rewrite <- !occurrences_pos, Hdep. apply occurrences_pos. }
      rewrite Hocc'. change 0%Z with (Z.of_nat 0). rewrite (inj_iff Z.of_nat), waiting_zero.
      unfold ready_after. split.
      * intros [Hin | [Hdn Hready]].
        -- assert (n ∈ node :: ready) as (Ha & Hb & Hc)%Hr by by right. split; [done | split].
           ++ intros [? | ->%list_elem_of_singleton]%elem_of_app; done.
           ++ intros d Hd. apply elem_of_app. auto.
        -- split; [by eapply dependencies_dom | split; [| done]].
           intros [Hin | ->%list_elem_of_singleton]%elem_of_app; [| by apply Hno, Hall].
           destruct Hp as (_ & _ & Hb). apply list_elem_of_split in Hin as (l1 & l2 & E).
           apply Hno. rewrite E. apply elem_of_app. left. by eapply Hb.
      * intros (Ha & Hb & Hc). destruct (decide (depends graph n node)) as [Hd | Hd]; [by right | left].
        assert (n ∈ node :: ready) as [-> | ?]%elem_of_cons; [| | done].
        -- apply Hr. split; [done | split].
           ++ intros Hin. apply Hb, elem_of_app. by left.
           ++ intros d Hdd. specialize (Hc d Hdd). apply elem_of_app in Hc as [? | ->%list_elem_of_singleton]; done.
        -- destruct Hb. apply elem_of_app. right. by left.
Qed.

Lemma placed_length order : placed graph order -> length order <= size graph.
Proof.
  intros (Hn & Hd & _). rewrite <- size_dom, <- (size_list_to_set (C := gset string) order Hn).
  apply subseteq_size. intros n. rewrite elem_of_list_to_set. auto.
Qed.

Lemma place_greedy fuel ready order c :
  loop_inv ready order c -> size graph < length order + fuel ->
  exists rest, place fuel ready order c = Some (order ++ rest) /\ greedy graph order rest.
Proof.
  revert ready order c. induction fuel as [| fuel IH]; intros ready order c H Hf.
  { pose proof (placed_length order (li_placed _ _ _ H)). lia. }
  destruct ready as [| node ready]; cbn [place].
  { exists []. rewrite app_nil_r. split; [done |]. apply greedy_stop. intros n Hn.
    apply (li_ready _ _ _ H) in Hn. by apply elem_of_nil in Hn. }
  pose proof (loop_inv_step _ _ _ _ H) as Hnext. cbn in Hnext.
  destruct (fold_left release (dependents_of c node) (ready, c)) as [ready' c'].
  destruct (IH _ _ _ Hnext) as (rest & E & Hg); [rewrite length_app; cbn; lia |].
  exists (node :: rest). cbn [fst snd] in E. rewrite E. split; [by rewrite (cons_middle node order rest), app_assoc |].
  apply greedy_pick; [| | done].
  - apply (li_ready _ _ _ H). by left.
  - intros m Hm. apply (li_ready _ _ _ H) in Hm. apply elem_of_cons in Hm as [-> | Hm]; [done |].
    pose proof (li_sorted _ _ _ H) as [_ Hs]%StronglySorted_inv. rewrite Forall_forall in Hs. by apply Hs.
Qed.
End placing.

(** ** The order that is returned *)

Definition least_topological (graph : Graph) (order : list string) : Prop :=
  topological graph order /\ forall other, topological graph other -> lex_le order other.

Lemma topological_length graph o : topological graph o -> length o = size graph.
Proof.
  intros [Hn Ha _]. rewrite <- size_dom, <- (size_list_to_set (C := gset string) o Hn). f_equal.
  apply set_eq. intros n. rewrite elem_of_list_to_set. apply Ha.
Qed.

Lemma least_topological_unique graph o o' : least_topological graph o -> least_topological graph o' -> o = o'.
Proof.
  intros [H1 H2] [H1' H2']. apply lex_le_antisym; auto. by rewrite (topological_length _ _ H1), (topological_length _ _ H1').
Qed.

Lemma greedy_topological graph order :
  greedy graph [] order -> length order = size graph -> topological graph order.
Proof.
  intros Hg Hl. destruct (greedy_placed _ _ _ Hg (placed_nil graph)) as (Hn & Hd & Hb). cbn in *.
  split; [done | | done].
  assert (list_to_set order = dom graph) as E.
  { apply set_subseteq_size_eq; [intros n; rewrite elem_of_list_to_set; auto |].
    rewrite size_dom, size_list_to_set by done. lia. }
  intros n. by rewrite <- E, elem_of_list_to_set.
Qed.

Lemma stable_order_cases range graph :
  is_range range ->
  exists order, greedy graph [] order
    /\ stableTopologicalOrderV2 range graph
       = (guard (negb (Nat.eqb (length order) (size graph))) ErrorPreconditionFailed ReasonDependencyCycle ;; Ok order).
Proof.
  intros Hrange. unfold stableTopologicalOrderV2. set (c := count_edges range graph). cbv zeta.
  destruct (count_edges_counted range graph Hrange) as (Hdom & Hdeg & Hdep). fold c in Hdom, Hdeg, Hdep.
  set (ready := sort_by id _).
  destruct (place_greedy graph (S (size graph)) ready [] c) as (order & E & Hg); [| cbn; lia |].
  - split; [apply placed_nil | done | done | | |].
    + intros n. unfold ready. rewrite (proj2 (sort_by_id_spec _)), list_elem_of_filter, (Hrange 2 _), elem_of_elements, Hdom, Hdeg.
      change 0%Z with (Z.of_nat 0). rewrite (inj_iff Z.of_nat), waiting_zero. unfold ready_after.
      split; [intros [? ?]; split; [done | split; [by intros ?%elem_of_nil | done]] | tauto].
    + unfold ready. rewrite (proj2 (sort_by_id_spec _)). apply NoDup_filter. rewrite (Hrange 2 _). apply NoDup_elements.
    + apply sort_by_id_spec.
  - exists order. split; [done |]. by rewrite E.
Qed.

(** An incomplete run leaves a cycle behind. *)
Lemma greedy_incomplete graph order other :
  greedy graph [] order -> length order <> size graph -> ~ topological graph other.
Proof.
  intros Hg Hl Ho. apply Hl. rewrite <- (topological_length _ _ Ho).
  destruct (greedy_placed _ _ _ Hg (placed_nil graph)) as (Hn & Hd & _). cbn in *.
  apply Permutation_length, NoDup_Permutation; [done | apply Ho |]. intros n. rewrite (to_all _ _ Ho).
  split; [auto | by apply (greedy_complete graph order other)].
Qed.

Lemma stable_order_least range graph order :
  is_range range -> stableTopologicalOrderV2 range graph = Ok order <-> least_topological graph order.
Proof.
  intros Hrange. destruct (stable_order_cases range graph Hrange) as (o & Hg & ->).
  destruct (Nat.eqb_spec (length o) (size graph)) as [Hl | Hl]; cbn.
  - assert (least_topological graph o) as Hleast.
    { split; [by apply greedy_topological |]. intros other Ho. by apply (greedy_least graph [] o other Hg). }
    split; [by intros [= <-] |]. intros Ho. f_equal. by apply (least_topological_unique graph).
  - split; [done |]. intros [Ho _]. by destruct (greedy_incomplete _ _ order Hg Hl).
Qed.

(** C31: the members of a binding set are listed in the least topological order.
    For every order in which Go may range over its maps, the algorithm ends: it
    returns the lexicographically least list of all components with each behind
    what it depends on, or it reports a cycle exactly when there is no such list
    (components missing from the graph included).  So the result does not depend
    on the iteration order. *)
Theorem stableTopologicalOrderV2_least (range : Range) (graph : Graph) (Hrange : is_range range) :
  (forall order, stableTopologicalOrderV2 range graph = Ok order <-> least_topological graph order)
  /\ (stableTopologicalOrderV2 range graph = fail ErrorPreconditionFailed ReasonDependencyCycle
      <-> forall order, ~ topological graph order).
Proof.
  split; [intros order; by apply stable_order_least |].
  destruct (stable_order_cases range graph Hrange) as (order & Hg & ->).
  destruct (Nat.eqb_spec (length order) (size graph)) as [Hl | Hl]; cbn.
  - split; [done |]. intros H. by destruct (H order (greedy_topological _ _ Hg Hl)).
  - split; [intros _ o; by apply (greedy_incomplete _ _ o Hg) | done].
Qed.

(** A diamond, where the second and third component are ready at once. *)
Definition tx_graph : Graph :=
  <["praxis/a" := ["praxis/c"; "praxis/b"]]> (<["praxis/b" := ["praxis/d"]]>
    (<["praxis/c" := ["praxis/d"]]> (<["praxis/d" := []]> ∅))).

Lemma stableTopologicalOrderV2_least_witness :
  is_range (fun _ l => reverse l)
  /\ least_topological tx_graph ["praxis/d"; "praxis/b"; "praxis/c"; "praxis/a"].
Proof.
  assert (is_range (fun _ l => reverse l)) as Hr by (intros i l; apply reverse_Permutation).
  split; [exact Hr |]. apply (stableTopologicalOrderV2_least (fun _ l => reverse l) tx_graph Hr).
  vm_compute. reflexivity.
Defined.

Example two_cycle :
  stableTopologicalOrderV2 (fun _ l => l) (<["praxis/a" := ["praxis/b"]]> (<["praxis/b" := ["praxis/a"]]> ∅))
  = fail ErrorPreconditionFailed ReasonDependencyCycle.
Proof. reflexivity. Qed.
