(* ===== verification/Evidence.v ===== *)
(** * ports/evidence_v2.go: evidence, its sources and its ledger records

    The data of the evidence ledger: ledger scopes, source registrations and the
    policies that admit them, event candidates, chained records and tombstones,
    with their validation and their digests. *)

From S2P Require Import Prelude GoStd Errors Identity RunFact Json Canonical Payload EffectContract.
From Stdlib Require Import Ascii.

Local Open Scope N_scope.

Definition EvidenceContractVersionV2 : string := "2.0.0".
Definition MaxEvidenceCausationRefs : N := 64.
Definition MaxEvidencePageSize : N := 256.
Definition MaxEvidenceDeclaredBytes : N := 67108864.

Definition evidence_domain : string := "praxis.runtime.evidence".
Definition evidence_digest : string -> json -> result Digest := document_digest evidence_domain EvidenceContractVersionV2.

(** ** Names *)

Inductive EvidenceTrustClassV2 :=
| EvidenceTrustObservation | EvidenceTrustReceipt | EvidenceTrustAttestation | EvidenceTrustClaim
| EvidenceTrustAuthoritativeFact | EvidenceTrustLateObservation | EvidenceTrustOther (raw : string).
#[export] Instance EvidenceTrustClassV2_eq_dec : EqDecision EvidenceTrustClassV2.
Proof. solve_decision. Defined.
Definition EvidenceTrustClassV2_string (t : EvidenceTrustClassV2) : string :=
  match t with
  | EvidenceTrustObservation => "observation" | EvidenceTrustReceipt => "receipt"
  | EvidenceTrustAttestation => "attestation" | EvidenceTrustClaim => "claim"
  | EvidenceTrustAuthoritativeFact => "authoritative_fact" | EvidenceTrustLateObservation => "late_observation"
  | EvidenceTrustOther raw => raw
  end.

Inductive EvidencePartitionV2 :=
| EvidencePartitionTenant | EvidencePartitionIdentity | EvidencePartitionLineage | EvidencePartitionInstance
| EvidencePartitionRun | EvidencePartitionEffect | EvidencePartitionOther (raw : string).
#[export] Instance EvidencePartitionV2_eq_dec : EqDecision EvidencePartitionV2.
Proof. solve_decision. Defined.
Definition EvidencePartitionV2_string (p : EvidencePartitionV2) : string :=
  match p with
  | EvidencePartitionTenant => "tenant" | EvidencePartitionIdentity => "identity"
  | EvidencePartitionLineage => "lineage" | EvidencePartitionInstance => "instance"
  | EvidencePartitionRun => "run" | EvidencePartitionEffect => "effect" | EvidencePartitionOther raw => raw
  end.

Inductive EvidenceSourceStateV2 :=
| EvidenceSourceActive | EvidenceSourceRevoked | EvidenceSourceExpired | EvidenceSourceStateOther (raw : string).
#[export] Instance EvidenceSourceStateV2_eq_dec : EqDecision EvidenceSourceStateV2.
Proof. solve_decision. Defined.
Definition EvidenceSourceStateV2_string (s : EvidenceSourceStateV2) : string :=
  match s with
  | EvidenceSourceActive => "active" | EvidenceSourceRevoked => "revoked" | EvidenceSourceExpired => "expired"
  | EvidenceSourceStateOther raw => raw
  end.

Definition RunCompletionClaimKind_string (k : RunCompletionClaimKind) : string :=
  match k with
  | RunClaimCompleted => "completed" | RunClaimCancelled => "cancelled" | RunClaimFailed => "failed"
  | RunClaimIndeterminate => "indeterminate" | RunClaimOther raw => raw
  end.

(** EvidenceGapPolicyV2 has one constant. *)
Definition EvidenceGapStrictV2 : string := "strict".

Definition evidence_id_byte (c : ascii) : bool := (33 <=? N_of_ascii c) && (N_of_ascii c <=? 126).
Definition validateEvidenceIDV2 (value : string) : result unit :=
  guard (negb (bool_decide (TrimSpace value = value)) || N.eqb (str_len value) 0 || (256 <? str_len value))
    ErrorInvalidArgument ReasonInvalidReference ;;
  for_each (fun character => guard (negb (evidence_id_byte character)) ErrorInvalidArgument ReasonInvalidReference)
    (bytes value).

Definition EvidenceTimeCurrentV2 (expires : Z) (now : Time) : bool :=
  negb (IsZero now) && Before now (UnixTime expires).

Definition validateEvidenceTrustV2 (value : EvidenceTrustClassV2) : result unit :=
  match value with
  | EvidenceTrustOther _ => fail ErrorForbidden ReasonEvidenceTrustInvalid
  | _ => Ok tt
  end.

Definition validEvidenceClaimKindV2 (kind : RunCompletionClaimKind) : bool := validRunCompletionClaimKind kind.

(** The loops over sorted sets: each element is checked by [check], and its key
    lies above the key before it. *)
Fixpoint visit_ascending {A} (check : A -> result unit) (key : A -> string) (previous : option string) (values : list A)
  : result unit :=
  match values with
  | [] => Ok tt
  | value :: rest =>
      check value ;;
      guard (match previous with Some p => negb (str_lt p (key value)) | None => false end)
        ErrorInvalidArgument ReasonInvalidCanonicalForm ;;
      visit_ascending check key (Some (key value)) rest
  end.

(** Parts joined by a zero byte. *)
Fixpoint nul_joined (parts : list string) : string :=
  match parts with
  | [] => ""
  | [last] => last
  | part :: rest => part +:+ String Ascii.zero (nul_joined rest)
  end.

(** ** References *)

Record EvidenceRecordRefV2 := {
  er_LedgerScopeDigest : Digest;
  er_Sequence : N;
  er_RecordDigest : Digest;
}.
#[export] Instance EvidenceRecordRefV2_eq_dec : EqDecision EvidenceRecordRefV2.
Proof. solve_decision. Defined.

Definition EvidenceRecordRefV2_Validate (r : EvidenceRecordRefV2) : result unit :=
  guard (negb (is_ok (Digest_Validate (er_LedgerScopeDigest r))) || negb (is_ok (Digest_Validate (er_RecordDigest r)))
         || N.eqb (er_Sequence r) 0) ErrorInvalidArgument ReasonInvalidReference.

(** The struct converts to ProviderBindingRefV2. *)
Definition EvidenceProducerBindingRefV2 : Type := ProviderBindingRefV2.
Definition EvidenceProducerBindingRefV2_Validate (r : EvidenceProducerBindingRefV2) : result unit :=
  ProviderBindingRefV2_Validate r.

Record EvidenceSourceKeyV2 := { sk_RegistrationID : string; sk_SourceEpoch : N; sk_SourceSequence : N }.
#[export] Instance EvidenceSourceKeyV2_eq_dec : EqDecision EvidenceSourceKeyV2.
Proof. solve_decision. Defined.
Definition EvidenceSourceKeyV2_Validate (k : EvidenceSourceKeyV2) : result unit :=
  guard (negb (is_ok (validateEvidenceIDV2 (sk_RegistrationID k))) || N.eqb (sk_SourceEpoch k) 0
         || N.eqb (sk_SourceSequence k) 0) ErrorInvalidArgument ReasonEvidenceSourceMissing.

Record EvidenceSourcePolicyBindingRefV2 := { sp_Ref : string; sp_Digest : Digest; sp_Revision : N }.
#[export] Instance EvidenceSourcePolicyBindingRefV2_eq_dec : EqDecision EvidenceSourcePolicyBindingRefV2.
Proof. solve_decision. Defined.
Definition EvidenceSourcePolicyBindingRefV2_Validate (r : EvidenceSourcePolicyBindingRefV2) : result unit :=
  guard (negb (is_ok (validateEvidenceIDV2 (sp_Ref r))) || N.eqb (sp_Revision r) 0)
    ErrorInvalidArgument ReasonInvalidReference ;;
  Digest_Validate (sp_Digest r).

Record EvidenceOwnerFactRefV2 := {
  of_Owner : EvidenceProducerBindingRefV2;
  of_FactKind : string;
  of_FactID : string;
  of_Revision : N;
  of_FactDigest : Digest;
  of_PayloadSchema : SchemaRefV2;
  of_PayloadDigest : Digest;
  of_PayloadRevision : N;
}.
#[export] Instance EvidenceOwnerFactRefV2_eq_dec : EqDecision EvidenceOwnerFactRefV2.
Proof. solve_decision. Defined.
Definition EvidenceOwnerFactRefV2_Validate (r : EvidenceOwnerFactRefV2) : result unit :=
  EvidenceProducerBindingRefV2_Validate (of_Owner r) ;;
  ValidateNamespacedNameV2 (of_FactKind r) ;;
  guard (blank (of_FactID r) || (256 <? str_len (of_FactID r)) || N.eqb (of_Revision r) 0)
    ErrorInvalidArgument ReasonInvalidReference ;;
  Digest_Validate (of_FactDigest r) ;;
  SchemaRefV2_Validate (of_PayloadSchema r) ;;
  Digest_Validate (of_PayloadDigest r) ;;
  guard (N.eqb (of_PayloadRevision r) 0) ErrorInvalidArgument ReasonInvalidReference.

Record EvidenceCausationRefV2 := { ca_LedgerScopeDigest : Digest; ca_EventID : string }.
#[export] Instance EvidenceCausationRefV2_eq_dec : EqDecision EvidenceCausationRefV2.
Proof. solve_decision. Defined.

Definition causation_key (c : EvidenceCausationRefV2) : string := nul_joined [ca_LedgerScopeDigest c; ca_EventID c].
Definition validate_causation : list EvidenceCausationRefV2 -> result unit :=
  visit_ascending
    (fun ref => guard (negb (is_ok (Digest_Validate (ca_LedgerScopeDigest ref)))
                       || negb (is_ok (validateEvidenceIDV2 (ca_EventID ref)))) ErrorInvalidArgument ReasonInvalidReference)
    causation_key None.

Record EvidencePayloadRefV2 := {
  pl_Schema : SchemaRefV2;
  pl_ContentDigest : Digest;
  pl_Revision : N;
  pl_Length : N;
  pl_Ref : string;
}.
#[export] Instance EvidencePayloadRefV2_eq_dec : EqDecision EvidencePayloadRefV2.
Proof. solve_decision. Defined.
Definition EvidencePayloadRefV2_Validate (p : EvidencePayloadRefV2) : result unit :=
  SchemaRefV2_Validate (pl_Schema p) ;;
  Digest_Validate (pl_ContentDigest p) ;;
  guard (N.eqb (pl_Revision p) 0 || N.eqb (pl_Length p) 0 || (MaxEvidenceDeclaredBytes <? pl_Length p)
         || blank (pl_Ref p) || (MaxOpaqueReferenceBytes <? str_len (pl_Ref p)))
    ErrorInvalidArgument ReasonInvalidReference.

(** ** Ledger scopes *)

Record EvidenceLedgerScopeV2 := {
  ls_Partition : EvidencePartitionV2;
  ls_TenantID : string;
  ls_IdentityID : string;
  ls_LineageID : string;
  ls_InstanceID : string;
  ls_RunID : string;
  ls_EffectID : string;
}.
#[export] Instance EvidenceLedgerScopeV2_eq_dec : EqDecision EvidenceLedgerScopeV2.
Proof. solve_decision. Defined.

(** `switch s.Partition`: whether the identifiers are exactly those of the partition. *)
Definition absent_id (s : string) : bool := bool_decide (s = "").
Definition ledger_shape (s : EvidenceLedgerScopeV2) : option bool :=
  let i := absent_id (ls_IdentityID s) in let l := absent_id (ls_LineageID s) in let n := absent_id (ls_InstanceID s) in
  let r := absent_id (ls_RunID s) in let e := absent_id (ls_EffectID s) in
  match ls_Partition s with
  | EvidencePartitionTenant => Some (i && l && n && r && e)
  | EvidencePartitionIdentity => Some (negb i && l && n && r && e)
  | EvidencePartitionLineage => Some (negb i && negb l && n && r && e)
  | EvidencePartitionInstance => Some (negb i && negb l && negb n && r && e)
  | EvidencePartitionRun => Some (negb i && negb l && negb n && negb r && e)
  | EvidencePartitionEffect => Some (negb i && negb l && negb n && negb r && negb e)
  | EvidencePartitionOther _ => None
  end.

Definition EvidenceLedgerScopeV2_Validate (s : EvidenceLedgerScopeV2) : result unit :=
  guard (blank (ls_TenantID s)) ErrorInvalidArgument ReasonEvidenceScopeConflict ;;
  for_each (fun value => guard (negb (absent_id value) && negb (is_ok (validateEvidenceIDV2 value)))
                           ErrorInvalidArgument ReasonEvidenceScopeConflict)
    [ls_TenantID s; ls_IdentityID s; ls_LineageID s; ls_InstanceID s; ls_RunID s; ls_EffectID s] ;;
  guard (negb (default false (ledger_shape s))) ErrorInvalidArgument ReasonEvidenceScopeConflict.

Definition EvidenceLedgerScopeV2_json (s : EvidenceLedgerScopeV2) : json :=
  JStruct [field "partition" (JString (EvidencePartitionV2_string (ls_Partition s)));
           field "tenant_id" (JString (ls_TenantID s)); field "identity_id" (JString (ls_IdentityID s));
           omit_string "lineage_id" (ls_LineageID s); omit_string "instance_id" (ls_InstanceID s);
           omit_string "run_id" (ls_RunID s); omit_string "effect_id" (ls_EffectID s)].

Definition EvidenceLedgerScopeV2_DigestV2 (s : EvidenceLedgerScopeV2) : result Digest :=
  EvidenceLedgerScopeV2_Validate s ;; evidence_digest "EvidenceLedgerScopeV2" (EvidenceLedgerScopeV2_json s).

Definition MatchesExecutionScope (s : EvidenceLedgerScopeV2) (scope : ExecutionScope) : bool :=
  is_ok (ExecutionScope_Validate scope) && bool_decide (ls_TenantID s = id_TenantID (sc_Identity scope))
  && (absent_id (ls_IdentityID s) || bool_decide (ls_IdentityID s = id_ID (sc_Identity scope)))
  && (absent_id (ls_LineageID s) || bool_decide (ls_LineageID s = lin_ID (sc_Lineage scope)))
  && (absent_id (ls_InstanceID s) || bool_decide (ls_InstanceID s = inst_ID (sc_Instance scope))).

(** ** Source registrations *)

Record EvidenceClassMappingV2 := { cm_Class : string; cm_Trust : EvidenceTrustClassV2 }.
#[export] Instance EvidenceClassMappingV2_eq_dec : EqDecision EvidenceClassMappingV2.
Proof. solve_decision. Defined.

Definition validateEvidenceMappingsV2 : list EvidenceClassMappingV2 -> result unit :=
  visit_ascending
    (fun value => guard (negb (is_ok (ValidateNamespacedNameV2 (cm_Class value)))
                         || negb (is_ok (validateEvidenceTrustV2 (cm_Trust value)))
                         || bool_decide (cm_Trust value = EvidenceTrustLateObservation))
                    ErrorInvalidArgument ReasonEvidenceTrustInvalid) cm_Class None.
Definition validateEvidenceKindsV2 : list string -> result unit := visit_ascending ValidateNamespacedNameV2 id None.

(** ClassMappings and AllowedKinds are validated to be non-empty wherever they
    are used. *)
Record EvidenceSourceRegistrationFactV2 := {
  src_ContractVersion : string;
  src_ID : string;
  src_Revision : N;
  src_SourceID : string;
  src_SourceEpoch : N;
  src_LedgerScope : EvidenceLedgerScopeV2;
  src_ExecutionScope : ExecutionScope;
  src_CurrentScope : ExecutionScopeBindingRefV2;
  src_CurrentScopeWatermark : N;
  src_Producer : EvidenceProducerBindingRefV2;
  src_Authority : AuthorityBindingRefV2;
  src_ActionScopeDigest : Digest;
  src_Policy : EvidenceSourcePolicyBindingRefV2;
  src_ClassMappings : list EvidenceClassMappingV2;
  src_AllowedKinds : list string;
  src_GapPolicy : string;
  src_NextSourceSequence : N;
  src_State : EvidenceSourceStateV2;
  src_CreatedUnixNano : Z;
  src_UpdatedUnixNano : Z;
  src_ExpiresUnixNano : Z;
}.

Definition source_state_times (f : EvidenceSourceRegistrationFactV2) : result unit :=
  match src_State f with
  | EvidenceSourceActive =>
      guard (src_ExpiresUnixNano f <=? src_UpdatedUnixNano f)%Z ErrorPreconditionFailed ReasonEvidenceSourceStale
  | EvidenceSourceExpired =>
      guard (src_UpdatedUnixNano f <? src_ExpiresUnixNano f)%Z ErrorPreconditionFailed ReasonEvidenceSourceStale
  | EvidenceSourceRevoked => Ok tt
  | EvidenceSourceStateOther _ => fail ErrorInvalidArgument ReasonInvalidState
  end.

Definition EvidenceSourceRegistrationFactV2_Validate (f : EvidenceSourceRegistrationFactV2) : result unit :=
  guard (negb (bool_decide (src_ContractVersion f = EvidenceContractVersionV2))
         || negb (is_ok (validateEvidenceIDV2 (src_ID f))) || N.eqb (src_Revision f) 0 || N.eqb (src_SourceEpoch f) 0
         || N.eqb (src_NextSourceSequence f) 0 || N.eqb (src_NextSourceSequence f) max_u64)
    ErrorInvalidArgument ReasonEvidenceSourceMissing ;;
  ValidateNamespacedNameV2 (src_SourceID f) ;;
  EvidenceLedgerScopeV2_Validate (src_LedgerScope f) ;;
  ExecutionScope_Validate (src_ExecutionScope f) ;;
  guard (negb (MatchesExecutionScope (src_LedgerScope f) (src_ExecutionScope f)))
    ErrorPreconditionFailed ReasonEvidenceScopeConflict ;;
  ExecutionScopeBindingRefV2_Validate (src_CurrentScope f) ;;
  guard (N.eqb (src_CurrentScopeWatermark f) 0) ErrorInvalidArgument ReasonEvidenceSourceStale ;;
  EvidenceProducerBindingRefV2_Validate (src_Producer f) ;;
  AuthorityBindingRefV2_Validate (src_Authority f) ;;
  Digest_Validate (src_ActionScopeDigest f) ;;
  EvidenceSourcePolicyBindingRefV2_Validate (src_Policy f) ;;
  guard (negb (bool_decide (src_GapPolicy f = EvidenceGapStrictV2))
         || Nat.eqb (length (src_ClassMappings f)) 0 || Nat.ltb 32 (length (src_ClassMappings f))
         || Nat.eqb (length (src_AllowedKinds f)) 0 || Nat.ltb 128 (length (src_AllowedKinds f)))
    ErrorInvalidArgument ReasonInvalidCanonicalForm ;;
  validateEvidenceMappingsV2 (src_ClassMappings f) ;;
  validateEvidenceKindsV2 (src_AllowedKinds f) ;;
  guard ((src_CreatedUnixNano f <=? 0)%Z || (src_UpdatedUnixNano f <? src_CreatedUnixNano f)%Z
         || (src_ExpiresUnixNano f <=? 0)%Z) ErrorInvalidArgument ReasonInvalidState ;;
  source_state_times f.

Definition EvidenceSourcePolicyBindingRefV2_json (r : EvidenceSourcePolicyBindingRefV2) : json :=
  JStruct [field "ref" (JString (sp_Ref r)); field "digest" (JString (sp_Digest r));
           field "revision" (JUint (sp_Revision r))].
Definition EvidenceClassMappingV2_json (m : EvidenceClassMappingV2) : json :=
  JStruct [field "class" (JString (cm_Class m)); field "trust" (JString (EvidenceTrustClassV2_string (cm_Trust m)))].

Definition EvidenceSourceRegistrationFactV2_json (f : EvidenceSourceRegistrationFactV2) : json :=
  JStruct [field "contract_version" (JString (src_ContractVersion f));
           field "registration_id" (JString (src_ID f));
           field "revision" (JUint (src_Revision f));
           field "source_id" (JString (src_SourceID f));
           field "source_epoch" (JUint (src_SourceEpoch f));
           field "ledger_scope" (EvidenceLedgerScopeV2_json (src_LedgerScope f));
           field "execution_scope" (ExecutionScope_json (src_ExecutionScope f));
           field "current_scope_binding" (ExecutionScopeBindingRefV2_json (src_CurrentScope f));
           field "current_scope_watermark" (JUint (src_CurrentScopeWatermark f));
           field "producer_binding" (ProviderBindingRefV2_json (src_Producer f));
           field "authority_binding" (AuthorityBindingRefV2_json (src_Authority f));
           field "action_scope_digest" (JString (src_ActionScopeDigest f));
           field "source_policy_binding" (EvidenceSourcePolicyBindingRefV2_json (src_Policy f));
           field "class_mappings" (JSlice EvidenceClassMappingV2_json (Some (src_ClassMappings f)));
           field "allowed_kinds" (JSlice JString (Some (src_AllowedKinds f)));
           field "gap_policy" (JString (src_GapPolicy f));
           field "next_source_sequence" (JUint (src_NextSourceSequence f));
           field "state" (JString (EvidenceSourceStateV2_string (src_State f)));
           field "created_unix_nano" (JNumber (src_CreatedUnixNano f));
           field "updated_unix_nano" (JNumber (src_UpdatedUnixNano f));
           field "expires_unix_nano" (JNumber (src_ExpiresUnixNano f))].

Definition EvidenceSourceRegistrationFactV2_DigestV2 (f : EvidenceSourceRegistrationFactV2) : result Digest :=
  EvidenceSourceRegistrationFactV2_Validate f ;;
  evidence_digest "EvidenceSourceRegistrationFactV2" (EvidenceSourceRegistrationFactV2_json f).

(** The registration with its journal fields cleared. *)
Definition source_configuration (f : EvidenceSourceRegistrationFactV2) : EvidenceSourceRegistrationFactV2 :=
  {| src_ContractVersion := src_ContractVersion f; src_ID := src_ID f; src_Revision := 0; src_SourceID := src_SourceID f;
     src_SourceEpoch := src_SourceEpoch f; src_LedgerScope := src_LedgerScope f; src_ExecutionScope := src_ExecutionScope f;
     src_CurrentScope := src_CurrentScope f; src_CurrentScopeWatermark := src_CurrentScopeWatermark f;
     src_Producer := src_Producer f; src_Authority := src_Authority f; src_ActionScopeDigest := src_ActionScopeDigest f;
     src_Policy := src_Policy f; src_ClassMappings := src_ClassMappings f; src_AllowedKinds := src_AllowedKinds f;
     src_GapPolicy := src_GapPolicy f; src_NextSourceSequence := 0; src_State := EvidenceSourceStateOther "";
     src_CreatedUnixNano := 0; src_UpdatedUnixNano := 0; src_ExpiresUnixNano := src_ExpiresUnixNano f |}.

Definition ConfigurationDigestV2 (f : EvidenceSourceRegistrationFactV2) : result Digest :=
  EvidenceSourceRegistrationFactV2_Validate f ;;
  evidence_digest "EvidenceSourceConfigurationV2" (EvidenceSourceRegistrationFactV2_json (source_configuration f)).

(** ** Event candidates *)

Record EvidenceHistoricalSourceV2 := {
  hs_RegistrationID : string;
  hs_SourceID : string;
  hs_SourceEpoch : N;
  hs_SourceSequence : N;
  hs_ContentDigest : Digest;
  hs_Record : EvidenceRecordRefV2;
  hs_CandidateDigest : Digest;
}.
#[export] Instance EvidenceHistoricalSourceV2_eq_dec : EqDecision EvidenceHistoricalSourceV2.
Proof. solve_decision. Defined.

(** Causation is a slice that may be nil; OwnerFact and HistoricalSource are pointers. *)
Record EvidenceEventCandidateV2 := {
  ev_ContractVersion : string;
  ev_LedgerScope : EvidenceLedgerScopeV2;
  ev_EventID : string;
  ev_RegistrationID : string;
  ev_RegistrationRevision : N;
  ev_SourceConfigurationDigest : Digest;
  ev_SourcePolicy : EvidenceSourcePolicyBindingRefV2;
  ev_SourceID : string;
  ev_SourceEpoch : N;
  ev_SourceSequence : N;
  ev_TrustClass : EvidenceTrustClassV2;
  ev_ClaimKind : RunCompletionClaimKind;
  ev_EventKind : string;
  ev_CustomClass : string;
  ev_ExecutionScope : ExecutionScope;
  ev_Payload : EvidencePayloadRefV2;
  ev_Causation : option (list EvidenceCausationRefV2);
  ev_CorrelationID : string;
  ev_Producer : EvidenceProducerBindingRefV2;
  ev_Authority : AuthorityBindingRefV2;
  ev_OwnerFact : option EvidenceOwnerFactRefV2;
  ev_HistoricalSource : option EvidenceHistoricalSourceV2;
  ev_ObservedUnixNano : Z;
}.
#[export] Instance EvidenceEventCandidateV2_eq_dec : EqDecision EvidenceEventCandidateV2.
Proof. solve_decision. Defined.

Definition no_claim : RunCompletionClaimKind := RunClaimOther "".

(** The payload that an authoritative fact must be about. *)
Definition owner_fact_check (e : EvidenceEventCandidateV2) : result unit :=
  if bool_decide (ev_TrustClass e = EvidenceTrustAuthoritativeFact) then
    match ev_OwnerFact e with
    | None => fail ErrorForbidden ReasonEvidenceTrustInvalid
    | Some fact =>
        EvidenceOwnerFactRefV2_Validate fact ;;
        guard (negb (bool_decide (SchemaRefV2_Key (of_PayloadSchema fact) = SchemaRefV2_Key (pl_Schema (ev_Payload e))))
               || negb (bool_decide (of_PayloadDigest fact = pl_ContentDigest (ev_Payload e)))
               || negb (N.eqb (of_PayloadRevision fact) (pl_Revision (ev_Payload e))))
          ErrorPreconditionFailed ReasonEvidenceTrustInvalid
    end
  else guard (bool_decide (is_Some (ev_OwnerFact e))) ErrorForbidden ReasonEvidenceTrustInvalid.

Definition historical_check (e : EvidenceEventCandidateV2) : result unit :=
  if bool_decide (ev_TrustClass e = EvidenceTrustLateObservation) then
    match ev_HistoricalSource e with
    | None => fail ErrorForbidden ReasonEvidenceTrustInvalid
    | Some source =>
        guard (bool_decide (ls_Partition (ev_LedgerScope e) = EvidencePartitionRun)
               || bool_decide (ls_Partition (ev_LedgerScope e) = EvidencePartitionEffect))
          ErrorForbidden ReasonEvidenceTrustInvalid ;;
        guard (negb (is_ok (validateEvidenceIDV2 (hs_RegistrationID source)))
               || negb (is_ok (ValidateNamespacedNameV2 (hs_SourceID source))) || N.eqb (hs_SourceEpoch source) 0
               || (ev_SourceEpoch e <=? hs_SourceEpoch source) || N.eqb (hs_SourceSequence source) 0
               || negb (is_ok (Digest_Validate (hs_ContentDigest source)))
               || negb (bool_decide (hs_ContentDigest source = pl_ContentDigest (ev_Payload e)))
               || negb (is_ok (EvidenceRecordRefV2_Validate (hs_Record source)))
               || negb (is_ok (Digest_Validate (hs_CandidateDigest source))))
          ErrorInvalidArgument ReasonEvidenceSourceStale
    end
  else guard (bool_decide (is_Some (ev_HistoricalSource e))) ErrorForbidden ReasonEvidenceTrustInvalid.

Definition EvidenceEventCandidateV2_Validate (e : EvidenceEventCandidateV2) : result unit :=
  guard (negb (bool_decide (ev_ContractVersion e = EvidenceContractVersionV2))
         || negb (is_ok (validateEvidenceIDV2 (ev_EventID e))) || negb (is_ok (validateEvidenceIDV2 (ev_RegistrationID e)))
         || N.eqb (ev_RegistrationRevision e) 0 || N.eqb (ev_SourceEpoch e) 0 || N.eqb (ev_SourceSequence e) 0
         || (ev_ObservedUnixNano e <=? 0)%Z) ErrorInvalidArgument ReasonEvidenceUnavailable ;;
  Digest_Validate (ev_SourceConfigurationDigest e) ;;
  EvidenceSourcePolicyBindingRefV2_Validate (ev_SourcePolicy e) ;;
  ValidateNamespacedNameV2 (ev_SourceID e) ;;
  guard (negb (is_ok (validateEvidenceIDV2 (ev_CorrelationID e)))) ErrorInvalidArgument ReasonInvalidReference ;;
  EvidenceLedgerScopeV2_Validate (ev_LedgerScope e) ;;
  ExecutionScope_Validate (ev_ExecutionScope e) ;;
  guard (negb (MatchesExecutionScope (ev_LedgerScope e) (ev_ExecutionScope e)))
    ErrorPreconditionFailed ReasonEvidenceScopeConflict ;;
  ValidateNamespacedNameV2 (ev_EventKind e) ;;
  ValidateNamespacedNameV2 (ev_CustomClass e) ;;
  EvidencePayloadRefV2_Validate (ev_Payload e) ;;
  EvidenceProducerBindingRefV2_Validate (ev_Producer e) ;;
  AuthorityBindingRefV2_Validate (ev_Authority e) ;;
  validateEvidenceTrustV2 (ev_TrustClass e) ;;
  (if bool_decide (ev_TrustClass e = EvidenceTrustClaim)
   then guard (negb (validEvidenceClaimKindV2 (ev_ClaimKind e))) ErrorInvalidArgument ReasonRunClaimUnverified
   else guard (negb (bool_decide (ev_ClaimKind e = no_claim))) ErrorForbidden ReasonEvidenceTrustInvalid) ;;
  guard (MaxEvidenceCausationRefs <? N.of_nat (length (slice_items (ev_Causation e))))
    ErrorInvalidArgument ReasonCanonicalLimitExceeded ;;
  validate_causation (slice_items (ev_Causation e)) ;;
  owner_fact_check e ;;
  historical_check e.

Definition EvidenceRecordRefV2_json (r : EvidenceRecordRefV2) : json :=
  JStruct [field "ledger_scope_digest" (JString (er_LedgerScopeDigest r)); field "sequence" (JUint (er_Sequence r));
           field "record_digest" (JString (er_RecordDigest r))].
Definition EvidenceOwnerFactRefV2_json (r : EvidenceOwnerFactRefV2) : json :=
  JStruct [field "owner" (ProviderBindingRefV2_json (of_Owner r)); field "fact_kind" (JString (of_FactKind r));
           field "fact_id" (JString (of_FactID r)); field "revision" (JUint (of_Revision r));
           field "fact_digest" (JString (of_FactDigest r)); field "payload_schema" (SchemaRefV2_json (of_PayloadSchema r));
           field "payload_digest" (JString (of_PayloadDigest r)); field "payload_revision" (JUint (of_PayloadRevision r))].
Definition EvidenceCausationRefV2_json (c : EvidenceCausationRefV2) : json :=
  JStruct [field "ledger_scope_digest" (JString (ca_LedgerScopeDigest c)); field "event_id" (JString (ca_EventID c))].
Definition EvidenceHistoricalSourceV2_json (h : EvidenceHistoricalSourceV2) : json :=
  JStruct [field "registration_id" (JString (hs_RegistrationID h)); field "source_id" (JString (hs_SourceID h));
           field "source_epoch" (JUint (hs_SourceEpoch h)); field "source_sequence" (JUint (hs_SourceSequence h));
           field "content_digest" (JString (hs_ContentDigest h)); field "record" (EvidenceRecordRefV2_json (hs_Record h));
           field "candidate_digest" (JString (hs_CandidateDigest h))].
Definition EvidencePayloadRefV2_json (p : EvidencePayloadRefV2) : json :=
  JStruct [field "schema" (SchemaRefV2_json (pl_Schema p)); field "content_digest" (JString (pl_ContentDigest p));
           field "revision" (JUint (pl_Revision p)); field "length" (JUint (pl_Length p)); field "ref" (JString (pl_Ref p))].

Definition EvidenceEventCandidateV2_json (e : EvidenceEventCandidateV2) : json :=
  JStruct [field "contract_version" (JString (ev_ContractVersion e));
           field "ledger_scope" (EvidenceLedgerScopeV2_json (ev_LedgerScope e));
           field "event_id" (JString (ev_EventID e));
           field "registration_id" (JString (ev_RegistrationID e));
           field "registration_revision" (JUint (ev_RegistrationRevision e));
           field "source_configuration_digest" (JString (ev_SourceConfigurationDigest e));
           field "source_policy_binding" (EvidenceSourcePolicyBindingRefV2_json (ev_SourcePolicy e));
           field "source_id" (JString (ev_SourceID e));
           field "source_epoch" (JUint (ev_SourceEpoch e));
           field "source_sequence" (JUint (ev_SourceSequence e));
           field "trust_class" (JString (EvidenceTrustClassV2_string (ev_TrustClass e)));
           omit_string "claim_kind" (RunCompletionClaimKind_string (ev_ClaimKind e));
           field "event_kind" (JString (ev_EventKind e));
           field "custom_class" (JString (ev_CustomClass e));
           field "execution_scope" (ExecutionScope_json (ev_ExecutionScope e));
           field "payload" (EvidencePayloadRefV2_json (ev_Payload e));
           field "causation" (JSlice EvidenceCausationRefV2_json (ev_Causation e));
           field "correlation_id" (JString (ev_CorrelationID e));
           field "producer_binding" (ProviderBindingRefV2_json (ev_Producer e));
           field "authority_binding" (AuthorityBindingRefV2_json (ev_Authority e));
           omit_nil "owner_fact" EvidenceOwnerFactRefV2_json (ev_OwnerFact e);
           omit_nil "historical_source" EvidenceHistoricalSourceV2_json (ev_HistoricalSource e);
           field "observed_unix_nano" (JNumber (ev_ObservedUnixNano e))].

(** Fields that a copy changes. *)
Definition with_causation (causation : option (list EvidenceCausationRefV2)) (e : EvidenceEventCandidateV2)
  : EvidenceEventCandidateV2 :=
  {| ev_ContractVersion := ev_ContractVersion e; ev_LedgerScope := ev_LedgerScope e; ev_EventID := ev_EventID e;
     ev_RegistrationID := ev_RegistrationID e; ev_RegistrationRevision := ev_RegistrationRevision e;
     ev_SourceConfigurationDigest := ev_SourceConfigurationDigest e; ev_SourcePolicy := ev_SourcePolicy e;
     ev_SourceID := ev_SourceID e; ev_SourceEpoch := ev_SourceEpoch e; ev_SourceSequence := ev_SourceSequence e;
     ev_TrustClass := ev_TrustClass e; ev_ClaimKind := ev_ClaimKind e; ev_EventKind := ev_EventKind e;
     ev_CustomClass := ev_CustomClass e; ev_ExecutionScope := ev_ExecutionScope e; ev_Payload := ev_Payload e;
     ev_Causation := causation; ev_CorrelationID := ev_CorrelationID e; ev_Producer := ev_Producer e;
     ev_Authority := ev_Authority e; ev_OwnerFact := ev_OwnerFact e; ev_HistoricalSource := ev_HistoricalSource e;
     ev_ObservedUnixNano := ev_ObservedUnixNano e |}.

Definition EvidenceEventCandidateV2_DigestV2 (e : EvidenceEventCandidateV2) : result Digest :=
  EvidenceEventCandidateV2_Validate e ;;
  evidence_digest "EvidenceEventCandidateV2"
    (EvidenceEventCandidateV2_json (with_causation (Some (slice_items (ev_Causation e))) e)).

(** ** Records and tombstones *)

Record EvidenceLedgerRecordV2 := {
  lr_Ref : EvidenceRecordRefV2;
  lr_Candidate : EvidenceEventCandidateV2;
  lr_CandidateDigest : Digest;
  lr_PreviousRecordDigest : Digest;
  lr_IngestedUnixNano : Z;
}.
#[export] Instance EvidenceLedgerRecordV2_eq_dec : EqDecision EvidenceLedgerRecordV2.
Proof. solve_decision. Defined.

Definition EvidenceLedgerRecordV2_Validate (r : EvidenceLedgerRecordV2) : result unit :=
  EvidenceRecordRefV2_Validate (lr_Ref r) ;;
  guard (negb (is_ok (Digest_Validate (lr_CandidateDigest r))) || negb (is_ok (Digest_Validate (lr_PreviousRecordDigest r)))
         || (lr_IngestedUnixNano r <=? 0)%Z) ErrorInvalidArgument ReasonEvidenceChainConflict ;;
  EvidenceEventCandidateV2_Validate (lr_Candidate r).

Definition EvidenceLedgerRecordV2_json (r : EvidenceLedgerRecordV2) : json :=
  JStruct [field "ref" (EvidenceRecordRefV2_json (lr_Ref r));
           field "candidate" (EvidenceEventCandidateV2_json (lr_Candidate r));
           field "candidate_digest" (JString (lr_CandidateDigest r));
           omit_string "previous_record_digest" (lr_PreviousRecordDigest r);
           field "ingested_unix_nano" (JNumber (lr_IngestedUnixNano r))].

Record EvidenceTombstoneFactV2 := {
  tb_Record : EvidenceRecordRefV2;
  tb_Source : EvidenceSourceKeyV2;
  tb_Causation : option (list EvidenceCausationRefV2);
  tb_Reason : string;
  tb_Revision : N;
  tb_CreatedUnixNano : Z;
}.
#[export] Instance EvidenceTombstoneFactV2_eq_dec : EqDecision EvidenceTombstoneFactV2.
Proof. solve_decision. Defined.

Definition EvidenceTombstoneFactV2_Validate (f : EvidenceTombstoneFactV2) : result unit :=
  EvidenceRecordRefV2_Validate (tb_Record f) ;;
  EvidenceSourceKeyV2_Validate (tb_Source f) ;;
  ValidateNamespacedNameV2 (tb_Reason f) ;;
  guard (negb (N.eqb (tb_Revision f) 1) || (tb_CreatedUnixNano f <=? 0)%Z
         || (MaxEvidenceCausationRefs <? N.of_nat (length (slice_items (tb_Causation f)))))
    ErrorInvalidArgument ReasonInvalidState ;;
  validate_causation (slice_items (tb_Causation f)).

Definition EvidenceSourceKeyV2_json (k : EvidenceSourceKeyV2) : json :=
  JStruct [field "registration_id" (JString (sk_RegistrationID k)); field "source_epoch" (JUint (sk_SourceEpoch k));
           field "source_sequence" (JUint (sk_SourceSequence k))].
Definition EvidenceTombstoneFactV2_json (f : EvidenceTombstoneFactV2) : json :=
  JStruct [field "record" (EvidenceRecordRefV2_json (tb_Record f)); field "source" (EvidenceSourceKeyV2_json (tb_Source f));
           field "causation" (JSlice EvidenceCausationRefV2_json (tb_Causation f)); field "reason" (JString (tb_Reason f));
           field "revision" (JUint (tb_Revision f)); field "created_unix_nano" (JNumber (tb_CreatedUnixNano f))].

Definition EvidenceTombstoneFactV2_DigestV2 (f : EvidenceTombstoneFactV2) : result Digest :=
  EvidenceTombstoneFactV2_Validate f ;;
  evidence_digest "EvidenceTombstoneFactV2"
    (EvidenceTombstoneFactV2_json
       {| tb_Record := tb_Record f; tb_Source := tb_Source f; tb_Causation := Some (slice_items (tb_Causation f));
          tb_Reason := tb_Reason f; tb_Revision := tb_Revision f; tb_CreatedUnixNano := tb_CreatedUnixNano f |}).

(** ** Requests *)

Record EvidenceSourceCASRequestV2 := { scas_ExpectedRevision : N; scas_Next : EvidenceSourceRegistrationFactV2 }.
(** Also EvidenceAppendLateRequestV2, which has the same fields. *)
Record EvidenceAppendRequestV2 := { app_Candidate : EvidenceEventCandidateV2; app_ExpectedSourceRevision : N }.
Record EvidenceWatchCursorV2 := { wc_LedgerScopeDigest : Digest; wc_AfterSequence : N }.
Record EvidencePageV2 := { pg_Records : list EvidenceLedgerRecordV2; pg_Next : EvidenceWatchCursorV2 }.
