(* ===== verification/EvidenceCodec.v ===== *)
(** * The documents of evidence: the json tags of ports/evidence_v2.go

    Decoders of the structs that a source registration, a ledger record and a
    tombstone reach, the values that their documents determine, and
    cloneEvidenceV2 of fakes/evidence_ledger_v2.go, which copies a value through
    its document.  [clone_source], [clone_record] and [clone_tombstone] are the
    correctness of the copies. *)

From stdpp Require Import list.
From S2P Require Import Prelude GoStd Errors Identity RunFact Json JsonParse Canonical Payload JsonCodec BindingCodec EffectContract Evidence.

Local Open Scope N_scope.

(** ** Decoders *)

Definition evidence_trusts : list EvidenceTrustClassV2 :=
  [EvidenceTrustObservation; EvidenceTrustReceipt; EvidenceTrustAttestation; EvidenceTrustClaim;
   EvidenceTrustAuthoritativeFact; EvidenceTrustLateObservation].
Definition evidence_partitions : list EvidencePartitionV2 :=
  [EvidencePartitionTenant; EvidencePartitionIdentity; EvidencePartitionLineage; EvidencePartitionInstance;
   EvidencePartitionRun; EvidencePartitionEffect].
Definition evidence_source_states : list EvidenceSourceStateV2 :=
  [EvidenceSourceActive; EvidenceSourceRevoked; EvidenceSourceExpired].
Definition claim_kinds : list RunCompletionClaimKind :=
  [RunClaimCompleted; RunClaimCancelled; RunClaimFailed; RunClaimIndeterminate].

Definition decode_EvidenceTrustClassV2 : Decoder EvidenceTrustClassV2 :=
  decode_named EvidenceTrustClassV2_string (named evidence_trusts EvidenceTrustClassV2_string EvidenceTrustOther).
Definition decode_EvidencePartitionV2 : Decoder EvidencePartitionV2 :=
  decode_named EvidencePartitionV2_string
    (named evidence_partitions EvidencePartitionV2_string EvidencePartitionOther).
Definition decode_EvidenceSourceStateV2 : Decoder EvidenceSourceStateV2 :=
  decode_named EvidenceSourceStateV2_string
    (named evidence_source_states EvidenceSourceStateV2_string EvidenceSourceStateOther).
Definition decode_RunCompletionClaimKind : Decoder RunCompletionClaimKind :=
  decode_named RunCompletionClaimKind_string (named claim_kinds RunCompletionClaimKind_string RunClaimOther).

Definition zero_EvidenceTrustClassV2 : EvidenceTrustClassV2 := EvidenceTrustOther "".
Definition zero_EvidencePartitionV2 : EvidencePartitionV2 := EvidencePartitionOther "".
Definition zero_EvidenceSourceStateV2 : EvidenceSourceStateV2 := EvidenceSourceStateOther "".
Definition zero_RunCompletionClaimKind : RunCompletionClaimKind := no_claim.

Definition zero_AgentIdentityRef : AgentIdentityRef :=
  {| id_TenantID := ""; id_ID := ""; id_Epoch := 0 |}.
Definition decode_AgentIdentityRef : Decoder AgentIdentityRef := decode_struct
  [ ("tenant_id", decode_at id_TenantID (fun v '(Build_AgentIdentityRef _ b c) =>
        Build_AgentIdentityRef v b c) decode_string);
    ("agent_identity_id", decode_at id_ID (fun v '(Build_AgentIdentityRef a _ c) =>
        Build_AgentIdentityRef a v c) decode_string);
    ("identity_epoch", decode_at id_Epoch (fun v '(Build_AgentIdentityRef a b _) =>
        Build_AgentIdentityRef a b v) decode_uint64) ].

Definition zero_LineageRef : LineageRef :=
  {| lin_ID := ""; lin_PlanDigest := "" |}.
Definition decode_LineageRef : Decoder LineageRef := decode_struct
  [ ("instance_lineage_id", decode_at lin_ID (fun v '(Build_LineageRef _ b) =>
        Build_LineageRef v b) decode_string);
    ("resolved_plan_digest", decode_at lin_PlanDigest (fun v '(Build_LineageRef a _) =>
        Build_LineageRef a v) decode_string) ].

Definition zero_InstanceRef : InstanceRef :=
  {| inst_ID := ""; inst_Epoch := 0 |}.
Definition decode_InstanceRef : Decoder InstanceRef := decode_struct
  [ ("instance_id", decode_at inst_ID (fun v '(Build_InstanceRef _ b) => Build_InstanceRef v b) decode_string);
    ("instance_epoch", decode_at inst_Epoch (fun v '(Build_InstanceRef a _) =>
        Build_InstanceRef a v) decode_uint64) ].

Definition zero_SandboxLeaseRef : SandboxLeaseRef :=
  {| sbx_ID := ""; sbx_Epoch := 0 |}.
Definition decode_SandboxLeaseRef : Decoder SandboxLeaseRef := decode_struct
  [ ("sandbox_lease_id", decode_at sbx_ID (fun v '(Build_SandboxLeaseRef _ b) =>
        Build_SandboxLeaseRef v b) decode_string);
    ("lease_epoch", decode_at sbx_Epoch (fun v '(Build_SandboxLeaseRef a _) =>
        Build_SandboxLeaseRef a v) decode_uint64) ].

Definition zero_ExecutionScope : ExecutionScope :=
  {| sc_Identity := zero_AgentIdentityRef; sc_Lineage := zero_LineageRef; sc_Instance := zero_InstanceRef;
     sc_SandboxLease := None; sc_AuthorityEpoch := 0 |}.
Definition decode_ExecutionScope : Decoder ExecutionScope := decode_struct
  [ ("identity", decode_at sc_Identity (fun v '(Build_ExecutionScope _ b c d e) =>
        Build_ExecutionScope v b c d e) decode_AgentIdentityRef);
    ("lineage", decode_at sc_Lineage (fun v '(Build_ExecutionScope a _ c d e) =>
        Build_ExecutionScope a v c d e) decode_LineageRef);
    ("instance", decode_at sc_Instance (fun v '(Build_ExecutionScope a b _ d e) =>
        Build_ExecutionScope a b v d e) decode_InstanceRef);
    ("sandbox_lease", decode_at sc_SandboxLease (fun v '(Build_ExecutionScope a b c _ e) =>
        Build_ExecutionScope a b c v e) (decode_pointer decode_SandboxLeaseRef zero_SandboxLeaseRef));
    ("authority_epoch", decode_at sc_AuthorityEpoch (fun v '(Build_ExecutionScope a b c d _) =>
        Build_ExecutionScope a b c d v) decode_uint64) ].

Definition zero_ProviderBindingRefV2 : ProviderBindingRefV2 :=
  {| pb_BindingSetID := ""; pb_BindingSetRevision := 0; pb_ComponentID := ""; pb_ManifestDigest := "";
     pb_ArtifactDigest := ""; pb_Capability := "" |}.
Definition decode_ProviderBindingRefV2 : Decoder ProviderBindingRefV2 := decode_struct
  [ ("binding_set_id", decode_at pb_BindingSetID (fun v '(Build_ProviderBindingRefV2 _ b c d e f) =>
        Build_ProviderBindingRefV2 v b c d e f) decode_string);
    ("binding_set_revision", decode_at pb_BindingSetRevision (fun v '(Build_ProviderBindingRefV2 a _ c d e f) =>
        Build_ProviderBindingRefV2 a v c d e f) decode_uint64);
    ("component_id", decode_at pb_ComponentID (fun v '(Build_ProviderBindingRefV2 a b _ d e f) =>
        Build_ProviderBindingRefV2 a b v d e f) decode_string);
    ("manifest_digest", decode_at pb_ManifestDigest (fun v '(Build_ProviderBindingRefV2 a b c _ e f) =>
        Build_ProviderBindingRefV2 a b c v e f) decode_string);
    ("artifact_digest", decode_at pb_ArtifactDigest (fun v '(Build_ProviderBindingRefV2 a b c d _ f) =>
        Build_ProviderBindingRefV2 a b c d v f) decode_string);
    ("capability", decode_at pb_Capability (fun v '(Build_ProviderBindingRefV2 a b c d e _) =>
        Build_ProviderBindingRefV2 a b c d e v) decode_string) ].

Definition zero_AuthorityBindingRefV2 : AuthorityBindingRefV2 :=
  {| ab_Ref := ""; ab_Digest := ""; ab_Revision := 0; ab_Epoch := 0 |}.
Definition decode_AuthorityBindingRefV2 : Decoder AuthorityBindingRefV2 := decode_struct
  [ ("ref", decode_at ab_Ref (fun v '(Build_AuthorityBindingRefV2 _ b c d) =>
        Build_AuthorityBindingRefV2 v b c d) decode_string);
    ("digest", decode_at ab_Digest (fun v '(Build_AuthorityBindingRefV2 a _ c d) =>
        Build_AuthorityBindingRefV2 a v c d) decode_string);
    ("revision", decode_at ab_Revision (fun v '(Build_AuthorityBindingRefV2 a b _ d) =>
        Build_AuthorityBindingRefV2 a b v d) decode_uint64);
    ("epoch", decode_at ab_Epoch (fun v '(Build_AuthorityBindingRefV2 a b c _) =>
        Build_AuthorityBindingRefV2 a b c v) decode_uint64) ].

Definition zero_ExecutionScopeBindingRefV2 : ExecutionScopeBindingRefV2 :=
  {| xs_Ref := ""; xs_Digest := ""; xs_Revision := 0 |}.
Definition decode_ExecutionScopeBindingRefV2 : Decoder ExecutionScopeBindingRefV2 := decode_struct
  [ ("ref", decode_at xs_Ref (fun v '(Build_ExecutionScopeBindingRefV2 _ b c) =>
        Build_ExecutionScopeBindingRefV2 v b c) decode_string);
    ("digest", decode_at xs_Digest (fun v '(Build_ExecutionScopeBindingRefV2 a _ c) =>
        Build_ExecutionScopeBindingRefV2 a v c) decode_string);
    ("revision", decode_at xs_Revision (fun v '(Build_ExecutionScopeBindingRefV2 a b _) =>
        Build_ExecutionScopeBindingRefV2 a b v) decode_uint64) ].

Definition zero_EvidenceLedgerScopeV2 : EvidenceLedgerScopeV2 :=
  {| ls_Partition := zero_EvidencePartitionV2; ls_TenantID := ""; ls_IdentityID := ""; ls_LineageID := "";
     ls_InstanceID := ""; ls_RunID := ""; ls_EffectID := "" |}.
Definition decode_EvidenceLedgerScopeV2 : Decoder EvidenceLedgerScopeV2 := decode_struct
  [ ("partition", decode_at ls_Partition (fun v '(Build_EvidenceLedgerScopeV2 _ b c d e f g) =>
        Build_EvidenceLedgerScopeV2 v b c d e f g) decode_EvidencePartitionV2);
    ("tenant_id", decode_at ls_TenantID (fun v '(Build_EvidenceLedgerScopeV2 a _ c d e f g) =>
        Build_EvidenceLedgerScopeV2 a v c d e f g) decode_string);
    ("identity_id", decode_at ls_IdentityID (fun v '(Build_EvidenceLedgerScopeV2 a b _ d e f g) =>
        Build_EvidenceLedgerScopeV2 a b v d e f g) decode_string);
    ("lineage_id", decode_at ls_LineageID (fun v '(Build_EvidenceLedgerScopeV2 a b c _ e f g) =>
        Build_EvidenceLedgerScopeV2 a b c v e f g) decode_string);
    ("instance_id", decode_at ls_InstanceID (fun v '(Build_EvidenceLedgerScopeV2 a b c d _ f g) =>
        Build_EvidenceLedgerScopeV2 a b c d v f g) decode_string);
    ("run_id", decode_at ls_RunID (fun v '(Build_EvidenceLedgerScopeV2 a b c d e _ g) =>
        Build_EvidenceLedgerScopeV2 a b c d e v g) decode_string);
    ("effect_id", decode_at ls_EffectID (fun v '(Build_EvidenceLedgerScopeV2 a b c d e f _) =>
        Build_EvidenceLedgerScopeV2 a b c d e f v) decode_string) ].

Definition zero_EvidenceSourcePolicyBindingRefV2 : EvidenceSourcePolicyBindingRefV2 :=
  {| sp_Ref := ""; sp_Digest := ""; sp_Revision := 0 |}.
Definition decode_EvidenceSourcePolicyBindingRefV2 : Decoder EvidenceSourcePolicyBindingRefV2 := decode_struct
  [ ("ref", decode_at sp_Ref (fun v '(Build_EvidenceSourcePolicyBindingRefV2 _ b c) =>
        Build_EvidenceSourcePolicyBindingRefV2 v b c) decode_string);
    ("digest", decode_at sp_Digest (fun v '(Build_EvidenceSourcePolicyBindingRefV2 a _ c) =>
        Build_EvidenceSourcePolicyBindingRefV2 a v c) decode_string);
    ("revision", decode_at sp_Revision (fun v '(Build_EvidenceSourcePolicyBindingRefV2 a b _) =>
        Build_EvidenceSourcePolicyBindingRefV2 a b v) decode_uint64) ].

Definition zero_EvidenceClassMappingV2 : EvidenceClassMappingV2 :=
  {| cm_Class := ""; cm_Trust := zero_EvidenceTrustClassV2 |}.
Definition decode_EvidenceClassMappingV2 : Decoder EvidenceClassMappingV2 := decode_struct
  [ ("class", decode_at cm_Class (fun v '(Build_EvidenceClassMappingV2 _ b) =>
        Build_EvidenceClassMappingV2 v b) decode_string);
    ("trust", decode_at cm_Trust (fun v '(Build_EvidenceClassMappingV2 a _) =>
        Build_EvidenceClassMappingV2 a v) decode_EvidenceTrustClassV2) ].

Definition zero_EvidenceSourceRegistrationFactV2 : EvidenceSourceRegistrationFactV2 :=
  {| src_ContractVersion := ""; src_ID := ""; src_Revision := 0; src_SourceID := ""; src_SourceEpoch := 0;
     src_LedgerScope := zero_EvidenceLedgerScopeV2; src_ExecutionScope := zero_ExecutionScope;
     src_CurrentScope := zero_ExecutionScopeBindingRefV2; src_CurrentScopeWatermark := 0; src_Producer :=
     zero_ProviderBindingRefV2; src_Authority := zero_AuthorityBindingRefV2; src_ActionScopeDigest := "";
     src_Policy := zero_EvidenceSourcePolicyBindingRefV2; src_ClassMappings := []; src_AllowedKinds := [];
     src_GapPolicy := ""; src_NextSourceSequence := 0; src_State := zero_EvidenceSourceStateV2;
     src_CreatedUnixNano := 0; src_UpdatedUnixNano := 0; src_ExpiresUnixNano := 0 |}.
Definition decode_EvidenceSourceRegistrationFactV2 : Decoder EvidenceSourceRegistrationFactV2 := decode_struct
  [ ("contract_version", decode_at src_ContractVersion
        (fun v '(Build_EvidenceSourceRegistrationFactV2 _ b c d e f g h i j k l m n o p q r s t u) =>
         Build_EvidenceSourceRegistrationFactV2 v b c d e f g h i j k l m n o p q r s t u) decode_string);
    ("registration_id", decode_at src_ID
        (fun v '(Build_EvidenceSourceRegistrationFactV2 a _ c d e f g h i j k l m n o p q r s t u) =>
         Build_EvidenceSourceRegistrationFactV2 a v c d e f g h i j k l m n o p q r s t u) decode_string);
    ("revision", decode_at src_Revision
        (fun v '(Build_EvidenceSourceRegistrationFactV2 a b _ d e f g h i j k l m n o p q r s t u) =>
         Build_EvidenceSourceRegistrationFactV2 a b v d e f g h i j k l m n o p q r s t u) decode_uint64);
    ("source_id", decode_at src_SourceID
        (fun v '(Build_EvidenceSourceRegistrationFactV2 a b c _ e f g h i j k l m n o p q r s t u) =>
         Build_EvidenceSourceRegistrationFactV2 a b c v e f g h i j k l m n o p q r s t u) decode_string);
    ("source_epoch", decode_at src_SourceEpoch
        (fun v '(Build_EvidenceSourceRegistrationFactV2 a b c d _ f g h i j k l m n o p q r s t u) =>
         Build_EvidenceSourceRegistrationFactV2 a b c d v f g h i j k l m n o p q r s t u) decode_uint64);
    ("ledger_scope", decode_at src_LedgerScope
        (fun v '(Build_EvidenceSourceRegistrationFactV2 a b c d e _ g h i j k l m n o p q r s t u) =>
         Build_EvidenceSourceRegistrationFactV2 a b c d e v g h i j k l m n o p q r s t u)
          decode_EvidenceLedgerScopeV2);
    ("execution_scope", decode_at src_ExecutionScope
        (fun v '(Build_EvidenceSourceRegistrationFactV2 a b c d e f _ h i j k l m n o p q r s t u) =>
         Build_EvidenceSourceRegistrationFactV2 a b c d e f v h i j k l m n o p q r s t u) decode_ExecutionScope);
    ("current_scope_binding", decode_at src_CurrentScope
        (fun v '(Build_EvidenceSourceRegistrationFactV2 a b c d e f g _ i j k l m n o p q r s t u) =>
         Build_EvidenceSourceRegistrationFactV2 a b c d e f g v i j k l m n o p q r s t u)
          decode_ExecutionScopeBindingRefV2);
    ("current_scope_watermark", decode_at src_CurrentScopeWatermark
        (fun v '(Build_EvidenceSourceRegistrationFactV2 a b c d e f g h _ j k l m n o p q r s t u) =>
         Build_EvidenceSourceRegistrationFactV2 a b c d e f g h v j k l m n o p q r s t u) decode_uint64);
    ("producer_binding", decode_at src_Producer
        (fun v '(Build_EvidenceSourceRegistrationFactV2 a b c d e f g h i _ k l m n o p q r s t u) =>
         Build_EvidenceSourceRegistrationFactV2 a b c d e f g h i v k l m n o p q r s t u)
          decode_ProviderBindingRefV2);
    ("authority_binding", decode_at src_Authority
        (fun v '(Build_EvidenceSourceRegistrationFactV2 a b c d e f g h i j _ l m n o p q r s t u) =>
         Build_EvidenceSourceRegistrationFactV2 a b c d e f g h i j v l m n o p q r s t u)
          decode_AuthorityBindingRefV2);
    ("action_scope_digest", decode_at src_ActionScopeDigest
        (fun v '(Build_EvidenceSourceRegistrationFactV2 a b c d e f g h i j k _ m n o p q r s t u) =>
         Build_EvidenceSourceRegistrationFactV2 a b c d e f g h i j k v m n o p q r s t u) decode_string);
    ("source_policy_binding", decode_at src_Policy
        (fun v '(Build_EvidenceSourceRegistrationFactV2 a b c d e f g h i j k l _ n o p q r s t u) =>
         Build_EvidenceSourceRegistrationFactV2 a b c d e f g h i j k l v n o p q r s t u)
          decode_EvidenceSourcePolicyBindingRefV2);
    ("class_mappings", decode_at src_ClassMappings
        (fun v '(Build_EvidenceSourceRegistrationFactV2 a b c d e f g h i j k l m _ o p q r s t u) =>
         Build_EvidenceSourceRegistrationFactV2 a b c d e f g h i j k l m v o p q r s t u)
          (decode_list decode_EvidenceClassMappingV2 zero_EvidenceClassMappingV2));
    ("allowed_kinds", decode_at src_AllowedKinds
        (fun v '(Build_EvidenceSourceRegistrationFactV2 a b c d e f g h i j k l m n _ p q r s t u) =>
         Build_EvidenceSourceRegistrationFactV2 a b c d e f g h i j k l m n v p q r s t u)
          (decode_list decode_string ""));
    ("gap_policy", decode_at src_GapPolicy
        (fun v '(Build_EvidenceSourceRegistrationFactV2 a b c d e f g h i j k l m n o _ q r s t u) =>
         Build_EvidenceSourceRegistrationFactV2 a b c d e f g h i j k l m n o v q r s t u) decode_string);
    ("next_source_sequence", decode_at src_NextSourceSequence
        (fun v '(Build_EvidenceSourceRegistrationFactV2 a b c d e f g h i j k l m n o p _ r s t u) =>
         Build_EvidenceSourceRegistrationFactV2 a b c d e f g h i j k l m n o p v r s t u) decode_uint64);
    ("state", decode_at src_State
        (fun v '(Build_EvidenceSourceRegistrationFactV2 a b c d e f g h i j k l m n o p q _ s t u) =>
         Build_EvidenceSourceRegistrationFactV2 a b c d e f g h i j k l m n o p q v s t u)
          decode_EvidenceSourceStateV2);
    ("created_unix_nano", decode_at src_CreatedUnixNano
        (fun v '(Build_EvidenceSourceRegistrationFactV2 a b c d e f g h i j k l m n o p q r _ t u) =>
         Build_EvidenceSourceRegistrationFactV2 a b c d e f g h i j k l m n o p q r v t u) decode_int64);
    ("updated_unix_nano", decode_at src_UpdatedUnixNano
        (fun v '(Build_EvidenceSourceRegistrationFactV2 a b c d e f g h i j k l m n o p q r s _ u) =>
         Build_EvidenceSourceRegistrationFactV2 a b c d e f g h i j k l m n o p q r s v u) decode_int64);
    ("expires_unix_nano", decode_at src_ExpiresUnixNano
        (fun v '(Build_EvidenceSourceRegistrationFactV2 a b c d e f g h i j k l m n o p q r s t _) =>
         Build_EvidenceSourceRegistrationFactV2 a b c d e f g h i j k l m n o p q r s t v) decode_int64) ].

Definition zero_EvidenceRecordRefV2 : EvidenceRecordRefV2 :=
  {| er_LedgerScopeDigest := ""; er_Sequence := 0; er_RecordDigest := "" |}.
Definition decode_EvidenceRecordRefV2 : Decoder EvidenceRecordRefV2 := decode_struct
  [ ("ledger_scope_digest", decode_at er_LedgerScopeDigest (fun v '(Build_EvidenceRecordRefV2 _ b c) =>
        Build_EvidenceRecordRefV2 v b c) decode_string);
    ("sequence", decode_at er_Sequence (fun v '(Build_EvidenceRecordRefV2 a _ c) =>
        Build_EvidenceRecordRefV2 a v c) decode_uint64);
    ("record_digest", decode_at er_RecordDigest (fun v '(Build_EvidenceRecordRefV2 a b _) =>
        Build_EvidenceRecordRefV2 a b v) decode_string) ].

Definition zero_EvidenceOwnerFactRefV2 : EvidenceOwnerFactRefV2 :=
  {| of_Owner := zero_ProviderBindingRefV2; of_FactKind := ""; of_FactID := ""; of_Revision := 0;
     of_FactDigest := ""; of_PayloadSchema := zero_SchemaRefV2; of_PayloadDigest := ""; of_PayloadRevision :=
     0 |}.
Definition decode_EvidenceOwnerFactRefV2 : Decoder EvidenceOwnerFactRefV2 := decode_struct
  [ ("owner", decode_at of_Owner (fun v '(Build_EvidenceOwnerFactRefV2 _ b c d e f g h) =>
        Build_EvidenceOwnerFactRefV2 v b c d e f g h) decode_ProviderBindingRefV2);
    ("fact_kind", decode_at of_FactKind (fun v '(Build_EvidenceOwnerFactRefV2 a _ c d e f g h) =>
        Build_EvidenceOwnerFactRefV2 a v c d e f g h) decode_string);
    ("fact_id", decode_at of_FactID (fun v '(Build_EvidenceOwnerFactRefV2 a b _ d e f g h) =>
        Build_EvidenceOwnerFactRefV2 a b v d e f g h) decode_string);
    ("revision", decode_at of_Revision (fun v '(Build_EvidenceOwnerFactRefV2 a b c _ e f g h) =>
        Build_EvidenceOwnerFactRefV2 a b c v e f g h) decode_uint64);
    ("fact_digest", decode_at of_FactDigest (fun v '(Build_EvidenceOwnerFactRefV2 a b c d _ f g h) =>
        Build_EvidenceOwnerFactRefV2 a b c d v f g h) decode_string);
    ("payload_schema", decode_at of_PayloadSchema (fun v '(Build_EvidenceOwnerFactRefV2 a b c d e _ g h) =>
        Build_EvidenceOwnerFactRefV2 a b c d e v g h) decode_SchemaRefV2);
    ("payload_digest", decode_at of_PayloadDigest (fun v '(Build_EvidenceOwnerFactRefV2 a b c d e f _ h) =>
        Build_EvidenceOwnerFactRefV2 a b c d e f v h) decode_string);
    ("payload_revision", decode_at of_PayloadRevision (fun v '(Build_EvidenceOwnerFactRefV2 a b c d e f g _) =>
        Build_EvidenceOwnerFactRefV2 a b c d e f g v) decode_uint64) ].

Definition zero_EvidenceCausationRefV2 : EvidenceCausationRefV2 :=
  {| ca_LedgerScopeDigest := ""; ca_EventID := "" |}.
Definition decode_EvidenceCausationRefV2 : Decoder EvidenceCausationRefV2 := decode_struct
  [ ("ledger_scope_digest", decode_at ca_LedgerScopeDigest (fun v '(Build_EvidenceCausationRefV2 _ b) =>
        Build_EvidenceCausationRefV2 v b) decode_string);
    ("event_id", decode_at ca_EventID (fun v '(Build_EvidenceCausationRefV2 a _) =>
        Build_EvidenceCausationRefV2 a v) decode_string) ].

Definition zero_EvidenceHistoricalSourceV2 : EvidenceHistoricalSourceV2 :=
  {| hs_RegistrationID := ""; hs_SourceID := ""; hs_SourceEpoch := 0; hs_SourceSequence := 0; hs_ContentDigest
     := ""; hs_Record := zero_EvidenceRecordRefV2; hs_CandidateDigest := "" |}.
Definition decode_EvidenceHistoricalSourceV2 : Decoder EvidenceHistoricalSourceV2 := decode_struct
  [ ("registration_id", decode_at hs_RegistrationID (fun v '(Build_EvidenceHistoricalSourceV2 _ b c d e f g) =>
        Build_EvidenceHistoricalSourceV2 v b c d e f g) decode_string);
    ("source_id", decode_at hs_SourceID (fun v '(Build_EvidenceHistoricalSourceV2 a _ c d e f g) =>
        Build_EvidenceHistoricalSourceV2 a v c d e f g) decode_string);
    ("source_epoch", decode_at hs_SourceEpoch (fun v '(Build_EvidenceHistoricalSourceV2 a b _ d e f g) =>
        Build_EvidenceHistoricalSourceV2 a b v d e f g) decode_uint64);
    ("source_sequence", decode_at hs_SourceSequence (fun v '(Build_EvidenceHistoricalSourceV2 a b c _ e f g) =>
        Build_EvidenceHistoricalSourceV2 a b c v e f g) decode_uint64);
    ("content_digest", decode_at hs_ContentDigest (fun v '(Build_EvidenceHistoricalSourceV2 a b c d _ f g) =>
        Build_EvidenceHistoricalSourceV2 a b c d v f g) decode_string);
    ("record", decode_at hs_Record (fun v '(Build_EvidenceHistoricalSourceV2 a b c d e _ g) =>
        Build_EvidenceHistoricalSourceV2 a b c d e v g) decode_EvidenceRecordRefV2);
    ("candidate_digest", decode_at hs_CandidateDigest (fun v '(Build_EvidenceHistoricalSourceV2 a b c d e f _) =>
        Build_EvidenceHistoricalSourceV2 a b c d e f v) decode_string) ].

Definition zero_EvidencePayloadRefV2 : EvidencePayloadRefV2 :=
  {| pl_Schema := zero_SchemaRefV2; pl_ContentDigest := ""; pl_Revision := 0; pl_Length := 0; pl_Ref := "" |}.
Definition decode_EvidencePayloadRefV2 : Decoder EvidencePayloadRefV2 := decode_struct
  [ ("schema", decode_at pl_Schema (fun v '(Build_EvidencePayloadRefV2 _ b c d e) =>
        Build_EvidencePayloadRefV2 v b c d e) decode_SchemaRefV2);
    ("content_digest", decode_at pl_ContentDigest (fun v '(Build_EvidencePayloadRefV2 a _ c d e) =>
        Build_EvidencePayloadRefV2 a v c d e) decode_string);
    ("revision", decode_at pl_Revision (fun v '(Build_EvidencePayloadRefV2 a b _ d e) =>
        Build_EvidencePayloadRefV2 a b v d e) decode_uint64);
    ("length", decode_at pl_Length (fun v '(Build_EvidencePayloadRefV2 a b c _ e) =>
        Build_EvidencePayloadRefV2 a b c v e) decode_uint64);
    ("ref", decode_at pl_Ref (fun v '(Build_EvidencePayloadRefV2 a b c d _) =>
        Build_EvidencePayloadRefV2 a b c d v) decode_string) ].

Definition zero_EvidenceEventCandidateV2 : EvidenceEventCandidateV2 :=
  {| ev_ContractVersion := ""; ev_LedgerScope := zero_EvidenceLedgerScopeV2; ev_EventID := "";
     ev_RegistrationID := ""; ev_RegistrationRevision := 0; ev_SourceConfigurationDigest := "";
     ev_SourcePolicy := zero_EvidenceSourcePolicyBindingRefV2; ev_SourceID := ""; ev_SourceEpoch := 0;
     ev_SourceSequence := 0; ev_TrustClass := zero_EvidenceTrustClassV2; ev_ClaimKind :=
     zero_RunCompletionClaimKind; ev_EventKind := ""; ev_CustomClass := ""; ev_ExecutionScope :=
     zero_ExecutionScope; ev_Payload := zero_EvidencePayloadRefV2; ev_Causation := None; ev_CorrelationID :=
     ""; ev_Producer := zero_ProviderBindingRefV2; ev_Authority := zero_AuthorityBindingRefV2; ev_OwnerFact :=
     None; ev_HistoricalSource := None; ev_ObservedUnixNano := 0 |}.
Definition decode_EvidenceEventCandidateV2 : Decoder EvidenceEventCandidateV2 := decode_struct
  [ ("contract_version", decode_at ev_ContractVersion
        (fun v '(Build_EvidenceEventCandidateV2 _ b c d e f g h i j k l m n o p q r s t u w x) =>
         Build_EvidenceEventCandidateV2 v b c d e f g h i j k l m n o p q r s t u w x) decode_string);
    ("ledger_scope", decode_at ev_LedgerScope
        (fun v '(Build_EvidenceEventCandidateV2 a _ c d e f g h i j k l m n o p q r s t u w x) =>
         Build_EvidenceEventCandidateV2 a v c d e f g h i j k l m n o p q r s t u w x)
          decode_EvidenceLedgerScopeV2);
    ("event_id", decode_at ev_EventID
        (fun v '(Build_EvidenceEventCandidateV2 a b _ d e f g h i j k l m n o p q r s t u w x) =>
         Build_EvidenceEventCandidateV2 a b v d e f g h i j k l m n o p q r s t u w x) decode_string);
    ("registration_id", decode_at ev_RegistrationID
        (fun v '(Build_EvidenceEventCandidateV2 a b c _ e f g h i j k l m n o p q r s t u w x) =>
         Build_EvidenceEventCandidateV2 a b c v e f g h i j k l m n o p q r s t u w x) decode_string);
    ("registration_revision", decode_at ev_RegistrationRevision
        (fun v '(Build_EvidenceEventCandidateV2 a b c d _ f g h i j k l m n o p q r s t u w x) =>
         Build_EvidenceEventCandidateV2 a b c d v f g h i j k l m n o p q r s t u w x) decode_uint64);
    ("source_configuration_digest", decode_at ev_SourceConfigurationDigest
        (fun v '(Build_EvidenceEventCandidateV2 a b c d e _ g h i j k l m n o p q r s t u w x) =>
         Build_EvidenceEventCandidateV2 a b c d e v g h i j k l m n o p q r s t u w x) decode_string);
    ("source_policy_binding", decode_at ev_SourcePolicy
        (fun v '(Build_EvidenceEventCandidateV2 a b c d e f _ h i j k l m n o p q r s t u w x) =>
         Build_EvidenceEventCandidateV2 a b c d e f v h i j k l m n o p q r s t u w x)
          decode_EvidenceSourcePolicyBindingRefV2);
    ("source_id", decode_at ev_SourceID
        (fun v '(Build_EvidenceEventCandidateV2 a b c d e f g _ i j k l m n o p q r s t u w x) =>
         Build_EvidenceEventCandidateV2 a b c d e f g v i j k l m n o p q r s t u w x) decode_string);
    ("source_epoch", decode_at ev_SourceEpoch
        (fun v '(Build_EvidenceEventCandidateV2 a b c d e f g h _ j k l m n o p q r s t u w x) =>
         Build_EvidenceEventCandidateV2 a b c d e f g h v j k l m n o p q r s t u w x) decode_uint64);
    ("source_sequence", decode_at ev_SourceSequence
        (fun v '(Build_EvidenceEventCandidateV2 a b c d e f g h i _ k l m n o p q r s t u w x) =>
         Build_EvidenceEventCandidateV2 a b c d e f g h i v k l m n o p q r s t u w x) decode_uint64);
    ("trust_class", decode_at ev_TrustClass
        (fun v '(Build_EvidenceEventCandidateV2 a b c d e f g h i j _ l m n o p q r s t u w x) =>
         Build_EvidenceEventCandidateV2 a b c d e f g h i j v l m n o p q r s t u w x)
          decode_EvidenceTrustClassV2);
    ("claim_kind", decode_at ev_ClaimKind
        (fun v '(Build_EvidenceEventCandidateV2 a b c d e f g h i j k _ m n o p q r s t u w x) =>
         Build_EvidenceEventCandidateV2 a b c d e f g h i j k v m n o p q r s t u w x)
          decode_RunCompletionClaimKind);
    ("event_kind", decode_at ev_EventKind
        (fun v '(Build_EvidenceEventCandidateV2 a b c d e f g h i j k l _ n o p q r s t u w x) =>
         Build_EvidenceEventCandidateV2 a b c d e f g h i j k l v n o p q r s t u w x) decode_string);
    ("custom_class", decode_at ev_CustomClass
        (fun v '(Build_EvidenceEventCandidateV2 a b c d e f g h i j k l m _ o p q r s t u w x) =>
         Build_EvidenceEventCandidateV2 a b c d e f g h i j k l m v o p q r s t u w x) decode_string);
    ("execution_scope", decode_at ev_ExecutionScope
        (fun v '(Build_EvidenceEventCandidateV2 a b c d e f g h i j k l m n _ p q r s t u w x) =>
         Build_EvidenceEventCandidateV2 a b c d e f g h i j k l m n v p q r s t u w x) decode_ExecutionScope);
    ("payload", decode_at ev_Payload
        (fun v '(Build_EvidenceEventCandidateV2 a b c d e f g h i j k l m n o _ q r s t u w x) =>
         Build_EvidenceEventCandidateV2 a b c d e f g h i j k l m n o v q r s t u w x)
          decode_EvidencePayloadRefV2);
    ("causation", decode_at ev_Causation
        (fun v '(Build_EvidenceEventCandidateV2 a b c d e f g h i j k l m n o p _ r s t u w x) =>
         Build_EvidenceEventCandidateV2 a b c d e f g h i j k l m n o p v r s t u w x)
          (decode_slice decode_EvidenceCausationRefV2 zero_EvidenceCausationRefV2));
    ("correlation_id", decode_at ev_CorrelationID
        (fun v '(Build_EvidenceEventCandidateV2 a b c d e f g h i j k l m n o p q _ s t u w x) =>
         Build_EvidenceEventCandidateV2 a b c d e f g h i j k l m n o p q v s t u w x) decode_string);
    ("producer_binding", decode_at ev_Producer
        (fun v '(Build_EvidenceEventCandidateV2 a b c d e f g h i j k l m n o p q r _ t u w x) =>
         Build_EvidenceEventCandidateV2 a b c d e f g h i j k l m n o p q r v t u w x)
          decode_ProviderBindingRefV2);
    ("authority_binding", decode_at ev_Authority
        (fun v '(Build_EvidenceEventCandidateV2 a b c d e f g h i j k l m n o p q r s _ u w x) =>
         Build_EvidenceEventCandidateV2 a b c d e f g h i j k l m n o p q r s v u w x)
          decode_AuthorityBindingRefV2);
    ("owner_fact", decode_at ev_OwnerFact
        (fun v '(Build_EvidenceEventCandidateV2 a b c d e f g h i j k l m n o p q r s t _ w x) =>
         Build_EvidenceEventCandidateV2 a b c d e f g h i j k l m n o p q r s t v w x)
          (decode_pointer decode_EvidenceOwnerFactRefV2 zero_EvidenceOwnerFactRefV2));
    ("historical_source", decode_at ev_HistoricalSource
        (fun v '(Build_EvidenceEventCandidateV2 a b c d e f g h i j k l m n o p q r s t u _ x) =>
         Build_EvidenceEventCandidateV2 a b c d e f g h i j k l m n o p q r s t u v x)
          (decode_pointer decode_EvidenceHistoricalSourceV2 zero_EvidenceHistoricalSourceV2));
    ("observed_unix_nano", decode_at ev_ObservedUnixNano
        (fun v '(Build_EvidenceEventCandidateV2 a b c d e f g h i j k l m n o p q r s t u w _) =>
         Build_EvidenceEventCandidateV2 a b c d e f g h i j k l m n o p q r s t u w v) decode_int64) ].

Definition zero_EvidenceLedgerRecordV2 : EvidenceLedgerRecordV2 :=
  {| lr_Ref := zero_EvidenceRecordRefV2; lr_Candidate := zero_EvidenceEventCandidateV2; lr_CandidateDigest :=
     ""; lr_PreviousRecordDigest := ""; lr_IngestedUnixNano := 0 |}.
Definition decode_EvidenceLedgerRecordV2 : Decoder EvidenceLedgerRecordV2 := decode_struct
  [ ("ref", decode_at lr_Ref (fun v '(Build_EvidenceLedgerRecordV2 _ b c d e) =>
        Build_EvidenceLedgerRecordV2 v b c d e) decode_EvidenceRecordRefV2);
    ("candidate", decode_at lr_Candidate (fun v '(Build_EvidenceLedgerRecordV2 a _ c d e) =>
        Build_EvidenceLedgerRecordV2 a v c d e) decode_EvidenceEventCandidateV2);
    ("candidate_digest", decode_at lr_CandidateDigest (fun v '(Build_EvidenceLedgerRecordV2 a b _ d e) =>
        Build_EvidenceLedgerRecordV2 a b v d e) decode_string);
    ("previous_record_digest", decode_at lr_PreviousRecordDigest (fun v '(Build_EvidenceLedgerRecordV2 a b c _ e) =>
        Build_EvidenceLedgerRecordV2 a b c v e) decode_string);
    ("ingested_unix_nano", decode_at lr_IngestedUnixNano (fun v '(Build_EvidenceLedgerRecordV2 a b c d _) =>
        Build_EvidenceLedgerRecordV2 a b c d v) decode_int64) ].

Definition zero_EvidenceSourceKeyV2 : EvidenceSourceKeyV2 :=
  {| sk_RegistrationID := ""; sk_SourceEpoch := 0; sk_SourceSequence := 0 |}.
Definition decode_EvidenceSourceKeyV2 : Decoder EvidenceSourceKeyV2 := decode_struct
  [ ("registration_id", decode_at sk_RegistrationID (fun v '(Build_EvidenceSourceKeyV2 _ b c) =>
        Build_EvidenceSourceKeyV2 v b c) decode_string);
    ("source_epoch", decode_at sk_SourceEpoch (fun v '(Build_EvidenceSourceKeyV2 a _ c) =>
        Build_EvidenceSourceKeyV2 a v c) decode_uint64);
    ("source_sequence", decode_at sk_SourceSequence (fun v '(Build_EvidenceSourceKeyV2 a b _) =>
        Build_EvidenceSourceKeyV2 a b v) decode_uint64) ].

Definition zero_EvidenceTombstoneFactV2 : EvidenceTombstoneFactV2 :=
  {| tb_Record := zero_EvidenceRecordRefV2; tb_Source := zero_EvidenceSourceKeyV2; tb_Causation := None;
     tb_Reason := ""; tb_Revision := 0; tb_CreatedUnixNano := 0 |}.
Definition decode_EvidenceTombstoneFactV2 : Decoder EvidenceTombstoneFactV2 := decode_struct
  [ ("record", decode_at tb_Record (fun v '(Build_EvidenceTombstoneFactV2 _ b c d e f) =>
        Build_EvidenceTombstoneFactV2 v b c d e f) decode_EvidenceRecordRefV2);
    ("source", decode_at tb_Source (fun v '(Build_EvidenceTombstoneFactV2 a _ c d e f) =>
        Build_EvidenceTombstoneFactV2 a v c d e f) decode_EvidenceSourceKeyV2);
    ("causation", decode_at tb_Causation (fun v '(Build_EvidenceTombstoneFactV2 a b _ d e f) =>
        Build_EvidenceTombstoneFactV2 a b v d e f)
          (decode_slice decode_EvidenceCausationRefV2 zero_EvidenceCausationRefV2));
    ("reason", decode_at tb_Reason (fun v '(Build_EvidenceTombstoneFactV2 a b c _ e f) =>
        Build_EvidenceTombstoneFactV2 a b c v e f) decode_string);
    ("revision", decode_at tb_Revision (fun v '(Build_EvidenceTombstoneFactV2 a b c d _ f) =>
        Build_EvidenceTombstoneFactV2 a b c d v f) decode_uint64);
    ("created_unix_nano", decode_at tb_CreatedUnixNano (fun v '(Build_EvidenceTombstoneFactV2 a b c d e _) =>
        Build_EvidenceTombstoneFactV2 a b c d e v) decode_int64) ].

(** ** What the documents determine

    The values of Go's types (uint64, int64), with the names that Validate lets
    through. *)

Definition scope_readable (s : ExecutionScope) : Prop :=
  id_Epoch (sc_Identity s) <= max_u64 /\ inst_Epoch (sc_Instance s) <= max_u64
  /\ from_option (fun l => sbx_Epoch l <= max_u64) True (sc_SandboxLease s) /\ sc_AuthorityEpoch s <= max_u64.
Definition provider_readable (r : ProviderBindingRefV2) : Prop := pb_BindingSetRevision r <= max_u64.
Definition authority_readable (r : AuthorityBindingRefV2) : Prop := ab_Revision r <= max_u64 /\ ab_Epoch r <= max_u64.
Definition current_scope_readable (r : ExecutionScopeBindingRefV2) : Prop := xs_Revision r <= max_u64.
Definition ledger_scope_readable (s : EvidenceLedgerScopeV2) : Prop := ls_Partition s ∈ evidence_partitions.
Definition source_policy_readable (r : EvidenceSourcePolicyBindingRefV2) : Prop := sp_Revision r <= max_u64.
Definition mapping_readable (m : EvidenceClassMappingV2) : Prop := cm_Trust m ∈ evidence_trusts.

Record source_readable (f : EvidenceSourceRegistrationFactV2) : Prop := {
  sr_revision : src_Revision f <= max_u64;
  sr_epoch : src_SourceEpoch f <= max_u64;
  sr_ledger : ledger_scope_readable (src_LedgerScope f);
  sr_scope : scope_readable (src_ExecutionScope f);
  sr_current : current_scope_readable (src_CurrentScope f);
  sr_watermark : src_CurrentScopeWatermark f <= max_u64;
  sr_producer : provider_readable (src_Producer f);
  sr_authority : authority_readable (src_Authority f);
  sr_policy : source_policy_readable (src_Policy f);
  sr_mappings : Forall mapping_readable (src_ClassMappings f);
  sr_next : src_NextSourceSequence f <= max_u64;
  sr_state : src_State f ∈ evidence_source_states;
  sr_created : int64_range (src_CreatedUnixNano f);
  sr_updated : int64_range (src_UpdatedUnixNano f);
  sr_expires : int64_range (src_ExpiresUnixNano f);
}.

Definition record_ref_readable (r : EvidenceRecordRefV2) : Prop := er_Sequence r <= max_u64.
Definition owner_fact_readable (r : EvidenceOwnerFactRefV2) : Prop :=
  provider_readable (of_Owner r) /\ of_Revision r <= max_u64 /\ of_PayloadRevision r <= max_u64.
Definition historical_readable (h : EvidenceHistoricalSourceV2) : Prop :=
  hs_SourceEpoch h <= max_u64 /\ hs_SourceSequence h <= max_u64 /\ record_ref_readable (hs_Record h).
Definition payload_ref_readable (p : EvidencePayloadRefV2) : Prop := pl_Revision p <= max_u64 /\ pl_Length p <= max_u64.

Record candidate_readable (e : EvidenceEventCandidateV2) : Prop := {
  cr_ledger : ledger_scope_readable (ev_LedgerScope e);
  cr_revision : ev_RegistrationRevision e <= max_u64;
  cr_policy : source_policy_readable (ev_SourcePolicy e);
  cr_epoch : ev_SourceEpoch e <= max_u64;
  cr_sequence : ev_SourceSequence e <= max_u64;
  cr_trust : ev_TrustClass e ∈ evidence_trusts;
  cr_claim : ev_ClaimKind e ∈ no_claim :: claim_kinds;
  cr_scope : scope_readable (ev_ExecutionScope e);
  cr_payload : payload_ref_readable (ev_Payload e);
  cr_producer : provider_readable (ev_Producer e);
  cr_authority : authority_readable (ev_Authority e);
  cr_owner_fact : from_option owner_fact_readable True (ev_OwnerFact e);
  cr_historical : from_option historical_readable True (ev_HistoricalSource e);
  cr_observed : int64_range (ev_ObservedUnixNano e);
}.

Record record_readable (r : EvidenceLedgerRecordV2) : Prop := {
  rr_ref : record_ref_readable (lr_Ref r);
  rr_candidate : candidate_readable (lr_Candidate r);
  rr_ingested : int64_range (lr_IngestedUnixNano r);
}.

Definition source_key_readable (k : EvidenceSourceKeyV2) : Prop := sk_SourceEpoch k <= max_u64 /\ sk_SourceSequence k <= max_u64.
Definition tombstone_readable (f : EvidenceTombstoneFactV2) : Prop :=
  record_ref_readable (tb_Record f) /\ source_key_readable (tb_Source f) /\ tb_Revision f <= max_u64
  /\ int64_range (tb_CreatedUnixNano f).

(** *** Reading back what was encoded *)

Lemma reads_AgentIdentityRef :
  reads (fun r => id_Epoch r <= max_u64) AgentIdentityRef_json decode_AgentIdentityRef zero_AgentIdentityRef.
Proof. intros x P U. read_struct x U decode_AgentIdentityRef AgentIdentityRef_json. Qed.
Lemma reads_LineageRef : reads always LineageRef_json decode_LineageRef zero_LineageRef.
Proof. intros x P U. read_struct x U decode_LineageRef LineageRef_json. Qed.
Lemma reads_InstanceRef : reads (fun r => inst_Epoch r <= max_u64) InstanceRef_json decode_InstanceRef zero_InstanceRef.
Proof. intros x P U. read_struct x U decode_InstanceRef InstanceRef_json. Qed.
Lemma reads_SandboxLeaseRef :
  reads (fun r => sbx_Epoch r <= max_u64) SandboxLeaseRef_json decode_SandboxLeaseRef zero_SandboxLeaseRef.
Proof. intros x P U. read_struct x U decode_SandboxLeaseRef SandboxLeaseRef_json. Qed.

Lemma reads_ExecutionScope : reads scope_readable ExecutionScope_json decode_ExecutionScope zero_ExecutionScope.
Proof.
  pose proof reads_AgentIdentityRef. pose proof reads_LineageRef. pose proof reads_InstanceRef.
  pose proof reads_SandboxLeaseRef. intros x (P1 & P2 & P3 & P4) U.
  read_struct x U decode_ExecutionScope ExecutionScope_json.
Qed.

Lemma reads_ProviderBindingRefV2 :
  reads provider_readable ProviderBindingRefV2_json decode_ProviderBindingRefV2 zero_ProviderBindingRefV2.
Proof. intros x P U. unfold provider_readable in P. read_struct x U decode_ProviderBindingRefV2 ProviderBindingRefV2_json. Qed.
Lemma reads_AuthorityBindingRefV2 :
  reads authority_readable AuthorityBindingRefV2_json decode_AuthorityBindingRefV2 zero_AuthorityBindingRefV2.
Proof. intros x [] U. read_struct x U decode_AuthorityBindingRefV2 AuthorityBindingRefV2_json. Qed.
Lemma reads_ExecutionScopeBindingRefV2 :
  reads current_scope_readable ExecutionScopeBindingRefV2_json decode_ExecutionScopeBindingRefV2
    zero_ExecutionScopeBindingRefV2.
Proof.
  intros x P U. unfold current_scope_readable in P.
  read_struct x U decode_ExecutionScopeBindingRefV2 ExecutionScopeBindingRefV2_json.
Qed.

Lemma reads_EvidenceLedgerScopeV2 :
  reads ledger_scope_readable EvidenceLedgerScopeV2_json decode_EvidenceLedgerScopeV2 zero_EvidenceLedgerScopeV2.
Proof.
  intros x P U. unfold ledger_scope_readable in P. unfold decode_EvidencePartitionV2.
  read_struct x U decode_EvidenceLedgerScopeV2 EvidenceLedgerScopeV2_json.
Qed.

Lemma reads_EvidenceSourcePolicyBindingRefV2 :
  reads source_policy_readable EvidenceSourcePolicyBindingRefV2_json decode_EvidenceSourcePolicyBindingRefV2
    zero_EvidenceSourcePolicyBindingRefV2.
Proof.
  intros x P U. unfold source_policy_readable in P.
  read_struct x U decode_EvidenceSourcePolicyBindingRefV2 EvidenceSourcePolicyBindingRefV2_json.
Qed.
Lemma reads_EvidenceClassMappingV2 :
  reads mapping_readable EvidenceClassMappingV2_json decode_EvidenceClassMappingV2 zero_EvidenceClassMappingV2.
Proof.
  intros x P U. unfold mapping_readable in P. unfold decode_EvidenceTrustClassV2.
  read_struct x U decode_EvidenceClassMappingV2 EvidenceClassMappingV2_json.
Qed.

Lemma reads_EvidenceSourceRegistrationFactV2 :
  reads source_readable EvidenceSourceRegistrationFactV2_json decode_EvidenceSourceRegistrationFactV2
    zero_EvidenceSourceRegistrationFactV2.
Proof.
  pose proof reads_EvidenceLedgerScopeV2. pose proof reads_ExecutionScope. pose proof reads_ExecutionScopeBindingRefV2.
  pose proof reads_ProviderBindingRefV2. pose proof reads_AuthorityBindingRefV2. pose proof reads_string.
  pose proof reads_EvidenceSourcePolicyBindingRefV2. pose proof reads_EvidenceClassMappingV2.
  intros x [] U.
  read_struct x U decode_EvidenceSourceRegistrationFactV2 EvidenceSourceRegistrationFactV2_json.
Qed.

Lemma reads_EvidenceRecordRefV2 :
  reads record_ref_readable EvidenceRecordRefV2_json decode_EvidenceRecordRefV2 zero_EvidenceRecordRefV2.
Proof. intros x P U. unfold record_ref_readable in P. read_struct x U decode_EvidenceRecordRefV2 EvidenceRecordRefV2_json. Qed.
Lemma reads_EvidenceOwnerFactRefV2 :
  reads owner_fact_readable EvidenceOwnerFactRefV2_json decode_EvidenceOwnerFactRefV2 zero_EvidenceOwnerFactRefV2.
Proof.
  pose proof reads_ProviderBindingRefV2. pose proof reads_SchemaRefV2. intros x (P1 & P2 & P3) U.
  read_struct x U decode_EvidenceOwnerFactRefV2 EvidenceOwnerFactRefV2_json.
Qed.
Lemma reads_EvidenceCausationRefV2 :
  reads always EvidenceCausationRefV2_json decode_EvidenceCausationRefV2 zero_EvidenceCausationRefV2.
Proof. intros x P U. read_struct x U decode_EvidenceCausationRefV2 EvidenceCausationRefV2_json. Qed.
Lemma reads_EvidenceHistoricalSourceV2 :
  reads historical_readable EvidenceHistoricalSourceV2_json decode_EvidenceHistoricalSourceV2
    zero_EvidenceHistoricalSourceV2.
Proof.
  pose proof reads_EvidenceRecordRefV2. intros x (P1 & P2 & P3) U.
  read_struct x U decode_EvidenceHistoricalSourceV2 EvidenceHistoricalSourceV2_json.
Qed.
Lemma reads_EvidencePayloadRefV2 :
  reads payload_ref_readable EvidencePayloadRefV2_json decode_EvidencePayloadRefV2 zero_EvidencePayloadRefV2.
Proof.
  pose proof reads_SchemaRefV2. intros x [P1 P2] U.
  read_struct x U decode_EvidencePayloadRefV2 EvidencePayloadRefV2_json.
Qed.

Lemma reads_EvidenceEventCandidateV2 :
  reads candidate_readable EvidenceEventCandidateV2_json decode_EvidenceEventCandidateV2
    zero_EvidenceEventCandidateV2.
Proof.
  pose proof reads_EvidenceLedgerScopeV2. pose proof reads_ExecutionScope. pose proof reads_EvidencePayloadRefV2.
  pose proof reads_ProviderBindingRefV2. pose proof reads_AuthorityBindingRefV2. pose proof reads_EvidenceCausationRefV2.
  pose proof reads_EvidenceSourcePolicyBindingRefV2. pose proof reads_EvidenceOwnerFactRefV2.
  pose proof reads_EvidenceHistoricalSourceV2.
  intros x [] U. unfold decode_RunCompletionClaimKind, decode_EvidenceTrustClassV2.
  read_struct x U decode_EvidenceEventCandidateV2 EvidenceEventCandidateV2_json.
Qed.

Lemma reads_EvidenceLedgerRecordV2 :
  reads record_readable EvidenceLedgerRecordV2_json decode_EvidenceLedgerRecordV2 zero_EvidenceLedgerRecordV2.
Proof.
  pose proof reads_EvidenceRecordRefV2. pose proof reads_EvidenceEventCandidateV2. intros x [] U.
  read_struct x U decode_EvidenceLedgerRecordV2 EvidenceLedgerRecordV2_json.
Qed.
Lemma reads_EvidenceSourceKeyV2 :
  reads source_key_readable EvidenceSourceKeyV2_json decode_EvidenceSourceKeyV2 zero_EvidenceSourceKeyV2.
Proof. intros x [P1 P2] U. read_struct x U decode_EvidenceSourceKeyV2 EvidenceSourceKeyV2_json. Qed.
Lemma reads_EvidenceTombstoneFactV2 :
  reads tombstone_readable EvidenceTombstoneFactV2_json decode_EvidenceTombstoneFactV2 zero_EvidenceTombstoneFactV2.
Proof.
  pose proof reads_EvidenceRecordRefV2. pose proof reads_EvidenceSourceKeyV2. pose proof reads_EvidenceCausationRefV2.
  intros x (P1 & P2 & P3 & P4) U. read_struct x U decode_EvidenceTombstoneFactV2 EvidenceTombstoneFactV2_json.
Qed.

(** *** How deep the documents nest *)

Lemma depth_AgentIdentityRef x : json_depth (AgentIdentityRef_json x) <= 1.
Proof. solve_depth 0 AgentIdentityRef_json. Qed.
Lemma depth_LineageRef x : json_depth (LineageRef_json x) <= 1.
Proof. solve_depth 0 LineageRef_json. Qed.
Lemma depth_InstanceRef x : json_depth (InstanceRef_json x) <= 1.
Proof. solve_depth 0 InstanceRef_json. Qed.
Lemma depth_SandboxLeaseRef x : json_depth (SandboxLeaseRef_json x) <= 1.
Proof. solve_depth 0 SandboxLeaseRef_json. Qed.
Lemma depth_SchemaRefV2 x : json_depth (SchemaRefV2_json x) <= 1.
Proof. solve_depth 0 SchemaRefV2_json. Qed.
Lemma depth_ProviderBindingRefV2 x : json_depth (ProviderBindingRefV2_json x) <= 1.
Proof. solve_depth 0 ProviderBindingRefV2_json. Qed.
Lemma depth_AuthorityBindingRefV2 x : json_depth (AuthorityBindingRefV2_json x) <= 1.
Proof. solve_depth 0 AuthorityBindingRefV2_json. Qed.
Lemma depth_ExecutionScopeBindingRefV2 x : json_depth (ExecutionScopeBindingRefV2_json x) <= 1.
Proof. solve_depth 0 ExecutionScopeBindingRefV2_json. Qed.
Lemma depth_EvidenceLedgerScopeV2 x : json_depth (EvidenceLedgerScopeV2_json x) <= 1.
Proof. solve_depth 0 EvidenceLedgerScopeV2_json. Qed.
Lemma depth_EvidenceSourcePolicyBindingRefV2 x : json_depth (EvidenceSourcePolicyBindingRefV2_json x) <= 1.
Proof. solve_depth 0 EvidenceSourcePolicyBindingRefV2_json. Qed.
Lemma depth_EvidenceClassMappingV2 x : json_depth (EvidenceClassMappingV2_json x) <= 1.
Proof. solve_depth 0 EvidenceClassMappingV2_json. Qed.
Lemma depth_EvidenceRecordRefV2 x : json_depth (EvidenceRecordRefV2_json x) <= 1.
Proof. solve_depth 0 EvidenceRecordRefV2_json. Qed.
Lemma depth_EvidenceCausationRefV2 x : json_depth (EvidenceCausationRefV2_json x) <= 1.
Proof. solve_depth 0 EvidenceCausationRefV2_json. Qed.
Lemma depth_EvidenceSourceKeyV2 x : json_depth (EvidenceSourceKeyV2_json x) <= 1.
Proof. solve_depth 0 EvidenceSourceKeyV2_json. Qed.
#[export] Hint Resolve depth_AgentIdentityRef depth_LineageRef depth_InstanceRef depth_SandboxLeaseRef
  depth_SchemaRefV2 depth_ProviderBindingRefV2 depth_AuthorityBindingRefV2 depth_ExecutionScopeBindingRefV2
  depth_EvidenceLedgerScopeV2 depth_EvidenceSourcePolicyBindingRefV2 depth_EvidenceClassMappingV2
  depth_EvidenceRecordRefV2 depth_EvidenceCausationRefV2 depth_EvidenceSourceKeyV2 : depth.

Lemma depth_ExecutionScope x : json_depth (ExecutionScope_json x) <= 2.
Proof. solve_depth 1 ExecutionScope_json. Qed.
Lemma depth_EvidenceOwnerFactRefV2 x : json_depth (EvidenceOwnerFactRefV2_json x) <= 2.
Proof. solve_depth 1 EvidenceOwnerFactRefV2_json. Qed.
Lemma depth_EvidenceHistoricalSourceV2 x : json_depth (EvidenceHistoricalSourceV2_json x) <= 2.
Proof. solve_depth 1 EvidenceHistoricalSourceV2_json. Qed.
Lemma depth_EvidencePayloadRefV2 x : json_depth (EvidencePayloadRefV2_json x) <= 2.
Proof. solve_depth 1 EvidencePayloadRefV2_json. Qed.
#[export] Hint Resolve depth_ExecutionScope depth_EvidenceOwnerFactRefV2 depth_EvidenceHistoricalSourceV2
  depth_EvidencePayloadRefV2 : depth.

Lemma depth_EvidenceEventCandidateV2 x : json_depth (EvidenceEventCandidateV2_json x) <= 3.
Proof. solve_depth 2 EvidenceEventCandidateV2_json. Qed.
Lemma depth_EvidenceSourceRegistrationFactV2 x : json_depth (EvidenceSourceRegistrationFactV2_json x) <= 3.
Proof. solve_depth 2 EvidenceSourceRegistrationFactV2_json. Qed.
Lemma depth_EvidenceTombstoneFactV2 x : json_depth (EvidenceTombstoneFactV2_json x) <= 3.
Proof. solve_depth 2 EvidenceTombstoneFactV2_json. Qed.
#[export] Hint Resolve depth_EvidenceEventCandidateV2 depth_EvidenceSourceRegistrationFactV2
  depth_EvidenceTombstoneFactV2 : depth.

Lemma depth_EvidenceLedgerRecordV2 x : json_depth (EvidenceLedgerRecordV2_json x) <= 4.
Proof. solve_depth 3 EvidenceLedgerRecordV2_json. Qed.
#[export] Hint Resolve depth_EvidenceLedgerRecordV2 : depth.

(** ** Copies *)

Lemma nesting_allowed j : json_depth j <= 4 -> json_depth j <= maxNestingDepth.
Proof. intros H. etrans; [exact H |]. vm_compute. discriminate. Qed.

#[export] Instance source_codec : Codec EvidenceSourceRegistrationFactV2 := {
  to_json := EvidenceSourceRegistrationFactV2_json;
  of_json := decode_EvidenceSourceRegistrationFactV2;
  zero_value := zero_EvidenceSourceRegistrationFactV2;
}.
#[export] Instance candidate_codec : Codec EvidenceEventCandidateV2 := {
  to_json := EvidenceEventCandidateV2_json;
  of_json := decode_EvidenceEventCandidateV2;
  zero_value := zero_EvidenceEventCandidateV2;
}.
#[export] Instance record_codec : Codec EvidenceLedgerRecordV2 := {
  to_json := EvidenceLedgerRecordV2_json;
  of_json := decode_EvidenceLedgerRecordV2;
  zero_value := zero_EvidenceLedgerRecordV2;
}.
#[export] Instance tombstone_codec : Codec EvidenceTombstoneFactV2 := {
  to_json := EvidenceTombstoneFactV2_json;
  of_json := decode_EvidenceTombstoneFactV2;
  zero_value := zero_EvidenceTombstoneFactV2;
}.

#[export] Instance source_codec_laws : CodecLaws EvidenceSourceRegistrationFactV2 source_readable.
Proof.
  split; [exact reads_EvidenceSourceRegistrationFactV2 |]. intros x.
  apply nesting_allowed, (depth_weaken 3); [apply depth_EvidenceSourceRegistrationFactV2 | done].
Qed.
#[export] Instance candidate_codec_laws : CodecLaws EvidenceEventCandidateV2 candidate_readable.
Proof.
  split; [exact reads_EvidenceEventCandidateV2 |]. intros x.
  apply nesting_allowed, (depth_weaken 3); [apply depth_EvidenceEventCandidateV2 | done].
Qed.
#[export] Instance record_codec_laws : CodecLaws EvidenceLedgerRecordV2 record_readable.
Proof.
  split; [exact reads_EvidenceLedgerRecordV2 |]. intros x.
  apply nesting_allowed, depth_EvidenceLedgerRecordV2.
Qed.
#[export] Instance tombstone_codec_laws : CodecLaws EvidenceTombstoneFactV2 tombstone_readable.
Proof.
  split; [exact reads_EvidenceTombstoneFactV2 |]. intros x.
  apply nesting_allowed, (depth_weaken 3); [apply depth_EvidenceTombstoneFactV2 | done].
Qed.

Definition cloneEvidenceV2 {T} `{Codec T} (value : T) : T := json_clone value.

(** A value that its copy equals: its numbers are those of its types, its names
    those that Validate lets through, and its strings UTF-8. *)
Definition copyable {T} `{CodecLaws T readable} (x : T) : Prop := readable x /\ json_utf8 (to_json x) = true.

Lemma evidence_copy_id {T} `{CodecLaws T readable} (x : T) : copyable x -> cloneEvidenceV2 x = x.
Proof. intros [Hr U]. by apply json_clone_id. Qed.
