(* ===== verification/EvidenceLedger.v ===== *)
(** * control/evidence_ledger_v2.go: source registrations and ledger records

    The lifecycle of a source registration, the admission of an event by its
    source, and the construction and validation of chained records.
    [ledger_chain_tamper_evident] is the property of the chain: two chains of
    valid linked records of UTF-8 strings that end in the same record digest are
    equal, or they contain a collision of SHA-256. *)

From stdpp Require Import list.
From S2P Require Import Prelude GoStd Errors Identity RunFact Sha256 Json JsonParse Canonical Payload JsonCodec EffectContract Evidence EvidenceCodec.

Local Open Scope N_scope.

(** ** Source registrations *)

Definition ValidateNewEvidenceSourceV2 (fact : EvidenceSourceRegistrationFactV2) (now : Time) : result unit :=
  EvidenceSourceRegistrationFactV2_Validate fact ;;
  guard (IsZero now || negb (N.eqb (src_Revision fact) 1) || negb (bool_decide (src_State fact = EvidenceSourceActive))
         || negb (N.eqb (src_NextSourceSequence fact) 1)
         || negb (Z.eqb (src_CreatedUnixNano fact) (src_UpdatedUnixNano fact))
         || (UnixNano now <? src_CreatedUnixNano fact)%Z || (src_ExpiresUnixNano fact <=? src_CreatedUnixNano fact)%Z
         || negb (Before now (UnixTime (src_ExpiresUnixNano fact))))
    ErrorInvalidArgument ReasonEvidenceSourceMissing.

(** sameEvidenceMappingsV2 and sameEvidenceKindsV2: equal lengths, and equal
    elements at every index. *)
Definition same_elements {A} `{EqDecision A} (left right : list A) : bool :=
  Nat.eqb (length left) (length right) && forallb (fun '(l, r) => bool_decide (l = r)) (combine left right).
Definition sameEvidenceMappingsV2 : list EvidenceClassMappingV2 -> list EvidenceClassMappingV2 -> bool := same_elements.
Definition sameEvidenceKindsV2 : list string -> list string -> bool := same_elements.

Definition validEvidenceScopeWatermarkAdvanceV2 (current next : EvidenceSourceRegistrationFactV2) : bool :=
  if bool_decide (src_CurrentScope current = src_CurrentScope next) then
    N.eqb (src_CurrentScopeWatermark current) (src_CurrentScopeWatermark next)
  else bool_decide (xs_Ref (src_CurrentScope current) = xs_Ref (src_CurrentScope next))
       && N.eqb (xs_Revision (src_CurrentScope next)) (u64_succ (xs_Revision (src_CurrentScope current)))
       && negb (bool_decide (xs_Digest (src_CurrentScope next) = xs_Digest (src_CurrentScope current)))
       && (src_CurrentScopeWatermark current <? src_CurrentScopeWatermark next).

Definition validEvidenceProducerWatermarkAdvanceV2 (current next : EvidenceProducerBindingRefV2) : bool :=
  if bool_decide (current = next) then true
  else bool_decide (pb_BindingSetID current = pb_BindingSetID next)
       && bool_decide (pb_ComponentID current = pb_ComponentID next)
       && bool_decide (pb_ManifestDigest current = pb_ManifestDigest next)
       && bool_decide (pb_ArtifactDigest current = pb_ArtifactDigest next)
       && bool_decide (pb_Capability current = pb_Capability next)
       && N.eqb (pb_BindingSetRevision next) (u64_succ (pb_BindingSetRevision current)).

Definition validEvidenceAuthorityWatermarkAdvanceV2 (current next : AuthorityBindingRefV2) : bool :=
  if bool_decide (current = next) then true
  else bool_decide (ab_Ref current = ab_Ref next) && N.eqb (ab_Epoch current) (ab_Epoch next)
       && N.eqb (ab_Revision next) (u64_succ (ab_Revision current))
       && negb (bool_decide (ab_Digest next = ab_Digest current)).

Definition validEvidencePolicyWatermarkAdvanceV2 (current next : EvidenceSourcePolicyBindingRefV2) : bool :=
  if bool_decide (current = next) then true
  else bool_decide (sp_Ref current = sp_Ref next) && N.eqb (sp_Revision next) (u64_succ (sp_Revision current))
       && negb (bool_decide (sp_Digest next = sp_Digest current)).

Definition source_identity_kept (current next : EvidenceSourceRegistrationFactV2) : bool :=
  bool_decide (src_ID current = src_ID next) && bool_decide (src_SourceID current = src_SourceID next)
  && N.eqb (src_SourceEpoch current) (src_SourceEpoch next)
  && bool_decide (src_LedgerScope current = src_LedgerScope next)
  && sameScope (src_ExecutionScope current) (src_ExecutionScope next)
  && bool_decide (src_ActionScopeDigest current = src_ActionScopeDigest next)
  && sameEvidenceMappingsV2 (src_ClassMappings current) (src_ClassMappings next)
  && sameEvidenceKindsV2 (src_AllowedKinds current) (src_AllowedKinds next)
  && bool_decide (src_GapPolicy current = src_GapPolicy next).

Definition ValidateEvidenceSourceTransitionV2 (current next : EvidenceSourceRegistrationFactV2) (now : Time)
  : result unit :=
  EvidenceSourceRegistrationFactV2_Validate current ;;
  EvidenceSourceRegistrationFactV2_Validate next ;;
  guard (IsZero now || (UnixNano now <? src_UpdatedUnixNano current)%Z) ErrorPreconditionFailed ReasonClockRegression ;;
  guard (negb (source_identity_kept current next)) ErrorConflict ReasonEvidenceSourceStale ;;
  guard (negb (validEvidenceScopeWatermarkAdvanceV2 current next)
         || negb (validEvidenceProducerWatermarkAdvanceV2 (src_Producer current) (src_Producer next))
         || negb (validEvidenceAuthorityWatermarkAdvanceV2 (src_Authority current) (src_Authority next))
         || negb (validEvidencePolicyWatermarkAdvanceV2 (src_Policy current) (src_Policy next)))
    ErrorConflict ReasonEvidenceSourceStale ;;
  guard (negb (N.eqb (src_Revision next) (u64_succ (src_Revision current)))
         || negb (N.eqb (src_NextSourceSequence next) (src_NextSourceSequence current))
         || negb (Z.eqb (src_CreatedUnixNano next) (src_CreatedUnixNano current))
         || negb (Z.eqb (src_UpdatedUnixNano next) (UnixNano now))) ErrorConflict ReasonRevisionConflict ;;
  guard (negb (bool_decide (src_State current = EvidenceSourceActive)))
    ErrorPreconditionFailed ReasonEvidenceSourceStale ;;
  match src_State next with
  | EvidenceSourceActive =>
      guard (src_ExpiresUnixNano next <=? src_ExpiresUnixNano current)%Z
        ErrorPreconditionFailed ReasonEvidenceSourceStale
  | EvidenceSourceRevoked =>
      guard (negb (Z.eqb (src_ExpiresUnixNano next) (src_ExpiresUnixNano current)))
        ErrorPreconditionFailed ReasonEvidenceSourceStale
  | EvidenceSourceExpired =>
      guard (negb (Z.eqb (src_ExpiresUnixNano next) (src_ExpiresUnixNano current))
             || Before now (UnixTime (src_ExpiresUnixNano current))) ErrorPreconditionFailed ReasonEvidenceSourceStale
  | EvidenceSourceStateOther _ => fail ErrorPreconditionFailed ReasonInvalidTransition
  end.

(** ** Admission of an event *)

(** The trust class of the first mapping of the class; "" and false without one. *)
Fixpoint evidenceMappedTrustV2 (mappings : list EvidenceClassMappingV2) (class : string) : EvidenceTrustClassV2 * bool :=
  match mappings with
  | [] => (EvidenceTrustOther "", false)
  | mapping :: rest =>
      if bool_decide (cm_Class mapping = class) then (cm_Trust mapping, true) else evidenceMappedTrustV2 rest class
  end.

Definition evidenceKindAllowedV2 (kinds : list string) (kind : string) : bool :=
  existsb (fun current => bool_decide (current = kind)) kinds.

(** The event names its registration as it stands. *)
Definition event_matches_source (source : EvidenceSourceRegistrationFactV2) (configuration : Digest)
    (event : EvidenceEventCandidateV2) (expected : N) : bool :=
  N.eqb expected (src_Revision source) && bool_decide (ev_RegistrationID event = src_ID source)
  && N.eqb (ev_RegistrationRevision event) (src_Revision source)
  && bool_decide (ev_SourceConfigurationDigest event = configuration)
  && bool_decide (ev_SourcePolicy event = src_Policy source) && bool_decide (ev_SourceID event = src_SourceID source)
  && N.eqb (ev_SourceEpoch event) (src_SourceEpoch source)
  && bool_decide (ev_LedgerScope event = src_LedgerScope source)
  && sameScope (ev_ExecutionScope event) (src_ExecutionScope source)
  && bool_decide (ev_Producer event = src_Producer source) && bool_decide (ev_Authority event = src_Authority source).

Definition ValidateEvidenceAppendV2 (source : EvidenceSourceRegistrationFactV2) (request : EvidenceAppendRequestV2)
    (now : Time) : result unit :=
  EvidenceSourceRegistrationFactV2_Validate source ;;
  EvidenceEventCandidateV2_Validate (app_Candidate request) ;;
  guard (IsZero now || (UnixNano now <? src_UpdatedUnixNano source)%Z) ErrorPreconditionFailed ReasonClockRegression ;;
  guard (negb (bool_decide (src_State source = EvidenceSourceActive))
         || negb (EvidenceTimeCurrentV2 (src_ExpiresUnixNano source) now))
    ErrorPreconditionFailed ReasonEvidenceSourceStale ;;
  let event := app_Candidate request in
  configuration ← ConfigurationDigestV2 source ;
  guard (negb (event_matches_source source configuration event (app_ExpectedSourceRevision request)))
    ErrorPreconditionFailed ReasonEvidenceSourceStale ;;
  guard (negb (N.eqb (ev_SourceSequence event) (src_NextSourceSequence source)))
    ErrorConflict ReasonEvidenceSequenceGap ;;
  guard (negb (evidenceKindAllowedV2 (src_AllowedKinds source) (ev_EventKind event)))
    ErrorForbidden ReasonEvidenceTrustInvalid ;;
  let '(trust, ok) := evidenceMappedTrustV2 (src_ClassMappings source) (ev_CustomClass event) in
  guard (negb ok || negb (bool_decide (trust = ev_TrustClass event))
         || bool_decide (ev_TrustClass event = EvidenceTrustLateObservation))
    ErrorForbidden ReasonEvidenceTrustInvalid ;;
  guard (UnixNano now <? ev_ObservedUnixNano event)%Z ErrorPreconditionFailed ReasonClockRegression.

(** The event as an observation without its history. *)
Definition ordinary_event (e : EvidenceEventCandidateV2) : EvidenceEventCandidateV2 :=
  {| ev_ContractVersion := ev_ContractVersion e; ev_LedgerScope := ev_LedgerScope e; ev_EventID := ev_EventID e;
     ev_RegistrationID := ev_RegistrationID e; ev_RegistrationRevision := ev_RegistrationRevision e;
     ev_SourceConfigurationDigest := ev_SourceConfigurationDigest e; ev_SourcePolicy := ev_SourcePolicy e;
     ev_SourceID := ev_SourceID e; ev_SourceEpoch := ev_SourceEpoch e; ev_SourceSequence := ev_SourceSequence e;
     ev_TrustClass := EvidenceTrustObservation; ev_ClaimKind := ev_ClaimKind e; ev_EventKind := ev_EventKind e;
     ev_CustomClass := ev_CustomClass e; ev_ExecutionScope := ev_ExecutionScope e; ev_Payload := ev_Payload e;
     ev_Causation := ev_Causation e; ev_CorrelationID := ev_CorrelationID e; ev_Producer := ev_Producer e;
     ev_Authority := ev_Authority e; ev_OwnerFact := ev_OwnerFact e; ev_HistoricalSource := None;
     ev_ObservedUnixNano := ev_ObservedUnixNano e |}.

Definition ValidateEvidenceLateAppendV2 (source : EvidenceSourceRegistrationFactV2) (request : EvidenceAppendRequestV2)
    (now : Time) : result unit :=
  let event := app_Candidate request in
  guard (negb (bool_decide (ev_TrustClass event = EvidenceTrustLateObservation))
         || negb (bool_decide (is_Some (ev_HistoricalSource event))) || bool_decide (is_Some (ev_OwnerFact event)))
    ErrorForbidden ReasonEvidenceTrustInvalid ;;
  ValidateEvidenceAppendV2 source
    {| app_Candidate := ordinary_event event; app_ExpectedSourceRevision := app_ExpectedSourceRevision request |} now.

(** ** Records *)

(** `copy.Ref.RecordDigest = digest`. *)
Definition with_record_digest (digest : Digest) (r : EvidenceLedgerRecordV2) : EvidenceLedgerRecordV2 :=
  {| lr_Ref := {| er_LedgerScopeDigest := er_LedgerScopeDigest (lr_Ref r); er_Sequence := er_Sequence (lr_Ref r);
                  er_RecordDigest := digest |};
     lr_Candidate := lr_Candidate r; lr_CandidateDigest := lr_CandidateDigest r;
     lr_PreviousRecordDigest := lr_PreviousRecordDigest r; lr_IngestedUnixNano := lr_IngestedUnixNano r |}.

Definition EvidenceLedgerRecordDigestV2 (record : EvidenceLedgerRecordV2) : result Digest :=
  guard (N.eqb (er_Sequence (lr_Ref record)) 0 || (lr_IngestedUnixNano record <=? 0)%Z)
    ErrorInvalidArgument ReasonEvidenceChainConflict ;;
  Digest_Validate (er_LedgerScopeDigest (lr_Ref record)) ;;
  digest ← EvidenceEventCandidateV2_DigestV2 (lr_Candidate record) ;
  guard (negb (bool_decide (digest = lr_CandidateDigest record))) ErrorPreconditionFailed ReasonEvidenceConflict ;;
  evidence_digest "EvidenceLedgerRecordV2" (EvidenceLedgerRecordV2_json (with_record_digest "" record)).

Definition NewEvidenceLedgerRecordV2 (candidate : EvidenceEventCandidateV2) (ledgerSequence : N) (previous : Digest)
    (ingested : Time) : result EvidenceLedgerRecordV2 :=
  EvidenceEventCandidateV2_Validate candidate ;;
  guard (N.eqb ledgerSequence 0 || IsZero ingested || (UnixNano ingested <? ev_ObservedUnixNano candidate)%Z)
    ErrorInvalidArgument ReasonEvidenceChainConflict ;;
  scopeDigest ← EvidenceLedgerScopeV2_DigestV2 (ev_LedgerScope candidate) ;
  candidateDigest ← EvidenceEventCandidateV2_DigestV2 candidate ;
  guard (if N.eqb ledgerSequence 1 then negb (bool_decide (previous = EvidenceGenesisDigestV2))
         else negb (is_ok (Digest_Validate previous))) ErrorConflict ReasonEvidenceChainConflict ;;
  let record := {| lr_Ref := {| er_LedgerScopeDigest := scopeDigest; er_Sequence := ledgerSequence;
                                er_RecordDigest := "" |};
                   lr_Candidate := candidate; lr_CandidateDigest := candidateDigest;
                   lr_PreviousRecordDigest := previous; lr_IngestedUnixNano := UnixNano ingested |} in
  digest ← EvidenceLedgerRecordDigestV2 record ;
  Ok (with_record_digest digest record).

Definition ValidateEvidenceLedgerRecordV2 (record : EvidenceLedgerRecordV2) : result unit :=
  EvidenceLedgerRecordV2_Validate record ;;
  scopeDigest ← EvidenceLedgerScopeV2_DigestV2 (ev_LedgerScope (lr_Candidate record)) ;
  guard (negb (bool_decide (er_LedgerScopeDigest (lr_Ref record) = scopeDigest)))
    ErrorPreconditionFailed ReasonEvidenceScopeConflict ;;
  guard (N.eqb (er_Sequence (lr_Ref record)) 1
         && negb (bool_decide (lr_PreviousRecordDigest record = EvidenceGenesisDigestV2)))
    ErrorConflict ReasonEvidenceChainConflict ;;
  digest ← EvidenceLedgerRecordDigestV2 record ;
  guard (negb (bool_decide (er_RecordDigest (lr_Ref record) = digest)))
    ErrorPreconditionFailed ReasonEvidenceChainConflict.

Definition ValidateEvidenceSourceKeyV2 (key : EvidenceSourceKeyV2) : result unit :=
  guard (blank (sk_RegistrationID key) || N.eqb (sk_SourceEpoch key) 0 || N.eqb (sk_SourceSequence key) 0)
    ErrorInvalidArgument ReasonEvidenceSourceMissing.

(** ** Lemmas *)

Lemma same_elements_iff {A} `{EqDecision A} (l r : list A) : same_elements l r = true <-> l = r.
Proof.
  unfold same_elements. revert r; induction l as [| x l IH]; intros [| y r]; cbn; try done.
  rewrite andb_true_iff, andb_true_iff, bool_decide_eq_true.
  specialize (IH r). rewrite andb_true_iff in IH. naive_solver.
Qed.

Lemma Digest_valid_graphic d : Digest_Validate d = Ok tt -> Forall (fun c => graphic_ascii c = true) (bytes d).
Proof.
  unfold Digest_Validate. destruct (strip_prefix _ _) as [raw |] eqn:E; [| done].
  destruct (hex_decode raw) as [bs |] eqn:Eh; [| done]. intros _.
  apply strip_prefix_Some in E. rewrite E, Forall_app.
  split; [by repeat constructor |]. clear E. revert raw bs Eh; fix IH 1; intros [| a [| b raw]] bs; cbn; try done.
  destruct (hex_val a) eqn:Ea, (hex_val b) eqn:Eb, (hex_decode raw) eqn:Er; try done. intros _.
  assert (forall c n, hex_val c = Some n -> graphic_ascii c = true) as Hc
    by (intros [[] [] [] [] [] [] [] []] k; vm_compute; first [reflexivity | discriminate]).
  constructor; [by eapply Hc | constructor; [by eapply Hc |]]. by eapply IH.
Qed.

Lemma Digest_valid_utf8 d : Digest_Validate d = Ok tt -> valid_utf8 d = true.
Proof. intros V. by apply graphic_utf8, Digest_valid_graphic. Qed.

Lemma hex_digest_utf8 q : valid_utf8 (hex_digest q) = true.
Proof. apply Digest_valid_utf8, hex_digest_valid. Qed.

Lemma evidence_digest_Ok k j d : evidence_digest k j = Ok d -> Digest_Validate d = Ok tt.
Proof. intros ->%document_digest_Ok. apply hex_digest_valid. Qed.

Lemma ledger_scope_digest_valid s d : EvidenceLedgerScopeV2_DigestV2 s = Ok d -> Digest_Validate d = Ok tt.
Proof. unfold EvidenceLedgerScopeV2_DigestV2. intros [_ H]%seq_Ok. by eapply evidence_digest_Ok. Qed.
Lemma candidate_digest_valid c d : EvidenceEventCandidateV2_DigestV2 c = Ok d -> Digest_Validate d = Ok tt.
Proof. unfold EvidenceEventCandidateV2_DigestV2. intros [_ H]%seq_Ok. by eapply evidence_digest_Ok. Qed.
Lemma record_digest_valid r d : EvidenceLedgerRecordDigestV2 r = Ok d -> Digest_Validate d = Ok tt.
Proof.
  unfold EvidenceLedgerRecordDigestV2. rewrite seq_guard_Ok, seq_Ok, bind_Ok. intros (_ & _ & q & _ & H).
  rewrite seq_guard_Ok in H. destruct H as [_ H]. by eapply evidence_digest_Ok.
Qed.

Lemma candidate_observed c : EvidenceEventCandidateV2_Validate c = Ok tt -> (0 < ev_ObservedUnixNano c)%Z.
Proof. unfold EvidenceEventCandidateV2_Validate. rewrite seq_guard_Ok. intros [H _]. go_bool. lia. Qed.

(** A record that New built is one that Validate accepts. *)
Lemma record_json_digest d r : with_record_digest "" (with_record_digest d r) = with_record_digest "" r.
Proof. done. Qed.

Lemma EvidenceLedgerRecordDigestV2_with d r :
  EvidenceLedgerRecordDigestV2 (with_record_digest d r) = EvidenceLedgerRecordDigestV2 r.
Proof. done. Qed.

Lemma NewEvidenceLedgerRecordV2_Ok c n previous now r :
  NewEvidenceLedgerRecordV2 c n previous now = Ok r ->
  ValidateEvidenceLedgerRecordV2 r = Ok tt /\ lr_Candidate r = c /\ er_Sequence (lr_Ref r) = n
  /\ lr_PreviousRecordDigest r = previous /\ lr_IngestedUnixNano r = UnixNano now
  /\ EvidenceLedgerScopeV2_DigestV2 (ev_LedgerScope c) = Ok (er_LedgerScopeDigest (lr_Ref r))
  /\ EvidenceEventCandidateV2_DigestV2 c = Ok (lr_CandidateDigest r) /\ n <> 0.
Proof.
  unfold NewEvidenceLedgerRecordV2. rewrite seq_Ok, seq_guard_Ok, bind_Ok. intros (V & Hg & sd & Hsd & H).
  rewrite bind_Ok in H. destruct H as (cd & Hcd & H). rewrite seq_guard_Ok, bind_Ok in H.
  destruct H as (Hp & d & Hd & [= <-]).
  pose proof (candidate_observed c V). pose proof (ledger_scope_digest_valid _ _ Hsd) as Vsd.
  pose proof (candidate_digest_valid _ _ Hcd) as Vcd. pose proof (record_digest_valid _ _ Hd) as Vd.
  assert (Digest_Validate previous = Ok tt /\ (n = 1 -> previous = EvidenceGenesisDigestV2)) as [Vp Hgen].
  { destruct (N.eqb_spec n 1) as [-> |]; go_bool; [by subst | split; [| done]].
    apply is_ok_true in Hp. by destruct Hp as [[] Hp]. }
  go_bool. destruct Hg as [[Hn _] Ho]. cbn. split_and!; try done.
  unfold ValidateEvidenceLedgerRecordV2, EvidenceLedgerRecordV2_Validate, EvidenceRecordRefV2_Validate. cbn.
  rewrite Vsd, Vd, Vcd, Vp, Hsd, V, EvidenceLedgerRecordDigestV2_with, Hd. cbn.
  rewrite (proj2 (N.eqb_neq n 0)) by done. rewrite (proj2 (Z.leb_gt _ _)) by lia.
  rewrite bool_decide_true by done.
  assert (N.eqb n 1 && negb (bool_decide (previous = EvidenceGenesisDigestV2)) = false) as ->.
  { destruct (N.eqb_spec n 1); [| done]. by rewrite bool_decide_true by auto. }
  cbn. by rewrite bool_decide_true.
Qed.

Lemma ValidateEvidenceLedgerRecordV2_Ok r :
  ValidateEvidenceLedgerRecordV2 r = Ok tt ->
  EvidenceLedgerScopeV2_DigestV2 (ev_LedgerScope (lr_Candidate r)) = Ok (er_LedgerScopeDigest (lr_Ref r))
  /\ EvidenceLedgerRecordDigestV2 r = Ok (er_RecordDigest (lr_Ref r))
  /\ (er_Sequence (lr_Ref r) = 1 -> lr_PreviousRecordDigest r = EvidenceGenesisDigestV2)
  /\ EvidenceEventCandidateV2_DigestV2 (lr_Candidate r) = Ok (lr_CandidateDigest r)
  /\ EvidenceLedgerRecordV2_Validate r = Ok tt.
Proof.
  unfold ValidateEvidenceLedgerRecordV2. rewrite seq_Ok, bind_Ok. intros (V & sd & Hsd & H).
  rewrite !seq_guard_Ok, bind_Ok in H. destruct H as (E1 & E2 & d & Hd & E3%guard_Ok). go_bool. subst.
  rewrite Hsd, Hd. split_and!; try done.
  - intros Hn. by destruct E2.
  - unfold EvidenceLedgerRecordDigestV2 in Hd. rewrite seq_guard_Ok, seq_Ok, bind_Ok in Hd.
    destruct Hd as (_ & _ & q & Hq & Hd). rewrite seq_guard_Ok in Hd. destruct Hd as [Hd _]. go_bool. by subst.
Qed.

(** *** The document of a record *)

Definition record_preimage (r : EvidenceLedgerRecordV2) : list N :=
  document_preimage evidence_domain EvidenceContractVersionV2 "EvidenceLedgerRecordV2"
    (EvidenceLedgerRecordV2_json (with_record_digest "" r)).

Lemma sealed_record_utf8 d r :
  json_utf8 (EvidenceLedgerRecordV2_json r) = true -> valid_utf8 d = true ->
  json_utf8 (EvidenceLedgerRecordV2_json (with_record_digest d r)) = true.
Proof.
  unfold EvidenceLedgerRecordV2_json, EvidenceRecordRefV2_json, JStruct. intros H Hd. cbn [concat app field] in *.
  cbn [lr_Ref lr_Candidate lr_CandidateDigest lr_PreviousRecordDigest lr_IngestedUnixNano with_record_digest
       er_LedgerScopeDigest er_Sequence er_RecordDigest json_utf8 forallb fst snd] in *.
  rewrite ?andb_true_iff in *. destruct_and? H. rewrite Hd. split_and!; done.
Qed.

Lemma record_digest_binds r r' :
  ValidateEvidenceLedgerRecordV2 r = Ok tt -> ValidateEvidenceLedgerRecordV2 r' = Ok tt ->
  copyable r -> copyable r' -> er_RecordDigest (lr_Ref r) = er_RecordDigest (lr_Ref r') ->
  r = r' \/ collision (record_preimage r) (record_preimage r').
Proof.
  intros (_ & V & _)%ValidateEvidenceLedgerRecordV2_Ok (_ & V' & _)%ValidateEvidenceLedgerRecordV2_Ok.
  unfold EvidenceLedgerRecordDigestV2 in V, V'. rewrite seq_guard_Ok, seq_Ok, bind_Ok in V, V'.
  destruct V as (_ & _ & q & _ & V), V' as (_ & _ & q' & _ & V'). rewrite seq_guard_Ok in V, V'.
  destruct V as [_ V], V' as [_ V']. intros [[R1 R2 R3] U] [[R1' R2' R3'] U'] E. rewrite <- E in V'.
  destruct (document_digest_binds _ _ _ _ _ _ _ V V') as [[_ Ej] | Hc]; [by apply sealed_record_utf8 .. | | by right].
  left. apply (reads_inj record_readable _ _ _ _ _ reads_EvidenceLedgerRecordV2) in Ej; [| done | done | by apply sealed_record_utf8].
  destruct r as [[a b c] d e f g], r' as [[a' b' c'] d' e' f' g']. cbn in E. subst. by injection Ej as -> -> -> -> -> ->.
Qed.

(** ** Chains *)

(** The records of a ledger scope from sequence [next] on: each is valid, has
    the next sequence, and names its predecessor. *)
Fixpoint linked (next : N) (previous : Digest) (records : list EvidenceLedgerRecordV2) : Prop :=
  match records with
  | [] => True
  | r :: rest =>
      ValidateEvidenceLedgerRecordV2 r = Ok tt /\ er_Sequence (lr_Ref r) = next /\ lr_PreviousRecordDigest r = previous
      /\ linked (next + 1) (er_RecordDigest (lr_Ref r)) rest
  end.
Definition ledger_chain (records : list EvidenceLedgerRecordV2) : Prop := linked 1 EvidenceGenesisDigestV2 records.

Definition chain_head (previous : Digest) (records : list EvidenceLedgerRecordV2) : Digest :=
  from_option (fun r => er_RecordDigest (lr_Ref r)) previous (last records).

Lemma linked_snoc n p l r :
  linked n p (l ++ [r]) <->
  linked n p l /\ ValidateEvidenceLedgerRecordV2 r = Ok tt /\ er_Sequence (lr_Ref r) = n + N.of_nat (length l)
  /\ lr_PreviousRecordDigest r = chain_head p l.
Proof.
  revert n p. induction l as [| x l IH]; intros n p; cbn.
  - rewrite N.add_0_r. naive_solver.
  - rewrite IH. assert (chain_head p (x :: l) = chain_head (er_RecordDigest (lr_Ref x)) l) as ->
      by (unfold chain_head; rewrite last_cons; by destruct (last l)).
    assert (n + 1 + N.of_nat (length l) = n + N.of_nat (S (length l))) as -> by lia. tauto.
Qed.

Lemma chains_meet l l' :
  length l = length l' -> ledger_chain l -> ledger_chain l' -> Forall copyable l -> Forall copyable l' ->
  chain_head EvidenceGenesisDigestV2 l = chain_head EvidenceGenesisDigestV2 l' ->
  l = l' \/ exists r r', r ∈ l /\ r' ∈ l' /\ collision (record_preimage r) (record_preimage r').
Proof.
  revert l'. induction l as [| r l IH] using rev_ind; intros l' Hlen H H' C C' E; [by destruct l'; left |].
  destruct l' as [| r' l' _] using rev_ind; [rewrite length_app in Hlen; cbn in Hlen; lia |].
  rewrite !length_app in Hlen. cbn in Hlen. unfold chain_head in E. rewrite !last_snoc in E. cbn in E.
  apply linked_snoc in H as (H & V & Hs & Hp), H' as (H' & V' & Hs' & Hp').
  apply Forall_app in C as [C Cr], C' as [C' Cr']. inv Cr. inv Cr'.
  destruct (record_digest_binds r r') as [<- | Hc]; [done .. | |].
  - destruct (IH l') as [<- | (a & b & Ha & Hb & Hc)]; [lia | done .. | congruence | by left |].
    right. exists a, b. set_solver.
  - right. exists r, r'. set_solver.
Qed.

(** C26: the ledger is tamper evident for records whose strings are UTF-8
    ([copyable]).  Two chains of such valid, linked records that end in a record
    with the same digest are the same chain, record for record, unless two of their
    records are a collision of SHA-256: whoever holds the last digest of a scope
    holds its whole history.  The digest does not tell two records apart whose
    strings differ only in invalid bytes, as their encodings are equal
    ([LedgerHistory.digest_ignores_invalid_bytes]). *)
Theorem ledger_chain_tamper_evident (l l' : list EvidenceLedgerRecordV2) (r r' : EvidenceLedgerRecordV2)
    (H : ledger_chain l) (H' : ledger_chain l') (C : Forall copyable l) (C' : Forall copyable l')
    (Hr : last l = Some r) (Hr' : last l' = Some r')
    (E : er_RecordDigest (lr_Ref r) = er_RecordDigest (lr_Ref r')) :
  l = l' \/ exists a b, a ∈ l /\ b ∈ l' /\ collision (record_preimage a) (record_preimage b).
Proof.
  pose proof Hr as Hl. pose proof Hr' as Hl'.
  apply last_Some in Hl as [k ->], Hl' as [k' ->].
  pose proof H as Hc. pose proof H' as Hc'. apply linked_snoc in Hc as (_ & V & Hs & _), Hc' as (_ & V' & Hs' & _).
  pose proof C as Cr. pose proof C' as Cr'. apply Forall_app in Cr as [_ Cr], Cr' as [_ Cr']. inv Cr. inv Cr'.
  destruct (record_digest_binds r r') as [<- | Hcol]; [done .. | |].
  - apply chains_meet; [rewrite !length_app; cbn; lia | done .. |]. unfold chain_head. by rewrite !last_snoc.
  - right. exists r, r'. set_solver.
Qed.
