(* ===== verification/LedgerStore.v ===== *)
(** * fakes/evidence_ledger_v2.go: the evidence fact owner

    The in-memory owner of source registrations, ledger records and tombstones,
    one atomic step per method, the clock reading an argument.  The methods of
    evidence subjects (their projections, indexes and commits) keep state of
    their own and are left out. *)

From stdpp Require Import sorting.
From S2P Require Import Prelude GoStd Errors Identity FactStore RunFact Json Canonical Payload JsonCodec EffectContract Evidence EvidenceCodec EvidenceLedger.
From Stdlib Require Import Ascii.

Local Open Scope N_scope.

(** ** State *)

Record EvidenceLedgerStoreV2 := {
  el_sources : gmap string EvidenceSourceRegistrationFactV2;
  el_sourceEpochs : gmap string string;
  el_records : gmap Digest (gmap N EvidenceLedgerRecordV2);
  el_bySource : gmap string EvidenceLedgerRecordV2;
  el_byEvent : gmap string EvidenceLedgerRecordV2;
  el_lastSequence : gmap Digest N;
  el_lastDigest : gmap Digest Digest;
  el_tombstones : gmap string EvidenceTombstoneFactV2;
  el_loseNextCreateReply : bool;
  el_loseNextCASReply : bool;
  el_loseNextAppendReply : bool;
  el_loseNextTombstoneReply : bool;
}.

Definition NewEvidenceLedgerStoreV2 : EvidenceLedgerStoreV2 :=
  {| el_sources := ∅; el_sourceEpochs := ∅; el_records := ∅; el_bySource := ∅; el_byEvent := ∅; el_lastSequence := ∅;
     el_lastDigest := ∅; el_tombstones := ∅; el_loseNextCreateReply := false; el_loseNextCASReply := false;
     el_loseNextAppendReply := false; el_loseNextTombstoneReply := false |}.

(** Four maps are written one at a time; the six that an append writes, and the
    flags, are written by [put_record] and the [lose] updates. *)
Definition set_sources (v : gmap string EvidenceSourceRegistrationFactV2) (s : EvidenceLedgerStoreV2)
  : EvidenceLedgerStoreV2 :=
  {| el_sources := v; el_sourceEpochs := el_sourceEpochs s; el_records := el_records s; el_bySource := el_bySource s;
     el_byEvent := el_byEvent s; el_lastSequence := el_lastSequence s; el_lastDigest := el_lastDigest s;
     el_tombstones := el_tombstones s; el_loseNextCreateReply := el_loseNextCreateReply s;
     el_loseNextCASReply := el_loseNextCASReply s; el_loseNextAppendReply := el_loseNextAppendReply s;
     el_loseNextTombstoneReply := el_loseNextTombstoneReply s |}.
Definition set_sourceEpochs (v : gmap string string) (s : EvidenceLedgerStoreV2) : EvidenceLedgerStoreV2 :=
  {| el_sources := el_sources s; el_sourceEpochs := v; el_records := el_records s; el_bySource := el_bySource s;
     el_byEvent := el_byEvent s; el_lastSequence := el_lastSequence s; el_lastDigest := el_lastDigest s;
     el_tombstones := el_tombstones s; el_loseNextCreateReply := el_loseNextCreateReply s;
     el_loseNextCASReply := el_loseNextCASReply s; el_loseNextAppendReply := el_loseNextAppendReply s;
     el_loseNextTombstoneReply := el_loseNextTombstoneReply s |}.
Definition set_tombstones (v : gmap string EvidenceTombstoneFactV2) (s : EvidenceLedgerStoreV2)
  : EvidenceLedgerStoreV2 :=
  {| el_sources := el_sources s; el_sourceEpochs := el_sourceEpochs s; el_records := el_records s;
     el_bySource := el_bySource s; el_byEvent := el_byEvent s; el_lastSequence := el_lastSequence s;
     el_lastDigest := el_lastDigest s; el_tombstones := v; el_loseNextCreateReply := el_loseNextCreateReply s;
     el_loseNextCASReply := el_loseNextCASReply s; el_loseNextAppendReply := el_loseNextAppendReply s;
     el_loseNextTombstoneReply := el_loseNextTombstoneReply s |}.
Definition set_flags (create cas append tombstone : bool) (s : EvidenceLedgerStoreV2) : EvidenceLedgerStoreV2 :=
  {| el_sources := el_sources s; el_sourceEpochs := el_sourceEpochs s; el_records := el_records s;
     el_bySource := el_bySource s; el_byEvent := el_byEvent s; el_lastSequence := el_lastSequence s;
     el_lastDigest := el_lastDigest s; el_tombstones := el_tombstones s; el_loseNextCreateReply := create;
     el_loseNextCASReply := cas; el_loseNextAppendReply := append; el_loseNextTombstoneReply := tombstone |}.
Definition set_lose_create (v : bool) (s : EvidenceLedgerStoreV2) : EvidenceLedgerStoreV2 :=
  set_flags v (el_loseNextCASReply s) (el_loseNextAppendReply s) (el_loseNextTombstoneReply s) s.
Definition set_lose_cas (v : bool) (s : EvidenceLedgerStoreV2) : EvidenceLedgerStoreV2 :=
  set_flags (el_loseNextCreateReply s) v (el_loseNextAppendReply s) (el_loseNextTombstoneReply s) s.
Definition set_lose_append (v : bool) (s : EvidenceLedgerStoreV2) : EvidenceLedgerStoreV2 :=
  set_flags (el_loseNextCreateReply s) (el_loseNextCASReply s) v (el_loseNextTombstoneReply s) s.
Definition set_lose_tombstone (v : bool) (s : EvidenceLedgerStoreV2) : EvidenceLedgerStoreV2 :=
  set_flags (el_loseNextCreateReply s) (el_loseNextCASReply s) (el_loseNextAppendReply s) v s.

Abbreviation LM := (ST EvidenceLedgerStoreV2 error).

Definition LoseNextCreateReply : LM unit := st_modify (set_lose_create true).
Definition LoseNextCASReply : LM unit := st_modify (set_lose_cas true).
Definition LoseNextAppendReply : LM unit := st_modify (set_lose_append true).
Definition LoseNextTombstoneReply : LM unit := st_modify (set_lose_tombstone true).

(** ** Keys and digests *)

Definition evidenceSourceKeyV2 (key : EvidenceSourceKeyV2) : string :=
  nul_joined [sk_RegistrationID key; FormatUint (sk_SourceEpoch key); FormatUint (sk_SourceSequence key)].
Definition event_source_key (candidate : EvidenceEventCandidateV2) : EvidenceSourceKeyV2 :=
  {| sk_RegistrationID := ev_RegistrationID candidate; sk_SourceEpoch := ev_SourceEpoch candidate;
     sk_SourceSequence := ev_SourceSequence candidate |}.
Definition source_epoch_key (scopeDigest : Digest) (fact : EvidenceSourceRegistrationFactV2) : string :=
  nul_joined [scopeDigest; src_SourceID fact; FormatUint (src_SourceEpoch fact)].
Definition event_key (scopeDigest : Digest) (eventID : string) : string := nul_joined [scopeDigest; eventID].
Definition tombstone_key (ref : EvidenceRecordRefV2) : string :=
  nul_joined [er_LedgerScopeDigest ref; FormatUint (er_Sequence ref)].

(** A digest whose error is dropped: "" on an error. *)
Definition digest_or_empty (d : result Digest) : Digest := match d with Ok d => d | Err _ => "" end.

(** s.records[scope][sequence]. *)
Definition lookup_record (s : EvidenceLedgerStoreV2) (scope : Digest) (sequence : N) : option EvidenceLedgerRecordV2 :=
  items ← el_records s !! scope ; items !! sequence.

(** ** Source registrations *)

Definition put_source (id : string) (fact : EvidenceSourceRegistrationFactV2) : LM unit :=
  st_modify (fun s => set_sources (<[id := fact]> (el_sources s)) s).

Definition CreateSource (ctx : Context) (now : Time) (fact : EvidenceSourceRegistrationFactV2)
  : LM EvidenceSourceRegistrationFactV2 :=
  st_lift (contextError ctx) ;;
  s ← st_get ;
  match el_sources s !! src_ID fact with
  | Some existing =>
      if bool_decide (digest_or_empty (EvidenceSourceRegistrationFactV2_DigestV2 existing)
                      = digest_or_empty (EvidenceSourceRegistrationFactV2_DigestV2 fact))
      then mret (cloneEvidenceV2 existing)
      else st_err ErrorConflict ReasonIdempotencyPayloadMismatch
  | None =>
      st_lift (ValidateNewEvidenceSourceV2 fact now) ;;
      let epochKey := source_epoch_key (digest_or_empty (EvidenceLedgerScopeV2_DigestV2 (src_LedgerScope fact))) fact in
      st_guard (match el_sourceEpochs s !! epochKey with
                | Some existingID => negb (bool_decide (existingID = src_ID fact)) | None => false end)
        ErrorConflict ReasonEvidenceConflict ;;
      put_source (src_ID fact) (cloneEvidenceV2 fact) ;;
      st_modify (fun s => set_sourceEpochs (<[epochKey := src_ID fact]> (el_sourceEpochs s)) s) ;;
      if el_loseNextCreateReply s then
        st_modify (set_lose_create false) ;; st_err ErrorUnavailable ReasonEvidenceUnavailable
      else mret (cloneEvidenceV2 fact)
  end.

Definition InspectSource (ctx : Context) (id : string) : LM EvidenceSourceRegistrationFactV2 :=
  st_lift (contextError ctx) ;;
  s ← st_get ;
  match el_sources s !! id with
  | None => st_err ErrorNotFound ReasonEvidenceSourceMissing
  | Some fact => mret (cloneEvidenceV2 fact)
  end.

Definition CompareAndSwapSource (ctx : Context) (now : Time) (request : EvidenceSourceCASRequestV2)
  : LM EvidenceSourceRegistrationFactV2 :=
  st_lift (contextError ctx) ;;
  s ← st_get ;
  match el_sources s !! src_ID (scas_Next request) with
  | None => st_err ErrorNotFound ReasonEvidenceSourceMissing
  | Some current =>
      if negb (N.eqb (src_Revision current) (scas_ExpectedRevision request)) then
        if bool_decide (digest_or_empty (EvidenceSourceRegistrationFactV2_DigestV2 current)
                        = digest_or_empty (EvidenceSourceRegistrationFactV2_DigestV2 (scas_Next request)))
        then mret (cloneEvidenceV2 current)
        else st_err ErrorConflict ReasonRevisionConflict
      else
        st_lift (ValidateEvidenceSourceTransitionV2 current (scas_Next request) now) ;;
        put_source (src_ID current) (cloneEvidenceV2 (scas_Next request)) ;;
        if el_loseNextCASReply s then
          st_modify (set_lose_cas false) ;; st_err ErrorUnavailable ReasonEvidenceUnavailable
        else mret (cloneEvidenceV2 (scas_Next request))
  end.

(** ** Records *)

(** `source.Revision++`, `source.NextSourceSequence++` and the update time. *)
Definition advance_source (now : Time) (f : EvidenceSourceRegistrationFactV2) : EvidenceSourceRegistrationFactV2 :=
  {| src_ContractVersion := src_ContractVersion f; src_ID := src_ID f; src_Revision := u64_succ (src_Revision f);
     src_SourceID := src_SourceID f; src_SourceEpoch := src_SourceEpoch f; src_LedgerScope := src_LedgerScope f;
     src_ExecutionScope := src_ExecutionScope f; src_CurrentScope := src_CurrentScope f;
     src_CurrentScopeWatermark := src_CurrentScopeWatermark f; src_Producer := src_Producer f;
     src_Authority := src_Authority f; src_ActionScopeDigest := src_ActionScopeDigest f; src_Policy := src_Policy f;
     src_ClassMappings := src_ClassMappings f; src_AllowedKinds := src_AllowedKinds f; src_GapPolicy := src_GapPolicy f;
     src_NextSourceSequence := u64_succ (src_NextSourceSequence f); src_State := src_State f;
     src_CreatedUnixNano := src_CreatedUnixNano f; src_UpdatedUnixNano := UnixNano now;
     src_ExpiresUnixNano := src_ExpiresUnixNano f |}.

(** The writes of one append: record, source key, event key, chain head and
    source cursor. *)
Definition put_record (scopeDigest : Digest) (sequence : N) (key eventKey : string) (record : EvidenceLedgerRecordV2)
    (source : EvidenceSourceRegistrationFactV2) (s : EvidenceLedgerStoreV2) : EvidenceLedgerStoreV2 :=
  {| el_sources := <[src_ID source := cloneEvidenceV2 source]> (el_sources s);
     el_sourceEpochs := el_sourceEpochs s;
     el_records := <[scopeDigest := <[sequence := cloneEvidenceV2 record]> (default ∅ (el_records s !! scopeDigest))]>
                     (el_records s);
     el_bySource := <[key := cloneEvidenceV2 record]> (el_bySource s);
     el_byEvent := <[eventKey := cloneEvidenceV2 record]> (el_byEvent s);
     el_lastSequence := <[scopeDigest := sequence]> (el_lastSequence s);
     el_lastDigest := <[scopeDigest := er_RecordDigest (lr_Ref record)]> (el_lastDigest s);
     el_tombstones := el_tombstones s; el_loseNextCreateReply := el_loseNextCreateReply s;
     el_loseNextCASReply := el_loseNextCASReply s; el_loseNextAppendReply := el_loseNextAppendReply s;
     el_loseNextTombstoneReply := el_loseNextTombstoneReply s |}.

Definition append_event (ctx : Context) (now : Time) (candidate : EvidenceEventCandidateV2) (expected : N) (late : bool)
  : LM EvidenceLedgerRecordV2 :=
  st_lift (contextError ctx) ;;
  st_lift (EvidenceEventCandidateV2_Validate candidate) ;;
  s ← st_get ;
  let key := evidenceSourceKeyV2 (event_source_key candidate) in
  match el_bySource s !! key with
  | Some existing =>
      if bool_decide (digest_or_empty (EvidenceEventCandidateV2_DigestV2 candidate) = lr_CandidateDigest existing)
      then mret (cloneEvidenceV2 existing)
      else st_err ErrorConflict ReasonEvidenceConflict
  | None =>
      match el_sources s !! ev_RegistrationID candidate with
      | None => st_err ErrorNotFound ReasonEvidenceSourceMissing
      | Some source =>
          let request := {| app_Candidate := candidate; app_ExpectedSourceRevision := expected |} in
          st_lift (if late then ValidateEvidenceLateAppendV2 source request now
                   else ValidateEvidenceAppendV2 source request now) ;;
          let scopeDigest := digest_or_empty (EvidenceLedgerScopeV2_DigestV2 (ev_LedgerScope candidate)) in
          let eventKey := event_key scopeDigest (ev_EventID candidate) in
          st_guard (match el_byEvent s !! eventKey with Some _ => true | None => false end)
            ErrorConflict ReasonEvidenceConflict ;;
          let sequence := u64_succ (default 0 (el_lastSequence s !! scopeDigest)) in
          let previous := if N.eqb sequence 1 then EvidenceGenesisDigestV2
                          else default "" (el_lastDigest s !! scopeDigest) in
          record ← st_lift (NewEvidenceLedgerRecordV2 candidate sequence previous now) ;
          st_modify (put_record scopeDigest sequence key eventKey record (advance_source now source)) ;;
          if el_loseNextAppendReply s then
            st_modify (set_lose_append false) ;; st_err ErrorUnavailable ReasonEvidenceUnavailable
          else mret (cloneEvidenceV2 record)
      end
  end.

Definition Append (ctx : Context) (now : Time) (request : EvidenceAppendRequestV2) : LM EvidenceLedgerRecordV2 :=
  append_event ctx now (app_Candidate request) (app_ExpectedSourceRevision request) false.
Definition AppendLateObservation (ctx : Context) (now : Time) (request : EvidenceAppendRequestV2)
  : LM EvidenceLedgerRecordV2 :=
  append_event ctx now (app_Candidate request) (app_ExpectedSourceRevision request) true.

Definition InspectBySource (ctx : Context) (key : EvidenceSourceKeyV2) : LM EvidenceLedgerRecordV2 :=
  st_lift (contextError ctx) ;;
  st_lift (EvidenceSourceKeyV2_Validate key) ;;
  s ← st_get ;
  match el_bySource s !! evidenceSourceKeyV2 key with
  | None => st_err ErrorNotFound ReasonEvidenceUnavailable
  | Some record => mret (cloneEvidenceV2 record)
  end.

Definition InspectRecord (ctx : Context) (ref : EvidenceRecordRefV2) : LM EvidenceLedgerRecordV2 :=
  st_lift (contextError ctx) ;;
  st_lift (EvidenceRecordRefV2_Validate ref) ;;
  s ← st_get ;
  match lookup_record s (er_LedgerScopeDigest ref) (er_Sequence ref) with
  | None => st_err ErrorNotFound ReasonEvidenceUnavailable
  | Some record =>
      st_guard (negb (bool_decide (er_RecordDigest (lr_Ref record) = er_RecordDigest ref)))
        ErrorConflict ReasonEvidenceConflict ;;
      mret (cloneEvidenceV2 record)
  end.

(** The keys are sorted, so the order in which the map is ranged over is
    immaterial. *)
Definition watch_sequences (items : gmap N EvidenceLedgerRecordV2) (after limit : N) : list N :=
  take (N.to_nat limit)
    (merge_sort N.le (filter (fun sequence => after < sequence) (map fst (map_to_list items)))).

Definition Watch (ctx : Context) (cursor : EvidenceWatchCursorV2) (limit : N) : LM EvidencePageV2 :=
  st_lift (contextError ctx) ;;
  st_guard (negb (is_ok (Digest_Validate (wc_LedgerScopeDigest cursor))) || N.eqb limit 0
            || (MaxEvidencePageSize <? limit)) ErrorInvalidArgument ReasonEvidenceCursorInvalid ;;
  s ← st_get ;
  let items := default ∅ (el_records s !! wc_LedgerScopeDigest cursor) in
  let sequences := watch_sequences items (wc_AfterSequence cursor) limit in
  mret {| pg_Records := omap (fun sequence => cloneEvidenceV2 <$> items !! sequence) sequences;
          pg_Next := {| wc_LedgerScopeDigest := wc_LedgerScopeDigest cursor;
                        wc_AfterSequence := default (wc_AfterSequence cursor) (last sequences) |} |}.

(** ** Tombstones *)

Definition CreateTombstone (ctx : Context) (now : Time) (fact : EvidenceTombstoneFactV2) : LM EvidenceTombstoneFactV2 :=
  st_lift (contextError ctx) ;;
  s ← st_get ;
  let key := tombstone_key (tb_Record fact) in
  match el_tombstones s !! key with
  | Some existing =>
      if bool_decide (digest_or_empty (EvidenceTombstoneFactV2_DigestV2 existing)
                      = digest_or_empty (EvidenceTombstoneFactV2_DigestV2 fact))
      then mret (cloneEvidenceV2 existing)
      else st_err ErrorConflict ReasonEvidenceConflict
  | None =>
      st_lift (EvidenceTombstoneFactV2_Validate fact) ;;
      st_guard (UnixNano now <? tb_CreatedUnixNano fact)%Z ErrorPreconditionFailed ReasonClockRegression ;;
      match lookup_record s (er_LedgerScopeDigest (tb_Record fact)) (er_Sequence (tb_Record fact)) with
      | None => st_err ErrorNotFound ReasonEvidenceUnavailable
      | Some record =>
          st_guard (negb (bool_decide (er_RecordDigest (lr_Ref record) = er_RecordDigest (tb_Record fact))))
            ErrorNotFound ReasonEvidenceUnavailable ;;
          st_guard (negb (bool_decide (evidenceSourceKeyV2 (tb_Source fact)
                                       = evidenceSourceKeyV2 (event_source_key (lr_Candidate record)))))
            ErrorConflict ReasonEvidenceConflict ;;
          st_modify (fun s => set_tombstones (<[key := cloneEvidenceV2 fact]> (el_tombstones s)) s) ;;
          if el_loseNextTombstoneReply s then
            st_modify (set_lose_tombstone false) ;; st_err ErrorUnavailable ReasonEvidenceUnavailable
          else mret (cloneEvidenceV2 fact)
      end
  end.

Definition InspectTombstone (ctx : Context) (ref : EvidenceRecordRefV2) : LM EvidenceTombstoneFactV2 :=
  st_lift (contextError ctx) ;;
  st_lift (EvidenceRecordRefV2_Validate ref) ;;
  s ← st_get ;
  match el_tombstones s !! tombstone_key ref with
  | None => st_err ErrorNotFound ReasonEvidenceUnavailable
  | Some fact =>
      st_guard (negb (bool_decide (er_RecordDigest (tb_Record fact) = er_RecordDigest ref)))
        ErrorConflict ReasonEvidenceConflict ;;
      mret (cloneEvidenceV2 fact)
  end.
