(* ===== verification/LedgerSafety.v ===== *)
(** * The evidence ledger store: its invariant, and what it implements

    Every reachable store holds, for each ledger scope, a gap-free chain of valid
    records with the sequences 1 to its last one; its two indexes are exactly the
    records; the cursor of a source is one more than the events it has recorded.
    [ledger_refines_logs] states the store's contract: it is a map from scopes to
    append-only logs. *)

From stdpp Require Import list sorting.
From S2P Require Import Prelude GoStd Errors Identity FactStore RunFact Sha256 Json JsonParse Canonical Payload JsonCodec EffectContract Evidence EvidenceCodec EvidenceLedger LedgerStore.
From Stdlib Require Import Ascii.

Local Open Scope N_scope.

(** ** Keys *)

Definition nul_free (s : string) : Prop := Forall (fun c => c <> Ascii.zero) (bytes s).

Lemma nul_split (a a' b b' : list ascii) :
  Forall (fun c => c <> Ascii.zero) a -> Forall (fun c => c <> Ascii.zero) a' ->
  (a ++ Ascii.zero :: b = a' ++ Ascii.zero :: b')%list -> a = a' /\ b = b'.
Proof.
  revert a'. induction a as [| x a IH]; intros [| x' a'] Ha Ha' E; simplify_eq/=; try done;
    repeat match goal with H : Forall _ (_ :: _) |- _ => apply Forall_cons in H as [? H] end; try done.
  by destruct (IH a') as [-> ->].
Qed.

Lemma nul_joined_inj l l' :
  length l = length l' -> Forall nul_free l -> Forall nul_free l' -> nul_joined l = nul_joined l' -> l = l'.
Proof.
  revert l'. induction l as [| x l IH]; intros [| x' l'] Hlen Hl Hl'; try done.
  apply Forall_cons in Hl as [Hx Hl], Hl' as [Hx' Hl']. injection Hlen as Hlen.
  destruct l as [| y l], l' as [| y' l']; [by cbn; intros <- | done | done |].
  change (nul_joined (x :: y :: l)) with (x +:+ String Ascii.zero (nul_joined (y :: l))).
  change (nul_joined (x' :: y' :: l')) with (x' +:+ String Ascii.zero (nul_joined (y' :: l'))).
  intros E%(f_equal bytes). rewrite !bytes_app in E. apply nul_split in E as [E1 E2]; [| done ..].
  apply bytes_inj in E1 as ->. apply bytes_inj in E2. f_equal. by apply IH.
Qed.

Lemma evidence_id_nul_free s : validateEvidenceIDV2 s = Ok tt -> nul_free s.
Proof.
  unfold validateEvidenceIDV2. rewrite seq_guard_Ok. intros [_ H%for_each_Ok]. eapply Forall_impl; [exact H |].
  intros c Hc%guard_Ok ->. by vm_compute in Hc.
Qed.

Lemma FormatUint_nul_free n : nul_free (FormatUint n).
Proof.
  unfold nul_free. destruct (format_bytes_spec n) as (Hd & _). unfold format_bytes in Hd.
  rewrite forallb_forall in Hd. apply Forall_forall. intros c Hc%list_elem_of_In%Hd ->. done.
Qed.

Lemma Digest_nul_free d : Digest_Validate d = Ok tt -> nul_free d.
Proof.
  intros V. pose proof (Digest_valid_graphic d V) as H. eapply Forall_impl; [exact H |]. by intros c Hc ->.
Qed.

Lemma evidenceSourceKeyV2_inj k k' :
  validateEvidenceIDV2 (sk_RegistrationID k) = Ok tt -> validateEvidenceIDV2 (sk_RegistrationID k') = Ok tt ->
  evidenceSourceKeyV2 k = evidenceSourceKeyV2 k' -> k = k'.
Proof.
  intros V%evidence_id_nul_free V'%evidence_id_nul_free E. unfold evidenceSourceKeyV2 in E.
  apply nul_joined_inj in E; [| done | by repeat constructor; try apply FormatUint_nul_free ..].
  destruct k, k'. cbn in *. injection E as -> E1%(inj pretty) E2%(inj pretty). by subst.
Qed.

(** ** Copyable values *)

Lemma is_i64_range z : is_i64 z -> int64_range z.
Proof. unfold is_i64, int64_range, i64_half. lia. Qed.

Lemma u64_succ_bound n : u64_succ n <= max_u64.
Proof. pose proof (u64_succ_is_u64 n) as H. unfold is_u64, u64_modulus, max_u64 in *. lia. Qed.

Lemma advance_copyable now f : copyable f -> copyable (advance_source now f).
Proof.
  intros [[] U]. split; [| exact U]. split; try done; try apply u64_succ_bound. apply is_i64_range, wrap_i64_range.
Qed.

Lemma new_record_copyable c n previous now r :
  NewEvidenceLedgerRecordV2 c n previous now = Ok r -> n <= max_u64 -> copyable c -> copyable r.
Proof.
  intros (V & Ec & En & Ep & Ei & Hsd & Hcd & _)%NewEvidenceLedgerRecordV2_Ok Hn [Rc Uc].
  apply ValidateEvidenceLedgerRecordV2_Ok in V as (_ & Hd & _ & _ & V).
  apply ledger_scope_digest_valid, Digest_valid_utf8 in Hsd. apply candidate_digest_valid, Digest_valid_utf8 in Hcd.
  apply record_digest_valid, Digest_valid_utf8 in Hd. split.
  - split; [unfold record_ref_readable; by rewrite En | by rewrite Ec | rewrite Ei; apply is_i64_range, wrap_i64_range].
  - unfold EvidenceLedgerRecordV2_Validate in V. rewrite seq_Ok, seq_guard_Ok in V. destruct V as (_ & V & _). go_bool.
    destruct V as [[_ ([] & Vp%Digest_valid_utf8)%is_ok_true] _].
    change (json_utf8 (EvidenceLedgerRecordV2_json r) = true). change (json_utf8 (EvidenceEventCandidateV2_json c) = true) in Uc.
    unfold EvidenceLedgerRecordV2_json, EvidenceRecordRefV2_json, JStruct, omit_string. cbn [concat app field].
    rewrite Ec. destruct (bool_decide _); cbn [app field json_utf8 forallb fst snd]; rewrite Hsd, Hcd, Hd, ?Vp, Uc; reflexivity.
Qed.

(** ** The logs of a store *)

Definition last_sequence (s : EvidenceLedgerStoreV2) (d : Digest) : N := default 0 (el_lastSequence s !! d).

(** The records of a scope, in the order of their sequences. *)
Definition log (s : EvidenceLedgerStoreV2) (d : Digest) : list EvidenceLedgerRecordV2 :=
  omap (fun k => lookup_record s d (N.of_nat k)) (seq 1 (N.to_nat (last_sequence s d))).

(** The map of the scope's records is the list [l], from sequence 1 on. *)
Definition holds_log (s : EvidenceLedgerStoreV2) (d : Digest) (l : list EvidenceLedgerRecordV2) : Prop :=
  last_sequence s d = N.of_nat (length l)
  /\ forall n, lookup_record s d n = if N.eqb n 0 then None else l !! N.to_nat (n - 1).

Lemma omap_seq_lookup {A} (f : nat -> option A) (l : list A) k :
  (forall i, (i < length l)%nat -> f (k + i)%nat = l !! i) -> omap f (seq k (length l)) = l.
Proof.
  revert k. induction l as [| x l IH]; intros k H; [done |]. cbn [length seq].
  pose proof (H 0%nat ltac:(cbn; lia)) as H0. rewrite Nat.add_0_r in H0. cbn. rewrite H0. cbn. f_equal.
  apply IH. intros i Hi. rewrite Nat.add_succ_comm. by apply (H (S i)); cbn; lia.
Qed.

Lemma holds_log_eq s d l : holds_log s d l -> log s d = l.
Proof.
  intros [Hl Hn]. unfold log. rewrite Hl, Nat2N.id. apply omap_seq_lookup. intros i Hi. rewrite Hn.
  rewrite (proj2 (N.eqb_neq _ _)) by lia. f_equal. lia.
Qed.

Definition recorded (s : EvidenceLedgerStoreV2) (r : EvidenceLedgerRecordV2) : Prop := exists d, r ∈ log s d.
Definition record_scope (r : EvidenceLedgerRecordV2) : Digest := er_LedgerScopeDigest (lr_Ref r).
Definition source_key (r : EvidenceLedgerRecordV2) : EvidenceSourceKeyV2 := event_source_key (lr_Candidate r).
Definition scope_digest (f : EvidenceSourceRegistrationFactV2) : Digest :=
  digest_or_empty (EvidenceLedgerScopeV2_DigestV2 (src_LedgerScope f)).

Record log_ok (s : EvidenceLedgerStoreV2) (d : Digest) : Prop := {
  lo_holds : holds_log s d (log s d);
  lo_chain : ledger_chain (log s d);
  lo_records : Forall (fun r => record_scope r = d /\ copyable r) (log s d);
  lo_head : log s d <> [] -> el_lastDigest s !! d = Some (chain_head EvidenceGenesisDigestV2 (log s d));
}.

(** A registration is held under its ID, and under its scope, source and epoch;
    its cursor is one more than the events recorded for it. *)
Record source_ok (s : EvidenceLedgerStoreV2) (id : string) (f : EvidenceSourceRegistrationFactV2) : Prop := {
  ok_id : src_ID f = id;
  ok_id_valid : validateEvidenceIDV2 id = Ok tt;
  ok_copyable : copyable f;
  ok_next : 1 <= src_NextSourceSequence f;
  ok_epoch : el_sourceEpochs s !! source_epoch_key (scope_digest f) f = Some id;
  ok_cursor : forall k, 1 <= k < src_NextSourceSequence f ->
    exists r, recorded s r
      /\ source_key r = {| sk_RegistrationID := id; sk_SourceEpoch := src_SourceEpoch f; sk_SourceSequence := k |};
}.

Record tombstone_ok (s : EvidenceLedgerStoreV2) (key : string) (t : EvidenceTombstoneFactV2) : Prop := {
  ok_key : key = tombstone_key (tb_Record t);
  ok_tombstone : EvidenceTombstoneFactV2_Validate t = Ok tt;
  ok_tombstone_copyable : copyable t;
  ok_target : exists r, recorded s r /\ lr_Ref r = tb_Record t /\ source_key r = tb_Source t;
}.

Record ledger_ok (s : EvidenceLedgerStoreV2) : Prop := {
  lo_logs : forall d, log_ok s d;
  lo_bySource : forall key r, el_bySource s !! key = Some r <-> recorded s r /\ key = evidenceSourceKeyV2 (source_key r);
  lo_byEvent : forall key r, el_byEvent s !! key = Some r
    <-> recorded s r /\ key = event_key (record_scope r) (ev_EventID (lr_Candidate r));
  lo_sources : forall id f, el_sources s !! id = Some f -> source_ok s id f;
  lo_registered : forall r, recorded s r ->
    exists f, el_sources s !! ev_RegistrationID (lr_Candidate r) = Some f
      /\ ev_SourceEpoch (lr_Candidate r) = src_SourceEpoch f /\ ev_LedgerScope (lr_Candidate r) = src_LedgerScope f
      /\ ev_SourceSequence (lr_Candidate r) < src_NextSourceSequence f;
  lo_tombstones : forall key t, el_tombstones s !! key = Some t -> tombstone_ok s key t;
}.

(** ** An append extends one log *)

Lemma lookup_put_record d n key ek r src s d' n' :
  lookup_record (put_record d n key ek r src s) d' n'
  = if decide (d' = d /\ n' = n) then Some (cloneEvidenceV2 r) else lookup_record s d' n'.
Proof.
  unfold lookup_record, put_record. cbn. destruct (decide (d' = d)) as [-> | Hd].
  - rewrite lookup_insert_eq. cbn. destruct (decide (n' = n)) as [-> | Hn].
    + by rewrite lookup_insert_eq, decide_True.
    + rewrite lookup_insert_ne, decide_False by naive_solver. by destruct (el_records s !! d).
  - by rewrite lookup_insert_ne, decide_False by naive_solver.
Qed.

Lemma last_put_record d n key ek r src s d' :
  last_sequence (put_record d n key ek r src s) d' = if decide (d' = d) then n else last_sequence s d'.
Proof.
  unfold last_sequence, put_record. cbn. destruct (decide (d' = d)) as [-> | Hd].
  - by rewrite lookup_insert_eq.
  - by rewrite lookup_insert_ne by done.
Qed.

Lemma put_record_holds s d l r key ek src :
  holds_log s d l ->
  holds_log (put_record d (N.of_nat (length l) + 1) key ek r src s) d (l ++ [cloneEvidenceV2 r]).
Proof.
  intros [Hl Hn]. split.
  - rewrite last_put_record, decide_True, length_app by done. cbn. lia.
  - intros n. rewrite lookup_put_record, Hn. destruct (decide _) as [[_ ->] | Hne].
    + rewrite (proj2 (N.eqb_neq _ _)) by lia. by rewrite (list_lookup_middle l []) by lia.
    + assert (n <> N.of_nat (length l) + 1) by naive_solver. destruct (N.eqb_spec n 0) as [| H0]; [done |].
      destruct (decide (N.to_nat (n - 1) < length l)%nat) as [Hi | Hi]; [by rewrite lookup_app_l |].
      rewrite !lookup_ge_None_2; [done | rewrite ?length_app; cbn; lia ..].
Qed.

Lemma put_record_holds_other s d d' n l r key ek src :
  d' <> d -> holds_log s d' l -> holds_log (put_record d n key ek r src s) d' l.
Proof.
  intros Hd [Hl Hn]. split; [by rewrite last_put_record, decide_False |].
  intros m. rewrite lookup_put_record, decide_False by naive_solver. apply Hn.
Qed.

Lemma chain_seq l i r : ledger_chain l -> l !! i = Some r -> er_Sequence (lr_Ref r) = N.of_nat i + 1.
Proof.
  revert i. induction l as [| x l IH] using rev_ind; intros i H Hi; [done |].
  apply linked_snoc in H as (H & _ & Hs & _). apply lookup_snoc_Some in Hi as [[_ Hi] | [-> <-]]; [by apply IH |].
  rewrite Hs. lia.
Qed.

Lemma last_is_u64 s d : log_ok s d -> last_sequence s d <= max_u64.
Proof.
  intros [[-> _] Hc Hr _]. destruct (log s d) as [| r l _] using rev_ind; [done |].
  apply linked_snoc in Hc as (_ & _ & Hs & _). apply Forall_app in Hr as [_ Hr]. inv Hr.
  match goal with H : _ /\ copyable r |- _ => destruct H as [_ [[Hq _ _] _]] end.
  unfold record_ref_readable in Hq. rewrite length_app. cbn. lia.
Qed.

(** What an append that is not a replay has checked, and the record it makes. *)
Record appends (s : EvidenceLedgerStoreV2) (now : Time) (candidate : EvidenceEventCandidateV2) (expected : N) (late : bool)
    (source : EvidenceSourceRegistrationFactV2) (record : EvidenceLedgerRecordV2) : Prop := {
  ap_fresh : el_bySource s !! evidenceSourceKeyV2 (event_source_key candidate) = None;
  ap_source : el_sources s !! ev_RegistrationID candidate = Some source;
  ap_admitted : (if late then ValidateEvidenceLateAppendV2 else ValidateEvidenceAppendV2) source
                  {| app_Candidate := candidate; app_ExpectedSourceRevision := expected |} now = Ok tt;
  ap_event : el_byEvent s !! event_key (record_scope record) (ev_EventID candidate) = None;
  ap_record : NewEvidenceLedgerRecordV2 candidate (u64_succ (last_sequence s (record_scope record)))
                (if N.eqb (u64_succ (last_sequence s (record_scope record))) 1 then EvidenceGenesisDigestV2
                 else default "" (el_lastDigest s !! record_scope record)) now = Ok record;
}.

Definition appended (now : Time) (candidate : EvidenceEventCandidateV2) (source : EvidenceSourceRegistrationFactV2)
    (record : EvidenceLedgerRecordV2) (s : EvidenceLedgerStoreV2) : EvidenceLedgerStoreV2 :=
  put_record (record_scope record) (u64_succ (last_sequence s (record_scope record)))
    (evidenceSourceKeyV2 (event_source_key candidate)) (event_key (record_scope record) (ev_EventID candidate)) record
    (advance_source now source) s.

Lemma set_lose_append_id s : set_lose_append (el_loseNextAppendReply s) s = s.
Proof. by destruct s. Qed.

(** An append is refused, answered from the store, or adds a record. *)
Lemma append_cases ctx now c e late s :
  (fst (append_event ctx now c e late s) = s
   /\ ((exists err, snd (append_event ctx now c e late s) = Err err)
       \/ exists r, el_bySource s !! evidenceSourceKeyV2 (event_source_key c) = Some r
            /\ digest_or_empty (EvidenceEventCandidateV2_DigestV2 c) = lr_CandidateDigest r
            /\ snd (append_event ctx now c e late s) = Ok (cloneEvidenceV2 r)))
  \/ exists source record b, appends s now c e late source record
       /\ fst (append_event ctx now c e late s) = set_lose_append b (appended now c source record s)
       /\ snd (append_event ctx now c e late s)
          = if el_loseNextAppendReply s then fail ErrorUnavailable ReasonEvidenceUnavailable
            else Ok (cloneEvidenceV2 record).
Proof.
  unfold append_event, st_guard. destruct (contextError ctx) as [[] |]; st_go; [| left; eauto].
  destruct (EvidenceEventCandidateV2_Validate c) as [[] |]; [| left; eauto].
  destruct (el_bySource s !! _) as [r |] eqn:Eb.
  { left. destruct (bool_decide _) eqn:E; cbn; go_bool; eauto 10. }
  destruct (el_sources s !! _) as [source |] eqn:Es; [| left; eauto].
  destruct (if late then _ else _) as [[] |] eqn:Ea; [| left; eauto].
  set (d := digest_or_empty _). unfold guard, reject_if. destruct (el_byEvent s !! _) eqn:Ee; [left; eauto |].
  fold (last_sequence s d).
  destruct (NewEvidenceLedgerRecordV2 _ _ _ _) as [record |] eqn:Er; [| left; eauto].
  assert (d = record_scope record) as Ed.
  { pose proof (NewEvidenceLedgerRecordV2_Ok _ _ _ _ _ Er) as (_ & _ & _ & _ & _ & Hd & _). unfold d. by rewrite Hd. }
  right. exists source, record, (if el_loseNextAppendReply s then false else el_loseNextAppendReply s).
  rewrite Ed in *. split; [split; try done; by destruct late |].
  destruct (el_loseNextAppendReply s) eqn:El; (split; [| done]); [done |].
  rewrite <- El. symmetry. apply (set_lose_append_id (appended now c source record s)).
Qed.

Lemma admitted_source_event (late : bool) source c expected now :
  (if late then ValidateEvidenceLateAppendV2 else ValidateEvidenceAppendV2) source
    {| app_Candidate := c; app_ExpectedSourceRevision := expected |} now = Ok tt ->
  EvidenceSourceRegistrationFactV2_Validate source = Ok tt /\ ev_RegistrationID c = src_ID source
  /\ ev_SourceEpoch c = src_SourceEpoch source /\ ev_LedgerScope c = src_LedgerScope source
  /\ ev_SourceSequence c = src_NextSourceSequence source.
Proof.
  assert (forall c', ValidateEvidenceAppendV2 source {| app_Candidate := c'; app_ExpectedSourceRevision := expected |} now
            = Ok tt -> ev_RegistrationID c' = ev_RegistrationID c -> ev_SourceEpoch c' = ev_SourceEpoch c ->
          ev_LedgerScope c' = ev_LedgerScope c -> ev_SourceSequence c' = ev_SourceSequence c ->
          EvidenceSourceRegistrationFactV2_Validate source = Ok tt /\ ev_RegistrationID c = src_ID source
          /\ ev_SourceEpoch c = src_SourceEpoch source /\ ev_LedgerScope c = src_LedgerScope source
          /\ ev_SourceSequence c = src_NextSourceSequence source) as H.
  { intros c'. unfold ValidateEvidenceAppendV2. rewrite !seq_Ok, !guard_Ok, bind_Ok.
    intros (V & _ & _ & _ & q & _ & H) <- <- <- <-. rewrite !seq_Ok, !guard_Ok in H. destruct H as (E & E2 & _).
    unfold event_matches_source in E. cbn in *. go_bool. tauto. }
  destruct late; [| by intros Ha; apply (H c)].
  unfold ValidateEvidenceLateAppendV2. rewrite seq_guard_Ok. intros [_ Ha]. by apply (H (ordinary_event c)).
Qed.

(** *** What stays true of registrations and tombstones as records are added *)

Lemma source_ok_mono s s' id f :
  (forall r, recorded s r -> recorded s' r) ->
  (forall k, el_sourceEpochs s !! k = Some id -> el_sourceEpochs s' !! k = Some id) ->
  source_ok s id f -> source_ok s' id f.
Proof. intros Hr He []. split; auto. intros k Hk. destruct (ok_cursor0 k Hk) as (r & ? & ?). eauto. Qed.

Lemma tombstone_ok_mono s s' key t :
  (forall r, recorded s r -> recorded s' r) -> tombstone_ok s key t -> tombstone_ok s' key t.
Proof. intros Hr []. split; auto. destruct ok_target0 as (r & ? & ? & ?). eauto. Qed.

Lemma source_next_bound f :
  EvidenceSourceRegistrationFactV2_Validate f = Ok tt -> copyable f -> src_NextSourceSequence f < max_u64.
Proof.
  unfold EvidenceSourceRegistrationFactV2_Validate. rewrite seq_guard_Ok. intros [E _] [[] _]. go_bool.
  destruct E as [_ E]. lia.
Qed.

Section append_ok.
Context (s : EvidenceLedgerStoreV2) (Hs : ledger_ok s) (now : Time) (c : EvidenceEventCandidateV2) (expected : N)
  (late : bool) (source : EvidenceSourceRegistrationFactV2) (record : EvidenceLedgerRecordV2).
Context (Ha : appends s now c expected late source record) (Hc : copyable c).

Let d := record_scope record.
Let s' := appended now c source record s.

Lemma append_record :
  ValidateEvidenceLedgerRecordV2 record = Ok tt /\ lr_Candidate record = c /\ copyable record
  /\ u64_succ (last_sequence s d) = N.of_nat (length (log s d)) + 1
  /\ er_Sequence (lr_Ref record) = N.of_nat (length (log s d)) + 1
  /\ lr_PreviousRecordDigest record = chain_head EvidenceGenesisDigestV2 (log s d).
Proof.
  pose proof (lo_logs s Hs d) as Hd. pose proof (last_is_u64 s d Hd) as Hu. destruct Hd as [[Hl _] _ _ Hh].
  pose proof (ap_record _ _ _ _ _ _ _ Ha) as Hr. fold d in Hr.
  pose proof (NewEvidenceLedgerRecordV2_Ok _ _ _ _ _ Hr) as (V & Ec & En & Ep & _ & _ & _ & Hn).
  assert (u64_succ (last_sequence s d) = N.of_nat (length (log s d)) + 1) as Hsucc.
  { rewrite <- Hl. apply u64_succ_nonzero; [unfold is_u64, u64_modulus, max_u64 in *; lia | done]. }
  split_and!; [done .. | | done | congruence |].
  - by apply (new_record_copyable c _ _ now _ Hr); [apply u64_succ_bound |].
  - rewrite Ep, Hsucc. destruct (log s d) as [| x l] eqn:El; [done |].
    rewrite (proj2 (N.eqb_neq _ _)) by (cbn; lia).
    specialize (Hh ltac:(done)). by apply (f_equal (default "")) in Hh.
Qed.

Lemma append_stored : cloneEvidenceV2 record = record.
Proof. apply evidence_copy_id, append_record. Qed.

Lemma append_log : log s' d = (log s d ++ [record])%list.
Proof.
  destruct append_record as (_ & _ & _ & Hn & _). apply holds_log_eq. unfold s', appended. fold d. rewrite Hn.
  pose proof (put_record_holds s d (log s d) record (evidenceSourceKeyV2 (event_source_key c))
                (event_key d (ev_EventID c)) (advance_source now source) (lo_holds _ _ (lo_logs s Hs d))) as H.
  by rewrite append_stored in H.
Qed.

Lemma append_log_other d' : d' <> d -> log s' d' = log s d'.
Proof. intros Hd. apply holds_log_eq, put_record_holds_other; [done |]. apply lo_holds, Hs. Qed.

Lemma append_recorded r : recorded s' r <-> recorded s r \/ r = record.
Proof.
  split.
  - intros [d' Hr]. destruct (decide (d' = d)) as [-> | Hd].
    + rewrite append_log in Hr. apply elem_of_app in Hr as [Hr | Hr]; [left; by exists d | right; set_solver].
    + rewrite append_log_other in Hr by done. left. by exists d'.
  - intros [[d' Hr] | ->].
    + exists d'. destruct (decide (d' = d)) as [-> | Hd]; [rewrite append_log; set_solver | by rewrite append_log_other].
    + exists d. rewrite append_log. set_solver.
Qed.

Lemma append_log_ok d' : log_ok s' d'.
Proof.
  destruct append_record as (V & Ec & Hcopy & Hn & Hseq & Hp). pose proof (lo_logs s Hs d') as [H1 H2 H3 H4].
  destruct (decide (d' = d)) as [-> | Hd].
  - split; rewrite append_log.
    + unfold s', appended. fold d. rewrite Hn. pose proof append_stored as E. rewrite <- E at 2. by apply put_record_holds.
    + apply linked_snoc. split_and!; [done .. | rewrite Hseq; lia | done].
    + apply Forall_app. split; [done |]. apply Forall_singleton. by split.
    + intros _. unfold s', appended, put_record. cbn. unfold chain_head. rewrite last_snoc. by rewrite lookup_insert_eq.
  - split; rewrite append_log_other by done; [| done | done |].
    + by apply put_record_holds_other.
    + intros Hne. unfold s', appended, put_record. cbn. rewrite lookup_insert_ne by done. by apply H4.
Qed.

Let f' := advance_source now source.

Lemma append_source :
  source_ok s (src_ID source) source /\ src_ID f' = src_ID source /\ cloneEvidenceV2 f' = f'
  /\ src_NextSourceSequence f' = src_NextSourceSequence source + 1
  /\ source_key record = {| sk_RegistrationID := src_ID source; sk_SourceEpoch := src_SourceEpoch source;
                            sk_SourceSequence := src_NextSourceSequence source |}.
Proof.
  destruct append_record as (_ & Ec & _).
  destruct (admitted_source_event _ _ _ _ _ (ap_admitted _ _ _ _ _ _ _ Ha)) as (V & Eid & Ee & _ & En).
  pose proof (ap_source _ _ _ _ _ _ _ Ha) as Hl. rewrite Eid in Hl. apply (lo_sources s Hs) in Hl as Hf.
  split_and!; [done | done | | | by unfold source_key, event_source_key; rewrite Ec, Eid, Ee, En].
  - by apply evidence_copy_id, advance_copyable, Hf.
  - apply u64_succ_small. apply source_next_bound; [done | apply Hf].
Qed.

Lemma append_sources_ok id f : el_sources s' !! id = Some f -> source_ok s' id f.
Proof.
  destruct append_source as (Hf & Eid & Ecl & En & Ek).
  assert (forall r, recorded s r -> recorded s' r) as Hmono by (intros r Hr; apply append_recorded; by left).
  unfold s', appended, put_record at 1. cbn [el_sources]. fold f'. rewrite Ecl, Eid, lookup_insert_Some.
  intros [[<- <-] | [_ Hl]]; [| by apply (source_ok_mono s); [done .. | apply lo_sources]].
  destruct Hf as [H1 H2 H3 H4 H5 H6]. split; [done | done | by apply advance_copyable | | done |]; rewrite En; [lia |].
  intros k Hk. destruct (decide (k = src_NextSourceSequence source)) as [-> | Hne].
  - exists record. split; [apply append_recorded; by right | done].
  - destruct (H6 k) as (r & Hr & E); [lia |]. exists r. split; [by apply Hmono | done].
Qed.

Lemma append_registered r :
  recorded s' r ->
  exists f, el_sources s' !! ev_RegistrationID (lr_Candidate r) = Some f
    /\ ev_SourceEpoch (lr_Candidate r) = src_SourceEpoch f /\ ev_LedgerScope (lr_Candidate r) = src_LedgerScope f
    /\ ev_SourceSequence (lr_Candidate r) < src_NextSourceSequence f.
Proof.
  destruct append_source as (_ & Eid & Ecl & En & _). destruct append_record as (_ & Ec & _).
  destruct (admitted_source_event _ _ _ _ _ (ap_admitted _ _ _ _ _ _ _ Ha)) as (_ & Ei & Ee & El & Eq).
  pose proof (ap_source _ _ _ _ _ _ _ Ha) as Hsrc. rewrite Ei in Hsrc.
  unfold s', appended, put_record at 2. cbn [el_sources]. fold f'. rewrite Ecl, Eid.
  intros [Hr | ->]%append_recorded.
  - destruct (lo_registered s Hs r Hr) as (f & Hl & E1 & E2 & E3).
    destruct (decide (src_ID source = ev_RegistrationID (lr_Candidate r))) as [E | E].
    + rewrite <- E in Hl |- *. rewrite Hsrc in Hl. injection Hl as <-. exists f'. rewrite lookup_insert_eq, En.
      split_and!; [done .. | lia].
    + exists f. by rewrite lookup_insert_ne.
  - exists f'. rewrite Ec, Ei, lookup_insert_eq, En. split_and!; [done .. | lia].
Qed.

Lemma append_ok : ledger_ok s'.
Proof.
  destruct append_record as (_ & Ec & _). pose proof append_stored as Est.
  split; [exact append_log_ok | | | exact append_sources_ok | exact append_registered |].
  - intros key r. rewrite append_recorded. unfold s', appended, put_record. cbn [el_bySource].
    rewrite Est, lookup_insert_Some, (lo_bySource s Hs). pose proof (ap_fresh _ _ _ _ _ _ _ Ha) as Hn.
    assert (forall q, recorded s q -> evidenceSourceKeyV2 (event_source_key c) <> evidenceSourceKeyV2 (source_key q)) as Hne.
    { intros q Hq E. rewrite E in Hn. by rewrite (proj2 (lo_bySource s Hs _ q)) in Hn. }
    assert (source_key record = event_source_key c) as Ek by (unfold source_key; by rewrite Ec). naive_solver.
  - intros key r. rewrite append_recorded. unfold s', appended, put_record. cbn [el_byEvent].
    rewrite Est, lookup_insert_Some, (lo_byEvent s Hs). pose proof (ap_event _ _ _ _ _ _ _ Ha) as Hn.
    assert (forall q, recorded s q ->
              event_key (record_scope record) (ev_EventID c) <> event_key (record_scope q) (ev_EventID (lr_Candidate q))) as Hne.
    { intros q Hq E. rewrite E in Hn. by rewrite (proj2 (lo_byEvent s Hs _ q)) in Hn. }
    rewrite <- Ec in *. naive_solver.
  - intros key t Ht. apply (tombstone_ok_mono s); [intros r Hr; apply append_recorded; by left |].
    by apply (lo_tombstones s Hs).
Qed.
End append_ok.

(** ** The other operations *)

Lemma ledger_ok_lose s a b c d : ledger_ok s -> ledger_ok (set_flags a b c d s).
Proof.
  intros []. split; [| done | done | | done |].
  - intros q. by destruct (lo_logs0 q).
  - intros id f Hl. by destruct (lo_sources0 id f Hl).
  - intros key t Hl. by destruct (lo_tombstones0 key t Hl).
Qed.

Lemma source_create_cases ctx now f s :
  fst (CreateSource ctx now f s) = s
  \/ exists b, el_sources s !! src_ID f = None /\ ValidateNewEvidenceSourceV2 f now = Ok tt
       /\ (forall id, el_sourceEpochs s !! source_epoch_key (scope_digest f) f = Some id -> id = src_ID f)
       /\ fst (CreateSource ctx now f s)
          = set_lose_create b
              (set_sourceEpochs (<[source_epoch_key (scope_digest f) f := src_ID f]> (el_sourceEpochs s))
                 (set_sources (<[src_ID f := cloneEvidenceV2 f]> (el_sources s)) s)).
Proof.
  unfold CreateSource, st_guard, put_source. destruct (contextError ctx) as [[] |]; st_go; [| by left].
  destruct (el_sources s !! src_ID f) eqn:El; [left; by destruct (bool_decide _) |].
  destruct (ValidateNewEvidenceSourceV2 f now) as [[] |]; [| by left]. fold (scope_digest f).
  unfold guard, reject_if. destruct (match el_sourceEpochs s !! _ with Some _ => _ | None => _ end) eqn:Eg; [by left |].
  right. exists (if el_loseNextCreateReply s then false else el_loseNextCreateReply s). split_and!; [done | done | |].
  - intros id Hid. rewrite Hid in Eg. by apply negb_false_iff, bool_decide_eq_true in Eg.
  - by destruct (el_loseNextCreateReply s) eqn:E; destruct s; cbn in *; subst.
Qed.

Lemma source_create_ok ctx now f s : copyable f -> ledger_ok s -> ledger_ok (fst (CreateSource ctx now f s)).
Proof.
  intros Hc Hs. destruct (source_create_cases ctx now f s) as [-> | (b & Hn & Hv & He & ->)]; [done |].
  apply ledger_ok_lose. rewrite evidence_copy_id by done.
  unfold ValidateNewEvidenceSourceV2 in Hv. rewrite seq_Ok, guard_Ok in Hv. destruct Hv as [V E]. go_bool.
  assert (src_NextSourceSequence f = 1) as E1 by tauto.
  assert (validateEvidenceIDV2 (src_ID f) = Ok tt) as Vid.
  { unfold EvidenceSourceRegistrationFactV2_Validate in V. rewrite seq_guard_Ok in V. destruct V as [V _]. go_bool.
    destruct V as [[[[[_ V] _] _] _] _]. by apply is_ok_true in V as [[] V]. }
  destruct Hs as [H1 H2 H3 H4 H5 H6]. split; [| done | done | | |].
  - intros d. by destruct (H1 d).
  - intros id g. cbn. rewrite lookup_insert_Some. intros [[<- <-] | [Hne Hl]].
    + split; cbn; [done | done | done | lia | by rewrite lookup_insert_eq | lia].
    + apply (source_ok_mono s); [done | | by apply H4]. intros k Hk. cbn. rewrite lookup_insert_Some. right.
      split; [| done]. intros <-. by apply He in Hk.
  - intros r Hr. destruct (H5 r Hr) as (g & Hl & Hg). exists g. cbn. by rewrite lookup_insert_ne by congruence.
  - intros key t Ht. by apply (tombstone_ok_mono s), H6.
Qed.

Lemma source_cas_cases ctx now r s :
  fst (CompareAndSwapSource ctx now r s) = s
  \/ exists current b, el_sources s !! src_ID (scas_Next r) = Some current
       /\ src_Revision current = scas_ExpectedRevision r
       /\ ValidateEvidenceSourceTransitionV2 current (scas_Next r) now = Ok tt
       /\ fst (CompareAndSwapSource ctx now r s)
          = set_lose_cas b (set_sources (<[src_ID current := cloneEvidenceV2 (scas_Next r)]> (el_sources s)) s).
Proof.
  unfold CompareAndSwapSource, put_source. destruct (contextError ctx) as [[] |]; st_go; [| by left].
  destruct (el_sources s !! _) as [current |] eqn:El; [| by left].
  destruct (N.eqb_spec (src_Revision current) (scas_ExpectedRevision r)); [| left; cbn; by destruct (bool_decide _)].
  cbn [negb]. destruct (ValidateEvidenceSourceTransitionV2 current (scas_Next r) now) as [[] |] eqn:Ev; [| by left].
  right. exists current, (if el_loseNextCASReply s then false else el_loseNextCASReply s). split_and!; [done .. |].
  by destruct (el_loseNextCASReply s) eqn:E; destruct s; cbn in *; subst.
Qed.

(** What a transition of a registration keeps. *)
Lemma source_transition_kept current next now :
  ValidateEvidenceSourceTransitionV2 current next now = Ok tt ->
  src_ID next = src_ID current /\ src_SourceID next = src_SourceID current
  /\ src_SourceEpoch next = src_SourceEpoch current /\ src_LedgerScope next = src_LedgerScope current
  /\ src_NextSourceSequence next = src_NextSourceSequence current
  /\ src_Revision next = u64_succ (src_Revision current) /\ src_State current = EvidenceSourceActive
  /\ src_CreatedUnixNano next = src_CreatedUnixNano current.
Proof.
  unfold ValidateEvidenceSourceTransitionV2. rewrite !seq_Ok, !guard_Ok.
  intros (_ & _ & _ & E1 & _ & E2 & E3 & _). unfold source_identity_kept in E1. go_bool. naive_solver.
Qed.

Lemma source_cas_ok ctx now r s :
  copyable (scas_Next r) -> ledger_ok s -> ledger_ok (fst (CompareAndSwapSource ctx now r s)).
Proof.
  intros Hc Hs. destruct (source_cas_cases ctx now r s) as [-> | (f & b & Hl & _ & Ht & ->)]; [done |].
  apply ledger_ok_lose. rewrite evidence_copy_id by done. set (g := scas_Next r) in *.
  apply source_transition_kept in Ht as (E1 & E2 & E3 & E4 & E5 & _).
  destruct Hs as [H1 H2 H3 H4 H5 H6]. pose proof (H4 _ _ Hl) as [K1 K2 K3 K4 K5 K6]. rewrite K1.
  split; [| done | done | | |].
  - intros d. by destruct (H1 d).
  - intros id q. cbn. rewrite lookup_insert_Some. intros [[<- <-] | [_ Hq]]; [| by apply (source_ok_mono s), H4].
    split; [done | done | done | by rewrite E5 | | by rewrite E5, E3].
    unfold source_epoch_key, scope_digest in *. by rewrite E2, E3, E4.
  - intros q Hq. destruct (H5 q Hq) as (k & Hk & Hk1 & Hk2 & Hk3). cbn.
    destruct (decide (src_ID g = ev_RegistrationID (lr_Candidate q))) as [E | E].
    + rewrite <- E, Hl in Hk. injection Hk as <-. exists g. rewrite <- E, lookup_insert_eq, E3, E4, E5. done.
    + exists k. by rewrite lookup_insert_ne.
  - intros key t Ht. by apply (tombstone_ok_mono s), H6.
Qed.

(** A record found under a scope and a sequence is recorded there. *)
Lemma lookup_recorded s d n r :
  ledger_ok s -> lookup_record s d n = Some r ->
  r ∈ log s d /\ lr_Ref r = {| er_LedgerScopeDigest := d; er_Sequence := n; er_RecordDigest := er_RecordDigest (lr_Ref r) |}.
Proof.
  intros Hs Hl. destruct (lo_logs s Hs d) as [[_ H1] H2 H3 _]. rewrite H1 in Hl.
  destruct (N.eqb_spec n 0); [done |]. split; [by eapply list_elem_of_lookup_2 |].
  pose proof (chain_seq _ _ _ H2 Hl) as Hq. rewrite Forall_lookup in H3. destruct (H3 _ _ Hl) as [Hd _].
  unfold record_scope in Hd. destruct (lr_Ref r) as [a b e]. cbn in *. f_equal; [done | lia].
Qed.

Lemma record_registration_valid s r :
  ledger_ok s -> recorded s r -> validateEvidenceIDV2 (ev_RegistrationID (lr_Candidate r)) = Ok tt.
Proof. intros Hs Hr. destruct (lo_registered s Hs r Hr) as (f & Hl & _). by apply (lo_sources s Hs) in Hl as []. Qed.

Lemma tombstone_cases ctx now t s :
  fst (CreateTombstone ctx now t s) = s
  \/ exists b r, el_tombstones s !! tombstone_key (tb_Record t) = None /\ EvidenceTombstoneFactV2_Validate t = Ok tt
       /\ lookup_record s (er_LedgerScopeDigest (tb_Record t)) (er_Sequence (tb_Record t)) = Some r
       /\ er_RecordDigest (lr_Ref r) = er_RecordDigest (tb_Record t)
       /\ evidenceSourceKeyV2 (tb_Source t) = evidenceSourceKeyV2 (source_key r)
       /\ (tb_CreatedUnixNano t <= UnixNano now)%Z
       /\ fst (CreateTombstone ctx now t s)
          = set_lose_tombstone b
              (set_tombstones (<[tombstone_key (tb_Record t) := cloneEvidenceV2 t]> (el_tombstones s)) s).
Proof.
  unfold CreateTombstone, st_guard. destruct (contextError ctx) as [[] |]; st_go; [| by left].
  destruct (el_tombstones s !! _) eqn:Et; [left; by destruct (bool_decide _) |].
  destruct (EvidenceTombstoneFactV2_Validate t) as [[] |]; [| by left].
  unfold guard, reject_if. destruct (UnixNano now <? tb_CreatedUnixNano t)%Z eqn:En; [by left |].
  destruct (lookup_record s _ _) as [r |] eqn:Er; [| by left].
  destruct (negb (bool_decide (er_RecordDigest _ = _))) eqn:E1; [by left |].
  destruct (negb (bool_decide (evidenceSourceKeyV2 _ = _))) eqn:E2; [by left |]. go_bool. right.
  exists (if el_loseNextTombstoneReply s then false else el_loseNextTombstoneReply s), r. split_and!; [done .. |].
  by destruct (el_loseNextTombstoneReply s) eqn:E; destruct s; cbn in *; subst.
Qed.

Lemma tombstone_ok_new ctx now t s : copyable t -> ledger_ok s -> ledger_ok (fst (CreateTombstone ctx now t s)).
Proof.
  intros Hc Hs. destruct (tombstone_cases ctx now t s) as [-> | (b & r & _ & V & Hr & Ed & Ek & _ & ->)]; [done |].
  apply ledger_ok_lose. rewrite evidence_copy_id by done. apply lookup_recorded in Hr as [Hr Eref]; [| done].
  assert (source_key r = tb_Source t) as Esk.
  { symmetry. apply evidenceSourceKeyV2_inj; [| by eapply (record_registration_valid s); [| eexists] | done].
    unfold EvidenceTombstoneFactV2_Validate, EvidenceSourceKeyV2_Validate in V. rewrite seq_Ok, seq_guard_Ok in V.
    destruct V as (_ & V & _). go_bool. destruct V as [[V _] _]. by apply is_ok_true in V as [[] V]. }
  destruct Hs as [H1 H2 H3 H4 H5 H6]. split; [| done | done | | done |].
  - intros d. by destruct (H1 d).
  - intros id f Hl. by destruct (H4 id f Hl).
  - intros key u. cbn. rewrite lookup_insert_Some. intros [[<- <-] | [_ Hu]]; [| by apply (tombstone_ok_mono s), H6].
    split; [done .. |]. exists r. split_and!; [by exists (er_LedgerScopeDigest (tb_Record t)) | | done].
    rewrite Eref, Ed. by destruct (tb_Record t).
Qed.

(** ** Reachable states *)

(** One step of some client.  The conditions exclude values that the JSON copy
    changes: strings that are not UTF-8. *)
Inductive ledger_step : EvidenceLedgerStoreV2 -> EvidenceLedgerStoreV2 -> Prop :=
| step_create_source ctx now f s : copyable f -> ledger_step s (fst (CreateSource ctx now f s))
| step_cas_source ctx now r s : copyable (scas_Next r) -> ledger_step s (fst (CompareAndSwapSource ctx now r s))
| step_append ctx now r s : copyable (app_Candidate r) -> ledger_step s (fst (Append ctx now r s))
| step_append_late ctx now r s : copyable (app_Candidate r) -> ledger_step s (fst (AppendLateObservation ctx now r s))
| step_tombstone ctx now t s : copyable t -> ledger_step s (fst (CreateTombstone ctx now t s))
| step_lose_create s : ledger_step s (fst (LoseNextCreateReply s))
| step_lose_cas s : ledger_step s (fst (LoseNextCASReply s))
| step_lose_append s : ledger_step s (fst (LoseNextAppendReply s))
| step_lose_tombstone s : ledger_step s (fst (LoseNextTombstoneReply s)).

(** The same steps as calls: every method that changes the store. *)
Inductive LedgerCall :=
| call_create_source (ctx : Context) (now : Time) (fact : EvidenceSourceRegistrationFactV2)
| call_cas_source (ctx : Context) (now : Time) (request : EvidenceSourceCASRequestV2)
| call_append (ctx : Context) (now : Time) (request : EvidenceAppendRequestV2)
| call_append_late (ctx : Context) (now : Time) (request : EvidenceAppendRequestV2)
| call_tombstone (ctx : Context) (now : Time) (fact : EvidenceTombstoneFactV2)
| call_lose_create | call_lose_cas | call_lose_append | call_lose_tombstone.

Definition ledger_run (c : LedgerCall) (s : EvidenceLedgerStoreV2) : EvidenceLedgerStoreV2 :=
  match c with
  | call_create_source ctx now fact => fst (CreateSource ctx now fact s)
  | call_cas_source ctx now request => fst (CompareAndSwapSource ctx now request s)
  | call_append ctx now request => fst (Append ctx now request s)
  | call_append_late ctx now request => fst (AppendLateObservation ctx now request s)
  | call_tombstone ctx now fact => fst (CreateTombstone ctx now fact s)
  | call_lose_create => fst (LoseNextCreateReply s)
  | call_lose_cas => fst (LoseNextCASReply s)
  | call_lose_append => fst (LoseNextAppendReply s)
  | call_lose_tombstone => fst (LoseNextTombstoneReply s)
  end.

Definition ledger_runs (calls : list LedgerCall) (s : EvidenceLedgerStoreV2) : EvidenceLedgerStoreV2 :=
  fold_left (fun s c => ledger_run c s) calls s.

(** The strings of the value that a call brings are UTF-8. *)
Definition utf8_call (c : LedgerCall) : Prop :=
  match c with
  | call_create_source _ _ fact => copyable fact
  | call_cas_source _ _ request => copyable (scas_Next request)
  | call_append _ _ request | call_append_late _ _ request => copyable (app_Candidate request)
  | call_tombstone _ _ fact => copyable fact
  | _ => True
  end.

Lemma utf8_call_step c s : utf8_call c -> ledger_step s (ledger_run c s).
Proof. destruct c; intros H; by constructor. Qed.

Lemma utf8_calls_steps calls s : Forall utf8_call calls -> rtc ledger_step s (ledger_runs calls s).
Proof.
  revert s. induction calls as [| c calls IH]; intros s; [done |]. intros [Hc H]%Forall_cons.
  eapply rtc_l; [by apply (utf8_call_step c) | by apply IH].
Qed.

Lemma append_event_ok ctx now c e late s :
  copyable c -> ledger_ok s -> ledger_ok (fst (append_event ctx now c e late s)).
Proof.
  intros Hc Hs. destruct (append_cases ctx now c e late s) as [[-> _] | (source & record & b & Ha & -> & _)]; [done |].
  apply ledger_ok_lose. by eapply append_ok.
Qed.

Lemma ledger_step_ok s s' : ledger_step s s' -> ledger_ok s -> ledger_ok s'.
Proof.
  intros [] Hs; first
    [ by apply source_create_ok | by apply source_cas_ok | by apply append_event_ok | by apply tombstone_ok_new
    | by apply ledger_ok_lose ].
Qed.

Lemma new_ledger_ok : ledger_ok NewEvidenceLedgerStoreV2.
Proof.
  split; try done.
  - intros d. split; [split; [done |] | done | constructor | done]. intros n. by destruct (N.eqb n 0).
  - intros key r. split; [done |]. intros [[d Hr] _]. by apply elem_of_nil in Hr.
  - intros key r. split; [done |]. intros [[d Hr] _]. by apply elem_of_nil in Hr.
  - intros r [d Hr]. by apply elem_of_nil in Hr.
Qed.

Lemma reachable_ledger_ok s : rtc ledger_step NewEvidenceLedgerStoreV2 s -> ledger_ok s.
Proof.
  intros H. assert (forall a b, rtc ledger_step a b -> ledger_ok a -> ledger_ok b) as Hr.
  { induction 1; eauto using ledger_step_ok. }
  apply (Hr _ _ H), new_ledger_ok.
Qed.

(** *** Append-only logs *)

(** The contract of the ledger: a log of records for each scope.  A step extends
    one log by one record, or none. *)
Definition Logs : Type := Digest -> list EvidenceLedgerRecordV2.
Inductive logs_step (L L' : Logs) : Prop :=
| logs_same : (forall d, L' d = L d) -> logs_step L L'
| logs_append d r : (forall d', L' d' = if decide (d' = d) then L d ++ [r] else L d')%list -> logs_step L L'.

Lemma append_event_logs ctx now c e late s :
  copyable c -> ledger_ok s -> logs_step (log s) (log (fst (append_event ctx now c e late s))).
Proof.
  intros Hc Hs. destruct (append_cases ctx now c e late s) as [[-> _] | (source & record & b & Ha & -> & _)]; [by left |].
  right with (record_scope record) record. intros d'. change (log (set_lose_append b ?x) d') with (log x d').
  destruct (decide (d' = record_scope record)) as [-> | Hd].
  - by eapply append_log.
  - by eapply append_log_other.
Qed.

Lemma step_logs s s' : ledger_step s s' -> ledger_ok s -> logs_step (log s) (log s').
Proof.
  intros [] Hs; try (by apply append_event_logs); try (by left).
  - left. intros d. by destruct (source_create_cases ctx now f s0) as [-> | (b & _ & _ & _ & ->)].
  - left. intros d. by destruct (source_cas_cases ctx now r s0) as [-> | (x & b & _ & _ & _ & ->)].
  - left. intros d. by destruct (tombstone_cases ctx now t s0) as [-> | (b & r & _ & _ & _ & _ & _ & _ & ->)].
Qed.

Lemma logs_prefix s s' d : rtc ledger_step s s' -> ledger_ok s -> log s d `prefix_of` log s' d.
Proof.
  induction 1 as [| x y z Hxy _ IH]; intros Hx; [done |].
  transitivity (log y d); [| by apply IH; eapply ledger_step_ok].
  destruct (step_logs x y Hxy Hx) as [E | d0 r E]; rewrite E; [done |].
  destruct (decide (d = d0)) as [-> |]; [by apply prefix_app_r | done].
Qed.
