(* ===== verification/LedgerOutcomes.v ===== *)
(** * The evidence ledger store: what its clients can rely on

    The logs that the store refines, the pages of Watch, an append and its
    retries, and what later states keep. *)

From stdpp Require Import list sorting.
From S2P Require Import Prelude GoStd Errors Identity FactStore RunFact Sha256 Json JsonParse Canonical Payload JsonCodec EffectContract Evidence EvidenceCodec EvidenceLedger LedgerStore LedgerSafety.
From Stdlib Require Import Ascii.

Local Open Scope N_scope.

(** ** Pages *)

Lemma watch_keys s d l items after :
  holds_log s d l -> items = default ∅ (el_records s !! d) ->
  merge_sort N.le (filter (fun sequence => after < sequence) (map fst (map_to_list items)))
  = map N.of_nat (seq (S (N.to_nat after)) (length l - N.to_nat after)).
Proof.
  intros [_ Hl] Hitems.
  assert (forall n, items !! n = lookup_record s d n) as Hi.
  { intros n. subst items. unfold lookup_record. by destruct (el_records s !! d); cbn; [| rewrite lookup_empty]. }
  apply (Sorted_unique N.le).
  - apply Sorted_merge_sort. intros x y. lia.
  - apply StronglySorted_Sorted. generalize (S (N.to_nat after)) as k.
    induction (length l - N.to_nat after)%nat as [| n IH]; intros k; cbn; constructor; [apply IH |].
    apply Forall_map, Forall_forall. intros i Hin%elem_of_seq. lia.
  - rewrite merge_sort_Permutation. apply NoDup_Permutation.
    + apply NoDup_filter, NoDup_fst_map_to_list.
    + apply NoDup_fmap_2; [apply _ | apply NoDup_seq].
    + intros n. rewrite list_elem_of_filter. split.
      * intros [Ha Hk]. apply list_elem_of_fmap in Hk as ([n' r] & -> & Hk%elem_of_map_to_list). cbn in *.
        rewrite Hi, Hl in Hk. destruct (N.eqb_spec n' 0); [done |]. apply lookup_lt_Some in Hk.
        apply list_elem_of_fmap. exists (N.to_nat n'). split; [lia |]. apply elem_of_seq. lia.
      * intros (i & -> & Hin%elem_of_seq)%list_elem_of_fmap. split; [lia |].
        destruct (lookup_lt_is_Some_2 l (i - 1)) as [r Hr]; [lia |].
        apply list_elem_of_fmap. exists (N.of_nat i, r). split; [done |]. apply elem_of_map_to_list.
        rewrite Hi, Hl, (proj2 (N.eqb_neq _ _)) by lia. rewrite <- Hr. f_equal. lia.
Qed.

Lemma omap_seq_drop {A} (f : N -> option A) (l : list A) k n :
  (forall i, (k < i <= length l)%nat -> f (N.of_nat i) = l !! (i - 1)%nat) ->
  omap f (map N.of_nat (take n (seq (S k) (length l - k)))) = take n (drop k l).
Proof.
  revert k. induction n as [| n IH]; intros k H; [by rewrite !take_0 |].
  destruct (decide (k < length l)%nat) as [Hk | Hk].
  - destruct (lookup_lt_is_Some_2 l k Hk) as [x Hx]. rewrite (drop_S l x k) by done.
    replace (length l - k)%nat with (S (length l - S k)) by lia. cbn [seq take map omap list_omap].
    rewrite H by lia. replace (S k - 1)%nat with k by lia. rewrite Hx. f_equal. apply IH. intros i Hi. apply H. lia.
  - by rewrite drop_ge, (proj2 (Nat.sub_0_le _ _)) by lia.
Qed.

(** The page that a log answers. *)
Definition log_page (l : list EvidenceLedgerRecordV2) (cursor : EvidenceWatchCursorV2) (limit : N) : EvidencePageV2 :=
  let records := take (N.to_nat limit) (drop (N.to_nat (wc_AfterSequence cursor)) l) in
  {| pg_Records := records;
     pg_Next := {| wc_LedgerScopeDigest := wc_LedgerScopeDigest cursor;
                   wc_AfterSequence := wc_AfterSequence cursor + N.of_nat (length records) |} |}.

Lemma last_seq_take k m n after :
  N.to_nat after = k ->
  default after (last (map N.of_nat (take n (seq (S k) m)))) = after + N.of_nat (Nat.min n m).
Proof.
  intros <-. rewrite take_seq. generalize (Nat.min n m) as q. intros q. destruct q as [| q]; [cbn; lia |].
  rewrite seq_S, map_app. cbn. rewrite last_snoc. cbn. lia.
Qed.

Lemma watch_page ctx cursor limit s :
  ledger_ok s -> contextError ctx = Ok tt -> Digest_Validate (wc_LedgerScopeDigest cursor) = Ok tt ->
  1 <= limit <= MaxEvidencePageSize ->
  Watch ctx cursor limit s = (s, Ok (log_page (log s (wc_LedgerScopeDigest cursor)) cursor limit)).
Proof.
  intros Hs Hctx Vd Hlimit. unfold Watch, st_guard. rewrite Hctx, Vd. st_go.
  rewrite (proj2 (N.eqb_neq _ _)), (proj2 (N.ltb_ge _ _)) by lia. cbn. set (d := wc_LedgerScopeDigest cursor).
  destruct (lo_logs s Hs d) as [Hh _ Hr _]. unfold watch_sequences, log_page.
  rewrite (watch_keys s d _ _ _ Hh eq_refl), firstn_map.
  set (l := log s d) in *. set (k := N.to_nat (wc_AfterSequence cursor)).
  rewrite (last_seq_take k) by done. rewrite (omap_seq_drop _ l).
  - do 4 f_equal. by rewrite length_take, length_drop.
  - intros i Hi. destruct (lookup_lt_is_Some_2 l (i - 1)) as [r Hi']; [lia |]. rewrite Hi'.
    rewrite Forall_lookup in Hr. destruct (Hr _ _ Hi') as [_ Hc].
    destruct Hh as [_ Hl]. specialize (Hl (N.of_nat i)). rewrite (proj2 (N.eqb_neq _ _)) in Hl by lia.
    replace (N.to_nat (N.of_nat i - 1)) with (i - 1)%nat in Hl by lia. rewrite Hi' in Hl.
    unfold lookup_record in Hl. destruct (el_records s !! d) as [items |]; [| done]. cbn in Hl |- *. rewrite Hl. cbn.
    by rewrite evidence_copy_id.
Qed.

(** A client that reads pages until one is empty. *)
Fixpoint drain (fuel : nat) (ctx : Context) (cursor : EvidenceWatchCursorV2) (limit : N) (s : EvidenceLedgerStoreV2)
  : list EvidenceLedgerRecordV2 :=
  match fuel with
  | O => []
  | S fuel =>
      match snd (Watch ctx cursor limit s) with
      | Ok page =>
          match pg_Records page with
          | [] => []
          | records => records ++ drain fuel ctx (pg_Next page) limit s
          end
      | Err _ => []
      end
  end.

Lemma drain_drop ctx limit s d fuel after :
  ledger_ok s -> contextError ctx = Ok tt -> Digest_Validate d = Ok tt -> 1 <= limit <= MaxEvidencePageSize ->
  (length (log s d) - N.to_nat after < fuel)%nat ->
  drain fuel ctx {| wc_LedgerScopeDigest := d; wc_AfterSequence := after |} limit s = drop (N.to_nat after) (log s d).
Proof.
  intros Hs Hctx Vd Hlimit. revert after. induction fuel as [| fuel IH]; intros after Hf; [lia |]. cbn [drain].
  rewrite watch_page by done. unfold log_page. cbn [snd pg_Records pg_Next wc_LedgerScopeDigest wc_AfterSequence].
  set (l := log s d) in *. set (page := take (N.to_nat limit) (drop (N.to_nat after) l)).
  assert (drop (N.to_nat after) l = page ++ drop (N.to_nat limit) (drop (N.to_nat after) l))%list as E
    by (symmetry; apply take_drop).
  destruct page as [| r rest] eqn:Ep.
  - assert (length page = 0%nat) as Hlen by (by rewrite Ep). unfold page in Hlen. rewrite length_take, length_drop in Hlen.
    symmetry. apply drop_ge. lia.
  - rewrite IH.
    + rewrite E. f_equal. rewrite drop_drop. assert (length (r :: rest) = length page) as -> by (by rewrite Ep).
      unfold page. rewrite length_take, length_drop.
      destruct (decide (N.to_nat limit <= length l - N.to_nat after)%nat); [f_equal; lia |].
      rewrite !drop_ge by lia. done.
    + cbn [length]. assert (length (drop (N.to_nat after) l) > 0)%nat as Hpos by (rewrite E; cbn; lia).
      rewrite length_drop in Hpos. lia.
Qed.

(** C29: reading a ledger in pages.  In a reachable store Watch answers the page
    that the scope's log has after the cursor, at most [limit] records in their
    order, and moves the cursor past them; and a client that reads pages until
    one is empty has read the whole log, record for record, after at most one
    request more than the log has records. *)
Theorem watch_reads_log (ctx : Context) (d : Digest) (limit : N) (s : EvidenceLedgerStoreV2)
    (H : rtc ledger_step NewEvidenceLedgerStoreV2 s) (Hctx : contextError ctx = Ok tt)
    (Vd : Digest_Validate d = Ok tt) (Hlimit : 1 <= limit <= MaxEvidencePageSize) :
  (forall after, let cursor := {| wc_LedgerScopeDigest := d; wc_AfterSequence := after |} in
     Watch ctx cursor limit s = (s, Ok (log_page (log s d) cursor limit)))
  /\ drain (S (length (log s d))) ctx {| wc_LedgerScopeDigest := d; wc_AfterSequence := 0 |} limit s = log s d.
Proof.
  apply reachable_ledger_ok in H. split; [intros after; by apply watch_page |]. rewrite drain_drop by (done || lia). done.
Qed.

(** ** The store implements its logs *)

(** What InspectRecord answers of a log. *)
Definition log_record (l : list EvidenceLedgerRecordV2) (ref : EvidenceRecordRefV2) : result EvidenceLedgerRecordV2 :=
  match l !! N.to_nat (er_Sequence ref - 1) with
  | None => fail ErrorNotFound ReasonEvidenceUnavailable
  | Some r => if bool_decide (er_RecordDigest (lr_Ref r) = er_RecordDigest ref) then Ok r
              else fail ErrorConflict ReasonEvidenceConflict
  end.

Lemma inspect_record ctx ref s :
  ledger_ok s -> contextError ctx = Ok tt -> EvidenceRecordRefV2_Validate ref = Ok tt ->
  InspectRecord ctx ref s = (s, log_record (log s (er_LedgerScopeDigest ref)) ref).
Proof.
  intros Hs Hctx V. unfold InspectRecord, st_guard, log_record. rewrite Hctx, V. st_go.
  destruct (lo_logs s Hs (er_LedgerScopeDigest ref)) as [[_ Hl] _ Hr _].
  unfold EvidenceRecordRefV2_Validate in V. apply guard_Ok in V. go_bool. destruct V as [_ Hn].
  rewrite Hl, (proj2 (N.eqb_neq _ _)) by done. destruct (log s _ !! _) as [r |] eqn:E; [| done].
  rewrite Forall_lookup in Hr. destruct (Hr _ _ E) as [_ Hc]. unfold guard, reject_if.
  destruct (bool_decide _); cbn; [| done]. by rewrite evidence_copy_id.
Qed.

(** C25: over calls whose values have UTF-8 strings only, the store refines a map
    from ledger scopes to append-only logs.  After any sequence of such calls of
    its methods, one more adds one record at the end of one log, or none (appends
    are the only writers), each log is a chain of valid records with gap-free
    sequences from the genesis digest on, and InspectRecord answers exactly what
    the log of its scope holds at that sequence.  An accepted value whose strings
    are not UTF-8 is stored as another value, which may be invalid: the copies of
    the store replace the bytes ([LedgerHistory.stored_record_drifts]). *)
Theorem ledger_refines_logs (calls : list LedgerCall) (call : LedgerCall)
    (U : Forall utf8_call calls) (Uc : utf8_call call) :
  let s := ledger_runs calls NewEvidenceLedgerStoreV2 in
  let s' := ledger_run call s in
  logs_step (log s) (log s')
  /\ (forall d, ledger_chain (log s' d) /\ Forall (fun r => record_scope r = d) (log s' d))
  /\ forall ctx ref, contextError ctx = Ok tt -> EvidenceRecordRefV2_Validate ref = Ok tt ->
       InspectRecord ctx ref s' = (s', log_record (log s' (er_LedgerScopeDigest ref)) ref).
Proof.
  cbv zeta. pose proof (reachable_ledger_ok _ (utf8_calls_steps calls _ U)) as H.
  set (s := ledger_runs calls _) in *. pose proof (utf8_call_step call s Uc) as St. pose proof (ledger_step_ok _ _ St H) as H'.
  split; [by apply step_logs | split; [| by intros; apply inspect_record]].
  intros d. destruct (lo_logs _ H' d) as [_ Hc Hr _]. split; [done |]. eapply Forall_impl; [exact Hr |]. by intros r [].
Qed.

(** C28: the invariant of the ledger.  In every reachable store the two indexes
    are exactly the recorded events, so an event source key (registration, epoch,
    sequence) and an event ID within a scope each name at most one record; the
    events of a registration are exactly the sequences below its cursor, without
    a gap; a ledger scope, source and epoch have at most one registration; and a
    tombstone names a record by its reference and its source key. *)
Theorem ledger_store_invariant (s : EvidenceLedgerStoreV2) (H : rtc ledger_step NewEvidenceLedgerStoreV2 s) :
  ledger_ok s
  /\ (forall r r', recorded s r -> recorded s r' -> source_key r = source_key r' -> r = r')
  /\ (forall r r', recorded s r -> recorded s r' -> record_scope r = record_scope r' ->
        ev_EventID (lr_Candidate r) = ev_EventID (lr_Candidate r') -> r = r')
  /\ forall id f id' f', el_sources s !! id = Some f -> el_sources s !! id' = Some f' ->
       src_LedgerScope f = src_LedgerScope f' -> src_SourceID f = src_SourceID f' ->
       src_SourceEpoch f = src_SourceEpoch f' -> id = id' /\ f = f'.
Proof.
  apply reachable_ledger_ok in H as Hs. split; [done | split; [| split]].
  - intros r r' Hr Hr' E. pose proof (proj2 (lo_bySource s Hs (evidenceSourceKeyV2 (source_key r)) r)) as H1.
    pose proof (proj2 (lo_bySource s Hs (evidenceSourceKeyV2 (source_key r)) r')) as H2. rewrite E in *. naive_solver.
  - intros r r' Hr Hr' E1 E2.
    pose proof (proj2 (lo_byEvent s Hs (event_key (record_scope r) (ev_EventID (lr_Candidate r))) r)) as H1.
    pose proof (proj2 (lo_byEvent s Hs (event_key (record_scope r) (ev_EventID (lr_Candidate r))) r')) as H2.
    rewrite E1, E2 in *. naive_solver.
  - intros id f id' f' Hl Hl' E1 E2 E3. pose proof (ok_epoch _ _ _ (lo_sources s Hs _ _ Hl)) as He.
    pose proof (ok_epoch _ _ _ (lo_sources s Hs _ _ Hl')) as He'. unfold source_epoch_key, scope_digest in He, He'.
    rewrite E1, E2, E3, He' in He. injection He as ->. split; [done |]. congruence.
Qed.

(** ** Appends and their retries *)

Lemma recorded_later s s' r : rtc ledger_step s s' -> ledger_ok s -> recorded s r -> recorded s' r.
Proof.
  intros H Hs [d Hr]. exists d. pose proof (logs_prefix s s' d H Hs) as [k ->]. apply elem_of_app. by left.
Qed.

Lemma later_ok s s' : rtc ledger_step s s' -> ledger_ok s -> ledger_ok s'.
Proof. induction 1; eauto using ledger_step_ok. Qed.

Lemma recorded_copyable s r : ledger_ok s -> recorded s r -> copyable r.
Proof.
  intros Hs [d Hr]. destruct (lo_logs s Hs d) as [_ _ H _]. rewrite Forall_forall in H. by apply H in Hr as [_ Hr].
Qed.

(** An event that is recorded is answered with its record. *)
Lemma append_replay ctx now c e late s r :
  ledger_ok s -> recorded s r -> source_key r = event_source_key c ->
  EvidenceEventCandidateV2_DigestV2 c = Ok (lr_CandidateDigest r) -> contextError ctx = Ok tt ->
  append_event ctx now c e late s = (s, Ok r).
Proof.
  intros Hs Hr Hk Hd Hctx. unfold append_event. rewrite Hctx. st_go.
  pose proof Hd as V. unfold EvidenceEventCandidateV2_DigestV2 in V. rewrite seq_Ok in V. destruct V as [V _]. rewrite V.
  rewrite (proj2 (lo_bySource s Hs _ r)) by (by rewrite Hk). rewrite Hd, bool_decide_true by done. cbn.
  by rewrite evidence_copy_id by (by eapply recorded_copyable).
Qed.

Lemma linked_valid n p l : linked n p l -> Forall (fun r => ValidateEvidenceLedgerRecordV2 r = Ok tt) l.
Proof. revert n p. induction l as [| r l IH]; intros n p; cbn; [constructor |]. intros (V & _ & _ & H). constructor; eauto. Qed.

Lemma recorded_candidate_digest s r :
  ledger_ok s -> recorded s r -> EvidenceEventCandidateV2_DigestV2 (lr_Candidate r) = Ok (lr_CandidateDigest r).
Proof.
  intros Hs [d Hr]. destruct (lo_logs s Hs d) as [_ Hc _ _]. apply linked_valid in Hc. rewrite Forall_forall in Hc.
  by apply Hc, ValidateEvidenceLedgerRecordV2_Ok in Hr as (_ & _ & _ & H & _).
Qed.

(** An append that is answered is one of a valid event. *)
Lemma append_event_valid ctx now c e late s r :
  snd (append_event ctx now c e late s) = Ok r ->
  validateEvidenceIDV2 (ev_RegistrationID c) = Ok tt /\ EvidenceEventCandidateV2_Validate c = Ok tt.
Proof.
  unfold append_event. destruct (contextError ctx) as [[] |]; st_go; [| done].
  destruct (EvidenceEventCandidateV2_Validate c) as [[] |] eqn:V; [| done]. intros _. split; [| done].
  unfold EvidenceEventCandidateV2_Validate in V. rewrite seq_guard_Ok in V. destruct V as [V _]. go_bool.
  destruct V as [[[[[_ V] _] _] _] _]. by apply is_ok_true in V as [[] V].
Qed.

(** What one append did: it was refused, it was answered from the store, or it
    added the event's record. *)
Lemma append_answers ctx now c e late s :
  ledger_ok s -> copyable c ->
  let s' := fst (append_event ctx now c e late s) in
  let reply := snd (append_event ctx now c e late s) in
  (s' = s /\ exists err, reply = Err err)
  \/ exists r, recorded s' r /\ source_key r = event_source_key c
       /\ EvidenceEventCandidateV2_DigestV2 c = Ok (lr_CandidateDigest r)
       /\ ((s' = s /\ recorded s r /\ reply = Ok r)
           \/ (~ recorded s r /\ lr_Candidate r = c /\ log s' (record_scope r) = (log s (record_scope r) ++ [r])%list
               /\ reply = if el_loseNextAppendReply s then fail ErrorUnavailable ReasonEvidenceUnavailable else Ok r)).
Proof.
  intros Hs Hc. cbv zeta.
  destruct (append_cases ctx now c e late s) as [[Es [[err Er] | (r & Hl & Hd & Er)]] | (source & r & b & Ha & Es & Er)];
    rewrite Es, Er.
  - left. eauto.
  - right. apply (lo_bySource s Hs) in Hl as [Hr Ek]. exists r.
    assert (source_key r = event_source_key c) as Ek'.
    { symmetry. apply evidenceSourceKeyV2_inj; [| by eapply record_registration_valid | done].
      destruct (append_event_valid ctx now c e late s _ Er) as [V _]. exact V. }
    rewrite evidence_copy_id by (by eapply recorded_copyable). split_and!; [done | done | | by left].
    pose proof (recorded_candidate_digest s r Hs Hr) as Hv%candidate_digest_valid.
    destruct (EvidenceEventCandidateV2_DigestV2 c) as [q |]; cbn in Hd; [by rewrite Hd | by rewrite <- Hd in Hv].
  - right. exists r. destruct (append_record s Hs now c e late source r Ha Hc) as (V & Ec & Hcopy & _).
    assert (~ recorded s r) as Hn.
    { intros Hr. pose proof (ap_fresh _ _ _ _ _ _ _ Ha) as Hf.
      by rewrite (proj2 (lo_bySource s Hs _ r)) in Hf by (split; [done | unfold source_key; by rewrite Ec]). }
    rewrite evidence_copy_id by done. split_and!.
    + apply (append_recorded s Hs now c e late source r Ha Hc). by right.
    + unfold source_key. by rewrite Ec.
    + rewrite <- Ec. apply ValidateEvidenceLedgerRecordV2_Ok, V.
    + right. split_and!; [done .. | by apply (append_log s Hs now c e late source r Ha Hc) | done].
Qed.

(** C27: an event is recorded at most once, and its outcome can be learned.  In a
    reachable store an append is refused and changes nothing, or there is one
    record [r] of the event's source key, and it carries the digest of the event:
    it was there before and is the answer, or the append put it at the end of its
    scope's log and answered with it or with a lost reply.  In every later store
    [r] is still the only record of that source key, and appending the event
    again, by either method, with any expected revision and at any time, answers
    [r] and changes nothing. *)
Theorem append_exactly_once (ctx : Context) (now : Time) (c : EvidenceEventCandidateV2) (e : N) (late : bool)
    (s : EvidenceLedgerStoreV2) (H : rtc ledger_step NewEvidenceLedgerStoreV2 s) (C : copyable c) :
  let s' := fst (append_event ctx now c e late s) in
  let reply := snd (append_event ctx now c e late s) in
  (s' = s /\ exists err, reply = Err err)
  \/ exists r, source_key r = event_source_key c /\ EvidenceEventCandidateV2_DigestV2 c = Ok (lr_CandidateDigest r)
       /\ ((s' = s /\ recorded s r /\ reply = Ok r)
           \/ (~ recorded s r /\ lr_Candidate r = c /\ log s' (record_scope r) = (log s (record_scope r) ++ [r])%list
               /\ reply = if el_loseNextAppendReply s then fail ErrorUnavailable ReasonEvidenceUnavailable else Ok r))
       /\ forall s'', rtc ledger_step s' s'' ->
            (forall r', recorded s'' r' -> source_key r' = source_key r -> r' = r)
            /\ forall ctx' now' e' late', contextError ctx' = Ok tt ->
                 append_event ctx' now' c e' late' s'' = (s'', Ok r).
Proof.
  apply reachable_ledger_ok in H as Hs. cbv zeta.
  destruct (append_answers ctx now c e late s Hs C) as [? | (r & Hr & Hk & Hd & Ho)]; [by left | right].
  exists r. split_and!; [done .. |]. intros s'' Hlater.
  pose proof (append_event_ok ctx now c e late s C Hs) as Hs'. pose proof (later_ok _ _ Hlater Hs') as Hs''.
  pose proof (recorded_later _ _ r Hlater Hs' Hr) as Hr''. split.
  - intros r' Hr' E. pose proof (proj2 (lo_bySource s'' Hs'' _ r) (conj Hr'' eq_refl)) as H1.
    pose proof (proj2 (lo_bySource s'' Hs'' _ r') (conj Hr' eq_refl)) as H2. rewrite E in H2. congruence.
  - intros ctx' now' e' late' Hctx. by apply append_replay.
Qed.

(** ** What later states keep *)

(** A registration over time. *)
Record source_extends (f g : EvidenceSourceRegistrationFactV2) : Prop := {
  se_identity : src_ID g = src_ID f /\ src_SourceID g = src_SourceID f /\ src_SourceEpoch g = src_SourceEpoch f
    /\ src_LedgerScope g = src_LedgerScope f /\ src_ActionScopeDigest g = src_ActionScopeDigest f;
  se_scope : sameScope (src_ExecutionScope f) (src_ExecutionScope g) = true;
  se_rules : src_ClassMappings g = src_ClassMappings f /\ src_AllowedKinds g = src_AllowedKinds f
    /\ src_GapPolicy g = src_GapPolicy f;
  se_created : src_CreatedUnixNano g = src_CreatedUnixNano f;
  se_cursor : src_NextSourceSequence f <= src_NextSourceSequence g;
  se_updated : (src_UpdatedUnixNano f <= src_UpdatedUnixNano g)%Z;
  se_expires : (src_ExpiresUnixNano f <= src_ExpiresUnixNano g)%Z;
  se_ended : src_State f <> EvidenceSourceActive -> g = f;
}.

Lemma source_extends_refl f : source_extends f f.
Proof. split; try done. by apply sameScope_eq. Qed.

Lemma source_extends_trans f g h : source_extends f g -> source_extends g h -> source_extends f h.
Proof.
  intros [(A1 & A2 & A3 & A4 & A5) A6%sameScope_eq (A7 & A8 & A9) A10 A11 A12 A13 A14]
         [(B1 & B2 & B3 & B4 & B5) B6%sameScope_eq (B7 & B8 & B9) B10 B11 B12 B13 B14].
  split; try (by split_and!; congruence); try lia.
  - apply sameScope_eq. congruence.
  - intros Hf. specialize (A14 Hf) as ->. by apply B14.
Qed.

Lemma advance_extends now f :
  src_NextSourceSequence f < max_u64 -> (src_UpdatedUnixNano f <= UnixNano now)%Z -> src_State f = EvidenceSourceActive ->
  source_extends f (advance_source now f).
Proof.
  intros Hn Hu Ha. split; try done; cbn; [by apply sameScope_eq | rewrite u64_succ_small by done; lia].
Qed.

Lemma source_transition_extends f g now : ValidateEvidenceSourceTransitionV2 f g now = Ok tt -> source_extends f g.
Proof.
  unfold ValidateEvidenceSourceTransitionV2. rewrite !seq_Ok, !guard_Ok.
  intros (_ & _ & E1 & E2 & _ & E3 & E4 & E5). unfold source_identity_kept in E2. go_bool.
  destruct E2 as [[[[[[[[A1 A2] A3] A4] A5] A6] A7%same_elements_iff] A8%same_elements_iff] A9].
  destruct E3 as [[[B1 B2] B3] B4]. split; try (by split_and!; congruence); try lia; try done.
  destruct (src_State g); try done; apply guard_Ok in E5; go_bool; lia.
Qed.

Lemma append_extends (late : bool) source c e now :
  (if late then ValidateEvidenceLateAppendV2 else ValidateEvidenceAppendV2) source
    {| app_Candidate := c; app_ExpectedSourceRevision := e |} now = Ok tt ->
  copyable source -> source_extends source (advance_source now source).
Proof.
  assert (forall r, ValidateEvidenceAppendV2 source r now = Ok tt -> copyable source ->
                    source_extends source (advance_source now source)) as Happ.
  { intros r. unfold ValidateEvidenceAppendV2. rewrite !seq_Ok, !guard_Ok. intros (V & _ & E1 & E2 & _) Hc. go_bool.
    apply advance_extends; [by apply source_next_bound | lia | tauto]. }
  destruct late; [| apply Happ]. unfold ValidateEvidenceLateAppendV2. rewrite seq_guard_Ok. intros [_ Ha]. by eapply Happ.
Qed.

Lemma step_sources s s' id f :
  ledger_step s s' -> ledger_ok s -> el_sources s !! id = Some f ->
  exists g, el_sources s' !! id = Some g /\ source_extends f g.
Proof.
  assert (forall ctx now c e late t, ledger_ok t -> el_sources t !! id = Some f ->
    exists g, el_sources (fst (append_event ctx now c e late t)) !! id = Some g /\ source_extends f g) as Happ.
  { intros ctx now c e late t Ht Hl.
    destruct (append_cases ctx now c e late t) as [[-> _] | (src & r & b & Ha & -> & _)];
      [exists f; split; [done | apply source_extends_refl] |]. cbn [el_sources set_lose_append set_flags appended put_record].
    pose proof (ap_source _ _ _ _ _ _ _ Ha) as Hs. pose proof (lo_sources t Ht _ _ Hs) as [Eid _ Hc _ _ _].
    rewrite evidence_copy_id by (by apply advance_copyable). cbn [src_ID advance_source]. rewrite Eid.
    destruct (decide (id = ev_RegistrationID c)) as [-> | Hne].
    - rewrite Hs in Hl. injection Hl as ->. exists (advance_source now f). rewrite lookup_insert_eq. split; [done |].
      eapply append_extends; [apply (ap_admitted _ _ _ _ _ _ _ Ha) | done].
    - exists f. rewrite lookup_insert_ne by done. split; [done | apply source_extends_refl]. }
  intros [] Hs Hl; try (by apply Happ); try (by exists f; split; [done | apply source_extends_refl]).
  - exists f. split; [| apply source_extends_refl].
    destruct (source_create_cases ctx now f0 s0) as [-> | (b & Hn & _ & _ & ->)]; [done |]. cbn.
    by rewrite lookup_insert_ne by congruence.
  - destruct (source_cas_cases ctx now r s0) as [-> | (x & b & Hx & _ & Ht & ->)];
      [by exists f; split; [| apply source_extends_refl] |]. cbn.
    pose proof (lo_sources s0 Hs _ _ Hx) as [Eid _ _ _ _ _]. rewrite evidence_copy_id by done. rewrite Eid.
    destruct (decide (id = src_ID (scas_Next r))) as [-> | Hne].
    + rewrite Hx in Hl. injection Hl as ->. exists (scas_Next r). rewrite lookup_insert_eq.
      split; [done | by eapply source_transition_extends].
    + exists f. rewrite lookup_insert_ne by done. split; [done | apply source_extends_refl].
  - exists f. split; [| apply source_extends_refl].
    by destruct (tombstone_cases ctx now t s0) as [-> | (b & r & _ & _ & _ & _ & _ & _ & ->)].
Qed.

Lemma step_tombstones s s' : ledger_step s s' -> el_tombstones s ⊆ el_tombstones s'.
Proof.
  intros []; try done.
  - by destruct (source_create_cases ctx now f s0) as [-> | (b & _ & _ & _ & ->)].
  - by destruct (source_cas_cases ctx now r s0) as [-> | (x & b & _ & _ & _ & ->)].
  - unfold Append. by destruct (append_cases ctx now (app_Candidate r) (app_ExpectedSourceRevision r) false s0)
      as [[-> _] | (src & q & b & _ & -> & _)].
  - unfold AppendLateObservation. by destruct (append_cases ctx now (app_Candidate r) (app_ExpectedSourceRevision r) true s0)
      as [[-> _] | (src & q & b & _ & -> & _)].
  - destruct (tombstone_cases ctx now t s0) as [-> | (b & r & Hn & _ & _ & _ & _ & _ & ->)]; [done |].
    by apply insert_subseteq.
Qed.

(** The history of a ledger.  From a reachable store on, whatever its clients
    do: every log is extended at its end only; a registration keeps its identity,
    its rules and its creation time, its cursor, update time and expiry never go
    back, and once revoked or expired it never changes again; and a tombstone
    stays as it was written. *)
Theorem ledger_history (s s' : EvidenceLedgerStoreV2)
    (H : rtc ledger_step NewEvidenceLedgerStoreV2 s) (St : rtc ledger_step s s') :
  (forall d, log s d `prefix_of` log s' d)
  /\ (forall id f, el_sources s !! id = Some f -> exists g, el_sources s' !! id = Some g /\ source_extends f g)
  /\ forall key t, el_tombstones s !! key = Some t -> el_tombstones s' !! key = Some t.
Proof.
  apply reachable_ledger_ok in H as Hs. split; [intros d; by apply logs_prefix | split].
  - intros id f. clear H. revert f. induction St as [| x y z Hxy _ IH]; intros f Hl;
      [exists f; split; [done | apply source_extends_refl] |].
    destruct (step_sources x y id f Hxy Hs Hl) as (g & Hg & E1).
    destruct (IH (ledger_step_ok _ _ Hxy Hs) g Hg) as (h & Hh & E2). exists h.
    split; [done | by eapply source_extends_trans].
  - intros key t Ht. eapply lookup_weaken; [exact Ht |]. clear H Hs Ht. induction St as [| x y z Hxy _ IH]; [done |].
    by etrans; [apply step_tombstones |].
Qed.
