(* ===== verification/LedgerHistory.v ===== *)
(** * The evidence ledger store: a concrete history

    A registration, two events of it, one of them with a lost reply, and a
    tombstone; the theorems of EvidenceLedger and LedgerOutcomes applied to it. *)

From stdpp Require Import list sorting.
From S2P Require Import Prelude GoStd Errors Identity FactStore RunFact Sha256 Json JsonParse Canonical Payload JsonCodec EffectContract Evidence EvidenceCodec EvidenceLedger LedgerStore LedgerSafety LedgerOutcomes.

Local Open Scope N_scope.

Definition lx_scope : ExecutionScope :=
  {| sc_Identity := {| id_TenantID := "t"; id_ID := "a"; id_Epoch := 1 |};
     sc_Lineage := {| lin_ID := "l"; lin_PlanDigest := ex_digest |}; sc_Instance := {| inst_ID := "i"; inst_Epoch := 1 |};
     sc_SandboxLease := None; sc_AuthorityEpoch := 1 |}.
Definition lx_ledger : EvidenceLedgerScopeV2 :=
  {| ls_Partition := EvidencePartitionTenant; ls_TenantID := "t"; ls_IdentityID := ""; ls_LineageID := "";
     ls_InstanceID := ""; ls_RunID := ""; ls_EffectID := "" |}.
Definition lx_producer : EvidenceProducerBindingRefV2 :=
  {| pb_BindingSetID := "b"; pb_BindingSetRevision := 1; pb_ComponentID := "p/files"; pb_ManifestDigest := ex_digest;
     pb_ArtifactDigest := ex_digest; pb_Capability := "files/write" |}.
Definition lx_authority : AuthorityBindingRefV2 :=
  {| ab_Ref := "auth"; ab_Digest := ex_digest; ab_Revision := 1; ab_Epoch := 1 |}.
Definition lx_policy : EvidenceSourcePolicyBindingRefV2 := {| sp_Ref := "policy"; sp_Digest := ex_digest; sp_Revision := 1 |}.

Definition lx_source : EvidenceSourceRegistrationFactV2 :=
  {| src_ContractVersion := EvidenceContractVersionV2; src_ID := "reg"; src_Revision := 1; src_SourceID := "p/source";
     src_SourceEpoch := 1; src_LedgerScope := lx_ledger; src_ExecutionScope := lx_scope;
     src_CurrentScope := {| xs_Ref := "scope"; xs_Digest := ex_digest; xs_Revision := 1 |}; src_CurrentScopeWatermark := 1;
     src_Producer := lx_producer; src_Authority := lx_authority; src_ActionScopeDigest := ex_digest;
     src_Policy := lx_policy;
     src_ClassMappings := [{| cm_Class := "p/log"; cm_Trust := EvidenceTrustObservation |}];
     src_AllowedKinds := ["p/event"]; src_GapPolicy := EvidenceGapStrictV2; src_NextSourceSequence := 1;
     src_State := EvidenceSourceActive; src_CreatedUnixNano := 10; src_UpdatedUnixNano := 10;
     src_ExpiresUnixNano := 1000 |}.

Definition lx_configuration : Digest := Eval vm_compute in digest_or_empty (ConfigurationDigestV2 lx_source).

Definition lx_event (id : string) (revision sequence : N) (observed : Z) : EvidenceEventCandidateV2 :=
  {| ev_ContractVersion := EvidenceContractVersionV2; ev_LedgerScope := lx_ledger; ev_EventID := id;
     ev_RegistrationID := "reg"; ev_RegistrationRevision := revision; ev_SourceConfigurationDigest := lx_configuration;
     ev_SourcePolicy := lx_policy; ev_SourceID := "p/source"; ev_SourceEpoch := 1; ev_SourceSequence := sequence;
     ev_TrustClass := EvidenceTrustObservation; ev_ClaimKind := no_claim; ev_EventKind := "p/event";
     ev_CustomClass := "p/log"; ev_ExecutionScope := lx_scope;
     ev_Payload := {| pl_Schema := ex_schema; pl_ContentDigest := ex_digest; pl_Revision := 1; pl_Length := 12; pl_Ref := "blob" |};
     ev_Causation := Some []; ev_CorrelationID := "c"; ev_Producer := lx_producer; ev_Authority := lx_authority;
     ev_OwnerFact := None; ev_HistoricalSource := None; ev_ObservedUnixNano := observed |}.

Definition lx_event_1 : EvidenceEventCandidateV2 := lx_event "e1" 1 1 20.
Definition lx_event_2 : EvidenceEventCandidateV2 := lx_event "e2" 2 2 30.
Definition lx_append_1 : EvidenceAppendRequestV2 := {| app_Candidate := lx_event_1; app_ExpectedSourceRevision := 1 |}.
Definition lx_append_2 : EvidenceAppendRequestV2 := {| app_Candidate := lx_event_2; app_ExpectedSourceRevision := 2 |}.

Definition lx_store_1 : EvidenceLedgerStoreV2 :=
  Eval vm_compute in fst (CreateSource CtxLive (UnixTime 10) lx_source NewEvidenceLedgerStoreV2).
Definition lx_store_2 : EvidenceLedgerStoreV2 := Eval vm_compute in fst (Append CtxLive (UnixTime 25) lx_append_1 lx_store_1).
Definition lx_store_3 : EvidenceLedgerStoreV2 := Eval vm_compute in fst (LoseNextAppendReply lx_store_2).
Definition lx_store_4 : EvidenceLedgerStoreV2 := Eval vm_compute in fst (Append CtxLive (UnixTime 35) lx_append_2 lx_store_3).

Definition lx_log : list EvidenceLedgerRecordV2 := Eval vm_compute in log lx_store_4 (digest_or_empty (EvidenceLedgerScopeV2_DigestV2 lx_ledger)).
Definition lx_record_1 : EvidenceLedgerRecordV2 := Eval vm_compute in default zero_EvidenceLedgerRecordV2 (lx_log !! 0%nat).
Definition lx_record_2 : EvidenceLedgerRecordV2 := Eval vm_compute in default zero_EvidenceLedgerRecordV2 (lx_log !! 1%nat).

(** The tombstone of the first record. *)
Definition lx_tombstone : EvidenceTombstoneFactV2 :=
  {| tb_Record := lr_Ref lx_record_1; tb_Source := source_key lx_record_1; tb_Causation := None; tb_Reason := "p/erased";
     tb_Revision := 1; tb_CreatedUnixNano := 40 |}.
Definition lx_store_5 : EvidenceLedgerStoreV2 :=
  Eval vm_compute in fst (CreateTombstone CtxLive (UnixTime 40) lx_tombstone lx_store_4).

(** ** Its steps *)

Lemma lx_create : fst (CreateSource CtxLive (UnixTime 10) lx_source NewEvidenceLedgerStoreV2) = lx_store_1.
Proof. vm_cast_no_check (eq_refl lx_store_1). Qed.
Lemma lx_append_1_run : Append CtxLive (UnixTime 25) lx_append_1 lx_store_1 = (lx_store_2, Ok lx_record_1).
Proof. vm_cast_no_check (eq_refl (lx_store_2, Ok lx_record_1 : result EvidenceLedgerRecordV2)). Qed.
Lemma lx_append_2_run :
  Append CtxLive (UnixTime 35) lx_append_2 lx_store_3 = (lx_store_4, fail ErrorUnavailable ReasonEvidenceUnavailable).
Proof.
  vm_cast_no_check (eq_refl (lx_store_4, fail ErrorUnavailable ReasonEvidenceUnavailable : result EvidenceLedgerRecordV2)).
Qed.
Lemma lx_tombstone_run : CreateTombstone CtxLive (UnixTime 40) lx_tombstone lx_store_4 = (lx_store_5, Ok lx_tombstone).
Proof. vm_cast_no_check (eq_refl (lx_store_5, Ok lx_tombstone : result EvidenceTombstoneFactV2)). Qed.

Ltac copy_by_value :=
  split; [| vm_cast_no_check (eq_refl true)]; repeat split;
  first [ set_solver | constructor; set_solver | by vm_compute ].

Lemma lx_source_copyable : copyable lx_source.
Proof. copy_by_value. Qed.
Lemma lx_event_1_copyable : copyable lx_event_1.
Proof. copy_by_value. Qed.
Lemma lx_event_2_copyable : copyable lx_event_2.
Proof. copy_by_value. Qed.
Lemma lx_tombstone_copyable : copyable lx_tombstone.
Proof. copy_by_value. Qed.

Lemma lx_steps :
  rtc ledger_step NewEvidenceLedgerStoreV2 lx_store_1 /\ rtc ledger_step lx_store_1 lx_store_2
  /\ rtc ledger_step lx_store_2 lx_store_3 /\ ledger_step lx_store_3 lx_store_4 /\ ledger_step lx_store_4 lx_store_5.
Proof.
  split_and!.
  - apply rtc_once. rewrite <- lx_create. by apply step_create_source, lx_source_copyable.
  - apply rtc_once. pose proof (step_append CtxLive (UnixTime 25) lx_append_1 lx_store_1 lx_event_1_copyable) as H.
    by rewrite lx_append_1_run in H.
  - apply rtc_once. exact (step_lose_append lx_store_2).
  - pose proof (step_append CtxLive (UnixTime 35) lx_append_2 lx_store_3 lx_event_2_copyable) as H.
    by rewrite lx_append_2_run in H.
  - pose proof (step_tombstone CtxLive (UnixTime 40) lx_tombstone lx_store_4 lx_tombstone_copyable) as H.
    by rewrite lx_tombstone_run in H.
Qed.

Lemma lx_reachable_3 : rtc ledger_step NewEvidenceLedgerStoreV2 lx_store_3.
Proof. destruct lx_steps as (H1 & H2 & H3 & _). by etrans; [| etrans]. Qed.
Lemma lx_reachable_4 : rtc ledger_step NewEvidenceLedgerStoreV2 lx_store_4.
Proof. destruct lx_steps as (_ & _ & _ & H4 & _). eapply rtc_r; [exact lx_reachable_3 | done]. Qed.
Lemma lx_reachable_5 : rtc ledger_step NewEvidenceLedgerStoreV2 lx_store_5.
Proof. destruct lx_steps as (_ & _ & _ & _ & H5). eapply rtc_r; [exact lx_reachable_4 | done]. Qed.

(** ** The theorems at this history *)

Definition lx_digest : Digest := er_LedgerScopeDigest (lr_Ref lx_record_1).
Lemma lx_log_4 : log lx_store_4 lx_digest = lx_log.
Proof. vm_compute. reflexivity. Qed.

Definition lx_calls : list LedgerCall :=
  [call_create_source CtxLive (UnixTime 10) lx_source; call_append CtxLive (UnixTime 25) lx_append_1; call_lose_append].

Lemma lx_calls_run : ledger_runs lx_calls NewEvidenceLedgerStoreV2 = lx_store_3.
Proof. cbn [ledger_runs lx_calls fold_left ledger_run]. by rewrite lx_create, lx_append_1_run. Qed.

Lemma ledger_refines_logs_witness :
  let s' := ledger_run (call_append CtxLive (UnixTime 35) lx_append_2) (ledger_runs lx_calls NewEvidenceLedgerStoreV2) in
  s' = lx_store_4 /\ logs_step (log lx_store_3) (log s')
  /\ InspectRecord CtxLive (lr_Ref lx_record_1) s' = (s', Ok lx_record_1).
Proof.
  assert (Forall utf8_call lx_calls) as U
    by (repeat constructor; [apply lx_source_copyable.. | apply lx_event_1_copyable | apply lx_event_1_copyable]).
  destruct (ledger_refines_logs lx_calls (call_append CtxLive (UnixTime 35) lx_append_2) U lx_event_2_copyable) as (H1 & _ & H3).
  rewrite lx_calls_run in *. cbn [ledger_run] in *. rewrite lx_append_2_run in *. cbn [fst] in *. cbv zeta.
  split; [reflexivity | split; [exact H1 |]].
  rewrite H3 by (vm_compute; reflexivity). vm_compute. reflexivity.
Defined.

Lemma ledger_store_invariant_witness :
  rtc ledger_step NewEvidenceLedgerStoreV2 lx_store_5 /\ ledger_ok lx_store_5.
Proof. split; [exact lx_reachable_5 | apply (ledger_store_invariant lx_store_5 lx_reachable_5)]. Defined.

Lemma watch_reads_log_witness :
  rtc ledger_step NewEvidenceLedgerStoreV2 lx_store_4
  /\ drain 3 CtxLive {| wc_LedgerScopeDigest := lx_digest; wc_AfterSequence := 0 |} 1 lx_store_4 = lx_log.
Proof.
  split; [exact lx_reachable_4 |].
  destruct (watch_reads_log CtxLive lx_digest 1 lx_store_4 lx_reachable_4) as [_ H];
    [reflexivity | vm_compute; reflexivity | split; vm_compute; discriminate |].
  rewrite lx_log_4 in H. exact H.
Defined.

(** The second event, whose reply was lost, is answered when it is sent again. *)
Lemma append_exactly_once_witness :
  rtc ledger_step NewEvidenceLedgerStoreV2 lx_store_3 /\ copyable lx_event_2
  /\ snd (append_event CtxLive (UnixTime 35) lx_event_2 2 false lx_store_3) = fail ErrorUnavailable ReasonEvidenceUnavailable
  /\ exists r, lr_Candidate r = lx_event_2
       /\ append_event CtxLive (UnixTime 99) lx_event_2 7 true lx_store_5 = (lx_store_5, Ok r).
Proof.
  pose proof lx_append_2_run as Hrun. unfold Append, lx_append_2 in Hrun. cbn [app_Candidate app_ExpectedSourceRevision] in Hrun.
  split; [exact lx_reachable_3 | split; [exact lx_event_2_copyable | split; [by rewrite Hrun |]]].
  pose proof (append_exactly_once CtxLive (UnixTime 35) lx_event_2 2 false lx_store_3 lx_reachable_3 lx_event_2_copyable) as H.
  cbv zeta in H. rewrite Hrun in H. cbn [fst snd] in H.
  destruct H as [[H _] | (r & _ & _ & [(_ & _ & H) | (_ & Hc & _)] & Hlater)]; [discriminate H | discriminate H |].
  exists r. split; [exact Hc |]. destruct lx_steps as (_ & _ & _ & _ & H5).
  destruct (Hlater lx_store_5 (rtc_once _ _ H5)) as [_ Hr]. by apply Hr.
Defined.

Lemma ledger_history_witness :
  rtc ledger_step NewEvidenceLedgerStoreV2 lx_store_3 /\ rtc ledger_step lx_store_3 lx_store_5
  /\ log lx_store_3 lx_digest `prefix_of` log lx_store_5 lx_digest
  /\ exists g, el_sources lx_store_5 !! "reg" = Some g /\ source_extends (default lx_source (el_sources lx_store_3 !! "reg")) g.
Proof.
  destruct lx_steps as (_ & _ & _ & H4 & H5).
  assert (rtc ledger_step lx_store_3 lx_store_5) as St by (eapply rtc_l; [exact H4 | by apply rtc_once]).
  destruct (ledger_history lx_store_3 lx_store_5 lx_reachable_3 St) as (H1 & H2 & _).
  split; [exact lx_reachable_3 | split; [exact St | split; [apply H1 |]]].
  apply H2. vm_compute. reflexivity.
Defined.

Lemma ledger_chain_tamper_evident_witness :
  ledger_chain lx_log /\ last lx_log = Some lx_record_2
  /\ (lx_log = lx_log \/ exists a b, a ∈ lx_log /\ b ∈ lx_log /\ collision (record_preimage a) (record_preimage b)).
Proof.
  destruct (lo_logs lx_store_4 (reachable_ledger_ok _ lx_reachable_4) lx_digest) as [_ Hc Hr _].
  rewrite lx_log_4 in Hc, Hr.
  assert (Forall copyable lx_log) as C by (eapply Forall_impl; [exact Hr | intros r [_ H]; exact H]).
  split; [exact Hc | split; [reflexivity |]].
  exact (ledger_chain_tamper_evident lx_log lx_log lx_record_2 lx_record_2 Hc Hc C C eq_refl eq_refl eq_refl).
Defined.

(** ** Limits *)

(** A registration cannot be created again once it has recorded an event: the
    digest that CreateSource compares covers the revision and the cursor. *)
Example registration_replay_refused :
  snd (CreateSource CtxLive (UnixTime 50) lx_source lx_store_2) = fail ErrorConflict ReasonIdempotencyPayloadMismatch.
Proof. vm_cast_no_check (eq_refl (fail ErrorConflict ReasonIdempotencyPayloadMismatch : result EvidenceSourceRegistrationFactV2)). Qed.

(** An event whose payload reference is not UTF-8 is accepted, and the record that
    is stored and answered does not have the digest of its candidate: the copy
    replaces the invalid bytes. *)
Definition lx_event_byte (code : N) : EvidenceEventCandidateV2 :=
  {| ev_ContractVersion := EvidenceContractVersionV2; ev_LedgerScope := lx_ledger; ev_EventID := "e1";
     ev_RegistrationID := "reg"; ev_RegistrationRevision := 1; ev_SourceConfigurationDigest := lx_configuration;
     ev_SourcePolicy := lx_policy; ev_SourceID := "p/source"; ev_SourceEpoch := 1; ev_SourceSequence := 1;
     ev_TrustClass := EvidenceTrustObservation; ev_ClaimKind := no_claim; ev_EventKind := "p/event";
     ev_CustomClass := "p/log"; ev_ExecutionScope := lx_scope;
     ev_Payload := {| pl_Schema := ex_schema; pl_ContentDigest := ex_digest; pl_Revision := 1; pl_Length := 12;
                      pl_Ref := string_of_codes [code] |};
     ev_Causation := Some []; ev_CorrelationID := "c"; ev_Producer := lx_producer; ev_Authority := lx_authority;
     ev_OwnerFact := None; ev_HistoricalSource := None; ev_ObservedUnixNano := 20 |}.

Example stored_record_drifts :
  (r ← snd (Append CtxLive (UnixTime 25) {| app_Candidate := lx_event_byte 255; app_ExpectedSourceRevision := 1 |} lx_store_1) ;
   ValidateEvidenceLedgerRecordV2 r) = fail ErrorPreconditionFailed ReasonEvidenceConflict.
Proof. vm_cast_no_check (eq_refl (fail ErrorPreconditionFailed ReasonEvidenceConflict : result unit)). Qed.

(** Two valid records of one digest that differ only in that byte. *)
Example digest_ignores_invalid_bytes :
  (r ← NewEvidenceLedgerRecordV2 (lx_event_byte 255) 1 EvidenceGenesisDigestV2 (UnixTime 25) ;
   r' ← NewEvidenceLedgerRecordV2 (lx_event_byte 254) 1 EvidenceGenesisDigestV2 (UnixTime 25) ;
   ValidateEvidenceLedgerRecordV2 r ;; ValidateEvidenceLedgerRecordV2 r' ;;
   Ok (bool_decide (lr_Ref r = lr_Ref r') && negb (bool_decide (ev_Payload (lr_Candidate r) = ev_Payload (lr_Candidate r')))))
  = Ok true.
Proof. vm_cast_no_check (eq_refl (Ok true : result bool)). Qed.
