(* ===== verification/BindingFact.v ===== *)
(** * control/binding_fact_v2.go: binding facts and binding sets

    The lifecycle of a component's binding (declared, probed, certified, bound,
    and then expired or revoked), the set of bindings that implements a plan, and
    how a set is built from the certified facts.  [BuildBindingSetV2] ranges over
    maps; the iteration order is an argument. *)

From S2P Require Import Prelude GoStd Errors Identity SemVer Json Canonical Payload EffectContract Assembly Binding Evidence Topology.

Local Open Scope N_scope.

(** ** Data *)

Inductive BindingLifecycleStateV2 :=
| BindingDeclared | BindingProbed | BindingCertified | BindingBound | BindingRevoked | BindingExpired
| BindingStateOther (raw : string).
#[export] Instance BindingLifecycleStateV2_eq_dec : EqDecision BindingLifecycleStateV2.
Proof. solve_decision. Defined.

Inductive BindingSetStateV2 :=
| BindingSetActive | BindingSetRevoked | BindingSetExpired | BindingSetStateOther (raw : string).
#[export] Instance BindingSetStateV2_eq_dec : EqDecision BindingSetStateV2.
Proof. solve_decision. Defined.
Definition BindingSetStateV2_string (s : BindingSetStateV2) : string :=
  match s with
  | BindingSetActive => "active" | BindingSetRevoked => "revoked" | BindingSetExpired => "expired"
  | BindingSetStateOther raw => raw
  end.

(** InvalidationReason is a string that is compared with reason codes. *)
Record BindingFactV2 := {
  bf_ID : string;
  bf_ComponentID : string;
  bf_Manifest : ComponentManifestV2;
  bf_ManifestDigest : Digest;
  bf_GovernanceDigest : Digest;
  bf_State : BindingLifecycleStateV2;
  bf_Revision : N;
  bf_Grants : option (list CapabilityGrantV2);
  bf_ProbedUnixNano : Z;
  bf_CertifiedUnixNano : Z;
  bf_ConformanceEvidenceDigest : Digest;
  bf_ExpiresUnixNano : Z;
  bf_BindingSetID : string;
  bf_InvalidationReason : string;
  bf_RenewalEvidence : option (list EvidenceRecordRefV2);
}.

Record BindingFactCASRequestV2 := { bfc_ExpectedRevision : N; bfc_Next : BindingFactV2 }.

(** The slices of a member and the members and order of a set are validated to be
    non-empty before they are compared or printed; Residuals may be nil. *)
Record BindingMemberV2 := {
  bm_BindingID : string;
  bm_BindingRevision : N;
  bm_ComponentID : string;
  bm_Kind : string;
  bm_ManifestDigest : Digest;
  bm_ArtifactDigest : Digest;
  bm_Contract : ContractBindingV2;
  bm_Owners : list OwnerAssignmentV2;
  bm_Grants : list CapabilityGrantV2;
}.
#[export] Instance BindingMemberV2_eq_dec : EqDecision BindingMemberV2.
Proof. solve_decision. Defined.

Record BindingResidualV2 := { br_ComponentID : string; br_Reason : string }.
#[export] Instance BindingResidualV2_eq_dec : EqDecision BindingResidualV2.
Proof. solve_decision. Defined.

Record BindingSetFactV2 := {
  bs_ID : string;
  bs_PlanID : string;
  bs_PlanDigest : Digest;
  bs_GovernanceDigest : Digest;
  bs_State : BindingSetStateV2;
  bs_Revision : N;
  bs_Members : list BindingMemberV2;
  bs_TopologicalOrder : list string;
  bs_Residuals : option (list BindingResidualV2);
  bs_CreatedUnixNano : Z;
  bs_ExpiresUnixNano : Z;
  bs_InvalidationReason : string;
}.
#[export] Instance BindingSetFactV2_eq_dec : EqDecision BindingSetFactV2.
Proof. solve_decision. Defined.

Record ExpectedBindingRevisionV2 := { ebr_BindingID : string; ebr_ExpectedRevision : N }.
Record CommitBindingSetRequestV2 := { cbs_Set : BindingSetFactV2; cbs_Expected : list ExpectedBindingRevisionV2 }.
Record BindingSetCASRequestV2 := { bsc_ExpectedRevision : N; bsc_Next : BindingSetFactV2 }.
Record RenewBindingSetRequestV2 := {
  rbs_ExpectedSetRevision : N;
  rbs_NextSet : BindingSetFactV2;
  rbs_NextBindings : list BindingFactV2;
}.

Definition BindingRenewalAttestationKindV2 : string := "runtime/binding-renewal".
Definition BindingRenewalCertifierCapabilityV2 : string := "runtime/certify-binding-renewal".

Record BindingRenewalAttestationV2 := {
  ba_Evidence : EvidenceRecordRefV2;
  ba_Kind : string;
  ba_BindingID : string;
  ba_ComponentID : string;
  ba_ManifestDigest : Digest;
  ba_GrantSetDigest : Digest;
  ba_SubjectDigest : Digest;
  ba_Certifier : EvidenceProducerBindingRefV2;
  ba_SourceEpoch : N;
  ba_SourceSequence : N;
  ba_ObservedUnixNano : Z;
  ba_ExpiresUnixNano : Z;
}.

Record BindingCurrentProbeV2 := { probe_ComponentID : string; probe_ManifestDigest : Digest }.

Definition max_i64 : Z := 9223372036854775807%Z.

(** ** Renewal attestations *)

Definition renewal_subject_json (bindingID componentID : string) (manifestDigest grantSetDigest : Digest) : json :=
  JStruct [field "binding_id" (JString bindingID); field "component_id" (JString componentID);
           field "manifest_digest" (JString manifestDigest); field "grant_set_digest" (JString grantSetDigest)].

Definition BindingRenewalSubjectDigestV2 (bindingID componentID : string) (manifestDigest grantSetDigest : Digest)
  : result Digest :=
  guard (blank bindingID || (128 <? str_len bindingID)) ErrorInvalidArgument ReasonInvalidReference ;;
  ValidateNamespacedNameV2 componentID ;;
  Digest_Validate manifestDigest ;;
  Digest_Validate grantSetDigest ;;
  binding_digest "BindingRenewalSubjectV2" (renewal_subject_json bindingID componentID manifestDigest grantSetDigest).

Definition BindingRenewalAttestationV2_Validate (a : BindingRenewalAttestationV2) : result unit :=
  EvidenceRecordRefV2_Validate (ba_Evidence a) ;;
  guard (negb (bool_decide (ba_Kind a = BindingRenewalAttestationKindV2)) || blank (ba_BindingID a)
         || (128 <? str_len (ba_BindingID a)) || N.eqb (ba_SourceEpoch a) 0 || N.eqb (ba_SourceSequence a) 0
         || (ba_ObservedUnixNano a <=? 0)%Z || (ba_ExpiresUnixNano a <=? ba_ObservedUnixNano a)%Z)
    ErrorInvalidArgument ReasonBindingNotCertified ;;
  ValidateNamespacedNameV2 (ba_ComponentID a) ;;
  for_each Digest_Validate [ba_ManifestDigest a; ba_GrantSetDigest a; ba_SubjectDigest a] ;;
  EvidenceProducerBindingRefV2_Validate (ba_Certifier a) ;;
  guard (negb (bool_decide (pb_Capability (ba_Certifier a) = BindingRenewalCertifierCapabilityV2))
         || bool_decide (pb_ComponentID (ba_Certifier a) = ba_ComponentID a))
    ErrorForbidden ReasonBindingNotCertified ;;
  match BindingRenewalSubjectDigestV2 (ba_BindingID a) (ba_ComponentID a) (ba_ManifestDigest a) (ba_GrantSetDigest a) with
  | Ok subject =>
      guard (negb (bool_decide (subject = ba_SubjectDigest a))) ErrorPreconditionFailed ReasonBindingDrift
  | Err _ => fail ErrorPreconditionFailed ReasonBindingDrift
  end.

Definition BindingGrantSetDigestV2 (grants : list CapabilityGrantV2) : result Digest :=
  ValidateCapabilityGrantStructureV2 grants ;;
  binding_digest "BindingGrantSetV2" (JArray (map CapabilityGrantV2_json grants)).

(** ** Binding facts *)

Definition validBindingStateV2 (value : BindingLifecycleStateV2) : bool :=
  match value with BindingStateOther _ => false | _ => true end.
Definition validBindingSetStateV2 (value : BindingSetStateV2) : bool :=
  match value with BindingSetStateOther _ => false | _ => true end.

Definition provided_map (capabilities : list ProvidedCapabilityV2) : gmap string ProvidedCapabilityV2 :=
  fold_left (fun m capability => <[pc_Capability capability := capability]> m) capabilities ∅.

(** The loop over the grants: the capabilities seen, the previous capability (nil
    before the first) and the least expiry so far. *)
Fixpoint check_grants (provided : gmap string ProvidedCapabilityV2) (seen : gset string) (previous : option string)
    (minimumExpiry : Z) (grants : list CapabilityGrantV2) : result (gset string * Z) :=
  match grants with
  | [] => Ok (seen, minimumExpiry)
  | grant :: rest =>
      match provided !! cg_Capability grant with
      | None => fail ErrorCapabilityUnavailable ReasonUnknownCapability
      | Some declaration =>
          guard (bool_decide (cg_Capability grant ∈ seen)) ErrorConflict ReasonUnknownCapability ;;
          guard (match previous with Some p => str_lt (cg_Capability grant) p | None => false end)
            ErrorInvalidArgument ReasonInvalidCanonicalForm ;;
          Digest_Validate (cg_EvidenceDigest grant) ;;
          guard (grant_ttl_invalid grant (pc_TTLSeconds declaration)) ErrorPreconditionFailed ReasonCapabilityExpired ;;
          check_grants provided ({[cg_Capability grant]} ∪ seen) (Some (cg_Capability grant))
            (if (cg_ExpiresUnixNano grant <? minimumExpiry)%Z then cg_ExpiresUnixNano grant else minimumExpiry) rest
      end
  end.

Definition validateBindingGrantSetV2 (f : BindingFactV2) : result unit :=
  let provided := provided_map (slice_items (m_ProvidedCapabilities (bf_Manifest f))) in
  r ← check_grants provided ∅ None max_i64 (slice_items (bf_Grants f)) ;
  guard (negb (bool_decide (bf_State f = BindingDeclared)) && negb (bool_decide (bf_State f = BindingRevoked))
         && negb (Nat.eqb (size (fst r)) (size provided))) ErrorPreconditionFailed ReasonUnknownCapability ;;
  guard (negb (Nat.eqb (length (slice_items (bf_Grants f))) 0) && negb (Z.eqb (bf_ExpiresUnixNano f) (snd r)))
    ErrorPreconditionFailed ReasonCapabilityExpired.

(** Validate, and then strictly increasing sequence numbers. *)
Fixpoint evidence_ordered (previous : option N) (evidence : list EvidenceRecordRefV2) : result unit :=
  match evidence with
  | [] => Ok tt
  | record :: rest =>
      EvidenceRecordRefV2_Validate record ;;
      guard (match previous with Some p => er_Sequence record <=? p | None => false end)
        ErrorInvalidArgument ReasonInvalidCanonicalForm ;;
      evidence_ordered (Some (er_Sequence record)) rest
  end.

Definition expiry_reasons : list string :=
  map ReasonCode_string [ReasonBindingExpired; ReasonBindingDrift; ReasonCapabilityExpired; ReasonComponentMissing].

(** The switch on the state. *)
Definition binding_state_fields (f : BindingFactV2) : result unit :=
  match bf_State f with
  | BindingDeclared =>
      guard (negb (Nat.eqb (length (slice_items (bf_Grants f))) 0) || negb (Z.eqb (bf_ProbedUnixNano f) 0)
             || negb (Z.eqb (bf_CertifiedUnixNano f) 0) || negb (Z.eqb (bf_ExpiresUnixNano f) 0)
             || negb (bool_decide (bf_ConformanceEvidenceDigest f = ""))
             || negb (bool_decide (bf_BindingSetID f = "")) || negb (bool_decide (bf_InvalidationReason f = "")))
        ErrorPreconditionFailed ReasonInvalidState
  | BindingProbed =>
      guard ((bf_ProbedUnixNano f <=? 0)%Z || negb (Z.eqb (bf_CertifiedUnixNano f) 0)
             || (bf_ExpiresUnixNano f <=? bf_ProbedUnixNano f)%Z
             || negb (bool_decide (bf_ConformanceEvidenceDigest f = ""))
             || negb (bool_decide (bf_BindingSetID f = "")) || negb (bool_decide (bf_InvalidationReason f = "")))
        ErrorPreconditionFailed ReasonInvalidState
  | BindingCertified =>
      guard ((bf_ProbedUnixNano f <=? 0)%Z || (bf_CertifiedUnixNano f <=? 0)%Z
             || (bf_ExpiresUnixNano f <=? bf_ProbedUnixNano f)%Z
             || negb (bool_decide (bf_BindingSetID f = "")) || negb (bool_decide (bf_InvalidationReason f = "")))
        ErrorPreconditionFailed ReasonInvalidState ;;
      Digest_Validate (bf_ConformanceEvidenceDigest f) ;;
      guard (bool_decide (m_Conformance (bf_Manifest f) = ConformanceRejected))
        ErrorForbidden ReasonBindingNotCertified
  | BindingBound =>
      guard ((bf_ProbedUnixNano f <=? 0)%Z || (bf_CertifiedUnixNano f <=? 0)%Z
             || (bf_ExpiresUnixNano f <=? bf_ProbedUnixNano f)%Z
             || bool_decide (bf_BindingSetID f = "") || negb (bool_decide (bf_InvalidationReason f = "")))
        ErrorPreconditionFailed ReasonInvalidState ;;
      Digest_Validate (bf_ConformanceEvidenceDigest f)
  | BindingExpired =>
      guard (negb (bool_decide (bf_InvalidationReason f ∈ expiry_reasons))) ErrorPreconditionFailed ReasonInvalidState
  | BindingRevoked => guard (bool_decide (bf_InvalidationReason f = "")) ErrorPreconditionFailed ReasonInvalidState
  | BindingStateOther _ => Ok tt
  end.

Definition BindingFactV2_Validate (f : BindingFactV2) : result unit :=
  guard (bool_decide (bf_ID f = "") || (128 <? str_len (bf_ID f)) || negb (bool_decide (TrimSpace (bf_ID f) = bf_ID f))
         || N.eqb (bf_Revision f) 0) ErrorInvalidArgument ReasonInvalidReference ;;
  ComponentManifestV2_Validate (bf_Manifest f) ;;
  guard (negb (bool_decide (bf_ComponentID f = m_ComponentID (bf_Manifest f))))
    ErrorPreconditionFailed ReasonComponentMismatch ;;
  digest ← BindingDigestV2 (bf_Manifest f) ;
  guard (negb (bool_decide (digest = bf_ManifestDigest f))) ErrorPreconditionFailed ReasonBindingDrift ;;
  Digest_Validate (bf_GovernanceDigest f) ;;
  guard (negb (validBindingStateV2 (bf_State f))) ErrorInvalidArgument ReasonInvalidState ;;
  validateBindingGrantSetV2 f ;;
  guard (MaxManifestSetEntries <? len (slice_items (bf_RenewalEvidence f)))
    ErrorInvalidArgument ReasonCanonicalLimitExceeded ;;
  evidence_ordered None (slice_items (bf_RenewalEvidence f)) ;;
  binding_state_fields f.

Definition BindingFactCASRequestV2_Validate (r : BindingFactCASRequestV2) (now : Time) : result unit :=
  guard (IsZero now || N.eqb (bfc_ExpectedRevision r) 0
         || negb (N.eqb (bf_Revision (bfc_Next r)) (u64_succ (bfc_ExpectedRevision r))))
    ErrorInvalidArgument ReasonRevisionConflict ;;
  BindingFactV2_Validate (bfc_Next r).

(** The lifecycle: `switch current.State`. *)
Definition lifecycle_move (current next : BindingLifecycleStateV2) : result bool :=
  match current with
  | BindingDeclared => Ok (bool_decide (next = BindingProbed) || bool_decide (next = BindingRevoked))
  | BindingProbed =>
      Ok (bool_decide (next = BindingCertified) || bool_decide (next = BindingExpired) || bool_decide (next = BindingRevoked))
  | BindingCertified =>
      Ok (bool_decide (next = BindingBound) || bool_decide (next = BindingExpired) || bool_decide (next = BindingRevoked))
  | BindingBound => Ok (bool_decide (next = BindingExpired) || bool_decide (next = BindingRevoked))
  | BindingExpired | BindingRevoked => fail ErrorPreconditionFailed ReasonInvalidTransition
  | BindingStateOther _ => Ok false
  end.

Definition binding_identity_drifted (current next : BindingFactV2) : bool :=
  negb (bool_decide (bf_ID current = bf_ID next)) || negb (bool_decide (bf_ComponentID current = bf_ComponentID next))
  || negb (bool_decide (bf_ManifestDigest current = bf_ManifestDigest next))
  || negb (bool_decide (bf_GovernanceDigest current = bf_GovernanceDigest next))
  || negb (bool_decide (m_ArtifactDigest (bf_Manifest current) = m_ArtifactDigest (bf_Manifest next)))
  || negb (bool_decide (m_Contract (bf_Manifest current) = m_Contract (bf_Manifest next))).

Definition ValidateBindingFactTransitionV2 (current next : BindingFactV2) (now : Time) : result unit :=
  BindingFactV2_Validate current ;;
  BindingFactV2_Validate next ;;
  guard (IsZero now) ErrorInvalidArgument ReasonInvalidReference ;;
  guard (binding_identity_drifted current next) ErrorPreconditionFailed ReasonBindingDrift ;;
  guard (negb (N.eqb (bf_Revision next) (u64_succ (bf_Revision current)))) ErrorConflict ReasonRevisionConflict ;;
  guard (negb (bool_decide (bf_State current = BindingDeclared))
         && (negb (bool_decide (bf_Grants current = bf_Grants next))
             || negb (Z.eqb (bf_ProbedUnixNano current) (bf_ProbedUnixNano next))
             || negb (Z.eqb (bf_ExpiresUnixNano current) (bf_ExpiresUnixNano next))))
    ErrorPreconditionFailed ReasonBindingDrift ;;
  guard ((bool_decide (bf_State current = BindingCertified) || bool_decide (bf_State current = BindingBound))
         && (negb (Z.eqb (bf_CertifiedUnixNano current) (bf_CertifiedUnixNano next))
             || negb (bool_decide (bf_ConformanceEvidenceDigest current = bf_ConformanceEvidenceDigest next))))
    ErrorPreconditionFailed ReasonBindingDrift ;;
  guard (UnixNano now <? bf_ProbedUnixNano current)%Z ErrorPreconditionFailed ReasonClockRegression ;;
  valid ← lifecycle_move (bf_State current) (bf_State next) ;
  guard (negb valid) ErrorPreconditionFailed ReasonInvalidTransition ;;
  guard ((bool_decide (bf_State next = BindingCertified) || bool_decide (bf_State next = BindingBound))
         && negb (Before now (UnixTime (bf_ExpiresUnixNano next)))) ErrorPreconditionFailed ReasonBindingExpired ;;
  guard (bool_decide (bf_State next = BindingExpired) && Before now (UnixTime (bf_ExpiresUnixNano current))
         && bool_decide (bf_InvalidationReason next = ReasonCode_string ReasonBindingExpired))
    ErrorPreconditionFailed ReasonBindingExpired.

(** ** Binding sets *)

(** The loop over the members: the components seen and the least grant expiry. *)
Definition least_expiry (minimum : Z) (grants : list CapabilityGrantV2) : Z :=
  fold_left (fun m grant => if (cg_ExpiresUnixNano grant <? m)%Z then cg_ExpiresUnixNano grant else m) grants minimum.

Fixpoint check_members (seen : gset string) (minimumExpiry : Z) (members : list BindingMemberV2)
  : result (gset string * Z) :=
  match members with
  | [] => Ok (seen, minimumExpiry)
  | member :: rest =>
      guard (bool_decide (bm_BindingID member = "") || N.eqb (bm_BindingRevision member) 0)
        ErrorInvalidArgument ReasonBindingSetConflict ;;
      ValidateNamespacedNameV2 (bm_ComponentID member) ;;
      for_each Digest_Validate [bm_ManifestDigest member; bm_ArtifactDigest member] ;;
      validateContractBindingV2 (bm_Contract member) ;;
      ValidateOwnerAssignmentsV2 (bm_Owners member) ;;
      ValidateCapabilityGrantStructureV2 (bm_Grants member) ;;
      guard (bool_decide (bm_ComponentID member ∈ seen)) ErrorConflict ReasonBindingSetConflict ;;
      check_members ({[bm_ComponentID member]} ∪ seen) (least_expiry minimumExpiry (bm_Grants member)) rest
  end.

Fixpoint check_order (members seen : gset string) (order : list string) : result unit :=
  match order with
  | [] => Ok tt
  | componentID :: rest =>
      guard (negb (bool_decide (componentID ∈ members))) ErrorPreconditionFailed ReasonBindingSetConflict ;;
      guard (bool_decide (componentID ∈ seen)) ErrorConflict ReasonBindingSetConflict ;;
      check_order members ({[componentID]} ∪ seen) rest
  end.

Definition BindingSetFactV2_Validate (s : BindingSetFactV2) : result unit :=
  guard (bool_decide (bs_ID s = "") || (128 <? str_len (bs_ID s)) || bool_decide (bs_PlanID s = "")
         || N.eqb (bs_Revision s) 0 || (bs_CreatedUnixNano s <=? 0)%Z || (bs_ExpiresUnixNano s <=? bs_CreatedUnixNano s)%Z)
    ErrorInvalidArgument ReasonInvalidReference ;;
  Digest_Validate (bs_PlanDigest s) ;;
  Digest_Validate (bs_GovernanceDigest s) ;;
  guard (negb (validBindingSetStateV2 (bs_State s))) ErrorInvalidArgument ReasonInvalidState ;;
  guard (bool_decide (bs_State s = BindingSetActive) && negb (bool_decide (bs_InvalidationReason s = "")))
    ErrorPreconditionFailed ReasonInvalidState ;;
  guard (negb (bool_decide (bs_State s = BindingSetActive)) && bool_decide (bs_InvalidationReason s = ""))
    ErrorPreconditionFailed ReasonInvalidState ;;
  guard (Nat.eqb (length (bs_Members s)) 0 || (MaxManifestSetEntries <? len (bs_Members s))
         || negb (Nat.eqb (length (bs_TopologicalOrder s)) (length (bs_Members s))))
    ErrorInvalidArgument ReasonBindingSetConflict ;;
  r ← check_members ∅ max_i64 (bs_Members s) ;
  guard (negb (Z.eqb (bs_ExpiresUnixNano s) (snd r))) ErrorPreconditionFailed ReasonBindingExpired ;;
  check_order (fst r) ∅ (bs_TopologicalOrder s).

Definition member_grants_json (member : BindingMemberV2) : json :=
  JStruct [field "component_id" (JString (bm_ComponentID member));
           field "grants" (JArray (map CapabilityGrantV2_json (bm_Grants member)))].

Definition CapabilityGrantDigestV2 (s : BindingSetFactV2) : result Digest :=
  BindingSetFactV2_Validate s ;;
  binding_digest "CapabilityGrantSetV2" (JArray (map member_grants_json (bs_Members s))).

Definition ValidateBindingSetTransitionV2 (current next : BindingSetFactV2) : result unit :=
  BindingSetFactV2_Validate current ;;
  BindingSetFactV2_Validate next ;;
  guard (negb (bool_decide (bs_ID current = bs_ID next)) || negb (bool_decide (bs_PlanID current = bs_PlanID next))
         || negb (bool_decide (bs_PlanDigest current = bs_PlanDigest next))
         || negb (bool_decide (bs_GovernanceDigest current = bs_GovernanceDigest next))
         || negb (Z.eqb (bs_CreatedUnixNano current) (bs_CreatedUnixNano next)))
    ErrorPreconditionFailed ReasonBindingSetConflict ;;
  guard (negb (N.eqb (bs_Revision next) (u64_succ (bs_Revision current)))) ErrorConflict ReasonRevisionConflict ;;
  guard (negb (bool_decide (bs_State current = BindingSetActive))) ErrorPreconditionFailed ReasonInvalidTransition ;;
  guard (bool_decide (bs_State next = BindingSetActive)) ErrorForbidden ReasonInvalidTransition ;;
  guard (negb (bool_decide (bs_State next = BindingSetExpired)) && negb (bool_decide (bs_State next = BindingSetRevoked)))
    ErrorPreconditionFailed ReasonInvalidTransition ;;
  guard (negb (bool_decide (bs_Members current = bs_Members next))
         || negb (bool_decide (bs_TopologicalOrder current = bs_TopologicalOrder next))
         || negb (bool_decide (bs_Residuals current = bs_Residuals next))
         || negb (Z.eqb (bs_ExpiresUnixNano current) (bs_ExpiresUnixNano next)))
    ErrorPreconditionFailed ReasonBindingSetConflict.

(** ** Renewal *)

Definition sameEvidenceRecordRefsV2 (left right : list EvidenceRecordRefV2) : bool := bool_decide (left = right).

Fixpoint renewed_grants (old new : list CapabilityGrantV2) : result unit :=
  match old, new with
  | oldGrant :: old, newGrant :: new =>
      guard (negb (bool_decide (cg_Capability oldGrant = cg_Capability newGrant))
             || (cg_ObservedUnixNano newGrant <? cg_ObservedUnixNano oldGrant)%Z
             || (cg_ExpiresUnixNano newGrant <=? cg_ExpiresUnixNano oldGrant)%Z
             || bool_decide (cg_EvidenceDigest newGrant = cg_EvidenceDigest oldGrant))
        ErrorPreconditionFailed ReasonBindingDrift ;;
      renewed_grants old new
  | _, _ => Ok tt
  end.

Definition ValidateBindingFactRenewalV2 (current next : BindingFactV2) (now : Time) : result unit :=
  BindingFactV2_Validate current ;;
  BindingFactV2_Validate next ;;
  guard (IsZero now || negb (bool_decide (bf_State current = BindingBound)) || negb (bool_decide (bf_State next = BindingBound))
         || negb (bool_decide (bf_ID current = bf_ID next))
         || negb (N.eqb (bf_Revision next) (u64_succ (bf_Revision current)))
         || negb (bool_decide (bf_ComponentID current = bf_ComponentID next))
         || negb (bool_decide (bf_ManifestDigest current = bf_ManifestDigest next))
         || negb (bool_decide (bf_GovernanceDigest current = bf_GovernanceDigest next))
         || negb (bool_decide (bf_BindingSetID current = bf_BindingSetID next))
         || negb (Z.eqb (bf_ProbedUnixNano current) (bf_ProbedUnixNano next))
         || negb (Z.eqb (bf_CertifiedUnixNano current) (bf_CertifiedUnixNano next)))
    ErrorPreconditionFailed ReasonBindingDrift ;;
  let old := slice_items (bf_RenewalEvidence current) in
  let new := slice_items (bf_RenewalEvidence next) in
  guard (negb (Nat.eqb (length new) (length old + 1)) || negb (sameEvidenceRecordRefsV2 old (firstn (length old) new)))
    ErrorPreconditionFailed ReasonBindingDrift ;;
  let oldGrants := slice_items (bf_Grants current) in
  let newGrants := slice_items (bf_Grants next) in
  guard (negb (Nat.eqb (length oldGrants) (length newGrants)) || (bf_ExpiresUnixNano next <=? bf_ExpiresUnixNano current)%Z
         || negb (Before now (UnixTime (bf_ExpiresUnixNano next))))
    ErrorPreconditionFailed ReasonBindingExpired ;;
  renewed_grants oldGrants newGrants.

(** ** The semantic digest of a set *)

Definition BindingResidualV2_json (r : BindingResidualV2) : json :=
  JStruct [field "component_id" (JString (br_ComponentID r)); field "reason" (JString (br_Reason r))].

Definition semanticMember_json (member : BindingMemberV2) : json :=
  JStruct [field "binding_id" (JString (bm_BindingID member)); field "component_id" (JString (bm_ComponentID member));
           field "kind" (JString (bm_Kind member)); field "manifest_digest" (JString (bm_ManifestDigest member));
           field "artifact_digest" (JString (bm_ArtifactDigest member));
           field "contract" (ContractBindingV2_json (bm_Contract member));
           field "owners" (JArray (map OwnerAssignmentV2_json
             (sort_by (fun o => OwnerRoleV2_string (oa_Role o)) (bm_Owners member))));
           field "capabilities" (JArray (map JString (sort_by id (map cg_Capability (bm_Grants member)))))].

Definition BindingSetSemantic_json (set : BindingSetFactV2) : json :=
  JStruct [field "id" (JString (bs_ID set)); field "plan_id" (JString (bs_PlanID set));
           field "plan_digest" (JString (bs_PlanDigest set));
           field "governance_digest" (JString (bs_GovernanceDigest set));
           field "members" (JArray (map semanticMember_json (sort_by bm_ComponentID (bs_Members set))));
           field "topological_order" (JArray (map JString (bs_TopologicalOrder set)));
           field "residuals" (JArray (map BindingResidualV2_json (slice_items (bs_Residuals set))))].

Definition BindingSetSemanticDigestV2 (set : BindingSetFactV2) : result Digest :=
  BindingSetFactV2_Validate set ;;
  binding_digest "BindingSetSemanticV2" (BindingSetSemantic_json set).

(** ** Building a set *)

Definition grant_map (grants : list CapabilityGrantV2) : gmap string CapabilityGrantV2 :=
  fold_left (fun m grant => <[cg_Capability grant := grant]> m) grants ∅.

(** The reason why a fact cannot fill a requirement; nil when it can. *)
Definition bindingRequirementFailureV2 (requirement : BindingRequirementV2) (fact : BindingFactV2)
    (catalog : GovernanceCatalogV2) (now : Time) : option ReasonCode :=
  let manifest := bf_Manifest fact in
  let grants := grant_map (slice_items (bf_Grants fact)) in
  if negb (bool_decide (bf_State fact = BindingCertified)) then Some ReasonBindingNotCertified
  else if negb (Before now (UnixTime (bf_ExpiresUnixNano fact))) then Some ReasonBindingExpired
  else if negb (bool_decide (m_ComponentID manifest = br2_ComponentID requirement))
          || negb (bool_decide (m_Kind manifest = br2_Kind requirement))
          || negb (bool_decide (m_ArtifactDigest manifest = br2_ArtifactDigest requirement))
          || negb (bool_decide (cb_Name (m_Contract manifest) = br2_ContractName requirement))
          || negb (VersionRangeV2_Contains (br2_SemanticVersion requirement) (m_SemanticVersion manifest))
          || negb (VersionRangeV2_Contains (br2_Contract requirement) (cb_Version (m_Contract manifest)))
       then Some ReasonBindingDrift
  else if negb (is_ok (ValidateManifestAgainstCatalogV2 manifest catalog)) then Some ReasonUnknownGovernanceCategory
  else if existsb (fun required => match grants !! required with
                                   | Some grant => negb (Before now (UnixTime (cg_ExpiresUnixNano grant)))
                                   | None => true
                                   end) (br2_RequiredCapabilities requirement)
       then Some ReasonUnknownCapability
  else None.

Abbreviation Selection := (gmap string BindingFactV2).

Fixpoint select_dependencies (selected : Selection) (edges : list string) (dependencies : list ComponentDependencyV2)
  : result (list string) :=
  match dependencies with
  | [] => Ok edges
  | dependency :: rest =>
      match selected !! dep_ComponentID dependency with
      | None =>
          guard (negb (dep_Optional dependency)) ErrorCapabilityUnavailable ReasonComponentMissing ;;
          select_dependencies selected edges rest
      | Some _ => select_dependencies selected (edges ++ [dep_ComponentID dependency]) rest
      end
  end.

Definition check_capability (selected : Selection) (requirement : CapabilityRequirementV2) : result unit :=
  match selected !! rc2_ProviderComponent requirement with
  | None =>
      if rc2_Optional requirement then Ok tt else fail ErrorCapabilityUnavailable ReasonComponentMissing
  | Some provider =>
      guard (negb (bool_decide (rc2_Capability requirement ∈ map cg_Capability (slice_items (bf_Grants provider))))
             && negb (rc2_Optional requirement)) ErrorCapabilityUnavailable ReasonUnknownCapability
  end.

(** One iteration of the range over the selected components. *)
Definition select_edges (selected : Selection) (fact : BindingFactV2) : result (list string) :=
  edges ← select_dependencies selected [] (slice_items (m_Dependencies (bf_Manifest fact))) ;
  for_each (check_capability selected) (slice_items (m_RequiredCapabilities (bf_Manifest fact))) ;;
  for_each (fun owner => guard (bool_decide (selected !! oa_OwnerComponentID owner = None))
              ErrorCapabilityUnavailable ReasonOwnerMissing) (slice_items (m_Owners (bf_Manifest fact))) ;;
  Ok edges.

(** `for componentID, fact := range selected`, over its keys in the given order. *)
Fixpoint select_graph (selected : Selection) (graph : Graph) (order : list string) : result Graph :=
  match order with
  | [] => Ok graph
  | componentID :: rest =>
      match selected !! componentID with
      | None => select_graph selected graph rest
      | Some fact =>
          edges ← select_edges selected fact ;
          select_graph selected (<[componentID := edges]> graph) rest
      end
  end.

Definition validateSelectedDependenciesV2 (range : Range) (selected : Selection) : result Graph :=
  select_graph selected ∅ (range 3%nat (elements (dom selected))).

Fixpoint facts_by_component (m : Selection) (facts : list BindingFactV2) : result Selection :=
  match facts with
  | [] => Ok m
  | fact :: rest =>
      BindingFactV2_Validate fact ;;
      guard (bool_decide (is_Some (m !! bf_ComponentID fact))) ErrorConflict ReasonBindingSetConflict ;;
      facts_by_component (<[bf_ComponentID fact := fact]> m) rest
  end.

(** The loop over the requirements: the facts selected so far and the residuals. *)
Fixpoint select_requirements (catalog : GovernanceCatalogV2) (now : Time) (facts : Selection) (selected : Selection)
    (residuals : list BindingResidualV2) (requirements : list BindingRequirementV2)
  : result (Selection * list BindingResidualV2) :=
  match requirements with
  | [] => Ok (selected, residuals)
  | requirement :: rest =>
      let componentID := br2_ComponentID requirement in
      match facts !! componentID with
      | Some fact =>
          match bindingRequirementFailureV2 requirement fact catalog now with
          | None => select_requirements catalog now facts (<[componentID := fact]> selected) residuals rest
          | Some reason =>
              guard (br2_Required requirement || negb (br2_AllowResidual requirement)) ErrorCapabilityUnavailable reason ;;
              select_requirements catalog now facts selected
                (residuals ++ [{| br_ComponentID := componentID; br_Reason := ReasonCode_string reason |}]) rest
          end
      | None =>
          guard (br2_Required requirement || negb (br2_AllowResidual requirement))
            ErrorCapabilityUnavailable ReasonComponentMissing ;;
          select_requirements catalog now facts selected
            (residuals ++ [{| br_ComponentID := componentID; br_Reason := ReasonCode_string ReasonComponentMissing |}]) rest
      end
  end.

Definition member_of (fact : BindingFactV2) : BindingMemberV2 :=
  {| bm_BindingID := bf_ID fact; bm_BindingRevision := bf_Revision fact; bm_ComponentID := bf_ComponentID fact;
     bm_Kind := m_Kind (bf_Manifest fact); bm_ManifestDigest := bf_ManifestDigest fact;
     bm_ArtifactDigest := m_ArtifactDigest (bf_Manifest fact); bm_Contract := m_Contract (bf_Manifest fact);
     bm_Owners := slice_items (m_Owners (bf_Manifest fact)); bm_Grants := slice_items (bf_Grants fact) |}.

(** `for _, componentID := range order`: the zero fact is appended for a component
    that is not selected, which does not happen. *)
Definition ordered_facts (selected : Selection) (order : list string) : list BindingFactV2 :=
  omap (fun componentID => selected !! componentID) order.

Definition BuildBindingSetV2 (range : Range) (setID : string) (plan : BindingPlanV2) (catalog : GovernanceCatalogV2)
    (facts : list BindingFactV2) (now : Time) : result BindingSetFactV2 :=
  guard (bool_decide (setID = "") || (128 <? str_len setID) || IsZero now) ErrorInvalidArgument ReasonInvalidReference ;;
  BindingPlanV2_Validate plan ;;
  catalogDigest ← GovernanceCatalogV2_DigestV2 catalog ;
  guard (negb (bool_decide (catalogDigest = bp_GovernanceDigest plan))) ErrorPreconditionFailed ReasonBindingDrift ;;
  factsByComponent ← facts_by_component ∅ facts ;
  r ← select_requirements catalog now factsByComponent ∅ [] (bp_Requirements plan) ;
  let (selected, residuals) := (r : Selection * list BindingResidualV2) in
  guard (Nat.eqb (size selected) 0) ErrorCapabilityUnavailable ReasonComponentMissing ;;
  graph ← validateSelectedDependenciesV2 range selected ;
  order ← stableTopologicalOrderV2 range graph ;
  let members := ordered_facts selected order in
  let set :=
    {| bs_ID := setID; bs_PlanID := bp_ID plan; bs_PlanDigest := bp_PlanDigest plan;
       bs_GovernanceDigest := bp_GovernanceDigest plan; bs_State := BindingSetActive; bs_Revision := 1;
       bs_Members := map member_of members; bs_TopologicalOrder := order;
       bs_Residuals := Some (sort_by br_ComponentID residuals); bs_CreatedUnixNano := UnixNano now;
       bs_ExpiresUnixNano :=
         fold_left (fun m fact => if (bf_ExpiresUnixNano fact <? m)%Z then bf_ExpiresUnixNano fact else m)
           members max_i64;
       bs_InvalidationReason := "" |} in
  BindingSetFactV2_Validate set ;;
  Ok set.

(** ** Currentness *)

Definition facts_by_id (facts : list BindingFactV2) : gmap string BindingFactV2 :=
  fold_left (fun m fact => <[bf_ID fact := fact]> m) facts ∅.

Fixpoint probes_by_component (m : gmap string Digest) (probes : list BindingCurrentProbeV2) : result (gmap string Digest) :=
  match probes with
  | [] => Ok m
  | probe :: rest =>
      guard (bool_decide (is_Some (m !! probe_ComponentID probe))) ErrorConflict ReasonBindingDrift ;;
      probes_by_component (<[probe_ComponentID probe := probe_ManifestDigest probe]> m) rest
  end.

Definition member_current (setID : string) (facts : gmap string BindingFactV2) (probes : gmap string Digest)
    (member : BindingMemberV2) : result unit :=
  guard (match facts !! bm_BindingID member with
         | None => true
         | Some fact =>
             negb (bool_decide (bf_State fact = BindingBound)) || negb (bool_decide (bf_BindingSetID fact = setID))
             || negb (N.eqb (bf_Revision fact) (bm_BindingRevision member))
             || negb (bool_decide (bf_ManifestDigest fact = bm_ManifestDigest member))
         end) ErrorPreconditionFailed ReasonBindingDrift ;;
  guard (negb (bool_decide (probes !! bm_ComponentID member = Some (bm_ManifestDigest member))))
    ErrorPreconditionFailed ReasonBindingDrift.

Definition ValidateBindingSetCurrentV2 (set : BindingSetFactV2) (facts : list BindingFactV2)
    (probes : list BindingCurrentProbeV2) (now : Time) : result unit :=
  BindingSetFactV2_Validate set ;;
  guard (IsZero now) ErrorInvalidArgument ReasonInvalidReference ;;
  guard (negb (bool_decide (bs_State set = BindingSetActive)) || negb (Before now (UnixTime (bs_ExpiresUnixNano set))))
    ErrorPreconditionFailed ReasonBindingExpired ;;
  probesByComponent ← probes_by_component ∅ probes ;
  for_each (member_current (bs_ID set) (facts_by_id facts) probesByComponent) (bs_Members set).
