(* ===== verification/BindingLife.v ===== *)
(** * How binding facts move

    The lifecycle of a binding fact as an order: what the two validators of
    control/binding_fact_v2.go let a transition and a renewal change, and what no
    sequence of them changes. *)

From stdpp Require Import relations.
From S2P Require Import Prelude GoStd Errors Identity Json Canonical Payload EffectContract Assembly Binding Evidence Topology BindingFact.

Local Open Scope N_scope.

(** ** The lifecycle *)

Inductive binding_edge : BindingLifecycleStateV2 -> BindingLifecycleStateV2 -> Prop :=
| edge_probe : binding_edge BindingDeclared BindingProbed
| edge_certify : binding_edge BindingProbed BindingCertified
| edge_bind : binding_edge BindingCertified BindingBound
| edge_expire s : s = BindingProbed \/ s = BindingCertified \/ s = BindingBound -> binding_edge s BindingExpired
| edge_revoke s : s = BindingDeclared \/ s = BindingProbed \/ s = BindingCertified \/ s = BindingBound ->
    binding_edge s BindingRevoked.

Definition ended (s : BindingLifecycleStateV2) : Prop := s = BindingExpired \/ s = BindingRevoked.
#[export] Instance ended_dec s : Decision (ended s).
Proof. unfold ended. apply _. Defined.

Lemma binding_move_iff current next : lifecycle_move current next = Ok true <-> binding_edge current next.
Proof.
  split.
  - destruct current, next; cbn; intros H; try discriminate H; constructor; auto.
  - intros []; cbn; try done; destruct_or?; by subst.
Qed.

Lemma ended_no_edge s s' : ended s -> ~ binding_edge s s'.
Proof. intros [-> | ->] H; inversion H; subst; destruct_or?; done. Qed.

(** ** Transitions *)

(** What Validate promises of a fact, as far as the proofs read it. *)
Record binding_valid (f : BindingFactV2) : Prop := {
  bv_id : bf_ID f <> "";
  bv_revision : bf_Revision f <> 0;
  bv_component : bf_ComponentID f = m_ComponentID (bf_Manifest f);
  bv_digest : BindingDigestV2 (bf_Manifest f) = Ok (bf_ManifestDigest f);
  bv_evidence : len (slice_items (bf_RenewalEvidence f)) <= MaxManifestSetEntries;
  bv_state : validBindingStateV2 (bf_State f) = true;
  bv_fields : binding_state_fields f = Ok tt;
}.

Lemma BindingFactV2_Validate_inv f : BindingFactV2_Validate f = Ok tt -> binding_valid f.
Proof.
  unfold BindingFactV2_Validate. intros H. apply seq_guard_Ok in H as [Hid H]. apply seq_Ok in H as [_ H].
  apply seq_guard_Ok in H as [Hc H]. apply bind_Ok in H as (d & Hd & H). apply seq_guard_Ok in H as [Hg H].
  apply seq_Ok in H as [_ H]. apply seq_guard_Ok in H as [Hs H]. apply seq_Ok in H as [_ H].
  apply seq_guard_Ok in H as [Hl H]. apply seq_Ok in H as [_ H].
  rewrite !orb_false_iff, bool_decide_eq_false, N.eqb_neq in Hid. destruct_and? Hid.
  rewrite negb_false_iff, bool_decide_eq_true in Hc, Hg. apply negb_false_iff in Hs. apply N.ltb_ge in Hl.
  subst d. by split.
Qed.

Record binding_transition (current next : BindingFactV2) (now : Time) : Prop := {
  bt_current : BindingFactV2_Validate current = Ok tt;
  bt_next : BindingFactV2_Validate next = Ok tt;
  bt_clock : IsZero now = false /\ (bf_ProbedUnixNano current <= UnixNano now)%Z;
  bt_ID : bf_ID next = bf_ID current;
  bt_component : bf_ComponentID next = bf_ComponentID current;
  bt_manifest : bf_ManifestDigest next = bf_ManifestDigest current;
  bt_governance : bf_GovernanceDigest next = bf_GovernanceDigest current;
  bt_artifact : m_ArtifactDigest (bf_Manifest next) = m_ArtifactDigest (bf_Manifest current);
  bt_contract : m_Contract (bf_Manifest next) = m_Contract (bf_Manifest current);
  bt_revision : bf_Revision next = u64_succ (bf_Revision current);
  bt_grants : bf_State current <> BindingDeclared ->
    bf_Grants next = bf_Grants current /\ bf_ProbedUnixNano next = bf_ProbedUnixNano current
    /\ bf_ExpiresUnixNano next = bf_ExpiresUnixNano current;
  bt_certification : bf_State current = BindingCertified \/ bf_State current = BindingBound ->
    bf_CertifiedUnixNano next = bf_CertifiedUnixNano current
    /\ bf_ConformanceEvidenceDigest next = bf_ConformanceEvidenceDigest current;
  bt_edge : binding_edge (bf_State current) (bf_State next);
  bt_live : bf_State next = BindingCertified \/ bf_State next = BindingBound ->
    Before now (UnixTime (bf_ExpiresUnixNano next)) = true;
  bt_expiry : bf_State next = BindingExpired -> bf_InvalidationReason next = ReasonCode_string ReasonBindingExpired ->
    Before now (UnixTime (bf_ExpiresUnixNano current)) = false;
}.

Lemma implication_guard (a b : bool) : a && b = false <-> (a = true -> b = false).
Proof. destruct a, b; cbn; split; auto. Qed.

#[local] Opaque BindingFactV2_Validate.

(** The validator of transitions accepts exactly the specified moves. *)
Lemma ValidateBindingFactTransitionV2_iff current next now :
  ValidateBindingFactTransitionV2 current next now = Ok tt <-> binding_transition current next now.
Proof.
  unfold ValidateBindingFactTransitionV2, binding_identity_drifted.
  rewrite !seq_Ok, !guard_Ok, bind_Ok. repeat setoid_rewrite seq_Ok. repeat setoid_rewrite guard_Ok.
  rewrite !implication_guard, !orb_false_iff, !negb_false_iff, !orb_true_iff, !negb_true_iff, !bool_decide_eq_true,
    !bool_decide_eq_false, N.eqb_eq, !Z.eqb_eq, Z.ltb_ge.
  split.
  - intros (Hc & Hn & Hz & Hid & Hrev & Hg & Hcert & Hp & valid & Hm & Hv & Hlive & Hexp).
    destruct_and? Hid. apply negb_false_iff in Hv as ->. apply binding_move_iff in Hm.
    rewrite implication_guard, orb_true_iff, !bool_decide_eq_true, negb_false_iff in Hlive.
    split; try done.
    + intros Hd. destruct (Hg Hd) as [[? ?] ?]. done.
    + intros Hd. destruct (Hcert Hd). done.
    + intros Hs Hr. rewrite Hs, Hr, !bool_decide_eq_true_2 in Hexp by done. by rewrite andb_true_r in Hexp.
  - intros []. repeat (split; [first [done | tauto | naive_solver] |]).
    exists true. split; [by apply binding_move_iff |]. split; [done |].
    rewrite implication_guard, orb_true_iff, !bool_decide_eq_true, negb_false_iff. split; [done |].
    apply not_true_iff_false. rewrite !andb_true_iff, !bool_decide_eq_true. intros [[Hs Hb] Hr].
    by rewrite (bt_expiry0 Hs Hr) in Hb.
Qed.

(** ** Renewals *)

Record grant_renewed (old new : CapabilityGrantV2) : Prop := {
  gn_capability : cg_Capability new = cg_Capability old;
  gn_observed : (cg_ObservedUnixNano old <= cg_ObservedUnixNano new)%Z;
  gn_expires : (cg_ExpiresUnixNano old < cg_ExpiresUnixNano new)%Z;
  gn_evidence : cg_EvidenceDigest new <> cg_EvidenceDigest old;
}.

Record binding_renewal (current next : BindingFactV2) (now : Time) : Prop := {
  bn_current : BindingFactV2_Validate current = Ok tt;
  bn_next : BindingFactV2_Validate next = Ok tt;
  bn_bound : bf_State current = BindingBound /\ bf_State next = BindingBound;
  bn_ID : bf_ID next = bf_ID current;
  bn_component : bf_ComponentID next = bf_ComponentID current;
  bn_manifest : bf_ManifestDigest next = bf_ManifestDigest current;
  bn_governance : bf_GovernanceDigest next = bf_GovernanceDigest current;
  bn_set : bf_BindingSetID next = bf_BindingSetID current;
  bn_times : bf_ProbedUnixNano next = bf_ProbedUnixNano current /\ bf_CertifiedUnixNano next = bf_CertifiedUnixNano current;
  bn_revision : bf_Revision next = u64_succ (bf_Revision current);
  bn_evidence : exists e, slice_items (bf_RenewalEvidence next) = slice_items (bf_RenewalEvidence current) ++ [e];
  bn_grants : Forall2 grant_renewed (slice_items (bf_Grants current)) (slice_items (bf_Grants next));
  bn_expiry : (bf_ExpiresUnixNano current < bf_ExpiresUnixNano next)%Z;
  bn_live : Before now (UnixTime (bf_ExpiresUnixNano next)) = true;
}.

Lemma renewed_grants_Ok old new :
  length old = length new -> renewed_grants old new = Ok tt <-> Forall2 grant_renewed old new.
Proof.
  revert new. induction old as [| g old IH]; intros [| g' new] Hl; try done; cbn [renewed_grants].
  rewrite seq_guard_Ok, IH, Forall2_cons by (cbn in Hl; lia).
  rewrite !orb_false_iff, negb_false_iff, !bool_decide_eq_true, bool_decide_eq_false, Z.ltb_ge, Z.leb_gt.
  split; intros [H ?]; (split; [| done]); [destruct_and? H; by split | destruct H; by repeat split].
Qed.

Lemma evidence_appended (old new : list EvidenceRecordRefV2) :
  length new = (length old + 1)%nat /\ old = firstn (length old) new <-> exists e, new = old ++ [e].
Proof.
  split.
  - intros [Hl Ho]. rewrite <- (take_drop (length old) new), <- Ho.
    assert (length (drop (length old) new) = 1%nat) as Hd by (rewrite length_drop; lia).
    destruct (drop (length old) new) as [| e [| ? ?]]; try done. by exists e.
  - intros (e & ->). rewrite length_app, take_app_length. cbn. done.
Qed.

Lemma ValidateBindingFactRenewalV2_Ok current next now :
  ValidateBindingFactRenewalV2 current next now = Ok tt -> binding_renewal current next now.
Proof.
  unfold ValidateBindingFactRenewalV2, sameEvidenceRecordRefsV2. cbv zeta.
  rewrite !seq_Ok, !guard_Ok, !orb_false_iff, !negb_false_iff, !bool_decide_eq_true, N.eqb_eq, !Z.eqb_eq, !Nat.eqb_eq, Z.leb_gt.
  intros (Hc & Hn & Hid & He & Hg & Hr). destruct_and? Hid. destruct Hg as [[Hl He'] Hlive].
  apply evidence_appended in He. apply renewed_grants_Ok in Hr; [| done]. split; done.
Qed.

(** ** The order of the facts of one binding *)

Definition capabilities_of (f : BindingFactV2) : list string := map cg_Capability (slice_items (bf_Grants f)).

Record binding_extends (f g : BindingFactV2) : Prop := {
  be_ID : bf_ID g = bf_ID f;
  be_component : bf_ComponentID g = bf_ComponentID f;
  be_manifest : bf_ManifestDigest g = bf_ManifestDigest f;
  be_governance : bf_GovernanceDigest g = bf_GovernanceDigest f;
  be_revision : bf_Revision f <= bf_Revision g;
  be_state : rtc binding_edge (bf_State f) (bf_State g);
  be_ended : ended (bf_State f) -> g = f;
  be_probed : bf_State f <> BindingDeclared ->
    bf_ProbedUnixNano g = bf_ProbedUnixNano f /\ capabilities_of g = capabilities_of f
    /\ (bf_ExpiresUnixNano f <= bf_ExpiresUnixNano g)%Z;
  be_certified : bf_State f = BindingCertified \/ bf_State f = BindingBound ->
    bf_CertifiedUnixNano g = bf_CertifiedUnixNano f;
  be_bound : bf_State f = BindingBound -> bf_State g = BindingBound ->
    bf_BindingSetID g = bf_BindingSetID f
    /\ exists records, slice_items (bf_RenewalEvidence g) = slice_items (bf_RenewalEvidence f) ++ records
         /\ bf_Revision g = bf_Revision f + N.of_nat (length records);
}.

Lemma lifecycle_declared s : rtc binding_edge s BindingDeclared -> s = BindingDeclared.
Proof.
  intros H. apply rtc_inv_r in H as [-> | (x & _ & He)]; [done |]. inversion He.
Qed.

Lemma lifecycle_certified s t :
  rtc binding_edge s t -> s = BindingCertified \/ s = BindingBound -> t = BindingCertified \/ t = BindingBound \/ ended t.
Proof.
  unfold ended. induction 1 as [s | s x t He H IH]; [tauto |]. intros Hs. destruct He; destruct_or?; try discriminate;
    try (apply IH; tauto); (apply rtc_inv in H as [<- | (y & He & _)]; [tauto | inversion He; subst; destruct_or?; discriminate]).
Qed.

Lemma lifecycle_bound t : rtc binding_edge BindingBound t -> t = BindingBound \/ ended t.
Proof.
  intros H. apply rtc_inv in H as [<- | (x & He & H)]; [by left |]. right.
  assert (ended x) as Hx by (unfold ended; inversion He; subst; auto).
  apply rtc_inv in H as [<- | (y & He' & _)]; [done |]. by apply ended_no_edge in He'.
Qed.

#[export] Instance binding_extends_preorder : PreOrder binding_extends.
Proof.
  split.
  - intros f. split; try done. intros _ _. split; [done |]. exists []. rewrite app_nil_r. cbn. split; [done | lia].
  - intros f g h [] []. split; try congruence; try (by etrans).
    + intros H. rewrite be_ended1, be_ended0; [done .. |]. by rewrite be_ended0.
    + intros H. destruct (be_probed0 H) as (E1 & E2 & E3). destruct be_probed1 as (E4 & E5 & E6).
      { intros E. apply H. rewrite E in be_state0. by apply lifecycle_declared. }
      repeat split; [congruence .. | lia].
    + intros H. destruct (lifecycle_certified _ _ be_state0 H) as [Hg | [Hg | Hg]].
      * rewrite be_certified1 by auto. auto.
      * rewrite be_certified1 by auto. auto.
      * rewrite be_ended1 by done. auto.
    + intros Hf Hh. destruct (lifecycle_bound (bf_State g)) as [Hg | Hg]; [congruence | |].
      * destruct (be_bound0 Hf Hg) as (E1 & r1 & E2 & E3). destruct (be_bound1 Hg Hh) as (E4 & r2 & E5 & E6).
        split; [congruence |]. exists (r1 ++ r2). rewrite E5, E2, app_assoc, length_app. split; [done | lia].
      * rewrite (be_ended1 Hg) in Hh. rewrite Hh in Hg. by destruct Hg.
Qed.

(** ** How long a life can be *)

(** The revision counts the moves: one per state, and one per renewal, each of
    which leaves a record. *)
Definition life (f : BindingFactV2) : Prop :=
  match bf_State f with
  | BindingDeclared => bf_Revision f = 1
  | BindingProbed => bf_Revision f = 2
  | BindingCertified => bf_Revision f = 3
  | BindingBound => bf_Revision f <= 4 + len (slice_items (bf_RenewalEvidence f))
  | BindingExpired | BindingRevoked => bf_Revision f <= 261
  | BindingStateOther _ => False
  end.

Lemma life_live f : BindingFactV2_Validate f = Ok tt -> life f -> ~ ended (bf_State f) -> bf_Revision f <= 260.
Proof.
  intros [_ _ _ _ Hl _ _]%BindingFactV2_Validate_inv. unfold life, ended, MaxManifestSetEntries in *.
  destruct (bf_State f); intros; try done; try lia; tauto.
Qed.

Lemma life_bound f : BindingFactV2_Validate f = Ok tt -> life f -> bf_Revision f <= 261.
Proof.
  intros Hv Hf. destruct (decide (ended (bf_State f))) as [He | He].
  - unfold life in Hf. by destruct He as [E | E]; rewrite E in Hf.
  - pose proof (life_live f Hv Hf He). lia.
Qed.

Lemma life_succ f : BindingFactV2_Validate f = Ok tt -> life f -> u64_succ (bf_Revision f) = bf_Revision f + 1.
Proof.
  intros Hv Hf. pose proof (life_bound f Hv Hf). apply u64_succ_small. unfold max_u64. lia.
Qed.

Lemma transition_life f g now : binding_transition f g now -> life f -> life g.
Proof.
  intros [] Hf. assert (bf_Revision g = bf_Revision f + 1) as Hr by (rewrite bt_revision0; by apply life_succ).
  assert (bf_Revision f <= 260) as Hl.
  { apply life_live; [done .. |]. intros H. by apply (ended_no_edge _ _ H) in bt_edge0. }
  unfold life in *. destruct bt_edge0; lia.
Qed.

Lemma binding_transition_extends f g now : binding_transition f g now -> life f -> binding_extends f g.
Proof.
  intros [] Hf. assert (bf_Revision g = bf_Revision f + 1) as Hr by (rewrite bt_revision0; by apply life_succ).
  split; try done.
  - lia.
  - by apply rtc_once.
  - intros H. by apply (ended_no_edge _ _ H) in bt_edge0.
  - intros H. destruct (bt_grants0 H) as (E1 & E2 & E3). unfold capabilities_of. rewrite E1, E2, E3. done.
  - intros H. by destruct (bt_certification0 H).
  - intros E1 E2. rewrite E1, E2 in bt_edge0. inversion bt_edge0.
Qed.

Lemma renewal_life f g now : binding_renewal f g now -> life f -> life g.
Proof.
  intros [] Hf. assert (bf_Revision g = bf_Revision f + 1) as Hr by (rewrite bn_revision0; by apply life_succ).
  destruct bn_bound0 as [E1 E2], bn_evidence0 as [e He]. unfold life, len in *. rewrite E1 in Hf. rewrite E2, He, length_app.
  cbn. lia.
Qed.

Lemma binding_renewal_extends f g now : binding_renewal f g now -> life f -> binding_extends f g.
Proof.
  intros [] Hf. assert (bf_Revision g = bf_Revision f + 1) as Hr by (rewrite bn_revision0; by apply life_succ).
  destruct bn_bound0 as [E1 E2], bn_evidence0 as [e He], bn_times0 as [Hp Hc]. split; try done.
  - lia.
  - by rewrite E1, E2.
  - rewrite E1. by intros [? | ?].
  - intros _. split; [done | split; [| lia]]. unfold capabilities_of. symmetry.
    clear -bn_grants0. induction bn_grants0 as [| x y l k H _ IH]; cbn; [done |]. f_equal; [symmetry; apply H | done].
  - intros _ _. split; [done |]. exists [e]. cbn. split; [done | lia].
Qed.
