(* ===== verification/BindingBuild.v ===== *)
(** * control/binding_fact_v2.go: what a built binding set promises

    The specification of [BuildBindingSetV2]: which certified facts become
    members, which requirements are left as residuals, and in which order the
    members are listed; and that Go's map iteration does not show in the result. *)

From S2P Require Import Prelude GoStd Errors Identity SemVer Json Canonical Payload EffectContract Assembly Binding Evidence Topology BindingFact.

Local Open Scope N_scope.

(** ** The facts by component *)

Lemma facts_by_component_Ok (m m' : Selection) facts :
  facts_by_component m facts = Ok m' ->
  Forall (fun f => BindingFactV2_Validate f = Ok tt) facts
  /\ (forall c f, m' !! c = Some f <-> m !! c = Some f \/ (f ∈ facts /\ bf_ComponentID f = c)).
Proof.
  revert m. induction facts as [| x facts IH]; intros m; cbn [facts_by_component].
  { intros [= <-]. split; [constructor |]. intros c f. rewrite elem_of_nil. tauto. }
  rewrite seq_Ok, seq_guard_Ok, bool_decide_eq_false. intros (Hv & Hn & (Hf & Hl)%IH). split; [by constructor |].
  intros c f. rewrite Hl, lookup_insert_Some, elem_of_cons. apply eq_None_not_Some in Hn.
  split.
  - intros [[[<- <-] | [_ ?]] | [? <-]]; tauto.
  - intros [H | [[-> | H] <-]]; [left; right | left; left | by right]; [| done].
    split; [intros <-; congruence | done].
Qed.

(** ** The selection *)

Section selection.
Context (catalog : GovernanceCatalogV2) (now : Time) (facts : Selection).

(** The fact that fills a requirement, and the residual when none does. *)
Definition fills (r : BindingRequirementV2) : option BindingFactV2 :=
  f ← facts !! br2_ComponentID r ;
  if bool_decide (bindingRequirementFailureV2 r f catalog now = None) then Some f else None.

Definition shortfall (r : BindingRequirementV2) : ReasonCode :=
  match facts !! br2_ComponentID r with
  | Some f => default ReasonComponentMissing (bindingRequirementFailureV2 r f catalog now)
  | None => ReasonComponentMissing
  end.

Definition residual_of (r : BindingRequirementV2) : option BindingResidualV2 :=
  match fills r with
  | Some _ => None
  | None => Some {| br_ComponentID := br2_ComponentID r; br_Reason := ReasonCode_string (shortfall r) |}
  end.

Definition tolerated (r : BindingRequirementV2) : Prop :=
  fills r = None -> br2_Required r = false /\ br2_AllowResidual r = true.

Lemma select_step selected residuals r rest :
  select_requirements catalog now facts selected residuals (r :: rest)
  = match fills r with
    | Some f => select_requirements catalog now facts (<[br2_ComponentID r := f]> selected) residuals rest
    | None => guard (br2_Required r || negb (br2_AllowResidual r)) ErrorCapabilityUnavailable (shortfall r) ;;
              select_requirements catalog now facts selected
                (residuals ++ [{| br_ComponentID := br2_ComponentID r; br_Reason := ReasonCode_string (shortfall r) |}]) rest
    end.
Proof.
  cbn [select_requirements]. unfold fills, shortfall. destruct (facts !! br2_ComponentID r) as [f |]; cbn; [| done].
  by destruct (bindingRequirementFailureV2 r f catalog now).
Qed.

Lemma select_requirements_Ok selected residuals reqs selected' residuals' :
  select_requirements catalog now facts selected residuals reqs = Ok (selected', residuals') <->
  Forall tolerated reqs
  /\ selected' = fold_left (fun m r => match fills r with Some f => <[br2_ComponentID r := f]> m | None => m end) reqs selected
  /\ residuals' = residuals ++ omap residual_of reqs.
Proof.
  revert selected residuals. induction reqs as [| r reqs IH]; intros selected residuals.
  { cbn. rewrite app_nil_r. split; [intros [= <- <-] | intros (_ & -> & ->)]; done. }
  rewrite select_step, Forall_cons. cbn [fold_left omap list_omap].
  assert (residual_of r = match fills r with Some _ => None | None =>
    Some {| br_ComponentID := br2_ComponentID r; br_Reason := ReasonCode_string (shortfall r) |} end) as -> by done.
  unfold tolerated at 1. destruct (fills r) as [f |] eqn:Ef; cbn.
  - rewrite IH. split; [intros (? & ? & ?) | intros ([? ?] & ? & ?)]; done.
  - rewrite seq_guard_Ok, IH, orb_false_iff, negb_false_iff, <- app_assoc. cbn.
    split; [intros ([? ?] & ? & ? & ?) | intros ([H ?] & ? & ?)]; [done | by destruct (H eq_refl)].
Qed.

Definition selected_facts (reqs : list BindingRequirementV2) : Selection :=
  fold_left (fun m r => match fills r with Some f => <[br2_ComponentID r := f]> m | None => m end) reqs ∅.

Lemma fills_facts r f : fills r = Some f ->
  facts !! br2_ComponentID r = Some f /\ bindingRequirementFailureV2 r f catalog now = None.
Proof.
  unfold fills. destruct (facts !! br2_ComponentID r) as [g |]; cbn; [| done].
  destruct (decide (bindingRequirementFailureV2 r g catalog now = None)) as [H | H];
    [rewrite bool_decide_eq_true_2 by done | by rewrite bool_decide_eq_false_2]. by intros [= <-].
Qed.

Lemma selected_facts_lookup reqs c f :
  selected_facts reqs !! c = Some f <-> exists r, r ∈ reqs /\ br2_ComponentID r = c /\ fills r = Some f.
Proof.
  unfold selected_facts.
  assert (forall m : Selection, (forall c f, m !! c = Some f -> facts !! c = Some f) ->
    fold_left (fun m r => match fills r with Some f => <[br2_ComponentID r := f]> m | None => m end) reqs m !! c = Some f
    <-> m !! c = Some f \/ exists r, r ∈ reqs /\ br2_ComponentID r = c /\ fills r = Some f) as H.
  { induction reqs as [| r reqs IH]; intros m Hm; cbn [fold_left].
    { split; [by left | intros [? | (? & H%elem_of_nil & _)]; done]. }
    destruct (fills r) as [g |] eqn:Eg.
    - pose proof (fills_facts _ _ Eg) as [Hg _]. rewrite IH.
      2:{ intros c' f' [[<- <-] | [_ ?]]%lookup_insert_Some; auto. }
      rewrite lookup_insert_Some. setoid_rewrite elem_of_cons. split.
      + intros [[[<- <-] | [? ?]] | (x & ? & ? & ?)]; [right; exists r | left | right; exists x]; auto.
      + intros [H | (x & [-> | Hx] & <- & Hf)].
        * left. destruct (decide (br2_ComponentID r = c)) as [<- |]; [left | by right].
          split; [done |]. apply Hm in H. congruence.
        * left. left. split; [done | congruence].
        * right. by exists x.
    - rewrite IH by done. setoid_rewrite elem_of_cons. split.
      + intros [? | (x & ? & ? & ?)]; [by left | right; exists x]; auto.
      + intros [? | (x & [-> | Hx] & ? & ?)]; [by left | congruence | right; by exists x]. }
  rewrite H; [| by intros ? ?; rewrite lookup_empty]. rewrite lookup_empty. split; [intros [? | ?]; done | by right].
Qed.
End selection.

(** ** The dependency graph of a selection *)

Section graph.
Context (selected : Selection).

(** A selection is closed at a fact: what the fact depends on is selected unless
    optional, the providers grant what it requires, and its owners are selected. *)
Record closed_at (f : BindingFactV2) : Prop := {
  cl_dependencies : forall d, d ∈ slice_items (m_Dependencies (bf_Manifest f)) -> dep_Optional d = false ->
    is_Some (selected !! dep_ComponentID d);
  cl_capabilities : forall r, r ∈ slice_items (m_RequiredCapabilities (bf_Manifest f)) -> rc2_Optional r = false ->
    exists p, selected !! rc2_ProviderComponent r = Some p
      /\ rc2_Capability r ∈ map cg_Capability (slice_items (bf_Grants p));
  cl_owners : forall o, o ∈ slice_items (m_Owners (bf_Manifest f)) -> is_Some (selected !! oa_OwnerComponentID o);
}.

Definition edges_of (f : BindingFactV2) : list string :=
  filter (fun c => is_Some (selected !! c)) (map dep_ComponentID (slice_items (m_Dependencies (bf_Manifest f)))).

Lemma select_dependencies_Ok edges deps edges' :
  select_dependencies selected edges deps = Ok edges' <->
  Forall (fun d => dep_Optional d = false -> is_Some (selected !! dep_ComponentID d)) deps
  /\ edges' = edges ++ filter (fun c => is_Some (selected !! c)) (map dep_ComponentID deps).
Proof.
  revert edges. induction deps as [| d deps IH]; intros edges; cbn [select_dependencies map].
  { rewrite filter_nil, app_nil_r. split; [by intros [= ->] | by intros [_ ->]]. }
  rewrite Forall_cons, filter_cons. destruct (selected !! dep_ComponentID d) as [g |] eqn:E.
  - rewrite decide_True by eauto. rewrite IH, <- app_assoc. cbn. split; intros [? ->]; eauto. by destruct H.
  - rewrite decide_False by (intros [? [=]]). rewrite seq_guard_Ok, negb_false_iff, IH.
    destruct (dep_Optional d); split; intros; destruct_and?; try done.
    by destruct (H eq_refl) as [? [=]].
Qed.

Lemma check_capability_Ok r :
  check_capability selected r = Ok tt <->
  (rc2_Optional r = false -> exists p, selected !! rc2_ProviderComponent r = Some p
     /\ rc2_Capability r ∈ map cg_Capability (slice_items (bf_Grants p))).
Proof.
  unfold check_capability. destruct (selected !! rc2_ProviderComponent r) as [p |], (rc2_Optional r); cbn.
  - rewrite guard_Ok, andb_false_r. done.
  - rewrite guard_Ok, andb_true_r, negb_false_iff, bool_decide_eq_true. split; [by exists p |].
    intros H. destruct (H eq_refl) as (? & [= <-] & ?). done.
  - done.
  - split; [done |]. intros H. by destruct (H eq_refl) as (? & [=] & _).
Qed.

Lemma select_edges_Ok f edges : select_edges selected f = Ok edges <-> closed_at f /\ edges = edges_of f.
Proof.
  unfold select_edges. rewrite bind_Ok. setoid_rewrite select_dependencies_Ok. cbn [app]. split.
  - intros (e & [Hd ->] & H). rewrite !seq_Ok, !for_each_Ok in H. destruct H as (Hc & Ho & [= <-]).
    split; [| done]. rewrite Forall_forall in Hd. rewrite Forall_forall in Hc. rewrite Forall_forall in Ho. split; [done | |].
    + intros r Hr. by apply check_capability_Ok, Hc.
    + intros o Ho'. apply Ho, guard_Ok, bool_decide_eq_false in Ho'. by apply not_eq_None_Some.
  - intros [[Hd Hc Ho] ->]. exists (edges_of f). split; [split; [by rewrite Forall_forall | done] |].
    rewrite !seq_Ok, !for_each_Ok. split; [| split; [| done]]; apply Forall_forall.
    + intros r Hr. apply check_capability_Ok. auto.
    + intros o Ho'. apply guard_Ok, bool_decide_eq_false, not_eq_None_Some. auto.
Qed.

Lemma select_graph_Ok graph order graph' :
  (forall c, c ∈ order -> is_Some (selected !! c)) ->
  select_graph selected graph order = Ok graph' <->
  (forall c f, c ∈ order -> selected !! c = Some f -> closed_at f)
  /\ forall c, graph' !! c = if decide (c ∈ order) then edges_of <$> selected !! c else graph !! c.
Proof.
  revert graph. induction order as [| x order IH]; intros graph Hin; cbn [select_graph].
  { split.
    - intros [= ->]. split; [by intros ? ? ?%elem_of_nil | done].
    - intros [_ H]. f_equal. symmetry. apply map_eq. exact H. }
  destruct (Hin x) as [f Ef]; [by left |]. rewrite Ef, bind_Ok. setoid_rewrite select_edges_Ok.
  assert (forall c, c ∈ order -> is_Some (selected !! c)) as Hin' by (intros; apply Hin; by right). split.
  - intros (edges & [Hc ->] & [H1 H2]%IH); [| done]. split.
    + intros c g [-> | Hc']%elem_of_cons Hg; [congruence | eauto].
    + intros c. rewrite H2. destruct (decide (c ∈ order)) as [Hc' |]; [rewrite decide_True by (by right); done |].
      destruct (decide (x = c)) as [<- | Hne].
      * rewrite lookup_insert_eq, decide_True by (by left). by rewrite Ef.
      * rewrite lookup_insert_ne by done. rewrite decide_False; [done |]. by intros [-> |]%elem_of_cons.
  - intros [H1 H2]. exists (edges_of f). split; [split; [apply (H1 x); [by left | done] | done] |].
    apply IH; [done |]. split; [intros; eapply H1; [by right | done] |].
    intros c. rewrite H2. destruct (decide (c ∈ order)) as [Hc' |]; [by rewrite decide_True by (by right) |].
    destruct (decide (x = c)) as [<- | Hne].
    + rewrite lookup_insert_eq, decide_True by (by left). by rewrite Ef.
    + rewrite lookup_insert_ne by done. rewrite decide_False; [done |]. by intros [-> |]%elem_of_cons.
Qed.

Definition closed : Prop := forall c f, selected !! c = Some f -> closed_at f.
Definition graph_of : Graph := edges_of <$> selected.

Lemma validateSelectedDependenciesV2_Ok range graph :
  is_range range -> validateSelectedDependenciesV2 range selected = Ok graph <-> closed /\ graph = graph_of.
Proof.
  intros Hrange. unfold validateSelectedDependenciesV2.
  assert (forall c, c ∈ range 3%nat (elements (dom selected)) <-> is_Some (selected !! c)) as Hin.
  { intros c. rewrite (Hrange 3%nat _), elem_of_elements. apply elem_of_dom. }
  rewrite select_graph_Ok by apply Hin. unfold closed, graph_of. split.
  - intros [H1 H2]. split; [intros c f Hf; apply (H1 c f); [by apply Hin | done] |].
    apply map_eq. intros c. rewrite H2, lookup_fmap. destruct (decide (c ∈ _)) as [| Hn]; [done |].
    rewrite Hin in Hn. apply eq_None_not_Some in Hn. by rewrite Hn.
  - intros [H1 ->]. split; [intros c f _; apply H1 |]. intros c. rewrite lookup_fmap.
    destruct (decide (c ∈ _)) as [| Hn]; [done |]. rewrite Hin in Hn. apply eq_None_not_Some in Hn. by rewrite Hn.
Qed.
End graph.

(** ** The specification *)

Definition build_input (setID : string) (plan : BindingPlanV2) (catalog : GovernanceCatalogV2)
    (facts : list BindingFactV2) (now : Time) : Prop :=
  setID <> "" /\ str_len setID <= 128 /\ IsZero now = false
  /\ BindingPlanV2_Validate plan = Ok tt /\ GovernanceCatalogV2_DigestV2 catalog = Ok (bp_GovernanceDigest plan).

Lemma build_cases range setID plan catalog facts now set :
  is_range range ->
  BuildBindingSetV2 range setID plan catalog facts now = Ok set <->
  build_input setID plan catalog facts now
  /\ exists found order,
       facts_by_component ∅ facts = Ok found
       /\ Forall (tolerated catalog now found) (bp_Requirements plan)
       /\ let selected := selected_facts catalog now found (bp_Requirements plan) in
          selected <> ∅ /\ closed selected /\ least_topological (graph_of selected) order
          /\ BindingSetFactV2_Validate set = Ok tt
          /\ set = {| bs_ID := setID; bs_PlanID := bp_ID plan; bs_PlanDigest := bp_PlanDigest plan;
                      bs_GovernanceDigest := bp_GovernanceDigest plan; bs_State := BindingSetActive; bs_Revision := 1;
                      bs_Members := map member_of (ordered_facts selected order); bs_TopologicalOrder := order;
                      bs_Residuals := Some (sort_by br_ComponentID (omap (residual_of catalog now found) (bp_Requirements plan)));
                      bs_CreatedUnixNano := UnixNano now;
                      bs_ExpiresUnixNano :=
                        fold_left (fun m fact => if (bf_ExpiresUnixNano fact <? m)%Z then bf_ExpiresUnixNano fact else m)
                          (ordered_facts selected order) max_i64;
                      bs_InvalidationReason := "" |}.
Proof.
  intros Hrange. unfold BuildBindingSetV2, build_input.
  rewrite seq_guard_Ok, !orb_false_iff, bool_decide_eq_false, N.ltb_ge, seq_Ok, bind_Ok. split.
  - intros ([[Hid Hlen] Hnow] & Hp & digest & Hd & H). apply seq_guard_Ok in H as [Hg H].
    rewrite negb_false_iff, bool_decide_eq_true in Hg. subst digest. apply bind_Ok in H as (found & Hf & H).
    apply bind_Ok in H as ([selected residuals] & Hs & H).
    apply select_requirements_Ok in Hs as (Ht & -> & ->). cbn [app] in H.
    apply seq_guard_Ok in H as [Hne H]. apply bind_Ok in H as (graph & Hgr & H).
    apply validateSelectedDependenciesV2_Ok in Hgr as [Hcl ->]; [| done].
    apply bind_Ok in H as (order & Ho & H). apply (stable_order_least range _ _ Hrange) in Ho.
    apply seq_Ok in H as [Hv [= <-]]. split; [done |]. exists found, order.
    split; [done | split; [done | split; [| done]]].
    apply Nat.eqb_neq in Hne. intros E. apply Hne. fold (selected_facts catalog now found (bp_Requirements plan)).
    rewrite E. apply map_size_empty.
  - intros ((Hid & Hlen & Hnow & Hp & Hd) & found & order & Hf & Ht & Hne & Hcl & Ho & Hv & E).
    split; [done | split; [done |]]. exists (bp_GovernanceDigest plan). split; [done |].
    apply seq_guard_Ok. split; [by rewrite negb_false_iff, bool_decide_eq_true |].
    apply bind_Ok. exists found. split; [done |]. apply bind_Ok. eexists (_, _). split; [by apply select_requirements_Ok |].
    cbn [app]. fold (selected_facts catalog now found (bp_Requirements plan)). apply seq_guard_Ok.
    split; [apply Nat.eqb_neq; by rewrite map_size_empty_iff |].
    apply bind_Ok. exists (graph_of (selected_facts catalog now found (bp_Requirements plan))).
    split; [by apply validateSelectedDependenciesV2_Ok |]. apply bind_Ok. exists order.
    split; [by apply (stable_order_least range _ _ Hrange) |]. rewrite <- E. apply seq_Ok. done.
Qed.

(** When a fact can fill a requirement. *)
Record qualifies (catalog : GovernanceCatalogV2) (now : Time) (r : BindingRequirementV2) (f : BindingFactV2) : Prop := {
  qu_certified : bf_State f = BindingCertified;
  qu_unexpired : Before now (UnixTime (bf_ExpiresUnixNano f)) = true;
  qu_component : m_ComponentID (bf_Manifest f) = br2_ComponentID r;
  qu_kind : m_Kind (bf_Manifest f) = br2_Kind r;
  qu_artifact : m_ArtifactDigest (bf_Manifest f) = br2_ArtifactDigest r;
  qu_contract : cb_Name (m_Contract (bf_Manifest f)) = br2_ContractName r;
  qu_version : VersionRangeV2_Contains (br2_SemanticVersion r) (m_SemanticVersion (bf_Manifest f)) = true;
  qu_contract_version : VersionRangeV2_Contains (br2_Contract r) (cb_Version (m_Contract (bf_Manifest f))) = true;
  qu_catalog : ValidateManifestAgainstCatalogV2 (bf_Manifest f) catalog = Ok tt;
  qu_capabilities : forall c, c ∈ br2_RequiredCapabilities r ->
    exists g, grant_map (slice_items (bf_Grants f)) !! c = Some g
      /\ Before now (UnixTime (cg_ExpiresUnixNano g)) = true;
}.

Lemma capability_missing grants now required :
  existsb (fun c => match (grants : gmap string CapabilityGrantV2) !! c with
                    | Some g => negb (Before now (UnixTime (cg_ExpiresUnixNano g))) | None => true end) required = false <->
  forall c, c ∈ required -> exists g, grants !! c = Some g /\ Before now (UnixTime (cg_ExpiresUnixNano g)) = true.
Proof.
  induction required as [| x required IH]; cbn.
  { split; [by intros _ ? ?%elem_of_nil | done]. }
  rewrite orb_false_iff, IH. setoid_rewrite elem_of_cons. split.
  - intros [Hx Hr] c [-> | Hc]; [| auto]. destruct (grants !! x) as [g |]; [| done].
    exists g. by apply negb_false_iff in Hx.
  - intros H. split; [| auto]. destruct (H x (or_introl eq_refl)) as (g & -> & Hg). by rewrite Hg.
Qed.

Lemma failure_None_iff r f catalog now :
  bindingRequirementFailureV2 r f catalog now = None <-> qualifies catalog now r f.
Proof.
  unfold bindingRequirementFailureV2.
  destruct (bool_decide_reflect (bf_State f = BindingCertified)) as [H1 | H1]; cbn [negb]; [| by split; [| intros []]].
  destruct (Before now _) eqn:H2; cbn [negb]; [| split; [done | intros []; congruence]].
  destruct (_ || negb (VersionRangeV2_Contains (br2_Contract r) _)) eqn:H3 in |- *.
  { split; [done |]. intros [_ _ E1 E2 E3 E4 E5 E6 _ _]. revert H3. rewrite E5, E6, !bool_decide_eq_true_2 by done. done. }
  rewrite !orb_false_iff, !negb_false_iff, !bool_decide_eq_true in H3. destruct_and? H3.
  destruct (ValidateManifestAgainstCatalogV2 (bf_Manifest f) catalog) as [[] | e] eqn:Hcat; cbn [is_ok negb]; cbv iota;
    [| split; [done | intros []; congruence]].
  destruct (existsb _ _) eqn:Hcap in |- *.
  - split; [done |]. intros []. rewrite (proj2 (capability_missing _ _ _) qu_capabilities0) in Hcap. done.
  - split; [| done]. intros _. rewrite capability_missing in Hcap. by split.
Qed.

(** The set [set] lists exactly the facts [chosen] for the plan. *)
Record built_from (plan : BindingPlanV2) (catalog : GovernanceCatalogV2) (facts : list BindingFactV2) (now : Time)
    (chosen : list BindingFactV2) (set : BindingSetFactV2) : Prop := {
  bb_valid : BindingSetFactV2_Validate set = Ok tt;
  bb_plan : bs_PlanDigest set = bp_PlanDigest plan /\ GovernanceCatalogV2_DigestV2 catalog = Ok (bs_GovernanceDigest set);
  bb_members : bs_Members set = map member_of chosen;
  bb_order : bs_TopologicalOrder set = map bf_ComponentID chosen;
  bb_justified : forall f, f ∈ chosen -> f ∈ facts /\ exists r, r ∈ bp_Requirements plan /\ qualifies catalog now r f;
  bb_covered : forall r, r ∈ bp_Requirements plan ->
    (exists f, f ∈ chosen /\ qualifies catalog now r f)
    \/ (br2_Required r = false /\ (forall f, f ∈ facts -> ~ qualifies catalog now r f)
        /\ exists reason, {| br_ComponentID := br2_ComponentID r; br_Reason := reason |} ∈ slice_items (bs_Residuals set));
  bb_dependencies : forall before f after, chosen = before ++ f :: after ->
    forall d, d ∈ slice_items (m_Dependencies (bf_Manifest f)) ->
      dep_Optional d = false \/ dep_ComponentID d ∈ map bf_ComponentID chosen ->
      dep_ComponentID d ∈ map bf_ComponentID before;
  bb_capabilities : forall f, f ∈ chosen -> forall r, r ∈ slice_items (m_RequiredCapabilities (bf_Manifest f)) ->
    rc2_Optional r = false ->
    exists p, p ∈ chosen /\ bf_ComponentID p = rc2_ProviderComponent r
      /\ rc2_Capability r ∈ map cg_Capability (slice_items (bf_Grants p));
  bb_owners : forall f, f ∈ chosen -> forall o, o ∈ slice_items (m_Owners (bf_Manifest f)) ->
    oa_OwnerComponentID o ∈ map bf_ComponentID chosen;
  bb_expiry : forall m, m ∈ bs_Members set -> forall g, g ∈ bm_Grants m ->
    (bs_ExpiresUnixNano set <= cg_ExpiresUnixNano g)%Z;
}.

(** *** The expiry of a set *)

Lemma least_expiry_le minimum grants :
  (least_expiry minimum grants <= minimum)%Z
  /\ forall g, g ∈ grants -> (least_expiry minimum grants <= cg_ExpiresUnixNano g)%Z.
Proof.
  unfold least_expiry. revert minimum. induction grants as [| x grants IH]; intros minimum; cbn [fold_left].
  { split; [done | by intros ? ?%elem_of_nil]. }
  destruct (IH (if (cg_ExpiresUnixNano x <? minimum)%Z then cg_ExpiresUnixNano x else minimum)) as [H1 H2].
  assert (Hx : ((if (cg_ExpiresUnixNano x <? minimum)%Z then cg_ExpiresUnixNano x else minimum) <= minimum
               /\ (if (cg_ExpiresUnixNano x <? minimum)%Z then cg_ExpiresUnixNano x else minimum) <= cg_ExpiresUnixNano x)%Z)
    by (destruct (Z.ltb_spec (cg_ExpiresUnixNano x) minimum); lia).
  split; [lia |]. intros g [-> | Hg]%elem_of_cons; [lia | auto].
Qed.

Lemma check_members_expiry seen minimum members r :
  check_members seen minimum members = Ok r ->
  (snd r <= minimum)%Z
  /\ forall m, m ∈ members -> forall g, g ∈ bm_Grants m -> (snd r <= cg_ExpiresUnixNano g)%Z.
Proof.
  revert seen minimum. induction members as [| x members IH]; intros seen minimum; cbn [check_members].
  { intros [= <-]. split; [done | by intros ? ?%elem_of_nil]. }
  intros H. apply seq_guard_Ok in H as [_ H]. do 5 apply seq_Ok in H as [_ H]. apply seq_guard_Ok in H as [_ H].
  apply IH in H as [H1 H2]. destruct (least_expiry_le minimum (bm_Grants x)) as [L1 L2]. split; [lia |].
  intros m [-> | Hm]%elem_of_cons g Hg; [specialize (L2 g Hg); lia | eauto].
Qed.

Lemma set_expiry_le set :
  BindingSetFactV2_Validate set = Ok tt -> forall m, m ∈ bs_Members set -> forall g, g ∈ bm_Grants m ->
  (bs_ExpiresUnixNano set <= cg_ExpiresUnixNano g)%Z.
Proof.
  unfold BindingSetFactV2_Validate. intros H. go_ok. 
  match goal with H : check_members _ _ _ = Ok _ |- _ => apply check_members_expiry in H as [_ ?] end.
  match goal with H : negb (Z.eqb _ _) = false |- _ => apply negb_false_iff, Z.eqb_eq in H as -> end. done.
Qed.

(** *** The members in order *)

Section ordered.
Context (selected : Selection) (order : list string)
  (Hkey : forall c f, selected !! c = Some f -> bf_ComponentID f = c)
  (Hin : forall c, c ∈ order <-> is_Some (selected !! c)).

Lemma ordered_facts_elem f : f ∈ ordered_facts selected order <-> selected !! bf_ComponentID f = Some f.
Proof.
  unfold ordered_facts. rewrite list_elem_of_omap. split.
  - intros (c & _ & Hc). by rewrite (Hkey _ _ Hc).
  - intros H. exists (bf_ComponentID f). split; [by apply Hin; eexists | done].
Qed.

Lemma ordered_facts_ids : map bf_ComponentID (ordered_facts selected order) = order.
Proof.
  assert (forall c, c ∈ order -> is_Some (selected !! c)) as H by (intros c; apply Hin). clear Hin.
  unfold ordered_facts. induction order as [| c l IH]; [done |]. cbn.
  destruct (H c) as [f Hf]; [by left |]. rewrite Hf. cbn. rewrite (Hkey _ _ Hf). f_equal.
  apply IH. intros c' Hc. apply H. by right.
Qed.

Lemma ordered_behind f before after d :
  topological (graph_of selected) order -> closed selected ->
  ordered_facts selected order = before ++ f :: after ->
  d ∈ slice_items (m_Dependencies (bf_Manifest f)) ->
  dep_Optional d = false \/ dep_ComponentID d ∈ order -> dep_ComponentID d ∈ map bf_ComponentID before.
Proof.
  intros Ht Hc E Hd Hopt. assert (selected !! bf_ComponentID f = Some f) as Hf.
  { apply ordered_facts_elem. rewrite E. apply elem_of_app. right. by left. }
  apply (to_behind _ _ Ht _ (bf_ComponentID f) (map bf_ComponentID after)).
  - by rewrite <- ordered_facts_ids, E, map_app.
  - unfold depends, graph_of. rewrite lookup_fmap, Hf. cbn. unfold edges_of. apply list_elem_of_filter.
    split; [| by apply list_elem_of_fmap_2]. destruct Hopt as [Ho | Ho]; [| by apply Hin].
    by apply (cl_dependencies _ _ (Hc _ _ Hf)).
Qed.
End ordered.

Section built.
Context (plan : BindingPlanV2) (catalog : GovernanceCatalogV2) (facts : list BindingFactV2) (now : Time) (found : Selection)
  (Hfound : facts_by_component ∅ facts = Ok found).

Let selected : Selection := selected_facts catalog now found (bp_Requirements plan).

Lemma found_lookup c f : found !! c = Some f <-> f ∈ facts /\ bf_ComponentID f = c.
Proof.
  destruct (facts_by_component_Ok _ _ _ Hfound) as [_ H]. rewrite H, lookup_empty. split; [intros [? |]; done | by right].
Qed.

Lemma fills_iff r f : fills catalog now found r = Some f <-> f ∈ facts /\ bf_ComponentID f = br2_ComponentID r /\ qualifies catalog now r f.
Proof.
  split.
  - intros [H1 H2]%fills_facts. apply found_lookup in H1 as [? ?]. apply failure_None_iff in H2. done.
  - intros (H1 & H2 & H3). unfold fills. rewrite (proj2 (found_lookup _ f)) by done. cbn.
    by rewrite bool_decide_eq_true_2 by by apply failure_None_iff.
Qed.

Lemma qualifies_component r f : f ∈ facts -> qualifies catalog now r f -> bf_ComponentID f = br2_ComponentID r.
Proof.
  intros Hf Hq. destruct (facts_by_component_Ok _ _ _ Hfound) as [Hv _]. rewrite Forall_forall in Hv.
  specialize (Hv f Hf). unfold BindingFactV2_Validate in Hv. go_ok.
  match goal with H : negb (bool_decide (bf_ComponentID f = _)) = false |- _ =>
    apply negb_false_iff, bool_decide_eq_true in H as -> end.
  apply Hq.
Qed.

Lemma selected_lookup c f :
  selected !! c = Some f <->
  exists r, r ∈ bp_Requirements plan /\ br2_ComponentID r = c /\ bf_ComponentID f = c /\ f ∈ facts /\ qualifies catalog now r f.
Proof.
  unfold selected. rewrite selected_facts_lookup. setoid_rewrite fills_iff. split.
  - intros (r & ? & <- & ? & ? & ?). by exists r.
  - intros (r & ? & <- & ? & ? & ?). by exists r.
Qed.

Lemma selected_key c f : selected !! c = Some f -> bf_ComponentID f = c.
Proof. intros (r & _ & _ & ? & _)%selected_lookup. done. Qed.

Lemma residual_of_elem reason r :
  residual_of catalog now found r = Some reason ->
  br_ComponentID reason = br2_ComponentID r /\ forall f, f ∈ facts -> ~ qualifies catalog now r f.
Proof.
  unfold residual_of. destruct (fills catalog now found r) as [g |] eqn:E; [done |]. intros [= <-]. split; [done |].
  intros f Hf Hq. rewrite (proj2 (fills_iff r f)) in E; [done |]. split; [done | split; [by apply qualifies_component | done]].
Qed.
End built.

(** ** The theorem *)

Section chosen.
Context (plan : BindingPlanV2) (catalog : GovernanceCatalogV2) (facts : list BindingFactV2) (now : Time)
  (found : Selection) (order : list string)
  (Hfound : facts_by_component ∅ facts = Ok found)
  (Htolerated : Forall (tolerated catalog now found) (bp_Requirements plan)).

Let selected : Selection := selected_facts catalog now found (bp_Requirements plan).
Context (Hclosed : closed selected) (Horder : topological (graph_of selected) order).

Let chosen : list BindingFactV2 := ordered_facts selected order.

Lemma order_selected c : c ∈ order <-> is_Some (selected !! c).
Proof. rewrite (to_all _ _ Horder). unfold graph_of. rewrite dom_fmap_L. apply elem_of_dom. Qed.

Lemma selected_keyed c f : selected !! c = Some f -> bf_ComponentID f = c.
Proof. exact (selected_key plan catalog facts now found Hfound c f). Qed.

Lemma chosen_elem f : f ∈ chosen <-> selected !! bf_ComponentID f = Some f.
Proof. apply ordered_facts_elem; [exact selected_keyed | exact order_selected]. Qed.

Lemma chosen_ids : map bf_ComponentID chosen = order.
Proof. apply ordered_facts_ids; [exact selected_keyed | exact order_selected]. Qed.

Lemma chosen_justified f : f ∈ chosen -> f ∈ facts /\ exists r, r ∈ bp_Requirements plan /\ qualifies catalog now r f.
Proof.
  rewrite chosen_elem. intros (r & Hr & _ & _ & Hf & Hq)%(selected_lookup plan catalog facts now found Hfound).
  split; [done | by exists r].
Qed.

Lemma chosen_covers r :
  r ∈ bp_Requirements plan ->
  (exists f, f ∈ chosen /\ qualifies catalog now r f)
  \/ (br2_Required r = false /\ (forall f, f ∈ facts -> ~ qualifies catalog now r f)
      /\ exists reason, {| br_ComponentID := br2_ComponentID r; br_Reason := reason |}
                        ∈ sort_by br_ComponentID (omap (residual_of catalog now found) (bp_Requirements plan))).
Proof.
  intros Hr. destruct (fills catalog now found r) as [f |] eqn:E.
  - left. pose proof (proj1 (fills_iff catalog facts now found Hfound r f) E) as (Hf & Hid & Hq). exists f. split; [| done].
    apply chosen_elem, (selected_lookup plan catalog facts now found Hfound). by exists r.
  - right. rewrite Forall_forall in Htolerated. destruct (Htolerated r Hr E) as [Ho _]. split; [done |].
    assert (residual_of catalog now found r = Some {| br_ComponentID := br2_ComponentID r;
      br_Reason := ReasonCode_string (shortfall catalog now found r) |}) as Hres by (unfold residual_of; by rewrite E).
    split; [by apply (residual_of_elem catalog facts now found Hfound _ _ Hres) |].
    eexists. rewrite sort_by_Permutation. apply list_elem_of_omap. exists r. split; [done | exact Hres].
Qed.

Lemma chosen_built set :
  BindingSetFactV2_Validate set = Ok tt -> bs_PlanDigest set = bp_PlanDigest plan ->
  GovernanceCatalogV2_DigestV2 catalog = Ok (bs_GovernanceDigest set) ->
  bs_Members set = map member_of chosen -> bs_TopologicalOrder set = order ->
  bs_Residuals set = Some (sort_by br_ComponentID (omap (residual_of catalog now found) (bp_Requirements plan))) ->
  built_from plan catalog facts now chosen set.
Proof.
  intros Hv Hp Hd Hm Ho Hr. split; try done.
  - by rewrite chosen_ids.
  - exact chosen_justified.
  - intros r Hin. rewrite Hr. by apply chosen_covers.
  - intros before f after E d Hd' Hopt. rewrite chosen_ids in Hopt.
    by apply (ordered_behind selected order selected_keyed order_selected f before after).
  - intros f Hf r Hr' Hopt. apply chosen_elem in Hf.
    destruct (cl_capabilities _ _ (Hclosed _ _ Hf) r Hr' Hopt) as (p & Hp' & Hc). exists p.
    pose proof (selected_keyed _ _ Hp') as Hk. split; [| done]. apply chosen_elem. by rewrite Hk.
  - intros f Hf o Hin. apply chosen_elem in Hf. rewrite chosen_ids. apply order_selected.
    by apply (cl_owners _ _ (Hclosed _ _ Hf)).
  - by apply set_expiry_le.
Qed.
End chosen.

(** C30: what BuildBindingSetV2 returns, for every order in which Go may range over
    its maps.  The set is valid and bound to the plan's and the catalog's digests;
    its members are the facts [chosen], each certified, unexpired, allowed by the
    catalog and matching a requirement of the plan; every requirement is filled
    by a member or, when it is optional and no fact qualifies, listed as a
    residual; members stand behind everything they depend on, what they require
    is granted by a member, and their owners are members; and the set expires no
    later than any grant.  Another iteration order builds the same set. *)
Theorem BuildBindingSetV2_sound (range : Range) (setID : string) (plan : BindingPlanV2) (catalog : GovernanceCatalogV2)
    (facts : list BindingFactV2) (now : Time) (set : BindingSetFactV2) (Hrange : is_range range)
    (H : BuildBindingSetV2 range setID plan catalog facts now = Ok set) :
  (exists chosen, built_from plan catalog facts now chosen set)
  /\ forall range', is_range range' -> BuildBindingSetV2 range' setID plan catalog facts now = Ok set.
Proof.
  pose proof H as Hb. rewrite build_cases in Hb by done. split; [| intros range' Hrange'; by apply build_cases].
  destruct Hb as ((_ & _ & _ & _ & Hd) & found & order & Hf & Ht & _ & Hc & [Ho _] & Hv & ->).
  eexists. by apply (chosen_built plan catalog facts now found order Hf Ht Hc Ho).
Qed.

(** ** Two components, the second of which depends on the first *)

Definition bz_catalog_digest : Digest :=
  "sha256:c3fc704bbba1ecb5f09703eefc9dd2b1704aef35565e599e43ebfb92b2a377d5".

Definition bz_plan : BindingPlanV2 :=
  {| bp_ID := "plan";
     bp_PlanDigest := "sha256:7777794bfd4e7dee5f1b84b6bcf25f5035b9444410f59e396918ddbf35fdc424";
     bp_GovernanceDigest := bz_catalog_digest;
     bp_Requirements := [bx_requirement "praxis/c" false []; bx_requirement "praxis/b" true [];
                         bx_requirement "praxis/a" true ["praxis/stop"; "praxis/run"]] |}.

Definition bz_grant (capability : string) (expires : Z) : CapabilityGrantV2 :=
  {| cg_Capability := capability; cg_EvidenceDigest := bx_sha "d"; cg_ObservedUnixNano := 1000; cg_ExpiresUnixNano := expires |}.

(** A certified fact of the component [id], with its earliest expiry. *)
Definition bz_fact (id : string) (dependencies : list string) (digest : Digest) (expires : Z) : BindingFactV2 :=
  {| bf_ID := id; bf_ComponentID := id; bf_Manifest := bx_manifest_with id dependencies (bx_owners "praxis/a") [];
     bf_ManifestDigest := digest; bf_GovernanceDigest := bz_catalog_digest; bf_State := BindingCertified;
     bf_Revision := 3; bf_Grants := Some [bz_grant "praxis/run" 9000; bz_grant "praxis/stop" expires];
     bf_ProbedUnixNano := 1000; bf_CertifiedUnixNano := 2000; bf_ConformanceEvidenceDigest := bx_sha "e";
     bf_ExpiresUnixNano := expires; bf_BindingSetID := ""; bf_InvalidationReason := ""; bf_RenewalEvidence := None |}.

Definition bz_fact_a : BindingFactV2 :=
  bz_fact "praxis/a" [] "sha256:a798bef1465d696f798047d37e52ece16defd01b93a7efaf2a086179bb1a9a24" 7000.
Definition bz_fact_b : BindingFactV2 :=
  bz_fact "praxis/b" ["praxis/a"] "sha256:ff33150b3f8c1c5932253d2f053f8ec0545c8cde75ccc3c932d57e3c987521b6" 8000.

Definition bz_set : BindingSetFactV2 :=
  {| bs_ID := "set"; bs_PlanID := "plan"; bs_PlanDigest := bp_PlanDigest bz_plan; bs_GovernanceDigest := bz_catalog_digest;
     bs_State := BindingSetActive; bs_Revision := 1; bs_Members := [member_of bz_fact_a; member_of bz_fact_b];
     bs_TopologicalOrder := ["praxis/a"; "praxis/b"];
     bs_Residuals := Some [{| br_ComponentID := "praxis/c"; br_Reason := "component_missing" |}];
     bs_CreatedUnixNano := 3000; bs_ExpiresUnixNano := 7000; bs_InvalidationReason := "" |}.

Lemma BuildBindingSetV2_sound_witness :
  BuildBindingSetV2 (fun _ l => reverse l) "set" bz_plan bx_catalog [bz_fact_b; bz_fact_a] (UnixTime 3000) = Ok bz_set
  /\ exists chosen, built_from bz_plan bx_catalog [bz_fact_b; bz_fact_a] (UnixTime 3000) chosen bz_set.
Proof.
  assert (BuildBindingSetV2 (fun _ l => reverse l) "set" bz_plan bx_catalog [bz_fact_b; bz_fact_a] (UnixTime 3000) = Ok bz_set)
    as H by (vm_cast_no_check (eq_refl (Ok bz_set : result BindingSetFactV2))).
  split; [exact H |]. refine (proj1 (BuildBindingSetV2_sound _ "set" bz_plan bx_catalog _ (UnixTime 3000) bz_set _ H)).
  intros i l. apply reverse_Permutation.
Defined.
