(* ===== verification/BindingStore.v ===== *)
(** * fakes/binding_store_v2.go: the binding fact owner

    The in-memory owner of binding facts and binding sets, one atomic step per
    method.  The clock reading is an argument.  The attestation reader is an
    interface that no code of the repository implements: it is a function, held
    in the state as the store holds it.  RenewBindingSetV2 reads it in a critical
    section of its own and asks it outside the lock; [renew_locked] is the second
    critical section. *)

From S2P Require Import Prelude GoStd Errors Identity FactStore Json Canonical Payload EffectContract Assembly Binding BindingCodec Evidence Topology BindingFact.

Local Open Scope N_scope.

(** ** State *)

Definition AttestationReader := EvidenceRecordRefV2 -> result BindingRenewalAttestationV2.

Record BindingStoreV2 := {
  st_bindings : gmap string BindingFactV2;
  st_sets : gmap string BindingSetFactV2;
  st_renewalEvidence : option AttestationReader;
  st_loseNextCommitReply : bool;
}.

Definition NewBindingStoreV2 : BindingStoreV2 :=
  {| st_bindings := ∅; st_sets := ∅; st_renewalEvidence := None; st_loseNextCommitReply := false |}.

Definition set_st_bindings (v : gmap string BindingFactV2) (s : BindingStoreV2) : BindingStoreV2 :=
  {| st_bindings := v; st_sets := st_sets s; st_renewalEvidence := st_renewalEvidence s;
     st_loseNextCommitReply := st_loseNextCommitReply s |}.
Definition set_st_sets (v : gmap string BindingSetFactV2) (s : BindingStoreV2) : BindingStoreV2 :=
  {| st_bindings := st_bindings s; st_sets := v; st_renewalEvidence := st_renewalEvidence s;
     st_loseNextCommitReply := st_loseNextCommitReply s |}.
Definition set_st_reader (v : option AttestationReader) (s : BindingStoreV2) : BindingStoreV2 :=
  {| st_bindings := st_bindings s; st_sets := st_sets s; st_renewalEvidence := v;
     st_loseNextCommitReply := st_loseNextCommitReply s |}.
Definition set_st_lose (v : bool) (s : BindingStoreV2) : BindingStoreV2 :=
  {| st_bindings := st_bindings s; st_sets := st_sets s; st_renewalEvidence := st_renewalEvidence s;
     st_loseNextCommitReply := v |}.

Abbreviation BM := (ST BindingStoreV2 error).

Definition SetRenewalAttestations (reader : option AttestationReader) : BM unit := st_modify (set_st_reader reader).
Definition LoseNextCommitReply : BM unit := st_modify (set_st_lose true).

(** ** Copies *)

Definition cloneManifestForBindingStore (manifest : ComponentManifestV2) : ComponentManifestV2 :=
  match EncodeComponentManifestV2 manifest with
  | Ok payload => match DecodeComponentManifestV2 payload with Ok cloned => cloned | Err _ => zero_ComponentManifestV2 end
  | Err _ => zero_ComponentManifestV2
  end.

Definition cloneBindingFactV2 (fact : BindingFactV2) : BindingFactV2 :=
  {| bf_ID := bf_ID fact; bf_ComponentID := bf_ComponentID fact;
     bf_Manifest := cloneManifestForBindingStore (bf_Manifest fact); bf_ManifestDigest := bf_ManifestDigest fact;
     bf_GovernanceDigest := bf_GovernanceDigest fact; bf_State := bf_State fact; bf_Revision := bf_Revision fact;
     bf_Grants := append_nil (bf_Grants fact); bf_ProbedUnixNano := bf_ProbedUnixNano fact;
     bf_CertifiedUnixNano := bf_CertifiedUnixNano fact;
     bf_ConformanceEvidenceDigest := bf_ConformanceEvidenceDigest fact; bf_ExpiresUnixNano := bf_ExpiresUnixNano fact;
     bf_BindingSetID := bf_BindingSetID fact; bf_InvalidationReason := bf_InvalidationReason fact;
     bf_RenewalEvidence := append_nil (bf_RenewalEvidence fact) |}.

(** The members, their slices and the order are lists here, so a copy is the same. *)
Definition cloneBindingSetFactV2 (set : BindingSetFactV2) : BindingSetFactV2 :=
  {| bs_ID := bs_ID set; bs_PlanID := bs_PlanID set; bs_PlanDigest := bs_PlanDigest set;
     bs_GovernanceDigest := bs_GovernanceDigest set; bs_State := bs_State set; bs_Revision := bs_Revision set;
     bs_Members := bs_Members set; bs_TopologicalOrder := bs_TopologicalOrder set;
     bs_Residuals := append_nil (bs_Residuals set); bs_CreatedUnixNano := bs_CreatedUnixNano set;
     bs_ExpiresUnixNano := bs_ExpiresUnixNano set; bs_InvalidationReason := bs_InvalidationReason set |}.

Definition put_binding (id : string) (fact : BindingFactV2) : BM unit :=
  st_modify (fun s => set_st_bindings (<[id := fact]> (st_bindings s)) s).
Definition put_set (id : string) (set : BindingSetFactV2) : BM unit :=
  st_modify (fun s => set_st_sets (<[id := set]> (st_sets s)) s).

(** ** Binding facts *)

Definition CreateBinding (ctx : Context) (fact : BindingFactV2) : BM BindingFactV2 :=
  st_lift (contextError ctx) ;;
  st_lift (BindingFactV2_Validate fact) ;;
  st_guard (negb (N.eqb (bf_Revision fact) 1) || negb (bool_decide (bf_State fact = BindingDeclared)))
    ErrorInvalidArgument ReasonInvalidState ;;
  s ← st_get ;
  st_guard (match st_bindings s !! bf_ID fact with Some _ => true | None => false end)
    ErrorConflict ReasonAlreadyExists ;;
  put_binding (bf_ID fact) (cloneBindingFactV2 fact) ;;
  mret (cloneBindingFactV2 fact).

Definition InspectBinding (ctx : Context) (id : string) : BM BindingFactV2 :=
  st_lift (contextError ctx) ;;
  s ← st_get ;
  match st_bindings s !! id with
  | None => st_err ErrorNotFound ReasonInvalidReference
  | Some fact => mret (cloneBindingFactV2 fact)
  end.

Definition CompareAndSwapBinding (ctx : Context) (now : Time) (request : BindingFactCASRequestV2) : BM BindingFactV2 :=
  st_lift (contextError ctx) ;;
  st_lift (BindingFactCASRequestV2_Validate request now) ;;
  s ← st_get ;
  match st_bindings s !! bf_ID (bfc_Next request) with
  | None => st_err ErrorNotFound ReasonInvalidReference
  | Some current =>
      st_guard (negb (N.eqb (bf_Revision current) (bfc_ExpectedRevision request)))
        ErrorConflict ReasonRevisionConflict ;;
      st_lift (ValidateBindingFactTransitionV2 current (bfc_Next request) now) ;;
      let next := cloneBindingFactV2 (bfc_Next request) in
      put_binding (bf_ID next) next ;;
      mret (cloneBindingFactV2 next)
  end.

(** ** Committing a set *)

Definition with_revision (revision : N) (m : BindingMemberV2) : BindingMemberV2 :=
  {| bm_BindingID := bm_BindingID m; bm_BindingRevision := revision; bm_ComponentID := bm_ComponentID m;
     bm_Kind := bm_Kind m; bm_ManifestDigest := bm_ManifestDigest m; bm_ArtifactDigest := bm_ArtifactDigest m;
     bm_Contract := bm_Contract m; bm_Owners := bm_Owners m; bm_Grants := bm_Grants m |}.

Definition with_members (members : list BindingMemberV2) (set : BindingSetFactV2) : BindingSetFactV2 :=
  {| bs_ID := bs_ID set; bs_PlanID := bs_PlanID set; bs_PlanDigest := bs_PlanDigest set;
     bs_GovernanceDigest := bs_GovernanceDigest set; bs_State := bs_State set; bs_Revision := bs_Revision set;
     bs_Members := members; bs_TopologicalOrder := bs_TopologicalOrder set; bs_Residuals := bs_Residuals set;
     bs_CreatedUnixNano := bs_CreatedUnixNano set; bs_ExpiresUnixNano := bs_ExpiresUnixNano set;
     bs_InvalidationReason := bs_InvalidationReason set |}.

(** The loop over the members of the stored set and of the request. *)
Fixpoint members_replayed (existing requested : list BindingMemberV2) : bool :=
  match existing, requested with
  | l :: existing, r :: requested =>
      N.eqb (bm_BindingRevision l) (u64_succ (bm_BindingRevision r))
      && bool_decide (with_revision (bm_BindingRevision r) l = r)
      && members_replayed existing requested
  | _, _ => true
  end.

Definition bindingSetCommitReplayV2 (existing : BindingSetFactV2) (request : CommitBindingSetRequestV2) : bool :=
  let set := cbs_Set request in
  bool_decide (bs_ID existing = bs_ID set) && bool_decide (bs_PlanID existing = bs_PlanID set)
  && bool_decide (bs_PlanDigest existing = bs_PlanDigest set)
  && bool_decide (bs_GovernanceDigest existing = bs_GovernanceDigest set)
  && bool_decide (bs_State existing = bs_State set) && Z.eqb (bs_CreatedUnixNano existing) (bs_CreatedUnixNano set)
  && Z.eqb (bs_ExpiresUnixNano existing) (bs_ExpiresUnixNano set)
  && Nat.eqb (length (bs_Members existing)) (length (bs_Members set))
  && members_replayed (bs_Members existing) (bs_Members set)
  && bool_decide (bs_TopologicalOrder existing = bs_TopologicalOrder set)
  && bool_decide (bs_Residuals existing = bs_Residuals set).

Fixpoint expected_revisions (m : gmap string N) (expected : list ExpectedBindingRevisionV2) : result (gmap string N) :=
  match expected with
  | [] => Ok m
  | item :: rest =>
      guard (bool_decide (ebr_BindingID item = "") || N.eqb (ebr_ExpectedRevision item) 0)
        ErrorInvalidArgument ReasonRevisionConflict ;;
      guard (bool_decide (is_Some (m !! ebr_BindingID item))) ErrorConflict ReasonRevisionConflict ;;
      expected_revisions (<[ebr_BindingID item := ebr_ExpectedRevision item]> m) rest
  end.

(** `next := fact; next.State = BindingBound; next.Revision++; next.BindingSetID = set.ID` *)
Definition bind_fact (setID : string) (fact : BindingFactV2) : BindingFactV2 :=
  {| bf_ID := bf_ID fact; bf_ComponentID := bf_ComponentID fact; bf_Manifest := bf_Manifest fact;
     bf_ManifestDigest := bf_ManifestDigest fact; bf_GovernanceDigest := bf_GovernanceDigest fact;
     bf_State := BindingBound; bf_Revision := u64_succ (bf_Revision fact); bf_Grants := bf_Grants fact;
     bf_ProbedUnixNano := bf_ProbedUnixNano fact; bf_CertifiedUnixNano := bf_CertifiedUnixNano fact;
     bf_ConformanceEvidenceDigest := bf_ConformanceEvidenceDigest fact; bf_ExpiresUnixNano := bf_ExpiresUnixNano fact;
     bf_BindingSetID := setID; bf_InvalidationReason := bf_InvalidationReason fact;
     bf_RenewalEvidence := bf_RenewalEvidence fact |}.

Definition commit_member_stale (set : BindingSetFactV2) (expected : gmap string N) (member : BindingMemberV2)
    (fact : BindingFactV2) : bool :=
  match expected !! bm_BindingID member with
  | None => true
  | Some expectedRevision =>
      negb (N.eqb (bf_Revision fact) expectedRevision) || negb (N.eqb (bm_BindingRevision member) expectedRevision)
      || negb (bool_decide (bf_State fact = BindingCertified))
      || negb (bool_decide (bf_ComponentID fact = bm_ComponentID member))
      || negb (bool_decide (bf_ManifestDigest fact = bm_ManifestDigest member))
      || negb (bool_decide (m_ArtifactDigest (bf_Manifest fact) = bm_ArtifactDigest member))
      || negb (bool_decide (bf_GovernanceDigest fact = bs_GovernanceDigest set))
  end.

Fixpoint bind_members (bindings : gmap string BindingFactV2) (set : BindingSetFactV2) (expected : gmap string N) (now : Time)
    (nextFacts : gmap string BindingFactV2) (members : list BindingMemberV2) : result (gmap string BindingFactV2) :=
  match members with
  | [] => Ok nextFacts
  | member :: rest =>
      match bindings !! bm_BindingID member with
      | None => fail ErrorConflict ReasonBindingSetConflict
      | Some fact =>
          guard (commit_member_stale set expected member fact) ErrorConflict ReasonBindingSetConflict ;;
          guard (negb (Before now (UnixTime (bf_ExpiresUnixNano fact)))) ErrorPreconditionFailed ReasonBindingExpired ;;
          let next := bind_fact (bs_ID set) fact in
          ValidateBindingFactTransitionV2 fact next now ;;
          bind_members bindings set expected now (<[bm_BindingID member := next]> nextFacts) rest
      end
  end.

(** The loop that stores the bound facts and moves the member revisions. *)
Definition store_member (nextFacts : gmap string BindingFactV2) (bindings : gmap string BindingFactV2)
    (member : BindingMemberV2) : gmap string BindingFactV2 :=
  match nextFacts !! bm_BindingID member with
  | Some next => <[bm_BindingID member := cloneBindingFactV2 next]> bindings
  | None => bindings
  end.
Definition advance_member (nextFacts : gmap string BindingFactV2) (member : BindingMemberV2) : BindingMemberV2 :=
  match nextFacts !! bm_BindingID member with
  | Some next => with_revision (bf_Revision next) member
  | None => member
  end.

Definition CommitBindingSet (ctx : Context) (now : Time) (request : CommitBindingSetRequestV2) : BM BindingSetFactV2 :=
  let set := cbs_Set request in
  st_lift (contextError ctx) ;;
  st_lift (BindingSetFactV2_Validate set) ;;
  st_guard (negb (bool_decide (bs_State set = BindingSetActive)) || negb (N.eqb (bs_Revision set) 1)
            || negb (Nat.eqb (length (cbs_Expected request)) (length (bs_Members set))))
    ErrorInvalidArgument ReasonBindingSetConflict ;;
  st_guard (IsZero now || (UnixNano now <? bs_CreatedUnixNano set)%Z
            || negb (Before now (UnixTime (bs_ExpiresUnixNano set)))) ErrorPreconditionFailed ReasonBindingExpired ;;
  s ← st_get ;
  match st_sets s !! bs_ID set with
  | Some existing =>
      if bindingSetCommitReplayV2 existing request then mret (cloneBindingSetFactV2 existing)
      else st_err ErrorConflict ReasonBindingSetConflict
  | None =>
      expected ← st_lift (expected_revisions ∅ (cbs_Expected request)) ;
      nextFacts ← st_lift (bind_members (st_bindings s) set expected now ∅ (bs_Members set)) ;
      let next := with_members (map (advance_member nextFacts) (bs_Members set)) (cloneBindingSetFactV2 set) in
      st_modify (fun s => set_st_bindings (fold_left (store_member nextFacts) (bs_Members set) (st_bindings s)) s) ;;
      st_lift (BindingSetFactV2_Validate next) ;;
      put_set (bs_ID next) next ;;
      s ← st_get ;
      if st_loseNextCommitReply s then
        st_modify (set_st_lose false) ;; st_err ErrorUnavailable ReasonEvidenceUnavailable
      else mret (cloneBindingSetFactV2 next)
  end.

Definition InspectBindingSet (ctx : Context) (id : string) : BM BindingSetFactV2 :=
  st_lift (contextError ctx) ;;
  s ← st_get ;
  match st_sets s !! id with
  | None => st_err ErrorNotFound ReasonInvalidReference
  | Some set => mret (cloneBindingSetFactV2 set)
  end.

Definition CompareAndSwapBindingSet (ctx : Context) (request : BindingSetCASRequestV2) : BM BindingSetFactV2 :=
  st_lift (contextError ctx) ;;
  st_guard (N.eqb (bsc_ExpectedRevision request) 0
            || negb (N.eqb (bs_Revision (bsc_Next request)) (u64_succ (bsc_ExpectedRevision request))))
    ErrorInvalidArgument ReasonRevisionConflict ;;
  s ← st_get ;
  match st_sets s !! bs_ID (bsc_Next request) with
  | None => st_err ErrorNotFound ReasonInvalidReference
  | Some current =>
      st_guard (negb (N.eqb (bs_Revision current) (bsc_ExpectedRevision request)))
        ErrorConflict ReasonRevisionConflict ;;
      st_lift (ValidateBindingSetTransitionV2 current (bsc_Next request)) ;;
      let next := cloneBindingSetFactV2 (bsc_Next request) in
      put_set (bs_ID next) next ;;
      mret (cloneBindingSetFactV2 next)
  end.

(** ** Renewing a set *)

Definition BindingMemberV2_json (m : BindingMemberV2) : json :=
  JStruct [field "binding_id" (JString (bm_BindingID m)); field "binding_revision" (JUint (bm_BindingRevision m));
           field "component_id" (JString (bm_ComponentID m)); field "kind" (JString (bm_Kind m));
           field "manifest_digest" (JString (bm_ManifestDigest m));
           field "artifact_digest" (JString (bm_ArtifactDigest m));
           field "contract" (ContractBindingV2_json (bm_Contract m));
           field "owners" (JArray (map OwnerAssignmentV2_json (bm_Owners m)));
           field "grants" (JArray (map CapabilityGrantV2_json (bm_Grants m)))].

Definition BindingSetFactV2_json (s : BindingSetFactV2) : json :=
  JStruct [field "id" (JString (bs_ID s)); field "plan_id" (JString (bs_PlanID s));
           field "plan_digest" (JString (bs_PlanDigest s)); field "governance_digest" (JString (bs_GovernanceDigest s));
           field "state" (JString (BindingSetStateV2_string (bs_State s))); field "revision" (JUint (bs_Revision s));
           field "members" (JArray (map BindingMemberV2_json (bs_Members s)));
           field "topological_order" (JArray (map JString (bs_TopologicalOrder s)));
           field "residuals" (JSlice BindingResidualV2_json (bs_Residuals s));
           field "created_unix_nano" (JNumber (bs_CreatedUnixNano s));
           field "expires_unix_nano" (JNumber (bs_ExpiresUnixNano s));
           omit_string "invalidation_reason" (bs_InvalidationReason s)].

Definition bindingSetEqualV2 (l r : BindingSetFactV2) : bool :=
  match binding_digest "BindingSetFactV2" (BindingSetFactV2_json l),
        binding_digest "BindingSetFactV2" (BindingSetFactV2_json r) with
  | Ok leftDigest, Ok rightDigest => bool_decide (leftDigest = rightDigest)
  | _, _ => false
  end.

Definition bindingSetContainsExactProducerV2 (set : BindingSetFactV2) (producer : EvidenceProducerBindingRefV2) : bool :=
  existsb (fun member =>
    bool_decide (bm_ComponentID member = pb_ComponentID producer)
    && bool_decide (bm_ManifestDigest member = pb_ManifestDigest producer)
    && bool_decide (bm_ArtifactDigest member = pb_ArtifactDigest producer)
    && existsb (fun grant => bool_decide (cg_Capability grant = pb_Capability producer)) (bm_Grants member))
    (bs_Members set).

(** What the attestation of the last evidence of [next] must say. *)
Definition attestation_mismatched (now : Time) (next : BindingFactV2) (ref : EvidenceRecordRefV2)
    (attestation : BindingRenewalAttestationV2) : bool :=
  match BindingGrantSetDigestV2 (slice_items (bf_Grants next)) with
  | Err _ => true
  | Ok grantDigest =>
      negb (is_ok (BindingRenewalAttestationV2_Validate attestation)) || negb (bool_decide (ba_Evidence attestation = ref))
      || negb (bool_decide (ba_BindingID attestation = bf_ID next))
      || negb (bool_decide (ba_ComponentID attestation = bf_ComponentID next))
      || negb (bool_decide (ba_ManifestDigest attestation = bf_ManifestDigest next))
      || negb (bool_decide (ba_GrantSetDigest attestation = grantDigest))
      || negb (N.eqb (ba_SourceSequence attestation) (er_Sequence ref))
      || Before now (UnixTime (ba_ObservedUnixNano attestation))
      || negb (Before now (UnixTime (ba_ExpiresUnixNano attestation)))
  end.

Fixpoint verify_renewals (reader : AttestationReader) (now : Time) (verified : gmap string BindingRenewalAttestationV2)
    (nextBindings : list BindingFactV2) : result (gmap string BindingRenewalAttestationV2) :=
  match nextBindings with
  | [] => Ok verified
  | next :: rest =>
      match last (slice_items (bf_RenewalEvidence next)) with
      | None => fail ErrorForbidden ReasonBindingNotCertified
      | Some ref =>
          attestation ← reader ref ;
          guard (attestation_mismatched now next ref attestation) ErrorForbidden ReasonBindingNotCertified ;;
          verify_renewals reader now (<[bf_ID next := attestation]> verified) rest
      end
  end.

Fixpoint renew_facts (bindings : gmap string BindingFactV2) (now : Time) (nextByID : gmap string BindingFactV2)
    (nextBindings : list BindingFactV2) : result (gmap string BindingFactV2) :=
  match nextBindings with
  | [] => Ok nextByID
  | next :: rest =>
      guard (bool_decide (is_Some (nextByID !! bf_ID next))) ErrorConflict ReasonBindingSetConflict ;;
      match bindings !! bf_ID next with
      | None => fail ErrorNotFound ReasonInvalidReference
      | Some current =>
          ValidateBindingFactRenewalV2 current next now ;;
          renew_facts bindings now (<[bf_ID next := cloneBindingFactV2 next]> nextByID) rest
      end
  end.

(** The certifier is a member of an active, unexpired set at the revision that
    the attestation names. *)
Definition certifier_current (sets : gmap string BindingSetFactV2) (now : Time) (certifier : EvidenceProducerBindingRefV2) : bool :=
  match sets !! pb_BindingSetID certifier with
  | None => false
  | Some certifierSet =>
      bool_decide (bs_State certifierSet = BindingSetActive)
      && N.eqb (bs_Revision certifierSet) (pb_BindingSetRevision certifier)
      && Before now (UnixTime (bs_ExpiresUnixNano certifierSet))
      && bindingSetContainsExactProducerV2 certifierSet certifier
  end.

Definition member_renewed (sets : gmap string BindingSetFactV2) (now : Time)
    (verified : gmap string BindingRenewalAttestationV2) (nextByID : gmap string BindingFactV2) (member : BindingMemberV2)
  : result unit :=
  guard (match nextByID !! bm_BindingID member, verified !! bm_BindingID member with
         | Some next, Some attestation =>
             negb (certifier_current sets now (ba_Certifier attestation))
             || negb (N.eqb (bm_BindingRevision member) (bf_Revision next))
             || negb (bool_decide (bm_ComponentID member = bf_ComponentID next))
             || negb (bool_decide (bm_ManifestDigest member = bf_ManifestDigest next))
             || negb (bool_decide (bm_ArtifactDigest member = m_ArtifactDigest (bf_Manifest next)))
             || negb (bool_decide (bm_Contract member = m_Contract (bf_Manifest next)))
             || negb (bool_decide (Some (bm_Owners member) = m_Owners (bf_Manifest next)))
             || negb (bool_decide (Some (bm_Grants member) = bf_Grants next))
         | _, _ => true
         end) ErrorPreconditionFailed ReasonBindingDrift.

Definition renew_locked (now : Time) (request : RenewBindingSetRequestV2)
    (verified : gmap string BindingRenewalAttestationV2) : BM BindingSetFactV2 :=
  let next := rbs_NextSet request in
  s ← st_get ;
  match st_sets s !! bs_ID next with
  | None => st_err ErrorNotFound ReasonInvalidReference
  | Some current =>
      if N.eqb (bs_Revision current) (bs_Revision next) then
        if bindingSetEqualV2 current next then mret (cloneBindingSetFactV2 current)
        else st_err ErrorConflict ReasonBindingSetConflict
      else
        st_guard (negb (N.eqb (bs_Revision current) (rbs_ExpectedSetRevision request))
                  || negb (bool_decide (bs_State current = BindingSetActive))
                  || negb (bool_decide (bs_State next = BindingSetActive))) ErrorConflict ReasonRevisionConflict ;;
        st_guard (match BindingSetSemanticDigestV2 current, BindingSetSemanticDigestV2 next with
                  | Ok currentSemantic, Ok nextSemantic =>
                      negb (bool_decide (currentSemantic = nextSemantic))
                      || (bs_ExpiresUnixNano next <=? bs_ExpiresUnixNano current)%Z
                  | _, _ => true
                  end) ErrorPreconditionFailed ReasonBindingDrift ;;
        nextByID ← st_lift (renew_facts (st_bindings s) now ∅ (rbs_NextBindings request)) ;
        st_lift (for_each (member_renewed (st_sets s) now verified nextByID) (bs_Members next)) ;;
        st_modify (fun s => set_st_bindings ((cloneBindingFactV2 <$> nextByID) ∪ st_bindings s) s) ;;
        put_set (bs_ID next) (cloneBindingSetFactV2 next) ;;
        mret (cloneBindingSetFactV2 next)
  end.

Definition RenewBindingSetV2 (ctx : Context) (now : Time) (request : RenewBindingSetRequestV2) : BM BindingSetFactV2 :=
  let next := rbs_NextSet request in
  st_lift (contextError ctx) ;;
  st_guard (N.eqb (rbs_ExpectedSetRevision request) 0
            || negb (N.eqb (bs_Revision next) (u64_succ (rbs_ExpectedSetRevision request)))
            || negb (Nat.eqb (length (rbs_NextBindings request)) (length (bs_Members next))))
    ErrorInvalidArgument ReasonRevisionConflict ;;
  st_lift (BindingSetFactV2_Validate next) ;;
  s ← st_get ;
  match st_renewalEvidence s with
  | None => st_err ErrorInvalidArgument ReasonComponentMissing
  | Some attestations =>
      verified ← st_lift (verify_renewals attestations now ∅ (rbs_NextBindings request)) ;
      renew_locked now request verified
  end.
