(* ===== verification/BindingSafety.v ===== *)
(** * Invariants of the binding store

    What holds in every state that faithful calls of the methods of
    fakes/binding_store_v2.go reach: facts and sets are valid, every set holds the
    facts of its members, and no binding is in two sets; and how long a binding can
    live. *)

From stdpp Require Import relations.
From S2P Require Import Prelude GoStd Errors Identity FactStore Json Canonical Payload EffectContract Assembly Binding BindingCodec Evidence Topology BindingFact BindingLife BindingStore.

Local Open Scope N_scope.

#[local] Opaque BindingFactV2_Validate BindingSetFactV2_Validate cloneManifestForBindingStore.

(** ** Copies *)

(** The copy through the JSON encoding keeps the manifest.  [manifest_round_trip]
    gives it for valid manifests of UTF-8 strings that fit the document bound. *)
Definition copyable (f : BindingFactV2) : Prop := cloneManifestForBindingStore (bf_Manifest f) = bf_Manifest f.

Lemma slice_items_append_nil {A} (s : option (list A)) : slice_items (append_nil s) = slice_items s.
Proof. by destruct s as [[| ? ?] |]. Qed.

Lemma append_nil_idem {A} (s : option (list A)) : append_nil (append_nil s) = append_nil s.
Proof. by destruct s as [[| ? ?] |]. Qed.

Definition with_slices (grants : option (list CapabilityGrantV2)) (evidence : option (list EvidenceRecordRefV2))
    (f : BindingFactV2) : BindingFactV2 :=
  {| bf_ID := bf_ID f; bf_ComponentID := bf_ComponentID f; bf_Manifest := bf_Manifest f;
     bf_ManifestDigest := bf_ManifestDigest f; bf_GovernanceDigest := bf_GovernanceDigest f; bf_State := bf_State f;
     bf_Revision := bf_Revision f; bf_Grants := grants; bf_ProbedUnixNano := bf_ProbedUnixNano f;
     bf_CertifiedUnixNano := bf_CertifiedUnixNano f; bf_ConformanceEvidenceDigest := bf_ConformanceEvidenceDigest f;
     bf_ExpiresUnixNano := bf_ExpiresUnixNano f; bf_BindingSetID := bf_BindingSetID f;
     bf_InvalidationReason := bf_InvalidationReason f; bf_RenewalEvidence := evidence |}.

Lemma clone_copyable f :
  copyable f -> cloneBindingFactV2 f = with_slices (append_nil (bf_Grants f)) (append_nil (bf_RenewalEvidence f)) f.
Proof. unfold copyable, cloneBindingFactV2, with_slices. by intros ->. Qed.

(** Validate does not tell nil and empty slices apart. *)
Lemma validate_with_slices grants evidence f :
  slice_items grants = slice_items (bf_Grants f) -> slice_items evidence = slice_items (bf_RenewalEvidence f) ->
  BindingFactV2_Validate (with_slices grants evidence f) = BindingFactV2_Validate f.
Proof.
  intros Hg He. #[local] Transparent BindingFactV2_Validate. unfold BindingFactV2_Validate.
  assert (validateBindingGrantSetV2 (with_slices grants evidence f) = validateBindingGrantSetV2 f) as ->.
  { unfold validateBindingGrantSetV2, with_slices. cbn [bf_Manifest bf_Grants bf_State bf_ExpiresUnixNano]. by rewrite Hg. }
  assert (binding_state_fields (with_slices grants evidence f) = binding_state_fields f) as ->.
  { unfold binding_state_fields, with_slices. 
    cbn [bf_Manifest bf_Grants bf_State bf_ExpiresUnixNano bf_ProbedUnixNano bf_CertifiedUnixNano
         bf_ConformanceEvidenceDigest bf_BindingSetID bf_InvalidationReason]. by rewrite Hg. }
  unfold with_slices. cbn [bf_ID bf_ComponentID bf_Manifest bf_ManifestDigest bf_GovernanceDigest bf_State bf_Revision bf_RenewalEvidence].
  by rewrite He.
Qed.
#[local] Opaque BindingFactV2_Validate.

(** A fact as the store keeps it. *)
Definition stored (f : BindingFactV2) : Prop := cloneBindingFactV2 f = f.

Lemma stored_copyable f : stored f -> copyable f.
Proof. unfold stored, copyable. intros H. by apply (f_equal bf_Manifest) in H. Qed.

Lemma clone_stored f : copyable f -> stored (cloneBindingFactV2 f).
Proof.
  intros H. rewrite (clone_copyable f H). unfold stored. rewrite clone_copyable by exact H. unfold with_slices. cbn.
  by rewrite !append_nil_idem.
Qed.

Lemma clone_validate f : copyable f -> BindingFactV2_Validate (cloneBindingFactV2 f) = BindingFactV2_Validate f.
Proof. intros H. rewrite (clone_copyable f H). apply validate_with_slices; apply slice_items_append_nil. Qed.

Lemma stored_grants f : stored f -> append_nil (bf_Grants f) = bf_Grants f.
Proof. intros H. by apply (f_equal bf_Grants) in H. Qed.

Lemma clone_transition f g now :
  stored f -> copyable g -> binding_transition f g now -> binding_transition f (cloneBindingFactV2 g) now.
Proof.
  intros Hf Hg []. rewrite <- (clone_validate g Hg) in bt_next. rewrite (clone_copyable g Hg) in *.
  split; try done. intros H. destruct (bt_grants H) as (E & ? & ?). cbn. by rewrite E, stored_grants.
Qed.

Lemma clone_renewal f g now :
  copyable g -> binding_renewal f g now -> binding_renewal f (cloneBindingFactV2 g) now.
Proof.
  intros Hg []. rewrite <- (clone_validate g Hg) in bn_next. rewrite (clone_copyable g Hg) in *.
  split; try done; cbn; by rewrite slice_items_append_nil.
Qed.

Definition stored_set (x : BindingSetFactV2) : Prop := cloneBindingSetFactV2 x = x.

Lemma clone_set_stored x : stored_set (cloneBindingSetFactV2 x).
Proof. unfold stored_set, cloneBindingSetFactV2. cbn. by rewrite append_nil_idem. Qed.

Lemma clone_set_validate x : BindingSetFactV2_Validate (cloneBindingSetFactV2 x) = BindingSetFactV2_Validate x.
Proof. #[local] Transparent BindingSetFactV2_Validate. reflexivity. Qed.
#[local] Opaque BindingSetFactV2_Validate.

(** ** The invariant *)

Record fact_ok (id : string) (f : BindingFactV2) : Prop := {
  fo_ID : bf_ID f = id;
  fo_valid : BindingFactV2_Validate f = Ok tt;
  fo_stored : stored f;
  fo_life : life f;
}.

(** A member of the set [x], stored under [id], and the fact of its binding: the
    fact is bound to this set at the revision that the member names, or it has
    ended since. *)
Record held (id : string) (x : BindingSetFactV2) (m : BindingMemberV2) (f : BindingFactV2) : Prop := {
  hd_component : bf_ComponentID f = bm_ComponentID m;
  hd_manifest : bf_ManifestDigest f = bm_ManifestDigest m;
  hd_governance : bf_GovernanceDigest f = bs_GovernanceDigest x;
  hd_state : bf_State f = BindingBound \/ ended (bf_State f);
  hd_bound : bf_State f = BindingBound -> bf_BindingSetID f = id /\ bf_Revision f = bm_BindingRevision m;
  hd_revision : bm_BindingRevision m <= bf_Revision f;
  hd_count : bm_BindingRevision m = bs_Revision x + (if bool_decide (bs_State x = BindingSetActive) then 3 else 2);
}.

Record store_ok (s : BindingStoreV2) : Prop := {
  so_facts : forall id f, st_bindings s !! id = Some f -> fact_ok id f;
  so_sets : forall id x, st_sets s !! id = Some x -> bs_ID x = id /\ BindingSetFactV2_Validate x = Ok tt /\ stored_set x;
  so_members : forall id x m, st_sets s !! id = Some x -> m ∈ bs_Members x ->
    exists f, st_bindings s !! bm_BindingID m = Some f /\ held id x m f;
  so_exclusive : forall id x m id' x' m', st_sets s !! id = Some x -> m ∈ bs_Members x ->
    st_sets s !! id' = Some x' -> m' ∈ bs_Members x' -> bm_BindingID m = bm_BindingID m' -> id = id';
}.

Lemma store_ok_new : store_ok NewBindingStoreV2.
Proof. split; cbn; intros; try by rewrite lookup_empty in H. Qed.

(** The methods that do not touch the maps. *)
Lemma store_ok_same s s' :
  st_bindings s' = st_bindings s -> st_sets s' = st_sets s -> store_ok s -> store_ok s'.
Proof. intros E1 E2 []. by split; rewrite ?E1, ?E2. Qed.

(** *** One fact replaced *)

Lemma held_ended id x m f g :
  held id x m f -> binding_extends f g -> ended (bf_State g) -> held id x m g.
Proof.
  intros [] [] He. split; try congruence; [by right | | lia]. intros E. rewrite E in He. by destruct He.
Qed.

Lemma put_fact_ok s id f g :
  store_ok s -> st_bindings s !! id = Some f -> fact_ok id g -> binding_extends f g ->
  (bf_State f = BindingBound -> ended (bf_State g)) ->
  store_ok (set_st_bindings (<[id := g]> (st_bindings s)) s).
Proof.
  intros [Hf Hs Hm He] Hl Hg Hx Hb. split; cbn; try done.
  - intros id' f'. rewrite lookup_insert_Some. intros [[<- <-] | [_ ?]]; eauto.
  - intros id' x m Hset Hin. destruct (Hm _ _ _ Hset Hin) as (f' & Hl' & Hh).
    destruct (decide (id = bm_BindingID m)) as [-> | Hne].
    + rewrite lookup_insert_eq. exists g. split; [done |]. rewrite Hl in Hl'. injection Hl' as <-.
      apply (held_ended _ _ _ f); [done .. |]. destruct (hd_state _ _ _ _ Hh) as [E | E]; [auto |].
      by rewrite (be_ended _ _ Hx E).
    + exists f'. by rewrite lookup_insert_ne.
Qed.

(** A new fact is in no set. *)
Lemma new_fact_ok s id g :
  store_ok s -> st_bindings s !! id = None -> fact_ok id g ->
  store_ok (set_st_bindings (<[id := g]> (st_bindings s)) s).
Proof.
  intros [Hf Hs Hm He] Hl Hg. split; cbn; try done.
  - intros id' f'. rewrite lookup_insert_Some. intros [[<- <-] | [_ ?]]; eauto.
  - intros id' x m Hset Hin. destruct (Hm _ _ _ Hset Hin) as (f' & Hl' & Hh). exists f'.
    by rewrite lookup_insert_ne by congruence.
Qed.

Lemma create_cases ctx f s :
  fst (CreateBinding ctx f s) = s
  \/ (BindingFactV2_Validate f = Ok tt /\ bf_Revision f = 1 /\ bf_State f = BindingDeclared
      /\ st_bindings s !! bf_ID f = None
      /\ fst (CreateBinding ctx f s)
         = set_st_bindings (<[bf_ID f := cloneBindingFactV2 f]> (st_bindings s)) s).
Proof.
  unfold CreateBinding, st_guard, put_binding. destruct (contextError ctx) as [[] |]; st_go; [| by left].
  destruct (BindingFactV2_Validate f) as [[] |]; [| by left]. unfold guard, reject_if.
  destruct (negb _ || negb _) eqn:E; [by left |]. rewrite orb_false_iff, !negb_false_iff, N.eqb_eq, bool_decide_eq_true in E.
  destruct (st_bindings s !! bf_ID f) eqn:El; [by left |]. right. by destruct_and?.
Qed.

Lemma create_ok ctx f s : copyable f -> store_ok s -> store_ok (fst (CreateBinding ctx f s)).
Proof.
  intros Hc Hs. destruct (create_cases ctx f s) as [-> | (Hv & Hr & Hd & Hl & ->)]; [done |].
  apply new_fact_ok; [done .. |]. split; [done | by rewrite clone_validate | by apply clone_stored |].
  unfold life. cbn. by rewrite Hd.
Qed.

Lemma cas_cases ctx now r s :
  fst (CompareAndSwapBinding ctx now r s) = s
  \/ exists f, st_bindings s !! bf_ID (bfc_Next r) = Some f /\ binding_transition f (bfc_Next r) now
       /\ fst (CompareAndSwapBinding ctx now r s)
          = set_st_bindings (<[bf_ID (bfc_Next r) := cloneBindingFactV2 (bfc_Next r)]> (st_bindings s)) s.
Proof.
  unfold CompareAndSwapBinding, st_guard, put_binding. destruct (contextError ctx) as [[] |]; st_go; [| by left].
  destruct (BindingFactCASRequestV2_Validate r now) as [[] |]; [| by left].
  destruct (st_bindings s !! bf_ID (bfc_Next r)) as [f |] eqn:El; [| by left]. unfold guard, reject_if.
  destruct (negb _) eqn:E; [by left |].
  destruct (ValidateBindingFactTransitionV2 f (bfc_Next r) now) as [[] |] eqn:Ev; [| by left].
  right. exists f. split; [done | split; [by apply ValidateBindingFactTransitionV2_iff | done]].
Qed.

Lemma transition_from_bound f g now : binding_transition f g now -> bf_State f = BindingBound -> ended (bf_State g).
Proof. intros [] E. rewrite E in bt_edge. unfold ended. inversion bt_edge; subst; auto. Qed.

Lemma cas_ok ctx now r s : copyable (bfc_Next r) -> store_ok s -> store_ok (fst (CompareAndSwapBinding ctx now r s)).
Proof.
  intros Hc Hs. destruct (cas_cases ctx now r s) as [-> | (f & Hl & Ht & ->)]; [done |].
  destruct (so_facts _ Hs _ _ Hl) as [Hid Hv Hst Hlife].
  pose proof (clone_transition _ _ _ Hst Hc Ht) as Ht'.
  apply (put_fact_ok s _ f); [done | done | | by eapply binding_transition_extends | by eapply transition_from_bound].
  split; [done | by apply (bt_next _ _ _ Ht') | by apply clone_stored | by eapply transition_life].
Qed.

(** *** A set committed *)

(** What Validate promises of a set. *)
Record set_valid (x : BindingSetFactV2) : Prop := {
  sv_ID : bs_ID x <> "";
  sv_members : bs_Members x <> [];
  sv_components : NoDup (map bm_ComponentID (bs_Members x));
  sv_order : bs_TopologicalOrder x ≡ₚ map bm_ComponentID (bs_Members x);
}.

Lemma check_members_components seen minimum members r :
  check_members seen minimum members = Ok r ->
  NoDup (map bm_ComponentID members) /\ (forall c, c ∈ map bm_ComponentID members -> c ∉ seen)
  /\ forall c, c ∈ fst r <-> c ∈ seen \/ c ∈ map bm_ComponentID members.
Proof.
  revert seen minimum. induction members as [| x members IH]; intros seen minimum; cbn [check_members map].
  { intros [= <-]. split; [constructor | split; [by intros ? ?%elem_of_nil |]]. intros c. rewrite elem_of_nil. tauto. }
  intros H. apply seq_guard_Ok in H as [_ H]. do 5 apply seq_Ok in H as [_ H]. apply seq_guard_Ok in H as [Hn H].
  apply bool_decide_eq_false in Hn. apply IH in H as (H1 & H2 & H3). split; [| split].
  - apply NoDup_cons. split; [| done]. intros Hin. apply (H2 _ Hin). set_solver.
  - intros c [-> | Hc]%elem_of_cons; [done |]. specialize (H2 c Hc). set_solver.
  - intros c. rewrite H3, elem_of_cons. set_solver.
Qed.

Lemma check_order_perm members seen order :
  check_order members seen order = Ok tt ->
  NoDup order /\ (forall c, c ∈ order -> c ∈ members /\ c ∉ seen).
Proof.
  revert seen. induction order as [| c order IH]; intros seen; cbn [check_order].
  { intros _. split; [constructor | by intros ? ?%elem_of_nil]. }
  rewrite !seq_guard_Ok, negb_false_iff, bool_decide_eq_true, bool_decide_eq_false.
  intros (Hm & Hn & (H1 & H2)%IH). split.
  - apply NoDup_cons. split; [| done]. intros Hin. destruct (H2 _ Hin). set_solver.
  - intros c' [-> | Hc]%elem_of_cons; [done |]. destruct (H2 _ Hc). set_solver.
Qed.

Lemma BindingSetFactV2_Validate_inv x : BindingSetFactV2_Validate x = Ok tt -> set_valid x.
Proof.
  #[local] Transparent BindingSetFactV2_Validate. unfold BindingSetFactV2_Validate. intros H.
  apply seq_guard_Ok in H as [Hid H]. do 2 apply seq_Ok in H as [_ H]. do 3 apply seq_guard_Ok in H as [_ H].
  apply seq_guard_Ok in H as [Hl H]. apply bind_Ok in H as (r & Hm & H). apply seq_guard_Ok in H as [_ Ho].
  rewrite !orb_false_iff, bool_decide_eq_false in Hid. rewrite !orb_false_iff, negb_false_iff, Nat.eqb_eq, Nat.eqb_neq in Hl.
  apply check_members_components in Hm as (H1 & _ & H3). apply check_order_perm in Ho as [H4 H5].
  destruct Hl as [[Hne _] Hlen]. split; [tauto | by intros E; rewrite E in Hne | done |].
  apply submseteq_length_Permutation; [| by rewrite length_map, Hlen].
  apply NoDup_submseteq; [done |]. intros c Hc. destruct (H5 c Hc) as [Hin _]. apply H3 in Hin. set_solver.
Qed.
#[local] Opaque BindingSetFactV2_Validate.

(** The facts that a commit binds. *)
Lemma bind_members_Ok bindings x expected now nf members nf' :
  bind_members bindings x expected now nf members = Ok nf' ->
  (forall m, m ∈ members -> exists f, bindings !! bm_BindingID m = Some f /\ commit_member_stale x expected m f = false
     /\ binding_transition f (bind_fact (bs_ID x) f) now)
  /\ forall k, nf' !! k = if decide (k ∈ map bm_BindingID members) then bind_fact (bs_ID x) <$> bindings !! k else nf !! k.
Proof.
  revert nf. induction members as [| m members IH]; intros nf; cbn [bind_members map].
  { intros [= <-]. split; [by intros ? ?%elem_of_nil |]. intros k. by rewrite decide_False by by intros ?%elem_of_nil. }
  destruct (bindings !! bm_BindingID m) as [f |] eqn:Ef; [| done]. cbv zeta.
  rewrite !seq_guard_Ok, seq_Ok. intros (Hs & _ & Ht & [H1 H2]%IH). split.
  - intros m' [-> | Hm]%elem_of_cons; [| auto]. exists f. split; [done | split; [done |]].
    by apply ValidateBindingFactTransitionV2_iff.
  - intros k. rewrite H2. destruct (decide (k ∈ map bm_BindingID members)) as [Hk | Hk].
    + by rewrite decide_True by by right.
    + destruct (decide (bm_BindingID m = k)) as [<- | Hne].
      * rewrite lookup_insert_eq, decide_True by by left. by rewrite Ef.
      * rewrite lookup_insert_ne by done. rewrite decide_False; [done |]. by intros [-> |]%elem_of_cons.
Qed.

Lemma store_members_lookup nf members bindings k :
  (forall m, m ∈ members -> is_Some (nf !! bm_BindingID m)) ->
  fold_left (store_member nf) members bindings !! k
  = if decide (k ∈ map bm_BindingID members) then cloneBindingFactV2 <$> nf !! k else bindings !! k.
Proof.
  revert bindings. induction members as [| m members IH]; intros bindings Hin; cbn [fold_left map].
  { by rewrite decide_False by by intros ?%elem_of_nil. }
  rewrite IH by (intros; apply Hin; by right). destruct (Hin m) as [g Hg]; [by left |].
  destruct (decide (k ∈ map bm_BindingID members)) as [Hk | Hk]; [by rewrite decide_True by by right |].
  unfold store_member. rewrite Hg. destruct (decide (bm_BindingID m = k)) as [<- | Hne].
  - rewrite lookup_insert_eq, decide_True by by left. by rewrite Hg.
  - rewrite lookup_insert_ne by done. rewrite decide_False; [done |]. by intros [-> |]%elem_of_cons.
Qed.

(** What a commit that stores its set finds and leaves. *)
Record commit_effect (now : Time) (x : BindingSetFactV2) (s s' : BindingStoreV2) : Prop := {
  ce_new : st_sets s !! bs_ID x = None;
  ce_set : BindingSetFactV2_Validate x = Ok tt /\ bs_State x = BindingSetActive /\ bs_Revision x = 1;
  ce_members : forall m, m ∈ bs_Members x -> exists f, st_bindings s !! bm_BindingID m = Some f
    /\ bf_State f = BindingCertified /\ bf_ComponentID f = bm_ComponentID m /\ bf_ManifestDigest f = bm_ManifestDigest m
    /\ bf_GovernanceDigest f = bs_GovernanceDigest x /\ bm_BindingRevision m = bf_Revision f
    /\ binding_transition f (bind_fact (bs_ID x) f) now;
  ce_bindings : forall k, st_bindings s' !! k
    = if decide (k ∈ map bm_BindingID (bs_Members x)) then (fun f => cloneBindingFactV2 (bind_fact (bs_ID x) f)) <$> st_bindings s !! k
      else st_bindings s !! k;
  ce_sets : st_sets s' = <[bs_ID x := with_members
      (map (fun m => with_revision (u64_succ (bm_BindingRevision m)) m) (bs_Members x)) (cloneBindingSetFactV2 x)]> (st_sets s);
  ce_valid : BindingSetFactV2_Validate (with_members
      (map (fun m => with_revision (u64_succ (bm_BindingRevision m)) m) (bs_Members x)) (cloneBindingSetFactV2 x)) = Ok tt;
}.

Lemma advanced_members_valid seen minimum members r :
  check_members seen minimum members = Ok r -> (forall m, m ∈ members -> u64_succ (bm_BindingRevision m) <> 0) ->
  check_members seen minimum (map (fun m => with_revision (u64_succ (bm_BindingRevision m)) m) members) = Ok r.
Proof.
  revert seen minimum. induction members as [| m members IH]; intros seen minimum; [done |]. cbn [check_members map].
  intros H Hrev. apply seq_guard_Ok in H as [Hid H]. rewrite seq_guard_Ok. cbn [with_revision bm_BindingID bm_BindingRevision].
  rewrite !orb_false_iff in *. destruct Hid as [Hid _]. split.
  { split; [done |]. apply N.eqb_neq, Hrev. by left. }
  do 5 (apply seq_Ok in H as [? H]; apply seq_Ok; split; [done |]). apply seq_guard_Ok in H as [? H]. apply seq_guard_Ok.
  split; [done |]. apply IH; [done |]. intros m' Hm. apply Hrev. by right.
Qed.

Lemma advanced_set_valid x :
  BindingSetFactV2_Validate x = Ok tt -> (forall m, m ∈ bs_Members x -> u64_succ (bm_BindingRevision m) <> 0) ->
  BindingSetFactV2_Validate (with_members
    (map (fun m => with_revision (u64_succ (bm_BindingRevision m)) m) (bs_Members x)) (cloneBindingSetFactV2 x)) = Ok tt.
Proof.
  #[local] Transparent BindingSetFactV2_Validate. unfold BindingSetFactV2_Validate. intros H Hrev.
  cbn [with_members cloneBindingSetFactV2 bs_ID bs_PlanID bs_PlanDigest bs_GovernanceDigest bs_State bs_Revision bs_Members
       bs_TopologicalOrder bs_CreatedUnixNano bs_ExpiresUnixNano bs_InvalidationReason].
  apply seq_guard_Ok in H as [? H]. apply seq_guard_Ok. split; [done |].
  do 2 (apply seq_Ok in H as [? H]; apply seq_Ok; split; [done |]).
  do 3 (apply seq_guard_Ok in H as [? H]; apply seq_guard_Ok; split; [done |]).
  apply seq_guard_Ok in H as [Hl H]. apply seq_guard_Ok. unfold len in *. rewrite !length_map. split; [done |].
  apply bind_Ok in H as (r & Hm & H). apply bind_Ok. exists r. split; [by apply advanced_members_valid | done].
Qed.
#[local] Opaque BindingSetFactV2_Validate.

Lemma commit_member_stale_false x expected m f :
  commit_member_stale x expected m f = false ->
  bf_State f = BindingCertified /\ bf_ComponentID f = bm_ComponentID m /\ bf_ManifestDigest f = bm_ManifestDigest m
  /\ bf_GovernanceDigest f = bs_GovernanceDigest x /\ bm_BindingRevision m = bf_Revision f.
Proof.
  unfold commit_member_stale. destruct (expected !! bm_BindingID m) as [e |]; [| done].
  rewrite !orb_false_iff, !negb_false_iff, !bool_decide_eq_true, !N.eqb_eq. intros H. destruct_and? H. by subst.
Qed.

Lemma commit_cases ctx now r s :
  store_ok s ->
  (st_bindings (fst (CommitBindingSet ctx now r s)) = st_bindings s /\ st_sets (fst (CommitBindingSet ctx now r s)) = st_sets s)
  \/ commit_effect now (cbs_Set r) s (fst (CommitBindingSet ctx now r s)).
Proof.
  intros Hs. unfold CommitBindingSet, st_guard, put_set. set (x := cbs_Set r). cbv zeta.
  destruct (contextError ctx) as [[] |]; st_go; [| by left].
  destruct (BindingSetFactV2_Validate x) as [[] |] eqn:Hv; [| by left]. unfold guard, reject_if.
  destruct (_ || negb (Nat.eqb _ _)) eqn:E1; [by left |]. destruct (_ || negb (Before _ _)) eqn:E2; [by left |].
  destruct (st_sets s !! bs_ID x) as [existing |] eqn:Hnew; [by left; destruct (bindingSetCommitReplayV2 _ _) |].
  destruct (expected_revisions ∅ (cbs_Expected r)) as [expected |]; [| by left].
  destruct (bind_members (st_bindings s) x expected now ∅ (bs_Members x)) as [nf |] eqn:Hb; [| by left].
  apply bind_members_Ok in Hb as [Hm Hnf].
  assert (map (advance_member nf) (bs_Members x)
          = map (fun m => with_revision (u64_succ (bm_BindingRevision m)) m) (bs_Members x)) as Hadv.
  { apply map_ext_in. intros m Hin%list_elem_of_In. destruct (Hm m Hin) as (f & Hf & Hst & _).
    apply commit_member_stale_false in Hst as (_ & _ & _ & _ & Hrev).
    unfold advance_member. rewrite Hnf, decide_True, Hf by by apply list_elem_of_fmap_2. cbn. by rewrite Hrev. }
  rewrite Hadv. set (x' := with_members _ _).
  assert (BindingSetFactV2_Validate x' = Ok tt) as Hv'.
  { apply advanced_set_valid; [done |]. intros m Hin. destruct (Hm m Hin) as (f & Hf & Hst & _).
    apply commit_member_stale_false in Hst as (_ & _ & _ & _ & ->).
    destruct (so_facts _ Hs _ _ Hf) as [_ Hfv _ Hl]. rewrite life_succ by done. lia. }
  rewrite Hv'. right. rewrite !orb_false_iff, !negb_false_iff, bool_decide_eq_true, N.eqb_eq in E1. destruct_and? E1.
  assert (commit_effect now x s (set_st_sets (<[bs_ID x := x']> (st_sets s))
    (set_st_bindings (fold_left (store_member nf) (bs_Members x) (st_bindings s)) s))) as Hc.
  { split; try done.
    - intros m Hin. destruct (Hm m Hin) as (f & Hf & Hst & Ht). exists f.
      apply commit_member_stale_false in Hst. by destruct_and? Hst.
    - intros k. cbn. rewrite store_members_lookup.
      + rewrite Hnf. destruct (decide (k ∈ _)); [by destruct (st_bindings s !! k) | done].
      + intros m Hin. destruct (Hm m Hin) as (f & Hf & _). rewrite Hnf, decide_True by by apply list_elem_of_fmap_2.
        rewrite Hf. by eexists. }
  destruct (st_loseNextCommitReply _); [by destruct Hc | exact Hc].
Qed.

Lemma commit_ok now x s s' : store_ok s -> commit_effect now x s s' -> store_ok s'.
Proof.
  intros Hs [Hnew (Hv & Ha & Hr) Hm Hb Hsets Hv'].
  assert (forall m, m ∈ bs_Members x -> exists f, st_bindings s !! bm_BindingID m = Some f /\ bf_State f = BindingCertified) as Hcert.
  { intros m Hin. destruct (Hm m Hin) as (f & ? & ? & _). eauto. }
  assert (forall k f, k ∈ map bm_BindingID (bs_Members x) -> st_bindings s !! k = Some f ->
    bf_State f = BindingCertified /\ binding_transition f (cloneBindingFactV2 (bind_fact (bs_ID x) f)) now
    /\ fact_ok k (cloneBindingFactV2 (bind_fact (bs_ID x) f))) as Hbound.
  { intros k f (m & -> & Hin)%list_elem_of_fmap Hf. destruct (Hm m Hin) as (f' & Hf' & Hst & _ & _ & _ & _ & Ht).
    rewrite Hf in Hf'. injection Hf' as <-. split; [done |]. destruct (so_facts _ Hs _ _ Hf) as [Hid Hfv Hst' Hl].
    assert (copyable (bind_fact (bs_ID x) f)) as Hc by exact (stored_copyable f Hst').
    pose proof (clone_transition _ _ _ Hst' Hc Ht) as Ht'. split; [done |].
    split; [done | by apply (bt_next _ _ _ Ht') | by apply clone_stored | by eapply transition_life]. }
  assert (forall id y m, st_sets s !! id = Some y -> m ∈ bs_Members y -> bm_BindingID m ∉ map bm_BindingID (bs_Members x)) as Hdisj.
  { intros id y m Hy Hin (m' & E & Hin')%list_elem_of_fmap. destruct (so_members _ Hs _ _ _ Hy Hin) as (f & Hf & Hh).
    destruct (Hcert m' Hin') as (f' & Hf' & Hst). rewrite <- E, Hf in Hf'. injection Hf' as <-.
    destruct (hd_state _ _ _ _ Hh) as [Hx | [Hx | Hx]]; congruence. }
  split.
  - intros id f. rewrite Hb. destruct (decide (id ∈ _)) as [Hin | Hin]; [| apply (so_facts _ Hs)].
    intros (f0 & Hf & ->)%fmap_Some_1. by destruct (Hbound id f0 Hin Hf) as (_ & _ & ?).
  - intros id y. rewrite Hsets, lookup_insert_Some. intros [[<- <-] | [_ ?]]; [| by apply (so_sets _ Hs)].
    split; [done | split; [done |]]. unfold stored_set, cloneBindingSetFactV2, with_members. cbn. by rewrite append_nil_idem.
  - intros id y m. rewrite Hsets, lookup_insert_Some. intros [[<- <-] | [_ Hy]] Hin.
    + cbn in Hin. apply list_elem_of_fmap in Hin as (m0 & -> & Hin). cbn [with_revision bm_BindingID].
      destruct (Hm m0 Hin) as (f & Hf & Hst & Hco & Hmd & Hg & Hrev & _).
      rewrite Hb, decide_True, Hf by by apply list_elem_of_fmap_2. cbn. eexists. split; [done |].
      destruct (so_facts _ Hs _ _ Hf) as [_ Hfv _ Hl].
      assert (bf_Revision f = 3) as H3 by (unfold life in Hl; by rewrite Hst in Hl).
      split; cbn; try done; [by left | by rewrite Hrev | by rewrite Hrev |].
      rewrite Ha, Hr, Hrev, H3. by rewrite bool_decide_eq_true_2.
    + destruct (so_members _ Hs _ _ _ Hy Hin) as (f & Hf & Hh). exists f. rewrite Hb, decide_False; [done |]. by eapply Hdisj.
  - intros id y m id' y' m'. rewrite Hsets, !lookup_insert_Some.
    intros [[<- <-] | [Hne Hy]] Hin [[<- <-] | [Hne' Hy']] Hin' E; [done | | | by eapply (so_exclusive _ Hs)].
    + cbn in Hin. apply list_elem_of_fmap in Hin as (m0 & -> & Hin). destruct (Hdisj _ _ _ Hy' Hin'). rewrite <- E. cbn.
      by apply list_elem_of_fmap_2.
    + cbn in Hin'. apply list_elem_of_fmap in Hin' as (m0 & -> & Hin'). destruct (Hdisj _ _ _ Hy Hin). rewrite E. cbn.
      by apply list_elem_of_fmap_2.
Qed.

(** *** A set ended *)

Record set_transition (x y : BindingSetFactV2) : Prop := {
  xt_next : BindingSetFactV2_Validate y = Ok tt;
  xt_ID : bs_ID y = bs_ID x;
  xt_plan : bs_PlanID y = bs_PlanID x /\ bs_PlanDigest y = bs_PlanDigest x;
  xt_governance : bs_GovernanceDigest y = bs_GovernanceDigest x;
  xt_revision : bs_Revision y = u64_succ (bs_Revision x);
  xt_state : bs_State x = BindingSetActive /\ (bs_State y = BindingSetExpired \/ bs_State y = BindingSetRevoked);
  xt_content : bs_Members y = bs_Members x /\ bs_TopologicalOrder y = bs_TopologicalOrder x
    /\ bs_Residuals y = bs_Residuals x /\ bs_ExpiresUnixNano y = bs_ExpiresUnixNano x;
}.

Lemma ValidateBindingSetTransitionV2_Ok x y : ValidateBindingSetTransitionV2 x y = Ok tt -> set_transition x y.
Proof.
  unfold ValidateBindingSetTransitionV2. rewrite !seq_Ok, !guard_Ok, !orb_false_iff, !negb_false_iff, !bool_decide_eq_true,
    bool_decide_eq_false, N.eqb_eq, !Z.eqb_eq.
  intros (_ & Hv & Hid & Hr & Ha & Hn & Hs & Hc). destruct_and? Hid. destruct_and? Hc.
  rewrite andb_false_iff, !negb_false_iff, !bool_decide_eq_true in Hs. done.
Qed.

Lemma set_cas_cases ctx r s :
  fst (CompareAndSwapBindingSet ctx r s) = s
  \/ exists x, st_sets s !! bs_ID (bsc_Next r) = Some x /\ set_transition x (bsc_Next r)
       /\ fst (CompareAndSwapBindingSet ctx r s)
          = set_st_sets (<[bs_ID (bsc_Next r) := cloneBindingSetFactV2 (bsc_Next r)]> (st_sets s)) s.
Proof.
  unfold CompareAndSwapBindingSet, st_guard, put_set. destruct (contextError ctx) as [[] |]; st_go; [| by left].
  unfold guard, reject_if. destruct (_ || _); [by left |].
  destruct (st_sets s !! bs_ID (bsc_Next r)) as [x |] eqn:Hx; [| by left]. destruct (negb _); [by left |].
  destruct (ValidateBindingSetTransitionV2 x (bsc_Next r)) as [[] |] eqn:Hv; [| by left].
  right. exists x. split; [done | split; [by apply ValidateBindingSetTransitionV2_Ok | done]].
Qed.

(** The revision of a set is bounded by those of its members. *)
Lemma set_revision_bound s id x : store_ok s -> st_sets s !! id = Some x -> bs_Revision x <= 259.
Proof.
  intros Hs Hx. destruct (so_sets _ Hs _ _ Hx) as (_ & Hv & _). apply BindingSetFactV2_Validate_inv in Hv.
  destruct (bs_Members x) as [| m l] eqn:E; [by destruct (sv_members _ Hv) |].
  destruct (so_members _ Hs _ _ m Hx) as (f & Hf & Hh); [rewrite E; by left |].
  destruct (so_facts _ Hs _ _ Hf) as [_ Hfv _ Hl]. pose proof (life_bound f Hfv Hl) as Hb.
  pose proof (hd_revision _ _ _ _ Hh) as H1. pose proof (hd_count _ _ _ _ Hh) as H2. destruct (bool_decide _); lia.
Qed.

Lemma set_cas_ok ctx r s : store_ok s -> store_ok (fst (CompareAndSwapBindingSet ctx r s)).
Proof.
  intros Hs. destruct (set_cas_cases ctx r s) as [-> | (x & Hx & Ht & ->)]; [done |]. set (y := bsc_Next r) in *.
  pose proof (set_revision_bound _ _ _ Hs Hx) as Hb.
  assert (bs_Revision y = bs_Revision x + 1) as Hr.
  { rewrite (xt_revision _ _ Ht). apply u64_succ_small. unfold max_u64. lia. }
  destruct Hs as [Hf Hsets Hm He]. split; cbn; [done | | |].
  - intros id z. rewrite lookup_insert_Some. intros [[<- <-] | [_ ?]]; [| by apply Hsets].
    split; [done | split; [rewrite clone_set_validate; apply Ht | apply clone_set_stored]].
  - intros id z m. rewrite lookup_insert_Some. intros [[<- <-] | [_ ?]] Hin; [| by apply (Hm id z)].
    cbn in Hin. destruct (xt_content _ _ Ht) as (E & _). rewrite E in Hin.
    destruct (Hm _ _ _ Hx Hin) as (f & Hl & []). exists f. split; [done |].
    destruct (xt_state _ _ Ht) as [Ea Ei]. split; try done.
    + cbn. by rewrite (xt_governance _ _ Ht).
    + cbn. rewrite Hr, hd_count0, Ea. rewrite bool_decide_eq_true_2 by done.
      rewrite bool_decide_eq_false_2; [lia |]. destruct Ei as [-> | ->]; done.
  - intros id z m id' z' m'. rewrite !lookup_insert_Some. destruct (xt_content _ _ Ht) as (E & _).
    intros [[<- <-] | [? ?]] Hin [[<- <-] | [? ?]] Hin' Hm'; cbn in *; rewrite ?E in *; [done | | |]; by eapply He.
Qed.

(** *** A set renewed *)

(** Equal semantic digests mean equal semantic documents: an assumption on the
    two documents that are hashed, which [semantic_digest_binds] derives from the
    absence of a collision of SHA-256. *)
Definition semantics_bound (x y : BindingSetFactV2) : Prop :=
  forall d, BindingSetSemanticDigestV2 x = Ok d -> BindingSetSemanticDigestV2 y = Ok d ->
  BindingSetSemantic_json x = BindingSetSemantic_json y.

Definition semantic_preimage (x : BindingSetFactV2) : list N :=
  document_preimage binding_domain BindingContractVersionV2 "BindingSetSemanticV2" (BindingSetSemantic_json x).

Lemma semantic_digest_binds x y :
  json_utf8 (BindingSetSemantic_json x) = true -> json_utf8 (BindingSetSemantic_json y) = true ->
  ~ collision (semantic_preimage x) (semantic_preimage y) -> semantics_bound x y.
Proof.
  intros Ux Uy Hc d H H'. unfold BindingSetSemanticDigestV2, binding_digest in H, H'. apply seq_Ok in H as [_ H], H' as [_ H'].
  by destruct (document_digest_binds _ _ _ _ _ _ _ H H' Ux Uy) as [[_ E] | E].
Qed.

Lemma semantic_members x y :
  BindingSetSemantic_json x = BindingSetSemantic_json y ->
  bs_ID x = bs_ID y /\ bs_GovernanceDigest x = bs_GovernanceDigest y
  /\ length (bs_Members x) = length (bs_Members y)
  /\ forall m, m ∈ bs_Members y -> exists m0, m0 ∈ bs_Members x /\ bm_BindingID m0 = bm_BindingID m
       /\ bm_ComponentID m0 = bm_ComponentID m /\ bm_ManifestDigest m0 = bm_ManifestDigest m
       /\ map cg_Capability (bm_Grants m0) ≡ₚ map cg_Capability (bm_Grants m).
Proof.
  unfold BindingSetSemantic_json. intros H. json_fields H.
  match goal with E : JArray (map semanticMember_json _) = _ |- _ => apply (inj JArray) in E; rename E into Em end.
  json_values. split; [done | split; [done |]].
  pose proof (f_equal length Em) as El. rewrite !length_map in El.
  rewrite (Permutation_length (sort_by_Permutation bm_ComponentID (bs_Members x))),
    (Permutation_length (sort_by_Permutation bm_ComponentID (bs_Members y))) in El. split; [done |].
  intros m Hm. rewrite <- (sort_by_Permutation bm_ComponentID) in Hm.
  assert (semanticMember_json m ∈ map semanticMember_json (sort_by bm_ComponentID (bs_Members x))) as Hin.
  { rewrite Em. by apply list_elem_of_fmap_2. }
  apply list_elem_of_fmap in Hin as (m0 & Ej & Hin). rewrite sort_by_Permutation in Hin. exists m0. split; [done |].
  unfold semanticMember_json in Ej. json_fields Ej.
  match goal with E : JArray (map JString _) = _ |- _ => apply (inj JArray), (inj (map JString)) in E; rename E into Ec end.
  json_values. repeat split; try done.
  rewrite <- (sort_by_Permutation id (map cg_Capability (bm_Grants m0))), <- Ec. apply sort_by_Permutation.
Qed.

Lemma renew_facts_Ok bindings now nf nexts nf' :
  renew_facts bindings now nf nexts = Ok nf' ->
  (forall k g, nf' !! k = Some g <-> nf !! k = Some g
     \/ exists next f, next ∈ nexts /\ bf_ID next = k /\ g = cloneBindingFactV2 next
          /\ bindings !! k = Some f /\ binding_renewal f next now)
  /\ size nf' = (size nf + length nexts)%nat.
Proof.
  revert nf. induction nexts as [| next nexts IH]; intros nf; cbn [renew_facts].
  { intros [= <-]. split; [| cbn; lia]. intros k g. split; [by left | intros [? | (? & ? & H%elem_of_nil & _)]; done]. }
  rewrite seq_guard_Ok, bool_decide_eq_false. intros [Hn H].
  destruct (bindings !! bf_ID next) as [f |] eqn:Ef; [| done]. apply seq_Ok in H as [Hv [H1 H2]%IH].
  apply ValidateBindingFactRenewalV2_Ok in Hv. apply eq_None_not_Some in Hn. split.
  - intros k g. rewrite H1, lookup_insert_Some. setoid_rewrite elem_of_cons. split.
    + intros [[[<- <-] | [_ ?]] | (n & f' & ? & ? & ? & ? & ?)]; [right | by left | right]; [exists next, f | exists n, f']; auto.
    + intros [Hg | (n & f' & [-> | Hin] & <- & -> & Hf & Hr)].
      * left. right. split; [intros <-; congruence | done].
      * left. by left.
      * right. by exists n, f'.
  - rewrite H2, map_size_insert_None by done. cbn. lia.
Qed.

(** What a renewal that takes effect finds and leaves. *)
Record renew_effect (now : Time) (r : RenewBindingSetRequestV2) (verified : gmap string BindingRenewalAttestationV2)
    (s s' : BindingStoreV2) (x : BindingSetFactV2) (nf : gmap string BindingFactV2) : Prop := {
  re_set : st_sets s !! bs_ID (rbs_NextSet r) = Some x;
  re_revision : bs_Revision x = rbs_ExpectedSetRevision r;
  re_active : bs_State x = BindingSetActive /\ bs_State (rbs_NextSet r) = BindingSetActive;
  re_semantic : exists d, BindingSetSemanticDigestV2 x = Ok d /\ BindingSetSemanticDigestV2 (rbs_NextSet r) = Ok d;
  re_expiry : (bs_ExpiresUnixNano x < bs_ExpiresUnixNano (rbs_NextSet r))%Z;
  re_facts : renew_facts (st_bindings s) now ∅ (rbs_NextBindings r) = Ok nf;
  re_members : forall m, m ∈ bs_Members (rbs_NextSet r) -> member_renewed (st_sets s) now verified nf m = Ok tt;
  re_bindings : st_bindings s' = (cloneBindingFactV2 <$> nf) ∪ st_bindings s;
  re_sets : st_sets s' = <[bs_ID (rbs_NextSet r) := cloneBindingSetFactV2 (rbs_NextSet r)]> (st_sets s);
}.

Lemma renew_cases now r verified s :
  fst (renew_locked now r verified s) = s
  \/ exists x nf, renew_effect now r verified s (fst (renew_locked now r verified s)) x nf.
Proof.
  unfold renew_locked, st_guard, put_set. set (y := rbs_NextSet r). cbv zeta. st_go.
  destruct (st_sets s !! bs_ID y) as [x |] eqn:Hx; [| by left].
  destruct (N.eqb_spec (bs_Revision x) (bs_Revision y)) as [Hr | Hr]; [left; by destruct (bindingSetEqualV2 x y) |].
  unfold guard, reject_if. destruct (_ || _) eqn:E1; [by left |].
  destruct (BindingSetSemanticDigestV2 x) as [d |] eqn:Ed; [| by left].
  destruct (BindingSetSemanticDigestV2 y) as [d' |] eqn:Ed'; [| by left].
  destruct (negb (bool_decide (d = d')) || _) eqn:E2; [by left |].
  destruct (renew_facts (st_bindings s) now ∅ (rbs_NextBindings r)) as [nf |] eqn:Hnf; [| by left].
  destruct (for_each _ _) as [[] |] eqn:Hm; [| by left]. right. exists x, nf.
  rewrite !orb_false_iff, !negb_false_iff, !bool_decide_eq_true, N.eqb_eq in E1. destruct_and? E1.
  rewrite orb_false_iff, negb_false_iff, bool_decide_eq_true, Z.leb_gt in E2. destruct E2 as [<- He].
  rewrite for_each_Ok, Forall_forall in Hm. split; try done. by exists d.
Qed.

(** A member that is renewed names the renewed fact. *)
Record renewed_member (sets : gmap string BindingSetFactV2) (now : Time) (verified : gmap string BindingRenewalAttestationV2)
    (nf : gmap string BindingFactV2) (m : BindingMemberV2) (g : BindingFactV2) (a : BindingRenewalAttestationV2) : Prop := {
  rm_fact : nf !! bm_BindingID m = Some g;
  rm_attestation : verified !! bm_BindingID m = Some a;
  rm_certifier : certifier_current sets now (ba_Certifier a) = true;
  rm_revision : bm_BindingRevision m = bf_Revision g;
  rm_component : bm_ComponentID m = bf_ComponentID g;
  rm_manifest : bm_ManifestDigest m = bf_ManifestDigest g;
  rm_contract : bm_ArtifactDigest m = m_ArtifactDigest (bf_Manifest g) /\ bm_Contract m = m_Contract (bf_Manifest g);
  rm_owners : m_Owners (bf_Manifest g) = Some (bm_Owners m);
  rm_grants : bf_Grants g = Some (bm_Grants m);
}.

Lemma member_renewed_Ok sets now verified nf m :
  member_renewed sets now verified nf m = Ok tt <-> exists g a, renewed_member sets now verified nf m g a.
Proof.
  unfold member_renewed. rewrite guard_Ok. split.
  - destruct (nf !! bm_BindingID m) as [g |] eqn:Eg; [| done].
    destruct (verified !! bm_BindingID m) as [a |] eqn:Ea; [| done].
    rewrite !orb_false_iff, !negb_false_iff, !bool_decide_eq_true, N.eqb_eq. intros H. destruct_and? H.
    exists g, a. by split.
  - intros (g & a & [Hg Ha Hc Hr Hco Hm [Hart Hct] Ho Hgr]). rewrite Hg, Ha, Hc, Hr, Hco, Hm, Hart, Hct, Ho, Hgr.
    rewrite N.eqb_refl, !bool_decide_eq_true_2 by done. done.
Qed.

(** Members that all name renewed facts are of different bindings, as they are of
    different components. *)
Lemma renewed_NoDup sets now verified nf members :
  NoDup (map bm_ComponentID members) -> (forall m, m ∈ members -> member_renewed sets now verified nf m = Ok tt) ->
  NoDup (map bm_BindingID members).
Proof.
  intros Hc Hm. induction members as [| m l IH]; cbn in *; [constructor |]. apply NoDup_cons in Hc as [Hn Hc]. apply NoDup_cons.
  split; [| apply IH; [done | intros; apply Hm; by right]].
  intros (m' & E & Hin)%list_elem_of_fmap. apply Hn.
  destruct (proj1 (member_renewed_Ok _ _ _ _ _) (Hm m ltac:(by left))) as (g & a & []).
  destruct (proj1 (member_renewed_Ok _ _ _ _ _) (Hm m' ltac:(by right))) as (g' & a' & []).
  replace (bm_ComponentID m) with (bm_ComponentID m') by (rewrite E in *; congruence). by apply list_elem_of_fmap_2.
Qed.

Section renewal.
Context (now : Time) (r : RenewBindingSetRequestV2) (verified : gmap string BindingRenewalAttestationV2)
  (s s' : BindingStoreV2) (x : BindingSetFactV2) (nf : gmap string BindingFactV2)
  (Hs : store_ok s) (He : renew_effect now r verified s s' x nf)
  (Hcopy : Forall copyable (rbs_NextBindings r))
  (Hvalid : BindingSetFactV2_Validate (rbs_NextSet r) = Ok tt)
  (Hlength : length (rbs_NextBindings r) = length (bs_Members (rbs_NextSet r)))
  (Hrev : bs_Revision (rbs_NextSet r) = u64_succ (rbs_ExpectedSetRevision r))
  (Hbound : semantics_bound x (rbs_NextSet r)).

Let y : BindingSetFactV2 := rbs_NextSet r.
Let id : string := bs_ID (rbs_NextSet r).

Lemma renewed_fact k g :
  nf !! k = Some g -> exists f, st_bindings s !! k = Some f /\ binding_renewal f g now /\ fact_ok k g /\ binding_extends f g
    /\ stored g.
Proof.
  destruct (renew_facts_Ok _ _ _ _ _ (re_facts _ _ _ _ _ _ _ He)) as [H _]. rewrite H, lookup_empty.
  intros [? | (next & f & Hin & Hk & -> & Hf & Hr)]; [done |].
  rewrite Forall_forall in Hcopy. pose proof (Hcopy next Hin) as Hc. pose proof (clone_renewal _ _ _ Hc Hr) as Hr'.
  destruct (so_facts _ Hs _ _ Hf) as [_ _ _ Hl]. exists f. split; [done | split; [done |]].
  split; [| split; [by eapply binding_renewal_extends | by apply clone_stored]].
  split; [done | by apply (bn_next _ _ _ Hr') | by apply clone_stored | by eapply renewal_life].
Qed.

(** The members of the renewed set are those of the current one. *)
Lemma renewed_semantic : BindingSetSemantic_json x = BindingSetSemantic_json y.
Proof. destruct (re_semantic _ _ _ _ _ _ _ He) as (d & H & H'). by apply (Hbound d). Qed.

Lemma renewed_member_fact m :
  m ∈ bs_Members y -> exists m0 f g a, m0 ∈ bs_Members x /\ bm_BindingID m0 = bm_BindingID m
    /\ st_bindings s !! bm_BindingID m = Some f /\ held id x m0 f /\ binding_renewal f g now
    /\ renewed_member (st_sets s) now verified nf m g a.
Proof.
  intros Hin. destruct (semantic_members _ _ renewed_semantic) as (_ & _ & _ & Hsem).
  destruct (Hsem m Hin) as (m0 & Hin0 & Eid & _). exists m0.
  pose proof (re_members _ _ _ _ _ _ _ He m Hin) as (g & a & Hm)%member_renewed_Ok.
  destruct (renewed_fact _ _ (rm_fact _ _ _ _ _ _ _ Hm)) as (f & Hf & Hr & _). exists f, g, a.
  destruct (so_members _ Hs _ _ _ (re_set _ _ _ _ _ _ _ He) Hin0) as (f' & Hf' & Hh).
  rewrite Eid, Hf in Hf'. injection Hf' as <-. done.
Qed.

(** Only facts of its members are renewed. *)
Lemma renewed_only_members k : is_Some (nf !! k) -> k ∈ map bm_BindingID (bs_Members y).
Proof.
  intros Hk. destruct (renew_facts_Ok _ _ _ _ _ (re_facts _ _ _ _ _ _ _ He)) as [_ Hsize].
  rewrite map_size_empty in Hsize. cbn in Hsize.
  pose proof (renewed_NoDup _ _ _ _ _ (sv_components _ (BindingSetFactV2_Validate_inv _ Hvalid)) (re_members _ _ _ _ _ _ _ He)) as Hnd.
  fold y in Hnd.
  assert (list_to_set (map bm_BindingID (bs_Members y)) = dom nf) as E.
  { apply set_subseteq_size_eq.
    - intros b (m & -> & Hin)%elem_of_list_to_set%list_elem_of_fmap.
      destruct (renewed_member_fact m Hin) as (_ & _ & g & a & _ & _ & _ & _ & _ & Hm). apply elem_of_dom. by exists g; destruct Hm.
    - rewrite size_dom, size_list_to_set, length_map by done. fold y in Hlength. lia. }
  apply elem_of_dom in Hk. by rewrite <- E, elem_of_list_to_set in Hk.
Qed.

Lemma renewed_bindings k f' :
  st_bindings s' !! k = Some f' -> exists f, st_bindings s !! k = Some f /\ fact_ok k f' /\ binding_extends f f'.
Proof.
  rewrite (re_bindings _ _ _ _ _ _ _ He), lookup_union_Some_raw, lookup_fmap, fmap_Some.
  intros [(g & Hg & ->) | [_ Hf]].
  - destruct (renewed_fact _ _ Hg) as (f & Hf & _ & Hok & Hx & Hst). rewrite Hst. by exists f.
  - exists f'. split; [done | split; [by apply Hs | done]].
Qed.

Lemma renewed_kept k f : st_bindings s !! k = Some f -> is_Some (st_bindings s' !! k).
Proof. rewrite (re_bindings _ _ _ _ _ _ _ He). intros H. apply lookup_union_is_Some. right. by eexists. Qed.

Lemma renew_ok : store_ok s'.
Proof.
  pose proof renewed_bindings as Hb.
  assert (Hf : forall m, m ∈ bs_Members y -> exists g a, st_bindings s' !! bm_BindingID m = Some g
    /\ renewed_member (st_sets s) now verified nf m g a).
  { intros m Hin. destruct (renewed_member_fact m Hin) as (_ & _ & g & a & _ & _ & _ & _ & _ & Hm). exists g, a. split; [| done].
    rewrite (re_bindings _ _ _ _ _ _ _ He). apply lookup_union_Some_l. rewrite lookup_fmap, (rm_fact _ _ _ _ _ _ _ Hm). cbn.
    by destruct (renewed_fact _ _ (rm_fact _ _ _ _ _ _ _ Hm)) as (f & _ & _ & _ & _ & ->). }
  pose proof (set_revision_bound _ _ _ Hs (re_set _ _ _ _ _ _ _ He)) as Hbnd.
  assert (Hrev1 : bs_Revision y = bs_Revision x + 1).
  { unfold y. rewrite Hrev, <- (re_revision _ _ _ _ _ _ _ He). apply u64_succ_small. unfold max_u64. lia. }
  destruct (re_active _ _ _ _ _ _ _ He) as [Hax Hay]. fold y in Hay.
  destruct (semantic_members _ _ renewed_semantic) as (_ & Hgov & _ & _).
  assert (Hexcl : forall id' z m, st_sets s !! id' = Some z -> id' <> id -> m ∈ bs_Members z ->
    bm_BindingID m ∉ map bm_BindingID (bs_Members y)).
  { intros id' z m Hz Hne Hin (m' & E & Hin')%list_elem_of_fmap.
    destruct (renewed_member_fact m' Hin') as (m0 & _ & _ & _ & Hin0 & E0 & _).
    apply Hne. eapply (so_exclusive _ Hs id' z m id x m0); [done | done | apply (re_set _ _ _ _ _ _ _ He) | done | congruence]. }
  split.
  - intros k f' Hk. by destruct (Hb k f' Hk) as (f & _ & ? & _).
  - intros k z. rewrite (re_sets _ _ _ _ _ _ _ He), lookup_insert_Some. intros [[<- <-] | [_ ?]]; [| by apply (so_sets _ Hs)].
    split; [done | split; [by rewrite clone_set_validate | apply clone_set_stored]].
  - intros k z m. rewrite (re_sets _ _ _ _ _ _ _ He), lookup_insert_Some. fold y id. intros [[<- <-] | [Hne Hz]] Hin.
    + change (m ∈ bs_Members y) in Hin. destruct (Hf m Hin) as (g & a & Hg & Hm). exists g. split; [done |].
      destruct (renewed_member_fact m Hin) as (m0 & f & g' & a' & Hin0 & E0 & Hfl & Hh & Hr & Hm').
      assert (g' = g) as -> by (destruct Hm, Hm'; congruence).
      destruct (bn_bound _ _ _ Hr) as [Ef Eg]. destruct (hd_bound _ _ _ _ Hh Ef) as [Hset Hfr].
      assert (bf_Revision g = bf_Revision f + 1) as Hgr.
      { rewrite (bn_revision _ _ _ Hr). destruct (so_facts _ Hs _ _ Hfl). by apply life_succ. }
      pose proof (hd_count _ _ _ _ Hh) as Hcnt. rewrite bool_decide_eq_true_2 in Hcnt by done.
      split; cbn; try by destruct Hm.
      * rewrite (bn_governance _ _ _ Hr), (hd_governance _ _ _ _ Hh). done.
      * by left.
      * intros _. split; [by rewrite (bn_set _ _ _ Hr) | by destruct Hm].
      * by rewrite (rm_revision _ _ _ _ _ _ _ Hm).
      * rewrite (rm_revision _ _ _ _ _ _ _ Hm), Hgr, Hfr, Hcnt, Hrev1, bool_decide_eq_true_2 by done. lia.
    + destruct (so_members _ Hs _ _ _ Hz Hin) as (f & Hl & Hh). exists f. split; [| done].
      rewrite (re_bindings _ _ _ _ _ _ _ He). apply lookup_union_Some_raw. right. split; [| done].
      rewrite lookup_fmap, fmap_None. destruct (nf !! bm_BindingID m) eqn:E; [| done]. exfalso.
      apply (Hexcl k z m Hz (not_eq_sym Hne) Hin), renewed_only_members. by rewrite E.
  - intros k z m k' z' m'. rewrite (re_sets _ _ _ _ _ _ _ He), !lookup_insert_Some. fold y id.
    intros [[<- <-] | [Hne Hz]] Hin [[<- <-] | [Hne' Hz']] Hin' E; [done | | | by eapply (so_exclusive _ Hs)].
    + destruct (Hexcl _ _ _ Hz' (not_eq_sym Hne') Hin'). rewrite <- E. by apply list_elem_of_fmap_2.
    + destruct (Hexcl _ _ _ Hz (not_eq_sym Hne) Hin). rewrite E. by apply list_elem_of_fmap_2.
Qed.
End renewal.

(** ** Histories *)

(** The calls of the store's clients: every method that changes it, on any
    arguments.  The two critical sections of a renewal are one call: the first
    only reads the reader that is installed, and what other clients do before the
    second can be done before the call, reinstalling that reader. *)
Inductive BindingCall :=
| call_create (ctx : Context) (fact : BindingFactV2)
| call_cas (ctx : Context) (now : Time) (request : BindingFactCASRequestV2)
| call_commit (ctx : Context) (now : Time) (request : CommitBindingSetRequestV2)
| call_set_cas (ctx : Context) (request : BindingSetCASRequestV2)
| call_renew (ctx : Context) (now : Time) (request : RenewBindingSetRequestV2)
| call_reader (reader : option AttestationReader)
| call_lose.

Definition binding_run (c : BindingCall) (s : BindingStoreV2) : BindingStoreV2 :=
  match c with
  | call_create ctx fact => fst (CreateBinding ctx fact s)
  | call_cas ctx now request => fst (CompareAndSwapBinding ctx now request s)
  | call_commit ctx now request => fst (CommitBindingSet ctx now request s)
  | call_set_cas ctx request => fst (CompareAndSwapBindingSet ctx request s)
  | call_renew ctx now request => fst (RenewBindingSetV2 ctx now request s)
  | call_reader reader => fst (SetRenewalAttestations reader s)
  | call_lose => fst (LoseNextCommitReply s)
  end.

(** What the theorems on histories ask of a call: that the JSON copies of the
    manifests it brings are the manifests, and that the set of a renewal and the
    set it replaces, if their semantic digests are equal, have the same semantics.
    CreateBinding accepts other manifests, too: [clone_of_large] is a valid one
    whose copy, which is what the store keeps, is the zero manifest. *)
Definition faithful (c : BindingCall) (s : BindingStoreV2) : Prop :=
  match c with
  | call_create _ fact => copyable fact
  | call_cas _ _ request => copyable (bfc_Next request)
  | call_renew _ _ request =>
      Forall copyable (rbs_NextBindings request)
      /\ forall x, st_sets s !! bs_ID (rbs_NextSet request) = Some x -> semantics_bound x (rbs_NextSet request)
  | _ => True
  end.

Inductive faithful_step (s : BindingStoreV2) : BindingStoreV2 -> Prop :=
| faithful_call c : faithful c s -> faithful_step s (binding_run c s).

(** A renewal that reaches its second critical section has passed the checks of
    the first. *)
Lemma renew_call_cases ctx now r s :
  fst (RenewBindingSetV2 ctx now r s) = s
  \/ exists verified, fst (RenewBindingSetV2 ctx now r s) = fst (renew_locked now r verified s)
       /\ BindingSetFactV2_Validate (rbs_NextSet r) = Ok tt
       /\ length (rbs_NextBindings r) = length (bs_Members (rbs_NextSet r))
       /\ bs_Revision (rbs_NextSet r) = u64_succ (rbs_ExpectedSetRevision r).
Proof.
  unfold RenewBindingSetV2, st_guard. destruct (contextError ctx) as [[] |]; st_go; [| by left].
  unfold guard, reject_if. destruct (_ || negb (Nat.eqb _ _)) eqn:E; [by left |].
  destruct (BindingSetFactV2_Validate (rbs_NextSet r)) as [[] |] eqn:Hv; [| by left].
  destruct (st_renewalEvidence s) as [reader |]; [| by left].
  destruct (verify_renewals reader now ∅ (rbs_NextBindings r)) as [verified |]; [| by left]. right. exists verified.
  rewrite !orb_false_iff, !negb_false_iff, !N.eqb_eq, Nat.eqb_eq in E. by destruct_and? E.
Qed.

Lemma step_ok s s' : faithful_step s s' -> store_ok s -> store_ok s'.
Proof.
  intros [[ctx f | ctx now r | ctx now r | ctx r | ctx now r | reader |] Hf] Hs; cbn in *.
  - by apply create_ok.
  - by apply cas_ok.
  - destruct (commit_cases ctx now r s Hs) as [[E1 E2] | He]; [by eapply store_ok_same | by eapply commit_ok].
  - by apply set_cas_ok.
  - destruct Hf as [Hc Hb], (renew_call_cases ctx now r s) as [-> | (verified & -> & Hv & Hl & Hr)]; [done |].
    destruct (renew_cases now r verified s) as [-> | (x & nf & He)]; [done |].
    eapply renew_ok; [done | done | done | done | done | done |]. by apply Hb, He.
  - by apply (store_ok_same s).
  - by apply (store_ok_same s).
Qed.

Lemma reachable_ok s : rtc faithful_step NewBindingStoreV2 s -> store_ok s.
Proof.
  intros H. assert (forall a b, rtc faithful_step a b -> store_ok a -> store_ok b) as Hr.
  { induction 1; eauto using step_ok. }
  apply (Hr _ _ H), store_ok_new.
Qed.

(** *** What later states keep *)

(** A set over time: its semantics are fixed, an ended set is final, and whatever
    changes a set ends it or puts its expiry off. *)
Record set_extends (x y : BindingSetFactV2) : Prop := {
  se_semantic : BindingSetSemantic_json y = BindingSetSemantic_json x;
  se_revision : bs_Revision x <= bs_Revision y;
  se_expiry : (bs_ExpiresUnixNano x <= bs_ExpiresUnixNano y)%Z;
  se_ended : bs_State x <> BindingSetActive -> y = x;
  se_moved : y = x \/ bs_State y <> BindingSetActive \/ (bs_ExpiresUnixNano x < bs_ExpiresUnixNano y)%Z;
}.

#[export] Instance set_extends_preorder : PreOrder set_extends.
Proof.
  split; [by intros x; split; auto |]. intros x y z [S R X E M] [S' R' X' E' M']. split; [congruence | lia | lia | |].
  - intros H. by rewrite E', E by (rewrite ?E; done).
  - destruct M' as [-> | [? | ?]]; [done | by right; left |].
    destruct M as [-> | [He | ?]]; [by right; right | | right; right; lia]. rewrite (E' He) in *. by right; left.
Qed.

Lemma present_extends {A} (R : relation A) (m : gmap string A) id x : Reflexive R -> m !! id = Some x -> exists y, m !! id = Some y /\ R x y.
Proof. intros HR H. by exists x. Qed.

Record store_extends (s s' : BindingStoreV2) : Prop := {
  sx_facts : forall id f, st_bindings s !! id = Some f -> exists g, st_bindings s' !! id = Some g /\ binding_extends f g;
  sx_sets : forall id x, st_sets s !! id = Some x -> exists y, st_sets s' !! id = Some y /\ set_extends x y;
}.

#[export] Instance store_extends_preorder : PreOrder store_extends.
Proof.
  split.
  - intros s. split; intros id z Hz; by apply present_extends; [apply _ |].
  - intros s t u [F S] [F' S']. split.
    + intros id f H. destruct (F _ _ H) as (g & Hg & ?). destruct (F' _ _ Hg) as (h & ? & ?). exists h. split; [done | by etrans].
    + intros id x H. destruct (S _ _ H) as (y & Hy & ?). destruct (S' _ _ Hy) as (z & ? & ?). exists z. split; [done | by etrans].
Qed.

Lemma store_extends_same s s' : st_bindings s' = st_bindings s -> st_sets s' = st_sets s -> store_extends s s'.
Proof. intros E1 E2. split; rewrite ?E1, ?E2; intros id z Hz; by apply present_extends; [apply _ |]. Qed.

Lemma put_fact_extends s id f g :
  st_bindings s !! id = Some f -> binding_extends f g -> store_extends s (set_st_bindings (<[id := g]> (st_bindings s)) s).
Proof.
  intros Hl Hx. split; cbn; [| intros ???; by apply present_extends; [apply _ |]]. intros id' f' Hf'. destruct (decide (id = id')) as [<- | Hne].
  - exists g. rewrite lookup_insert_eq. split; [done | congruence].
  - exists f'. by rewrite lookup_insert_ne.
Qed.

Lemma put_set_extends s bindings id x y :
  (forall k f, st_bindings s !! k = Some f -> exists g, bindings !! k = Some g /\ binding_extends f g) ->
  (st_sets s !! id = None \/ st_sets s !! id = Some x /\ set_extends x y) ->
  store_extends s (set_st_sets (<[id := y]> (st_sets s)) (set_st_bindings bindings s)).
Proof.
  intros Hb Hl. split; cbn; [done |]. intros id' z Hz. destruct (decide (id = id')) as [<- | Hne].
  - exists y. rewrite lookup_insert_eq. split; [done |]. destruct Hl as [? | [? ?]]; congruence.
  - exists z. by rewrite lookup_insert_ne.
Qed.

Lemma semantic_clone x : BindingSetSemantic_json (cloneBindingSetFactV2 x) = BindingSetSemantic_json x.
Proof. unfold BindingSetSemantic_json. cbn [cloneBindingSetFactV2 bs_ID bs_PlanID bs_PlanDigest bs_GovernanceDigest bs_Members
  bs_TopologicalOrder bs_Residuals]. by rewrite slice_items_append_nil. Qed.

Lemma step_extends s s' : faithful_step s s' -> store_ok s -> store_extends s s'.
Proof.
  intros [[ctx f | ctx now r | ctx now r | ctx r | ctx now r | reader |] Hc] Hs; cbn in *; rename s into t.
  - destruct (create_cases ctx f t) as [-> | (_ & _ & _ & Hn & ->)]; [done |]. split; cbn; [| intros ???; by apply present_extends; [apply _ |]].
    intros id g Hg. exists g. by rewrite lookup_insert_ne by congruence.
  - destruct (cas_cases ctx now r t) as [-> | (f & Hf & Ht & ->)]; [done |]. apply (put_fact_extends _ _ f); [done |].
    destruct (so_facts _ Hs _ _ Hf) as [_ _ Hst Hlife]. eapply binding_transition_extends; [by apply clone_transition | done].
  - destruct (commit_cases ctx now r t Hs) as [[E1 E2] | []]; [by apply store_extends_same |]. split.
    + intros id f Hf. rewrite ce_bindings0. destruct (decide (id ∈ _)) as [(m & -> & Hin)%list_elem_of_fmap |]; [| by exists f].
      destruct (ce_members0 m Hin) as (f' & Hf' & _ & _ & _ & _ & _ & Ht). rewrite Hf in Hf' |- *. injection Hf' as <-.
      eexists. split; [done |]. destruct (so_facts _ Hs _ _ Hf) as [_ _ Hst Hlife].
      eapply binding_transition_extends; [| done]. apply clone_transition; [done | exact (stored_copyable f Hst) | done].
    + intros id x Hx. rewrite ce_sets0. exists x. by rewrite lookup_insert_ne by congruence.
  - destruct (set_cas_cases ctx r t) as [-> | (x & Hx & Ht & ->)]; [done |].
    apply (put_set_extends t (st_bindings t) _ x); [intros ???; by apply present_extends; [apply _ |] |]. right. split; [done |]. destruct Ht.
    destruct xt_content0 as (Em & Eo & Er & Ee), xt_plan0 as [Ep Ed], xt_state0 as [Ea Ei].
    split; [rewrite semantic_clone; unfold BindingSetSemantic_json; by rewrite xt_ID0, Ep, Ed, xt_governance0, Em, Eo, Er | | | |].
    + cbn. rewrite xt_revision0. pose proof (set_revision_bound _ _ _ Hs Hx). rewrite u64_succ_small by (unfold max_u64; lia). lia.
    + cbn. lia.
    + done.
    + right; left. cbn. destruct Ei as [-> | ->]; done.
  - destruct Hc as [Hc Hb], (renew_call_cases ctx now r t) as [-> | (verified & -> & Hv & Hl & Hr)]; [done |].
    destruct (renew_cases now r verified t) as [-> | (x & nf & He)]; [done |].
    assert (semantics_bound x (rbs_NextSet r)) as Hb' by by apply Hb, He. split.
    + intros id f Hf. destruct (renewed_kept _ _ _ _ _ _ _ He _ _ Hf) as [g Hg]. exists g. split; [done |].
      destruct (renewed_bindings _ _ _ _ _ _ _ Hs He Hc _ _ Hg) as (f' & Hf' & _ & ?). congruence.
    + intros id z Hz. rewrite (re_sets _ _ _ _ _ _ _ He). destruct (decide (bs_ID (rbs_NextSet r) = id)) as [<- | Hne];
        [| exists z; by rewrite lookup_insert_ne].
      rewrite lookup_insert_eq. eexists. split; [done |]. pose proof (re_set _ _ _ _ _ _ _ He) as Hx. rewrite Hz in Hx.
      injection Hx as ->. destruct (re_semantic _ _ _ _ _ _ _ He) as (d & H1 & H2). destruct (re_active _ _ _ _ _ _ _ He) as [Ha _].
      pose proof (re_expiry _ _ _ _ _ _ _ He). split; [by rewrite semantic_clone, (Hb' d H1 H2) | | cbn; lia | done | right; right; cbn; lia].
      cbn. rewrite Hr, <- (re_revision _ _ _ _ _ _ _ He). pose proof (set_revision_bound _ _ _ Hs Hz).
      rewrite u64_succ_small by (unfold max_u64; lia). lia.
  - by apply store_extends_same.
  - by apply store_extends_same.
Qed.

Lemma history_extends s s' : rtc faithful_step s s' -> store_ok s -> store_ok s' /\ store_extends s s'.
Proof.
  induction 1 as [s | s t u Hst _ IH]; intros Hs; [done |]. pose proof (step_ok _ _ Hst Hs) as Ht.
  destruct (IH Ht) as [? ?]. split; [done |]. etrans; [by eapply step_extends | done].
Qed.
