(* ===== verification/BindingOutcomes.v ===== *)
(** * What the binding store guarantees its clients

    The invariant in every reachable state, what later states keep, a commit that
    is applied at most once and answered again after a lost reply, and a renewal
    that is attested member by member. *)

From stdpp Require Import relations.
From S2P Require Import Prelude GoStd Errors Identity FactStore Json Canonical Payload EffectContract Assembly Binding BindingCodec Evidence Topology BindingFact BindingLife BindingBuild BindingStore BindingSafety.

Local Open Scope N_scope.

#[local] Opaque BindingFactV2_Validate BindingSetFactV2_Validate cloneManifestForBindingStore.

(** ** Commits *)

(** The set as a commit stores it: every member at the revision of its bound fact. *)
Definition committed_set (x : BindingSetFactV2) : BindingSetFactV2 :=
  with_members (map (fun m => with_revision (u64_succ (bm_BindingRevision m)) m) (bs_Members x)) (cloneBindingSetFactV2 x).

Lemma members_replayed_advanced members :
  members_replayed (map (fun m => with_revision (u64_succ (bm_BindingRevision m)) m) members) members = true.
Proof.
  induction members as [| m members IH]; cbn; [done |]. rewrite N.eqb_refl, IH, bool_decide_eq_true_2; [done |]. by destruct m.
Qed.

Lemma append_nil_fixed {A} (s : option (list A)) : append_nil s = s <-> s <> Some [].
Proof. destruct s as [[| ? ?] |]; cbn; split; congruence. Qed.

(** The replay check accepts the stored set unless the request has a non-nil
    slice of no residuals, which the stored copy keeps as nil. *)
Lemma replay_committed r :
  bindingSetCommitReplayV2 (committed_set (cbs_Set r)) r = negb (bool_decide (bs_Residuals (cbs_Set r) = Some [])).
Proof.
  set (x := cbs_Set r). unfold bindingSetCommitReplayV2, committed_set, with_members, cloneBindingSetFactV2.
  cbn [bs_ID bs_PlanID bs_PlanDigest bs_GovernanceDigest bs_State bs_CreatedUnixNano bs_ExpiresUnixNano bs_Members bs_TopologicalOrder
       bs_Residuals]. fold x. rewrite !(bool_decide_eq_true_2 (_ = _)) by done.
  rewrite !Z.eqb_refl, length_map, Nat.eqb_refl, members_replayed_advanced. cbn [andb].
  rewrite (bool_decide_ext _ _ (append_nil_fixed _)). by rewrite bool_decide_not.
Qed.

Lemma committed_clone x : cloneBindingSetFactV2 (committed_set x) = committed_set x.
Proof. unfold cloneBindingSetFactV2, committed_set, with_members. cbn. by rewrite append_nil_idem. Qed.

(** The request of a commit that the store still considers at time [now]. *)
Definition committable (now : Time) (x : BindingSetFactV2) : Prop :=
  IsZero now = false /\ (bs_CreatedUnixNano x <= UnixNano now)%Z /\ Before now (UnixTime (bs_ExpiresUnixNano x)) = true.

Definition commit_reply (x : BindingSetFactV2) : result BindingSetFactV2 :=
  if bool_decide (bs_Residuals x = Some []) then fail ErrorConflict ReasonBindingSetConflict else Ok (committed_set x).

(** What a commit answers: the effect with or without its reply, or an error that
    leaves facts and sets alone, or the replay of a set stored before. *)
Lemma commit_answers ctx now r s :
  store_ok s ->
  let s' := fst (CommitBindingSet ctx now r s) in
  let reply := snd (CommitBindingSet ctx now r s) in
  (st_bindings s' = st_bindings s /\ st_sets s' = st_sets s
     /\ match reply with Ok y => exists x, st_sets s !! bs_ID (cbs_Set r) = Some x /\ y = cloneBindingSetFactV2 x
                                   /\ bindingSetCommitReplayV2 x r = true
        | Err _ => True end)
  \/ commit_effect now (cbs_Set r) s s' /\ length (cbs_Expected r) = length (bs_Members (cbs_Set r))
     /\ reply = (if st_loseNextCommitReply s then fail ErrorUnavailable ReasonEvidenceUnavailable else Ok (committed_set (cbs_Set r))).
Proof.
  intros Hs. pose proof (commit_cases ctx now r s Hs) as Hcases. cbv zeta.
  revert Hcases. unfold CommitBindingSet, st_guard, put_set. set (x := cbs_Set r). cbv zeta.
  destruct (contextError ctx) as [[] |]; st_go; [| by left].
  destruct (BindingSetFactV2_Validate x) as [[] |] eqn:Hv; [| by left]. unfold guard, reject_if.
  destruct (_ || negb (Nat.eqb _ _)) eqn:E1; [by left |]. destruct (_ || negb (Before _ _)) eqn:E2; [by left |].
  destruct (st_sets s !! bs_ID x) as [existing |] eqn:Hnew.
  { intros _. left. destruct (bindingSetCommitReplayV2 existing r) eqn:E; [| done]. cbn. repeat split. exists existing. auto. }
  destruct (expected_revisions ∅ (cbs_Expected r)) as [expected |]; [| by left].
  destruct (bind_members (st_bindings s) x expected now ∅ (bs_Members x)) as [nf |] eqn:Hb; [| by left].
  destruct (BindingSetFactV2_Validate (with_members _ _)) as [[] |].
  2: { intros [[E _] | []]; cbn in *; [by left |].
       apply (f_equal (lookup (bs_ID x))) in ce_sets. rewrite lookup_insert_eq, Hnew in ce_sets. done. }
  rewrite !orb_false_iff, !negb_false_iff, Nat.eqb_eq in E1. destruct E1 as [_ Hlen].
  intros [[_ E] | He].
  { exfalso. apply (f_equal (lookup (bs_ID x))) in E. rewrite Hnew in E.
    destruct (st_loseNextCommitReply _); cbn in E; by rewrite lookup_insert_eq in E. }
  right. destruct (st_loseNextCommitReply s) eqn:El; cbn [st_loseNextCommitReply set_st_sets set_st_bindings] in He |- *;
    rewrite ?El in He |- *; (split; [exact He | split; [done |]]); [done |].
  apply ce_sets in He. cbn in He. apply (f_equal (lookup (bs_ID x))) in He.
  rewrite !lookup_insert_eq in He. injection He as Ex. cbn. rewrite Ex. f_equal. apply committed_clone.
Qed.

(** What a request that has been committed is answered when it is repeated and the
    store holds [y] of its set: the clock is checked first, then the stored set is
    compared.  The comparison refuses a set that was renewed or ended, and a
    request whose residuals are a non-nil empty slice. *)
Inductive repeat_answer (ctx : Context) (now : Time) (x y : BindingSetFactV2) : result BindingSetFactV2 -> Prop :=
| repeat_cancelled e : contextError ctx = Err e -> repeat_answer ctx now x y (Err e)
| repeat_expired : contextError ctx = Ok tt -> ~ committable now x ->
    repeat_answer ctx now x y (fail ErrorPreconditionFailed ReasonBindingExpired)
| repeat_stored : contextError ctx = Ok tt -> committable now x -> y = committed_set x ->
    repeat_answer ctx now x y (commit_reply x)
| repeat_moved : contextError ctx = Ok tt -> committable now x -> y <> committed_set x ->
    repeat_answer ctx now x y (fail ErrorConflict ReasonBindingSetConflict).

Lemma replay_moved r y :
  bs_State (cbs_Set r) = BindingSetActive ->
  bs_State y <> BindingSetActive \/ (bs_ExpiresUnixNano (cbs_Set r) < bs_ExpiresUnixNano y)%Z ->
  bindingSetCommitReplayV2 y r = false.
Proof.
  intros Ha H. unfold bindingSetCommitReplayV2. rewrite Ha. apply not_true_iff_false. go_bool. intros E. destruct_and?.
  destruct H as [H | H]; [done | lia].
Qed.

Lemma repeat_commit ctx now r s y :
  let x := cbs_Set r in
  BindingSetFactV2_Validate x = Ok tt -> bs_State x = BindingSetActive -> bs_Revision x = 1 ->
  length (cbs_Expected r) = length (bs_Members x) ->
  st_sets s !! bs_ID x = Some y -> set_extends (committed_set x) y ->
  exists reply, CommitBindingSet ctx now r s = (s, reply) /\ repeat_answer ctx now x y reply.
Proof.
  cbv zeta. set (x := cbs_Set r). intros Hv Ha Hr Hlen Hset Hx. unfold CommitBindingSet, st_guard. fold x.
  destruct (contextError ctx) as [[] | e] eqn:Hctx; st_go; [| eexists; split; [reflexivity | by constructor]].
  rewrite Hv, Ha, Hr, Hlen, bool_decide_eq_true_2, Nat.eqb_refl by done. st_go. unfold guard, reject_if.
  destruct (_ || negb (Before _ _)) eqn:Eg; st_go.
  - eexists. split; [reflexivity |]. apply repeat_expired; [done |]. intros (Hz & Hc & Hb).
    rewrite Hz, Hb, (proj2 (Z.ltb_ge _ _) Hc) in Eg. discriminate Eg.
  - assert (committable now x) as Hc.
    { rewrite !orb_false_iff, negb_false_iff, Z.ltb_ge in Eg. by destruct Eg as [[? ?] ?]. }
    rewrite Hset. destruct (se_moved _ _ Hx) as [-> | Hm].
    + pose proof (replay_committed r) as E. fold x in E. rewrite E. exists (commit_reply x). split; [| by apply repeat_stored].
      unfold commit_reply. fold x. destruct (bool_decide (bs_Residuals x = _)); cbn; [done |]. by rewrite committed_clone.
    + rewrite (replay_moved r y Ha Hm). eexists. split; [reflexivity |]. apply repeat_moved; [done .. |].
      intros ->. destruct Hm as [Hm | Hm]; [exact (Hm Ha) | cbn in Hm; lia].
Qed.

(** C22: A commit is applied at most once, whole, and its outcome can be learned.
    In a store that faithful calls have reached, a commit either changes no fact
    and no set, or its set is new, every member names a certified, unexpired fact at the
    requested revision, and the commit binds all of them and stores the set in one
    step ([commit_effect]); then it answers with the stored set, or with a lost
    reply.  Whatever it answered, in every later store the same request changes
    nothing, and what it is answered is determined ([repeat_answer]): while the set
    has not expired and the stored set has been neither renewed nor ended, the
    stored set, except for a request whose residuals are a non-nil empty slice,
    which is refused as a conflict; after a renewal or an end a conflict; and at a
    clock past the requested expiry or before the creation of the set, where nothing
    is compared, that the binding is expired. *)
Theorem CommitBindingSet_exactly_once (ctx : Context) (now : Time) (r : CommitBindingSetRequestV2) (s : BindingStoreV2)
    (H : rtc faithful_step NewBindingStoreV2 s) :
  let s' := fst (CommitBindingSet ctx now r s) in
  let reply := snd (CommitBindingSet ctx now r s) in
  (st_bindings s' = st_bindings s /\ st_sets s' = st_sets s)
  \/ commit_effect now (cbs_Set r) s s'
     /\ reply = (if st_loseNextCommitReply s then fail ErrorUnavailable ReasonEvidenceUnavailable else Ok (committed_set (cbs_Set r)))
     /\ forall s'', rtc faithful_step s' s'' ->
          exists y, st_sets s'' !! bs_ID (cbs_Set r) = Some y /\ set_extends (committed_set (cbs_Set r)) y
            /\ forall ctx' now', exists reply',
                 CommitBindingSet ctx' now' r s'' = (s'', reply') /\ repeat_answer ctx' now' (cbs_Set r) y reply'.
Proof.
  cbv zeta. pose proof (reachable_ok s H) as Hs.
  destruct (commit_answers ctx now r s Hs) as [(E1 & E2 & _) | (He & Hlen & Hreply)]; [by left | right].
  split; [done | split; [done |]]. intros s'' H''.
  assert (store_ok (fst (CommitBindingSet ctx now r s))) as Hs' by exact (step_ok _ _ (faithful_call s (call_commit ctx now r) I) Hs).
  destruct (history_extends _ _ H'' Hs') as [_ [_ Hsets]].
  destruct (Hsets (bs_ID (cbs_Set r)) (committed_set (cbs_Set r))) as (y & Hy & Hx);
    [by rewrite (ce_sets _ _ _ _ He); apply lookup_insert_eq |].
  exists y. split; [done | split; [done |]]. intros ctx' now'.
  destruct (ce_set _ _ _ _ He) as (Hv & Ha & Hr). by apply repeat_commit.
Qed.

(** ** Renewals *)

(** What the reader says of the last evidence of the renewed fact [next]. *)
Record attests (now : Time) (next : BindingFactV2) (ref : EvidenceRecordRefV2) (a : BindingRenewalAttestationV2) : Prop := {
  at_valid : BindingRenewalAttestationV2_Validate a = Ok tt;
  at_evidence : last (slice_items (bf_RenewalEvidence next)) = Some ref /\ ba_Evidence a = ref;
  at_binding : ba_BindingID a = bf_ID next /\ ba_ComponentID a = bf_ComponentID next;
  at_manifest : ba_ManifestDigest a = bf_ManifestDigest next;
  at_grants : BindingGrantSetDigestV2 (slice_items (bf_Grants next)) = Ok (ba_GrantSetDigest a);
  at_sequence : ba_SourceSequence a = er_Sequence ref;
  at_clock : Before now (UnixTime (ba_ObservedUnixNano a)) = false /\ Before now (UnixTime (ba_ExpiresUnixNano a)) = true;
}.

Lemma attestation_matched now next ref a :
  last (slice_items (bf_RenewalEvidence next)) = Some ref -> attestation_mismatched now next ref a = false -> attests now next ref a.
Proof.
  intros Hl. unfold attestation_mismatched. destruct (BindingGrantSetDigestV2 _) as [d |] eqn:Ed; [| done].
  rewrite !orb_false_iff, !negb_false_iff, !bool_decide_eq_true, N.eqb_eq. intros H. destruct_and? H.
  destruct (BindingRenewalAttestationV2_Validate a) as [[] |] eqn:Ev; [| done]. split; try done. congruence.
Qed.

Lemma verify_renewals_Ok reader now verified nexts verified' :
  verify_renewals reader now verified nexts = Ok verified' ->
  forall k a, verified' !! k = Some a -> verified !! k = Some a
    \/ exists next ref, next ∈ nexts /\ bf_ID next = k /\ reader ref = Ok a /\ attests now next ref a.
Proof.
  revert verified. induction nexts as [| next nexts IH]; intros verified; cbn [verify_renewals]; [intros [= <-]; auto |].
  destruct (last _) as [ref |] eqn:El; [| done]. rewrite bind_Ok. intros (b & Hb & H) k a Hk. apply seq_guard_Ok in H as [Hm H].
  destruct (IH _ H k a Hk) as [Hv | (n & r' & Hin & Hrest)]; [| right; exists n, r'; split; [by right | done]].
  apply lookup_insert_Some in Hv as [[<- <-] | [_ Hv]]; [right | by left].
  exists next, ref. split; [by left | split; [done | split; [done | by apply attestation_matched]]].
Qed.

(** No two renewed facts are of one binding. *)
Lemma renew_facts_unique bindings now nf nexts nf' :
  renew_facts bindings now nf nexts = Ok nf' ->
  NoDup (map bf_ID nexts) /\ forall next, next ∈ nexts -> nf !! bf_ID next = None.
Proof.
  revert nf. induction nexts as [| next nexts IH]; intros nf; cbn [renew_facts].
  { intros _. split; [constructor | by intros ? ?%elem_of_nil]. }
  rewrite seq_guard_Ok, bool_decide_eq_false, <- eq_None_not_Some. intros [Hn H].
  destruct (bindings !! bf_ID next); [| done]. apply seq_Ok in H as [_ [Hnd Hout]%IH]. split.
  - cbn. apply NoDup_cons. split; [| done]. intros (n & E & Hin)%list_elem_of_fmap. specialize (Hout n Hin).
    by rewrite <- E, lookup_insert_eq in Hout.
  - intros n [-> | Hin]%elem_of_cons; [done |]. specialize (Hout n Hin). by apply lookup_insert_None in Hout as [? _].
Qed.

(** The renewed facts are those of the members, one each. *)
Lemma renewed_exactly bindings sets now verified nf nexts members :
  renew_facts bindings now ∅ nexts = Ok nf -> (forall m, m ∈ members -> member_renewed sets now verified nf m = Ok tt) ->
  NoDup (map bm_ComponentID members) -> length nexts = length members ->
  map bf_ID nexts ≡ₚ map bm_BindingID members.
Proof.
  intros Hf Hm Hc Hlen. symmetry. apply submseteq_length_Permutation; [| by rewrite !length_map, Hlen].
  apply NoDup_submseteq; [by eapply renewed_NoDup |]. intros k (m & -> & Hin)%list_elem_of_fmap.
  destruct (proj1 (member_renewed_Ok _ _ _ _ _) (Hm m Hin)) as (g & a & []).
  apply (proj1 (renew_facts_Ok _ _ _ _ _ Hf)) in rm_fact as [Hz | (next & f & Hn & <- & _)];
    [by rewrite lookup_empty in Hz | by apply list_elem_of_fmap_2].
Qed.

(** A member of the renewed set: its bound fact was renewed once, the reader
    attests the last evidence of the renewal, the certifier is a current member of
    an active set, and the member repeats the renewed fact. *)
Record member_attested (reader : AttestationReader) (now : Time) (r : RenewBindingSetRequestV2) (s s' : BindingStoreV2)
    (m : BindingMemberV2) (f next : BindingFactV2) (ref : EvidenceRecordRefV2) (a : BindingRenewalAttestationV2) : Prop := {
  ma_next : next ∈ rbs_NextBindings r /\ bf_ID next = bm_BindingID m;
  ma_current : st_bindings s !! bm_BindingID m = Some f;
  ma_renewal : binding_renewal f next now;
  ma_stored : st_bindings s' !! bm_BindingID m = Some (cloneBindingFactV2 (cloneBindingFactV2 next));
  ma_attested : reader ref = Ok a /\ attests now next ref a;
  ma_certifier : certifier_current (st_sets s) now (ba_Certifier a) = true;
  ma_revision : bm_BindingRevision m = bf_Revision next;
  ma_component : bm_ComponentID m = bf_ComponentID next /\ bm_ManifestDigest m = bf_ManifestDigest next;
  ma_grants : append_nil (bf_Grants next) = Some (bm_Grants m);
}.

Record set_renewed (reader : AttestationReader) (now : Time) (r : RenewBindingSetRequestV2) (s s' : BindingStoreV2)
    (x : BindingSetFactV2) : Prop := {
  sr_current : st_sets s !! bs_ID (rbs_NextSet r) = Some x;
  sr_active : bs_State x = BindingSetActive /\ bs_State (rbs_NextSet r) = BindingSetActive;
  sr_revision : bs_Revision x = rbs_ExpectedSetRevision r /\ bs_Revision (rbs_NextSet r) = u64_succ (bs_Revision x);
  sr_semantic : exists d, BindingSetSemanticDigestV2 x = Ok d /\ BindingSetSemanticDigestV2 (rbs_NextSet r) = Ok d;
  sr_expiry : (bs_ExpiresUnixNano x < bs_ExpiresUnixNano (rbs_NextSet r))%Z;
  sr_members : forall m, m ∈ bs_Members (rbs_NextSet r) ->
    exists f next ref a, member_attested reader now r s s' m f next ref a;
  sr_renewed : map bf_ID (rbs_NextBindings r) ≡ₚ map bm_BindingID (bs_Members (rbs_NextSet r));
  sr_others : forall k, k ∉ map bm_BindingID (bs_Members (rbs_NextSet r)) -> st_bindings s' !! k = st_bindings s !! k;
  sr_sets : st_sets s' = <[bs_ID (rbs_NextSet r) := cloneBindingSetFactV2 (rbs_NextSet r)]> (st_sets s);
}.

Lemma renewed_from reader now r verified s s' x nf :
  renew_effect now r verified s s' x nf ->
  verify_renewals reader now ∅ (rbs_NextBindings r) = Ok verified ->
  bs_Revision (rbs_NextSet r) = u64_succ (rbs_ExpectedSetRevision r) ->
  BindingSetFactV2_Validate (rbs_NextSet r) = Ok tt -> length (rbs_NextBindings r) = length (bs_Members (rbs_NextSet r)) ->
  set_renewed reader now r s s' x.
Proof.
  intros [Hx Hrev Hact Hsem Hexp Hf Hm Hb Hsets] Hver Hnext Hvalid Hlen.
  pose proof (renewed_exactly _ _ _ _ _ _ _ Hf Hm (sv_components _ (BindingSetFactV2_Validate_inv _ Hvalid)) Hlen) as Hexact.
  split; try done.
  - split; [done |]. by rewrite Hrev.
  - intros m Hin. apply Hm, member_renewed_Ok in Hin as (g & a & [Hg Ha Hc Hr Hco Hmd _ _ Hgr]).
    destruct (renew_facts_unique _ _ _ _ _ Hf) as [Hnd _]. destruct (renew_facts_Ok _ _ _ _ _ Hf) as [Hnf _].
    apply (Hnf _ g) in Hg as Hg'. rewrite lookup_empty in Hg'. destruct Hg' as [? | (next & f & Hin & Hid & -> & Hl & Hren)]; [done |].
    destruct (verify_renewals_Ok _ _ _ _ _ Hver _ _ Ha) as [Hz | (next' & ref & Hin' & Hid' & Href & Hat)];
      [by rewrite lookup_empty in Hz |].
    assert (next' = next) as -> by (apply (map_NoDup_inj bf_ID (rbs_NextBindings r)); [done .. | congruence]).
    exists f, next, ref, a. split; try done. rewrite Hb. apply lookup_union_Some_l. by rewrite lookup_fmap, Hg.
  - intros k Hk. rewrite <- Hexact in Hk. rewrite Hb. apply lookup_union_r. rewrite lookup_fmap, fmap_None.
    destruct (nf !! k) as [g |] eqn:Eg; [| done]. destruct Hk.
    destruct (renew_facts_Ok _ _ _ _ _ Hf) as [Hnf _]. apply Hnf in Eg as [Hz | (next & f & Hin & <- & _)];
      [by rewrite lookup_empty in Hz | by apply list_elem_of_fmap_2].
Qed.

(** The three ways a renewal ends. *)
Lemma renew_locked_answers now r verified s :
  let s' := fst (renew_locked now r verified s) in
  match snd (renew_locked now r verified s) with
  | Err _ => s' = s
  | Ok y => (s' = s /\ exists x, st_sets s !! bs_ID (rbs_NextSet r) = Some x /\ bs_Revision x = bs_Revision (rbs_NextSet r)
               /\ bindingSetEqualV2 x (rbs_NextSet r) = true /\ y = cloneBindingSetFactV2 x)
            \/ y = cloneBindingSetFactV2 (rbs_NextSet r) /\ exists x nf, renew_effect now r verified s s' x nf
  end.
Proof.
  pose proof (renew_cases now r verified s) as Hcases. cbv zeta. revert Hcases.
  unfold renew_locked, st_guard, put_set. set (y := rbs_NextSet r). cbv zeta. st_go.
  destruct (st_sets s !! bs_ID y) as [x |] eqn:Hx; [| done].
  destruct (N.eqb_spec (bs_Revision x) (bs_Revision y)) as [Hr | Hr].
  { destruct (bindingSetEqualV2 x y) eqn:E; [| done]. intros _. left. split; [done |]. by exists x. }
  unfold guard, reject_if. destruct (_ || _) eqn:E1; [done |]. destruct (match BindingSetSemanticDigestV2 x with Ok _ => _ | Err _ => _ end); [done |].
  destruct (renew_facts (st_bindings s) now ∅ (rbs_NextBindings r)) as [nf |] eqn:Hnf; [| done].
  destruct (for_each _ _) as [[] |]; [| done].
  intros [E | He]; right; (split; [done |]); [| done]. exfalso.
  apply (f_equal st_sets), (f_equal (lookup (bs_ID y))) in E. cbn in E. rewrite lookup_insert_eq, Hx in E.
  injection E as E. apply Hr. by rewrite <- E.
Qed.

(** C23: A renewal extends a set only on current attestations, for all its members
    at once.  A call that fails changes nothing; a call that finds the requested
    set stored already answers with it and changes nothing; otherwise the set was
    active at the expected revision with the same semantic digest and an earlier
    expiry, the facts of the request are those of the set's members, one each,
    every member's bound fact is advanced by exactly one renewal whose
    evidence a certifier of another component, current in an active set, attests
    for exactly this binding, manifest and grants, and no fact but the members'
    changes. *)
Theorem RenewBindingSetV2_sound (ctx : Context) (now : Time) (r : RenewBindingSetRequestV2) (s : BindingStoreV2) :
  let s' := fst (RenewBindingSetV2 ctx now r s) in
  match snd (RenewBindingSetV2 ctx now r s) with
  | Err _ => s' = s
  | Ok y => BindingSetFactV2_Validate (rbs_NextSet r) = Ok tt
      /\ exists reader x, st_renewalEvidence s = Some reader /\ st_sets s !! bs_ID (rbs_NextSet r) = Some x
           /\ ((s' = s /\ bindingSetEqualV2 x (rbs_NextSet r) = true /\ y = cloneBindingSetFactV2 x)
               \/ set_renewed reader now r s s' x /\ y = cloneBindingSetFactV2 (rbs_NextSet r))
  end.
Proof.
  cbv zeta. unfold RenewBindingSetV2, st_guard. destruct (contextError ctx) as [[] |]; st_go; [| done].
  unfold guard, reject_if. destruct (_ || negb (Nat.eqb _ _)) eqn:E; [done |].
  destruct (BindingSetFactV2_Validate (rbs_NextSet r)) as [[] |] eqn:Hv; [| done].
  destruct (st_renewalEvidence s) as [reader |]; [| done].
  destruct (verify_renewals reader now ∅ (rbs_NextBindings r)) as [verified |] eqn:Hver; [| done].
  rewrite !orb_false_iff, !negb_false_iff, !N.eqb_eq, Nat.eqb_eq in E. destruct_and? E.
  pose proof (renew_locked_answers now r verified s) as Ha. cbv zeta in Ha.
  destruct (snd (renew_locked now r verified s)) as [y |]; [| done]. split; [done |].
  destruct Ha as [(Es & x & Hx & _ & Heq & ->) | (-> & x & nf & He)]; exists reader, x; [by auto 6 |].
  pose proof (re_set _ _ _ _ _ _ _ He). split; [done | split; [done | right]]. split; [by eapply renewed_from | done].
Qed.

(** ** Every reachable store *)

(** C21: The binding store is well formed in every state that faithful calls of
    its methods reach: calls whose manifests are their own JSON copies (as those of
    valid UTF-8 manifests within the document bound are) and whose renewals replace
    a set by one of the same semantics when the semantic digests are equal, which
    holds for sets of UTF-8 strings unless SHA-256 collides
    ([semantic_digest_binds]).  Then every fact is stored under its ID,
    valid, its own copy, and at a revision its lifecycle explains; every set is
    stored under its ID, valid and its own copy; every member of a set names a
    stored fact of the same component, manifest and governance, bound to this set at
    exactly the member's revision unless it has ended; and no binding is a member of
    two sets.  Without the first condition CreateBinding stores an invalid fact
    ([clone_of_large]). *)
Theorem binding_store_invariant (s : BindingStoreV2) (H : rtc faithful_step NewBindingStoreV2 s) : store_ok s.
Proof. by apply reachable_ok. Qed.


(** ** A binding from its declaration to the renewal of its set *)

Definition bo_declared : BindingFactV2 :=
  {| bf_ID := bf_ID bz_fact_a; bf_ComponentID := bf_ComponentID bz_fact_a; bf_Manifest := bf_Manifest bz_fact_a;
     bf_ManifestDigest := bf_ManifestDigest bz_fact_a; bf_GovernanceDigest := bf_GovernanceDigest bz_fact_a;
     bf_State := BindingDeclared; bf_Revision := 1; bf_Grants := None; bf_ProbedUnixNano := 0; bf_CertifiedUnixNano := 0;
     bf_ConformanceEvidenceDigest := ""; bf_ExpiresUnixNano := 0; bf_BindingSetID := ""; bf_InvalidationReason := "";
     bf_RenewalEvidence := None |}.
Definition bo_probed : BindingFactV2 :=
  {| bf_ID := bf_ID bz_fact_a; bf_ComponentID := bf_ComponentID bz_fact_a; bf_Manifest := bf_Manifest bz_fact_a;
     bf_ManifestDigest := bf_ManifestDigest bz_fact_a; bf_GovernanceDigest := bf_GovernanceDigest bz_fact_a;
     bf_State := BindingProbed; bf_Revision := 2; bf_Grants := bf_Grants bz_fact_a; bf_ProbedUnixNano := 1000;
     bf_CertifiedUnixNano := 0; bf_ConformanceEvidenceDigest := ""; bf_ExpiresUnixNano := 7000; bf_BindingSetID := "";
     bf_InvalidationReason := ""; bf_RenewalEvidence := None |}.

(** The store that holds these facts of "praxis/a" and these sets. *)
Definition bo_store (facts : list BindingFactV2) (sets : list BindingSetFactV2) (lose : bool) : BindingStoreV2 :=
  {| st_bindings := list_to_map (map (fun f => (bf_ID f, f)) facts); st_sets := list_to_map (map (fun x => (bs_ID x, x)) sets);
     st_renewalEvidence := None; st_loseNextCommitReply := lose |}.

Definition bo_set : BindingSetFactV2 :=
  {| bs_ID := "set"; bs_PlanID := "plan"; bs_PlanDigest := bp_PlanDigest bz_plan; bs_GovernanceDigest := bz_catalog_digest;
     bs_State := BindingSetActive; bs_Revision := 1; bs_Members := [member_of bz_fact_a];
     bs_TopologicalOrder := ["praxis/a"]; bs_Residuals := None;
     bs_CreatedUnixNano := 3000; bs_ExpiresUnixNano := 7000; bs_InvalidationReason := "" |}.
Definition bo_commit : CommitBindingSetRequestV2 :=
  {| cbs_Set := bo_set; cbs_Expected := [{| ebr_BindingID := "praxis/a"; ebr_ExpectedRevision := 3 |}] |}.
Definition bo_bound : BindingFactV2 := bind_fact "set" bz_fact_a.

Transparent BindingFactV2_Validate BindingSetFactV2_Validate cloneManifestForBindingStore.

Lemma bo_copyable f : bf_Manifest f = bf_Manifest bz_fact_a -> copyable f.
Proof.
  unfold copyable. intros ->. vm_cast_no_check (eq_refl (bf_Manifest bz_fact_a)).
Qed.

Lemma bo_create : fst (CreateBinding CtxLive bo_declared NewBindingStoreV2) = bo_store [bo_declared] [] false.
Proof. vm_cast_no_check (eq_refl (bo_store [bo_declared] [] false)). Qed.
Lemma bo_probe :
  fst (CompareAndSwapBinding CtxLive (UnixTime 1500) {| bfc_ExpectedRevision := 1; bfc_Next := bo_probed |} (bo_store [bo_declared] [] false))
  = bo_store [bo_probed] [] false.
Proof. vm_cast_no_check (eq_refl (bo_store [bo_probed] [] false)). Qed.
Lemma bo_certify :
  fst (CompareAndSwapBinding CtxLive (UnixTime 2500) {| bfc_ExpectedRevision := 2; bfc_Next := bz_fact_a |} (bo_store [bo_probed] [] false))
  = bo_store [bz_fact_a] [] false.
Proof. vm_cast_no_check (eq_refl (bo_store [bz_fact_a] [] false)). Qed.
Lemma bo_lost : CommitBindingSet CtxLive (UnixTime 3500) bo_commit (bo_store [bz_fact_a] [] true)
  = (bo_store [bo_bound] [committed_set bo_set] false, fail ErrorUnavailable ReasonEvidenceUnavailable).
Proof.
  vm_cast_no_check (eq_refl (bo_store [bo_bound] [committed_set bo_set] false,
    fail ErrorUnavailable ReasonEvidenceUnavailable : result BindingSetFactV2)).
Qed.

(** Declared, probed, certified; the reply of the next commit will be lost. *)
Lemma bo_run : rtc faithful_step NewBindingStoreV2 (bo_store [bz_fact_a] [] true).
Proof.
  eapply rtc_l. { apply (faithful_call _ (call_create CtxLive bo_declared)). by apply bo_copyable. } cbn [binding_run]. rewrite bo_create.
  eapply rtc_l. { apply (faithful_call _ (call_cas CtxLive (UnixTime 1500) {| bfc_ExpectedRevision := 1; bfc_Next := bo_probed |})).
    by apply bo_copyable. } cbn [binding_run]. rewrite bo_probe.
  eapply rtc_l. { apply (faithful_call _ (call_cas CtxLive (UnixTime 2500) {| bfc_ExpectedRevision := 2; bfc_Next := bz_fact_a |})).
    by apply bo_copyable. } cbn [binding_run]. rewrite bo_certify.
  eapply rtc_l; [exact (faithful_call _ call_lose I) | reflexivity].
Qed.

Lemma bo_step : faithful_step (bo_store [bz_fact_a] [] true) (bo_store [bo_bound] [committed_set bo_set] false).
Proof.
  pose proof (faithful_call (bo_store [bz_fact_a] [] true) (call_commit CtxLive (UnixTime 3500) bo_commit) I) as H.
  cbn [binding_run] in H. by rewrite bo_lost in H.
Qed.

Lemma binding_store_invariant_witness :
  rtc faithful_step NewBindingStoreV2 (bo_store [bo_bound] [committed_set bo_set] false)
  /\ store_ok (bo_store [bo_bound] [committed_set bo_set] false).
Proof.
  assert (rtc faithful_step NewBindingStoreV2 (bo_store [bo_bound] [committed_set bo_set] false)) as H
    by (eapply rtc_r; [apply bo_run | apply bo_step]).
  split; [exact H | exact (binding_store_invariant _ H)].
Defined.


(** The commit whose reply is lost is learned by repeating it: the stored set is
    the answer, and nothing is bound twice.  Repeated at 7000, when the set of the
    request has expired, it is refused as expired. *)
Lemma CommitBindingSet_exactly_once_witness :
  st_sets (bo_store [bz_fact_a] [] true) !! "set" = None
  /\ forall now, exists reply,
       CommitBindingSet CtxLive now bo_commit (bo_store [bo_bound] [committed_set bo_set] false)
         = (bo_store [bo_bound] [committed_set bo_set] false, reply)
       /\ repeat_answer CtxLive now bo_set (committed_set bo_set) reply.
Proof.
  split; [reflexivity |].
  pose proof (CommitBindingSet_exactly_once CtxLive (UnixTime 3500) bo_commit (bo_store [bz_fact_a] [] true) bo_run) as H.
  cbv zeta in H. rewrite bo_lost in H. destruct H as [[_ H] | (_ & _ & H)].
  - apply (f_equal (lookup "set")) in H. vm_compute in H. discriminate H.
  - destruct (H _ (rtc_refl _ _)) as (y & Hy & _ & Hr). injection Hy as <-. intros now. exact (Hr CtxLive now).
Defined.

Example repeated_in_time : CommitBindingSet CtxLive (UnixTime 3600) bo_commit (bo_store [bo_bound] [committed_set bo_set] false)
  = (bo_store [bo_bound] [committed_set bo_set] false, Ok (committed_set bo_set)).
Proof. vm_cast_no_check (eq_refl (bo_store [bo_bound] [committed_set bo_set] false, Ok (committed_set bo_set) : result BindingSetFactV2)). Qed.
Example repeated_too_late : snd (CommitBindingSet CtxLive (UnixTime 7000) bo_commit (bo_store [bo_bound] [committed_set bo_set] false))
  = fail ErrorPreconditionFailed ReasonBindingExpired.
Proof. vm_cast_no_check (eq_refl (fail ErrorPreconditionFailed ReasonBindingExpired : result BindingSetFactV2)). Qed.

(** *** Its set renewed *)

Definition bo_grant (capability : string) (expires : Z) : CapabilityGrantV2 :=
  {| cg_Capability := capability; cg_EvidenceDigest := bx_sha "f"; cg_ObservedUnixNano := 4000; cg_ExpiresUnixNano := expires |}.
Definition bo_evidence : EvidenceRecordRefV2 :=
  {| er_LedgerScopeDigest := bx_sha "1"; er_Sequence := 9; er_RecordDigest := bx_sha "2" |}.

Definition bo_renewed : BindingFactV2 :=
  {| bf_ID := bf_ID bz_fact_a; bf_ComponentID := bf_ComponentID bz_fact_a; bf_Manifest := bf_Manifest bz_fact_a;
     bf_ManifestDigest := bf_ManifestDigest bz_fact_a; bf_GovernanceDigest := bf_GovernanceDigest bz_fact_a;
     bf_State := BindingBound; bf_Revision := 5; bf_Grants := Some [bo_grant "praxis/run" 9500; bo_grant "praxis/stop" 8000];
     bf_ProbedUnixNano := 1000; bf_CertifiedUnixNano := 2000; bf_ConformanceEvidenceDigest := bx_sha "e";
     bf_ExpiresUnixNano := 8000; bf_BindingSetID := "set"; bf_InvalidationReason := "";
     bf_RenewalEvidence := Some [bo_evidence] |}.

Definition bo_set_of (id : string) (revision : N) (member : BindingMemberV2) (expires : Z) : BindingSetFactV2 :=
  {| bs_ID := id; bs_PlanID := "plan"; bs_PlanDigest := bp_PlanDigest bz_plan; bs_GovernanceDigest := bz_catalog_digest;
     bs_State := BindingSetActive; bs_Revision := revision; bs_Members := [member];
     bs_TopologicalOrder := [bm_ComponentID member]; bs_Residuals := None;
     bs_CreatedUnixNano := 3000; bs_ExpiresUnixNano := expires; bs_InvalidationReason := "" |}.

(** The set whose member "praxis/b" certifies renewals. *)
Definition bo_certifier_set : BindingSetFactV2 :=
  bo_set_of "certifiers" 1 {| bm_BindingID := "praxis/b"; bm_BindingRevision := 4; bm_ComponentID := "praxis/b"; bm_Kind := "praxis/tool";
     bm_ManifestDigest := bf_ManifestDigest bz_fact_b; bm_ArtifactDigest := bx_sha "a"; bm_Contract := m_Contract (bf_Manifest bz_fact_b);
     bm_Owners := bx_owners "praxis/b"; bm_Grants := [bz_grant BindingRenewalCertifierCapabilityV2 9000] |} 9000.

Definition bo_attestation : BindingRenewalAttestationV2 :=
  {| ba_Evidence := bo_evidence; ba_Kind := BindingRenewalAttestationKindV2; ba_BindingID := "praxis/a"; ba_ComponentID := "praxis/a";
     ba_ManifestDigest := bf_ManifestDigest bz_fact_a;
     ba_GrantSetDigest := "sha256:21e84a0e3d7ddff96a880168e1aec993bfb0304f34d49ab55ee353faf35d57d6";
     ba_SubjectDigest := "sha256:9d59c61db957834f17a93d24038f57b6f26445ce779c13530ceeecbdc4c98dc2";
     ba_Certifier := {| pb_BindingSetID := "certifiers"; pb_BindingSetRevision := 1; pb_ComponentID := "praxis/b";
        pb_ManifestDigest := bf_ManifestDigest bz_fact_b; pb_ArtifactDigest := bx_sha "a"; pb_Capability := BindingRenewalCertifierCapabilityV2 |};
     ba_SourceEpoch := 1; ba_SourceSequence := 9; ba_ObservedUnixNano := 4100; ba_ExpiresUnixNano := 9000 |}.
Definition bo_reader : AttestationReader := fun ref => Ok bo_attestation.

Definition bo_renew : RenewBindingSetRequestV2 :=
  {| rbs_ExpectedSetRevision := 1; rbs_NextSet := bo_set_of "set" 2 (member_of bo_renewed) 8000; rbs_NextBindings := [bo_renewed] |}.

Definition bo_live : BindingStoreV2 := set_st_reader (Some bo_reader) (bo_store [bo_bound] [committed_set bo_set; bo_certifier_set] false).

Lemma RenewBindingSetV2_sound_witness :
  snd (RenewBindingSetV2 CtxLive (UnixTime 4500) bo_renew bo_live) = Ok (rbs_NextSet bo_renew)
  /\ set_renewed bo_reader (UnixTime 4500) bo_renew bo_live (fst (RenewBindingSetV2 CtxLive (UnixTime 4500) bo_renew bo_live))
       (committed_set bo_set).
Proof.
  assert (snd (RenewBindingSetV2 CtxLive (UnixTime 4500) bo_renew bo_live) = Ok (rbs_NextSet bo_renew)) as E
    by (vm_cast_no_check (eq_refl (Ok (rbs_NextSet bo_renew) : result BindingSetFactV2))).
  split; [exact E |].
  pose proof (RenewBindingSetV2_sound CtxLive (UnixTime 4500) bo_renew bo_live) as H. cbv zeta in H. rewrite E in H.
  destruct H as (_ & reader & x & Hr & Hx & H). injection Hr as <-. injection Hx as <-.
  destruct H as [(_ & _ & Hy) | [H _]]; [| exact H]. apply (f_equal bs_Revision) in Hy. discriminate Hy.
Defined.

(** The revocation of a renewed fact by its owner is accepted although it drops the
    renewal evidence and names another set. *)
Definition bo_revoked : BindingFactV2 :=
  {| bf_ID := bf_ID bz_fact_a; bf_ComponentID := bf_ComponentID bz_fact_a; bf_Manifest := bf_Manifest bz_fact_a;
     bf_ManifestDigest := bf_ManifestDigest bz_fact_a; bf_GovernanceDigest := bf_GovernanceDigest bz_fact_a;
     bf_State := BindingRevoked; bf_Revision := 6; bf_Grants := bf_Grants bo_renewed; bf_ProbedUnixNano := 1000;
     bf_CertifiedUnixNano := 2000; bf_ConformanceEvidenceDigest := bx_sha "e"; bf_ExpiresUnixNano := 8000;
     bf_BindingSetID := "another"; bf_InvalidationReason := "binding_revoked"; bf_RenewalEvidence := None |}.

Example revocation_drops_evidence : ValidateBindingFactTransitionV2 bo_renewed bo_revoked (UnixTime 4600) = Ok tt.
Proof. vm_cast_no_check (eq_refl (Ok tt : result unit)). Qed.
