(* ===== verification/Interaction.v ===== *)
(** * Programs that call ports

    A method that only talks to its collaborators through interfaces is a finite
    tree of calls: every node names the call and continues with the reply,
    whatever it is.  An environment says which replies a call may get and what
    it does to the world.  [exec] is the set of complete runs, [cut] the set of
    runs interrupted between two calls, and [wp] the weakest precondition that
    proves a claim about all of them, call by call.  Nothing here models a file
    of the repository. *)

From S2P Require Import Prelude.

Section programs.
Context {C : Type} {R : C -> Type}.

Inductive Prog (A : Type) : Type :=
| Ret (a : A)
| Call (c : C) (k : R c -> Prog A).

Fixpoint prog_bind {A B} (m : Prog A) (k : A -> Prog B) : Prog B :=
  match m with
  | Ret _ a => k a
  | Call _ c next => Call _ c (fun r => prog_bind (next r) k)
  end.

Definition call (c : C) : Prog (R c) := Call _ c (fun r => Ret _ r).

(** A call and the reply it got. *)
Record event := Event { ev_call : C; ev_reply : R ev_call }.

Section environment.
Context {W : Type} (answers : W -> forall c, R c -> W -> Prop).

(** A complete run: from world [w], with these events, to [a] in world [w']. *)
Fixpoint exec {A} (m : Prog A) (w : W) (tr : list event) (a : A) (w' : W) : Prop :=
  match m with
  | Ret _ b => tr = [] /\ a = b /\ w' = w
  | Call _ c k => exists r w1 rest, answers w c r w1 /\ tr = Event c r :: rest /\ exec (k r) w1 rest a w'
  end.

(** A run that was cut off after these events. *)
Fixpoint cut {A} (m : Prog A) (w : W) (tr : list event) (w' : W) : Prop :=
  (tr = [] /\ w' = w)
  \/ match m with
     | Ret _ _ => False
     | Call _ c k => exists r w1 rest, answers w c r w1 /\ tr = Event c r :: rest /\ cut (k r) w1 rest w'
     end.

Lemma exec_cut {A} (m : Prog A) w tr a w' : exec m w tr a w' -> cut m w tr w'.
Proof.
  revert w tr. induction m as [b | c k IH]; intros w tr; cbn.
  - intros (-> & _ & ->). by left.
  - intros (r & w1 & rest & Hr & -> & H). right. exists r, w1, rest. eauto.
Qed.

Lemma exec_bind {A B} (m : Prog A) (k : A -> Prog B) w tr b w' :
  exec (prog_bind m k) w tr b w' <->
  exists a w1 t1 t2, exec m w t1 a w1 /\ exec (k a) w1 t2 b w' /\ tr = t1 ++ t2.
Proof.
  revert w tr. induction m as [a | c next IH]; intros w tr; cbn.
  - split; [intros H; by exists a, w, [], tr | by intros (? & ? & ? & ? & (-> & -> & ->) & H & ->)].
  - split.
    + intros (r & w1 & rest & Hr & -> & H). apply IH in H as (a & w2 & t1 & t2 & H1 & H2 & ->).
      exists a, w2, (Event c r :: t1), t2. naive_solver.
    + intros (a & w2 & t1 & t2 & (r & w1 & rest & Hr & -> & H1) & H2 & ->).
      exists r, w1, (rest ++ t2). split; [done | split; [done |]]. apply IH. by exists a, w2, rest, t2.
Qed.

(** ** Weakest preconditions

    [before] must hold whenever a call is made, of the world, the events so far
    and the call; [after] holds of the result, the world and all events. *)
Section wp.
Context (before : W -> list event -> C -> Prop).

Fixpoint wp {A} (m : Prog A) (after : A -> W -> list event -> Prop) (w : W) (tr : list event) : Prop :=
  match m with
  | Ret _ a => after a w tr
  | Call _ c k => before w tr c /\ forall r w', answers w c r w' -> wp (k r) after w' (tr ++ [Event c r])
  end.

Lemma wp_mono {A} (m : Prog A) (P Q : A -> W -> list event -> Prop) w tr :
  (forall a w' tr', P a w' tr' -> Q a w' tr') -> wp m P w tr -> wp m Q w tr.
Proof. intros H. revert w tr. induction m as [a | c k IH]; intros w tr; cbn; [apply H | naive_solver]. Qed.

Lemma wp_bind {A B} (m : Prog A) (k : A -> Prog B) Q w tr :
  wp m (fun a => wp (k a) Q) w tr -> wp (prog_bind m k) Q w tr.
Proof. revert w tr. induction m as [a | c next IH]; intros w tr; cbn; [done | naive_solver]. Qed.

Lemma wp_call c (Q : R c -> W -> list event -> Prop) w tr :
  before w tr c -> (forall r w', answers w c r w' -> Q r w' (tr ++ [Event c r])) -> wp (call c) Q w tr.
Proof. by split. Qed.

(** What is proved holds of every complete run ... *)
Lemma wp_exec {A} (m : Prog A) Q w tr0 tr a w' :
  wp m Q w tr0 -> exec m w tr a w' -> Q a w' (tr0 ++ tr).
Proof.
  revert w tr0 tr. induction m as [b | c k IH]; intros w tr0 tr; cbn.
  - intros H (-> & -> & ->). by rewrite app_nil_r.
  - intros [_ H] (r & w1 & rest & Hr & -> & He). specialize (IH r _ _ _ (H _ _ Hr) He).
    by rewrite <- app_assoc in IH.
Qed.

(** ... and at every point where a run can be cut off. *)
Lemma wp_cut {A} (m : Prog A) (Q : A -> W -> list event -> Prop) (J : W -> list event -> Prop) w tr0 tr w' :
  (forall v t c, before v t c -> J v t) -> (forall a v t, Q a v t -> J v t) ->
  wp m Q w tr0 -> cut m w tr w' -> J w' (tr0 ++ tr).
Proof.
  intros Hb Hq. revert w tr0 tr. induction m as [b | c k IH]; intros w tr0 tr; cbn.
  - intros H [[-> ->] | []]. rewrite app_nil_r. by eapply Hq.
  - intros [Hw H] [[-> ->] | (r & w1 & rest & Hr & -> & He)].
    + rewrite app_nil_r. by eapply Hb.
    + specialize (IH r _ _ _ (H _ _ Hr) He). by rewrite <- app_assoc in IH.
Qed.

(** Every call of a run was made when it was allowed. *)
Lemma wp_calls {A} (m : Prog A) Q w tr0 tr w' :
  wp m Q w tr0 -> cut m w tr w' ->
  forall t1 e t2, tr = t1 ++ e :: t2 -> exists v, before v (tr0 ++ t1) (ev_call e).
Proof.
  revert w tr0 tr. induction m as [b | c k IH]; intros w tr0 tr; cbn.
  - intros _ [[-> ->] | []] t1 e t2 E. by destruct t1.
  - intros [Hw H] [[-> ->] | (r & w1 & rest & Hr & -> & He)] t1 e t2 E; [by destruct t1 |].
    destruct t1 as [| e1 t1]; cbn in E; injection E as <- ->.
    + exists w. by rewrite app_nil_r.
    + destruct (IH r _ _ _ (H _ _ Hr) He t1 e t2 eq_refl) as [v Hv]. exists v. by rewrite <- app_assoc in Hv.
Qed.
End wp.
End environment.

(** ** From one environment to another

    A view of the world under which every answer is an answer there. *)

Section views.
Context {V W : Type} (A : V -> forall c, R c -> V -> Prop) (B : W -> forall c, R c -> W -> Prop) (view : V -> W).
Context (answer : forall v c r v', A v c r v' -> B (view v) c r (view v')).

Lemma exec_view {T} (m : Prog T) v tr a v' : exec A m v tr a v' -> exec B m (view v) tr a (view v').
Proof.
  revert v tr. induction m as [b | c k IH]; intros v tr; cbn; [by intros (-> & -> & ->) |].
  intros (r & v1 & rest & Hr & -> & H). exists r, (view v1), rest. eauto.
Qed.

Lemma cut_view {T} (m : Prog T) v tr v' : cut A m v tr v' -> cut B m (view v) tr (view v').
Proof.
  revert v tr. induction m as [b | c k IH]; intros v tr; cbn;
    (intros [[-> ->] | H]; [by left |]); [done |].
  destruct H as (r & v1 & rest & Hr & -> & H). right. exists r, (view v1), rest. eauto.
Qed.
End views.

(** ** Running a program against a function *)

Section handler.
Context {W : Type} (handle : forall c, W -> W * R c).

Fixpoint run {A} (m : Prog A) (w : W) : A * W * list event :=
  match m with
  | Ret _ a => (a, w, [])
  | Call _ c k =>
      let '(w1, r) := handle c w in
      let '(a, w', tr) := run (k r) w1 in (a, w', Event c r :: tr)
  end.

Lemma run_exec {A} (answers : W -> forall c, R c -> W -> Prop) (m : Prog A) w :
  (forall c w, answers w c (handle c w).2 (handle c w).1) ->
  exec answers m w (run m w).2 (run m w).1.1 (run m w).1.2.
Proof.
  intros Ha. revert w. induction m as [a | c k IH]; intros w; cbn; [done |].
  pose proof (Ha c w) as H1. destruct (handle c w) as [w1 r]. specialize (IH r w1).
  destruct (run (k r) w1) as [[a w'] tr]. by exists r, w1, tr.
Qed.
End handler.
End programs.

Arguments Prog {C} R A.
Arguments Ret {C R A} a.
Arguments Call {C R A} c k.
Arguments event {C} R.
Arguments Event {C R} ev_call ev_reply.
