(* ===== verification/ComponentPorts.v ===== *)
(** * ports/execution.go, ports/infrastructure.go, ports/component_domains.go

    The requests, replies and observations of the seams the foundation
    coordinator calls: execution, environment (sandbox), evidence and checkpoint
    participants; and core/digest.go's DigestJSON.  The interfaces themselves
    are the constructors of [PortCall], each with the type of its reply: a port
    may answer anything of that type. *)

From S2P Require Import Prelude GoStd Errors Identity Fence State Continuity IdentityLease Activation Assembly Sha256 Json EffectContract.

(** ** core/digest.go

    The argument is the result of json.Marshal: its bytes, or [None]. *)
Definition DigestJSON (payload : option (list N)) : result Digest :=
  match payload with
  | None => fail ErrorInvalidArgument ReasonInvalidDigest
  | Some payload => Ok (hex_digest payload)
  end.

(** ** execution.go *)

Record ProbeBudget := {
  pbg_MaxRequests : N;
  pbg_MaxDuration : Duration;
  pbg_PossibleCharge : bool;
  pbg_PossibleMutation : bool;
  pbg_CleanupContract : string;
}.

Record ExecutionPreflightRequest := {
  epq_ProposedScope : ExecutionScope;
  epq_RequirementDigest : Digest;
  epq_ProbeBudget : ProbeBudget;
}.

Record ExecutionPreflightReport := {
  epr_Accepted : bool;
  epr_Descriptor : ComponentDescriptor;
  epr_RequirementDigest : Digest;
  epr_EvidenceDigest : Digest;
  epr_EvidenceExpiry : Time;
  epr_PossibleResidual : bool;
  epr_ResidualRef : string;
}.

Record ExecutionOpenRequest := {
  eoq_Scope : ExecutionScope;
  eoq_RequirementDigest : Digest;
  eoq_Intent : EffectIntent;
  eoq_Fence : ExecutionFence;
}.

Record ExecutionEndpointRef := {
  eer_ComponentID : string;
  eer_EndpointID : string;
  eer_Digest : Digest;
}.
#[export] Instance ExecutionEndpointRef_eq_dec : EqDecision ExecutionEndpointRef.
Proof. solve_decision. Defined.

Record ExecutionInspectRequest := {
  eiq_Scope : ExecutionScope;
  eiq_Endpoint : ExecutionEndpointRef;
  eiq_InspectKind : string;
}.

(** json.RawMessage is a byte slice. *)
Record OpaquePayload := {
  opq_Schema : string;
  opq_Digest : Digest;
  opq_Payload : option (list N);
}.

Record ExecutionControlRequest := {
  exc_Scope : ExecutionScope;
  exc_Endpoint : ExecutionEndpointRef;
  exc_CommandKind : string;
  exc_Payload : OpaquePayload;
  exc_Fence : option ExecutionFence;
}.

Record ExecutionCloseRequest := {
  ecq_Scope : ExecutionScope;
  ecq_Endpoint : ExecutionEndpointRef;
  ecq_Reason : string;
  ecq_Intent : EffectIntent;
  ecq_Fence : ExecutionFence;
}.


Record ExecutionObservation := {
  eob_SourceComponentID : string;
  eob_SourceEpoch : N;
  eob_ObservationKind : string;
  eob_Payload : OpaquePayload;
  eob_ObservedAt : Time;
}.

(** ** infrastructure.go *)

Record SandboxAllocateRequest := {
  saq_ProposedInstance : InstanceRef;
  saq_RequirementDigest : Digest;
  saq_FenceEpoch : N;
  saq_Intent : EffectIntent;
  saq_Fence : ExecutionFence;
}.

Record SandboxActivateRequest := {
  sav_Scope : ExecutionScope;
  sav_Intent : EffectIntent;
  sav_Fence : ExecutionFence;
}.

Record SandboxFenceRequest := { sfq_Lease : SandboxLeaseRef; sfq_Reason : string }.

Record SandboxReleaseRequest := {
  srq_Lease : SandboxLeaseRef;
  srq_Intent : EffectIntent;
  srq_Fence : ExecutionFence;
}.

Record SandboxLeaseObservation := {
  slo_Lease : SandboxLeaseRef;
  slo_State : string;
  slo_EvidenceRef : string;
  slo_ObservedAt : Time;
}.

(** json.Marshal of an observation; [None] when its time has no encoding. *)
Definition SandboxLeaseObservation_json `{ZoneDatabase} (o : SandboxLeaseObservation) : option json :=
  match json_time (slo_ObservedAt o) with
  | None => None
  | Some observed =>
      Some (JStruct [field "lease" (SandboxLeaseRef_json (slo_Lease o)); field "state" (JString (slo_State o));
                     field "evidence_ref" (JString (slo_EvidenceRef o)); field "observed_at" observed])
  end.

Record EvidenceIntentRecord := {
  eir_Scope : ExecutionScope;
  eir_Kind : string;
  eir_PayloadDigest : Digest;
  eir_CausationID : string;
}.

Record EvidenceObservationRecord := {
  eor_SourceID : string;
  eor_SourceEpoch : N;
  eor_SourceSequence : N;
  eor_PayloadDigest : Digest;
  eor_CausationID : string;
}.

Record EvidenceRecordRef := { err_Scope : string; err_Sequence : N }.

Record EvidenceRecord := {
  evr_Ref : EvidenceRecordRef;
  evr_Classification : string;
  evr_PayloadDigest : Digest;
  evr_RecordedAt : Time;
}.

(** ** component_domains.go, the checkpoint participant *)

Record CheckpointPrepareRequest := {
  cpq_BarrierID : string;
  cpq_Epoch : N;
  cpq_Scope : ExecutionScope;
  cpq_Effects : EffectWatermarks;
}.

Record CheckpointCommitRequest := { ccq_BarrierID : string; ccq_Epoch : N }.

Record CheckpointAbortRequest := { caq_BarrierID : string; caq_Epoch : N; caq_Reason : string }.

Record CheckpointRestoreRequest := {
  crq_CheckpointID : string;
  crq_SnapshotRef : string;
  crq_SnapshotDigest : Digest;
  crq_NewScope : ExecutionScope;
}.

Record CheckpointParticipantReport := {
  cpr_ComponentID : string;
  cpr_ComponentKind : ComponentKind;
  cpr_State : CheckpointParticipantState;
  cpr_SnapshotRef : string;
  cpr_SnapshotDigest : Digest;
  cpr_EvidenceDigest : Digest;
  cpr_ObservedAt : Time;
}.

(** `string(kind)` *)
Definition ComponentKind_string (kind : ComponentKind) : string :=
  match kind with
  | ComponentHarness => "harness" | ComponentModelInvoker => "model_invoker"
  | ComponentContextEngine => "context_engine" | ComponentToolMCP => "tool_mcp"
  | ComponentState => "state" | ComponentGovernance => "governance" | ComponentSandbox => "sandbox"
  | ComponentBudget => "budget_authority" | ComponentEvidence => "evidence"
  | ComponentProfileSystem => "profile_system" | ComponentAgentAssembler => "agent_assembler"
  | ComponentToolEngine => "tool_engine" | ComponentMCPGateway => "mcp_gateway"
  | ComponentMemoryEngine => "memory_engine" | ComponentKnowledgeEngine => "knowledge_engine"
  | ComponentAssetManager => "asset_manager" | ComponentOrganizationEngine => "organization_engine"
  | ComponentReviewEngine => "review_engine" | ComponentManagementEngine => "management_engine"
  | ComponentCheckpoint => "checkpoint" | ComponentTimeline => "timeline"
  | ComponentOther raw => raw
  end.

(** ** The calls of the coordinator

    One constructor per method of an interface field of the Coordinator that
    its lifecycle methods call, and the clock.  A checkpoint participant is
    named by its handle. *)
Inductive PortCall :=
| c_Now
| c_Resolve (plan : ResolvedAgentPlan) (now : Time)
| c_CreateAttempt (attempt : ActivationAttempt)
| c_InspectAttempt (id : string)
| c_CompareAndSwap (next : ActivationAttempt) (transition : Activation.TransitionContext)
| c_CommitActivation (request : ActivationCommitRequest)
| c_ReserveLease (request : ReserveIdentityLeaseRequest)
| c_RevokeLease (request : EndIdentityLeaseRequest)
| c_ReleaseLease (request : EndIdentityLeaseRequest)
| c_Preflight (request : ExecutionPreflightRequest)
| c_Open (request : ExecutionOpenRequest)
| c_InspectExecution (request : ExecutionInspectRequest)
| c_Close (request : ExecutionCloseRequest)
| c_Allocate (request : SandboxAllocateRequest)
| c_ActivateSandbox (request : SandboxActivateRequest)
| c_InspectSandbox (lease : SandboxLeaseRef)
| c_FenceSandbox (request : SandboxFenceRequest)
| c_ReleaseSandbox (request : SandboxReleaseRequest)
| c_AppendIntent (request : EvidenceIntentRecord)
| c_ReadEvidence (ref : EvidenceRecordRef)
| c_DescribeParticipant (participant : N)
| c_PrepareCheckpoint (participant : N) (request : CheckpointPrepareRequest)
| c_CommitCheckpoint (participant : N) (request : CheckpointCommitRequest)
| c_AbortCheckpoint (participant : N) (request : CheckpointAbortRequest)
| c_RestoreCheckpoint (participant : N) (request : CheckpointRestoreRequest).

Definition Reply (c : PortCall) : Type :=
  match c with
  | c_Now => Time
  | c_Resolve _ _ => result BindingSet
  | c_CreateAttempt _ | c_InspectAttempt _ | c_CompareAndSwap _ _ => result ActivationAttempt
  | c_CommitActivation _ => result ActivationCommitResult
  | c_ReserveLease _ | c_RevokeLease _ | c_ReleaseLease _ => result IdentityExecutionLease
  | c_Preflight _ => result ExecutionPreflightReport
  | c_Open _ => result ExecutionEndpointRef
  | c_InspectExecution _ | c_Close _ => result ExecutionObservation
  | c_Allocate _ | c_ActivateSandbox _ | c_InspectSandbox _ | c_FenceSandbox _ | c_ReleaseSandbox _ =>
      result SandboxLeaseObservation
  | c_AppendIntent _ => result EvidenceRecordRef
  | c_ReadEvidence _ => result EvidenceRecord
  | c_DescribeParticipant _ => result ComponentDescriptor
  | c_PrepareCheckpoint _ _ | c_CommitCheckpoint _ _ | c_AbortCheckpoint _ _ | c_RestoreCheckpoint _ _ =>
      result CheckpointParticipantReport
  end.
