(* ===== verification/Coordinator.v ===== *)
(** * foundation/coordinator.go: the lifecycle coordinator

    The saga that activates an instance, and its run, stop, checkpoint, restore
    and recovery methods, as programs over the ports it is wired to.  The
    coordinator keeps no state: what survives a failure is in the ports.  The
    instance it returns is a mutable object behind a mutex, so its methods are
    programs that pass the instance on, also when they fail. *)

From stdpp Require Import gmap.
From S2P Require Import Prelude GoStd Errors Identity State Aggregate Fence RunFact Continuity IdentityLease Activation Recovery RunRegistry Assembly Json EffectContract Interaction ComponentPorts.

(** ** Two monads of port programs

    [Co A] is a function returning (A, error); [Session A] is a method of an
    instance. *)
Definition Co (A : Type) : Type := Prog Reply (result A).
Definition co_ret {A} (a : A) : Co A := Ret (Ok a).
#[export] Instance Co_ret : MRet Co := @co_ret.
#[export] Instance Co_bind : MBind Co :=
  fun A B k m => prog_bind m (fun o => match o with Ok a => k a | Err e => Ret (Err e) end).
Definition co_lift {A} (m : result A) : Co A := Ret m.
Definition port {A} (m : Prog Reply (result A)) : Co A := m.
(** A call that cannot fail. *)
Definition co_now : Co Time := prog_bind (call c_Now) (fun t => Ret (Ok t)).

(** ** Data *)

Record CheckpointBinding := { cb_Port : N; cb_Required : bool }.

(** The interface fields are handles, [None] when nil.  The clock is a call; the
    fields of the run governance ports are used by run_v2.go only. *)
Record Coordinator := {
  co_Registry : option N;
  co_Execution : option N;
  co_Environment : option N;
  co_Evidence : option N;
  co_IdentityLeases : option N;
  co_ActivationFacts : option N;
  co_CheckpointParticipants : list CheckpointBinding;
}.

Record ActivationRequest := {
  arq_Plan : ResolvedAgentPlan;
  arq_ProposedScope : ExecutionScope;
  arq_ActivationAttemptID : string;
  arq_RequirementDigest : Digest;
  arq_CapabilityGrantDigest : Digest;
  arq_ProbeBudget : ProbeBudget;
  arq_IdentityLeaseExpiresAt : Time;
  arq_FenceTTL : Duration;
  arq_AllocateIntent : EffectIntent;
  arq_ActivateIntent : EffectIntent;
  arq_OpenIntent : EffectIntent;
}.

Record Instance_ := {
  in_aggregate : Aggregate;
  in_legacyRuns : RunRegistry;
  in_plan : ResolvedAgentPlan;
  in_bindings : BindingSet;
  in_identityLease : IdentityExecutionLease;
  in_activation : ActivationAttempt;
  in_endpoint : ExecutionEndpointRef;
  in_capabilityDigest : Digest;
  in_fenceTTL : Duration;
  in_activeRun : option AgentRunRecord;
}.

Definition set_in_aggregate (a : Aggregate) (i : Instance_) : Instance_ :=
  {| in_aggregate := a; in_legacyRuns := in_legacyRuns i; in_plan := in_plan i; in_bindings := in_bindings i;
     in_identityLease := in_identityLease i; in_activation := in_activation i; in_endpoint := in_endpoint i;
     in_capabilityDigest := in_capabilityDigest i; in_fenceTTL := in_fenceTTL i; in_activeRun := in_activeRun i |}.
Definition set_in_legacyRuns (r : RunRegistry) (i : Instance_) : Instance_ :=
  {| in_aggregate := in_aggregate i; in_legacyRuns := r; in_plan := in_plan i; in_bindings := in_bindings i;
     in_identityLease := in_identityLease i; in_activation := in_activation i; in_endpoint := in_endpoint i;
     in_capabilityDigest := in_capabilityDigest i; in_fenceTTL := in_fenceTTL i; in_activeRun := in_activeRun i |}.
Definition set_in_identityLease (l : IdentityExecutionLease) (i : Instance_) : Instance_ :=
  {| in_aggregate := in_aggregate i; in_legacyRuns := in_legacyRuns i; in_plan := in_plan i;
     in_bindings := in_bindings i; in_identityLease := l; in_activation := in_activation i;
     in_endpoint := in_endpoint i; in_capabilityDigest := in_capabilityDigest i; in_fenceTTL := in_fenceTTL i;
     in_activeRun := in_activeRun i |}.
Definition set_in_activeRun (r : option AgentRunRecord) (i : Instance_) : Instance_ :=
  {| in_aggregate := in_aggregate i; in_legacyRuns := in_legacyRuns i; in_plan := in_plan i;
     in_bindings := in_bindings i; in_identityLease := in_identityLease i; in_activation := in_activation i;
     in_endpoint := in_endpoint i; in_capabilityDigest := in_capabilityDigest i; in_fenceTTL := in_fenceTTL i;
     in_activeRun := r |}.

Record InstanceSnapshot := {
  is_Kernel : Snapshot;
  is_PlanDigest : Digest;
  is_Bindings : BindingSet;
  is_IdentityLease : IdentityExecutionLease;
  is_Activation : ActivationAttempt;
  is_Endpoint : ExecutionEndpointRef;
  is_ActiveRun : option AgentRunRecord;
}.

Definition Instance_Snapshot (i : Instance_) : InstanceSnapshot :=
  {| is_Kernel := Aggregate_Snapshot (in_aggregate i); is_PlanDigest := plan_Digest (in_plan i);
     is_Bindings := in_bindings i; is_IdentityLease := in_identityLease i; is_Activation := in_activation i;
     is_Endpoint := in_endpoint i; is_ActiveRun := in_activeRun i |}.

(** ** Helpers *)

Definition set_PersistedAt (t : Time) (i : EffectIntent) : EffectIntent :=
  {| ei_ID := ei_ID i; ei_Revision := ei_Revision i; ei_Kind := ei_Kind i; ei_RiskClass := ei_RiskClass i;
     ei_CanonicalPayloadDigest := ei_CanonicalPayloadDigest i; ei_Target := ei_Target i;
     ei_ConflictEffectDomain := ei_ConflictEffectDomain i; ei_Ownership := ei_Ownership i;
     ei_AuthorizationRef := ei_AuthorizationRef i; ei_BudgetReservationRef := ei_BudgetReservationRef i;
     ei_IdempotencyClass := ei_IdempotencyClass i; ei_PersistedAt := t |}.

Definition preconditions (snapshot : Snapshot) : ExecutionPreconditions :=
  {| pre_IdentityEpoch := id_Epoch (sc_Identity (snap_Scope snapshot));
     pre_InstanceEpoch := inst_Epoch (sc_Instance (snap_Scope snapshot));
     pre_LeaseEpoch := option_map sbx_Epoch (sc_SandboxLease (snap_Scope snapshot));
     pre_AuthorityEpoch := sc_AuthorityEpoch (snap_Scope snapshot);
     pre_Revision := snap_Revision snapshot |}.

Definition transition (next : InstanceState) (context : State.TransitionContext) : ST Aggregate error Snapshot :=
  aggregate ← st_get ;
  Aggregate_Transition
    {| tr_Preconditions := preconditions (Aggregate_Snapshot aggregate); tr_NextState := next;
       tr_Context := context |}.

Definition makeFence (scope : ExecutionScope) (boundary : FenceBoundaryScope) (capabilityDigest : Digest)
    (intent : EffectIntent) (expiresAt : Time) : ExecutionFence :=
  {| fence_BoundaryScope := boundary; fence_Scope := scope; fence_CapabilityGrantDigest := capabilityDigest;
     fence_EffectIntentID := ei_ID intent; fence_EffectIntentRevision := ei_Revision intent;
     fence_CanonicalPayloadDigest := ei_CanonicalPayloadDigest intent; fence_ExpiresAt := expiresAt |}.

(** The InstanceState literals of the methods: certainty is always confirmed. *)
Definition confirmed (phase : LifecyclePhase) (cleanup : CleanupStatus) (obligations : bool) : InstanceState :=
  {| Phase := phase; Certainty := CertaintyConfirmed; Cleanup := cleanup;
     HasCleanupObligations := obligations; CleanupEvidenceComplete := false |}.
Definition proposed_state (phase : LifecyclePhase) : InstanceState := confirmed phase CleanupNotRequired false.
Definition bound_state (phase : LifecyclePhase) : InstanceState := confirmed phase CleanupPending true.
Definition closed_state : InstanceState :=
  {| Phase := PhaseTerminal; Certainty := CertaintyConfirmed; Cleanup := CleanupComplete;
     HasCleanupObligations := true; CleanupEvidenceComplete := true |}.

(** `if _, err = transition(aggregate, next, core.TransitionContext{}); err != nil { return nil, err }` *)
Definition move (aggregate : Aggregate) (next : InstanceState) : Co Aggregate :=
  match transition next emptyTransitionContext aggregate with
  | (aggregate', Ok _) => mret aggregate'
  | (_, Err e) => co_lift (Err e)
  end.

Definition monotonicTimestamp (previous : Time) : Co Time :=
  now ← co_now ;
  mret (if Before now previous then previous else now).

(** The copy advanceActivation and quarantineActivation start from. *)
Definition next_attempt (current : ActivationAttempt) (stage : ActivationStage) (recovery : RecoveryState)
    (reason : string) (updated : Time) : ActivationAttempt :=
  {| at_ID := at_ID current; at_Scope := at_Scope current;
     at_ExpectedIdentityEpoch := at_ExpectedIdentityEpoch current;
     at_RequirementDigest := at_RequirementDigest current; at_Stage := stage; at_Recovery := recovery;
     at_Snapshot := at_Snapshot current; at_IdentityLeaseID := at_IdentityLeaseID current;
     at_IdentityLeaseState := at_IdentityLeaseState current;
     at_IdentityLeaseRevision := at_IdentityLeaseRevision current; at_Budget := at_Budget current;
     at_SandboxReservation := at_SandboxReservation current;
     at_SandboxActivation := at_SandboxActivation current; at_SandboxFenced := at_SandboxFenced current;
     at_FailureReason := reason; at_Revision := u64_succ (at_Revision current);
     at_CreatedAt := at_CreatedAt current; at_UpdatedAt := updated |}.

Definition noTransitionContext : Activation.TransitionContext := {| UnknownResolved := false |}.

Definition advanceActivation (current : ActivationAttempt) (stage : ActivationStage)
    (mutate : ActivationAttempt -> ActivationAttempt) : Co ActivationAttempt :=
  updated ← monotonicTimestamp (at_UpdatedAt current) ;
  port (call (c_CompareAndSwap
    (mutate (next_attempt current stage (at_Recovery current) (at_FailureReason current) updated))
    noTransitionContext)).

Definition quarantineActivation (current : ActivationAttempt)
    (mutate : ActivationAttempt -> ActivationAttempt) (reason : string) : Co unit :=
  updated ← monotonicTimestamp (at_UpdatedAt current) ;
  port (call (c_CompareAndSwap
    (mutate (next_attempt current (at_Stage current) RecoveryQuarantined reason updated))
    noTransitionContext)) ;;
  mret tt.

(** The mutations the methods pass. *)
Definition set_at_Snapshot (s : ActivationSnapshot) (a : ActivationAttempt) : ActivationAttempt :=
  {| at_ID := at_ID a; at_Scope := at_Scope a; at_ExpectedIdentityEpoch := at_ExpectedIdentityEpoch a;
     at_RequirementDigest := at_RequirementDigest a; at_Stage := at_Stage a; at_Recovery := at_Recovery a;
     at_Snapshot := Some s; at_IdentityLeaseID := at_IdentityLeaseID a;
     at_IdentityLeaseState := at_IdentityLeaseState a; at_IdentityLeaseRevision := at_IdentityLeaseRevision a;
     at_Budget := at_Budget a; at_SandboxReservation := at_SandboxReservation a;
     at_SandboxActivation := at_SandboxActivation a; at_SandboxFenced := at_SandboxFenced a;
     at_FailureReason := at_FailureReason a; at_Revision := at_Revision a; at_CreatedAt := at_CreatedAt a;
     at_UpdatedAt := at_UpdatedAt a |}.
Definition set_at_Lease (l : IdentityExecutionLease) (a : ActivationAttempt) : ActivationAttempt :=
  {| at_ID := at_ID a; at_Scope := at_Scope a; at_ExpectedIdentityEpoch := at_ExpectedIdentityEpoch a;
     at_RequirementDigest := at_RequirementDigest a; at_Stage := at_Stage a; at_Recovery := at_Recovery a;
     at_Snapshot := at_Snapshot a; at_IdentityLeaseID := il_ID l; at_IdentityLeaseState := il_State l;
     at_IdentityLeaseRevision := il_Revision l; at_Budget := at_Budget a;
     at_SandboxReservation := at_SandboxReservation a; at_SandboxActivation := at_SandboxActivation a;
     at_SandboxFenced := at_SandboxFenced a; at_FailureReason := at_FailureReason a;
     at_Revision := at_Revision a; at_CreatedAt := at_CreatedAt a; at_UpdatedAt := at_UpdatedAt a |}.
Definition set_operations (budget reservation activation : ActivationOperation) (a : ActivationAttempt)
    : ActivationAttempt :=
  {| at_ID := at_ID a; at_Scope := at_Scope a; at_ExpectedIdentityEpoch := at_ExpectedIdentityEpoch a;
     at_RequirementDigest := at_RequirementDigest a; at_Stage := at_Stage a; at_Recovery := at_Recovery a;
     at_Snapshot := at_Snapshot a; at_IdentityLeaseID := at_IdentityLeaseID a;
     at_IdentityLeaseState := at_IdentityLeaseState a; at_IdentityLeaseRevision := at_IdentityLeaseRevision a;
     at_Budget := budget; at_SandboxReservation := reservation; at_SandboxActivation := activation;
     at_SandboxFenced := at_SandboxFenced a; at_FailureReason := at_FailureReason a;
     at_Revision := at_Revision a; at_CreatedAt := at_CreatedAt a; at_UpdatedAt := at_UpdatedAt a |}.
Definition set_at_Budget (o : ActivationOperation) (a : ActivationAttempt) : ActivationAttempt :=
  set_operations o (at_SandboxReservation a) (at_SandboxActivation a) a.
Definition set_at_Reservation (o : ActivationOperation) (a : ActivationAttempt) : ActivationAttempt :=
  set_operations (at_Budget a) o (at_SandboxActivation a) a.
Definition set_at_Activation (o : ActivationOperation) (a : ActivationAttempt) : ActivationAttempt :=
  set_operations (at_Budget a) (at_SandboxReservation a) o a.

Definition operation (state : OperationState) (intent reference : string) (evidence : Digest)
    : ActivationOperation :=
  {| op_State := state; op_IntentID := intent; op_Reference := reference; op_EvidenceDigest := evidence |}.

(** ** Activate *)

Definition Coordinator_validate (c : Coordinator) : result unit :=
  guard (bool_decide (co_Registry c = None) || bool_decide (co_Execution c = None)
         || bool_decide (co_Environment c = None) || bool_decide (co_Evidence c = None)
         || bool_decide (co_IdentityLeases c = None) || bool_decide (co_ActivationFacts c = None))
    ErrorInvalidArgument ReasonComponentMissing.

Definition validateActivationRequest (range : Range) (request : ActivationRequest) (now : Time) : result unit :=
  let scope := arq_ProposedScope request in
  let budget := arq_ProbeBudget request in
  ResolvedAgentPlan_Validate range (arq_Plan request) ;;
  ExecutionScope_Validate scope ;;
  guard (bool_decide (sc_SandboxLease scope <> None)
         || negb (bool_decide (plan_Digest (arq_Plan request) = lin_PlanDigest (sc_Lineage scope)))
         || blank (arq_ActivationAttemptID request)) ErrorPreconditionFailed ReasonPlanInvalid ;;
  Digest_Validate (arq_RequirementDigest request) ;;
  Digest_Validate (arq_CapabilityGrantDigest request) ;;
  guard (N.eqb (pbg_MaxRequests budget) 0 || Z.leb (pbg_MaxDuration budget) 0
         || pbg_PossibleCharge budget || pbg_PossibleMutation budget)
    ErrorPreconditionFailed ReasonPlanInvalid ;;
  guard (Z.leb (arq_FenceTTL request) 0 || negb (After (arq_IdentityLeaseExpiresAt request) now))
    ErrorInvalidArgument ReasonInvalidReference ;;
  for_each (fun intent => EffectIntent_Validate (set_PersistedAt now intent))
    [arq_AllocateIntent request; arq_ActivateIntent request; arq_OpenIntent request].

(** The anonymous struct whose digest a snapshot carries. *)
Definition activation_document `{ZoneDatabase} (scope : ExecutionScope) (plan preflight sandbox : Digest)
    (expiresAt : Time) : option json :=
  match json_time expiresAt with
  | None => None
  | Some expires =>
      Some (JStruct [field "Scope" (ExecutionScope_json scope); field "Plan" (JString plan);
                     field "Preflight" (JString preflight); field "Sandbox" (JString sandbox);
                     field "ExpiresAt" expires])
  end.

Definition buildActivationSnapshot `{ZoneDatabase} (request : ActivationRequest)
    (preflight : ExecutionPreflightReport) : result ActivationSnapshot :=
  let plan := arq_Plan request in
  let expiresAt := if Before (arq_IdentityLeaseExpiresAt request) (epr_EvidenceExpiry preflight)
                   then arq_IdentityLeaseExpiresAt request else epr_EvidenceExpiry preflight in
  digest ← DigestJSON (option_map json_Marshal
             (activation_document (arq_ProposedScope request) (plan_Digest plan)
                (epr_EvidenceDigest preflight) (arq_RequirementDigest request) expiresAt)) ;
  let snapshot :=
    {| as_Digest := digest; as_AuthorityEpoch := sc_AuthorityEpoch (arq_ProposedScope request);
       as_EntitlementDigest := plan_AuthorityDigest plan; as_RouteDigest := plan_Digest plan;
       as_CapabilityEvidenceDigest := epr_EvidenceDigest preflight;
       as_PolicyDigest := plan_AuthorityDigest plan; as_BudgetPolicyDigest := plan_AuthorityDigest plan;
       as_SandboxRequirementDigest := arq_RequirementDigest request; as_RequestedExecutableCap := 0;
       as_BudgetUnit := ""; as_EvidenceExpiresAt := expiresAt |} in
  ActivationSnapshot_Validate snapshot ;;
  Ok snapshot.

Definition persistIntent (scope : ExecutionScope) (intent : EffectIntent) (kind : string) : Co EffectIntent :=
  now ← co_now ;
  let intent := set_PersistedAt now intent in
  co_lift (EffectIntent_Validate intent) ;;
  ref ← port (call (c_AppendIntent
          {| eir_Scope := scope; eir_Kind := kind; eir_PayloadDigest := ei_CanonicalPayloadDigest intent;
             eir_CausationID := ei_ID intent |})) ;
  record ← port (call (c_ReadEvidence ref)) ;
  let intent := set_PersistedAt (evr_RecordedAt record) intent in
  co_lift (EffectIntent_Validate intent) ;;
  mret intent.

(** core.DigestJSON of an observation. *)
Definition observation_digest `{ZoneDatabase} (o : SandboxLeaseObservation) : result Digest :=
  DigestJSON (option_map json_Marshal (SandboxLeaseObservation_json o)).

(** The record the attempt starts with. *)
Definition proposed_attempt (request : ActivationRequest) (now : Time) : ActivationAttempt :=
  let not_started := operation OperationNotStarted "" "" "" in
  let expected := wrap64 (id_Epoch (sc_Identity (arq_ProposedScope request)) + max_u64) in
  {| at_ID := arq_ActivationAttemptID request; at_Scope := arq_ProposedScope request;
     at_ExpectedIdentityEpoch := expected; at_RequirementDigest := arq_RequirementDigest request;
     at_Stage := StageProposed; at_Recovery := RecoveryNormal; at_Snapshot := None;
     at_IdentityLeaseID := ""; at_IdentityLeaseState := IdentityLeaseUnset; at_IdentityLeaseRevision := 0;
     at_Budget := not_started; at_SandboxReservation := not_started; at_SandboxActivation := not_started;
     at_SandboxFenced := false; at_FailureReason := ""; at_Revision := 1;
     at_CreatedAt := now; at_UpdatedAt := now |}.

Section activate.
Context `{ZoneDatabase} (range : Range) (c : Coordinator) (request : ActivationRequest).
Let scope := arq_ProposedScope request.

(** From the new aggregate to the accepted preflight and the frozen snapshot. *)
Definition activate_preflight (now : Time) : Co (Aggregate * ActivationAttempt) :=
  aggregate ← co_lift (NewAggregate scope (proposed_state PhasePending)) ;
  attempt ← port (call (c_CreateAttempt (proposed_attempt request now))) ;
  aggregate ← move aggregate (proposed_state PhaseAdmitted) ;
  aggregate ← move aggregate (proposed_state PhasePreflighting) ;
  attempt ← advanceActivation attempt StagePreflighting id ;
  preflight ← port (call (c_Preflight
                {| epq_ProposedScope := scope; epq_RequirementDigest := arq_RequirementDigest request;
                   epq_ProbeBudget := arq_ProbeBudget request |})) ;
  co_lift (guard (negb (epr_Accepted preflight) || bool_decide (cd_ID (epr_Descriptor preflight) = "")
                  || negb (bool_decide (epr_RequirementDigest preflight = arq_RequirementDigest request))
                  || negb (Before now (epr_EvidenceExpiry preflight)))
             ErrorPreconditionFailed ReasonReadyEvidenceIncomplete) ;;
  attempt ← advanceActivation attempt StagePreflightPassed id ;
  snapshot ← co_lift (buildActivationSnapshot request preflight) ;
  attempt ← advanceActivation attempt StageSnapshotFrozen (set_at_Snapshot snapshot) ;
  aggregate ← move aggregate (proposed_state PhaseActivating) ;
  mret (aggregate, attempt).

(** The reserved identity lease and the resolved budget. *)
Definition activate_reserve (aggregate : Aggregate) (attempt : ActivationAttempt)
    : Co (Aggregate * ActivationAttempt * IdentityExecutionLease) :=
  identityLease ← port (call (c_ReserveLease
    {| rsv_TenantID := id_TenantID (sc_Identity scope); rsv_IdentityID := id_ID (sc_Identity scope);
       rsv_ExpectedIdentityEpoch := wrap64 (id_Epoch (sc_Identity scope) + max_u64);
       rsv_Lineage := sc_Lineage scope; rsv_ActivationAttemptID := arq_ActivationAttemptID request;
       rsv_AuthorityEpoch := sc_AuthorityEpoch scope;
       rsv_ExpiresAt := arq_IdentityLeaseExpiresAt request |})) ;
  co_lift (guard (negb (bool_decide (il_Identity identityLease = sc_Identity scope)))
             ErrorPreconditionFailed ReasonStaleIdentityEpoch) ;;
  attempt ← advanceActivation attempt StageIdentityLeaseReserved (set_at_Lease identityLease) ;
  attempt ← advanceActivation attempt StageBudgetResolved
              (set_at_Budget (operation OperationNotRequired "" "" "")) ;
  aggregate ← move aggregate (bound_state PhaseActivating) ;
  mret (aggregate, attempt, identityLease).

(** The sandbox allocation: intent, journal, effect, journal. *)
Definition activate_allocate (now : Time) (attempt : ActivationAttempt)
    : Co (ActivationAttempt * SandboxLeaseObservation) :=
  intent ← persistIntent scope (arq_AllocateIntent request) "sandbox_allocate" ;
  attempt ← advanceActivation attempt StageBudgetResolved
              (set_at_Reservation (operation OperationIntentRecorded (ei_ID intent) "" "")) ;
  let fence := makeFence scope FenceBoundaryActivation (arq_CapabilityGrantDigest request) intent
                 (AddDuration now (arq_FenceTTL request)) in
  prog_bind (call (c_Allocate
    {| saq_ProposedInstance := sc_Instance scope; saq_RequirementDigest := arq_RequirementDigest request;
       saq_FenceEpoch := inst_Epoch (sc_Instance scope); saq_Intent := intent; saq_Fence := fence |}))
  (fun reply =>
  match reply with
  | Err e =>
      prog_bind (quarantineActivation attempt
        (set_at_Reservation (operation OperationUnknownOutcome (ei_ID intent) "" ""))
        "sandbox allocation outcome is unknown") (fun _ => Ret (Err e))
  | Ok allocation =>
      co_lift (guard (negb (bool_decide (slo_State allocation = "reserved_quarantined")))
                 ErrorPreconditionFailed ReasonInvalidState) ;;
      evidence ← co_lift (observation_digest allocation) ;
      attempt ← advanceActivation attempt StageSandboxReserved
        (set_at_Reservation (operation OperationConfirmedApplied (ei_ID intent)
                               (sbx_ID (slo_Lease allocation)) evidence)) ;
      mret (attempt, allocation)
  end).

(** The commit, of the journal and of the aggregate. *)
Definition activate_commit (aggregate : Aggregate) (attempt : ActivationAttempt)
    (identityLease : IdentityExecutionLease) (allocation : SandboxLeaseObservation)
    : Co (Aggregate * ActivationAttempt * IdentityExecutionLease) :=
  committed ← port (call (c_CommitActivation
    {| acr_AttemptID := at_ID attempt; acr_ExpectedAttemptRevision := at_Revision attempt;
       acr_IdentityLeaseID := il_ID identityLease;
       acr_ExpectedIdentityLeaseRevision := il_Revision identityLease;
       acr_SandboxLease := slo_Lease allocation; acr_AuthorityEpoch := sc_AuthorityEpoch scope |})) ;
  match Aggregate_CommitActivation
          {| ac_Preconditions := preconditions (Aggregate_Snapshot aggregate);
             ac_SandboxLease := slo_Lease allocation; ac_NextState := bound_state PhaseProvisioning |}
          aggregate with
  | (aggregate', Ok _) => mret (aggregate', acm_Attempt committed, acm_IdentityLease committed)
  | (_, Err e) => co_lift (Err e)
  end.

(** The sandbox activation, in the committed scope. *)
Definition activate_sandbox (aggregate : Aggregate) (attempt : ActivationAttempt)
    : Co (Aggregate * ActivationAttempt) :=
  let bound := snap_Scope (Aggregate_Snapshot aggregate) in
  intent ← persistIntent bound (arq_ActivateIntent request) "sandbox_activate" ;
  attempt ← advanceActivation attempt StageCommitted
              (set_at_Activation (operation OperationIntentRecorded (ei_ID intent) "" "")) ;
  now ← co_now ;
  let fence := makeFence bound FenceBoundaryInstance (arq_CapabilityGrantDigest request) intent
                 (AddDuration now (arq_FenceTTL request)) in
  prog_bind (call (c_ActivateSandbox {| sav_Scope := bound; sav_Intent := intent; sav_Fence := fence |}))
  (fun reply =>
  match reply with
  | Err e =>
      prog_bind (quarantineActivation attempt
        (set_at_Activation (operation OperationUnknownOutcome (ei_ID intent) "" ""))
        "sandbox activation outcome is unknown") (fun _ => Ret (Err e))
  | Ok observation =>
      evidence ← co_lift (observation_digest observation) ;
      attempt ← advanceActivation attempt StageSandboxActive
        (set_at_Activation (operation OperationConfirmedApplied (ei_ID intent)
                              (sbx_ID (slo_Lease observation)) evidence)) ;
      aggregate ← move aggregate (bound_state PhaseBinding) ;
      mret (aggregate, attempt)
  end).

(** The execution endpoint and the two independent observations of ready. *)
Definition activate_open (bound : ExecutionScope) (aggregate : Aggregate) (lease : SandboxLeaseRef)
    : Co (Aggregate * ExecutionEndpointRef) :=
  intent ← persistIntent bound (arq_OpenIntent request) "execution_open" ;
  now ← co_now ;
  let fence := makeFence bound FenceBoundaryInstance (arq_CapabilityGrantDigest request) intent
                 (AddDuration now (arq_FenceTTL request)) in
  endpoint ← port (call (c_Open
    {| eoq_Scope := bound; eoq_RequirementDigest := arq_RequirementDigest request; eoq_Intent := intent;
       eoq_Fence := fence |})) ;
  aggregate ← move aggregate (bound_state PhaseStarting) ;
  environment ← port (call (c_InspectSandbox lease)) ;
  execution ← port (call (c_InspectExecution
    {| eiq_Scope := bound; eiq_Endpoint := endpoint; eiq_InspectKind := "ready" |})) ;
  co_lift (guard (negb (bool_decide (slo_State environment = "active"))
                  || negb (bool_decide (eob_SourceComponentID execution = eer_ComponentID endpoint))
                  || negb (bool_decide (eob_ObservationKind execution = "ready:ready")))
             ErrorPreconditionFailed ReasonReadyEvidenceIncomplete) ;;
  aggregate ← move aggregate (bound_state PhaseReady) ;
  mret (aggregate, endpoint).

Definition Activate : Co Instance_ :=
  co_lift (Coordinator_validate c) ;;
  now ← co_now ;
  co_lift (validateActivationRequest range request now) ;;
  bindings ← port (call (c_Resolve (arq_Plan request) now)) ;
  p ← activate_preflight now ;
  r ← activate_reserve p.1 p.2 ;
  a ← activate_allocate now r.1.2 ;
  k ← activate_commit r.1.1 a.1 r.2 a.2 ;
  s ← activate_sandbox k.1.1 k.1.2 ;
  o ← activate_open (snap_Scope (Aggregate_Snapshot k.1.1)) s.1 (slo_Lease a.2) ;
  mret {| in_aggregate := o.1; in_legacyRuns := NewRunRegistry; in_plan := arq_Plan request;
          in_bindings := bindings; in_identityLease := k.2; in_activation := s.2; in_endpoint := o.2;
          in_capabilityDigest := arq_CapabilityGrantDigest request; in_fenceTTL := arq_FenceTTL request;
          in_activeRun := None |}.
End activate.

Definition RecoverActivation (c : Coordinator) (attemptID : string)
    : Co (ActivationAttempt * result RecoveryDecision) :=
  co_lift (guard (bool_decide (co_ActivationFacts c = None)) ErrorInvalidArgument ReasonComponentMissing) ;;
  attempt ← port (call (c_InspectAttempt attemptID)) ;
  now ← co_now ;
  mret (attempt, PlanRecovery attempt now).

(** ** Methods of an instance

    The instance survives an error return with whatever was written to it. *)
Definition Session (A : Type) : Type := Instance_ -> Prog Reply (Instance_ * result A).
#[export] Instance Session_ret : MRet Session := fun A a i => Ret (i, Ok a).
#[export] Instance Session_bind : MBind Session :=
  fun A B k m i => prog_bind (m i) (fun o => match o with (i, Ok a) => k a i | (i, Err e) => Ret (i, Err e) end).

Definition se_port {A} (m : Co A) : Session A := fun i => prog_bind m (fun o => Ret (i, o)).
Definition se_lift {A} (m : result A) : Session A := fun i => Ret (i, m).
Definition se_get : Session Instance_ := fun i => Ret (i, Ok i).
Definition se_modify (f : Instance_ -> Instance_) : Session unit := fun i => Ret (f i, Ok tt).
Definition se_now : Session Time := se_port co_now.

(** A state-monad call on the aggregate or on the run registry of the instance. *)
Definition on_aggregate {A} (m : ST Aggregate error A) : Session A :=
  fun i => let '(a, o) := m (in_aggregate i) in Ret (set_in_aggregate a i, o).
Definition on_runs {A} (m : ST RunRegistry error A) : Session A :=
  fun i => let '(r, o) := m (in_legacyRuns i) in Ret (set_in_legacyRuns r i, o).
(** `_, _ = ...` *)
Definition ignore {A} (m : Session A) : Session unit := fun i => prog_bind (m i) (fun o => Ret (o.1, Ok tt)).

(** The nil check every method starts with. *)
Definition on_instance {A} (m : Session A) (instance : option Instance_) : Prog Reply (option Instance_ * result A) :=
  match instance with
  | None => Ret (None, fail ErrorInvalidArgument ReasonInvalidReference)
  | Some i => prog_bind (m i) (fun o => Ret (Some o.1, o.2))
  end.

(** The error branch after the registry accepted the run. *)
Definition rollback_run (scope : ExecutionScope) (runID : string) (e : error) : Session AgentRunRecord :=
  now ← se_now ;
  ignore (on_runs (Registry_Finish scope runID OutcomeFailed now)) ;;
  se_lift (Err e).

(** The transition to running, and its two outcomes. *)
Definition enter_running (scope : ExecutionScope) (runID : string) (record : AgentRunRecord)
    : Session AgentRunRecord :=
  fun i =>
  match transition (bound_state PhaseRunning) emptyTransitionContext (in_aggregate i) with
  | (a, Ok _) => Ret (set_in_activeRun (Some record) (set_in_aggregate a i), Ok record)
  | (a, Err e) => rollback_run scope runID e (set_in_aggregate a i)
  end.

Definition StartRun (runID sessionRef : string) : Session AgentRunRecord :=
  i ← se_get ;
  let snapshot := Aggregate_Snapshot (in_aggregate i) in
  se_lift (guard (negb (phase_is (Phase (snap_State snapshot)) PhaseReady)
                  || bool_decide (in_activeRun i <> None)) ErrorConflict ReasonRunConflict) ;;
  now ← se_now ;
  record ← on_runs (Registry_Start (snap_Scope snapshot) runID sessionRef now) ;
  enter_running (snap_Scope snapshot) runID record.

Record StopRequest := {
  sq_Outcome : ExecutionOutcome;
  sq_Reason : string;
  sq_CloseIntent : EffectIntent;
  sq_ReleaseIntent : EffectIntent;
}.

(** `if err != nil || observation.State != state { return CLEANUP_EVIDENCE_INCOMPLETE }` *)
Definition evidence_of {A} (ok : A -> bool) (reply : Prog Reply (result A)) : Session A :=
  fun i => prog_bind reply (fun o =>
    match o with
    | Ok observation =>
        if ok observation then Ret (i, Ok observation)
        else Ret (i, fail ErrorIndeterminate ReasonCleanupEvidenceIncomplete)
    | Err _ => Ret (i, fail ErrorIndeterminate ReasonCleanupEvidenceIncomplete)
    end).

Definition sandbox_in (state : string) (o : SandboxLeaseObservation) : bool := bool_decide (slo_State o = state).

Section stop.
Context (request : StopRequest).

(** The active run, if any, is finished with the caller's outcome. *)
Definition stop_run (snapshot : Snapshot) : Session unit :=
  i ← se_get ;
  match in_activeRun i with
  | None => mret tt
  | Some active =>
      now ← se_now ;
      finished ← on_runs (Registry_Finish (snap_Scope snapshot) (run_ID active) (sq_Outcome request) now) ;
      se_modify (set_in_activeRun (Some finished))
  end.

Definition stop_close (scope : ExecutionScope) : Session unit :=
  closeIntent ← se_port (persistIntent scope (sq_CloseIntent request) "execution_close") ;
  now ← se_now ;
  i ← se_get ;
  let closeFence := makeFence scope FenceBoundaryInstance (in_capabilityDigest i) closeIntent
                      (AddDuration now (in_fenceTTL i)) in
  evidence_of (fun o => bool_decide (eob_ObservationKind o = "closed"))
    (call (c_Close {| ecq_Scope := scope; ecq_Endpoint := in_endpoint i; ecq_Reason := sq_Reason request;
                      ecq_Intent := closeIntent; ecq_Fence := closeFence |})) ;;
  mret tt.

(** Dereferencing the nil lease of a scope is [GoPanic]. *)
Definition stop_release (scope : ExecutionScope) : Session unit :=
  releaseIntent ← se_port (persistIntent scope (sq_ReleaseIntent request) "sandbox_release") ;
  lease ← se_lift (match sc_SandboxLease scope with Some l => Ok l | None => Err GoPanic end) ;
  evidence_of (sandbox_in "fenced")
    (call (c_FenceSandbox {| sfq_Lease := lease; sfq_Reason := sq_Reason request |})) ;;
  now ← se_now ;
  i ← se_get ;
  let releaseFence := makeFence scope FenceBoundaryInstance (in_capabilityDigest i) releaseIntent
                        (AddDuration now (in_fenceTTL i)) in
  evidence_of (sandbox_in "released")
    (call (c_ReleaseSandbox {| srq_Lease := lease; srq_Intent := releaseIntent; srq_Fence := releaseFence |})) ;;
  mret tt.

Definition stop_lease : Session unit :=
  i ← se_get ;
  let lease := in_identityLease i in
  revoked ← se_port (call (c_RevokeLease
    {| end_LeaseID := il_ID lease; end_ExpectedRevision := il_Revision lease; end_Reason := sq_Reason request |})) ;
  released ← se_port (call (c_ReleaseLease
    {| end_LeaseID := il_ID revoked; end_ExpectedRevision := il_Revision revoked;
       end_Reason := sq_Reason request |})) ;
  se_modify (set_in_identityLease released).

Definition Stop : Session TerminationReport :=
  i ← se_get ;
  let snapshot := Aggregate_Snapshot (in_aggregate i) in
  se_lift (guard (negb (phase_is (Phase (snap_State snapshot)) PhaseReady)
                  && negb (phase_is (Phase (snap_State snapshot)) PhaseRunning))
             ErrorPreconditionFailed ReasonInvalidState) ;;
  stop_run snapshot ;;
  on_aggregate (transition (bound_state PhaseStopping) emptyTransitionContext) ;;
  i ← se_get ;
  let scope := snap_Scope (Aggregate_Snapshot (in_aggregate i)) in
  stop_close scope ;;
  stop_release scope ;;
  stop_lease ;;
  terminal ← on_aggregate (transition closed_state emptyTransitionContext) ;
  now ← se_now ;
  let report :=
    {| term_Scope := snap_Scope terminal; term_State := snap_State terminal;
       term_ExecutionOutcome := sq_Outcome request; term_EffectSettlement := "settled";
       term_RemoteContinuationsStatus := "none"; term_ProviderRetentionStatus := "none";
       term_CompletedAt := now |} in
  se_lift (TerminationReport_Validate report) ;;
  mret report.
End stop.

(** ** Checkpoint and Restore *)

Record CheckpointRequest := {
  ckq_ID : string;
  ckq_Epoch : N;
  ckq_BarrierID : string;
  ckq_Effects : EffectWatermarks;
  ckq_EventWatermark : TimelinePoint;
}.

Definition checkpointSnapshot (report : CheckpointParticipantReport) (required : bool)
    : CheckpointParticipantSnapshot :=
  {| cp_ComponentID := cpr_ComponentID report; cp_ComponentKind := ComponentKind_string (cpr_ComponentKind report);
     cp_Required := required; cp_State := cpr_State report; cp_SnapshotRef := cpr_SnapshotRef report;
     cp_SnapshotDigest := cpr_SnapshotDigest report |}.

(** A method whose error return carries a partial value: the value and the
    error, [None] when nil. *)
Definition Partial (A : Type) : Type := Prog Reply (A * option error).

Section checkpoint.
Context (request : CheckpointRequest).

Definition buildCheckpoint (instance : Instance_) (scope : ExecutionScope)
    (reports : list CheckpointParticipantSnapshot) (consistency : CheckpointConsistency)
    : Prog Reply CheckpointSet :=
  prog_bind (call c_Now) (fun now => Ret
    {| ck_ID := ckq_ID request; ck_Epoch := ckq_Epoch request; ck_BarrierID := ckq_BarrierID request;
       ck_Scope := scope; ck_PlanDigest := plan_Digest (in_plan instance);
       ck_ProfileDigest := plan_ProfileDigest (in_plan instance);
       ck_ContextDigest := plan_ContextDigest (in_plan instance);
       ck_AuthorityEpoch := sc_AuthorityEpoch scope; ck_Effects := ckq_Effects request;
       ck_EventWatermark := ckq_EventWatermark request; ck_Participants := reports;
       ck_Consistency := consistency; ck_CreatedAt := now |}).

(** `for index, prior := range prepared { ... AbortCheckpoint ... }` *)
Fixpoint abort_prepared (index : nat) (prepared : list CheckpointBinding)
    (reports : list CheckpointParticipantSnapshot) : Prog Reply (list CheckpointParticipantSnapshot) :=
  match prepared with
  | [] => Ret reports
  | prior :: rest =>
      prog_bind (call (c_AbortCheckpoint (cb_Port prior)
        {| caq_BarrierID := ckq_BarrierID request; caq_Epoch := ckq_Epoch request;
           caq_Reason := "participant_prepare_failed" |}))
      (fun aborted => abort_prepared (S index) rest
        (match aborted with
         | Ok report => <[index := checkpointSnapshot report (cb_Required prior)]> reports
         | Err _ => reports
         end))
  end.

(** The prepare loop: the reports of the prepared participants, which without an
    error are all of them, or the reports after the aborts and the error. *)
Fixpoint prepare_participants (scope : ExecutionScope) (bindings prepared : list CheckpointBinding)
    (reports : list CheckpointParticipantSnapshot)
    : Prog Reply (list CheckpointParticipantSnapshot * option error) :=
  match bindings with
  | [] => Ret (reports, None)
  | binding :: rest =>
      prog_bind (call (c_PrepareCheckpoint (cb_Port binding)
        {| cpq_BarrierID := ckq_BarrierID request; cpq_Epoch := ckq_Epoch request; cpq_Scope := scope;
           cpq_Effects := ckq_Effects request |}))
      (fun reply =>
       match reply with
       | Err e => prog_bind (abort_prepared 0 prepared reports) (fun reports => Ret (reports, Some e))
       | Ok report =>
           prepare_participants scope rest (prepared ++ [binding])
             (reports ++ [checkpointSnapshot report (cb_Required binding)])
       end)
  end.

(** The commit loop, over the prepared participants. *)
Fixpoint commit_participants (index : nat) (prepared : list CheckpointBinding)
    (reports : list CheckpointParticipantSnapshot)
    : Prog Reply (list CheckpointParticipantSnapshot * option error) :=
  match prepared with
  | [] => Ret (reports, None)
  | binding :: rest =>
      prog_bind (call (c_CommitCheckpoint (cb_Port binding)
        {| ccq_BarrierID := ckq_BarrierID request; ccq_Epoch := ckq_Epoch request |}))
      (fun reply =>
       match reply with
       | Err e => Ret (reports, Some e)
       | Ok report =>
           commit_participants (S index) rest
             (<[index := checkpointSnapshot report (cb_Required binding)]> reports)
       end)
  end.

(** The zero CheckpointSet of the other error returns is [None]. *)
Definition Checkpoint (c : Coordinator) (instance : option Instance_) : Partial (option CheckpointSet) :=
  match instance with
  | None => Ret (None, Some (NewError ErrorInvalidArgument ReasonInvalidReference))
  | Some instance =>
      let participants := co_CheckpointParticipants c in
      let snapshot := Aggregate_Snapshot (in_aggregate instance) in
      let scope := snap_Scope snapshot in
      let phase := Phase (snap_State snapshot) in
      if Nat.eqb (length participants) 0
      then Ret (None, Some (NewError ErrorCapabilityUnavailable ReasonCheckpointUnsupported))
      else if negb (phase_is phase PhaseReady) && negb (phase_is phase PhaseRunning)
      then Ret (None, Some (NewError ErrorPreconditionFailed ReasonCheckpointInconsistent))
      else
        prog_bind (prepare_participants scope participants [] []) (fun prepared =>
        match prepared with
        | (reports, Some e) =>
            prog_bind (buildCheckpoint instance scope reports CheckpointPartial)
              (fun partial => Ret (Some partial, Some e))
        | (reports, None) =>
            prog_bind (commit_participants 0 participants reports) (fun committed =>
            match committed with
            | (reports, Some e) =>
                prog_bind (buildCheckpoint instance scope reports CheckpointIndeterminate)
                  (fun partial => Ret (Some partial, Some e))
            | (reports, None) =>
                prog_bind (buildCheckpoint instance scope reports CheckpointConsistent) (fun checkpoint =>
                match CheckpointSet_Validate checkpoint with
                | Err e => Ret (None, Some e)
                | Ok _ => Ret (Some checkpoint, None)
                end)
            end)
        end)
  end.
End checkpoint.

Record RestoreResult := {
  rsr_ProposedScope : ExecutionScope;
  rsr_Reports : list CheckpointParticipantReport;
}.

(** The scope of the restored instance. *)
Definition restored_scope (request : RestoreRequest) : ExecutionScope :=
  let old := ck_Scope (rst_Checkpoint request) in
  {| sc_Identity := {| id_TenantID := id_TenantID (sc_Identity old); id_ID := id_ID (sc_Identity old);
                       id_Epoch := u64_succ (id_Epoch (sc_Identity old)) |};
     sc_Lineage := sc_Lineage old; sc_Instance := rst_NewInstance request; sc_SandboxLease := None;
     sc_AuthorityEpoch := rst_CurrentAuthorityEpoch request |}.

Definition snapshot_map (participants : list CheckpointParticipantSnapshot)
    : gmap string CheckpointParticipantSnapshot :=
  foldl (fun m p => <[cp_ComponentID p := p]> m) ∅ participants.

Fixpoint restore_participants (request : RestoreRequest) (snapshots : gmap string CheckpointParticipantSnapshot)
    (bindings : list CheckpointBinding) (reports : list CheckpointParticipantReport)
    : Co (list CheckpointParticipantReport) :=
  match bindings with
  | [] => mret reports
  | binding :: rest =>
      descriptor ← port (call (c_DescribeParticipant (cb_Port binding))) ;
      match snapshots !! cd_ID descriptor with
      | None =>
          co_lift (guard (cb_Required binding) ErrorPreconditionFailed ReasonRestoreIncompatible) ;;
          restore_participants request snapshots rest reports
      | Some snapshot =>
          report ← port (call (c_RestoreCheckpoint (cb_Port binding)
            {| crq_CheckpointID := ck_ID (rst_Checkpoint request); crq_SnapshotRef := cp_SnapshotRef snapshot;
               crq_SnapshotDigest := cp_SnapshotDigest snapshot; crq_NewScope := restored_scope request |})) ;
          restore_participants request snapshots rest (reports ++ [report])
      end
  end.

Definition Coordinator_Restore (c : Coordinator) (request : RestoreRequest) : Co RestoreResult :=
  co_lift (RestoreRequest_Validate request) ;;
  reports ← restore_participants request (snapshot_map (ck_Participants (rst_Checkpoint request)))
              (co_CheckpointParticipants c) [] ;
  mret {| rsr_ProposedScope := restored_scope request; rsr_Reports := reports |}.
