(* ===== verification/CoordinatorSafety.v ===== *)
(** * The order of the coordinator's effects

    What Activate and Stop do to the outside world, in every environment: each
    effect is made at most once and in order, and only after its intent is in
    the evidence ledger and, where the activation journal covers it, recorded
    in the journal.  All claims are weakest preconditions over the calls, so
    they hold at every call of every run, whatever the ports answer. *)

From stdpp Require Import gmap.
From S2P Require Import Prelude GoStd Errors Identity State Aggregate Fence RunFact Continuity IdentityLease Activation Recovery RunRegistry Assembly Json EffectContract Interaction ComponentPorts Coordinator.

(** ** Weakest preconditions of the two monads

    [fails] must hold whenever the method returns an error. *)
Section monads.
Context {W : Type} (answers : W -> forall c, Reply c -> W -> Prop).
Context (before : W -> list (event Reply) -> PortCall -> Prop).
Context (fails : W -> list (event Reply) -> Prop).

Definition wpc {A} (m : Co A) (Q : A -> W -> list (event Reply) -> Prop) (w : W) (tr : list (event Reply)) : Prop :=
  wp answers before m (fun o w tr => match o with Ok a => Q a w tr | Err _ => fails w tr end) w tr.

Lemma wpc_mono {A} (m : Co A) (P Q : A -> W -> list (event Reply) -> Prop) w tr :
  (forall a w' tr', P a w' tr' -> Q a w' tr') -> wpc m P w tr -> wpc m Q w tr.
Proof. intros H. apply wp_mono. intros [a |]; auto. Qed.

Lemma wpc_bind {A B} (m : Co A) (k : A -> Co B) Q w tr :
  wpc m (fun a => wpc (k a) Q) w tr -> wpc (m ≫= k) Q w tr.
Proof.
  intros H. apply wp_bind. eapply wp_mono; [| exact H]. by intros [a | e] w' tr'.
Qed.

Lemma wpc_ret {A} (a : A) (Q : A -> W -> list (event Reply) -> Prop) w tr : Q a w tr -> wpc (mret a) Q w tr.
Proof. done. Qed.

Lemma wpc_lift {A} (m : result A) (Q : A -> W -> list (event Reply) -> Prop) w tr :
  fails w tr -> (forall a, m = Ok a -> Q a w tr) -> wpc (co_lift m) Q w tr.
Proof. intros Hf H. destruct m as [a | e]; [by apply H | exact Hf]. Qed.

Lemma wpc_guard b cat reason (Q : unit -> W -> list (event Reply) -> Prop) w tr :
  fails w tr -> (b = false -> Q tt w tr) -> wpc (co_lift (guard b cat reason)) Q w tr.
Proof. intros Hf H. apply wpc_lift; [done |]. intros [] E. apply H. by apply guard_Ok in E. Qed.

Lemma wpc_now (Q : Time -> W -> list (event Reply) -> Prop) w tr :
  before w tr c_Now -> (forall t w', answers w c_Now t w' -> Q t w' (tr ++ [Event c_Now t])) ->
  wpc co_now Q w tr.
Proof. intros Hb H. split; [done |]. intros t w' Ht. by apply H. Qed.

Lemma wpc_move aggregate next (Q : Aggregate -> W -> list (event Reply) -> Prop) w tr :
  fails w tr ->
  (ValidateStateTransition (agg_state aggregate) next emptyTransitionContext = Ok tt ->
   validateScopeState (agg_scope aggregate) next = Ok tt ->
   Q {| agg_scope := agg_scope aggregate; agg_state := next;
        agg_revision := u64_succ (agg_revision aggregate) |} w tr) ->
  wpc (move aggregate next) Q w tr.
Proof.
  intros Hf H. unfold move, transition. st_go.
  destruct (Aggregate_Transition _ aggregate) as [a [snap | e]] eqn:E; [| exact Hf].
  destruct (Transition_inv _ _ _ _ E) as [[_ [? [=]]] | (_ & Hv & Hs & -> & _)]. by apply H.
Qed.
End monads.

(** ** What a trace holds *)

(** The calls that change something outside the coordinator, apart from the
    write-ahead of evidence and journal themselves. *)
Definition effectful (c : PortCall) : bool :=
  match c with
  | c_Now | c_Resolve _ _ | c_CreateAttempt _ | c_InspectAttempt _ | c_CompareAndSwap _ _
  | c_Preflight _ | c_InspectExecution _ | c_InspectSandbox _ | c_AppendIntent _ | c_ReadEvidence _
  | c_DescribeParticipant _ => false
  | _ => true
  end.

Definition effects (tr : list (event Reply)) : list PortCall :=
  List.filter effectful (map ev_call tr).

Lemma effects_app t1 t2 : effects (t1 ++ t2) = effects t1 ++ effects t2.
Proof. unfold effects. by rewrite map_app, List.filter_app. Qed.
Lemma effects_one c r : effects [Event c r] = if effectful c then [c] else [].
Proof. reflexivity. Qed.

(** The trace grew by calls without effects. *)
Definition quietly (tr tr' : list (event Reply)) : Prop :=
  (forall e, e ∈ tr -> e ∈ tr') /\ effects tr' = effects tr.

Lemma quietly_refl tr : quietly tr tr.
Proof. done. Qed.
Lemma quietly_trans t1 t2 t3 : quietly t1 t2 -> quietly t2 t3 -> quietly t1 t3.
Proof. intros [I1 E1] [I2 E2]. split; [auto | congruence]. Qed.
Lemma quietly_call tr c r : effectful c = false -> quietly tr (tr ++ [Event c r]).
Proof.
  intros E. split; [set_solver |]. by rewrite effects_app, effects_one, E, app_nil_r.
Qed.

Lemma last_event (tr : list (event Reply)) e : e ∈ tr ++ [e].
Proof. apply elem_of_app. right. by left. Qed.

(** Follow the growth of a trace back from its end. *)
Ltac quiet_chain :=
  solve [repeat first
    [ apply quietly_refl | eassumption | by apply quietly_call
    | eapply quietly_trans; [| eassumption] | eapply quietly_trans; [| by apply quietly_call] ]].

(** The trace grew by one effect and its reply, and calls without effects. *)
Record did (c : PortCall) (r : Reply c) (tr tr' : list (event Reply)) : Prop := {
  did_grows : forall e, e ∈ tr -> e ∈ tr';
  did_effects : effects tr' = effects tr ++ [c];
  did_event : Event c r ∈ tr';
}.

Arguments did_grows {c r tr tr'} _ _ _.
Arguments did_effects {c r tr tr'} _.
Arguments did_event {c r tr tr'} _.

Lemma did_intro c r tr mid tr' :
  effectful c = true -> quietly tr mid -> quietly (mid ++ [Event c r]) tr' -> did c r tr tr'.
Proof.
  intros Ec [I1 E1] [I2 E2]. split.
  - intros e He. apply I2, elem_of_app. auto.
  - by rewrite E2, effects_app, effects_one, Ec, E1.
  - apply I2, last_event.
Qed.

(** The intent was appended to the evidence ledger and read back. *)
Definition intent_record (scope : ExecutionScope) (kind : string) (i : EffectIntent) : EvidenceIntentRecord :=
  {| eir_Scope := scope; eir_Kind := kind; eir_PayloadDigest := ei_CanonicalPayloadDigest i;
     eir_CausationID := ei_ID i |}.

Definition persisted (tr : list (event Reply)) (scope : ExecutionScope) (kind : string)
    (original intent : EffectIntent) : Prop :=
  exists ref record,
    Event (c_AppendIntent (intent_record scope kind original)) (Ok ref) ∈ tr
    /\ Event (c_ReadEvidence ref) (Ok record) ∈ tr
    /\ intent = set_PersistedAt (evr_RecordedAt record) original
    /\ EffectIntent_Validate intent = Ok tt.

(** The journal acknowledged a record in which the operation has this intent. *)
Definition intent_journalled (tr : list (event Reply)) (op : ActivationAttempt -> ActivationOperation) (intent : string)
    : Prop :=
  exists next stored,
    Event (c_CompareAndSwap next noTransitionContext) (Ok stored) ∈ tr
    /\ op next = operation OperationIntentRecorded intent "" "".

Lemma persisted_mono tr tr' scope kind i j :
  (forall e, e ∈ tr -> e ∈ tr') -> persisted tr scope kind i j -> persisted tr' scope kind i j.
Proof. intros H (ref & record & H1 & H2 & H3). exists ref, record. auto. Qed.
Lemma intent_journalled_mono tr tr' op i : (forall e, e ∈ tr -> e ∈ tr') -> intent_journalled tr op i -> intent_journalled tr' op i.
Proof. intros H (next & stored & H1 & H2). exists next, stored. auto. Qed.

(** The effect boundary's own check accepts the intent and its fence until the
    fence expires. *)
Definition dispatchable (intent : EffectIntent) (fence : ExecutionFence) (scope : ExecutionScope)
    (capability : Digest) : Prop :=
  forall now, (0 < instant now < instant (fence_ExpiresAt fence))%Z ->
    ValidateEffectDispatch intent fence
      {| cff_Scope := scope; cff_CapabilityGrantDigest := capability |} now = Ok tt.

Lemma bound_scope_valid scope lease :
  ExecutionScope_Validate scope = Ok tt -> SandboxLeaseRef_Validate lease = Ok tt ->
  ExecutionScope_Validate (set_SandboxLease (Some lease) scope) = Ok tt.
Proof. unfold ExecutionScope_Validate. rewrite !seq_Ok. cbn. tauto. Qed.

Lemma makeFence_dispatchable scope boundary capability intent expires :
  ExecutionScope_Validate scope = Ok tt -> Digest_Validate capability = Ok tt ->
  EffectIntent_Validate intent = Ok tt ->
  (boundary = FenceBoundaryActivation \/ boundary = FenceBoundaryInstance /\ sc_SandboxLease scope <> None) ->
  dispatchable intent (makeFence scope boundary capability intent expires) scope capability.
Proof.
  intros Hs Hc Hi Hb now Hnow. cbn in Hnow.
  pose proof Hi as Hid. unfold EffectIntent_Validate in Hid. rewrite !seq_guard_Ok in Hid.
  destruct Hid as (Hid & _ & Hid2). apply seq_Ok in Hid2 as [Hd _].
  unfold ValidateEffectDispatch, CheckFence, ExecutionFence_Validate, IsZero, Before. cbn [makeFence fence_EffectIntentID
    fence_EffectIntentRevision fence_CanonicalPayloadDigest fence_Scope fence_BoundaryScope
    fence_CapabilityGrantDigest fence_ExpiresAt cff_Scope cff_CapabilityGrantDigest].
  rewrite !seq_Ok, !guard_Ok. unfold sameOptionalLease.
  assert (bool_decide (boundary = FenceBoundaryInstance) && bool_decide (sc_SandboxLease scope = None) = false) as Eb.
  { destruct Hb as [-> | [-> Hl]]; [done |]. rewrite (bool_decide_eq_false_2 (_ = None)) by done. by rewrite andb_false_r. }
  repeat split; try done.
  - go_bool. auto.
  - destruct Hb as [-> | [-> _]]; done.
  - go_bool. lia.
  - go_bool. lia.
  - go_decide. rewrite !N.eqb_refl. destruct (sc_SandboxLease scope); go_decide; done.
Qed.

(** ** The helpers make no effect *)

Section quiet.
Context {W : Type} (answers : W -> forall c, Reply c -> W -> Prop).
Context (before : W -> list (event Reply) -> PortCall -> Prop).
Context (fails : W -> list (event Reply) -> Prop).
Context (quiet_allowed : forall w tr c, effectful c = false -> before w tr c).
Context (may_fail : forall w tr, fails w tr).

Lemma wp_timestamp previous (Q : Time -> W -> list (event Reply) -> Prop) w tr :
  (forall t w' tr', quietly tr tr' -> Q t w' tr') ->
  wpc answers before fails (monotonicTimestamp previous) Q w tr.
Proof.
  intros H. apply wpc_bind, wpc_now; [by apply quiet_allowed |]. intros t w' _.
  apply wpc_ret, H. by apply quietly_call.
Qed.

Lemma wp_advance current stage mutate (Q : ActivationAttempt -> W -> list (event Reply) -> Prop) w tr :
  (forall stored updated w' tr', quietly tr tr' ->
     Event (c_CompareAndSwap
              (mutate (next_attempt current stage (at_Recovery current) (at_FailureReason current) updated))
              noTransitionContext) (Ok stored) ∈ tr' -> Q stored w' tr') ->
  wpc answers before fails (advanceActivation current stage mutate) Q w tr.
Proof.
  intros H. apply wpc_bind, wp_timestamp. intros t w' tr' Hq.
  split; [by apply quiet_allowed |]. intros [stored | e] w2 _; [| apply may_fail].
  eapply H; [| apply last_event]. eapply quietly_trans; [exact Hq | by apply quietly_call].
Qed.

(** The error branch of an effect whose reply is an error. *)
Lemma wp_quarantine {A} current mutate reason e (Q : A -> W -> list (event Reply) -> Prop) w tr :
  wpc answers before fails (prog_bind (quarantineActivation current mutate reason) (fun _ => Ret (Err e))) Q w tr.
Proof.
  apply wp_bind. apply (wp_mono _ _ _ (fun _ _ _ => True)); [intros; apply may_fail |].
  apply wp_bind. split; [by apply quiet_allowed |]. intros t w1 _. apply wp_bind.
  split; [by apply quiet_allowed |]. by intros [stored | e'] w2 _.
Qed.

Lemma wp_persist scope intent kind (Q : EffectIntent -> W -> list (event Reply) -> Prop) w tr :
  (forall i w' tr', quietly tr tr' -> persisted tr' scope kind intent i -> Q i w' tr') ->
  wpc answers before fails (persistIntent scope intent kind) Q w tr.
Proof.
  intros H. apply wpc_bind, wpc_now; [by apply quiet_allowed |]. intros t w1 _.
  apply wpc_bind, wpc_lift; [apply may_fail |]. intros [] _. apply wpc_bind.
  split; [by apply quiet_allowed |]. intros [ref | e] w2 _; [| apply may_fail]. apply wpc_bind.
  split; [by apply quiet_allowed |]. intros [record | e] w3 _; [| apply may_fail].
  apply wpc_bind, wpc_lift; [apply may_fail |]. intros [] Hv. apply wpc_ret, H.
  - do 2 (eapply quietly_trans; [| by apply quietly_call]). by apply quietly_call.
  - exists ref, record. cbn. split; [set_solver | split; [set_solver | by split]].
Qed.
End quiet.

(** ** The protocol of Activate *)

Section activation.
Context (request : ActivationRequest).
Let scope := arq_ProposedScope request.
Let capability := arq_CapabilityGrantDigest request.

(** The state of an effect before which a call is allowed: the effects so far,
    and what the trace must hold. *)
Definition activation_allowed (tr : list (event Reply)) (c : PortCall) : Prop :=
  match c with
  | c_ReserveLease _ => effects tr = []
  | c_Allocate q => exists lq,
      effects tr = [c_ReserveLease lq]
      /\ persisted tr scope "sandbox_allocate" (arq_AllocateIntent request) (saq_Intent q)
      /\ intent_journalled tr at_SandboxReservation (ei_ID (saq_Intent q))
      /\ dispatchable (saq_Intent q) (saq_Fence q) scope capability
  | c_CommitActivation q => exists lq l aq o,
      effects tr = [c_ReserveLease lq; c_Allocate aq]
      /\ Event (c_ReserveLease lq) (Ok l) ∈ tr /\ il_Identity l = sc_Identity scope
      /\ il_ID l = acr_IdentityLeaseID q /\ il_Revision l = acr_ExpectedIdentityLeaseRevision q
      /\ Event (c_Allocate aq) (Ok o) ∈ tr
      /\ slo_State o = "reserved_quarantined" /\ slo_Lease o = acr_SandboxLease q
  | c_ActivateSandbox q => exists lq aq cq r,
      effects tr = [c_ReserveLease lq; c_Allocate aq; c_CommitActivation cq]
      /\ Event (c_CommitActivation cq) (Ok r) ∈ tr
      /\ sav_Scope q = set_SandboxLease (Some (acr_SandboxLease cq)) scope
      /\ persisted tr (sav_Scope q) "sandbox_activate" (arq_ActivateIntent request) (sav_Intent q)
      /\ intent_journalled tr at_SandboxActivation (ei_ID (sav_Intent q))
      /\ dispatchable (sav_Intent q) (sav_Fence q) (sav_Scope q) capability
  | c_Open q => exists lq aq cq vq o,
      effects tr = [c_ReserveLease lq; c_Allocate aq; c_CommitActivation cq; c_ActivateSandbox vq]
      /\ Event (c_ActivateSandbox vq) (Ok o) ∈ tr
      /\ sav_Scope vq = eoq_Scope q
      /\ persisted tr (eoq_Scope q) "execution_open" (arq_OpenIntent request) (eoq_Intent q)
      /\ dispatchable (eoq_Intent q) (eoq_Fence q) (eoq_Scope q) capability
  | _ => effectful c = false
  end.

Lemma activation_quiet tr c : effectful c = false -> activation_allowed tr c.
Proof. by destruct c. Qed.

Context {W : Type} (answers : W -> forall c, Reply c -> W -> Prop) `{ZoneDatabase} (range : Range).
Let before : W -> list (event Reply) -> PortCall -> Prop := fun _ => activation_allowed.
Let fails : W -> list (event Reply) -> Prop := fun _ _ => True.
Let quiet : forall w tr c, effectful c = false -> before w tr c := fun _ => activation_quiet.

Abbreviation wpa := (wpc answers before fails).

(** What the request's validation establishes. *)
Record request_ok : Prop := {
  rq_scope : ExecutionScope_Validate scope = Ok tt;
  rq_lease : sc_SandboxLease scope = None;
  rq_plan : plan_Digest (arq_Plan request) = lin_PlanDigest (sc_Lineage scope);
  rq_capability : Digest_Validate capability = Ok tt;
}.

Lemma validate_request now : validateActivationRequest range request now = Ok tt -> request_ok.
Proof.
  unfold validateActivationRequest. intros H0. go_inv. go_ok. go_bool.
  destruct_and!. split; try done.
  destruct (sc_SandboxLease (arq_ProposedScope request)) eqn:E; [| done]. naive_solver.
Qed.

Lemma wpa_preflight now (Q : Aggregate * ActivationAttempt -> W -> list (event Reply) -> Prop) w tr :
  (forall attempt w' tr', quietly tr tr' ->
     Q ({| agg_scope := scope; agg_state := proposed_state PhaseActivating; agg_revision := 4 |}, attempt) w' tr') ->
  wpa (activate_preflight request now) Q w tr.
Proof.
  intros HQ. unfold activate_preflight.
  apply wpc_bind, wpc_lift; [done |]. intros aggregate Ha.
  assert (aggregate = {| agg_scope := scope; agg_state := proposed_state PhasePending; agg_revision := 1 |}) as ->.
  { unfold NewAggregate in Ha. go_inv. by rewrite cloneScope_id. }
  apply wpc_bind. split; [by apply quiet |]. intros [attempt | e] w1 _; [| done].
  apply wpc_bind, wpc_move; [done |]. intros _ _. apply wpc_bind, wpc_move; [done |]. intros _ _.
  apply wpc_bind, wp_advance; [exact quiet | done |]. intros stored u1 w2 t2 Q2 _.
  apply wpc_bind. split; [by apply quiet |]. intros [preflight | e] w3 _; [| done].
  apply wpc_bind, wpc_guard; [done |]. intros _.
  apply wpc_bind, wp_advance; [exact quiet | done |]. intros stored2 u2 w4 t4 Q4 _.
  apply wpc_bind, wpc_lift; [done |]. intros snapshot _.
  apply wpc_bind, wp_advance; [exact quiet | done |]. intros stored3 u3 w5 t5 Q5 _.
  apply wpc_bind, wpc_move; [done |]. intros _ _. apply wpc_ret, HQ.
  quiet_chain.
Qed.

Lemma wpa_reserve aggregate attempt
    (Q : Aggregate * ActivationAttempt * IdentityExecutionLease -> W -> list (event Reply) -> Prop) w tr :
  effects tr = [] ->
  (forall attempt' lq l w' tr', did (c_ReserveLease lq) (Ok l) tr tr' -> il_Identity l = sc_Identity scope ->
     Q ({| agg_scope := agg_scope aggregate; agg_state := bound_state PhaseActivating;
           agg_revision := u64_succ (agg_revision aggregate) |}, attempt', l) w' tr') ->
  wpa (activate_reserve request aggregate attempt) Q w tr.
Proof.
  intros He HQ. unfold activate_reserve. apply wpc_bind.
  split; [exact He |]. intros [l | e] w1 _; [| done].
  apply wpc_bind, wpc_guard; [done |]. intros Hl. go_bool.
  apply wpc_bind, wp_advance; [exact quiet | done |]. intros stored1 u1 w2 t2 Q2 _.
  apply wpc_bind, wp_advance; [exact quiet | done |]. intros stored2 u2 w3 t3 Q3 _.
  apply wpc_bind, wpc_move; [done |]. intros _ _. apply wpc_ret. eapply HQ; [| exact Hl].
  eapply did_intro; [done | apply quietly_refl | quiet_chain].
Qed.

Lemma wpa_allocate now attempt
    (Q : ActivationAttempt * SandboxLeaseObservation -> W -> list (event Reply) -> Prop) w tr lq :
  request_ok -> effects tr = [c_ReserveLease lq] ->
  (forall attempt' aq o w' tr', did (c_Allocate aq) (Ok o) tr tr' -> slo_State o = "reserved_quarantined" ->
     Q (attempt', o) w' tr') ->
  wpa (activate_allocate request now attempt) Q w tr.
Proof.
  intros Hr He HQ. unfold activate_allocate.
  apply wpc_bind, wp_persist; [exact quiet | done |]. intros i w1 t1 Q1 Hp.
  apply wpc_bind, wp_advance; [exact quiet | done |]. intros stored u1 w2 t2 Q2 Hj.
  apply wp_bind. split.
  - exists lq. split; [by rewrite (proj2 Q2), (proj2 Q1) |].
    split; [by eapply persisted_mono; [apply Q2 |] |]. split; [by eexists _, _ |].
    destruct Hp as (_ & _ & _ & _ & _ & Hv). apply makeFence_dispatchable; try done; [apply Hr | apply Hr | by left].
  - intros [o | e] w3 _; [| by apply wp_quarantine].
    apply wpc_bind, wpc_guard; [done |]. intros Ho. go_bool.
    apply wpc_bind, wpc_lift; [done |]. intros evidence _.
    apply wpc_bind, wp_advance; [exact quiet | done |]. intros stored2 u2 w4 t4 Q4 _.
    apply wpc_ret. eapply HQ; [| exact Ho].
    eapply did_intro; [done | | exact Q4]. quiet_chain.
Qed.

Lemma wpa_commit aggregate attempt l o
    (Q : Aggregate * ActivationAttempt * IdentityExecutionLease -> W -> list (event Reply) -> Prop) w tr lq aq :
  effects tr = [c_ReserveLease lq; c_Allocate aq] ->
  Event (c_ReserveLease lq) (Ok l) ∈ tr -> il_Identity l = sc_Identity scope ->
  Event (c_Allocate aq) (Ok o) ∈ tr -> slo_State o = "reserved_quarantined" ->
  (forall cq r w' tr', did (c_CommitActivation cq) (Ok r) tr tr' -> acr_SandboxLease cq = slo_Lease o ->
     SandboxLeaseRef_Validate (slo_Lease o) = Ok tt ->
     Q ({| agg_scope := set_SandboxLease (Some (slo_Lease o)) (agg_scope aggregate);
           agg_state := bound_state PhaseProvisioning; agg_revision := u64_succ (agg_revision aggregate) |},
        acm_Attempt r, acm_IdentityLease r) w' tr') ->
  wpa (activate_commit request aggregate attempt l o) Q w tr.
Proof.
  intros He Hl Hi Ha Ho HQ. unfold activate_commit. apply wpc_bind.
  split; [by exists lq, l, aq, o |]. intros [r | e] w1 _; [| done].
  destruct (Aggregate_CommitActivation _ aggregate) as [a [snap | e]] eqn:E; [| done].
  destruct (CommitActivation_inv _ _ _ _ E) as [[_ [? [=]]] | (_ & _ & _ & _ & Hv & _ & _ & -> & _)].
  apply wpc_ret. eapply HQ; [eapply did_intro; [done | apply quietly_refl ..] | done | done].
Qed.

Lemma wpa_sandbox aggregate attempt lease
    (Q : Aggregate * ActivationAttempt -> W -> list (event Reply) -> Prop) w tr lq aq cq r :
  request_ok -> SandboxLeaseRef_Validate lease = Ok tt ->
  agg_scope aggregate = set_SandboxLease (Some lease) scope -> acr_SandboxLease cq = lease ->
  effects tr = [c_ReserveLease lq; c_Allocate aq; c_CommitActivation cq] ->
  Event (c_CommitActivation cq) (Ok r) ∈ tr ->
  (forall attempt' vq o w' tr', did (c_ActivateSandbox vq) (Ok o) tr tr' -> sav_Scope vq = agg_scope aggregate ->
     Q ({| agg_scope := agg_scope aggregate; agg_state := bound_state PhaseBinding;
           agg_revision := u64_succ (agg_revision aggregate) |}, attempt') w' tr') ->
  wpa (activate_sandbox request aggregate attempt) Q w tr.
Proof.
  intros Hr Hl Hs Hq He Hc HQ. unfold activate_sandbox. cbn [Aggregate_Snapshot snap_Scope]. rewrite cloneScope_id.
  apply wpc_bind, wp_persist; [exact quiet | done |]. intros i w1 t1 Q1 Hp.
  apply wpc_bind, wp_advance; [exact quiet | done |]. intros stored u1 w2 t2 Q2 Hj.
  apply wpc_bind, wpc_now; [by apply quiet |]. intros t w3 _. apply wp_bind. split.
  - exists lq, aq, cq, r. split; [rewrite effects_app, effects_one; cbn; by rewrite app_nil_r, (proj2 Q2), (proj2 Q1) |].
    split; [apply elem_of_app; left; by apply Q2, Q1 |]. split; [by rewrite Hq |].
    split; [eapply persisted_mono; [| exact Hp]; intros e Hin; apply elem_of_app; left; by apply Q2 |].
    split; [eapply (intent_journalled_mono t2); [set_solver |]; by eexists _, _ |].
    destruct Hp as (_ & _ & _ & _ & _ & Hv). cbn. apply makeFence_dispatchable; try done; [| apply Hr | right].
    + rewrite Hs. apply bound_scope_valid; [apply Hr | exact Hl].
    + by rewrite Hs.
  - intros [o | e] w4 _; [| by apply wp_quarantine].
    apply wpc_bind, wpc_lift; [done |]. intros evidence _.
    apply wpc_bind, wp_advance; [exact quiet | done |]. intros stored2 u2 w5 t5 Q5 _.
    apply wpc_bind, wpc_move; [done |]. intros _ _.
    apply wpc_ret. eapply HQ; [eapply did_intro; [done | | exact Q5]; quiet_chain | done].
Qed.

(** What the two inspections of a ready instance said. *)
Record ready_evidence (tr : list (event Reply)) (bound : ExecutionScope) (lease : SandboxLeaseRef)
    (endpoint : ExecutionEndpointRef) : Prop := {
  re_environment : exists o, Event (c_InspectSandbox lease) (Ok o) ∈ tr /\ slo_State o = "active";
  re_execution : exists o,
    Event (c_InspectExecution
      {| eiq_Scope := bound; eiq_Endpoint := endpoint; eiq_InspectKind := "ready" |}) (Ok o) ∈ tr
    /\ eob_SourceComponentID o = eer_ComponentID endpoint /\ eob_ObservationKind o = "ready:ready";
}.

Lemma wpa_open bound aggregate lease
    (Q : Aggregate * ExecutionEndpointRef -> W -> list (event Reply) -> Prop) w tr lq aq cq vq o :
  request_ok -> ExecutionScope_Validate bound = Ok tt -> sc_SandboxLease bound <> None -> sav_Scope vq = bound ->
  effects tr = [c_ReserveLease lq; c_Allocate aq; c_CommitActivation cq; c_ActivateSandbox vq] ->
  Event (c_ActivateSandbox vq) (Ok o) ∈ tr ->
  (forall oq endpoint w' tr', did (c_Open oq) (Ok endpoint) tr tr' -> ready_evidence tr' bound lease endpoint ->
     Q ({| agg_scope := agg_scope aggregate; agg_state := bound_state PhaseReady;
           agg_revision := u64_succ (u64_succ (agg_revision aggregate)) |}, endpoint) w' tr') ->
  wpa (activate_open request bound aggregate lease) Q w tr.
Proof.
  intros Hr Hb Hl Hq He Hv HQ. unfold activate_open.
  apply wpc_bind, wp_persist; [exact quiet | done |]. intros i w1 t1 Q1 Hp.
  apply wpc_bind, wpc_now; [by apply quiet |]. intros t w2 _. apply wpc_bind. split.
  - exists lq, aq, cq, vq, o. split; [rewrite effects_app, effects_one; cbn; by rewrite app_nil_r, (proj2 Q1) |].
    split; [apply elem_of_app; left; by apply Q1 |]. split; [done |].
    split; [eapply persisted_mono; [| exact Hp]; set_solver |].
    destruct Hp as (_ & _ & _ & _ & _ & Hv'). cbn. apply makeFence_dispatchable; try done; [apply Hr | by right].
  - intros [endpoint | e] w3 _; [| done].
    apply wpc_bind, wpc_move; [done |]. intros _ _. apply wpc_bind. split; [by apply quiet |].
    intros [environment | e] w4 _; [| done]. apply wpc_bind. split; [by apply quiet |].
    intros [execution | e] w5 _; [| done]. apply wpc_bind, wpc_guard; [done |]. intros Hready. go_bool.
    apply wpc_bind, wpc_move; [done |]. intros _ _. apply wpc_ret. destruct Hready as [[H1 H2] H3].
    eapply HQ; [eapply did_intro; [done | | quiet_chain]; quiet_chain |].
    split; [exists environment | exists execution]; (split; [set_solver | done]).
Qed.

(** What a successful activation has done. *)
Record activated (tr : list (event Reply)) (i : Instance_) : Prop := {
  ad_request : exists now, Event c_Now now ∈ tr /\ validateActivationRequest range request now = Ok tt
                 /\ Event (c_Resolve (arq_Plan request) now) (Ok (in_bindings i)) ∈ tr;
  ad_effects : exists lq aq cq vq oq o r,
    effects tr = [c_ReserveLease lq; c_Allocate aq; c_CommitActivation cq; c_ActivateSandbox vq; c_Open oq]
    /\ Event (c_Allocate aq) (Ok o) ∈ tr /\ slo_State o = "reserved_quarantined"
    /\ Event (c_CommitActivation cq) (Ok r) ∈ tr /\ in_identityLease i = acm_IdentityLease r
    /\ Event (c_Open oq) (Ok (in_endpoint i)) ∈ tr
    /\ in_aggregate i = {| agg_scope := set_SandboxLease (Some (slo_Lease o)) scope;
                           agg_state := bound_state PhaseReady; agg_revision := 9 |}
    /\ ready_evidence tr (set_SandboxLease (Some (slo_Lease o)) scope) (slo_Lease o) (in_endpoint i)
    /\ SandboxLeaseRef_Validate (slo_Lease o) = Ok tt;
  ad_plan : in_plan i = arq_Plan request /\ in_capabilityDigest i = capability
            /\ in_fenceTTL i = arq_FenceTTL request;
  ad_runs : in_legacyRuns i = NewRunRegistry /\ in_activeRun i = None;
}.

Lemma wpa_Activate c w : wpa (Activate range c request) (fun i _ tr => activated tr i) w [].
Proof.
  unfold Activate. apply wpc_bind, wpc_lift; [done |]. intros [] _.
  apply wpc_bind, wpc_now; [by apply quiet |]. intros now w1 _.
  apply wpc_bind, wpc_lift; [done |]. intros [] Hv. pose proof (validate_request _ Hv) as Hr.
  apply wpc_bind. split; [by apply quiet |]. intros [bindings | e] w2 _; [| done].
  apply wpc_bind, wpa_preflight. intros attempt w3 t3 Q3. cbn [fst snd].
  apply wpc_bind, wpa_reserve; [by rewrite (proj2 Q3) |]. intros attempt4 lq l w4 t4 D4 Hl. cbn [fst snd].
  apply wpc_bind. eapply wpa_allocate; [exact Hr | by rewrite (did_effects D4), (proj2 Q3) |].
  intros attempt5 aq o w5 t5 D5 Ho. cbn [fst snd].
  apply wpc_bind. eapply wpa_commit; [by rewrite (did_effects D5), (did_effects D4), (proj2 Q3)
    | exact (did_grows D5 _ (did_event D4)) | exact Hl | apply (did_event D5) | exact Ho |].
  intros cq r w6 t6 D6 Ec Hlease. cbn [fst snd].
  assert (effects t6 = [c_ReserveLease lq; c_Allocate aq; c_CommitActivation cq]) as E6
    by (by rewrite (did_effects D6), (did_effects D5), (did_effects D4), (proj2 Q3)).
  apply wpc_bind. eapply wpa_sandbox; [exact Hr | exact Hlease | done | exact Ec | exact E6 | apply (did_event D6) |].
  intros attempt7 vq ob w7 t7 D7 Es. cbn [fst snd agg_scope Aggregate_Snapshot snap_Scope] in *. rewrite cloneScope_id.
  apply wpc_bind. eapply wpa_open; [exact Hr | by apply bound_scope_valid; [apply Hr |] | done | exact Es
    | by rewrite (did_effects D7), E6 | apply (did_event D7) |].
  intros oq endpoint w8 t8 D8 Hready. apply wpc_ret. cbn [fst snd].
  assert (forall e, e ∈ t3 -> e ∈ t8) as G by (intros e He; by apply (did_grows D8), (did_grows D7), (did_grows D6), (did_grows D5), (did_grows D4)).
  split; [exists now | exists lq, aq, cq, vq, oq, o, r | done | done].
  - split; [apply G, Q3; set_solver | split; [exact Hv | apply G, Q3; set_solver]].
  - split; [by rewrite (did_effects D8), (did_effects D7), E6 |].
    split; [apply (did_grows D8), (did_grows D7), (did_grows D6), (did_event D5) |]. split; [exact Ho |].
    split; [apply (did_grows D8), (did_grows D7), (did_event D6) |].
    split; [done |]. split; [apply (did_event D8) |]. by split.
Qed.
End activation.

(** ** What the methods of an instance rely on *)

Record instance_ok (i : Instance_) : Prop := {
  io_scope : ExecutionScope_Validate (agg_scope (in_aggregate i)) = Ok tt;
  io_lease : Phase (agg_state (in_aggregate i)) = PhaseReady \/ Phase (agg_state (in_aggregate i)) = PhaseRunning ->
    sc_SandboxLease (agg_scope (in_aggregate i)) <> None;
  io_capability : Digest_Validate (in_capabilityDigest i) = Ok tt;
}.

Lemma activated_ok request range tr i : activated request range tr i -> instance_ok i.
Proof.
  intros [(now & _ & Hv & _) (lq & aq & cq & vq & oq & o & r & _ & _ & _ & _ & _ & _ & Ha & _ & Hl) (_ & Ec & _) _].
  destruct (validate_request _ _ _ Hv) as [Hs _ _ Hcap]. rewrite <- Ec in Hcap.
  split; rewrite ?Ha; [by apply bound_scope_valid | done | done].
Qed.

(** C3: in every environment Activate makes its effects in one order and at most
    once each (reserve the identity lease, allocate the sandbox, commit, activate
    the sandbox, open the execution), and each only when it is allowed.  The two
    sandbox effects follow an intent that was appended to the evidence ledger and
    read back and that the journal acknowledged, and carry a fence that the
    boundary check accepts until it expires; opening the execution follows a
    persisted intent and carries such a fence, but is not journalled.  The
    reservation and the commit carry no intent: the reservation comes first, and the
    commit names the reserved lease of the proposed identity and the allocation
    confirmed in quarantine.  From the commit on, each effect follows the reply to
    the one before.  A run that returns an instance has made all five
    effects and has seen both observations of ready, and the instance is at
    phase ready, revision nine, with the allocated lease bound. *)
Theorem Activate_write_ahead {W} (answers : W -> forall c, Reply c -> W -> Prop) `{ZoneDatabase} range c request
    w tr w' :
  cut answers (Activate range c request) w tr w' ->
  (forall t1 e t2, tr = t1 ++ e :: t2 -> activation_allowed request t1 (ev_call e))
  /\ (forall i, exec answers (Activate range c request) w tr (Ok i) w' -> activated request range tr i).
Proof.
  intros Hc. pose proof (wpa_Activate request answers range c w) as Hw. split.
  - intros t1 e t2 ->. by destruct (wp_calls _ _ _ _ _ _ _ _ Hw Hc t1 e t2 eq_refl).
  - intros i He. exact (wp_exec _ _ _ _ _ _ _ _ _ Hw He).
Qed.
