(* ===== verification/CoordinatorStop.v ===== *)
(** * Stopping an instance

    Stop closes the execution, fences and releases the sandbox and ends the
    identity lease, in this order, each step only on the evidence of the one
    before; and what is left of the instance when a step fails. *)

From stdpp Require Import gmap.
From S2P Require Import Prelude GoStd Errors Identity State Aggregate Fence RunFact Continuity IdentityLease Activation Recovery RunRegistry Assembly Json EffectContract Interaction ComponentPorts Coordinator CoordinatorSafety.

(** ** Weakest preconditions of instance methods *)
Section sessions.
Context {W : Type} (answers : W -> forall c, Reply c -> W -> Prop).
Context (before : W -> list (event Reply) -> PortCall -> Prop).
Context (fails : Instance_ -> W -> list (event Reply) -> Prop).

Definition wps {A} (m : Session A) (Q : A -> Instance_ -> W -> list (event Reply) -> Prop) (i : Instance_)
    (w : W) (tr : list (event Reply)) : Prop :=
  wp answers before (m i)
    (fun o w tr => match o.2 with Ok a => Q a o.1 w tr | Err _ => fails o.1 w tr end) w tr.

Lemma wps_bind {A B} (m : Session A) (k : A -> Session B) Q i w tr :
  wps m (fun a i => wps (k a) Q i) i w tr -> wps (m ≫= k) Q i w tr.
Proof. intros H. apply wp_bind. eapply wp_mono; [| exact H]. by intros [i' [a | e]] w' tr'. Qed.

Lemma wps_ret {A} (a : A) (Q : A -> Instance_ -> W -> list (event Reply) -> Prop) i w tr :
  Q a i w tr -> wps (mret a) Q i w tr.
Proof. done. Qed.

Lemma wps_get (Q : Instance_ -> Instance_ -> W -> list (event Reply) -> Prop) i w tr :
  Q i i w tr -> wps se_get Q i w tr.
Proof. done. Qed.

Lemma wps_modify f (Q : unit -> Instance_ -> W -> list (event Reply) -> Prop) i w tr :
  Q tt (f i) w tr -> wps (se_modify f) Q i w tr.
Proof. done. Qed.

Lemma wps_lift {A} (m : result A) (Q : A -> Instance_ -> W -> list (event Reply) -> Prop) i w tr :
  fails i w tr -> (forall a, m = Ok a -> Q a i w tr) -> wps (se_lift m) Q i w tr.
Proof. intros Hf H. destruct m as [a | e]; [by apply H | exact Hf]. Qed.

Lemma wps_port {A} (m : Co A) (Q : A -> Instance_ -> W -> list (event Reply) -> Prop) i w tr :
  wpc answers before (fails i) m (fun a => Q a i) w tr -> wps (se_port m) Q i w tr.
Proof. intros H. apply wp_bind. eapply wp_mono; [| exact H]. by intros [a | e] w' tr'. Qed.

Lemma wps_runs {A} (m : ST RunRegistry error A) (Q : A -> Instance_ -> W -> list (event Reply) -> Prop) i w tr :
  (forall r, fails (set_in_legacyRuns r i) w tr) ->
  (forall r a, m (in_legacyRuns i) = (r, Ok a) -> Q a (set_in_legacyRuns r i) w tr) ->
  wps (on_runs m) Q i w tr.
Proof.
  intros Hf H. unfold wps, on_runs. destruct (m (in_legacyRuns i)) as [r [a | e]] eqn:E; [by eapply H | apply Hf].
Qed.

Lemma wps_transition next (Q : Snapshot -> Instance_ -> W -> list (event Reply) -> Prop) i w tr :
  fails i w tr ->
  (let a := {| agg_scope := agg_scope (in_aggregate i); agg_state := next;
               agg_revision := u64_succ (agg_revision (in_aggregate i)) |} in
   Q (Aggregate_Snapshot a) (set_in_aggregate a i) w tr) ->
  wps (on_aggregate (transition next emptyTransitionContext)) Q i w tr.
Proof.
  intros Hf H. unfold wps, on_aggregate, transition. st_go.
  destruct (Aggregate_Transition _ (in_aggregate i)) as [a [snap | e]] eqn:E;
    destruct (Transition_inv _ _ _ _ E) as [[-> [? [=]]] | (_ & _ & _ & -> & [=])]; subst; cbn; [exact H |].
  by destruct i.
Qed.

Lemma wps_evidence {A} (ok : A -> bool) (m : Prog Reply (result A))
    (Q : A -> Instance_ -> W -> list (event Reply) -> Prop) i w tr :
  wpc answers before (fails i) m (fun a w tr => if ok a then Q a i w tr else fails i w tr) w tr ->
  wps (evidence_of ok m) Q i w tr.
Proof.
  intros H. apply wp_bind. eapply wp_mono; [| exact H]. intros [a | e] w' tr'; [| done].
  cbn. by destruct (ok a).
Qed.
End sessions.

(** Split on the test of the evidence. *)
Ltac if_case E := cbn; match goal with |- context [if ?b then _ else _] => destruct b eqn:E end.

(** ** The protocol of Stop *)

Section stop_protocol.
Context (request : StopRequest) (i0 : Instance_).
Let scope := agg_scope (in_aggregate i0).
Let capability := in_capabilityDigest i0.

Definition stop_allowed (tr : list (event Reply)) (c : PortCall) : Prop :=
  match c with
  | c_Close q =>
      effects tr = [] /\ ecq_Endpoint q = in_endpoint i0
      /\ persisted tr scope "execution_close" (sq_CloseIntent request) (ecq_Intent q)
      /\ dispatchable (ecq_Intent q) (ecq_Fence q) scope capability
  | c_FenceSandbox q => exists cq o original,
      effects tr = [c_Close cq] /\ Event (c_Close cq) (Ok o) ∈ tr /\ eob_ObservationKind o = "closed"
      /\ sc_SandboxLease scope = Some (sfq_Lease q)
      /\ persisted tr scope "sandbox_release" (sq_ReleaseIntent request) original
  | c_ReleaseSandbox q => exists cq fq o,
      effects tr = [c_Close cq; c_FenceSandbox fq] /\ Event (c_FenceSandbox fq) (Ok o) ∈ tr
      /\ slo_State o = "fenced" /\ sfq_Lease fq = srq_Lease q /\ sc_SandboxLease scope = Some (srq_Lease q)
      /\ persisted tr scope "sandbox_release" (sq_ReleaseIntent request) (srq_Intent q)
      /\ dispatchable (srq_Intent q) (srq_Fence q) scope capability
  | c_RevokeLease q => exists cq fq rq o,
      effects tr = [c_Close cq; c_FenceSandbox fq; c_ReleaseSandbox rq]
      /\ Event (c_ReleaseSandbox rq) (Ok o) ∈ tr /\ slo_State o = "released"
      /\ end_LeaseID q = il_ID (in_identityLease i0)
      /\ end_ExpectedRevision q = il_Revision (in_identityLease i0)
  | c_ReleaseLease q => exists cq fq rq vq l,
      effects tr = [c_Close cq; c_FenceSandbox fq; c_ReleaseSandbox rq; c_RevokeLease vq]
      /\ Event (c_RevokeLease vq) (Ok l) ∈ tr
      /\ end_LeaseID q = il_ID l /\ end_ExpectedRevision q = il_Revision l
  | _ => effectful c = false
  end.

Lemma stop_quiet tr c : effectful c = false -> stop_allowed tr c.
Proof. by destruct c. Qed.

(** What is left of the instance when Stop fails: untouched outside, stopping,
    or terminal with only the report refused. *)
Inductive stop_residue (i : Instance_) (tr : list (event Reply)) : Prop :=
| residue_untouched : in_aggregate i = in_aggregate i0 -> effects tr = [] -> stop_residue i tr
| residue_stopping : Phase (agg_state (in_aggregate i)) = PhaseStopping -> stop_residue i tr
| residue_terminal : Phase (agg_state (in_aggregate i)) = PhaseTerminal -> length (effects tr) = 5 -> stop_residue i tr.

Context {W : Type} (answers : W -> forall c, Reply c -> W -> Prop).
Let before : W -> list (event Reply) -> PortCall -> Prop := fun _ => stop_allowed.
Let quiet : forall w tr c, effectful c = false -> before w tr c := fun _ => stop_quiet.
Let fails (i : Instance_) (_ : W) (tr : list (event Reply)) : Prop := stop_residue i tr.

Abbreviation wpx := (wps answers before fails).

(** The fields of the instance that Stop reads never change before its end. *)
Record stopping_from (i : Instance_) : Prop := {
  sf_scope : agg_scope (in_aggregate i) = scope;
  sf_phase : Phase (agg_state (in_aggregate i)) = PhaseStopping;
  sf_endpoint : in_endpoint i = in_endpoint i0;
  sf_capability : in_capabilityDigest i = capability;
  sf_lease : in_identityLease i = in_identityLease i0;
}.

Lemma stopping_fails i w tr : stopping_from i -> fails i w tr.
Proof. intros H. apply residue_stopping, H. Qed.

Lemma wpx_now (Q : Time -> Instance_ -> W -> list (event Reply) -> Prop) i w tr :
  (forall t w' tr', quietly tr tr' -> Q t i w' tr') -> wpx se_now Q i w tr.
Proof.
  intros H. apply wps_port, wpc_now; [by apply quiet |]. intros t w' _. apply H. by apply quietly_call.
Qed.

Lemma wpx_persist intent kind (Q : EffectIntent -> Instance_ -> W -> list (event Reply) -> Prop) i w tr :
  stopping_from i ->
  (forall j w' tr', quietly tr tr' -> persisted tr' scope kind intent j -> Q j i w' tr') ->
  wpx (se_port (persistIntent scope intent kind)) Q i w tr.
Proof.
  intros Hi H. apply wps_port, wp_persist; [exact quiet | intros; by apply stopping_fails | exact H].
Qed.

Lemma wpx_run snapshot (Q : unit -> Instance_ -> W -> list (event Reply) -> Prop) i w tr :
  in_aggregate i = in_aggregate i0 -> effects tr = [] ->
  (forall r a w' tr', quietly tr tr' -> Q tt (set_in_activeRun a (set_in_legacyRuns r i)) w' tr') ->
  wpx (stop_run request snapshot) Q i w tr.
Proof.
  intros Hi He H. unfold stop_run. apply wps_bind, wps_get.
  destruct (in_activeRun i) as [active |] eqn:E.
  - apply wps_bind, wpx_now. intros t w1 t1 Q1. apply wps_bind, wps_runs.
    + intros r. apply residue_untouched; [done |]. by rewrite (proj2 Q1).
    + intros r finished _. apply wps_modify, H. exact Q1.
  - specialize (H (in_legacyRuns i) None w tr (quietly_refl tr)). destruct i. cbn in *. by subst.
Qed.

Lemma wpx_close (Q : unit -> Instance_ -> W -> list (event Reply) -> Prop) i w tr :
  stopping_from i -> ExecutionScope_Validate scope = Ok tt -> sc_SandboxLease scope <> None ->
  Digest_Validate capability = Ok tt -> effects tr = [] ->
  (forall cq o w' tr', did (c_Close cq) (Ok o) tr tr' -> eob_ObservationKind o = "closed" -> Q tt i w' tr') ->
  wpx (stop_close request scope) Q i w tr.
Proof.
  intros Hi Hs Hl Hc He HQ. pose proof (stopping_fails i) as Hf. unfold stop_close.
  apply wps_bind, wpx_persist; [done |]. intros j w1 t1 Q1 Hp.
  apply wps_bind, wpx_now. intros t w2 t2 Q2. apply wps_bind, wps_get, wps_bind, wps_evidence. split.
  - cbn. split; [by rewrite (proj2 Q2), (proj2 Q1) |]. split; [apply Hi |].
    split; [by eapply persisted_mono; [apply Q2 |] |].
    rewrite (sf_capability _ Hi). destruct Hp as (_ & _ & _ & _ & _ & Hv).
    apply makeFence_dispatchable; try done. by right.
  - intros [o | e] w3 _; [| by apply Hf]. if_case Ek; [| by apply Hf]. go_bool.
    eapply HQ; [| exact Ek].
    eapply did_intro; [done | | apply quietly_refl]. quiet_chain.
Qed.

Lemma wpx_release lease (Q : unit -> Instance_ -> W -> list (event Reply) -> Prop) i w tr cq o :
  stopping_from i -> ExecutionScope_Validate scope = Ok tt -> sc_SandboxLease scope = Some lease ->
  Digest_Validate capability = Ok tt -> effects tr = [c_Close cq] ->
  Event (c_Close cq) (Ok o) ∈ tr -> eob_ObservationKind o = "closed" ->
  (forall fq fo rq ro mid w' tr', did (c_FenceSandbox fq) (Ok fo) tr mid ->
     did (c_ReleaseSandbox rq) (Ok ro) mid tr' -> slo_State ro = "released" -> Q tt i w' tr') ->
  wpx (stop_release request scope) Q i w tr.
Proof.
  intros Hi Hs Hl Hc He Ho Hk HQ. pose proof (stopping_fails i) as Hf. unfold stop_release.
  apply wps_bind, wpx_persist; [done |]. intros j w1 t1 Q1 Hp.
  apply wps_bind, wps_lift; [by apply Hf |]. rewrite Hl. intros ? [= <-].
  apply wps_bind, wps_evidence. split.
  { exists cq, o, j. rewrite (proj2 Q1). repeat split; try done. by apply Q1. }
  intros [fo | e] w2 _; [| by apply Hf]. unfold sandbox_in at 1.
  if_case Ef; [| by apply Hf]. go_bool.
  apply wps_bind, wpx_now. intros t w3 t3 Q3. apply wps_bind, wps_get, wps_bind, wps_evidence.
  assert (did (c_FenceSandbox {| sfq_Lease := lease; sfq_Reason := sq_Reason request |}) (Ok fo) tr t3) as D
    by (eapply did_intro; [done | exact Q1 | exact Q3]).
  split.
  - exists cq, {| sfq_Lease := lease; sfq_Reason := sq_Reason request |}, fo.
    rewrite (did_effects D), He. do 5 (split; [by try apply (did_event D) |]).
    split; [eapply persisted_mono; [| exact Hp]; intros e Hin; apply Q3, elem_of_app; by left |].
    rewrite (sf_capability _ Hi). destruct Hp as (_ & _ & _ & _ & _ & Hv).
    apply makeFence_dispatchable; try done. right. by rewrite Hl.
  - intros [ro | e] w4 _; [| by apply Hf]. unfold sandbox_in.
    if_case Er; [| by apply Hf]. go_bool.
    eapply HQ; [exact D | | exact Er]. by eapply did_intro; [| apply quietly_refl | apply quietly_refl].
Qed.

Lemma wpx_lease (Q : unit -> Instance_ -> W -> list (event Reply) -> Prop) i w tr cq fq rq o :
  stopping_from i -> effects tr = [c_Close cq; c_FenceSandbox fq; c_ReleaseSandbox rq] ->
  Event (c_ReleaseSandbox rq) (Ok o) ∈ tr -> slo_State o = "released" ->
  (forall vq v lq l mid w' tr', did (c_RevokeLease vq) (Ok v) tr mid -> did (c_ReleaseLease lq) (Ok l) mid tr' ->
     Q tt (set_in_identityLease l i) w' tr') ->
  wpx (stop_lease request) Q i w tr.
Proof.
  intros Hi He Ho Hk HQ. pose proof (stopping_fails i) as Hf. unfold stop_lease.
  apply wps_bind, wps_get, wps_bind, wps_port. split.
  { exists cq, fq, rq, o. rewrite He. cbn. by rewrite (sf_lease _ Hi). }
  intros [v | e] w1 _; [| by apply Hf].
  apply wps_bind, wps_port. split.
  { eexists cq, fq, rq, _, v. rewrite effects_app, effects_one, He. cbn. repeat split. apply last_event. }
  intros [l | e] w2 _; [| by apply Hf].
  apply wps_modify. eapply HQ; (eapply did_intro; [done | apply quietly_refl | apply quietly_refl]).
Qed.

(** What a successful Stop has done. *)
Record stopped (report : TerminationReport) (i : Instance_) (tr : list (event Reply)) : Prop := {
  sp_effects : exists cq fq rq vq lq l,
    effects tr = [c_Close cq; c_FenceSandbox fq; c_ReleaseSandbox rq; c_RevokeLease vq; c_ReleaseLease lq]
    /\ Event (c_ReleaseLease lq) (Ok l) ∈ tr /\ in_identityLease i = l;
  sp_scope : agg_scope (in_aggregate i) = scope /\ term_Scope report = scope;
  sp_state : agg_state (in_aggregate i) = closed_state /\ term_State report = closed_state;
  sp_report : TerminationReport_Validate report = Ok tt /\ term_ExecutionOutcome report = sq_Outcome request;
}.

Lemma wpx_Stop w : instance_ok i0 -> wpx (Stop request) (fun report i _ tr => stopped report i tr) i0 w [].
Proof.
  intros [Hs Hlease Hc]. unfold Stop. apply wps_bind, wps_get. cbn [Aggregate_Snapshot snap_State snap_Scope].
  apply wps_bind, wps_lift; [by apply residue_untouched |]. intros [] Hg. apply guard_Ok in Hg.
  assert (exists lease, sc_SandboxLease scope = Some lease) as [lease Hl].
  { apply not_eq_None_Some, Hlease. unfold phase_is in Hg. go_bool. destruct Hg; auto. }
  apply wps_bind, wpx_run; [done | done |]. intros r a w1 t1 [_ E1].
  apply wps_bind, wps_transition; [by apply residue_untouched |]. cbn zeta.
  apply wps_bind, wps_get. cbn [Aggregate_Snapshot snap_Scope in_aggregate set_in_aggregate agg_scope]. rewrite cloneScope_id.
  match goal with |- wps _ _ _ _ _ ?j _ _ => set (i := j); assert (stopping_from i) as Hi by done end.
  apply wps_bind, wpx_close; [done | done | by rewrite Hl | done | done |]. intros cq o w2 t2 D2 Ek.
  apply wps_bind. eapply wpx_release; [done | done | exact Hl | done | by rewrite (did_effects D2), E1
    | exact (did_event D2) | done |].
  intros fq fo rq ro mid w3 t3 D3 D3' Er.
  assert (effects t3 = [c_Close cq; c_FenceSandbox fq; c_ReleaseSandbox rq]) as E3
    by (by rewrite (did_effects D3'), (did_effects D3), (did_effects D2), E1).
  apply wps_bind. eapply wpx_lease; [done | exact E3 | exact (did_event D3') | done |].
  intros vq v lq l mid4 w4 t4 D4 D4'.
  assert (effects t4 = [c_Close cq; c_FenceSandbox fq; c_ReleaseSandbox rq; c_RevokeLease vq; c_ReleaseLease lq]) as E4
    by (by rewrite (did_effects D4'), (did_effects D4), E3).
  apply wps_bind, wps_transition; [by apply residue_stopping |]. cbn zeta.
  apply wps_bind, wpx_now. intros t w5 t5 Q5.
  apply wps_bind, wps_lift; [apply residue_terminal; [done |]; by rewrite (proj2 Q5), E4 |].
  intros [] Hv. apply wps_ret. split.
  - exists cq, fq, rq, vq, lq, l. rewrite (proj2 Q5), E4. split; [done |]. split; [| done]. apply Q5, (did_event D4').
  - split; [done |]. cbn. by rewrite cloneScope_id.
  - done.
  - by split.
Qed.
End stop_protocol.

(** An instance that is neither ready nor running is refused at once. *)
Lemma Stop_refused request i :
  Phase (agg_state (in_aggregate i)) <> PhaseReady -> Phase (agg_state (in_aggregate i)) <> PhaseRunning ->
  Stop request i = Ret (i, Err (NewError ErrorPreconditionFailed ReasonInvalidState)).
Proof.
  intros H1 H2. unfold Stop, mbind, Session_bind, se_get, se_lift, phase_is.
  cbn [prog_bind Aggregate_Snapshot snap_State]. by go_decide.
Qed.

(** C6: in every environment Stop closes the execution, fences the sandbox,
    releases it, revokes the identity lease and releases it, in this order and
    at most once each, every step only after the evidence of the one before
    (closed, fenced, released, revoked) and the two effects with intents only
    after their intents were persisted.  A report means that all five were done
    and the instance is terminal with its cleanup complete.  An error leaves the
    aggregate as it was with no effect made, or stopping, or terminal with all five
    done; and except in the first case, so whenever an effect was made, every later
    Stop is refused without a call: a stop that was cut short is never completed by
    the coordinator. *)
Theorem Stop_protocol {W} (answers : W -> forall c, Reply c -> W -> Prop) request i w tr w' :
  instance_ok i -> cut answers (Stop request i) w tr w' ->
  (forall t1 e t2, tr = t1 ++ e :: t2 -> stop_allowed request i t1 (ev_call e))
  /\ (forall i' report, exec answers (Stop request i) w tr (i', Ok report) w' -> stopped request i report i' tr)
  /\ (forall i' e, exec answers (Stop request i) w tr (i', Err e) w' ->
        stop_residue i i' tr
        /\ (in_aggregate i' = in_aggregate i /\ effects tr = []
            \/ forall again, Stop again i' = Ret (i', Err (NewError ErrorPreconditionFailed ReasonInvalidState)))).
Proof.
  intros Hi Hc. pose proof (wpx_Stop request i answers w Hi) as Hw. split; [| split].
  - intros t1 e t2 ->. by destruct (wp_calls _ _ _ _ _ _ _ _ Hw Hc t1 e t2 eq_refl).
  - intros i' report He. exact (wp_exec _ _ _ _ _ _ _ _ _ Hw He).
  - intros i' e He. pose proof (wp_exec _ _ _ _ _ _ _ _ _ Hw He) as Hr. cbn in Hr. split; [exact Hr |].
    destruct Hr as [? ? | E | E ?]; [by left | right; intros again; apply Stop_refused; congruence ..].
Qed.
