(* ===== verification/CoordinatorCheckpoint.v ===== *)
(** * Checkpoint and Restore

    Checkpoint is a two-phase commit over the participants, given here as the
    complete list of its runs: all prepared and committed, with a set or with an
    error only, a failed prepare with every prepared participant aborted, or a
    failed commit.  Restore gives the
    recorded snapshots to the participants under a scope that makes every fence
    of the old instance stale. *)

From stdpp Require Import gmap.
From S2P Require Import Prelude GoStd Errors Identity State Aggregate Fence RunFact Continuity IdentityLease Activation Recovery RunRegistry Assembly Json EffectContract Interaction ComponentPorts Coordinator CoordinatorSafety.

(** ** The runs of Checkpoint *)

Section checkpoint_runs.
Context (request : CheckpointRequest).
Context {W : Type} (answers : W -> forall c, Reply c -> W -> Prop).

Definition prepare_request (scope : ExecutionScope) : CheckpointPrepareRequest :=
  {| cpq_BarrierID := ckq_BarrierID request; cpq_Epoch := ckq_Epoch request; cpq_Scope := scope;
     cpq_Effects := ckq_Effects request |}.
Definition commit_request : CheckpointCommitRequest :=
  {| ccq_BarrierID := ckq_BarrierID request; ccq_Epoch := ckq_Epoch request |}.
Definition abort_request : CheckpointAbortRequest :=
  {| caq_BarrierID := ckq_BarrierID request; caq_Epoch := ckq_Epoch request;
     caq_Reason := "participant_prepare_failed" |}.

Definition prepared_events (scope : ExecutionScope) : list CheckpointBinding -> list CheckpointParticipantReport -> list (event Reply) :=
  zip_with (fun b r => Event (c_PrepareCheckpoint (cb_Port b) (prepare_request scope)) (Ok r)).
Definition committed_events : list CheckpointBinding -> list CheckpointParticipantReport -> list (event Reply) :=
  zip_with (fun b r => Event (c_CommitCheckpoint (cb_Port b) commit_request) (Ok r)).
Definition aborted_events : list CheckpointBinding -> list (result CheckpointParticipantReport) -> list (event Reply) :=
  zip_with (fun b o => Event (R := Reply) (c_AbortCheckpoint (cb_Port b) abort_request) o).

Definition snapshots : list CheckpointBinding -> list CheckpointParticipantReport -> list CheckpointParticipantSnapshot :=
  zip_with (fun b r => checkpointSnapshot r (cb_Required b)).

(** The report of a participant that was told to abort: its answer, or what it
    had prepared if it gave none. *)
Fixpoint abort_snapshots (bs : list CheckpointBinding) (reports : list CheckpointParticipantSnapshot)
    (answers : list (result CheckpointParticipantReport)) : list CheckpointParticipantSnapshot :=
  match bs, reports, answers with
  | b :: bs, r :: rs, o :: os =>
      match o with Ok report => checkpointSnapshot report (cb_Required b) | Err _ => r end
      :: abort_snapshots bs rs os
  | _, _, _ => reports
  end.

Lemma insert_middle {A} (l : list A) x y r : <[length l := x]> (l ++ y :: r) = l ++ x :: r.
Proof. rewrite insert_app_r_alt by done. by rewrite Nat.sub_diag. Qed.

Lemma abort_exec done bs reports w tr out w' :
  length reports = length bs ->
  exec answers (abort_prepared request (length done) bs (done ++ reports)) w tr out w' ->
  exists os, length os = length bs /\ tr = aborted_events bs os /\ out = done ++ abort_snapshots bs reports os.
Proof.
  revert done reports w tr. induction bs as [| b bs IH]; intros done reports w tr Hl.
  - destruct reports; [| done]. intros (-> & -> & ->). by exists [].
  - destruct reports as [| r reports]; [done |]. cbn [abort_prepared].
    intros (o & w1 & t1 & _ & -> & He). cbn [prog_bind] in He.
    assert (exists x, match o with Ok report => <[length done := checkpointSnapshot report (cb_Required b)]> (done ++ r :: reports)
                        | Err _ => done ++ r :: reports end = (done ++ [x]) ++ reports
                      /\ x = match o with Ok report => checkpointSnapshot report (cb_Required b) | Err _ => r end)
      as (x & Ex & Hx).
    { eexists. split; [| done]. rewrite <- app_assoc. destruct o; [apply insert_middle | done]. }
    rewrite Ex in He. replace (S (length done)) with (length (done ++ [x])) in He by (rewrite length_app; cbn; lia).
    apply IH in He as (os & Ho & -> & ->); [| by injection Hl].
    exists (o :: os). cbn. rewrite Ho, <- app_assoc. by rewrite Hx.
Qed.

Lemma commit_exec done bs reports w tr out w' :
  length reports = length bs ->
  exec answers (commit_participants request (length done) bs (done ++ reports)) w tr out w' ->
  (exists cs, length cs = length bs /\ tr = committed_events bs cs /\ out = (done ++ snapshots bs cs, None))
  \/ exists k b cs e, bs !! k = Some b /\ length cs = k
       /\ tr = committed_events (take k bs) cs ++ [Event (c_CommitCheckpoint (cb_Port b) commit_request) (Err e)]
       /\ out = (done ++ snapshots (take k bs) cs ++ drop k reports, Some e).
Proof.
  revert done reports w tr. induction bs as [| b bs IH]; intros done reports w tr Hl.
  - destruct reports; [| done]. intros (-> & -> & ->). left. by exists [].
  - destruct reports as [| r reports]; [done |]. cbn [commit_participants].
    intros (o & w1 & t1 & _ & -> & He). cbn [prog_bind] in He. destruct o as [report | e].
    + rewrite insert_middle, (cons_middle _ done reports), app_assoc in He.
      replace (S (length done)) with (length (done ++ [checkpointSnapshot report (cb_Required b)])) in He
        by (rewrite length_app; cbn; lia).
      apply IH in He as [(cs & Hc & -> & ->) | (k & b' & cs & e & Hb & Hc & -> & ->)]; [| | by injection Hl].
      * left. exists (report :: cs). cbn. by rewrite Hc, <- app_assoc.
      * right. exists (S k), b', (report :: cs), e. cbn. by rewrite Hc, <- app_assoc.
    + destruct He as (-> & -> & ->). right. by exists 0, b, [], e.
Qed.

Lemma prepare_exec scope bs prepared reports w tr out w' :
  length reports = length prepared ->
  exec answers (prepare_participants request scope bs prepared reports) w tr out w' ->
  (exists rs, length rs = length bs /\ tr = prepared_events scope bs rs
              /\ out = (reports ++ snapshots bs rs, None))
  \/ exists k b rs e os, bs !! k = Some b /\ length rs = k /\ length os = length prepared + k
       /\ tr = prepared_events scope (take k bs) rs
                ++ Event (c_PrepareCheckpoint (cb_Port b) (prepare_request scope)) (Err e)
                   :: aborted_events (prepared ++ take k bs) os
       /\ out = (abort_snapshots (prepared ++ take k bs) (reports ++ snapshots (take k bs) rs) os, Some e).
Proof.
  revert prepared reports w tr. induction bs as [| b bs IH]; intros prepared reports w tr Hl.
  - intros (-> & -> & ->). left. exists []. cbn. by rewrite app_nil_r.
  - cbn [prepare_participants]. intros (o & w1 & t1 & _ & -> & He). cbn [prog_bind] in He. destruct o as [report | e].
    + apply IH in He as [(rs & Hr & -> & ->) | (k & b' & rs & e & os & Hb & Hr & Ho & -> & ->)];
        [| | by rewrite !length_app, Hl].
      * left. exists (report :: rs). cbn. by rewrite Hr, <- app_assoc.
      * right. exists (S k), b', (report :: rs), e, os. rewrite length_app in Ho. cbn in Ho |- *.
        rewrite Hr, <- !app_assoc. repeat split; [done | lia].
    + apply exec_bind in He as (reports' & w2 & t2 & t3 & Ha & (-> & -> & ->) & ->).
      apply (abort_exec [] prepared reports) in Ha as (os & Ho & -> & ->); [| done].
      right. exists 0, b, [], e, os. cbn. rewrite !app_nil_r. split_and!; try done; lia.
Qed.
End checkpoint_runs.

(** The set a checkpoint builds. *)
Definition built_checkpoint (request : CheckpointRequest) (i : Instance_)
    (participants : list CheckpointParticipantSnapshot) (consistency : CheckpointConsistency) (now : Time)
    : CheckpointSet :=
  let scope := agg_scope (in_aggregate i) in
  {| ck_ID := ckq_ID request; ck_Epoch := ckq_Epoch request; ck_BarrierID := ckq_BarrierID request;
     ck_Scope := scope; ck_PlanDigest := plan_Digest (in_plan i); ck_ProfileDigest := plan_ProfileDigest (in_plan i);
     ck_ContextDigest := plan_ContextDigest (in_plan i); ck_AuthorityEpoch := sc_AuthorityEpoch scope;
     ck_Effects := ckq_Effects request; ck_EventWatermark := ckq_EventWatermark request;
     ck_Participants := participants; ck_Consistency := consistency; ck_CreatedAt := now |}.

(** The runs of a checkpoint of a ready or running instance with participants:
    the trace and what is returned. *)
Inductive checkpoint_run (request : CheckpointRequest) (i : Instance_) (bs : list CheckpointBinding)
    : list (event Reply) -> option CheckpointSet * option error -> Prop :=
| run_committed rs cs now :
    length rs = length bs -> length cs = length bs ->
    CheckpointSet_Validate (built_checkpoint request i (snapshots bs cs) CheckpointConsistent now) = Ok tt ->
    checkpoint_run request i bs
      (prepared_events request (agg_scope (in_aggregate i)) bs rs ++ committed_events request bs cs
       ++ [Event c_Now now])
      (Some (built_checkpoint request i (snapshots bs cs) CheckpointConsistent now), None)
| run_refused rs cs now e :
    length rs = length bs -> length cs = length bs ->
    CheckpointSet_Validate (built_checkpoint request i (snapshots bs cs) CheckpointConsistent now) = Err e ->
    checkpoint_run request i bs
      (prepared_events request (agg_scope (in_aggregate i)) bs rs ++ committed_events request bs cs
       ++ [Event c_Now now]) (None, Some e)
| run_aborted k b rs e os now :
    bs !! k = Some b -> length rs = k -> length os = k ->
    checkpoint_run request i bs
      (prepared_events request (agg_scope (in_aggregate i)) (take k bs) rs
       ++ Event (c_PrepareCheckpoint (cb_Port b) (prepare_request request (agg_scope (in_aggregate i)))) (Err e)
          :: aborted_events request (take k bs) os ++ [Event c_Now now])
      (Some (built_checkpoint request i (abort_snapshots (take k bs) (snapshots (take k bs) rs) os)
               CheckpointPartial now), Some e)
| run_undecided k b rs cs e now :
    bs !! k = Some b -> length rs = length bs -> length cs = k ->
    checkpoint_run request i bs
      (prepared_events request (agg_scope (in_aggregate i)) bs rs
       ++ committed_events request (take k bs) cs
       ++ [Event (c_CommitCheckpoint (cb_Port b) (commit_request request)) (Err e); Event c_Now now])
      (Some (built_checkpoint request i (snapshots (take k bs) cs ++ drop k (snapshots bs rs))
               CheckpointIndeterminate now), Some e).

(** C8: Checkpoint is a two-phase commit: in every environment a complete run on
    a ready or running instance is one of four.  Either every participant prepared
    and then every one committed, the set of the committed reports passes its
    validation, and it is returned as consistent; or every one prepared and
    committed and the validation of the set fails, as nothing checked the request
    before, and only the error is returned, without a set; or the participant at
    some place failed to prepare, exactly those before it were told to abort, none
    was told to commit, and the set is partial; or all prepared and one failed to
    commit, and the set is indeterminate.  Without participants, or in another phase, nothing is
    called and nothing is returned but the error. *)
Theorem Checkpoint_two_phase {W} (answers : W -> forall c, Reply c -> W -> Prop) request c i w tr out w' :
  exec answers (Checkpoint request c (Some i)) w tr out w' ->
  let phase := Phase (agg_state (in_aggregate i)) in
  if decide (co_CheckpointParticipants c = [] \/ phase <> PhaseReady /\ phase <> PhaseRunning)
  then tr = [] /\ exists e, out = (None, Some e)
  else checkpoint_run request i (co_CheckpointParticipants c) tr out.
Proof.
  unfold Checkpoint. cbn zeta. unfold phase_is. cbn [Aggregate_Snapshot snap_State snap_Scope]. rewrite cloneScope_id.
  set (bs := co_CheckpointParticipants c).
  destruct (decide _) as [Hd | Hd].
  - intros He. destruct (Nat.eqb (length bs) 0) eqn:E0; [destruct He as (-> & -> & _); eauto |].
    destruct Hd as [Hd | [H1 H2]]; [by rewrite Hd in E0 |].
    rewrite !bool_decide_eq_false_2 in He by done. destruct He as (-> & -> & _). eauto.
  - assert (Nat.eqb (length bs) 0 = false) as -> by (apply Nat.eqb_neq; destruct bs; [naive_solver | done]).
    assert (negb (bool_decide (Phase (agg_state (in_aggregate i)) = PhaseReady))
            && negb (bool_decide (Phase (agg_state (in_aggregate i)) = PhaseRunning)) = false) as ->.
    { go_bool. destruct (decide (Phase (agg_state (in_aggregate i)) = PhaseReady)); [by left |].
      destruct (decide (Phase (agg_state (in_aggregate i)) = PhaseRunning)); [by right | naive_solver]. }
    intros He. apply exec_bind in He as (p & w1 & t1 & t2 & Hp & He & ->).
    apply prepare_exec in Hp as [(rs & Hr & -> & ->) | (k & b & rs & e & os & Hb & Hr & Ho & -> & ->)]; [| | done].
    + apply exec_bind in He as (p2 & w2 & t3 & t4 & Hp2 & He & ->).
      assert (length (snapshots bs rs) = length bs) as Hs by (unfold snapshots; rewrite length_zip_with; lia).
      apply (commit_exec _ _ [] bs _ _ _ _ _ Hs) in Hp2 as [(cs & Hc & -> & ->) | (k & b & cs & e & Hb & Hc & -> & ->)].
      * destruct He as (now & w3 & t5 & _ & -> & He). cbn [prog_bind app] in He.
        match type of He with context [CheckpointSet_Validate ?s] =>
          change s with (built_checkpoint request i (snapshots bs cs) CheckpointConsistent now) in He end.
        assert (t5 = []) as -> by (by destruct (CheckpointSet_Validate _); destruct He).
        destruct (CheckpointSet_Validate _) as [[] | e] eqn:Ev; destruct He as (_ & -> & _);
          [by apply run_committed | by apply run_refused].
      * destruct He as (now & w3 & t5 & _ & -> & (-> & -> & _)). rewrite <- !app_assoc.
        by eapply (run_undecided request i bs k b rs cs e now).
    + destruct He as (now & w3 & t5 & _ & -> & (-> & -> & _)). rewrite <- app_assoc. cbn [app].
      by eapply (run_aborted request i bs k b rs e os now).
Qed.

(** ** Restore *)

Lemma snapshot_map_lookup ps id s : snapshot_map ps !! id = Some s -> s ∈ ps /\ cp_ComponentID s = id.
Proof.
  unfold snapshot_map. induction ps as [| p ps IH] using rev_ind; cbn; [by rewrite lookup_empty |].
  rewrite foldl_snoc, elem_of_app, list_elem_of_singleton.
  intros [[<- <-] | [_ H]]%lookup_insert_Some; [by split; [right |] |]. apply IH in H as [? ?]. by split; [left |].
Qed.

Lemma restore_scope_valid r :
  RestoreRequest_Validate r = Ok tt -> ExecutionScope_Validate (ck_Scope (rst_Checkpoint r)) = Ok tt.
Proof. unfold RestoreRequest_Validate, CheckpointSet_Validate. rewrite !seq_Ok. tauto. Qed.

(** No fence of the old scope passes the boundary check in the restored one. *)
Lemma restored_fence_stale request fence capability now :
  fence_Scope fence = ck_Scope (rst_Checkpoint request) ->
  id_Epoch (sc_Identity (ck_Scope (rst_Checkpoint request))) <> 0%N ->
  CheckFence fence {| cff_Scope := restored_scope request; cff_CapabilityGrantDigest := capability |} now <> Ok tt.
Proof.
  intros Hf He. unfold CheckFence. rewrite !seq_Ok, !guard_Ok. go_bool. rewrite Hf.
  intros (_ & _ & _ & _ & H). destruct_and!.
  match goal with E : sc_Identity (ck_Scope _) = _ |- _ => apply (f_equal id_Epoch) in E; cbn in E end.
  unfold u64_succ, wrap64, u64_modulus in *.
  pose proof (N.mod_lt (id_Epoch (sc_Identity (ck_Scope (rst_Checkpoint request))) + 1) 18446744073709551616 ltac:(done)).
  destruct (N.eq_dec (id_Epoch (sc_Identity (ck_Scope (rst_Checkpoint request)))) 18446744073709551615) as [E0 | Hne].
  - rewrite E0 in *. done.
  - rewrite N.mod_small in *; lia.
Qed.

Section restore.
Context (request : RestoreRequest) (c : Coordinator).
Let checkpoint := rst_Checkpoint request.

(** What a call of Restore has been preceded by. *)
Definition restore_allowed (tr : list (event Reply)) (call : PortCall) : Prop :=
  match call with
  | c_RestoreCheckpoint p q => exists d s,
      Event (c_DescribeParticipant p) (Ok d) ∈ tr /\ s ∈ ck_Participants checkpoint
      /\ cp_ComponentID s = cd_ID d /\ crq_CheckpointID q = ck_ID checkpoint
      /\ crq_SnapshotRef q = cp_SnapshotRef s /\ crq_SnapshotDigest q = cp_SnapshotDigest s
      /\ crq_NewScope q = restored_scope request
  | _ => effectful call = false
  end.

Context {W : Type} (answers : W -> forall c, Reply c -> W -> Prop).
Let before : W -> list (event Reply) -> PortCall -> Prop :=
  fun _ tr call => RestoreRequest_Validate request = Ok tt /\ restore_allowed tr call.
Let fails : W -> list (event Reply) -> Prop := fun _ _ => True.

Definition restored (b : CheckpointBinding) (r : CheckpointParticipantReport) (tr : list (event Reply)) : Prop :=
  exists q, Event (c_RestoreCheckpoint (cb_Port b) q) (Ok r) ∈ tr.

Lemma wp_restore bs reports (Q : list CheckpointParticipantReport -> W -> list (event Reply) -> Prop) w tr :
  RestoreRequest_Validate request = Ok tt ->
  (forall more w' tr', (forall e, e ∈ tr -> e ∈ tr') ->
     (forall b, b ∈ bs -> cb_Required b = true -> exists r, r ∈ more /\ restored b r tr') ->
     Q (reports ++ more) w' tr') ->
  wpc answers before fails (restore_participants request (snapshot_map (ck_Participants checkpoint)) bs reports) Q w tr.
Proof.
  intros Hv. revert reports w tr. induction bs as [| b bs IH]; intros reports w tr HQ; cbn [restore_participants].
  - apply wpc_ret. rewrite <- (app_nil_r reports). apply HQ; [done |]. set_solver.
  - apply wpc_bind. split; [by split |]. intros [d | e] w1 _; [| done]. cbn [wp].
    destruct (snapshot_map (ck_Participants checkpoint) !! cd_ID d) as [s |] eqn:Es.
    + destruct (snapshot_map_lookup _ _ _ Es) as [Hs Hid]. apply wpc_bind. split.
      { split; [done |]. exists d, s. repeat split; try done. apply last_event. }
      intros [r | e] w2 _; [| done]. apply IH. intros more w' tr' Hg Hreq. rewrite <- app_assoc. apply HQ.
      * intros e He. apply Hg. set_solver.
      * intros b' [-> | Hb]%elem_of_cons Hr.
        -- exists r. split; [by left |]. eexists. apply Hg, last_event.
        -- destruct (Hreq _ Hb Hr) as (r' & ? & ?). exists r'. split; [by right | done].
    + apply wpc_bind, wpc_guard; [done |]. intros Hb. apply IH. intros more w' tr' Hg Hreq. apply HQ.
      * intros e He. apply Hg. set_solver.
      * intros b' [-> | Hin]%elem_of_cons Hr; [congruence |]. by apply Hreq.
Qed.
End restore.

(** C9: in every environment Restore calls no participant unless the request and
    its consistent checkpoint are valid, and it tells a participant to restore only
    a snapshot of that checkpoint that carries the participant's own component id, with the recorded reference and digest, and
    only into the restored scope; a result means that every required participant
    did.  The restored scope has the new instance, the next identity epoch and no
    lease, and no fence of the old instance passes the boundary check in it. *)
Theorem Restore_isolates {W} (answers : W -> forall c, Reply c -> W -> Prop) c request w tr w' :
  cut answers (Coordinator_Restore c request) w tr w' ->
  (forall t1 e t2, tr = t1 ++ e :: t2 ->
     RestoreRequest_Validate request = Ok tt /\ restore_allowed request t1 (ev_call e))
  /\ (forall res, exec answers (Coordinator_Restore c request) w tr (Ok res) w' ->
        RestoreRequest_Validate request = Ok tt /\ rsr_ProposedScope res = restored_scope request
        /\ (forall b, b ∈ co_CheckpointParticipants c -> cb_Required b = true ->
              exists r, r ∈ rsr_Reports res /\ restored b r tr)
        /\ (forall fence capability now, fence_Scope fence = ck_Scope (rst_Checkpoint request) ->
              CheckFence fence {| cff_Scope := restored_scope request; cff_CapabilityGrantDigest := capability |} now
              <> Ok tt)).
Proof.
  intros Hc.
  assert (wpc answers (fun _ tr call => RestoreRequest_Validate request = Ok tt /\ restore_allowed request tr call)
    (fun _ _ => True) (Coordinator_Restore c request)
    (fun res _ tr => RestoreRequest_Validate request = Ok tt /\ rsr_ProposedScope res = restored_scope request
       /\ forall b, b ∈ co_CheckpointParticipants c -> cb_Required b = true ->
            exists r, r ∈ rsr_Reports res /\ restored b r tr) w []) as Hw.
  { apply wpc_bind, wpc_lift; [done |]. intros [] Hv. apply wpc_bind, wp_restore; [done |].
    intros more w1 tr1 _ Hreq. apply wpc_ret. by repeat split. }
  split.
  - intros t1 e t2 ->. by destruct (wp_calls _ _ _ _ _ _ _ _ Hw Hc t1 e t2 eq_refl) as (_ & Hv & Ha).
  - intros res He. destruct (wp_exec _ _ _ _ _ _ _ _ _ Hw He) as (Hv & Hs & Hreq).
    split; [done | split; [done | split; [done |]]]. intros fence capability now Hf.
    apply restored_fence_stale; [done |]. apply restore_scope_valid in Hv.
    intros E. unfold ExecutionScope_Validate, AgentIdentityRef_Validate in Hv. rewrite !seq_guard_Ok, E in Hv.
    destruct Hv as [Hv _]. by rewrite orb_true_r in Hv.
Qed.
