(* ===== verification/CoordinatorSession.v ===== *)
(** * The life of an activated instance

    What StartRun and Stop do to the instance that Activate returned, through
    any sequence of calls in any environments: its state, its run registry and
    its active run agree, it executes at most one run, and a call that fails
    leaves it as it was or stopping. *)

From stdpp Require Import gmap.
From S2P Require Import Prelude GoStd Errors Identity State Aggregate Fence RunFact Continuity IdentityLease Activation Recovery RunRegistry Assembly Json EffectContract Interaction ComponentPorts Coordinator CoordinatorSafety CoordinatorStop.

(** ** Transitions that cannot be refused *)

(** An aggregate's own snapshot gives preconditions that hold. *)
Lemma own_preconditions a :
  ExecutionScope_Validate (agg_scope a) = Ok tt -> agg_revision a <> 0%N ->
  CheckExecutionPreconditions (preconditions (Aggregate_Snapshot a))
    {| cur_Scope := agg_scope a; cur_Revision := agg_revision a |} = Ok tt.
Proof.
  intros Hs Hr. unfold CheckExecutionPreconditions, preconditions.
  cbn [Aggregate_Snapshot snap_Scope snap_Revision cur_Scope cur_Revision pre_IdentityEpoch pre_InstanceEpoch
    pre_AuthorityEpoch pre_Revision pre_LeaseEpoch].
  rewrite cloneScope_id, Hs, !N.eqb_refl. cbn [negb].
  unfold ExecutionScope_Validate, AgentIdentityRef_Validate, InstanceRef_Validate, SandboxLeaseRef_Validate in Hs.
  rewrite !seq_Ok, !guard_Ok in Hs. unfold ExecutionPreconditions_Validate.
  cbn [pre_IdentityEpoch pre_InstanceEpoch pre_AuthorityEpoch pre_Revision pre_LeaseEpoch].
  destruct Hs as (H1 & _ & H2 & H3 & H4). rewrite !orb_false_iff in *.
  apply N.eqb_neq in Hr. destruct H1 as [_ ->], H2 as [_ ->]. rewrite H4, Hr.
  destruct (sc_SandboxLease (agg_scope a)) as [l |]; cbn; [| done].
  apply guard_Ok, orb_false_iff in H3 as [_ ->]. by rewrite N.eqb_refl.
Qed.

Lemma accepted_transition next a :
  ExecutionScope_Validate (agg_scope a) = Ok tt -> agg_revision a <> 0%N ->
  ValidateStateTransition (agg_state a) next emptyTransitionContext = Ok tt ->
  validateScopeState (agg_scope a) next = Ok tt ->
  transition next emptyTransitionContext a
  = let a' := {| agg_scope := agg_scope a; agg_state := next; agg_revision := u64_succ (agg_revision a) |} in
    (a', Ok (Aggregate_Snapshot a')).
Proof.
  intros Hs Hr Hv Hc. unfold transition, Aggregate_Transition. st_go. cbn [tr_Preconditions tr_NextState tr_Context].
  rewrite own_preconditions, Hv, Hc by done. reflexivity.
Qed.

(** ** The life of an instance *)

Section life.
Context (i0 : Instance_).
Let scope := agg_scope (in_aggregate i0).

(** What Activate hands over ([Activate_write_ahead]). *)
Record fresh : Prop := {
  fr_ok : instance_ok i0;
  fr_state : agg_state (in_aggregate i0) = bound_state PhaseReady;
  fr_revision : agg_revision (in_aggregate i0) = 9%N;
  fr_runs : in_legacyRuns i0 = NewRunRegistry /\ in_activeRun i0 = None;
}.

(** Everything but the state, the runs and the identity lease stays. *)
Record same_instance (i : Instance_) : Prop := {
  si_scope : agg_scope (in_aggregate i) = scope;
  si_plan : in_plan i = in_plan i0 /\ in_bindings i = in_bindings i0;
  si_activation : in_activation i = in_activation i0;
  si_endpoint : in_endpoint i = in_endpoint i0;
  si_capability : in_capabilityDigest i = in_capabilityDigest i0 /\ in_fenceTTL i = in_fenceTTL i0;
}.

Definition at_phase (state : InstanceState) (revision : N) (i : Instance_) : Prop :=
  agg_state (in_aggregate i) = state /\ agg_revision (in_aggregate i) = revision.

(** The registry and the active run agree: no run, one that runs, one that ended. *)
Definition no_run (i : Instance_) : Prop := in_legacyRuns i = NewRunRegistry /\ in_activeRun i = None.
Definition runs (i : Instance_) : Prop := exists r,
  in_activeRun i = Some r /\ run_Scope r = scope /\ run_Status r = RunRunning
  /\ in_legacyRuns i = {| rr_records := {[run_ID r := r]}; rr_active := {[runInstanceKey scope := run_ID r]} |}.
Definition ran (i : Instance_) : Prop := exists r,
  in_activeRun i = Some r /\ run_Scope r = scope /\ run_Status r = RunTerminal /\ AgentRunRecord_Validate r = Ok tt
  /\ in_legacyRuns i = {| rr_records := {[run_ID r := r]}; rr_active := ∅ |}.

(** The four phases of a life. *)
Inductive life (i : Instance_) : Prop :=
| life_ready : i = i0 -> life i
| life_running : same_instance i -> at_phase (bound_state PhaseRunning) 10 i -> runs i ->
    in_identityLease i = in_identityLease i0 -> life i
| life_stopping : same_instance i ->
    (at_phase (bound_state PhaseStopping) 10 i /\ no_run i \/ at_phase (bound_state PhaseStopping) 11 i /\ ran i) ->
    in_identityLease i = in_identityLease i0 -> life i
| life_terminal : same_instance i ->
    (at_phase closed_state 11 i /\ no_run i \/ at_phase closed_state 12 i /\ ran i) -> life i.

Context {W : Type} (answers : W -> forall c, Reply c -> W -> Prop).
Abbreviation wpl fails := (wps answers (fun _ _ _ => True) (fun i _ _ => fails i)).

(** Whatever the ports answer. *)
Lemma wp_any {A} (m : Prog Reply A) (Q : A -> W -> list (event Reply) -> Prop) w tr :
  (forall a w' tr', Q a w' tr') -> wp answers (fun _ _ _ => True) m Q w tr.
Proof. intros H. revert w tr. induction m as [a | c k IH]; intros w tr; cbn; auto. Qed.

Lemma wpl_port (fails : Instance_ -> Prop) {A} (m : Co A)
    (Q : A -> Instance_ -> W -> list (event Reply) -> Prop) i w tr :
  fails i -> (forall a w' tr', Q a i w' tr') -> wpl fails (se_port m) Q i w tr.
Proof. intros Hf H. apply wps_port, wp_any. intros [a | e]; auto. Qed.

Lemma wpl_evidence (fails : Instance_ -> Prop) {A} (ok : A -> bool) (m : Prog Reply (result A))
    (Q : A -> Instance_ -> W -> list (event Reply) -> Prop) i w tr :
  fails i -> (forall a w' tr', Q a i w' tr') -> wpl fails (evidence_of ok m) Q i w tr.
Proof. intros Hf H. apply wps_evidence, wp_any. intros [a | e] w' tr'; [destruct (ok a) |]; auto. Qed.

Lemma wpl_transition (fails : Instance_ -> Prop) next (Q : Snapshot -> Instance_ -> W -> list (event Reply) -> Prop) i w tr :
  ExecutionScope_Validate (agg_scope (in_aggregate i)) = Ok tt -> agg_revision (in_aggregate i) <> 0%N ->
  ValidateStateTransition (agg_state (in_aggregate i)) next emptyTransitionContext = Ok tt ->
  validateScopeState (agg_scope (in_aggregate i)) next = Ok tt ->
  (let a := {| agg_scope := agg_scope (in_aggregate i); agg_state := next;
               agg_revision := u64_succ (agg_revision (in_aggregate i)) |} in
   Q (Aggregate_Snapshot a) (set_in_aggregate a i) w tr) ->
  wpl fails (on_aggregate (transition next emptyTransitionContext)) Q i w tr.
Proof. intros Hs Hr Hv Hc H. unfold wps, on_aggregate. by rewrite accepted_transition. Qed.

Lemma wpl_close (fails : Instance_ -> Prop) request sc (Q : unit -> Instance_ -> W -> list (event Reply) -> Prop) i w tr :
  fails i -> (forall w' tr', Q tt i w' tr') -> wpl fails (stop_close request sc) Q i w tr.
Proof.
  intros Hf H. apply wps_bind, wpl_port; [done |]. intros intent w1 t1.
  apply wps_bind, wpl_port; [done |]. intros now w2 t2. apply wps_bind, wps_get.
  apply wps_bind, wpl_evidence; [done |]. intros o w3 t3. apply wps_ret, H.
Qed.

Lemma wpl_release (fails : Instance_ -> Prop) request sc (Q : unit -> Instance_ -> W -> list (event Reply) -> Prop) i w tr :
  fails i -> (forall w' tr', Q tt i w' tr') -> wpl fails (stop_release request sc) Q i w tr.
Proof.
  intros Hf H. apply wps_bind, wpl_port; [done |]. intros intent w1 t1.
  apply wps_bind, wps_lift; [done |]. intros lease _.
  apply wps_bind, wpl_evidence; [done |]. intros o w2 t2.
  apply wps_bind, wpl_port; [done |]. intros now w3 t3. apply wps_bind, wps_get.
  apply wps_bind, wpl_evidence; [done |]. intros o' w4 t4. apply wps_ret, H.
Qed.

Lemma wpl_lease (fails : Instance_ -> Prop) request (Q : unit -> Instance_ -> W -> list (event Reply) -> Prop) i w tr :
  fails i -> (forall l w' tr', Q tt (set_in_identityLease l i) w' tr') -> wpl fails (stop_lease request) Q i w tr.
Proof.
  intros Hf H. apply wps_bind, wps_get. apply wps_bind, wpl_port; [done |]. intros v w1 t1.
  apply wps_bind, wpl_port; [done |]. intros l w2 t2. apply wps_modify, H.
Qed.

(** ** StartRun *)

Lemma set_runs_id i : set_in_legacyRuns (in_legacyRuns i) i = i.
Proof. by destruct i. Qed.

Lemma bound_scope_state phase :
  fresh -> phase = PhaseRunning \/ phase = PhaseStopping \/ phase = PhaseTerminal ->
  validateScopeState scope (bound_state phase) = Ok tt.
Proof.
  intros [[_ Hl _] Hs _ _] Hp. unfold validateScopeState. fold scope in Hl.
  rewrite bool_decide_eq_true_2 by (apply Hl; rewrite Hs; by left). by destruct Hp as [-> | [-> | ->]].
Qed.

Lemma life_phase i : fresh -> life i ->
  (Phase (agg_state (in_aggregate i)) = PhaseReady -> i = i0).
Proof.
  intros F [? | ? [E _] | ? [[[E _] _] | [[E _] _]] | ? [[[E _] _] | [[E _] _]]]; [done | ..]; rewrite E; discriminate.
Qed.

(** A started run is the only one, and the instance is running; a refused start
    changes nothing. *)
Lemma wpl_StartRun id session i w tr :
  fresh -> life i ->
  wpl (fun j => j = i) (StartRun id session)
    (fun r j _ _ => same_instance j /\ at_phase (bound_state PhaseRunning) 10 j /\ runs j
       /\ in_identityLease j = in_identityLease i0 /\ in_activeRun j = Some r /\ run_ID r = id) i w tr.
Proof.
  intros F L. pose proof F as [[Hs Hl Hc] Est Erev [Er Ea]].
  unfold StartRun. apply wps_bind, wps_get. cbn [Aggregate_Snapshot snap_State snap_Scope].
  apply wps_bind, wps_lift; [done |]. intros [] Hg. apply guard_Ok in Hg. unfold phase_is in Hg. go_bool.
  destruct Hg as [Hp _].
  pose proof (life_phase _ F L Hp) as ->.
  apply wps_bind, wpl_port; [done |]. intros now w1 t1. rewrite cloneScope_id. fold scope.
  apply wps_bind. unfold wps, on_runs.
  destruct (Registry_Start scope id session now (in_legacyRuns i0)) as [s' o] eqn:E.
  apply Start_cases in E as [[-> Ho] | (r & -> & _ & Hid & Hsc & Hst & _ & _ & _ & _ & ->)].
  { destruct o; [discriminate Ho |]. apply set_runs_id. }
  cbn [wp snd fst]. unfold enter_running.
  rewrite accepted_transition; [| by cbn | by cbn; rewrite Erev | cbn; by rewrite Est |
    cbn; by apply bound_scope_state; auto].
  rewrite Er. cbn [rr_records rr_active NewRunRegistry]. cbn.
  split; [by split | split; [split; [done |]; cbn; by rewrite Erev |]].
  split; [| by rewrite Hid]. exists r. rewrite Hid, Hsc. done.
Qed.

(** ** Stop *)

(** Ready or running, with the run ended if there was one. *)
Definition halted (i : Instance_) : Prop :=
  same_instance i /\ in_identityLease i = in_identityLease i0
  /\ (at_phase (bound_state PhaseReady) 9 i /\ no_run i \/ at_phase (bound_state PhaseRunning) 10 i /\ ran i).

Lemma wpl_run (fails : Instance_ -> Prop) request i (Q : unit -> Instance_ -> W -> list (event Reply) -> Prop) w tr :
  fresh -> life i -> Phase (agg_state (in_aggregate i)) = PhaseReady \/ Phase (agg_state (in_aggregate i)) = PhaseRunning ->
  fails i -> (forall j w' tr', halted j -> Q tt j w' tr') ->
  wpl fails (stop_run request (Aggregate_Snapshot (in_aggregate i))) Q i w tr.
Proof.
  intros F L Hp Hf H. unfold stop_run. apply wps_bind, wps_get. pose proof F as [_ Est Erev [Er Ea]].
  destruct L as [-> | Hsame Hat (r & Hact & Hsc & Hst & Hreg) Hlease | ? [[[E _] _] | [[E _] _]] | ? [[[E _] _] | [[E _] _]]];
    [| | rewrite E in Hp; by destruct Hp ..].
  - rewrite Ea. apply wps_ret, H. split; [by split | split; [done |]]. left. by repeat split.
  - rewrite Hact. apply wps_bind, wpl_port; [done |]. intros now w1 t1.
    cbn [Aggregate_Snapshot snap_Scope]. rewrite cloneScope_id, (si_scope _ Hsame).
    apply wps_bind. unfold wps, on_runs.
    destruct (Registry_Finish _ _ _ _ _) as [s' o] eqn:E. rewrite Hreg in E.
    apply Finish_cases in E as [[-> Ho] | (q & Hq & Hqs & _ & _ & Hv & -> & ->)].
    { destruct o; [discriminate Ho |]. rewrite <- Hreg. cbn. by rewrite set_runs_id. }
    cbn [rr_records rr_active] in *. rewrite lookup_singleton_eq in Hq. injection Hq as <-.
    cbn [wp snd fst]. apply H. split; [by destruct Hsame |]. split; [done |]. right. split; [done |].
    eexists. split; [reflexivity |]. cbn. rewrite Hsc. repeat split; [exact Hv |].
    rewrite insert_singleton_eq, delete_singleton_eq. reflexivity.
Qed.

(** What Stop leaves: the instance as it was, stopping, or terminal. *)
Definition stopping_life (i : Instance_) : Prop :=
  same_instance i /\ in_identityLease i = in_identityLease i0
  /\ (at_phase (bound_state PhaseStopping) 10 i /\ no_run i \/ at_phase (bound_state PhaseStopping) 11 i /\ ran i).
Definition terminal_life (i : Instance_) : Prop :=
  same_instance i /\ (at_phase closed_state 11 i /\ no_run i \/ at_phase closed_state 12 i /\ ran i).

Lemma halted_stops i :
  fresh -> halted i ->
  let a := {| agg_scope := agg_scope (in_aggregate i); agg_state := bound_state PhaseStopping;
              agg_revision := u64_succ (agg_revision (in_aggregate i)) |} in
  stopping_life (set_in_aggregate a i)
  /\ ValidateStateTransition (agg_state (in_aggregate i)) (bound_state PhaseStopping) emptyTransitionContext = Ok tt
  /\ agg_revision (in_aggregate i) <> 0%N.
Proof.
  intros F (Hsame & Hl & [[[E1 E2] Hr] | [[E1 E2] Hr]]); rewrite E1, E2; (split; [| by split]).
  - split; [by destruct Hsame | split; [done |]]. left. split; [by split | done].
  - split; [by destruct Hsame | split; [done |]]. right. split; [by split | done].
Qed.

Lemma stopping_closes i l :
  stopping_life i ->
  let a := {| agg_scope := agg_scope (in_aggregate i); agg_state := closed_state;
              agg_revision := u64_succ (agg_revision (in_aggregate i)) |} in
  terminal_life (set_in_aggregate a (set_in_identityLease l i))
  /\ ValidateStateTransition (agg_state (in_aggregate i)) closed_state emptyTransitionContext = Ok tt
  /\ agg_revision (in_aggregate i) <> 0%N.
Proof.
  intros (Hsame & _ & [[[E1 E2] Hr] | [[E1 E2] Hr]]); rewrite E1, E2; (split; [| by split]).
  - split; [by destruct Hsame |]. left. split; [by split | done].
  - split; [by destruct Hsame |]. right. split; [by split | done].
Qed.

Lemma wpl_Stop request i w tr :
  fresh -> life i ->
  wpl (fun j => j = i \/ stopping_life j \/ terminal_life j) (Stop request)
    (fun _ j _ _ => terminal_life j) i w tr.
Proof.
  intros F L. pose proof F as [[Hs _ _] _ _ _]. set (fails := fun j => j = i \/ stopping_life j \/ terminal_life j).
  unfold Stop. apply wps_bind, wps_get. apply wps_bind, wps_lift; [by left |]. intros [] Hg. apply guard_Ok in Hg.
  assert (Phase (agg_state (in_aggregate i)) = PhaseReady \/ Phase (agg_state (in_aggregate i)) = PhaseRunning) as Hp.
  { unfold phase_is in Hg. cbn in Hg. go_bool. destruct Hg; auto. }
  apply wps_bind, wpl_run; [done | done | done | by left |]. intros j w1 t1 Hj.
  destruct (halted_stops j F Hj) as (Hst & Hv & Hr). pose proof Hj as ([Hsc _ _ _ _] & _).
  apply wps_bind, wpl_transition; [by rewrite Hsc | done | done | rewrite Hsc; apply bound_scope_state; auto |].
  cbn zeta. apply wps_bind, wps_get.
  set (k := set_in_aggregate _ j) in *.
  apply wps_bind, wpl_close; [by right; left |]. intros w2 t2.
  apply wps_bind, wpl_release; [by right; left |]. intros w3 t3.
  apply wps_bind, wpl_lease; [by right; left |]. intros l w4 t4.
  destruct (stopping_closes k l Hst) as (Ht & Hv' & Hr').
  apply wps_bind, wpl_transition; [by cbn; rewrite Hsc | done | done | |].
  { cbn. rewrite Hsc. exact (bound_scope_state PhaseTerminal F ltac:(auto)). }
  cbn zeta. apply wps_bind, wpl_port; [by right; right |]. intros now w5 t5.
  apply wps_bind, wps_lift; [by right; right |]. intros [] _. by apply wps_ret.
Qed.
End life.

(** ** Histories *)

(** One call on the instance, in some environment; its mutex makes it one step. *)
Inductive instance_step (i j : Instance_) : Prop :=
| do_StartRun W (answers : W -> forall c, Reply c -> W -> Prop) id session w tr o w' :
    exec answers (StartRun id session i) w tr (j, o) w' -> instance_step i j
| do_Stop W (answers : W -> forall c, Reply c -> W -> Prop) request w tr o w' :
    exec answers (Stop request i) w tr (j, o) w' -> instance_step i j.

Lemma activated_fresh request range tr i : activated request range tr i -> fresh i.
Proof.
  intros H. pose proof (activated_ok _ _ _ _ H) as Hok.
  destruct H as [_ (lq & aq & cq & vq & oq & o & r & _ & _ & _ & _ & _ & _ & Ha & _) _ Hr].
  split; [done | by rewrite Ha | by rewrite Ha | done].
Qed.

Section steps.
Context (i0 : Instance_) (F : fresh i0).
Context {W : Type} (answers : W -> forall c, Reply c -> W -> Prop).

Lemma started i j id session w tr o w' :
  life i0 i -> exec answers (StartRun id session i) w tr (j, o) w' ->
  match o with
  | Ok r => i = i0 /\ life i0 j /\ runs i0 j /\ in_activeRun j = Some r /\ run_ID r = id
  | Err _ => j = i
  end.
Proof.
  intros L He. pose proof (wp_exec _ _ _ _ _ _ _ _ _ (wpl_StartRun i0 answers id session i w [] F L) He) as H.
  destruct o as [r | e]; [| exact H]. destruct H as (Hs & Ha & Hr & Hl & Hact & Hid). cbn in *.
  split; [| split; [by apply life_running | done]].
  unfold StartRun, mbind, Session_bind, se_get, se_lift in He. cbn [prog_bind] in He.
  destruct (guard _ _ _) as [[] |] eqn:Hg in He; [| destruct He as (_ & E & _); congruence].
  apply guard_Ok in Hg. unfold phase_is in Hg. cbn in Hg. go_bool. apply (life_phase i0 i F L), Hg.
Qed.

Lemma stopped_life i j request w tr o w' :
  life i0 i -> exec answers (Stop request i) w tr (j, o) w' ->
  match o with
  | Ok _ => terminal_life i0 j
  | Err _ => j = i \/ stopping_life i0 j \/ terminal_life i0 j
  end.
Proof.
  intros L He. pose proof (wp_exec _ _ _ _ _ _ _ _ _ (wpl_Stop i0 answers request i w [] F L) He) as H.
  by destruct o.
Qed.

Lemma stopping_is_life i : stopping_life i0 i -> life i0 i.
Proof. intros (? & ? & ?). by apply life_stopping. Qed.
Lemma terminal_is_life i : terminal_life i0 i -> life i0 i.
Proof. intros (? & ?). by apply life_terminal. Qed.
End steps.

Lemma life_history i0 i : fresh i0 -> rtc instance_step i0 i -> life i0 i.
Proof.
  intros F Hi. assert (forall a, life i0 a -> rtc instance_step a i -> life i0 i) as G;
    [| exact (G i0 (life_ready _ _ eq_refl) Hi)].
  clear Hi. intros a La H. induction H as [| a b c Hs _ IH]; [done |]. apply IH.
  destruct Hs as [W answers id session w tr o w' He | W answers request w tr o w' He].
  - pose proof (started i0 F answers _ _ _ _ _ _ _ _ La He) as Hst. destruct o; [exact (proj1 (proj2 Hst)) | by rewrite Hst].
  - pose proof (stopped_life i0 F answers _ _ _ _ _ _ _ La He) as Hst.
    destruct o; [by apply terminal_is_life |].
    destruct Hst as [-> | [Hst | Hst]]; [done | by apply stopping_is_life | by apply terminal_is_life].
Qed.

(** C5: the life of an activated instance.  From the instance that Activate
    returned, any calls of StartRun and Stop, in any environments and however
    they end, lead through ready, running, stopping and terminal only: at each
    phase the revision, the run registry and the active run are the ones that
    belong to it, and scope, plan, bindings, endpoint and capability are the
    activated ones.  A run starts only on the instance as it was activated, so
    an instance executes at most one; a start that is refused changes nothing,
    so the code that takes a started run back never runs; and a stop that fails
    leaves the instance as it was, stopping or terminal. *)
Theorem instance_history {W} (answers : W -> forall c, Reply c -> W -> Prop) `{ZoneDatabase} range c request
    w tr w' i0 i :
  exec answers (Activate range c request) w tr (Ok i0) w' -> rtc instance_step i0 i ->
  life i0 i
  /\ (forall V (answers' : V -> forall c, Reply c -> V -> Prop) id session v tr' j o v',
        exec answers' (StartRun id session i) v tr' (j, o) v' ->
        match o with
        | Ok r => i = i0 /\ runs i0 j /\ in_activeRun j = Some r /\ run_ID r = id
        | Err _ => j = i
        end)
  /\ (forall V (answers' : V -> forall c, Reply c -> V -> Prop) stop v tr' j o v',
        exec answers' (Stop stop i) v tr' (j, o) v' ->
        match o with
        | Ok _ => terminal_life i0 j
        | Err _ => j = i \/ stopping_life i0 j \/ terminal_life i0 j
        end).
Proof.
  intros Ha Hr. pose proof (wp_exec _ _ _ _ _ _ _ _ _ (wpa_Activate request answers range c w) Ha) as Hact.
  pose proof (activated_fresh _ _ _ _ Hact) as F. pose proof (life_history _ _ F Hr) as L.
  split; [exact L | split].
  - intros V answers' id session v tr' j o v' He. pose proof (started i0 F answers' _ _ _ _ _ _ _ _ L He) as Hs.
    destruct o; [naive_solver | done].
  - intros V answers' stop v tr' j o v' He. exact (stopped_life i0 F answers' _ _ _ _ _ _ _ L He).
Qed.
