(* ===== verification/CoordinatorStore.v ===== *)
(** * The coordinator against the fact store

    Activate and RecoverActivation with the activation journal and the identity
    leases of the fact store, whose other clients may call any method at any
    time as long as they leave this attempt's record alone, whose replies may be
    lost, and with every other port answering at will. *)

From stdpp Require Import gmap.
From S2P Require Import Prelude GoStd Errors Identity State Aggregate Fence RunFact Continuity IdentityLease Activation Recovery FactStore LeaseStore RunRegistry Assembly Json EffectContract Interaction ComponentPorts Coordinator CoordinatorSafety.

(** ** The environment *)

Section environment.
Context (id : string).

Definition journal_record (s : FactStore) : option ActivationAttempt := fs_activations s !! id.

(** What other clients may do between two steps of the coordinator. *)
Definition others (s s' : FactStore) : Prop := rtc store_step s s' /\ journal_record s' = journal_record s.

(** The reply that arrives: the store's answer, or an error in its place. *)
Definition delivered {A} (o r : result A) : Prop := r = o \/ exists e, r = Err e.

Definition store_call {A} (m : ST FactStore error A) (s : FactStore) (r : result A) (s' : FactStore) : Prop :=
  exists s1 s2 o, others s s1 /\ m s1 = (s2, o) /\ others s2 s' /\ delivered o r.

Definition store_answers (s : FactStore) (c : PortCall) : Reply c -> FactStore -> Prop :=
  match c return Reply c -> FactStore -> Prop with
  | c_CreateAttempt a => fun r s' => exists ctx now, store_call (CreateActivationAttempt ctx a now) s r s'
  | c_InspectAttempt i => fun r s' => exists ctx, store_call (InspectActivationAttempt ctx i) s r s'
  | c_CompareAndSwap a t => fun r s' => exists ctx now, store_call (CompareAndSwapActivation ctx a t now) s r s'
  | c_CommitActivation q => fun r s' => exists ctx now, store_call (CommitActivation ctx q now) s r s'
  | c_ReserveLease q => fun r s' => exists ctx now, store_call (ReserveIdentityLease ctx q now) s r s'
  | c_RevokeLease q => fun r s' => exists ctx now, store_call (RevokeIdentityLease ctx q now) s r s'
  | c_ReleaseLease q => fun r s' => exists ctx now, store_call (ReleaseIdentityLease ctx q now) s r s'
  | _ => fun _ s' => others s s'
  end.

Lemma others_refl s : others s s.
Proof. split; [apply rtc_refl | done]. Qed.
Lemma others_trans s1 s2 s3 : others s1 s2 -> others s2 s3 -> others s1 s3.
Proof. intros [R1 E1] [R2 E2]. split; [by etrans | congruence]. Qed.

Lemma store_call_steps {A} (m : ST FactStore error A) s r s' :
  (forall s1 s2 o, m s1 = (s2, o) -> store_step s1 s2) -> store_call m s r s' -> rtc store_step s s'.
Proof.
  intros Hm (s1 & s2 & o & [R1 _] & E & [R2 _] & _). etrans; [exact R1 |]. eapply rtc_l; [by eapply Hm | exact R2].
Qed.

(** Every answer is made of store steps. *)
Lemma store_answers_steps s c r s' : store_answers s c r s' -> rtc store_step s s'.
Proof.
  destruct c; cbn; try (by intros [? _]).
  - intros (ctx & now & H). refine (store_call_steps _ _ _ _ _ H). exact (do_CreateAttempt ctx attempt now).
  - intros (ctx & H). refine (store_call_steps _ _ _ _ _ H). exact (do_InspectAttempt ctx id0).
  - intros (ctx & now & H). refine (store_call_steps _ _ _ _ _ H). exact (do_CASActivation ctx next transition now).
  - intros (ctx & now & H). refine (store_call_steps _ _ _ _ _ H). exact (do_Commit ctx request now).
  - intros (ctx & now & H). refine (store_call_steps _ _ _ _ _ H). exact (do_Reserve ctx request now).
  - intros (ctx & now & H). refine (store_call_steps _ _ _ _ _ H). exact (do_Revoke ctx request now).
  - intros (ctx & now & H). refine (store_call_steps _ _ _ _ _ H). exact (do_Release ctx request now).
Qed.

(** A method that leaves the journal alone. *)
Lemma store_call_others {A} (m : ST FactStore error A) s r s' :
  (forall s1 s2 o, m s1 = (s2, o) -> store_step s1 s2 /\ fs_activations s2 = fs_activations s1) ->
  store_call m s r s' -> others s s'.
Proof.
  intros Hm (s1 & s2 & o & H1 & E & H2 & _). destruct (Hm _ _ _ E) as [Hst Ea].
  eapply others_trans; [exact H1 |]. eapply others_trans; [| exact H2].
  split; [by apply rtc_once |]. unfold journal_record. by rewrite Ea.
Qed.
End environment.

(** ** What the journal must say once an effect was issued *)

Definition op_in (o : ActivationOperation) (states : list OperationState) : Prop := op_State o ∈ states.

(** The sandbox was asked for: the journal knows, and does not say otherwise. *)
Definition allocation_open (a : ActivationAttempt) : Prop :=
  op_in (at_SandboxReservation a) [OperationIntentRecorded; OperationUnknownOutcome]
  \/ op_State (at_SandboxReservation a) = OperationConfirmedApplied /\ stage_from a StageSandboxReserved = true.
Definition activation_open (a : ActivationAttempt) : Prop :=
  op_in (at_SandboxActivation a) [OperationIntentRecorded; OperationUnknownOutcome]
  \/ at_Stage a = StageSandboxActive.

(** The recovery actions that lead (again) to an allocation, or to an activation
    of the sandbox. *)
Definition allocating : list RecoveryAction :=
  [ActionResumePreflight; ActionInspectPreflight; ActionFreezeSnapshot; ActionReserveIdentityLease;
   ActionResolveBudget; ActionReserveSandbox].
Definition activating : list RecoveryAction := allocating ++ [ActionCommitActivation; ActionActivateSandbox].

Lemma quarantined_action a d : quarantinedDecision a = d -> rd_Action d ∉ activating.
Proof. unfold quarantinedDecision. intros <-. repeat case_match; cbn; set_solver. Qed.
Lemma abort_action a d : abortDecision a = d -> rd_Action d ∉ activating.
Proof. unfold abortDecision. intros <-. cbn zeta. repeat case_match; cbn; set_solver. Qed.

Lemma activation_open_plan a t d : activation_open a -> PlanRecovery a t = Ok d -> rd_Action d ∉ activating.
Proof.
  intros Ho Hp. pose proof (attempt_valid_ok _ _ (PlanRecovery_valid _ _ _ Hp)) as O.
  unfold PlanRecovery in Hp. apply seq_Ok in Hp as [_ Hp].
  destruct (at_Recovery a) eqn:Er; try (injection Hp as <-); try by eapply quarantined_action.
  - apply bind_Ok in Hp as (fresh & _ & Hp). destruct fresh; cbn [negb] in Hp; [| injection Hp as <-; cbn; set_solver].
    repeat (case_match; [injection Hp as <-; cbn; set_solver |]).
    destruct Ho as [Ho | Ho]; [| rewrite Ho in Hp; injection Hp as <-; cbn; set_solver].
    unfold op_in in Ho. rewrite !elem_of_cons in Ho. unfold op_is in *. go_bool.
    destruct Ho as [Ho | [Ho | Ho]]; [done | | by apply elem_of_nil in Ho].
    assert (hasUnknownOperation a = true) as Hu by (unfold hasUnknownOperation, op_is; go_bool; tauto).
    apply (ok_unknown _ O) in Hu. congruence.
  - by eapply abort_action.
  - cbn. set_solver.
  - pose proof (ok_recovery _ O) as Hv. by rewrite Er in Hv.
Qed.

Lemma allocation_open_plan a t d : allocation_open a -> PlanRecovery a t = Ok d -> rd_Action d ∉ allocating.
Proof.
  intros Ho Hp. pose proof (attempt_valid_ok _ _ (PlanRecovery_valid _ _ _ Hp)) as O.
  assert (rd_Action d ∉ activating -> rd_Action d ∉ allocating) as G by (unfold activating; set_solver).
  unfold PlanRecovery in Hp. apply seq_Ok in Hp as [_ Hp].
  destruct (at_Recovery a) eqn:Er; try (injection Hp as <-); try (by eapply G, quarantined_action).
  - apply bind_Ok in Hp as (fresh & _ & Hp). destruct fresh; cbn [negb] in Hp; [| injection Hp as <-; cbn; set_solver].
    repeat (case_match; [injection Hp as <-; cbn; set_solver |]).
    unfold allocation_open, op_in in Ho. rewrite !elem_of_cons in Ho. unfold op_is in *. go_bool.
    destruct Ho as [[Ho | [Ho | Ho]] | [_ Ho]]; [done | | by apply elem_of_nil in Ho |].
    + assert (hasUnknownOperation a = true) as Hu by (unfold hasUnknownOperation, op_is; go_bool; tauto).
      apply (ok_unknown _ O) in Hu. congruence.
    + apply stage_from_le in Ho. destruct (at_Stage a); try done; injection Hp as <-; cbn; set_solver.
  - by eapply G, abort_action.
  - cbn. set_solver.
  - pose proof (ok_recovery _ O) as Hv. by rewrite Er in Hv.
Qed.

Lemma eq_trans' {A} {x y z : A} : y = z -> x = y -> x = z.
Proof. congruence. Qed.

(** ** The coordinator's calls to the journal *)

Section journal.
Context (id : string).

Definition open_for (tr : list (event Reply)) (a : ActivationAttempt) : Prop :=
  (forall q, c_Allocate q ∈ effects tr -> allocation_open a)
  /\ (forall q, c_ActivateSandbox q ∈ effects tr -> activation_open a).

(** What holds at every point where the coordinator can be cut off. *)
Definition crash_safe (s : FactStore) (tr : list (event Reply)) : Prop :=
  effects tr = [] \/ exists a, journal_record id s = Some a /\ open_for tr a.

Let before : FactStore -> list (event Reply) -> PortCall -> Prop := fun s tr _ => crash_safe s tr.
Abbreviation wpj := (wpc (store_answers id) before crash_safe).

(** The store's record of the attempt is the coordinator's copy. *)
Record journal_at (s : FactStore) (tr : list (event Reply)) (a : ActivationAttempt) : Prop := {
  ja_record : journal_record id s = Some a;
  ja_id : at_ID a = id;
  ja_recovery : at_Recovery a = RecoveryNormal;
  ja_open : open_for tr a;
}.

Lemma open_quiet tr tr' a : effects tr' = effects tr -> open_for tr a -> open_for tr' a.
Proof. unfold open_for. by intros ->. Qed.

Lemma journal_safe s tr a : journal_at s tr a -> crash_safe s tr.
Proof. intros H. right. exists a. split; apply H. Qed.

Lemma journal_others s s' tr tr' a :
  others id s s' -> effects tr' = effects tr -> journal_at s tr a -> journal_at s' tr' a.
Proof. intros [_ E] Et [H1 H2 H3 H4]. split; [by rewrite E | done | done | by eapply open_quiet]. Qed.

Lemma journal_cas_cases ctx a t now s s' o :
  CompareAndSwapActivation ctx a t now s = (s', o) ->
  (s' = s /\ exists e, o = Err e) \/ (o = Ok a /\ s' = set_activations (<[at_ID a := a]> (fs_activations s)) s).
Proof.
  unfold CompareAndSwapActivation. intros H. run_exec H; try (left; by eauto). right.
  by rewrite cloneActivationAttempt_id.
Qed.

(** A compare-and-swap leaves the old record or the new one, and the new one if
    it is acknowledged. *)
Lemma cas_reply a t s r s' :
  at_ID a = id -> store_answers id s (c_CompareAndSwap a t) r s' ->
  rtc store_step s s' /\ (journal_record id s' = journal_record id s /\ (exists e, r = Err e)
                          \/ journal_record id s' = Some a /\ (r = Ok a \/ exists e, r = Err e)).
Proof.
  intros Ha H. split; [by eapply store_answers_steps |].
  destruct H as (ctx & now & s1 & s2 & o & [_ E1] & Hc & [_ E2] & Hd).
  apply journal_cas_cases in Hc as [[-> [e ->]] | [-> ->]].
  - left. split; [by rewrite E2, E1 |]. destruct Hd as [-> | ?]; eauto.
  - right. split; [rewrite E2; unfold journal_record; cbn; by rewrite Ha, lookup_insert_eq |]. exact Hd.
Qed.

(** A call to another port. *)
Lemma wpj_now (Q : Time -> FactStore -> list (event Reply) -> Prop) s tr a :
  journal_at s tr a ->
  (forall t s' tr', journal_at s' tr' a -> effects tr' = effects tr -> rtc store_step s s' -> Q t s' tr') ->
  wpj co_now Q s tr.
Proof.
  intros Ha H. apply wpc_now; [by eapply journal_safe |]. intros t s' Ho.
  assert (effects (tr ++ [Event c_Now t]) = effects tr) as E by (rewrite effects_app, effects_one; apply app_nil_r).
  apply H; [by eapply journal_others | done | apply Ho].
Qed.

Lemma wpj_timestamp previous (Q : Time -> FactStore -> list (event Reply) -> Prop) s tr a :
  journal_at s tr a ->
  (forall t s' tr', journal_at s' tr' a -> effects tr' = effects tr -> rtc store_step s s' -> Q t s' tr') ->
  wpj (monotonicTimestamp previous) Q s tr.
Proof. intros Ha H. apply wpc_bind, (wpj_now _ _ _ a); [done |]. intros t s' tr' ? ? ?. by apply wpc_ret, H. Qed.

(** The record advanceActivation writes. *)
Definition advanced (current : ActivationAttempt) (stage : ActivationStage)
    (mutate : ActivationAttempt -> ActivationAttempt) (t : Time) : ActivationAttempt :=
  mutate (next_attempt current stage (at_Recovery current) (at_FailureReason current) t).

(** Writing the journal from [current] to a record that is as safe. *)
Lemma wpj_advance current stage mutate (Q : ActivationAttempt -> FactStore -> list (event Reply) -> Prop) s tr :
  journal_at s tr current ->
  (forall t, at_ID (advanced current stage mutate t) = id
     /\ at_Recovery (advanced current stage mutate t) = RecoveryNormal
     /\ open_for tr (advanced current stage mutate t)) ->
  (forall t s' tr', journal_at s' tr' (advanced current stage mutate t) -> effects tr' = effects tr ->
     rtc store_step s s' -> Q (advanced current stage mutate t) s' tr') ->
  wpj (advanceActivation current stage mutate) Q s tr.
Proof.
  intros Ha Hn HQ. apply wpc_bind, (wpj_timestamp _ _ _ _ current); [done |]. intros t s1 t1 H1 E1 R1.
  specialize (Hn t). specialize (HQ t). unfold advanced in *. destruct Hn as (Hid & Hrec & Hopen).
  split; [by eapply journal_safe |]. intros r s2 Hr. destruct (cas_reply _ _ _ _ _ Hid Hr) as [R2 Hc].
  set (t2 := t1 ++ _). assert (effects t2 = effects tr) as E2
    by (unfold t2; rewrite effects_app, effects_one, app_nil_r; exact E1).
  destruct Hc as [[Er [e ->]] | [Er [-> | [e ->]]]].
  - right. exists current. split; [rewrite Er; apply H1 | eapply open_quiet; [exact E2 | apply Ha]].
  - apply HQ; [| done | by etrans]. split; try done. by eapply open_quiet.
  - right. eexists. split; [exact Er | by eapply open_quiet].
Qed.

(** The error branch of an effect: whatever the quarantine write does. *)
Lemma wpj_quarantine {A} current mutate reason e (Q : A -> FactStore -> list (event Reply) -> Prop) s tr :
  journal_at s tr current ->
  (forall t, let next := mutate (next_attempt current (at_Stage current) RecoveryQuarantined reason t) in
     at_ID next = id /\ open_for tr next) ->
  wpj (prog_bind (quarantineActivation current mutate reason) (fun _ => Ret (Err e))) Q s tr.
Proof.
  intros Ha Hn. apply wp_bind. apply (wp_mono _ _ _ (fun _ => crash_safe)); [done |].
  apply wp_bind. split; [by eapply journal_safe |]. intros t s1 Ho.
  set (t1 := tr ++ _). assert (effects t1 = effects tr) as E1
    by (unfold t1; rewrite effects_app, effects_one; apply app_nil_r).
  pose proof (journal_others _ _ _ _ _ Ho E1 Ha) as H1. cbn [prog_bind wp].
  apply wp_bind. split; [by eapply journal_safe |]. intros r s2 Hr.
  match goal with |- context [mutate (next_attempt _ _ _ _ ?u)] => specialize (Hn u) end.
  cbn zeta in Hn. destruct Hn as [Hid Hopen].
  destruct (cas_reply _ _ _ _ _ Hid Hr) as [_ Hc].
  assert (crash_safe s2 (t1 ++ [Event _ r])) as Hs.
  { assert (effects (t1 ++ [Event _ r]) = effects tr) as E2 by (rewrite effects_app, effects_one, app_nil_r; exact E1).
    right. destruct Hc as [[Er _] | [Er _]]; [exists current | eexists];
      (split; [first [exact Er | rewrite Er; apply H1] | eapply open_quiet; [exact E2 |]]); [apply Ha | exact Hopen]. }
  by destruct r.
Qed.

(** A call without effect to a port that is not the store. *)
Lemma others_port s tr a c r s' :
  effectful c = false -> others id s s' -> journal_at s tr a ->
  journal_at s' (tr ++ [Event c r]) a /\ effects (tr ++ [Event c r]) = effects tr /\ rtc store_step s s'.
Proof.
  intros Ec Ho Ha. assert (effects (tr ++ [Event c r]) = effects tr) as E
    by (rewrite effects_app, effects_one, Ec; apply app_nil_r).
  split; [by eapply journal_others | split; [exact E | apply Ho]].
Qed.

Lemma wpj_persist scope intent kind (Q : EffectIntent -> FactStore -> list (event Reply) -> Prop) s tr a :
  journal_at s tr a ->
  (forall i s' tr', journal_at s' tr' a -> effects tr' = effects tr -> rtc store_step s s' -> Q i s' tr') ->
  wpj (persistIntent scope intent kind) Q s tr.
Proof.
  intros Ha HQ. apply wpc_bind, (wpj_now _ _ _ a); [done |]. intros t s1 t1 H1 E1 R1.
  apply wpc_bind, wpc_lift; [by eapply journal_safe |]. intros [] _. apply wpc_bind.
  split; [by eapply journal_safe |]. intros ref s2 Ho2.
  destruct (others_port _ _ _ _ ref _ eq_refl Ho2 H1) as (H2 & E2 & R2). destruct ref as [ref | e]; [| by eapply journal_safe].
  apply wpc_bind. split; [by eapply journal_safe |]. intros record s3 Ho3.
  destruct (others_port _ _ _ _ record _ eq_refl Ho3 H2) as (H3 & E3 & R3). destruct record as [record | e]; [| by eapply journal_safe].
  apply wpc_bind, wpc_lift; [by eapply journal_safe |]. intros [] _. apply wpc_ret, HQ; [exact H3 | congruence |].
  etrans; [exact R1 |]. by etrans.
Qed.

Lemma open_none tr a : effects tr = [] -> open_for tr a.
Proof. unfold open_for. intros ->. split; intros q H; by apply elem_of_nil in H. Qed.
Lemma open_reserved tr a lq : effects tr = [c_ReserveLease lq] -> open_for tr a.
Proof. unfold open_for. intros ->. split; intros q H; by apply list_elem_of_singleton in H. Qed.

Lemma create_reply a s r s' :
  at_ID a = id -> store_answers id s (c_CreateAttempt a) r s' ->
  rtc store_step s s' /\ (forall stored, r = Ok stored -> stored = a /\ journal_record id s' = Some a).
Proof.
  intros Ha H. split; [by eapply store_answers_steps |]. intros stored ->.
  destruct H as (ctx & now & s1 & s2 & o & _ & Hc & [_ E2] & [Hd | [? [=]]]). subst o.
  unfold CreateActivationAttempt in Hc. run_exec Hc; try done. rewrite cloneActivationAttempt_id in *.
  split; [done |]. rewrite E2. unfold journal_record. cbn. by rewrite Ha, lookup_insert_eq.
Qed.

(** A commit leaves the record, or the committed one and an active lease. *)
Lemma committed_reply q s r s' :
  acr_AttemptID q = id -> store_answers id s (c_CommitActivation q) r s' ->
  rtc store_step s s'
  /\ (journal_record id s' = journal_record id s /\ (exists e, r = Err e)
      \/ exists s1 s2 now res, others id s s1 /\ committed q now s1 s2 res /\ rtc store_step s1 s2
           /\ others id s2 s' /\ (r = Ok res \/ exists e, r = Err e)).
Proof.
  intros Hq H. split; [by eapply store_answers_steps |].
  destruct H as (ctx & now & s1 & s2 & o & O1 & Hc & O2 & Hd).
  pose proof (rtc_once _ _ (do_Commit ctx q now _ _ _ Hc)) as R.
  destruct (CommitActivation_cases _ _ _ _ _ _ Hc) as [(h & e & _ & -> & ->) | (res & -> & Hcm)].
  - left. split; [destruct O1 as [_ E1], O2 as [_ E2]; rewrite E2; exact E1 |]. destruct Hd as [-> | ?]; eauto.
  - right. exists s1, s2, now, res. do 4 (split; [done |]). destruct Hd as [-> | ?]; eauto.
Qed.
End journal.

(** ** Activate against the store *)

Section activate.
Context (request : ActivationRequest) `{ZoneDatabase} (range : Range).
Let id := arq_ActivationAttemptID request.
Let scope := arq_ProposedScope request.
Let before : FactStore -> list (event Reply) -> PortCall -> Prop := fun s tr _ => crash_safe id s tr.
Abbreviation wpj := (wpc (store_answers id) before (crash_safe id)).

Lemma wps_preflight now (Q : Aggregate * ActivationAttempt -> FactStore -> list (event Reply) -> Prop) s tr :
  effects tr = [] ->
  (forall aggregate attempt s' tr', journal_at id s' tr' attempt -> at_Scope attempt = scope ->
     effects tr' = [] -> rtc store_step s s' -> agg_scope aggregate = scope -> Q (aggregate, attempt) s' tr') ->
  wpj (activate_preflight request now) Q s tr.
Proof.
  intros E0 HQ. unfold activate_preflight.
  apply wpc_bind, wpc_lift; [by left |]. intros aggregate Ha.
  assert (agg_scope aggregate = scope) as Hs by (unfold NewAggregate in Ha; go_inv; by rewrite cloneScope_id).
  apply wpc_bind. split; [by left |]. intros r s1 Hr.
  destruct (create_reply id (proposed_attempt request now) _ _ _ eq_refl Hr) as [R1 Hok].
  match goal with |- wp _ _ _ _ _ ?t => assert (effects t = []) as E1
    by (rewrite effects_app, effects_one, app_nil_r; exact E0) end.
  destruct r as [attempt | e]; [| by left]. destruct (Hok _ eq_refl) as [-> Er].
  assert (journal_at id s1 (tr ++ [Event (c_CreateAttempt (proposed_attempt request now)) (Ok (proposed_attempt request now))])
            (proposed_attempt request now)) as H1 by (split; [exact Er | done | done | by apply open_none]).
  apply wpc_bind, wpc_move; [by left |]. intros _ _. apply wpc_bind, wpc_move; [by left |]. intros _ _.
  apply wpc_bind, wpj_advance; [exact H1 | intros t; split; [done | split; [done | by apply open_none]] |].
  intros t2 s2 tr2 H2 E2 R2. apply (eq_trans' E1) in E2. apply wpc_bind. split; [by left |]. intros report s3 Ho3.
  destruct (others_port id _ _ _ _ report _ eq_refl Ho3 H2) as (H3 & E3 & R3). apply (eq_trans' E2) in E3.
  destruct report as [preflight | e]; [| by left].
  apply wpc_bind, wpc_guard; [by left |]. intros _.
  apply wpc_bind, wpj_advance; [exact H3 | intros t; split; [done | split; [done | by apply open_none]] |].
  intros t4 s4 tr4 H4 E4 R4. apply (eq_trans' E3) in E4. apply wpc_bind, wpc_lift; [by left |]. intros snapshot _.
  apply wpc_bind, wpj_advance; [exact H4 | intros t; split; [done | split; [done | by apply open_none]] |].
  intros t5 s5 tr5 H5 E5 R5. apply (eq_trans' E4) in E5.
  apply wpc_bind, wpc_move; [by left |]. intros _ _. apply wpc_ret, HQ; try done.
  do 4 (etrans; [eassumption |]). done.
Qed.

Lemma wps_reserve aggregate attempt
    (Q : Aggregate * ActivationAttempt * IdentityExecutionLease -> FactStore -> list (event Reply) -> Prop) s tr :
  journal_at id s tr attempt -> at_Scope attempt = scope -> effects tr = [] -> agg_scope aggregate = scope ->
  (forall aggregate' attempt' l lq s' tr', journal_at id s' tr' attempt' -> at_Scope attempt' = scope ->
     effects tr' = [c_ReserveLease lq] -> rtc store_step s s' -> agg_scope aggregate' = scope ->
     Q (aggregate', attempt', l) s' tr') ->
  wpj (activate_reserve request aggregate attempt) Q s tr.
Proof.
  intros Ha Hs E0 Hg HQ. unfold activate_reserve. apply wpc_bind. split; [by eapply journal_safe |]. intros r s1 Hr.
  match type of Hr with store_answers _ _ (c_ReserveLease ?q) _ _ => set (lq := q) in * end.
  assert (others id s s1) as Ho.
  { destruct Hr as (ctx & now & Hc). refine (store_call_others _ _ _ _ _ _ Hc). intros a b o Hab.
    split; [by eapply (do_Reserve ctx lq now) | apply (ReserveIdentityLease_frame _ _ _ _ _ _ Hab)]. }
  set (t1 := tr ++ [Event (c_ReserveLease lq) r]).
  assert (effects t1 = [c_ReserveLease lq]) as E1 by (unfold t1; by rewrite effects_app, effects_one, E0).
  assert (journal_at id s1 t1 attempt) as H1.
  { destruct Ha as [A1 A2 A3 A4], Ho as [_ Ho]. split; [by rewrite Ho | done | done | by eapply open_reserved]. }
  destruct r as [l | e]; [| by eapply journal_safe].
  apply wpc_bind, wpc_guard; [by eapply journal_safe |]. intros _.
  apply wpc_bind, wpj_advance; [exact H1 | intros t; split; [apply H1 | split; [apply H1 | by eapply open_reserved]] |].
  intros t2 s2 tr2 H2 E2 R2. apply (eq_trans' E1) in E2.
  apply wpc_bind, wpj_advance; [exact H2 | intros t; split; [apply H2 | split; [apply H2 | by eapply open_reserved]] |].
  intros t3 s3 tr3 H3 E3 R3. apply (eq_trans' E2) in E3.
  apply wpc_bind, wpc_move; [by eapply journal_safe |]. intros _ _. apply wpc_ret.
  eapply HQ; [exact H3 | done | exact E3 | | done]. etrans; [apply Ho | by etrans].
Qed.

Lemma wps_allocate now attempt
    (Q : ActivationAttempt * SandboxLeaseObservation -> FactStore -> list (event Reply) -> Prop) s tr lq :
  journal_at id s tr attempt -> at_Scope attempt = scope -> effects tr = [c_ReserveLease lq] ->
  (forall attempt' o aq s' tr', journal_at id s' tr' attempt' -> at_Scope attempt' = scope ->
     at_Stage attempt' = StageSandboxReserved ->
     op_State (at_SandboxReservation attempt') = OperationConfirmedApplied ->
     effects tr' = [c_ReserveLease lq; c_Allocate aq] -> rtc store_step s s' -> Q (attempt', o) s' tr') ->
  wpj (activate_allocate request now attempt) Q s tr.
Proof.
  intros Ha Hs E0 HQ. unfold activate_allocate.
  apply wpc_bind, (wpj_persist _ _ _ _ _ _ _ attempt); [done |]. intros i s1 t1 H1 E1 R1. rewrite E0 in E1.
  apply wpc_bind, wpj_advance; [exact H1 | intros t; split; [apply H1 | split; [apply H1 | by eapply open_reserved]] |].
  intros t2 s2 tr2 H2 E2 R2. apply (eq_trans' E1) in E2.
  match type of H2 with journal_at _ _ _ ?a => set (a2 := a) in * end.
  apply wp_bind. split; [by eapply journal_safe |]. intros r s3 Ho.
  match goal with |- wp _ _ _ _ _ ?t => set (t3 := t) end.
  match goal with t3 := _ ++ [Event (c_Allocate ?q) _] |- _ => set (aq := q) in * end.
  assert (effects t3 = [c_ReserveLease lq; c_Allocate aq]) as E3 by (unfold t3; by rewrite effects_app, effects_one, E2).
  assert (forall a, allocation_open a -> open_for t3 a) as Hopen.
  { intros a Hx. split; rewrite E3; intros q Hq; [exact Hx |].
    by rewrite !elem_of_cons, elem_of_nil in Hq; destruct_or! Hq. }
  assert (allocation_open a2) as Hx by (left; unfold op_in; cbn; set_solver).
  assert (journal_at id s3 t3 a2) as H3.
  { destruct H2 as [A1 A2 A3 A4], Ho as [R Ho]. split; [by rewrite Ho | done | done | by apply Hopen]. }
  destruct r as [o | e].
  - apply wpc_bind, wpc_guard; [by eapply journal_safe |]. intros _.
    apply wpc_bind, wpc_lift; [by eapply journal_safe |]. intros evidence _.
    apply wpc_bind, wpj_advance; [exact H3 | intros t; split; [apply H3 | split; [apply H3 |]] |].
    { apply Hopen. right. by split. }
    intros t4 s4 tr4 H4 E4 R4. apply (eq_trans' E3) in E4. apply wpc_ret.
    eapply HQ; [exact H4 | done | done | done | exact E4 |]. etrans; [exact R1 |]. etrans; [exact R2 |].
    etrans; [apply Ho | exact R4].
  - eapply wpj_quarantine; [exact H3 |]. intros t. split; [apply H3 |].
    apply Hopen. left. unfold op_in. cbn. set_solver.
Qed.

(** The lease was active and belonged to this attempt, at some point before [s']. *)
Definition lease_won (s s' : FactStore) (l : IdentityExecutionLease) : Prop :=
  exists s1 a, rtc store_step s s1 /\ rtc store_step s1 s' /\ fs_heap s1 !! a = Some l
    /\ il_State l = IdentityLeaseActive /\ il_Identity l = sc_Identity scope /\ il_ActivationAttemptID l = id.

Lemma lease_won_later s s1 s2 l : lease_won s s1 l -> rtc store_step s1 s2 -> lease_won s s2 l.
Proof. intros (v & a & R1 & R2 & H1) R. exists v, a. split; [done | split; [by etrans | exact H1]]. Qed.
Lemma lease_won_sooner s0 s s1 l : rtc store_step s0 s -> lease_won s s1 l -> lease_won s0 s1 l.
Proof. intros R (v & a & R1 & R2 & H1). exists v, a. split; [by etrans | done]. Qed.

Lemma wps_commit aggregate attempt l o
    (Q : Aggregate * ActivationAttempt * IdentityExecutionLease -> FactStore -> list (event Reply) -> Prop) s tr lq aq :
  journal_at id s tr attempt -> at_Scope attempt = scope ->
  op_State (at_SandboxReservation attempt) = OperationConfirmedApplied ->
  effects tr = [c_ReserveLease lq; c_Allocate aq] -> agg_scope aggregate = scope ->
  (forall aggregate' attempt' l' cq s' tr', journal_at id s' tr' attempt' ->
     agg_scope aggregate' = set_SandboxLease (Some (slo_Lease o)) scope -> at_Scope attempt' = agg_scope aggregate' ->
     at_Stage attempt' = StageCommitted -> op_State (at_SandboxReservation attempt') = OperationConfirmedApplied ->
     effects tr' = [c_ReserveLease lq; c_Allocate aq; c_CommitActivation cq] -> rtc store_step s s' ->
     lease_won s s' l' -> Q (aggregate', attempt', l') s' tr') ->
  wpj (activate_commit request aggregate attempt l o) Q s tr.
Proof.
  intros Ha Hs Hop E0 Hg HQ. unfold activate_commit. apply wpc_bind. split; [by eapply journal_safe |]. intros r s1 Hr.
  match type of Hr with store_answers _ _ (c_CommitActivation ?q) _ _ => set (cq := q) in * end.
  set (t1 := tr ++ [Event (c_CommitActivation cq) r]).
  assert (effects t1 = [c_ReserveLease lq; c_Allocate aq; c_CommitActivation cq]) as E1
    by (unfold t1; by rewrite effects_app, effects_one, E0).
  assert (forall a, allocation_open a -> open_for t1 a) as Hopen.
  { intros a Hx. split; rewrite E1; intros q Hq; [exact Hx |].
    by rewrite !elem_of_cons, elem_of_nil in Hq; destruct_or! Hq. }
  assert (allocation_open attempt) as Hx by (apply (proj1 (ja_open _ _ _ _ Ha) aq); rewrite E0; set_solver).
  destruct (committed_reply id cq _ _ _ (ja_id _ _ _ _ Ha) Hr)
    as [R1 [[Er [e ->]] | (v1 & v2 & now & res & O1 & Hcm & Rc & O2 & Hres)]].
  { right. exists attempt. split; [rewrite Er; apply Ha | by apply Hopen]. }
  destruct Hcm as [(current & adr & lease & Hcur & _ & Hl & _ & _ & Hnorm & _ & _ & Hlm & _ & Eat & Ele & _ & Ev)].
  assert (current = attempt) as ->.
  { destruct O1 as [_ O1]. pose proof (ja_record _ _ _ _ Ha) as Hrec. rewrite <- O1 in Hrec.
    unfold journal_record in Hrec. cbn [cq acr_AttemptID] in Hcur. rewrite (ja_id _ _ _ _ Ha) in Hcur. congruence. }
  assert (journal_record id s1 = Some (acm_Attempt res)) as Er.
  { destruct O2 as [_ O2]. rewrite O2, Ev. unfold journal_record. cbn. by rewrite (ja_id _ _ _ _ Ha), lookup_insert_eq. }
  assert (open_for t1 (acm_Attempt res)) as Hop1.
  { apply Hopen. right. rewrite Eat. split; [exact Hop | done]. }
  assert (journal_at id s1 t1 (acm_Attempt res)) as H1.
  { split; [exact Er | | | exact Hop1]; rewrite Eat; apply Ha. }
  destruct Hres as [-> | [e ->]]; [| by eapply journal_safe].
  destruct (Aggregate_CommitActivation _ aggregate) as [a [snap | e]] eqn:E; [| by eapply journal_safe].
  destruct (CommitActivation_inv _ _ _ _ E) as [[_ [? [=]]] | (_ & _ & _ & _ & _ & _ & _ & -> & _)].
  apply wpc_ret. eapply HQ; [exact H1 | cbn; by rewrite Hg | | | | exact E1 | exact R1 |];
    rewrite ?Eat; unfold committed_attempt; rewrite ?cloneActivationAttempt_id;
    [cbn [at_Scope agg_scope acr_SandboxLease cq]; by rewrite Hs, Hg | done | done |].
  exists v2, adr. split; [etrans; [apply O1 | exact Rc] | split; [apply O2 |]].
  unfold lease_matches, lease_is in Hlm. go_bool. destruct_and!. rewrite Ele, Ev. cbn.
  split; [rewrite Ele; by apply list_lookup_insert_eq, (lookup_lt_Some _ _ lease) |].
  cbn. split; [done |]. split; [congruence |]. rewrite <- (ja_id _ _ _ _ Ha). congruence.
Qed.

Lemma wps_sandbox aggregate attempt
    (Q : Aggregate * ActivationAttempt -> FactStore -> list (event Reply) -> Prop) s tr lq aq cq :
  journal_at id s tr attempt -> at_Scope attempt = agg_scope aggregate -> at_Stage attempt = StageCommitted ->
  op_State (at_SandboxReservation attempt) = OperationConfirmedApplied ->
  effects tr = [c_ReserveLease lq; c_Allocate aq; c_CommitActivation cq] ->
  (forall aggregate' attempt' s' tr', journal_at id s' tr' attempt' -> agg_scope aggregate' = agg_scope aggregate ->
     at_Scope attempt' = agg_scope aggregate' -> at_Stage attempt' = StageSandboxActive ->
     op_State (at_SandboxReservation attempt') = OperationConfirmedApplied -> rtc store_step s s' -> Q (aggregate', attempt') s' tr') ->
  wpj (activate_sandbox request aggregate attempt) Q s tr.
Proof.
  intros Ha Hs Hst Hop E0 HQ. unfold activate_sandbox. cbn [Aggregate_Snapshot snap_Scope]. rewrite cloneScope_id.
  assert (forall t e, effects t = effects tr ++ e -> forall a, allocation_open a ->
            (e = [] \/ activation_open a) -> (forall q, c_Allocate q ∉ e) -> open_for t a) as Hopen.
  { intros t e Et a Hx Hy He. unfold open_for. rewrite Et, E0. split; intros q Hq; [exact Hx |].
    destruct Hy as [-> | Hy]; [| exact Hy]. rewrite app_nil_r, !elem_of_cons, elem_of_nil in Hq. by destruct_or! Hq. }
  apply wpc_bind, (wpj_persist _ _ _ _ _ _ _ attempt); [done |]. intros i s1 t1 H1 E1 R1.
  apply wpc_bind, wpj_advance; [exact H1 | intros t; split; [apply H1 | split; [apply H1 |]] |].
  { apply (Hopen _ [] ltac:(by rewrite E1, app_nil_r)); [by right | by left | set_solver]. }
  intros t2 s2 tr2 H2 E2 R2. apply (eq_trans' E1) in E2.
  match type of H2 with journal_at _ _ _ ?a => set (a2 := a) in * end.
  apply wpc_bind, (wpj_now _ _ _ _ a2); [exact H2 |]. intros now s3 t3 H3 E3 R3. apply (eq_trans' E2) in E3.
  apply wp_bind. split; [by eapply journal_safe |]. intros r s4 Ho.
  match goal with |- wp _ _ _ _ _ (_ ++ [Event (c_ActivateSandbox ?q) _]) => set (vq := q) in * end.
  set (t4 := t3 ++ _). assert (effects t4 = effects tr ++ [c_ActivateSandbox vq]) as E4
    by (unfold t4; by rewrite effects_app, effects_one, E3).
  assert (journal_at id s4 t4 a2) as H4.
  { destruct H3 as [A1 A2 A3 A4], Ho as [R Ho]. split; [by rewrite Ho | done | done |].
    apply (Hopen _ _ E4); [right; by split | right; left; unfold op_in; cbn; set_solver | set_solver]. }
  destruct r as [o | e].
  - apply wpc_bind, wpc_lift; [by eapply journal_safe |]. intros evidence _.
    apply wpc_bind, wpj_advance; [exact H4 | intros t; split; [apply H4 | split; [apply H4 |]] |].
    { apply (Hopen _ _ E4); [right; by split | right; by right | set_solver]. }
    intros t5 s5 tr5 H5 E5 R5. apply wpc_bind, wpc_move; [by eapply journal_safe |]. intros _ _. apply wpc_ret.
    apply HQ; try done. etrans; [exact R1 |]. etrans; [exact R2 |]. etrans; [exact R3 |]. etrans; [apply Ho | exact R5].
  - eapply wpj_quarantine; [exact H4 |]. intros t. split; [apply H4 |].
    apply (Hopen _ _ E4); [right; by split | right; left; unfold op_in; cbn; set_solver | set_solver].
Qed.

Lemma wps_open bound aggregate lease attempt
    (Q : Aggregate * ExecutionEndpointRef -> FactStore -> list (event Reply) -> Prop) s tr :
  journal_at id s tr attempt -> at_Stage attempt = StageSandboxActive ->
  op_State (at_SandboxReservation attempt) = OperationConfirmedApplied ->
  (forall aggregate' endpoint s' tr', journal_at id s' tr' attempt -> agg_scope aggregate' = agg_scope aggregate ->
     rtc store_step s s' -> Q (aggregate', endpoint) s' tr') ->
  wpj (activate_open request bound aggregate lease) Q s tr.
Proof.
  intros Ha Hst Hop HQ. unfold activate_open.
  assert (forall t, open_for t attempt) as Hopen.
  { intros t. split; intros q _; [right | right; done]. split; [exact Hop |]. unfold stage_from. by rewrite Hst. }
  assert (forall s1 t1 c r s2, effectful c = true -> others id s1 s2 -> journal_at id s1 t1 attempt ->
            journal_at id s2 (t1 ++ [Event c r]) attempt) as Heff.
  { intros s1 t1 c r s2 _ [_ Eo] [A1 A2 A3 A4]. split; [by rewrite Eo | done | done | apply Hopen]. }
  apply wpc_bind, (wpj_persist _ _ _ _ _ _ _ attempt); [done |]. intros i s1 t1 H1 E1 R1.
  apply wpc_bind, (wpj_now _ _ _ _ attempt); [exact H1 |]. intros now s2 t2 H2 E2 R2.
  apply wpc_bind. split; [by eapply journal_safe |]. intros r s3 O3.
  pose proof (Heff _ _ _ r _ eq_refl O3 H2) as H3. destruct r as [endpoint | e]; [| by eapply journal_safe].
  apply wpc_bind, wpc_move; [by eapply journal_safe |]. intros _ _.
  apply wpc_bind. split; [by eapply journal_safe |]. intros r s4 O4.
  destruct (others_port id _ _ _ _ r _ eq_refl O4 H3) as (H4 & _ & R4).
  destruct r as [environment | e]; [| by eapply journal_safe].
  apply wpc_bind. split; [by eapply journal_safe |]. intros r s5 O5.
  destruct (others_port id _ _ _ _ r _ eq_refl O5 H4) as (H5 & _ & R5).
  destruct r as [execution | e]; [| by eapply journal_safe].
  apply wpc_bind, wpc_guard; [by eapply journal_safe |]. intros _.
  apply wpc_bind, wpc_move; [by eapply journal_safe |]. intros _ _. apply wpc_ret, HQ; [done | done |].
  etrans; [exact R1 |]. etrans; [exact R2 |]. etrans; [apply O3 |]. by etrans.
Qed.

(** What a successful activation leaves in the store. *)
Record stored_instance (s s' : FactStore) (i : Instance_) : Prop := {
  sti_journal : journal_record id s' = Some (in_activation i);
  sti_stage : at_Stage (in_activation i) = StageSandboxActive /\ at_Recovery (in_activation i) = RecoveryNormal;
  sti_scope : at_Scope (in_activation i) = agg_scope (in_aggregate i);
  sti_lease : lease_won s s' (in_identityLease i);
}.

Lemma wps_Activate c s :
  wpj (Activate range c request) (fun i s' tr => stored_instance s s' i /\ crash_safe id s' tr) s [].
Proof.
  unfold Activate. apply wpc_bind, wpc_lift; [by left |]. intros [] _.
  apply wpc_bind, wpc_now; [by left |]. intros now s1 O1.
  apply wpc_bind, wpc_lift; [by left |]. intros [] _.
  apply wpc_bind. split; [by left |]. intros r s2 O2. destruct r as [bindings | e]; [| by left].
  apply wpc_bind, wps_preflight; [done |]. intros aggregate3 attempt3 s3 t3 J3 Sc3 E3 R3 G3. cbn [fst snd].
  apply wpc_bind, wps_reserve; [done | done | done | done |].
  intros aggregate4 attempt4 l lq s4 t4 J4 Sc4 E4 R4 G4. cbn [fst snd].
  apply wpc_bind. eapply wps_allocate; [done | done | exact E4 |].
  intros attempt5 o aq s5 t5 J5 Sc5 St5 Op5 E5 R5. cbn [fst snd].
  apply wpc_bind. eapply wps_commit; [done | done | done | exact E5 | done |].
  intros aggregate6 attempt6 l6 cq s6 t6 J6 G6 Sc6 St6 Op6 E6 R6 L6. cbn [fst snd].
  apply wpc_bind. eapply wps_sandbox; [done | done | done | done | exact E6 |].
  intros aggregate7 attempt7 s7 t7 J7 G7 Sc7 St7 Op7 R7. cbn [fst snd].
  apply wpc_bind, (wps_open _ _ _ attempt7); [done | done | done |].
  intros aggregate8 endpoint s8 t8 J8 G8 R8. apply wpc_ret. split; [split; cbn | by eapply journal_safe].
  - apply J8.
  - split; [done | apply J8].
  - by rewrite Sc7, G8.
  - apply (lease_won_later _ s6); [| by etrans]. apply (lease_won_sooner _ s5); [| done].
    etrans; [apply O1 |]. etrans; [apply O2 |]. etrans; [exact R3 |]. by etrans.
Qed.
End activate.

(** RecoverActivation plans from the record the journal holds. *)
Lemma recover_exec c id s tr a o s' :
  exec (store_answers id) (RecoverActivation c id) s tr (Ok (a, o)) s' ->
  journal_record id s = Some a /\ exists t, o = PlanRecovery a t.
Proof.
  intros He.
  assert (wpc (store_answers id) (fun _ _ _ => True) (fun _ _ => True) (RecoverActivation c id)
            (fun r _ _ => journal_record id s = Some r.1 /\ exists t, r.2 = PlanRecovery r.1 t) s []) as Hw.
  { apply wpc_bind, wpc_lift; [done |]. intros [] _. apply wpc_bind. split; [done |]. intros r s1 Hr.
    destruct r as [b | e]; [| done].
    apply wpc_bind, wpc_now; [done |]. intros t s2 _. apply wpc_ret. split; [| by exists t].
    destruct Hr as (ctx & v1 & v2 & o' & [_ E1] & Hi & _ & [Hd | [? [=]]]). subst o'.
    unfold InspectActivationAttempt in Hi. run_exec Hi; try done. rewrite cloneActivationAttempt_id. cbn.
    rewrite <- E1. unfold journal_record. done. }
  exact (wp_exec _ _ _ _ _ _ _ _ _ Hw He).
Qed.

(** C4: Activate is crash safe.  Against the fact store, with other clients
    running and any reply possibly lost, consider any point where an activation
    is cut off, and RecoverActivation called afterwards.  If the activation had
    asked for a sandbox, the action that recovery plans does not lead to another
    allocation; if it had activated the sandbox, the action does not lead to
    another activation.  The attempt is in the journal in both cases. *)
Theorem activation_crash_safe `{ZoneDatabase} range c request s tr s' :
  let id := arq_ActivationAttemptID request in
  cut (store_answers id) (Activate range c request) s tr s' ->
  (forall q, c_Allocate q ∈ effects tr ->
     journal_record id s' <> None
     /\ forall c' tr' a d s'', exec (store_answers id) (RecoverActivation c' id) s' tr' (Ok (a, Ok d)) s'' ->
          rd_Action d ∉ allocating)
  /\ (forall q, c_ActivateSandbox q ∈ effects tr ->
        journal_record id s' <> None
        /\ forall c' tr' a d s'', exec (store_answers id) (RecoverActivation c' id) s' tr' (Ok (a, Ok d)) s'' ->
             rd_Action d ∉ activating).
Proof.
  cbn zeta. intros Hc.
  assert (crash_safe (arq_ActivationAttemptID request) s' tr) as Hs.
  { refine (wp_cut _ _ _ _ _ _ _ _ _ _ _ (wps_Activate request range c s) Hc); [done |].
    by intros [i | e] v t; [intros [_ ?] |]. }
  destruct Hs as [E | (a & Ha & H1 & H2)]; [rewrite E; split; intros q Hq; by apply elem_of_nil in Hq |].
  split; intros q Hq; (split; [by rewrite Ha |]); intros c' tr' b d s'' He;
    destruct (recover_exec _ _ _ _ _ _ _ He) as (Hb & t & Hp); rewrite Ha in Hb; injection Hb as <-; symmetry in Hp.
  - by eapply allocation_open_plan; [apply (H1 q) |].
  - by eapply activation_open_plan; [apply (H2 q) |].
Qed.

(** C7: an instance that Activate returns is in agreement with the store,
    whatever other clients do to other attempts: the journal holds its attempt,
    at stage sandbox active and in normal recovery, with the very scope of its
    aggregate, and the identity lease it carries was active in the store, for the
    proposed identity and this attempt, at some moment of the activation. *)
Theorem Activate_agrees `{ZoneDatabase} range c request s tr i s' :
  exec (store_answers (arq_ActivationAttemptID request)) (Activate range c request) s tr (Ok i) s' ->
  stored_instance request s s' i.
Proof. intros He. exact (proj1 (wp_exec _ _ _ _ _ _ _ _ _ (wps_Activate request range c s) He)). Qed.
