(* ===== verification/FakeComponents.v ===== *)
(** * fakes/components.go: in-memory components

    The execution, environment, evidence and checkpoint participant ports the
    foundation is tested with: each a state and one method per port call.  A
    method takes the readings of its clock as arguments, in the order it reads
    them. *)

From stdpp Require Import gmap.
From S2P Require Import Prelude GoStd Errors Identity Fence Continuity Assembly Sha256 Json EffectContract FactStore ComponentPorts.

(** core.DigestJSON of a map[string]any: json.Marshal writes its keys in order. *)
Definition fake_digest (fields : list (string * json)) : result Digest :=
  DigestJSON (Some (json_Marshal (JObject fields))).

(** `digest, _ := core.DigestJSON(...)` *)
Definition fake_digest_or_empty (fields : list (string * json)) : Digest :=
  match fake_digest fields with Ok d => d | Err _ => "" end.

(** The check of the three effect boundaries: the fence against its own
    capability in the given scope. *)
Definition check_dispatch (intent : EffectIntent) (fence : ExecutionFence) (scope : ExecutionScope) (now : Time)
    : result unit :=
  ValidateEffectDispatch intent fence
    {| cff_Scope := scope; cff_CapabilityGrantDigest := fence_CapabilityGrantDigest fence |} now.

Definition day : Duration := 86400000000000%Z.
Definition hour : Duration := 3600000000000%Z.

Definition fakeDescriptor (id : string) (kind : ComponentKind) (conformance : ConformanceLevel)
    (capabilities : list string) (now : Time) : result ComponentDescriptor :=
  digest ← fake_digest [("id", JString id); ("kind", JString (ComponentKind_string kind)); ("version", JString "fake-v1")] ;
  evidence ← fake_digest [("certified_at", JNumber (UnixNano now)); ("id", JString id)] ;
  let items := map (fun capability =>
    {| cap_Name := capability; cap_State := CapabilityBound; cap_EvidenceDigest := evidence;
       cap_EvidenceExpiry := AddDuration now day |}) capabilities in
  Ok {| cd_ID := id; cd_Kind := kind; cd_Version := "fake-v1"; cd_ArtifactDigest := digest;
        cd_ContractVersion := ContractVersion; cd_Conformance := conformance; cd_Capabilities := items |}.

(** ** FakeExecution *)

Record FakeExecution := {
  fx_descriptor : ComponentDescriptor;
  fx_endpoints : gmap string string;
  fx_inspectOverride : string;
}.

Definition NewFakeExecution (id : string) (conformance : ConformanceLevel) (now : Time) : result FakeExecution :=
  descriptor ← fakeDescriptor id ComponentHarness conformance ["preflight"; "run"; "inspect"; "close"] now ;
  Ok {| fx_descriptor := descriptor; fx_endpoints := ∅; fx_inspectOverride := "" |}.

Definition set_endpoints (m : gmap string string) (f : FakeExecution) : FakeExecution :=
  {| fx_descriptor := fx_descriptor f; fx_endpoints := m; fx_inspectOverride := fx_inspectOverride f |}.

Definition Execution_Describe (f : FakeExecution) : result ComponentDescriptor := Ok (fx_descriptor f).

Definition SetInspectState (state : string) : ST FakeExecution error unit :=
  st_modify (fun f => {| fx_descriptor := fx_descriptor f; fx_endpoints := fx_endpoints f;
                         fx_inspectOverride := state |}).

Definition executionObservation (componentID : string) (scope : ExecutionScope) (kind : string) (now : Time)
    : result ExecutionObservation :=
  digest ← fake_digest [("instance", InstanceRef_json (sc_Instance scope)); ("kind", JString kind)] ;
  Ok {| eob_SourceComponentID := componentID; eob_SourceEpoch := inst_Epoch (sc_Instance scope);
        eob_ObservationKind := kind;
        eob_Payload := {| opq_Schema := "praxis.fake.execution/v1"; opq_Digest := digest; opq_Payload := None |};
        eob_ObservedAt := now |}.

Definition Execution_Preflight (request : ExecutionPreflightRequest) (now : Time)
    : ST FakeExecution error ExecutionPreflightReport :=
  let budget := epq_ProbeBudget request in
  st_lift (ExecutionScope_Validate (epq_ProposedScope request)) ;;
  st_guard (bool_decide (sc_SandboxLease (epq_ProposedScope request) <> None) || N.eqb (pbg_MaxRequests budget) 0
            || Z.leb (pbg_MaxDuration budget) 0 || pbg_PossibleCharge budget || pbg_PossibleMutation budget)
    ErrorPreconditionFailed ReasonPlanInvalid ;;
  st_lift (Digest_Validate (epq_RequirementDigest request)) ;;
  f ← st_get ;
  let evidence := fake_digest_or_empty [("component", JString (cd_ID (fx_descriptor f))); ("preflight", JBool true)] in
  mret {| epr_Accepted := true; epr_Descriptor := fx_descriptor f;
          epr_RequirementDigest := epq_RequirementDigest request; epr_EvidenceDigest := evidence;
          epr_EvidenceExpiry := AddDuration now hour; epr_PossibleResidual := false; epr_ResidualRef := "" |}.

Definition Execution_Open (request : ExecutionOpenRequest) (now : Time) : ST FakeExecution error ExecutionEndpointRef :=
  let scope := eoq_Scope request in
  st_guard (bool_decide (sc_SandboxLease scope = None)) ErrorPreconditionFailed ReasonInvalidReference ;;
  st_lift (check_dispatch (eoq_Intent request) (eoq_Fence request) scope now) ;;
  f ← st_get ;
  let id := cd_ID (fx_descriptor f) in
  let digest := fake_digest_or_empty [("component", JString id); ("instance", InstanceRef_json (sc_Instance scope))] in
  let endpoint := {| eer_ComponentID := id; eer_EndpointID := id +:+ "/" +:+ inst_ID (sc_Instance scope);
                     eer_Digest := digest |} in
  let state := if bool_decide (cd_Conformance (fx_descriptor f) = ConformanceRestrictedControlled)
               then "starting" else "ready" in
  st_put (set_endpoints (<[eer_EndpointID endpoint := state]> (fx_endpoints f)) f) ;;
  mret endpoint.

Definition Execution_Inspect (request : ExecutionInspectRequest) (now : Time) : ST FakeExecution error ExecutionObservation :=
  st_lift (ExecutionScope_Validate (eiq_Scope request)) ;;
  f ← st_get ;
  let key := eer_EndpointID (eiq_Endpoint request) in
  match fx_endpoints f !! key with
  | None => st_err ErrorNotFound ReasonReadyEvidenceIncomplete
  | Some state =>
      let state := if bool_decide (eiq_InspectKind request = "ready") && bool_decide (state = "starting")
                   then "ready" else state in
      st_put (set_endpoints (<[key := state]> (fx_endpoints f)) f) ;;
      let state := if bool_decide (fx_inspectOverride f = "") then state else fx_inspectOverride f in
      st_lift (executionObservation (cd_ID (fx_descriptor f)) (eiq_Scope request)
                 (eiq_InspectKind request +:+ ":" +:+ state) now)
  end.

Definition Execution_Control (request : ExecutionControlRequest) (now : Time) : ST FakeExecution error ExecutionObservation :=
  st_lift (ExecutionScope_Validate (exc_Scope request)) ;;
  st_guard (blank (exc_CommandKind request)) ErrorInvalidArgument ReasonInvalidReference ;;
  f ← st_get ;
  st_lift (executionObservation (cd_ID (fx_descriptor f)) (exc_Scope request)
             ("control:" +:+ exc_CommandKind request) now).

Definition Execution_Close (request : ExecutionCloseRequest) (checked observed : Time)
    : ST FakeExecution error ExecutionObservation :=
  st_lift (check_dispatch (ecq_Intent request) (ecq_Fence request) (ecq_Scope request) checked) ;;
  f ← st_get ;
  let key := eer_EndpointID (ecq_Endpoint request) in
  st_guard (bool_decide (fx_endpoints f !! key = None)) ErrorNotFound ReasonInvalidReference ;;
  st_put (set_endpoints (<[key := "closed"]> (fx_endpoints f)) f) ;;
  st_lift (executionObservation (cd_ID (fx_descriptor f)) (ecq_Scope request) "closed" observed).

(** ** FakeEnvironment *)

Record fakeSandbox := { fs_lease : SandboxLeaseRef; fs_state : string; fs_scope : ExecutionScope }.

Record FakeEnvironmentFaults := { LoseAllocateReply : bool; LoseActivateReply : bool; LoseReleaseReply : bool }.

Record FakeEnvironment := {
  fe_descriptor : ComponentDescriptor;
  fe_leases : gmap string fakeSandbox;
  fe_faults : FakeEnvironmentFaults;
  fe_allocateCalls : N;
  fe_activateCalls : N;
  fe_releaseCalls : N;
}.

Definition NewFakeEnvironment (id : string) (now : Time) : result FakeEnvironment :=
  descriptor ← fakeDescriptor id ComponentSandbox ConformanceFullyControlled
                 ["allocate"; "activate"; "inspect"; "fence"; "release"] now ;
  Ok {| fe_descriptor := descriptor; fe_leases := ∅;
        fe_faults := {| LoseAllocateReply := false; LoseActivateReply := false; LoseReleaseReply := false |};
        fe_allocateCalls := 0; fe_activateCalls := 0; fe_releaseCalls := 0 |}.

Definition Environment_Describe (f : FakeEnvironment) : result ComponentDescriptor := Ok (fe_descriptor f).

Definition set_sandboxes (m : gmap string fakeSandbox) (f : FakeEnvironment) : FakeEnvironment :=
  {| fe_descriptor := fe_descriptor f; fe_leases := m; fe_faults := fe_faults f;
     fe_allocateCalls := fe_allocateCalls f; fe_activateCalls := fe_activateCalls f;
     fe_releaseCalls := fe_releaseCalls f |}.
Definition set_calls (allocate activate release : N) (f : FakeEnvironment) : FakeEnvironment :=
  {| fe_descriptor := fe_descriptor f; fe_leases := fe_leases f; fe_faults := fe_faults f;
     fe_allocateCalls := allocate; fe_activateCalls := activate; fe_releaseCalls := release |}.
Definition count_allocate (f : FakeEnvironment) : FakeEnvironment :=
  set_calls (u64_succ (fe_allocateCalls f)) (fe_activateCalls f) (fe_releaseCalls f) f.
Definition count_activate (f : FakeEnvironment) : FakeEnvironment :=
  set_calls (fe_allocateCalls f) (u64_succ (fe_activateCalls f)) (fe_releaseCalls f) f.
Definition count_release (f : FakeEnvironment) : FakeEnvironment :=
  set_calls (fe_allocateCalls f) (fe_activateCalls f) (u64_succ (fe_releaseCalls f)) f.

Definition SetFaults (faults : FakeEnvironmentFaults) : ST FakeEnvironment error unit :=
  st_modify (fun f => {| fe_descriptor := fe_descriptor f; fe_leases := fe_leases f; fe_faults := faults;
                         fe_allocateCalls := fe_allocateCalls f; fe_activateCalls := fe_activateCalls f;
                         fe_releaseCalls := fe_releaseCalls f |}).

Definition OperationCounts (f : FakeEnvironment) : N * N * N :=
  (fe_allocateCalls f, fe_activateCalls f, fe_releaseCalls f).

Definition sandboxObservation (lease : SandboxLeaseRef) (state : string) (now : Time) : result SandboxLeaseObservation :=
  digest ← fake_digest [("lease", SandboxLeaseRef_json lease); ("state", JString state)] ;
  Ok {| slo_Lease := lease; slo_State := state; slo_EvidenceRef := digest; slo_ObservedAt := now |}.

(** The injected loss of a reply. *)
Definition lose (reply : bool) : ST FakeEnvironment error unit :=
  st_guard reply ErrorUnavailable ReasonEvidenceUnavailable.

Definition Environment_Allocate (request : SandboxAllocateRequest) (checked observed : Time)
    : ST FakeEnvironment error SandboxLeaseObservation :=
  let fence := saq_Fence request in
  st_lift (InstanceRef_Validate (saq_ProposedInstance request)) ;;
  st_guard (negb (bool_decide (sc_Instance (fence_Scope fence) = saq_ProposedInstance request))
            || negb (bool_decide (fence_BoundaryScope fence = FenceBoundaryActivation)))
    ErrorPreconditionFailed ReasonEffectFenceStale ;;
  st_lift (check_dispatch (saq_Intent request) fence (fence_Scope fence) checked) ;;
  f ← st_get ;
  let lease := {| sbx_ID := cd_ID (fe_descriptor f) +:+ "/" +:+ inst_ID (saq_ProposedInstance request);
                  sbx_Epoch := 1 |} in
  st_modify count_allocate ;;
  st_guard (bool_decide (is_Some (fe_leases f !! sbx_ID lease))) ErrorConflict ReasonAlreadyExists ;;
  st_modify (fun f => set_sandboxes (<[sbx_ID lease :=
    {| fs_lease := lease; fs_state := "reserved_quarantined"; fs_scope := fence_Scope fence |}]> (fe_leases f)) f) ;;
  lose (LoseAllocateReply (fe_faults f)) ;;
  st_lift (sandboxObservation lease "reserved_quarantined" observed).

(** `!exists || entry.lease != lease` *)
Definition find_sandbox (lease : SandboxLeaseRef) (f : FakeEnvironment) : option fakeSandbox :=
  match fe_leases f !! sbx_ID lease with
  | Some entry => if bool_decide (fs_lease entry = lease) then Some entry else None
  | None => None
  end.

Definition Environment_Activate (request : SandboxActivateRequest) (checked observed : Time)
    : ST FakeEnvironment error SandboxLeaseObservation :=
  let scope := sav_Scope request in
  match sc_SandboxLease scope with
  | None => st_err ErrorPreconditionFailed ReasonInvalidReference
  | Some lease =>
      st_lift (check_dispatch (sav_Intent request) (sav_Fence request) scope checked) ;;
      st_modify count_activate ;;
      f ← st_get ;
      match find_sandbox lease f with
      | None => st_err ErrorPreconditionFailed ReasonInvalidState
      | Some entry =>
          st_guard (negb (bool_decide (fs_state entry = "reserved_quarantined")))
            ErrorPreconditionFailed ReasonInvalidState ;;
          st_put (set_sandboxes (<[sbx_ID lease :=
            {| fs_lease := fs_lease entry; fs_state := "active"; fs_scope := scope |}]> (fe_leases f)) f) ;;
          lose (LoseActivateReply (fe_faults f)) ;;
          st_lift (sandboxObservation (fs_lease entry) "active" observed)
      end
  end.

Definition Environment_Inspect (lease : SandboxLeaseRef) (now : Time) : ST FakeEnvironment error SandboxLeaseObservation :=
  f ← st_get ;
  match find_sandbox lease f with
  | None => st_err ErrorNotFound ReasonInvalidReference
  | Some entry => st_lift (sandboxObservation lease (fs_state entry) now)
  end.

Definition Environment_Fence (request : SandboxFenceRequest) (now : Time) : ST FakeEnvironment error SandboxLeaseObservation :=
  let lease := sfq_Lease request in
  st_modify count_release ;;
  f ← st_get ;
  match find_sandbox lease f with
  | None => st_err ErrorNotFound ReasonInvalidReference
  | Some entry =>
      st_put (set_sandboxes (<[sbx_ID lease :=
        {| fs_lease := fs_lease entry; fs_state := "fenced"; fs_scope := fs_scope entry |}]> (fe_leases f)) f) ;;
      st_lift (sandboxObservation lease "fenced" now)
  end.

Definition Environment_Release (request : SandboxReleaseRequest) (checked observed : Time)
    : ST FakeEnvironment error SandboxLeaseObservation :=
  let lease := srq_Lease request in
  st_lift (check_dispatch (srq_Intent request) (srq_Fence request) (fence_Scope (srq_Fence request)) checked) ;;
  f ← st_get ;
  match find_sandbox lease f with
  | None => st_err ErrorNotFound ReasonInvalidReference
  | Some entry =>
      st_put (set_sandboxes (<[sbx_ID lease :=
        {| fs_lease := fs_lease entry; fs_state := "released"; fs_scope := fs_scope entry |}]> (fe_leases f)) f) ;;
      lose (LoseReleaseReply (fe_faults f)) ;;
      st_lift (sandboxObservation lease "released" observed)
  end.

(** ** FakeEvidence *)

Record observedEvidence := { oe_ref : EvidenceRecordRef; oe_digest : Digest }.

Record FakeEvidence := {
  fv_descriptor : ComponentDescriptor;
  fv_records : list EvidenceRecord;
  fv_observed : gmap string observedEvidence;
}.

Definition NewFakeEvidence (id : string) (now : Time) : result FakeEvidence :=
  descriptor ← fakeDescriptor id ComponentEvidence ConformanceFullyControlled
                 ["append_intent"; "append_observation"; "read"] now ;
  Ok {| fv_descriptor := descriptor; fv_records := []; fv_observed := ∅ |}.

Definition Evidence_Describe (f : FakeEvidence) : result ComponentDescriptor := Ok (fv_descriptor f).

Definition set_records (records : list EvidenceRecord) (f : FakeEvidence) : FakeEvidence :=
  {| fv_descriptor := fv_descriptor f; fv_records := records; fv_observed := fv_observed f |}.
Definition set_observed (observed : gmap string observedEvidence) (f : FakeEvidence) : FakeEvidence :=
  {| fv_descriptor := fv_descriptor f; fv_records := fv_records f; fv_observed := observed |}.

Definition evidence_appendLocked (classification : string) (digest : Digest) (now : Time)
    : ST FakeEvidence error EvidenceRecordRef :=
  f ← st_get ;
  let ref := {| err_Scope := cd_ID (fv_descriptor f);
                err_Sequence := N.of_nat (length (fv_records f)) + 1 |} in
  st_put (set_records (fv_records f ++
    [{| evr_Ref := ref; evr_Classification := classification; evr_PayloadDigest := digest; evr_RecordedAt := now |}]) f) ;;
  mret ref.

Definition Evidence_AppendIntent (request : EvidenceIntentRecord) (now : Time)
    : ST FakeEvidence error EvidenceRecordRef :=
  st_lift (ExecutionScope_Validate (eir_Scope request)) ;;
  st_lift (Digest_Validate (eir_PayloadDigest request)) ;;
  evidence_appendLocked "intent" (eir_PayloadDigest request) now.

(** fmt.Sprintf("%s/%d/%d", ...) *)
Definition observation_key (request : EvidenceObservationRecord) : string :=
  slash (eor_SourceID request) (slash (FormatUint (eor_SourceEpoch request)) (FormatUint (eor_SourceSequence request))).

Definition Evidence_AppendObservation (request : EvidenceObservationRecord) (now : Time)
    : ST FakeEvidence error EvidenceRecordRef :=
  st_guard (blank (eor_SourceID request) || N.eqb (eor_SourceEpoch request) 0 || N.eqb (eor_SourceSequence request) 0
            || blank (eor_CausationID request)) ErrorInvalidArgument ReasonInvalidReference ;;
  st_lift (Digest_Validate (eor_PayloadDigest request)) ;;
  f ← st_get ;
  match fv_observed f !! observation_key request with
  | Some prior =>
      st_guard (negb (bool_decide (oe_digest prior = eor_PayloadDigest request)))
        ErrorConflict ReasonEvidenceConflict ;;
      mret (oe_ref prior)
  | None =>
      ref ← evidence_appendLocked "observation" (eor_PayloadDigest request) now ;
      st_modify (fun f => set_observed (<[observation_key request :=
        {| oe_ref := ref; oe_digest := eor_PayloadDigest request |}]> (fv_observed f)) f) ;;
      mret ref
  end.

(** `int(ref.Sequence)` of a sequence above the largest int is negative: the
    bound check passes and the index panics. *)
Definition Evidence_Read (ref : EvidenceRecordRef) (f : FakeEvidence) : result EvidenceRecord :=
  guard (negb (bool_decide (err_Scope ref = cd_ID (fv_descriptor f))) || N.eqb (err_Sequence ref) 0
         || Z.ltb (Z.of_nat (length (fv_records f))) (wrap_i64 (Z.of_N (err_Sequence ref))))
    ErrorNotFound ReasonInvalidReference ;;
  match fv_records f !! N.to_nat (err_Sequence ref - 1) with
  | Some record => Ok record
  | None => Err GoPanic
  end.

(** ** FakeCheckpointParticipant *)

Record FakeCheckpointParticipant := {
  fp_descriptor : ComponentDescriptor;
  fp_reports : gmap string CheckpointParticipantReport;
  fp_FailPrepare : bool;
}.

Definition NewFakeCheckpointParticipant (id : string) (kind : ComponentKind) (now : Time)
    : result FakeCheckpointParticipant :=
  descriptor ← fakeDescriptor id kind ConformanceFullyControlled ["checkpoint"; "restore"] now ;
  Ok {| fp_descriptor := descriptor; fp_reports := ∅; fp_FailPrepare := false |}.

Definition Participant_Describe (f : FakeCheckpointParticipant) : result ComponentDescriptor := Ok (fp_descriptor f).

Definition set_reports (reports : gmap string CheckpointParticipantReport) (f : FakeCheckpointParticipant)
    : FakeCheckpointParticipant :=
  {| fp_descriptor := fp_descriptor f; fp_reports := reports; fp_FailPrepare := fp_FailPrepare f |}.

Definition participant_report (f : FakeCheckpointParticipant) (state : CheckpointParticipantState)
    (ref : string) (snapshot evidence : Digest) (now : Time) : CheckpointParticipantReport :=
  {| cpr_ComponentID := cd_ID (fp_descriptor f); cpr_ComponentKind := cd_Kind (fp_descriptor f); cpr_State := state;
     cpr_SnapshotRef := ref; cpr_SnapshotDigest := snapshot; cpr_EvidenceDigest := evidence; cpr_ObservedAt := now |}.

Definition PrepareCheckpoint (request : CheckpointPrepareRequest) (now : Time)
    : ST FakeCheckpointParticipant error CheckpointParticipantReport :=
  f ← st_get ;
  st_guard (fp_FailPrepare f) ErrorUnavailable ReasonCheckpointInconsistent ;;
  st_lift (ExecutionScope_Validate (cpq_Scope request)) ;;
  st_lift (EffectWatermarks_Validate (cpq_Effects request)) ;;
  let id := cd_ID (fp_descriptor f) in
  let digest := fake_digest_or_empty [("barrier", JString (cpq_BarrierID request)); ("component", JString id);
                                 ("epoch", JUint (cpq_Epoch request))] in
  let report := participant_report f CheckpointParticipantPrepared (slash id (cpq_BarrierID request)) digest digest now in
  st_put (set_reports (<[cpq_BarrierID request := report]> (fp_reports f)) f) ;;
  mret report.

Definition with_state (state : CheckpointParticipantState) (now : Time) (r : CheckpointParticipantReport)
    : CheckpointParticipantReport :=
  {| cpr_ComponentID := cpr_ComponentID r; cpr_ComponentKind := cpr_ComponentKind r; cpr_State := state;
     cpr_SnapshotRef := cpr_SnapshotRef r; cpr_SnapshotDigest := cpr_SnapshotDigest r;
     cpr_EvidenceDigest := cpr_EvidenceDigest r; cpr_ObservedAt := now |}.

Definition CommitCheckpoint (request : CheckpointCommitRequest) (now : Time)
    : ST FakeCheckpointParticipant error CheckpointParticipantReport :=
  f ← st_get ;
  match fp_reports f !! ccq_BarrierID request with
  | None => st_err ErrorPreconditionFailed ReasonCheckpointInconsistent
  | Some report =>
      st_guard (negb (bool_decide (cpr_State report = CheckpointParticipantPrepared)))
        ErrorPreconditionFailed ReasonCheckpointInconsistent ;;
      let report := with_state CheckpointParticipantCommitted now report in
      st_put (set_reports (<[ccq_BarrierID request := report]> (fp_reports f)) f) ;;
      mret report
  end.

(** An absent report is the zero value, with only its identity, state and time set. *)
Definition AbortCheckpoint (request : CheckpointAbortRequest) (now : Time)
    : ST FakeCheckpointParticipant error CheckpointParticipantReport :=
  f ← st_get ;
  let (ref, digests) := match fp_reports f !! caq_BarrierID request with
                        | Some r => (cpr_SnapshotRef r, (cpr_SnapshotDigest r, cpr_EvidenceDigest r))
                        | None => ("", ("", ""))
                        end in
  let report := participant_report f CheckpointParticipantAborted ref digests.1 digests.2 now in
  st_put (set_reports (<[caq_BarrierID request := report]> (fp_reports f)) f) ;;
  mret report.

Definition RestoreCheckpoint (request : CheckpointRestoreRequest) (now : Time) (f : FakeCheckpointParticipant)
    : result CheckpointParticipantReport :=
  ExecutionScope_Validate (crq_NewScope request) ;;
  Digest_Validate (crq_SnapshotDigest request) ;;
  let digest := fake_digest_or_empty [("component", JString (cd_ID (fp_descriptor f)));
                                 ("instance", InstanceRef_json (sc_Instance (crq_NewScope request)));
                                 ("restore", JString (crq_CheckpointID request))] in
  Ok (participant_report f CheckpointParticipantCommitted (crq_SnapshotRef request) (crq_SnapshotDigest request)
        digest now).
