(* ===== verification/FoundationWiring.v ===== *)
(** * The foundation on in-memory components

    tests/foundation wires the coordinator to the fact store of
    fakes/fact_store.go and the components of fakes/components.go, with one
    clock.  Here the wiring is a function that answers every call of the
    coordinator, so whole histories are evaluated. *)

From stdpp Require Import gmap.
From S2P Require Import Prelude GoStd Errors Identity State Aggregate Fence RunFact Continuity IdentityLease Activation Recovery FactStore LeaseStore RunRegistry Assembly Sha256 Json EffectContract Interaction ComponentPorts Coordinator CoordinatorSafety CoordinatorStore FakeComponents.

(** ** The wiring *)

Record World := {
  w_store : FactStore;
  w_registry : ComponentRegistry;
  w_execution : FakeExecution;
  w_environment : FakeEnvironment;
  w_evidence : FakeEvidence;
  w_participants : list FakeCheckpointParticipant;
}.

Definition set_w_store (s : FactStore) (w : World) : World :=
  {| w_store := s; w_registry := w_registry w; w_execution := w_execution w; w_environment := w_environment w;
     w_evidence := w_evidence w; w_participants := w_participants w |}.
Definition set_w_execution (f : FakeExecution) (w : World) : World :=
  {| w_store := w_store w; w_registry := w_registry w; w_execution := f; w_environment := w_environment w;
     w_evidence := w_evidence w; w_participants := w_participants w |}.
Definition set_w_environment (f : FakeEnvironment) (w : World) : World :=
  {| w_store := w_store w; w_registry := w_registry w; w_execution := w_execution w; w_environment := f;
     w_evidence := w_evidence w; w_participants := w_participants w |}.
Definition set_w_evidence (f : FakeEvidence) (w : World) : World :=
  {| w_store := w_store w; w_registry := w_registry w; w_execution := w_execution w;
     w_environment := w_environment w; w_evidence := f; w_participants := w_participants w |}.
Definition set_w_participants (l : list FakeCheckpointParticipant) (w : World) : World :=
  {| w_store := w_store w; w_registry := w_registry w; w_execution := w_execution w;
     w_environment := w_environment w; w_evidence := w_evidence w; w_participants := l |}.

(** A method of one of the parts. *)
Definition within {P A} (get : World -> P) (set : P -> World -> World) (m : ST P error A) (w : World)
    : World * result A :=
  let '(p, o) := m (get w) in (set p w, o).

(** A participant's method; its handle is its place.  A handle without a
    participant is the nil interface. *)
Definition with_participant {A} (i : N) (m : ST FakeCheckpointParticipant error A) (w : World)
    : World * result A :=
  match w_participants w !! N.to_nat i with
  | None => (w, Err GoPanic)
  | Some p => let '(p', o) := m p in (set_w_participants (<[N.to_nat i := p']> (w_participants w)) w, o)
  end.

(** The adapters' handles: 1 the execution, 2 the environment, 3 the evidence,
    from 4 the participants. *)
Definition describe_in (w : World) : Describe := fun adapter _ =>
  match adapter with
  | 1%N => Execution_Describe (w_execution w)
  | 2%N => Environment_Describe (w_environment w)
  | 3%N => Evidence_Describe (w_evidence w)
  | _ => match w_participants w !! (N.to_nat adapter - 4) with
         | Some p => Participant_Describe p
         | None => Err GoPanic
         end
  end.

Section handle.
Context (range : Range) (now : Time).

Definition handle (c : PortCall) (w : World) : World * Reply c :=
  match c return World * Reply c with
  | c_Now => (w, now)
  | c_Resolve plan t => (w, Registry_Resolve range (describe_in w) CtxLive (w_registry w) plan t)
  | c_CreateAttempt a => within w_store set_w_store (CreateActivationAttempt CtxLive a now) w
  | c_InspectAttempt id => within w_store set_w_store (InspectActivationAttempt CtxLive id) w
  | c_CompareAndSwap a t => within w_store set_w_store (CompareAndSwapActivation CtxLive a t now) w
  | c_CommitActivation q => within w_store set_w_store (CommitActivation CtxLive q now) w
  | c_ReserveLease q => within w_store set_w_store (ReserveIdentityLease CtxLive q now) w
  | c_RevokeLease q => within w_store set_w_store (RevokeIdentityLease CtxLive q now) w
  | c_ReleaseLease q => within w_store set_w_store (ReleaseIdentityLease CtxLive q now) w
  | c_Preflight q => within w_execution set_w_execution (Execution_Preflight q now) w
  | c_Open q => within w_execution set_w_execution (Execution_Open q now) w
  | c_InspectExecution q => within w_execution set_w_execution (Execution_Inspect q now) w
  | c_Close q => within w_execution set_w_execution (Execution_Close q now now) w
  | c_Allocate q => within w_environment set_w_environment (Environment_Allocate q now now) w
  | c_ActivateSandbox q => within w_environment set_w_environment (Environment_Activate q now now) w
  | c_InspectSandbox l => within w_environment set_w_environment (Environment_Inspect l now) w
  | c_FenceSandbox q => within w_environment set_w_environment (Environment_Fence q now) w
  | c_ReleaseSandbox q => within w_environment set_w_environment (Environment_Release q now now) w
  | c_AppendIntent q => within w_evidence set_w_evidence (Evidence_AppendIntent q now) w
  | c_ReadEvidence ref => (w, Evidence_Read ref (w_evidence w))
  | c_DescribeParticipant i =>
      (w, match w_participants w !! N.to_nat i with Some p => Participant_Describe p | None => Err GoPanic end)
  | c_PrepareCheckpoint i q => with_participant i (PrepareCheckpoint q now) w
  | c_CommitCheckpoint i q => with_participant i (CommitCheckpoint q now) w
  | c_AbortCheckpoint i q => with_participant i (AbortCheckpoint q now) w
  | c_RestoreCheckpoint i q =>
      (w, match w_participants w !! N.to_nat i with Some p => RestoreCheckpoint q now p | None => Err GoPanic end)
  end.

(** The environment of the wiring: exactly what [handle] does. *)
Definition wired (w : World) (c : PortCall) (r : Reply c) (w' : World) : Prop := handle c w = (w', r).

Lemma wired_handle c w : wired w c (handle c w).2 (handle c w).1.
Proof. unfold wired. by destruct (handle c w). Qed.

Lemma within_store {A} (m : ST FactStore error A) w r w' (id : string) :
  within w_store set_w_store m w = (w', r) -> store_call id m (w_store w) r (w_store w').
Proof.
  unfold within. destruct (m (w_store w)) as [s o] eqn:E. intros [= <- <-].
  exists (w_store w), s, o. repeat split; try done; try apply rtc_refl. by left.
Qed.

(** The wiring is one of the environments of the fact store. *)
Lemma wired_store id w c r w' : wired w c r w' -> store_answers id (w_store w) c r (w_store w').
Proof.
  assert (forall {P A} (get : World -> P) set (m : ST P error A),
    (forall p v, w_store (set p v) = w_store v) -> forall o, within get set m w = (w', o) ->
    others id (w_store w) (w_store w')) as Hin.
  { intros P A get set m Hs o. unfold within. destruct (m (get w)). intros [= <- <-]. rewrite Hs. apply others_refl. }
  assert (forall {A} i (m : ST FakeCheckpointParticipant error A) o, with_participant i m w = (w', o) ->
    others id (w_store w) (w_store w')) as Hpart.
  { intros A i m o. unfold with_participant. destruct (_ !! _) as [p |]; [destruct (m p) |]; intros [= <- <-]; apply others_refl. }
  unfold wired. destruct c; cbn; intros H;
    try solve [eexists; eexists; by eapply within_store | eexists; by eapply within_store
              | injection H as <- <-; apply others_refl | eapply Hin; [| exact H]; done | by eapply Hpart].
Qed.
End handle.
