(* ===== verification/FoundationHistory.v ===== *)
(** * Histories of the foundation

    The fixture and the scenarios of tests/foundation/coordinator_test.go,
    evaluated: a whole life of an instance, the two lost replies of an
    activation, the lost reply of a release, a refused ready, and a checkpoint
    whose last participant fails to prepare. *)

From stdpp Require Import gmap.
From S2P Require Import Prelude GoStd Errors Identity State Aggregate Fence RunFact Continuity IdentityLease Activation Recovery FactStore LeaseStore RunRegistry Assembly Sha256 Json EffectContract Interaction ComponentPorts Coordinator CoordinatorSafety CoordinatorStop CoordinatorSession CoordinatorCheckpoint CoordinatorStore FakeComponents FoundationWiring.

(** An equation whose left side is computed, checked by the kernel alone. *)
Ltac fx_computed := match goal with |- _ = ?r => vm_cast_no_check (eq_refl r) end.

(** ** The fixture *)

Section fixture.
Context (conformance : ConformanceLevel) (inspect : string) (faults : FakeEnvironmentFaults).

Let now : Time := {| instant := unix_epoch + 1784016000000000000; rep := 0 |}.

Definition fx_register (w : World) : World :=
  let register adapter registry :=
    (Registry_Register (describe_in w) CtxLive (Some adapter) registry).1 in
  {| w_store := w_store w;
     w_registry := foldl (fun r a => register a r) NewComponentRegistry [1%N; 2%N; 3%N; 4%N];
     w_execution := w_execution w; w_environment := w_environment w; w_evidence := w_evidence w;
     w_participants := w_participants w |}.

Definition fx_world : result World :=
  execution ← NewFakeExecution "execution" conformance now ;
  environment ← NewFakeEnvironment "sandbox" now ;
  evidence ← NewFakeEvidence "evidence" now ;
  checkpoint ← NewFakeCheckpointParticipant "checkpoint" ComponentCheckpoint now ;
  Ok (fx_register
    {| w_store := NewFactStore; w_registry := NewComponentRegistry;
       w_execution := (SetInspectState inspect execution).1; w_environment := (SetFaults faults environment).1;
       w_evidence := evidence; w_participants := [checkpoint] |}).
End fixture.

Definition fx_now : Time := UnixTime 1784016000000000000.
Definition fx_zone : ZoneDatabase := fun _ => 0%Z.
Definition no_faults : FakeEnvironmentFaults :=
  {| LoseAllocateReply := false; LoseActivateReply := false; LoseReleaseReply := false |}.

(** The value of a run that did not fail. *)
Definition got {A} (o : result A) : is_ok o = true -> A :=
  match o with Ok a => fun _ => a | Err _ => fun H => False_rect _ (Bool.diff_false_true H) end.

Lemma got_Ok {A} (o : result A) H : o = Ok (got o H).
Proof. by destruct o. Qed.

(** The worlds of the scenarios, computed once. *)
Definition fx_default : World :=
  Eval vm_compute in got (fx_world ConformanceFullyControlled "" no_faults)
    ltac:(vm_cast_no_check (eq_refl true)).

Lemma fx_default_computed : fx_world ConformanceFullyControlled "" no_faults = Ok fx_default.
Proof. fx_computed. Qed.

(** effectIntent, with the digest of the id. *)
Definition fx_intent (id : string) : EffectIntent :=
  {| ei_ID := "effect-" +:+ id; ei_Revision := 1; ei_Kind := EffectKindResourceLifecycle;
     ei_RiskClass := "foundation-test"; ei_CanonicalPayloadDigest := ex_digest; ei_Target := id;
     ei_ConflictEffectDomain := "foundation/" +:+ id;
     ei_Ownership := {| IntentOwner := {| own_Domain := "runtime"; own_ID := "foundation" |};
                        SettlementOwner := {| own_Domain := "runtime"; own_ID := "foundation" |} |};
     ei_AuthorizationRef := "authorization-1"; ei_BudgetReservationRef := "";
     ei_IdempotencyClass := IdempotencyQueryable; ei_PersistedAt := zeroTime |}.

Definition fx_requirement (d : ComponentDescriptor) : ComponentRequirement :=
  {| req_ID := cd_ID d; req_Kind := cd_Kind d; req_Version := cd_Version d;
     req_ArtifactDigest := cd_ArtifactDigest d; req_Required := true; req_AllowResidual := false;
     req_Capabilities := []; req_DependsOn := [] |}.

Definition fx_plan (w : World) : ResolvedAgentPlan :=
  {| plan_ID := "foundation-plan"; plan_Digest := ex_digest; plan_ProfileDigest := ex_digest2;
     plan_ContextDigest := ex_digest2; plan_AuthorityDigest := ex_digest2;
     plan_Requirements := map fx_requirement
       ([fx_descriptor (w_execution w); fe_descriptor (w_environment w); fv_descriptor (w_evidence w)]
        ++ map fp_descriptor (w_participants w)) |}.

Definition fx_coordinator (participants : list CheckpointBinding) : Coordinator :=
  {| co_Registry := Some 0%N; co_Execution := Some 1%N; co_Environment := Some 2%N; co_Evidence := Some 3%N;
     co_IdentityLeases := Some 0%N; co_ActivationFacts := Some 0%N; co_CheckpointParticipants := participants |}.

Definition fx_request (w : World) : ActivationRequest :=
  {| arq_Plan := fx_plan w; arq_ProposedScope := ex_scope; arq_ActivationAttemptID := "activation-1";
     arq_RequirementDigest := ex_digest2; arq_CapabilityGrantDigest := ex_digest2;
     arq_ProbeBudget := {| pbg_MaxRequests := 1; pbg_MaxDuration := 1000000000%Z; pbg_PossibleCharge := false;
                           pbg_PossibleMutation := false; pbg_CleanupContract := "" |};
     arq_IdentityLeaseExpiresAt := AddDuration fx_now (2 * hour)%Z; arq_FenceTTL := 60000000000%Z;
     arq_AllocateIntent := fx_intent "allocate"; arq_ActivateIntent := fx_intent "activate";
     arq_OpenIntent := fx_intent "open" |}.

Definition fx_binding : CheckpointBinding := {| cb_Port := 0; cb_Required := true |}.

(** A program against the wiring. *)
Definition fx_run {A} (m : Prog Reply A) (w : World) : A * World * list (event Reply) :=
  run (handle in_order fx_now) m w.

Definition fx_activate (w : World) : result Instance_ * World * list (event Reply) :=
  fx_run (@Activate fx_zone in_order (fx_coordinator [fx_binding]) (fx_request w)) w.

Definition fx_instance : Instance_ :=
  Eval vm_compute in got (fx_activate fx_default).1.1 ltac:(vm_cast_no_check (eq_refl true)).
Definition fx_active : World := Eval vm_compute in (fx_activate fx_default).1.2.

Lemma fx_activated : (fx_activate fx_default).1 = (Ok fx_instance, fx_active).
Proof. fx_computed. Qed.

(** ** A whole life *)

Definition fx_stop_request (outcome : ExecutionOutcome) : StopRequest :=
  {| sq_Outcome := outcome; sq_Reason := "test complete"; sq_CloseIntent := fx_intent "close";
     sq_ReleaseIntent := fx_intent "release" |}.

Definition fx_checkpoint_request : CheckpointRequest :=
  {| ckq_ID := "checkpoint-1"; ckq_Epoch := 1; ckq_BarrierID := "barrier-1";
     ckq_Effects := {| wm_Accepted := 3; wm_Dispatched := 3; wm_Settled := 2; wm_Remote := 0 |};
     ckq_EventWatermark :=
       {| tp_LedgerScope := "tenant-1"; tp_LedgerSequence := 7; tp_SourceID := "execution"; tp_SourceEpoch := 1;
          tp_SourceSequence := 5; tp_EventID := "event-5"; tp_CausationID := "run-1";
          tp_CorrelationID := "session-1"; tp_ObservedAt := fx_now; tp_IngestedAt := fx_now |} |}.

Definition fx_restore_request (checkpoint : CheckpointSet) : RestoreRequest :=
  {| rst_Checkpoint := checkpoint;
     rst_NewInstance := {| inst_ID := "instance-restored"; inst_Epoch := 2 |};
     rst_CurrentPlanDigest := ck_PlanDigest checkpoint; rst_CurrentProfileDigest := ck_ProfileDigest checkpoint;
     rst_CurrentAuthorityEpoch := ck_AuthorityEpoch checkpoint + 1 |}.

Definition phase_of (i : Instance_) : LifecyclePhase := Phase (agg_state (in_aggregate i)).
Definition lease_state (w : World) : option IdentityLeaseState :=
  match InspectIdentityLease CtxLive "tenant" "agent" fx_now (w_store w) with
  | (_, Ok l) => Some (il_State l)
  | _ => None
  end.

(** The run, and the second run that is refused. *)
Definition fx_started : (Instance_ * result AgentRunRecord) * World * list (event Reply) :=
  fx_run (StartRun "run-1" "session-1" fx_instance) fx_active.
Definition fx_running : Instance_ := Eval vm_compute in fx_started.1.1.1.

Example fx_started_ok :
  fx_started.1.1.1 = fx_running /\ phase_of fx_running = PhaseRunning /\ option_map run_Status (in_activeRun fx_running) = Some RunRunning
  /\ (fx_run (StartRun "run-2" "session-2" fx_running) fx_active).1.1.2
     = Err (NewError ErrorConflict ReasonRunConflict).
Proof. repeat split; vm_compute; reflexivity. Qed.

(** The checkpoint of the running instance, and its restore. *)
Definition fx_checkpointed : (option CheckpointSet * option error) * World * list (event Reply) :=
  fx_run (Checkpoint fx_checkpoint_request (fx_coordinator [fx_binding]) (Some fx_running)) fx_active.
Definition fx_checkpoint : option CheckpointSet := Eval vm_compute in fx_checkpointed.1.1.1.

Definition fx_set : CheckpointSet :=
  Eval vm_compute in match fx_checkpointed.1.1.1 with Some k => k | None => ex_checkpoint CheckpointParticipantCommitted end.

Lemma fx_checkpointed_ok : fx_checkpointed.1.1 = (Some fx_set, None).
Proof. fx_computed. Qed.

(** A checkpoint without an ID: nothing checks the request before the participant
    has committed, so the caller gets an error and no set. *)
Definition fx_checkpoint_unnamed : CheckpointRequest :=
  {| ckq_ID := ""; ckq_Epoch := ckq_Epoch fx_checkpoint_request; ckq_BarrierID := ckq_BarrierID fx_checkpoint_request;
     ckq_Effects := ckq_Effects fx_checkpoint_request; ckq_EventWatermark := ckq_EventWatermark fx_checkpoint_request |}.
Definition fx_refused : (option CheckpointSet * option error) * World * list (event Reply) :=
  fx_run (Checkpoint fx_checkpoint_unnamed (fx_coordinator [fx_binding]) (Some fx_running)) fx_active.
Definition commits (e : event Reply) : bool :=
  match e with Event (c_CommitCheckpoint _ _) (Ok r) => bool_decide (cpr_State r = CheckpointParticipantCommitted) | _ => false end.

Example fx_refused_after_commit :
  fx_refused.1.1 = (None, Some (NewError ErrorInvalidArgument ReasonCheckpointInconsistent)) /\ existsb commits fx_refused.2 = true.
Proof. split; fx_computed. Qed.

Definition fx_restored : result RestoreResult * World * list (event Reply) :=
  fx_run (Coordinator_Restore (fx_coordinator [fx_binding]) (fx_restore_request fx_set)) fx_active.
Definition fx_restore_result : RestoreResult :=
  Eval vm_compute in got fx_restored.1.1 ltac:(vm_cast_no_check (eq_refl true)).

Lemma fx_restored_ok : fx_restored.1.1 = Ok fx_restore_result.
Proof. fx_computed. Qed.

(** The stop: a report, and the identity lease is released. *)
Definition fx_stopped : (Instance_ * result TerminationReport) * World * list (event Reply) :=
  fx_run (Stop (fx_stop_request OutcomeCompleted) fx_running) fx_active.
Definition fx_report : TerminationReport :=
  Eval vm_compute in got fx_stopped.1.1.2 ltac:(vm_cast_no_check (eq_refl true)).

Lemma fx_stopped_ok : fx_stopped.1.1.2 = Ok fx_report /\ lease_state fx_stopped.1.2 = Some IdentityLeaseReleased.
Proof.
  split; fx_computed.
Qed.

(** ** Faults *)

(** The same wiring with a fault. *)
Definition with_faults (faults : FakeEnvironmentFaults) (w : World) : World :=
  set_w_environment (SetFaults faults (w_environment w)).1 w.
Definition losing (allocate activate release : bool) : FakeEnvironmentFaults :=
  {| LoseAllocateReply := allocate; LoseActivateReply := activate; LoseReleaseReply := release |}.

(** RecoverActivation afterwards: what the journal says, and the plan. *)
Definition fx_recover (w : World) : option (ActivationStage * RecoveryState * result RecoveryDecision) :=
  match (fx_run (RecoverActivation (fx_coordinator []) "activation-1") w).1.1 with
  | Ok (a, d) => Some (at_Stage a, at_Recovery a, d)
  | Err _ => None
  end.
Definition fx_outcome (w : World) : result unit * option (ActivationStage * RecoveryState * result RecoveryDecision) * (N * N * N) :=
  let '(o, w', _) := fx_activate w in
  (o ≫= (fun _ => Ok tt), fx_recover w', OperationCounts (w_environment w')).

Definition fx_not_ready : World :=
  set_w_execution (SetInspectState "not_ready" (w_execution fx_default)).1 fx_default.

Definition refused (category : ErrorCategory) (reason : ReasonCode) : result unit := Err (NewError category reason).
Definition plan_of (action : RecoveryAction) (automatic : bool) : result RecoveryDecision :=
  Ok {| rd_Action := action; rd_AutomaticSafe := automatic |}.

(** A lost reply of the allocation or of the activation quarantines the attempt;
    recovery plans an inspection, and nothing is done twice. *)
Example fx_lost_allocate :
  fx_outcome (with_faults (losing true false false) fx_default)
  = (refused ErrorUnavailable ReasonEvidenceUnavailable,
     Some (StageBudgetResolved, RecoveryQuarantined, plan_of ActionInspectSandboxReservation false), (1, 0, 0)%N).
Proof. fx_computed. Qed.
Example fx_lost_activate :
  fx_outcome (with_faults (losing false true false) fx_default)
  = (refused ErrorUnavailable ReasonEvidenceUnavailable,
     Some (StageCommitted, RecoveryQuarantined, plan_of ActionInspectSandboxActivation false), (1, 1, 0)%N).
Proof. fx_computed. Qed.

(** The journal does not know the execution endpoint: an activation that failed
    after Open recovers like one that succeeded. *)
Example fx_conflicting_ready :
  fx_outcome fx_not_ready
  = (refused ErrorPreconditionFailed ReasonReadyEvidenceIncomplete,
     Some (StageSandboxActive, RecoveryNormal, plan_of ActionResumeBinding true), (1, 1, 0)%N)
  /\ (fx_outcome fx_default).1.2 = (fx_outcome fx_not_ready).1.2.
Proof.
  assert (fx_outcome fx_not_ready
    = (refused ErrorPreconditionFailed ReasonReadyEvidenceIncomplete,
       Some (StageSandboxActive, RecoveryNormal, plan_of ActionResumeBinding true), (1, 1, 0)%N)) as E
    by fx_computed.
  rewrite E. split; [reflexivity |].
  fx_computed.
Qed.

(** The lost reply of the release: the stop is indeterminate, the instance stays
    in stopping with the identity lease held, and a second stop is refused. *)
Definition fx_lost_release : (Instance_ * result TerminationReport) * World * list (event Reply) :=
  fx_run (Stop (fx_stop_request OutcomeCancelled) fx_instance) (with_faults (losing false false true) fx_active).
Definition fx_stuck : Instance_ := fx_lost_release.1.1.1.

Lemma fx_lost_release_ok :
  fx_lost_release.1.1.2 = Err (NewError ErrorIndeterminate ReasonCleanupEvidenceIncomplete)
  /\ phase_of fx_stuck = PhaseStopping /\ lease_state fx_lost_release.1.2 = Some IdentityLeaseActive.
Proof. split; [| split]; fx_computed. Qed.

(** A second participant fails to prepare: the first is told to abort. *)
Definition fx_failing : World :=
  set_w_participants
    (w_participants fx_active ++
     map (fun p => {| fp_descriptor := fp_descriptor p; fp_reports := ∅; fp_FailPrepare := true |})
       (w_participants fx_active)) fx_active.
Definition fx_two : Coordinator := fx_coordinator [fx_binding; {| cb_Port := 1; cb_Required := true |}].
Definition fx_partial : (option CheckpointSet * option error) * World * list (event Reply) :=
  fx_run (Checkpoint fx_checkpoint_request fx_two (Some fx_instance)) fx_failing.

Example fx_partial_ok :
  option_map ck_Consistency fx_partial.1.1.1 = Some CheckpointPartial
  /\ option_map (fun k => map cp_State (ck_Participants k)) fx_partial.1.1.1 = Some [CheckpointParticipantAborted]
  /\ fx_partial.1.1.2 = Some (NewError ErrorUnavailable ReasonCheckpointInconsistent).
Proof. repeat split; vm_compute; reflexivity. Qed.

(** ** The theorems at these histories *)

Lemma fx_exec {A} (m : Prog Reply A) w :
  exec (wired in_order fx_now) m w (fx_run m w).2 (fx_run m w).1.1 (fx_run m w).1.2.
Proof. apply run_exec. intros c v. apply wired_handle. Qed.

Lemma fx_exec_store {A} id (m : Prog Reply A) w :
  exec (store_answers id) m (w_store w) (fx_run m w).2 (fx_run m w).1.1 (w_store (fx_run m w).1.2).
Proof. refine (exec_view _ _ w_store _ _ _ _ _ _ (fx_exec m w)). intros v c r v'. apply wired_store. Qed.

Lemma Activate_write_ahead_witness :
  (fx_activate fx_default).1.1 = Ok fx_instance
  /\ activated (fx_request fx_default) in_order (fx_activate fx_default).2 fx_instance.
Proof.
  assert ((fx_activate fx_default).1.1 = Ok fx_instance) as E by (by rewrite fx_activated). split; [exact E |].
  pose proof (fx_exec (@Activate fx_zone in_order (fx_coordinator [fx_binding]) (fx_request fx_default)) fx_default) as He.
  pose proof (Activate_write_ahead _ _ _ _ _ _ _ (exec_cut _ _ _ _ _ _ He)) as [_ H].
  apply H. by rewrite <- E.
Defined.

Lemma fx_instance_ok : instance_ok fx_instance.
Proof. split; [vm_compute; reflexivity | intros _; discriminate | vm_compute; reflexivity]. Qed.
Lemma fx_running_ok : instance_ok fx_running.
Proof. split; [vm_compute; reflexivity | intros _; discriminate | vm_compute; reflexivity]. Qed.

(** The run and the stop, as steps of the instance. *)
Lemma fx_started_step : instance_step fx_instance fx_running.
Proof.
  pose proof (fx_exec (StartRun "run-1" "session-1" fx_instance) fx_active) as He.
  rewrite (surjective_pairing (fx_run (StartRun "run-1" "session-1" fx_instance) fx_active).1.1) in He.
  rewrite <- (proj1 fx_started_ok). exact (do_StartRun _ _ _ _ _ _ _ _ _ _ He).
Qed.

Lemma instance_history_witness :
  life fx_instance fx_running /\ terminal_life fx_instance fx_stopped.1.1.1.
Proof.
  pose proof (fx_exec (@Activate fx_zone in_order (fx_coordinator [fx_binding]) (fx_request fx_default)) fx_default) as He.
  assert ((fx_activate fx_default).1.1 = Ok fx_instance) as E by (by rewrite fx_activated).
  unfold fx_activate in E. rewrite E in He.
  destruct (instance_history _ _ _ _ _ _ _ _ _ He (rtc_once _ _ fx_started_step)) as (Hl & _ & Hs).
  split; [exact Hl |].
  pose proof (fx_exec (Stop (fx_stop_request OutcomeCompleted) fx_running) fx_active) as Ht.
  rewrite (surjective_pairing (fx_run (Stop (fx_stop_request OutcomeCompleted) fx_running) fx_active).1.1) in Ht.
  pose proof (Hs _ _ _ _ _ _ _ _ Ht) as H. fold fx_stopped in H. by rewrite (proj1 fx_stopped_ok) in H.
Defined.

Lemma Stop_protocol_witness :
  stopped (fx_stop_request OutcomeCompleted) fx_running fx_report fx_stopped.1.1.1 fx_stopped.2
  /\ stop_residue fx_instance fx_stuck fx_lost_release.2.
Proof.
  pose proof (fx_exec (Stop (fx_stop_request OutcomeCompleted) fx_running) fx_active) as He.
  pose proof (fx_exec (Stop (fx_stop_request OutcomeCancelled) fx_instance)
                (with_faults (losing false false true) fx_active)) as He'.
  split.
  - refine (proj1 (proj2 (Stop_protocol _ _ _ _ _ _ fx_running_ok (exec_cut _ _ _ _ _ _ He))) _ _ _).
    fold (fx_stopped). rewrite <- (proj1 fx_stopped_ok), <- surjective_pairing. exact He.
  - refine (proj1 (proj2 (proj2 (Stop_protocol _ _ _ _ _ _ fx_instance_ok (exec_cut _ _ _ _ _ _ He'))) _ _ _)).
    rewrite <- (proj1 fx_lost_release_ok). unfold fx_stuck. rewrite <- surjective_pairing. exact He'.
Defined.

Lemma Checkpoint_two_phase_witness :
  checkpoint_run fx_checkpoint_request fx_running [fx_binding] fx_checkpointed.2 (Some fx_set, None)
  /\ checkpoint_run fx_checkpoint_unnamed fx_running [fx_binding] fx_refused.2 fx_refused.1.1
  /\ checkpoint_run fx_checkpoint_request fx_instance (co_CheckpointParticipants fx_two) fx_partial.2 fx_partial.1.1.
Proof.
  split; [| split].
  - rewrite <- fx_checkpointed_ok.
    exact (Checkpoint_two_phase _ _ _ _ _ _ _ _
      (fx_exec (Checkpoint fx_checkpoint_request (fx_coordinator [fx_binding]) (Some fx_running)) fx_active)).
  - exact (Checkpoint_two_phase _ _ _ _ _ _ _ _
      (fx_exec (Checkpoint fx_checkpoint_unnamed (fx_coordinator [fx_binding]) (Some fx_running)) fx_active)).
  - exact (Checkpoint_two_phase _ _ _ _ _ _ _ _
      (fx_exec (Checkpoint fx_checkpoint_request fx_two (Some fx_instance)) fx_failing)).
Defined.

Lemma Restore_isolates_witness :
  RestoreRequest_Validate (fx_restore_request fx_set) = Ok tt
  /\ rsr_ProposedScope fx_restore_result = restored_scope (fx_restore_request fx_set)
  /\ exists r, r ∈ rsr_Reports fx_restore_result /\ restored fx_binding r fx_restored.2.
Proof.
  pose proof (fx_exec (Coordinator_Restore (fx_coordinator [fx_binding]) (fx_restore_request fx_set)) fx_active) as He.
  destruct (Restore_isolates _ _ _ _ _ _ (exec_cut _ _ _ _ _ _ He)) as [_ H].
  destruct (H fx_restore_result) as (Hv & Hs & Hr & _); [rewrite <- fx_restored_ok; exact He |].
  split; [exact Hv | split; [exact Hs |]]. by apply Hr; [left |].
Defined.

(** The allocation whose reply is lost, and the recovery after it. *)
Definition fx_lost : result Instance_ * World * list (event Reply) :=
  let w := with_faults (losing true false false) fx_default in
  fx_run (@Activate fx_zone in_order (fx_coordinator [fx_binding]) (fx_request fx_default)) w.
Definition asks_sandbox (c : PortCall) : bool := match c with c_Allocate _ => true | _ => false end.

Lemma asked_sandbox tr : existsb asks_sandbox (effects tr) = true -> exists q, c_Allocate q ∈ effects tr.
Proof. intros ([] & Hin & E)%existsb_exists; try discriminate E. eexists. by apply list_elem_of_In. Qed.

Lemma activation_crash_safe_witness :
  existsb asks_sandbox (effects fx_lost.2) = true
  /\ journal_record "activation-1" (w_store fx_lost.1.2) <> None
  /\ forall c' tr' a d s'',
       exec (store_answers "activation-1") (RecoverActivation c' "activation-1") (w_store fx_lost.1.2) tr' (Ok (a, Ok d)) s'' ->
       rd_Action d ∉ allocating.
Proof.
  assert (existsb asks_sandbox (effects fx_lost.2) = true) as E
    by (vm_cast_no_check (eq_refl true)).
  split; [exact E |].
  pose (request := fx_request fx_default).
  pose proof (activation_crash_safe in_order (fx_coordinator [fx_binding]) request _ _ _
    (exec_cut _ _ _ _ _ _
      (fx_exec_store (arq_ActivationAttemptID request) (@Activate fx_zone in_order (fx_coordinator [fx_binding]) request)
         (with_faults (losing true false false) fx_default)))) as [H _].
  destruct (asked_sandbox _ E) as [q Hq]. exact (H q Hq).
Defined.

Lemma Activate_agrees_witness :
  stored_instance (fx_request fx_default) (w_store fx_default) (w_store fx_active) fx_instance.
Proof.
  assert ((fx_activate fx_default).1.1 = Ok fx_instance) as E by (by rewrite fx_activated).
  assert ((fx_activate fx_default).1.2 = fx_active) as E2 by (by rewrite fx_activated).
  pose proof (fx_exec_store "activation-1"
    (@Activate fx_zone in_order (fx_coordinator [fx_binding]) (fx_request fx_default)) fx_default) as He.
  apply (Activate_agrees (H := fx_zone) in_order (fx_coordinator [fx_binding]) (fx_request fx_default)
           (w_store fx_default) (fx_activate fx_default).2 fx_instance (w_store fx_active)).
  rewrite <- E, <- E2. exact He.
Defined.
