(* ===== verification/GovernanceFacts.v ===== *)
(** * ports/governance_v2.go: the facts that govern a dispatch

    The authority, review, credential, policy and current-scope facts as their
    owners answer them, the check of each against the binding an effect intent
    carries and the clock, and the request an execution point verifies.  The
    digest of the subject of a review is from ports/review_v2.go. *)

From stdpp Require Import list strings.
From S2P Require Import Prelude GoStd Errors Identity Fence Json Canonical Payload EffectContract.

Local Open Scope N_scope.

(** ** Authority *)

Inductive AuthorityFactStateV2 :=
| AuthorityFactActive | AuthorityFactRevoked | AuthorityFactExpired | AuthorityFactStateOther (raw : string).
#[export] Instance AuthorityFactStateV2_eq_dec : EqDecision AuthorityFactStateV2.
Proof. solve_decision. Defined.

Record DispatchAuthorityFactV2 := {
  af_Ref : string;
  af_Digest : Digest;
  af_Revision : N;
  af_Scope : ExecutionScope;
  af_ActionScopeDigest : Digest;
  af_State : AuthorityFactStateV2;
  af_ExpiresUnixNano : Z;
}.

(** `now.IsZero() || !now.Before(time.Unix(0, nanos))` *)
Definition not_before (now : Time) (nanos : Z) : bool := IsZero now || negb (Before now (UnixTime nanos)).

Definition DispatchAuthorityFactV2_ValidateCurrent (f : DispatchAuthorityFactV2) (expected : AuthorityBindingRefV2)
    (scope : ExecutionScope) (actionScopeDigest : Digest) (now : Time) : result unit :=
  guard (blank (af_Ref f) || N.eqb (af_Revision f) 0 || (af_ExpiresUnixNano f <=? 0)%Z
         || negb (bool_decide (af_State f = AuthorityFactActive)))
    ErrorForbidden ReasonEffectAuthorizationMissing ;;
  ExecutionScope_Validate (af_Scope f) ;;
  for_each Digest_Validate [af_Digest f; af_ActionScopeDigest f] ;;
  guard (not_before now (af_ExpiresUnixNano f)
         || negb (bool_decide (af_Ref f = ab_Ref expected)) || negb (bool_decide (af_Digest f = ab_Digest expected))
         || negb (N.eqb (af_Revision f) (ab_Revision expected))
         || negb (N.eqb (sc_AuthorityEpoch (af_Scope f)) (ab_Epoch expected))
         || negb (bool_decide (af_ActionScopeDigest f = actionScopeDigest)) || negb (sameScope (af_Scope f) scope))
    ErrorPreconditionFailed ReasonStaleAuthorityEpoch.

(** ** Review *)

Inductive ReviewDecisionV2 :=
| ReviewDecisionAccepted | ReviewDecisionConditional | ReviewDecisionOperationNotRequired
| ReviewDecisionRejected | ReviewDecisionRevoked | ReviewDecisionExpired | ReviewDecisionOther (raw : string).
#[export] Instance ReviewDecisionV2_eq_dec : EqDecision ReviewDecisionV2.
Proof. solve_decision. Defined.

Record DispatchReviewFactV2 := {
  rf_Ref : string;
  rf_Digest : Digest;
  rf_Revision : N;
  rf_IntentID : string;
  rf_IntentRevision : N;
  rf_SubjectDigest : Digest;
  rf_CandidateDigest : Digest;
  rf_VerdictDigest : Digest;
  rf_VerdictRevision : N;
  rf_PayloadDigest : Digest;
  rf_PayloadRevision : N;
  rf_ScopeDigest : Digest;
  rf_PolicyDigest : Digest;
  rf_PolicyDecisionRef : string;
  rf_ActorAuthorityDigest : Digest;
  rf_ReviewerAuthorityDigest : Digest;
  rf_ConditionsDigest : Digest;
  rf_SatisfactionRef : string;
  rf_SatisfactionDigest : Digest;
  rf_SatisfactionRevision : N;
  rf_EvidenceDigest : Digest;
  rf_Decision : ReviewDecisionV2;
  rf_ExpiresUnixNano : Z;
}.

Definition ReviewContractVersionV2 : string := "2.0.0".

(** The intent without the digests that a review fixes later: of the review, of
    its policy, and of the dispatch policy. *)
Definition review_subject (i : EffectIntentV2) : EffectIntentV2 :=
  let r := i_Review i in
  let p := i_Policy i in
  normalize_intent
    (set_i_Policy {| pol_Ref := pol_Ref p; pol_Digest := ""; pol_Revision := pol_Revision p |}
      (set_i_Review {| rb_Ref := rb_Ref r; rb_Digest := ""; rb_Revision := rb_Revision r; rb_PolicyDigest := "" |} i)).

Definition ReviewSubjectDigestV2 (i : EffectIntentV2) : result Digest :=
  CanonicalJSONDigest "praxis.runtime.review" ReviewContractVersionV2 "EffectReviewSubjectV2"
    (Some (json_Marshal (EffectIntentV2_json (review_subject i)))).

(** The conditions of a conditional decision are satisfied, and no other
    decision carries any. *)
Definition review_conditions (f : DispatchReviewFactV2) : result unit :=
  if bool_decide (rf_Decision f = ReviewDecisionConditional) then
    guard (negb (is_ok (Digest_Validate (rf_ConditionsDigest f))) || blank (rf_SatisfactionRef f)
           || N.eqb (rf_SatisfactionRevision f) 0 || negb (is_ok (Digest_Validate (rf_SatisfactionDigest f))))
      ErrorForbidden ReasonReviewConditionUnsatisfied
  else
    guard (negb (bool_decide (rf_ConditionsDigest f = "")) || negb (bool_decide (rf_SatisfactionRef f = ""))
           || negb (N.eqb (rf_SatisfactionRevision f) 0) || negb (bool_decide (rf_SatisfactionDigest f = "")))
      ErrorPreconditionFailed ReasonReviewCandidateConflict.

Definition DispatchReviewFactV2_ValidateCurrent (f : DispatchReviewFactV2) (expected : ReviewBindingRefV2)
    (intent : EffectIntentV2) (now : Time) : result unit :=
  guard (blank (rf_Ref f) || blank (rf_PolicyDecisionRef f) || N.eqb (rf_Revision f) 0
         || N.eqb (rf_IntentRevision f) 0 || N.eqb (rf_PayloadRevision f) 0 || (rf_ExpiresUnixNano f <=? 0)%Z)
    ErrorForbidden ReasonReviewVerdictMissing ;;
  for_each Digest_Validate
    [rf_Digest f; rf_SubjectDigest f; rf_CandidateDigest f; rf_VerdictDigest f; rf_PayloadDigest f; rf_ScopeDigest f;
     rf_PolicyDigest f; rf_ActorAuthorityDigest f; rf_ReviewerAuthorityDigest f; rf_EvidenceDigest f] ;;
  review_conditions f ;;
  guard (negb (bool_decide (rf_Decision f = ReviewDecisionAccepted))
         && negb (bool_decide (rf_Decision f = ReviewDecisionOperationNotRequired))
         && negb (bool_decide (rf_Decision f = ReviewDecisionConditional)))
    ErrorForbidden ReasonReviewVerdictStale ;;
  subjectDigest ← ReviewSubjectDigestV2 intent ;
  guard (N.eqb (rf_VerdictRevision f) 0 || not_before now (rf_ExpiresUnixNano f)
         || negb (bool_decide (rf_Ref f = rb_Ref expected)) || negb (bool_decide (rf_Digest f = rb_Digest expected))
         || negb (N.eqb (rf_Revision f) (rb_Revision expected))
         || negb (bool_decide (rf_CandidateDigest f = rb_Digest expected))
         || negb (bool_decide (rf_PolicyDigest f = rb_PolicyDigest expected))
         || negb (bool_decide (rf_IntentID f = i_ID intent)) || negb (N.eqb (rf_IntentRevision f) (i_Revision intent))
         || negb (bool_decide (rf_SubjectDigest f = subjectDigest))
         || negb (bool_decide (rf_PayloadDigest f = op_ContentDigest (i_Payload intent)))
         || negb (N.eqb (rf_PayloadRevision f) (i_PayloadRevision intent))
         || negb (bool_decide (rf_ScopeDigest f = i_ActionScopeDigest intent)))
    ErrorPreconditionFailed ReasonReviewVerdictStale.

(** ** Credential leases *)

Record CredentialLeaseFactV2 := {
  cf_Ref : string;
  cf_Class : string;
  cf_ScopeDigest : Digest;
  cf_Epoch : N;
  cf_Active : bool;
  cf_ExpiresUnixNano : Z;
}.

Definition CredentialLeaseFactV2_json (f : CredentialLeaseFactV2) : json :=
  JStruct [field "ref" (JString (cf_Ref f)); field "class" (JString (cf_Class f));
           field "scope_digest" (JString (cf_ScopeDigest f)); field "epoch" (JUint (cf_Epoch f));
           field "active" (JBool (cf_Active f)); field "expires_unix_nano" (JNumber (cf_ExpiresUnixNano f))].

(** The digests are checked in order, and every fact after the first must come
    later than the one before it by class and reference. *)
Fixpoint sorted_credentials (previous : option CredentialLeaseFactV2) (facts : list CredentialLeaseFactV2) : result unit :=
  match facts with
  | [] => Ok tt
  | fact :: rest =>
      Digest_Validate (cf_ScopeDigest fact) ;;
      guard (match previous with
             | None => false
             | Some p => str_lt (cf_Class fact) (cf_Class p)
                         || (bool_decide (cf_Class p = cf_Class fact) && negb (str_lt (cf_Ref p) (cf_Ref fact)))
             end) ErrorInvalidArgument ReasonInvalidCanonicalForm ;;
      sorted_credentials (Some fact) rest
  end.

Definition DigestCredentialLeaseFactsV2 (facts : list CredentialLeaseFactV2) : result Digest :=
  sorted_credentials None facts ;;
  effect_digest "CredentialLeaseFactSetV2" (JArray (map CredentialLeaseFactV2_json facts)).

Definition CredentialLeaseFactV2_ValidateCurrent (f : CredentialLeaseFactV2) (expected : CredentialLeaseRefV2)
    (now : Time) : result unit :=
  guard (blank (cf_Ref f) || blank (cf_Class f) || N.eqb (cf_Epoch f) 0 || (cf_ExpiresUnixNano f <=? 0)%Z
         || negb (cf_Active f)) ErrorForbidden ReasonCredentialLeaseMissing ;;
  Digest_Validate (cf_ScopeDigest f) ;;
  guard (not_before now (cf_ExpiresUnixNano f)
         || negb (bool_decide (cf_Ref f = cl_Ref expected)) || negb (bool_decide (cf_Class f = cl_Class expected))
         || negb (bool_decide (cf_ScopeDigest f = cl_ScopeDigest expected))
         || negb (N.eqb (cf_Epoch f) (cl_Epoch expected)))
    ErrorPreconditionFailed ReasonCredentialLeaseMissing.

(** ** Dispatch policy *)

Record DispatchPolicyFactV2 := {
  df_Ref : string;
  df_Digest : Digest;
  df_Revision : N;
  df_IntentID : string;
  df_IntentRevision : N;
  df_IntentDigest : Digest;
  df_Scope : ExecutionScope;
  df_EffectKind : string;
  df_RiskClass : string;
  df_ActionScopeDigest : Digest;
  df_MaximumPermitTTL : Duration;
  df_Active : bool;
  df_ExpiresUnixNano : Z;
}.

(** The document of the copy whose Digest is empty. *)
Definition DispatchPolicyFactV2_unsigned_json (f : DispatchPolicyFactV2) : json :=
  JStruct [field "ref" (JString (df_Ref f)); field "digest" (JString ""); field "revision" (JUint (df_Revision f));
           field "intent_id" (JString (df_IntentID f)); field "intent_revision" (JUint (df_IntentRevision f));
           field "intent_digest" (JString (df_IntentDigest f)); field "scope" (ExecutionScope_json (df_Scope f));
           field "effect_kind" (JString (df_EffectKind f)); field "risk_class" (JString (df_RiskClass f));
           field "action_scope_digest" (JString (df_ActionScopeDigest f));
           field "maximum_permit_ttl" (JNumber (df_MaximumPermitTTL f)); field "active" (JBool (df_Active f));
           field "expires_unix_nano" (JNumber (df_ExpiresUnixNano f))].

Definition DispatchPolicyFactV2_DigestV2 (f : DispatchPolicyFactV2) : result Digest :=
  effect_digest "DispatchPolicyFactV2" (DispatchPolicyFactV2_unsigned_json f).

Definition DispatchPolicyFactV2_ValidateCurrent (f : DispatchPolicyFactV2) (expected : DispatchPolicyBindingRefV2)
    (intent : EffectIntentV2) (requestedTTL : Duration) (now : Time) : result unit :=
  guard (blank (df_Ref f) || N.eqb (df_Revision f) 0 || blank (df_IntentID f) || N.eqb (df_IntentRevision f) 0
         || (df_ExpiresUnixNano f <=? 0)%Z || (df_MaximumPermitTTL f <=? 0)%Z
         || (MaxDispatchPermitTTL <? df_MaximumPermitTTL f)%Z || negb (df_Active f))
    ErrorForbidden ReasonEffectAuthorizationMissing ;;
  ExecutionScope_Validate (df_Scope f) ;;
  ValidateNamespacedNameV2 (df_EffectKind f) ;;
  ValidateNamespacedNameV2 (df_RiskClass f) ;;
  for_each Digest_Validate [df_Digest f; df_IntentDigest f; df_ActionScopeDigest f] ;;
  policyDigest ← DispatchPolicyFactV2_DigestV2 f ;
  candidateDigest ← EffectIntentV2_PolicyCandidateDigestV2 intent ;
  guard (IsZero now || (requestedTTL <=? 0)%Z || (df_MaximumPermitTTL f <? requestedTTL)%Z
         || negb (Before now (UnixTime (df_ExpiresUnixNano f)))
         || negb (bool_decide (df_Ref f = pol_Ref expected)) || negb (bool_decide (df_Digest f = policyDigest))
         || negb (bool_decide (df_Digest f = pol_Digest expected))
         || negb (N.eqb (df_Revision f) (pol_Revision expected))
         || negb (bool_decide (df_IntentID f = i_ID intent)) || negb (N.eqb (df_IntentRevision f) (i_Revision intent))
         || negb (bool_decide (df_IntentDigest f = candidateDigest)) || negb (sameScope (df_Scope f) (i_Scope intent))
         || negb (bool_decide (df_EffectKind f = i_Kind intent)) || negb (bool_decide (df_RiskClass f = i_RiskClass intent))
         || negb (bool_decide (df_ActionScopeDigest f = i_ActionScopeDigest intent)))
    ErrorPreconditionFailed ReasonEffectAuthorizationMissing.

(** ** The current execution scope *)

Inductive ExecutionScopeFactStateV2 :=
| ExecutionScopeFactActive | ExecutionScopeFactRevoked | ExecutionScopeFactExpired
| ExecutionScopeFactStateOther (raw : string).
#[export] Instance ExecutionScopeFactStateV2_eq_dec : EqDecision ExecutionScopeFactStateV2.
Proof. solve_decision. Defined.
Definition ExecutionScopeFactStateV2_string (s : ExecutionScopeFactStateV2) : string :=
  match s with
  | ExecutionScopeFactActive => "active" | ExecutionScopeFactRevoked => "revoked"
  | ExecutionScopeFactExpired => "expired" | ExecutionScopeFactStateOther raw => raw
  end.

Record GovernanceSourceFactRefV2 := { gs_Ref : string; gs_Revision : N; gs_Digest : Digest }.

Definition GovernanceSourceFactRefV2_Validate (r : GovernanceSourceFactRefV2) : result unit :=
  guard (blank (gs_Ref r) || N.eqb (gs_Revision r) 0) ErrorInvalidArgument ReasonInvalidReference ;;
  Digest_Validate (gs_Digest r).

Definition GovernanceSourceFactRefV2_json (r : GovernanceSourceFactRefV2) : json :=
  JStruct [field "ref" (JString (gs_Ref r)); field "revision" (JUint (gs_Revision r));
           field "digest" (JString (gs_Digest r))].

Record ExecutionScopeCurrentFactV2 := {
  ef_Ref : string;
  ef_Digest : Digest;
  ef_Revision : N;
  ef_Scope : ExecutionScope;
  ef_CapabilityGrantDigest : Digest;
  ef_ActivationSource : GovernanceSourceFactRefV2;
  ef_InstanceSource : GovernanceSourceFactRefV2;
  ef_SandboxSource : option GovernanceSourceFactRefV2;
  ef_AuthoritySource : GovernanceSourceFactRefV2;
  ef_BindingSource : GovernanceSourceFactRefV2;
  ef_RunSource : GovernanceSourceFactRefV2;
  ef_ActiveRunID : string;
  ef_RunState : string;
  ef_ProjectionWatermark : N;
  ef_State : ExecutionScopeFactStateV2;
  ef_ExpiresUnixNano : Z;
}.

(** The document of the copy whose Digest is empty. *)
Definition ExecutionScopeCurrentFactV2_unsigned_json (f : ExecutionScopeCurrentFactV2) : json :=
  JStruct [field "ref" (JString (ef_Ref f)); field "digest" (JString ""); field "revision" (JUint (ef_Revision f));
           field "scope" (ExecutionScope_json (ef_Scope f));
           field "capability_grant_digest" (JString (ef_CapabilityGrantDigest f));
           field "activation_source" (GovernanceSourceFactRefV2_json (ef_ActivationSource f));
           field "instance_source" (GovernanceSourceFactRefV2_json (ef_InstanceSource f));
           omit_nil "sandbox_source" GovernanceSourceFactRefV2_json (ef_SandboxSource f);
           field "authority_source" (GovernanceSourceFactRefV2_json (ef_AuthoritySource f));
           field "binding_source" (GovernanceSourceFactRefV2_json (ef_BindingSource f));
           field "run_source" (GovernanceSourceFactRefV2_json (ef_RunSource f));
           field "active_run_id" (JString (ef_ActiveRunID f)); field "run_state" (JString (ef_RunState f));
           field "projection_watermark" (JUint (ef_ProjectionWatermark f));
           field "state" (JString (ExecutionScopeFactStateV2_string (ef_State f)));
           field "expires_unix_nano" (JNumber (ef_ExpiresUnixNano f))].

Definition ExecutionScopeCurrentFactV2_DigestV2 (f : ExecutionScopeCurrentFactV2) : result Digest :=
  effect_digest "ExecutionScopeCurrentFactV2" (ExecutionScopeCurrentFactV2_unsigned_json f).

Definition ExecutionScopeCurrentFactV2_BindingRefV2 (f : ExecutionScopeCurrentFactV2)
  : result ExecutionScopeBindingRefV2 :=
  digest ← ExecutionScopeCurrentFactV2_DigestV2 f ;
  Ok {| xs_Ref := ef_Ref f; xs_Digest := digest; xs_Revision := ef_Revision f |}.

(** A sandbox lease and its source fact come together. *)
Definition sandbox_source (f : ExecutionScopeCurrentFactV2) : result unit :=
  match sc_SandboxLease (ef_Scope f), ef_SandboxSource f with
  | None, None => Ok tt
  | None, Some _ => fail ErrorPreconditionFailed ReasonEffectFenceStale
  | Some _, None => fail ErrorPreconditionFailed ReasonEffectFenceStale
  | Some _, Some source => GovernanceSourceFactRefV2_Validate source
  end.

Definition ExecutionScopeCurrentFactV2_ValidateCurrent (f : ExecutionScopeCurrentFactV2)
    (expected : ExecutionScopeBindingRefV2) (intent : EffectIntentV2) (capabilityDigest : Digest) (now : Time)
  : result unit :=
  guard (blank (ef_Ref f) || N.eqb (ef_Revision f) 0 || (ef_ExpiresUnixNano f <=? 0)%Z
         || negb (bool_decide (ef_State f = ExecutionScopeFactActive)) || N.eqb (ef_ProjectionWatermark f) 0
         || negb (bool_decide (ef_ActiveRunID f = i_RunID intent)) || negb (bool_decide (ef_RunState f = "running")))
    ErrorForbidden ReasonEffectFenceStale ;;
  ExecutionScope_Validate (ef_Scope f) ;;
  Digest_Validate (ef_CapabilityGrantDigest f) ;;
  for_each GovernanceSourceFactRefV2_Validate
    [ef_ActivationSource f; ef_InstanceSource f; ef_AuthoritySource f; ef_BindingSource f; ef_RunSource f] ;;
  sandbox_source f ;;
  ref ← ExecutionScopeCurrentFactV2_BindingRefV2 f ;
  guard (negb (bool_decide (ef_Digest f = xs_Digest ref)) || negb (bool_decide (ref = expected))
         || not_before now (ef_ExpiresUnixNano f)
         || negb (bool_decide (capabilityDigest = ef_CapabilityGrantDigest f))
         || negb (sameScope (ef_Scope f) (i_Scope intent)))
    ErrorPreconditionFailed ReasonEffectFenceStale.

(** ** The request of an execution point *)

Record PermitVerificationRequestV2 := {
  pv_Permit : DispatchPermitV2;
  pv_PermitFactRevision : N;
  pv_PermitFactState : string;
  pv_Intent : EffectIntentV2;
  pv_Fence : ExecutionFence;
  pv_Current : DispatchCurrentFactsV2;
}.

Definition PermitVerificationRequestV2_Validate `{ZoneDatabase} (r : PermitVerificationRequestV2) (now : Time)
  : result unit :=
  guard ((pv_PermitFactRevision r <? 2) || negb (bool_decide (pv_PermitFactState r = "begun")))
    ErrorPreconditionFailed ReasonDispatchPermitConsumed ;;
  ValidateDispatchAtExecutionPointV2 (pv_Permit r) (pv_Intent r) (pv_Fence r) (pv_Current r) now.
