(* ===== verification/GovernanceGateway.v ===== *)
(** * control/governance_gateway_v2.go: the dispatch gateway

    The host's last gate before an effect is dispatched.  Issue and Begin are
    programs over the ports of the gateway: they read the effect and every fact
    that governs it, check each at one reading of the clock, and only then ask
    the effect owner for the permit or for the begin of its dispatch.  Plus the
    planner of what to do about an effect after a restart. *)

From stdpp Require Import gmap list strings.
From S2P Require Import Prelude GoStd Errors Identity Fence IdentityLease Dependency Json Canonical Payload EffectContract EffectFact BudgetFact EffectStore Binding BindingFact Interaction GovernanceFacts.

Local Open Scope N_scope.

(** ** The ports *)

(** One constructor per method of a port that the gateway calls, and its clock. *)
Inductive GatewayCall :=
| g_Clock
| g_InspectEffect (id : string)
| g_InspectDispatchPermit (id : string)
| g_InspectIdentityLease (tenantID identityID : string)
| g_InspectBindingSet (id : string)
| g_InspectDispatchAuthority (ref : string)
| g_InspectDispatchPolicy (ref : string)
| g_InspectDispatchReview (ref : string)
| g_InspectBudgetBinding (ref : string)
| g_InspectCredentialLease (ref : string)
| g_InspectCurrentExecutionScope (ref : string)
| g_IssueDispatchPermit (request : IssueDispatchPermitRequestV2)
| g_BeginDispatch (request : BeginDispatchRequestV2).

Definition GatewayReply (c : GatewayCall) : Type :=
  match c with
  | g_Clock => Time
  | g_InspectEffect _ => result EffectFactV2
  | g_InspectDispatchPermit _ | g_BeginDispatch _ => result DispatchPermitFactV2
  | g_InspectIdentityLease _ _ => result IdentityExecutionLease
  | g_InspectBindingSet _ => result BindingSetFactV2
  | g_InspectDispatchAuthority _ => result DispatchAuthorityFactV2
  | g_InspectDispatchPolicy _ => result DispatchPolicyFactV2
  | g_InspectDispatchReview _ => result DispatchReviewFactV2
  | g_InspectBudgetBinding _ => result BudgetBindingFactV2
  | g_InspectCredentialLease _ => result CredentialLeaseFactV2
  | g_InspectCurrentExecutionScope _ => result ExecutionScopeCurrentFactV2
  | g_IssueDispatchPermit _ => result (EffectFactV2 * DispatchPermitFactV2)
  end.

Definition gw_event := event GatewayReply.

(** Programs that return a value or an error. *)
Definition Gw (A : Type) : Type := Prog GatewayReply (result A).
#[export] Instance gw_ret : MRet Gw := fun A a => Ret (Ok a).
#[export] Instance gw_bind : MBind Gw :=
  fun A B k m => prog_bind m (fun o => match o with Ok a => k a | Err e => Ret (Err e) end).
Definition gw_lift {A} (m : result A) : Gw A := Ret m.
Definition gw_clock : Gw Time := Call g_Clock (fun now => Ret (Ok now)).

(** `if err != nil || !ok { return core.NewError(category, reason) }` *)
Definition unless {A} (category : ErrorCategory) (reason : ReasonCode) (ok : A -> bool) (m : Gw A) : Gw A :=
  prog_bind m (fun o =>
    match o with
    | Ok a => if ok a then Ret (Ok a) else Ret (fail category reason)
    | Err _ => Ret (fail category reason)
    end).

(** ** The gateway *)

Record IssueGovernedDispatchRequestV2 := {
  igd_EffectID : string;
  igd_ExpectedEffectRevision : N;
  igd_PermitID : string;
  igd_AttemptID : string;
  igd_PermitTTL : Duration;
}.

Record BeginGovernedDispatchRequestV2 := {
  bgd_EffectID : string;
  bgd_ExpectedEffectRevision : N;
  bgd_PermitID : string;
  bgd_ExpectedPermitRevision : N;
}.

(** Which of the interface fields are set. *)
Record GovernanceDispatchGatewayV2 := {
  gw_Effects : bool;
  gw_Bindings : bool;
  gw_Budgets : bool;
  gw_IdentityLeases : bool;
  gw_Authority : bool;
  gw_Policies : bool;
  gw_CurrentScopes : bool;
  gw_Review : bool;
  gw_Credentials : bool;
  gw_Clock : bool;
}.

Definition GovernanceDispatchGatewayV2_validate (g : GovernanceDispatchGatewayV2) : result unit :=
  guard (negb (gw_Effects g) || negb (gw_Bindings g) || negb (gw_Budgets g) || negb (gw_IdentityLeases g)
         || negb (gw_Authority g) || negb (gw_Policies g) || negb (gw_CurrentScopes g) || negb (gw_Review g)
         || negb (gw_Credentials g) || negb (gw_Clock g)) ErrorInvalidArgument ReasonComponentMissing.

(** ** The checks that Issue and Begin share *)

Definition lease_governs (lease : IdentityExecutionLease) (scope : ExecutionScope) (now : Time) : bool :=
  bool_decide (il_State lease = IdentityLeaseActive) && bool_decide (il_Identity lease = sc_Identity scope)
  && bool_decide (il_Lineage lease = sc_Lineage scope) && N.eqb (il_AuthorityEpoch lease) (sc_AuthorityEpoch scope)
  && Before now (il_ExpiresAt lease).

Definition set_governs (set : BindingSetFactV2) (provider : ProviderBindingRefV2) (now : Time) : bool :=
  bool_decide (bs_State set = BindingSetActive) && N.eqb (bs_Revision set) (pb_BindingSetRevision provider)
  && Before now (UnixTime (bs_ExpiresUnixNano set)).

(** `members[member.ComponentID] = member`: the last of a component stays. *)
Definition members_by_component (members : list BindingMemberV2) : gmap string BindingMemberV2 :=
  fold_left (fun m member => <[bm_ComponentID member := member]> m) members ∅.

(** The owners of the provider, in the order of its assignments. *)
Fixpoint assigned_owners (members : gmap string BindingMemberV2) (assignments : list OwnerAssignmentV2)
  : result (list EffectOwnerRefV2) :=
  match assignments with
  | [] => Ok []
  | assignment :: rest =>
      match members !! oa_OwnerComponentID assignment with
      | None => fail ErrorCapabilityUnavailable ReasonOwnerMissing
      | Some ownerMember =>
          owners ← assigned_owners members rest ;
          Ok ({| eo_Role := oa_Role assignment; eo_ComponentID := oa_OwnerComponentID assignment;
                 eo_ManifestDigest := bm_ManifestDigest ownerMember |} :: owners)
      end
  end.

(** sort.Slice by role; owners of one role keep their order, as they do in Go up
    to twelve of them. *)
Definition resolveEffectBindingV2 (set : BindingSetFactV2) (intent : EffectIntentV2)
  : result (BindingMemberV2 * list EffectOwnerRefV2) :=
  let members := members_by_component (bs_Members set) in
  match members !! pb_ComponentID (i_Provider intent) with
  | None => fail ErrorCapabilityUnavailable ReasonProviderBindingStale
  | Some provider =>
      guard (negb (existsb (fun grant => bool_decide (cg_Capability grant = pb_Capability (i_Provider intent)))
                     (bm_Grants provider))) ErrorCapabilityUnavailable ReasonUnknownCapability ;;
      owners ← assigned_owners members (bm_Owners provider) ;
      Ok (provider, sort_by (fun o => OwnerRoleV2_string (eo_Role o)) owners)
  end.

Fixpoint effectOwnerSetsEqualV2 (left right : list EffectOwnerRefV2) : bool :=
  match left, right with
  | [], [] => true
  | x :: xs, y :: ys => bool_decide (x = y) && effectOwnerSetsEqualV2 xs ys
  | _, _ => false
  end.

Definition binding_governs (resolved : BindingMemberV2 * list EffectOwnerRefV2) (intent : EffectIntentV2) : bool :=
  let '(provider, owners) := resolved in
  bool_decide (bm_ComponentID provider = pb_ComponentID (i_Provider intent))
  && bool_decide (bm_ManifestDigest provider = pb_ManifestDigest (i_Provider intent))
  && bool_decide (bm_ArtifactDigest provider = pb_ArtifactDigest (i_Provider intent))
  && effectOwnerSetsEqualV2 owners (i_Owners intent).

(** The loop over the credential leases of the intent. *)
Fixpoint read_credentials (read : CredentialLeaseRefV2 -> Gw CredentialLeaseFactV2)
    (expected : list CredentialLeaseRefV2) : Gw (list CredentialLeaseFactV2) :=
  match expected with
  | [] => mret []
  | e :: rest =>
      credential ← read e ;
      facts ← read_credentials read rest ;
      mret (credential :: facts)
  end.

(** What one call read. *)
Record Basis := {
  ba_now : Time;
  ba_effect : EffectFactV2;
  ba_lease : IdentityExecutionLease;
  ba_set : BindingSetFactV2;
  ba_authority : DispatchAuthorityFactV2;
  ba_policy : DispatchPolicyFactV2;
  ba_review : DispatchReviewFactV2;
  ba_budget : BudgetBindingFactV2;
  ba_credentials : list CredentialLeaseFactV2;
  ba_scope : ExecutionScopeCurrentFactV2;
  ba_capabilityDigest : Digest;
  ba_credentialDigest : Digest;
}.

(** ** Issue *)

Section gateway.
Context `{ZoneDatabase}.

(** The limits in the order of the code, the credentials last. *)
Definition expiry_limits (b : Basis) : list Time :=
  [UnixTime (i_ExpiresUnixNano (f_Intent (ba_effect b))); il_ExpiresAt (ba_lease b);
   UnixTime (bs_ExpiresUnixNano (ba_set b)); UnixTime (af_ExpiresUnixNano (ba_authority b));
   UnixTime (df_ExpiresUnixNano (ba_policy b)); UnixTime (rf_ExpiresUnixNano (ba_review b));
   UnixTime (b_ExpiresUnixNano (ba_budget b)); UnixTime (ef_ExpiresUnixNano (ba_scope b))]
  ++ map (fun credential => UnixTime (cf_ExpiresUnixNano credential)) (ba_credentials b).

Definition earlier (t limit : Time) : Time := if Before limit t then limit else t.

Definition permit_expiry (b : Basis) (ttl : Duration) : Time :=
  fold_left earlier (expiry_limits b) (AddDuration (ba_now b) ttl).

Definition governed_fence (b : Basis) (permitExpires : Time) : ExecutionFence :=
  let i := f_Intent (ba_effect b) in
  {| fence_BoundaryScope := match sc_SandboxLease (ef_Scope (ba_scope b)) with
                            | Some _ => FenceBoundaryInstance | None => FenceBoundaryActivation end;
     fence_Scope := ef_Scope (ba_scope b); fence_CapabilityGrantDigest := ba_capabilityDigest b;
     fence_EffectIntentID := i_ID i; fence_EffectIntentRevision := i_Revision i;
     fence_CanonicalPayloadDigest := op_ContentDigest (i_Payload i); fence_ExpiresAt := permitExpires |}.

Definition governed_permit (request : IssueGovernedDispatchRequestV2) (b : Basis) (permitExpires : Time)
    (fenceDigest : Digest) : DispatchPermitV2 :=
  let i := f_Intent (ba_effect b) in
  let review := ba_review b in
  {| p_ContractVersion := EffectContractVersionV2; p_ID := igd_PermitID request; p_Revision := 1;
     p_AttemptID := igd_AttemptID request; p_IntentID := i_ID i; p_IntentRevision := i_Revision i;
     p_IntentDigest := digest_or_zero (EffectIntentV2_DigestV2 i); p_PayloadSchema := op_Schema (i_Payload i);
     p_PayloadDigest := op_ContentDigest (i_Payload i); p_PayloadRevision := i_PayloadRevision i;
     p_Scope := i_Scope i; p_RunID := i_RunID i; p_ConflictDomain := i_ConflictDomain i; p_Provider := i_Provider i;
     p_EnforcementPoint := i_Provider i; p_Authority := i_Authority i; p_Review := i_Review i;
     p_ReviewVerdictDigest := rf_VerdictDigest review; p_ReviewVerdictRevision := rf_VerdictRevision review;
     p_ReviewSatisfactionRef := rf_SatisfactionRef review; p_ReviewSatisfactionDigest := rf_SatisfactionDigest review;
     p_ReviewSatisfactionRevision := rf_SatisfactionRevision review; p_Budget := i_Budget i; p_Policy := i_Policy i;
     p_CurrentScope := i_CurrentScope i; p_CapabilityGrantDigest := ba_capabilityDigest b;
     p_CredentialGrantDigest := ba_credentialDigest b; p_FenceDigest := fenceDigest; p_Idempotency := i_Idempotency i;
     p_IssuedUnixNano := UnixNano (ba_now b); p_ExpiresUnixNano := UnixNano permitExpires |}.

(** From `permitExpires := now.Add(request.PermitTTL)` on. *)
Definition governed_issue (request : IssueGovernedDispatchRequestV2) (b : Basis)
  : result IssueDispatchPermitRequestV2 :=
  let permitExpires := permit_expiry b (igd_PermitTTL request) in
  guard (negb (After permitExpires (ba_now b))) ErrorPreconditionFailed ReasonDispatchPermitExpired ;;
  let fence := governed_fence b permitExpires in
  fenceDigest ← DigestExecutionFenceV2 fence ;
  Ok {| iss_EffectID := i_ID (f_Intent (ba_effect b)); iss_ExpectedEffectRevision := f_Revision (ba_effect b);
        iss_Permit := governed_permit request b permitExpires fenceDigest; iss_Fence := fence |}.

Definition issue_request_check (request : IssueGovernedDispatchRequestV2) : result unit :=
  guard (blank (igd_PermitID request) || blank (igd_AttemptID request)
         || N.eqb (igd_ExpectedEffectRevision request) 0 || (igd_PermitTTL request <=? 0)%Z
         || (MaxDispatchPermitTTL <? igd_PermitTTL request)%Z) ErrorInvalidArgument ReasonDispatchPermitInvalid.

Definition issue_effect_check (request : IssueGovernedDispatchRequestV2) (effect : EffectFactV2) (now : Time)
  : result unit :=
  guard (negb (N.eqb (f_Revision effect) (igd_ExpectedEffectRevision request))
         || negb (bool_decide (f_State effect = EffectAccepted))
         || negb (Before now (UnixTime (i_ExpiresUnixNano (f_Intent effect)))))
    ErrorConflict ReasonEffectStateConflict.

Definition issue_credential (now : Time) (expected : CredentialLeaseRefV2) : Gw CredentialLeaseFactV2 :=
  credential ← call (g_InspectCredentialLease (cl_Ref expected)) ;
  gw_lift (CredentialLeaseFactV2_ValidateCurrent credential expected now) ;;
  mret credential.

Definition Issue (g : GovernanceDispatchGatewayV2) (request : IssueGovernedDispatchRequestV2)
  : Gw (EffectFactV2 * DispatchPermitFactV2) :=
  gw_lift (GovernanceDispatchGatewayV2_validate g) ;;
  gw_lift (issue_request_check request) ;;
  now ← gw_clock ;
  gw_lift (guard (IsZero now) ErrorInvalidArgument ReasonInvalidReference) ;;
  effect ← call (g_InspectEffect (igd_EffectID request)) ;
  gw_lift (issue_effect_check request effect now) ;;
  let i := f_Intent effect in
  identityLease ← call (g_InspectIdentityLease (id_TenantID (sc_Identity (i_Scope i))) (id_ID (sc_Identity (i_Scope i)))) ;
  gw_lift (guard (negb (lease_governs identityLease (i_Scope i) now)) ErrorForbidden ReasonStaleIdentityEpoch) ;;
  set ← call (g_InspectBindingSet (pb_BindingSetID (i_Provider i))) ;
  gw_lift (guard (negb (set_governs set (i_Provider i) now)) ErrorPreconditionFailed ReasonProviderBindingStale) ;;
  resolved ← gw_lift (resolveEffectBindingV2 set i) ;
  gw_lift (guard (negb (binding_governs resolved i)) ErrorPreconditionFailed ReasonProviderBindingStale) ;;
  authority ← call (g_InspectDispatchAuthority (ab_Ref (i_Authority i))) ;
  gw_lift (DispatchAuthorityFactV2_ValidateCurrent authority (i_Authority i) (i_Scope i) (i_ActionScopeDigest i) now) ;;
  policy ← call (g_InspectDispatchPolicy (pol_Ref (i_Policy i))) ;
  gw_lift (DispatchPolicyFactV2_ValidateCurrent policy (i_Policy i) i (igd_PermitTTL request) now) ;;
  review ← call (g_InspectDispatchReview (rb_Ref (i_Review i))) ;
  gw_lift (DispatchReviewFactV2_ValidateCurrent review (i_Review i) i now) ;;
  budget ← call (g_InspectBudgetBinding (bb_Ref (i_Budget i))) ;
  gw_lift (BudgetBindingFactV2_ValidateCurrent budget (i_Budget i) i now) ;;
  credentialFacts ← read_credentials (issue_credential now) (slice_items (i_CredentialLeases i)) ;
  credentialDigest ← gw_lift (DigestCredentialLeaseFactsV2 credentialFacts) ;
  capabilityDigest ← gw_lift (CapabilityGrantDigestV2 set) ;
  currentScope ← call (g_InspectCurrentExecutionScope (xs_Ref (i_CurrentScope i))) ;
  gw_lift (ExecutionScopeCurrentFactV2_ValidateCurrent currentScope (i_CurrentScope i) i capabilityDigest now) ;;
  issue ← gw_lift (governed_issue request
    {| ba_now := now; ba_effect := effect; ba_lease := identityLease; ba_set := set; ba_authority := authority;
       ba_policy := policy; ba_review := review; ba_budget := budget; ba_credentials := credentialFacts;
       ba_scope := currentScope; ba_capabilityDigest := capabilityDigest; ba_credentialDigest := credentialDigest |}) ;
  call (g_IssueDispatchPermit issue).

(** ** Begin *)

(** time.Time.Sub saturates. *)
Definition TimeSub (t u : Time) : Duration :=
  Z.max (-9223372036854775808) (Z.min 9223372036854775807 (instant t - instant u)).

Definition begin_check (request : BeginGovernedDispatchRequestV2) (effect : EffectFactV2) (permit : DispatchPermitFactV2)
    (now : Time) : result unit :=
  guard (negb (N.eqb (f_Revision effect) (bgd_ExpectedEffectRevision request))
         || negb (bool_decide (f_State effect = EffectDispatchIntent))
         || negb (N.eqb (pf_Revision permit) (bgd_ExpectedPermitRevision request))
         || negb (bool_decide (pf_State permit = DispatchPermitIssued))
         || negb (N.eqb (pf_EffectFactRevision permit) (f_Revision effect))
         || negb (bool_decide (f_DispatchPermitID effect = p_ID (pf_Permit permit)))
         || negb (Before now (UnixTime (p_ExpiresUnixNano (pf_Permit permit)))))
    ErrorConflict ReasonDispatchPermitInvalid.

Definition review_changed (review : DispatchReviewFactV2) (permit : DispatchPermitV2) : bool :=
  negb (bool_decide (rf_VerdictDigest review = p_ReviewVerdictDigest permit))
  || negb (N.eqb (rf_VerdictRevision review) (p_ReviewVerdictRevision permit))
  || negb (bool_decide (rf_SatisfactionRef review = p_ReviewSatisfactionRef permit))
  || negb (bool_decide (rf_SatisfactionDigest review = p_ReviewSatisfactionDigest permit))
  || negb (N.eqb (rf_SatisfactionRevision review) (p_ReviewSatisfactionRevision permit)).

Definition begin_credential (now : Time) (expected : CredentialLeaseRefV2) : Gw CredentialLeaseFactV2 :=
  unless ErrorForbidden ReasonCredentialLeaseMissing
    (fun credential => is_ok (CredentialLeaseFactV2_ValidateCurrent credential expected now))
    (call (g_InspectCredentialLease (cl_Ref expected))).

Definition current_facts (b : Basis) (permit : DispatchPermitV2) : DispatchCurrentFactsV2 :=
  let i := f_Intent (ba_effect b) in
  let review := ba_review b in
  {| dc_Scope := ef_Scope (ba_scope b); dc_CapabilityGrantDigest := ba_capabilityDigest b;
     dc_CredentialGrantDigest := ba_credentialDigest b; dc_Provider := i_Provider i;
     dc_EnforcementPoint := i_Provider i; dc_Authority := i_Authority i; dc_Review := i_Review i;
     dc_ReviewVerdictDigest := rf_VerdictDigest review; dc_ReviewVerdictRevision := rf_VerdictRevision review;
     dc_ReviewSatisfactionRef := rf_SatisfactionRef review; dc_ReviewSatisfactionDigest := rf_SatisfactionDigest review;
     dc_ReviewSatisfactionRevision := rf_SatisfactionRevision review; dc_Budget := i_Budget i; dc_Policy := i_Policy i;
     dc_CurrentScope := i_CurrentScope i; dc_FenceDigest := p_FenceDigest permit |}.

Definition Begin (g : GovernanceDispatchGatewayV2) (request : BeginGovernedDispatchRequestV2)
  : Gw DispatchPermitFactV2 :=
  gw_lift (GovernanceDispatchGatewayV2_validate g) ;;
  now ← gw_clock ;
  gw_lift (guard (IsZero now) ErrorInvalidArgument ReasonInvalidReference) ;;
  effect ← call (g_InspectEffect (bgd_EffectID request)) ;
  permit ← call (g_InspectDispatchPermit (bgd_PermitID request)) ;
  gw_lift (begin_check request effect permit now) ;;
  let i := f_Intent effect in
  identityLease ← unless ErrorForbidden ReasonStaleIdentityEpoch (fun lease => lease_governs lease (i_Scope i) now)
    (call (g_InspectIdentityLease (id_TenantID (sc_Identity (i_Scope i))) (id_ID (sc_Identity (i_Scope i))))) ;
  set ← unless ErrorPreconditionFailed ReasonProviderBindingStale (fun set => set_governs set (i_Provider i) now)
    (call (g_InspectBindingSet (pb_BindingSetID (i_Provider i)))) ;
  unless ErrorPreconditionFailed ReasonProviderBindingStale (fun resolved => binding_governs resolved i)
    (gw_lift (resolveEffectBindingV2 set i)) ;;
  capabilityDigest ← gw_lift (CapabilityGrantDigestV2 set) ;
  authority ← unless ErrorForbidden ReasonEffectAuthorizationMissing
    (fun authority => is_ok (DispatchAuthorityFactV2_ValidateCurrent authority (i_Authority i) (i_Scope i)
                               (i_ActionScopeDigest i) now))
    (call (g_InspectDispatchAuthority (ab_Ref (i_Authority i)))) ;
  let remainingTTL := TimeSub (UnixTime (p_ExpiresUnixNano (pf_Permit permit))) now in
  policy ← unless ErrorForbidden ReasonEffectAuthorizationMissing
    (fun policy => is_ok (DispatchPolicyFactV2_ValidateCurrent policy (i_Policy i) i remainingTTL now))
    (call (g_InspectDispatchPolicy (pol_Ref (i_Policy i)))) ;
  review ← call (g_InspectDispatchReview (rb_Ref (i_Review i))) ;
  gw_lift (DispatchReviewFactV2_ValidateCurrent review (i_Review i) i now) ;;
  gw_lift (guard (review_changed review (pf_Permit permit)) ErrorPreconditionFailed ReasonReviewVerdictStale) ;;
  budget ← unless ErrorPreconditionFailed ReasonBudgetBindingStale
    (fun budget => is_ok (BudgetBindingFactV2_ValidateCurrent budget (i_Budget i) i now))
    (call (g_InspectBudgetBinding (bb_Ref (i_Budget i)))) ;
  credentialFacts ← read_credentials (begin_credential now) (slice_items (i_CredentialLeases i)) ;
  credentialDigest ← unless ErrorPreconditionFailed ReasonCredentialLeaseMissing
    (fun credentialDigest => bool_decide (credentialDigest = p_CredentialGrantDigest (pf_Permit permit)))
    (gw_lift (DigestCredentialLeaseFactsV2 credentialFacts)) ;
  currentScope ← unless ErrorPreconditionFailed ReasonEffectFenceStale
    (fun scope => is_ok (ExecutionScopeCurrentFactV2_ValidateCurrent scope (i_CurrentScope i) i capabilityDigest now))
    (call (g_InspectCurrentExecutionScope (xs_Ref (i_CurrentScope i)))) ;
  let current := current_facts
    {| ba_now := now; ba_effect := effect; ba_lease := identityLease; ba_set := set; ba_authority := authority;
       ba_policy := policy; ba_review := review; ba_budget := budget; ba_credentials := credentialFacts;
       ba_scope := currentScope; ba_capabilityDigest := capabilityDigest; ba_credentialDigest := credentialDigest |}
    (pf_Permit permit) in
  gw_lift (ValidateDispatchAtExecutionPointV2 (pf_Permit permit) i (pf_Fence permit) current now) ;;
  call (g_BeginDispatch {| bg_EffectID := i_ID i; bg_ExpectedEffectRevision := f_Revision effect;
                           bg_PermitID := p_ID (pf_Permit permit); bg_ExpectedPermitRevision := pf_Revision permit |}).

(** ** Recovery *)

Inductive EffectRecoveryActionV2 :=
| RecoveryRevalidatePreDispatch | RecoveryRejectPreDispatch | RecoveryCreateInspectEffect
| RecoveryInspectSettlement | RecoveryNoEffectAction.
#[export] Instance EffectRecoveryActionV2_eq_dec : EqDecision EffectRecoveryActionV2.
Proof. solve_decision. Defined.

Record EffectRecoveryDecisionV2 := { rd_Action : EffectRecoveryActionV2; rd_AutomaticSafe : bool }.

Definition decide_recovery (action : EffectRecoveryActionV2) (safe : bool) : result EffectRecoveryDecisionV2 :=
  Ok {| rd_Action := action; rd_AutomaticSafe := safe |}.

Definition PlanEffectRecoveryV2 (effect : EffectFactV2) (permit : option DispatchPermitFactV2) (now : Time)
  : result EffectRecoveryDecisionV2 :=
  EffectFactV2_Validate effect ;;
  guard (IsZero now || (UnixNano now <? f_UpdatedUnixNano effect)%Z) ErrorPreconditionFailed ReasonClockRegression ;;
  match f_State effect with
  | EffectDispatchIntent =>
      match permit with
      | None => fail ErrorIndeterminate ReasonDispatchPermitInvalid
      | Some permit =>
          DispatchPermitFactV2_Validate permit ;;
          match pf_State permit with
          | DispatchPermitIssued =>
              if negb (Before now (UnixTime (p_ExpiresUnixNano (pf_Permit permit))))
                 || negb (Before now (UnixTime (i_ExpiresUnixNano (f_Intent effect))))
              then decide_recovery RecoveryRejectPreDispatch true
              else decide_recovery RecoveryRevalidatePreDispatch false
          | DispatchPermitExpired | DispatchPermitRevoked => decide_recovery RecoveryRejectPreDispatch true
          | DispatchPermitBegun => decide_recovery RecoveryCreateInspectEffect false
          | _ => decide_recovery RecoveryNoEffectAction true
          end
      end
  | EffectUnknownOutcome => decide_recovery RecoveryCreateInspectEffect false
  | EffectDispatched => decide_recovery RecoveryInspectSettlement false
  | _ => decide_recovery RecoveryNoEffectAction true
  end.

End gateway.
