(* ===== verification/GovernanceSafety.v ===== *)
(** * What the dispatch gateway guarantees

    In every environment Issue asks for a permit, and Begin for the start of a
    dispatch, only at the end of a run that has read every governing fact, found
    each current at one reading of the clock, and binds what it read; a permit
    outlives none of them.  Over the effect store, with any steps of others in
    between, a governed begin happens at most once, and what the recovery
    planner rejects is never begun through the gateway afterwards. *)

From stdpp Require Import gmap list strings.
From S2P Require Import Prelude GoStd Errors Identity Fence IdentityLease Dependency Json Canonical Payload EffectContract EffectFact EffectFlow BudgetFact EffectStore EffectSafety Binding BindingFact Interaction GovernanceFacts GovernanceGateway.

Local Open Scope N_scope.

(** ** Current facts *)

Record lease_current (lease : IdentityExecutionLease) (scope : ExecutionScope) : Prop := {
  lc_active : il_State lease = IdentityLeaseActive;
  lc_identity : il_Identity lease = sc_Identity scope;
  lc_lineage : il_Lineage lease = sc_Lineage scope;
  lc_epoch : il_AuthorityEpoch lease = sc_AuthorityEpoch scope;
}.

(** The set binds the provider with the capability, and every owner of the
    intent is one the provider is assigned and a member of the set. *)
Record binding_current (set : BindingSetFactV2) (i : EffectIntentV2) : Prop := {
  bc_active : bs_State set = BindingSetActive;
  bc_revision : bs_Revision set = pb_BindingSetRevision (i_Provider i);
  bc_provider : exists provider, provider ∈ bs_Members set
    /\ bm_ComponentID provider = pb_ComponentID (i_Provider i)
    /\ bm_ManifestDigest provider = pb_ManifestDigest (i_Provider i)
    /\ bm_ArtifactDigest provider = pb_ArtifactDigest (i_Provider i)
    /\ (exists grant, grant ∈ bm_Grants provider /\ cg_Capability grant = pb_Capability (i_Provider i))
    /\ map (fun o => (eo_Role o, eo_ComponentID o)) (i_Owners i)
       ≡ₚ map (fun a => (oa_Role a, oa_OwnerComponentID a)) (bm_Owners provider);
  bc_owners : forall o, o ∈ i_Owners i -> exists member, member ∈ bs_Members set
    /\ bm_ComponentID member = eo_ComponentID o /\ bm_ManifestDigest member = eo_ManifestDigest o;
}.

Record authority_current (f : DispatchAuthorityFactV2) (i : EffectIntentV2) : Prop := {
  ac_active : af_State f = AuthorityFactActive;
  ac_binding : i_Authority i = {| ab_Ref := af_Ref f; ab_Digest := af_Digest f; ab_Revision := af_Revision f;
                                  ab_Epoch := sc_AuthorityEpoch (i_Scope i) |};
  ac_scope : af_Scope f = i_Scope i;
  ac_action : af_ActionScopeDigest f = i_ActionScopeDigest i;
}.

(** The policy commits to the intent, up to the policy itself and the digest of
    the review, and the intent to the whole policy. *)
Record policy_current (f : DispatchPolicyFactV2) (i : EffectIntentV2) (ttl : Duration) : Prop := {
  plc_active : df_Active f = true;
  plc_digest : DispatchPolicyFactV2_DigestV2 f = Ok (pol_Digest (i_Policy i));
  plc_binding : i_Policy i = {| pol_Ref := df_Ref f; pol_Digest := df_Digest f; pol_Revision := df_Revision f |};
  plc_intent : df_IntentID f = i_ID i /\ df_IntentRevision f = i_Revision i;
  plc_candidate : EffectIntentV2_PolicyCandidateDigestV2 i = Ok (df_IntentDigest f);
  plc_scope : df_Scope f = i_Scope i;
  plc_kind : df_EffectKind f = i_Kind i /\ df_RiskClass f = i_RiskClass i
            /\ df_ActionScopeDigest f = i_ActionScopeDigest i;
  plc_ttl : (0 < ttl <= df_MaximumPermitTTL f)%Z /\ (df_MaximumPermitTTL f <= MaxDispatchPermitTTL)%Z;
}.

Record review_current (f : DispatchReviewFactV2) (i : EffectIntentV2) : Prop := {
  rc_decision : rf_Decision f = ReviewDecisionAccepted \/ rf_Decision f = ReviewDecisionOperationNotRequired
    \/ rf_Decision f = ReviewDecisionConditional /\ blank (rf_SatisfactionRef f) = false
       /\ rf_SatisfactionRevision f <> 0 /\ Digest_Validate (rf_SatisfactionDigest f) = Ok tt;
  rc_verdict : rf_VerdictRevision f <> 0;
  rc_binding : i_Review i = {| rb_Ref := rf_Ref f; rb_Digest := rf_CandidateDigest f; rb_Revision := rf_Revision f;
                               rb_PolicyDigest := rf_PolicyDigest f |};
  rc_intent : rf_IntentID f = i_ID i /\ rf_IntentRevision f = i_Revision i;
  rc_subject : ReviewSubjectDigestV2 i = Ok (rf_SubjectDigest f);
  rc_payload : rf_PayloadDigest f = op_ContentDigest (i_Payload i) /\ rf_PayloadRevision f = i_PayloadRevision i;
  rc_scope : rf_ScopeDigest f = i_ActionScopeDigest i;
}.

Record budget_current (f : BudgetBindingFactV2) (i : EffectIntentV2) : Prop := {
  uc_valid : BudgetBindingFactV2_Validate f = Ok tt;
  uc_active : b_State f = BudgetFactActive;
  uc_binding : BudgetBindingFactV2_BindingRefV2 f = Ok (i_Budget i);
  uc_intent : b_IntentID f = i_ID i /\ b_IntentRevision f = i_Revision i;
  uc_scope : b_Scope f = i_Scope i;
}.

Record credential_current (expected : CredentialLeaseRefV2) (f : CredentialLeaseFactV2) : Prop := {
  cc_active : cf_Active f = true;
  cc_binding : expected = {| cl_Ref := cf_Ref f; cl_Class := cf_Class f; cl_ScopeDigest := cf_ScopeDigest f;
                             cl_Epoch := cf_Epoch f |};
}.

Record scope_current (f : ExecutionScopeCurrentFactV2) (i : EffectIntentV2) (capability : Digest) : Prop := {
  xc_active : ef_State f = ExecutionScopeFactActive;
  xc_running : ef_ActiveRunID f = i_RunID i /\ ef_RunState f = "running";
  xc_binding : ExecutionScopeCurrentFactV2_BindingRefV2 f = Ok (i_CurrentScope i);
  xc_capability : ef_CapabilityGrantDigest f = capability;
  xc_scope : ef_Scope f = i_Scope i;
}.

(** Every fact read is current for the intent, and unexpired at [ba_now]. *)
Record governs (b : Basis) (ttl : Duration) : Prop := {
  gv_clock : IsZero (ba_now b) = false;
  gv_lease : lease_current (ba_lease b) (i_Scope (f_Intent (ba_effect b)));
  gv_binding : binding_current (ba_set b) (f_Intent (ba_effect b));
  gv_authority : authority_current (ba_authority b) (f_Intent (ba_effect b));
  gv_policy : policy_current (ba_policy b) (f_Intent (ba_effect b)) ttl;
  gv_review : review_current (ba_review b) (f_Intent (ba_effect b));
  gv_budget : budget_current (ba_budget b) (f_Intent (ba_effect b));
  gv_credentials : Forall2 credential_current (slice_items (i_CredentialLeases (f_Intent (ba_effect b))))
                     (ba_credentials b);
  gv_capability : CapabilityGrantDigestV2 (ba_set b) = Ok (ba_capabilityDigest b);
  gv_grants : DigestCredentialLeaseFactsV2 (ba_credentials b) = Ok (ba_credentialDigest b);
  gv_scope : scope_current (ba_scope b) (f_Intent (ba_effect b)) (ba_capabilityDigest b);
  gv_unexpired : Forall (fun limit => Before (ba_now b) limit = true) (expiry_limits b);
}.

(** ** Each check establishes its fact *)

Lemma not_before_false now nanos : not_before now nanos = false <-> IsZero now = false /\ Before now (UnixTime nanos) = true.
Proof. unfold not_before. by rewrite orb_false_iff, negb_false_iff. Qed.

#[local] Hint Rewrite not_before_false sameScope_eq : go_bool.

(** Decompose a successful check and split its guard into equations. *)
Ltac check_parts :=
  go_ok; cbn [for_each] in *; go_ok; go_bool; destruct_and?; subst.

(** A record from its fields. *)
Ltac eta r := let E := fresh in destruct r eqn:E; rewrite ?E in *; cbn in *; congruence.

Lemma lease_governs_spec lease scope now :
  lease_governs lease scope now = true -> lease_current lease scope /\ Before now (il_ExpiresAt lease) = true.
Proof. unfold lease_governs. intros H. go_bool. destruct_and!. by repeat split. Qed.

Lemma authority_check f i now :
  DispatchAuthorityFactV2_ValidateCurrent f (i_Authority i) (i_Scope i) (i_ActionScopeDigest i) now = Ok tt ->
  authority_current f i /\ Before now (UnixTime (af_ExpiresUnixNano f)) = true.
Proof.
  unfold DispatchAuthorityFactV2_ValidateCurrent. intros H. check_parts.
  split; [| done]. split; try done. eta (i_Authority i).
Qed.

Lemma policy_check f i ttl now :
  DispatchPolicyFactV2_ValidateCurrent f (i_Policy i) i ttl now = Ok tt ->
  policy_current f i ttl /\ Before now (UnixTime (df_ExpiresUnixNano f)) = true.
Proof.
  unfold DispatchPolicyFactV2_ValidateCurrent. intros H. check_parts.
  split; [| done]. split; try done; try congruence; try lia. eta (i_Policy i).
Qed.

Lemma review_check f i now :
  DispatchReviewFactV2_ValidateCurrent f (i_Review i) i now = Ok tt ->
  review_current f i /\ Before now (UnixTime (rf_ExpiresUnixNano f)) = true.
Proof.
  unfold DispatchReviewFactV2_ValidateCurrent, review_conditions. intros H.
  destruct (decide (rf_Decision f = ReviewDecisionConditional)) as [Hd | Hd];
    [rewrite (bool_decide_eq_true_2 _ Hd) in H | rewrite (bool_decide_eq_false_2 _ Hd) in H]; check_parts.
  - split; [| done]. split; try done; try congruence.
    + right; right. repeat split; try done. by match goal with H : is_ok _ = true |- _ => apply is_ok_true in H as [[] ?] end.
    + eta (i_Review i).
  - split; [| done]. split; try done; try congruence.
    + match goal with D : (_ \/ _) \/ _ |- _ => destruct D as [[? | ?] | ?]; [by left | by right; left | done] end.
    + eta (i_Review i).
Qed.

Lemma budget_check f i now :
  BudgetBindingFactV2_ValidateCurrent f (i_Budget i) i now = Ok tt ->
  budget_current f i /\ Before now (UnixTime (b_ExpiresUnixNano f)) = true.
Proof.
  unfold BudgetBindingFactV2_ValidateCurrent. intros H. check_parts. split; [| done]. by split.
Qed.

Lemma credential_check f expected now :
  CredentialLeaseFactV2_ValidateCurrent f expected now = Ok tt ->
  credential_current expected f /\ Before now (UnixTime (cf_ExpiresUnixNano f)) = true.
Proof.
  unfold CredentialLeaseFactV2_ValidateCurrent. intros H. check_parts. split; [| done].
  split; [done |]. eta expected.
Qed.

Lemma scope_check f i capability now :
  ExecutionScopeCurrentFactV2_ValidateCurrent f (i_CurrentScope i) i capability now = Ok tt ->
  scope_current f i capability /\ Before now (UnixTime (ef_ExpiresUnixNano f)) = true.
Proof.
  unfold ExecutionScopeCurrentFactV2_ValidateCurrent. intros H. check_parts. split; [| done]. by split.
Qed.

(** *** The binding set *)

Lemma members_fold_lookup (members rest : list BindingMemberV2) (m : gmap string BindingMemberV2) id member :
  (forall x, x ∈ rest -> x ∈ members) ->
  (forall id member, m !! id = Some member -> member ∈ members /\ bm_ComponentID member = id) ->
  fold_left (fun m member => <[bm_ComponentID member := member]> m) rest m !! id = Some member ->
  member ∈ members /\ bm_ComponentID member = id.
Proof.
  revert m. induction rest as [| x rest IH]; intros m Hr Hm; cbn; [apply Hm |].
  apply IH; [set_solver |]. intros id' member' H.
  apply lookup_insert_Some in H as [[<- <-] | [_ H]]; [split; [set_solver | done] | eauto].
Qed.

Lemma members_by_component_lookup members id member :
  members_by_component members !! id = Some member -> member ∈ members /\ bm_ComponentID member = id.
Proof. by apply members_fold_lookup; [| intros ? ? H; apply lookup_empty_Some in H]. Qed.

Lemma assigned_owners_spec members assignments owners :
  assigned_owners members assignments = Ok owners ->
  map (fun o => (eo_Role o, eo_ComponentID o)) owners = map (fun a => (oa_Role a, oa_OwnerComponentID a)) assignments
  /\ forall o, o ∈ owners -> exists member, members !! eo_ComponentID o = Some member
                                         /\ bm_ManifestDigest member = eo_ManifestDigest o.
Proof.
  revert owners. induction assignments as [| a rest IH]; cbn; intros owners H.
  - injection H as <-. split; [done |]. intros o Ho. by apply elem_of_nil in Ho.
  - destruct (members !! _) as [member |] eqn:E; [| discriminate]. go_ok.
    destruct (IH _ ltac:(eassumption)) as [Hmap Hin]. cbn. split; [by rewrite Hmap |].
    intros o [-> | Ho]%elem_of_cons; [by exists member | auto].
Qed.

Lemma effectOwnerSetsEqualV2_eq xs ys : effectOwnerSetsEqualV2 xs ys = true <-> xs = ys.
Proof.
  revert ys. induction xs as [| x xs IH]; intros [| y ys]; cbn; try done.
  rewrite andb_true_iff, bool_decide_eq_true, IH. split; [by intros [-> ->] | by intros [= -> ->]].
Qed.

Lemma binding_check set i resolved now :
  set_governs set (i_Provider i) now = true -> resolveEffectBindingV2 set i = Ok resolved ->
  binding_governs resolved i = true ->
  binding_current set i /\ Before now (UnixTime (bs_ExpiresUnixNano set)) = true.
Proof.
  unfold set_governs, resolveEffectBindingV2, binding_governs. intros Hs Hr Hb.
  destruct (_ !! _) as [provider |] eqn:Ep; [| discriminate].
  apply members_by_component_lookup in Ep as [Hin _]. go_ok. go_bool. destruct_and!.
  match goal with H : effectOwnerSetsEqualV2 _ _ = true |- _ => apply effectOwnerSetsEqualV2_eq in H end.
  match goal with H : assigned_owners _ _ = Ok _ |- _ => apply assigned_owners_spec in H as [Hmap Ho] end.
  match goal with H : existsb _ _ = true |- _ => apply existsb_exists in H as (grant & Hg & Hcap) end.
  split; [| done]. split; try done.
  - exists provider. repeat split; try done.
    + exists grant. split; [by apply list_elem_of_In | by apply bool_decide_eq_true in Hcap].
    + match goal with H : _ = i_Owners i |- _ => rewrite <- H end. by rewrite sort_by_Permutation, Hmap.
  - intros o. match goal with H : _ = i_Owners i |- _ => rewrite <- H end. rewrite sort_by_Permutation. intros Hi.
    destruct (Ho o Hi) as (member & Hm & Hd). apply members_by_component_lookup in Hm as [? ?]. by exists member.
Qed.

(** ** The calls of a run *)

(** The reads of the governing facts, in the order of the calls. *)
Definition credential_reads (expected : list CredentialLeaseRefV2) (facts : list CredentialLeaseFactV2) : list gw_event :=
  zip_with (fun e f => Event (g_InspectCredentialLease (cl_Ref e)) (Ok f) : gw_event) expected facts.

Definition lease_read (b : Basis) : gw_event :=
  let identity := sc_Identity (i_Scope (f_Intent (ba_effect b))) in
  Event (g_InspectIdentityLease (id_TenantID identity) (id_ID identity)) (Ok (ba_lease b)).

Definition fact_reads (b : Basis) : list gw_event :=
  let i := f_Intent (ba_effect b) in
  [lease_read b;
   Event (g_InspectBindingSet (pb_BindingSetID (i_Provider i))) (Ok (ba_set b));
   Event (g_InspectDispatchAuthority (ab_Ref (i_Authority i))) (Ok (ba_authority b));
   Event (g_InspectDispatchPolicy (pol_Ref (i_Policy i))) (Ok (ba_policy b));
   Event (g_InspectDispatchReview (rb_Ref (i_Review i))) (Ok (ba_review b));
   Event (g_InspectBudgetBinding (bb_Ref (i_Budget i))) (Ok (ba_budget b))]
  ++ credential_reads (slice_items (i_CredentialLeases i)) (ba_credentials b)
  ++ [Event (g_InspectCurrentExecutionScope (xs_Ref (i_CurrentScope i))) (Ok (ba_scope b))].

Definition issue_reads (request : IssueGovernedDispatchRequestV2) (b : Basis) : list gw_event :=
  Event g_Clock (ba_now b) :: Event (g_InspectEffect (igd_EffectID request)) (Ok (ba_effect b)) :: fact_reads b.

Definition begin_reads (request : BeginGovernedDispatchRequestV2) (permit : DispatchPermitFactV2) (b : Basis)
  : list gw_event :=
  Event g_Clock (ba_now b) :: Event (g_InspectEffect (bgd_EffectID request)) (Ok (ba_effect b))
  :: Event (g_InspectDispatchPermit (bgd_PermitID request)) (Ok permit) :: fact_reads b.

(** The two calls that change the effect owner's facts. *)
Definition asks (c : GatewayCall) : bool :=
  match c with g_IssueDispatchPermit _ | g_BeginDispatch _ => true | _ => false end.
Definition only_reads (tr : list gw_event) : Prop := Forall (fun e => asks (ev_call e) = false) tr.

Lemma credential_reads_only expected facts : only_reads (credential_reads expected facts).
Proof. revert facts. induction expected as [| e es IH]; intros [| f fs]; constructor; [done | apply IH]. Qed.

Lemma only_reads_snoc tr (e : gw_event) : only_reads tr -> asks (ev_call e) = false -> only_reads (tr ++ [e]).
Proof. intros. apply Forall_app. split; [done | by repeat constructor]. Qed.
Lemma only_reads_app t1 t2 : only_reads t1 -> only_reads t2 -> only_reads (t1 ++ t2).
Proof. intros. by apply Forall_app. Qed.

Section runs.
Context `{ZoneDatabase} {W : Type} (answers : W -> forall c, GatewayReply c -> W -> Prop).

(** Reads are always allowed; a request must be justified by the reads before. *)
Section wpg.
Context (justified : list gw_event -> GatewayCall -> Prop).

Definition allowed (w : W) (tr : list gw_event) (c : GatewayCall) : Prop :=
  only_reads tr /\ (asks c = true -> justified tr c).

Definition wpg {A} (m : Gw A) (Q : A -> list gw_event -> Prop) (w : W) (tr : list gw_event) : Prop :=
  wp answers allowed m (fun o _ tr => match o with Ok a => Q a tr | Err _ => True end) w tr.

Lemma wpg_bind {A B} (m : Gw A) (k : A -> Gw B) Q w tr :
  wpg m (fun a tr' => forall w', wpg (k a) Q w' tr') w tr -> wpg (m ≫= k) Q w tr.
Proof.
  intros Hm. apply wp_bind. eapply wp_mono; [| exact Hm]. by intros [a | e] w' tr'; [intros Hk; apply Hk |].
Qed.

Lemma wpg_mono {A} (m : Gw A) (P Q : A -> list gw_event -> Prop) w tr :
  (forall a tr', P a tr' -> Q a tr') -> wpg m P w tr -> wpg m Q w tr.
Proof. intros Hpq. apply wp_mono. intros [a |]; auto. Qed.

Lemma wpg_lift {A} (m : result A) (Q : A -> list gw_event -> Prop) w tr :
  (forall a, m = Ok a -> Q a tr) -> wpg (gw_lift m) Q w tr.
Proof. intros Hq. destruct m as [a | e]; [by apply Hq | done]. Qed.

Lemma wpg_guard b category reason (Q : unit -> list gw_event -> Prop) w tr :
  (b = false -> Q tt tr) -> wpg (gw_lift (guard b category reason)) Q w tr.
Proof. intros Hq. apply wpg_lift. intros [] E. apply Hq. by apply guard_Ok in E. Qed.

Lemma wpg_clock (Q : Time -> list gw_event -> Prop) w tr :
  only_reads tr -> (forall now, Q now (tr ++ [Event g_Clock now])) -> wpg gw_clock Q w tr.
Proof. intros Ht Hq. split; [by split |]. intros r w' _. apply Hq. Qed.

Lemma wpg_unless {A} category reason ok (m : Gw A) (Q : A -> list gw_event -> Prop) w tr :
  wpg m (fun a tr' => ok a = true -> Q a tr') w tr -> wpg (unless category reason ok m) Q w tr.
Proof.
  intros Hm. apply wp_bind. eapply wp_mono; [| exact Hm]. intros [a | e] w' tr'; cbn; [| done].
  destruct (ok a); cbn; auto.
Qed.

Lemma wpg_credentials (read : CredentialLeaseRefV2 -> Gw CredentialLeaseFactV2) (P : CredentialLeaseRefV2 -> CredentialLeaseFactV2 -> Prop)
    expected (Q : list CredentialLeaseFactV2 -> list gw_event -> Prop) w tr :
  (forall e (R : CredentialLeaseFactV2 -> list gw_event -> Prop) w tr, only_reads tr ->
     (forall f, P e f -> R f (tr ++ [Event (g_InspectCredentialLease (cl_Ref e)) (Ok f)])) -> wpg (read e) R w tr) ->
  only_reads tr ->
  (forall facts, Forall2 P expected facts -> Q facts (tr ++ credential_reads expected facts)) ->
  wpg (read_credentials read expected) Q w tr.
Proof.
  intros Hread. revert Q w tr. induction expected as [| e es IH]; intros Q w tr Ht Hq; cbn [read_credentials].
  - specialize (Hq [] ltac:(constructor)). cbn in Hq. by rewrite app_nil_r in Hq.
  - apply wpg_bind, Hread; [done |]. intros f Hf w'. apply wpg_bind, IH; [by apply only_reads_snoc |].
    intros facts Hfs w''. cbn. specialize (Hq (f :: facts) ltac:(by constructor)). cbn in Hq.
    by rewrite <- app_assoc.
Qed.
End wpg.

(** *** Issue *)

(** The request of Issue is for the effect and binds what was read: the store's
    own drift checks pass, and the permit and its fence expire no later than any
    fact they rest on. *)
Record permit_binds (request : IssueGovernedDispatchRequestV2) (b : Basis) (q : IssueDispatchPermitRequestV2) : Prop := {
  bi_effect : iss_EffectID q = i_ID (f_Intent (ba_effect b));
  bi_revision : iss_ExpectedEffectRevision q = f_Revision (ba_effect b)
                /\ f_Revision (ba_effect b) = igd_ExpectedEffectRevision request;
  bi_accepted : f_State (ba_effect b) = EffectAccepted;
  bi_ids : p_ID (iss_Permit q) = igd_PermitID request /\ p_AttemptID (iss_Permit q) = igd_AttemptID request;
  bi_intent : permit_drifted (iss_Permit q) (f_Intent (ba_effect b))
                (digest_or_zero (EffectIntentV2_DigestV2 (f_Intent (ba_effect b)))) = false
              /\ p_Scope (iss_Permit q) = i_Scope (f_Intent (ba_effect b));
  bi_facts : facts_drifted (current_facts b (iss_Permit q)) (iss_Permit q) = false;
  bi_fence : DigestExecutionFenceV2 (iss_Fence q) = Ok (p_FenceDigest (iss_Permit q))
             /\ fence_Scope (iss_Fence q) = ef_Scope (ba_scope b)
             /\ fence_CapabilityGrantDigest (iss_Fence q) = ba_capabilityDigest b;
  bi_expiry : Before (ba_now b) (fence_ExpiresAt (iss_Fence q)) = true
              /\ Forall (fun limit => Before limit (fence_ExpiresAt (iss_Fence q)) = false)
                   (AddDuration (ba_now b) (igd_PermitTTL request) :: expiry_limits b);
  bi_times : p_IssuedUnixNano (iss_Permit q) = UnixNano (ba_now b)
             /\ p_ExpiresUnixNano (iss_Permit q) = UnixNano (fence_ExpiresAt (iss_Fence q));
}.

Lemma earliest limits t :
  Forall (fun limit => Before limit (fold_left earlier limits t) = false) (t :: limits).
Proof.
  revert t. induction limits as [| l ls IH]; intros t; cbn.
  - repeat constructor. unfold Before. apply Z.ltb_irrefl.
  - specialize (IH (earlier t l)). apply Forall_cons in IH as [Ht Hl].
    assert (Before t (fold_left earlier ls (earlier t l)) = false /\ Before l (fold_left earlier ls (earlier t l)) = false)
      as [? ?]; [| by repeat constructor].
    revert Ht. generalize (fold_left earlier ls (earlier t l)) as x. intros x. unfold earlier, Before.
    destruct (Z.ltb (instant l) (instant t)) eqn:E; rewrite ?Z.ltb_ge, ?Z.ltb_lt in *; lia.
Qed.

Lemma same_bool {A} `{EqDecision A} (x : A) : negb (bool_decide (x = x)) = false.
Proof. by rewrite bool_decide_eq_true_2. Qed.
Lemma same_N (n : N) : negb (N.eqb n n) = false.
Proof. by rewrite N.eqb_refl. Qed.

Lemma governed_issue_binds request b q :
  issue_effect_check request (ba_effect b) (ba_now b) = Ok tt ->
  scope_current (ba_scope b) (f_Intent (ba_effect b)) (ba_capabilityDigest b) ->
  governed_issue request b = Ok q -> permit_binds request b q.
Proof.
  unfold issue_effect_check, governed_issue. intros He Hx Hq. go_ok. go_bool. destruct_and!.
  split; try done; cbn.
  - unfold permit_drifted, governed_permit. cbn. by rewrite !same_bool, !same_N.
  - unfold facts_drifted, current_facts, governed_permit. cbn. rewrite !same_bool, !same_N. cbn.
    by rewrite (xc_scope _ _ _ Hx), sameScope_refl.
  - split; [done |]. apply (earliest (expiry_limits b) (AddDuration (ba_now b) (igd_PermitTTL request))).
Qed.

(** The checks of a run, as the code makes them. *)
Record passes (b : Basis) (ttl : Duration) : Prop := {
  ps_clock : IsZero (ba_now b) = false;
  ps_effect : Before (ba_now b) (UnixTime (i_ExpiresUnixNano (f_Intent (ba_effect b)))) = true;
  ps_lease : lease_governs (ba_lease b) (i_Scope (f_Intent (ba_effect b))) (ba_now b) = true;
  ps_set : set_governs (ba_set b) (i_Provider (f_Intent (ba_effect b))) (ba_now b) = true;
  ps_binding : exists resolved, resolveEffectBindingV2 (ba_set b) (f_Intent (ba_effect b)) = Ok resolved
               /\ binding_governs resolved (f_Intent (ba_effect b)) = true;
  ps_authority : DispatchAuthorityFactV2_ValidateCurrent (ba_authority b) (i_Authority (f_Intent (ba_effect b)))
                   (i_Scope (f_Intent (ba_effect b))) (i_ActionScopeDigest (f_Intent (ba_effect b))) (ba_now b) = Ok tt;
  ps_policy : DispatchPolicyFactV2_ValidateCurrent (ba_policy b) (i_Policy (f_Intent (ba_effect b)))
                (f_Intent (ba_effect b)) ttl (ba_now b) = Ok tt;
  ps_review : DispatchReviewFactV2_ValidateCurrent (ba_review b) (i_Review (f_Intent (ba_effect b)))
                (f_Intent (ba_effect b)) (ba_now b) = Ok tt;
  ps_budget : BudgetBindingFactV2_ValidateCurrent (ba_budget b) (i_Budget (f_Intent (ba_effect b)))
                (f_Intent (ba_effect b)) (ba_now b) = Ok tt;
  ps_credentials : Forall2 (fun e f => CredentialLeaseFactV2_ValidateCurrent f e (ba_now b) = Ok tt)
                     (slice_items (i_CredentialLeases (f_Intent (ba_effect b)))) (ba_credentials b);
  ps_capability : CapabilityGrantDigestV2 (ba_set b) = Ok (ba_capabilityDigest b);
  ps_grants : DigestCredentialLeaseFactsV2 (ba_credentials b) = Ok (ba_credentialDigest b);
  ps_scope : ExecutionScopeCurrentFactV2_ValidateCurrent (ba_scope b) (i_CurrentScope (f_Intent (ba_effect b)))
               (f_Intent (ba_effect b)) (ba_capabilityDigest b) (ba_now b) = Ok tt;
}.

Lemma passes_governs b ttl : passes b ttl -> governs b ttl.
Proof.
  intros [Hz Hi Hl Hs (resolved & Hr & Hb) Ha Hp Hv Hu Hc Hcap Hcd Hx].
  apply lease_governs_spec in Hl as [Hl El]. pose proof (binding_check _ _ _ _ Hs Hr Hb) as [Hs' Es].
  apply authority_check in Ha as [Ha Ea]. apply policy_check in Hp as [Hp Ep].
  apply review_check in Hv as [Hv Ev]. apply budget_check in Hu as [Hu Eu]. apply scope_check in Hx as [Hx Ex].
  split; try done.
  - eapply Forall2_impl; [exact Hc |]. by intros ? ? [? ?]%credential_check.
  - unfold expiry_limits. apply Forall_app. split; [by repeat constructor |]. apply Forall_map, Forall_forall.
    intros f Hf. apply list_elem_of_lookup in Hf as [n Hn].
    destruct (Forall2_lookup_r _ _ _ _ _ Hc Hn) as (e & _ & He). by apply credential_check in He as [_ He].
Qed.

(** Follow a run: a check, a read, the clock. *)
Ltac trace_reads :=
  repeat first [apply only_reads_snoc; [| reflexivity] | apply only_reads_app; [| apply credential_reads_only] | assumption | constructor].
Ltac wp_check E := apply wpg_bind, wpg_lift; intros ? E ?.
Ltac wp_guard E := apply wpg_bind, wpg_guard; intros E ?.
Ltac wp_read x := apply wpg_bind; split; [split; [trace_reads | discriminate] | intros [x | ?] ? _; [intros ? | exact I]].

Definition issue_justified (request : IssueGovernedDispatchRequestV2) (tr : list gw_event) (c : GatewayCall) : Prop :=
  exists b q, c = g_IssueDispatchPermit q /\ tr = issue_reads request b
              /\ governs b (igd_PermitTTL request) /\ permit_binds request b q.

Lemma wpg_issue_credential request now e (R : CredentialLeaseFactV2 -> list gw_event -> Prop) w tr :
  only_reads tr ->
  (forall f, CredentialLeaseFactV2_ValidateCurrent f e now = Ok tt ->
             R f (tr ++ [Event (g_InspectCredentialLease (cl_Ref e)) (Ok f)])) ->
  wpg (issue_justified request) (issue_credential now e) R w tr.
Proof.
  intros Ht Hr. wp_read f. wp_check E. destruct a. by apply Hr.
Qed.

Lemma wpg_Issue g request w :
  wpg (issue_justified request) (Issue g request)
    (fun r tr => exists t q, tr = t ++ [Event (g_IssueDispatchPermit q) (Ok r)]) w [].
Proof.
  unfold Issue. wp_check Eg. wp_check Er. apply wpg_bind, wpg_clock; [constructor |]. intros now ?.
  wp_guard Enow. wp_read effect. wp_check Ee. wp_read lease. wp_guard El. wp_read set. wp_guard Es.
  wp_check Ep. wp_guard Eb. wp_read authority. wp_check Ea. wp_read policy. wp_check Epl. wp_read review. wp_check Erv.
  wp_read budget. wp_check Ebd. apply wpg_bind. eapply wpg_credentials; [apply wpg_issue_credential | trace_reads |].
  intros credentials Hc ?. wp_check Ecd. wp_check Ecap. wp_read scope. wp_check Esc. wp_check Ei. units.
  set (b := {| ba_now := now |}) in Ei. pose proof (scope_check _ _ _ _ Esc) as [Hx _].
  rewrite negb_false_iff in El, Es, Eb.
  assert (governs b (igd_PermitTTL request)) as Hg.
  { apply passes_governs. split; try done; [| by exists a2]. unfold issue_effect_check in Ee. go_ok. go_bool. tauto. }
  split.
  - split; [trace_reads |]. intros _. exists b, a10. split; [done |]. split; [| by split; [| apply governed_issue_binds]].
    by rewrite <- !app_assoc.
  - intros [r | e] ? _; [| exact I]. by eexists _, _.
Qed.

(** *** Begin *)

(** The permit is issued and current, names the effect and its intent as they
    were read, and carries exactly what the run read of every fact. *)
Record begin_binds (request : BeginGovernedDispatchRequestV2) (permit : DispatchPermitFactV2) (b : Basis) : Prop := {
  bn_effect : f_State (ba_effect b) = EffectDispatchIntent
              /\ f_Revision (ba_effect b) = bgd_ExpectedEffectRevision request
              /\ f_DispatchPermitID (ba_effect b) = p_ID (pf_Permit permit);
  bn_permit : pf_State permit = DispatchPermitIssued /\ pf_Revision permit = bgd_ExpectedPermitRevision request
              /\ pf_EffectFactRevision permit = f_Revision (ba_effect b);
  bn_unexpired : Before (ba_now b) (UnixTime (p_ExpiresUnixNano (pf_Permit permit))) = true;
  bn_intent : exists digest, EffectIntentV2_DigestV2 (f_Intent (ba_effect b)) = Ok digest
              /\ permit_drifted (pf_Permit permit) (f_Intent (ba_effect b)) digest = false;
  bn_facts : facts_drifted (current_facts b (pf_Permit permit)) (pf_Permit permit) = false;
  bn_fence : fence_drifted (pf_Fence permit) (pf_Permit permit) (f_Intent (ba_effect b)) = false
             /\ CheckFence (pf_Fence permit)
                  {| cff_Scope := i_Scope (f_Intent (ba_effect b));
                     cff_CapabilityGrantDigest := ba_capabilityDigest b |} (ba_now b) = Ok tt;
}.

Definition begin_request (permit : DispatchPermitFactV2) (b : Basis) : BeginDispatchRequestV2 :=
  {| bg_EffectID := i_ID (f_Intent (ba_effect b)); bg_ExpectedEffectRevision := f_Revision (ba_effect b);
     bg_PermitID := p_ID (pf_Permit permit); bg_ExpectedPermitRevision := pf_Revision permit |}.

(** `time.Unix(0, permit.Permit.ExpiresUnixNano).Sub(now)` *)
Definition remaining (permit : DispatchPermitFactV2) (b : Basis) : Duration :=
  TimeSub (UnixTime (p_ExpiresUnixNano (pf_Permit permit))) (ba_now b).

Definition begin_justified (request : BeginGovernedDispatchRequestV2) (tr : list gw_event) (c : GatewayCall) : Prop :=
  exists permit b, c = g_BeginDispatch (begin_request permit b) /\ tr = begin_reads request permit b
                   /\ governs b (remaining permit b) /\ begin_binds request permit b.

Lemma begin_binds_intro request permit b :
  begin_check request (ba_effect b) permit (ba_now b) = Ok tt ->
  scope_current (ba_scope b) (f_Intent (ba_effect b)) (ba_capabilityDigest b) ->
  ValidateDispatchAtExecutionPointV2 (pf_Permit permit) (f_Intent (ba_effect b)) (pf_Fence permit)
    (current_facts b (pf_Permit permit)) (ba_now b) = Ok tt ->
  begin_binds request permit b.
Proof.
  unfold begin_check, ValidateDispatchAtExecutionPointV2. intros Hb Hx Hv. go_ok.
  match goal with H : EffectIntentV2_DigestV2 _ = Ok _, D : permit_drifted _ _ _ = false |- _ =>
    pose proof (conj H D) as Hi end.
  assert (i_Scope (f_Intent (ba_effect b)) = ef_Scope (ba_scope b)) as Hs by (symmetry; apply (xc_scope _ _ _ Hx)).
  go_bool. destruct_and!. split; try done; [eexists; split; eassumption |]. by rewrite Hs.
Qed.

Ltac wp_unless x E :=
  apply wpg_bind, wpg_unless; split; [split; [trace_reads | discriminate] | intros [x | ?] ? _; [intros E ? | exact I]].

Lemma wpg_begin_credential request now e (R : CredentialLeaseFactV2 -> list gw_event -> Prop) w tr :
  only_reads tr ->
  (forall f, CredentialLeaseFactV2_ValidateCurrent f e now = Ok tt ->
             R f (tr ++ [Event (g_InspectCredentialLease (cl_Ref e)) (Ok f)])) ->
  wpg (begin_justified request) (begin_credential now e) R w tr.
Proof.
  intros Ht Hr. apply wpg_unless. split; [split; [trace_reads | discriminate] |].
  intros [f | ?] ? _; [| exact I]. intros E. apply is_ok_true in E as [[] E]. by apply Hr.
Qed.

Lemma wpg_Begin g request w :
  wpg (begin_justified request) (Begin g request)
    (fun r tr => exists t q, tr = t ++ [Event (g_BeginDispatch q) (Ok r)]) w [].
Proof.
  unfold Begin. wp_check Eg. apply wpg_bind, wpg_clock; [constructor |]. intros now ?.
  wp_guard Enow. wp_read effect. wp_read permit. wp_check Ee. wp_unless lease El. wp_unless set Es.
  apply wpg_bind, wpg_unless, wpg_lift. intros resolved Ep Eb ?. wp_check Ecap. wp_unless authority Ea.
  wp_unless policy Epl. wp_read review. wp_check Erv. wp_guard Erc. wp_unless budget Ebd.
  apply wpg_bind. eapply wpg_credentials; [apply wpg_begin_credential | trace_reads |]. intros credentials Hc ?.
  apply wpg_bind, wpg_unless, wpg_lift. intros grants Ecd Egr ?. wp_unless scope Esc. wp_check Ev. units.
  set (b := {| ba_now := now |}) in Ev. rewrite is_ok_true in *.
  destruct Ea as [[] Ea], Epl as [[] Epl], Ebd as [[] Ebd], Esc as [[] Esc].
  pose proof (scope_check _ _ _ _ Esc) as [Hx _].
  assert (governs b (remaining permit b)) as Hg.
  { apply passes_governs. split; try done; [| by exists resolved]. unfold ValidateDispatchAtExecutionPointV2 in Ev.
    go_ok. go_bool. tauto. }
  split.
  - split; [trace_reads |]. intros _. exists permit, b. split; [done |]. split; [| by split; [| apply begin_binds_intro]].
    by rewrite <- !app_assoc.
  - intros [r | e] ? _; [| exact I]. by eexists _, _.
Qed.

(** *** Claims about all runs *)

Lemma wpg_asks {A} (justified : list gw_event -> GatewayCall -> Prop) (m : Gw A) Q w tr w' t e rest :
  wpg justified m Q w [] -> cut answers m w tr w' -> tr = t ++ e :: rest -> asks (ev_call e) = true ->
  rest = [] /\ justified t (ev_call e).
Proof.
  intros Hm Hc E Ha. destruct (wp_calls _ _ _ _ _ _ _ _ Hm Hc t e rest E) as [v [_ Hj]]. split; [| by apply Hj].
  destruct rest as [| e' rest]; [done |]. exfalso.
  destruct (wp_calls _ _ _ _ _ _ _ _ Hm Hc (t ++ [e]) e' rest) as [v' [Hr _]]; [by rewrite E, <- app_assoc |].
  cbn in Hr. apply Forall_app in Hr as [_ Hr]. inversion Hr. congruence.
Qed.

(** C10: in every environment a run of Issue asks the effect owner for a permit at
    most once, as its last call, and only when it has read the accepted effect
    and every fact that governs it, each current for the intent and unexpired at
    the run's one clock reading; the permit asked for binds exactly what was read
    and expires no later than the requested time to live or any of those facts.
    What Issue returns is what the owner answered. *)
Theorem Issue_governed (g : GovernanceDispatchGatewayV2) (request : IssueGovernedDispatchRequestV2) (w w' : W)
    (tr : list gw_event) (Hrun : cut answers (Issue g request) w tr w') :
  (forall t e rest, tr = t ++ e :: rest -> asks (ev_call e) = true ->
     rest = [] /\ exists b q, ev_call e = g_IssueDispatchPermit q /\ t = issue_reads request b
                              /\ governs b (igd_PermitTTL request) /\ permit_binds request b q)
  /\ forall r, exec answers (Issue g request) w tr (Ok r) w' ->
       exists t q, tr = t ++ [Event (g_IssueDispatchPermit q) (Ok r)].
Proof.
  split; [intros t e rest; exact (wpg_asks _ _ _ _ _ _ _ _ _ (wpg_Issue g request w) Hrun) |].
  intros r He. exact (wp_exec _ _ _ _ _ _ _ _ _ (wpg_Issue g request w) He).
Qed.

Lemma Begin_asks g request w tr w' t e rest :
  cut answers (Begin g request) w tr w' -> tr = t ++ e :: rest -> asks (ev_call e) = true ->
  rest = [] /\ begin_justified request t (ev_call e).
Proof. intros Hc E Ha. exact (wpg_asks _ _ _ _ _ _ _ _ _ (wpg_Begin g request w) Hc E Ha). Qed.

Lemma Begin_returns g request w tr r w' :
  exec answers (Begin g request) w tr (Ok r) w' -> exists t q, tr = t ++ [Event (g_BeginDispatch q) (Ok r)].
Proof. exact (wp_exec _ _ _ _ _ _ _ _ _ (wpg_Begin g request w)). Qed.

(** C11: in every environment a run of Begin asks the effect owner to begin the
    dispatch at most once, as its last call, and only when the permit it read is
    issued, unexpired and the effect's own, every governing fact is still current
    for the intent at the run's one clock reading, and the permit and its fence
    carry exactly what the run read of them. *)
Theorem Begin_governed (g : GovernanceDispatchGatewayV2) (request : BeginGovernedDispatchRequestV2) (w w' : W)
    (tr : list gw_event) (Hrun : cut answers (Begin g request) w tr w') :
  (forall t e rest, tr = t ++ e :: rest -> asks (ev_call e) = true ->
     rest = [] /\ exists permit b, ev_call e = g_BeginDispatch (begin_request permit b)
                                   /\ t = begin_reads request permit b
                                   /\ governs b (remaining permit b) /\ begin_binds request permit b)
  /\ forall r, exec answers (Begin g request) w tr (Ok r) w' ->
       exists t q, tr = t ++ [Event (g_BeginDispatch q) (Ok r)].
Proof.
  split; [intros t e rest E Ha; exact (Begin_asks _ _ _ _ _ _ _ _ Hrun E Ha) |]. intros r. apply Begin_returns.
Qed.

End runs.
