(* ===== verification/GovernanceStore.v ===== *)
(** * The dispatch gateway over the effect store

    The effect and budget ports of the gateway answered by the effect store,
    with any steps of others between the calls, and every other port by anything.
    A governed begin happens at most once, and what the recovery planner rejects
    is never begun through the gateway afterwards. *)

From stdpp Require Import gmap list strings relations.
From S2P Require Import Prelude GoStd Errors Identity Fence IdentityLease Dependency Json Canonical Payload EffectContract EffectFact EffectFlow BudgetFact EffectStore EffectSafety EffectRuns Binding BindingFact Interaction GovernanceFacts GovernanceGateway GovernanceSafety.

Local Open Scope N_scope.

Section store.
Context `{ZoneDatabase}.

(** What the store answers to a call; [None] when it is not a call of its ports. *)
Definition store_reply (c : GatewayCall) (ctx : Context) (now : Time) (s : EffectStoreV2)
  : option (EffectStoreV2 * GatewayReply c) :=
  match c return option (EffectStoreV2 * GatewayReply c) with
  | g_InspectEffect id => Some (InspectEffect ctx id s)
  | g_InspectDispatchPermit id => Some (InspectDispatchPermit ctx id s)
  | g_InspectBudgetBinding ref => Some (InspectBudgetBinding ctx ref s)
  | g_IssueDispatchPermit request => Some (IssueDispatchPermit ctx now request s)
  | g_BeginDispatch request => Some (BeginDispatch ctx now request s)
  | _ => None
  end.

(** Others act first; then the store answers, or the port of another owner. *)
Definition effect_answers (s : EffectStoreV2) (c : GatewayCall) (r : GatewayReply c) (s' : EffectStoreV2) : Prop :=
  exists ctx now s1, eff_reaches s s1 /\
    match store_reply c ctx now s1 with
    | Some answer => answer = (s', r)
    | None => s' = s1
    end.

Lemma inspect_effect_eq ctx id s s' f :
  InspectEffect ctx id s = (s', Ok f) -> s' = s /\ exists g, es_effects s !! id = Some g /\ f = cloneEffectFactV2 g.
Proof. unfold InspectEffect, st_err. intros E. st_exec E; try done. by split; [| eexists]. Qed.

Lemma inspect_permit_eq ctx id s s' p :
  InspectDispatchPermit ctx id s = (s', Ok p) -> s' = s /\ exists q, es_permits s !! id = Some q /\ p = clonePermitFactV2 q.
Proof. unfold InspectDispatchPermit, st_err. intros E. st_exec E; try done. by split; [| eexists]. Qed.

Lemma store_reply_reaches c ctx now s s' r : store_reply c ctx now s = Some (s', r) -> eff_reaches s s'.
Proof.
  destruct c; cbn; intros E; try discriminate; apply (f_equal (from_option fst s)) in E; cbn in E.
  - revert E. unfold InspectEffect, st_err. st_go. repeat go_case; cbn; intros <-; done.
  - revert E. unfold InspectDispatchPermit, st_err. st_go. repeat go_case; cbn; intros <-; done.
  - revert E. unfold InspectBudgetBinding, st_err. st_go. repeat go_case; cbn; intros <-; done.
  - rewrite <- E. apply rtc_once, step_issue.
  - rewrite <- E. apply rtc_once, step_begin.
Qed.

Lemma effect_answers_reaches s c r s' : effect_answers s c r s' -> eff_reaches s s'.
Proof.
  intros (ctx & now & s1 & Hr & Ha). etrans; [exact Hr |].
  destruct (store_reply c ctx now s1) as [[t q] |] eqn:E; [| by subst].
  injection Ha as -> ->. by eapply store_reply_reaches.
Qed.

Lemma cut_reaches {A} (m : Prog GatewayReply A) s tr s' : cut effect_answers m s tr s' -> eff_reaches s s'.
Proof.
  revert s tr. induction m as [a | c k IH]; intros s tr; cbn; (intros [[_ ->] | H']; [done |]); [done |].
  destruct H' as (r & s1 & rest & Ha & -> & Hc). etrans; [by eapply effect_answers_reaches | by eapply IH].
Qed.

(** Every event of a run happened in a store between the start and the end. *)
Lemma cut_event {A} (m : Prog GatewayReply A) s tr s' e :
  cut effect_answers m s tr s' -> e ∈ tr ->
  exists v v', eff_reaches s v /\ effect_answers v (ev_call e) (ev_reply e) v' /\ eff_reaches v' s'.
Proof.
  revert s tr. induction m as [a | c k IH]; intros s tr; cbn;
    (intros [[-> _] | H']; [by intros He%elem_of_nil |]); [done |].
  destruct H' as (r & s1 & rest & Ha & -> & Hc). intros [-> | He]%elem_of_cons.
  - exists s, s1. by split; [| split; [| eapply cut_reaches]].
  - destruct (IH r _ _ Hc He) as (v & v' & Hv & Hav & Hv'). exists v, v'. split; [| done].
    etrans; [by eapply effect_answers_reaches | done].
Qed.

(** *** What the run of a begin read *)

Lemma read_effect {A} (m : Prog GatewayReply A) s tr s' id f :
  cut effect_answers m s tr s' -> Event (g_InspectEffect id) (Ok f) ∈ tr ->
  exists v g, eff_reaches s v /\ eff_reaches v s' /\ es_effects v !! id = Some g /\ f = cloneEffectFactV2 g.
Proof.
  intros Hc He. destruct (cut_event _ _ _ _ _ Hc He) as (v & v' & Hv & (ctx & now & s1 & Hr & Ha) & Hv').
  cbn in Ha. apply inspect_effect_eq in Ha as [-> (g & Hg & ->)].
  exists s1, g. split; [by etrans | by split].
Qed.

Lemma read_permit {A} (m : Prog GatewayReply A) s tr s' id p :
  cut effect_answers m s tr s' -> Event (g_InspectDispatchPermit id) (Ok p) ∈ tr ->
  exists v q, eff_reaches s v /\ eff_reaches v s' /\ es_permits v !! id = Some q /\ p = clonePermitFactV2 q.
Proof.
  intros Hc He. destruct (cut_event _ _ _ _ _ Hc He) as (v & v' & Hv & (ctx & now & s1 & Hr & Ha) & Hv').
  cbn in Ha. apply inspect_permit_eq in Ha as [-> (q & Hq & ->)].
  exists s1, q. split; [by etrans | by split].
Qed.

(** A run of Begin that asks has read the permit as issued. *)
Lemma begin_asked g request s tr s' :
  cut effect_answers (Begin g request) s tr s' ->
  only_reads tr \/ exists permit b rest r, tr = begin_reads request permit b ++ Event (g_BeginDispatch (begin_request permit b)) r :: rest
    /\ governs b (remaining permit b) /\ begin_binds request permit b.
Proof.
  intros Hc. destruct (decide (only_reads tr)) as [Ho | Hn]; [by left | right].
  apply not_Forall_Exists in Hn; [| intros e; apply _]. apply Exists_exists in Hn as (e & He & Ha).
  apply not_false_iff_true in Ha. apply list_elem_of_split in He as (t & rest & ->).
  destruct (Begin_asks _ _ _ _ _ _ t e rest Hc eq_refl Ha) as (-> & permit & b & Ec & -> & Hg & Hb).
  destruct e as [c r]. cbn in Ec. subst c. by exists permit, b, [], r.
Qed.

Lemma begin_stores ctx now request s t p :
  store_wf s -> BeginDispatch ctx now request s = (t, Ok p) ->
  exists q, es_permits t !! bg_PermitID request = Some q /\ pf_State q = DispatchPermitBegun /\ p = q.
Proof.
  intros Hwf E. unfold BeginDispatch, lose_reply, put_permit, st_guard, st_err in E. st_exec E; try done; units.
  match goal with Hp : es_permits _ !! _ = Some _ |- _ => destruct (wf_permit _ Hwf _ _ Hp) as (<- & _ & _) end.
  cbn. rewrite lookup_insert_eq. eexists. split; [done |]. by split.
Qed.

(** A permit that is not in state issued is never begun through the gateway. *)
Lemma ended_not_begun g request s tr s' q :
  store_wf s -> es_permits s !! bgd_PermitID request = Some q -> pf_State q <> DispatchPermitIssued ->
  cut effect_answers (Begin g request) s tr s' -> only_reads tr.
Proof.
  intros Hwf Hq Hn Hc. destruct (begin_asked _ _ _ _ _ Hc) as [Ho | (permit & b & rest & r & -> & _ & Hb)]; [done |].
  destruct (read_permit (Begin g request) _ _ _ (bgd_PermitID request) permit Hc) as (v & q' & Hv & _ & Hq' & ->);
    [by do 2 right; left |].
  destruct (history_permit _ _ _ _ Hwf Hv Hq) as (q2 & E & Hx). rewrite Hq' in E. injection E as <-.
  destruct (bn_permit _ _ _ Hb) as (Hi & _). cbn in Hi. destruct (decide (pf_State q = DispatchPermitBegun)) as [Hg | Hg].
  - by rewrite (proj1 (px_begun _ _ Hx Hg)) in Hi.
  - by rewrite (px_final _ _ Hx Hn Hg) in Hi.
Qed.

(** A run of Begin that returns a permit leaves it begun. *)
Lemma begin_returns g request s tr s' p :
  store_wf s -> exec effect_answers (Begin g request) s tr (Ok p) s' ->
  exists q, es_permits s' !! bgd_PermitID request = Some q /\ pf_State q = DispatchPermitBegun /\ permit_extends p q.
Proof.
  intros Hwf Hrun. pose proof (exec_cut _ _ _ _ _ _ Hrun) as Hc.
  destruct (Begin_returns _ _ _ _ _ _ _ Hrun) as (t & q & ->).
  destruct (Begin_asks _ _ _ _ _ _ t _ [] Hc eq_refl eq_refl)
    as (_ & permit & b & Eq & -> & _ & Hb). cbn in Eq. injection Eq as ->.
  destruct (read_permit (Begin g request) _ _ _ (bgd_PermitID request) permit Hc) as (v0 & q0 & Hv0 & _ & Hq0 & ->);
    [by do 2 right; left |].
  assert (store_wf v0) as Hwf0 by by eapply eff_reaches_wf.
  destruct (wf_permit _ Hwf0 _ _ Hq0) as (Hid & _).
  destruct (cut_event _ _ _ _ (Event (g_BeginDispatch (begin_request (clonePermitFactV2 q0) b)) (Ok p)) Hc)
    as (v & v' & Hv & (ctx & now & s1 & Hs1 & Ha) & Hv'); [by apply elem_of_app; right; left |].
  cbn in Ha. assert (store_wf s1) as Hwf1 by exact (eff_reaches_wf _ _ (eff_reaches_wf _ _ Hwf Hv) Hs1).
  destruct (begin_stores _ _ _ _ _ _ Hwf1 Ha) as (q1 & Hq1 & Hb1 & ->). cbn in Hq1. rewrite Hid in Hq1.
  assert (store_wf v') as Hwfv'. { eapply eff_reaches_wf; [exact Hwf1 |]. apply rtc_once.
    replace v' with (fst (BeginDispatch ctx now (begin_request (clonePermitFactV2 q0) b) s1)) by (by rewrite Ha). constructor. }
  destruct (history_permit _ _ _ _ Hwfv' Hv' Hq1) as (q2 & Hq2 & Hx). exists q2.
  split; [done | split; [by apply (px_begun _ _ Hx) | done]].
Qed.

(** C12: over the effect store a governed begin happens at most once.  A run of
    Begin that returns a permit leaves it begun in the store; and after any run
    that leaves the permit begun, or ended, whatever that run answered, no later
    run of any gateway asks to begin a dispatch with it again. *)
Theorem governed_begin_once (g : GovernanceDispatchGatewayV2) (request : BeginGovernedDispatchRequestV2)
    (s s' : EffectStoreV2) (tr : list gw_event) (r : result DispatchPermitFactV2)
    (Hs : eff_reachable s) (Hrun : exec effect_answers (Begin g request) s tr r s') :
  (forall p, r = Ok p -> exists q, es_permits s' !! bgd_PermitID request = Some q
     /\ pf_State q = DispatchPermitBegun /\ permit_extends p q)
  /\ forall q, es_permits s' !! bgd_PermitID request = Some q -> pf_State q <> DispatchPermitIssued ->
       forall g' request' u u' tr', eff_reaches s' u -> bgd_PermitID request' = bgd_PermitID request ->
         cut effect_answers (Begin g' request') u tr' u' -> only_reads tr'.
Proof.
  pose proof (cut_reaches _ _ _ _ (exec_cut _ _ _ _ _ _ Hrun)) as Hr.
  assert (store_wf s) as Hwf by by apply reachable_wf. split.
  - intros p ->. by eapply begin_returns.
  - intros q Hq Hn g' request' u u' tr' Hu Hid Hc'.
    assert (store_wf s') as Hwf' by by eapply eff_reaches_wf.
    assert (store_wf u) as Hwfu by by eapply eff_reaches_wf.
    destruct (history_permit _ _ _ _ Hwf' Hu Hq) as (q2 & Hq2 & Hx).
    eapply (ended_not_begun g' request' u tr' u' q2); [done | by rewrite Hid | | done].
    destruct (decide (pf_State q = DispatchPermitBegun)) as [Hg | Hg].
    + by rewrite (proj1 (px_begun _ _ Hx Hg)).
    + by rewrite (px_final _ _ Hx Hn Hg).
Qed.

(** *** Recovery *)

Lemma dispatch_intent_bound f :
  EffectFactV2_Validate f = Ok tt -> f_State f = EffectDispatchIntent -> f_DispatchPermitID f <> "".
Proof.
  unfold EffectFactV2_Validate. intros Hv Hs. go_ok.
  match goal with H : state_evidence f = Ok tt |- _ => unfold state_evidence in H; rewrite Hs in H end.
  go_ok. unfold empty in *. go_bool. by destruct_and!.
Qed.

Lemma valid_effect_digest f : EffectFactV2_Validate f = Ok tt -> EffectIntentV2_DigestV2 (f_Intent f) = Ok (f_IntentDigest f).
Proof. unfold EffectFactV2_Validate. intros Hv. go_ok. go_bool. destruct_and!. congruence. Qed.

(** When the planner rejects, the permit is no longer issued, or it or the intent
    has expired. *)
Lemma reject_reason effect permit now safe :
  PlanEffectRecoveryV2 effect (Some permit) now
  = Ok {| rd_Action := RecoveryRejectPreDispatch; rd_AutomaticSafe := safe |} ->
  EffectFactV2_Validate effect = Ok tt /\ f_State effect = EffectDispatchIntent
  /\ (pf_State permit <> DispatchPermitIssued
      \/ Before now (UnixTime (p_ExpiresUnixNano (pf_Permit permit))) = false
      \/ Before now (UnixTime (i_ExpiresUnixNano (f_Intent effect))) = false).
Proof.
  unfold PlanEffectRecoveryV2, decide_recovery. intros Hp. go_ok.
  destruct (f_State effect); try done. go_ok. split; [done | split; [done |]].
  destruct (pf_State permit) eqn:E; try done; try by left.
  destruct (negb _ || negb _) eqn:Ex in Hk; [| done]. right. by apply orb_true_iff in Ex as [?%negb_true_iff | ?%negb_true_iff]; [left | right].
Qed.

Lemma Before_later now t n : (instant now <= instant t)%Z -> Before now n = false -> Before t n = false.
Proof. unfold Before. rewrite !Z.ltb_ge. lia. Qed.

(** What a run of Begin has read when it asks, about an effect that an earlier
    store held bound to a permit. *)
Lemma asked_from_store g request s u tr u' effect permit :
  store_wf s -> es_effects s !! bgd_EffectID request = Some effect -> f_State effect = EffectDispatchIntent ->
  es_permits s !! f_DispatchPermitID effect = Some permit -> eff_reaches s u ->
  cut effect_answers (Begin g request) u tr u' ->
  only_reads tr
  \/ exists t f q, Event g_Clock t ∈ tr /\ effect_extends effect f /\ EffectFactV2_Validate f = Ok tt
       /\ permit_extends permit q /\ pf_State q = DispatchPermitIssued
       /\ Before t (UnixTime (p_ExpiresUnixNano (pf_Permit q))) = true
       /\ Before t (UnixTime (i_ExpiresUnixNano (f_Intent f))) = true.
Proof.
  intros Hwf He Hst Hp Hu Hrun. destruct (wf_effect _ Hwf _ _ He) as (_ & Hv & _).
  destruct (begin_asked _ _ _ _ _ Hrun) as [Ho | (p & b & rest & r & -> & Hg & Hb)]; [by left | right].
  destruct (read_effect (Begin g request) _ _ _ (bgd_EffectID request) (ba_effect b) Hrun) as (v & f & Hv1 & _ & Hf & Eb);
    [by right; left |].
  destruct (read_permit (Begin g request) _ _ _ (bgd_PermitID request) p Hrun) as (x & q & Hx1 & _ & Hq & ->);
    [by do 2 right; left |].
  assert (eff_reaches s v) as Hsv by (by transitivity u). assert (eff_reaches s x) as Hsx by (by transitivity u).
  destruct (history_effect _ _ _ _ Hwf Hsv He) as (f' & E & Hxf). rewrite Hf in E. injection E as <-.
  destruct (wf_effect _ (eff_reaches_wf _ _ Hwf Hsv) _ _ Hf) as (_ & Hvf & _).
  destruct (wf_permit _ (eff_reaches_wf _ _ Hwf Hsx) _ _ Hq) as (Hid & _).
  destruct Hb as [(_ & _ & Hbound) (Hissued & _) Hunexp _ _ _]. rewrite Eb in Hbound. cbn in Hbound, Hissued, Hunexp.
  destruct (ext_permit _ _ Hxf (dispatch_intent_bound _ Hv Hst)) as [Hbind _].
  destruct (history_permit _ _ _ _ Hwf Hsx Hp) as (q' & E & Hxq).
  replace (f_DispatchPermitID effect) with (bgd_PermitID request) in E by congruence. rewrite Hq in E. injection E as <-.
  exists (ba_now b), f, q. split; [by left |]. do 5 (split; [done |]).
  pose proof (gv_unexpired _ _ Hg) as Hlimits. apply Forall_cons in Hlimits as [Hi _]. by rewrite Eb in Hi.
Qed.

(** C13: what the recovery planner rejects stays undone.  When it rejects an effect
    of a reachable store on the permit the store holds for it, then whatever
    happens afterwards, no run of Begin whose clock has not gone back asks to
    begin the dispatch of that effect, with any permit; unless the store came to
    hold another intent of the same digest that expires at another time. *)
Theorem PlanEffectRecoveryV2_reject_final (g : GovernanceDispatchGatewayV2) (request : BeginGovernedDispatchRequestV2)
    (s u u' : EffectStoreV2) (tr : list gw_event) (effect : EffectFactV2) (permit : DispatchPermitFactV2)
    (now : Time) (safe : bool)
    (Hs : eff_reachable s) (He : es_effects s !! bgd_EffectID request = Some effect)
    (Hp : es_permits s !! f_DispatchPermitID effect = Some permit)
    (Hplan : PlanEffectRecoveryV2 effect (Some permit) now
             = Ok {| rd_Action := RecoveryRejectPreDispatch; rd_AutomaticSafe := safe |})
    (Hu : eff_reaches s u) (Hrun : cut effect_answers (Begin g request) u tr u')
    (Hclock : forall t, Event g_Clock t ∈ tr -> (instant now <= instant t)%Z) :
  only_reads tr
  \/ exists i, EffectIntentV2_DigestV2 i = EffectIntentV2_DigestV2 (f_Intent effect)
               /\ i_ExpiresUnixNano i <> i_ExpiresUnixNano (f_Intent effect).
Proof.
  apply reject_reason in Hplan as (Hv & Hst & Hwhy).
  destruct (asked_from_store g request s u tr u' effect permit (reachable_wf s Hs) He Hst Hp Hu Hrun)
    as [Ho | (t & f & q & Ht & Hxf & Hvf & Hxq & Hi & Hpe & Hie)]; [by left | right].
  pose proof (Hclock t Ht) as Hnow. destruct Hwhy as [Hn | [Hx | Hx]].
  - exfalso. destruct (decide (pf_State permit = DispatchPermitBegun)) as [Hg | Hg].
    + by rewrite (proj1 (px_begun _ _ Hxq Hg)) in Hi.
    + by rewrite (px_final _ _ Hxq Hn Hg) in Hi.
  - rewrite (px_permit _ _ Hxq), (Before_later _ _ _ Hnow Hx) in Hpe. done.
  - exists (f_Intent f). split.
    + by rewrite (valid_effect_digest f), (valid_effect_digest effect), (ext_digest _ _ Hxf) by done.
    + intros E. rewrite E, (Before_later _ _ _ Hnow Hx) in Hie. done.
Qed.

End store.
