(* ===== verification/GovernanceRuns.v ===== *)
(** * Runs of the dispatch gateway

    When every port answers and every check passes, Issue and Begin reach the
    effect owner: the converse of what GovernanceSafety proves.  With it, one
    dispatch from acceptance to begin over the effect store, and the concrete
    inputs of the gateway's theorems. *)

From stdpp Require Import gmap list strings relations.
From S2P Require Import Prelude GoStd Errors Identity Fence IdentityLease Dependency Json Canonical Payload EffectContract EffectFact EffectFlow BudgetFact EffectStore EffectSafety EffectRuns EffectOutcomes Binding BindingFact Interaction GovernanceFacts GovernanceGateway GovernanceSafety GovernanceStore.

Local Open Scope N_scope.

(** ** Complete runs *)

Section complete.
Context `{ZoneDatabase} {W : Type} (answers : W -> forall c, GatewayReply c -> W -> Prop).

Lemma exec_lift {A B} (a : A) (m : result A) (k : A -> Gw B) w tr o w' :
  m = Ok a -> exec answers (k a) w tr o w' -> exec answers (gw_lift m ≫= k) w tr o w'.
Proof. by intros ->. Qed.

Lemma exec_unless {A} category reason ok (a : A) (m : Gw A) w tr w' :
  ok a = true -> exec answers m w tr (Ok a) w' -> exec answers (unless category reason ok m) w tr (Ok a) w'.
Proof.
  intros Ha Hm. apply exec_bind. exists (Ok a), w', tr, []. rewrite app_nil_r, Ha. by repeat split.
Qed.

Lemma exec_then {A B} (a : A) (m : Gw A) (k : A -> Gw B) w w1 t1 t2 o w' :
  exec answers m w t1 (Ok a) w1 -> exec answers (k a) w1 t2 o w' -> exec answers (m ≫= k) w (t1 ++ t2) o w'.
Proof. intros Hm Hk. apply exec_bind. by exists (Ok a), w1, t1, t2. Qed.

Lemma guard_false_Ok c category reason : c = false -> guard c category reason = Ok tt.
Proof. by intros ->. Qed.

(** A call that is answered. *)
Lemma exec_call c r w w' : answers w c r w' -> exec answers (call c) w [Event c r] r w'.
Proof. intros Ha. by exists r, w', []. Qed.

Lemma exec_clock (now : Time) w w' : answers w g_Clock now w' -> exec answers gw_clock w [Event g_Clock now] (Ok now) w'.
Proof. intros Ha. by exists now, w', []. Qed.

Lemma exec_credentials (read : CredentialLeaseRefV2 -> Gw CredentialLeaseFactV2) expected facts w :
  Forall2 (fun e f => exec answers (read e) w [Event (g_InspectCredentialLease (cl_Ref e)) (Ok f)] (Ok f) w) expected facts ->
  exec answers (read_credentials read expected) w (credential_reads expected facts) (Ok facts) w.
Proof.
  induction 1 as [| e f es fs Hf _ IH]; [done |].
  replace (credential_reads (e :: es) (f :: fs))
    with ([Event (g_InspectCredentialLease (cl_Ref e)) (Ok f)] ++ credential_reads es fs ++ [] : list gw_event)
    by (by rewrite app_nil_r).
  apply (exec_then f _ _ _ w); [done |]. by apply (exec_then fs _ _ _ w).
Qed.

(** The ports answer the reads of a run and change nothing. *)
Definition answered (w : W) (tr : list gw_event) : Prop := Forall (fun e => answers w (ev_call e) (ev_reply e) w) tr.

(** Follow a run: a check that passes, a read that is answered. *)
Ltac ex_check := apply (exec_lift tt); [first [eassumption | apply guard_false_Ok; rewrite ?negb_false_iff; eassumption] |].
Ltac ex_read x := eapply (exec_then x _ _ _ _ [_]); [apply exec_call; eassumption |].

Ltac ex_read_if x :=
  eapply (exec_then x _ _ _ _ [_]); [apply exec_unless; [first [eassumption | apply is_ok_true; eauto] | apply exec_call; eassumption] |].

Lemma answered_credentials (read : Time -> CredentialLeaseRefV2 -> Gw CredentialLeaseFactV2) now expected facts w :
  (forall e f, CredentialLeaseFactV2_ValidateCurrent f e now = Ok tt ->
     answers w (g_InspectCredentialLease (cl_Ref e)) (Ok f) w ->
     exec answers (read now e) w [Event (g_InspectCredentialLease (cl_Ref e)) (Ok f)] (Ok f) w) ->
  Forall2 (fun e f => CredentialLeaseFactV2_ValidateCurrent f e now = Ok tt) expected facts ->
  answered w (credential_reads expected facts) ->
  exec answers (read_credentials (read now) expected) w (credential_reads expected facts) (Ok facts) w.
Proof.
  intros Hread Hc Ha. apply exec_credentials. revert Ha.
  induction Hc as [| e f es fs Hf _ IH]; intros Ha; constructor;
    apply Forall_cons in Ha as [Ha Has]; [by apply Hread | by apply IH].
Qed.

Lemma exec_issue_credential now e f w :
  CredentialLeaseFactV2_ValidateCurrent f e now = Ok tt -> answers w (g_InspectCredentialLease (cl_Ref e)) (Ok f) w ->
  exec answers (issue_credential now e) w [Event (g_InspectCredentialLease (cl_Ref e)) (Ok f)] (Ok f) w.
Proof. intros Hv Ha. ex_read f. by ex_check. Qed.

Lemma exec_begin_credential now e f w :
  CredentialLeaseFactV2_ValidateCurrent f e now = Ok tt -> answers w (g_InspectCredentialLease (cl_Ref e)) (Ok f) w ->
  exec answers (begin_credential now e) w [Event (g_InspectCredentialLease (cl_Ref e)) (Ok f)] (Ok f) w.
Proof. intros Hv Ha. apply exec_unless; [by rewrite Hv | by apply exec_call]. Qed.

Lemma Issue_complete (g : GovernanceDispatchGatewayV2) (request : IssueGovernedDispatchRequestV2) (b : Basis)
    (q : IssueDispatchPermitRequestV2) (r : result (EffectFactV2 * DispatchPermitFactV2)) (w w' : W) :
  GovernanceDispatchGatewayV2_validate g = Ok tt -> issue_request_check request = Ok tt ->
  issue_effect_check request (ba_effect b) (ba_now b) = Ok tt -> passes b (igd_PermitTTL request) ->
  governed_issue request b = Ok q -> answered w (issue_reads request b) -> answers w (g_IssueDispatchPermit q) r w' ->
  exec answers (Issue g request) w (issue_reads request b ++ [Event (g_IssueDispatchPermit q) r]) r w'.
Proof.
  intros Eg Er Ee [Hz _ Hl Hs (resolved & Hr & Hb) Ha Hp Hv Hu Hc Hcap Hcd Hx] Eq Hrd Hq.
  unfold answered, issue_reads, fact_reads in Hrd. rewrite !Forall_cons, !Forall_app, !Forall_cons in Hrd.
  destruct Hrd as (A1 & A2 & (A3 & A4 & A5 & A6 & A7 & A8 & _) & A9 & A10 & _).
  unfold Issue, issue_reads, fact_reads. cbn [app]. rewrite <- app_assoc. do 2 ex_check. apply (exec_then (ba_now b) _ _ _ w [_]); [by apply exec_clock |].
  ex_check. ex_read (ba_effect b). ex_check. ex_read (ba_lease b). ex_check. ex_read (ba_set b). ex_check.
  apply (exec_lift resolved); [done |]. ex_check. ex_read (ba_authority b). ex_check. ex_read (ba_policy b). ex_check.
  ex_read (ba_review b). ex_check. ex_read (ba_budget b). ex_check.
  apply (exec_then (ba_credentials b) _ _ _ w).
  { apply answered_credentials; [intros; by apply exec_issue_credential | done | done]. }
  apply (exec_lift (ba_credentialDigest b)); [done |]. apply (exec_lift (ba_capabilityDigest b)); [done |].
  ex_read (ba_scope b). ex_check. apply (exec_lift q); [by destruct b | by apply exec_call].
Qed.

Lemma Begin_complete (g : GovernanceDispatchGatewayV2) (request : BeginGovernedDispatchRequestV2) (b : Basis)
    (permit : DispatchPermitFactV2) (r : result DispatchPermitFactV2) (w w' : W) :
  GovernanceDispatchGatewayV2_validate g = Ok tt -> begin_check request (ba_effect b) permit (ba_now b) = Ok tt ->
  passes b (remaining permit b) -> review_changed (ba_review b) (pf_Permit permit) = false ->
  ba_credentialDigest b = p_CredentialGrantDigest (pf_Permit permit) ->
  ValidateDispatchAtExecutionPointV2 (pf_Permit permit) (f_Intent (ba_effect b)) (pf_Fence permit)
    (current_facts b (pf_Permit permit)) (ba_now b) = Ok tt ->
  answered w (begin_reads request permit b) -> answers w (g_BeginDispatch (begin_request permit b)) r w' ->
  exec answers (Begin g request) w
    (begin_reads request permit b ++ [Event (g_BeginDispatch (begin_request permit b)) r]) r w'.
Proof.
  intros Eg Ee [Hz _ Hl Hs (resolved & Hr & Hb) Ha Hp Hv Hu Hc Hcap Hcd Hx] Erc Egr Ev Hrd Hq.
  unfold answered, begin_reads, fact_reads in Hrd. rewrite !Forall_cons, !Forall_app, !Forall_cons in Hrd.
  destruct Hrd as (A1 & A2 & A0 & (A3 & A4 & A5 & A6 & A7 & A8 & _) & A9 & A10 & _).
  unfold Begin, begin_reads, fact_reads. cbn [app]. rewrite <- app_assoc. ex_check. apply (exec_then (ba_now b) _ _ _ w [_]); [by apply exec_clock |].
  ex_check. ex_read (ba_effect b). ex_read permit. ex_check. ex_read_if (ba_lease b). ex_read_if (ba_set b).
  apply (exec_then resolved _ _ _ w []); [by apply exec_unless; [| rewrite Hr] |].
  apply (exec_lift (ba_capabilityDigest b)); [done |]. ex_read_if (ba_authority b). ex_read_if (ba_policy b).
  ex_read (ba_review b). ex_check. ex_check. ex_read_if (ba_budget b).
  apply (exec_then (ba_credentials b) _ _ _ w).
  { apply answered_credentials; [intros; by apply exec_begin_credential | done | done]. }
  apply (exec_then (ba_credentialDigest b) _ _ _ w []).
  { apply exec_unless; [by apply bool_decide_eq_true | by rewrite Hcd]. }
  ex_read_if (ba_scope b). destruct b; cbn in *. ex_check. by apply exec_call.
Qed.
End complete.
