(* ===== verification/GovernanceHistory.v ===== *)
(** * One governed dispatch

    An accepted effect, the facts that govern it, and the runs of the gateway
    over them: the permit is issued, expires with the credential lease, the
    earliest of its facts, and is begun once.  The concrete inputs of the
    gateway's theorems, and what the recovery planner does not check. *)

From stdpp Require Import gmap list strings relations.
From S2P Require Import Prelude GoStd Errors Identity Fence IdentityLease SemVer Dependency Json Canonical Payload EffectContract EffectFact EffectFlow BudgetFact EffectStore EffectSafety EffectRuns EffectOutcomes Assembly Binding BindingFact Interaction GovernanceFacts GovernanceGateway GovernanceSafety GovernanceStore GovernanceRuns.

Local Open Scope N_scope.

#[local] Existing Instance utc.

Ltac gx_computed := match goal with |- _ = ?r => vm_cast_no_check (eq_refl r) end.

(** ** The facts *)

Definition gx_owners : list OwnerAssignmentV2 :=
  map (fun role => {| oa_Role := role; oa_OwnerComponentID := "praxis/files" |})
    [OwnerEffect; OwnerSettlement; OwnerCleanup].
Definition gx_member : BindingMemberV2 :=
  {| bm_BindingID := "binding-1"; bm_BindingRevision := 4; bm_ComponentID := "praxis/files"; bm_Kind := "praxis/tool";
     bm_ManifestDigest := ex_digest; bm_ArtifactDigest := ex_digest2;
     bm_Contract := {| cb_Name := "praxis/contract"; cb_Version := "1.0.0"; cb_Compatible := bx_range |};
     bm_Owners := gx_owners;
     bm_Grants := [{| cg_Capability := "files/write"; cg_EvidenceDigest := ex_digest; cg_ObservedUnixNano := 500;
                      cg_ExpiresUnixNano := 9500 |}] |}.
Definition gx_set : BindingSetFactV2 :=
  {| bs_ID := "set-1"; bs_PlanID := "plan-1"; bs_PlanDigest := ex_digest; bs_GovernanceDigest := ex_digest;
     bs_State := BindingSetActive; bs_Revision := 1; bs_Members := [gx_member]; bs_TopologicalOrder := ["praxis/files"];
     bs_Residuals := None; bs_CreatedUnixNano := 600; bs_ExpiresUnixNano := 9500; bs_InvalidationReason := "" |}.
Definition gx_capability : Digest := Eval vm_compute in digest_of (CapabilityGrantDigestV2 gx_set).
Lemma gx_capability_eq : CapabilityGrantDigestV2 gx_set = Ok gx_capability.
Proof. gx_computed. Qed.

Definition gx_source (ref : string) : GovernanceSourceFactRefV2 := {| gs_Ref := ref; gs_Revision := 1; gs_Digest := ex_digest |}.
Definition gx_scope_with (digest : Digest) : ExecutionScopeCurrentFactV2 :=
  {| ef_Ref := "scope-1"; ef_Digest := digest; ef_Revision := 1; ef_Scope := ex_bound_scope;
     ef_CapabilityGrantDigest := gx_capability; ef_ActivationSource := gx_source "activation";
     ef_InstanceSource := gx_source "instance"; ef_SandboxSource := Some (gx_source "sandbox");
     ef_AuthoritySource := gx_source "authority"; ef_BindingSource := gx_source "binding"; ef_RunSource := gx_source "run";
     ef_ActiveRunID := "run-1"; ef_RunState := "running"; ef_ProjectionWatermark := 1;
     ef_State := ExecutionScopeFactActive; ef_ExpiresUnixNano := 9000 |}.
Definition gx_scope_digest : Digest := Eval vm_compute in digest_of (ExecutionScopeCurrentFactV2_DigestV2 (gx_scope_with "")).
Definition gx_scope : ExecutionScopeCurrentFactV2 := gx_scope_with gx_scope_digest.
Lemma gx_scope_digest_eq : ExecutionScopeCurrentFactV2_DigestV2 gx_scope = Ok gx_scope_digest.
Proof. gx_computed. Qed.

Definition gx_budget : BudgetBindingFactV2 := ex_budget BudgetFactActive 1 0.
Definition gx_budget_digest : Digest := Eval vm_compute in digest_of (BudgetBindingFactV2_DigestV2 gx_budget).
Lemma gx_budget_digest_eq : BudgetBindingFactV2_DigestV2 gx_budget = Ok gx_budget_digest.
Proof. gx_computed. Qed.

Definition gx_credential : CredentialLeaseFactV2 :=
  {| cf_Ref := "credential-1"; cf_Class := "git/token"; cf_ScopeDigest := ex_digest; cf_Epoch := 1; cf_Active := true;
     cf_ExpiresUnixNano := 8500 |}.
Definition gx_grants : Digest := Eval vm_compute in digest_of (DigestCredentialLeaseFactsV2 [gx_credential]).
Lemma gx_grants_eq : DigestCredentialLeaseFactsV2 [gx_credential] = Ok gx_grants.
Proof. gx_computed. Qed.

Definition gx_lease : IdentityExecutionLease :=
  {| il_ID := "lease-1"; il_Identity := sc_Identity ex_scope; il_Lineage := sc_Lineage ex_scope;
     il_ActivationAttemptID := "attempt-1"; il_State := IdentityLeaseActive; il_AuthorityEpoch := 1;
     il_ExpiresAt := UnixTime 10000; il_Revision := 2 |}.
Definition gx_authority : DispatchAuthorityFactV2 :=
  {| af_Ref := "authority-1"; af_Digest := ex_digest; af_Revision := 1; af_Scope := ex_bound_scope;
     af_ActionScopeDigest := ex_digest; af_State := AuthorityFactActive; af_ExpiresUnixNano := 9900 |}.

(** The intent, which every fact is bound to. *)
Definition gx_intent_with (policy : Digest) : EffectIntentV2 :=
  let i := ex_intent_1 in
  {| i_ContractVersion := i_ContractVersion i; i_ID := i_ID i; i_Revision := i_Revision i; i_Scope := i_Scope i;
     i_RunID := i_RunID i; i_Kind := i_Kind i; i_RiskClass := i_RiskClass i; i_ActionScopeDigest := i_ActionScopeDigest i;
     i_Payload := i_Payload i; i_PayloadRevision := i_PayloadRevision i; i_Target := i_Target i;
     i_ConflictDomain := i_ConflictDomain i; i_Owners := i_Owners i; i_Provider := i_Provider i;
     i_Authority := i_Authority i; i_Review := i_Review i;
     i_Budget := {| bb_Ref := "budget-1"; bb_Digest := gx_budget_digest; bb_Revision := 1; bb_PolicyDigest := ex_digest |};
     i_Policy := {| pol_Ref := "policy-1"; pol_Digest := policy; pol_Revision := 1 |};
     i_CurrentScope := {| xs_Ref := "scope-1"; xs_Digest := gx_scope_digest; xs_Revision := 1 |};
     i_Idempotency := i_Idempotency i;
     i_CredentialLeases := Some [{| cl_Ref := "credential-1"; cl_Class := "git/token"; cl_ScopeDigest := ex_digest; cl_Epoch := 1 |}];
     i_Relation := i_Relation i; i_MayLeaveRemoteResidual := false; i_RequiresCleanup := false;
     i_ExpiresUnixNano := i_ExpiresUnixNano i |}.

Definition gx_candidate : Digest := Eval vm_compute in digest_of (EffectIntentV2_PolicyCandidateDigestV2 (gx_intent_with "")).
Definition gx_policy_with (digest : Digest) : DispatchPolicyFactV2 :=
  {| df_Ref := "policy-1"; df_Digest := digest; df_Revision := 1; df_IntentID := "effect-1"; df_IntentRevision := 1;
     df_IntentDigest := gx_candidate; df_Scope := ex_bound_scope; df_EffectKind := "files/write"; df_RiskClass := "risk/low";
     df_ActionScopeDigest := ex_digest; df_MaximumPermitTTL := 7000%Z; df_Active := true; df_ExpiresUnixNano := 9800 |}.
Definition gx_policy_digest : Digest := Eval vm_compute in digest_of (DispatchPolicyFactV2_DigestV2 (gx_policy_with "")).
Definition gx_policy : DispatchPolicyFactV2 := gx_policy_with gx_policy_digest.
Lemma gx_policy_digest_eq : DispatchPolicyFactV2_DigestV2 gx_policy = Ok gx_policy_digest.
Proof. gx_computed. Qed.

Definition gx_intent : EffectIntentV2 := gx_intent_with gx_policy_digest.
Lemma gx_candidate_eq : EffectIntentV2_PolicyCandidateDigestV2 gx_intent = Ok gx_candidate.
Proof. gx_computed. Qed.
Definition gx_subject : Digest := Eval vm_compute in digest_of (ReviewSubjectDigestV2 gx_intent).
Lemma gx_subject_eq : ReviewSubjectDigestV2 gx_intent = Ok gx_subject.
Proof. gx_computed. Qed.
Definition gx_digest : Digest := Eval vm_compute in digest_of (EffectIntentV2_DigestV2 gx_intent).
Lemma gx_digest_eq : EffectIntentV2_DigestV2 gx_intent = Ok gx_digest.
Proof. gx_computed. Qed.

(** A conditional review whose condition is satisfied. *)
Definition gx_review : DispatchReviewFactV2 :=
  {| rf_Ref := "review-1"; rf_Digest := ex_digest; rf_Revision := 1; rf_IntentID := "effect-1"; rf_IntentRevision := 1;
     rf_SubjectDigest := gx_subject; rf_CandidateDigest := ex_digest; rf_VerdictDigest := ex_digest2;
     rf_VerdictRevision := 1; rf_PayloadDigest := ex_digest; rf_PayloadRevision := 1; rf_ScopeDigest := ex_digest;
     rf_PolicyDigest := ex_digest; rf_PolicyDecisionRef := "decision-2"; rf_ActorAuthorityDigest := ex_digest;
     rf_ReviewerAuthorityDigest := ex_digest; rf_ConditionsDigest := ex_digest2; rf_SatisfactionRef := "satisfied-1";
     rf_SatisfactionDigest := ex_digest2; rf_SatisfactionRevision := 1; rf_EvidenceDigest := ex_digest;
     rf_Decision := ReviewDecisionConditional; rf_ExpiresUnixNano := 9700 |}.

(** ** The permit *)

Definition gx_gateway : GovernanceDispatchGatewayV2 :=
  {| gw_Effects := true; gw_Bindings := true; gw_Budgets := true; gw_IdentityLeases := true; gw_Authority := true;
     gw_Policies := true; gw_CurrentScopes := true; gw_Review := true; gw_Credentials := true; gw_Clock := true |}.
Definition gx_request : IssueGovernedDispatchRequestV2 :=
  {| igd_EffectID := "effect-1"; igd_ExpectedEffectRevision := 2; igd_PermitID := "permit-1";
     igd_AttemptID := "attempt-1"; igd_PermitTTL := 6000%Z |}.
Definition gx_begin : BeginGovernedDispatchRequestV2 :=
  {| bgd_EffectID := "effect-1"; bgd_ExpectedEffectRevision := 3; bgd_PermitID := "permit-1"; bgd_ExpectedPermitRevision := 1 |}.

Definition gx_basis (now : Z) (effect : EffectFactV2) : Basis :=
  {| ba_now := UnixTime now; ba_effect := effect; ba_lease := gx_lease; ba_set := gx_set; ba_authority := gx_authority;
     ba_policy := gx_policy; ba_review := gx_review; ba_budget := gx_budget; ba_credentials := [gx_credential];
     ba_scope := gx_scope; ba_capabilityDigest := gx_capability; ba_credentialDigest := gx_grants |}.

Definition gx_accepted : EffectFactV2 := accepted gx_intent gx_digest.
Definition gx_issue_basis : Basis := gx_basis 3000 gx_accepted.

(** The permit expires with the credential lease, the earliest of its facts. *)
Definition gx_fence : ExecutionFence := governed_fence gx_issue_basis (UnixTime 8500).
Definition gx_fence_digest : Digest := Eval vm_compute in digest_of (DigestExecutionFenceV2 gx_fence).
Lemma gx_fence_digest_eq : DigestExecutionFenceV2 gx_fence = Ok gx_fence_digest.
Proof. gx_computed. Qed.

Definition gx_permit : DispatchPermitV2 :=
  let i := gx_intent in
  {| p_ContractVersion := EffectContractVersionV2; p_ID := "permit-1"; p_Revision := 1; p_AttemptID := "attempt-1";
     p_IntentID := i_ID i; p_IntentRevision := i_Revision i; p_IntentDigest := gx_digest;
     p_PayloadSchema := ex_schema; p_PayloadDigest := ex_digest; p_PayloadRevision := 1; p_Scope := i_Scope i;
     p_RunID := i_RunID i; p_ConflictDomain := i_ConflictDomain i; p_Provider := i_Provider i;
     p_EnforcementPoint := i_Provider i; p_Authority := i_Authority i; p_Review := i_Review i;
     p_ReviewVerdictDigest := ex_digest2; p_ReviewVerdictRevision := 1; p_ReviewSatisfactionRef := "satisfied-1";
     p_ReviewSatisfactionDigest := ex_digest2; p_ReviewSatisfactionRevision := 1; p_Budget := i_Budget i;
     p_Policy := i_Policy i; p_CurrentScope := i_CurrentScope i; p_CapabilityGrantDigest := gx_capability;
     p_CredentialGrantDigest := gx_grants; p_FenceDigest := gx_fence_digest; p_Idempotency := i_Idempotency i;
     p_IssuedUnixNano := 3000; p_ExpiresUnixNano := 8500 |}.
Definition gx_permit_digest : Digest := Eval vm_compute in digest_of (DispatchPermitV2_DigestV2 gx_permit).
Lemma gx_permit_digest_eq : DispatchPermitV2_DigestV2 gx_permit = Ok gx_permit_digest.
Proof. gx_computed. Qed.

Definition gx_issue : IssueDispatchPermitRequestV2 :=
  {| iss_EffectID := "effect-1"; iss_ExpectedEffectRevision := 2; iss_Permit := gx_permit; iss_Fence := gx_fence |}.

Lemma gx_governed_issue : governed_issue gx_request gx_issue_basis = Ok gx_issue.
Proof.
  unfold governed_issue. assert (permit_expiry gx_issue_basis (igd_PermitTTL gx_request) = UnixTime 8500) as -> by reflexivity.
  fold gx_fence. rewrite gx_fence_digest_eq. unfold governed_permit. cbn -[gx_intent gx_issue].
  by rewrite gx_digest_eq.
Qed.

(** ** The checks *)

Lemma gx_passes now effect ttl :
  f_Intent effect = gx_intent -> (now = 3000 /\ ttl = 6000 \/ now = 4000 /\ ttl = 4500)%Z -> passes (gx_basis now effect) ttl.
Proof.
  intros Ei Ht.
  split; cbn [gx_basis ba_now ba_effect ba_lease ba_set ba_authority ba_policy ba_review ba_budget ba_credentials
              ba_scope ba_capabilityDigest ba_credentialDigest]; rewrite ?Ei; clear Ei;
    destruct Ht as [[-> ->] | [-> ->]].
  1-8: vm_compute; reflexivity.
  1-2: eexists; split; vm_compute; reflexivity.
  1-2: vm_compute; reflexivity.
  1-2: unfold DispatchPolicyFactV2_ValidateCurrent; rewrite gx_policy_digest_eq, gx_candidate_eq; vm_compute; reflexivity.
  1-2: unfold DispatchReviewFactV2_ValidateCurrent; rewrite gx_subject_eq; vm_compute; reflexivity.
  1-2: unfold BudgetBindingFactV2_ValidateCurrent, BudgetBindingFactV2_BindingRefV2; rewrite gx_budget_digest_eq; vm_compute; reflexivity.
  1-2: repeat constructor.
  1-2: exact gx_capability_eq.
  1-2: exact gx_grants_eq.
  1-2: unfold ExecutionScopeCurrentFactV2_ValidateCurrent, ExecutionScopeCurrentFactV2_BindingRefV2; rewrite gx_scope_digest_eq; vm_compute; reflexivity.
Qed.

(** ** The history *)

Definition gx_authorized : EffectFactV2 :=
  ex_fact gx_intent gx_digest EffectDispatchIntent 3 ("permit-1", gx_permit_digest) None "" 3000.
Definition gx_permit_fact (state : DispatchPermitStateV2) (revision : N) (begun : Z) : DispatchPermitFactV2 :=
  {| pf_Permit := gx_permit; pf_PermitDigest := gx_permit_digest; pf_Fence := gx_fence; pf_State := state;
     pf_Revision := revision; pf_EffectFactRevision := 3; pf_BegunUnixNano := begun; pf_Enforcement := None |}.
Definition gx_issued : DispatchPermitFactV2 := gx_permit_fact DispatchPermitIssued 1 0.
Definition gx_begun : DispatchPermitFactV2 := gx_permit_fact DispatchPermitBegun 2 4000.

Definition gs_1 : EffectStoreV2 := created (proposed gx_intent gx_digest) NewEffectStoreV2.
Definition gs_2 : EffectStoreV2 := swapped (proposed gx_intent gx_digest) gx_accepted gs_1.
Definition gs_3 : EffectStoreV2 := fst (CreateBudgetBinding CtxLive gx_budget gs_2).
Definition gs_4 : EffectStoreV2 :=
  set_es_permits (<["permit-1" := gx_issued]> (es_permits gs_3))
    (set_es_effects (<["effect-1" := gx_authorized]> (es_effects gs_3)) gs_3).
Definition gs_5 : EffectStoreV2 := set_es_permits (<["permit-1" := gx_begun]> (es_permits gs_4)) gs_4.

Lemma gs_3_reachable : eff_reachable gs_3.
Proof.
  eapply rtc_l; [apply (create_step gx_intent gx_digest); [exact gx_digest_eq | reflexivity | reflexivity] |].
  eapply rtc_l; [| apply rtc_once, step_create_budget].
  apply (cas_step (proposed gx_intent gx_digest) gx_accepted (UnixTime 2000)); [reflexivity | | | reflexivity].
  - apply accept_moves, gx_digest_eq.
  - intros _ id Hid. vm_compute in Hid. discriminate Hid.
Qed.

Lemma gx_accepted_valid : EffectFactV2_Validate gx_accepted = Ok tt.
Proof. apply accepted_valid, gx_digest_eq. Qed.
Lemma gx_authorized_valid : EffectFactV2_Validate gx_authorized = Ok tt.
Proof. unfold gx_authorized. fact_valid gx_digest_eq. Qed.
Lemma gx_permit_valid : DispatchPermitV2_Validate gx_permit = Ok tt.
Proof. vm_compute. reflexivity. Qed.
Lemma gx_fence_valid : ExecutionFence_Validate gx_fence = Ok tt.
Proof. vm_compute. reflexivity. Qed.

Ltac gx_permit_fact_valid :=
  unfold DispatchPermitFactV2_Validate, fence_unbound; cbn [pf_Permit pf_Fence gx_permit_fact];
  rewrite gx_permit_valid, gx_permit_digest_eq, gx_fence_digest_eq; vm_compute; reflexivity.
Lemma gx_issued_valid : DispatchPermitFactV2_Validate gx_issued = Ok tt.
Proof. unfold gx_issued. gx_permit_fact_valid. Qed.
Lemma gx_begun_valid : DispatchPermitFactV2_Validate gx_begun = Ok tt.
Proof. unfold gx_begun. gx_permit_fact_valid. Qed.

Lemma gx_issue_checks : issue_checks gx_accepted gx_issue (UnixTime 3000) = Ok (gx_authorized, gx_issued).
Proof.
  unfold issue_checks. cbn [iss_Permit iss_Fence gx_issue f_Intent gx_accepted accepted ex_fact].
  rewrite gx_digest_eq, gx_permit_digest_eq, gx_fence_digest_eq. cbn [digest_or_zero].
  unfold ValidateEffectFactTransitionV2.
  change (authorize_effect _ _ _ _) with gx_authorized. rewrite gx_accepted_valid, gx_authorized_valid.
  change {| pf_Permit := _ |} with gx_issued. rewrite gx_issued_valid. vm_compute. reflexivity.
Qed.

Lemma gx_issue_run : IssueDispatchPermit CtxLive (UnixTime 3000) gx_issue gs_3 = (gs_4, Ok (gx_authorized, gx_issued)).
Proof.
  rewrite (issue_run gx_issue gx_accepted gx_authorized gx_issued);
    [reflexivity .. | exact gx_permit_valid | exact gx_fence_valid | reflexivity | exact gx_issue_checks | reflexivity].
Qed.

(** The store answers the reads of a run. *)
Ltac gx_answered := repeat (constructor; [exists CtxLive, (UnixTime 3000); eexists; split; [apply rtc_refl | reflexivity] |]); constructor.

Lemma gx_issues :
  exec effect_answers (Issue gx_gateway gx_request) gs_3
    (issue_reads gx_request gx_issue_basis ++ [Event (g_IssueDispatchPermit gx_issue) (Ok (gx_authorized, gx_issued))])
    (Ok (gx_authorized, gx_issued)) gs_4.
Proof.
  apply Issue_complete; [reflexivity .. | by apply gx_passes; [| left] | exact gx_governed_issue | gx_answered |].
  exists CtxLive, (UnixTime 3000), gs_3. split; [apply rtc_refl | exact gx_issue_run].
Qed.

Definition gx_begin_basis : Basis := gx_basis 4000 gx_authorized.

Lemma gx_begin_moves : ValidateDispatchPermitTransitionV2 gx_issued gx_begun (UnixTime 4000) = Ok tt.
Proof. permit_moves gx_issued_valid gx_begun_valid. Qed.

Lemma gx_begin_run :
  BeginDispatch CtxLive (UnixTime 4000) (begin_request gx_issued gx_begin_basis) gs_4 = (gs_5, Ok gx_begun).
Proof. rewrite (begin_run gx_authorized gx_issued gx_begun); [reflexivity .. | exact gx_begin_moves | reflexivity]. Qed.

Lemma gx_execution_point :
  ValidateDispatchAtExecutionPointV2 gx_permit gx_intent gx_fence (current_facts gx_begin_basis gx_permit) (UnixTime 4000) = Ok tt.
Proof.
  unfold ValidateDispatchAtExecutionPointV2, fence_drifted.
  rewrite gx_permit_valid, (Digest_ok_Validate _ _ gx_digest_eq), gx_digest_eq, gx_fence_digest_eq.
  vm_compute. reflexivity.
Qed.

Lemma gx_begins :
  exec effect_answers (Begin gx_gateway gx_begin) gs_4
    (begin_reads gx_begin gx_issued gx_begin_basis
     ++ [Event (g_BeginDispatch (begin_request gx_issued gx_begin_basis)) (Ok gx_begun)]) (Ok gx_begun) gs_5.
Proof.
  apply Begin_complete; [reflexivity .. | by apply gx_passes; [| right] | reflexivity | reflexivity | exact gx_execution_point | gx_answered |].
  exists CtxLive, (UnixTime 4000), gs_4. split; [apply rtc_refl | exact gx_begin_run].
Qed.

Lemma gs_4_reachable : eff_reachable gs_4.
Proof. unfold eff_reachable. etrans; [exact gs_3_reachable |]. exact (cut_reaches _ _ _ _ (exec_cut _ _ _ _ _ _ gx_issues)). Qed.

Lemma Issue_governed_witness :
  cut effect_answers (Issue gx_gateway gx_request) gs_3
    (issue_reads gx_request gx_issue_basis ++ [Event (g_IssueDispatchPermit gx_issue) (Ok (gx_authorized, gx_issued))]) gs_4
  /\ exists b q, g_IssueDispatchPermit gx_issue = g_IssueDispatchPermit q
       /\ issue_reads gx_request gx_issue_basis = issue_reads gx_request b
       /\ governs b 6000%Z /\ permit_binds gx_request b q.
Proof.
  pose proof (exec_cut _ _ _ _ _ _ gx_issues) as Hc. split; [exact Hc |].
  exact (proj2 (proj1 (Issue_governed effect_answers gx_gateway gx_request gs_3 gs_4 _ Hc) _ _ _ eq_refl eq_refl)).
Defined.

Lemma Begin_governed_witness :
  cut effect_answers (Begin gx_gateway gx_begin) gs_4
    (begin_reads gx_begin gx_issued gx_begin_basis
     ++ [Event (g_BeginDispatch (begin_request gx_issued gx_begin_basis)) (Ok gx_begun)]) gs_5
  /\ exists permit b, g_BeginDispatch (begin_request gx_issued gx_begin_basis) = g_BeginDispatch (begin_request permit b)
       /\ begin_reads gx_begin gx_issued gx_begin_basis = begin_reads gx_begin permit b
       /\ governs b (remaining permit b) /\ begin_binds gx_begin permit b.
Proof.
  pose proof (exec_cut _ _ _ _ _ _ gx_begins) as Hc. split; [exact Hc |].
  exact (proj2 (proj1 (Begin_governed effect_answers gx_gateway gx_begin gs_4 gs_5 _ Hc) _ _ _ eq_refl eq_refl)).
Defined.

Lemma governed_begin_once_witness :
  es_permits gs_5 !! "permit-1" = Some gx_begun
  /\ (exists q, es_permits gs_5 !! "permit-1" = Some q /\ pf_State q = DispatchPermitBegun /\ permit_extends gx_begun q)
  /\ forall u' tr', cut effect_answers (Begin gx_gateway gx_begin) gs_5 tr' u' -> only_reads tr'.
Proof.
  assert (es_permits gs_5 !! bgd_PermitID gx_begin = Some gx_begun) as Hp by reflexivity. split; [exact Hp |].
  destruct (governed_begin_once gx_gateway gx_begin gs_4 gs_5 _ _ gs_4_reachable gx_begins) as [H1 H2].
  split; [exact (H1 gx_begun eq_refl) |]. intros u' tr' Hc.
  exact (H2 gx_begun Hp ltac:(discriminate) gx_gateway gx_begin gs_5 u' tr' (rtc_refl _ _) eq_refl Hc).
Defined.

(** ** Recovery *)

Lemma gx_reject :
  PlanEffectRecoveryV2 gx_authorized (Some gx_issued) (UnixTime 9000)
  = Ok {| rd_Action := RecoveryRejectPreDispatch; rd_AutomaticSafe := true |}.
Proof. unfold PlanEffectRecoveryV2. rewrite gx_authorized_valid, gx_issued_valid. vm_compute. reflexivity. Qed.

(** A late run of Begin reads the permit and stops. *)
Definition gx_late_reads : list gw_event :=
  [Event g_Clock (UnixTime 9000); Event (g_InspectEffect "effect-1") (Ok gx_authorized);
   Event (g_InspectDispatchPermit "permit-1") (Ok gx_issued)].

Lemma gx_late :
  exec effect_answers (Begin gx_gateway gx_begin) gs_4 gx_late_reads (fail ErrorConflict ReasonDispatchPermitInvalid) gs_4.
Proof.
  assert (answered effect_answers gs_4 gx_late_reads) as Ha by gx_answered.
  unfold answered, gx_late_reads in Ha. rewrite !Forall_cons in Ha. destruct Ha as (A1 & A2 & A3 & _).
  unfold Begin, gx_late_reads. apply (exec_lift _ tt); [reflexivity |].
  apply (exec_then _ (UnixTime 9000) _ _ _ gs_4 [_]); [by apply exec_clock |]. apply (exec_lift _ tt); [reflexivity |].
  apply (exec_then _ gx_authorized _ _ _ gs_4 [_]); [by apply exec_call |].
  apply (exec_then _ gx_issued _ _ _ gs_4 [_]); [by apply exec_call |].
  assert (begin_check gx_begin gx_authorized gx_issued (UnixTime 9000) = fail ErrorConflict ReasonDispatchPermitInvalid) as -> by reflexivity.
  by repeat split.
Qed.

Definition clock_of (e : gw_event) : Time :=
  match ev_call e as c return GatewayReply c -> Time with g_Clock => fun t => t | _ => fun _ => zeroTime end (ev_reply e).

Lemma PlanEffectRecoveryV2_reject_final_witness :
  es_effects gs_4 !! "effect-1" = Some gx_authorized /\ es_permits gs_4 !! "permit-1" = Some gx_issued
  /\ (only_reads gx_late_reads
      \/ exists i, EffectIntentV2_DigestV2 i = EffectIntentV2_DigestV2 gx_intent
           /\ i_ExpiresUnixNano i <> i_ExpiresUnixNano gx_intent).
Proof.
  split; [reflexivity | split; [reflexivity |]].
  refine (PlanEffectRecoveryV2_reject_final gx_gateway gx_begin gs_4 gs_4 gs_4 gx_late_reads gx_authorized gx_issued
            (UnixTime 9000) true gs_4_reachable eq_refl eq_refl gx_reject (rtc_refl _ _) (exec_cut _ _ _ _ _ _ gx_late) _).
  intros t. unfold gx_late_reads. rewrite !elem_of_cons, elem_of_nil. intros [E | [E | [E | []]]]; [| discriminate E ..].
  apply (f_equal clock_of) in E. cbn in E. subst t. done.
Defined.

(** A revoked permit of another effect. *)
Definition gx_foreign_fence : ExecutionFence :=
  {| fence_BoundaryScope := FenceBoundaryInstance; fence_Scope := ex_bound_scope;
     fence_CapabilityGrantDigest := ex_digest; fence_EffectIntentID := "effect-2";
     fence_EffectIntentRevision := 1; fence_CanonicalPayloadDigest := ex_digest; fence_ExpiresAt := UnixTime 8500 |}.
Definition gx_foreign_fence_digest : Digest := Eval vm_compute in digest_of (DigestExecutionFenceV2 gx_foreign_fence).
Lemma gx_foreign_fence_eq : DigestExecutionFenceV2 gx_foreign_fence = Ok gx_foreign_fence_digest.
Proof. gx_computed. Qed.
Definition gx_foreign_permit : DispatchPermitV2 :=
  let p := ex_permit_1 in
  {| p_ContractVersion := EffectContractVersionV2; p_ID := "permit-2"; p_Revision := 1; p_AttemptID := "attempt-2";
     p_IntentID := "effect-2"; p_IntentRevision := 1; p_IntentDigest := p_IntentDigest p;
     p_PayloadSchema := ex_schema; p_PayloadDigest := ex_digest; p_PayloadRevision := 1; p_Scope := p_Scope p;
     p_RunID := p_RunID p; p_ConflictDomain := p_ConflictDomain p; p_Provider := p_Provider p;
     p_EnforcementPoint := p_Provider p; p_Authority := p_Authority p; p_Review := p_Review p;
     p_ReviewVerdictDigest := ex_digest; p_ReviewVerdictRevision := 1; p_ReviewSatisfactionRef := "";
     p_ReviewSatisfactionDigest := ""; p_ReviewSatisfactionRevision := 0; p_Budget := p_Budget p;
     p_Policy := p_Policy p; p_CurrentScope := p_CurrentScope p; p_CapabilityGrantDigest := ex_digest;
     p_CredentialGrantDigest := ex_digest; p_FenceDigest := gx_foreign_fence_digest; p_Idempotency := p_Idempotency p;
     p_IssuedUnixNano := 3000; p_ExpiresUnixNano := 9000 |}.
Definition gx_foreign_digest : Digest := Eval vm_compute in digest_of (DispatchPermitV2_DigestV2 gx_foreign_permit).
Lemma gx_foreign_digest_eq : DispatchPermitV2_DigestV2 gx_foreign_permit = Ok gx_foreign_digest.
Proof. gx_computed. Qed.
Definition gx_foreign : DispatchPermitFactV2 :=
  {| pf_Permit := gx_foreign_permit; pf_PermitDigest := gx_foreign_digest; pf_Fence := gx_foreign_fence;
     pf_State := DispatchPermitRevoked; pf_Revision := 2; pf_EffectFactRevision := 3; pf_BegunUnixNano := 0;
     pf_Enforcement := None |}.

(** The planner does not ask whose permit it is given: on the revoked permit of
    another effect it calls the rejection of an effect safe whose own permit has
    begun. *)
Theorem recovery_accepts_foreign_permit :
  exists s effect own permit now,
    eff_reachable s /\ es_effects s !! "effect-1" = Some effect
    /\ es_permits s !! f_DispatchPermitID effect = Some own /\ pf_State own = DispatchPermitBegun
    /\ p_IntentID (pf_Permit permit) <> i_ID (f_Intent effect)
    /\ PlanEffectRecoveryV2 effect (Some permit) now
       = Ok {| rd_Action := RecoveryRejectPreDispatch; rd_AutomaticSafe := true |}.
Proof.
  exists gs_5, gx_authorized, gx_begun, gx_foreign, (UnixTime 5000).
  split; [unfold eff_reachable; etrans; [exact gs_4_reachable | exact (cut_reaches _ _ _ _ (exec_cut _ _ _ _ _ _ gx_begins))] |].
  do 3 (split; [reflexivity |]). split; [discriminate |].
  unfold PlanEffectRecoveryV2. rewrite gx_authorized_valid.
  assert (DispatchPermitFactV2_Validate gx_foreign = Ok tt) as ->; [| vm_compute; reflexivity].
  assert (DispatchPermitV2_Validate gx_foreign_permit = Ok tt) as Hv by (vm_compute; reflexivity).
  unfold DispatchPermitFactV2_Validate, fence_unbound. cbn [pf_Permit pf_Fence gx_foreign].
  rewrite Hv, gx_foreign_digest_eq, gx_foreign_fence_eq. vm_compute. reflexivity.
Qed.
